(* ===== verification/_CoqProject ===== *)
-Q . S2P
Prelude.v
State.v
Ring.v
Riscv.v
Cstring.v
Lock.v
Sched.v
Rendezvous.v
Kalloc.v
Vm.v
Uvm.v
UvmFree.v
UvmCopy.v
UserCopy.v
Pipe.v
Console.v
Text.v
Fmt.v
Bio.v
Log.v
Fs.v
FsSpec.v
FsWrite.v
File.v
Proc.v
ProcSpec.v
Loader.v
Sysfile.v
SysSpec.v
ForkSpec.v
ExitSpec.v
NameSpec.v
Virtio.v
VirtioSpec.v
Trap.v
TrapSpec.v
Mkfs.v
MkfsSpec.v
MkfsImage.v
Rootfs.v
Boot.v
Typed.v
TypedSys.v
User.v
Stdio.v
Malloc.v
MallocSpec.v
Shell.v
ShellSpec.v
Utils.v
UtilsSpec.v
Ucxx.v
