(* ===== verification/Prelude.v ===== *)
(** * os-cpp: a verification development

    os-cpp is a small Unix-like kernel for 64-bit RISC-V in C++ (src/kernel), a
    C library (src/ulibc), a few user programs (src/utils) and the program that
    writes the initial file system (src/mkfs).  This library is a shallow
    embedding of all of them: each C++ or C function is a Rocq function, on a
    record of the kernel's global variables, on the state of a process, or on a
    disk image, and the theorems are about those functions.

    ** The program and the files that model it

    - [Prelude] (this file): machine integers with their wrap-around, byte
      memory, little-endian encodings, list searches, tactics.
    - [State]: the data types of the headers (lock.h, proc.h, bio.h, pipe.h,
      file.h, virtio_disk.h, kernel/fs) and the record [kernel] of the global
      variables.  A pointer into a static table is the index of the element, a
      pointer into allocated pages is its address, a null pointer is [None].
      [M] is the monad kernel functions run in: state, and an outcome that is a
      result, a panic, undefined behaviour, a process that gave up the hart
      ([Blocked]), or exhausted fuel.  The environment argument is a list of
      what other harts, devices and processes do while the running process is
      switched out, one element per switch; without an element left, switching
      out is [Blocked].
    - [Ring]: queues in ring buffers, used by pipes, console and serial port.
    - [Riscv] (arch/riscv.h, vm.h): page-table entries, page rounding,
      interrupt bit.
    - [Cstring] (micro_libcxx/src/cstring.cpp): memset, memmove, memcpy,
      strncpy, strncmp, strlen.
    - [Lock] (lock.cpp): spin locks, interrupt nesting; module [Harts] has the
      bodies of acquire, release and holding as lists of accesses to the lock's
      two fields, shows that run without interruption they are the functions, and
      interleaves the accesses of any number of harts.
    - [Sched] (proc.cpp, lock.cpp): the scheduler, sleep and wakeup, sleep locks.
    - [Rendezvous] (proc.cpp): sleep and wakeup as lists of statements, shown to
      be the functions, and interleaved statement by statement.
    - [Kalloc] (vm.cpp): the page allocator.
    - [Vm], [Uvm], [UvmFree], [UvmCopy] (vm.cpp): page tables, user address
      spaces, their release, their copy for fork.
    - [UserCopy] (vm.cpp, proc.cpp): copies between kernel and user memory.
    - [Pipe] (pipe.cpp), [Console] (uart.cpp, console.cpp).
    - [Text]: numerals, the reference for printed numbers.
    - [Fmt] (fmt.cpp, include/fmt): formatted output of the kernel.
    - [Bio] (bio.cpp): the block cache, over the class [DiskDriver].
    - [Log] (log.cpp): the write-ahead log.
    - [Fs], [FsSpec], [FsWrite], [NameSpec] (fs.cpp): blocks, inodes,
      directories, paths; writing to files inside a transaction; path names.
    - [File] (file.cpp, pipe.cpp): open files, the device switch, pipealloc.
    - [Proc], [ProcSpec], [ForkSpec], [ExitSpec] (proc.cpp): process creation,
      wait, fork, exit.
    - [Loader] (loader.cpp, elf.h): exec.
    - [Sysfile], [SysSpec] (sysfile.cpp, syscall.cpp): the system calls.
    - [Virtio], [VirtioSpec] (virtio_disk.cpp): the disk driver, against the
      class [VirtioSpec.BlockDevice] of devices.
    - [Trap], [TrapSpec] (trap.cpp, plic.cpp): traps.
    - [Boot] (main.cpp, machine-mode part of arch/riscv.h): start-up.
    - [Typed], [TypedSys]: the types of the kernel's data as an invariant, a
      program logic for it, and one lemma per kernel function up to the traps.
    - [Mkfs], [MkfsSpec], [MkfsImage] (mkfs.cpp): the program that writes the
      initial file system, on a list of sectors; the host's files are a
      parameter.
    - [Rootfs]: the kernel on a disk with the image of mkfs.
    - [User] (ulibc: unistd, fnctl, process, stat, string): system calls and
      strings of user programs, in the monad [U]: the memory of the process, the
      static variables of the library and the system outside the process.
    - [Stdio] (ulibc/src/stdio): the standard streams, gets_s, printf.
    - [Malloc], [MallocSpec] (ulibc/src/stdlib/malloc_free.c): the allocator.
    - [Shell], [ShellSpec] (utils/sh.c): the shell.
    - [Utils], [UtilsSpec] (utils/cat.c, ls.c, init.c, ulibc/crt): programs.
    - [Ucxx] (ulibc++): strings and output streams of the C++ library.

    User code enters through [Trap.user_trap], which calls [Sysfile.syscall];
    system calls use [File], [Proc], [Loader] and [Fs]; [Fs] writes through [Log]
    and reads through [Bio], which calls the disk driver; everything that waits
    goes through [Sched.sleep].  User programs meet the kernel in the requests
    [User.sysreq].

    ** What is assumed

    The file system is verified over an abstraction of the disk driver, the class
    [Bio.DiskDriver]: when [disk_rw] returns the transfer is done, nothing else
    has changed and no other process has run.  The repository's driver
    (virtio_disk.cpp, [Virtio.disk_rw]) is asynchronous: it keeps a queue and
    sleeps until the interrupt.  [VirtioSpec.disk_rw_transfers] shows that it has
    the effect the class asks for on the buffer and the disk, but it is not an
    instance, so the theorems over the class do not cover what other processes do
    while a transfer sleeps; [Bio.polled_disk] is an instance.  The device is code
    outside the repository and a parameter: [VirtioSpec.BlockDevice] asks that
    a notified device serves a well-formed request chain as the virtio standard
    says, and [VirtioSpec.virtio_device] is an instance.  The class
    [Proc.Layout] holds what linker and compiler decide: symbol
    addresses, addresses of string literals and stack objects, the size of
    struct process; [SysSpec.layout0] is an instance.  [Typed.SafeDriver] asks a
    driver to keep the types of the kernel's data; [Typed.safe_polled_disk] and
    [TypedSys.safe_virtio] show it of the two drivers.  User programs are run
    against the class [User.Kernel], the answers to system calls; what a theorem
    needs of them is a class of its own with an instance at the end of the file:
    [MallocSpec.Brk] (sbrk extends the heap or fails), [UtilsSpec.Streams] (read
    on a readable descriptor takes bytes from an input, write on a writable one
    appends to an output, open starts a file while descriptors are left).
    [User.Ulayout] holds the addresses of static objects.

    ** What the theorems show

    - Crash safety: a crash between any two disk writes of a commit leaves all
      or nothing after recovery, and recovery can itself be interrupted (Log).
    - Types: traps, system calls and the start of a process keep every array at
      its length and every table pointer inside its table, so they index no
      table out of range; of the undefined behaviours the model distinguishes
      only those of [Typed.unchecked] are reached, the two overruns of a
      directory entry's name among them (TypedSys).
    - Memory: the free list refines a list of pages, page tables map what they
      are asked to map and nothing else, address spaces own their pages, and
      creating, growing and releasing one loses none (Kalloc, Vm, Uvm, UvmFree);
      the copy for fork has the parent's contents in pages of its own (UvmCopy),
      and fork makes a child that returns to user code with 0 in a0 (ForkSpec).
    - User copies reach exactly the pages the user may access (UserCopy); for
      addresses above 4 GiB they do not, which is a theorem too.
    - Synchronisation: mutual exclusion of spin locks in all interleavings
      (Lock), no lost wakeup in any interleaving (Rendezvous), interrupt nesting,
      the scheduler (Lock, Sched); exit with the references it gives up
      (ExitSpec), wait (ProcSpec).
    - Abstract data: pipes are queues, the console is a line discipline, the
      cache has one buffer per block and shows the disk (Pipe, Console, Bio).
    - File system: inodes round trip through their encoding, the inode table has
      one entry per inode, files and directories are read as the blocks say,
      paths are split into elements (FsSpec); what is written to a file is read
      back, and is on the disk after the commit (FsWrite); path names lead to
      the inode the tree on the disk says, with one reference to it (NameSpec).
    - The driver transfers blocks with any device that keeps to the virtio
      standard and completes all requests the device finished (VirtioSpec).
    - System calls and traps: dispatch, descriptors, the way from the ecall to
      user code and back, timer ticks (SysSpec, TrapSpec).
    - The image that mkfs writes is the encoding of the given files: super block,
      inodes, directories, contents, bitmap (MkfsImage); on a disk with the
      image the kernel finds the files and reads their bytes (Rootfs).
    - User programs: malloc and free keep a heap of disjoint blocks, the shell
      runs the words of a line, cat copies files, gets_s stays in its buffer,
      printed numbers read back (MallocSpec, ShellSpec, UtilsSpec, Fmt).
    - Start-up: the registers with which main is entered, and how the other
      harts join (Boot).
    - Several theorems state behaviour the code does not intend, for example
      [FsSpec.bmap_ranges] and [VirtioSpec.descriptor_waiter_starves].

    ** Fuel and bounds

    Loops that are not structural take fuel, computed by the caller from the
    bound the code has: the number of pages of a range, blocks of a file or
    entries of a directory, [path_fuel] = 130 for a path of at most 128 bytes,
    34 for the 32 arguments of exec, the depth 3 of a page table for free_walk,
    and one more than the length of the environment for loops that sleep.  User
    programs take the fuel of loops over strings and files from the class
    [User.Fuel]; the theorems say how much is enough, for example more than the
    length of every file for cat, or twice the number of free blocks for malloc.
    The heap of a process is below 2^34, so that addresses do not wrap.  A
    theorem about such a loop states the result itself, so the fuel suffices
    whenever the hypotheses hold.  The exception is the type invariant
    (Typed, TypedSys): it is a safety property of all runs, some of which do not
    end (a serial port that never gets ready), and says nothing of a run that
    exceeds the bounds.

    ** Not modelled

    The assembly (start.S, swtch.S, trampoline.S, kernelvec.S, initcode.S) is
    represented by what its C++ callers rely on.  A panic is an outcome; its
    message is not printed.
    The templates of ulibc++ for input streams, optional and arrays are used by
    no program and are not modelled.  Between two switches a kernel function runs
    alone: interleavings of harts between two switches are covered by
    [Lock.Harts] and [Rendezvous] only. *)

From stdpp Require Export base list gmap strings countable.
From Stdlib Require Export ZArith Lia.

#[global] Open Scope Z_scope.

(** ** Machine integers

    A [w]-bit unsigned integer of the kernel is a [Z] in [0, 2^w); every
    arithmetic expression of the source that can leave that range is wrapped
    with one of the functions below. *)

Definition u8 (x : Z) : Z := x mod 2 ^ 8.
Definition u16 (x : Z) : Z := x mod 2 ^ 16.
Definition u32 (x : Z) : Z := x mod 2 ^ 32.
Definition u64 (x : Z) : Z := x mod 2 ^ 64.

(** [static_cast<int>] and [static_cast<int16_t>]: two's complement. *)
Definition s32 (x : Z) : Z := if u32 x <? 2 ^ 31 then u32 x else u32 x - 2 ^ 32.
Definition s16 (x : Z) : Z := if u16 x <? 2 ^ 15 then u16 x else u16 x - 2 ^ 16.

(** [~x] for an [uint32_t] operand: the result is again an [uint32_t], so it
    is zero-extended when it meets a 64-bit operand. *)
Definition not32 (x : Z) : Z := u32 (Z.lnot x).
Definition not64 (x : Z) : Z := u64 (Z.lnot x).

Definition in8 (x : Z) : Prop := 0 <= x < 2 ^ 8.
Definition in32 (x : Z) : Prop := 0 <= x < 2 ^ 32.
Definition in64 (x : Z) : Prop := 0 <= x < 2 ^ 64.

(** ** Tactics of the development *)

(** Case analysis on the integer comparisons of the goal. *)
Ltac zcases :=
  repeat match goal with
  | |- context [?a <? ?b] => destruct (Z.ltb_spec a b)
  | |- context [?a <=? ?b] => destruct (Z.leb_spec a b)
  | |- context [?a =? ?b] => destruct (Z.eqb_spec a b)
  end.

(** Linear arithmetic with division and modulo by constants. *)
Ltac zmod :=
  unfold in8, in32, in64, u8, u16, u32, u64 in *;
  Z.to_euclidean_division_equations; lia.

(** Open every existential and conjunction of the context. *)
Ltac dex :=
  repeat match goal with
  | H : _ /\ _ |- _ => destruct H
  | H : exists x, _ |- _ => let y := fresh x in destruct H as [y H]
  end.

Create HintDb oscpp.

(** ** Wrapping lemmas *)

Lemma u32_small x : 0 <= x < 2 ^ 32 -> u32 x = x.
Proof. apply Z.mod_small. Qed.

Lemma u64_small x : 0 <= x < 2 ^ 64 -> u64 x = x.
Proof. apply Z.mod_small. Qed.

Lemma u32_range x : 0 <= u32 x < 2 ^ 32.
Proof. apply Z.mod_pos_bound; lia. Qed.

Lemma u64_range x : 0 <= u64 x < 2 ^ 64.
Proof. apply Z.mod_pos_bound; lia. Qed.

Lemma u8_range x : 0 <= u8 x < 2 ^ 8.
Proof. apply Z.mod_pos_bound; lia. Qed.

Lemma u32_add_l x y : u32 (u32 x + y) = u32 (x + y).
Proof. apply Zplus_mod_idemp_l. Qed.

Lemma u32_add_r x y : u32 (x + u32 y) = u32 (x + y).
Proof. apply Zplus_mod_idemp_r. Qed.

Lemma u32_sub_l x y : u32 (u32 x - y) = u32 (x - y).
Proof. apply Zminus_mod_idemp_l. Qed.

Lemma u32_sub_r x y : u32 (x - u32 y) = u32 (x - y).
Proof. apply Zminus_mod_idemp_r. Qed.

Lemma u64_add_l x y : u64 (u64 x + y) = u64 (x + y).
Proof. apply Zplus_mod_idemp_l. Qed.

(** A power-of-two ring index is insensitive to 32-bit wrap-around. *)
Lemma u32_mod_pow2 x k : 0 <= k <= 32 -> u32 x mod 2 ^ k = x mod 2 ^ k.
Proof.
  intros Hk. unfold u32. apply Z.mod_mod_divide.
  exists (2 ^ (32 - k)). rewrite <- Z.pow_add_r by lia. f_equal; lia.
Qed.

Lemma s32_small x : 0 <= x < 2 ^ 31 -> s32 x = x.
Proof. intros H. unfold s32. rewrite u32_small by lia. zcases; lia. Qed.

Lemma s32_range x : - 2 ^ 31 <= s32 x < 2 ^ 31.
Proof. unfold s32. pose proof (u32_range x). zcases; lia. Qed.

(** ** Masks *)

Lemma land_ones_mod x n : 0 <= n -> Z.land x (2 ^ n - 1) = x mod 2 ^ n.
Proof. intros. rewrite <- Z.land_ones by lia. f_equal. rewrite Z.ones_equiv. lia. Qed.

Lemma land_pow2_eq0 x k :
  0 <= k -> (Z.land x (2 ^ k) =? 0) = negb (Z.testbit x k).
Proof.
  intros Hk. destruct (Z.testbit x k) eqn:E; simpl.
  - apply Z.eqb_neq. intros H0. apply (f_equal (fun z => Z.testbit z k)) in H0.
    rewrite Z.land_spec, E, Z.pow2_bits_true, Z.bits_0 in H0 by lia. done.
  - apply Z.eqb_eq. apply Z.bits_inj'. intros i Hi.
    rewrite Z.land_spec, Z.bits_0, Z.pow2_bits_eqb by lia.
    destruct (Z.eqb_spec k i); subst; [by rewrite E |]. apply andb_false_r.
Qed.

(** Or of a multiple of [2^n] and a value below [2^n] is their sum. *)
Lemma lor_disjoint_add a b n :
  0 <= n -> 0 <= b < 2 ^ n -> Z.lor (a * 2 ^ n) b = a * 2 ^ n + b.
Proof.
  intros Hn Hb. symmetry. apply Z.add_nocarry_lor.
  apply Z.bits_inj'. intros i Hi. rewrite Z.land_spec, Z.bits_0.
  destruct (Z.lt_ge_cases i n).
  - by rewrite Z.mul_pow2_bits_low by lia.
  - rewrite <- (Z.mod_small b (2 ^ n)) by lia.
    rewrite Z.mod_pow2_bits_high by lia. apply andb_false_r.
Qed.

(** ** Little-endian byte sequences *)

Fixpoint le_bytes (n : nat) (v : Z) : list Z :=
  match n with
  | O => []
  | S n' => v mod 256 :: le_bytes n' (v / 256)
  end.

Fixpoint le_val (l : list Z) : Z :=
  match l with
  | [] => 0
  | b :: l' => b + 256 * le_val l'
  end.

Lemma length_le_bytes n v : length (le_bytes n v) = n.
Proof. revert v; induction n as [|n IH]; intros v; simpl; [done | by rewrite IH]. Qed.

Lemma le_val_bytes n v : le_val (le_bytes n v) = v mod 256 ^ Z.of_nat n.
Proof.
  revert v; induction n as [|n IH]; intros v; simpl le_bytes; simpl le_val.
  - symmetry. apply Z.mod_1_r.
  - rewrite IH, Nat2Z.inj_succ, Z.pow_succ_r by lia.
    rewrite Z.rem_mul_r by lia. lia.
Qed.

Lemma le_bytes_range n v : Forall in8 (le_bytes n v).
Proof.
  revert v; induction n as [|n IH]; intros v; simpl; constructor; [|apply IH].
  unfold in8. apply Z.mod_pos_bound; lia.
Qed.

Lemma le_bytes_val l : Forall in8 l -> le_bytes (length l) (le_val l) = l.
Proof.
  induction 1 as [|b l Hb Hl IH]; simpl; [done|]. unfold in8 in Hb.
  f_equal.
  - rewrite Z.mul_comm, Z.mod_add by lia. apply Z.mod_small; lia.
  - rewrite Z.mul_comm, Z.div_add, Z.div_small by lia. by rewrite Z.add_0_l.
Qed.

Lemma le_val_range l : Forall in8 l -> 0 <= le_val l < 256 ^ Z.of_nat (length l).
Proof.
  induction 1 as [|b l Hb Hl IH]; simpl length; simpl le_val; [lia|].
  rewrite Nat2Z.inj_succ, Z.pow_succ_r by lia. unfold in8 in Hb. lia.
Qed.

(** ** Byte memory

    The kernel's address space, one byte per address. *)

Abbreviation memory := (Z -> Z) (only parsing).

Definition load_bytes (m : memory) (a : Z) (n : nat) : list Z :=
  map (fun i => m (a + Z.of_nat i)) (seq 0 n).

Definition store_bytes (m : memory) (a : Z) (l : list Z) : memory :=
  fun x => if (a <=? x) && (x <? a + Z.of_nat (length l))
           then nth (Z.to_nat (x - a)) l 0 else m x.

Definition fill_bytes (m : memory) (a n v : Z) : memory :=
  fun x => if (a <=? x) && (x <? a + n) then v else m x.

Definition store8 (m : memory) (a v : Z) : memory :=
  fun x => if x =? a then v else m x.

Definition load64 (m : memory) (a : Z) : Z := le_val (load_bytes m a 8).
Definition store64 (m : memory) (a v : Z) : memory := store_bytes m a (le_bytes 8 v).

#[global] Arguments load64 : simpl never.

Lemma length_load_bytes m a n : length (load_bytes m a n) = n.
Proof. unfold load_bytes. by rewrite length_map, length_seq. Qed.

Lemma load_bytes_ext m1 m2 a n :
  (forall x, a <= x < a + Z.of_nat n -> m1 x = m2 x) ->
  load_bytes m1 a n = load_bytes m2 a n.
Proof.
  intros H. apply map_ext_in. intros i Hi. apply in_seq in Hi. apply H. lia.
Qed.

Lemma nth_load_bytes m a n i :
  (i < n)%nat -> nth i (load_bytes m a n) 0 = m (a + Z.of_nat i).
Proof.
  intros H. unfold load_bytes.
  rewrite nth_indep with (d' := m (a + Z.of_nat 0)) by (rewrite length_map, length_seq; lia).
  rewrite (map_nth (fun i => m (a + Z.of_nat i))). by rewrite seq_nth by lia.
Qed.

Lemma store_bytes_in m a l x :
  a <= x < a + Z.of_nat (length l) -> store_bytes m a l x = nth (Z.to_nat (x - a)) l 0.
Proof. intros. unfold store_bytes. zcases; simpl; try lia; done. Qed.

Lemma store_bytes_out m a l x :
  x < a \/ a + Z.of_nat (length l) <= x -> store_bytes m a l x = m x.
Proof. intros. unfold store_bytes. zcases; simpl; try lia; done. Qed.

Lemma fill_bytes_in m a n v x : a <= x < a + n -> fill_bytes m a n v x = v.
Proof. intros. unfold fill_bytes. zcases; simpl; try lia; done. Qed.

Lemma fill_bytes_out m a n v x : x < a \/ a + n <= x -> fill_bytes m a n v x = m x.
Proof. intros. unfold fill_bytes. zcases; simpl; try lia; done. Qed.

Lemma load_store_bytes m a l : load_bytes (store_bytes m a l) a (length l) = l.
Proof.
  apply (nth_ext _ _ 0 0); rewrite length_load_bytes; [done|].
  intros i Hi. rewrite nth_load_bytes by lia. rewrite store_bytes_in by lia.
  f_equal. lia.
Qed.

Lemma load64_store64 m a v : load64 (store64 m a v) a = u64 v.
Proof.
  unfold load64, store64. change 8%nat with (length (le_bytes 8 v)) at 2.
  rewrite load_store_bytes, le_val_bytes. done.
Qed.

Lemma load64_ext m1 m2 a :
  (forall x, a <= x < a + 8 -> m1 x = m2 x) -> load64 m1 a = load64 m2 a.
Proof. intros H. unfold load64. f_equal. apply load_bytes_ext. intros. apply H. lia. Qed.

Lemma load64_store64_ne m a b v :
  b + 8 <= a \/ a + 8 <= b -> load64 (store64 m a v) b = load64 m b.
Proof.
  intros H. apply load64_ext. intros x Hx. apply store_bytes_out.
  rewrite length_le_bytes. lia.
Qed.

Lemma load64_fill0 m a n b :
  a <= b -> b + 8 <= a + n -> load64 (fill_bytes m a n 0) b = 0.
Proof.
  intros. unfold load64, load_bytes. cbn [seq map le_val].
  rewrite !fill_bytes_in by lia. done.
Qed.

(** ** Lists *)

Lemma nth_lookup_Some {A} (l : list A) i d x : l !! i = Some x -> nth i l d = x.
Proof. intros H. by rewrite nth_lookup, H. Qed.

Lemma map_seq_shift {B} (f : nat -> B) a n : map f (seq a n) = map (fun i => f (a + i)%nat) (seq 0 n).
Proof.
  revert f a; induction n as [|n IH]; intros f a; [done|]. cbn [seq map]. f_equal; [f_equal; lia|].
  rewrite (IH f (S a)), (IH _ 1%nat). apply map_ext. intros i. f_equal. lia.
Qed.

(** The first index at or after [n] whose element satisfies [f]: the search
    loop [for (i = n; i < N; ++i) if (f(a[i])) ...]. *)
Fixpoint find_from {A} (f : A -> bool) (n : nat) (l : list A) : option nat :=
  match l with
  | [] => None
  | x :: l' => if f x then Some n else find_from f (S n) l'
  end.

Definition find_idx {A} (f : A -> bool) (l : list A) : option nat := find_from f 0 l.

Lemma find_from_Some {A} (f : A -> bool) n l i :
  find_from f n l = Some i <->
  exists x, (n <= i)%nat /\ l !! (i - n)%nat = Some x /\ f x = true /\
            forall j y, (n <= j < i)%nat -> l !! (j - n)%nat = Some y -> f y = false.
Proof.
  revert n; induction l as [|x l IH]; intros n; simpl.
  { split; [done|]. intros (y & _ & H & _). by rewrite lookup_nil in H. }
  destruct (f x) eqn:Ef.
  - split.
    + intros [= <-]. exists x. rewrite Nat.sub_diag. repeat split; auto. intros j y Hj. lia.
    + intros (y & Hn & Hy & Hf & Hmin). destruct (decide (i = n)) as [->|Hne]; [done|].
      specialize (Hmin n x). rewrite Nat.sub_diag in Hmin. simpl in Hmin.
      rewrite Hmin in Ef by (auto; lia). done.
  - rewrite IH. split; intros (y & Hn & Hy & Hf & Hmin); exists y.
    + replace (i - n)%nat with (S (i - S n)) by lia. repeat split; auto; [lia|].
      intros j z Hj Hz. destruct (decide (j = n)) as [->|Hne].
      * rewrite Nat.sub_diag in Hz. simpl in Hz. congruence.
      * replace (j - n)%nat with (S (j - S n)) in Hz by lia. apply (Hmin j z); [lia|done].
    + assert (i <> n) by (intros ->; rewrite Nat.sub_diag in Hy; simpl in Hy; congruence).
      replace (i - n)%nat with (S (i - S n)) in Hy by lia. repeat split; auto; [lia|].
      intros j z Hj Hz. apply (Hmin j z); [lia|].
      by replace (j - n)%nat with (S (j - S n)) by lia.
Qed.

Lemma find_idx_Some {A} (f : A -> bool) l i :
  find_idx f l = Some i <->
  exists x, l !! i = Some x /\ f x = true /\
            forall j y, (j < i)%nat -> l !! j = Some y -> f y = false.
Proof.
  unfold find_idx. rewrite find_from_Some. rewrite Nat.sub_0_r. split.
  - intros (x & _ & Hx & Hf & Hmin). exists x. repeat split; auto.
    intros j y Hj Hl. apply (Hmin j y); [lia | by rewrite Nat.sub_0_r].
  - intros (x & Hx & Hf & Hmin). exists x. repeat split; auto; [lia|].
    intros j y Hj Hl. apply (Hmin j y); [lia | by rewrite Nat.sub_0_r in Hl].
Qed.

Lemma find_from_None {A} (f : A -> bool) n l :
  find_from f n l = None <-> Forall (fun x => f x = false) l.
Proof.
  revert n; induction l as [|x l IH]; intros n; simpl; [split; auto|].
  setoid_rewrite Forall_cons_iff. destruct (f x) eqn:E; [split; [done|intros []; congruence]|].
  split; [intros H; split; [done|by apply (IH (S n))] | intros [_ H]; by apply IH].
Qed.

Lemma find_idx_None {A} (f : A -> bool) l :
  find_idx f l = None <-> Forall (fun x => f x = false) l.
Proof. apply find_from_None. Qed.

Create Rewrite HintDb oscpp.
#[export] Hint Rewrite @length_le_bytes @length_load_bytes : oscpp.
#[export] Hint Resolve u32_range u64_range u8_range le_bytes_range : oscpp.

Lemma elem_of_rev {A} (x : A) l : x ∈ rev l <-> x ∈ l.
Proof. by rewrite !list_elem_of_In, <- in_rev. Qed.

Lemma nodup_rev {A} (l : list A) : NoDup l -> NoDup (rev l).
Proof. rewrite !NoDup_ListNoDup. apply NoDup_rev. Qed.
