(* ===== verification/State.v ===== *)
(** * The kernel's global state and the monad its functions run in

    The data types of the kernel's headers ([lock.h], [proc.h], [bio.h],
    [pipe.h], [file.h], [kernel/fs]), the record of its global variables and
    the result type of a kernel function.

    A pointer into a statically allocated table ([proc_list], [bcache.buf],
    [itable.inode], [ftable.file], [cpu_list]) is the index of the element, a
    null pointer is [None]; a pointer into allocated pages is its address. *)

From S2P Require Import Prelude.

(** ** Locks and harts ([lock.h], [proc.h]) *)

(** One name per spin lock object of the kernel; the spin lock inside a sleep
    lock is named after the object that owns it. *)
Inductive lockid :=
| L_kmem | L_bcache | L_buf (i : nat) | L_log | L_itable | L_inode (i : nat)
| L_ftable | L_pipe (pi : Z) | L_wait | L_pid | L_proc (i : nat) | L_user
| L_cons | L_uart_tx | L_vdisk | L_ticks | L_pr.

#[export] Instance lockid_eq_dec : EqDecision lockid.
Proof. solve_decision. Defined.

#[export] Instance lockid_countable : Countable lockid.
Proof.
  refine (inj_countable'
    (fun l => match l with
     | L_kmem => inl 0%nat | L_bcache => inl 1%nat | L_log => inl 2%nat
     | L_itable => inl 3%nat | L_ftable => inl 4%nat | L_wait => inl 5%nat
     | L_pid => inl 6%nat | L_user => inl 7%nat | L_cons => inl 8%nat
     | L_uart_tx => inl 9%nat | L_vdisk => inl 10%nat | L_ticks => inl 11%nat
     | L_pr => inl 12%nat
     | L_buf i => inr (inl (inl i)) | L_inode i => inr (inl (inr i))
     | L_proc i => inr (inr (inl i)) | L_pipe z => inr (inr (inr z))
     end)
    (fun c => match c with
     | inl 0%nat => L_kmem | inl 1%nat => L_bcache | inl 2%nat => L_log
     | inl 3%nat => L_itable | inl 4%nat => L_ftable | inl 5%nat => L_wait
     | inl 6%nat => L_pid | inl 7%nat => L_user | inl 8%nat => L_cons
     | inl 9%nat => L_uart_tx | inl 10%nat => L_vdisk | inl 11%nat => L_ticks
     | inl _ => L_pr
     | inr (inl (inl i)) => L_buf i | inr (inl (inr i)) => L_inode i
     | inr (inr (inl i)) => L_proc i | inr (inr (inr z)) => L_pipe z
     end) _); abstract by intros [].
Defined.

(** Wait channels: the addresses the kernel passes to [sleep] and [wakeup]. *)
Inductive chan :=
| CNull | CLog | CPipeR (pi : Z) | CPipeW (pi : Z) | CConsR | CUartTxR
| CProc (i : nat) | CSleepBuf (i : nat) | CSleepInode (i : nat) | CBuf (i : nat)
| CDiskFree | CTicks.

#[export] Instance chan_eq_dec : EqDecision chan.
Proof. solve_decision. Defined.

(** [class spinlock]: the flag and the owning hart's [struct cpu]. *)
Record spinlock := Mk_spinlock {
  locked : bool;
  lk_cpu : option nat
}.

Definition set_locked (v : bool) (r : spinlock) : spinlock :=
  {| locked := v; lk_cpu := lk_cpu r |}.
Definition set_lk_cpu (v : option nat) (r : spinlock) : spinlock :=
  {| locked := locked r; lk_cpu := v |}.

(** [class sleeplock]; its inner spin lock lives in the lock table. *)
Record sleeplock := Mk_sleeplock {
  sl_locked : bool;
  sl_pid : Z
}.

Definition set_sl_locked (v : bool) (r : sleeplock) : sleeplock :=
  {| sl_locked := v; sl_pid := sl_pid r |}.
Definition set_sl_pid (v : Z) (r : sleeplock) : sleeplock :=
  {| sl_locked := sl_locked r; sl_pid := v |}.

(** [struct cpu] (the saved [context] belongs to the assembly in swtch.S). *)
Record cpu := Mk_cpu {
  c_proc : option nat;
  noff : Z;
  intena : Z
}.

Definition set_c_proc (v : option nat) (r : cpu) : cpu :=
  {| c_proc := v; noff := noff r; intena := intena r |}.
Definition set_noff (v : Z) (r : cpu) : cpu :=
  {| c_proc := c_proc r; noff := v; intena := intena r |}.
Definition set_intena (v : Z) (r : cpu) : cpu :=
  {| c_proc := c_proc r; noff := noff r; intena := v |}.

(** The executing hart ([tp], [sstatus]), [proc::cpu_list] and every spin lock. *)
Record hartlocks := Mk_hartlocks {
  hl_tp : nat;
  hl_sstatus : Z;
  hl_cpus : list cpu;
  hl_locks : gmap lockid spinlock
}.

Definition set_hl_tp (v : nat) (r : hartlocks) : hartlocks :=
  {| hl_tp := v; hl_sstatus := hl_sstatus r; hl_cpus := hl_cpus r; hl_locks := hl_locks r
     |}.
Definition set_hl_sstatus (v : Z) (r : hartlocks) : hartlocks :=
  {| hl_tp := hl_tp r; hl_sstatus := v; hl_cpus := hl_cpus r; hl_locks := hl_locks r |}.
Definition set_hl_cpus (v : list cpu) (r : hartlocks) : hartlocks :=
  {| hl_tp := hl_tp r; hl_sstatus := hl_sstatus r; hl_cpus := v; hl_locks := hl_locks r |}.
Definition set_hl_locks (v : gmap lockid spinlock) (r : hartlocks) : hartlocks :=
  {| hl_tp := hl_tp r; hl_sstatus := hl_sstatus r; hl_cpus := hl_cpus r; hl_locks := v |}.

(** ** Processes ([proc.h]) *)

Inductive proc_status := UNUSED | USED | SLEEPING | RUNNABLE | RUNNING | ZOMBIE.

#[export] Instance proc_status_eq_dec : EqDecision proc_status.
Proof. solve_decision. Defined.

Definition NPROC : nat := 64.
Definition NCPU : nat := 8.
Definition NOFILE : nat := 16.

(** [struct context]: [ra], [sp] and the callee-saved [s0]..[s11]. *)
Record context := Mk_context {
  ctx_ra : Z;
  ctx_sp : Z;
  ctx_s : list Z
}.

Definition set_ctx_ra (v : Z) (r : context) : context :=
  {| ctx_ra := v; ctx_sp := ctx_sp r; ctx_s := ctx_s r |}.
Definition set_ctx_sp (v : Z) (r : context) : context :=
  {| ctx_ra := ctx_ra r; ctx_sp := v; ctx_s := ctx_s r |}.
Definition set_ctx_s (v : list Z) (r : context) : context :=
  {| ctx_ra := ctx_ra r; ctx_sp := ctx_sp r; ctx_s := v |}.

(** [struct process]; [p_user] says whether the pointer [user] is set: the only object it
     ever
    points to is the global [root]. *)
Record process := Mk_process {
  p_name : list Z;
  p_status : proc_status;
  p_pid : Z;
  p_chan : chan;
  p_killed : bool;
  p_xstate : Z;
  p_user : bool;
  p_parent : option nat;
  p_kstack : Z;
  p_sz : Z;
  p_pagetable : Z;
  p_trapframe : Z;
  p_context : context;
  p_ofile : list (option nat);
  p_cwd : option nat
}.

Definition set_p_name (v : list Z) (r : process) : process :=
  {| p_name := v; p_status := p_status r; p_pid := p_pid r; p_chan := p_chan r; p_killed :=
     p_killed r; p_xstate := p_xstate r; p_user := p_user r; p_parent := p_parent r;
     p_kstack := p_kstack r; p_sz := p_sz r; p_pagetable := p_pagetable r; p_trapframe :=
     p_trapframe r; p_context := p_context r; p_ofile := p_ofile r; p_cwd := p_cwd r |}.
Definition set_p_status (v : proc_status) (r : process) : process :=
  {| p_name := p_name r; p_status := v; p_pid := p_pid r; p_chan := p_chan r; p_killed :=
     p_killed r; p_xstate := p_xstate r; p_user := p_user r; p_parent := p_parent r;
     p_kstack := p_kstack r; p_sz := p_sz r; p_pagetable := p_pagetable r; p_trapframe :=
     p_trapframe r; p_context := p_context r; p_ofile := p_ofile r; p_cwd := p_cwd r |}.
Definition set_p_pid (v : Z) (r : process) : process :=
  {| p_name := p_name r; p_status := p_status r; p_pid := v; p_chan := p_chan r; p_killed
     := p_killed r; p_xstate := p_xstate r; p_user := p_user r; p_parent := p_parent r;
     p_kstack := p_kstack r; p_sz := p_sz r; p_pagetable := p_pagetable r; p_trapframe :=
     p_trapframe r; p_context := p_context r; p_ofile := p_ofile r; p_cwd := p_cwd r |}.
Definition set_p_chan (v : chan) (r : process) : process :=
  {| p_name := p_name r; p_status := p_status r; p_pid := p_pid r; p_chan := v; p_killed :=
     p_killed r; p_xstate := p_xstate r; p_user := p_user r; p_parent := p_parent r;
     p_kstack := p_kstack r; p_sz := p_sz r; p_pagetable := p_pagetable r; p_trapframe :=
     p_trapframe r; p_context := p_context r; p_ofile := p_ofile r; p_cwd := p_cwd r |}.
Definition set_p_killed (v : bool) (r : process) : process :=
  {| p_name := p_name r; p_status := p_status r; p_pid := p_pid r; p_chan := p_chan r;
     p_killed := v; p_xstate := p_xstate r; p_user := p_user r; p_parent := p_parent r;
     p_kstack := p_kstack r; p_sz := p_sz r; p_pagetable := p_pagetable r; p_trapframe :=
     p_trapframe r; p_context := p_context r; p_ofile := p_ofile r; p_cwd := p_cwd r |}.
Definition set_p_xstate (v : Z) (r : process) : process :=
  {| p_name := p_name r; p_status := p_status r; p_pid := p_pid r; p_chan := p_chan r;
     p_killed := p_killed r; p_xstate := v; p_user := p_user r; p_parent := p_parent r;
     p_kstack := p_kstack r; p_sz := p_sz r; p_pagetable := p_pagetable r; p_trapframe :=
     p_trapframe r; p_context := p_context r; p_ofile := p_ofile r; p_cwd := p_cwd r |}.
Definition set_p_user (v : bool) (r : process) : process :=
  {| p_name := p_name r; p_status := p_status r; p_pid := p_pid r; p_chan := p_chan r;
     p_killed := p_killed r; p_xstate := p_xstate r; p_user := v; p_parent := p_parent r;
     p_kstack := p_kstack r; p_sz := p_sz r; p_pagetable := p_pagetable r; p_trapframe :=
     p_trapframe r; p_context := p_context r; p_ofile := p_ofile r; p_cwd := p_cwd r |}.
Definition set_p_parent (v : option nat) (r : process) : process :=
  {| p_name := p_name r; p_status := p_status r; p_pid := p_pid r; p_chan := p_chan r;
     p_killed := p_killed r; p_xstate := p_xstate r; p_user := p_user r; p_parent := v;
     p_kstack := p_kstack r; p_sz := p_sz r; p_pagetable := p_pagetable r; p_trapframe :=
     p_trapframe r; p_context := p_context r; p_ofile := p_ofile r; p_cwd := p_cwd r |}.
Definition set_p_kstack (v : Z) (r : process) : process :=
  {| p_name := p_name r; p_status := p_status r; p_pid := p_pid r; p_chan := p_chan r;
     p_killed := p_killed r; p_xstate := p_xstate r; p_user := p_user r; p_parent :=
     p_parent r; p_kstack := v; p_sz := p_sz r; p_pagetable := p_pagetable r; p_trapframe
     := p_trapframe r; p_context := p_context r; p_ofile := p_ofile r; p_cwd := p_cwd r |}.
Definition set_p_sz (v : Z) (r : process) : process :=
  {| p_name := p_name r; p_status := p_status r; p_pid := p_pid r; p_chan := p_chan r;
     p_killed := p_killed r; p_xstate := p_xstate r; p_user := p_user r; p_parent :=
     p_parent r; p_kstack := p_kstack r; p_sz := v; p_pagetable := p_pagetable r;
     p_trapframe := p_trapframe r; p_context := p_context r; p_ofile := p_ofile r; p_cwd :=
     p_cwd r |}.
Definition set_p_pagetable (v : Z) (r : process) : process :=
  {| p_name := p_name r; p_status := p_status r; p_pid := p_pid r; p_chan := p_chan r;
     p_killed := p_killed r; p_xstate := p_xstate r; p_user := p_user r; p_parent :=
     p_parent r; p_kstack := p_kstack r; p_sz := p_sz r; p_pagetable := v; p_trapframe :=
     p_trapframe r; p_context := p_context r; p_ofile := p_ofile r; p_cwd := p_cwd r |}.
Definition set_p_trapframe (v : Z) (r : process) : process :=
  {| p_name := p_name r; p_status := p_status r; p_pid := p_pid r; p_chan := p_chan r;
     p_killed := p_killed r; p_xstate := p_xstate r; p_user := p_user r; p_parent :=
     p_parent r; p_kstack := p_kstack r; p_sz := p_sz r; p_pagetable := p_pagetable r;
     p_trapframe := v; p_context := p_context r; p_ofile := p_ofile r; p_cwd := p_cwd r |}.
Definition set_p_context (v : context) (r : process) : process :=
  {| p_name := p_name r; p_status := p_status r; p_pid := p_pid r; p_chan := p_chan r;
     p_killed := p_killed r; p_xstate := p_xstate r; p_user := p_user r; p_parent :=
     p_parent r; p_kstack := p_kstack r; p_sz := p_sz r; p_pagetable := p_pagetable r;
     p_trapframe := p_trapframe r; p_context := v; p_ofile := p_ofile r; p_cwd := p_cwd r
     |}.
Definition set_p_ofile (v : list (option nat)) (r : process) : process :=
  {| p_name := p_name r; p_status := p_status r; p_pid := p_pid r; p_chan := p_chan r;
     p_killed := p_killed r; p_xstate := p_xstate r; p_user := p_user r; p_parent :=
     p_parent r; p_kstack := p_kstack r; p_sz := p_sz r; p_pagetable := p_pagetable r;
     p_trapframe := p_trapframe r; p_context := p_context r; p_ofile := v; p_cwd := p_cwd r
     |}.
Definition set_p_cwd (v : option nat) (r : process) : process :=
  {| p_name := p_name r; p_status := p_status r; p_pid := p_pid r; p_chan := p_chan r;
     p_killed := p_killed r; p_xstate := p_xstate r; p_user := p_user r; p_parent :=
     p_parent r; p_kstack := p_kstack r; p_sz := p_sz r; p_pagetable := p_pagetable r;
     p_trapframe := p_trapframe r; p_context := p_context r; p_ofile := p_ofile r; p_cwd :=
     v |}.

(** ** Pipes ([pipe.h]) *)

Definition PIPESIZE : Z := 512.

(** [struct pipe]; its spin lock is [L_pipe] of its address. *)
Record pipe := Mk_pipe {
  pi_data : list Z;
  nread : Z;
  nwrite : Z;
  readopen : bool;
  writeopen : bool
}.

Definition set_pi_data (v : list Z) (r : pipe) : pipe :=
  {| pi_data := v; nread := nread r; nwrite := nwrite r; readopen := readopen r; writeopen
     := writeopen r |}.
Definition set_nread (v : Z) (r : pipe) : pipe :=
  {| pi_data := pi_data r; nread := v; nwrite := nwrite r; readopen := readopen r;
     writeopen := writeopen r |}.
Definition set_nwrite (v : Z) (r : pipe) : pipe :=
  {| pi_data := pi_data r; nread := nread r; nwrite := v; readopen := readopen r; writeopen
     := writeopen r |}.
Definition set_readopen (v : bool) (r : pipe) : pipe :=
  {| pi_data := pi_data r; nread := nread r; nwrite := nwrite r; readopen := v; writeopen
     := writeopen r |}.
Definition set_writeopen (v : bool) (r : pipe) : pipe :=
  {| pi_data := pi_data r; nread := nread r; nwrite := nwrite r; readopen := readopen r;
     writeopen := v |}.

(** ** Console and UART ([console.cpp], [uart.cpp]) *)

Definition INPUT_BUF_SIZE : Z := 128.
Definition UART_TX_BUF_SIZE : Z := 32.

(** The anonymous [struct] [cons]. *)
Record console := Mk_console {
  cn_buf : list Z;
  cn_r : Z;
  cn_w : Z;
  cn_e : Z
}.

Definition set_cn_buf (v : list Z) (r : console) : console :=
  {| cn_buf := v; cn_r := cn_r r; cn_w := cn_w r; cn_e := cn_e r |}.
Definition set_cn_r (v : Z) (r : console) : console :=
  {| cn_buf := cn_buf r; cn_r := v; cn_w := cn_w r; cn_e := cn_e r |}.
Definition set_cn_w (v : Z) (r : console) : console :=
  {| cn_buf := cn_buf r; cn_r := cn_r r; cn_w := v; cn_e := cn_e r |}.
Definition set_cn_e (v : Z) (r : console) : console :=
  {| cn_buf := cn_buf r; cn_r := cn_r r; cn_w := cn_w r; cn_e := v |}.

(** The transmit ring of [uart.cpp] and the device: [u_lsr] holds the values the next reads
    of the line status register return, [u_rx] the bytes waiting in the receive register,
    [u_out] the bytes written to the transmit register, oldest first, and [u_isr] the number
    of reads of the interrupt status register, each of which acknowledges the interrupt. *)
Record uartst := Mk_uartst {
  tx_buf : list Z;
  tx_w : Z;
  tx_r : Z;
  u_lsr : list Z;
  u_rx : list Z;
  u_out : list Z;
  u_isr : nat
}.

Definition set_tx_buf (v : list Z) (r : uartst) : uartst :=
  {| tx_buf := v; tx_w := tx_w r; tx_r := tx_r r; u_lsr := u_lsr r; u_rx := u_rx r;
     u_out := u_out r; u_isr := u_isr r |}.
Definition set_tx_w (v : Z) (r : uartst) : uartst :=
  {| tx_buf := tx_buf r; tx_w := v; tx_r := tx_r r; u_lsr := u_lsr r; u_rx := u_rx r;
     u_out := u_out r; u_isr := u_isr r |}.
Definition set_tx_r (v : Z) (r : uartst) : uartst :=
  {| tx_buf := tx_buf r; tx_w := tx_w r; tx_r := v; u_lsr := u_lsr r; u_rx := u_rx r;
     u_out := u_out r; u_isr := u_isr r |}.
Definition set_u_lsr (v : list Z) (r : uartst) : uartst :=
  {| tx_buf := tx_buf r; tx_w := tx_w r; tx_r := tx_r r; u_lsr := v; u_rx := u_rx r;
     u_out := u_out r; u_isr := u_isr r |}.
Definition set_u_rx (v : list Z) (r : uartst) : uartst :=
  {| tx_buf := tx_buf r; tx_w := tx_w r; tx_r := tx_r r; u_lsr := u_lsr r; u_rx := v;
     u_out := u_out r; u_isr := u_isr r |}.
Definition set_u_out (v : list Z) (r : uartst) : uartst :=
  {| tx_buf := tx_buf r; tx_w := tx_w r; tx_r := tx_r r; u_lsr := u_lsr r; u_rx :=
     u_rx r; u_out := v; u_isr := u_isr r |}.
Definition set_u_isr (v : nat) (r : uartst) : uartst :=
  {| tx_buf := tx_buf r; tx_w := tx_w r; tx_r := tx_r r; u_lsr := u_lsr r; u_rx :=
     u_rx r; u_out := u_out r; u_isr := v |}.

(** ** Block cache and log ([bio.h], [log.cpp], [kernel/fs]) *)

Definition BSIZE : Z := 1024.
Definition MAXOPBLOCKS : Z := 10.
Definition NBUF : nat := 30.
Definition LOGSIZE : Z := 30.

(** [class buf]; [prev] and [next] are indices into the table, [NBUF] being [bcache.head].
     *)
Record buf := Mk_buf {
  b_valid : bool;
  b_disk : bool;
  b_dev : Z;
  b_blockno : Z;
  b_refcnt : Z;
  b_lock : sleeplock;
  b_prev : nat;
  b_next : nat;
  b_data : list Z
}.

Definition set_b_valid (v : bool) (r : buf) : buf :=
  {| b_valid := v; b_disk := b_disk r; b_dev := b_dev r; b_blockno := b_blockno r; b_refcnt
     := b_refcnt r; b_lock := b_lock r; b_prev := b_prev r; b_next := b_next r; b_data :=
     b_data r |}.
Definition set_b_disk (v : bool) (r : buf) : buf :=
  {| b_valid := b_valid r; b_disk := v; b_dev := b_dev r; b_blockno := b_blockno r;
     b_refcnt := b_refcnt r; b_lock := b_lock r; b_prev := b_prev r; b_next := b_next r;
     b_data := b_data r |}.
Definition set_b_dev (v : Z) (r : buf) : buf :=
  {| b_valid := b_valid r; b_disk := b_disk r; b_dev := v; b_blockno := b_blockno r;
     b_refcnt := b_refcnt r; b_lock := b_lock r; b_prev := b_prev r; b_next := b_next r;
     b_data := b_data r |}.
Definition set_b_blockno (v : Z) (r : buf) : buf :=
  {| b_valid := b_valid r; b_disk := b_disk r; b_dev := b_dev r; b_blockno := v; b_refcnt
     := b_refcnt r; b_lock := b_lock r; b_prev := b_prev r; b_next := b_next r; b_data :=
     b_data r |}.
Definition set_b_refcnt (v : Z) (r : buf) : buf :=
  {| b_valid := b_valid r; b_disk := b_disk r; b_dev := b_dev r; b_blockno := b_blockno r;
     b_refcnt := v; b_lock := b_lock r; b_prev := b_prev r; b_next := b_next r; b_data :=
     b_data r |}.
Definition set_b_lock (v : sleeplock) (r : buf) : buf :=
  {| b_valid := b_valid r; b_disk := b_disk r; b_dev := b_dev r; b_blockno := b_blockno r;
     b_refcnt := b_refcnt r; b_lock := v; b_prev := b_prev r; b_next := b_next r; b_data :=
     b_data r |}.
Definition set_b_prev (v : nat) (r : buf) : buf :=
  {| b_valid := b_valid r; b_disk := b_disk r; b_dev := b_dev r; b_blockno := b_blockno r;
     b_refcnt := b_refcnt r; b_lock := b_lock r; b_prev := v; b_next := b_next r; b_data :=
     b_data r |}.
Definition set_b_next (v : nat) (r : buf) : buf :=
  {| b_valid := b_valid r; b_disk := b_disk r; b_dev := b_dev r; b_blockno := b_blockno r;
     b_refcnt := b_refcnt r; b_lock := b_lock r; b_prev := b_prev r; b_next := v; b_data :=
     b_data r |}.
Definition set_b_data (v : list Z) (r : buf) : buf :=
  {| b_valid := b_valid r; b_disk := b_disk r; b_dev := b_dev r; b_blockno := b_blockno r;
     b_refcnt := b_refcnt r; b_lock := b_lock r; b_prev := b_prev r; b_next := b_next r;
     b_data := v |}.

(** [struct logheader]. *)
Record logheader := Mk_logheader {
  lh_n : Z;
  lh_block : list Z
}.

Definition set_lh_n (v : Z) (r : logheader) : logheader :=
  {| lh_n := v; lh_block := lh_block r |}.
Definition set_lh_block (v : list Z) (r : logheader) : logheader :=
  {| lh_n := lh_n r; lh_block := v |}.

(** [struct log]. *)
Record logst := Mk_logst {
  lg_start : Z;
  lg_size : Z;
  lg_outstanding : Z;
  lg_committing : bool;
  lg_dev : Z;
  lg_lh : logheader
}.

Definition set_lg_start (v : Z) (r : logst) : logst :=
  {| lg_start := v; lg_size := lg_size r; lg_outstanding := lg_outstanding r; lg_committing
     := lg_committing r; lg_dev := lg_dev r; lg_lh := lg_lh r |}.
Definition set_lg_size (v : Z) (r : logst) : logst :=
  {| lg_start := lg_start r; lg_size := v; lg_outstanding := lg_outstanding r;
     lg_committing := lg_committing r; lg_dev := lg_dev r; lg_lh := lg_lh r |}.
Definition set_lg_outstanding (v : Z) (r : logst) : logst :=
  {| lg_start := lg_start r; lg_size := lg_size r; lg_outstanding := v; lg_committing :=
     lg_committing r; lg_dev := lg_dev r; lg_lh := lg_lh r |}.
Definition set_lg_committing (v : bool) (r : logst) : logst :=
  {| lg_start := lg_start r; lg_size := lg_size r; lg_outstanding := lg_outstanding r;
     lg_committing := v; lg_dev := lg_dev r; lg_lh := lg_lh r |}.
Definition set_lg_dev (v : Z) (r : logst) : logst :=
  {| lg_start := lg_start r; lg_size := lg_size r; lg_outstanding := lg_outstanding r;
     lg_committing := lg_committing r; lg_dev := v; lg_lh := lg_lh r |}.
Definition set_lg_lh (v : logheader) (r : logst) : logst :=
  {| lg_start := lg_start r; lg_size := lg_size r; lg_outstanding := lg_outstanding r;
     lg_committing := lg_committing r; lg_dev := lg_dev r; lg_lh := v |}.

(** ** Inodes and open files ([file.h], [kernel/fs]) *)

Definition NINODE : nat := 50.
Definition NFILE : nat := 100.
Definition NDIRECT : Z := 12.
Definition NINDIRECT : Z := 256.
Definition MAXFILE : Z := NDIRECT + NINDIRECT.

(** [struct superblock]. *)
Record superblock := Mk_superblock {
  sb_magic : Z;
  sb_size : Z;
  sb_nblocks : Z;
  sb_ninodes : Z;
  sb_nlog : Z;
  sb_logstart : Z;
  sb_inodestart : Z;
  sb_bmapstart : Z
}.

Definition set_sb_magic (v : Z) (r : superblock) : superblock :=
  {| sb_magic := v; sb_size := sb_size r; sb_nblocks := sb_nblocks r; sb_ninodes :=
     sb_ninodes r; sb_nlog := sb_nlog r; sb_logstart := sb_logstart r; sb_inodestart :=
     sb_inodestart r; sb_bmapstart := sb_bmapstart r |}.
Definition set_sb_size (v : Z) (r : superblock) : superblock :=
  {| sb_magic := sb_magic r; sb_size := v; sb_nblocks := sb_nblocks r; sb_ninodes :=
     sb_ninodes r; sb_nlog := sb_nlog r; sb_logstart := sb_logstart r; sb_inodestart :=
     sb_inodestart r; sb_bmapstart := sb_bmapstart r |}.
Definition set_sb_nblocks (v : Z) (r : superblock) : superblock :=
  {| sb_magic := sb_magic r; sb_size := sb_size r; sb_nblocks := v; sb_ninodes :=
     sb_ninodes r; sb_nlog := sb_nlog r; sb_logstart := sb_logstart r; sb_inodestart :=
     sb_inodestart r; sb_bmapstart := sb_bmapstart r |}.
Definition set_sb_ninodes (v : Z) (r : superblock) : superblock :=
  {| sb_magic := sb_magic r; sb_size := sb_size r; sb_nblocks := sb_nblocks r; sb_ninodes
     := v; sb_nlog := sb_nlog r; sb_logstart := sb_logstart r; sb_inodestart :=
     sb_inodestart r; sb_bmapstart := sb_bmapstart r |}.
Definition set_sb_nlog (v : Z) (r : superblock) : superblock :=
  {| sb_magic := sb_magic r; sb_size := sb_size r; sb_nblocks := sb_nblocks r; sb_ninodes
     := sb_ninodes r; sb_nlog := v; sb_logstart := sb_logstart r; sb_inodestart :=
     sb_inodestart r; sb_bmapstart := sb_bmapstart r |}.
Definition set_sb_logstart (v : Z) (r : superblock) : superblock :=
  {| sb_magic := sb_magic r; sb_size := sb_size r; sb_nblocks := sb_nblocks r; sb_ninodes
     := sb_ninodes r; sb_nlog := sb_nlog r; sb_logstart := v; sb_inodestart :=
     sb_inodestart r; sb_bmapstart := sb_bmapstart r |}.
Definition set_sb_inodestart (v : Z) (r : superblock) : superblock :=
  {| sb_magic := sb_magic r; sb_size := sb_size r; sb_nblocks := sb_nblocks r; sb_ninodes
     := sb_ninodes r; sb_nlog := sb_nlog r; sb_logstart := sb_logstart r; sb_inodestart :=
     v; sb_bmapstart := sb_bmapstart r |}.
Definition set_sb_bmapstart (v : Z) (r : superblock) : superblock :=
  {| sb_magic := sb_magic r; sb_size := sb_size r; sb_nblocks := sb_nblocks r; sb_ninodes
     := sb_ninodes r; sb_nlog := sb_nlog r; sb_logstart := sb_logstart r; sb_inodestart :=
     sb_inodestart r; sb_bmapstart := v |}.

(** [struct inode], an entry of [itable]. *)
Record inode := Mk_inode {
  i_dev : Z;
  i_inum : Z;
  i_ref : Z;
  i_valid : bool;
  i_uid : Z;
  i_gid : Z;
  i_mask_user : Z;
  i_mask_group : Z;
  i_mask_other : Z;
  i_type : Z;
  i_major : Z;
  i_minor : Z;
  i_nlink : Z;
  i_size : Z;
  i_addrs : list Z;
  i_lock : sleeplock
}.

Definition set_i_dev (v : Z) (r : inode) : inode :=
  {| i_dev := v; i_inum := i_inum r; i_ref := i_ref r; i_valid := i_valid r; i_uid := i_uid
     r; i_gid := i_gid r; i_mask_user := i_mask_user r; i_mask_group := i_mask_group r;
     i_mask_other := i_mask_other r; i_type := i_type r; i_major := i_major r; i_minor :=
     i_minor r; i_nlink := i_nlink r; i_size := i_size r; i_addrs := i_addrs r; i_lock :=
     i_lock r |}.
Definition set_i_inum (v : Z) (r : inode) : inode :=
  {| i_dev := i_dev r; i_inum := v; i_ref := i_ref r; i_valid := i_valid r; i_uid := i_uid
     r; i_gid := i_gid r; i_mask_user := i_mask_user r; i_mask_group := i_mask_group r;
     i_mask_other := i_mask_other r; i_type := i_type r; i_major := i_major r; i_minor :=
     i_minor r; i_nlink := i_nlink r; i_size := i_size r; i_addrs := i_addrs r; i_lock :=
     i_lock r |}.
Definition set_i_ref (v : Z) (r : inode) : inode :=
  {| i_dev := i_dev r; i_inum := i_inum r; i_ref := v; i_valid := i_valid r; i_uid := i_uid
     r; i_gid := i_gid r; i_mask_user := i_mask_user r; i_mask_group := i_mask_group r;
     i_mask_other := i_mask_other r; i_type := i_type r; i_major := i_major r; i_minor :=
     i_minor r; i_nlink := i_nlink r; i_size := i_size r; i_addrs := i_addrs r; i_lock :=
     i_lock r |}.
Definition set_i_valid (v : bool) (r : inode) : inode :=
  {| i_dev := i_dev r; i_inum := i_inum r; i_ref := i_ref r; i_valid := v; i_uid := i_uid
     r; i_gid := i_gid r; i_mask_user := i_mask_user r; i_mask_group := i_mask_group r;
     i_mask_other := i_mask_other r; i_type := i_type r; i_major := i_major r; i_minor :=
     i_minor r; i_nlink := i_nlink r; i_size := i_size r; i_addrs := i_addrs r; i_lock :=
     i_lock r |}.
Definition set_i_uid (v : Z) (r : inode) : inode :=
  {| i_dev := i_dev r; i_inum := i_inum r; i_ref := i_ref r; i_valid := i_valid r; i_uid :=
     v; i_gid := i_gid r; i_mask_user := i_mask_user r; i_mask_group := i_mask_group r;
     i_mask_other := i_mask_other r; i_type := i_type r; i_major := i_major r; i_minor :=
     i_minor r; i_nlink := i_nlink r; i_size := i_size r; i_addrs := i_addrs r; i_lock :=
     i_lock r |}.
Definition set_i_gid (v : Z) (r : inode) : inode :=
  {| i_dev := i_dev r; i_inum := i_inum r; i_ref := i_ref r; i_valid := i_valid r; i_uid :=
     i_uid r; i_gid := v; i_mask_user := i_mask_user r; i_mask_group := i_mask_group r;
     i_mask_other := i_mask_other r; i_type := i_type r; i_major := i_major r; i_minor :=
     i_minor r; i_nlink := i_nlink r; i_size := i_size r; i_addrs := i_addrs r; i_lock :=
     i_lock r |}.
Definition set_i_mask_user (v : Z) (r : inode) : inode :=
  {| i_dev := i_dev r; i_inum := i_inum r; i_ref := i_ref r; i_valid := i_valid r; i_uid :=
     i_uid r; i_gid := i_gid r; i_mask_user := v; i_mask_group := i_mask_group r;
     i_mask_other := i_mask_other r; i_type := i_type r; i_major := i_major r; i_minor :=
     i_minor r; i_nlink := i_nlink r; i_size := i_size r; i_addrs := i_addrs r; i_lock :=
     i_lock r |}.
Definition set_i_mask_group (v : Z) (r : inode) : inode :=
  {| i_dev := i_dev r; i_inum := i_inum r; i_ref := i_ref r; i_valid := i_valid r; i_uid :=
     i_uid r; i_gid := i_gid r; i_mask_user := i_mask_user r; i_mask_group := v;
     i_mask_other := i_mask_other r; i_type := i_type r; i_major := i_major r; i_minor :=
     i_minor r; i_nlink := i_nlink r; i_size := i_size r; i_addrs := i_addrs r; i_lock :=
     i_lock r |}.
Definition set_i_mask_other (v : Z) (r : inode) : inode :=
  {| i_dev := i_dev r; i_inum := i_inum r; i_ref := i_ref r; i_valid := i_valid r; i_uid :=
     i_uid r; i_gid := i_gid r; i_mask_user := i_mask_user r; i_mask_group := i_mask_group
     r; i_mask_other := v; i_type := i_type r; i_major := i_major r; i_minor := i_minor r;
     i_nlink := i_nlink r; i_size := i_size r; i_addrs := i_addrs r; i_lock := i_lock r |}.
Definition set_i_type (v : Z) (r : inode) : inode :=
  {| i_dev := i_dev r; i_inum := i_inum r; i_ref := i_ref r; i_valid := i_valid r; i_uid :=
     i_uid r; i_gid := i_gid r; i_mask_user := i_mask_user r; i_mask_group := i_mask_group
     r; i_mask_other := i_mask_other r; i_type := v; i_major := i_major r; i_minor :=
     i_minor r; i_nlink := i_nlink r; i_size := i_size r; i_addrs := i_addrs r; i_lock :=
     i_lock r |}.
Definition set_i_major (v : Z) (r : inode) : inode :=
  {| i_dev := i_dev r; i_inum := i_inum r; i_ref := i_ref r; i_valid := i_valid r; i_uid :=
     i_uid r; i_gid := i_gid r; i_mask_user := i_mask_user r; i_mask_group := i_mask_group
     r; i_mask_other := i_mask_other r; i_type := i_type r; i_major := v; i_minor :=
     i_minor r; i_nlink := i_nlink r; i_size := i_size r; i_addrs := i_addrs r; i_lock :=
     i_lock r |}.
Definition set_i_minor (v : Z) (r : inode) : inode :=
  {| i_dev := i_dev r; i_inum := i_inum r; i_ref := i_ref r; i_valid := i_valid r; i_uid :=
     i_uid r; i_gid := i_gid r; i_mask_user := i_mask_user r; i_mask_group := i_mask_group
     r; i_mask_other := i_mask_other r; i_type := i_type r; i_major := i_major r; i_minor
     := v; i_nlink := i_nlink r; i_size := i_size r; i_addrs := i_addrs r; i_lock := i_lock
     r |}.
Definition set_i_nlink (v : Z) (r : inode) : inode :=
  {| i_dev := i_dev r; i_inum := i_inum r; i_ref := i_ref r; i_valid := i_valid r; i_uid :=
     i_uid r; i_gid := i_gid r; i_mask_user := i_mask_user r; i_mask_group := i_mask_group
     r; i_mask_other := i_mask_other r; i_type := i_type r; i_major := i_major r; i_minor
     := i_minor r; i_nlink := v; i_size := i_size r; i_addrs := i_addrs r; i_lock := i_lock
     r |}.
Definition set_i_size (v : Z) (r : inode) : inode :=
  {| i_dev := i_dev r; i_inum := i_inum r; i_ref := i_ref r; i_valid := i_valid r; i_uid :=
     i_uid r; i_gid := i_gid r; i_mask_user := i_mask_user r; i_mask_group := i_mask_group
     r; i_mask_other := i_mask_other r; i_type := i_type r; i_major := i_major r; i_minor
     := i_minor r; i_nlink := i_nlink r; i_size := v; i_addrs := i_addrs r; i_lock :=
     i_lock r |}.
Definition set_i_addrs (v : list Z) (r : inode) : inode :=
  {| i_dev := i_dev r; i_inum := i_inum r; i_ref := i_ref r; i_valid := i_valid r; i_uid :=
     i_uid r; i_gid := i_gid r; i_mask_user := i_mask_user r; i_mask_group := i_mask_group
     r; i_mask_other := i_mask_other r; i_type := i_type r; i_major := i_major r; i_minor
     := i_minor r; i_nlink := i_nlink r; i_size := i_size r; i_addrs := v; i_lock := i_lock
     r |}.
Definition set_i_lock (v : sleeplock) (r : inode) : inode :=
  {| i_dev := i_dev r; i_inum := i_inum r; i_ref := i_ref r; i_valid := i_valid r; i_uid :=
     i_uid r; i_gid := i_gid r; i_mask_user := i_mask_user r; i_mask_group := i_mask_group
     r; i_mask_other := i_mask_other r; i_type := i_type r; i_major := i_major r; i_minor
     := i_minor r; i_nlink := i_nlink r; i_size := i_size r; i_addrs := i_addrs r; i_lock
     := v |}.

(** The [type] of a [struct file]. *)
Inductive file_type := FD_NONE | FD_PIPE | FD_INODE | FD_DEVICE.

(** [struct file], an entry of [ftable]. *)
Record file := Mk_file {
  f_type : file_type;
  f_ref : Z;
  f_readable : bool;
  f_writable : bool;
  f_pipe : Z;
  f_ip : option nat;
  f_off : Z;
  f_major : Z
}.

Definition set_f_type (v : file_type) (r : file) : file :=
  {| f_type := v; f_ref := f_ref r; f_readable := f_readable r; f_writable := f_writable r;
     f_pipe := f_pipe r; f_ip := f_ip r; f_off := f_off r; f_major := f_major r |}.
Definition set_f_ref (v : Z) (r : file) : file :=
  {| f_type := f_type r; f_ref := v; f_readable := f_readable r; f_writable := f_writable
     r; f_pipe := f_pipe r; f_ip := f_ip r; f_off := f_off r; f_major := f_major r |}.
Definition set_f_readable (v : bool) (r : file) : file :=
  {| f_type := f_type r; f_ref := f_ref r; f_readable := v; f_writable := f_writable r;
     f_pipe := f_pipe r; f_ip := f_ip r; f_off := f_off r; f_major := f_major r |}.
Definition set_f_writable (v : bool) (r : file) : file :=
  {| f_type := f_type r; f_ref := f_ref r; f_readable := f_readable r; f_writable := v;
     f_pipe := f_pipe r; f_ip := f_ip r; f_off := f_off r; f_major := f_major r |}.
Definition set_f_pipe (v : Z) (r : file) : file :=
  {| f_type := f_type r; f_ref := f_ref r; f_readable := f_readable r; f_writable :=
     f_writable r; f_pipe := v; f_ip := f_ip r; f_off := f_off r; f_major := f_major r |}.
Definition set_f_ip (v : option nat) (r : file) : file :=
  {| f_type := f_type r; f_ref := f_ref r; f_readable := f_readable r; f_writable :=
     f_writable r; f_pipe := f_pipe r; f_ip := v; f_off := f_off r; f_major := f_major r |}.
Definition set_f_off (v : Z) (r : file) : file :=
  {| f_type := f_type r; f_ref := f_ref r; f_readable := f_readable r; f_writable :=
     f_writable r; f_pipe := f_pipe r; f_ip := f_ip r; f_off := v; f_major := f_major r |}.
Definition set_f_major (v : Z) (r : file) : file :=
  {| f_type := f_type r; f_ref := f_ref r; f_readable := f_readable r; f_writable :=
     f_writable r; f_pipe := f_pipe r; f_ip := f_ip r; f_off := f_off r; f_major := v |}.

(** [devsw]: the only functions ever stored in the table are the console's. *)
Inductive dev_read_fn := console_read.
Inductive dev_write_fn := console_write.

(** [struct devsw]. *)
Record devsw := Mk_devsw {
  dv_read : option dev_read_fn;
  dv_write : option dev_write_fn
}.

Definition set_dv_read (v : option dev_read_fn) (r : devsw) : devsw :=
  {| dv_read := v; dv_write := dv_write r |}.
Definition set_dv_write (v : option dev_write_fn) (r : devsw) : devsw :=
  {| dv_read := dv_read r; dv_write := v |}.

Definition NDEV : nat := 10.

(** [struct user]; its spin lock is [L_user]. *)
Record user := Mk_user {
  u_uid : Z;
  u_gid : Z
}.

Definition set_u_uid (v : Z) (r : user) : user :=
  {| u_uid := v; u_gid := u_gid r |}.
Definition set_u_gid (v : Z) (r : user) : user :=
  {| u_uid := u_uid r; u_gid := v |}.

(** ** Control registers, device registers and the disk queue *)

(** The supervisor control registers of the executing hart other than [sstatus]. *)
Record csr := Mk_csr {
  cs_stvec : Z;
  cs_sepc : Z;
  cs_scause : Z;
  cs_stval : Z;
  cs_satp : Z;
  cs_stimecmp : Z;
  cs_time : Z
}.

Definition set_cs_stvec (v : Z) (r : csr) : csr :=
  {| cs_stvec := v; cs_sepc := cs_sepc r; cs_scause := cs_scause r; cs_stval := cs_stval r;
     cs_satp := cs_satp r; cs_stimecmp := cs_stimecmp r; cs_time := cs_time r |}.
Definition set_cs_sepc (v : Z) (r : csr) : csr :=
  {| cs_stvec := cs_stvec r; cs_sepc := v; cs_scause := cs_scause r; cs_stval := cs_stval
     r; cs_satp := cs_satp r; cs_stimecmp := cs_stimecmp r; cs_time := cs_time r |}.
Definition set_cs_scause (v : Z) (r : csr) : csr :=
  {| cs_stvec := cs_stvec r; cs_sepc := cs_sepc r; cs_scause := v; cs_stval := cs_stval r;
     cs_satp := cs_satp r; cs_stimecmp := cs_stimecmp r; cs_time := cs_time r |}.
Definition set_cs_stval (v : Z) (r : csr) : csr :=
  {| cs_stvec := cs_stvec r; cs_sepc := cs_sepc r; cs_scause := cs_scause r; cs_stval := v;
     cs_satp := cs_satp r; cs_stimecmp := cs_stimecmp r; cs_time := cs_time r |}.
Definition set_cs_satp (v : Z) (r : csr) : csr :=
  {| cs_stvec := cs_stvec r; cs_sepc := cs_sepc r; cs_scause := cs_scause r; cs_stval :=
     cs_stval r; cs_satp := v; cs_stimecmp := cs_stimecmp r; cs_time := cs_time r |}.
Definition set_cs_stimecmp (v : Z) (r : csr) : csr :=
  {| cs_stvec := cs_stvec r; cs_sepc := cs_sepc r; cs_scause := cs_scause r; cs_stval :=
     cs_stval r; cs_satp := cs_satp r; cs_stimecmp := v; cs_time := cs_time r |}.
Definition set_cs_time (v : Z) (r : csr) : csr :=
  {| cs_stvec := cs_stvec r; cs_sepc := cs_sepc r; cs_scause := cs_scause r; cs_stval :=
     cs_stval r; cs_satp := cs_satp r; cs_stimecmp := cs_stimecmp r; cs_time := v |}.

(** Device registers: [io_in] lists the values the next reads return, [io_out] the writes
     made so
    far (address and value), oldest first. *)
Record mmio := Mk_mmio {
  io_in : list Z;
  io_out : list (Z * Z)
}.

Definition set_io_in (v : list Z) (r : mmio) : mmio :=
  {| io_in := v; io_out := io_out r |}.
Definition set_io_out (v : list (Z * Z)) (r : mmio) : mmio :=
  {| io_in := io_in r; io_out := v |}.

Definition NUM : nat := 8.

(** What a descriptor's [addr] points to: [disk.ops[i]], [b->data] or
     [disk.info[i].status]. *)
Inductive dma := DMA_null | DMA_op (i : nat) | DMA_data (b : nat) | DMA_status (i : nat).

(** [struct virtq_desc]. *)
Record virtq_desc := Mk_virtq_desc {
  d_addr : dma;
  d_len : Z;
  d_flags : Z;
  d_next : Z
}.

Definition set_d_addr (v : dma) (r : virtq_desc) : virtq_desc :=
  {| d_addr := v; d_len := d_len r; d_flags := d_flags r; d_next := d_next r |}.
Definition set_d_len (v : Z) (r : virtq_desc) : virtq_desc :=
  {| d_addr := d_addr r; d_len := v; d_flags := d_flags r; d_next := d_next r |}.
Definition set_d_flags (v : Z) (r : virtq_desc) : virtq_desc :=
  {| d_addr := d_addr r; d_len := d_len r; d_flags := v; d_next := d_next r |}.
Definition set_d_next (v : Z) (r : virtq_desc) : virtq_desc :=
  {| d_addr := d_addr r; d_len := d_len r; d_flags := d_flags r; d_next := v |}.

(** [struct virtio_blk_req]. *)
Record blk_req := Mk_blk_req {
  rq_type : Z;
  rq_reserved : Z;
  rq_sector : Z
}.

Definition set_rq_type (v : Z) (r : blk_req) : blk_req :=
  {| rq_type := v; rq_reserved := rq_reserved r; rq_sector := rq_sector r |}.
Definition set_rq_reserved (v : Z) (r : blk_req) : blk_req :=
  {| rq_type := rq_type r; rq_reserved := v; rq_sector := rq_sector r |}.
Definition set_rq_sector (v : Z) (r : blk_req) : blk_req :=
  {| rq_type := rq_type r; rq_reserved := rq_reserved r; rq_sector := v |}.

(** [struct disk]: the addresses of the three pages it shares with the device, the arrays on
    those pages (descriptors; [avail->idx], [avail->ring]; [used->idx] and the [id]s of
     [used->ring]),
    and its other fields ([info] as two lists). *)
Record vdisk := Mk_vdisk {
  vd_pages : list Z;
  vd_desc : list virtq_desc;
  av_idx : Z;
  av_ring : list Z;
  us_idx : Z;
  us_ring : list Z;
  vd_free : list bool;
  vd_used_idx : Z;
  vd_info_b : list (option nat);
  vd_info_status : list Z;
  vd_ops : list blk_req
}.

Definition set_vd_pages (v : list Z) (r : vdisk) : vdisk :=
  {| vd_pages := v; vd_desc := vd_desc r; av_idx := av_idx r; av_ring := av_ring r; us_idx
     := us_idx r; us_ring := us_ring r; vd_free := vd_free r; vd_used_idx := vd_used_idx r;
     vd_info_b := vd_info_b r; vd_info_status := vd_info_status r; vd_ops := vd_ops r |}.
Definition set_vd_desc (v : list virtq_desc) (r : vdisk) : vdisk :=
  {| vd_pages := vd_pages r; vd_desc := v; av_idx := av_idx r; av_ring := av_ring r; us_idx
     := us_idx r; us_ring := us_ring r; vd_free := vd_free r; vd_used_idx := vd_used_idx r;
     vd_info_b := vd_info_b r; vd_info_status := vd_info_status r; vd_ops := vd_ops r |}.
Definition set_av_idx (v : Z) (r : vdisk) : vdisk :=
  {| vd_pages := vd_pages r; vd_desc := vd_desc r; av_idx := v; av_ring := av_ring r;
     us_idx := us_idx r; us_ring := us_ring r; vd_free := vd_free r; vd_used_idx :=
     vd_used_idx r; vd_info_b := vd_info_b r; vd_info_status := vd_info_status r; vd_ops :=
     vd_ops r |}.
Definition set_av_ring (v : list Z) (r : vdisk) : vdisk :=
  {| vd_pages := vd_pages r; vd_desc := vd_desc r; av_idx := av_idx r; av_ring := v; us_idx
     := us_idx r; us_ring := us_ring r; vd_free := vd_free r; vd_used_idx := vd_used_idx r;
     vd_info_b := vd_info_b r; vd_info_status := vd_info_status r; vd_ops := vd_ops r |}.
Definition set_us_idx (v : Z) (r : vdisk) : vdisk :=
  {| vd_pages := vd_pages r; vd_desc := vd_desc r; av_idx := av_idx r; av_ring := av_ring
     r; us_idx := v; us_ring := us_ring r; vd_free := vd_free r; vd_used_idx := vd_used_idx
     r; vd_info_b := vd_info_b r; vd_info_status := vd_info_status r; vd_ops := vd_ops r |}.
Definition set_us_ring (v : list Z) (r : vdisk) : vdisk :=
  {| vd_pages := vd_pages r; vd_desc := vd_desc r; av_idx := av_idx r; av_ring := av_ring
     r; us_idx := us_idx r; us_ring := v; vd_free := vd_free r; vd_used_idx := vd_used_idx
     r; vd_info_b := vd_info_b r; vd_info_status := vd_info_status r; vd_ops := vd_ops r |}.
Definition set_vd_free (v : list bool) (r : vdisk) : vdisk :=
  {| vd_pages := vd_pages r; vd_desc := vd_desc r; av_idx := av_idx r; av_ring := av_ring
     r; us_idx := us_idx r; us_ring := us_ring r; vd_free := v; vd_used_idx := vd_used_idx
     r; vd_info_b := vd_info_b r; vd_info_status := vd_info_status r; vd_ops := vd_ops r |}.
Definition set_vd_used_idx (v : Z) (r : vdisk) : vdisk :=
  {| vd_pages := vd_pages r; vd_desc := vd_desc r; av_idx := av_idx r; av_ring := av_ring
     r; us_idx := us_idx r; us_ring := us_ring r; vd_free := vd_free r; vd_used_idx := v;
     vd_info_b := vd_info_b r; vd_info_status := vd_info_status r; vd_ops := vd_ops r |}.
Definition set_vd_info_b (v : list (option nat)) (r : vdisk) : vdisk :=
  {| vd_pages := vd_pages r; vd_desc := vd_desc r; av_idx := av_idx r; av_ring := av_ring
     r; us_idx := us_idx r; us_ring := us_ring r; vd_free := vd_free r; vd_used_idx :=
     vd_used_idx r; vd_info_b := v; vd_info_status := vd_info_status r; vd_ops := vd_ops r
     |}.
Definition set_vd_info_status (v : list Z) (r : vdisk) : vdisk :=
  {| vd_pages := vd_pages r; vd_desc := vd_desc r; av_idx := av_idx r; av_ring := av_ring
     r; us_idx := us_idx r; us_ring := us_ring r; vd_free := vd_free r; vd_used_idx :=
     vd_used_idx r; vd_info_b := vd_info_b r; vd_info_status := v; vd_ops := vd_ops r |}.
Definition set_vd_ops (v : list blk_req) (r : vdisk) : vdisk :=
  {| vd_pages := vd_pages r; vd_desc := vd_desc r; av_idx := av_idx r; av_ring := av_ring
     r; us_idx := us_idx r; us_ring := us_ring r; vd_free := vd_free r; vd_used_idx :=
     vd_used_idx r; vd_info_b := vd_info_b r; vd_info_status := vd_info_status r; vd_ops :=
     v |}.

(** ** The kernel *)

(** The kernel's globals, its memory, and the disk: [k_disk] maps a block number to the
     block on
    the device, [k_trace] lists the blocks written to it so far, oldest first. *)
Record kernel := Mk_kernel {
  k_hl : hartlocks;
  k_mem : Z -> Z;
  k_freelist : Z;
  k_kpt : Z;
  k_procs : list process;
  k_init_proc : option nat;
  k_next_pid : Z;
  k_pipes : gmap Z pipe;
  k_cons : console;
  k_uart : uartst;
  k_bufs : list buf;
  k_log : logst;
  k_sb : superblock;
  k_itable : list inode;
  k_ftable : list file;
  k_devsw : list devsw;
  k_root : user;
  k_ticks : Z;
  k_first : bool;
  k_csr : csr;
  k_io : mmio;
  k_vd : vdisk;
  k_disk : Z -> list Z;
  k_trace : list (Z * list Z)
}.

Definition set_k_hl (v : hartlocks) (r : kernel) : kernel :=
  {| k_hl := v; k_mem := k_mem r; k_freelist := k_freelist r; k_kpt := k_kpt r; k_procs :=
     k_procs r; k_init_proc := k_init_proc r; k_next_pid := k_next_pid r; k_pipes :=
     k_pipes r; k_cons := k_cons r; k_uart := k_uart r; k_bufs := k_bufs r; k_log := k_log
     r; k_sb := k_sb r; k_itable := k_itable r; k_ftable := k_ftable r; k_devsw := k_devsw
     r; k_root := k_root r; k_ticks := k_ticks r; k_first := k_first r; k_csr := k_csr r;
     k_io := k_io r; k_vd := k_vd r; k_disk := k_disk r; k_trace := k_trace r |}.
Definition set_k_mem (v : Z -> Z) (r : kernel) : kernel :=
  {| k_hl := k_hl r; k_mem := v; k_freelist := k_freelist r; k_kpt := k_kpt r; k_procs :=
     k_procs r; k_init_proc := k_init_proc r; k_next_pid := k_next_pid r; k_pipes :=
     k_pipes r; k_cons := k_cons r; k_uart := k_uart r; k_bufs := k_bufs r; k_log := k_log
     r; k_sb := k_sb r; k_itable := k_itable r; k_ftable := k_ftable r; k_devsw := k_devsw
     r; k_root := k_root r; k_ticks := k_ticks r; k_first := k_first r; k_csr := k_csr r;
     k_io := k_io r; k_vd := k_vd r; k_disk := k_disk r; k_trace := k_trace r |}.
Definition set_k_freelist (v : Z) (r : kernel) : kernel :=
  {| k_hl := k_hl r; k_mem := k_mem r; k_freelist := v; k_kpt := k_kpt r; k_procs :=
     k_procs r; k_init_proc := k_init_proc r; k_next_pid := k_next_pid r; k_pipes :=
     k_pipes r; k_cons := k_cons r; k_uart := k_uart r; k_bufs := k_bufs r; k_log := k_log
     r; k_sb := k_sb r; k_itable := k_itable r; k_ftable := k_ftable r; k_devsw := k_devsw
     r; k_root := k_root r; k_ticks := k_ticks r; k_first := k_first r; k_csr := k_csr r;
     k_io := k_io r; k_vd := k_vd r; k_disk := k_disk r; k_trace := k_trace r |}.
Definition set_k_kpt (v : Z) (r : kernel) : kernel :=
  {| k_hl := k_hl r; k_mem := k_mem r; k_freelist := k_freelist r; k_kpt := v; k_procs :=
     k_procs r; k_init_proc := k_init_proc r; k_next_pid := k_next_pid r; k_pipes :=
     k_pipes r; k_cons := k_cons r; k_uart := k_uart r; k_bufs := k_bufs r; k_log := k_log
     r; k_sb := k_sb r; k_itable := k_itable r; k_ftable := k_ftable r; k_devsw := k_devsw
     r; k_root := k_root r; k_ticks := k_ticks r; k_first := k_first r; k_csr := k_csr r;
     k_io := k_io r; k_vd := k_vd r; k_disk := k_disk r; k_trace := k_trace r |}.
Definition set_k_procs (v : list process) (r : kernel) : kernel :=
  {| k_hl := k_hl r; k_mem := k_mem r; k_freelist := k_freelist r; k_kpt := k_kpt r;
     k_procs := v; k_init_proc := k_init_proc r; k_next_pid := k_next_pid r; k_pipes :=
     k_pipes r; k_cons := k_cons r; k_uart := k_uart r; k_bufs := k_bufs r; k_log := k_log
     r; k_sb := k_sb r; k_itable := k_itable r; k_ftable := k_ftable r; k_devsw := k_devsw
     r; k_root := k_root r; k_ticks := k_ticks r; k_first := k_first r; k_csr := k_csr r;
     k_io := k_io r; k_vd := k_vd r; k_disk := k_disk r; k_trace := k_trace r |}.
Definition set_k_init_proc (v : option nat) (r : kernel) : kernel :=
  {| k_hl := k_hl r; k_mem := k_mem r; k_freelist := k_freelist r; k_kpt := k_kpt r;
     k_procs := k_procs r; k_init_proc := v; k_next_pid := k_next_pid r; k_pipes := k_pipes
     r; k_cons := k_cons r; k_uart := k_uart r; k_bufs := k_bufs r; k_log := k_log r; k_sb
     := k_sb r; k_itable := k_itable r; k_ftable := k_ftable r; k_devsw := k_devsw r;
     k_root := k_root r; k_ticks := k_ticks r; k_first := k_first r; k_csr := k_csr r; k_io
     := k_io r; k_vd := k_vd r; k_disk := k_disk r; k_trace := k_trace r |}.
Definition set_k_next_pid (v : Z) (r : kernel) : kernel :=
  {| k_hl := k_hl r; k_mem := k_mem r; k_freelist := k_freelist r; k_kpt := k_kpt r;
     k_procs := k_procs r; k_init_proc := k_init_proc r; k_next_pid := v; k_pipes :=
     k_pipes r; k_cons := k_cons r; k_uart := k_uart r; k_bufs := k_bufs r; k_log := k_log
     r; k_sb := k_sb r; k_itable := k_itable r; k_ftable := k_ftable r; k_devsw := k_devsw
     r; k_root := k_root r; k_ticks := k_ticks r; k_first := k_first r; k_csr := k_csr r;
     k_io := k_io r; k_vd := k_vd r; k_disk := k_disk r; k_trace := k_trace r |}.
Definition set_k_pipes (v : gmap Z pipe) (r : kernel) : kernel :=
  {| k_hl := k_hl r; k_mem := k_mem r; k_freelist := k_freelist r; k_kpt := k_kpt r;
     k_procs := k_procs r; k_init_proc := k_init_proc r; k_next_pid := k_next_pid r;
     k_pipes := v; k_cons := k_cons r; k_uart := k_uart r; k_bufs := k_bufs r; k_log :=
     k_log r; k_sb := k_sb r; k_itable := k_itable r; k_ftable := k_ftable r; k_devsw :=
     k_devsw r; k_root := k_root r; k_ticks := k_ticks r; k_first := k_first r; k_csr :=
     k_csr r; k_io := k_io r; k_vd := k_vd r; k_disk := k_disk r; k_trace := k_trace r |}.
Definition set_k_cons (v : console) (r : kernel) : kernel :=
  {| k_hl := k_hl r; k_mem := k_mem r; k_freelist := k_freelist r; k_kpt := k_kpt r;
     k_procs := k_procs r; k_init_proc := k_init_proc r; k_next_pid := k_next_pid r;
     k_pipes := k_pipes r; k_cons := v; k_uart := k_uart r; k_bufs := k_bufs r; k_log :=
     k_log r; k_sb := k_sb r; k_itable := k_itable r; k_ftable := k_ftable r; k_devsw :=
     k_devsw r; k_root := k_root r; k_ticks := k_ticks r; k_first := k_first r; k_csr :=
     k_csr r; k_io := k_io r; k_vd := k_vd r; k_disk := k_disk r; k_trace := k_trace r |}.
Definition set_k_uart (v : uartst) (r : kernel) : kernel :=
  {| k_hl := k_hl r; k_mem := k_mem r; k_freelist := k_freelist r; k_kpt := k_kpt r;
     k_procs := k_procs r; k_init_proc := k_init_proc r; k_next_pid := k_next_pid r;
     k_pipes := k_pipes r; k_cons := k_cons r; k_uart := v; k_bufs := k_bufs r; k_log :=
     k_log r; k_sb := k_sb r; k_itable := k_itable r; k_ftable := k_ftable r; k_devsw :=
     k_devsw r; k_root := k_root r; k_ticks := k_ticks r; k_first := k_first r; k_csr :=
     k_csr r; k_io := k_io r; k_vd := k_vd r; k_disk := k_disk r; k_trace := k_trace r |}.
Definition set_k_bufs (v : list buf) (r : kernel) : kernel :=
  {| k_hl := k_hl r; k_mem := k_mem r; k_freelist := k_freelist r; k_kpt := k_kpt r;
     k_procs := k_procs r; k_init_proc := k_init_proc r; k_next_pid := k_next_pid r;
     k_pipes := k_pipes r; k_cons := k_cons r; k_uart := k_uart r; k_bufs := v; k_log :=
     k_log r; k_sb := k_sb r; k_itable := k_itable r; k_ftable := k_ftable r; k_devsw :=
     k_devsw r; k_root := k_root r; k_ticks := k_ticks r; k_first := k_first r; k_csr :=
     k_csr r; k_io := k_io r; k_vd := k_vd r; k_disk := k_disk r; k_trace := k_trace r |}.
Definition set_k_log (v : logst) (r : kernel) : kernel :=
  {| k_hl := k_hl r; k_mem := k_mem r; k_freelist := k_freelist r; k_kpt := k_kpt r;
     k_procs := k_procs r; k_init_proc := k_init_proc r; k_next_pid := k_next_pid r;
     k_pipes := k_pipes r; k_cons := k_cons r; k_uart := k_uart r; k_bufs := k_bufs r;
     k_log := v; k_sb := k_sb r; k_itable := k_itable r; k_ftable := k_ftable r; k_devsw :=
     k_devsw r; k_root := k_root r; k_ticks := k_ticks r; k_first := k_first r; k_csr :=
     k_csr r; k_io := k_io r; k_vd := k_vd r; k_disk := k_disk r; k_trace := k_trace r |}.
Definition set_k_sb (v : superblock) (r : kernel) : kernel :=
  {| k_hl := k_hl r; k_mem := k_mem r; k_freelist := k_freelist r; k_kpt := k_kpt r;
     k_procs := k_procs r; k_init_proc := k_init_proc r; k_next_pid := k_next_pid r;
     k_pipes := k_pipes r; k_cons := k_cons r; k_uart := k_uart r; k_bufs := k_bufs r;
     k_log := k_log r; k_sb := v; k_itable := k_itable r; k_ftable := k_ftable r; k_devsw
     := k_devsw r; k_root := k_root r; k_ticks := k_ticks r; k_first := k_first r; k_csr :=
     k_csr r; k_io := k_io r; k_vd := k_vd r; k_disk := k_disk r; k_trace := k_trace r |}.
Definition set_k_itable (v : list inode) (r : kernel) : kernel :=
  {| k_hl := k_hl r; k_mem := k_mem r; k_freelist := k_freelist r; k_kpt := k_kpt r;
     k_procs := k_procs r; k_init_proc := k_init_proc r; k_next_pid := k_next_pid r;
     k_pipes := k_pipes r; k_cons := k_cons r; k_uart := k_uart r; k_bufs := k_bufs r;
     k_log := k_log r; k_sb := k_sb r; k_itable := v; k_ftable := k_ftable r; k_devsw :=
     k_devsw r; k_root := k_root r; k_ticks := k_ticks r; k_first := k_first r; k_csr :=
     k_csr r; k_io := k_io r; k_vd := k_vd r; k_disk := k_disk r; k_trace := k_trace r |}.
Definition set_k_ftable (v : list file) (r : kernel) : kernel :=
  {| k_hl := k_hl r; k_mem := k_mem r; k_freelist := k_freelist r; k_kpt := k_kpt r;
     k_procs := k_procs r; k_init_proc := k_init_proc r; k_next_pid := k_next_pid r;
     k_pipes := k_pipes r; k_cons := k_cons r; k_uart := k_uart r; k_bufs := k_bufs r;
     k_log := k_log r; k_sb := k_sb r; k_itable := k_itable r; k_ftable := v; k_devsw :=
     k_devsw r; k_root := k_root r; k_ticks := k_ticks r; k_first := k_first r; k_csr :=
     k_csr r; k_io := k_io r; k_vd := k_vd r; k_disk := k_disk r; k_trace := k_trace r |}.
Definition set_k_devsw (v : list devsw) (r : kernel) : kernel :=
  {| k_hl := k_hl r; k_mem := k_mem r; k_freelist := k_freelist r; k_kpt := k_kpt r;
     k_procs := k_procs r; k_init_proc := k_init_proc r; k_next_pid := k_next_pid r;
     k_pipes := k_pipes r; k_cons := k_cons r; k_uart := k_uart r; k_bufs := k_bufs r;
     k_log := k_log r; k_sb := k_sb r; k_itable := k_itable r; k_ftable := k_ftable r;
     k_devsw := v; k_root := k_root r; k_ticks := k_ticks r; k_first := k_first r; k_csr :=
     k_csr r; k_io := k_io r; k_vd := k_vd r; k_disk := k_disk r; k_trace := k_trace r |}.
Definition set_k_root (v : user) (r : kernel) : kernel :=
  {| k_hl := k_hl r; k_mem := k_mem r; k_freelist := k_freelist r; k_kpt := k_kpt r;
     k_procs := k_procs r; k_init_proc := k_init_proc r; k_next_pid := k_next_pid r;
     k_pipes := k_pipes r; k_cons := k_cons r; k_uart := k_uart r; k_bufs := k_bufs r;
     k_log := k_log r; k_sb := k_sb r; k_itable := k_itable r; k_ftable := k_ftable r;
     k_devsw := k_devsw r; k_root := v; k_ticks := k_ticks r; k_first := k_first r; k_csr
     := k_csr r; k_io := k_io r; k_vd := k_vd r; k_disk := k_disk r; k_trace := k_trace r
     |}.
Definition set_k_ticks (v : Z) (r : kernel) : kernel :=
  {| k_hl := k_hl r; k_mem := k_mem r; k_freelist := k_freelist r; k_kpt := k_kpt r;
     k_procs := k_procs r; k_init_proc := k_init_proc r; k_next_pid := k_next_pid r;
     k_pipes := k_pipes r; k_cons := k_cons r; k_uart := k_uart r; k_bufs := k_bufs r;
     k_log := k_log r; k_sb := k_sb r; k_itable := k_itable r; k_ftable := k_ftable r;
     k_devsw := k_devsw r; k_root := k_root r; k_ticks := v; k_first := k_first r; k_csr :=
     k_csr r; k_io := k_io r; k_vd := k_vd r; k_disk := k_disk r; k_trace := k_trace r |}.
Definition set_k_first (v : bool) (r : kernel) : kernel :=
  {| k_hl := k_hl r; k_mem := k_mem r; k_freelist := k_freelist r; k_kpt := k_kpt r;
     k_procs := k_procs r; k_init_proc := k_init_proc r; k_next_pid := k_next_pid r;
     k_pipes := k_pipes r; k_cons := k_cons r; k_uart := k_uart r; k_bufs := k_bufs r;
     k_log := k_log r; k_sb := k_sb r; k_itable := k_itable r; k_ftable := k_ftable r;
     k_devsw := k_devsw r; k_root := k_root r; k_ticks := k_ticks r; k_first := v; k_csr :=
     k_csr r; k_io := k_io r; k_vd := k_vd r; k_disk := k_disk r; k_trace := k_trace r |}.
Definition set_k_csr (v : csr) (r : kernel) : kernel :=
  {| k_hl := k_hl r; k_mem := k_mem r; k_freelist := k_freelist r; k_kpt := k_kpt r;
     k_procs := k_procs r; k_init_proc := k_init_proc r; k_next_pid := k_next_pid r;
     k_pipes := k_pipes r; k_cons := k_cons r; k_uart := k_uart r; k_bufs := k_bufs r;
     k_log := k_log r; k_sb := k_sb r; k_itable := k_itable r; k_ftable := k_ftable r;
     k_devsw := k_devsw r; k_root := k_root r; k_ticks := k_ticks r; k_first := k_first r;
     k_csr := v; k_io := k_io r; k_vd := k_vd r; k_disk := k_disk r; k_trace := k_trace r
     |}.
Definition set_k_io (v : mmio) (r : kernel) : kernel :=
  {| k_hl := k_hl r; k_mem := k_mem r; k_freelist := k_freelist r; k_kpt := k_kpt r;
     k_procs := k_procs r; k_init_proc := k_init_proc r; k_next_pid := k_next_pid r;
     k_pipes := k_pipes r; k_cons := k_cons r; k_uart := k_uart r; k_bufs := k_bufs r;
     k_log := k_log r; k_sb := k_sb r; k_itable := k_itable r; k_ftable := k_ftable r;
     k_devsw := k_devsw r; k_root := k_root r; k_ticks := k_ticks r; k_first := k_first r;
     k_csr := k_csr r; k_io := v; k_vd := k_vd r; k_disk := k_disk r; k_trace := k_trace r
     |}.
Definition set_k_vd (v : vdisk) (r : kernel) : kernel :=
  {| k_hl := k_hl r; k_mem := k_mem r; k_freelist := k_freelist r; k_kpt := k_kpt r;
     k_procs := k_procs r; k_init_proc := k_init_proc r; k_next_pid := k_next_pid r;
     k_pipes := k_pipes r; k_cons := k_cons r; k_uart := k_uart r; k_bufs := k_bufs r;
     k_log := k_log r; k_sb := k_sb r; k_itable := k_itable r; k_ftable := k_ftable r;
     k_devsw := k_devsw r; k_root := k_root r; k_ticks := k_ticks r; k_first := k_first r;
     k_csr := k_csr r; k_io := k_io r; k_vd := v; k_disk := k_disk r; k_trace := k_trace r
     |}.
Definition set_k_disk (v : Z -> list Z) (r : kernel) : kernel :=
  {| k_hl := k_hl r; k_mem := k_mem r; k_freelist := k_freelist r; k_kpt := k_kpt r;
     k_procs := k_procs r; k_init_proc := k_init_proc r; k_next_pid := k_next_pid r;
     k_pipes := k_pipes r; k_cons := k_cons r; k_uart := k_uart r; k_bufs := k_bufs r;
     k_log := k_log r; k_sb := k_sb r; k_itable := k_itable r; k_ftable := k_ftable r;
     k_devsw := k_devsw r; k_root := k_root r; k_ticks := k_ticks r; k_first := k_first r;
     k_csr := k_csr r; k_io := k_io r; k_vd := k_vd r; k_disk := v; k_trace := k_trace r |}.
Definition set_k_trace (v : list (Z * list Z)) (r : kernel) : kernel :=
  {| k_hl := k_hl r; k_mem := k_mem r; k_freelist := k_freelist r; k_kpt := k_kpt r;
     k_procs := k_procs r; k_init_proc := k_init_proc r; k_next_pid := k_next_pid r;
     k_pipes := k_pipes r; k_cons := k_cons r; k_uart := k_uart r; k_bufs := k_bufs r;
     k_log := k_log r; k_sb := k_sb r; k_itable := k_itable r; k_ftable := k_ftable r;
     k_devsw := k_devsw r; k_root := k_root r; k_ticks := k_ticks r; k_first := k_first r;
     k_csr := k_csr r; k_io := k_io r; k_vd := k_vd r; k_disk := k_disk r; k_trace := v |}.

Definition unlocked : spinlock := {| locked := false; lk_cpu := None |}.

(** The statically allocated spin locks, all initially free. *)
Definition static_locks : list lockid :=
  [L_kmem; L_bcache; L_log; L_itable; L_ftable; L_wait; L_pid; L_user; L_cons; L_uart_tx;
   L_vdisk; L_ticks; L_pr] ++ map L_buf (seq 0 NBUF) ++ map L_proc (seq 0 NPROC) ++
  map L_inode (seq 0 NINODE).

Definition free_locks (l : list lockid) : gmap lockid spinlock :=
  list_to_map (map (fun x => (x, unlocked)) l).

Definition zeros (n : nat) : list Z := replicate n 0.

Definition proc0 : process :=
  {| p_name := zeros 32; p_status := UNUSED; p_pid := 0; p_chan := CNull; p_killed := false;
     p_xstate := 0; p_user := false; p_parent := None; p_kstack := 0; p_sz := 0;
     p_pagetable := 0; p_trapframe := 0; p_context := Mk_context 0 0 (zeros 12);
     p_ofile := replicate NOFILE None; p_cwd := None |}.

Definition buf0 : buf :=
  {| b_valid := false; b_disk := false; b_dev := 0; b_blockno := 0; b_refcnt := 0;
     b_lock := Mk_sleeplock false 0; b_prev := NBUF; b_next := NBUF;
     b_data := zeros (Z.to_nat BSIZE) |}.

Definition inode0 : inode :=
  {| i_dev := 0; i_inum := 0; i_ref := 0; i_valid := false; i_uid := 0; i_gid := 0;
     i_mask_user := 0;
     i_mask_group := 0; i_mask_other := 0; i_type := 0; i_major := 0; i_minor := 0; i_nlink
     := 0;
     i_size := 0; i_addrs := zeros 13; i_lock := Mk_sleeplock false 0 |}.

Definition file0 : file := Mk_file FD_NONE 0 false false 0 None 0 0.

Definition vdisk0 : vdisk :=
  {| vd_pages := []; vd_desc := replicate NUM (Mk_virtq_desc DMA_null 0 0 0); av_idx := 0;
     av_ring := zeros NUM; us_idx := 0; us_ring := zeros NUM; vd_free := replicate NUM
     false;
     vd_used_idx := 0; vd_info_b := replicate NUM None; vd_info_status := zeros NUM;
     vd_ops := replicate NUM (Mk_blk_req 0 0 0) |}.

(** The kernel as its static initialisers leave it, running on hart 0 with
    interrupts off ([next_pid] starts at 1; the null links of [bcache] are
    represented by [NBUF]; [bio::init] overwrites them). *)
Definition kernel0 : kernel :=
  {| k_hl := {| hl_tp := 0; hl_sstatus := 0; hl_cpus := replicate NCPU (Mk_cpu None 0 0);
                hl_locks := free_locks static_locks |};
     k_mem := fun _ => 0; k_freelist := 0; k_kpt := 0; k_procs := replicate NPROC proc0;
     k_init_proc := None; k_next_pid := 1; k_pipes := ∅;
     k_cons := Mk_console (zeros (Z.to_nat INPUT_BUF_SIZE)) 0 0 0;
     k_uart := Mk_uartst (zeros (Z.to_nat UART_TX_BUF_SIZE)) 0 0 [] [] [] 0;
     k_bufs := replicate (S NBUF) buf0;
     k_log := {| lg_start := 0; lg_size := 0; lg_outstanding := 0; lg_committing := false;
                 lg_dev := 0; lg_lh := Mk_logheader 0 (zeros (Z.to_nat LOGSIZE)) |};
     k_sb := Mk_superblock 0 0 0 0 0 0 0 0; k_itable := replicate NINODE inode0;
     k_ftable := replicate NFILE file0; k_devsw := replicate NDEV (Mk_devsw None None);
     k_root := Mk_user 0 0; k_ticks := 0; k_first := true; k_csr := Mk_csr 0 0 0 0 0 0 0;
     k_io := Mk_mmio [] []; k_vd := vdisk0;
     k_disk := fun _ => zeros (Z.to_nat BSIZE); k_trace := [] |}.

(** ** The monad of kernel functions

    A kernel function runs on a state and on an environment: the list of what
    the rest of the machine (other harts, interrupt handlers, devices, the
    processes scheduled in between) does to the state each time the function
    waits, by spinning on a lock or by giving up the processor.  Each wait
    consumes one entry; a wait that finds the list empty is [Blocked]. *)

Abbreviation environment := (list (kernel -> kernel)) (only parsing).

Inductive outcome (A : Type) :=
| Ret (a : A) (s : kernel) (e : environment)   (* normal return *)
| Panic (msg : string) (s : kernel)            (* fmt::panic: prints and loops *)
| Blocked (s : kernel)                         (* still waiting *)
| Undef (what : string)                        (* undefined behaviour *)
| NoFuel.                                      (* loop bound of the model exceeded *)

Arguments Ret {A}. Arguments Panic {A}. Arguments Blocked {A}.
Arguments Undef {A}. Arguments NoFuel {A}.

Definition M (A : Type) : Type := kernel -> environment -> outcome A.

Definition ret {A} (a : A) : M A := fun s e => Ret a s e.

Definition bind {A B} (m : M A) (f : A -> M B) : M B := fun s e =>
  match m s e with
  | Ret a s' e' => f a s' e'
  | Panic msg s' => Panic msg s'
  | Blocked s' => Blocked s'
  | Undef w => Undef w
  | NoFuel => NoFuel
  end.

Declare Scope kernel_scope.
Delimit Scope kernel_scope with kernel.
Notation "x <- c1 ;; c2" := (bind c1 (fun x => c2))
  (at level 100, c1 at next level, right associativity) : kernel_scope.
Notation "c1 ;; c2" := (bind c1 (fun _ => c2))
  (at level 100, c2 at level 200, right associativity) : kernel_scope.
#[global] Open Scope kernel_scope.

Definition gets {A} (f : kernel -> A) : M A := fun s e => Ret (f s) s e.
Definition modify (f : kernel -> kernel) : M unit := fun s e => Ret tt (f s) e.
Definition panic {A} (msg : string) : M A := fun s _ => Panic msg s.
Definition undef {A} (w : string) : M A := fun _ _ => Undef w.

(** Waiting: the rest of the machine runs. *)
Definition await : M unit := fun s e =>
  match e with
  | [] => Blocked s
  | f :: e' => Ret tt (f s) e'
  end.

Definition when (b : bool) (m : M unit) : M unit := if b then m else ret tt.

(** [while (c) body], at most [n] iterations. *)
Fixpoint while (n : nat) (c : M bool) (body : M unit) : M unit :=
  match n with
  | O => fun _ _ => NoFuel
  | S n' => b <- c ;; if b then body ;; while n' c body else ret tt
  end.

(** A loop whose every iteration waits: the environment bounds it. *)
Definition while_waiting (c : M bool) (body : M unit) : M unit :=
  fun s e => while (S (length e)) c body s e.

(** [for (i = start; i < start + n; ++i) body(i)]. *)
Fixpoint for_range (start n : nat) (body : nat -> M unit) : M unit :=
  match n with
  | O => ret tt
  | S n' => body start ;; for_range (S start) n' body
  end.

(** Element of a table; an index outside it is undefined behaviour. *)
Definition of_option {A} (what : string) (o : option A) : M A :=
  match o with Some a => ret a | None => undef what end.

(** The laws of the monad, as pointwise equations. *)
Lemma bind_ret {A B} (a : A) (f : A -> M B) s e : bind (ret a) f s e = f a s e.
Proof. reflexivity. Qed.

Lemma bind_gets {A B} (f : kernel -> A) (g : A -> M B) s e : bind (gets f) g s e = g (f s)
     s e.
Proof. reflexivity. Qed.

Lemma bind_modify {B} f (g : unit -> M B) s e : bind (modify f) g s e = g tt (f s) e.
Proof. reflexivity. Qed.

Lemma bind_assoc {A B C} (m : M A) (f : A -> M B) (g : B -> M C) s e :
  bind (bind m f) g s e = bind m (fun a => bind (f a) g) s e.
Proof. unfold bind. destruct (m s e); reflexivity. Qed.

Lemma bind_Ret {A B} (m : M A) (f : A -> M B) s e a s' e' :
  m s e = Ret a s' e' -> bind m f s e = f a s' e'.
Proof. intros H. unfold bind. by rewrite H. Qed.

Lemma bind_inv {A B} (m : M A) (f : A -> M B) s e b s' e' :
  bind m f s e = Ret b s' e' ->
  exists a s1 e1, m s e = Ret a s1 e1 /\ f a s1 e1 = Ret b s' e'.
Proof. unfold bind. destruct (m s e) eqn:E; try done. eauto. Qed.

(** [kstep lem]: run the first statement of the goal with the equation [lem]. *)
Ltac kstep lem := eapply eq_trans; [ eapply bind_Ret; apply lem | cbv beta iota ].
Ltac kret := repeat (rewrite ?bind_ret, ?bind_gets, ?bind_modify; cbv beta).

(** One pass of the simple statements: reads, writes, tests. *)
Ltac kred :=
  cbv beta delta [bind gets modify ret when of_option panic undef]; cbv beta iota.
