(* ===== verification/Ring.v ===== *)
(** * Ring buffers

    The pipes, the console input and the UART transmit buffer are arrays of [N]
    bytes with two free-running indices of a machine width [2^w]; the slots are
    the indices modulo [N].  [ring] is the queue such a buffer represents. *)

From S2P Require Import Prelude.

Section ring.
Context (N W : Z).
Hypothesis HN : 0 < N.
Hypothesis HNW : (N | W).
Hypothesis HW : N < W.

Definition ring_len (r w : Z) : Z := (w - r) mod W.

Definition ring (data : list Z) (r w : Z) : list Z :=
  map (fun j => nth (Z.to_nat ((r + Z.of_nat j) mod N)) data 0) (seq 0 (Z.to_nat (ring_len r w))).

Lemma length_ring data r w : length (ring data r w) = Z.to_nat (ring_len r w).
Proof. unfold ring. by rewrite length_map, length_seq. Qed.

Lemma ring_len_range r w : 0 <= ring_len r w < W.
Proof. apply Z.mod_pos_bound. lia. Qed.

Lemma ring_len_push r w : ring_len r w < W - 1 -> ring_len r ((w + 1) mod W) = ring_len r w + 1.
Proof.
  intros H. pose proof (ring_len_range r w). unfold ring_len in *. rewrite Zminus_mod_idemp_l.
  replace (w + 1 - r) with (w - r + 1) by lia. rewrite Z.add_mod by lia. rewrite (Z.mod_small 1) by lia.
  apply Z.mod_small. lia.
Qed.

Lemma ring_len_pop r w : 0 < ring_len r w -> ring_len ((r + 1) mod W) w = ring_len r w - 1.
Proof.
  intros H. pose proof (ring_len_range r w). unfold ring_len in *. rewrite Zminus_mod_idemp_r.
  replace (w - (r + 1)) with (w - r - 1) by lia. rewrite Zminus_mod. rewrite (Z.mod_small 1) by lia.
  apply Z.mod_small. lia.
Qed.

Lemma ring_empty r w : 0 <= r < W -> 0 <= w < W -> ring_len r w = 0 <-> r = w.
Proof.
  intros Hr Hw. unfold ring_len. split; [|intros ->; by rewrite Z.sub_diag].
  intros H. apply Z.mod_divide in H as [q Hq]; [|lia]. destruct (Z.lt_trichotomy q 0) as [|[->|]]; nia.
Qed.

Lemma ring_full r w :
  0 <= r < W -> 0 <= w < W -> ring_len r w <= N -> ring_len r w = N <-> w = (r + N) mod W.
Proof.
  intros Hr Hw Hl. unfold ring_len in *. split.
  - intros H. rewrite <- H, Zplus_mod_idemp_r. replace (r + (w - r)) with w by lia. by rewrite Z.mod_small.
  - intros ->. rewrite Zminus_mod_idemp_l. replace (r + N - r) with N by lia. apply Z.mod_small. lia.
Qed.

Lemma idx_mod x : (x mod W) mod N = x mod N.
Proof. by apply Z.mod_mod_divide. Qed.

Lemma ring_push data r w c :
  length data = Z.to_nat N -> ring_len r w < N ->
  ring (<[Z.to_nat (w mod N) := c]> data) r ((w + 1) mod W) = ring data r w ++ [c].
Proof.
  intros Hd Hl. pose proof (ring_len_range r w) as Hr. unfold ring. rewrite ring_len_push by lia.
  rewrite Z2Nat.inj_add by lia. change (Z.to_nat 1) with 1%nat. rewrite seq_app, map_app. cbn [seq map].
  assert (forall j, 0 <= j <= ring_len r w -> (r + j) mod N = w mod N <-> j = ring_len r w) as Hslot.
  { intros j Hj. rewrite <- (idx_mod w). unfold ring_len in *. split.
    - intros He. rewrite idx_mod in He.
      assert (((w - r) - j) mod N = 0) as H0.
      { replace (w - r - j) with (w - (r + j)) by lia. rewrite Zminus_mod, He, Z.sub_diag. apply Z.mod_0_l. lia. }
      assert (((w - r) mod W - j) mod N = 0) as H1.
      { rewrite Zminus_mod, idx_mod, <- Zminus_mod. exact H0. }
      apply Z.mod_divide in H1 as [q Hq]; [|lia]. destruct (Z.lt_trichotomy q 0) as [|[->|]]; nia.
    - intros ->. rewrite idx_mod, Z.add_mod, idx_mod, <- Z.add_mod by lia. f_equal. lia. }
  assert (forall j, Z.to_nat ((r + j) mod N) < length data)%nat as Hin.
  { intros j. rewrite Hd. pose proof (Z.mod_pos_bound (r + j) N). lia. }
  f_equal.
  - apply map_ext_in. intros j [_ Hj]%in_seq. rewrite !nth_lookup. f_equal.
    rewrite list_lookup_insert_ne; [done|]. intros He.
    apply Z2Nat.inj in He; [|apply Z.mod_pos_bound; lia..]. symmetry in He. apply Hslot in He; lia.
  - cbn [Nat.add]. rewrite Z2Nat.id by lia. f_equal. rewrite (proj2 (Hslot (ring_len r w) ltac:(lia))) by done.
    apply nth_lookup_Some. apply list_lookup_insert_eq. rewrite Hd. pose proof (Z.mod_pos_bound w N). lia.
Qed.

Lemma ring_pop data r w :
  0 < ring_len r w ->
  ring data r w = nth (Z.to_nat (r mod N)) data 0 :: ring data ((r + 1) mod W) w.
Proof.
  intros Hl. unfold ring. rewrite ring_len_pop by done.
  replace (Z.to_nat (ring_len r w)) with (S (Z.to_nat (ring_len r w - 1))) by lia.
  cbn [seq map]. rewrite Z.add_0_r. f_equal. rewrite <- seq_shift, map_map. apply map_ext. intros j. do 2 f_equal.
  rewrite (Z.add_mod ((r + 1) mod W)), idx_mod, <- Z.add_mod by lia. f_equal. lia.
Qed.

Lemma ring_len_add a b c : ring_len a b + ring_len b c < W -> ring_len a c = ring_len a b + ring_len b c.
Proof.
  intros H. pose proof (ring_len_range a b). pose proof (ring_len_range b c). unfold ring_len in *.
  replace (c - a) with (b - a + (c - b)) by lia. rewrite Z.add_mod by lia. apply Z.mod_small. lia.
Qed.

Lemma ring_split data a b c :
  ring_len a b + ring_len b c < W -> ring data a c = ring data a b ++ ring data b c.
Proof.
  intros H. pose proof (ring_len_range a b). pose proof (ring_len_range b c).
  unfold ring. rewrite (ring_len_add a b c H), Z2Nat.inj_add, seq_app, map_app by lia. f_equal.
  cbn [Nat.add]. rewrite map_seq_shift. apply map_ext. intros j. do 2 f_equal.
  rewrite <- (idx_mod (b + Z.of_nat j)), <- (idx_mod (a + _)). f_equal. unfold ring_len.
  rewrite Nat2Z.inj_add, Z2Nat.id by (apply ring_len_range).
  replace (b + Z.of_nat j) with (a + ((b - a) + Z.of_nat j)) by lia.
  rewrite (Z.add_mod a), (Z.add_mod ((b - a) mod W)), Z.mod_mod, <- (Z.add_mod (b - a)), <- Z.add_mod by lia. done.
Qed.

(** The youngest byte. *)
Lemma ring_last data a b :
  0 < ring_len a b ->
  ring data a b = ring data a ((b - 1) mod W) ++ [nth (Z.to_nat ((b - 1) mod W mod N)) data 0] /\
  ring_len a ((b - 1) mod W) = ring_len a b - 1.
Proof.
  intros H. pose proof (ring_len_range a b) as Hr.
  assert (ring_len a ((b - 1) mod W) = ring_len a b - 1) as E1.
  { unfold ring_len in *. rewrite Zminus_mod_idemp_l. replace (b - 1 - a) with (b - a - 1) by lia.
    rewrite Zminus_mod. rewrite (Z.mod_small 1) by lia. apply Z.mod_small. lia. }
  assert (ring_len ((b - 1) mod W) b = 1) as E2.
  { unfold ring_len. rewrite Zminus_mod_idemp_r. replace (b - (b - 1)) with 1 by lia. apply Z.mod_small. lia. }
  split; [|done]. rewrite (ring_split data a ((b - 1) mod W) b) by lia. f_equal.
  unfold ring. rewrite E2. change (Z.to_nat 1) with 1%nat. cbn [seq map]. by rewrite Z.add_0_r.
Qed.
End ring.
