(* ===== verification/Riscv.v ===== *)
(** * RISC-V definitions ([arch/riscv.h], address map of [vm.h])

    Page and page-table-entry arithmetic at its machine widths, and the
    interrupt-enable bit of [sstatus]. *)

From S2P Require Import Prelude.

(** ** Page-table entries *)

Definition PTE_V : Z := Z.shiftl 1 0.
Definition PTE_R : Z := Z.shiftl 1 1.
Definition PTE_W : Z := Z.shiftl 1 2.
Definition PTE_X : Z := Z.shiftl 1 3.
Definition PTE_U : Z := Z.shiftl 1 4.

(** [constexpr uint32_t PGSIZE]: the 32-bit type matters for [~(PGSIZE - 1)]. *)
Definition PGSIZE : Z := 4096.

Definition PG_ROUND_UP (addr : Z) : Z := Z.land (u64 (addr + PGSIZE - 1)) (not32 (PGSIZE - 1)).
Definition PG_ROUND_DOWN (addr : Z) : Z := Z.land addr (not32 (PGSIZE - 1)).

Definition PTE2PA (pte : Z) : Z := u64 (Z.shiftl (Z.shiftr pte 10) 12).
Definition PA2PTE (pa : Z) : Z := u64 (Z.shiftl (Z.shiftr pa 12) 10).
Definition PTE_FLAGS (pte : Z) : Z := Z.land pte 1023.

Definition PX_MASK : Z := 511.
Definition PG_SHIFT : Z := 12.
Definition PX_SHIFT (level : Z) : Z := PG_SHIFT + 9 * level.
Definition PX (level pte : Z) : Z := Z.land (Z.shiftr pte (PX_SHIFT level)) PX_MASK.

Definition VA_MAX : Z := Z.shiftl 1 (9 + 9 + 9 + 12 - 1).
Definition SATP_SV39 : Z := Z.shiftl 8 60.
Definition MAKE_SATP (pagetable : Z) : Z := Z.lor SATP_SV39 (Z.shiftr pagetable 12).

(** ** Address map ([vm.h]) *)

Definition KERNEL_BASE : Z := 2147483648.                           (* 0x80000000 *)
Definition PHY_END : Z := KERNEL_BASE + 128 * 1024 * 1024.
Definition TRAMPOLINE : Z := VA_MAX - PGSIZE.
Definition TRAPFRAME : Z := TRAMPOLINE - PGSIZE.

(** The product [(pa + 1) * 2] is an [int]. *)
Definition KSTACK (pa : Z) : Z := u64 (TRAMPOLINE - u64 (s32 ((pa + 1) * 2)) * PGSIZE).

(** ** Interrupt enable ([sstatus]) *)

Definition SSTATUS_SPP : Z := Z.shiftl 1 8.
Definition SSTATUS_SPIE : Z := Z.shiftl 1 5.
Definition SSTATUS_SIE : Z := Z.shiftl 1 1.

Definition intr_on (sstatus : Z) : Z := Z.lor sstatus SSTATUS_SIE.
Definition intr_off (sstatus : Z) : Z := Z.land sstatus (not32 SSTATUS_SIE).
Definition intr_get (sstatus : Z) : Z := if Z.land sstatus SSTATUS_SIE =? 0 then 0 else 1.

(** ** Lemmas *)

Lemma land_page_mask x : 0 <= x -> Z.land x 4294963200 = x mod 2 ^ 32 - x mod 4096.
Proof.
  intros Hx.
  assert (Z.land x 4294963200 = Z.ldiff (x mod 2 ^ 32) (x mod 4096)) as ->.
  { apply Z.bits_inj'. intros i Hi. rewrite Z.land_spec, Z.ldiff_spec.
    change 4294963200 with (Z.shiftl (Z.ones 20) 12). change 4096 with (2 ^ 12).
    rewrite Z.shiftl_spec by lia.
    destruct (Z.lt_ge_cases i 12).
    - rewrite (Z.testbit_neg_r _ (i - 12)), (Z.mod_pow2_bits_low x 12) by lia.
      rewrite Z.mod_pow2_bits_low by lia. by destruct (Z.testbit x i).
    - rewrite (Z.mod_pow2_bits_high x 12) by lia. rewrite Z.testbit_ones by lia.
      destruct (Z.lt_ge_cases i 32).
      + rewrite Z.mod_pow2_bits_low by lia. zcases; try lia; by destruct (Z.testbit x i).
      + rewrite (Z.mod_pow2_bits_high x 32) by lia. zcases; try lia; by destruct (Z.testbit x i). }
  symmetry. apply Z.sub_nocarry_ldiff.
  apply Z.bits_inj'. intros i Hi. rewrite Z.ldiff_spec, Z.bits_0. change 4096 with (2 ^ 12).
  destruct (Z.lt_ge_cases i 12).
  - rewrite !Z.mod_pow2_bits_low by lia. by destruct (Z.testbit x i).
  - rewrite (Z.mod_pow2_bits_high x 12) by lia. done.
Qed.

Lemma not32_pgmask : not32 (PGSIZE - 1) = 4294963200.
Proof. reflexivity. Qed.

Lemma pg_round_down_eq a : 0 <= a -> PG_ROUND_DOWN a = a mod 2 ^ 32 - a mod PGSIZE.
Proof. intros. unfold PG_ROUND_DOWN. rewrite not32_pgmask. by apply land_page_mask. Qed.

Lemma pg_round_down_low a : 0 <= a < 2 ^ 32 -> PG_ROUND_DOWN a = a - a mod PGSIZE.
Proof. intros. rewrite pg_round_down_eq by lia. by rewrite (Z.mod_small a) by lia. Qed.

Lemma pg_round_up_low a :
  0 <= a <= 2 ^ 32 - PGSIZE -> PG_ROUND_UP a = (a + PGSIZE - 1) / PGSIZE * PGSIZE.
Proof.
  intros. unfold PG_ROUND_UP. rewrite not32_pgmask. unfold PGSIZE in *.
  rewrite u64_small by lia. rewrite land_page_mask by lia.
  rewrite (Z.mod_small _ (2 ^ 32)) by lia. zmod.
Qed.

Lemma pa2pte_eq pa : 0 <= pa < 2 ^ 56 -> PA2PTE pa = pa / PGSIZE * 1024.
Proof.
  intros. unfold PA2PTE, PGSIZE. rewrite Z.shiftr_div_pow2, Z.shiftl_mul_pow2 by lia.
  change (2 ^ 12) with 4096. change (2 ^ 10) with 1024. rewrite u64_small; [done|].
  zmod.
Qed.

Lemma pte2pa_eq pte : 0 <= pte < 2 ^ 62 -> PTE2PA pte = pte / 1024 * 4096.
Proof.
  intros. unfold PTE2PA. rewrite Z.shiftr_div_pow2, Z.shiftl_mul_pow2 by lia.
  change (2 ^ 12) with 4096. change (2 ^ 10) with 1024. rewrite u64_small; [done|].
  zmod.
Qed.

Lemma pte_flags_eq pte : PTE_FLAGS pte = pte mod 1024.
Proof. exact (land_ones_mod pte 10 ltac:(lia)). Qed.

Lemma px_eq level va :
  0 <= level -> PX level va = (va / 2 ^ (12 + 9 * level)) mod 512.
Proof.
  intros. unfold PX, PX_SHIFT, PG_SHIFT, PX_MASK.
  rewrite Z.shiftr_div_pow2 by lia. exact (land_ones_mod _ 9 ltac:(lia)).
Qed.

Lemma px_range level va : 0 <= level -> 0 <= PX level va < 512.
Proof. intros. rewrite px_eq by lia. apply Z.mod_pos_bound. lia. Qed.

(** The entry [map_pages] builds: address and flags do not overlap. *)
Lemma pte_build pa f :
  0 <= pa < 2 ^ 56 -> 0 <= f < 1024 -> Z.lor (PA2PTE pa) f = pa / PGSIZE * 1024 + f.
Proof.
  intros. rewrite pa2pte_eq by lia. exact (lor_disjoint_add (pa / PGSIZE) f 10 ltac:(lia) ltac:(lia)).
Qed.

(** Two addresses below 2^39 with the same three indices are on the same page. *)
Lemma px_inj va va' :
  0 <= va < 2 ^ 39 -> 0 <= va' < 2 ^ 39 ->
  PX 2 va = PX 2 va' -> PX 1 va = PX 1 va' -> PX 0 va = PX 0 va' -> va / PGSIZE = va' / PGSIZE.
Proof.
  intros ? ?. rewrite !px_eq by lia. unfold PGSIZE.
  change (2 ^ (12 + 9 * 2)) with 1073741824. change (2 ^ (12 + 9 * 1)) with 2097152.
  change (2 ^ (12 + 9 * 0)) with 4096. zmod.
Qed.

Lemma intr_get_off x : intr_get (intr_off x) = 0.
Proof.
  unfold intr_get, intr_off. change SSTATUS_SIE with (2 ^ 1).
  rewrite land_pow2_eq0 by lia. rewrite Z.land_spec. by destruct (Z.testbit x 1).
Qed.

Lemma intr_off_idem x : intr_off (intr_off x) = intr_off x.
Proof. unfold intr_off. rewrite <- Z.land_assoc. by rewrite Z.land_diag. Qed.

Lemma intr_get_on x : intr_get (intr_on x) = 1.
Proof.
  unfold intr_get, intr_on. change SSTATUS_SIE with (2 ^ 1).
  rewrite land_pow2_eq0 by lia. rewrite Z.lor_spec. by destruct (Z.testbit x 1).
Qed.

Lemma intr_get_01 x : intr_get x = 0 \/ intr_get x = 1.
Proof. unfold intr_get. case_match; auto. Qed.

Lemma intr_off_on_off x : intr_off (intr_on (intr_off x)) = intr_off x.
Proof.
  unfold intr_off, intr_on. apply Z.bits_inj'. intros i Hi.
  rewrite !Z.land_spec, Z.lor_spec, Z.land_spec. change SSTATUS_SIE with (2 ^ 1).
  rewrite Z.pow2_bits_eqb by lia.
  destruct (Z.eqb_spec 1 i) as [<-|]; [|rewrite orb_false_r].
  - change (Z.testbit (not32 (2 ^ 1)) 1) with false. by rewrite !andb_false_r.
  - by destruct (Z.testbit x i), (Z.testbit (not32 (2 ^ 1)) i).
Qed.

(** ** Properties *)

(** PG_ROUND_DOWN and PG_ROUND_UP round to a page below 4 GiB, but PG_ROUND_DOWN
    drops the bits above bit 31 of every larger address. *)
Theorem page_rounding a :
  in64 a ->
  PG_ROUND_DOWN a = a mod 2 ^ 32 - a mod PGSIZE /\
  (a < 2 ^ 32 -> PG_ROUND_DOWN a = a / PGSIZE * PGSIZE) /\
  (2 ^ 32 <= a -> PG_ROUND_DOWN a <> a / PGSIZE * PGSIZE) /\
  (a <= 2 ^ 32 - PGSIZE ->
   a <= PG_ROUND_UP a < a + PGSIZE /\ PG_ROUND_UP a mod PGSIZE = 0).
Proof.
  unfold in64. intros Ha. split; [apply pg_round_down_eq; lia|]. split; [|split].
  - intros. rewrite pg_round_down_low by lia. unfold PGSIZE. zmod.
  - intros. rewrite pg_round_down_eq by lia. unfold PGSIZE. zmod.
  - intros. rewrite pg_round_up_low by lia. unfold PGSIZE. zmod.
Qed.

Lemma page_rounding_witness :
  PG_ROUND_DOWN 4294971397 = 4294971397 mod 2 ^ 32 - 4294971397 mod PGSIZE.
Proof. apply (page_rounding 4294971397). unfold in64. lia. Defined.

(** A page-table entry gives back the page and the flags it was made of. *)
Theorem pte_roundtrip pa f :
  0 <= pa < 2 ^ 56 -> 0 <= f < 1024 ->
  PTE2PA (Z.lor (PA2PTE pa) f) = pa / PGSIZE * PGSIZE /\
  PTE_FLAGS (Z.lor (PA2PTE pa) f) = f.
Proof.
  intros. rewrite pte_build, pte_flags_eq by lia. unfold PGSIZE. split; [|zmod].
  rewrite pte2pa_eq; zmod.
Qed.

Lemma pte_roundtrip_witness :
  PTE2PA (Z.lor (PA2PTE 2147487744) 7) = 2147487744 /\ PTE_FLAGS (Z.lor (PA2PTE 2147487744) 7) = 7.
Proof. apply (pte_roundtrip 2147487744 7); lia. Defined.
