(* ===== verification/Cstring.v ===== *)
(** * Memory and string routines ([micro_libcxx/src/cstring.cpp])

    The loops of the routines on the byte memory, with the [uint32_t] count
    they take, and their specifications.  An object never wraps around the end
    of the address space, so addresses inside one are plain integers. *)

From S2P Require Import Prelude.

(** ** The routines *)

(** [cdst[i] = ch] for [i < n], from [i] on. *)
Fixpoint memset_loop (m : memory) (dest ch : Z) (i : Z) (n : nat) : memory :=
  match n with
  | O => m
  | S n' => memset_loop (store8 m (dest + i) (u8 ch)) dest ch (i + 1) n'
  end.

Definition memset (m : memory) (dest ch count : Z) : memory :=
  memset_loop m dest ch 0 (Z.to_nat (u32 count)).

(** [d[i] = s[i]], upwards from [i]. *)
Fixpoint copy_up (m : memory) (d s : Z) (i : Z) (n : nat) : memory :=
  match n with
  | O => m
  | S n' => copy_up (store8 m (d + i) (m (s + i))) d s (i + 1) n'
  end.

(** [d[i - 1] = s[i - 1]] for [i = n, ..., 1]. *)
Fixpoint copy_down (m : memory) (d s : Z) (n : nat) : memory :=
  match n with
  | O => m
  | S n' => copy_down (store8 m (d + Z.of_nat n') (m (s + Z.of_nat n'))) d s n'
  end.

Definition memmove (m : memory) (dest src count : Z) : memory :=
  let count := u32 count in
  if (dest =? src) || (count =? 0) then m
  else if dest <? src then copy_up m dest src 0 (Z.to_nat count)
  else copy_down m dest src (Z.to_nat count).

Definition memcpy (m : memory) (dest src count : Z) : memory :=
  copy_up m dest src 0 (Z.to_nat (u32 count)).

(** First loop of [strncpy]: [while (count-- > 0 && ( *dest++ = *src++ ) != 0)].
    Returns the memory, [dest] and the value [count] is left with; the test
    that fails on [count == 0] still decrements it, to [2^32 - 1]. *)
Fixpoint strncpy_copy (n : nat) (m : memory) (dest src : Z) : memory * Z * Z :=
  match n with
  | O => (m, dest, 2 ^ 32 - 1)
  | S n' =>
      let c := m src in
      let m' := store8 m dest c in
      if c =? 0 then (m', dest + 1, Z.of_nat n') else strncpy_copy n' m' (dest + 1) (src + 1)
  end.

(** Second loop: [while (count-- > 0) *dest++ = 0]. *)
Fixpoint strncpy_pad (n : nat) (m : memory) (dest : Z) : memory :=
  match n with
  | O => m
  | S n' => strncpy_pad n' (store8 m dest 0) (dest + 1)
  end.

Definition strncpy (m : memory) (dest src count : Z) : memory :=
  let '(m1, dest1, count1) := strncpy_copy (Z.to_nat (u32 count)) m dest src in
  strncpy_pad (Z.to_nat count1) m1 dest1.

Fixpoint strncmp_loop (n : nat) (m : memory) (lhs rhs : Z) : Z :=
  match n with
  | O => 0
  | S n' =>
      if negb (m lhs =? 0) && (m lhs =? m rhs) then strncmp_loop n' m (lhs + 1) (rhs + 1)
      else m lhs - m rhs
  end.

Definition strncmp (m : memory) (lhs rhs count : Z) : Z :=
  strncmp_loop (Z.to_nat (u32 count)) m lhs rhs.

(** [while ( *s != 0 ) ++s], at most [fuel] steps. *)
Fixpoint strlen_scan (fuel : nat) (m : memory) (s : Z) : option Z :=
  match fuel with
  | O => None
  | S f => if m s =? 0 then Some s else strlen_scan f m (s + 1)
  end.

Definition strlen (fuel : nat) (m : memory) (str : Z) : option Z :=
  if str =? 0 then Some 0
  else match strlen_scan fuel m str with
       | Some s => Some (u32 (s - str))
       | None => None
       end.

(** ** Lemmas *)

Lemma store8_eq m a v : store8 m a v a = v.
Proof. unfold store8. by rewrite Z.eqb_refl. Qed.

Lemma store8_ne m a v x : x <> a -> store8 m a v x = m x.
Proof. intros. unfold store8. by rewrite (proj2 (Z.eqb_neq x a)). Qed.

(** Decide a byte of a memory built by [store8]. *)
Ltac at_byte :=
  unfold store8 in *;
  repeat match goal with |- context [?a =? ?b] => destruct (Z.eqb_spec a b) end.

Lemma memset_loop_spec n m dest ch i x :
  memset_loop m dest ch i n x =
  if (dest + i <=? x) && (x <? dest + i + Z.of_nat n) then u8 ch else m x.
Proof.
  revert m i; induction n as [|n IH]; intros m i; cbn [memset_loop].
  { zcases; simpl; try lia; done. }
  rewrite IH. at_byte; zcases; simpl; try lia; done.
Qed.

Lemma memset_spec m dest ch count x :
  0 <= count < 2 ^ 32 ->
  memset m dest ch count x = if (dest <=? x) && (x <? dest + count) then u8 ch else m x.
Proof.
  intros. unfold memset. rewrite memset_loop_spec, u32_small by lia.
  zcases; simpl; try lia; done.
Qed.

Lemma memset_in m dest ch count x :
  0 <= count < 2 ^ 32 -> dest <= x < dest + count -> memset m dest ch count x = u8 ch.
Proof. intros. rewrite memset_spec by lia. zcases; simpl; try lia; done. Qed.

Lemma memset_out m dest ch count x :
  0 <= count < 2 ^ 32 -> x < dest \/ dest + count <= x -> memset m dest ch count x = m x.
Proof. intros. rewrite memset_spec by lia. zcases; simpl; try lia; done. Qed.

Lemma copy_up_spec n m d s i x :
  0 <= i -> d < s \/ s + i + Z.of_nat n <= d ->
  copy_up m d s i n x =
  if (d + i <=? x) && (x <? d + i + Z.of_nat n) then m (s + (x - d)) else m x.
Proof.
  revert m i; induction n as [|n IH]; intros m i Hi Hds; cbn [copy_up].
  { zcases; simpl; try lia; done. }
  rewrite IH by lia. destruct (Z.eq_dec x (d + i)) as [->|Hx].
  - rewrite store8_eq. zcases; simpl; try lia. f_equal. lia.
  - rewrite (store8_ne _ _ _ x) by lia. zcases; simpl; try lia; try done.
    rewrite store8_ne; [done | lia].
Qed.

Lemma copy_down_spec n m d s x :
  s <= d -> copy_down m d s n x =
  if (d <=? x) && (x <? d + Z.of_nat n) then m (s + (x - d)) else m x.
Proof.
  revert m; induction n as [|n IH]; intros m Hsd; cbn [copy_down].
  { zcases; simpl; try lia; done. }
  rewrite IH by lia. destruct (Z.eq_dec x (d + Z.of_nat n)) as [->|Hx].
  - rewrite store8_eq. zcases; simpl; try lia. f_equal. lia.
  - rewrite (store8_ne _ _ _ x) by lia. zcases; simpl; try lia; try done.
    rewrite store8_ne; [done | lia].
Qed.

Lemma memmove_spec m d s count x :
  0 <= count < 2 ^ 32 ->
  memmove m d s count x = if (d <=? x) && (x <? d + count) then m (s + (x - d)) else m x.
Proof.
  intros. unfold memmove. rewrite u32_small by lia.
  destruct (Z.eqb_spec d s) as [->|]; simpl; [zcases; simpl; f_equal; lia|].
  destruct (Z.eqb_spec count 0) as [->|]; [zcases; simpl; try lia; done|].
  destruct (Z.ltb_spec d s); [rewrite copy_up_spec by lia | rewrite copy_down_spec by lia];
  zcases; simpl; try lia; done.
Qed.

Lemma memmove_io m d s count : 0 <= count < 2 ^ 32 ->
  (forall i, 0 <= i < count -> memmove m d s count (d + i) = m (s + i)) /\
  (forall x, x < d \/ d + count <= x -> memmove m d s count x = m x).
Proof.
  intros Hc. split; intros; rewrite memmove_spec by lia; zcases; simpl; try lia; try done. f_equal. lia.
Qed.

Lemma strncpy_copy_nul n m dest src k :
  (k < n)%nat -> dest + Z.of_nat n <= src \/ src + Z.of_nat n <= dest ->
  m (src + Z.of_nat k) = 0 -> (forall j, (j < k)%nat -> m (src + Z.of_nat j) <> 0) ->
  exists m1, strncpy_copy n m dest src = (m1, dest + Z.of_nat k + 1, Z.of_nat (n - k - 1)) /\
  forall x, m1 x = if (dest <=? x) && (x <? dest + Z.of_nat k + 1)
                   then m (src + (x - dest)) else m x.
Proof.
  revert m dest src k; induction n as [|n IH]; intros m dest src k Hk Hd H0 Hnz; [lia|].
  cbn [strncpy_copy]. destruct k as [|k].
  - rewrite Z.add_0_r in H0. rewrite H0. cbn [Z.eqb]. exists (store8 m dest 0). split.
    + do 2 f_equal; lia.
    + intros x. at_byte; zcases; simpl; try lia; try done. subst. rewrite <- H0. f_equal. lia.
  - pose proof (Hnz 0%nat ltac:(lia)) as Hs. rewrite Z.add_0_r in Hs.
    rewrite (proj2 (Z.eqb_neq _ _) Hs).
    destruct (IH (store8 m dest (m src)) (dest + 1) (src + 1) k) as (m1 & -> & Hm1); try lia.
    { rewrite store8_ne by lia. rewrite <- H0. f_equal. lia. }
    { intros j Hj. rewrite store8_ne by lia. replace (src + 1 + Z.of_nat j) with (src + Z.of_nat (S j)) by lia.
      apply Hnz. lia. }
    exists m1. split; [do 2 f_equal; lia|]. intros x. rewrite Hm1.
    destruct (Z.eq_dec x dest) as [->|].
    + rewrite store8_eq. zcases; simpl; try lia. f_equal. lia.
    + rewrite (store8_ne _ _ _ x) by lia. zcases; simpl; try lia; try done.
      rewrite store8_ne by lia. f_equal. lia.
Qed.

Lemma strncpy_copy_full n m dest src :
  dest + Z.of_nat n <= src \/ src + Z.of_nat n <= dest ->
  (forall j, (j < n)%nat -> m (src + Z.of_nat j) <> 0) ->
  exists m1, strncpy_copy n m dest src = (m1, dest + Z.of_nat n, 2 ^ 32 - 1) /\
  forall x, m1 x = if (dest <=? x) && (x <? dest + Z.of_nat n)
                   then m (src + (x - dest)) else m x.
Proof.
  revert m dest src; induction n as [|n IH]; intros m dest src Hd Hnz; cbn [strncpy_copy].
  { exists m. split; [do 2 f_equal; lia|]. intros x. zcases; simpl; try lia; done. }
  pose proof (Hnz 0%nat ltac:(lia)) as Hs. rewrite Z.add_0_r in Hs.
  rewrite (proj2 (Z.eqb_neq _ _) Hs).
  destruct (IH (store8 m dest (m src)) (dest + 1) (src + 1)) as (m1 & -> & Hm1); try lia.
  { intros j Hj. rewrite store8_ne by lia. replace (src + 1 + Z.of_nat j) with (src + Z.of_nat (S j)) by lia.
    apply Hnz. lia. }
  exists m1. split; [do 2 f_equal; lia|]. intros x. rewrite Hm1.
  destruct (Z.eq_dec x dest) as [->|].
  - rewrite store8_eq. zcases; simpl; try lia. f_equal. lia.
  - rewrite (store8_ne _ _ _ x) by lia. zcases; simpl; try lia; try done.
    rewrite store8_ne by lia. f_equal. lia.
Qed.

Lemma strncpy_pad_spec n m dest x :
  strncpy_pad n m dest x = if (dest <=? x) && (x <? dest + Z.of_nat n) then 0 else m x.
Proof.
  revert m dest; induction n as [|n IH]; intros m dest; cbn [strncpy_pad].
  { zcases; simpl; try lia; done. }
  rewrite IH. at_byte; zcases; simpl; try lia; done.
Qed.

(** ** Properties *)

(** C37: memmove copies the original source bytes even when the regions overlap, and
    writes nothing else. *)
Theorem memmove_overlap m d s count :
  0 <= count < 2 ^ 32 ->
  (forall i, 0 <= i < count -> memmove m d s count (d + i) = m (s + i)) /\
  (forall x, x < d \/ d + count <= x -> memmove m d s count x = m x).
Proof. apply memmove_io. Qed.

Lemma memmove_overlap_witness :
  let m := fun x => if x =? 100 then 7 else if x =? 101 then 8 else if x =? 102 then 9 else 0 in
  (forall i, 0 <= i < 3 -> memmove m 101 100 3 (101 + i) = m (100 + i)) /\
  memmove m 101 100 3 103 = 9 /\ memmove m 101 100 3 100 = 7.
Proof.
  intros m. split; [apply (memmove_overlap m 101 100 3); lia|]. split; reflexivity.
Defined.

(** A string with a NUL within the count is copied, padded with zeros up to the count, and nothing else is written. *)
Theorem strncpy_bounded m dest src count k :
  0 <= k < count -> count < 2 ^ 32 ->
  dest + count <= src \/ src + count <= dest ->
  m (src + k) = 0 -> (forall j, 0 <= j < k -> m (src + j) <> 0) ->
  (forall i, 0 <= i < k -> strncpy m dest src count (dest + i) = m (src + i)) /\
  (forall i, k <= i < count -> strncpy m dest src count (dest + i) = 0) /\
  (forall x, x < dest \/ dest + count <= x -> strncpy m dest src count x = m x).
Proof.
  intros Hk Hc Hd H0 Hnz. unfold strncpy. rewrite u32_small by lia.
  destruct (strncpy_copy_nul (Z.to_nat count) m dest src (Z.to_nat k)) as (m1 & -> & Hm1); try lia.
  { by rewrite Z2Nat.id by lia. }
  { intros j Hj. apply Hnz. lia. }
  repeat split; intros; rewrite strncpy_pad_spec, Hm1; zcases; simpl; try lia; try done.
  - f_equal. lia.
  - rewrite <- H0. f_equal. lia.
Qed.

Lemma strncpy_bounded_witness :
  let m := fun x => if x =? 200 then 104 else if x =? 201 then 105 else if x =? 202 then 0 else 255 in
  strncpy m 100 200 5 104 = 0 /\ strncpy m 100 200 5 101 = 105.
Proof.
  intros m. destruct (strncpy_bounded m 100 200 5 2) as (H1 & H2 & _); try lia; try reflexivity.
  { intros j Hj. assert (j = 0 \/ j = 1) as [-> | ->] by lia; done. }
  split; [exact (H2 4 ltac:(lia)) | exact (H1 1 ltac:(lia))].
Defined.

(** strncpy of a string with no NUL in its first count bytes copies them and then
    zeroes the 2^32 - 1 bytes after the destination. *)
Theorem strncpy_overrun m dest src count :
  0 <= count < 2 ^ 32 ->
  dest + count <= src \/ src + count <= dest ->
  (forall j, 0 <= j < count -> m (src + j) <> 0) ->
  (forall i, 0 <= i < count -> strncpy m dest src count (dest + i) = m (src + i)) /\
  (forall x, dest + count <= x < dest + count + (2 ^ 32 - 1) -> strncpy m dest src count x = 0).
Proof.
  intros Hc Hd Hnz. unfold strncpy. rewrite u32_small by lia.
  destruct (strncpy_copy_full (Z.to_nat count) m dest src) as (m1 & -> & Hm1); try lia.
  { intros j Hj. apply Hnz. lia. }
  split; intros; rewrite strncpy_pad_spec; [rewrite Hm1|]; zcases; simpl; try lia; try done.
  f_equal. lia.
Qed.

Lemma strncpy_overrun_witness :
  let m := fun x : Z => 65 in
  strncpy m 100 200 3 102 = 65 /\ strncpy m 100 200 3 103 = 0 /\ strncpy m 100 200 3 5000 = 0.
Proof.
  intros m. destruct (strncpy_overrun m 100 200 3) as [H1 H2]; try lia.
  { intros j _. subst m. cbv beta. lia. }
  split; [exact (H1 2 ltac:(lia))|]. split; apply H2; lia.
Defined.

(** [strncmp] is 0 exactly when the strings agree up to a common NUL or up to the count. *)
Theorem strncmp_equal m lhs rhs count :
  0 <= count < 2 ^ 32 ->
  strncmp m lhs rhs count = 0 <->
  exists k, 0 <= k <= count /\
    (forall j, 0 <= j < k -> m (lhs + j) = m (rhs + j) /\ m (lhs + j) <> 0) /\
    (k < count -> m (lhs + k) = 0 /\ m (rhs + k) = 0).
Proof.
  intros Hc. unfold strncmp. rewrite u32_small by lia.
  assert (count = Z.of_nat (Z.to_nat count)) as E by lia. revert E.
  generalize (Z.to_nat count) as n. clear Hc. intros n ->; revert lhs rhs; induction n as [|n IH]; intros lhs rhs; cbn [strncmp_loop].
  { split; [intros _; exists 0; repeat split; lia | done]. }
  destruct (Z.eqb_spec (m lhs) 0) as [E0|E0]; simpl.
  - split.
    + intros H. exists 0. rewrite !Z.add_0_r. repeat split; lia.
    + intros (k & Hk & Hj & Hend). destruct (Z.eq_dec k 0) as [->|].
      * rewrite !Z.add_0_r in Hend. lia.
      * destruct (Hj 0) as [_ H]; [lia|]. by rewrite Z.add_0_r in H.
  - destruct (Z.eqb_spec (m lhs) (m rhs)) as [E|E].
    + rewrite IH. split; intros (k & Hk & Hj & Hend).
      * exists (k + 1). split; [lia|]. split.
        { intros j Hjk. destruct (Z.eq_dec j 0) as [->|]; [by rewrite !Z.add_0_r|].
          specialize (Hj (j - 1) ltac:(lia)).
          by replace (lhs + 1 + (j - 1)) with (lhs + j) in Hj by lia;
             replace (rhs + 1 + (j - 1)) with (rhs + j) in Hj by lia. }
        { intros. replace (lhs + (k + 1)) with (lhs + 1 + k) by lia.
          replace (rhs + (k + 1)) with (rhs + 1 + k) by lia. apply Hend. lia. }
      * assert (k <> 0). { intros ->. rewrite !Z.add_0_r in Hend. lia. }
        exists (k - 1). split; [lia|]. split.
        { intros j Hjk. replace (lhs + 1 + j) with (lhs + (j + 1)) by lia.
          replace (rhs + 1 + j) with (rhs + (j + 1)) by lia. apply Hj. lia. }
        { intros. replace (lhs + 1 + (k - 1)) with (lhs + k) by lia.
          replace (rhs + 1 + (k - 1)) with (rhs + k) by lia. apply Hend. lia. }
    + split; [lia|]. intros (k & Hk & Hj & Hend). exfalso.
      destruct (Z.eq_dec k 0) as [->|].
      * rewrite !Z.add_0_r in Hend. lia.
      * destruct (Hj 0) as [H _]; [lia|]. rewrite !Z.add_0_r in H. done.
Qed.

Lemma strncmp_equal_witness :
  let m := fun x => if x =? 102 then 0 else if x =? 202 then 0 else 66 in
  strncmp m 100 200 14 = 0 /\
  exists k, 0 <= k <= 14 /\
    (forall j, 0 <= j < k -> m (100 + j) = m (200 + j) /\ m (100 + j) <> 0) /\
    (k < 14 -> m (100 + k) = 0 /\ m (200 + k) = 0).
Proof.
  intros m. split; [reflexivity|]. apply (strncmp_equal m 100 200 14); [lia | reflexivity].
Defined.

(** Callers reason with the specifications above. *)
#[global] Opaque memset memmove memcpy strncpy.
