(* ===== verification/Lock.v ===== *)
(** * Spin locks and interrupt nesting ([lock.cpp], [lock.h])

    The lock operations as kernel functions, their effect as functions of the
    hart-and-lock part of the state ([acq], [rel], [bal]), and a small-step
    model of the same statements interleaved on several harts.  Sleep locks,
    which call [proc::sleep], are in [Sched]. *)

From S2P Require Import Prelude State Riscv.

(** ** The functions *)

Definition on_hl (f : hartlocks -> hartlocks) : M unit := modify (fun s => set_k_hl (f (k_hl s)) s).

(** [proc::cpuid], [proc::curr_cpu]. *)
Definition cpuid : M nat := gets (fun s => hl_tp (k_hl s)).

Definition curr_cpu : M cpu :=
  h <- gets k_hl ;; of_option "cpu_list" (hl_cpus h !! hl_tp h).

(** Assignment through [proc::curr_cpu()]. *)
Definition put_cpu (c : cpu) : M unit := on_hl (fun h => set_hl_cpus (<[hl_tp h := c]> (hl_cpus h)) h).

Definition lock_of (L : lockid) (h : hartlocks) : spinlock := default unlocked (hl_locks h !! L).

Definition put_lock (L : lockid) (l : spinlock) : M unit :=
  on_hl (fun h => set_hl_locks (<[L := l]> (hl_locks h)) h).

(** [intr_get()], [intr_off()], [intr_on()] on the executing hart. *)
Definition hart_intr_get : M Z := gets (fun s => intr_get (hl_sstatus (k_hl s))).
Definition hart_intr_off : M unit := on_hl (fun h => set_hl_sstatus (intr_off (hl_sstatus h)) h).
Definition hart_intr_on : M unit := on_hl (fun h => set_hl_sstatus (intr_on (hl_sstatus h)) h).

Definition holding (L : lockid) : M bool :=
  h <- gets k_hl ;;
  ret (locked (lock_of L h) && bool_decide (lk_cpu (lock_of L h) = Some (hl_tp h))).

Definition push_off : M unit :=
  old <- hart_intr_get ;;
  hart_intr_off ;;
  c <- curr_cpu ;;
  when (noff c =? 0) (put_cpu (set_intena old c)) ;;
  c <- curr_cpu ;;
  put_cpu (set_noff (u32 (noff c + 1)) c).

Definition pop_off : M unit :=
  c <- curr_cpu ;;
  i <- hart_intr_get ;;
  if negb (i =? 0) then panic "pop_off - interruptible"
  else if noff c <? 1 then panic "pop_off"
  else
    let c := set_noff (u32 (noff c - 1)) c in
    put_cpu c ;;
    when ((noff c =? 0) && negb (intena c =? 0)) hart_intr_on.

(** [__sync_lock_test_and_set(&locked, true)]. *)
Definition test_and_set (L : lockid) : M bool :=
  h <- gets k_hl ;;
  put_lock L (set_locked true (lock_of L h)) ;;
  ret (locked (lock_of L h)).

Definition acquire (L : lockid) : M unit :=
  push_off ;;
  held <- holding L ;;
  if held : bool then panic "lock::acquire: already holding the lock"
  else
    while_waiting (test_and_set L) await ;;
    id <- cpuid ;;
    h <- gets k_hl ;;
    put_lock L (set_lk_cpu (Some id) (lock_of L h)).

Definition release (L : lockid) : M unit :=
  held <- holding L ;;
  if negb held then panic "lock::release: no lock"
  else
    h <- gets k_hl ;;
    put_lock L (set_lk_cpu None (lock_of L h)) ;;
    h <- gets k_hl ;;
    put_lock L (set_locked false (lock_of L h)) ;;
    pop_off.

(** ** The operations on the hart-and-lock state *)

Definition cur (h : hartlocks) : cpu := default (Mk_cpu None 0 0) (hl_cpus h !! hl_tp h).

(** [room n h]: the executing hart has its [struct cpu] and can take [n] more
    locks before [noff] wraps. *)
Definition room (n : Z) (h : hartlocks) : Prop :=
  is_Some (hl_cpus h !! hl_tp h) /\ 0 <= noff (cur h) /\ noff (cur h) + n < 2 ^ 32.

Definition free (L : lockid) (h : hartlocks) : Prop := hl_locks h !! L = Some unlocked.

Definition held_by_me (L : lockid) (h : hartlocks) : Prop :=
  hl_locks h !! L = Some {| locked := true; lk_cpu := Some (hl_tp h) |}.

(** State after [push_off]. *)
Definition push (h : hartlocks) : hartlocks :=
  {| hl_tp := hl_tp h;
     hl_sstatus := intr_off (hl_sstatus h);
     hl_cpus := <[hl_tp h := {| c_proc := c_proc (cur h); noff := noff (cur h) + 1;
                    intena := if noff (cur h) =? 0 then intr_get (hl_sstatus h)
                              else intena (cur h) |}]> (hl_cpus h);
     hl_locks := hl_locks h |}.

(** State after [pop_off], from a state with interrupts off and [noff > 0]. *)
Definition pop (h : hartlocks) : hartlocks :=
  {| hl_tp := hl_tp h;
     hl_sstatus := if (noff (cur h) =? 1) && negb (intena (cur h) =? 0)
                   then intr_on (hl_sstatus h) else hl_sstatus h;
     hl_cpus := <[hl_tp h := set_noff (noff (cur h) - 1) (cur h)]> (hl_cpus h);
     hl_locks := hl_locks h |}.

(** State after [acquire L] of a free lock; after [release L] of a held one. *)
Definition acq (L : lockid) (h : hartlocks) : hartlocks :=
  set_hl_locks (<[L := {| locked := true; lk_cpu := Some (hl_tp h) |}]> (hl_locks h)) (push h).

Definition rel (L : lockid) (h : hartlocks) : hartlocks :=
  pop (set_hl_locks (<[L := unlocked]> (hl_locks h)) h).

(** A balanced [push_off]/[pop_off] pair: what a critical section leaves behind. *)
Definition bal (h : hartlocks) : hartlocks := pop (push h).

(** ** Lemmas *)

Lemma cur_lookup h : is_Some (hl_cpus h !! hl_tp h) -> hl_cpus h !! hl_tp h = Some (cur h).
Proof. intros [c Hc]. unfold cur. by rewrite Hc. Qed.

Lemma cur_push h :
  is_Some (hl_cpus h !! hl_tp h) ->
  cur (push h) = {| c_proc := c_proc (cur h); noff := noff (cur h) + 1;
                    intena := if noff (cur h) =? 0 then intr_get (hl_sstatus h) else intena (cur h) |}.
Proof.
  intros H. unfold cur at 1, push; cbn [hl_cpus hl_tp].
  rewrite list_lookup_insert_eq; [done | by apply lookup_lt_is_Some]. Qed.

Lemma cur_pop h :
  is_Some (hl_cpus h !! hl_tp h) -> cur (pop h) = set_noff (noff (cur h) - 1) (cur h).
Proof.
  intros H. unfold cur at 1, pop; cbn [hl_cpus hl_tp].
  rewrite list_lookup_insert_eq; [done | by apply lookup_lt_is_Some]. Qed.

Lemma cur_set_locks l h : cur (set_hl_locks l h) = cur h.
Proof. reflexivity. Qed.

Lemma room_cur n h : room n h -> hl_cpus h !! hl_tp h = Some (cur h).
Proof. intros [H _]. by apply cur_lookup. Qed.

Lemma room_push n h : room n h -> room (n - 1) (push h).
Proof.
  intros (H & H0 & Hn). split.
  - unfold push; cbn. rewrite list_lookup_insert_eq; [done | by apply lookup_lt_is_Some].
  - rewrite cur_push by done. cbn. lia.
Qed.

Lemma room_acq n L h : room n h -> room (n - 1) (acq L h).
Proof. intros H. exact (room_push n h H). Qed.

Lemma room_weaken n k h : room n h -> k <= n -> room k h.
Proof. intros (? & ? & ?) ?. split; [done | lia]. Qed.

Lemma bal_tp h : hl_tp (bal h) = hl_tp h.
Proof. reflexivity. Qed.

Lemma bal_locks h : hl_locks (bal h) = hl_locks h.
Proof. reflexivity. Qed.

Lemma cur_bal h :
  is_Some (hl_cpus h !! hl_tp h) ->
  cur (bal h) = {| c_proc := c_proc (cur h); noff := noff (cur h);
                   intena := if noff (cur h) =? 0 then intr_get (hl_sstatus h) else intena (cur h) |}.
Proof.
  intros H. unfold bal. rewrite cur_pop.
  - rewrite cur_push by done. unfold set_noff; cbn. f_equal. lia.
  - unfold push; cbn. rewrite list_lookup_insert_eq; [done | by apply lookup_lt_is_Some].
Qed.

Lemma room_bal n h : room n h -> room n (bal h).
Proof.
  intros (H & H0 & Hn). split.
  - unfold bal, pop, push; cbn. rewrite list_lookup_insert_eq; [done|].
    rewrite length_insert. by apply lookup_lt_is_Some.
  - rewrite cur_bal by done. cbn. lia.
Qed.

Lemma bal_sstatus h :
  is_Some (hl_cpus h !! hl_tp h) ->
  hl_sstatus (bal h) =
  if (noff (cur h) =? 0) && negb (intr_get (hl_sstatus h) =? 0)
  then intr_on (intr_off (hl_sstatus h)) else intr_off (hl_sstatus h).
Proof.
  intros H. unfold bal, pop. cbn [hl_sstatus]. rewrite cur_push by done. cbn [noff intena].
  change (hl_sstatus (push h)) with (intr_off (hl_sstatus h)).
  destruct (Z.eqb_spec (noff (cur h)) 0) as [E|E].
  - rewrite E. reflexivity.
  - destruct (Z.eqb_spec (noff (cur h) + 1) 1); [lia|]. done.
Qed.

Lemma bal_cpus h :
  is_Some (hl_cpus h !! hl_tp h) ->
  hl_cpus (bal h) =
  <[hl_tp h := {| c_proc := c_proc (cur h); noff := noff (cur h);
                  intena := if noff (cur h) =? 0 then intr_get (hl_sstatus h)
                            else intena (cur h) |}]> (hl_cpus h).
Proof.
  intros H. unfold bal, pop. cbn [hl_cpus hl_tp]. rewrite cur_push by done.
  unfold push; cbn. rewrite list_insert_insert_eq. f_equal. unfold set_noff; cbn. f_equal. lia.
Qed.

Lemma hl_eq h1 h2 :
  hl_tp h1 = hl_tp h2 -> hl_sstatus h1 = hl_sstatus h2 -> hl_cpus h1 = hl_cpus h2 ->
  hl_locks h1 = hl_locks h2 -> h1 = h2.
Proof. destruct h1, h2; simpl; congruence. Qed.

Lemma bal_idem h : is_Some (hl_cpus h !! hl_tp h) -> bal (bal h) = bal h.
Proof.
  intros H. assert (is_Some (hl_cpus (bal h) !! hl_tp (bal h))) as H'.
  { rewrite bal_cpus, bal_tp, list_lookup_insert_eq by (done || by apply lookup_lt_is_Some). done. }
  apply hl_eq; [done | | | done].
  - rewrite !bal_sstatus by done. rewrite cur_bal by done. cbn [noff].
    destruct (Z.eqb_spec (noff (cur h)) 0); simpl; [|apply intr_off_idem].
    destruct (Z.eqb_spec (intr_get (hl_sstatus h)) 0); simpl.
    + by rewrite intr_get_off, intr_off_idem.
    + by rewrite intr_get_on, intr_off_on_off.
  - rewrite (bal_cpus (bal h)), (bal_cpus h), bal_tp by done. rewrite list_insert_insert_eq.
    f_equal. rewrite cur_bal by done. cbn [c_proc noff intena]. f_equal.
    destruct (Z.eqb_spec (noff (cur h)) 0); [|done].
    rewrite bal_sstatus by done. rewrite (proj2 (Z.eqb_eq _ _)) by done. simpl.
    destruct (intr_get_01 (hl_sstatus h)) as [-> | ->]; simpl;
    by rewrite ?intr_get_off, ?intr_get_on.
Qed.

(** Inside a critical section a nested, balanced pair changes nothing. *)
Lemma bal_push h : is_Some (hl_cpus h !! hl_tp h) -> 0 <= noff (cur h) -> bal (push h) = push h.
Proof.
  intros H H0. assert (is_Some (hl_cpus (push h) !! hl_tp (push h))) as H'.
  { unfold push; cbn. rewrite list_lookup_insert_eq; [done | by apply lookup_lt_is_Some]. }
  apply hl_eq; [done | | | done].
  - rewrite bal_sstatus, cur_push by done. cbn [noff].
    destruct (Z.eqb_spec (noff (cur h) + 1) 0); [lia|]. simpl. apply intr_off_idem.
  - rewrite bal_cpus, cur_push by done. cbn [noff c_proc intena].
    destruct (Z.eqb_spec (noff (cur h) + 1) 0); [lia|].
    unfold push; cbn. by rewrite list_insert_insert_eq.
Qed.

Lemma bal_acq L h n : room n h -> bal (acq L h) = acq L h.
Proof.
  intros (H & H0 & _). unfold acq.
  transitivity (set_hl_locks (<[L:={| locked := true; lk_cpu := Some (hl_tp h) |}]> (hl_locks h)) (bal (push h)));
  [done|]. by rewrite bal_push.
Qed.

Lemma rel_acq L h : free L h -> rel L (acq L h) = bal h.
Proof.
  intros HL. unfold rel, acq, bal. apply hl_eq; try done. cbn.
  rewrite insert_insert_eq. by apply insert_id.
Qed.

(** Releasing the outer of two locks first. *)
Lemma rel_acq_acq L P h n :
  L <> P -> free L h -> room n h -> rel L (acq P (acq L h)) = acq P h.
Proof.
  intros Hne HL (H & H0 & Hn).
  assert (is_Some (hl_cpus (push h) !! hl_tp (push h))) as H'.
  { unfold push; cbn. rewrite list_lookup_insert_eq; [done | by apply lookup_lt_is_Some]. }
  assert (pop (push (push h)) = push h) as E by (by apply bal_push).
  apply hl_eq; try done.
  - exact (f_equal hl_sstatus E).
  - exact (f_equal hl_cpus E).
  - cbn. rewrite (insert_insert_ne _ P L) by congruence. rewrite insert_insert_eq.
    rewrite (insert_insert_ne _ L P) by done. f_equal. by apply insert_id.
Qed.

Lemma free_acq_ne L P h : L <> P -> free P h -> free P (acq L h).
Proof. intros Hne HP. unfold free, acq; cbn. by rewrite lookup_insert_ne. Qed.

Lemma free_bal L h : free L h -> free L (bal h).
Proof. done. Qed.

Lemma held_acq L h : held_by_me L (acq L h).
Proof. unfold held_by_me, acq; cbn. by rewrite lookup_insert_eq. Qed.

(** *** The functions compute these states *)

Lemma push_off_run s e :
  room 1 (k_hl s) -> push_off s e = Ret tt (set_k_hl (push (k_hl s)) s) e.
Proof.
  intros (H & H0 & Hn). pose proof (cur_lookup _ H) as Hc.
  assert ((hl_tp (k_hl s) < length (hl_cpus (k_hl s)))%nat) as Hlt by (by apply lookup_lt_is_Some).
  unfold push_off, hart_intr_get, hart_intr_off, curr_cpu, put_cpu, on_hl. kred. cbn.
  rewrite Hc. unfold push.
  destruct (Z.eqb_spec (noff (cur (k_hl s))) 0) as [E|E]; cbn.
  - rewrite list_lookup_insert_eq by done. cbn. rewrite list_insert_insert_eq, u32_small by lia.
    unfold set_noff, set_intena, set_k_hl, set_hl_cpus, set_hl_sstatus; cbn. done.
  - rewrite Hc. rewrite u32_small by lia. done.
Qed.

Lemma pop_off_run s e :
  is_Some (hl_cpus (k_hl s) !! hl_tp (k_hl s)) ->
  intr_get (hl_sstatus (k_hl s)) = 0 -> 1 <= noff (cur (k_hl s)) < 2 ^ 32 ->
  pop_off s e = Ret tt (set_k_hl (pop (k_hl s)) s) e.
Proof.
  intros H Hi Hn. pose proof (cur_lookup _ H) as Hc.
  unfold pop_off, hart_intr_get, hart_intr_on, curr_cpu, put_cpu, on_hl. kred. cbn.
  rewrite Hc, Hi. cbn. destruct (Z.ltb_spec (noff (cur (k_hl s))) 1); [lia|].
  rewrite u32_small by lia. unfold pop.
  destruct (Z.eqb_spec (noff (cur (k_hl s)) - 1) 0), (Z.eqb_spec (noff (cur (k_hl s))) 1);
    try lia; cbn; [|done].
  destruct (intena (cur (k_hl s)) =? 0); done.
Qed.

Lemma acquire_run L s e :
  room 1 (k_hl s) -> free L (k_hl s) ->
  acquire L s e = Ret tt (set_k_hl (acq L (k_hl s)) s) e.
Proof.
  intros Hr HL. unfold acquire. kstep push_off_run; [done|].
  unfold holding, test_and_set, put_lock, on_hl, lock_of, cpuid, while_waiting. kred. cbn.
  rewrite HL. cbn. kred. cbn. rewrite HL. cbn. rewrite lookup_insert_eq. cbn.
  unfold set_k_hl, acq, set_hl_locks; cbn. by rewrite insert_insert_eq.
Qed.

Lemma release_run L s e :
  held_by_me L (k_hl s) -> room 0 (k_hl s) -> 1 <= noff (cur (k_hl s)) ->
  intr_get (hl_sstatus (k_hl s)) = 0 ->
  release L s e = Ret tt (set_k_hl (rel L (k_hl s)) s) e.
Proof.
  intros HL (H & _ & Hn) H1 Hi. unfold release, holding, put_lock, on_hl, lock_of. kred.
  rewrite HL. cbn. rewrite bool_decide_true by done. cbn. rewrite lookup_insert_eq. cbn.
  erewrite pop_off_run; cbn; [ | done | done | rewrite !cur_set_locks; lia].
  unfold rel, set_k_hl; cbn. do 2 f_equal. unfold set_lk_cpu, set_locked; cbn.
  unfold set_hl_locks; cbn. by rewrite insert_insert_eq.
Qed.

(** The form used by clients: releasing a lock taken by [acquire]. *)
Lemma release_acq_run L h s e :
  k_hl s = acq L h -> room 1 h -> free L h ->
  release L s e = Ret tt (set_k_hl (bal h) s) e.
Proof.
  intros Hs Hr HL. rewrite release_run; rewrite Hs.
  - by rewrite rel_acq.
  - apply held_acq.
  - exact (room_acq 1 L h Hr).
  - unfold acq. rewrite cur_set_locks, cur_push by apply Hr. cbn. destruct Hr as (_ & ? & _). lia.
  - apply intr_get_off.
Qed.

(** ** Interrupt nesting *)

Fixpoint times (n : nat) (m : M unit) : M unit :=
  match n with O => ret tt | S n' => m ;; times n' m end.

Lemma times_push n s e :
  room (Z.of_nat n) (k_hl s) ->
  times n push_off s e = Ret tt (set_k_hl (Nat.iter n push (k_hl s)) s) e.
Proof.
  revert s; induction n as [|n IH]; intros s Hr; cbn [times]; [by destruct s|].
  kstep push_off_run; [apply (room_weaken (Z.of_nat (S n))); [done|lia]|].
  rewrite IH by (cbn; apply (room_weaken (Z.of_nat (S n) - 1)); [by apply room_push|lia]).
  cbn. by rewrite <- Nat.iter_succ_r.
Qed.

Lemma iter_push_facts n h :
  room (Z.of_nat n) h ->
  is_Some (hl_cpus (Nat.iter n push h) !! hl_tp (Nat.iter n push h)) /\
  noff (cur (Nat.iter n push h)) = noff (cur h) + Z.of_nat n /\
  ((0 < n)%nat -> intr_get (hl_sstatus (Nat.iter n push h)) = 0).
Proof.
  induction n as [|n IH]; intros Hr.
  { destruct Hr as (? & ? & ?). cbn. repeat split; [done | lia | intros; lia]. }
  destruct IH as (H1 & H2 & H3); [apply (room_weaken (Z.of_nat (S n))); [done|lia]|].
  cbn [Nat.iter nat_rect] in *. split; [|split].
  - unfold push at 1; cbn. rewrite list_lookup_insert_eq; [done | by apply lookup_lt_is_Some].
  - change (nat_rect (fun _ => hartlocks) h (fun _ => push) n) with (Nat.iter n push h) in *.
    rewrite cur_push by done. cbn. lia.
  - intros _. apply intr_get_off.
Qed.

Lemma times_pop n h s e :
  k_hl s = Nat.iter (S n) push h -> room (Z.of_nat (S n)) h ->
  times (S n) pop_off s e = Ret tt (set_k_hl (bal h) s) e.
Proof.
  revert s; induction n as [|n IH]; intros s Hs Hr.
  - cbn [times]. kstep pop_off_run; rewrite ?Hs.
    + apply (iter_push_facts 1 h Hr).
    + apply intr_get_off.
    + destruct (iter_push_facts 1 h Hr) as (_ & -> & _). destruct Hr as (_ & ? & ?). lia.
    + unfold ret. do 2 f_equal.
  - assert (room (Z.of_nat (S n)) h) as Hr' by (apply (room_weaken (Z.of_nat (S (S n)))); [done|lia]).
    destruct (iter_push_facts (S n) h Hr') as (F1 & F2 & _).
    destruct (iter_push_facts (S (S n)) h Hr) as (G1 & G2 & G3). destruct Hr as (R1 & R2 & R3).
    cbn [times]. kstep pop_off_run; rewrite ?Hs; [done|apply G3; lia|lia|].
    change (bind pop_off (fun _ => times n pop_off)) with (times (S n) pop_off).
    rewrite IH; [done| |done]. cbn [k_hl set_k_hl].
    change (pop (push (Nat.iter (S n) push h)) = Nat.iter (S n) push h).
    change (Nat.iter (S n) push h) with (push (Nat.iter n push h)) in *.
    destruct (iter_push_facts n h) as (N1 & N2 & _).
    { split; [done|]. lia. }
    apply bal_push; [done|]. rewrite N2. lia.
Qed.

(** ** Several harts

    The lock accesses of [acquire] and [release] as programs, one constructor
    per access to the shared lock, in the order the barriers fix.  [run] is
    what such a program does when a hart runs it in the kernel; [access] is its
    next single access, and [step] interleaves the accesses of all harts. *)
Module Harts.

Inductive prog :=
| Done
| Fail (msg : string)                (* fmt::panic(msg) *)
| ReadLocked (k : bool -> prog)      (* reads locked *)
| ReadCpu (k : bool -> prog)         (* cpu == proc::curr_cpu() *)
| StoreCpu (mine : bool) (k : prog)  (* cpu = proc::curr_cpu(), cpu = nullptr *)
| ClearLocked (k : prog)             (* __sync_lock_release(&locked) *)
| Spin (k : prog).                   (* while (test_and_set(&locked, true)) ; *)

(** [holding()]: [locked] first, [cpu] only when it was set. *)
Definition holding_prog (k : bool -> prog) : prog :=
  ReadLocked (fun b => if b then ReadCpu k else k false).

Definition acquire_prog : prog :=
  holding_prog (fun held => if held then Fail "lock::acquire: already holding the lock"
                            else Spin (StoreCpu true Done)).

Definition release_prog : prog :=
  holding_prog (fun held => if held then StoreCpu false (ClearLocked Done)
                            else Fail "lock::release: no lock").

(** [cpu = curr_cpu()] or [cpu = nullptr] by hart [i]. *)
Definition store_cpu (mine : bool) (i : nat) (l : spinlock) : spinlock :=
  set_lk_cpu (if mine then Some i else None) l.

(** The programs run by the executing hart on lock [L] of the kernel. *)
Fixpoint run (L : lockid) (p : prog) : M unit :=
  match p with
  | Done => ret tt
  | Fail msg => panic msg
  | ReadLocked k => h <- gets k_hl ;; run L (k (locked (lock_of L h)))
  | ReadCpu k => h <- gets k_hl ;; run L (k (bool_decide (lk_cpu (lock_of L h) = Some (hl_tp h))))
  | StoreCpu mine k =>
      h <- gets k_hl ;; put_lock L (store_cpu mine (hl_tp h) (lock_of L h)) ;; run L k
  | ClearLocked k => h <- gets k_hl ;; put_lock L (set_locked false (lock_of L h)) ;; run L k
  | Spin k => while_waiting (test_and_set L) await ;; run L k
  end.

(** The next access of hart [i]: what remains to run, and the lock afterwards. *)
Definition access (i : nat) (p : prog) (l : spinlock) : option (prog * spinlock) :=
  match p with
  | Done | Fail _ => None
  | ReadLocked k => Some (k (locked l), l)
  | ReadCpu k => Some (k (bool_decide (lk_cpu l = Some i)), l)
  | StoreCpu mine k => Some (k, store_cpu mine i l)
  | ClearLocked k => Some (k, set_locked false l)
  | Spin k => Some (if locked l then p else k, set_locked true l)
  end.

Inductive pc := Outside | Acquiring (p : prog) | Inside | Releasing (p : prog).

Record shared := { sh_lock : spinlock; sh_pc : nat -> pc }.

Definition upd {A} (f : nat -> A) (i : nat) (p : A) : nat -> A := fun j => if decide (j = i) then p else f j.

(** A hart that is outside may call [acquire], one that is inside [release]. *)
Inductive step : shared -> shared -> Prop :=
| acq_call i l f : f i = Outside ->
    step {| sh_lock := l; sh_pc := f |} {| sh_lock := l; sh_pc := upd f i (Acquiring acquire_prog) |}
| acq_access i l f p p' l' : f i = Acquiring p -> access i p l = Some (p', l') ->
    step {| sh_lock := l; sh_pc := f |} {| sh_lock := l'; sh_pc := upd f i (Acquiring p') |}
| acq_return i l f : f i = Acquiring Done ->
    step {| sh_lock := l; sh_pc := f |} {| sh_lock := l; sh_pc := upd f i Inside |}
| rel_call i l f : f i = Inside ->
    step {| sh_lock := l; sh_pc := f |} {| sh_lock := l; sh_pc := upd f i (Releasing release_prog) |}
| rel_access i l f p p' l' : f i = Releasing p -> access i p l = Some (p', l') ->
    step {| sh_lock := l; sh_pc := f |} {| sh_lock := l'; sh_pc := upd f i (Releasing p') |}
| rel_return i l f : f i = Releasing Done ->
    step {| sh_lock := l; sh_pc := f |} {| sh_lock := l; sh_pc := upd f i Outside |}.

Definition init : shared := {| sh_lock := unlocked; sh_pc := fun _ => Outside |}.

Inductive reachable : shared -> Prop :=
| reach_init : reachable init
| reach_step a b : reachable a -> step a b -> reachable b.

(** [holding()] as hart [i] would find it. *)
Definition sees (l : spinlock) (i : nat) : bool := locked l && bool_decide (lk_cpu l = Some i).

Definition panicked (p : pc) : Prop :=
  exists msg, p = Acquiring (Fail msg) \/ p = Releasing (Fail msg).

(** *** The invariant *)

(** The points of the two programs a hart can be at. *)
Inductive point :=
| At_out | At_acq | At_acq_cpu | At_spin | At_store | At_taken
| At_in
| At_rel | At_rel_cpu | At_clear_cpu | At_clear | At_left.

Definition acq_held (held : bool) : prog :=
  if held then Fail "lock::acquire: already holding the lock" else Spin (StoreCpu true Done).
Definition rel_held (held : bool) : prog :=
  if held then StoreCpu false (ClearLocked Done) else Fail "lock::release: no lock".

Definition pc_at (q : point) : pc :=
  match q with
  | At_out => Outside
  | At_acq => Acquiring acquire_prog
  | At_acq_cpu => Acquiring (ReadCpu acq_held)
  | At_spin => Acquiring (Spin (StoreCpu true Done))
  | At_store => Acquiring (StoreCpu true Done)
  | At_taken => Acquiring Done
  | At_in => Inside
  | At_rel => Releasing release_prog
  | At_rel_cpu => Releasing (ReadCpu rel_held)
  | At_clear_cpu => Releasing (StoreCpu false (ClearLocked Done))
  | At_clear => Releasing (ClearLocked Done)
  | At_left => Releasing Done
  end.

(** The test-and-set succeeded and [locked] is not yet cleared. *)
Definition owns (q : point) : bool :=
  match q with
  | At_store | At_taken | At_in | At_rel | At_rel_cpu | At_clear_cpu | At_clear => true
  | _ => false
  end.

(** [cpu] is this hart's. *)
Definition marked (q : point) : bool :=
  match q with At_taken | At_in | At_rel | At_rel_cpu | At_clear_cpu => true | _ => false end.

Definition inv_at (l : spinlock) (f : nat -> pc) (g : nat -> point) : Prop :=
  (forall i, f i = pc_at (g i)) /\
  (forall i j, owns (g i) = true -> owns (g j) = true -> i = j) /\
  (forall i, owns (g i) = true -> locked l = true) /\
  (forall i, lk_cpu l = Some i <-> marked (g i) = true).

Definition inv (s : shared) : Prop := exists g, inv_at (sh_lock s) (sh_pc s) g.

Lemma inv_init : inv init.
Proof. exists (fun _ => At_out). repeat split; done. Qed.

Lemma marked_owns q : marked q = true -> owns q = true.
Proof. by destruct q. Qed.

Lemma upd_eq {A} (f : nat -> A) i p : upd f i p i = p.
Proof. unfold upd. by rewrite decide_True. Qed.

Lemma upd_ne {A} (f : nat -> A) i j p : j <> i -> upd f i p j = f j.
Proof. intros. unfold upd. by rewrite decide_False. Qed.

(** Hart [i] moves from [g i] to [q]; the lock afterwards agrees with [q]. *)
Lemma inv_move l l' f g i q :
  inv_at l f g ->
  (owns q = true -> owns (g i) = true \/ locked l = false) ->
  (locked l' = false -> locked l = true -> owns (g i) = true /\ owns q = false) ->
  (owns q = true -> locked l' = true) ->
  (lk_cpu l' = if marked q then Some i else if marked (g i) then None else lk_cpu l) ->
  inv_at l' (upd f i (pc_at q)) (upd g i q).
Proof.
  intros (Hf & Hu & Hl & Hc) Hown Hclr Hset Hcpu.
  assert (forall j, j <> i -> owns q = true -> owns (g j) = false) as Hother.
  { intros j Hj Hq. destruct (owns (g j)) eqn:E; [|done]. destruct (Hown Hq) as [Hi | Hi].
    - by destruct (Hj (Hu j i E Hi)).
    - by rewrite (Hl j E) in Hi. }
  assert (forall j, j <> i -> (lk_cpu l' = Some j <-> marked (g j) = true)) as Hmark.
  { intros j Hj. rewrite Hcpu, <- Hc. destruct (marked q) eqn:Eq.
    - apply marked_owns in Eq. specialize (Hother j Hj Eq). split; [congruence|]. intros H%Hc%marked_owns. congruence.
    - destruct (marked (g i)) eqn:Ei; [|done]. apply Hc in Ei. split; congruence. }
  split_and!.
  - intros j. destruct (decide (j = i)) as [->|Hj]; [by rewrite !upd_eq | by rewrite !upd_ne].
  - intros j k. destruct (decide (j = i)) as [->|Hj], (decide (k = i)) as [->|Hk];
      rewrite ?upd_eq, ?upd_ne by done; intros H1 H2; try done; try (rewrite Hother in *; done). by apply Hu.
  - intros j. destruct (decide (j = i)) as [->|Hj]; rewrite ?upd_eq, ?upd_ne by done; intros H1; [by apply Hset|].
    destruct (locked l') eqn:E; [done|]. destruct (Hclr eq_refl (Hl j H1)) as [Hi _]. by destruct (Hj (Hu j i H1 Hi)).
  - intros j. destruct (decide (j = i)) as [->|Hj]; rewrite ?upd_eq, ?upd_ne by done; [|by apply Hmark].
    rewrite Hcpu. destruct (marked q); [done|]. destruct (marked (g i)) eqn:E; [done|]. rewrite Hc, E. done.
Qed.

(** Where the next access of a hart leads. *)
Definition next (i : nat) (q : point) (l : spinlock) : point * spinlock :=
  match q with
  | At_acq => (if locked l then At_acq_cpu else At_spin, l)
  | At_acq_cpu => (At_spin, l)
  | At_spin => (if locked l then At_spin else At_store, set_locked true l)
  | At_store => (At_taken, store_cpu true i l)
  | At_rel => (At_rel_cpu, l)
  | At_rel_cpu => (At_clear_cpu, l)
  | At_clear_cpu => (At_clear, store_cpu false i l)
  | At_clear => (At_left, set_locked false l)
  | _ => (q, l)
  end.

Lemma access_next l f g i :
  inv_at l f g ->
  match f i with
  | Acquiring p => forall p' l', access i p l = Some (p', l') ->
      Acquiring p' = pc_at (next i (g i) l).1 /\ l' = (next i (g i) l).2
  | Releasing p => forall p' l', access i p l = Some (p', l') ->
      Releasing p' = pc_at (next i (g i) l).1 /\ l' = (next i (g i) l).2
  | _ => True
  end.
Proof.
  intros (Hf & _ & Hl & Hc). rewrite Hf. specialize (Hl i). specialize (Hc i).
  destruct (g i) eqn:E; cbn [pc_at]; try done; intros p' l' Ha; cbn in Ha; try done; injection Ha as <- <-; cbn [next fst snd].
  - by destruct (locked l).
  - rewrite bool_decide_false; [done|]. rewrite Hc. done.
  - by destruct (locked l).
  - done.
  - by rewrite Hl.
  - rewrite bool_decide_true; [done|]. by apply Hc.
  - done.
  - done.
Qed.

Lemma inv_next l f g i :
  inv_at l f g ->
  inv_at (next i (g i) l).2 (upd f i (pc_at (next i (g i) l).1)) (upd g i (next i (g i) l).1).
Proof.
  intros H. pose proof H as (Hf & Hu & Hl & Hc). specialize (Hl i). specialize (Hc i).
  apply (inv_move l); [done|..]; destruct (g i); cbn [next fst snd owns marked] in *;
    try destruct (locked l) eqn:El; cbn; intros; try done; auto; try (by apply Hc); try congruence;
    by (discriminate (Hl eq_refl)).
Qed.

Lemma inv_call l f g i q :
  inv_at l f g -> owns q = owns (g i) -> marked q = marked (g i) -> inv_at l (upd f i (pc_at q)) (upd g i q).
Proof.
  intros H Ho Hm. pose proof H as (Hf & Hu & Hl & Hc). specialize (Hl i).
  apply (inv_move l); [done|..]; rewrite ?Ho, ?Hm; try done; auto.
  - intros H1 H2. congruence.
  - destruct (marked (g i)) eqn:E; [by apply Hc|done].
Qed.

Lemma inv_step a b : inv a -> step a b -> inv b.
Proof.
  intros [g H] Hstep. pose proof H as (Hf & _).
  destruct Hstep as [i l f Hi | i l f p p' l' Hi Ha | i l f Hi | i l f Hi | i l f p p' l' Hi Ha | i l f Hi];
    cbn [sh_lock sh_pc] in *.
  - exists (upd g i At_acq). apply (inv_call l f g i At_acq); rewrite Hf in Hi; destruct (g i); done.
  - pose proof (access_next l f g i H) as Hn. rewrite Hi in Hn. destruct (Hn _ _ Ha) as [-> ->].
    eexists. by apply inv_next.
  - exists (upd g i At_in). apply (inv_call l f g i At_in); rewrite Hf in Hi; destruct (g i); done.
  - exists (upd g i At_rel). apply (inv_call l f g i At_rel); rewrite Hf in Hi; destruct (g i); done.
  - pose proof (access_next l f g i H) as Hn. rewrite Hi in Hn. destruct (Hn _ _ Ha) as [-> ->].
    eexists. by apply inv_next.
  - exists (upd g i At_out). apply (inv_call l f g i At_out); rewrite Hf in Hi; destruct (g i); done.
Qed.

Lemma inv_reachable s : reachable s -> inv s.
Proof. induction 1; eauto using inv_init, inv_step. Qed.

(** *** The programs are the kernel's functions *)

Lemma acquire_is_prog L s e : acquire L s e = (push_off ;; run L acquire_prog) s e.
Proof.
  unfold acquire, acquire_prog, holding_prog, holding. cbn [run]. unfold bind.
  destruct (push_off s e) as [[] s1 e1 | | | |]; try done. unfold gets, ret.
  destruct (locked (lock_of L (k_hl s1))); cbn [andb run]; [|done]. unfold bind, gets.
  destruct (bool_decide _); done.
Qed.

Lemma release_is_prog L s e : release L s e = (run L release_prog ;; pop_off) s e.
Proof.
  unfold release, release_prog, holding_prog, holding. cbn [run]. unfold bind, gets, ret.
  destruct (locked (lock_of L (k_hl s))); cbn [andb negb run]; [|done]. unfold bind, gets.
  destruct (bool_decide _); done.
Qed.

(** The lock [L] replaced. *)
Definition with_lock (L : lockid) (l : spinlock) (s : kernel) : kernel :=
  set_k_hl (set_hl_locks (<[L := l]> (hl_locks (k_hl s))) (k_hl s)) s.

Lemma with_lock_same L s : is_Some (hl_locks (k_hl s) !! L) -> with_lock L (lock_of L (k_hl s)) s = s.
Proof.
  intros [l Hl]. unfold with_lock, lock_of. rewrite Hl. cbn. rewrite insert_id by done.
  destruct s as [[] ? ? ? ? ? ? ? ? ? ? ? ? ? ? ? ? ? ? ?]; done.
Qed.

(** A failed test-and-set: the hart tries again after the others have run. *)
Definition retries (p : prog) (l : spinlock) : bool := match p with Spin _ => locked l | _ => false end.

(** Running a program is running its accesses one by one. *)
Lemma run_access L p p' l' s e :
  is_Some (hl_locks (k_hl s) !! L) ->
  access (hl_tp (k_hl s)) p (lock_of L (k_hl s)) = Some (p', l') ->
  run L p s e = (when (retries p (lock_of L (k_hl s))) await ;; run L p') (with_lock L l' s) e.
Proof.
  intros HL Ha. destruct p; cbn in Ha; try done; injection Ha as <- <-; cbn [retries when].
  - by rewrite with_lock_same.
  - by rewrite with_lock_same.
  - done.
  - done.
  - cbn [run]. unfold while_waiting at 1, bind at 1. cbn [while].
    unfold test_and_set at 1, put_lock, on_hl, gets, modify, ret, bind at 1 2 3. cbn [fst snd].
    destruct (locked (lock_of L (k_hl s))); cbn [when]; [|done].
    unfold bind, await. destruct e; done.
Qed.

(** C4: acquire is push_off followed by a program of single accesses to the lock (read
    locked, read cpu, spin on the test-and-set, store cpu), and release such a program
    (read locked, read cpu, clear cpu, clear locked) followed by pop_off: equations for
    every state and environment, and running such a program is performing its accesses
    one by one, with the other harts running after each failed test-and-set. In every
    interleaving of these accesses by any number of harts, each calling acquire when
    outside and release when inside, at most one hart is inside, no hart reaches a
    panic, and holding() is true for a hart that is inside and false for one that is
    outside (accesses are sequentially consistent). *)
Theorem spinlock_mutual_exclusion L a :
  reachable a ->
  (forall s e, acquire L s e = (push_off ;; run L acquire_prog) s e) /\
  (forall s e, release L s e = (run L release_prog ;; pop_off) s e) /\
  (forall p p' l' s e, is_Some (hl_locks (k_hl s) !! L) ->
     access (hl_tp (k_hl s)) p (lock_of L (k_hl s)) = Some (p', l') ->
     run L p s e = (when (retries p (lock_of L (k_hl s))) await ;; run L p') (with_lock L l' s) e) /\
  (forall i j, sh_pc a i = Inside -> sh_pc a j = Inside -> i = j) /\
  (forall i, ~ panicked (sh_pc a i)) /\
  (forall i, sh_pc a i = Inside -> sees (sh_lock a) i = true) /\
  (forall i, sh_pc a i = Outside -> sees (sh_lock a) i = false).
Proof.
  intros [g (Hf & Hu & Hl & Hc)]%inv_reachable.
  split; [apply acquire_is_prog|]. split; [apply release_is_prog|]. split; [by intros; apply run_access|].
  assert (forall i, sees (sh_lock a) i = marked (g i)) as Hs.
  { intros i. unfold sees. destruct (marked (g i)) eqn:E.
    - rewrite (Hl i) by (by apply marked_owns). by rewrite bool_decide_true by (by apply Hc).
    - rewrite bool_decide_false; [apply andb_false_r|]. rewrite Hc, E. done. }
  split_and!.
  - intros i j. rewrite !Hf. intros Hi Hj. apply Hu; [destruct (g i) | destruct (g j)]; done.
  - intros i [msg H]. rewrite Hf in H. destruct (g i), H; done.
  - intros i. rewrite Hf, Hs. by destruct (g i).
  - intros i. rewrite Hf, Hs. by destruct (g i).
Qed.

(** Hart 1 inside, hart 2 spinning. *)
Lemma spinlock_mutual_exclusion_witness :
  exists a, reachable a /\ sh_pc a 1%nat = Inside /\ sh_pc a 2%nat = pc_at At_spin /\ sees (sh_lock a) 1 = true /\
    (forall j, sh_pc a j = Inside -> j = 1%nat) /\
    acquire L_kmem kernel0 [] = (push_off ;; run L_kmem acquire_prog) kernel0 [].
Proof.
  set (f1 := upd (fun _ => Outside) 1%nat (pc_at At_acq)). set (f2 := upd f1 1%nat (pc_at At_spin)).
  set (f3 := upd f2 1%nat (pc_at At_store)). set (f4 := upd f3 1%nat (pc_at At_taken)).
  set (f5 := upd f4 1%nat Inside). set (f6 := upd f5 2%nat (pc_at At_acq)). set (f7 := upd f6 2%nat (pc_at At_acq_cpu)).
  set (f8 := upd f7 2%nat (pc_at At_spin)). set (f9 := upd f8 2%nat (pc_at At_spin)).
  set (l := {| locked := true; lk_cpu := Some 1%nat |}).
  assert (reachable {| sh_lock := l; sh_pc := f9 |}) as Hr.
  { eapply reach_step; [|exact (acq_access 2 l f8 _ (Spin (StoreCpu true Done)) l eq_refl eq_refl)].
    eapply reach_step; [|exact (acq_access 2 l f7 _ _ l eq_refl eq_refl)].
    eapply reach_step; [|exact (acq_access 2 l f6 _ _ l eq_refl eq_refl)].
    eapply reach_step; [|exact (acq_call 2 l f5 eq_refl)].
    eapply reach_step; [|exact (acq_return 1 l f4 eq_refl)].
    eapply reach_step; [|exact (acq_access 1 (set_locked true unlocked) f3 _ _ l eq_refl eq_refl)].
    eapply reach_step; [|exact (acq_access 1 unlocked f2 _ (StoreCpu true Done) _ eq_refl eq_refl)].
    eapply reach_step; [|exact (acq_access 1 unlocked f1 _ _ unlocked eq_refl eq_refl)].
    eapply reach_step; [constructor | exact (acq_call 1 unlocked _ eq_refl)]. }
  destruct (spinlock_mutual_exclusion L_kmem _ Hr) as (Ha & _ & _ & Hu & _ & Hin & _).
  exists {| sh_lock := l; sh_pc := f9 |}. split; [exact Hr|]. split; [reflexivity|]. split; [reflexivity|].
  split; [by apply Hin|]. split; [|apply Ha]. intros j Hj. by apply (Hu j 1%nat).
Defined.

End Harts.

(** ** Properties *)

(** n nested push_off calls keep interrupts off until the n-th pop_off, which
    restores the state they had before the first, and the nesting count returns to 0. *)
Theorem interrupt_nesting n s e :
  (0 < n)%nat -> room (Z.of_nat n) (k_hl s) -> noff (cur (k_hl s)) = 0 ->
  exists s1 s2,
    times n push_off s e = Ret tt s1 e /\ times n pop_off s1 e = Ret tt s2 e /\
    intr_get (hl_sstatus (k_hl s1)) = 0 /\
    intr_get (hl_sstatus (k_hl s2)) = intr_get (hl_sstatus (k_hl s)) /\
    noff (cur (k_hl s2)) = 0 /\ hl_locks (k_hl s2) = hl_locks (k_hl s) /\
    (forall k, (0 < k < n)%nat -> exists s3,
       times k pop_off s1 e = Ret tt s3 e /\ intr_get (hl_sstatus (k_hl s3)) = 0).
Proof.
  intros Hn Hr H0. destruct n as [|n]; [lia|]. set (h := k_hl s) in *.
  exists (set_k_hl (Nat.iter (S n) push h) s), (set_k_hl (bal h) (set_k_hl (Nat.iter (S n) push h) s)).
  split; [by apply times_push|]. split; [by apply times_pop|].
  pose proof Hr as (R1 & R2 & R3). repeat split.
  - apply intr_get_off.
  - cbn [k_hl set_k_hl]. rewrite bal_sstatus, H0 by done. cbn.
    destruct (intr_get_01 (hl_sstatus h)) as [-> | ->]; cbn; [apply intr_get_off | apply intr_get_on].
  - cbn [k_hl set_k_hl]. by rewrite cur_bal.
  - intros k Hk. destruct k as [|k]; [lia|].
    set (h' := Nat.iter (S n - S k) push h).
    assert (Nat.iter (S n) push h = Nat.iter (S k) push h') as E.
    { unfold h'. rewrite <- Nat.iter_add. f_equal. lia. }
    assert (room (Z.of_nat (S n - S k)) h) as Hr'.
    { apply (room_weaken (Z.of_nat (S n))); [done|lia]. }
    destruct (iter_push_facts (S n - S k) h Hr') as (F1 & F2 & F3).
    eexists. split.
    + apply (times_pop k h'); [exact E|]. split; [exact F1|]. fold h' in F2. lia.
    + cbn [k_hl set_k_hl]. fold h' in F1, F2, F3. rewrite bal_sstatus by done.
      destruct (Z.eqb_spec (noff (cur h')) 0); [lia|]. cbn. apply intr_get_off.
Qed.

Lemma interrupt_nesting_witness :
  let s := set_k_hl (set_hl_sstatus 2 (k_hl kernel0)) kernel0 in
  exists s1 s2, times 3 push_off s [] = Ret tt s1 [] /\ times 3 pop_off s1 [] = Ret tt s2 [] /\
    intr_get (hl_sstatus (k_hl s1)) = 0 /\ intr_get (hl_sstatus (k_hl s2)) = 1.
Proof.
  intros s. destruct (interrupt_nesting 3 s []) as (s1 & s2 & H1 & H2 & H3 & H4 & _).
  - lia.
  - split; [eexists; reflexivity|]. vm_compute. split; [discriminate | reflexivity].
  - reflexivity.
  - exists s1, s2. auto.
Defined.
