(* ===== verification/Sched.v ===== *)
(** * Scheduling, sleep and wakeup, sleep locks ([proc.cpp], [lock.cpp])

    The part of [proc.cpp] every blocking operation of the kernel goes through:
    the current process, [sched], [yield], [sleep], [wakeup], [kill] and a pass
    of the [scheduler], and the sleep locks of [lock.cpp] built on them. *)

From S2P Require Import Prelude State Riscv Lock.

(** ** The process table *)

(** [proc::curr_proc]; [me] is a use of the returned pointer. *)
Definition curr_proc : M (option nat) := c <- curr_cpu ;; ret (c_proc c).
Definition me : M nat := p <- curr_proc ;; of_option "null process" p.

Definition get_proc (i : nat) : M process := l <- gets k_procs ;; of_option "proc_list" (l !! i).
Definition upd_proc (i : nat) (f : process -> process) : M unit :=
  p <- get_proc i ;; modify (fun s => set_k_procs (<[i := f p]> (k_procs s)) s).

(** ** Giving up the processor *)

(** [swtch] hands the hart to the scheduler; the call returns when some hart
    schedules this process again. *)
Definition swtch : M unit := await.

Definition sched : M unit :=
  p <- me ;;
  held <- holding (L_proc p) ;;
  if negb held then panic "proc::sched: should hold lock"
  else
    c <- curr_cpu ;;
    if negb (noff c =? 1) then panic "proc::sched: sched locks"
    else
      i <- hart_intr_get ;;
      if negb (i =? 0) then panic "proc::sched: interruptible"
      else
        swtch ;;
        c' <- curr_cpu ;;
        put_cpu (set_intena (intena c) c').

Definition yield : M unit :=
  p <- me ;;
  acquire (L_proc p) ;;
  upd_proc p (set_p_status RUNNABLE) ;;
  sched ;;
  release (L_proc p).

Definition sleep (ch : chan) (L : lockid) : M unit :=
  p <- me ;;
  acquire (L_proc p) ;;
  release L ;;
  upd_proc p (set_p_chan ch) ;;
  upd_proc p (set_p_status SLEEPING) ;;
  sched ;;
  upd_proc p (set_p_chan CNull) ;;
  release (L_proc p) ;;
  acquire L.

Definition wakeup_one (ch : chan) (i : nat) : M unit :=
  c <- curr_proc ;;
  if bool_decide (c = Some i) then ret tt
  else
    acquire (L_proc i) ;;
    p <- get_proc i ;;
    when (bool_decide (p_status p = SLEEPING) && bool_decide (p_chan p = ch))
      (upd_proc i (set_p_status RUNNABLE)) ;;
    release (L_proc i).

Definition wakeup (ch : chan) : M unit := for_range 0 NPROC (wakeup_one ch).

Fixpoint kill_from (pid : Z) (i n : nat) : M Z :=
  match n with
  | O => ret (-1)
  | S n' =>
      acquire (L_proc i) ;;
      p <- get_proc i ;;
      if p_pid p =? pid then
        upd_proc i (set_p_killed true) ;;
        when (bool_decide (p_status p = SLEEPING)) (upd_proc i (set_p_status RUNNABLE)) ;;
        release (L_proc i) ;;
        ret 0
      else release (L_proc i) ;; kill_from pid (S i) n'
  end.

Definition kill (pid : Z) : M Z := kill_from pid 0 NPROC.

Definition set_killed (i : nat) : M unit :=
  acquire (L_proc i) ;; upd_proc i (set_p_killed true) ;; release (L_proc i).

Definition get_killed (i : nat) : M bool :=
  acquire (L_proc i) ;; p <- get_proc i ;; release (L_proc i) ;; ret (p_killed p).

Definition alloc_pid : M Z :=
  acquire L_pid ;;
  pid <- gets k_next_pid ;;
  modify (fun s => set_k_next_pid (u32 (k_next_pid s + 1)) s) ;;
  release L_pid ;;
  ret pid.

(** Body of the [for] loop of [scheduler]; returns the new value of [found]. *)
Definition schedule_one (i : nat) (found : bool) : M bool :=
  acquire (L_proc i) ;;
  p <- get_proc i ;;
  found <- (if bool_decide (p_status p = RUNNABLE) then
              upd_proc i (set_p_status RUNNING) ;;
              c <- curr_cpu ;;
              put_cpu (set_c_proc (Some i) c) ;;
              swtch ;;
              c <- curr_cpu ;;
              put_cpu (set_c_proc None c) ;;
              ret true
            else ret found) ;;
  release (L_proc i) ;;
  ret found.

Fixpoint schedule_from (i n : nat) (found : bool) : M bool :=
  match n with
  | O => ret found
  | S n' => found <- schedule_one i found ;; schedule_from (S i) n' found
  end.

(** One iteration of the [while (true)] of [scheduler]; [wfi] waits for an interrupt. *)
Definition scheduler_pass : M unit :=
  hart_intr_on ;;
  found <- schedule_from 0 NPROC false ;;
  if negb found then hart_intr_on ;; await else ret tt.

(** [scheduler] up to the end of its [n]-th iteration; it does not return. *)
Definition scheduler (n : nat) : M unit :=
  c <- curr_cpu ;;
  put_cpu (set_c_proc None c) ;;
  times n scheduler_pass.

(** ** Sleep locks *)

(** A sleep lock object: its inner spin lock, its address as a channel, and
    its two other fields inside the object that contains it. *)
Record slref := {
  sl_id : lockid;
  sl_chan : chan;
  sl_get : kernel -> option sleeplock;
  sl_put : sleeplock -> kernel -> kernel
}.

(** The lock of buffer [i]. *)
Definition buf_sl (i : nat) : slref :=
  {| sl_id := L_buf i; sl_chan := CSleepBuf i;
     sl_get := fun s => b_lock <$> k_bufs s !! i;
     sl_put := fun l s => set_k_bufs (alter (set_b_lock l) i (k_bufs s)) s |}.

Definition sl_fields (r : slref) : M sleeplock := o <- gets (sl_get r) ;; of_option "sleeplock" o.

Definition sleep_acquire (r : slref) : M unit :=
  acquire (sl_id r) ;;
  while_waiting (l <- sl_fields r ;; ret (sl_locked l)) (sleep (sl_chan r) (sl_id r)) ;;
  p <- me ;;
  pr <- get_proc p ;;
  modify (sl_put r (Mk_sleeplock true (p_pid pr))) ;;
  release (sl_id r).

Definition sleep_release (r : slref) : M unit :=
  acquire (sl_id r) ;;
  modify (sl_put r (Mk_sleeplock false 0)) ;;
  wakeup (sl_chan r) ;;
  release (sl_id r).

Definition sleep_holding (r : slref) : M bool :=
  acquire (sl_id r) ;;
  l <- sl_fields r ;;
  p <- me ;;
  pr <- get_proc p ;;
  release (sl_id r) ;;
  ret (sl_locked l && (sl_pid l =? p_pid pr)).

(** ** Lemmas *)

(** The process the executing hart runs. *)
Definition me_of (s : kernel) : option nat := c_proc (cur (k_hl s)).

Lemma curr_cpu_run s e n :
  room n (k_hl s) -> curr_cpu s e = Ret (cur (k_hl s)) s e.
Proof. intros H. unfold curr_cpu. kred. by rewrite (room_cur n). Qed.

Lemma curr_proc_run s e n : room n (k_hl s) -> curr_proc s e = Ret (me_of s) s e.
Proof. intros H. unfold curr_proc. kstep (curr_cpu_run s e n H). done. Qed.

Lemma me_run s e n p : room n (k_hl s) -> me_of s = Some p -> me s e = Ret p s e.
Proof. intros H Hp. unfold me. kstep (curr_proc_run s e n H). by rewrite Hp. Qed.

Lemma get_proc_run i p s e : k_procs s !! i = Some p -> get_proc i s e = Ret p s e.
Proof. intros H. unfold get_proc. kred. by rewrite H. Qed.

Lemma upd_proc_run i f p s e :
  k_procs s !! i = Some p -> upd_proc i f s e = Ret tt (set_k_procs (<[i := f p]> (k_procs s)) s) e.
Proof. intros H. unfold upd_proc. kstep get_proc_run; [done|]. done. Qed.

Lemma c_proc_acq L h : is_Some (hl_cpus h !! hl_tp h) -> c_proc (cur (acq L h)) = c_proc (cur h).
Proof. intros H. unfold acq. rewrite cur_set_locks, cur_push by done. done. Qed.

Lemma c_proc_bal h : is_Some (hl_cpus h !! hl_tp h) -> c_proc (cur (bal h)) = c_proc (cur h).
Proof. intros H. by rewrite cur_bal. Qed.

(** [nested h]: some lock is held, so a further balanced critical section
    leaves the hart state as it was. *)
Definition nested (h : hartlocks) : Prop := bal h = h.

Lemma nested_acq L h n : room n h -> nested (acq L h).
Proof. apply bal_acq. Qed.

(** Every process lock but the given process's is free. *)
Definition procs_free (c : option nat) (h : hartlocks) : Prop :=
  forall i, (i < NPROC)%nat -> c <> Some i -> free (L_proc i) h.

Definition is_free (h : hartlocks) (L : lockid) : bool :=
  match hl_locks h !! L with Some l => negb (locked l) && bool_decide (lk_cpu l = None) | None => false end.

(** A family of locks is free when a computation says so. *)
Lemma all_free (f : nat -> lockid) n h :
  forallb (fun i => is_free h (f i)) (seq 0 n) = true -> forall i, (i < n)%nat -> free (f i) h.
Proof.
  intros H i Hi. rewrite forallb_forall in H. specialize (H i). unfold is_free, free in *.
  destruct (hl_locks h !! f i) as [[lk o]|]; cbn in H; [|discriminate H; apply in_seq; lia].
  apply andb_true_iff in H as [H1 H2%bool_decide_eq_true]; [|apply in_seq; lia]. by destruct lk; [|subst o].
Qed.

Definition not_proc_lock (L : lockid) : Prop := forall i, L <> L_proc i.

Lemma procs_free_acq c L h : not_proc_lock L -> procs_free c h -> procs_free c (acq L h).
Proof. intros HL Hf i Hi Hc. apply free_acq_ne; auto. Qed.

Definition wake (ch : chan) (p : process) : process :=
  if bool_decide (p_status p = SLEEPING) && bool_decide (p_chan p = ch)
  then set_p_status RUNNABLE p else p.

(** [wakeup] on the table: every other process sleeping on the channel. *)
Definition wake_procs (c : option nat) (ch : chan) (l : list process) : list process :=
  imap (fun i p => if bool_decide (c = Some i) then p else wake ch p) l.

Lemma set_k_hl_id s : set_k_hl (k_hl s) s = s.
Proof. by destruct s. Qed.

Lemma set_k_procs_id s : set_k_procs (k_procs s) s = s.
Proof. by destruct s. Qed.

Lemma set_k_procs_twice l l' s : set_k_procs l (set_k_procs l' s) = set_k_procs l s.
Proof. done. Qed.

Lemma wakeup_one_run ch i s e p :
  room 1 (k_hl s) -> nested (k_hl s) -> procs_free (me_of s) (k_hl s) ->
  (i < NPROC)%nat -> k_procs s !! i = Some p ->
  wakeup_one ch i s e =
  Ret tt (set_k_procs (<[i := if bool_decide (me_of s = Some i) then p else wake ch p]> (k_procs s)) s) e.
Proof.
  intros Hr Hn Hf Hi Hp. unfold wakeup_one. kstep (curr_proc_run s e 1 Hr).
  destruct (bool_decide (me_of s = Some i)) eqn:E.
  { unfold ret. rewrite list_insert_id by done. by rewrite set_k_procs_id. }
  apply bool_decide_eq_false in E.
  kstep acquire_run; [done | by apply Hf |].
  kstep get_proc_run; [done|]. unfold wake.
  destruct (bool_decide (p_status p = SLEEPING) && bool_decide (p_chan p = ch)); cbn [when].
  - kstep upd_proc_run; [done|]. erewrite (release_acq_run _ (k_hl s)); [|done..|by apply Hf].
    rewrite Hn. by destruct s.
  - rewrite bind_ret. erewrite (release_acq_run _ (k_hl s)); [|done..|by apply Hf].
    rewrite Hn. rewrite list_insert_id by done. by destruct s.
Qed.

Lemma wakeup_from_run ch n i s e :
  room 1 (k_hl s) -> nested (k_hl s) -> procs_free (me_of s) (k_hl s) ->
  (i + n = NPROC)%nat -> length (k_procs s) = NPROC ->
  for_range i n (wakeup_one ch) s e =
  Ret tt (set_k_procs (take i (k_procs s) ++
            imap (fun j p => if bool_decide (me_of s = Some (i + j)%nat) then p else wake ch p)
                 (drop i (k_procs s))) s) e.
Proof.
  revert i s; induction n as [|n IH]; intros i s Hr Hn Hf Hi Hl; cbn [for_range].
  - unfold ret. rewrite drop_ge by lia. rewrite app_nil_r, take_ge by lia. by rewrite set_k_procs_id.
  - destruct (lookup_lt_is_Some_2 (k_procs s) i) as [p Hp]; [lia|].
    kstep wakeup_one_run; [done..|lia|done|]. rewrite IH; cbn; try done; [|lia|by rewrite length_insert].
    rewrite set_k_procs_twice. do 2 f_equal. rewrite (drop_S (k_procs s) p i) by done. cbn [imap].
    rewrite drop_insert_lt by lia. rewrite Nat.add_0_r.
    rewrite (take_S_r _ _ (if bool_decide (me_of s = Some i) then p else wake ch p))
      by (apply list_lookup_insert_eq; lia).
    rewrite take_insert_ge by lia. rewrite <- app_assoc. cbn. do 2 f_equal.
    apply imap_ext. intros j q _. cbn. by replace (S (i + j)) with (i + S j)%nat by lia.
Qed.

Lemma wakeup_run ch s e :
  room 1 (k_hl s) -> nested (k_hl s) -> procs_free (me_of s) (k_hl s) ->
  length (k_procs s) = NPROC ->
  wakeup ch s e = Ret tt (set_k_procs (wake_procs (me_of s) ch (k_procs s)) s) e.
Proof. intros. unfold wakeup. by rewrite wakeup_from_run. Qed.

Lemma lookup_wake_procs c ch l i :
  wake_procs c ch l !! i = (fun p => if bool_decide (c = Some i) then p else wake ch p) <$> l !! i.
Proof. unfold wake_procs. by rewrite list_lookup_imap. Qed.

Lemma length_wake_procs c ch l : length (wake_procs c ch l) = length l.
Proof. apply length_imap. Qed.

Lemma get_killed_run i s e p :
  room 1 (k_hl s) -> free (L_proc i) (k_hl s) -> k_procs s !! i = Some p ->
  get_killed i s e = Ret (p_killed p) (set_k_hl (bal (k_hl s)) s) e.
Proof.
  intros Hr Hf Hp. unfold get_killed. kstep acquire_run; [done..|].
  kstep get_proc_run; [done|]. kstep (release_acq_run (L_proc i) (k_hl s)); [done..|]. done.
Qed.

Lemma holding_acq_run L h s e : k_hl s = acq L h -> holding L s e = Ret true s e.
Proof.
  intros Hs. unfold holding, lock_of. kred. rewrite Hs, held_acq. cbn.
  by rewrite bool_decide_true.
Qed.

(** The state in which [sleep] hands over the hart. *)
Definition asleep (ch : chan) (p : nat) (pr : process) (h : hartlocks) (s : kernel) : kernel :=
  set_k_hl (acq (L_proc p) h)
    (set_k_procs (<[p := set_p_status SLEEPING (set_p_chan ch pr)]> (k_procs s)) s).

Lemma sched_run s e h p :
  k_hl s = acq (L_proc p) h -> room 1 h -> noff (cur h) = 0 -> c_proc (cur h) = Some p ->
  sched s e = (swtch ;; c' <- curr_cpu ;; put_cpu (set_intena (intena (cur (k_hl s))) c')) s e.
Proof.
  intros Hs Hr H0 Hp.
  assert (room 0 (k_hl s)) as Hr'. { rewrite Hs. exact (room_acq 1 _ _ Hr). }
  unfold sched. kstep (me_run s e 0 p Hr').
  { unfold me_of. rewrite Hs, c_proc_acq by apply Hr. done. }
  kstep (holding_acq_run (L_proc p) h); [done|]. cbn [negb].
  kstep (curr_cpu_run s e 0 Hr').
  assert (noff (cur (k_hl s)) = 1) as ->.
  { rewrite Hs. unfold acq. rewrite cur_set_locks, cur_push by apply Hr. cbn. by rewrite H0. }
  cbn [negb Z.eqb Pos.eqb].
  assert (hart_intr_get s e = Ret 0 s e) as Hi.
  { unfold hart_intr_get, gets. rewrite Hs. f_equal. apply intr_get_off. }
  kstep Hi. done.
Qed.

Lemma sleep_run ch L s e h p pr :
  k_hl s = acq L h -> not_proc_lock L -> room 2 h -> free L h -> free (L_proc p) h ->
  noff (cur h) = 0 -> c_proc (cur h) = Some p -> k_procs s !! p = Some pr ->
  sleep ch L s e =
  (swtch ;; c' <- curr_cpu ;; put_cpu (set_intena (intena (cur (acq (L_proc p) h))) c') ;;
   upd_proc p (set_p_chan CNull) ;; release (L_proc p) ;; acquire L) (asleep ch p pr h s) e.
Proof.
  intros Hs HL Hr HfL Hfp H0 Hp Hpr.
  assert (room 1 (acq L h)) as Hr1. { exact (room_acq 2 _ _ Hr). }
  assert (room 1 h) as Hr1'. { apply (room_weaken 2); [done|lia]. }
  unfold sleep. kstep (me_run s e 1 p); [by rewrite Hs| |].
  { unfold me_of. rewrite Hs, c_proc_acq by apply Hr. done. }
  kstep acquire_run; [by rewrite Hs| rewrite Hs; by apply free_acq_ne |].
  kstep release_run; cbn [k_hl set_k_hl]; rewrite ?Hs.
  - unfold held_by_me, acq; cbn. rewrite lookup_insert_ne by auto. by rewrite lookup_insert_eq.
  - exact (room_acq 1 _ _ Hr1).
  - unfold acq at 1. rewrite cur_set_locks, cur_push by apply Hr1. cbn. destruct Hr1 as (_ & ? & _). lia.
  - apply intr_get_off.
  - erewrite rel_acq_acq; [| apply HL | done | done].
    kstep upd_proc_run; [done|]. kstep upd_proc_run.
    { cbn. apply list_lookup_insert_eq. by apply lookup_lt_Some in Hpr. }
    cbn. rewrite list_insert_insert_eq.
    unfold bind at 1. erewrite (sched_run _ e h p); [|done..]. cbn [k_hl set_k_hl set_k_procs].
    match goal with |- match (bind swtch ?g) ?s1 e with _ => _ end = _ =>
      change s1 with (asleep ch p pr h s) end.
    destruct e as [|f e]; [done|]. exact (bind_assoc curr_cpu _ _ _ _).
Qed.

Lemma schedule_one_skip i f s e q :
  room 1 (k_hl s) -> free (L_proc i) (k_hl s) -> k_procs s !! i = Some q ->
  p_status q <> RUNNABLE ->
  schedule_one i f s e = Ret f (set_k_hl (bal (k_hl s)) s) e.
Proof.
  intros Hr Hf Hq Hs. unfold schedule_one. kstep acquire_run; [done..|].
  kstep get_proc_run; [done|]. rewrite bool_decide_false by done. rewrite bind_ret.
  kstep (release_acq_run (L_proc i) (k_hl s)); [done..|]. by destruct s.
Qed.

(** A runnable process: the scheduler is waiting in [swtch], the process is
    marked running and is the hart's current process. *)
Lemma schedule_one_runnable i f s p :
  room 1 (k_hl s) -> free (L_proc i) (k_hl s) -> k_procs s !! i = Some p ->
  p_status p = RUNNABLE ->
  let h := acq (L_proc i) (k_hl s) in
  schedule_one i f s [] =
  Blocked (set_k_hl (set_hl_cpus (<[hl_tp h := set_c_proc (Some i) (cur h)]> (hl_cpus h)) h)
            (set_k_procs (<[i := set_p_status RUNNING p]> (k_procs s)) s)).
Proof.
  intros Hr Hf Hp Hs h. assert (room 0 h) as Hr0 by exact (room_acq 1 _ _ Hr).
  unfold schedule_one. kstep acquire_run; [done..|].
  kstep get_proc_run; [done|]. rewrite bool_decide_true by done. rewrite bind_assoc.
  kstep upd_proc_run; [done|]. rewrite bind_assoc. kstep (fun s => curr_cpu_run s [] 0); done.
Qed.

Lemma schedule_from_blocks i p n k f s :
  p_status p = RUNNABLE -> (k + n = NPROC)%nat -> (k <= i < NPROC)%nat ->
  room 1 (k_hl s) -> (forall j, (j <= i)%nat -> free (L_proc j) (k_hl s)) ->
  k_procs s !! i = Some p ->
  (forall j q, (j < i)%nat -> k_procs s !! j = Some q -> p_status q <> RUNNABLE) ->
  exists s', schedule_from k n f s [] = Blocked s' /\
    me_of s' = Some i /\ held_by_me (L_proc i) (k_hl s') /\
    k_procs s' = <[i := set_p_status RUNNING p]> (k_procs s) /\
    intr_get (hl_sstatus (k_hl s')) = 0.
Proof.
  intros Hrun. revert k f s; induction n as [|n IH]; intros k f s Hk Hki Hr Hf Hp Hmin; [lia|].
  cbn [schedule_from]. unfold bind at 1. destruct (decide (k = i)) as [->|Hne].
  - rewrite (schedule_one_runnable i f s p) by (done || by apply Hf).
    eexists. split; [reflexivity|]. split; [|split; [|split]]; try done.
    + unfold me_of, cur. cbn. rewrite list_lookup_insert_eq; [done|].
      rewrite length_insert. apply lookup_lt_is_Some, Hr.
    + unfold held_by_me. cbn. by rewrite lookup_insert_eq.
    + apply intr_get_off.
  - destruct (lookup_lt_is_Some_2 (k_procs s) k) as [q Hq].
    { apply lookup_lt_Some in Hp. lia. }
    rewrite (schedule_one_skip k f s [] q); [|done|apply Hf; lia|done|apply (Hmin k); [lia|done]].
    apply (IH (S k) f (set_k_hl (bal (k_hl s)) s)); try done; try lia. by apply room_bal.
Qed.

(** Hart 0 runs process 0, for the witnesses. *)
Definition hl_run : hartlocks :=
  set_hl_cpus (<[0%nat := Mk_cpu (Some 0%nat) 0 0]> (hl_cpus (k_hl kernel0))) (k_hl kernel0).

Lemma hl_run_ready n : 0 <= n < 2 ^ 32 -> room n hl_run.
Proof. intros. split; [by eexists|]. cbn. lia. Qed.

Lemma hl_run_procs : procs_free None hl_run.
Proof. intros i Hi _. revert i Hi. apply (all_free L_proc). vm_compute. reflexivity. Qed.

(** ** Properties *)

(** wakeup makes runnable exactly the processes that sleep on the channel, except
    the caller, and changes nothing else. *)
Theorem wakeup_exact ch L h s e :
  k_hl s = acq L h -> not_proc_lock L -> room 2 h -> procs_free (me_of s) h ->
  length (k_procs s) = NPROC ->
  exists procs', wakeup ch s e = Ret tt (set_k_procs procs' s) e /\
  forall i, procs' !! i =
    match k_procs s !! i with
    | Some p => Some (if bool_decide (me_of s <> Some i /\ p_status p = SLEEPING /\ p_chan p = ch)
                      then set_p_status RUNNABLE p else p)
    | None => None
    end.
Proof.
  intros Hs HL Hr Hf Hl. exists (wake_procs (me_of s) ch (k_procs s)). split.
  - apply wakeup_run; rewrite ?Hs; try done.
    + exact (room_acq 2 _ _ Hr).
    + by apply (nested_acq L h 2).
    + by apply procs_free_acq.
  - intros i. rewrite lookup_wake_procs. destruct (k_procs s !! i) as [p|]; [|done]. cbn. f_equal.
    unfold wake. repeat case_bool_decide; cbn; try done; tauto.
Qed.

Lemma wakeup_exact_witness :
  let p := set_p_chan CLog (set_p_status SLEEPING proc0) in
  let s0 := set_k_procs (<[5%nat := p]> (k_procs kernel0)) kernel0 in
  let s := set_k_hl (acq L_log (k_hl kernel0)) s0 in
  exists procs', wakeup CLog s [] = Ret tt (set_k_procs procs' s) [] /\
                 (p_status <$> procs' !! 5%nat) = Some RUNNABLE.
Proof.
  intros p s0 s. destruct (wakeup_exact CLog L_log (k_hl kernel0) s []) as (pr & H1 & H2).
  - reflexivity.
  - by intros i.
  - split; [eexists; reflexivity|]. vm_compute. split; [discriminate | reflexivity].
  - intros i Hi _. revert i Hi. apply (all_free L_proc). vm_compute. reflexivity.
  - vm_compute. reflexivity.
  - exists pr. split; [exact H1|]. rewrite (H2 5%nat). vm_compute. reflexivity.
Defined.

(** sleep gives up the hart with its process asleep on the channel, its lock held and
    the condition lock released; a wakeup on the channel then makes it runnable. *)
Theorem sleep_then_wakeup ch L s h p pr :
  k_hl s = acq L h -> not_proc_lock L -> room 2 h -> free L h -> free (L_proc p) h ->
  noff (cur h) = 0 -> c_proc (cur h) = Some p -> k_procs s !! p = Some pr ->
  exists s', sleep ch L s [] = Blocked s' /\
    free L (k_hl s') /\ held_by_me (L_proc p) (k_hl s') /\
    (exists pr', k_procs s' !! p = Some pr' /\ p_status pr' = SLEEPING /\ p_chan pr' = ch) /\
    (forall i, i <> p -> k_procs s' !! i = k_procs s !! i) /\
    forall L' h' s'' e',
      k_procs s'' = k_procs s' -> length (k_procs s'') = NPROC -> k_hl s'' = acq L' h' ->
      not_proc_lock L' -> room 2 h' -> procs_free (me_of s'') h' -> me_of s'' <> Some p ->
      exists s3, wakeup ch s'' e' = Ret tt s3 e' /\ (p_status <$> k_procs s3 !! p) = Some RUNNABLE.
Proof.
  intros Hs HL Hr HfL Hfp H0 Hp Hpr. exists (asleep ch p pr h s).
  assert ((p < length (k_procs s))%nat) as Hlt by (by apply lookup_lt_Some in Hpr).
  split; [by rewrite (sleep_run ch L s [] h p pr)|].
  split; [by apply free_acq_ne|]. split; [apply held_acq|]. split; [|split].
  - eexists. split; [cbn; by apply list_lookup_insert_eq|]. done.
  - intros i Hi. cbn. by apply list_lookup_insert_ne.
  - intros L' h' s'' e' Hps Hlen Hs'' HL' Hr' Hf' Hme.
    eexists. split.
    + apply wakeup_run; rewrite ?Hs''; try done.
      * exact (room_acq 2 _ _ Hr').
      * by apply (nested_acq L' h' 2).
      * by apply procs_free_acq.
    + cbn. rewrite lookup_wake_procs, Hps. cbn. rewrite list_lookup_insert_eq by done. cbn.
      rewrite bool_decide_false by done. unfold wake. cbn. rewrite !bool_decide_true by done. done.
Qed.

Lemma sleep_then_wakeup_witness :
  let h := set_hl_cpus (<[0%nat := Mk_cpu (Some 7%nat) 0 0]> (hl_cpus (k_hl kernel0))) (k_hl kernel0) in
  let s := set_k_hl (acq L_log h) kernel0 in
  exists s', sleep CLog L_log s [] = Blocked s' /\ free L_log (k_hl s').
Proof.
  intros h s. destruct (sleep_then_wakeup CLog L_log s h 7 proc0) as (s' & H1 & H2 & _).
  - reflexivity.
  - by intros i.
  - split; [eexists; reflexivity|]. vm_compute. split; [discriminate | reflexivity].
  - vm_compute. reflexivity.
  - vm_compute. reflexivity.
  - reflexivity.
  - reflexivity.
  - reflexivity.
  - exists s'. auto.
Defined.

(** The scheduler's first pass switches to the first runnable process of the table: it
    is marked running, is the hart's current process, and its lock is held with
    interrupts off. *)
Theorem scheduler_runs_first s i p :
  room 1 (k_hl s) -> (forall j, (j <= i)%nat -> free (L_proc j) (k_hl s)) ->
  (i < NPROC)%nat -> k_procs s !! i = Some p -> p_status p = RUNNABLE ->
  (forall j q, (j < i)%nat -> k_procs s !! j = Some q -> p_status q <> RUNNABLE) ->
  exists s', scheduler 1 s [] = Blocked s' /\
    me_of s' = Some i /\ held_by_me (L_proc i) (k_hl s') /\
    k_procs s' = <[i := set_p_status RUNNING p]> (k_procs s) /\
    intr_get (hl_sstatus (k_hl s')) = 0.
Proof.
  intros Hr Hf Hi Hp Hrun Hmin.
  set (h := set_hl_cpus (<[hl_tp (k_hl s) := set_c_proc None (cur (k_hl s))]> (hl_cpus (k_hl s))) (k_hl s)).
  assert (room 1 h) as Hr'.
  { destruct Hr as (H1 & H2 & H3). assert (hl_cpus h !! hl_tp h = Some (set_c_proc None (cur (k_hl s)))) as E
      by (apply list_lookup_insert_eq; by apply lookup_lt_is_Some).
    split; [by eexists|]. unfold cur at 1 2. by rewrite E. }
  set (s1 := set_k_hl (set_hl_sstatus (intr_on (hl_sstatus h)) h) s).
  destruct (schedule_from_blocks i p NPROC 0 false s1 Hrun) as (s' & E & H); try done; try lia.
  exists s'. split; [|done]. unfold scheduler. kstep (curr_cpu_run s [] 1 Hr). unfold put_cpu, on_hl. rewrite bind_modify.
  change (set_k_hl _ s) with (set_k_hl h s). cbn [times]. unfold scheduler_pass, hart_intr_on, on_hl.
  unfold bind at 1 2, modify. cbv beta iota. cbn [k_hl set_k_hl]. unfold bind at 1.
  change (set_k_hl _ (set_k_hl h s)) with s1. by rewrite E.
Qed.

Lemma scheduler_runs_first_witness :
  let p := set_p_status RUNNABLE proc0 in
  let s := set_k_procs (<[3%nat := p]> (k_procs kernel0)) kernel0 in
  exists s', scheduler 1 s [] = Blocked s' /\ me_of s' = Some 3%nat.
Proof.
  intros p s. destruct (scheduler_runs_first s 3 p) as (s' & H1 & H2 & _).
  - split; [eexists; reflexivity|]. vm_compute. split; [discriminate | reflexivity].
  - intros j Hj. do 4 (destruct j as [|j]; [vm_compute; reflexivity|]). lia.
  - unfold NPROC. lia.
  - reflexivity.
  - reflexivity.
  - intros j q Hj. do 3 (destruct j as [|j]; [intros [= <-]; discriminate|]). lia.
  - exists s'. auto.
Defined.
