(* ===== verification/Rendezvous.v ===== *)
(** * Sleep and wakeup interleaved ([proc.cpp])

    The statements of [sleep] and of the body of [wakeup], as lists that the
    kernel's functions are equal to, interleaved: one process that waits for a
    condition in a loop, the scheduler that resumes it, and any number of other
    threads that change the condition.  No wakeup is lost. *)

From S2P Require Import Prelude State Riscv Lock Sched.

(** ** The statements *)

Inductive stmt :=
| Acquire (l : lockid)
| Release (l : lockid)
| SetChan (c : chan)            (* p->chan = c *)
| SetStatus (st : proc_status)       (* p->status = st *)
| Wake (c : chan)               (* if (p->status == SLEEPING && p->chan == c) p->status = RUNNABLE *)
| Switch.                       (* sched() *)

#[global] Instance stmt_eq_dec : EqDecision stmt.
Proof. solve_decision. Defined.

(** Their effect on the process. *)
Definition effect (st : stmt) : process -> process :=
  match st with
  | SetChan c => set_p_chan c
  | SetStatus x => set_p_status x
  | Wake c => wake c
  | _ => fun pr => pr
  end.

(** What they are in the kernel, for the process [p]. *)
Definition denote (p : nat) (st : stmt) : M unit :=
  match st with
  | Acquire l => acquire l
  | Release l => release l
  | Switch => sched
  | Wake c =>
      pr <- get_proc p ;;
      when (bool_decide (p_status pr = SLEEPING) && bool_decide (p_chan pr = c))
        (upd_proc p (set_p_status RUNNABLE))
  | SetChan c => upd_proc p (set_p_chan c)
  | SetStatus x => upd_proc p (set_p_status x)
  end.

Fixpoint denote_all (p : nat) (l : list stmt) : M unit :=
  match l with
  | [] => ret tt
  | [st] => denote p st
  | st :: l' => denote p st ;; denote_all p l'
  end.

Definition sleep_code (ch : chan) (L : lockid) (p : nat) : list stmt :=
  [Acquire (L_proc p); Release L; SetChan ch; SetStatus SLEEPING; Switch; SetChan CNull;
   Release (L_proc p); Acquire L].

Definition wakeup_code (ch : chan) (p : nat) : list stmt :=
  [Acquire (L_proc p); Wake ch; Release (L_proc p)].

Lemma sleep_is_code ch L s e : sleep ch L s e = (p <- me ;; denote_all p (sleep_code ch L p)) s e.
Proof. reflexivity. Qed.

Lemma wakeup_is_code ch i s e :
  wakeup_one ch i s e =
  (c <- curr_proc ;; if bool_decide (c = Some i) then ret tt else denote_all i (wakeup_code ch i)) s e.
Proof.
  unfold wakeup_one, wakeup_code. cbn [denote_all denote].
  assert (forall s e, (p <- get_proc i ;;
             when (bool_decide (p_status p = SLEEPING) && bool_decide (p_chan p = ch))
               (upd_proc i (set_p_status RUNNABLE)) ;; release (L_proc i)) s e =
          ((p <- get_proc i ;;
            when (bool_decide (p_status p = SLEEPING) && bool_decide (p_chan p = ch))
              (upd_proc i (set_p_status RUNNABLE))) ;; release (L_proc i)) s e) as E by (intros; by rewrite bind_assoc).
  unfold bind in *. destruct (curr_proc s e) as [c s1 e1 | | | |]; try done. destruct (bool_decide _); [done|].
  destruct (acquire (L_proc i) s1 e1) as [[] s2 e2 | | | |]; (apply E || done).
Qed.

Definition touches (st : stmt) : bool :=
  match st with SetChan _ | SetStatus _ | Wake _ => true | _ => false end.

(** A statement on the process writes [effect]. *)
Lemma denote_effect p st pr s e :
  touches st = true -> k_procs s !! p = Some pr ->
  denote p st s e = Ret tt (set_k_procs (<[p := effect st pr]> (k_procs s)) s) e.
Proof.
  intros Ht Hp. destruct st; try done; cbn [denote effect]; try by apply upd_proc_run.
  kstep get_proc_run; [done|]. unfold wake. destruct (_ && _); cbn [when]; [by apply upd_proc_run|].
  rewrite list_insert_id by done. by rewrite set_k_procs_id.
Qed.

(** ** The threads *)

Section rendezvous.
Context (ch : chan) (L : lockid) (p : nat).
Notation P := (L_proc p).

(** The waiting process:
    [lock.acquire(); while (!cond) sleep(ch, lock); use; lock.release();]. *)
Inductive waiter :=
| Away                          (* not holding the lock *)
| Testing                       (* about to test the condition *)
| Using                         (* the condition was true *)
| In_sleep (c : list stmt)      (* inside sleep, c left to run *)
| Switched (c : list stmt).     (* switched out; c after the resumption *)

(** What the other threads do: statements of the kernel, and changes of the condition. *)
Inductive action := Do (st : stmt) | Cond (b : bool).

Inductive thread := Waiter | Other (j : nat).

#[global] Instance thread_eq_dec : EqDecision thread.
Proof. solve_decision. Defined.

Record shared := Mk_shared {
  sh_locks : lockid -> option thread;
  sh_cond : bool;
  sh_proc : process;
  sh_waiter : waiter;
  sh_code : nat -> list action
}.

(** The first operation of the code on [l] is a release: the lock is held. *)
Fixpoint held (l : lockid) (c : list action) : bool :=
  match c with
  | [] => false
  | Do (Acquire l') :: r => if decide (l' = l) then false else held l r
  | Do (Release l') :: r => if decide (l' = l) then true else held l r
  | _ :: r => held l r
  end.

(** The code of another thread: locks are released in the end, the condition
    is changed only under the lock and, once true, followed by the body of [wakeup]
    for the process, which looks at it under its lock. *)
Fixpoint client (c : list action) : Prop :=
  match c with
  | [] => True
  | Do (Acquire l) :: r => held l r = true /\ client r
  | Do (Release l) :: r => held l r = false /\ client r
  | Do (Wake c) :: r => c = ch /\ held P r = true /\ client r
  | Do _ :: _ => False
  | Cond b :: r => held L r = true /\ (b = true -> Do (Wake ch) ∈ r) /\ client r
  end.

Definition set_lock (l : lockid) (o : option thread) (f : lockid -> option thread) : lockid -> option thread :=
  fun l' => if decide (l' = l) then o else f l'.

(** One statement run by thread [t], other than [Switch]; [acquire] of a taken lock waits. *)
Definition exec (t : thread) (st : stmt) (f : lockid -> option thread) (pr : process) :
    option ((lockid -> option thread) * process) :=
  match st with
  | Acquire l => match f l with None => Some (set_lock l (Some t) f, pr) | _ => None end
  | Release l => if decide (f l = Some t) then Some (set_lock l None f, pr) else None
  | Switch => None
  | _ => Some (f, effect st pr)
  end.

Definition go_on (c : list stmt) : waiter := match c with [] => Testing | _ => In_sleep c end.

Definition set_code (j : nat) (c : list action) (g : nat -> list action) : nat -> list action :=
  fun i => if decide (i = j) then c else g i.

Inductive step : shared -> shared -> Prop :=
| w_lock f f' b pr g : exec Waiter (Acquire L) f pr = Some (f', pr) ->
    step (Mk_shared f b pr Away g) (Mk_shared f' b pr Testing g)
| w_true f pr g :
    step (Mk_shared f true pr Testing g) (Mk_shared f true pr Using g)
| w_false f pr g :
    step (Mk_shared f false pr Testing g) (Mk_shared f false pr (In_sleep (sleep_code ch L p)) g)
| w_stmt f f' b pr pr' st c g : exec Waiter st f pr = Some (f', pr') ->
    step (Mk_shared f b pr (In_sleep (st :: c)) g) (Mk_shared f' b pr' (go_on c) g)
| w_switch f b pr c g : f P = Some Waiter ->
    (* the scheduler, switched to, releases the process lock *)
    step (Mk_shared f b pr (In_sleep (Switch :: c)) g) (Mk_shared (set_lock P None f) b pr (Switched c) g)
| w_resume f b pr c g : f P = None -> p_status pr = RUNNABLE ->
    (* the scheduler takes the lock, finds the process runnable and switches to it *)
    step (Mk_shared f b pr (Switched c) g)
         (Mk_shared (set_lock P (Some Waiter) f) b (set_p_status RUNNING pr) (In_sleep c) g)
| w_use f b b' pr g :
    step (Mk_shared f b pr Using g) (Mk_shared f b' pr Using g)
| w_unlock f f' b pr g : exec Waiter (Release L) f pr = Some (f', pr) ->
    step (Mk_shared f b pr Using g) (Mk_shared f' b pr Away g)
| o_start j c f b pr w g : g j = [] -> client c -> (forall l, held l c = false) ->
    step (Mk_shared f b pr w g) (Mk_shared f b pr w (set_code j c g))
| o_stmt j st c f f' b pr pr' w g : g j = Do st :: c -> exec (Other j) st f pr = Some (f', pr') ->
    step (Mk_shared f b pr w g) (Mk_shared f' b pr' w (set_code j c g))
| o_cond j b' c f b pr w g : g j = Cond b' :: c ->
    step (Mk_shared f b pr w g) (Mk_shared f b' pr w (set_code j c g)).

Definition init (b : bool) : shared :=
  Mk_shared (fun _ => None) b (set_p_status RUNNING proc0) Away (fun _ => []).

Inductive reachable : shared -> Prop :=
| reach_init b : reachable (init b)
| reach_step a b : reachable a -> step a b -> reachable b.

(** ** The invariant *)

Hypothesis HLP : L <> P.

Definition waiter_holds (w : waiter) (l : lockid) : bool :=
  match w with
  | Away | Switched _ => false
  | Testing | Using => bool_decide (l = L)
  | In_sleep c => held l (map Do c)
  end.

Definition holds (w : waiter) (g : nat -> list action) (t : thread) (l : lockid) : bool :=
  match t with Waiter => waiter_holds w l | Other j => held l (g j) end.

Definition rest (k : nat) : list stmt := drop k (sleep_code ch L p).

(** Where the waiter can be, and what it knows there. *)
Definition place (b : bool) (pr : process) (w : waiter) : Prop :=
  match w with
  | Away | Testing | Using => True
  | In_sleep c =>
      exists k, (k <= 7)%nat /\ c = rest k /\ ((k <= 1)%nat -> b = false) /\
        ((3 <= k <= 4)%nat -> p_chan pr = ch) /\ (k = 4%nat -> p_status pr = SLEEPING)
  | Switched c => c = rest 5 /\ p_chan pr = ch /\ (p_status pr = SLEEPING \/ p_status pr = RUNNABLE)
  end.

(** The waiter found the condition false and has not been woken since. *)
Definition committed (pr : process) (w : waiter) : Prop :=
  match w with
  | In_sleep c => exists k, (k <= 4)%nat /\ c = rest k
  | Switched _ => p_status pr = SLEEPING
  | _ => False
  end.

Definition waking (g : nat -> list action) : Prop := exists j, Do (Wake ch) ∈ g j.

Record inv (a : shared) : Prop := Inv {
  i_locks : forall l t, sh_locks a l = Some t <-> holds (sh_waiter a) (sh_code a) t l = true;
  i_client : forall j, client (sh_code a j);
  i_place : place (sh_cond a) (sh_proc a) (sh_waiter a);
  i_wake : committed (sh_proc a) (sh_waiter a) -> sh_cond a = true -> waking (sh_code a)
}.

Lemma rv_init b : inv (init b).
Proof. split; try done. by intros l [|j]. Qed.

Lemma set_code_eq j c g : set_code j c g j = c.
Proof. unfold set_code. by rewrite decide_True. Qed.

Lemma set_code_ne j i c g : i <> j -> set_code j c g i = g i.
Proof. intros. unfold set_code. by rewrite decide_False. Qed.

(** The locks after a statement of thread [t] that held [f]'s locks, when what it holds
    afterwards is the same but for the lock of the statement. *)
Lemma exec_locks (h h' : thread -> lockid -> bool) t st f pr f' pr' :
  (forall l u, f l = Some u <-> h u l = true) ->
  exec t st f pr = Some (f', pr') ->
  (forall u l, u <> t -> h' u l = h u l) ->
  (forall l, h' t l = match st with
                      | Acquire l' => if decide (l = l') then true else h t l
                      | Release l' => if decide (l = l') then false else h t l
                      | _ => h t l
                      end) ->
  forall l u, f' l = Some u <-> h' u l = true.
Proof.
  intros Hf He Ho Ht l u. destruct st as [l'|l'|c|x|c|]; cbn [exec] in He; simplify_eq;
    try (destruct (decide (u = t)) as [->|Hu]; [by rewrite Ht | by rewrite Ho]).
  - destruct (f l') eqn:El; [done|]. injection He as <- <-. unfold set_lock.
    destruct (decide (l = l')) as [->|Hl].
    + destruct (decide (u = t)) as [->|Hu]; [rewrite Ht, decide_True by done; done|].
      rewrite Ho by done. split; [congruence|]. intros H%Hf. congruence.
    + rewrite Hf. destruct (decide (u = t)) as [->|Hu]; [by rewrite Ht, decide_False | by rewrite Ho].
  - destruct (decide (f l' = Some t)) as [El|]; [|done]. injection He as <- <-. unfold set_lock.
    destruct (decide (l = l')) as [->|Hl].
    + destruct (decide (u = t)) as [->|Hu]; [rewrite Ht, decide_True by done; done|].
      rewrite Ho by done. split; [done|]. intros H%Hf. congruence.
    + rewrite Hf. destruct (decide (u = t)) as [->|Hu]; [by rewrite Ht, decide_False | by rewrite Ho].
Qed.

Lemma held_next st c l : client (Do st :: c) ->
  held l c = match st with
             | Acquire l' => if decide (l = l') then true else held l (Do st :: c)
             | Release l' => if decide (l = l') then false else held l (Do st :: c)
             | _ => held l (Do st :: c)
             end.
Proof.
  destruct st; cbn [client held]; intros H; try done; destruct H as [H _];
    repeat case_decide; subst; try done; congruence.
Qed.

Lemma client_tail a c : client (a :: c) -> client c.
Proof. destruct a as [[]|]; cbn; tauto. Qed.

Ltac sh := cbn [sh_locks sh_cond sh_proc sh_waiter sh_code place committed] in *.

(** *** The other threads *)

Lemma other_locks j st c f f' pr pr' w g :
  (forall l t, f l = Some t <-> holds w g t l = true) -> g j = Do st :: c -> client (g j) ->
  exec (Other j) st f pr = Some (f', pr') ->
  forall l t, f' l = Some t <-> holds w (set_code j c g) t l = true.
Proof.
  intros Hf Hj Hc He. eapply (exec_locks (holds w g)); [exact Hf | exact He | |].
  - intros [|i] l Hi; [done|]. cbn. rewrite set_code_ne by congruence. done.
  - intros l. cbn [holds]. rewrite set_code_eq, Hj. apply held_next. by rewrite <- Hj.
Qed.

Lemma waking_other j a c g : g j = a :: c -> a <> Do (Wake ch) -> waking g -> waking (set_code j c g).
Proof.
  intros Hj Ha [i Hi]. exists i. destruct (decide (i = j)) as [->|Hne]; [|by rewrite set_code_ne].
  rewrite set_code_eq. rewrite Hj in Hi. apply elem_of_cons in Hi as [|]; [congruence | done].
Qed.

Lemma clients_set j c g : (forall i, client (g i)) -> client c -> forall i, client (set_code j c g i).
Proof. intros Hg Hc i. unfold set_code. by case_decide. Qed.

(** The waiter does not hold what another thread holds. *)
Lemma other_excludes f w g j l :
  (forall l t, f l = Some t <-> holds w g t l = true) -> held l (g j) = true -> waiter_holds w l = false.
Proof.
  intros Hf Hj. destruct (waiter_holds w l) eqn:E; [|done].
  pose proof (proj2 (Hf l (Other j)) Hj). pose proof (proj2 (Hf l Waiter) E). congruence.
Qed.

Lemma rest_inj k k' : (k <= 8)%nat -> (k' <= 8)%nat -> rest k = rest k' -> k = k'.
Proof. intros H H' E. apply (f_equal length) in E. unfold rest in E. rewrite !length_drop in E. cbn in E. lia. Qed.

Lemma waiter_holds_lock k : (k <= 1)%nat -> waiter_holds (In_sleep (rest k)) L = true.
Proof. destruct k as [|[|k]]; [| |lia]; intros _; cbn; by rewrite ?decide_False, ?decide_True by done. Qed.

Lemma waiter_holds_proc k : (1 <= k <= 4)%nat -> waiter_holds (In_sleep (rest k)) P = true.
Proof.
  intros H. destruct k as [|[|[|[|[|k]]]]]; try lia; cbn; by rewrite ?decide_False, ?decide_True by done.
Qed.

Lemma wake_sleeping pr : p_status pr = SLEEPING -> p_chan pr = ch -> p_status (wake ch pr) = RUNNABLE.
Proof. intros H1 H2. unfold wake. by rewrite !bool_decide_true. Qed.

Lemma rv_wake_status pr : p_status pr = SLEEPING \/ p_status pr = RUNNABLE ->
  p_status (wake ch pr) = SLEEPING \/ p_status (wake ch pr) = RUNNABLE.
Proof. unfold wake. destruct (_ && _); cbn; auto. Qed.

Lemma rv_wake_chan pr : p_chan (wake ch pr) = p_chan pr.
Proof. unfold wake. by destruct (_ && _). Qed.

(** Another thread looks at the process while no part of sleep that holds its lock runs. *)
Lemma inv_wake j c f b pr w g :
  inv (Mk_shared f b pr w g) -> g j = Do (Wake ch) :: c -> inv (Mk_shared f b (wake ch pr) w (set_code j c g)).
Proof.
  intros [Hf Hc Hp Hw] Hj. sh. pose proof (Hc j) as Hcj. rewrite Hj in Hcj. destruct Hcj as (_ & HP & Hcl).
  assert (waiter_holds w P = false) as Hno by (apply (other_excludes f w g j); [done | by rewrite Hj]).
  split; sh.
  - by apply (other_locks j (Wake ch) c f f pr (wake ch pr)).
  - by apply clients_set.
  - destruct w as [| | |l|l]; try done; sh.
    + destruct Hp as (k & Hk & -> & H1 & H2 & H3). exists k. split_and!; try done; [rewrite rv_wake_chan; done|].
      intros ->. by rewrite (waiter_holds_proc 4) in Hno by lia.
    + destruct Hp as (-> & H1 & H2). split; [done|]. rewrite rv_wake_chan. split; [done|]. by apply rv_wake_status.
  - intros Hcm Hb. destruct w as [| | |l|l]; try done; sh.
    + destruct Hcm as (k & Hk & ->). destruct (decide (k = 0%nat)) as [->|Hk0].
      * destruct Hp as (k' & Hk' & E & H1 & _). assert (k' = 0)%nat as -> by (symmetry; apply rest_inj; [lia | lia | done]).
        rewrite H1 in Hb by lia. done.
      * by rewrite (waiter_holds_proc k) in Hno by lia.
    + destruct Hp as (_ & H1 & [H2|H2]).
      * by rewrite wake_sleeping in Hcm.
      * unfold wake in Hcm. rewrite bool_decide_false in Hcm by congruence. cbn [andb] in Hcm. congruence.
Qed.

Lemma inv_other j st c f f' b pr pr' w g :
  inv (Mk_shared f b pr w g) -> g j = Do st :: c -> exec (Other j) st f pr = Some (f', pr') ->
  inv (Mk_shared f' b pr' w (set_code j c g)).
Proof.
  intros Hi Hj He. pose proof Hi as [Hf Hc Hp Hw]. sh. pose proof (Hc j) as Hcj. rewrite Hj in Hcj.
  destruct (decide (st = Wake ch)) as [->|Hne]; [cbn in He; injection He as <- <-; by apply inv_wake|].
  assert (pr' = pr) as ->.
  { destruct st; cbn in He, Hcj; try done; [destruct (f l); congruence | case_decide; congruence | by destruct Hcj as (-> & _)]. }
  split; sh.
  - by apply (other_locks j st c f f' pr pr).
  - apply clients_set; [done | by apply (client_tail (Do st))].
  - done.
  - intros H1 H2. apply (waking_other j (Do st)); [done | congruence | by apply Hw].
Qed.

Lemma inv_cond j b' c f b pr w g :
  inv (Mk_shared f b pr w g) -> g j = Cond b' :: c -> inv (Mk_shared f b' pr w (set_code j c g)).
Proof.
  intros [Hf Hc Hp Hw] Hj. sh. pose proof (Hc j) as Hcj. rewrite Hj in Hcj. destruct Hcj as (HL & Hwk & Hcl).
  assert (waiter_holds w L = false) as Hno by (apply (other_excludes f w g j); [done | by rewrite Hj]).
  split; sh.
  - intros l t. rewrite Hf. destruct t as [|i]; [done|]. cbn. destruct (decide (i = j)) as [->|Hi].
    + by rewrite set_code_eq, Hj.
    + by rewrite set_code_ne.
  - by apply clients_set.
  - destruct w as [| | |l|l]; try done. destruct Hp as (k & Hk & -> & H1 & H2). exists k. split_and!; try done; try apply H2.
    intros Hk1. by rewrite (waiter_holds_lock k) in Hno.
  - intros _ ->. exists j. rewrite set_code_eq. by apply Hwk.
Qed.

Lemma inv_start j c f b pr w g :
  inv (Mk_shared f b pr w g) -> g j = [] -> client c -> (forall l, held l c = false) ->
  inv (Mk_shared f b pr w (set_code j c g)).
Proof.
  intros [Hf Hc Hp Hw] Hj Hcl Hh. sh. split; sh.
  - intros l t. rewrite Hf. destruct t as [|i]; [done|]. cbn. destruct (decide (i = j)) as [->|Hi].
    + by rewrite set_code_eq, Hj, Hh.
    + by rewrite set_code_ne.
  - by apply clients_set.
  - done.
  - intros H1 H2. destruct (Hw H1 H2) as [i Hi']. exists i. destruct (decide (i = j)) as [->|Hi]; [|by rewrite set_code_ne].
    rewrite Hj in Hi'. by apply not_elem_of_nil in Hi'.
Qed.

(** *** The waiter *)

Lemma waiter_locks st f f' pr pr' w w' g :
  (forall l t, f l = Some t <-> holds w g t l = true) -> exec Waiter st f pr = Some (f', pr') ->
  (forall l, waiter_holds w' l = match st with
                                 | Acquire l' => if decide (l = l') then true else waiter_holds w l
                                 | Release l' => if decide (l = l') then false else waiter_holds w l
                                 | _ => waiter_holds w l
                                 end) ->
  forall l t, f' l = Some t <-> holds w' g t l = true.
Proof.
  intros Hf He Hw. apply (exec_locks (holds w g) (holds w' g) Waiter st f pr f' pr'); try done.
  intros [|j] l Hne; done.
Qed.

Ltac locks_of := intros l; cbn; repeat case_decide; subst; try done; repeat case_bool_decide; congruence.

Lemma committed_rest pr k : committed pr (In_sleep (rest k)) -> (k <= 8)%nat -> (k <= 4)%nat.
Proof. intros (k' & H & E) Hk. apply rest_inj in E; lia. Qed.

(** The statements of [sleep] before and after the switch. *)
Lemma inv_stmt st c f f' b pr pr' g :
  inv (Mk_shared f b pr (In_sleep (st :: c)) g) -> exec Waiter st f pr = Some (f', pr') ->
  inv (Mk_shared f' b pr' (go_on c) g).
Proof.
  intros [Hf Hc Hp Hw] He. sh. destruct Hp as (k & Hk & E & H1 & H2 & H3).
  assert (forall l t, f' l = Some t <-> holds (go_on c) g t l = true) as Hf'.
  { apply (waiter_locks st f f' pr pr' (In_sleep (st :: c)) (go_on c)); [done | done |].
    do 8 (destruct k as [|k]; [injection E as -> ->; locks_of|]). lia. }
  assert (committed pr' (go_on c) -> b = true -> waking g) as Hw'.
  { intros Hcm Hb. apply Hw; [|done]. exists k. split; [|done].
    destruct k as [|[|[|[|[|[|[|[|k]]]]]]]]; try lia; injection E as -> ->; [..|done].
    - apply (committed_rest pr' 6) in Hcm; lia.
    - apply (committed_rest pr' 7) in Hcm; lia. }
  split; sh; try done. clear Hf' Hw'.
  destruct k as [|[|[|[|[|[|[|[|k]]]]]]]]; try lia; injection E as -> ->; cbn [exec effect] in He; try done; cbn [go_on place].
  - destruct (f P); [done|]. injection He as <- <-. exists 1%nat. split_and!; (done || lia || (intros; apply H1; lia)).
  - case_decide; [|done]. injection He as <- <-. exists 2%nat. split_and!; (done || lia).
  - injection He as <- <-. exists 3%nat. split_and!; (done || lia).
  - injection He as <- <-. exists 4%nat. split_and!; (done || lia || (intros; apply H2; lia)).
  - injection He as <- <-. exists 6%nat. split_and!; (done || lia).
  - case_decide; [|done]. injection He as <- <-. exists 7%nat. split_and!; (done || lia).
Qed.

Lemma inv_switch f b pr c g :
  inv (Mk_shared f b pr (In_sleep (Switch :: c)) g) -> f P = Some Waiter ->
  inv (Mk_shared (set_lock P None f) b pr (Switched c) g).
Proof.
  intros [Hf Hc Hp Hw] HP. sh. destruct Hp as (k & Hk & E & H1 & H2 & H3).
  assert (k = 4%nat /\ c = rest 5) as [-> ->].
  { destruct k as [|[|[|[|[|[|[|[|k]]]]]]]]; try lia; injection E as; try done. }
  split; sh; try done.
  - assert (exec Waiter (Release P) f pr = Some (set_lock P None f, pr)) as He by (cbn; by rewrite decide_True).
    apply (waiter_locks (Release P) f _ pr pr (In_sleep (rest 4)) (Switched (rest 5)) g Hf He). locks_of.
  - split; [done|]. split; [apply H2; lia | left; by apply H3].
  - intros _ Hb. apply Hw; [|done]. by exists 4%nat.
Qed.

Lemma inv_resume f b pr c g :
  inv (Mk_shared f b pr (Switched c) g) -> f P = None ->
  inv (Mk_shared (set_lock P (Some Waiter) f) b (set_p_status RUNNING pr) (In_sleep c) g).
Proof.
  intros [Hf Hc Hp Hw] HP. sh. destruct Hp as (-> & H1 & H2). split; sh; try done.
  - assert (exec Waiter (Acquire P) f pr = Some (set_lock P (Some Waiter) f, pr)) as He by (cbn; by rewrite HP).
    apply (waiter_locks (Acquire P) f _ pr pr (Switched (rest 5)) (In_sleep (rest 5)) g Hf He). locks_of.
  - exists 5%nat. split_and!; (done || lia).
  - intros Hcm. apply (committed_rest pr 5) in Hcm; lia.
Qed.

(** A step of the waiter that does not lead into sleep with the condition true. *)
Lemma inv_outside f f' b b' pr w w' g :
  inv (Mk_shared f b pr w g) -> (forall l t, f' l = Some t <-> holds w' g t l = true) ->
  place b' pr w' -> (committed pr w' -> b' = false) -> inv (Mk_shared f' b' pr w' g).
Proof.
  intros [_ Hc _ _] Hf Hp Hb. sh. split; sh; try done. intros Hcm Hb'. rewrite Hb in Hb' by done. done.
Qed.

(** The same with the locks untouched. *)
Lemma inv_local f b b' pr w w' g :
  inv (Mk_shared f b pr w g) -> (forall l, waiter_holds w' l = waiter_holds w l) ->
  place b' pr w' -> (committed pr w' -> b' = false) -> inv (Mk_shared f b' pr w' g).
Proof.
  intros Hi Hl. apply (inv_outside f f b b' pr w w' g Hi). intros l [|j]; cbn [holds]; [rewrite Hl|]; apply Hi.
Qed.

Lemma rv_step a b : inv a -> step a b -> inv b.
Proof.
  intros Hi Hs. destruct Hs as [f f' b pr g He | f pr g | f pr g | f f' b pr pr' st c g He | f b pr c g HP
    | f b pr c g HP Hr | f b b' pr g | f f' b pr g He | j c f b pr w g Hj Hc Hh | j st c f f' b pr pr' w g Hj He
    | j b' c f b pr w g Hj].
  - apply (inv_outside f f' b b pr Away Testing g); try done.
    apply (waiter_locks (Acquire L) f f' pr pr Away); [apply Hi | done | locks_of].
  - by apply (inv_local f true true pr Testing Using g).
  - apply (inv_local f false false pr Testing (In_sleep (rest 0)) g); try done; [locks_of|].
    exists 0%nat. split_and!; (done || lia).
  - by apply (inv_stmt st c f f' b pr pr' g).
  - by apply inv_switch.
  - by apply inv_resume.
  - by apply (inv_local f b b' pr Using Using g).
  - apply (inv_outside f f' b b pr Using Away g); try done.
    apply (waiter_locks (Release L) f f' pr pr Using); [apply Hi | done | locks_of].
  - by apply inv_start.
  - by apply (inv_other j st c f f' b pr pr' w g).
  - by apply (inv_cond j b' c f b pr w g).
Qed.

Lemma rv_reachable a : reachable a -> inv a.
Proof. induction 1; eauto using rv_init, rv_step. Qed.

End rendezvous.

(** ** Properties *)

(** C31: No wakeup is lost. sleep takes p->lock, releases the condition lock, sets chan
    and status and switches out with p->lock held, and the body of wakeup takes p->lock,
    tests and releases: both functions are equal to these lists of statements, and each
    statement on the process has the effect the interleaving gives it. In every
    interleaving of the statements of a process that waits for a condition in a loop
    (while not cond, sleep), of the scheduler that resumes it, and of any number of
    other threads that change the condition only under its lock and run wakeup's body
    after making it true: whenever the process is switched out and the condition is
    true, it is runnable or some thread has yet to run wakeup's test, and that test
    makes a switched-out process runnable; sleep releases only locks it holds, and
    switches out holding p->lock and not the condition lock. *)
Theorem sleep_no_lost_wakeup ch L p a :
  L <> L_proc p -> reachable ch L p a ->
  (forall s e, sleep ch L s e = (q <- me ;; denote_all q (sleep_code ch L q)) s e) /\
  (forall i s e, wakeup_one ch i s e =
     (c <- curr_proc ;; if bool_decide (c = Some i) then ret tt else denote_all i (wakeup_code ch i)) s e) /\
  (forall st pr s e, touches st = true -> k_procs s !! p = Some pr ->
     denote p st s e = Ret tt (set_k_procs (<[p := effect st pr]> (k_procs s)) s) e) /\
  (forall c, sh_waiter a = Switched c -> sh_cond a = true ->
     p_status (sh_proc a) = RUNNABLE \/ exists j, Do (Wake ch) ∈ sh_code a j) /\
  (forall c, sh_waiter a = Switched c -> p_status (effect (Wake ch) (sh_proc a)) = RUNNABLE) /\
  (forall l c, sh_waiter a = In_sleep (Release l :: c) -> sh_locks a l = Some Waiter) /\
  (forall c, sh_waiter a = In_sleep (Switch :: c) ->
     sh_locks a (L_proc p) = Some Waiter /\ sh_locks a L <> Some Waiter).
Proof.
  intros HL Ha. pose proof (rv_reachable ch L p HL a Ha) as [Hf Hc Hp Hw].
  split; [apply sleep_is_code|]. split; [apply wakeup_is_code|]. split; [apply denote_effect|]. split_and!.
  - intros c E Hb. rewrite E in Hp, Hw. destruct Hp as (-> & H1 & [H2|H2]); [right; by apply Hw | by left].
  - intros c E. rewrite E in Hp. destruct Hp as (-> & H1 & [H2|H2]); cbn [effect]; [by apply wake_sleeping|].
    unfold wake. by rewrite bool_decide_false by congruence.
  - intros l c E. apply Hf. rewrite E. cbn. by rewrite decide_True.
  - intros c E. rewrite E in Hp. destruct Hp as (k & Hk & Ek & _).
    assert (c = rest ch L p 5) as -> by (destruct k as [|[|[|[|[|[|[|[|k]]]]]]]]; try lia; injection Ek as; done).
    split; [|rewrite Hf]; [apply Hf|]; rewrite E; cbn; repeat case_decide; congruence.
Qed.

(** Process 7 has gone to sleep on the log; thread 0 has made the condition true and
    is about to look at the process. *)
Lemma sleep_no_lost_wakeup_witness :
  exists a c, reachable CLog L_log 7 a /\ sh_waiter a = Switched c /\ p_status (sh_proc a) = SLEEPING /\ sh_cond a = true /\
    (exists j, Do (Wake CLog) ∈ sh_code a j) /\ p_status (effect (Wake CLog) (sh_proc a)) = RUNNABLE.
Proof.
  set (sig := [Do (Acquire L_log); Cond true; Do (Acquire (L_proc 7)); Do (Wake CLog); Do (Release (L_proc 7)); Do (Release L_log)]).
  pose proof (reach_init CLog L_log 7 false) as H.
  eassert (reachable CLog L_log 7 _) as H1 by (eapply reach_step; [exact H | eapply w_lock; reflexivity]).
  eassert (reachable CLog L_log 7 _) as H2 by (eapply reach_step; [exact H1 | apply w_false]).
  eassert (reachable CLog L_log 7 _) as H3 by (eapply reach_step; [exact H2 | eapply w_stmt; reflexivity]).
  eassert (reachable CLog L_log 7 _) as H4 by (eapply reach_step; [exact H3 | eapply w_stmt; reflexivity]).
  eassert (reachable CLog L_log 7 _) as H5 by (eapply reach_step; [exact H4 | eapply w_stmt; reflexivity]).
  eassert (reachable CLog L_log 7 _) as H6 by (eapply reach_step; [exact H5 | eapply w_stmt; reflexivity]).
  eassert (reachable CLog L_log 7 _) as H7 by (eapply reach_step; [exact H6 | eapply w_switch; reflexivity]).
  eassert (reachable CLog L_log 7 _) as H8.
  { eapply reach_step; [exact H7 | apply (o_start _ _ _ 0 sig); [reflexivity | repeat split; set_solver |]].
    intros l. cbn. repeat case_decide; congruence. }
  eassert (reachable CLog L_log 7 _) as H9 by (eapply reach_step; [exact H8 | eapply (o_stmt _ _ _ 0); reflexivity]).
  eassert (reachable CLog L_log 7 _) as H10 by (eapply reach_step; [exact H9 | eapply (o_cond _ _ _ 0); reflexivity]).
  eassert (reachable CLog L_log 7 _) as H11 by (eapply reach_step; [exact H10 | eapply (o_stmt _ _ _ 0); reflexivity]).
  destruct (sleep_no_lost_wakeup CLog L_log 7 _ ltac:(discriminate) H11) as (_ & _ & _ & Hw & He & _).
  eexists _, _. split; [exact H11|]. split; [reflexivity|]. split; [reflexivity|]. split; [reflexivity|]. split.
  - destruct (Hw _ eq_refl eq_refl) as [E|E]; [discriminate E | exact E].
  - exact (He _ eq_refl).
Defined.
