(* ===== verification/Kalloc.v ===== *)
(** * The physical page allocator ([vm.cpp]: [kinit], [kfree], [kalloc])

    The free list is threaded through the free pages themselves: the first
    eight bytes of a free page hold the address of the next one.  [kinv] relates
    that chain in memory to the abstract list of free pages. *)

From S2P Require Import Prelude State Riscv Cstring Lock.

(** ** The functions *)

Definition on_mem (f : memory -> memory) : M unit := modify (fun s => set_k_mem (f (k_mem s)) s).

Definition kfree (addr : Z) : M unit :=
  on_mem (fun m => memset m addr 1 PGSIZE) ;;
  acquire L_kmem ;;
  fl <- gets k_freelist ;;
  on_mem (fun m => store64 m addr fl) ;;
  modify (set_k_freelist addr) ;;
  release L_kmem.

Definition kalloc : M (option Z) :=
  acquire L_kmem ;;
  tmp <- gets k_freelist ;;
  if negb (tmp =? 0) then
    m <- gets k_mem ;;
    modify (set_k_freelist (load64 m tmp)) ;;
    on_mem (fun m => memset m tmp 5 PGSIZE) ;;
    release L_kmem ;;
    ret (Some tmp)
  else
    release L_kmem ;;
    ret None.

(** The loop of [kinit], from [p_start] on. *)
Fixpoint kinit_from (fuel : nat) (p_start : Z) : M unit :=
  match fuel with
  | O => fun _ _ => NoFuel
  | S f => if p_start + PGSIZE <=? PHY_END
           then kfree p_start ;; kinit_from f (p_start + PGSIZE) else ret tt
  end.

(** [kend] is the linker symbol [end]; the loop body runs at most once per
    page of physical memory. *)
Definition kinit (kend : Z) : M unit :=
  kinit_from (S (Z.to_nat (PHY_END / PGSIZE))) (PG_ROUND_UP kend).

(** ** The free list *)

Definition is_page (a : Z) : Prop := a mod PGSIZE = 0 /\ 0 < a /\ a + PGSIZE <= 2 ^ 56.

Definition in_page (a x : Z) : Prop := a <= x < a + PGSIZE.

Fixpoint chain (m : memory) (p : Z) (l : list Z) : Prop :=
  match l with
  | [] => p = 0
  | a :: l' => p = a /\ is_page a /\ chain m (load64 m a) l'
  end.

(** [l] is the list of free pages, in the order they will be handed out. *)
Definition kinv (m : memory) (fl : Z) (l : list Z) : Prop := chain m fl l /\ NoDup l.

(** The part of the state the allocator and the page-table code change. *)
Definition vm_upd (h : hartlocks) (m : memory) (fl : Z) (s : kernel) : kernel :=
  set_k_hl h (set_k_mem m (set_k_freelist fl s)).

(** The hart state after any number of critical sections. *)
Definition hl_done (h h' : hartlocks) : Prop := h' = h \/ h' = bal h.

(** ** Lemmas *)

Lemma chain_ext m m' p l :
  (forall a, a ∈ l -> load64 m' a = load64 m a) -> chain m p l -> chain m' p l.
Proof.
  revert p; induction l as [|a l IH]; intros p He; cbn [chain]; [done|].
  intros (-> & Hp & Hc). split; [done|]. split; [done|].
  rewrite He by set_solver. apply IH; [|done]. intros b Hb. apply He. set_solver.
Qed.

Lemma chain_pages m p l : chain m p l -> Forall is_page l.
Proof.
  revert p; induction l as [|a l IH]; intros p; cbn [chain]; [constructor|].
  intros (_ & Hp & Hc). constructor; eauto.
Qed.

(** Distinct pages do not overlap. *)
Lemma page_disjoint a b x : is_page a -> is_page b -> in_page a x -> in_page b x -> a = b.
Proof. unfold is_page, in_page, PGSIZE. zmod. Qed.

Lemma load64_page_ext m m' a b :
  is_page a -> is_page b -> a <> b -> (forall x, ~ in_page b x -> m' x = m x) ->
  load64 m' a = load64 m a.
Proof.
  intros Ha Hb Hne He. apply load64_ext. intros x Hx. apply He. intros Hbx.
  apply Hne. apply (page_disjoint a b x Ha Hb); [|done]. unfold in_page, PGSIZE in *. lia.
Qed.

(** Writing inside a page that is not free leaves the free list alone. *)
Lemma kinv_write_page m m' fl l b :
  is_page b -> b ∉ l -> (forall x, ~ in_page b x -> m' x = m x) -> kinv m fl l -> kinv m' fl l.
Proof.
  intros Hb Hnl He [Hc Hnd]. split; [|done]. apply (chain_ext m); [|done].
  intros a Ha. apply (load64_page_ext m m' a b); try done.
  - pose proof (chain_pages _ _ _ Hc) as Hp. rewrite Forall_forall in Hp. by apply Hp, list_elem_of_In.
  - by intros ->.
Qed.

Lemma hl_done_refl h : hl_done h h.
Proof. by left. Qed.

Lemma hl_done_bal n h h' : room n h -> hl_done h h' -> hl_done h (bal h').
Proof. intros (H & _) [-> | ->]; right; [done|]. by apply bal_idem. Qed.

Lemma hl_done_trans n h h1 h2 : room n h -> hl_done h h1 -> hl_done h1 h2 -> hl_done h h2.
Proof. intros Hr H1 [-> | ->]; [done|]. by apply (hl_done_bal n). Qed.

Lemma hl_done_room n h h' : hl_done h h' -> room n h -> room n h'.
Proof. intros [-> | ->]; auto using room_bal. Qed.

Lemma hl_done_free L h h' : hl_done h h' -> free L h -> free L h'.
Proof. intros [-> | ->]; auto using free_bal. Qed.

Lemma vm_upd_twice h m fl h' m' fl' s : vm_upd h m fl (vm_upd h' m' fl' s) = vm_upd h m fl s.
Proof. done. Qed.

Lemma vm_upd_id s : vm_upd (k_hl s) (k_mem s) (k_freelist s) s = s.
Proof. by destruct s. Qed.

Lemma on_mem_run f h m fl s e : on_mem f (vm_upd h m fl s) e = Ret tt (vm_upd h (f m) fl s) e.
Proof. done. Qed.

Lemma memset_page_out m a v x : ~ in_page a x -> memset m a v PGSIZE x = m x.
Proof. unfold in_page, PGSIZE. intros. apply memset_out; lia. Qed.

Lemma memset_page_in m a v x : in_page a x -> memset m a v PGSIZE x = u8 v.
Proof. unfold in_page, PGSIZE. intros. apply memset_in; lia. Qed.

Lemma kfree_run a s e :
  room 1 (k_hl s) -> free L_kmem (k_hl s) ->
  kfree a s e =
  Ret tt (vm_upd (bal (k_hl s)) (store64 (memset (k_mem s) a 1 PGSIZE) a (k_freelist s)) a s) e.
Proof.
  intros Hr Hf. unfold kfree, on_mem. rewrite bind_modify.
  kstep acquire_run; [done..|]. rewrite bind_gets, !bind_modify.
  erewrite (release_acq_run _ (k_hl s)); [|done..]. done.
Qed.

Lemma kfree_kinv a s l :
  is_page a -> a ∉ l -> kinv (k_mem s) (k_freelist s) l -> 0 <= k_freelist s < 2 ^ 64 ->
  kinv (store64 (memset (k_mem s) a 1 PGSIZE) a (k_freelist s)) a (a :: l).
Proof.
  intros Ha Hnl [Hc Hnd] Hfl.
  set (m' := store64 (memset (k_mem s) a 1 PGSIZE) a (k_freelist s)).
  assert (forall x, ~ in_page a x -> m' x = k_mem s x) as Hout.
  { intros x Hx. unfold m', store64. rewrite store_bytes_out.
    - by apply memset_page_out.
    - rewrite length_le_bytes. unfold in_page, PGSIZE in Hx. lia. }
  split; [|by constructor]. cbn [chain]. split; [done|]. split; [done|].
  unfold m'. rewrite load64_store64, u64_small by done.
  by apply (kinv_write_page (k_mem s) m' (k_freelist s) l a).
Qed.

Lemma kinv_head_range m fl l : kinv m fl l -> 0 <= fl < 2 ^ 64.
Proof. destruct l as [|a l]; intros [Hc _]; cbn [chain] in Hc; [lia|]. destruct Hc as (-> & Hp & _).
  unfold is_page, PGSIZE in Hp. lia. Qed.

Lemma kalloc_none s e :
  room 1 (k_hl s) -> free L_kmem (k_hl s) -> kinv (k_mem s) (k_freelist s) [] ->
  kalloc s e = Ret None (vm_upd (bal (k_hl s)) (k_mem s) (k_freelist s) s) e.
Proof.
  intros Hr Hf [Hc _]. cbn [chain] in Hc. unfold kalloc. kstep acquire_run; [done..|].
  rewrite bind_gets. cbn [k_freelist set_k_hl]. rewrite Hc. cbn [negb Z.eqb].
  kstep (release_acq_run L_kmem (k_hl s)); [done..|]. unfold vm_upd. rewrite <- Hc. by destruct s.
Qed.

Lemma kalloc_some a l s e :
  room 1 (k_hl s) -> free L_kmem (k_hl s) -> kinv (k_mem s) (k_freelist s) (a :: l) ->
  exists fl',
    kalloc s e = Ret (Some a) (vm_upd (bal (k_hl s)) (memset (k_mem s) a 5 PGSIZE) fl' s) e /\
    kinv (memset (k_mem s) a 5 PGSIZE) fl' l /\ is_page a /\ a ∉ l.
Proof.
  intros Hr Hf [Hc Hnd]. cbn [chain] in Hc. destruct Hc as (Hfl & Hp & Hc).
  inversion_clear Hnd as [|? ? Hnl Hnd']. exists (load64 (k_mem s) a). split; [|split; [|done]].
  - unfold kalloc. kstep acquire_run; [done..|].
    rewrite bind_gets. cbn [k_freelist set_k_hl]. rewrite Hfl.
    assert ((a =? 0) = false) as -> by (unfold is_page in Hp; apply Z.eqb_neq; lia). cbn [negb].
    unfold on_mem. rewrite bind_gets, !bind_modify.
    kstep (release_acq_run L_kmem (k_hl s)); [done..|]. done.
  - apply (kinv_write_page (k_mem s) _ _ _ a); try done. intros x. apply memset_page_out.
Qed.

Lemma kinit_from_run fuel p s e l :
  room 1 (k_hl s) -> free L_kmem (k_hl s) -> kinv (k_mem s) (k_freelist s) l ->
  p mod PGSIZE = 0 -> 0 < p -> (Z.to_nat ((PHY_END - p) / PGSIZE) < fuel)%nat ->
  (forall a, a ∈ l -> a < p) ->
  exists m' fl' h' l',
    kinit_from fuel p s e = Ret tt (vm_upd h' m' fl' s) e /\ hl_done (k_hl s) h' /\
    kinv m' fl' (l' ++ l) /\
    (forall a, a ∈ l' <-> a mod PGSIZE = 0 /\ p <= a /\ a + PGSIZE <= PHY_END).
Proof.
  revert p s l; induction fuel as [|fuel IH]; intros p s l Hr Hf Hk Hm Hp0 Hfu Hl; [lia|].
  cbn [kinit_from]. destruct (Z.leb_spec (p + PGSIZE) PHY_END) as [Hle|Hgt].
  - assert (is_page p) as Hp. { unfold is_page, PHY_END, KERNEL_BASE, PGSIZE in *. lia. }
    assert (p ∉ l) as Hnl. { intros H. apply Hl in H. lia. }
    unfold bind. rewrite (kfree_run p s e Hr Hf).
    pose proof (kfree_kinv p s l Hp Hnl Hk (kinv_head_range _ _ _ Hk)) as Hk'.
    set (m1 := store64 _ _ _) in *. set (s1 := vm_upd _ _ _ _).
    destruct (IH (p + PGSIZE) s1 (p :: l)) as (m' & fl' & h' & l' & Hrun & Hh & Hkk & Hl');
      try done; unfold PGSIZE in *.
    + by apply room_bal.
    + zmod.
    + lia.
    + assert ((PHY_END - (p + 4096)) / 4096 < (PHY_END - p) / 4096) by zmod.
      assert (0 <= (PHY_END - (p + 4096)) / 4096 \/ (PHY_END - (p + 4096)) / 4096 < 0) by lia.
      assert (1 <= (PHY_END - p) / 4096) by zmod. lia.
    + intros a Ha. apply elem_of_cons in Ha as [-> | Ha]; [lia|]. specialize (Hl a Ha). lia.
    + exists m', fl', h', (l' ++ [p]). split; [rewrite Hrun; done|]. split.
      { apply (hl_done_trans 1 _ (bal (k_hl s))); [done | by right | done]. }
      split; [by rewrite <- app_assoc|].
      intros a. rewrite elem_of_app, Hl', list_elem_of_singleton. zmod.
  - exists (k_mem s), (k_freelist s), (k_hl s), []. split; [by destruct s|].
    split; [apply hl_done_refl|]. split; [done|].
    intros a. split; [by intros ?%elem_of_nil | lia].
Qed.

(** ** Properties *)

(** C11: The linked free list in memory implements a list of free pages: kalloc returns
    and removes its head, filled with the byte 5, or nothing when it is empty; kfree
    puts a page back; memory outside the page is not touched. *)
Theorem kalloc_kfree_refine s e l :
  room 1 (k_hl s) -> free L_kmem (k_hl s) -> kinv (k_mem s) (k_freelist s) l ->
  (match l with
   | [] => exists s', kalloc s e = Ret None s' e /\ kinv (k_mem s') (k_freelist s') [] /\
                      k_mem s' = k_mem s
   | a :: l' => exists s', kalloc s e = Ret (Some a) s' e /\ is_page a /\ (a ∉ l') /\
                  kinv (k_mem s') (k_freelist s') l' /\
                  (forall x, k_mem s' x = if bool_decide (in_page a x) then 5 else k_mem s x)
   end) /\
  (forall a, is_page a -> a ∉ l ->
     exists s', kfree a s e = Ret tt s' e /\ kinv (k_mem s') (k_freelist s') (a :: l) /\
                (forall x, ~ in_page a x -> k_mem s' x = k_mem s x)).
Proof.
  intros Hr Hf Hk. split.
  - destruct l as [|a l].
    + eexists. split; [by apply kalloc_none|]. done.
    + destruct (kalloc_some a l s e Hr Hf Hk) as (fl' & Hrun & Hk' & Hp & Hn).
      eexists. split; [exact Hrun|]. repeat (split; [done|]). intros x. cbn.
      case_bool_decide; [by apply memset_page_in | by apply memset_page_out].
  - intros a Hp Hn. eexists. split; [by apply kfree_run|]. split.
    + apply kfree_kinv; try done. by apply kinv_head_range in Hk.
    + intros x Hx. cbn. unfold store64. rewrite store_bytes_out.
      * by apply memset_page_out.
      * rewrite length_le_bytes. unfold in_page, PGSIZE in Hx. lia.
Qed.

Lemma kernel0_ready : room 1 (k_hl kernel0) /\ free L_kmem (k_hl kernel0).
Proof.
  split; [|vm_compute; reflexivity]. split; [eexists; reflexivity|].
  vm_compute. split; [discriminate | reflexivity].
Defined.

(** A state with three free pages, for the witnesses. *)
Definition page1 : Z := 2147549184.
Definition page2 : Z := 2147553280.
Definition page3 : Z := 2147557376.

Definition three_pages : kernel :=
  set_k_freelist page1
    (set_k_mem (store64 (store64 (store64 (fun _ => 0) page1 page2) page2 page3) page3 0) kernel0).

Lemma three_pages_kinv : kinv (k_mem three_pages) (k_freelist three_pages) [page1; page2; page3].
Proof.
  split; [|vm_compute; repeat constructor; set_solver].
  vm_compute. repeat split; try discriminate; reflexivity.
Qed.

Lemma kalloc_kfree_refine_witness :
  kinv (k_mem kernel0) (k_freelist kernel0) [] /\
  exists s', kfree 2147487744 kernel0 [] = Ret tt s' [] /\ kinv (k_mem s') (k_freelist s') [2147487744].
Proof.
  assert (kinv (k_mem kernel0) (k_freelist kernel0) []) as Hk by (split; [reflexivity | constructor]).
  split; [done|].
  destruct (kalloc_kfree_refine kernel0 [] [] (proj1 kernel0_ready) (proj2 kernel0_ready) Hk) as [_ H].
  destruct (H 2147487744) as (s' & H1 & H2 & _).
  - unfold is_page, PGSIZE. split; [reflexivity|]. lia.
  - apply not_elem_of_nil.
  - exists s'. auto.
Defined.

(** kinit puts exactly the whole pages between the end of the kernel and the end of
    memory on the free list, each once. *)
Theorem kinit_all_pages kend s e :
  room 1 (k_hl s) -> free L_kmem (k_hl s) -> k_freelist s = 0 -> KERNEL_BASE < kend < PHY_END ->
  exists s' l, kinit kend s e = Ret tt s' e /\ kinv (k_mem s') (k_freelist s') l /\
    (forall a, a ∈ l <-> a mod PGSIZE = 0 /\ kend <= a /\ a + PGSIZE <= PHY_END).
Proof.
  intros Hr Hf H0 Hend. unfold kinit.
  assert (PHY_END = 2281701376) as HP by reflexivity. assert (KERNEL_BASE = 2147483648) as HK by reflexivity.
  assert (PG_ROUND_UP kend = (kend + PGSIZE - 1) / PGSIZE * PGSIZE) as Hup.
  { apply pg_round_up_low. unfold PGSIZE. lia. }
  remember (S (Z.to_nat (PHY_END / PGSIZE))) as fuel eqn:Hfuel.
  destruct (kinit_from_run fuel (PG_ROUND_UP kend) s e [])
    as (m' & fl' & h' & l' & Hrun & _ & Hk & Hl);
    [exact Hr | exact Hf | | | | | |]; rewrite ?Hup; unfold PGSIZE in *.
  - split; [exact H0 | constructor].
  - zmod.
  - zmod.
  - assert ((PHY_END - (kend + 4096 - 1) / 4096 * 4096) / 4096 <= PHY_END / 4096) by zmod. lia.
  - by intros a ?%elem_of_nil.
  - eexists _, l'. split; [rewrite <- Hup; exact Hrun|]. rewrite app_nil_r in Hk. split; [exact Hk|].
    intros a. rewrite Hl, Hup. zmod.
Qed.

Lemma kinit_all_pages_witness :
  exists s' l, kinit (KERNEL_BASE + 100000) kernel0 [] = Ret tt s' [] /\
               kinv (k_mem s') (k_freelist s') l.
Proof.
  destruct (kinit_all_pages (KERNEL_BASE + 100000) kernel0 []) as (s' & l & H1 & H2 & _).
  - apply kernel0_ready.
  - apply kernel0_ready.
  - reflexivity.
  - unfold PHY_END, KERNEL_BASE. lia.
  - exists s', l. auto.
Defined.
