(* ===== verification/Vm.v ===== *)
(** * Page tables ([vm.cpp], [proc::map_stack])

    The three-level Sv39 tables the kernel keeps in pages from the allocator:
    [walk], [map_pages], and the user address-space operations built on them.
    [pte_val] is the abstract content of a table (a page-table entry per
    virtual page); the theorems say how each operation changes it. *)

From S2P Require Import Prelude State Riscv Cstring Lock Kalloc.

(** ** The functions *)

(** Body of the loop of [walk] at [level]: the next-level table. *)
Definition walk_level (alloc : bool) (level va pagetable : Z) : M (option Z) :=
  let pte := pagetable + 8 * PX level va in
  m <- gets k_mem ;;
  if negb (Z.land (load64 m pte) PTE_V =? 0) then ret (Some (PTE2PA (load64 m pte)))
  else if alloc then
    opt <- kalloc ;;
    match opt with
    | None => ret None
    | Some pt =>
        on_mem (fun m => memset m pt 0 PGSIZE) ;;
        on_mem (fun m => store64 m pte (Z.lor (PA2PTE pt) PTE_V)) ;;
        ret (Some pt)
    end
  else ret None.

(** The loop runs for [level = 2] and [level = 1]. *)
Definition walk (pagetable va : Z) (alloc : bool) : M (option Z) :=
  if VA_MAX <? va then panic "vm::walk: va > VA_MAX"
  else
    o1 <- walk_level alloc 2 va pagetable ;;
    match o1 with
    | None => ret None
    | Some pt1 =>
        o0 <- walk_level alloc 1 va pt1 ;;
        match o0 with
        | None => ret None
        | Some pt0 => ret (Some (pt0 + 8 * PX 0 va))
        end
    end.

Definition walkaddr (pagetable va : Z) : M Z :=
  if VA_MAX <? va then ret 0
  else
    opt <- walk pagetable va false ;;
    match opt with
    | None => ret 0
    | Some pte =>
        m <- gets k_mem ;;
        if Z.land (load64 m pte) PTE_V =? 0 then ret 0
        else if Z.land (load64 m pte) PTE_U =? 0 then ret 0
        else ret (PTE2PA (load64 m pte))
    end.

(** The [while (true)] of [map_pages]. *)
Fixpoint map_pages_loop (fuel : nat) (pagetable a last pa flag : Z) : M bool :=
  match fuel with
  | O => fun _ _ => NoFuel
  | S f =>
      opt <- walk pagetable a true ;;
      match opt with
      | None => ret false
      | Some pte =>
          m <- gets k_mem ;;
          if negb (Z.land (load64 m pte) PTE_V =? 0) then panic "vm::mappages: remap"
          else
            on_mem (fun m => store64 m pte (Z.lor (Z.lor (PA2PTE pa) flag) PTE_V)) ;;
            if a =? last then ret true
            else map_pages_loop f pagetable (u64 (a + PGSIZE)) last (u64 (pa + PGSIZE)) flag
      end
  end.

Definition map_pages (pagetable va pa size flag : Z) : M bool :=
  if negb (va mod PGSIZE =? 0) then panic "mappages: va not aligned"
  else if negb (size mod PGSIZE =? 0) then panic "mappages: size not aligned"
  else if size =? 0 then panic "mappages: size"
  else map_pages_loop (Z.to_nat (size / PGSIZE)) pagetable va (u64 (u64 (va + size) - PGSIZE)) pa flag.

Definition uvm_create : M Z :=
  opt <- kalloc ;;
  match opt with
  | None => ret 0
  | Some rs => on_mem (fun m => memset m rs 0 PGSIZE) ;; ret rs
  end.

(** [src] is the contents of the source array; [kalloc().value()] of an empty
    optional reads an uninitialised union member. *)
Definition uvm_first (pagetable : Z) (src : list Z) (size : Z) : M unit :=
  if PGSIZE <? size then panic "uvm_first: size > PGSIZE"
  else
    opt <- kalloc ;;
    mem <- of_option "optional::value" opt ;;
    on_mem (fun m => memset m mem 0 PGSIZE) ;;
    ok <- map_pages pagetable 0 mem PGSIZE (Z.lor (Z.lor (Z.lor PTE_R PTE_W) PTE_X) PTE_U) ;;
    on_mem (fun m => store_bytes m mem (take (Z.to_nat size) src)).

(** The [for] loop of [uvm_unmap], up to [last = va + npages * PGSIZE]. *)
Fixpoint uvm_unmap_loop (fuel : nat) (pagetable a last : Z) (do_free : bool) : M unit :=
  match fuel with
  | O => fun _ _ => NoFuel
  | S f =>
      if negb (a <? last) then ret tt
      else
        opt <- walk pagetable a false ;;
        match opt with
        | None => panic "vm::uvm_unmap: walk"
        | Some pte =>
            m <- gets k_mem ;;
            if Z.land (load64 m pte) PTE_V =? 0
            then uvm_unmap_loop f pagetable (u64 (a + PGSIZE)) last do_free
            else if PTE_FLAGS (load64 m pte) =? PTE_V then panic "vm::uvm_unmap: not a leaf"
            else
              when do_free (kfree (PTE2PA (load64 m pte))) ;;
              on_mem (fun m => store64 m pte 0) ;;
              uvm_unmap_loop f pagetable (u64 (a + PGSIZE)) last do_free
        end
  end.

Definition uvm_unmap (pagetable va npages : Z) (do_free : bool) : M unit :=
  if negb (va mod PGSIZE =? 0) then panic "vm::uvm_unmap: not aligned"
  else uvm_unmap_loop (S (Z.to_nat npages)) pagetable va (u64 (va + u64 (npages * PGSIZE))) do_free.

(** The 512 entries of one table, freeing each child with [rec]. *)
Fixpoint free_walk_entries (rec : Z -> M unit) (pagetable : Z) (i : Z) (n : nat) : M unit :=
  match n with
  | O => ret tt
  | S n' =>
      m <- gets k_mem ;;
      let pte := load64 m (pagetable + 8 * i) in
      (if negb (Z.land pte PTE_V =? 0) && (Z.land pte (Z.lor (Z.lor PTE_R PTE_W) PTE_X) =? 0) then
         rec (PTE2PA pte) ;; on_mem (fun m => store64 m (pagetable + 8 * i) 0)
       else if negb (Z.land pte PTE_V =? 0) then panic "vm::free_walk: leaf"
       else ret tt) ;;
      free_walk_entries rec pagetable (i + 1) n'
  end.

(** [fuel] bounds the depth of the table: 3 for a table [walk] builds. *)
Fixpoint free_walk (fuel : nat) (pagetable : Z) : M unit :=
  match fuel with
  | O => fun _ _ => NoFuel
  | S f => free_walk_entries (free_walk f) pagetable 0 512 ;; kfree pagetable
  end.

Definition uvm_free (pagetable sz : Z) : M unit :=
  when (0 <? sz) (uvm_unmap pagetable 0 (PG_ROUND_UP sz / PGSIZE) true) ;;
  free_walk 3 pagetable.

Definition uvm_dealloc (pagetable oldsz newsz : Z) : M Z :=
  if oldsz <=? newsz then ret oldsz
  else
    when (PG_ROUND_UP newsz <? PG_ROUND_UP oldsz)
      (let npages := (PG_ROUND_UP oldsz - PG_ROUND_UP newsz) / PGSIZE in
       uvm_unmap pagetable (PG_ROUND_UP newsz) npages true) ;;
    ret newsz.

(** The [for] loop of [uvm_alloc]; [oldsz] is the rounded-up old size. *)
Fixpoint uvm_alloc_loop (fuel : nat) (pagetable a oldsz newsz xperm : Z) : M Z :=
  match fuel with
  | O => fun _ _ => NoFuel
  | S f =>
      if negb (a <? newsz) then ret newsz
      else
        opt <- kalloc ;;
        match opt with
        | None => uvm_dealloc pagetable a oldsz ;; ret 0
        | Some mem =>
            on_mem (fun m => memset m mem 0 PGSIZE) ;;
            ok <- map_pages pagetable a mem PGSIZE (Z.lor (Z.lor PTE_R PTE_U) xperm) ;;
            if negb ok then kfree mem ;; uvm_dealloc pagetable a oldsz ;; ret 0
            else uvm_alloc_loop f pagetable (u64 (a + PGSIZE)) oldsz newsz xperm
        end
  end.

Definition uvm_alloc (pagetable oldsz newsz xperm : Z) : M Z :=
  if newsz <? oldsz then ret oldsz
  else
    let oldsz := PG_ROUND_UP oldsz in
    uvm_alloc_loop (S (Z.to_nat (newsz / PGSIZE + 1))) pagetable oldsz oldsz newsz xperm.

Fixpoint uvm_copy_loop (fuel : nat) (old_pt new_pt i sz : Z) : M bool :=
  match fuel with
  | O => fun _ _ => NoFuel
  | S f =>
      if negb (i <? sz) then ret true
      else
        opt <- walk old_pt i false ;;
        match opt with
        | None => panic "vm::uvm_copy: pte not exit"
        | Some pte =>
            m <- gets k_mem ;;
            if Z.land (load64 m pte) PTE_V =? 0 then uvm_copy_loop f old_pt new_pt (u64 (i + PGSIZE)) sz
            else
              let pa := PTE2PA (load64 m pte) in
              let flags := PTE_FLAGS (load64 m pte) in
              opt_mem <- kalloc ;;
              match opt_mem with
              | None => uvm_unmap new_pt i (i / PGSIZE) true ;; ret false
              | Some mem =>
                  on_mem (fun m => memmove m mem pa PGSIZE) ;;
                  ok <- map_pages new_pt i mem PGSIZE flags ;;
                  if negb ok then uvm_unmap new_pt i (i / PGSIZE) true ;; ret false
                  else uvm_copy_loop f old_pt new_pt (u64 (i + PGSIZE)) sz
              end
        end
  end.

Definition uvm_copy (old_pt new_pt sz : Z) : M bool :=
  uvm_copy_loop (S (Z.to_nat (sz / PGSIZE + 1))) old_pt new_pt 0 sz.

Definition uvm_clear (pagetable va : Z) : M unit :=
  opt <- walk pagetable va false ;;
  match opt with
  | None => panic "vm::uvm_clear: pte not exit"
  | Some pte => on_mem (fun m => store64 m pte (Z.land (load64 m pte) (not64 PTE_V)))
  end.

(** [proc::map_stack]; [psize] is [sizeof(struct process)], fixed by the ABI. *)
Fixpoint map_stack_from (psize kpt : Z) (i n : nat) : M unit :=
  match n with
  | O => ret tt
  | S n' =>
      opt <- kalloc ;;
      match opt with
      | Some pa =>
          ok <- map_pages kpt (KSTACK (s32 (Z.of_nat i * psize))) pa PGSIZE (Z.lor PTE_R PTE_W) ;;
          map_stack_from psize kpt (S i) n'
      | None => panic "proc::map_stack: error"
      end
  end.

Definition map_stack (psize kpt : Z) : M unit := map_stack_from psize kpt 0 NPROC.

Definition UART0 : Z := 268435456.        (* 0x10000000 *)
Definition VIRTIO0 : Z := 268439552.      (* 0x10001000 *)
Definition PLIC : Z := 201326592.         (* 0x0c000000 *)

(** [if (map_pages(...) == false) fmt::panic(msg)]. *)
Definition map_or_panic (msg : string) (kpt va pa size flag : Z) : M unit :=
  ok <- map_pages kpt va pa size flag ;; if negb ok then panic msg else ret tt.

(** [etext] and [trampoline] are linker symbols. *)
Definition kvm_make (psize etext trampoline : Z) : M (option Z) :=
  opt <- kalloc ;;
  match opt with
  | None => ret None
  | Some kpt =>
      on_mem (fun m => memset m kpt 0 PGSIZE) ;;
      map_or_panic "vm::kvm_make: UART0" kpt UART0 UART0 PGSIZE (Z.lor PTE_R PTE_W) ;;
      map_or_panic "vm::kvm_make: VIRTIO0" kpt VIRTIO0 VIRTIO0 PGSIZE (Z.lor PTE_R PTE_W) ;;
      map_or_panic "vm::kvm_make: PLIC" kpt PLIC PLIC 67108864 (Z.lor PTE_R PTE_W) ;;
      map_or_panic "vm::kvm_make: KERNEL_BASE" kpt KERNEL_BASE KERNEL_BASE
        (u64 (etext - KERNEL_BASE)) (Z.lor PTE_R PTE_X) ;;
      map_or_panic "vm::kvm_make: etext" kpt etext etext (u64 (PHY_END - etext)) (Z.lor PTE_R PTE_W) ;;
      map_or_panic "vm::kvm_make: TRAMPOLINE" kpt TRAMPOLINE trampoline PGSIZE (Z.lor PTE_R PTE_X) ;;
      map_stack psize kpt ;;
      ret (Some kpt)
  end.

Definition init (psize etext trampoline : Z) : M unit :=
  opt <- kvm_make psize etext trampoline ;;
  match opt with
  | Some kpt => modify (set_k_kpt kpt)
  | None => panic "vm::init: error"
  end.

(** ** The abstract table *)

Definition idx (i : Z) : Prop := 0 <= i < 512.

Definition child (m : memory) (a i : Z) : option Z :=
  let e := load64 m (a + 8 * i) in
  if Z.land e PTE_V =? 0 then None else Some (PTE2PA e).

(** The table reached from [root] through the indices of [p]. *)
Definition page_at (m : memory) (root : Z) (p : list Z) : option Z :=
  foldl (fun o i => o ≫= fun a => child m a i) (Some root) p.

#[global] Arguments page_at : simpl never.

(** A path of at most [n] steps. *)
Definition vpath (n : nat) (p : list Z) : Prop := (length p <= n)%nat /\ Forall idx p.

(** The tables of [root] are distinct pages, none of them in [l]. *)
Definition pt_wf (m : memory) (root : Z) (l : list Z) : Prop :=
  (forall p a, vpath 2 p -> page_at m root p = Some a -> is_page a /\ a ∉ l) /\
  (forall p q a, vpath 2 p -> vpath 2 q ->
     page_at m root p = Some a -> page_at m root q = Some a -> p = q).

Definition is_table (m : memory) (root a : Z) : Prop :=
  exists p, vpath 2 p /\ page_at m root p = Some a.

Definition pte_loc (m : memory) (root va : Z) : option Z :=
  page_at m root [PX 2 va; PX 1 va] ≫= fun a => Some (a + 8 * PX 0 va).

(** The entry of [va]'s page; 0 (not valid) where there is no table. *)
Definition pte_val (m : memory) (root va : Z) : Z :=
  match pte_loc m root va with Some a => load64 m a | None => 0 end.

(** ** Lemmas on tables *)

Lemma px_idx level va : 0 <= level -> idx (PX level va).
Proof. apply px_range. Qed.

Lemma page_at_snoc m root p i :
  page_at m root (p ++ [i]) = page_at m root p ≫= fun a => child m a i.
Proof. unfold page_at. by rewrite foldl_app. Qed.

Lemma vpath_snoc n p i : vpath (S n) (p ++ [i]) <-> vpath n p /\ idx i.
Proof.
  unfold vpath. rewrite Forall_app, Forall_singleton, length_app. cbn [length].
  split; intros; dex; (split; [first [split; [lia|done] | lia] | first [done | split; done]]).
Qed.

Lemma vpath_weaken n n' p : (n <= n')%nat -> vpath n p -> vpath n' p.
Proof. intros ? [? ?]. split; [lia | done]. Qed.

Lemma vpath_va va : vpath 2 [PX 2 va; PX 1 va].
Proof. split; [done|]. repeat constructor; apply px_range; lia. Qed.

Lemma child_inv m a i c :
  child m a i = Some c -> Z.land (load64 m (a + 8 * i)) PTE_V <> 0 /\ c = PTE2PA (load64 m (a + 8 * i)).
Proof. unfold child. case_match eqn:E; [done|]. intros [= <-]. by apply Z.eqb_neq in E. Qed.

Lemma child_ext m m' a i : load64 m' (a + 8 * i) = load64 m (a + 8 * i) -> child m' a i = child m a i.
Proof. unfold child. by intros ->. Qed.

(** Entries of two tables are the same eight bytes or disjoint. *)
Lemma entry_store_ne m b k b' k' v :
  is_page b -> is_page b' -> idx k -> idx k' -> b <> b' \/ k <> k' ->
  load64 (store64 m (b + 8 * k) v) (b' + 8 * k') = load64 m (b' + 8 * k').
Proof. unfold is_page, idx, PGSIZE. intros. apply load64_store64_ne. zmod. Qed.

Lemma entry_in_page a i x : idx i -> a + 8 * i <= x < a + 8 * i + 8 -> in_page a x.
Proof. unfold idx, in_page, PGSIZE. lia. Qed.

Lemma store_entry_out m a i v x : idx i -> ~ in_page a x -> store64 m (a + 8 * i) v x = m x.
Proof.
  unfold idx, in_page, PGSIZE. intros. unfold store64. apply store_bytes_out.
  rewrite length_le_bytes. lia.
Qed.

Lemma entry_page_ext m m' a b i :
  is_page a -> is_page b -> a <> b -> idx i -> (forall x, ~ in_page b x -> m' x = m x) ->
  load64 m' (a + 8 * i) = load64 m (a + 8 * i).
Proof.
  intros Ha Hb Hne Hi He. apply load64_ext. intros x Hx. apply He. intros Hbx.
  apply Hne. apply (page_disjoint a b x Ha Hb); [|done]. by apply (entry_in_page _ i).
Qed.

(** Changing one entry [(p, i)] keeps every table not reached through it. *)
Lemma page_at_frame m m' root p i q :
  (forall r b k, vpath 1 r -> idx k -> page_at m root r = Some b -> r <> p \/ k <> i ->
     load64 m' (b + 8 * k) = load64 m (b + 8 * k)) ->
  (forall r, q <> p ++ i :: r) -> vpath 2 q -> page_at m' root q = page_at m root q.
Proof.
  intros He. induction q as [|k q IH] using rev_ind; intros Hq Hv; [done|].
  rewrite !page_at_snoc. apply vpath_snoc in Hv as [Hv Hk].
  rewrite IH; [|intros r ->; apply (Hq (r ++ [k])); by rewrite <- app_assoc | by apply (vpath_weaken 1); [lia|]].
  destruct (page_at m root q) as [b|] eqn:E; [|done]. cbn. apply child_ext.
  apply (He q); try done. destruct (decide (q = p)) as [->|]; [|by left]. right. intros ->.
  by apply (Hq []).
Qed.

(** Changing entries of last-level tables only keeps every table. *)
Lemma page_at_leaf m m' root q :
  (forall r b k, vpath 1 r -> idx k -> page_at m root r = Some b ->
     load64 m' (b + 8 * k) = load64 m (b + 8 * k)) ->
  vpath 2 q -> page_at m' root q = page_at m root q.
Proof.
  intros He Hv. apply (page_at_frame m m' root q 0); [eauto | | done].
  intros r H. apply (f_equal length) in H. rewrite length_app in H. cbn in H. lia.
Qed.

Lemma page_at_prefix m root p q a :
  page_at m root (p ++ q) = Some a -> is_Some (page_at m root p).
Proof.
  revert a. induction q as [|k q IH] using rev_ind; intros a.
  - rewrite app_nil_r. by eexists.
  - rewrite app_assoc, page_at_snoc. destruct (page_at m root (p ++ q)) as [b|] eqn:E; [eauto | done].
Qed.

Lemma pt_wf_weaken m root l l' : (forall a, a ∈ l' -> a ∈ l) -> pt_wf m root l -> pt_wf m root l'.
Proof. intros Hl [H1 H2]. split; [|done]. intros p a Hp Ha. destruct (H1 p a Hp Ha). set_solver. Qed.

(** ** Adding a table *)

Lemma table_entry n : is_page n ->
  PTE2PA (Z.lor (PA2PTE n) PTE_V) = n /\ Z.land (Z.lor (PA2PTE n) PTE_V) PTE_V <> 0 /\
  0 <= Z.lor (PA2PTE n) PTE_V < 2 ^ 64.
Proof.
  unfold is_page, PGSIZE. intros (? & ? & ?). change PTE_V with 1. rewrite pte_build by lia.
  unfold PGSIZE. repeat split.
  - rewrite pte2pa_eq; zmod.
  - change 1 with (2 ^ 1 - 1) at 2. rewrite land_ones_mod by lia. zmod.
  - zmod.
  - zmod.
Qed.

(** ** Entries above the last level *)

Definition PTE_RWX : Z := Z.lor (Z.lor PTE_R PTE_W) PTE_X.

(** They are pointers: no permission bit is set. *)
Definition dirs_ok (m : memory) (root : Z) : Prop :=
  forall p a i, vpath 1 p -> idx i -> page_at m root p = Some a -> Z.land (load64 m (a + 8 * i)) PTE_RWX = 0.

Lemma table_entry_rwx n : is_page n -> Z.land (Z.lor (PA2PTE n) PTE_V) PTE_RWX = 0.
Proof.
  unfold is_page, PGSIZE. intros (? & ? & ?). change PTE_V with 1. rewrite pte_build by lia. unfold PGSIZE.
  change PTE_RWX with (Z.land (2 ^ 10 - 1) PTE_RWX). rewrite Z.land_assoc. rewrite land_ones_mod by lia.
  replace ((n / 4096 * 1024 + 1) mod 2 ^ 10) with 1 by zmod. reflexivity.
Qed.

Lemma dirs_ok_frame m m' root :
  (forall q b, vpath 1 q -> page_at m' root q = Some b -> page_at m root q = Some b) ->
  (forall q b k, vpath 1 q -> idx k -> page_at m root q = Some b -> load64 m' (b + 8 * k) = load64 m (b + 8 * k)) ->
  dirs_ok m root -> dirs_ok m' root.
Proof. intros Hp He Hd q b k Hq Hk Hb. rewrite (He q b k) by auto. apply (Hd q); auto. Qed.

(** The state after [walk] adds the table [n] at entry [i] of [a]. *)
Section new_table.
Context (m m' : memory) (root a i n : Z) (p l : list Z).
Hypothesis Hwf : pt_wf m root (n :: l).
Hypothesis Hn : is_page n.
Hypothesis Hnl : n ∉ l.
Hypothesis Hp : vpath 1 p.
Hypothesis Hi : idx i.
Hypothesis Ha : page_at m root p = Some a.
Hypothesis Hc : child m a i = None.
Hypothesis Hm' : m' = store64 (memset (memset m n 5 PGSIZE) n 0 PGSIZE) (a + 8 * i) (Z.lor (PA2PTE n) PTE_V).

Lemma new_table_page_a : is_page a /\ a <> n /\ a ∉ l.
Proof.
  destruct Hwf as [H _]. destruct (H p a) as [? Hx]; [by apply (vpath_weaken 1); [lia|] | done |].
  split; [done|]. split; [intros -> | intros Hy]; apply Hx; set_solver.
Qed.

Lemma new_table_entry r b k :
  vpath 2 r -> idx k -> page_at m root r = Some b -> r <> p \/ k <> i ->
  load64 m' (b + 8 * k) = load64 m (b + 8 * k).
Proof.
  intros Hr Hk Hb Hne. destruct new_table_page_a as (Hpa & Han & _).
  destruct Hwf as [H Hinj]. destruct (H r b Hr Hb) as [Hpb Hx].
  assert (b <> n) by (intros ->; apply Hx; set_solver).
  rewrite Hm', entry_store_ne; try done.
  - apply (entry_page_ext _ _ _ n); try done. intros x Hx'. rewrite !memset_page_out; done.
  - destruct (decide (a = b)) as [->|]; [|by left]. right. intros ->. destruct Hne as [Hne|]; [|done].
    apply Hne. apply (Hinj r p b); try done. by apply (vpath_weaken 1); [lia|].
Qed.

Lemma new_table_keep q : vpath 2 q -> (forall r, q <> p ++ i :: r) -> page_at m' root q = page_at m root q.
Proof.
  intros Hq Hne. apply (page_at_frame m m' root p i q); try done.
  intros r b k Hr. apply new_table_entry. by apply (vpath_weaken 1); [lia|].
Qed.

Lemma new_table_old q b : vpath 2 q -> page_at m root q = Some b -> page_at m' root q = Some b.
Proof.
  intros Hq Hb. rewrite new_table_keep; try done. intros r ->.
  change (i :: r) with ([i] ++ r) in Hb. rewrite app_assoc in Hb.
  apply page_at_prefix in Hb as [c Hc']. rewrite page_at_snoc, Ha in Hc'. cbn in Hc'. congruence.
Qed.

Lemma new_table_at : page_at m' root (p ++ [i]) = Some n.
Proof.
  rewrite page_at_snoc. rewrite (new_table_old p a); [|by apply (vpath_weaken 1); [lia|] | done].
  cbn. unfold child. rewrite Hm', load64_store64.
  destruct (table_entry n Hn) as (He & Hv & Hr). rewrite u64_small by done.
  apply Z.eqb_neq in Hv. by rewrite Hv, He.
Qed.

Lemma new_table_zero k : idx k -> load64 m' (n + 8 * k) = 0.
Proof.
  intros Hk. destruct new_table_page_a as (Hpa & Han & _).
  rewrite Hm', entry_store_ne by auto. unfold load64, load_bytes. cbn [seq map].
  rewrite !memset_page_in; [done | unfold in_page, idx, PGSIZE in *; lia ..].
Qed.

(** Below the new table there is nothing. *)
Lemma new_table_below q b : vpath 2 q -> page_at m' root q = Some b ->
  page_at m root q = Some b \/ (q = p ++ [i] /\ b = n).
Proof.
  intros Hq Hb. destruct (decide (firstn (S (length p)) q = p ++ [i])) as [He|Hne].
  - right. pose proof (take_drop (S (length p)) q) as Hsplit. rewrite He in Hsplit.
    destruct (drop (S (length p)) q) as [|k r].
    + rewrite app_nil_r in Hsplit. subst q. rewrite new_table_at in Hb. split; congruence.
    + exfalso. subst q. change (k :: r) with ([k] ++ r) in Hb. rewrite app_assoc in Hb.
      apply page_at_prefix in Hb as [c Hb]. rewrite page_at_snoc, new_table_at in Hb. cbn in Hb.
      unfold child in Hb. destruct Hq as [_ Hq]. rewrite !Forall_app, !Forall_cons_iff in Hq. dex.
      rewrite new_table_zero in Hb by done. done.
  - left. rewrite <- new_table_keep; try done. intros r ->. apply Hne.
    change (i :: r) with ([i] ++ r). rewrite app_assoc. apply take_app_length'.
    rewrite length_app. cbn. lia.
Qed.

Lemma new_table_wf : pt_wf m' root l.
Proof.
  destruct Hwf as [H1 H2]. split.
  - intros q b Hq Hb. destruct (new_table_below q b Hq Hb) as [Hb'|[-> ->]]; [|done].
    destruct (H1 q b Hq Hb'). set_solver.
  - intros q r b Hq Hr Hb Hb'.
    destruct (new_table_below q b Hq Hb) as [Hb1|[-> ->]], (new_table_below r _ Hr Hb') as [Hb2|[-> ?]]; subst.
    + by apply (H2 q r b).
    + destruct (H1 q n Hq Hb1). set_solver.
    + destruct (H1 r n Hr Hb2). set_solver.
    + done.
Qed.

Lemma new_table_val va : pte_val m' root va = pte_val m root va.
Proof.
  unfold pte_val, pte_loc. pose proof (vpath_va va) as Hv.
  destruct (page_at m root [PX 2 va; PX 1 va]) as [b|] eqn:Hb; cbn.
  - rewrite (new_table_old _ b) by done. cbn. apply (new_table_entry [PX 2 va; PX 1 va]); try done.
    + by apply px_idx.
    + left. intros <-. destruct Hp as [Hl _]. cbn in Hl. lia.
  - destruct (page_at m' root [PX 2 va; PX 1 va]) as [b|] eqn:Hb'; cbn; [|done].
    destruct (new_table_below _ b Hv Hb') as [?|[_ ->]]; [congruence|].
    apply new_table_zero. by apply px_idx.
Qed.

Lemma new_table_dirs : dirs_ok m root -> dirs_ok m' root.
Proof.
  intros Hd q b k Hq Hk Hb. assert (vpath 2 q) as Hq2 by (by apply (vpath_weaken 1); [lia|]).
  destruct (new_table_below q b Hq2 Hb) as [Hb'|[-> ->]]; [|by rewrite new_table_zero].
  destruct (decide (q = p /\ k = i)) as [[-> ->]|Hne].
  - assert (b = a) as -> by congruence. rewrite Hm', load64_store64.
    destruct (table_entry n Hn) as (_ & _ & Hr). rewrite u64_small by done. by apply table_entry_rwx.
  - rewrite (new_table_entry q) by (done || (destruct (decide (q = p)); [right; intros ->; by apply Hne | by left])). by apply (Hd q).
Qed.
End new_table.

(** ** Growing a table

    What a walk that allocates may change: new empty tables, taken from the
    free pages. *)

Record pt_step (m : memory) (root : Z) (l : list Z) (m' : memory) (l' : list Z) : Prop := PtStep {
  ps_wf : pt_wf m' root l';
  ps_old q b : vpath 2 q -> page_at m root q = Some b -> page_at m' root q = Some b;
  ps_new b : is_table m' root b -> is_table m root b \/ b ∈ l;
  ps_free b : b ∈ l' -> b ∈ l;
  ps_all b : b ∈ l -> b ∈ l' \/ is_table m' root b;
  ps_dirs : dirs_ok m root -> dirs_ok m' root;
  ps_frame x : (forall b, is_table m root b \/ b ∈ l -> ~ in_page b x) -> m' x = m x
}.

Definition pt_grow (m : memory) (root : Z) (l : list Z) (m' : memory) (l' : list Z) : Prop :=
  pt_step m root l m' l' /\ forall va, pte_val m' root va = pte_val m root va.

Lemma pt_step_refl m root l : pt_wf m root l -> pt_step m root l m l.
Proof. by split; auto. Qed.

Lemma pt_step_trans m root l m1 l1 m2 l2 :
  pt_step m root l m1 l1 -> pt_step m1 root l1 m2 l2 -> pt_step m root l m2 l2.
Proof.
  intros [W1 O1 N1 F1 A1 I1 X1] [W2 O2 N2 F2 A2 I2 X2]. split; try done.
  - auto.
  - intros b [Hb|Hb]%N2; auto.
  - auto.
  - intros b [Hb|(q & Hq & Hb)]%A1; [auto|]. right. exists q. auto.
  - auto.
  - intros x Hx. rewrite X2; [by apply X1|]. intros b [Hb|Hb]; apply Hx; auto.
Qed.

Lemma pt_grow_refl m root l : pt_wf m root l -> pt_grow m root l m l.
Proof. split; [by apply pt_step_refl | done]. Qed.

Lemma pt_grow_trans m root l m1 l1 m2 l2 :
  pt_grow m root l m1 l1 -> pt_grow m1 root l1 m2 l2 -> pt_grow m root l m2 l2.
Proof.
  intros [S1 V1] [S2 V2]. split; [by apply (pt_step_trans _ _ _ m1 l1)|]. intros va. by rewrite V2.
Qed.

Lemma pt_grow_new m root a i n p l :
  pt_wf m root (n :: l) -> is_page n -> n ∉ l -> vpath 1 p -> idx i ->
  page_at m root p = Some a -> child m a i = None ->
  let m' := store64 (memset (memset m n 5 PGSIZE) n 0 PGSIZE) (a + 8 * i) (Z.lor (PA2PTE n) PTE_V) in
  pt_grow m root (n :: l) m' l /\ page_at m' root (p ++ [i]) = Some n.
Proof.
  intros Hwf Hn Hnl Hp Hi Ha Hc m'.
  split; [|by apply (new_table_at m m' root a i n p l)].
  split; [|by apply (new_table_val m m' root a i n p l)]. split.
  - by apply (new_table_wf m m' root a i n p l).
  - by apply (new_table_old m m' root a i n p l).
  - intros b (q & Hq & Hb). destruct (new_table_below m m' root a i n p l) with q b as [H|[_ ->]]; try done.
    + left. by exists q.
    + right. set_solver.
  - set_solver.
  - intros b [->|Hb]%elem_of_cons; [|by left]. right. exists (p ++ [i]).
    split; [by apply vpath_snoc | by apply (new_table_at m m' root a i n p l)].
  - intros Hd. by apply (new_table_dirs m m' root a i n p l).
  - intros x Hx. assert (~ in_page n x) by (apply Hx; right; set_solver). unfold m'.
    rewrite store_entry_out, !memset_page_out; try done. apply Hx.
    left. exists p. split; [by apply (vpath_weaken 1); [lia|] | done].
Qed.

(** ** [walk] *)

Lemma walk_level_found al lv va a c s e :
  child (k_mem s) a (PX lv va) = Some c -> walk_level al lv va a s e = Ret (Some c) s e.
Proof.
  intros [Hv ->]%child_inv. unfold walk_level. rewrite bind_gets.
  apply Z.eqb_neq in Hv. by rewrite Hv.
Qed.

Lemma walk_level_absent lv va a s e :
  child (k_mem s) a (PX lv va) = None -> walk_level false lv va a s e = Ret None s e.
Proof. unfold child, walk_level. rewrite bind_gets. case_match; done. Qed.

(** One step of an allocating walk. *)
Lemma walk_level_true lv va root p a s e l :
  room 1 (k_hl s) -> free L_kmem (k_hl s) -> kinv (k_mem s) (k_freelist s) l ->
  pt_wf (k_mem s) root l -> 0 <= lv -> vpath 1 p -> page_at (k_mem s) root p = Some a ->
  exists r h' m' fl' l',
    walk_level true lv va a s e = Ret r (vm_upd h' m' fl' s) e /\ hl_done (k_hl s) h' /\
    kinv m' fl' l' /\ pt_grow (k_mem s) root l m' l' /\
    match r with Some c => page_at m' root (p ++ [PX lv va]) = Some c | None => l' = [] end /\
    (length l <= (if r is Some _ then 1 else 0) + length l')%nat.
Proof.
  intros Hr Hf Hk Hwf Hlv Hp Ha. pose proof (px_idx lv va Hlv) as Hi.
  destruct (child (k_mem s) a (PX lv va)) as [c|] eqn:Hc.
  { exists (Some c), (k_hl s), (k_mem s), (k_freelist s), l. rewrite vm_upd_id.
    split; [by apply walk_level_found|]. split; [apply hl_done_refl|]. split; [done|].
    split; [by apply pt_grow_refl|]. rewrite page_at_snoc, Ha. split; [done | lia]. }
  unfold walk_level. rewrite bind_gets. pose proof Hc as Hc'. unfold child in Hc'.
  destruct (_ =? 0); [|done]. cbn [negb]. destruct l as [|n l].
  - exists None, (bal (k_hl s)), (k_mem s), (k_freelist s), [].
    split; [kstep kalloc_none; done|]. split; [by right|]. split; [done|].
    split; [by apply pt_grow_refl|]. split; [done | cbn; lia].
  - destruct (kalloc_some n l s e Hr Hf Hk) as (fl' & Hrun & Hk' & Hn & Hnl).
    destruct (pt_grow_new (k_mem s) root a (PX lv va) n p l) as [Hg Hat]; try done.
    destruct Hwf as [Hwf _]. destruct (Hwf p a) as [Hpa Hal]; [by apply (vpath_weaken 1); [lia|] | done |].
    set (m' := store64 _ _ _) in Hg, Hat. exists (Some n), (bal (k_hl s)), m', fl', l.
    split; [kstep Hrun; unfold on_mem; rewrite !bind_modify; reflexivity|]. split; [by right|].
    split; [|split; [done | split; [done | cbn; lia]]].
    apply (kinv_write_page (memset (memset (k_mem s) n 5 PGSIZE) n 0 PGSIZE) _ _ _ a); [done | set_solver | |].
    + intros x Hx. by apply store_entry_out.
    + apply (kinv_write_page (memset (k_mem s) n 5 PGSIZE) _ _ _ n); try done.
      intros x. apply memset_page_out.
Qed.

Lemma walk_false root va s e :
  va <= VA_MAX -> walk root va false s e = Ret (pte_loc (k_mem s) root va) s e.
Proof.
  intros Hva. unfold walk, pte_loc. destruct (Z.ltb_spec VA_MAX va); [lia|].
  change [PX 2 va; PX 1 va] with (([] ++ [PX 2 va]) ++ [PX 1 va]).
  rewrite !page_at_snoc. change (page_at _ root []) with (Some root). cbn [mbind option_bind].
  destruct (child (k_mem s) root (PX 2 va)) as [p1|] eqn:H1.
  - kstep walk_level_found; [exact H1|]. cbn [mbind option_bind].
    destruct (child (k_mem s) p1 (PX 1 va)) as [p0|] eqn:H0.
    + kstep walk_level_found; [exact H0|]. done.
    + kstep walk_level_absent; [exact H0|]. done.
  - kstep walk_level_absent; [exact H1|]. done.
Qed.

Lemma walk_true root va s e l :
  room 1 (k_hl s) -> free L_kmem (k_hl s) -> kinv (k_mem s) (k_freelist s) l ->
  pt_wf (k_mem s) root l -> va <= VA_MAX ->
  exists r h' m' fl' l',
    walk root va true s e = Ret r (vm_upd h' m' fl' s) e /\ hl_done (k_hl s) h' /\
    kinv m' fl' l' /\ pt_grow (k_mem s) root l m' l' /\
    match r with Some _ => pte_loc m' root va = r | None => l' = [] end /\
    (length l <= (if r is Some _ then 2 else 1) + length l')%nat.
Proof.
  intros Hr Hf Hk Hwf Hva. unfold walk. destruct (Z.ltb_spec VA_MAX va); [lia|].
  destruct (walk_level_true 2 va root [] root s e l) as (r1 & h1 & m1 & fl1 & l1 & R1 & D1 & K1 & G1 & C1 & N1);
    try done. { split; [cbn; lia | constructor]. }
  destruct r1 as [p1|]; cycle 1.
  { exists None, h1, m1, fl1, l1. split; [kstep R1; done|]. split_and!; try done. lia. }
  destruct (walk_level_true 1 va root [PX 2 va] p1 (vm_upd h1 m1 fl1 s) e l1)
    as (r0 & h0 & m0 & fl0 & l0 & R0 & D0 & K0 & G0 & C0 & N0); try done.
  { by apply (hl_done_room 1 (k_hl s)). }
  { by apply (hl_done_free L_kmem (k_hl s)). }
  { apply G1. }
  { split; [done|]. repeat constructor; by apply px_range. }
  cbn in D0, G0.
  assert (hl_done (k_hl s) h0) by (by apply (hl_done_trans 1 _ h1)).
  assert (pt_grow (k_mem s) root l m0 l0) by (by apply (pt_grow_trans _ _ _ m1 l1)).
  destruct r0 as [p0|].
  - exists (Some (p0 + 8 * PX 0 va)), h0, m0, fl0, l0.
    split; [kstep R1; kstep R0; done|]. repeat (split; [done|]). split; [|lia].
    unfold pte_loc. change ([PX 2 va] ++ [PX 1 va]) with [PX 2 va; PX 1 va] in C0. by rewrite C0.
  - exists None, h0, m0, fl0, l0. split; [kstep R1; kstep R0; done|]. split_and!; try done. lia.
Qed.

(** ** Writing a leaf entry *)

Lemma pte_loc_inv m root va loc :
  pte_loc m root va = Some loc ->
  exists a, page_at m root [PX 2 va; PX 1 va] = Some a /\ loc = a + 8 * PX 0 va.
Proof.
  unfold pte_loc. destruct (page_at _ _ _) as [a|]; cbn; [|done]. intros [= <-]. by exists a.
Qed.

Section set_leaf.
Context (m m' : memory) (root va loc v : Z) (l : list Z).
Hypothesis Hwf : pt_wf m root l.
Hypothesis Hloc : pte_loc m root va = Some loc.
Hypothesis Hm' : m' = store64 m loc v.

Lemma set_leaf_table : exists a, is_table m root a /\ is_page a /\ (a ∉ l) /\
  (forall x, ~ in_page a x -> m' x = m x).
Proof.
  destruct (pte_loc_inv _ _ _ _ Hloc) as (a & Ha & ->). exists a.
  split; [by exists [PX 2 va; PX 1 va]; split; [apply vpath_va|]|].
  destruct Hwf as [H _]. destruct (H _ a (vpath_va va) Ha). split; [done|]. split; [done|].
  intros x Hx. rewrite Hm'. apply store_entry_out; [by apply px_idx | done].
Qed.

Lemma set_leaf_entry r b k :
  vpath 2 r -> idx k -> page_at m root r = Some b -> r <> [PX 2 va; PX 1 va] \/ k <> PX 0 va ->
  load64 m' (b + 8 * k) = load64 m (b + 8 * k).
Proof.
  intros Hr Hk Hb Hne. destruct (pte_loc_inv _ _ _ _ Hloc) as (a & Ha & ->). destruct Hwf as [H Hinj].
  destruct (H _ a (vpath_va va) Ha), (H r b Hr Hb). rewrite Hm'.
  apply entry_store_ne; try done; [by apply px_idx|].
  destruct (decide (a = b)) as [->|]; [|by left]. right. intros <-. destruct Hne as [Hne|]; [|done].
  apply Hne, (Hinj r _ b); try done. apply vpath_va.
Qed.

Lemma set_leaf_page_at q : vpath 2 q -> page_at m' root q = page_at m root q.
Proof.
  apply page_at_leaf. intros r b k Hr Hk Hb. apply (set_leaf_entry r); try done.
  - by apply (vpath_weaken 1); [lia|].
  - left. intros ->. destruct Hr as [Hr _]. cbn in Hr. lia.
Qed.

Lemma set_leaf_wf : pt_wf m' root l.
Proof.
  destruct Hwf as [H1 H2]. split.
  - intros p a Hp. rewrite set_leaf_page_at by done. by apply H1.
  - intros p q a Hp Hq. rewrite !set_leaf_page_at by done. by apply H2.
Qed.

Lemma set_leaf_step : pt_step m root l m' l.
Proof.
  destruct set_leaf_table as (a & Hta & Ha & Hal & Hout). split.
  - apply set_leaf_wf.
  - intros q b Hq Hb. by rewrite set_leaf_page_at.
  - intros b (q & Hq & Hb). left. exists q. by rewrite set_leaf_page_at in Hb.
  - done.
  - auto.
  - apply dirs_ok_frame.
    + intros q b Hq Hb. by rewrite set_leaf_page_at in Hb by (by apply (vpath_weaken 1); [lia|]).
    + intros q b k Hq Hk Hb. apply (set_leaf_entry q); try done; [by apply (vpath_weaken 1); [lia|]|].
      left. intros ->. destruct Hq as [Hq _]. cbn in Hq. lia.
  - intros x Hx. apply Hout, Hx. by left.
Qed.

Lemma set_leaf_kinv fl : kinv m fl l -> kinv m' fl l.
Proof.
  destruct set_leaf_table as (a & _ & Ha & Hal & Hout).
  by apply (kinv_write_page m m' fl l a).
Qed.

Lemma set_leaf_same : pte_val m' root va = u64 v.
Proof.
  unfold pte_val. assert (pte_loc m' root va = Some loc) as ->.
  { unfold pte_loc. rewrite set_leaf_page_at by apply vpath_va. exact Hloc. }
  rewrite Hm'. apply load64_store64.
Qed.

Lemma set_leaf_other va' :
  0 <= va < 2 ^ 39 -> 0 <= va' < 2 ^ 39 -> va' / PGSIZE <> va / PGSIZE ->
  pte_val m' root va' = pte_val m root va'.
Proof.
  intros ? ? Hne. unfold pte_val, pte_loc. rewrite set_leaf_page_at by apply vpath_va.
  destruct (page_at m root _) as [b|] eqn:Hb; cbn; [|done].
  apply (set_leaf_entry [PX 2 va'; PX 1 va']); try done; [apply vpath_va | by apply px_idx |].
  destruct (decide (PX 0 va' = PX 0 va)) as [E0|]; [|by right]. left. intros [= E2 E1].
  by apply Hne, px_inj.
Qed.
End set_leaf.

(** ** [map_pages] *)

Lemma lor_range a b n : 0 <= n -> 0 <= a < 2 ^ n -> 0 <= b < 2 ^ n -> 0 <= Z.lor a b < 2 ^ n.
Proof.
  intros Hn Ha Hb. assert (Z.lor a b = Z.lor a b mod 2 ^ n) as ->; [|apply Z.mod_pos_bound; lia].
  apply Z.bits_inj'. intros i Hi. destruct (Z.lt_ge_cases i n).
  - by rewrite Z.mod_pow2_bits_low by lia.
  - rewrite Z.mod_pow2_bits_high, Z.lor_spec by lia.
    rewrite <- (Z.mod_small a (2 ^ n)), <- (Z.mod_small b (2 ^ n)) by lia.
    by rewrite !Z.mod_pow2_bits_high by lia.
Qed.

(** The entry [map_pages] writes for physical page [pa]. *)
Definition leaf (pa flag : Z) : Z := Z.lor (Z.lor (PA2PTE pa) flag) PTE_V.

Lemma leaf_valid pa flag : (Z.land (leaf pa flag) PTE_V =? 0) = false.
Proof.
  unfold leaf. change PTE_V with (2 ^ 0). rewrite land_pow2_eq0 by lia.
  rewrite Z.lor_spec, Z.pow2_bits_true by lia. by rewrite orb_true_r.
Qed.

Lemma leaf_range pa flag : 0 <= flag < 2 ^ 64 -> 0 <= leaf pa flag < 2 ^ 64.
Proof. intros. unfold leaf. apply lor_range; [lia | | by vm_compute]. apply lor_range; [lia | apply u64_range | done]. Qed.

(** [m'] is [m] with [k] pages from [va] mapped to the pages from [pa]. *)
Definition mapped (m m' : memory) (root va pa flag k : Z) : Prop :=
  forall va', 0 <= va' < 2 ^ 39 ->
    pte_val m' root va' =
    if (va <=? va') && (va' <? va + k * PGSIZE)
    then leaf (pa + (va' - va) / PGSIZE * PGSIZE) flag else pte_val m root va'.

Lemma mapped_cons m m1 m' root va pa flag k :
  0 <= va < 2 ^ 64 -> va mod PGSIZE = 0 -> 0 <= k ->
  mapped m m1 root va pa flag 1 -> mapped m1 m' root (va + PGSIZE) (pa + PGSIZE) flag k ->
  mapped m m' root va pa flag (k + 1).
Proof.
  unfold mapped, PGSIZE. intros Hva Hal Hk H1 H2 va' Hr. rewrite H2, H1 by done.
  zcases; cbn [andb]; try lia; try done.
  - f_equal. zmod.
Qed.

Lemma px_same_page va va' :
  va' / PGSIZE = va / PGSIZE -> PX 2 va' = PX 2 va /\ PX 1 va' = PX 1 va /\ PX 0 va' = PX 0 va.
Proof.
  unfold PGSIZE. intros He. rewrite !px_eq by lia. change (2 ^ (12 + 9 * 2)) with 1073741824.
  change (2 ^ (12 + 9 * 1)) with 2097152. change (2 ^ (12 + 9 * 0)) with 4096. zmod.
Qed.

Lemma pte_val_same_page m root va va' : va' / PGSIZE = va / PGSIZE -> pte_val m root va' = pte_val m root va.
Proof. intros (H2 & H1 & H0)%px_same_page. unfold pte_val, pte_loc. by rewrite H2, H1, H0. Qed.

Lemma map_leaf m root va loc pa flag l :
  pt_wf m root l -> pte_loc m root va = Some loc -> va mod PGSIZE = 0 -> 0 <= va <= VA_MAX ->
  0 <= flag < 2 ^ 64 -> mapped m (store64 m loc (leaf pa flag)) root va pa flag 1.
Proof.
  intros Hwf Hloc Hal Hva Hfl va' Hva'. assert (VA_MAX = 2 ^ 38) as HVA by reflexivity.
  destruct (decide (va' / PGSIZE = va / PGSIZE)) as [He|Hne].
  - rewrite (pte_val_same_page _ _ va va' He).
    rewrite (set_leaf_same m _ root va loc (leaf pa flag) l Hwf Hloc eq_refl).
    rewrite u64_small by (by apply leaf_range). unfold PGSIZE in *. zcases; cbn; try zmod. f_equal. zmod.
  - rewrite (set_leaf_other m _ root va loc (leaf pa flag) l); try done; unfold PGSIZE in *; try lia.
    zcases; cbn; try zmod; done.
Qed.

(** The loop body, when the walk succeeds and the page is unmapped. *)
Lemma map_one root va pa flag s e l :
  room 1 (k_hl s) -> free L_kmem (k_hl s) -> kinv (k_mem s) (k_freelist s) l ->
  pt_wf (k_mem s) root l -> va mod PGSIZE = 0 -> 0 <= va <= VA_MAX -> 0 <= flag < 2 ^ 64 ->
  Z.land (pte_val (k_mem s) root va) PTE_V = 0 ->
  exists r h' m' fl' l',
    walk root va true s e = Ret r (vm_upd h' m' fl' s) e /\ hl_done (k_hl s) h' /\ (length l <= (if r is Some _ then 2 else 1) + length l')%nat /\
    match r with
    | None => kinv m' fl' l' /\ pt_step (k_mem s) root l m' l' /\ mapped (k_mem s) m' root va pa flag 0 /\ l' = []
    | Some loc =>
        let m2 := store64 m' loc (leaf pa flag) in
        Z.land (load64 m' loc) PTE_V = 0 /\
        kinv m2 fl' l' /\ pt_step (k_mem s) root l m2 l' /\ mapped (k_mem s) m2 root va pa flag 1
    end.
Proof.
  intros Hr Hf Hk Hwf Hal Hva Hfl Hfree.
  destruct (walk_true root va s e l) as (r & h1 & m1 & fl1 & l1 & R1 & D1 & K1 & [S1 V1] & C1 & N1); try done; [lia|].
  exists r, h1, m1, fl1, l1. split; [done|]. split; [done|]. split; [done|]. destruct r as [loc|].
  - cbn zeta. split.
    { rewrite <- V1 in Hfree. unfold pte_val in Hfree. by rewrite C1 in Hfree. }
    split; [eapply set_leaf_kinv; [apply S1 | done..]|]. split.
    { apply (pt_step_trans _ _ _ m1 l1); [done|]. eapply set_leaf_step; [apply S1 | done..]. }
    intros va' Hva'. rewrite <- V1. apply (map_leaf m1 root va loc pa flag l1); try done. apply S1.
  - split; [done|]. split; [done|]. split; [|done]. intros va' _. rewrite V1. unfold PGSIZE. zcases; cbn; try lia; done.
Qed.

Lemma map_pages_loop_run n : forall root va pa flag s e l,
  room 1 (k_hl s) -> free L_kmem (k_hl s) -> kinv (k_mem s) (k_freelist s) l ->
  pt_wf (k_mem s) root l -> va mod PGSIZE = 0 -> 0 <= va -> va + Z.of_nat n * PGSIZE <= VA_MAX + PGSIZE ->
  0 <= pa -> pa + Z.of_nat n * PGSIZE <= 2 ^ 64 -> 0 <= flag < 2 ^ 64 ->
  (forall va', va <= va' < va + Z.of_nat n * PGSIZE -> Z.land (pte_val (k_mem s) root va') PTE_V = 0) ->
  (0 < n)%nat ->
  exists ok k h' m' fl' l',
    map_pages_loop n root va (va + (Z.of_nat n - 1) * PGSIZE) pa flag s e = Ret ok (vm_upd h' m' fl' s) e /\
    hl_done (k_hl s) h' /\ kinv m' fl' l' /\ pt_step (k_mem s) root l m' l' /\
    0 <= k /\ mapped (k_mem s) m' root va pa flag k /\
    (if ok then k = Z.of_nat n else k < Z.of_nat n /\ l' = []) /\ (length l + (if ok then 0 else 1) <= 2 * n + length l')%nat.
Proof.
  induction n as [|n IH]; intros root va pa flag s e l Hr Hf Hk Hwf Hal H0 Hmax Hpa Hpamax Hfl Hfree Hn; [lia|].
  assert (VA_MAX = 2 ^ 38) as HVA by reflexivity.
  destruct (map_one root va pa flag s e l) as (r & h1 & m1 & fl1 & l1 & R1 & D1 & N1 & C1); try done.
  { unfold PGSIZE in *. lia. }
  { apply Hfree. unfold PGSIZE. lia. }
  cbn [map_pages_loop]. destruct r as [loc|]; cbn zeta in C1; cycle 1.
  { destruct C1 as (K1 & S1 & M1 & ->). exists false, 0, h1, m1, fl1, [].
    split; [kstep R1; done|]. split_and!; try done; cbn in *; lia. }
  destruct C1 as (Hv0 & K2 & S2 & M2). set (m2 := store64 m1 loc (leaf pa flag)) in *.
  assert (forall c, (m <- gets k_mem ;;
            if negb (Z.land (load64 m loc) PTE_V =? 0) then panic "vm::mappages: remap"
            else on_mem (fun m => store64 m loc (leaf pa flag)) ;; c) (vm_upd h1 m1 fl1 s) e
          = (c : M bool) (vm_upd h1 m2 fl1 s) e) as Hbody.
  { intros c. rewrite bind_gets. cbn [k_mem vm_upd set_k_mem set_k_hl]. rewrite Hv0. cbn [Z.eqb negb].
    unfold on_mem. rewrite bind_modify. reflexivity. }
  destruct n as [|n].
  - exists true, 1, h1, m2, fl1, l1. split.
    { kstep R1. etransitivity; [apply Hbody|].
      replace (va + (Z.of_nat 1 - 1) * PGSIZE) with va by lia. by rewrite Z.eqb_refl. }
    split_and!; (done || lia).
  - destruct (IH root (va + PGSIZE) (pa + PGSIZE) flag (vm_upd h1 m2 fl1 s) e l1)
      as (ok & k & h' & m' & fl' & l' & R' & D' & K' & S' & Hk0 & M' & Hok & N');
      try done; try (unfold PGSIZE in *; zmod).
    { by apply (hl_done_room 1 (k_hl s)). }
    { by apply (hl_done_free L_kmem (k_hl s)). }
    { apply S2. }
    { intros va' Hva'. cbn [k_mem vm_upd set_k_mem set_k_hl]. rewrite (M2 va') by (unfold PGSIZE in *; lia).
      unfold PGSIZE in *. zcases; cbn; try lia. apply Hfree. lia. }
    exists ok, (k + 1), h', m', fl', l'. split.
    { kstep R1. etransitivity; [apply Hbody|].
      destruct (Z.eqb_spec va (va + (Z.of_nat (S (S n)) - 1) * PGSIZE)); [unfold PGSIZE in *; lia|].
      rewrite !u64_small by (unfold PGSIZE in *; lia).
      replace (va + (Z.of_nat (S (S n)) - 1) * PGSIZE) with (va + PGSIZE + (Z.of_nat (S n) - 1) * PGSIZE) by lia.
      exact R'. }
    split; [by apply (hl_done_trans 1 _ h1)|]. split; [done|].
    split; [by apply (pt_step_trans _ _ _ m2 l1)|]. split; [lia|].
    split; [apply (mapped_cons _ m2); try done; unfold PGSIZE in *; lia|]. split; [|lia]. destruct ok; [lia|]. split; [lia|]. apply Hok.
Qed.

(** At most two pages become tables for each page mapped, one when the last table is missing. *)
Lemma map_pages_run_len root va pa size flag s e l :
  room 1 (k_hl s) -> free L_kmem (k_hl s) -> kinv (k_mem s) (k_freelist s) l ->
  pt_wf (k_mem s) root l ->
  va mod PGSIZE = 0 -> size mod PGSIZE = 0 -> 0 < size -> 0 <= va -> va + size <= VA_MAX + PGSIZE ->
  0 <= pa -> pa + size <= 2 ^ 64 -> 0 <= flag < 2 ^ 64 ->
  (forall va', va <= va' < va + size -> Z.land (pte_val (k_mem s) root va') PTE_V = 0) ->
  exists ok k h' m' fl' l',
    map_pages root va pa size flag s e = Ret ok (vm_upd h' m' fl' s) e /\
    hl_done (k_hl s) h' /\ kinv m' fl' l' /\ pt_step (k_mem s) root l m' l' /\
    0 <= k /\ mapped (k_mem s) m' root va pa flag k /\
    (if ok then k = size / PGSIZE else k < size / PGSIZE /\ l' = []) /\ Z.of_nat (length l) + (if ok then 0 else 1) <= 2 * (size / PGSIZE) + Z.of_nat (length l').
Proof.
  intros Hr Hf Hk Hwf Hal Hsal Hs H0 Hmax Hpa Hpamax Hfl Hfree.
  assert (VA_MAX = 2 ^ 38) as HVA by reflexivity.
  assert (Z.of_nat (Z.to_nat (size / PGSIZE)) = size / PGSIZE) as Hn by (unfold PGSIZE in *; zmod).
  assert (size / PGSIZE * PGSIZE = size) as Hsz by (unfold PGSIZE in *; zmod).
  destruct (map_pages_loop_run (Z.to_nat (size / PGSIZE)) root va pa flag s e l)
    as (ok & k & h' & m' & fl' & l' & R & H); rewrite ?Hn, ?Hsz; try done.
  { unfold PGSIZE in *. zmod. }
  exists ok, k, h', m', fl', l'. rewrite Hn in H. split; [|repeat (split; [apply H|]); destruct H as (_ & _ & _ & _ & _ & _ & HN); destruct ok; lia].
  unfold map_pages. rewrite Hal, Hsal. cbn [Z.eqb negb]. destruct (Z.eqb_spec size 0); [lia|].
  rewrite <- R. f_equal. rewrite (u64_small (va + size)) by (unfold PGSIZE in *; lia).
  rewrite Hn, u64_small by (unfold PGSIZE in *; zmod). lia.
Qed.

Lemma map_pages_run root va pa size flag s e l :
  room 1 (k_hl s) -> free L_kmem (k_hl s) -> kinv (k_mem s) (k_freelist s) l ->
  pt_wf (k_mem s) root l ->
  va mod PGSIZE = 0 -> size mod PGSIZE = 0 -> 0 < size -> 0 <= va -> va + size <= VA_MAX + PGSIZE ->
  0 <= pa -> pa + size <= 2 ^ 64 -> 0 <= flag < 2 ^ 64 ->
  (forall va', va <= va' < va + size -> Z.land (pte_val (k_mem s) root va') PTE_V = 0) ->
  exists ok k h' m' fl' l',
    map_pages root va pa size flag s e = Ret ok (vm_upd h' m' fl' s) e /\
    hl_done (k_hl s) h' /\ kinv m' fl' l' /\ pt_step (k_mem s) root l m' l' /\
    0 <= k /\ mapped (k_mem s) m' root va pa flag k /\
    if ok then k = size / PGSIZE else k < size / PGSIZE /\ l' = [].
Proof.
  intros H1 H2 H3 H4 H5 H6 H7 H8 H9 H10 H11 H12 H13.
  destruct (map_pages_run_len root va pa size flag s e l H1 H2 H3 H4 H5 H6 H7 H8 H9 H10 H11 H12 H13) as (ok & k & h' & m' & fl' & l' & R & D & K & S & Hk & M & Hok & _).
  by exists ok, k, h', m', fl', l'.
Qed.

(** Remapping a valid entry panics. *)
Lemma map_pages_remap root va pa size flag s e :
  va mod PGSIZE = 0 -> size mod PGSIZE = 0 -> 0 < size -> va <= VA_MAX ->
  Z.land (pte_val (k_mem s) root va) PTE_V <> 0 ->
  map_pages root va pa size flag s e = Panic "vm::mappages: remap" s.
Proof.
  intros Hal Hsal Hs Hmax Hv. unfold map_pages. rewrite Hal, Hsal. cbn [Z.eqb negb].
  destruct (Z.eqb_spec size 0); [lia|].
  destruct (Z.to_nat (size / PGSIZE)) as [|np] eqn:Hn; [unfold PGSIZE in *; zmod|]. cbn [map_pages_loop].
  unfold pte_val, pte_loc in Hv. destruct (page_at (k_mem s) root [PX 2 va; PX 1 va]) as [a|] eqn:Ha; cbn in Hv; [|done].
  change [PX 2 va; PX 1 va] with (([] ++ [PX 2 va]) ++ [PX 1 va]) in Ha.
  rewrite !page_at_snoc in Ha. change (page_at _ root []) with (Some root) in Ha. cbn [mbind option_bind] in Ha.
  destruct (child (k_mem s) root (PX 2 va)) as [p1|] eqn:H1; cbn in Ha; [|done].
  assert (walk root va true s e = Ret (Some (a + 8 * PX 0 va)) s e) as Hw.
  { unfold walk. destruct (Z.ltb_spec VA_MAX va); [lia|]. kstep walk_level_found; [exact H1|].
    kstep walk_level_found; [exact Ha|]. done. }
  kstep Hw. rewrite bind_gets. apply Z.eqb_neq in Hv. rewrite Hv. done.
Qed.

(** ** [walkaddr] *)

Lemma walkaddr_run root va s e :
  walkaddr root va s e =
  Ret (if VA_MAX <? va then 0
       else let pte := pte_val (k_mem s) root va in
            if Z.land pte PTE_V =? 0 then 0 else if Z.land pte PTE_U =? 0 then 0 else PTE2PA pte) s e.
Proof.
  unfold walkaddr. destruct (Z.ltb_spec VA_MAX va); [done|]. kstep walk_false; [done|].
  unfold pte_val. destruct (pte_loc (k_mem s) root va) as [loc|]; [|done].
  rewrite bind_gets. cbn zeta. case_match; [done|]. by case_match.
Qed.

(** An all-zero root page is an empty table. *)
Lemma empty_page_at m root q a :
  (forall x, in_page root x -> m x = 0) -> vpath 3 q -> page_at m root q = Some a -> q = [] /\ a = root.
Proof.
  intros Hz [_ Hq]. destruct q as [|i q]; [by intros [= <-]|]. intros H.
  change (i :: q) with ([i] ++ q) in H. apply page_at_prefix in H as [c Hc].
  inversion_clear Hq as [|? ? Hi _].
  change [i] with ([] ++ [i]) in Hc. rewrite page_at_snoc in Hc.
  change (page_at m root []) with (Some root) in Hc. cbn [mbind option_bind] in Hc. unfold child in Hc.
  assert (load64 m (root + 8 * i) = 0) as E; [|by rewrite E in Hc].
  unfold load64, load_bytes. cbn [seq map]. rewrite !Hz; [done | unfold in_page, idx, PGSIZE in *; lia ..].
Qed.

Lemma empty_pt_wf m root l :
  is_page root -> root ∉ l -> (forall x, in_page root x -> m x = 0) -> pt_wf m root l.
Proof.
  intros Hp Hnl Hz. split.
  - intros p a Hv Ha. apply (empty_page_at m) in Ha as [_ ->]; try done. by apply (vpath_weaken 2); [lia|].
  - intros p q a Hpv Hqv Ha Hb. apply (vpath_weaken 2 3) in Hpv, Hqv; [|lia..].
    apply (empty_page_at m) in Ha as [-> _], Hb as [-> _]; done.
Qed.

Lemma empty_pte_val m root va : (forall x, in_page root x -> m x = 0) -> pte_val m root va = 0.
Proof.
  intros Hz. unfold pte_val, pte_loc. destruct (page_at m root _) as [a|] eqn:Ha; [|done].
  apply (empty_page_at m) in Ha as [? _]; try done. apply (vpath_weaken 2); [lia | apply vpath_va].
Qed.

(** The root of the witnesses' tables. *)
Definition root0 : Z := 2147545088.

Lemma root0_zero x : in_page root0 x -> k_mem three_pages x = 0.
Proof.
  unfold in_page, root0, PGSIZE. intros Hx. cbn -[store64]. unfold store64.
  rewrite !store_bytes_out; [done|..]; rewrite length_le_bytes; unfold page1, page2, page3; lia.
Qed.

Lemma root0_page : is_page root0 /\ root0 ∉ [page1; page2; page3].
Proof. split; [unfold is_page, root0, PGSIZE; split; [done | lia]|]. vm_compute. set_solver. Qed.

(** ** Properties *)

(** C7: map_pages on a range of unmapped pages keeps the page table and the free list
    well formed and maps the pages in order, leaving every other translation unchanged:
    all of them when it returns true, and only when memory is exhausted fewer and false.
    *)
Theorem map_pages_correct root va pa size flag s e l :
  room 1 (k_hl s) -> free L_kmem (k_hl s) -> kinv (k_mem s) (k_freelist s) l ->
  pt_wf (k_mem s) root l ->
  va mod PGSIZE = 0 -> size mod PGSIZE = 0 -> 0 < size -> 0 <= va -> va + size <= VA_MAX + PGSIZE ->
  0 <= pa -> pa + size <= 2 ^ 64 -> 0 <= flag < 2 ^ 64 ->
  (forall va', va <= va' < va + size -> Z.land (pte_val (k_mem s) root va') PTE_V = 0) ->
  exists ok k s' l',
    map_pages root va pa size flag s e = Ret ok s' e /\
    kinv (k_mem s') (k_freelist s') l' /\ pt_step (k_mem s) root l (k_mem s') l' /\
    0 <= k /\ mapped (k_mem s) (k_mem s') root va pa flag k /\
    if ok then k = size / PGSIZE else k < size / PGSIZE /\ l' = [].
Proof.
  intros. destruct (map_pages_run root va pa size flag s e l)
    as (ok & k & h' & m' & fl' & l' & R & _ & K & S' & H'); try done.
  by exists ok, k, (vm_upd h' m' fl' s), l'.
Qed.

Lemma map_pages_correct_witness :
  exists ok k s' l', map_pages root0 0 page3 PGSIZE 23 three_pages [] = Ret ok s' [] /\
    pt_step (k_mem three_pages) root0 [page1; page2; page3] (k_mem s') l' /\
    mapped (k_mem three_pages) (k_mem s') root0 0 page3 23 k.
Proof.
  destruct (map_pages_correct root0 0 page3 PGSIZE 23 three_pages [] [page1; page2; page3])
    as (ok & k & s' & l' & H1 & H2 & H3 & H4 & H5 & H6).
  - apply kernel0_ready.
  - apply kernel0_ready.
  - exact three_pages_kinv.
  - apply empty_pt_wf; [apply root0_page | apply root0_page | apply root0_zero].
  - reflexivity.
  - reflexivity.
  - reflexivity.
  - lia.
  - vm_compute. discriminate.
  - vm_compute. discriminate.
  - vm_compute. discriminate.
  - lia.
  - intros va' _. rewrite (empty_pte_val _ _ _ root0_zero). reflexivity.
  - exists ok, k, s', l'. auto.
Defined.

(** After a successful map_pages, walkaddr of every address of the range gives the
    physical page it was mapped to, or 0 when the mapping is not a user mapping. *)
Theorem map_walkaddr_roundtrip root va pa size flag s s' e l va' :
  room 1 (k_hl s) -> free L_kmem (k_hl s) -> kinv (k_mem s) (k_freelist s) l ->
  pt_wf (k_mem s) root l ->
  va mod PGSIZE = 0 -> size mod PGSIZE = 0 -> 0 < size -> 0 <= va -> va + size <= VA_MAX + PGSIZE ->
  pa mod PGSIZE = 0 -> 0 <= pa -> pa + size <= 2 ^ 56 -> 0 <= flag < 1024 ->
  (forall va', va <= va' < va + size -> Z.land (pte_val (k_mem s) root va') PTE_V = 0) ->
  map_pages root va pa size flag s e = Ret true s' e ->
  va <= va' < va + size -> va' <= VA_MAX ->
  walkaddr root va' s' e =
  Ret (if Z.testbit flag 4 then pa + (va' - va) / PGSIZE * PGSIZE else 0) s' e.
Proof.
  intros Hr Hf Hk Hwf Hal Hsal Hs H0 Hmax Hpal Hpa Hpamax Hfl Hinv Hrun Hva' Hle.
  destruct (map_pages_run root va pa size flag s e l)
    as (ok & k & h' & m' & fl' & l' & R & _ & _ & _ & _ & M' & Hok); try done; try lia.
  rewrite Hrun in R. injection R as <- ->. assert (VA_MAX = 2 ^ 38) as HVA by reflexivity.
  rewrite walkaddr_run. destruct (Z.ltb_spec VA_MAX va'); [lia|]. cbn [k_mem vm_upd set_k_mem set_k_hl].
  rewrite (M' va'), Hok by (unfold PGSIZE in *; lia).
  replace (size / PGSIZE * PGSIZE) with size by (unfold PGSIZE in *; zmod).
  destruct (Z.leb_spec va va'), (Z.ltb_spec va' (va + size)); try lia. cbn [andb]. cbn zeta.
  rewrite leaf_valid. set (p := pa + _). change PTE_U with (2 ^ 4). rewrite land_pow2_eq0 by lia.
  assert (0 <= p < 2 ^ 56 /\ p mod PGSIZE = 0) as [Hp Hpm] by (unfold p, PGSIZE in *; zmod).
  assert (0 <= Z.lor flag PTE_V < 2 ^ 10) by (apply lor_range; [lia | lia | vm_compute; split; [discriminate | done]]).
  assert (leaf p flag = p / PGSIZE * 1024 + Z.lor flag PTE_V) as Hlf.
  { unfold leaf. rewrite <- Z.lor_assoc. by apply pte_build. }
  assert (Z.testbit (leaf p flag) 4 = Z.testbit flag 4) as ->.
  { unfold leaf. rewrite !Z.lor_spec. rewrite pa2pte_eq by lia. rewrite (Z.mul_pow2_bits_low _ 10) by lia.
    change (Z.testbit PTE_V 4) with false. rewrite orb_false_r. done. }
  destruct (Z.testbit flag 4); cbn [negb]; [|done]. f_equal.
  rewrite Hlf. unfold PGSIZE in *. rewrite pte2pa_eq; zmod.
Qed.

Lemma map_walkaddr_roundtrip_witness :
  exists s', map_pages root0 0 page3 PGSIZE 23 three_pages [] = Ret true s' [] /\
             walkaddr root0 100 s' [] = Ret page3 s' [].
Proof.
  assert (match map_pages root0 0 page3 PGSIZE 23 three_pages [] with Ret b _ [] => b | _ => false end = true)
    as Hok by (vm_compute; reflexivity).
  destruct (map_pages root0 0 page3 PGSIZE 23 three_pages []) as [[] s' []| | | |] eqn:E; try discriminate Hok.
  exists s'. split; [reflexivity|].
  refine (map_walkaddr_roundtrip root0 0 page3 PGSIZE 23 three_pages s' [] [page1; page2; page3] 100
            (proj1 kernel0_ready) (proj2 kernel0_ready) three_pages_kinv
            (empty_pt_wf _ _ _ (proj1 root0_page) (proj2 root0_page) root0_zero)
            eq_refl eq_refl _ _ _ eq_refl _ _ _ _ E _ _); try (unfold PGSIZE, page3; change VA_MAX with (2 ^ 38); lia).
  intros va' _. rewrite (empty_pte_val _ _ _ root0_zero). reflexivity.
Defined.
