(* ===== verification/Uvm.v ===== *)
(** * User address spaces ([vm.cpp]: [uvm_unmap], [uvm_alloc], [uvm_dealloc], [uvm_clear])

    [user_wf] is the ownership discipline of a user page table: the pages it
    maps are distinct, and are neither page tables nor free.  Growing and
    shrinking an address space keeps it, and moves pages between the free list
    and the table. *)

From S2P Require Import Prelude State Riscv Cstring Lock Kalloc Vm.

(** ** User address spaces *)

Definition valid (pte : Z) : Prop := Z.land pte PTE_V <> 0.
(** An address the three indices of a table distinguish. *)
Definition va_ok (va : Z) : Prop := 0 <= va < 2 ^ 39.

Ltac va_lia := unfold va_ok, PGSIZE in *; change VA_MAX with (2 ^ 38) in *; lia.

#[global] Instance valid_dec pte : Decision (valid pte).
Proof. unfold valid. apply _. Defined.

(** The mapped pages are distinct, and neither tables nor free pages. *)
Record user_wf (m : memory) (root : Z) (l : list Z) : Prop := UserWf {
  uw_pt : pt_wf m root l;
  uw_page va : va_ok va -> valid (pte_val m root va) ->
    is_page (PTE2PA (pte_val m root va)) /\ (PTE2PA (pte_val m root va) ∉ l) /\
    ~ is_table m root (PTE2PA (pte_val m root va));
  uw_inj va va' : va_ok va -> va_ok va' -> valid (pte_val m root va) -> valid (pte_val m root va') ->
    PTE2PA (pte_val m root va) = PTE2PA (pte_val m root va') -> va / PGSIZE = va' / PGSIZE
}.

(** Writes to pages that are not tables do not change the tables. *)
Section data_write.
Context (m m' : memory) (root pa : Z) (l : list Z).
Hypothesis Hwf : pt_wf m root l.
Hypothesis Hpa : is_page pa.
Hypothesis Hnt : ~ is_table m root pa.
Hypothesis Hout : forall x, ~ in_page pa x -> m' x = m x.

Lemma data_write_entry r b k : vpath 2 r -> idx k -> page_at m root r = Some b ->
  load64 m' (b + 8 * k) = load64 m (b + 8 * k).
Proof.
  intros Hr Hk Hb. destruct Hwf as [H _]. destruct (H r b Hr Hb).
  apply (entry_page_ext _ _ _ pa); try done. intros ->. apply Hnt. by exists r.
Qed.

Lemma data_write_page_at q : vpath 2 q -> page_at m' root q = page_at m root q.
Proof.
  apply page_at_leaf. intros r b k Hr. apply data_write_entry. by apply (vpath_weaken 1); [lia|].
Qed.

Lemma data_write_wf : pt_wf m' root l.
Proof.
  destruct Hwf as [H1 H2]. split.
  - intros p a Hp. rewrite data_write_page_at by done. by apply H1.
  - intros p q a Hp Hq. rewrite !data_write_page_at by done. by apply H2.
Qed.

Lemma data_write_val va : pte_val m' root va = pte_val m root va.
Proof.
  unfold pte_val, pte_loc. rewrite data_write_page_at by apply vpath_va.
  destruct (page_at m root _) as [b|] eqn:Hb; cbn; [|done].
  apply (data_write_entry [PX 2 va; PX 1 va]); [apply vpath_va | by apply px_idx | done].
Qed.

Lemma data_write_loc va : pte_loc m' root va = pte_loc m root va.
Proof. unfold pte_loc. by rewrite data_write_page_at by apply vpath_va. Qed.

Lemma data_write_table b : is_table m' root b <-> is_table m root b.
Proof.
  split; intros (q & Hq & Hb); exists q; (split; [done|]).
  - by rewrite data_write_page_at in Hb.
  - by rewrite data_write_page_at.
Qed.
End data_write.

Lemma pt_wf_cons m root l a : pt_wf m root l -> ~ is_table m root a -> pt_wf m root (a :: l).
Proof.
  intros [H1 H2] Hn. split; [|done]. intros p b Hp Hb. destruct (H1 p b Hp Hb). split; [done|].
  intros [->|?]%elem_of_cons; [|done]. apply Hn. by exists p.
Qed.

(** ** Freeing one mapped page *)

Section unmap_one.
Context (m : memory) (root fl va loc : Z) (l : list Z).
Hypothesis Hwf : user_wf m root l.
Hypothesis Hk : kinv m fl l.
Hypothesis Hva : va_ok va.
Hypothesis Hloc : pte_loc m root va = Some loc.
Hypothesis Hv : valid (pte_val m root va).

Let pa := PTE2PA (pte_val m root va).
Let m1 := store64 (memset m pa 1 PGSIZE) pa fl.
Let m2 := store64 m1 loc 0.

Lemma unmap_one_m1 x : ~ in_page pa x -> m1 x = m x.
Proof.
  intros Hx. unfold m1, store64. rewrite store_bytes_out; [by apply memset_page_out|].
  rewrite length_le_bytes. unfold in_page, PGSIZE in Hx. lia.
Qed.

Lemma unmap_one_pt : pt_wf m1 root (pa :: l) /\ pte_loc m1 root va = Some loc.
Proof.
  destruct Hwf as [Hpt Hpg _]. destruct (Hpg va Hva Hv) as (Hp & Hnl & Hnt). fold pa in Hp, Hnl, Hnt.
  split.
  - apply (data_write_wf m m1 root pa); try done; [by apply pt_wf_cons | apply unmap_one_m1].
  - rewrite (data_write_loc m m1 root pa l); try done. apply unmap_one_m1.
Qed.

Lemma unmap_one_val va' : va_ok va' ->
  pte_val m2 root va' = if bool_decide (va' / PGSIZE = va / PGSIZE) then 0 else pte_val m root va'.
Proof.
  intros Hva'. destruct unmap_one_pt as [W1 L1]. case_bool_decide as He.
  - rewrite (pte_val_same_page _ _ va va' He). by apply (set_leaf_same m1 m2 root va loc 0 (pa :: l)).
  - unfold va_ok in *. change VA_MAX with (2 ^ 38) in *. unfold PGSIZE in *.
    rewrite (set_leaf_other m1 m2 root va loc 0 (pa :: l)); try done; try (unfold PGSIZE; lia).
    destruct Hwf as [Hpt Hpg _]. destruct (Hpg va Hva Hv) as (Hp & Hnl & Hnt).
    apply (data_write_val m m1 root pa l); try done. apply unmap_one_m1.
Qed.

Lemma unmap_one_page_at q : vpath 2 q -> page_at m2 root q = page_at m root q.
Proof.
  intros Hq. destruct unmap_one_pt as [W1 L1].
  destruct Hwf as [Hpt Hpg _]. destruct (Hpg va Hva Hv) as (Hp & Hnl & Hnt).
  rewrite (set_leaf_page_at m1 m2 root va loc 0 (pa :: l)); try done.
  apply (data_write_page_at m m1 root pa l); try done. apply unmap_one_m1.
Qed.

Lemma unmap_one_dir p a i : vpath 1 p -> idx i -> page_at m root p = Some a -> load64 m2 (a + 8 * i) = load64 m (a + 8 * i).
Proof.
  intros Hp Hi Ha. destruct unmap_one_pt as [W1 L1]. assert (vpath 2 p) as Hp2 by (by apply (vpath_weaken 1); [lia|]).
  destruct Hwf as [Hpt Hpg _]. destruct (Hpg va Hva Hv) as (Hp' & Hnl & Hnt).
  rewrite (set_leaf_entry m1 m2 root va loc 0 (pa :: l)) with (r := p); try done.
  - by apply (data_write_entry m m1 root pa l Hpt Hp' Hnt unmap_one_m1 p).
  - by rewrite (data_write_page_at m m1 root pa l Hpt Hp' Hnt unmap_one_m1).
  - left. intros ->. destruct Hp as [Hp _]. cbn in Hp. lia.
Qed.

Lemma unmap_one_table b : is_table m2 root b <-> is_table m root b.
Proof.
  unfold is_table. split; intros (q & Hq & Hb); exists q; (split; [done|]).
  - by rewrite unmap_one_page_at in Hb.
  - by rewrite unmap_one_page_at.
Qed.

Lemma unmap_one_loc va' : pte_loc m2 root va' = pte_loc m root va'.
Proof. unfold pte_loc. by rewrite unmap_one_page_at by apply vpath_va. Qed.

Lemma unmap_one_kinv : kinv m2 pa (pa :: l).
Proof.
  destruct unmap_one_pt as [W1 L1]. destruct Hwf as [Hpt Hpg _]. destruct (Hpg va Hva Hv) as (Hp & Hnl & Hnt).
  apply (set_leaf_kinv m1 m2 root va loc 0); try done.
  pose proof (kfree_kinv pa (set_k_mem m (set_k_freelist fl kernel0)) l Hp Hnl) as H. apply H; [exact Hk|].
  by apply (kinv_head_range m fl l).
Qed.

Lemma unmap_one_wf : user_wf m2 root (pa :: l).
Proof.
  destruct unmap_one_pt as [W1 L1]. split.
  - by apply (set_leaf_wf m1 m2 root va loc 0).
  - intros va' Hva'. rewrite unmap_one_val by done. case_bool_decide as He; [by intros []|]. intros Hv'.
    destruct Hwf as [Hpt Hpg Hinj]. destruct (Hpg va' Hva' Hv') as (Hp & Hnl & Hnt).
    split; [done|]. split; [|by rewrite unmap_one_table].
    intros [Heq|?]%elem_of_cons; [|done]. by apply He, Hinj.
  - intros v1 v2 H1 H2. rewrite !unmap_one_val by done.
    do 2 case_bool_decide; try (by intros []); try (by intros _ []). by apply (uw_inj m root l).
Qed.

Lemma unmap_one_frame x : (forall b, b = pa \/ is_table m root b -> ~ in_page b x) -> m2 x = m x.
Proof.
  intros Hx. destruct unmap_one_pt as [W1 L1].
  destruct (set_leaf_table m1 m2 root va loc 0 (pa :: l) W1 L1 eq_refl) as (a & Ha & _ & _ & Hout).
  rewrite Hout; [apply unmap_one_m1, Hx; by left|]. apply Hx. right.
  destruct Hwf as [Hpt Hpg _]. destruct (Hpg va Hva Hv) as (Hp & Hnl & Hnt).
  by apply (data_write_table m m1 root pa l Hpt Hp Hnt unmap_one_m1).
Qed.
End unmap_one.

(** ** [uvm_unmap] *)

(** The physical pages mapped at the [n] pages from [va]. *)
Fixpoint leaf_pages (m : memory) (root va : Z) (n : nat) : list Z :=
  match n with
  | O => []
  | S n' => (if decide (valid (pte_val m root va)) then [PTE2PA (pte_val m root va)] else []) ++
            leaf_pages m root (va + PGSIZE) n'
  end.

Lemma leaf_pages_ext m m' root va n :
  (forall i, 0 <= i < Z.of_nat n -> pte_val m' root (va + i * PGSIZE) = pte_val m root (va + i * PGSIZE)) ->
  leaf_pages m' root va n = leaf_pages m root va n.
Proof.
  revert va; induction n as [|n IH]; intros va H; [done|]. cbn [leaf_pages].
  pose proof (H 0 ltac:(lia)) as H0. replace (va + 0 * PGSIZE) with va in H0 by lia. rewrite H0. f_equal. apply IH. intros i Hi.
  replace (va + PGSIZE + i * PGSIZE) with (va + (i + 1) * PGSIZE) by lia. apply H. lia.
Qed.

Lemma elem_of_leaf_pages m root va n b :
  b ∈ leaf_pages m root va n <->
  exists i, 0 <= i < Z.of_nat n /\ valid (pte_val m root (va + i * PGSIZE)) /\
            b = PTE2PA (pte_val m root (va + i * PGSIZE)).
Proof.
  revert va; induction n as [|n IH]; intros va; cbn [leaf_pages].
  { split; [by intros ?%elem_of_nil | intros (i & ? & _); lia]. }
  rewrite elem_of_app, IH. split.
  - intros [H | (i & Hi & Hv & ->)].
    + exists 0. rewrite Z.mul_0_l, Z.add_0_r. destruct (decide _); [|by apply elem_of_nil in H].
      apply list_elem_of_singleton in H. split; [lia | done].
    + exists (i + 1). replace (va + (i + 1) * PGSIZE) with (va + PGSIZE + i * PGSIZE) by lia. split; [lia | done].
  - intros (i & Hi & Hv & ->). destruct (decide (i = 0)) as [->|Hne].
    + left. rewrite Z.mul_0_l, Z.add_0_r in *. rewrite decide_True by done. by apply list_elem_of_singleton.
    + right. exists (i - 1). replace (va + PGSIZE + (i - 1) * PGSIZE) with (va + i * PGSIZE) by lia. split; [lia | done].
Qed.

(** What unmapping the [n] pages from [va] does to a table. *)
Record unmapped (m : memory) (root va : Z) (n : nat) (m' : memory) : Prop := Unmapped {
  um_val va' : va_ok va' ->
    pte_val m' root va' =
    if (va <=? va') && (va' <? va + Z.of_nat n * PGSIZE) && bool_decide (valid (pte_val m root va'))
    then 0 else pte_val m root va';
  um_page_at q : vpath 2 q -> page_at m' root q = page_at m root q;
  um_dir p a i : vpath 1 p -> idx i -> page_at m root p = Some a -> load64 m' (a + 8 * i) = load64 m (a + 8 * i);
  um_frame x : (forall b, b ∈ leaf_pages m root va n \/ is_table m root b -> ~ in_page b x) -> m' x = m x
}.

Lemma unmapped_loc m root va n m' va' : unmapped m root va n m' -> pte_loc m' root va' = pte_loc m root va'.
Proof. intros [_ Hp _]. unfold pte_loc. by rewrite Hp by apply vpath_va. Qed.

Lemma unmapped_table m root va n m' b : unmapped m root va n m' -> is_table m' root b <-> is_table m root b.
Proof.
  intros [_ Hp _]. unfold is_table. split; intros (q & Hq & Hb); exists q; (split; [done|]).
  - by rewrite Hp in Hb.
  - by rewrite Hp.
Qed.

Lemma unmapped_nil m root va : unmapped m root va 0 m.
Proof. split; [|done..]. intros va' _. unfold PGSIZE. zcases; cbn; try done; lia. Qed.

Section unmapped_step.
Context (m m1 m2 : memory) (root va : Z) (n : nat).
Hypothesis Hal : va mod PGSIZE = 0.
Hypothesis H0 : 0 <= va.
Hypothesis Hmax : va + Z.of_nat (S n) * PGSIZE <= VA_MAX + PGSIZE.
Hypothesis H1 : unmapped m root va 1 m1.
Hypothesis H2 : unmapped m1 root (va + PGSIZE) n m2.

Lemma unmapped_rest : leaf_pages m1 root (va + PGSIZE) n = leaf_pages m root (va + PGSIZE) n.
Proof.
  apply leaf_pages_ext. intros i Hi. rewrite (um_val _ _ _ _ _ H1) by (va_lia).
  unfold PGSIZE. zcases; cbn [andb]; try done; lia.
Qed.

Lemma unmapped_cons : unmapped m root va (S n) m2.
Proof.
  split.
  - intros va' Hva'. rewrite (um_val _ _ _ _ _ H2), (um_val _ _ _ _ _ H1) by done.
    unfold PGSIZE in *. zcases; cbn [andb]; try lia; try done;
      repeat (case_bool_decide; try done).
  - intros q Hq. by rewrite (um_page_at _ _ _ _ _ H2), (um_page_at _ _ _ _ _ H1).
  - intros p a i Hp Hi Ha. rewrite (um_dir _ _ _ _ _ H2 p a i), (um_dir _ _ _ _ _ H1 p a i); try done.
    by rewrite (um_page_at _ _ _ _ _ H1) by (by apply (vpath_weaken 1); [lia|]).
  - intros x Hx. rewrite (um_frame _ _ _ _ _ H2).
    + apply (um_frame _ _ _ _ _ H1). intros b Hb. apply Hx. cbn [leaf_pages] in *. set_solver.
    + intros b Hb. apply Hx. rewrite unmapped_rest, (unmapped_table _ _ _ _ _ _ H1) in Hb.
      cbn [leaf_pages]. set_solver.
Qed.
End unmapped_step.

Lemma unmap_one_unmapped m root fl va loc l :
  user_wf m root l -> va_ok va -> pte_loc m root va = Some loc -> valid (pte_val m root va) ->
  va mod PGSIZE = 0 ->
  unmapped m root va 1
    (store64 (store64 (memset m (PTE2PA (pte_val m root va)) 1 PGSIZE) (PTE2PA (pte_val m root va)) fl) loc 0).
Proof.
  intros Hwf Hva Hloc Hv Hal. split.
  - intros va' Hva'. rewrite (unmap_one_val m root fl va loc l) by done.
    case_bool_decide as He.
    + rewrite (pte_val_same_page m root va va' He), bool_decide_true by done.
      unfold PGSIZE in *. zcases; cbn; try done; zmod.
    + unfold PGSIZE in *. zcases; cbn; try done; zmod.
  - by apply (unmap_one_page_at m root fl va loc l).
  - by apply (unmap_one_dir m root fl va loc l).
  - intros x Hx. apply (unmap_one_frame m root fl va loc l); try done.
    intros b Hb. apply Hx. cbn [leaf_pages]. rewrite decide_True by done. set_solver.
Qed.

(** The pages of a range have a last-level table, and their valid entries are leaves. *)
Definition range_ok (m : memory) (root va : Z) (n : nat) : Prop :=
  forall va', va <= va' < va + Z.of_nat n * PGSIZE ->
    is_Some (pte_loc m root va') /\ (valid (pte_val m root va') -> PTE_FLAGS (pte_val m root va') <> PTE_V).

Lemma range_ok_step m root va n m1 :
  0 <= va -> va + Z.of_nat (S n) * PGSIZE <= VA_MAX + PGSIZE ->
  range_ok m root va (S n) -> unmapped m root va 1 m1 -> range_ok m1 root (va + PGSIZE) n.
Proof.
  intros H0 Hmax Hr Hu va' Hva'. rewrite (unmapped_loc _ _ _ _ _ _ Hu).
  rewrite (um_val _ _ _ _ _ Hu) by (va_lia).
  unfold PGSIZE in *. zcases; cbn [andb]; try lia. apply Hr. unfold PGSIZE. lia.
Qed.

(** The loop body, when the walk found the entry at [loc]. *)
Lemma unmap_body root va loc s e l :
  room 1 (k_hl s) -> free L_kmem (k_hl s) -> kinv (k_mem s) (k_freelist s) l -> user_wf (k_mem s) root l ->
  va_ok va -> pte_loc (k_mem s) root va = Some loc -> va mod PGSIZE = 0 ->
  (valid (pte_val (k_mem s) root va) -> PTE_FLAGS (pte_val (k_mem s) root va) <> PTE_V) ->
  exists h1 m1 fl1,
    hl_done (k_hl s) h1 /\ unmapped (k_mem s) root va 1 m1 /\
    kinv m1 fl1 (leaf_pages (k_mem s) root va 1 ++ l) /\ user_wf m1 root (leaf_pages (k_mem s) root va 1 ++ l) /\
    forall c, (m <- gets k_mem ;;
      if Z.land (load64 m loc) PTE_V =? 0 then c
      else if PTE_FLAGS (load64 m loc) =? PTE_V then panic "vm::uvm_unmap: not a leaf"
      else when true (kfree (PTE2PA (load64 m loc))) ;; on_mem (fun m => store64 m loc 0) ;; c) s e
      = (c : M unit) (vm_upd h1 m1 fl1 s) e.
Proof.
  intros Hr Hf Hk Hwf Hva Hloc Hal Hlf.
  assert (load64 (k_mem s) loc = pte_val (k_mem s) root va) as Hld by (unfold pte_val; by rewrite Hloc).
  cbn [leaf_pages]. destruct (decide (valid (pte_val (k_mem s) root va))) as [Hv|Hnv].
  - set (pa := PTE2PA (pte_val (k_mem s) root va)).
    exists (bal (k_hl s)), (store64 (store64 (memset (k_mem s) pa 1 PGSIZE) pa (k_freelist s)) loc 0), pa.
    split; [by right|]. split; [by apply (unmap_one_unmapped _ _ (k_freelist s) _ _ l)|].
    split; [by apply unmap_one_kinv|]. split; [by apply unmap_one_wf|].
    intros c. rewrite bind_gets, Hld. destruct (Z.eqb_spec (Z.land (pte_val (k_mem s) root va) PTE_V) 0); [done|].
    destruct (Z.eqb_spec (PTE_FLAGS (pte_val (k_mem s) root va)) PTE_V); [by specialize (Hlf Hv)|].
    cbn [when]. kstep kfree_run; [done..|]. unfold on_mem. rewrite bind_modify. reflexivity.
  - exists (k_hl s), (k_mem s), (k_freelist s). split; [apply hl_done_refl|]. split.
    { split; [|done..]. intros va' Hva'. destruct (Z.leb_spec va va'), (Z.ltb_spec va' (va + Z.of_nat 1 * PGSIZE)); try done.
      rewrite (pte_val_same_page _ _ va va') by (unfold PGSIZE in *; zmod). by rewrite bool_decide_false. }
    split; [done|]. split; [done|]. intros c. rewrite vm_upd_id, bind_gets, Hld.
    destruct (Z.eqb_spec (Z.land (pte_val (k_mem s) root va) PTE_V) 0); done.
Qed.

Lemma uvm_unmap_loop_run n : forall root va s e l,
  room 1 (k_hl s) -> free L_kmem (k_hl s) -> kinv (k_mem s) (k_freelist s) l -> user_wf (k_mem s) root l ->
  va mod PGSIZE = 0 -> 0 <= va -> va + Z.of_nat n * PGSIZE <= VA_MAX + PGSIZE -> range_ok (k_mem s) root va n ->
  exists h' m' fl',
    uvm_unmap_loop (S n) root va (va + Z.of_nat n * PGSIZE) true s e = Ret tt (vm_upd h' m' fl' s) e /\
    hl_done (k_hl s) h' /\ unmapped (k_mem s) root va n m' /\
    kinv m' fl' (rev (leaf_pages (k_mem s) root va n) ++ l) /\
    user_wf m' root (rev (leaf_pages (k_mem s) root va n) ++ l).
Proof.
  induction n as [|n IH]; intros root va s e l Hr Hf Hk Hwf Hal H0 Hmax Hrg.
  { exists (k_hl s), (k_mem s), (k_freelist s). cbn [uvm_unmap_loop].
    rewrite vm_upd_id. destruct (Z.ltb_spec va (va + Z.of_nat 0 * PGSIZE)); [lia|].
    split; [done|]. split; [apply hl_done_refl|]. split; [apply unmapped_nil | done]. }
  assert (VA_MAX = 2 ^ 38) as HVA by reflexivity.
  assert (va_ok va) as Hva by (va_lia).
  destruct (Hrg va) as [[loc Hloc] Hlf]; [unfold PGSIZE; lia|].
  remember (S n) as n1 eqn:Hn1. cbn [uvm_unmap_loop].
  destruct (Z.ltb_spec va (va + Z.of_nat n1 * PGSIZE)); [|unfold PGSIZE in *; lia]. cbn [negb].
  replace (va + Z.of_nat n1 * PGSIZE) with (va + PGSIZE + Z.of_nat n * PGSIZE) in * by lia.
  assert (u64 (va + PGSIZE) = va + PGSIZE) as Hu64 by (apply u64_small; unfold PGSIZE in *; lia).
  destruct (unmap_body root va loc s e l Hr Hf Hk Hwf Hva Hloc Hal Hlf)
    as (h1 & m1 & fl1 & D1 & U1 & K1 & W1 & Hc).
  destruct (IH root (va + PGSIZE) (vm_upd h1 m1 fl1 s) e (leaf_pages (k_mem s) root va 1 ++ l))
    as (h' & m' & fl' & R' & D' & U' & K' & W'); try done; try (unfold PGSIZE in *; zmod).
  { by apply (hl_done_room 1 (k_hl s)). }
  { by apply (hl_done_free L_kmem (k_hl s)). }
  { apply (range_ok_step (k_mem s)); try done; [unfold PGSIZE in *; lia | by subst n1]. }
  subst n1.
  assert (rev (leaf_pages (k_mem s) root va (S n)) ++ l =
          rev (leaf_pages m1 root (va + PGSIZE) n) ++ leaf_pages (k_mem s) root va 1 ++ l) as Hrev.
  { rewrite (unmapped_rest (k_mem s) m1 root va n); try done; [|unfold PGSIZE in *; lia]. cbn [leaf_pages].
    destruct (decide _); [|done]. cbn [rev app]. by rewrite <- app_assoc. }
  exists h', m', fl'. rewrite Hrev. split; [|split; [|split; [|split]]].
  - kstep walk_false; [unfold PGSIZE in *; lia|]. rewrite Hloc. etransitivity; [exact (Hc _)|]. rewrite Hu64. exact R'.
  - by apply (hl_done_trans 1 _ h1).
  - apply (unmapped_cons (k_mem s) m1); try done. unfold PGSIZE in *. lia.
  - exact K'.
  - exact W'.
Qed.

Lemma uvm_unmap_run root va n s e l :
  room 1 (k_hl s) -> free L_kmem (k_hl s) -> kinv (k_mem s) (k_freelist s) l -> user_wf (k_mem s) root l ->
  va mod PGSIZE = 0 -> 0 <= va -> va + Z.of_nat n * PGSIZE <= VA_MAX + PGSIZE -> range_ok (k_mem s) root va n ->
  exists h' m' fl',
    uvm_unmap root va (Z.of_nat n) true s e = Ret tt (vm_upd h' m' fl' s) e /\
    hl_done (k_hl s) h' /\ unmapped (k_mem s) root va n m' /\
    kinv m' fl' (rev (leaf_pages (k_mem s) root va n) ++ l) /\
    user_wf m' root (rev (leaf_pages (k_mem s) root va n) ++ l).
Proof.
  intros Hr Hf Hk Hwf Hal H0 Hmax Hrg. assert (VA_MAX = 2 ^ 38) as HVA by reflexivity.
  unfold uvm_unmap. rewrite Hal. cbn [Z.eqb negb]. rewrite Nat2Z.id.
  rewrite (u64_small (Z.of_nat n * PGSIZE)), u64_small by (unfold PGSIZE in *; lia).
  by apply uvm_unmap_loop_run.
Qed.

(** Number of pages between two page-aligned addresses. *)
Definition npages (a b : Z) : nat := Z.to_nat ((b - a) / PGSIZE).

Lemma npages_spec a b :
  a mod PGSIZE = 0 -> b mod PGSIZE = 0 -> a <= b -> a + Z.of_nat (npages a b) * PGSIZE = b.
Proof. unfold npages, PGSIZE. intros. rewrite Z2Nat.id by zmod. zmod. Qed.

Lemma up_props a : 0 <= a <= 2 ^ 32 - PGSIZE ->
  PG_ROUND_UP a mod PGSIZE = 0 /\ a <= PG_ROUND_UP a < a + PGSIZE /\ PG_ROUND_UP a <= 2 ^ 32 - PGSIZE.
Proof. intros. rewrite pg_round_up_low by done. unfold PGSIZE in *. zmod. Qed.

Lemma up_aligned a : a mod PGSIZE = 0 -> 0 <= a <= 2 ^ 32 - PGSIZE -> PG_ROUND_UP a = a.
Proof. intros. rewrite pg_round_up_low by done. unfold PGSIZE in *. zmod. Qed.

Lemma up_mono a b : 0 <= a <= b -> b <= 2 ^ 32 - PGSIZE -> PG_ROUND_UP a <= PG_ROUND_UP b.
Proof. intros. rewrite !pg_round_up_low by (unfold PGSIZE in *; lia). unfold PGSIZE in *. zmod. Qed.

Lemma uvm_dealloc_run root oldsz newsz s e l :
  room 1 (k_hl s) -> free L_kmem (k_hl s) -> kinv (k_mem s) (k_freelist s) l -> user_wf (k_mem s) root l ->
  0 <= newsz <= oldsz -> oldsz <= 2 ^ 32 - PGSIZE ->
  let n := npages (PG_ROUND_UP newsz) (PG_ROUND_UP oldsz) in
  let va := PG_ROUND_UP newsz in
  range_ok (k_mem s) root va n ->
  exists h' m' fl',
    uvm_dealloc root oldsz newsz s e = Ret newsz (vm_upd h' m' fl' s) e /\
    hl_done (k_hl s) h' /\ unmapped (k_mem s) root va n m' /\
    kinv m' fl' (rev (leaf_pages (k_mem s) root va n) ++ l) /\
    user_wf m' root (rev (leaf_pages (k_mem s) root va n) ++ l).
Proof.
  intros Hr Hf Hk Hwf Hn Ho n va Hrg. assert (VA_MAX = 2 ^ 38) as HVA by reflexivity.
  destruct (up_props newsz) as (A1 & B1 & C1); [lia|]. destruct (up_props oldsz) as (A2 & B2 & C2); [lia|].
  pose proof (up_mono newsz oldsz Hn Ho) as Hmono. fold va in A1, B1, C1, Hmono.
  pose proof (npages_spec va (PG_ROUND_UP oldsz) A1 A2 Hmono) as Hnp. change (npages va (PG_ROUND_UP oldsz)) with n in Hnp.
  unfold uvm_dealloc. fold va. clearbody n va.
  assert (n = O -> exists h' m' fl',
    Ret newsz s e = Ret newsz (vm_upd h' m' fl' s) e /\
    hl_done (k_hl s) h' /\ unmapped (k_mem s) root va n m' /\
    kinv m' fl' (rev (leaf_pages (k_mem s) root va n) ++ l) /\
    user_wf m' root (rev (leaf_pages (k_mem s) root va n) ++ l)) as Hnop.
  { intros ->. exists (k_hl s), (k_mem s), (k_freelist s). rewrite vm_upd_id.
    split; [done|]. split; [apply hl_done_refl|]. split; [apply unmapped_nil | done]. }
  destruct (Z.leb_spec oldsz newsz).
  { assert (oldsz = newsz) by lia. subst oldsz. apply Hnop. unfold PGSIZE in *. zmod. }
  destruct (Z.ltb_spec va (PG_ROUND_UP oldsz)); cbn [when].
  - destruct (uvm_unmap_run root va n s e l) as (h' & m' & fl' & R & H'); try done; try (unfold PGSIZE in *; lia).
    exists h', m', fl'. split; [|exact H'].
    replace ((PG_ROUND_UP oldsz - va) / PGSIZE) with (Z.of_nat n) by (unfold PGSIZE in *; zmod).
    kstep R. done.
  - apply Hnop. unfold PGSIZE in *. lia.
Qed.

(** ** Mapping one more page *)

Lemma user_wf_step m root l m' l' :
  user_wf m root l -> pt_step m root l m' l' ->
  (forall va, va_ok va -> pte_val m' root va = pte_val m root va) -> user_wf m' root l'.
Proof.
  intros [Hpt Hpg Hinj] [Swf _ Snew Sfree _] Hval. split; [done| |].
  - intros va Hva. rewrite Hval by done. intros Hv. destruct (Hpg va Hva Hv) as (Hp & Hnl & Hnt).
    split; [done|]. split; [by intros ?%Sfree|]. by intros [?|?]%Snew.
  - intros va va' Hva Hva'. rewrite !Hval by done. by apply Hinj.
Qed.

Lemma user_wf_data m m' root l pa :
  user_wf m root l -> is_page pa -> ~ is_table m root pa -> (forall x, ~ in_page pa x -> m' x = m x) ->
  user_wf m' root l.
Proof.
  intros Hwf Hp Hnt Hout. pose proof (uw_pt _ _ _ Hwf) as Hpt.
  pose proof (data_write_val m m' root pa l Hpt Hp Hnt Hout) as Hval.
  pose proof (data_write_table m m' root pa l Hpt Hp Hnt Hout) as Htab. split.
  - by apply (data_write_wf m m' root pa).
  - intros va Hva. rewrite Hval, Htab. by apply (uw_page m root l Hwf).
  - intros va va' Hva Hva'. rewrite !Hval. by apply (uw_inj m root l Hwf).
Qed.

Lemma user_wf_weaken m root l l' : (forall a, a ∈ l' -> a ∈ l) -> user_wf m root l -> user_wf m root l'.
Proof.
  intros Hl [Hpt Hpg Hinj]. split; [by apply (pt_wf_weaken _ _ l)| |done].
  intros va Hva Hv. destruct (Hpg va Hva Hv) as (? & ? & ?). set_solver.
Qed.

Lemma user_wf_cons m root l p :
  user_wf m root l -> ~ is_table m root p ->
  (forall va, va_ok va -> valid (pte_val m root va) -> PTE2PA (pte_val m root va) <> p) ->
  user_wf m root (p :: l).
Proof.
  intros [Hpt Hpg Hinj] Hnt Hfresh. split; [by apply pt_wf_cons | | done].
  intros va Hva Hv. destruct (Hpg va Hva Hv) as (Hp & Hnl & Hnt'). specialize (Hfresh va Hva Hv).
  split; [done|]. split; [|done]. by intros [?|?]%elem_of_cons.
Qed.

Lemma leaf_pa p flag : is_page p -> 0 <= flag < 1024 ->
  PTE2PA (leaf p flag) = p /\ PTE_FLAGS (leaf p flag) = Z.lor flag PTE_V.
Proof.
  intros (Hm & H0 & Hmax) Hf. unfold leaf. rewrite <- Z.lor_assoc.
  assert (0 <= Z.lor flag PTE_V < 1024) by (exact (lor_range flag 1 10 ltac:(lia) Hf ltac:(lia))).
  unfold PGSIZE in *. rewrite pte_build, pte_flags_eq by lia. unfold PGSIZE. split; [rewrite pte2pa_eq|]; zmod.
Qed.

Lemma leaf_is_valid p flag : valid (leaf p flag).
Proof. unfold valid. apply Z.eqb_neq. apply leaf_valid. Qed.

Lemma user_wf_map m root p l a flag m' l' :
  user_wf m root l -> is_page p -> p ∉ l -> ~ is_table m root p ->
  (forall va, va_ok va -> valid (pte_val m root va) -> PTE2PA (pte_val m root va) <> p) ->
  pt_step m root l m' l' -> mapped m m' root a p flag 1 -> a mod PGSIZE = 0 -> 0 <= flag < 1024 ->
  user_wf m' root l'.
Proof.
  intros [Hpt Hpg Hinj] Hp Hpl Hpt' Hfresh [Swf _ Snew Sfree _] Hmap Hal Hfl.
  destruct (leaf_pa p flag Hp Hfl) as [Hpa _].
  assert (forall va, va_ok va -> valid (pte_val m' root va) ->
    (va / PGSIZE = a / PGSIZE /\ PTE2PA (pte_val m' root va) = p) \/
    (pte_val m' root va = pte_val m root va /\ valid (pte_val m root va))) as Hcase.
  { intros va Hva Hv. rewrite (Hmap va Hva) in *.
    destruct (Z.leb_spec a va), (Z.ltb_spec va (a + 1 * PGSIZE)); cbn [andb] in *; try (by right).
    left. replace (p + (va - a) / PGSIZE * PGSIZE) with p by (unfold PGSIZE in *; zmod).
    split; [unfold PGSIZE in *; zmod | done]. }
  split; [done| |].
  - intros va Hva Hv. destruct (Hcase va Hva Hv) as [[_ ->]|[-> Hv']].
    + split; [done|]. split; [by intros ?%Sfree|]. by intros [?|?]%Snew.
    + destruct (Hpg va Hva Hv') as (Hp' & Hnl & Hnt).
      split; [done|]. split; [by intros ?%Sfree|]. by intros [?|?]%Snew.
  - intros va va' Hva Hva' Hv Hv' Heq.
    destruct (Hcase va Hva Hv) as [[E1 P1]|[E1 V1]], (Hcase va' Hva' Hv') as [[E2 P2]|[E2 V2]].
    + congruence.
    + exfalso. apply (Hfresh va' Hva' V2). congruence.
    + exfalso. apply (Hfresh va Hva V1). congruence.
    + apply Hinj; try done. congruence.
Qed.

(** ** [uvm_alloc] *)

Definition uflag (xperm : Z) : Z := Z.lor (Z.lor PTE_R PTE_U) xperm.

(** The pages of an address space: its tables and the pages it maps. *)
Definition owns (m : memory) (root b : Z) : Prop :=
  is_table m root b \/ exists va, va_ok va /\ valid (pte_val m root va) /\ PTE2PA (pte_val m root va) = b.

(** What changing the mappings of [base, top) with pages of [l] may do; no page is lost. *)
Record space_step (m : memory) (root : Z) (l : list Z) (base top : Z) (m' : memory) (l' : list Z) : Prop := SpaceStep {
  sp_wf : user_wf m' root l';
  sp_out va : va_ok va -> ~ (base <= va < top) -> pte_val m' root va = pte_val m root va;
  sp_free b : b ∈ l' -> b ∈ l;
  sp_tab b : is_table m' root b -> is_table m root b \/ b ∈ l;
  sp_all b : b ∈ l \/ owns m root b -> b ∈ l' \/ owns m' root b;
  sp_dirs : dirs_ok m root -> dirs_ok m' root;
  sp_frame x : (forall b, is_table m root b \/ b ∈ l -> ~ in_page b x) -> m' x = m x
}.

(** [base, top) is mapped to zeroed pages that were free. *)
Definition grown (m : memory) (root : Z) (l : list Z) (base top xperm : Z) (m' : memory) (l' : list Z) : Prop :=
  space_step m root l base top m' l' /\
  forall va, base <= va < top ->
    exists p, p ∈ l /\ is_page p /\ pte_val m' root va = leaf p (uflag xperm) /\
              forall x, in_page p x -> m' x = 0.

Definition not_grown (m : memory) (root : Z) (l : list Z) (base top : Z) (m' : memory) (l' : list Z) : Prop :=
  space_step m root l base top m' l' /\ forall va, base <= va < top -> ~ valid (pte_val m' root va).

Lemma uflag_range xperm : 0 <= xperm < 1024 -> 0 <= uflag xperm < 1024.
Proof. intros. unfold uflag. exact (lor_range (Z.lor PTE_R PTE_U) xperm 10 ltac:(lia) ltac:(vm_compute; done) H). Qed.

Lemma uflag_leaf p xperm : is_page p -> 0 <= xperm < 1024 -> PTE_FLAGS (leaf p (uflag xperm)) <> PTE_V.
Proof.
  intros Hp Hx. destruct (leaf_pa p (uflag xperm) Hp (uflag_range _ Hx)) as [_ ->].
  intros Heq. apply (f_equal (fun z => Z.testbit z 1)) in Heq. unfold uflag in Heq. by rewrite !Z.lor_spec in Heq.
Qed.

Lemma valid_loc m root va : valid (pte_val m root va) -> is_Some (pte_loc m root va).
Proof. unfold pte_val, valid. destruct (pte_loc m root va); [by eexists | done]. Qed.

Lemma space_step_refl m root l base : user_wf m root l -> space_step m root l base base m l.
Proof. by split; auto. Qed.

Lemma space_step_trans m root l base a b m1 l1 m2 l2 :
  base <= a <= b ->
  space_step m root l base a m1 l1 -> space_step m1 root l1 a b m2 l2 -> space_step m root l base b m2 l2.
Proof.
  intros Hab [W1 O1 F1 T1 A1 I1 X1] [W2 O2 F2 T2 A2 I2 X2]. split; try done.
  - intros va Hva Hn. rewrite O2, O1; try done; lia.
  - auto.
  - intros c [Hc|Hc]%T2; auto.
  - auto.
  - auto.
  - intros x Hx. rewrite X2; [by apply X1|]. intros c [Hc|Hc]; apply Hx; auto.
Qed.

(** A page of user data is kept by later steps. *)
Lemma space_step_keep m root l base a m' l' p x :
  space_step m root l base a m' l' -> pt_wf m root l -> is_page p -> p ∉ l -> ~ is_table m root p ->
  Forall is_page l -> in_page p x -> m' x = m x.
Proof.
  intros Hs [Hpt _] Hp Hnl Hnt Hl Hx. apply (sp_frame _ _ _ _ _ _ _ Hs). intros b Hb Hbx.
  assert (is_page b) as Hpb.
  { destruct Hb as [(q & Hq & Hb)|Hb]; [by destruct (Hpt q b Hq Hb)|]. rewrite Forall_forall in Hl. apply Hl. by apply list_elem_of_In. }
  rewrite (page_disjoint p b x Hp Hpb Hx Hbx) in *. destruct Hb; done.
Qed.

Section alloc_one.
Context (m m2 : memory) (root p : Z) (l : list Z).
Hypothesis Hwf : user_wf m root (p :: l).
Hypothesis Hp : is_page p.
(** [m2] is [m] with the page [p] filled. *)
Hypothesis alloc_one_m2 : forall x, ~ in_page p x -> m2 x = m x.

Lemma alloc_one_nt : ~ is_table m root p.
Proof. intros (q & Hq & Hb). destruct (uw_pt _ _ _ Hwf) as [H _]. destruct (H q p Hq Hb). set_solver. Qed.

Lemma alloc_one_val va : pte_val m2 root va = pte_val m root va.
Proof.
  apply (data_write_val m m2 root p (p :: l)); [apply Hwf | done | apply alloc_one_nt | apply alloc_one_m2].
Qed.

Lemma alloc_one_table b : is_table m2 root b <-> is_table m root b.
Proof.
  apply (data_write_table m m2 root p (p :: l)); [apply Hwf | done | apply alloc_one_nt | apply alloc_one_m2].
Qed.

Lemma alloc_one_wf2 : user_wf m2 root l.
Proof.
  apply (user_wf_data m m2 root l p); [|done | apply alloc_one_nt | apply alloc_one_m2].
  apply (user_wf_weaken _ _ (p :: l)); [set_solver | done].
Qed.

Lemma alloc_one_fresh va : va_ok va -> valid (pte_val m2 root va) -> PTE2PA (pte_val m2 root va) <> p.
Proof. intros Hv. rewrite alloc_one_val. intros Hvv. destruct (uw_page _ _ _ Hwf va Hv Hvv) as (_ & H & _). set_solver. Qed.

Context (a flag : Z).
Hypothesis Hpl : p ∉ l.
Hypothesis Hlp : Forall is_page l.
Hypothesis Hal : a mod PGSIZE = 0.
Hypothesis Hva : va_ok a.
Hypothesis Hx : 0 <= flag < 1024.

Lemma alloc_one_dirs : dirs_ok m root -> dirs_ok m2 root.
Proof.
  pose proof (uw_pt _ _ _ Hwf) as Hpt. apply dirs_ok_frame.
  - intros q b Hq. rewrite (data_write_page_at m m2 root p (p :: l) Hpt Hp alloc_one_nt alloc_one_m2); [done|]. by apply (vpath_weaken 1); [lia|].
  - intros q b k Hq Hk Hb. apply (data_write_entry m m2 root p (p :: l) Hpt Hp alloc_one_nt alloc_one_m2 q); try done.
    by apply (vpath_weaken 1); [lia|].
Qed.

Lemma alloc_one_all m3 l3 :
  pt_step m2 root l m3 l3 -> mapped m2 m3 root a p flag 1 -> ~ valid (pte_val m root a) ->
  forall b, b ∈ p :: l \/ owns m root b -> b ∈ l3 \/ owns m3 root b.
Proof.
  intros Hs Hm Hnv b.
  assert (forall va, va_ok va -> a <= va < a + PGSIZE -> pte_val m3 root va = leaf p flag) as Hin.
  { intros va Hv Hr. rewrite (Hm va Hv). unfold PGSIZE in *. zcases; cbn [andb]; try lia. f_equal. zmod. }
  intros [[->|Hb]%elem_of_cons|[(q & Hq & Hb)|(va & Hv & Hvv & Hb)]].
  - right. right. exists a. split; [done|]. rewrite Hin by (done || unfold PGSIZE; lia). split; [apply leaf_is_valid|].
    by destruct (leaf_pa p flag Hp Hx) as [-> _].
  - destruct (ps_all _ _ _ _ _ Hs b Hb); [by left | right; by left].
  - right. left. exists q. split; [done|]. apply (ps_old _ _ _ _ _ Hs); [done|].
    by rewrite (data_write_page_at m m2 root p (p :: l) (uw_pt _ _ _ Hwf) Hp alloc_one_nt alloc_one_m2).
  - right. right. exists va. split; [done|]. rewrite (Hm va Hv), alloc_one_val.
    destruct (Z.leb_spec a va), (Z.ltb_spec va (a + 1 * PGSIZE)); cbn [andb]; try done.
    exfalso. apply Hnv. rewrite <- (pte_val_same_page m root a va); [done|]. unfold PGSIZE in *. zmod.
Qed.

(** The page allocated for [a] is mapped. *)
Lemma alloc_one_ok m3 l3 :
  ~ valid (pte_val m root a) -> pt_step m2 root l m3 l3 -> mapped m2 m3 root a p flag 1 ->
  space_step m root (p :: l) a (a + PGSIZE) m3 l3 /\
  (forall va, a <= va < a + PGSIZE -> pte_val m3 root va = leaf p flag) /\ (forall x, in_page p x -> m3 x = m2 x).
Proof.
  intros Hnv Hs Hm. split; [split|split].
  - apply (user_wf_map m2 root p l a flag);
      [apply alloc_one_wf2 | exact Hp | exact Hpl | | exact alloc_one_fresh | exact Hs | exact Hm | exact Hal | exact Hx].
    rewrite alloc_one_table. apply alloc_one_nt.
  - intros va Hv Hout. rewrite (Hm va Hv), alloc_one_val. unfold PGSIZE in *. zcases; cbn; try done; lia.
  - intros b Hb. apply (ps_free _ _ _ _ _ Hs) in Hb. set_solver.
  - intros b [Hb|Hb]%(ps_new _ _ _ _ _ Hs); [left; by apply alloc_one_table | set_solver].
  - by apply alloc_one_all.
  - intros Hd. by apply (ps_dirs _ _ _ _ _ Hs), alloc_one_dirs.
  - intros x Hxx. rewrite (ps_frame _ _ _ _ _ Hs).
    + apply alloc_one_m2, Hxx. set_solver.
    + intros b [Hb|Hb]; apply Hxx; [left; by apply alloc_one_table | set_solver].
  - intros va Hv. unfold va_ok in Hva. change VA_MAX with (2 ^ 38) in Hva.
    rewrite (Hm va) by (unfold va_ok, PGSIZE in *; change VA_MAX with (2 ^ 38); zmod).
    unfold PGSIZE in *. zcases; cbn; try lia. f_equal. zmod.
  - intros x Hxx. rewrite (ps_frame _ _ _ _ _ Hs); [done|]. intros b Hb Hbx. assert (is_page b) as Hpb.
    { destruct Hb as [(q & Hq & Hb)|Hb]; [by destruct (proj1 (uw_pt _ _ _ alloc_one_wf2) q b Hq Hb)|].
      rewrite Forall_forall in Hlp. apply Hlp. by apply list_elem_of_In. }
    assert (b = p) as -> by (symmetry; by apply (page_disjoint p b x)).
    destruct Hb as [Hb%alloc_one_table|]; [|done]. by apply alloc_one_nt.
Qed.

(** The page table could not be extended: the page is freed again. *)
Lemma alloc_one_fail m3 m4 :
  pt_step m2 root l m3 [] -> mapped m2 m3 root a p flag 0 ->
  (forall x, ~ in_page p x -> m4 x = m3 x) -> space_step m root (p :: l) a a m4 [p].
Proof.
  intros Hs Hm Hout.
  assert (forall va, va_ok va -> pte_val m3 root va = pte_val m root va) as Hval.
  { intros va Hv. rewrite (Hm va Hv), alloc_one_val. unfold PGSIZE in *. zcases; cbn; try done; lia. }
  assert (~ is_table m3 root p) as Hnt.
  { intros [H|H]%(ps_new _ _ _ _ _ Hs); [|done]. by apply alloc_one_nt, alloc_one_table. }
  assert (user_wf m3 root [p]) as W3.
  { apply user_wf_cons; [|done|].
    - apply (user_wf_step m2 root l); [apply alloc_one_wf2 | done |].
      intros va Hv. by rewrite alloc_one_val, Hval.
    - intros va Hv. rewrite Hval, <- alloc_one_val by done. by apply alloc_one_fresh. }
  split.
  - by apply (user_wf_data m3 m4 root [p] p).
  - intros va Hv _. rewrite (data_write_val m3 m4 root p [p]); [by apply Hval | apply W3 | done..].
  - set_solver.
  - intros b Hb%(data_write_table m3 m4 root p [p] (uw_pt _ _ _ W3) Hp Hnt Hout).
    apply (ps_new _ _ _ _ _ Hs) in Hb as [Hb|Hb]; [left; by apply alloc_one_table | set_solver].
  - intros b Hb. assert (b = p \/ owns m3 root b) as [->|Hb3].
    { destruct Hb as [[->|Hb]%elem_of_cons|[(q & Hq & Hb)|(va & Hv & Hvv & Hb)]]; [by left | right; left | right; left | right; right].
      - by destruct (ps_all _ _ _ _ _ Hs b Hb) as [?%elem_of_nil|].
      - exists q. split; [done|]. apply (ps_old _ _ _ _ _ Hs); [done|].
        by rewrite (data_write_page_at m m2 root p (p :: l) (uw_pt _ _ _ Hwf) Hp alloc_one_nt alloc_one_m2).
      - exists va. by rewrite Hval. }
    { left. by apply list_elem_of_singleton. }
    right. destruct Hb3 as [Hb3|(va & Hv & Hvv)]; [left | right].
    + by apply (data_write_table m3 m4 root p [p] (uw_pt _ _ _ W3) Hp Hnt Hout).
    + exists va. by rewrite (data_write_val m3 m4 root p [p] (uw_pt _ _ _ W3) Hp Hnt Hout).
  - intros Hd%alloc_one_dirs%(ps_dirs _ _ _ _ _ Hs). revert Hd. apply dirs_ok_frame.
    + intros q b Hq. rewrite (data_write_page_at m3 m4 root p [p] (uw_pt _ _ _ W3) Hp Hnt Hout); [done|]. by apply (vpath_weaken 1); [lia|].
    + intros q b k Hq. apply (data_write_entry m3 m4 root p [p] (uw_pt _ _ _ W3) Hp Hnt Hout). by apply (vpath_weaken 1); [lia|].
  - intros x Hxx. rewrite Hout by (apply Hxx; set_solver). rewrite (ps_frame _ _ _ _ _ Hs).
    + apply alloc_one_m2, Hxx. set_solver.
    + intros b [Hb|Hb]; apply Hxx; [left; by apply alloc_one_table | set_solver].
Qed.
End alloc_one.

(** A zeroed page. *)
Lemma alloc_grown m root p l a xperm m3 l3 :
  let m2 := memset (memset m p 5 PGSIZE) p 0 PGSIZE in
  user_wf m root (p :: l) -> is_page p -> p ∉ l -> Forall is_page l -> a mod PGSIZE = 0 -> va_ok a -> 0 <= xperm < 1024 ->
  ~ valid (pte_val m root a) -> pt_step m2 root l m3 l3 -> mapped m2 m3 root a p (uflag xperm) 1 ->
  grown m root (p :: l) a (a + PGSIZE) xperm m3 l3.
Proof.
  intros m2 Hwf Hp Hpl Hlp Hal Hva Hx Hnv Hs Hm.
  destruct (alloc_one_ok m m2 root p l Hwf Hp) with (a := a) (flag := uflag xperm) (m3 := m3) (l3 := l3) as (S & V & C); try done.
  - intros x Hxx. unfold m2. by rewrite !memset_page_out.
  - by apply uflag_range.
  - split; [done|]. intros va Hva'. exists p. split; [set_solver|]. split; [done|]. split; [by apply V|].
    intros x Hxx. rewrite C by done. unfold m2. by rewrite memset_page_in.
Qed.

Lemma grown_snoc m root l base a b xperm m1 l1 m2 l2 :
  base <= a <= b -> 0 <= base -> b <= VA_MAX + PGSIZE -> Forall is_page l1 -> 0 <= xperm < 1024 ->
  grown m root l base a xperm m1 l1 -> grown m1 root l1 a b xperm m2 l2 ->
  grown m root l base b xperm m2 l2.
Proof.
  intros Hab H0 Hmax Hl1 Hx [S1 G1] [S2 G2]. split; [by apply (space_step_trans _ _ _ _ a _ m1 l1)|].
  intros va Hva. destruct (Z.lt_ge_cases va a) as [Hlt|Hge].
  - destruct (G1 va) as (p & Hpl & Hp & Hv & Hz); [lia|]. exists p. split; [done|]. split; [done|].
    destruct (leaf_pa p (uflag xperm) Hp (uflag_range _ Hx)) as [Hpa _].
    destruct (uw_page _ _ _ (sp_wf _ _ _ _ _ _ _ S1) va) as (_ & Hnl & Hnt).
    { va_lia. }
    { rewrite Hv. apply leaf_is_valid. }
    rewrite Hv, Hpa in Hnl, Hnt. split.
    + rewrite (sp_out _ _ _ _ _ _ _ S2); [done | va_lia | lia].
    + intros x Hxx. rewrite <- (Hz x Hxx). apply (space_step_keep m1 root l1 a b m2 l2 p x); try done. apply S1.
  - destruct (G2 va) as (p & Hpl & H'); [lia|]. exists p. split; [|done]. by apply (sp_free _ _ _ _ _ _ _ S1).
Qed.

Lemma unmapped_dirs m root va n m' : unmapped m root va n m' -> dirs_ok m root -> dirs_ok m' root.
Proof.
  intros U. apply dirs_ok_frame.
  - intros q b Hq. rewrite (um_page_at _ _ _ _ _ U); [done|]. by apply (vpath_weaken 1); [lia|].
  - intros q b k. apply (um_dir _ _ _ _ _ U).
Qed.

(** The pages that are unmapped are those of [leaf_pages]. *)
Lemma unmapped_all m root base a m' l c :
  base mod PGSIZE = 0 -> a mod PGSIZE = 0 -> base <= a -> unmapped m root base (npages base a) m' ->
  c ∈ l \/ owns m root c -> c ∈ rev (leaf_pages m root base (npages base a)) ++ l \/ owns m' root c.
Proof.
  intros A1 A2 Hab U. pose proof (npages_spec base a A1 A2 Hab) as Hnp. rewrite elem_of_app, elem_of_rev.
  intros [Hc|[Hc|(va & Hva & Hv & Hc)]]; [auto | right; left; by apply (unmapped_table _ _ _ _ _ _ U) |].
  destruct (decide (base <= va < a)) as [Hin|Hout].
  - left. left. apply elem_of_leaf_pages. exists ((va - base) / PGSIZE).
    rewrite <- (pte_val_same_page m root (base + (va - base) / PGSIZE * PGSIZE) va) by (unfold PGSIZE in *; zmod).
    split; [unfold PGSIZE in *; zmod | done].
  - right. right. exists va. split; [done|]. rewrite (um_val _ _ _ _ _ U), Hnp by done.
    destruct (Z.leb_spec base va), (Z.ltb_spec va a); cbn [andb]; try done. lia.
Qed.

(** Undoing a partial growth. *)
Lemma grown_undo m root l base a b xperm m1 l1 m2 :
  base <= a <= b -> 0 <= base -> b <= VA_MAX + PGSIZE -> base mod PGSIZE = 0 -> a mod PGSIZE = 0 ->
  0 <= xperm < 1024 ->
  (forall va, a <= va < b -> ~ valid (pte_val m root va)) ->
  grown m root l base a xperm m1 l1 ->
  unmapped m1 root base (npages base a) m2 ->
  user_wf m2 root (rev (leaf_pages m1 root base (npages base a)) ++ l1) ->
  not_grown m root l base b m2 (rev (leaf_pages m1 root base (npages base a)) ++ l1).
Proof.
  intros Hab H0 Hmax A1 A2 Hx Hinv [S1 G1] U W.
  pose proof (npages_spec base a A1 A2 ltac:(lia)) as Hnp.
  assert (forall c, c ∈ leaf_pages m1 root base (npages base a) -> c ∈ l) as Hlf.
  { intros c (i & Hi & Hv & ->)%elem_of_leaf_pages.
    destruct (G1 (base + i * PGSIZE)) as (p & Hpl & Hp & -> & _); [unfold PGSIZE in *; lia|].
    by destruct (leaf_pa p (uflag xperm) Hp (uflag_range _ Hx)) as [-> _]. }
  split; [split; [done| | | | | |]|].
  - intros va Hva Hout. rewrite (um_val _ _ _ _ _ U), Hnp by done. zcases; cbn [andb]; try lia;
      apply (sp_out _ _ _ _ _ _ _ S1); try done; lia.
  - intros c [Hc|Hc]%elem_of_app; [|by apply (sp_free _ _ _ _ _ _ _ S1)].
    apply Hlf. by apply list_elem_of_In, in_rev, list_elem_of_In.
  - intros c Hc%(unmapped_table _ _ _ _ _ _ U). by apply (sp_tab _ _ _ _ _ _ _ S1).
  - intros c Hc%(sp_all _ _ _ _ _ _ _ S1). apply (unmapped_all m1 root base a m2 l1); try done; lia.
  - intros Hd%(sp_dirs _ _ _ _ _ _ _ S1). by apply (unmapped_dirs m1 root base (npages base a)).
  - intros x Hxx. rewrite (um_frame _ _ _ _ _ U); [by apply (sp_frame _ _ _ _ _ _ _ S1)|].
    intros c [Hc|Hc]; apply Hxx; [right; by apply Hlf | by apply (sp_tab _ _ _ _ _ _ _ S1)].
  - intros va Hva. rewrite (um_val _ _ _ _ _ U), Hnp by (va_lia).
    destruct (Z.leb_spec base va), (Z.ltb_spec va a); cbn [andb]; try lia.
    + case_bool_decide; [by intros [] | done].
    + rewrite (sp_out _ _ _ _ _ _ _ S1) by (va_lia). apply Hinv. lia.
Qed.

Lemma grown_range_ok m root l base a xperm m1 l1 :
  base mod PGSIZE = 0 -> a mod PGSIZE = 0 -> base <= a -> 0 <= xperm < 1024 ->
  grown m root l base a xperm m1 l1 -> range_ok m1 root base (npages base a).
Proof.
  intros A1 A2 Hab Hx [_ G]. intros va Hva. rewrite (npages_spec base a A1 A2 Hab) in Hva.
  destruct (G va Hva) as (p & _ & Hp & Hv & _).
  split; [apply valid_loc; rewrite Hv; apply leaf_is_valid|]. intros _. rewrite Hv. by apply uflag_leaf.
Qed.

Section alloc_loop.
Context (m : memory) (root base newsz xperm : Z) (l : list Z).
Let top := PG_ROUND_UP newsz.
Hypothesis Hbase : base mod PGSIZE = 0.
Hypothesis H0 : 0 <= base.
Hypothesis Hnew : 0 <= newsz <= 2 ^ 32 - PGSIZE.
Hypothesis Hbt : base <= top.
Hypothesis Hx : 0 <= xperm < 1024.
Hypothesis Hinv : forall va, base <= va < top -> ~ valid (pte_val m root va).

(** Out of memory at [a]: the pages allocated so far are given back. *)
Lemma undo_run a s e l1 :
  room 1 (k_hl s) -> free L_kmem (k_hl s) -> kinv (k_mem s) (k_freelist s) l1 ->
  a mod PGSIZE = 0 -> base <= a <= top -> grown m root l base a xperm (k_mem s) l1 ->
  exists h' m' fl' l',
    (uvm_dealloc root a base ;; ret 0) s e = Ret 0 (vm_upd h' m' fl' s) e /\ hl_done (k_hl s) h' /\
    kinv m' fl' l' /\ not_grown m root l base top m' l'.
Proof.
  intros Hr Hf Hk Hal Ha Hg. destruct (up_props newsz Hnew) as (T1 & T2 & T3). fold top in T1, T2, T3.
  assert (VA_MAX = 2 ^ 38) as HVA by reflexivity.
  destruct (uvm_dealloc_run root a base s e l1) as (h' & m' & fl' & R & D & U & K & W);
    try done; try (unfold PGSIZE in *; lia).
  { apply Hg. }
  { rewrite !up_aligned by (try done; unfold PGSIZE in *; lia). apply (grown_range_ok m root l base a xperm _ l1); try done; lia. }
  rewrite !up_aligned in U, K, W by (try done; unfold PGSIZE in *; lia).
  eexists h', m', fl', _. split; [kstep R; done|]. split; [done|]. split; [exact K|].
  apply (grown_undo m root l base a top xperm (k_mem s) l1); try done; [unfold PGSIZE in *; lia|].
  intros va Hva. apply Hinv. lia.
Qed.

Lemma kinv_pages mm fl ll : kinv mm fl ll -> Forall is_page ll.
Proof. intros [Hc _]. by eapply chain_pages. Qed.

(** The body of the loop: a page is mapped at [a], or the loop returns 0. *)
Lemma alloc_body a s e l1 :
  room 1 (k_hl s) -> free L_kmem (k_hl s) -> kinv (k_mem s) (k_freelist s) l1 ->
  a mod PGSIZE = 0 -> base <= a -> a + PGSIZE <= top -> grown m root l base a xperm (k_mem s) l1 ->
  exists h' m' fl' l', hl_done (k_hl s) h' /\ kinv m' fl' l' /\
    ((grown m root l base (a + PGSIZE) xperm m' l' /\ (length l1 <= 3 + length l')%nat /\
      forall f, uvm_alloc_loop (S f) root a base newsz xperm s e =
                uvm_alloc_loop f root (a + PGSIZE) base newsz xperm (vm_upd h' m' fl' s) e) \/
     (not_grown m root l base top m' l' /\ (length l1 < 3)%nat /\
      forall f, uvm_alloc_loop (S f) root a base newsz xperm s e = Ret 0 (vm_upd h' m' fl' s) e)).
Proof.
  intros Hr Hf Hk Hal Ha Hat Hg. destruct (up_props newsz Hnew) as (T1 & T2 & T3). fold top in T1, T2, T3.
  assert (VA_MAX = 2 ^ 38) as HVA by reflexivity. assert ((a <? newsz) = true) as Hlt by (apply Z.ltb_lt; unfold PGSIZE in *; zmod).
  cbn [uvm_alloc_loop]. rewrite Hlt. cbn [negb]. fold (uflag xperm). destruct l1 as [|p l1].
  - destruct (undo_run a (vm_upd (bal (k_hl s)) (k_mem s) (k_freelist s) s) e [])
      as (h' & m' & fl' & l' & R & D & K & N); try done; try (unfold PGSIZE in *; lia).
    { by apply room_bal. }
    exists h', m', fl', l'. split; [by apply (hl_done_trans 1 _ (bal (k_hl s))); [|right|]|]. split; [done|].
    right. split; [done|]. split; [cbn; lia|]. intros f. kstep kalloc_none; [done..|]. exact R.
  - destruct (kalloc_some p l1 s e Hr Hf Hk) as (fl1 & R1 & K1 & Hp & Hpl).
    pose proof (kinv_pages _ _ _ K1) as Hpages.
    set (m2 := memset (memset (k_mem s) p 5 PGSIZE) p 0 PGSIZE).
    assert (user_wf (k_mem s) root (p :: l1)) as W by apply Hg.
    assert (forall x, ~ in_page p x -> m2 x = k_mem s x) as Hm2 by (intros x Hxx; unfold m2; by rewrite !memset_page_out).
    assert (kinv m2 fl1 l1) as K2.
    { apply (kinv_write_page (memset (k_mem s) p 5 PGSIZE) _ _ _ p); try done. intros x. apply memset_page_out. }
    destruct (map_pages_run_len root a p PGSIZE (uflag xperm) (vm_upd (bal (k_hl s)) m2 fl1 s) e l1)
      as (ok & k & h3 & m3 & fl3 & l3 & R3 & D3 & K3 & S3 & Hk0 & M3 & Hok & N3); try done; try (unfold is_page, PGSIZE in *; lia).
    { by apply room_bal. }
    { apply (uw_pt _ _ _ (alloc_one_wf2 (k_mem s) m2 root p l1 W Hp Hm2)). }
    { pose proof (uflag_range xperm Hx). lia. }
    { intros va Hva. cbn [k_mem vm_upd set_k_mem set_k_hl].
      rewrite (alloc_one_val (k_mem s) m2 root p l1 W Hp Hm2).
      rewrite (sp_out _ _ _ _ _ _ _ (proj1 Hg)) by (va_lia).
      destruct (decide (valid (pte_val m root va))) as [Hv|Hv]; [by apply Hinv in Hv; [|lia]|].
      destruct (decide (Z.land (pte_val m root va) PTE_V = 0)); [done|]. by exfalso; apply Hv. }
    assert (hl_done (k_hl s) h3) as Dh by (apply (hl_done_trans 1 _ (bal (k_hl s))); [done | by right | done]).
    change (PGSIZE / PGSIZE) with 1 in N3. destruct ok.
    + exists h3, m3, fl3, l3. split; [done|]. split; [done|]. left. split.
      { apply (grown_snoc m root l base a (a + PGSIZE) xperm (k_mem s) (p :: l1)); try done;
          [unfold PGSIZE in *; lia | unfold PGSIZE in *; lia | by constructor |].
        rewrite Hok in M3. apply (alloc_grown (k_mem s) root p l1); try done; [va_lia|].
        rewrite (sp_out _ _ _ _ _ _ _ (proj1 Hg)) by va_lia. apply Hinv. unfold PGSIZE in *. lia. }
      split; [cbn; lia|]. intros f. kstep R1. kstep on_mem_run. fold m2. kstep R3. rewrite u64_small by (unfold PGSIZE in *; lia). done.
    + destruct Hok as [Hk1 ->]. change (PGSIZE / PGSIZE) with 1 in Hk1. assert (k = 0) as -> by lia.
      set (m4 := store64 (memset m3 p 1 PGSIZE) p fl3).
      assert (forall x, ~ in_page p x -> m4 x = m3 x) as Hm4.
      { intros x Hxx. unfold m4, store64. rewrite store_bytes_out; [by apply memset_page_out|].
        rewrite length_le_bytes. unfold in_page, PGSIZE in Hxx. lia. }
      destruct (undo_run a (vm_upd (bal h3) m4 p s) e [p])
        as (h' & m' & fl' & l' & R & D & K & N).
      { apply room_bal. by apply (hl_done_room 1 (k_hl s)). }
      { apply free_bal. by apply (hl_done_free L_kmem (k_hl s)). }
      { apply (kfree_kinv p (vm_upd h3 m3 fl3 s) []); [exact Hp | apply not_elem_of_nil | exact K3 |]. by apply (kinv_head_range m3 _ []). }
      { exact Hal. }
      { unfold PGSIZE in *. lia. }
      { apply (grown_snoc m root l base a a xperm (k_mem s) (p :: l1)); try done;
          [unfold PGSIZE in *; lia | by constructor |].
        split; [|lia]. apply (alloc_one_fail (k_mem s) m2 root p l1 W Hp Hm2 a (uflag xperm)) with m3; try done.
        - unfold va_ok, PGSIZE in *. lia.
        - by apply uflag_range. }
      exists h', m', fl', l'. split.
      { apply (hl_done_trans 1 _ (bal h3)); [done | by apply (hl_done_bal 1) | done]. }
      split; [done|]. right. split; [done|]. split; [cbn in *; lia|]. intros f. kstep R1. kstep on_mem_run. fold m2. kstep R3.
      cbn [negb]. kstep kfree_run; [by apply (hl_done_room 1 (k_hl s)) | by apply (hl_done_free L_kmem (k_hl s)) |].
      exact R.
Qed.

Lemma uvm_alloc_loop_run fuel : forall a s e l1,
  room 1 (k_hl s) -> free L_kmem (k_hl s) -> kinv (k_mem s) (k_freelist s) l1 ->
  a mod PGSIZE = 0 -> base <= a <= top -> grown m root l base a xperm (k_mem s) l1 ->
  (npages a top < fuel)%nat ->
  exists r h' m' fl' l',
    uvm_alloc_loop fuel root a base newsz xperm s e = Ret r (vm_upd h' m' fl' s) e /\
    hl_done (k_hl s) h' /\ kinv m' fl' l' /\
    (r = newsz /\ grown m root l base top xperm m' l' \/
     r = 0 /\ not_grown m root l base top m' l' /\ (length l1 < 3 * npages a top)%nat).
Proof.
  destruct (up_props newsz Hnew) as (T1 & T2 & T3). fold top in T1, T2, T3.
  induction fuel as [|fuel IH]; intros a s e l1 Hr Hf Hk Hal Ha Hg Hfu; [lia|].
  destruct (decide (a = top)) as [->|Hne].
  - exists newsz, (k_hl s), (k_mem s), (k_freelist s), l1. rewrite vm_upd_id. cbn [uvm_alloc_loop].
    destruct (Z.ltb_spec top newsz); [lia|]. split; [done|]. split; [apply hl_done_refl|]. split; [done|]. by left.
  - pose proof (npages_spec a top Hal T1 ltac:(lia)) as Hn.
    destruct (alloc_body a s e l1) as (h1 & m1 & fl1 & l2 & D1 & K1 & [(G1 & N1 & R1)|(G1 & N1 & R1)]);
      [exact Hr | exact Hf | exact Hk | exact Hal | lia | unfold PGSIZE in *; zmod | exact Hg | |].
    + destruct (IH (a + PGSIZE) (vm_upd h1 m1 fl1 s) e l2) as (r & h' & m' & fl' & l' & R' & D' & H').
      { by apply (hl_done_room 1 (k_hl s)). }
      { by apply (hl_done_free L_kmem (k_hl s)). }
      { exact K1. }
      { unfold PGSIZE in *. zmod. }
      { unfold PGSIZE in *. zmod. }
      { exact G1. }
      { pose proof (npages_spec (a + PGSIZE) top ltac:(unfold PGSIZE in *; zmod) T1 ltac:(unfold PGSIZE in *; zmod)) as Hn'.
        unfold PGSIZE in *. lia. }
      exists r, h', m', fl', l'. split; [rewrite R1; exact R'|].
      split; [by apply (hl_done_trans 1 _ h1)|]. destruct H' as [K' [H'|(H1 & H2 & H3)]]; split; auto; right. split; [done|]. split; [done|].
      pose proof (npages_spec (a + PGSIZE) top ltac:(unfold PGSIZE in *; zmod) T1 ltac:(unfold PGSIZE in *; zmod)) as Hn'.
      assert (npages a top = S (npages (a + PGSIZE) top)) by (unfold PGSIZE in *; lia). lia.
    + exists 0, h1, m1, fl1, l2. split; [apply R1|]. split; [done|]. split; [done|]. right. split; [done|]. split; [done|].
      assert (npages a top <> 0)%nat by (intros E; rewrite E in Hn; lia). lia.
Qed.
End alloc_loop.

(** ** Properties *)

Lemma uvm_alloc_run_len root oldsz newsz xperm s e l :
  room 1 (k_hl s) -> free L_kmem (k_hl s) -> kinv (k_mem s) (k_freelist s) l ->
  user_wf (k_mem s) root l -> 0 <= oldsz <= newsz -> newsz <= 2 ^ 32 - PGSIZE -> 0 <= xperm < 1024 ->
  (forall va, PG_ROUND_UP oldsz <= va < PG_ROUND_UP newsz -> ~ valid (pte_val (k_mem s) root va)) ->
  exists r h' m' fl' l',
    uvm_alloc root oldsz newsz xperm s e = Ret r (vm_upd h' m' fl' s) e /\ hl_done (k_hl s) h' /\ kinv m' fl' l' /\
    (r = newsz /\ grown (k_mem s) root l (PG_ROUND_UP oldsz) (PG_ROUND_UP newsz) xperm m' l' \/
     r = 0 /\ not_grown (k_mem s) root l (PG_ROUND_UP oldsz) (PG_ROUND_UP newsz) m' l' /\
     (length l < 3 * npages (PG_ROUND_UP oldsz) (PG_ROUND_UP newsz))%nat).
Proof.
  intros Hr Hf Hk Hwf Ho Hn Hx Hinv. unfold uvm_alloc. destruct (Z.ltb_spec newsz oldsz); [lia|].
  destruct (up_props oldsz) as (A1 & B1 & C1); [lia|]. destruct (up_props newsz) as (A2 & B2 & C2); [lia|].
  pose proof (up_mono oldsz newsz Ho Hn) as Hmono.
  destruct (uvm_alloc_loop_run (k_mem s) root (PG_ROUND_UP oldsz) newsz xperm l)
    with (fuel := S (Z.to_nat (newsz / PGSIZE + 1))) (a := PG_ROUND_UP oldsz) (s := s) (e := e) (l1 := l)
    as (r & h' & m' & fl' & l' & R & D & K & H'); try done; try (unfold PGSIZE in *; lia).
  - split; [by apply space_step_refl | lia].
  - pose proof (npages_spec _ _ A1 A2 Hmono). unfold PGSIZE in *. zmod.
  - by exists r, h', m', fl', l'.
Qed.

Lemma uvm_alloc_run root oldsz newsz xperm s e l :
  room 1 (k_hl s) -> free L_kmem (k_hl s) -> kinv (k_mem s) (k_freelist s) l ->
  user_wf (k_mem s) root l -> 0 <= oldsz <= newsz -> newsz <= 2 ^ 32 - PGSIZE -> 0 <= xperm < 1024 ->
  (forall va, PG_ROUND_UP oldsz <= va < PG_ROUND_UP newsz -> ~ valid (pte_val (k_mem s) root va)) ->
  exists r h' m' fl' l',
    uvm_alloc root oldsz newsz xperm s e = Ret r (vm_upd h' m' fl' s) e /\ hl_done (k_hl s) h' /\ kinv m' fl' l' /\
    (r = newsz /\ grown (k_mem s) root l (PG_ROUND_UP oldsz) (PG_ROUND_UP newsz) xperm m' l' \/
     r = 0 /\ not_grown (k_mem s) root l (PG_ROUND_UP oldsz) (PG_ROUND_UP newsz) m' l').
Proof.
  intros Hr Hf Hk Hwf Ho Hn Hx Hinv.
  destruct (uvm_alloc_run_len root oldsz newsz xperm s e l Hr Hf Hk Hwf Ho Hn Hx Hinv) as (r & h' & m' & fl' & l' & R & D & K & [H|(H1 & H2 & _)]);
    exists r, h', m', fl', l'; split_and!; auto.
Qed.

(** C12: uvm_alloc grows an address space by zeroed user pages with the requested
    permissions and returns the new size, or returns 0 with the pages it had taken
    unmapped and freed again, which happens only if fewer than three pages were free for
    each page asked for (a page needs at most two new tables besides itself); the free
    list and the table stay well formed. *)
Theorem uvm_alloc_correct root oldsz newsz xperm s e l :
  room 1 (k_hl s) -> free L_kmem (k_hl s) -> kinv (k_mem s) (k_freelist s) l ->
  user_wf (k_mem s) root l -> 0 <= oldsz <= newsz -> newsz <= 2 ^ 32 - PGSIZE -> 0 <= xperm < 1024 ->
  (forall va, PG_ROUND_UP oldsz <= va < PG_ROUND_UP newsz -> ~ valid (pte_val (k_mem s) root va)) ->
  exists r s' l',
    uvm_alloc root oldsz newsz xperm s e = Ret r s' e /\ hl_done (k_hl s) (k_hl s') /\
    kinv (k_mem s') (k_freelist s') l' /\
    (r = newsz /\ grown (k_mem s) root l (PG_ROUND_UP oldsz) (PG_ROUND_UP newsz) xperm (k_mem s') l' \/
     r = 0 /\ not_grown (k_mem s) root l (PG_ROUND_UP oldsz) (PG_ROUND_UP newsz) (k_mem s') l' /\
     (length l < 3 * npages (PG_ROUND_UP oldsz) (PG_ROUND_UP newsz))%nat).
Proof.
  intros Hr Hf Hk Hwf Ho Hn Hx Hinv.
  destruct (uvm_alloc_run_len root oldsz newsz xperm s e l Hr Hf Hk Hwf Ho Hn Hx Hinv) as (r & h' & m' & fl' & l' & R & D & K & H').
  by exists r, (vm_upd h' m' fl' s), l'.
Qed.

Lemma empty_user_wf m root l :
  is_page root -> root ∉ l -> (forall x, in_page root x -> m x = 0) -> user_wf m root l.
Proof.
  intros Hp Hnl Hz. split; [by apply empty_pt_wf| |]; intros va; rewrite empty_pte_val by done.
  - by intros _ [].
  - by intros va' _ _ [].
Qed.

Lemma uvm_alloc_correct_witness :
  exists s' l', uvm_alloc root0 0 4096 PTE_W three_pages [] = Ret 4096 s' [] /\
    kinv (k_mem s') (k_freelist s') l' /\ hl_done (k_hl three_pages) (k_hl s') /\
    grown (k_mem three_pages) root0 [page1; page2; page3] 0 4096 PTE_W (k_mem s') l'.
Proof.
  destruct (uvm_alloc_correct root0 0 4096 PTE_W three_pages [] [page1; page2; page3])
    as (r & s' & l' & H1 & H2 & H3 & H4).
  - apply kernel0_ready.
  - apply kernel0_ready.
  - exact three_pages_kinv.
  - apply empty_user_wf; [apply root0_page | apply root0_page | apply root0_zero].
  - lia.
  - unfold PGSIZE. lia.
  - vm_compute. split; [discriminate | reflexivity].
  - intros va _. rewrite (empty_pte_val _ _ _ root0_zero). intros []. reflexivity.
  - assert (match uvm_alloc root0 0 4096 PTE_W three_pages [] with Ret r _ _ => r | _ => 0 end = 4096) as Hr
      by (vm_compute; reflexivity).
    rewrite H1 in Hr. subst r. exists s', l'. split; [exact H1|]. split; [exact H3|]. split; [exact H2|].
    destruct H4 as [[_ H4]|[H4 _]]; [exact H4 | discriminate H4].
Defined.

(** C13: uvm_dealloc unmaps exactly the pages between the rounded sizes, gives each
    mapped one back to the free list once, and changes no other translation. *)
Theorem uvm_dealloc_correct root oldsz newsz s e l :
  let va := PG_ROUND_UP newsz in
  let n := npages va (PG_ROUND_UP oldsz) in
  let l' := rev (leaf_pages (k_mem s) root va n) ++ l in
  room 1 (k_hl s) -> free L_kmem (k_hl s) -> kinv (k_mem s) (k_freelist s) l -> user_wf (k_mem s) root l ->
  0 <= newsz <= oldsz -> oldsz <= 2 ^ 32 - PGSIZE -> range_ok (k_mem s) root va n ->
  exists s', uvm_dealloc root oldsz newsz s e = Ret newsz s' e /\
    kinv (k_mem s') (k_freelist s') l' /\ user_wf (k_mem s') root l' /\
    (forall va', va <= va' < PG_ROUND_UP oldsz -> ~ valid (pte_val (k_mem s') root va')) /\
    (forall va', va_ok va' -> ~ (va <= va' < PG_ROUND_UP oldsz) ->
       pte_val (k_mem s') root va' = pte_val (k_mem s) root va').
Proof.
  intros va n l' Hr Hf Hk Hwf Hn Ho Hrg.
  destruct (uvm_dealloc_run root oldsz newsz s e l Hr Hf Hk Hwf Hn Ho Hrg) as (h' & m' & fl' & R & _ & U & K & W).
  destruct (up_props newsz) as (A1 & B1 & C1); [lia|]. destruct (up_props oldsz) as (A2 & B2 & C2); [lia|].
  pose proof (npages_spec va (PG_ROUND_UP oldsz) A1 A2 (up_mono _ _ Hn Ho)) as Hnp. fold n in Hnp.
  exists (vm_upd h' m' fl' s). split; [done|]. split; [done|]. split; [done|].
  assert (VA_MAX = 2 ^ 38) as HVA by reflexivity. cbn [k_mem vm_upd set_k_mem set_k_hl]. split.
  - intros va' Hva'. rewrite (um_val _ _ _ _ _ U) by (va_lia). fold va n. rewrite Hnp.
    zcases; try lia. cbn [andb]. case_bool_decide; [by intros [] | done].
  - intros va' Hok Hva'. rewrite (um_val _ _ _ _ _ U) by done. fold va n. rewrite Hnp. zcases; try lia; done.
Qed.

(** A process with one page, for the witnesses. *)
Lemma one_page_space :
  exists s l, room 1 (k_hl s) /\ free L_kmem (k_hl s) /\ kinv (k_mem s) (k_freelist s) l /\
    user_wf (k_mem s) root0 l /\ valid (pte_val (k_mem s) root0 0) /\ range_ok (k_mem s) root0 0 1 /\
    (exists p, is_page p /\ pte_val (k_mem s) root0 0 = leaf p (uflag PTE_W)) /\ k_procs s = k_procs kernel0.
Proof.
  assert (0 <= PTE_W < 1024) as Hw by (vm_compute; split; [discriminate | reflexivity]).
  destruct (uvm_alloc_loop_run (k_mem three_pages) root0 0 4096 PTE_W [page1; page2; page3])
    with (fuel := 3%nat) (a := 0) (s := three_pages) (e := @nil (kernel -> kernel)) (l1 := [page1; page2; page3])
    as (r & h & m & fl & l & R & D & K & G).
  - reflexivity.
  - lia.
  - unfold PGSIZE. lia.
  - exact Hw.
  - intros va _. rewrite (empty_pte_val _ _ _ root0_zero). by intros [].
  - apply kernel0_ready.
  - apply kernel0_ready.
  - exact three_pages_kinv.
  - reflexivity.
  - vm_compute. split; discriminate.
  - split; [|lia]. apply space_step_refl, empty_user_wf; [apply root0_page | apply root0_page | apply root0_zero].
  - vm_compute. lia.
  - assert (match uvm_alloc_loop 3 root0 0 0 4096 PTE_W three_pages [] with Ret r _ _ => r | _ => 0 end = 4096) as Hr
      by (vm_compute; reflexivity).
    rewrite R in Hr. subst r. destruct G as [[_ G]|[G _]]; [|discriminate G].
    exists (vm_upd h m fl three_pages), l. change (PG_ROUND_UP 4096) with 4096 in G.
    split; [apply (hl_done_room 1 (k_hl three_pages)); [exact D | apply kernel0_ready]|].
    split; [apply (hl_done_free L_kmem (k_hl three_pages)); [exact D | apply kernel0_ready]|].
    split; [exact K|]. split; [apply G|]. split; [|split; [|split; [|done]]].
    + destruct (proj2 G 0) as (p & _ & _ & E & _); [lia|]. cbn [k_mem vm_upd set_k_mem set_k_hl]. rewrite E. apply leaf_is_valid.
    + apply (grown_range_ok (k_mem three_pages) root0 [page1; page2; page3] 0 4096 PTE_W m l); try done.
    + destruct (proj2 G 0) as (p & _ & Hp & E & _); [lia|]. exists p. split; [exact Hp | exact E].
Qed.

Lemma uvm_dealloc_correct_witness :
  exists s s', uvm_dealloc root0 4096 0 s [] = Ret 0 s' [] /\
    valid (pte_val (k_mem s) root0 0) /\ ~ valid (pte_val (k_mem s') root0 0).
Proof.
  destruct one_page_space as (s & l & H1 & H2 & H3 & H4 & H5 & H6 & _).
  destruct (uvm_dealloc_correct root0 4096 0 s [] l H1 H2 H3 H4) as (s' & R & _ & _ & U & _).
  - lia.
  - unfold PGSIZE. lia.
  - exact H6.
  - exists s, s'. split; [exact R|]. split; [exact H5|]. apply U. vm_compute. split; [discriminate | reflexivity].
Defined.

(** ** [uvm_clear] *)

Lemma land_not_v pte : Z.land (Z.land pte (not64 PTE_V)) PTE_V = 0.
Proof. rewrite <- Z.land_assoc. change (Z.land (not64 PTE_V) PTE_V) with 0. apply Z.land_0_r. Qed.

Lemma uvm_clear_run root va s e l :
  pt_wf (k_mem s) root l -> va <= VA_MAX -> valid (pte_val (k_mem s) root va) ->
  exists loc, pte_loc (k_mem s) root va = Some loc /\
    uvm_clear root va s e =
    Ret tt (vm_upd (k_hl s) (store64 (k_mem s) loc (Z.land (pte_val (k_mem s) root va) (not64 PTE_V)))
              (k_freelist s) s) e.
Proof.
  intros Hwf Hva Hv. destruct (valid_loc _ _ _ Hv) as [loc Hloc]. exists loc. split; [done|].
  unfold uvm_clear. kstep walk_false; [done|]. rewrite Hloc. unfold on_mem, modify, pte_val. rewrite Hloc.
  unfold vm_upd. by destruct s.
Qed.

(** A page whose entry went through uvm_clear is no longer accessible, but
    unmapping it with do_free neither frees its memory nor clears its entry. *)
Theorem uvm_clear_leaks root va s e l :
  room 1 (k_hl s) -> free L_kmem (k_hl s) -> kinv (k_mem s) (k_freelist s) l -> user_wf (k_mem s) root l ->
  va mod PGSIZE = 0 -> 0 <= va <= VA_MAX -> valid (pte_val (k_mem s) root va) ->
  exists s1 s2,
    uvm_clear root va s e = Ret tt s1 e /\ walkaddr root va s1 e = Ret 0 s1 e /\
    uvm_unmap root va 1 true s1 e = Ret tt s2 e /\
    kinv (k_mem s2) (k_freelist s2) l /\ (PTE2PA (pte_val (k_mem s) root va) ∉ l) /\
    pte_val (k_mem s2) root va = Z.land (pte_val (k_mem s) root va) (not64 PTE_V).
Proof.
  intros Hr Hf Hk Hwf Hal Hva Hv. assert (VA_MAX = 2 ^ 38) as HVA by reflexivity.
  destruct (uvm_clear_run root va s e l (uw_pt _ _ _ Hwf)) as (loc & Hloc & Hrun); [lia | done |].
  set (m1 := store64 _ _ _) in Hrun. set (s1 := vm_upd _ _ _ _) in Hrun.
  assert (pte_val m1 root va = Z.land (pte_val (k_mem s) root va) (not64 PTE_V)) as Hval.
  { unfold m1. rewrite (set_leaf_same (k_mem s) _ root va loc _ l (uw_pt _ _ _ Hwf) Hloc eq_refl).
    unfold u64. rewrite <- Z.land_ones by lia. rewrite <- Z.land_assoc. done. }
  assert (pte_loc m1 root va = Some loc) as Hloc1.
  { unfold pte_loc. rewrite (set_leaf_page_at (k_mem s) m1 root va loc _ l (uw_pt _ _ _ Hwf) Hloc eq_refl) by apply vpath_va.
    exact Hloc. }
  assert (kinv m1 (k_freelist s) l) as K1 by (eapply set_leaf_kinv; [apply Hwf | done | done | done]).
  exists s1, s1. split; [exact Hrun|]. split.
  { rewrite walkaddr_run. destruct (Z.ltb_spec VA_MAX va); [lia|]. cbn [k_mem vm_upd set_k_mem set_k_hl s1].
    cbn zeta. rewrite Hval, land_not_v. done. }
  split; [|split; [exact K1 | split; [|exact Hval]]].
  - unfold uvm_unmap. rewrite Hal. cbn [Z.eqb negb]. change (u64 (1 * PGSIZE)) with PGSIZE.
    rewrite u64_small by (unfold PGSIZE; lia). change (S (Z.to_nat 1)) with 2%nat. cbn [uvm_unmap_loop].
    destruct (Z.ltb_spec va (va + PGSIZE)); [|unfold PGSIZE in *; lia]. cbn [negb].
    kstep walk_false; [lia|]. cbn [k_mem vm_upd set_k_mem set_k_hl s1]. rewrite Hloc1. rewrite bind_gets.
    cbn [k_mem vm_upd set_k_mem set_k_hl s1].
    assert (load64 m1 loc = pte_val m1 root va) as -> by (unfold pte_val; by rewrite Hloc1).
    rewrite Hval, land_not_v. cbn [Z.eqb]. rewrite u64_small by (unfold PGSIZE; lia).
    destruct (Z.ltb_spec (va + PGSIZE) (va + PGSIZE)); [lia|]. done.
  - apply (uw_page _ _ _ Hwf); [va_lia | done].
Qed.

Lemma uvm_clear_leaks_witness :
  exists s s1 s2, uvm_clear root0 0 s [] = Ret tt s1 [] /\ uvm_unmap root0 0 1 true s1 [] = Ret tt s2 [] /\
    valid (pte_val (k_mem s) root0 0).
Proof.
  destruct one_page_space as (s & l & H1 & H2 & H3 & H4 & H5 & _).
  destruct (uvm_clear_leaks root0 0 s [] l H1 H2 H3 H4) as (s1 & s2 & R1 & _ & R2 & _).
  - reflexivity.
  - split; [lia | vm_compute; discriminate].
  - exact H5.
  - exists s, s1, s2. auto.
Defined.
