(* ===== verification/UvmFree.v ===== *)
(** * Releasing an address space ([vm.cpp]: [free_walk], [uvm_free])

    [tables] lists the pages of a table in the order [free_walk] gives them
    back.  A table without leaves is released as a whole: every page of it is on
    the free list afterwards, once, and nothing else in memory changed. *)

From S2P Require Import Prelude State Riscv Cstring Lock Kalloc Vm Uvm.

(** ** The tables below a table *)

(** The tables below the entries [i], ..., [i + n - 1] of [a], [tb] giving those of a child. *)
Fixpoint below (tb : Z -> list Z) (m : memory) (a i : Z) (n : nat) : list Z :=
  match n with
  | O => []
  | S n' => (match child m a i with Some c => tb c | None => [] end) ++ below tb m a (i + 1) n'
  end.

Fixpoint tables (d : nat) (m : memory) (a : Z) : list Z :=
  match d with
  | O => []
  | S d' => below (tables d' m) m a 0 512 ++ [a]
  end.

(** No leaf in a table of [d] levels: a valid entry points to a table one level down. *)
Fixpoint bare (d : nat) (m : memory) (a : Z) : Prop :=
  match d with
  | O => False
  | S d' => forall i c, idx i -> child m a i = Some c -> Z.land (load64 m (a + 8 * i)) PTE_RWX = 0 /\ bare d' m c
  end.

(** The two memories agree on the pages of [l]. *)
Definition agree (l : list Z) (m m' : memory) : Prop := forall b x, b ∈ l -> in_page b x -> m' x = m x.

Lemma agree_entry l m m' a i : agree l m m' -> a ∈ l -> idx i -> load64 m' (a + 8 * i) = load64 m (a + 8 * i).
Proof. intros H Ha Hi. apply load64_ext. intros x Hx. apply (H a); [done|]. by apply (entry_in_page _ i). Qed.

Lemma agree_weaken l l' m m' : (forall b, b ∈ l' -> b ∈ l) -> agree l m m' -> agree l' m m'.
Proof. intros Hl H b x Hb. apply H. auto. Qed.

(** Entries [i], ..., [i + n - 1] exist. *)
Definition span (i : Z) (n : nat) : Prop := 0 <= i /\ i + Z.of_nat n <= 512.

Lemma span_head i n : span i (S n) -> idx i /\ span (i + 1) n.
Proof. unfold span, idx. lia. Qed.

Lemma below_ext tb tb' m m' a n : forall i, span i n ->
  (forall k, i <= k < i + Z.of_nat n -> child m' a k = child m a k) ->
  (forall k c, i <= k < i + Z.of_nat n -> child m a k = Some c -> tb' c = tb c) ->
  below tb' m' a i n = below tb m a i n.
Proof.
  induction n as [|n IH]; intros i Hs Hc Ht; [done|]. cbn [below]. rewrite Hc by lia. f_equal.
  - destruct (child m a i) as [c|] eqn:E; [|done]. apply (Ht i c); [lia | done].
  - apply IH; [by apply span_head | intros; apply Hc; lia | intros k c ?; apply Ht; lia].
Qed.

Lemma elem_of_below tb m a b n : forall i, b ∈ below tb m a i n <->
  exists k c, i <= k < i + Z.of_nat n /\ child m a k = Some c /\ b ∈ tb c.
Proof.
  induction n as [|n IH]; intros i; cbn [below].
  { split; [by intros ?%elem_of_nil | intros (k & ? & ? & _); lia]. }
  rewrite elem_of_app, IH. split.
  - intros [H|(k & c & ? & ? & ?)]; [|exists k, c; split; [lia | done]].
    destruct (child m a i) as [c|] eqn:E; [|by apply elem_of_nil in H]. exists i, c. split; [lia | done].
  - intros (k & c & Hk & Hc & Hb). destruct (decide (k = i)) as [->|]; [left; by rewrite Hc|].
    right. exists k, c. split; [lia | done].
Qed.

Lemma tables_root d m a : a ∈ tables (S d) m a.
Proof. cbn [tables]. rewrite elem_of_app. right. by apply list_elem_of_singleton. Qed.

Lemma tables_child d m a i c b : idx i -> child m a i = Some c -> b ∈ tables d m c -> b ∈ tables (S d) m a.
Proof.
  intros Hi Hc Hb. cbn [tables]. rewrite elem_of_app. left. apply elem_of_below. exists i, c. unfold idx in Hi. split; [lia | done].
Qed.

(** The tables depend on their own pages only. *)
Lemma tables_ext d : forall m m' a, agree (tables d m a) m m' -> tables d m' a = tables d m a.
Proof.
  induction d as [|d IH]; intros m m' a H; [done|]. cbn [tables]. f_equal. apply below_ext.
  - unfold span. lia.
  - intros k Hk. apply child_ext. apply (agree_entry _ _ _ _ _ H); [apply tables_root | unfold idx; lia].
  - intros k c Hk Hc. apply IH. apply (agree_weaken _ _ _ _ (fun b => tables_child d m a k c b ltac:(unfold idx; lia) Hc) H).
Qed.

Lemma bare_ext d : forall m m' a, agree (tables d m a) m m' -> bare d m a -> bare d m' a.
Proof.
  induction d as [|d IH]; intros m m' a H Hb; [done|]. intros i c Hi Hc.
  pose proof (agree_entry _ _ _ a i H (tables_root d m a) Hi) as E. rewrite (child_ext _ _ _ _ E) in Hc. rewrite E.
  destruct (Hb i c Hi Hc) as [H1 H2]. split; [done|]. apply (IH m); [|done].
  apply (agree_weaken _ _ _ _ (fun b => tables_child d m a i c b Hi Hc) H).
Qed.

(** The tables below the other entries after the table [c] of entry [i] is given back and
    the entry cleared. *)
Lemma child_freed d m m1 a i c n :
  let T := tables d m c in
  let R := below (tables d m) m a (i + 1) n in
  let m2 := store64 m1 (a + 8 * i) 0 in
  idx i -> span (i + 1) n -> is_page a -> Forall is_page T -> Forall is_page R ->
  (forall x, (forall b, b ∈ T -> ~ in_page b x) -> m1 x = m x) ->
  (forall b, b ∈ T -> b ∉ R) -> (a ∉ R) -> (a ∉ T) ->
  (forall k, i + 1 <= k < i + 1 + Z.of_nat n -> load64 m2 (a + 8 * k) = load64 m (a + 8 * k)) /\
  (forall k c', i + 1 <= k < i + 1 + Z.of_nat n -> child m a k = Some c' -> agree (tables d m c') m m2) /\
  below (tables d m2) m2 a (i + 1) n = R.
Proof.
  intros T R m2 Hi Hs Ha HT HR F1 Hdis HaR HaT. rewrite Forall_forall in HT, HR. setoid_rewrite <- list_elem_of_In in HT.
  setoid_rewrite <- list_elem_of_In in HR.
  assert (agree R m m2) as Hag.
  { intros b x Hb Hx. unfold m2. rewrite store_entry_out; [|done|].
    - apply F1. intros b' Hb1 Hb2. assert (b = b') as <- by (apply (page_disjoint b b' x); auto). by apply (Hdis b).
    - intros Hax. assert (a = b) as <- by (apply (page_disjoint a b x); auto). done. }
  assert (forall k, i + 1 <= k < i + 1 + Z.of_nat n -> load64 m2 (a + 8 * k) = load64 m (a + 8 * k)) as He.
  { intros k Hk. assert (idx k) by (unfold idx; destruct Hs; lia). unfold m2.
    rewrite entry_store_ne by (done || (right; lia)). apply load64_ext. intros x Hx. apply F1. intros b Hb1 Hb2. apply HaT.
    assert (a = b) as <-; [|done]. apply (page_disjoint a b x); auto. by apply (entry_in_page _ k). }
  assert (forall k c', i + 1 <= k < i + 1 + Z.of_nat n -> child m a k = Some c' -> agree (tables d m c') m m2) as Hac.
  { intros k c' Hk Hc. apply (agree_weaken R); [|done]. intros b Hb. apply elem_of_below. by exists k, c'. }
  split_and!; [done | done |]. apply below_ext; [done | intros; by apply child_ext, He |].
  intros k c' Hk Hc. apply tables_ext. by apply (Hac k).
Qed.

(** ** [free_walk] *)

(** The pages of [l] are given back, in order, and nothing else is touched. *)
Record freed (l : list Z) (s s' : kernel) (fl0 : list Z) : Prop := Freed {
  fr_done : hl_done (k_hl s) (k_hl s');
  fr_upd : s' = vm_upd (k_hl s') (k_mem s') (k_freelist s') s;
  fr_kinv : kinv (k_mem s') (k_freelist s') (rev l ++ fl0)
}.

Section entries.
Context (d : nat) (a : Z).

Definition level_run : Prop := forall c s e l,
  room 1 (k_hl s) -> free L_kmem (k_hl s) -> kinv (k_mem s) (k_freelist s) l -> bare d (k_mem s) c ->
  NoDup (tables d (k_mem s) c ++ l) -> Forall is_page (tables d (k_mem s) c) ->
  exists s', free_walk d c s e = Ret tt s' e /\ freed (tables d (k_mem s) c) s s' l /\
    forall x, (forall b, b ∈ tables d (k_mem s) c -> ~ in_page b x) -> k_mem s' x = k_mem s x.

Hypothesis IH : level_run.

Lemma entries_run n : forall i s e l,
  let tb := below (tables d (k_mem s)) (k_mem s) a i n in
  span i n -> room 1 (k_hl s) -> free L_kmem (k_hl s) -> kinv (k_mem s) (k_freelist s) l -> is_page a ->
  (forall k c, i <= k < i + Z.of_nat n -> child (k_mem s) a k = Some c ->
     Z.land (load64 (k_mem s) (a + 8 * k)) PTE_RWX = 0 /\ bare d (k_mem s) c) ->
  NoDup (tb ++ a :: l) -> Forall is_page tb ->
  exists s', free_walk_entries (free_walk d) a i n s e = Ret tt s' e /\ freed tb s s' l /\
    forall x, (forall b, b ∈ a :: tb -> ~ in_page b x) -> k_mem s' x = k_mem s x.
Proof.
  induction n as [|n IHn]; intros i s e l tb Hs Hr Hf Hk Ha Hb Hnd Hp.
  { exists s. split; [done|]. split; [|done]. split; [apply hl_done_refl | by rewrite vm_upd_id | done]. }
  destruct (span_head _ _ Hs) as [Hi Hs']. cbn [free_walk_entries]. rewrite bind_gets. cbv zeta.
  subst tb. cbn [below] in *. fold PTE_RWX. destruct (child (k_mem s) a i) as [c|] eqn:Hc.
  - destruct (child_inv _ _ _ _ Hc) as [Hv Ec]. destruct (Hb i c) as [Hx Hbc]; [lia | done |].
    rewrite (proj2 (Z.eqb_neq _ _) Hv), Hx. cbn [negb andb Z.eqb]. rewrite <- Ec.
    rewrite <- app_assoc in Hnd. apply list.NoDup_app in Hnd as (Hn1 & Hdis & Hn2). apply list.NoDup_app in Hn2 as (Hn2 & Hdis2 & Hn3).
    apply Forall_app in Hp as [Hp1 Hp2].
    destruct (IH c s e l) as (s1 & R1 & [D1 U1 K1] & F1); try done.
    { apply list.NoDup_app. split; [done|]. split; [|by inversion Hn3]. intros b Hb1 Hb2. apply (Hdis b Hb1). set_solver. }
    set (T := tables d (k_mem s) c) in *.
    assert (a ∉ T) as HaT by (intros H; apply (Hdis a H); set_solver).
    assert (a ∉ rev T ++ l) as Hal.
    { rewrite elem_of_app, elem_of_rev. intros [?|?]; [done|]. inversion Hn3; done. }
    set (s2 := set_k_mem (store64 (k_mem s1) (a + 8 * i) 0) s1).
    assert (forall x, ~ in_page a x -> k_mem s2 x = k_mem s1 x) as F2 by (intros x Hxa; by apply store_entry_out).
    destruct (child_freed d (k_mem s) (k_mem s1) a i c n) as (He & Hac & Htb); try done.
    { intros b Hb1 Hb2. apply (Hdis b Hb1). rewrite elem_of_app. by left. }
    { intros H. apply (Hdis2 a H). by left. }
    change (store64 (k_mem s1) (a + 8 * i) 0) with (k_mem s2) in He, Hac, Htb.
    destruct (IHn (i + 1) s2 e (rev T ++ l)) as (s3 & R3 & [D3 U3 K3] & F3); try done.
    { by apply (hl_done_room 1 (k_hl s)). }
    { by apply (hl_done_free L_kmem (k_hl s)). }
    { by apply (kinv_write_page (k_mem s1) _ _ _ a). }
    { intros k c' Hk' Hc'. rewrite (child_ext _ _ _ _ (He k Hk')) in Hc'. rewrite He by done.
      destruct (Hb k c') as [? Hbk]; [lia | done |]. split; [done|]. apply (bare_ext d (k_mem s)); [by apply (Hac k) | done]. }
    { rewrite Htb. apply list.NoDup_app. split; [done|]. split.
      - intros b Hb1 [->|Hb2]%elem_of_cons; [apply (Hdis2 a Hb1); set_solver|]. rewrite elem_of_app, elem_of_rev in Hb2.
        destruct Hb2 as [Hb2|Hb2]; [apply (Hdis b Hb2); set_solver | apply (Hdis2 b Hb1); set_solver].
      - apply list.NoDup_cons. split; [done|]. apply list.NoDup_app. split; [by apply nodup_rev|]. split; [|by inversion Hn3].
        intros b Hb1 Hb2. rewrite elem_of_rev in Hb1. apply (Hdis b Hb1). set_solver. }
    { by rewrite Htb. }
    exists s3. rewrite bind_assoc. split; [kstep R1; exact R3|]. rewrite Htb in *. split; [split|].
    + apply (hl_done_trans 1 _ (k_hl s1)); done.
    + rewrite U3. unfold s2. rewrite U1. done.
    + rewrite rev_app_distr, <- app_assoc. done.
    + intros x Hx'. rewrite F3, F2, F1; [done | | |]; intros; apply Hx'; set_solver.
  - unfold child in Hc. destruct (Z.land (load64 (k_mem s) (a + 8 * i)) PTE_V =? 0) eqn:Hv; [|done]. cbn [negb andb].
    rewrite bind_ret. apply IHn; try done. intros k c' Hk'. apply Hb. lia.
Qed.
End entries.

Lemma free_walk_run d : level_run d.
Proof.
  induction d as [|d IH]; intros a s e l Hr Hf Hk Hb Hnd Hp; [done|].
  cbn [tables] in *. apply Forall_app in Hp as [Hp1 Hp2]. rewrite Forall_singleton in Hp2. rewrite <- app_assoc in Hnd. cbn [app] in Hnd.
  cbn [free_walk]. destruct (entries_run d a IH 512 0 s e l) as (s1 & R1 & [D1 U1 K1] & F1); try done.
  set (T := below _ _ _ _ _) in *. clearbody T. exists (vm_upd (bal (k_hl s1)) (store64 (memset (k_mem s1) a 1 PGSIZE) a (k_freelist s1)) a s1).
  assert (room 1 (k_hl s1)) as Hr1 by (by apply (hl_done_room 1 (k_hl s))).
  apply list.NoDup_app in Hnd as (_ & Hdis & Hn2).
  split; [kstep R1; apply kfree_run; [done | by apply (hl_done_free L_kmem (k_hl s))]|]. split; [split|].
  - by apply (hl_done_bal 1).
  - rewrite U1. done.
  - rewrite rev_app_distr. cbn [rev app]. apply (kfree_kinv a s1); [done | | done | by apply (kinv_head_range _ _ _ K1)].
    rewrite elem_of_app, elem_of_rev. intros [H|H]; [apply (Hdis a H); rewrite elem_of_cons; by left | by apply list.NoDup_cons in Hn2 as [? _]].
  - intros x Hx. cbn [k_mem vm_upd set_k_mem set_k_hl]. assert (~ in_page a x) as Hax by (apply Hx; rewrite elem_of_app, list_elem_of_singleton; by right).
    unfold store64. rewrite store_bytes_out by (rewrite length_le_bytes; unfold in_page, PGSIZE in Hax; lia).
    rewrite memset_page_out by done. apply F1. intros b [->|Hb']%elem_of_cons; [done|]. apply Hx. rewrite elem_of_app. by left.
Qed.

(** ** The tables of a well-formed address space *)

(** No page is mapped. *)
Definition no_leaf (m : memory) (root : Z) : Prop :=
  forall p a i, length p = 2%nat -> Forall idx p -> idx i -> page_at m root p = Some a -> child m a i = None.

Lemma page_at_app m root p q a : page_at m root p = Some a -> page_at m root (p ++ q) = page_at m a q.
Proof. intros H. unfold page_at in *. by rewrite foldl_app, H. Qed.

Lemma page_at_cons m a i q : page_at m a (i :: q) = child m a i ≫= fun c => page_at m c q.
Proof.
  unfold page_at. cbn [foldl mbind option_bind]. destruct (child m a i) as [c|]; [done|]. cbn.
  induction q as [|k q IH]; [done | exact IH].
Qed.

(** The tables are the pages reached in less than [d] steps. *)
Lemma elem_of_tables d m : forall a b, b ∈ tables d m a <-> exists q, (length q < d)%nat /\ Forall idx q /\ page_at m a q = Some b.
Proof.
  induction d as [|d IH]; intros a b.
  { split; [by intros ?%elem_of_nil | intros (q & ? & _); lia]. }
  cbn [tables]. rewrite elem_of_app, elem_of_below, list_elem_of_singleton. split.
  - intros [(k & c & Hk & Hc & (q & H1 & H2 & H3)%IH) | -> ].
    + exists (k :: q). split; [cbn; lia|]. split; [constructor; [unfold idx; lia | done]|]. by rewrite page_at_cons, Hc.
    + exists []. split; [cbn; lia|]. by split.
  - intros ([|k q] & H1 & H2 & H3); [right; by injection H3|]. left. rewrite page_at_cons in H3.
    destruct (child m a k) as [c|] eqn:Hc; [|done]. apply Forall_cons_iff in H2 as [Hk H2]. exists k, c. unfold idx in Hk.
    split; [lia|]. split; [done|]. apply IH. exists q. split; [cbn in H1; lia | done].
Qed.

(** Distinct paths lead to distinct tables. *)
Definition paths_inj (d : nat) (m : memory) (a : Z) : Prop :=
  forall p q b, (length p < d)%nat -> (length q < d)%nat -> Forall idx p -> Forall idx q ->
    page_at m a p = Some b -> page_at m a q = Some b -> p = q.

Lemma paths_inj_child d m a i c : idx i -> child m a i = Some c -> paths_inj (S d) m a -> paths_inj d m c.
Proof.
  intros Hi Hc H p q b Hp Hq Fp Fq Ep Eq. assert (i :: p = i :: q) as [= ?]; [|done].
  apply (H _ _ b); cbn [length]; try lia; try (by constructor); by rewrite page_at_cons, Hc.
Qed.

Lemma below_nodup d m a n : forall i, span i n -> paths_inj (S d) m a ->
  (forall k c, idx k -> child m a k = Some c -> NoDup (tables d m c)) -> NoDup (below (tables d m) m a i n).
Proof.
  induction n as [|n IH]; intros i Hs Hinj Hnd; cbn [below]; [constructor|]. destruct (span_head _ _ Hs) as [Hi Hs'].
  destruct (child m a i) as [c|] eqn:Hc; [|by apply IH]. apply list.NoDup_app. split; [by apply (Hnd i)|]. split; [|by apply IH].
  intros b (q & H1 & H2 & H3)%elem_of_tables (k & c' & Hk & Hc' & (q' & H1' & H2' & H3')%elem_of_tables)%elem_of_below.
  assert (idx k) by (unfold idx; destruct Hs'; lia).
  assert (i :: q = k :: q') as [= -> _]; [|lia].
  apply (Hinj _ _ b); cbn [length]; try lia; try (by constructor); by rewrite page_at_cons, ?Hc, ?Hc'.
Qed.

Lemma tables_nodup d m : forall a, paths_inj d m a -> NoDup (tables d m a).
Proof.
  induction d as [|d IH]; intros a Hinj; cbn [tables]; [constructor|]. apply list.NoDup_app. split; [|split].
  - apply below_nodup; [unfold span; lia | done |]. intros k c Hk Hc. apply IH. by apply (paths_inj_child d m a k).
  - intros b (k & c & Hk & Hc & (q & H1 & H2 & H3)%elem_of_tables)%elem_of_below ->%list_elem_of_singleton.
    assert (k :: q = []) as ?; [|done]. apply (Hinj _ _ a); cbn [length]; try lia; try done.
    + constructor; [unfold idx; lia | done].
    + by rewrite page_at_cons, Hc.
  - apply NoDup_singleton.
Qed.

Section space.
Context (m : memory) (root : Z) (l : list Z).
Hypothesis Hwf : pt_wf m root l.

Lemma elem_of_tables3 b : b ∈ tables 3 m root <-> is_table m root b.
Proof.
  rewrite elem_of_tables. unfold is_table, vpath. split; intros (q & H); exists q; split_and!; try apply H.
  - destruct H as (H & _). lia.
  - destruct H as ((H & _) & _). lia.
Qed.

Lemma tables3_pages : Forall is_page (tables 3 m root).
Proof. apply Forall_forall. intros b Hb%list_elem_of_In. apply elem_of_tables3 in Hb as (p & Hp & Hb). by apply (proj1 Hwf p). Qed.

Lemma tables3_nodup : NoDup l -> NoDup (tables 3 m root ++ l).
Proof.
  intros Hl. apply list.NoDup_app. split; [|split; [|done]].
  - apply tables_nodup. intros p q b Hp Hq Fp Fq. apply (proj2 Hwf); split; try done; lia.
  - intros b (p & Hp & Hb)%elem_of_tables3. by apply (proj1 Hwf p).
Qed.

Lemma bare3 : dirs_ok m root -> no_leaf m root -> bare 3 m root.
Proof.
  intros Hd Hn. intros i1 c1 Hi1 Hc1.
  assert (page_at m root [i1] = Some c1) as P1 by (by rewrite page_at_cons, Hc1).
  split; [apply (Hd [] root); [split; [cbn; lia | constructor] | done | done]|]. intros i2 c2 Hi2 Hc2.
  assert (page_at m root [i1; i2] = Some c2) as P2 by (by rewrite page_at_cons, Hc1; cbn [mbind option_bind]; rewrite page_at_cons, Hc2).
  split; [apply (Hd [i1]); [split; [cbn; lia | by constructor] | done | done]|]. intros i3 c3 Hi3 Hc3. exfalso.
  rewrite (Hn [i1; i2] c2 i3) in Hc3; [done | done | rewrite !list.Forall_cons; auto | done | done].
Qed.
End space.

(** ** [uvm_free] *)

(** The address whose indices are [i2], [i1] and [i0]. *)
Definition va_of (i2 i1 i0 : Z) : Z := i2 * 2 ^ 30 + i1 * 2 ^ 21 + i0 * 2 ^ 12.

Lemma px_va_of i2 i1 i0 : idx i2 -> idx i1 -> idx i0 ->
  PX 2 (va_of i2 i1 i0) = i2 /\ PX 1 (va_of i2 i1 i0) = i1 /\ PX 0 (va_of i2 i1 i0) = i0.
Proof.
  unfold idx, va_of. intros. rewrite !px_eq by lia. change (12 + 9 * 2) with 30. change (12 + 9 * 1) with 21. change (12 + 9 * 0) with 12.
  split_and!; zmod.
Qed.

(** A table in which no address has a valid entry has no leaf. *)
Lemma no_leaf_intro m root : (forall va, va_ok va -> ~ valid (pte_val m root va)) -> no_leaf m root.
Proof.
  intros H p a i Hp Fp Hi Ha. destruct p as [|i2 [|i1 [|]]]; try done. apply Forall_cons_iff in Fp as [H2 Fp].
  apply Forall_cons_iff in Fp as [H1 _]. destruct (px_va_of i2 i1 i H2 H1 Hi) as (E2 & E1 & E0).
  specialize (H (va_of i2 i1 i)). unfold pte_val, pte_loc in H. rewrite E2, E1, E0, Ha in H. cbn [mbind option_bind] in H.
  unfold child. destruct (Z.eqb_spec (Z.land (load64 m (a + 8 * i)) PTE_V) 0) as [|Hv]; [done|]. exfalso. apply H; [|done].
  unfold va_ok, va_of, idx in *. lia.
Qed.

(** The tables do not change when the paths lead to the same pages. *)
Lemma tables_page_at d m m' : forall a,
  (forall q, (length q < d)%nat -> Forall idx q -> page_at m' a q = page_at m a q) -> tables d m' a = tables d m a.
Proof.
  induction d as [|[|d] IH]; intros a H; [done| |].
  - cbn [tables]. f_equal. assert (forall m n i, below (fun _ => []) m a i n = []) as E; [|by rewrite !E].
    intros m0. induction n as [|n IHn]; intros i; cbn [below]; [done|]. rewrite IHn. by destruct (child m0 a i).
  - assert (forall k, 0 <= k < 512 -> child m' a k = child m a k) as Hc.
    { intros k Hk. specialize (H [k]). rewrite !page_at_cons in H. cbn [length] in H.
      assert (Forall idx [k]) as Fk by (rewrite Forall_singleton; unfold idx; lia). specialize (H ltac:(lia) Fk).
      destruct (child m' a k), (child m a k); exact H. }
    change (below (tables (S d) m') m' a 0 512 ++ [a] = below (tables (S d) m) m a 0 512 ++ [a]). f_equal.
    apply below_ext; [unfold span; lia | intros k Hk; apply Hc; lia |]. intros k c Hk Hck. apply IH. intros q Hq Fq.
    specialize (H (k :: q)). rewrite !page_at_cons, Hc, Hck in H by lia. apply H; [cbn; lia|]. constructor; [unfold idx; lia | done].
Qed.

(** The number of pages of an address space of size [sz]. *)
Definition space_pages (sz : Z) : nat := npages 0 (PG_ROUND_UP sz).

(** [uvm_free] gives back every table and every mapped page once and touches no other memory. *)
Lemma uvm_free_run root sz s e l :
  let T := tables 3 (k_mem s) root in
  let P := leaf_pages (k_mem s) root 0 (space_pages sz) in
  room 1 (k_hl s) -> free L_kmem (k_hl s) -> kinv (k_mem s) (k_freelist s) l ->
  user_wf (k_mem s) root l -> dirs_ok (k_mem s) root -> 0 <= sz <= 2 ^ 32 - PGSIZE ->
  range_ok (k_mem s) root 0 (space_pages sz) ->
  (forall va, va_ok va -> PG_ROUND_UP sz <= va -> ~ valid (pte_val (k_mem s) root va)) ->
  exists s', uvm_free root sz s e = Ret tt s' e /\
    kinv (k_mem s') (k_freelist s') (rev T ++ rev P ++ l) /\
    (forall b, b ∈ T <-> is_table (k_mem s) root b) /\
    (forall x, (forall b, b ∈ T ++ P -> ~ in_page b x) -> k_mem s' x = k_mem s x) /\
    s' = vm_upd (k_hl s') (k_mem s') (k_freelist s') s /\ hl_done (k_hl s) (k_hl s').
Proof.
  intros T P Hr Hf Hk Hwf Hd Hsz Hrg Hup. destruct (up_props sz) as (A & B & C); [lia|].
  pose proof (npages_spec 0 (PG_ROUND_UP sz) eq_refl A ltac:(lia)) as Hn. fold (space_pages sz) in Hn.
  destruct (uvm_unmap_run root 0 (space_pages sz) s e l) as (h1 & m1 & fl1 & R1 & D1 & U1 & K1 & W1); try done.
  { unfold PGSIZE in *. change VA_MAX with (2 ^ 38). lia. }
  fold P in K1, W1. set (s1 := vm_upd h1 m1 fl1 s) in *.
  assert (tables 3 m1 root = T) as HT.
  { apply tables_page_at. intros q Hq Fq. apply (um_page_at _ _ _ _ _ U1). split; [lia | done]. }
  assert (no_leaf m1 root) as Hnl.
  { apply no_leaf_intro. intros va Hva. rewrite (um_val _ _ _ _ _ U1) by done. rewrite Hn.
    destruct (Z.leb_spec 0 va) as [H0|H0]; [|unfold va_ok in Hva; lia]. destruct (Z.ltb_spec va (PG_ROUND_UP sz)) as [Hlt|Hge]; cbn [andb].
    - case_bool_decide as Hv; [by intros [] | exact Hv].
    - by apply Hup. }
  assert (dirs_ok m1 root) as Hd1.
  { intros p a i Hp Hi Ha. assert (page_at (k_mem s) root p = Some a) as Ha'.
    { rewrite <- Ha. symmetry. apply (um_page_at _ _ _ _ _ U1). by apply (vpath_weaken 1); [lia|]. }
    rewrite (um_dir _ _ _ _ _ U1 p a i) by done. by apply (Hd p). }
  pose proof (uw_pt _ _ _ W1) as Hpt.
  destruct (free_walk_run 3 root s1 e (rev P ++ l)) as (s2 & R2 & [D2 U2 K2] & F2).
  { by apply (hl_done_room 1 (k_hl s)). }
  { by apply (hl_done_free L_kmem (k_hl s)). }
  { exact K1. }
  { by apply (bare3 m1 root). }
  { apply (tables3_nodup m1 root); [done | apply K1]. }
  { by apply (tables3_pages m1 root (rev P ++ l)). }
  change (k_mem s1) with m1 in *. rewrite HT in *. exists s2. split; [|split; [exact K2|]].
  - unfold uvm_free. destruct (Z.ltb_spec 0 sz) as [H0|H0]; cbn [when].
    + replace (PG_ROUND_UP sz / PGSIZE) with (Z.of_nat (space_pages sz)) by (rewrite <- Hn; unfold PGSIZE; zmod). kstep R1. exact R2.
    + rewrite bind_ret. assert (sz = 0) as -> by lia. change (space_pages 0) with 0%nat in *. rewrite <- R2. f_equal.
      cbn in R1. unfold uvm_unmap in R1. cbn in R1. by injection R1.
  - split; [intros b; apply (elem_of_tables3 (k_mem s) root)|]. split; [|split].
    + intros x Hx. rewrite F2.
      * cbn [k_mem s1 vm_upd set_k_mem set_k_hl]. apply (um_frame _ _ _ _ _ U1). intros b [Hb|Hb]; apply Hx; rewrite elem_of_app; [by right|].
        left. by apply (elem_of_tables3 (k_mem s) root).
      * intros b Hb. apply Hx. rewrite elem_of_app. by left.
    + rewrite U2. done.
    + by apply (hl_done_trans 1 _ h1).
Qed.

(** ** The life of an address space *)

(** A new address space, grown to [sz] as far as memory allows, and released. *)
Definition address_space_life (sz xperm : Z) : M unit :=
  root <- uvm_create ;;
  if root =? 0 then ret tt
  else
    r <- uvm_alloc root 0 sz xperm ;;
    uvm_free root r.

Lemma empty_tables m root b : (forall x, in_page root x -> m x = 0) -> is_table m root b -> b = root.
Proof. intros Hz (q & Hq & Hb). apply (empty_page_at m) in Hb as [_ ->]; try done. by apply (vpath_weaken 2); [lia|]. Qed.

Lemma empty_dirs_ok m root : (forall x, in_page root x -> m x = 0) -> dirs_ok m root.
Proof.
  intros Hz p a i Hp Hi Ha. apply (empty_page_at m) in Ha as [-> ->]; try done; [|by apply (vpath_weaken 1); [lia|]].
  replace (load64 m (root + 8 * i)) with 0; [done|]. symmetry. unfold load64, load_bytes. cbn [seq map].
  rewrite !Hz by (unfold in_page, idx, PGSIZE in *; lia). reflexivity.
Qed.

(** Releasing a space that came from an empty one, with the free pages [l0]. *)
Section release.
Context (m m' : memory) (root : Z) (l0 l' : list Z) (top t : Z).
Hypothesis Hz : forall x, in_page root x -> m x = 0.
Hypothesis Hstep : space_step m root l0 0 top m' l'.
Hypothesis Ht : t mod PGSIZE = 0.
Hypothesis H0 : 0 <= t <= top.
Hypothesis Hup : forall va, t <= va < top -> ~ valid (pte_val m' root va).
Hypothesis Hmap : forall va, 0 <= va < t -> valid (pte_val m' root va) -> PTE2PA (pte_val m' root va) ∈ l0.

Lemma release_upper va : va_ok va -> t <= va -> ~ valid (pte_val m' root va).
Proof.
  intros Hva Hge. destruct (decide (va < top)); [apply Hup; lia|]. rewrite (sp_out _ _ _ _ _ _ _ Hstep) by (done || lia). rewrite empty_pte_val by done. by intros [].
Qed.

Lemma release_all b : b ∈ root :: l0 <-> b ∈ rev (tables 3 m' root) ++ rev (leaf_pages m' root 0 (npages 0 t)) ++ l'.
Proof.
  pose proof (npages_spec 0 t eq_refl Ht (proj1 H0)) as Hn.
  rewrite !elem_of_app, !elem_of_rev, (elem_of_tables3 m' root), elem_of_leaf_pages, elem_of_cons. split.
  - intros Hb. destruct (sp_all _ _ _ _ _ _ _ Hstep b) as [Hb'|[Hb'|(va & Hva & Hv & Hb')]]; [| by auto | by auto |].
    { destruct Hb as [->|Hb]; [right; left; exists []; split; [split; [cbn; lia | constructor] | done] | by left]. }
    right. left. destruct (decide (va < t)) as [Hlt|Hge]; [|exfalso; by apply (release_upper va Hva); [lia|]].
    unfold va_ok in Hva. exists (va / PGSIZE). rewrite (pte_val_same_page m' root va (0 + va / PGSIZE * PGSIZE)) by (unfold PGSIZE; zmod).
    split; [unfold PGSIZE in *; zmod | done].
  - intros [Hb|[(i & Hi & Hv & ->)|Hb]].
    + destruct (sp_tab _ _ _ _ _ _ _ Hstep b Hb) as [Hb'|]; [|by right]. left. by apply (empty_tables m).
    + right. apply Hmap; [unfold PGSIZE in *; lia | done].
    + right. by apply (sp_free _ _ _ _ _ _ _ Hstep).
Qed.
End release.

(** What growing an empty space leaves: up to [r] pages are mapped, all of them from [l0]. *)
Lemma alloc_outcome m root l0 sz xperm r m' l' :
  0 <= sz <= 2 ^ 32 - PGSIZE -> 0 <= xperm < 1024 ->
  r = sz /\ grown m root l0 0 (PG_ROUND_UP sz) xperm m' l' \/ r = 0 /\ not_grown m root l0 0 (PG_ROUND_UP sz) m' l' ->
  let t := PG_ROUND_UP r in
  space_step m root l0 0 (PG_ROUND_UP sz) m' l' /\ 0 <= r <= 2 ^ 32 - PGSIZE /\ 0 <= t <= PG_ROUND_UP sz /\
  range_ok m' root 0 (npages 0 t) /\ (forall va, t <= va < PG_ROUND_UP sz -> ~ valid (pte_val m' root va)) /\
  (forall va, 0 <= va < t -> valid (pte_val m' root va) -> PTE2PA (pte_val m' root va) ∈ l0).
Proof.
  intros Hsz Hx. destruct (up_props sz) as (A & B & C); [lia|]. intros [[-> G]|[-> [G1 G2]]] t; subst t.
  - split; [apply G|]. split; [lia|]. split; [lia|]. split; [apply (grown_range_ok m root l0 0 (PG_ROUND_UP sz) xperm m' l'); try done; lia|].
    split; [lia|]. intros va Hva _. destruct (proj2 G va Hva) as (p & Hpl & Hpp & -> & _).
    by destruct (leaf_pa p (uflag xperm) Hpp (uflag_range _ Hx)) as [-> _].
  - change (PG_ROUND_UP 0) with 0. change (npages 0 0) with 0%nat. split; [done|]. split; [unfold PGSIZE; lia|]. split; [lia|].
    split; [|split; [exact G2 | lia]]. intros va Hva. unfold PGSIZE in Hva. lia.
Qed.

Lemma uvm_create_some root l s e :
  room 1 (k_hl s) -> free L_kmem (k_hl s) -> kinv (k_mem s) (k_freelist s) (root :: l) ->
  exists m' fl', uvm_create s e = Ret root (vm_upd (bal (k_hl s)) m' fl' s) e /\ kinv m' fl' l /\ is_page root /\ (root ∉ l) /\
    (forall x, in_page root x -> m' x = 0) /\ forall x, ~ in_page root x -> m' x = k_mem s x.
Proof.
  intros Hr Hf Hk. destruct (kalloc_some root l s e Hr Hf Hk) as (fl1 & R1 & K1 & Hp & Hnl).
  exists (memset (memset (k_mem s) root 5 PGSIZE) root 0 PGSIZE), fl1. split; [unfold uvm_create; kstep R1; kstep on_mem_run; reflexivity|].
  split; [|split; [done | split; [done|]]].
  - apply (kinv_write_page (memset (k_mem s) root 5 PGSIZE) _ _ _ root); try done. intros x. apply memset_page_out.
  - split; intros x Hx; [by rewrite memset_page_in | by rewrite !memset_page_out].
Qed.

(** C6: Creating an address space, growing it and releasing it loses no page: whether or
    not memory was exhausted on the way, the free list afterwards is a permutation of
    the one before, and nothing but memory, free list and interrupt state changed. *)
Theorem address_space_conserved sz xperm s e l :
  room 1 (k_hl s) -> free L_kmem (k_hl s) -> kinv (k_mem s) (k_freelist s) l ->
  0 <= sz <= 2 ^ 32 - PGSIZE -> 0 <= xperm < 1024 ->
  exists s' l', address_space_life sz xperm s e = Ret tt s' e /\
    kinv (k_mem s') (k_freelist s') l' /\ l' ≡ₚ l /\
    s' = vm_upd (k_hl s') (k_mem s') (k_freelist s') s /\ hl_done (k_hl s) (k_hl s').
Proof.
  intros Hr Hf Hk Hsz Hx. unfold address_space_life. destruct l as [|root l0].
  { exists (vm_upd (bal (k_hl s)) (k_mem s) (k_freelist s) s), []. unfold uvm_create. rewrite bind_assoc.
    split; [kstep kalloc_none; done|]. split_and!; try done. by right. }
  destruct (uvm_create_some root l0 s e Hr Hf Hk) as (m1 & fl1 & R1 & K1' & Hp & Hnl & Hz & _).
  assert (forall va, ~ valid (pte_val m1 root va)) as Hinv by (intros va; rewrite empty_pte_val by done; by intros []).
  destruct (up_props sz) as (A & B & C); [lia|]. set (top := PG_ROUND_UP sz) in *.
  destruct (uvm_alloc_run root 0 sz xperm (vm_upd (bal (k_hl s)) m1 fl1 s) e l0) as (r & h2 & m2 & fl2 & l2 & R2 & D2 & K2 & G).
  { by apply room_bal. }
  { by apply free_bal. }
  { exact K1'. }
  { by apply empty_user_wf. }
  { lia. }
  { lia. }
  { exact Hx. }
  { intros va _. apply Hinv. }
  change (PG_ROUND_UP 0) with 0 in G. fold top in G. cbn [k_mem vm_upd set_k_mem set_k_hl] in G.
  destruct (alloc_outcome m1 root l0 sz xperm r m2 l2 Hsz Hx G) as (S2 & Hrr & Htt & Hrg & Hup & Hmp).
  destruct (up_props r) as (Ht & _ & _); [lia|]. remember (PG_ROUND_UP r) as t eqn:Et. fold top in S2, Htt, Hup.
  assert (hl_done (k_hl s) h2) as Dh by (apply (hl_done_trans 1 _ (bal (k_hl s))); [done | by right | done]).
  destruct (uvm_free_run root r (vm_upd h2 m2 fl2 s) e l2) as (s3 & R3 & K3 & _ & _ & U3 & D3).
  { by apply (hl_done_room 1 (k_hl s)). }
  { by apply (hl_done_free L_kmem (k_hl s)). }
  { exact K2. }
  { apply S2. }
  { apply (sp_dirs _ _ _ _ _ _ _ S2). by apply empty_dirs_ok. }
  { exact Hrr. }
  { unfold space_pages. rewrite <- Et. exact Hrg. }
  { intros va Hva Hge. rewrite <- Et in Hge. by apply (release_upper m1 m2 root l0 l2 top t). }
  change (k_mem (vm_upd h2 m2 fl2 s)) with m2 in K3. unfold space_pages in K3. rewrite <- Et in K3.
  eexists s3, _. split_and!; [|exact K3| | |].
  - kstep R1. rewrite (proj2 (Z.eqb_neq root 0)) by (unfold is_page in Hp; lia). kstep R2. exact R3.
  - apply NoDup_Permutation; [apply K3 | apply Hk |]. intros b. by rewrite (release_all m1 m2 root l0 l2 top t).
  - etransitivity; [exact U3 | apply vm_upd_twice].
  - by apply (hl_done_trans 1 _ h2).
Qed.

(** Three free pages are not enough for a space of one page: the growth fails and the
    pages are all free again. *)
Lemma address_space_conserved_witness :
  exists s' l', address_space_life 4096 PTE_W three_pages [] = Ret tt s' [] /\ kinv (k_mem s') (k_freelist s') l' /\ l' ≡ₚ [page1; page2; page3].
Proof.
  destruct (address_space_conserved 4096 PTE_W three_pages [] [page1; page2; page3]) as (s' & l' & H1 & H2 & H3 & _).
  - apply kernel0_ready.
  - apply kernel0_ready.
  - exact three_pages_kinv.
  - unfold PGSIZE. lia.
  - vm_compute. split; [discriminate | reflexivity].
  - exists s', l'. split; [exact H1|]. split; [exact H2 | exact H3].
Defined.
