(* ===== verification/UvmCopy.v ===== *)
(** * Copying an address space for fork ([vm.cpp]: [uvm_copy])

    The pages of the parent are copied to free pages that are mapped at the same
    addresses in the table of the child. *)

From S2P Require Import Prelude State Riscv Cstring Lock Kalloc Vm Uvm UvmFree.

(** Memories that agree on the tables of an address space have the same translations. *)
Section same_tables.
Context (m m' : memory) (root : Z).
Hypothesis Hsame : forall b x, is_table m root b -> in_page b x -> m' x = m x.

Lemma same_entry r b k : vpath 2 r -> idx k -> page_at m root r = Some b -> load64 m' (b + 8 * k) = load64 m (b + 8 * k).
Proof. intros Hr Hk Hb. apply load64_ext. intros x Hx. apply (Hsame b); [by exists r | by apply (entry_in_page _ k)]. Qed.

Lemma same_page_at q : vpath 2 q -> page_at m' root q = page_at m root q.
Proof. apply page_at_leaf. intros r b k Hr. apply same_entry. by apply (vpath_weaken 1); [lia|]. Qed.

Lemma same_loc va : pte_loc m' root va = pte_loc m root va.
Proof. unfold pte_loc. by rewrite same_page_at by apply vpath_va. Qed.

Lemma same_val va : pte_val m' root va = pte_val m root va.
Proof.
  unfold pte_val. rewrite same_loc. unfold pte_loc. destruct (page_at m root _) as [b|] eqn:Hb; cbn; [|done].
  apply (same_entry [PX 2 va; PX 1 va]); [apply vpath_va | by apply px_idx | done].
Qed.
End same_tables.

Section copy.
Context (m : memory) (ro rn : Z) (l : list Z) (sz : Z).
(** The parent's space and the child's are well formed and share no page. *)
Hypothesis Hold : user_wf m ro l.
Hypothesis Hnew : user_wf m rn l.
Hypothesis Hpages : Forall is_page l.
Hypothesis Hdisj : forall b, owns m ro b -> ~ is_table m rn b.
Hypothesis Hsz : 0 <= sz <= 2 ^ 38.
(** The parent has a table entry for each page, the child maps none of them. *)
Hypothesis Hloc : forall va, 0 <= va < sz -> is_Some (pte_loc m ro va).
Hypothesis Hinv : forall va, 0 <= va -> va / PGSIZE * PGSIZE < sz -> ~ valid (pte_val m rn va).

(** The bytes of a page. *)
Definition same_bytes (m1 m2 : memory) (p q : Z) : Prop := forall k, 0 <= k < PGSIZE -> m2 (q + k) = m1 (p + k).

(** The pages below [a] are copied. *)
Definition copied (a : Z) (m' : memory) (l' : list Z) : Prop :=
  space_step m rn l 0 a m' l' /\
  (forall b x, owns m ro b -> in_page b x -> m' x = m x) /\
  forall va, 0 <= va < a ->
    if decide (valid (pte_val m ro va)) then
      exists p, p ∈ l /\ is_page p /\ pte_val m' rn va = leaf p (PTE_FLAGS (pte_val m ro va)) /\ same_bytes m m' (PTE2PA (pte_val m ro va)) p
    else ~ valid (pte_val m' rn va).

Lemma owns_page b : owns m ro b -> is_page b /\ b ∉ l.
Proof.
  intros [(q & Hq & Hb)|(va & Hva & Hv & <-)]; [by apply (proj1 (uw_pt _ _ _ Hold) q)|].
  by destruct (uw_page _ _ _ Hold va Hva Hv) as (? & ? & _).
Qed.

Lemma table_page b : is_table m rn b \/ b ∈ l -> is_page b.
Proof.
  intros [(q & Hq & Hb)|Hb]; [by apply (proj1 (uw_pt _ _ _ Hnew) q)|]. rewrite Forall_forall in Hpages. apply Hpages. by apply list_elem_of_In.
Qed.

Lemma keep_old a m' l' : space_step m rn l 0 a m' l' -> forall b x, owns m ro b -> in_page b x -> m' x = m x.
Proof.
  intros Hs b x Hb Hx. apply (sp_frame _ _ _ _ _ _ _ Hs). intros c Hc Hcx. destruct (owns_page b Hb) as [Hp Hnl].
  rewrite (page_disjoint b c x Hp (table_page c Hc) Hx Hcx) in Hb, Hnl. destruct Hc as [Hc|]; [|done]. by apply (Hdisj c).
Qed.

Lemma copied_nil : copied 0 m l.
Proof. split; [by apply space_step_refl|]. split; [done|]. lia. Qed.

(** A page the parent does not have. *)
Lemma copied_hole a m' l' : copied a m' l' -> 0 <= a < sz -> a mod PGSIZE = 0 -> ~ valid (pte_val m ro a) -> copied (a + PGSIZE) m' l'.
Proof.
  intros (Hs & Ho & Hc) Ha Hal Hv. split; [|split; [done|]].
  - destruct Hs as [W O F T A D X]. split; try done. intros va Hva Hn. apply O; [done|]. unfold PGSIZE in *. lia.
  - intros va Hva. destruct (Z.lt_ge_cases va a) as [Hlt|Hge]; [apply Hc; lia|].
    rewrite (pte_val_same_page m ro a va) by (unfold PGSIZE in *; zmod). rewrite decide_False by done.
    rewrite (sp_out _ _ _ _ _ _ _ Hs) by (unfold va_ok, PGSIZE in *; lia). apply Hinv; unfold PGSIZE in *; zmod.
Qed.

(** One more page: [p] is taken from the free pages, filled and mapped. *)
Lemma copied_page a m1 p l1 m2 m3 l3 :
  let flags := PTE_FLAGS (pte_val m ro a) in
  copied a m1 (p :: l1) -> Forall is_page (p :: l1) -> p ∉ l1 -> 0 <= a < sz -> a mod PGSIZE = 0 -> valid (pte_val m ro a) ->
  (forall x, ~ in_page p x -> m2 x = m1 x) -> same_bytes m1 m2 (PTE2PA (pte_val m ro a)) p ->
  pt_step m2 rn l1 m3 l3 -> mapped m2 m3 rn a p flags 1 -> copied (a + PGSIZE) m3 l3.
Proof.
  intros flags (Hs & Ho & Hc) Hpl Hnl Ha Hal Hv Hm2 Hb Hst Hmap. pose proof (list.Forall_cons_1 _ _ _ Hpl) as [Hp Hpl1].
  destruct (alloc_one_ok m1 m2 rn p l1 (sp_wf _ _ _ _ _ _ _ Hs) Hp Hm2 a flags) with m3 l3 as (S3 & V3 & C3); try done.
  { unfold va_ok. lia. }
  { unfold flags. rewrite pte_flags_eq. apply Z.mod_pos_bound. lia. }
  { rewrite (sp_out _ _ _ _ _ _ _ Hs) by (unfold va_ok in *; lia). apply Hinv; unfold PGSIZE in *; zmod. }
  assert (space_step m rn l 0 (a + PGSIZE) m3 l3) as Hs3 by (apply (space_step_trans _ _ _ _ a _ m1 (p :: l1)); [unfold PGSIZE; lia | done..]).
  split; [done|]. split; [by apply (keep_old (a + PGSIZE) m3 l3)|]. intros va Hva. destruct (Z.lt_ge_cases va a) as [Hlt|Hge].
  - specialize (Hc va ltac:(lia)). assert (va_ok va) as Hvok by (unfold va_ok; lia). pose proof (sp_out _ _ _ _ _ _ _ S3 va Hvok ltac:(lia)) as E3.
    case_decide as Hd; [|by rewrite E3]. destruct Hc as (q & Hq & Hpq & Hval & Hbq). exists q. split; [done|]. split; [done|]. rewrite E3. split; [done|].
    destruct (leaf_pa q (PTE_FLAGS (pte_val m ro va)) Hpq) as [Hqa _]; [rewrite pte_flags_eq; apply Z.mod_pos_bound; lia|].
    destruct (uw_page _ _ _ (sp_wf _ _ _ _ _ _ _ Hs) va Hvok) as (_ & Hqn & Hqt); [rewrite Hval; apply leaf_is_valid|]. rewrite Hval, Hqa in Hqn, Hqt.
    intros k Hk. rewrite <- (Hbq k Hk). apply (space_step_keep m1 rn (p :: l1) a (a + PGSIZE) m3 l3 q); try done; [apply Hs | unfold in_page; lia].
  - rewrite (pte_val_same_page m ro a va) by (unfold PGSIZE in *; zmod). rewrite decide_True by done. exists p.
    split; [apply (sp_free _ _ _ _ _ _ _ Hs); set_solver|]. split; [done|]. split; [apply V3; lia|].
    intros k Hk. rewrite C3 by (unfold in_page; lia). rewrite (Hb k Hk). apply (Ho (PTE2PA (pte_val m ro a))); [|unfold in_page; lia].
    right. exists a. split; [unfold va_ok; lia | done].
Qed.

(** The loop ran out of memory at page [a]: the pages below are copied, no page is free,
    and [uvm_unmap] is called with [a] and the number of pages below it. *)
Definition out_of_memory (a : Z) (m' : memory) (fl' : Z) : Prop :=
  0 <= a < sz /\ a mod PGSIZE = 0 /\ kinv m' fl' [] /\
  exists m1 l1, copied a m1 l1 /\ forall va, va_ok va -> pte_val m' rn va = pte_val m1 rn va.

Definition abandon (a : Z) : M bool := uvm_unmap rn a (a / PGSIZE) true ;; ret false.

(** The body of the loop. *)
Lemma copy_body a s e l1 :
  room 1 (k_hl s) -> free L_kmem (k_hl s) -> kinv (k_mem s) (k_freelist s) l1 ->
  0 <= a < sz -> a mod PGSIZE = 0 -> copied a (k_mem s) l1 ->
  exists h' m' fl' l', hl_done (k_hl s) h' /\
    ((kinv m' fl' l' /\ copied (a + PGSIZE) m' l' /\ (length l1 <= 3 + length l')%nat /\
      forall f, uvm_copy_loop (S f) ro rn a sz s e = uvm_copy_loop f ro rn (a + PGSIZE) sz (vm_upd h' m' fl' s) e) \/
     (out_of_memory a m' fl' /\ (length l1 <= 3)%nat /\ forall f, uvm_copy_loop (S f) ro rn a sz s e = abandon a (vm_upd h' m' fl' s) e)).
Proof.
  intros Hr Hf Hk Ha Hal Hc. pose proof Hc as (Hs & Ho & _). assert (VA_MAX = 2 ^ 38) as HVA by reflexivity.
  assert (forall b x, is_table m ro b -> in_page b x -> k_mem s x = m x) as Hsame by (intros b x Hb; apply Ho; by left).
  destruct (Hloc a Ha) as [loc Hl]. pose proof (same_loc m (k_mem s) ro Hsame a) as El. rewrite Hl in El.
  pose proof (same_val m (k_mem s) ro Hsame a) as Ev. unfold pte_val at 1 in Ev. rewrite El in Ev. set (pte := pte_val m ro a) in *.
  assert (u64 (a + PGSIZE) = a + PGSIZE) as Eu by (apply u64_small; unfold PGSIZE in *; lia).
  pose proof (proj2 (Z.ltb_lt a sz) ltac:(lia)) as Hlt. pose proof (walk_false ro a s e ltac:(lia)) as Rw. rewrite El in Rw.
  assert (forall (k : memory -> M bool), bind (gets k_mem) k s e = k (k_mem s) s e) as Hget by (intros; apply bind_gets).
  destruct (decide (valid pte)) as [Hv|Hv]; cycle 1.
  { exists (k_hl s), (k_mem s), (k_freelist s), l1. split; [apply hl_done_refl|]. left. split; [done|]. split; [by apply copied_hole|]. split; [lia|]. intros f. rewrite vm_upd_id.
    cbn [uvm_copy_loop]. rewrite Hlt. cbn [negb]. kstep Rw. rewrite Hget, Ev, Eu. destruct (Z.eqb_spec (Z.land pte PTE_V) 0); [done | by exfalso; apply Hv]. }
  pose proof (proj2 (Z.eqb_neq _ _) Hv) as Hvb. destruct l1 as [|p l1].
  { exists (bal (k_hl s)), (k_mem s), (k_freelist s), []. split; [by right|]. right. split; [split_and!; try done; [lia.. | by exists (k_mem s), []]|]. split; [cbn; lia|]. intros f.
    cbn [uvm_copy_loop]. rewrite Hlt. cbn [negb]. kstep Rw. rewrite Hget, Ev, Hvb. kstep kalloc_none; done. }
  destruct (kalloc_some p l1 s e Hr Hf Hk) as (fl1 & R1 & K1 & Hp & Hpl). pose proof (kinv_pages _ _ _ K1) as Hpg. set (m1 := memset (k_mem s) p 5 PGSIZE) in *.
  set (pa := PTE2PA pte). set (m2 := memmove m1 p pa PGSIZE). destruct (memmove_io m1 p pa PGSIZE ltac:(unfold PGSIZE; lia)) as [Min Mout].
  assert (forall x, ~ in_page p x -> m2 x = k_mem s x) as Hm2.
  { intros x Hx. unfold m2. rewrite Mout by (unfold in_page in Hx; lia). unfold m1. by apply memset_page_out. }
  assert (owns m ro pa) as Hown by (right; exists a; split; [unfold va_ok; lia | done]). destruct (owns_page pa Hown) as [Hpap Hpan].
  assert (pa <> p) as Hpne. { intros E. apply Hpan. rewrite E. apply (sp_free _ _ _ _ _ _ _ Hs). set_solver. }
  assert (same_bytes (k_mem s) m2 pa p) as Hb.
  { intros k Hk'. unfold m2. rewrite Min by done. unfold m1. apply memset_page_out. intros Hin. apply Hpne. apply (page_disjoint pa p (pa + k)); try done. unfold in_page. lia. }
  assert (user_wf (k_mem s) rn (p :: l1)) as W by apply Hs. pose proof (alloc_one_wf2 (k_mem s) m2 rn p l1 W Hp Hm2) as W2.
  assert (kinv m2 fl1 l1) as K2 by (apply (kinv_write_page m1 _ _ _ p); try done; intros x Hx; unfold m2; apply Mout; unfold in_page in Hx; lia).
  destruct (map_pages_run_len rn a p PGSIZE (PTE_FLAGS pte) (vm_upd (bal (k_hl s)) m2 fl1 s) e l1)
    as (ok & k & h3 & m3 & fl3 & l3 & R3 & D3 & K3 & S3 & Hk0 & M3 & Hok & HN); try done; try (unfold is_page, PGSIZE in *; lia).
  { by apply room_bal. }
  { apply W2. }
  { rewrite pte_flags_eq. pose proof (Z.mod_pos_bound pte 1024). lia. }
  { intros va Hva. cbn [k_mem vm_upd set_k_mem set_k_hl]. assert (va_ok va) as Hvok by (unfold va_ok, PGSIZE in *; lia). rewrite (alloc_one_val (k_mem s) m2 rn p l1 W Hp Hm2).
    rewrite (sp_out _ _ _ _ _ _ _ Hs) by (done || lia). destruct (decide (Z.land (pte_val m rn va) PTE_V = 0)); [done|]. by destruct (Hinv va ltac:(lia) ltac:(unfold PGSIZE in *; zmod)). }
  cbn [k_mem vm_upd set_k_mem set_k_hl] in S3, M3. change (PGSIZE / PGSIZE) with 1 in HN, Hok. assert (hl_done (k_hl s) h3) as Dh by (apply (hl_done_trans 1 _ (bal (k_hl s))); [done | by right | done]).
  exists h3, m3, fl3, l3. split; [done|].
  assert (forall f, uvm_copy_loop (S f) ro rn a sz s e = (if negb ok then abandon a else uvm_copy_loop f ro rn (u64 (a + PGSIZE)) sz) (vm_upd h3 m3 fl3 s) e) as Rf.
  { intros f. cbn [uvm_copy_loop]. rewrite Hlt. cbn [negb]. kstep Rw. rewrite Hget, Ev, Hvb. kstep R1. kstep on_mem_run. fold pa m2. kstep R3. by destruct ok. }
  destruct ok.
  - left. split; [done|]. rewrite Eu in Rf. split; [|split; [cbn [length]; lia | exact Rf]]. rewrite Hok in M3. apply (copied_page a (k_mem s) p l1 m2 m3 l3); try done. by constructor.
  - right. destruct Hok as [Hk1 ->]. split; [|split; [cbn [length] in *; lia | exact Rf]]. assert (k = 0) as -> by lia. split_and!; try done; [lia..|].
    exists (k_mem s), (p :: l1). split; [done|]. intros va Hva. rewrite (M3 va Hva), (alloc_one_val (k_mem s) m2 rn p l1 W Hp Hm2). unfold PGSIZE. zcases; cbn; try done; lia.
Qed.

Lemma copy_loop_run fuel : forall a s e l1,
  room 1 (k_hl s) -> free L_kmem (k_hl s) -> kinv (k_mem s) (k_freelist s) l1 ->
  0 <= a -> a mod PGSIZE = 0 -> a < sz + PGSIZE -> copied a (k_mem s) l1 -> sz <= a + (Z.of_nat fuel - 1) * PGSIZE -> (0 < fuel)%nat ->
  (exists h' m' fl' l' t, uvm_copy_loop fuel ro rn a sz s e = Ret true (vm_upd h' m' fl' s) e /\ hl_done (k_hl s) h' /\ kinv m' fl' l' /\ sz <= t < sz + PGSIZE /\ copied t m' l' /\
     Z.of_nat (length l1) * PGSIZE <= 3 * (t - a) + Z.of_nat (length l') * PGSIZE) \/
  (exists h' m' fl' b, uvm_copy_loop fuel ro rn a sz s e = abandon b (vm_upd h' m' fl' s) e /\ hl_done (k_hl s) h' /\ out_of_memory b m' fl' /\
     Z.of_nat (length l1) * PGSIZE <= 3 * (b - a) + 3 * PGSIZE).
Proof.
  induction fuel as [|fuel IH]; intros a s e l1 Hr Hf Hk Ha Hal Hat Hc Hfu Hpos; [lia|]. destruct (Z.lt_ge_cases a sz) as [Hlt|Hge]; cycle 1.
  { left. exists (k_hl s), (k_mem s), (k_freelist s), l1, a. cbn [uvm_copy_loop]. rewrite (proj2 (Z.ltb_ge a sz)) by lia. rewrite vm_upd_id. split; [done|]. split; [apply hl_done_refl|]. split_and!; (done || lia). }
  destruct (copy_body a s e l1 Hr Hf Hk ltac:(lia) Hal Hc) as (h1 & m1 & fl1 & l2 & D1 & [(K1 & C1 & N1 & R1)|(O1 & N1 & R1)]); cycle 1.
  { right. exists h1, m1, fl1, a. rewrite R1. split_and!; try done. unfold PGSIZE. lia. }
  destruct (IH (a + PGSIZE) (vm_upd h1 m1 fl1 s) e l2) as [(h' & m' & fl' & l' & t & R' & D' & K' & T' & C' & N')|(h' & m' & fl' & b & R' & D' & H' & N')]; try done; try (unfold PGSIZE in *; zmod).
  { by apply (hl_done_room 1 (k_hl s)). }
  { by apply (hl_done_free L_kmem (k_hl s)). }
  { left. exists h', m', fl', l', t. rewrite R1. split; [exact R'|]. split; [by apply (hl_done_trans 1 _ h1)|]. split_and!; try done; unfold PGSIZE in *; lia. }
  { right. exists h', m', fl', b. rewrite R1. split; [exact R'|]. split; [by apply (hl_done_trans 1 _ h1)|]. split; [done|]. unfold PGSIZE in *. lia. }
Qed.
End copy.

(** The whole function; [3 * sz + 3 * PGSIZE] bytes of free pages are enough. *)
Lemma uvm_copy_run ro rn sz s e l :
  room 1 (k_hl s) -> free L_kmem (k_hl s) -> kinv (k_mem s) (k_freelist s) l ->
  user_wf (k_mem s) ro l -> user_wf (k_mem s) rn l -> (forall b, owns (k_mem s) ro b -> ~ is_table (k_mem s) rn b) -> 0 <= sz <= 2 ^ 38 ->
  (forall va, 0 <= va < sz -> is_Some (pte_loc (k_mem s) ro va)) -> (forall va, 0 <= va -> va / PGSIZE * PGSIZE < sz -> ~ valid (pte_val (k_mem s) rn va)) ->
  (exists h' m' fl' l' t, uvm_copy ro rn sz s e = Ret true (vm_upd h' m' fl' s) e /\ hl_done (k_hl s) h' /\ kinv m' fl' l' /\ sz <= t < sz + PGSIZE /\ copied (k_mem s) ro rn l t m' l') \/
  (exists h' m' fl' a, uvm_copy ro rn sz s e = abandon rn a (vm_upd h' m' fl' s) e /\ hl_done (k_hl s) h' /\
    out_of_memory (k_mem s) ro rn l sz a m' fl' /\ Z.of_nat (length l) * PGSIZE < 3 * sz + 3 * PGSIZE).
Proof.
  intros Hr Hf Hk Ho Hn Hd Hsz Hl Hi. pose proof (kinv_pages _ _ _ Hk) as Hpg.
  destruct (copy_loop_run (k_mem s) ro rn l sz Ho Hn Hpg Hd Hsz Hl Hi (S (Z.to_nat (sz / PGSIZE + 1))) 0 s e l) as [(h' & m' & fl' & l' & t & R & D & K & Ht & C & _)|(h' & m' & fl' & a & R & D & O & N)]; try done.
  - unfold PGSIZE. lia.
  - by apply copied_nil.
  - unfold PGSIZE. zmod.
  - lia.
  - left. by exists h', m', fl', l', t.
  - right. exists h', m', fl', a. split_and!; try done. destruct O as (Ha & _). lia.
Qed.

(** C24: uvm_copy gives the child, at every page of the parent below the size, a page of
    its own taken from the free list, with the same bytes and permissions, leaves holes
    unmapped, and changes neither the parent nor any other translation; when memory runs
    out at page a it calls uvm_unmap for a / PGSIZE pages starting at a itself, not for
    the pages it has copied. *)
Theorem uvm_copy_correct ro rn sz s e l :
  room 1 (k_hl s) -> free L_kmem (k_hl s) -> kinv (k_mem s) (k_freelist s) l ->
  user_wf (k_mem s) ro l -> user_wf (k_mem s) rn l -> (forall b, owns (k_mem s) ro b -> ~ is_table (k_mem s) rn b) -> 0 <= sz <= 2 ^ 38 ->
  (forall va, 0 <= va < sz -> is_Some (pte_loc (k_mem s) ro va)) -> (forall va, 0 <= va -> va / PGSIZE * PGSIZE < sz -> ~ valid (pte_val (k_mem s) rn va)) ->
  (exists s' l' t, uvm_copy ro rn sz s e = Ret true s' e /\ hl_done (k_hl s) (k_hl s') /\ kinv (k_mem s') (k_freelist s') l' /\ sz <= t < sz + PGSIZE /\ copied (k_mem s) ro rn l t (k_mem s') l') \/
  (exists s' a, uvm_copy ro rn sz s e = (uvm_unmap rn a (a / PGSIZE) true ;; ret false) s' e /\ hl_done (k_hl s) (k_hl s') /\
    out_of_memory (k_mem s) ro rn l sz a (k_mem s') (k_freelist s') /\ Z.of_nat (length l) * PGSIZE < 3 * sz + 3 * PGSIZE).
Proof.
  intros Hr Hf Hk Ho Hn Hd Hsz Hl Hi.
  destruct (uvm_copy_run ro rn sz s e l Hr Hf Hk Ho Hn Hd Hsz Hl Hi) as [(h' & m' & fl' & l' & t & H)|(h' & m' & fl' & a & H)].
  - left. by exists (vm_upd h' m' fl' s), l', t.
  - right. by exists (vm_upd h' m' fl' s), a.
Qed.

(** ** A parent with one page, a child without any *)

Definition page4 : Z := 2147561472.
Definition page5 : Z := 2147565568.
Definition page6 : Z := 2147569664.
Definition root1 : Z := 2147540992.
Definition six_list : list Z := [page1; page2; page3; page4; page5; page6].

Definition six_pages : kernel :=
  set_k_freelist page1
    (set_k_mem (store64 (store64 (store64 (store64 (store64 (store64 (fun _ => 0) page1 page2) page2 page3) page3 page4) page4 page5) page5 page6) page6 0) kernel0).

Lemma six_pages_kinv : kinv (k_mem six_pages) (k_freelist six_pages) six_list.
Proof.
  split; [|vm_compute; repeat constructor; set_solver].
  vm_compute. repeat split; try discriminate; reflexivity.
Qed.

(** The pages of the two root tables are zero and not free. *)
Lemma root_zero r x : r = root0 \/ r = root1 -> in_page r x -> k_mem six_pages x = 0.
Proof.
  unfold in_page, root0, root1, PGSIZE. intros Hr Hx. cbn -[store64]. unfold store64.
  rewrite !store_bytes_out; [done|..]; rewrite length_le_bytes; unfold page1, page2, page3, page4, page5, page6; lia.
Qed.

Lemma root_page r : r = root0 \/ r = root1 -> is_page r /\ r ∉ six_list.
Proof. intros [-> | ->]; (split; [unfold is_page, root0, root1, PGSIZE; split; [done | lia]|]); vm_compute; set_solver. Qed.

Lemma parent_space :
  exists s l, room 1 (k_hl s) /\ free L_kmem (k_hl s) /\ kinv (k_mem s) (k_freelist s) l /\ grown (k_mem six_pages) root0 six_list 0 4096 PTE_W (k_mem s) l.
Proof.
  assert (0 <= PTE_W < 1024) as Hw by (vm_compute; split; [discriminate | reflexivity]).
  destruct (uvm_alloc_run root0 0 4096 PTE_W six_pages [] six_list) as (r & h & m & fl & l & R & D & K & G).
  - apply kernel0_ready.
  - apply kernel0_ready.
  - exact six_pages_kinv.
  - apply empty_user_wf; [apply root_page; by left.. | intros x; apply root_zero; by left].
  - lia.
  - unfold PGSIZE. lia.
  - exact Hw.
  - intros va _. rewrite empty_pte_val; [by intros [] | intros x; apply root_zero; by left].
  - assert (match uvm_alloc root0 0 4096 PTE_W six_pages [] with Ret r _ _ => r | _ => 0 end = 4096) as Hr by (vm_compute; reflexivity).
    rewrite R in Hr. subst r. destruct G as [[_ G]|[G _]]; [|discriminate G]. exists (vm_upd h m fl six_pages), l.
    split; [apply (hl_done_room 1 (k_hl six_pages)); [exact D | apply kernel0_ready]|].
    split; [apply (hl_done_free L_kmem (k_hl six_pages)); [exact D | apply kernel0_ready]|]. split; [exact K | exact G].
Qed.

Lemma parent_child m l : grown (k_mem six_pages) root0 six_list 0 4096 PTE_W m l ->
  (forall x, in_page root1 x -> m x = 0) /\ (forall b, owns m root0 b -> b <> root1) /\ (root1 ∉ l).
Proof.
  intros [Hs Hg]. assert (forall b, is_table (k_mem six_pages) root0 b -> b = root0) as Ht by (intros b; apply empty_tables; intros x; apply root_zero; by left).
  destruct (root_page root1 ltac:(by right)) as [Hp1 Hn1]. destruct (root_page root0 ltac:(by left)) as [Hp0 _]. split_and!.
  - intros x Hx. rewrite (sp_frame _ _ _ _ _ _ _ Hs); [apply (root_zero root1); [by right | done]|]. intros b Hb Hbx.
    assert (is_page b) as Hb' by (destruct Hb as [->%Ht|Hb]; [done|]; pose proof (kinv_pages _ _ _ six_pages_kinv) as Hl; rewrite Forall_forall in Hl; apply Hl; by apply list_elem_of_In).
    pose proof (page_disjoint root1 b x Hp1 Hb' Hx Hbx) as <-. destruct Hb as [Hb%Ht|]; [discriminate Hb | done].
  - intros b Hb ->. destruct Hb as [[Hb%Ht|]%(sp_tab _ _ _ _ _ _ _ Hs)|(va & Hva & Hv & E)]; [discriminate Hb | done|].
    destruct (decide (0 <= va < 4096)) as [Hr|Hr].
    + destruct (Hg va Hr) as (p & Hpl & Hp & Ev & _). rewrite Ev in E. destruct (leaf_pa p (uflag PTE_W) Hp) as [Ep _]; [apply uflag_range; vm_compute; split; [discriminate | reflexivity]|]. rewrite Ep in E. by subst p.
    + rewrite (sp_out _ _ _ _ _ _ _ Hs va Hva Hr) in Hv. rewrite empty_pte_val in Hv; [by destruct Hv | intros x; apply root_zero; by left].
  - intros Hl%(sp_free _ _ _ _ _ _ _ Hs). done.
Qed.

Lemma uvm_copy_correct_witness : exists s l, valid (pte_val (k_mem s) root0 0) /\
  ((exists s' l' t, uvm_copy root0 root1 4096 s [] = Ret true s' [] /\ hl_done (k_hl s) (k_hl s') /\ kinv (k_mem s') (k_freelist s') l' /\ 4096 <= t < 4096 + PGSIZE /\ copied (k_mem s) root0 root1 l t (k_mem s') l') \/
   (exists s' a, uvm_copy root0 root1 4096 s [] = (uvm_unmap root1 a (a / PGSIZE) true ;; ret false) s' [] /\ hl_done (k_hl s) (k_hl s') /\
     out_of_memory (k_mem s) root0 root1 l 4096 a (k_mem s') (k_freelist s') /\ Z.of_nat (length l) * PGSIZE < 3 * 4096 + 3 * PGSIZE)).
Proof.
  destruct parent_space as (s & l & Hr & Hf & Hk & Hg). destruct (parent_child _ _ Hg) as (Hz & Ho & Hn). exists s, l.
  assert (forall va, 0 <= va < 4096 -> valid (pte_val (k_mem s) root0 va)) as Hv by (intros va Hva; destruct (proj2 Hg va Hva) as (p & _ & _ & E & _); rewrite E; apply leaf_is_valid).
  split; [apply Hv; lia|]. apply (uvm_copy_correct root0 root1 4096 s [] l).
  - exact Hr.
  - exact Hf.
  - exact Hk.
  - apply Hg.
  - apply empty_user_wf; [by apply root_page; right | exact Hn | exact Hz].
  - intros b Hb Ht. apply (Ho b Hb). exact (empty_tables _ _ _ Hz Ht).
  - lia.
  - intros va Hva. by apply valid_loc, Hv.
  - intros va _ _. rewrite (empty_pte_val _ _ _ Hz). by intros [].
Defined.
