(* ===== verification/UserCopy.v ===== *)
(** * Copying between kernel and user space ([vm.cpp], [proc.cpp])

    [copyout], [copyin] and [copyinstr] translate page by page; a kernel buffer
    is the list of its bytes.  [either_copyout] and [either_copyin] pick the
    address space.  The theorems are about [uread], the user's view of memory. *)

From S2P Require Import Prelude State Riscv Cstring Lock Sched Kalloc Vm Uvm.

(** ** The functions *)

(** The bytes a [memmove] of [n] bytes reads from the kernel buffer [src];
    its count is an [uint32_t].  [None]: past the end of the buffer. *)
Definition chunk (src : list Z) (n : Z) : option (list Z) :=
  if bool_decide (Z.to_nat (u32 n) <= length src)%nat then Some (take (Z.to_nat (u32 n)) src) else None.

(** [n = PGSIZE - (va - va0); if (n > len) n = len]. *)
Definition chunk_len (va va0 len : Z) : Z :=
  let n := u64 (PGSIZE - u64 (va - va0)) in if len <? n then len else n.

Fixpoint copyout_loop (fuel : nat) (pagetable dstva : Z) (src : list Z) (len : Z) : M bool :=
  match fuel with
  | O => fun _ _ => NoFuel
  | S f =>
      if negb (0 <? len) then ret true
      else
        let va0 := PG_ROUND_DOWN dstva in
        if VA_MAX <? va0 then ret false
        else
          opt <- walk pagetable va0 false ;;
          match opt with
          | None => ret false
          | Some pte =>
              m <- gets k_mem ;;
              if (Z.land (load64 m pte) PTE_V =? 0) || (Z.land (load64 m pte) PTE_U =? 0)
                 || (Z.land (load64 m pte) PTE_W =? 0) then ret false
              else
                let pa0 := PTE2PA (load64 m pte) in
                let n := chunk_len dstva va0 len in
                bytes <- of_option "copyout: source buffer" (chunk src n) ;;
                on_mem (fun m => store_bytes m (u64 (pa0 + u64 (dstva - va0))) bytes) ;;
                copyout_loop f pagetable (u64 (va0 + PGSIZE)) (drop (Z.to_nat n) src) (len - n)
          end
  end.

(** Every iteration but the first and the last copies a page. *)
Definition copyout (pagetable dstva : Z) (src : list Z) (len : Z) : M bool :=
  copyout_loop (Z.to_nat (len / PGSIZE) + 3) pagetable dstva src len.

(** The result carries the bytes written to the kernel buffer [dst]. *)
Fixpoint copyin_loop (fuel : nat) (pagetable srcva len : Z) (dst : list Z) : M (bool * list Z) :=
  match fuel with
  | O => fun _ _ => NoFuel
  | S f =>
      if negb (0 <? len) then ret (true, dst)
      else
        let va0 := PG_ROUND_DOWN srcva in
        pa0 <- walkaddr pagetable va0 ;;
        if pa0 =? 0 then ret (false, dst)
        else
          let n := chunk_len srcva va0 len in
          m <- gets k_mem ;;
          copyin_loop f pagetable (u64 (va0 + PGSIZE)) (len - n)
            (dst ++ load_bytes m (u64 (pa0 + u64 (srcva - va0))) (Z.to_nat (u32 n)))
  end.

Definition copyin (pagetable srcva len : Z) : M (bool * list Z) :=
  copyin_loop (Z.to_nat (len / PGSIZE) + 3) pagetable srcva len [].

(** Inner loop of [copyinstr]: at most [n] bytes from [p] up to a NUL. *)
Fixpoint str_bytes (m : memory) (p : Z) (n : nat) : bool * list Z :=
  match n with
  | O => (false, [])
  | S n' => if m p =? 0 then (true, [0])
            else let '(b, l) := str_bytes m (p + 1) n' in (b, m p :: l)
  end.

Fixpoint copyinstr_loop (fuel : nat) (pagetable srcva len : Z) (dst : list Z) : M (bool * list Z) :=
  match fuel with
  | O => fun _ _ => NoFuel
  | S f =>
      if negb (0 <? len) then ret (false, dst)
      else
        let va0 := PG_ROUND_DOWN srcva in
        pa0 <- walkaddr pagetable va0 ;;
        if pa0 =? 0 then ret (false, dst)
        else
          let n := chunk_len srcva va0 len in
          m <- gets k_mem ;;
          let '(null, bytes) := str_bytes m (u64 (pa0 + u64 (srcva - va0))) (Z.to_nat n) in
          if null : bool then ret (true, dst ++ bytes)
          else copyinstr_loop f pagetable (u64 (va0 + PGSIZE)) (len - n) (dst ++ bytes)
  end.

Definition copyinstr (pagetable srcva len : Z) : M (bool * list Z) :=
  copyinstr_loop (Z.to_nat (len / PGSIZE) + 3) pagetable srcva len [].

(** [p->pagetable] of the running process. *)
Definition my_pagetable : M Z := i <- me ;; p <- get_proc i ;; ret (p_pagetable p).

(** The [bool] of [copyout] is converted to the [int] 0 or 1. *)
Definition either_copyout (user_dst : bool) (dst : Z) (src : list Z) (len : Z) : M Z :=
  if user_dst then
    pt <- my_pagetable ;; b <- copyout pt dst src len ;; ret (if b : bool then 1 else 0)
  else
    curr_proc ;;
    bytes <- of_option "memmove: source buffer" (chunk src len) ;;
    on_mem (fun m => store_bytes m dst bytes) ;;
    ret 0.

Definition either_copyin (user_src : bool) (src len : Z) : M (Z * list Z) :=
  if user_src then
    pt <- my_pagetable ;; r <- copyin pt src len ;; ret (if fst r : bool then 1 else 0, snd r)
  else
    curr_proc ;;
    m <- gets k_mem ;;
    ret (0, load_bytes m src (Z.to_nat (u32 len))).

(** ** The user's view *)

Definition translate (m : memory) (root va : Z) : Z := PTE2PA (pte_val m root va) + va mod PGSIZE.
Definition uread (m : memory) (root va : Z) : Z := m (translate m root va).

(** The user may read, or write, the byte at [va]. *)
Definition readable (m : memory) (root va : Z) : bool :=
  negb (Z.land (pte_val m root va) PTE_V =? 0) && negb (Z.land (pte_val m root va) PTE_U =? 0).
Definition writable (m : memory) (root va : Z) : bool :=
  readable m root va && negb (Z.land (pte_val m root va) PTE_W =? 0).

(** Address spaces below 4 GiB, where [PG_ROUND_DOWN] rounds down. *)
Definition low_range (va len : Z) : Prop := 0 <= va /\ 0 <= len /\ va + len <= 2 ^ 32.

Lemma readable_valid m root va : readable m root va = true -> valid (pte_val m root va).
Proof. unfold readable, valid. intros [H _]%andb_true_iff. by apply negb_true_iff, Z.eqb_neq in H. Qed.

Lemma writable_readable m root va : writable m root va = true -> readable m root va = true.
Proof. unfold writable. by intros [? _]%andb_true_iff. Qed.

(** ** Page arithmetic of one iteration *)

Lemma chunk_low va len :
  low_range va len -> 0 < len ->
  let va0 := PG_ROUND_DOWN va in
  va0 = va - va mod PGSIZE /\ va0 <= VA_MAX /\ u64 (va - va0) = va mod PGSIZE /\
  u64 (va0 + PGSIZE) = va0 + PGSIZE /\
  chunk_len va va0 len = Z.min len (PGSIZE - va mod PGSIZE) /\
  va0 / PGSIZE = va / PGSIZE.
Proof.
  intros (H0 & Hl & Hm) Hpos va0. assert (VA_MAX = 2 ^ 38) as HVA by reflexivity.
  assert (va0 = va - va mod PGSIZE) as E by (apply pg_round_down_low; lia).
  assert (0 <= va mod PGSIZE < PGSIZE) by (apply Z.mod_pos_bound; done).
  unfold chunk_len. rewrite E. unfold PGSIZE in *.
  replace (va - (va - va mod 4096)) with (va mod 4096) by lia.
  rewrite (u64_small (va mod 4096)), (u64_small (4096 - _)), (u64_small (va - _ + _)) by lia.
  split; [done|]. split; [lia|]. split; [done|]. split; [done|]. split; [zcases; lia | zmod].
Qed.

Lemma readable_same_page m root va va' :
  va' / PGSIZE = va / PGSIZE -> readable m root va' = readable m root va.
Proof. intros H. unfold readable. by rewrite (pte_val_same_page m root va va' H). Qed.

Lemma writable_same_page m root va va' :
  va' / PGSIZE = va / PGSIZE -> writable m root va' = writable m root va.
Proof.
  intros H. unfold writable. by rewrite (readable_same_page m root va va' H), (pte_val_same_page m root va va' H).
Qed.

Lemma writable_val m1 m root va :
  (forall va', pte_val m1 root va' = pte_val m root va') -> writable m1 root va = writable m root va.
Proof. intros H. unfold writable, readable. by rewrite H. Qed.

(** Within a page, translation is an offset. *)
Lemma translate_add m root va i :
  0 <= i -> va mod PGSIZE + i < PGSIZE -> translate m root (va + i) = translate m root va + i.
Proof.
  intros Hi Hn. unfold translate.
  rewrite (pte_val_same_page m root va (va + i)) by (unfold PGSIZE in *; zmod).
  unfold PGSIZE in *. replace ((va + i) mod 4096) with (va mod 4096 + i) by zmod. lia.
Qed.

Lemma translate_in_page m root va : in_page (PTE2PA (pte_val m root va)) (translate m root va).
Proof. unfold in_page, translate, PGSIZE. pose proof (Z.mod_pos_bound va 4096). lia. Qed.

Lemma translate_inj m root l va va' :
  user_wf m root l -> va_ok va -> va_ok va' -> valid (pte_val m root va) -> valid (pte_val m root va') ->
  translate m root va = translate m root va' -> va = va'.
Proof.
  intros Hwf H1 H2 V1 V2 He. pose proof (translate_in_page m root va) as P1.
  pose proof (translate_in_page m root va') as P2. rewrite <- He in P2.
  destruct (uw_page _ _ _ Hwf va H1 V1) as (Q1 & _), (uw_page _ _ _ Hwf va' H2 V2) as (Q2 & _).
  pose proof (page_disjoint _ _ _ Q1 Q2 P1 P2) as Hpa.
  pose proof (uw_inj _ _ _ Hwf va va' H1 H2 V1 V2 Hpa) as Hpg.
  unfold translate in He. rewrite Hpa in He. unfold PGSIZE in *. zmod.
Qed.

(** ** [copyout] *)

(** [m'] is [m] with the first [k] bytes of [src] written at user address [va]. *)
Record written (m : memory) (root va : Z) (src : list Z) (k : Z) (m' : memory) : Prop := Written {
  wr_in i : 0 <= i < k -> m' (translate m root (va + i)) = nth (Z.to_nat i) src 0;
  wr_out x : (forall i, 0 <= i < k -> x <> translate m root (va + i)) -> m' x = m x
}.

Lemma written_nil m root va src : written m root va src 0 m.
Proof. split; [intros; lia | done]. Qed.

(** Writing valid user bytes changes neither tables nor the free list. *)
Section written_keeps.
Context (m : memory) (root va : Z) (src : list Z) (k : Z) (l : list Z).
Hypothesis Hwf : user_wf m root l.
Hypothesis Hlow : low_range va k.

(** One chunk, inside the page of [va]. *)
Lemma chunk_written n bytes :
  readable m root va = true -> 0 <= n -> va mod PGSIZE + n <= PGSIZE -> Z.of_nat (length bytes) = n ->
  (forall i, 0 <= i < n -> nth (Z.to_nat i) bytes 0 = nth (Z.to_nat i) src 0) ->
  let m' := store_bytes m (translate m root va) bytes in
  written m root va src n m' /\ user_wf m' root l /\
  (forall va', pte_val m' root va' = pte_val m root va') /\ (forall fl, kinv m fl l -> kinv m' fl l).
Proof.
  intros Hv%readable_valid Hn Hoff Hlen Hby m'. assert (VA_MAX = 2 ^ 38) as HVA by reflexivity.
  assert (va_ok va) as Hok. { destruct Hlow as (? & ? & ?). unfold va_ok, PGSIZE. lia. }
  destruct (uw_page _ _ _ Hwf va Hok Hv) as (Hp & Hnl & Hnt).
  assert (forall x, ~ in_page (PTE2PA (pte_val m root va)) x -> m' x = m x) as Hout.
  { intros x Hx. unfold m'. apply store_bytes_out. unfold in_page, translate, PGSIZE in *.
    pose proof (Z.mod_pos_bound va 4096). lia. }
  split; [split|split; [|split]].
  - intros i Hi. rewrite translate_add by lia. unfold m'. rewrite store_bytes_in by lia.
    rewrite <- Hby by lia. f_equal. lia.
  - intros x Hx. apply store_bytes_out. rewrite Hlen.
    destruct (Z.lt_ge_cases x (translate m root va)); [by left|]. right.
    destruct (Z.lt_ge_cases x (translate m root va + n)); [|done]. exfalso.
    apply (Hx (x - translate m root va)); [lia|]. rewrite translate_add by lia. lia.
  - by apply (user_wf_data m m' root l (PTE2PA (pte_val m root va))).
  - apply (data_write_val m m' root (PTE2PA (pte_val m root va)) l); try done. apply Hwf.
  - intros fl. by apply (kinv_write_page m m' fl l (PTE2PA (pte_val m root va))).
Qed.
End written_keeps.

Lemma written_app m root va src n k m1 m2 l :
  user_wf m root l -> 0 <= va -> 0 <= n -> 0 <= k -> va + n + k <= 2 ^ 32 ->
  (forall i, 0 <= i < n + k -> readable m root (va + i) = true) ->
  (forall va', pte_val m1 root va' = pte_val m root va') ->
  written m root va src n m1 -> written m1 root (va + n) (drop (Z.to_nat n) src) k m2 ->
  written m root va src (n + k) m2.
Proof.
  intros Hwf H0 Hn Hk Hmax Hrd Hval [I1 O1] [I2 O2]. assert (VA_MAX = 2 ^ 38) as HVA by reflexivity.
  assert (forall va', translate m1 root va' = translate m root va') as Htr by (intros; unfold translate; by rewrite Hval).
  split.
  - intros i Hi. destruct (Z.lt_ge_cases i n).
    + rewrite O2; [by apply I1; lia|]. intros j Hj. rewrite Htr. intros He.
      apply (translate_inj m root l) in He; try done; try (unfold va_ok, PGSIZE; lia).
      * apply readable_valid, Hrd. lia.
      * replace (va + n + j) with (va + (n + j)) by lia. apply readable_valid, Hrd. lia.
    + specialize (I2 (i - n)). rewrite Htr in I2. replace (va + n + (i - n)) with (va + i) in I2 by lia.
      rewrite I2 by lia. rewrite !nth_lookup, lookup_drop. do 2 f_equal. lia.
  - intros x Hx. rewrite O2.
    + apply O1. intros i Hi. apply Hx. lia.
    + intros i Hi. rewrite Htr. replace (va + n + i) with (va + (n + i)) by lia. apply Hx. lia.
Qed.

Lemma pa_translate m root va l :
  user_wf m root l -> va_ok va -> valid (pte_val m root va) ->
  u64 (PTE2PA (pte_val m root va) + va mod PGSIZE) = translate m root va.
Proof.
  intros Hwf Hok Hv. destruct (uw_page _ _ _ Hwf va Hok Hv) as ((_ & ? & ?) & _).
  unfold translate. apply u64_small. unfold PGSIZE in *. pose proof (Z.mod_pos_bound va 4096). lia.
Qed.

(** The test at the head of the loop body, on the page of [va]. *)
Lemma copyout_body f root va src len s e :
  low_range va len -> 0 < len ->
  copyout_loop (S f) root va src len s e =
  (if writable (k_mem s) root va then
     bytes <- of_option "copyout: source buffer" (chunk src (Z.min len (PGSIZE - va mod PGSIZE))) ;;
     on_mem (fun m => store_bytes m (u64 (PTE2PA (pte_val (k_mem s) root va) + va mod PGSIZE)) bytes) ;;
     copyout_loop f root (va - va mod PGSIZE + PGSIZE)
       (drop (Z.to_nat (Z.min len (PGSIZE - va mod PGSIZE))) src) (len - Z.min len (PGSIZE - va mod PGSIZE))
   else ret false) s e.
Proof.
  intros Hlow Hlen. destruct (chunk_low va len Hlow Hlen) as (E0 & Hmax & E1 & E2 & E3 & Epg).
  cbn [copyout_loop]. destruct (Z.ltb_spec 0 len); [|lia]. cbn [negb].
  destruct (Z.ltb_spec VA_MAX (PG_ROUND_DOWN va)); [lia|]. kstep walk_false; [done|].
  rewrite E1, E2, E3. rewrite <- E0. unfold writable, readable.
  rewrite <- (pte_val_same_page (k_mem s) root va (PG_ROUND_DOWN va) Epg). unfold pte_val.
  destruct (pte_loc (k_mem s) root (PG_ROUND_DOWN va)) as [loc|]; [|done]. rewrite bind_gets.
  destruct (Z.land (load64 (k_mem s) loc) PTE_V =? 0); [done|].
  destruct (Z.land (load64 (k_mem s) loc) PTE_U =? 0); [done|].
  destruct (Z.land (load64 (k_mem s) loc) PTE_W =? 0); done.
Qed.

Lemma chunk_some src n :
  0 <= n < 2 ^ 32 -> n <= Z.of_nat (length src) -> chunk src n = Some (take (Z.to_nat n) src).
Proof. intros. unfold chunk. rewrite u32_small by lia. rewrite bool_decide_true by lia. done. Qed.

Lemma nth_take_lt {A} (l : list A) i n d : (i < n)%nat -> nth i (take n l) d = nth i l d.
Proof. intros. rewrite !nth_lookup. by rewrite lookup_take_lt by lia. Qed.

Lemma copyout_loop_run fuel : forall root va src len s e l,
  user_wf (k_mem s) root l -> low_range va len -> len <= Z.of_nat (length src) ->
  len + va mod PGSIZE <= (Z.of_nat fuel - 1) * PGSIZE ->
  exists ok k m',
    copyout_loop fuel root va src len s e = Ret ok (set_k_mem m' s) e /\
    0 <= k <= len /\ written (k_mem s) root va src k m' /\ user_wf m' root l /\
    (forall va', pte_val m' root va' = pte_val (k_mem s) root va') /\
    (forall fl, kinv (k_mem s) fl l -> kinv m' fl l) /\
    (forall i, 0 <= i < k -> writable (k_mem s) root (va + i) = true) /\
    if ok then k = len else k < len /\ writable (k_mem s) root (va + k) = false.
Proof.
  induction fuel as [|fuel IH]; intros root va src len s e l Hwf Hlow Hsrc Hfu.
  { destruct Hlow as (? & ? & _). pose proof (Z.mod_pos_bound va PGSIZE ltac:(done)). unfold PGSIZE in *. lia. }
  pose proof (Z.mod_pos_bound va PGSIZE ltac:(done)) as Hoff. destruct Hlow as (H0 & Hl0 & Hmax).
  destruct (decide (len = 0)) as [->|Hne].
  { exists true, 0, (k_mem s). split; [cbn; by destruct s|]. split_and!; try done; try lia. apply written_nil. }
  rewrite copyout_body by (unfold low_range; lia).
  destruct (writable (k_mem s) root va) eqn:Hw; cycle 1.
  { exists false, 0, (k_mem s). split; [cbn; by destruct s|]. rewrite Z.add_0_r.
    split_and!; try done; try lia. apply written_nil. }
  assert (readable (k_mem s) root va = true) as Hrd by (by apply writable_readable).
  remember (Z.min len (PGSIZE - va mod PGSIZE)) as n eqn:En.
  assert (0 < n <= len /\ va mod PGSIZE + n <= PGSIZE) as [Hn Hoffn] by (unfold PGSIZE in *; lia).
  assert (va_ok va) as Hok by (unfold va_ok, PGSIZE; change VA_MAX with (2 ^ 38); lia).
  assert (forall i, 0 <= i < n -> (va + i) / PGSIZE = va / PGSIZE) as Hpg by (intros; unfold PGSIZE in *; zmod).
  rewrite chunk_some by (unfold PGSIZE in *; lia). rewrite (pa_translate _ _ _ l) by (try done; by apply readable_valid).
  destruct (chunk_written (k_mem s) root va src len l Hwf ltac:(done) n (take (Z.to_nat n) src))
    as (W1 & Wf1 & V1 & K1); try done; try lia.
  { rewrite length_take. lia. }
  { intros i Hi. apply nth_take_lt. lia. }
  set (m1 := store_bytes _ _ _) in *.
  assert (forall f : list Z -> M bool, (bytes <- of_option "copyout: source buffer" (Some (take (Z.to_nat n) src)) ;;
            on_mem (fun m => store_bytes m (translate (k_mem s) root va) bytes) ;; f bytes) s e
          = f (take (Z.to_nat n) src) (set_k_mem m1 s) e) as Hbody by done.
  setoid_rewrite Hbody. clear Hbody.
  destruct (decide (n = len)) as [->|Hnl].
  { exists true, len, m1. rewrite Z.sub_diag. split; [destruct fuel; [unfold PGSIZE in *; lia | done]|].
    split_and!; try done; try lia. intros i Hi. rewrite (writable_same_page _ _ va); [done | by apply Hpg]. }
  destruct (IH root (va + n) (drop (Z.to_nat n) src) (len - n) (set_k_mem m1 s) e l)
    as (ok & k & m' & R & Hk & W2 & Wf2 & V2 & K2 & Wr & Hok'); try done.
  { unfold low_range. lia. }
  { rewrite length_drop. lia. }
  { unfold PGSIZE in *. zmod. }
  cbn [k_mem set_k_mem] in *. exists ok, (n + k), m'. split; [|split_and!].
  - etransitivity; [|exact R]. f_equal. unfold PGSIZE in *. lia.
  - lia.
  - lia.
  - apply (written_app (k_mem s) root va src n k m1 m' l); try done; try lia.
    intros i Hi. apply writable_readable. destruct (Z.lt_ge_cases i n).
    + rewrite (writable_same_page _ _ va); [done | apply Hpg; lia].
    + replace (va + i) with (va + n + (i - n)) by lia. rewrite <- (writable_val m1) by done. apply Wr. lia.
  - done.
  - intros va'. by rewrite V2.
  - auto.
  - intros i Hi. destruct (Z.lt_ge_cases i n).
    + rewrite (writable_same_page _ _ va); [done | apply Hpg; lia].
    + replace (va + i) with (va + n + (i - n)) by lia. rewrite <- (writable_val m1) by done. apply Wr. lia.
  - destruct ok; [lia|]. split; [lia|]. rewrite <- (writable_val m1) by done.
    replace (va + (n + k)) with (va + n + k) by lia. apply Hok'.
Qed.

Lemma fuel_enough va len : 0 <= len ->
  len + va mod PGSIZE <= (Z.of_nat (Z.to_nat (len / PGSIZE) + 3) - 1) * PGSIZE.
Proof. intros. unfold PGSIZE. zmod. Qed.

(** ** [copyin] *)

Lemma walkaddr_low root va s e :
  va <= VA_MAX ->
  walkaddr root va s e = Ret (if readable (k_mem s) root va then PTE2PA (pte_val (k_mem s) root va) else 0) s e.
Proof.
  intros H. rewrite walkaddr_run. destruct (Z.ltb_spec VA_MAX va); [lia|]. unfold readable.
  cbn zeta. repeat case_match; done.
Qed.

(** The [k] bytes the user sees at [va]. *)
Definition ubytes (m : memory) (root va k : Z) : list Z :=
  map (fun i => uread m root (va + Z.of_nat i)) (seq 0 (Z.to_nat k)).

Lemma ubytes_app m root va n k :
  0 <= n -> 0 <= k -> ubytes m root va (n + k) = ubytes m root va n ++ ubytes m root (va + n) k.
Proof.
  intros. unfold ubytes. rewrite Z2Nat.inj_add, seq_app, map_app by lia. f_equal. cbn [Nat.add].
  rewrite map_seq_shift. apply map_ext. intros i. f_equal. lia.
Qed.

Lemma ubytes_one m root va : ubytes m root va 1 = [uread m root va].
Proof. unfold ubytes. change (Z.to_nat 1) with 1%nat. cbn [seq map]. by rewrite Z.add_0_r. Qed.

Lemma ubytes_chunk m root va n :
  0 <= n -> va mod PGSIZE + n <= PGSIZE -> load_bytes m (translate m root va) (Z.to_nat n) = ubytes m root va n.
Proof.
  intros Hn Ho. unfold load_bytes, ubytes, uread. apply map_ext_in. intros i [_ Hi]%in_seq.
  rewrite translate_add by lia. done.
Qed.

Lemma copyin_body f root va len dst s e l :
  user_wf (k_mem s) root l -> low_range va len -> 0 < len ->
  copyin_loop (S f) root va len dst s e =
  (if readable (k_mem s) root va then
     let n := Z.min len (PGSIZE - va mod PGSIZE) in
     copyin_loop f root (va - va mod PGSIZE + PGSIZE) (len - n) (dst ++ ubytes (k_mem s) root va n)
   else ret (false, dst)) s e.
Proof.
  intros Hwf Hlow Hlen. destruct (chunk_low va len Hlow Hlen) as (E0 & Hmax & E1 & E2 & E3 & Epg).
  cbn [copyin_loop]. destruct (Z.ltb_spec 0 len); [|lia]. cbn [negb]. kstep walkaddr_low; [done|].
  rewrite (readable_same_page _ _ va _ Epg), (pte_val_same_page _ _ va _ Epg).
  destruct (readable (k_mem s) root va) eqn:Hr; [|done].
  assert (va_ok va) as Hok. { destruct Hlow as (? & ? & ?). unfold va_ok, PGSIZE. change VA_MAX with (2 ^ 38). lia. }
  destruct (uw_page _ _ _ Hwf va Hok (readable_valid _ _ _ Hr)) as ((_ & Hpos & _) & _).
  destruct (Z.eqb_spec (PTE2PA (pte_val (k_mem s) root va)) 0); [lia|]. rewrite bind_gets.
  rewrite E1, E2, E3, (pa_translate _ _ _ l) by (try done; by apply readable_valid). rewrite <- E0. cbn zeta.
  pose proof (Z.mod_pos_bound va PGSIZE ltac:(done)) as Hoff.
  rewrite u32_small by (unfold PGSIZE in *; lia). rewrite ubytes_chunk by (unfold PGSIZE in *; lia). done.
Qed.

Lemma copyin_loop_run fuel : forall root va len dst s e l,
  user_wf (k_mem s) root l -> low_range va len ->
  len + va mod PGSIZE <= (Z.of_nat fuel - 1) * PGSIZE ->
  exists ok k,
    copyin_loop fuel root va len dst s e = Ret (ok, dst ++ ubytes (k_mem s) root va k) s e /\ 0 <= k <= len /\
    (forall i, 0 <= i < k -> readable (k_mem s) root (va + i) = true) /\
    if ok then k = len else k < len /\ readable (k_mem s) root (va + k) = false.
Proof.
  induction fuel as [|fuel IH]; intros root va len dst s e l Hwf Hlow Hfu.
  { destruct Hlow as (? & ? & _). pose proof (Z.mod_pos_bound va PGSIZE ltac:(done)). unfold PGSIZE in *. lia. }
  pose proof (Z.mod_pos_bound va PGSIZE ltac:(done)) as Hoff. destruct Hlow as (H0 & Hl0 & Hmax).
  destruct (decide (len = 0)) as [->|Hne].
  { exists true, 0. split; [cbn; by rewrite app_nil_r|]. split_and!; try done; lia. }
  rewrite (copyin_body _ _ _ _ _ _ _ l) by (try done; unfold low_range; lia).
  destruct (readable (k_mem s) root va) eqn:Hr; cycle 1.
  { exists false, 0. split; [cbn; by rewrite app_nil_r|]. rewrite Z.add_0_r. split_and!; try done; lia. }
  cbn zeta. remember (Z.min len (PGSIZE - va mod PGSIZE)) as n eqn:En.
  assert (0 < n <= len /\ va mod PGSIZE + n <= PGSIZE) as [Hn Hoffn] by (unfold PGSIZE in *; lia).
  assert (forall i, 0 <= i < n -> readable (k_mem s) root (va + i) = true) as Hrn.
  { intros i Hi. rewrite (readable_same_page _ _ va); [done|]. unfold PGSIZE in *. zmod. }
  destruct (decide (n = len)) as [->|Hnl].
  { exists true, len. rewrite Z.sub_diag. split; [destruct fuel; [unfold PGSIZE in *; lia | done]|].
    split_and!; try done; lia. }
  destruct (IH root (va + n) (len - n) (dst ++ ubytes (k_mem s) root va n) s e l) as (ok & k & R & Hk & Hrd & Hok);
    [done | unfold low_range; lia | unfold PGSIZE in *; zmod |].
  exists ok, (n + k). rewrite ubytes_app, app_assoc by lia. split; [|split; [lia|split]].
  - etransitivity; [|exact R]. f_equal. unfold PGSIZE in *. lia.
  - intros i Hi. destruct (Z.lt_ge_cases i n); [apply Hrn; lia|].
    replace (va + i) with (va + n + (i - n)) by lia. apply Hrd. lia.
  - destruct ok; [lia|]. split; [lia|]. replace (va + (n + k)) with (va + n + k) by lia. apply Hok.
Qed.

(** Both copies, when every byte is accessible. *)
Lemma copyin_run root va len s e l :
  user_wf (k_mem s) root l -> low_range va len ->
  (forall i, 0 <= i < len -> readable (k_mem s) root (va + i) = true) ->
  copyin root va len s e = Ret (true, ubytes (k_mem s) root va len) s e.
Proof.
  intros Hwf Hlow Hrd. pose proof Hlow as (? & ? & ?).
  destruct (copyin_loop_run (Z.to_nat (len / PGSIZE) + 3) root va len [] s e l) as (ok & k & R & Hk & _ & Hok);
    try done; [by apply fuel_enough|].
  unfold copyin. rewrite R. destruct ok; [by subst k|]. destruct Hok as [Hlt Hw]. rewrite Hrd in Hw; [done | lia].
Qed.

Lemma copyout_run root va src len s e l :
  user_wf (k_mem s) root l -> low_range va len -> len <= Z.of_nat (length src) ->
  (forall i, 0 <= i < len -> writable (k_mem s) root (va + i) = true) ->
  exists m', copyout root va src len s e = Ret true (set_k_mem m' s) e /\
    written (k_mem s) root va src len m' /\ user_wf m' root l /\
    (forall va', pte_val m' root va' = pte_val (k_mem s) root va').
Proof.
  intros Hwf Hlow Hsrc Hwr. pose proof Hlow as (? & ? & ?).
  destruct (copyout_loop_run (Z.to_nat (len / PGSIZE) + 3) root va src len s e l)
    as (ok & k & m' & R & Hk & W & Wf & V & _ & _ & Hok); try done; [by apply fuel_enough|].
  exists m'. destruct ok; [by subst k|]. destruct Hok as [Hlt Hw]. rewrite Hwr in Hw; [done | lia].
Qed.

(** ** [copyinstr] *)

Lemma str_bytes_spec m p n :
  exists (b : bool) k, str_bytes m p n = (b, load_bytes m p k ++ (if b then [0] else [])) /\
    (forall i, (i < k)%nat -> m (p + Z.of_nat i) <> 0) /\
    if b then (k < n)%nat /\ m (p + Z.of_nat k) = 0 else k = n.
Proof.
  revert p; induction n as [|n IH]; intros p; cbn [str_bytes].
  { exists false, O. split; [done|]. split; [lia | done]. }
  destruct (Z.eqb_spec (m p) 0) as [Hz|Hnz].
  { exists true, O. split; [done|]. split; [lia|]. rewrite Z.add_0_r. split; [lia | done]. }
  destruct (IH (p + 1)) as (b & k & -> & Hnz' & Hb). exists b, (S k). split; [|split].
  - unfold load_bytes. cbn [seq map]. rewrite (map_seq_shift _ 1). rewrite Z.add_0_r.
    rewrite <- app_comm_cons. do 3 f_equal. apply map_ext. intros i. f_equal. lia.
  - intros [|i] Hi; [by rewrite Z.add_0_r|]. replace (p + Z.of_nat (S i)) with (p + 1 + Z.of_nat i) by lia. apply Hnz'. lia.
  - destruct b; [|lia]. replace (p + Z.of_nat (S k)) with (p + 1 + Z.of_nat k) by lia. split; [lia | apply Hb].
Qed.

(** The same on a chunk of user memory. *)
Lemma ustr_spec m root va n :
  0 <= n -> va mod PGSIZE + n <= PGSIZE ->
  exists (b : bool) k,
    str_bytes m (translate m root va) (Z.to_nat n) = (b, ubytes m root va k ++ (if b then [0] else [])) /\ 0 <= k /\
    (forall i, 0 <= i < k -> uread m root (va + i) <> 0) /\
    if b then k < n /\ uread m root (va + k) = 0 else k = n.
Proof.
  intros Hn Ho. destruct (str_bytes_spec m (translate m root va) (Z.to_nat n)) as (b & k & -> & Hnz & Hb).
  assert (Z.of_nat k <= n) as Hk by (destruct b; lia).
  exists b, (Z.of_nat k). rewrite <- ubytes_chunk by lia. rewrite Nat2Z.id. split; [done|]. split; [lia|]. split.
  - intros i Hi. unfold uread. rewrite translate_add by lia. specialize (Hnz (Z.to_nat i)).
    rewrite Z2Nat.id in Hnz by lia. apply Hnz. lia.
  - destruct b; [|lia]. unfold uread. rewrite translate_add by lia. split; [lia | apply Hb].
Qed.

Lemma copyinstr_body f root va len dst s e l :
  user_wf (k_mem s) root l -> low_range va len -> 0 < len ->
  copyinstr_loop (S f) root va len dst s e =
  (if readable (k_mem s) root va then
     let n := Z.min len (PGSIZE - va mod PGSIZE) in
     let '(null, bytes) := str_bytes (k_mem s) (translate (k_mem s) root va) (Z.to_nat n) in
     if null : bool then ret (true, dst ++ bytes)
     else copyinstr_loop f root (va - va mod PGSIZE + PGSIZE) (len - n) (dst ++ bytes)
   else ret (false, dst)) s e.
Proof.
  intros Hwf Hlow Hlen. destruct (chunk_low va len Hlow Hlen) as (E0 & Hmax & E1 & E2 & E3 & Epg).
  cbn [copyinstr_loop]. destruct (Z.ltb_spec 0 len); [|lia]. cbn [negb]. kstep walkaddr_low; [done|].
  rewrite (readable_same_page _ _ va _ Epg), (pte_val_same_page _ _ va _ Epg).
  destruct (readable (k_mem s) root va) eqn:Hr; [|done].
  assert (va_ok va) as Hok. { destruct Hlow as (? & ? & ?). unfold va_ok, PGSIZE. change VA_MAX with (2 ^ 38). lia. }
  destruct (uw_page _ _ _ Hwf va Hok (readable_valid _ _ _ Hr)) as ((_ & Hpos & _) & _).
  destruct (Z.eqb_spec (PTE2PA (pte_val (k_mem s) root va)) 0); [lia|]. rewrite bind_gets.
  rewrite E1, E2, E3, (pa_translate _ _ _ l) by (try done; by apply readable_valid). rewrite <- E0. cbn zeta.
  by destruct (str_bytes _ _ _) as [[] ?].
Qed.

Definition nonzero (m : memory) (root va k : Z) : Prop :=
  forall i, 0 <= i < k -> readable m root (va + i) = true /\ uread m root (va + i) <> 0.

Lemma copyinstr_loop_run fuel : forall root va len dst s e l,
  user_wf (k_mem s) root l -> low_range va len ->
  len + va mod PGSIZE <= (Z.of_nat fuel - 1) * PGSIZE ->
  exists (ok : bool) k,
    copyinstr_loop fuel root va len dst s e =
      Ret (ok, dst ++ ubytes (k_mem s) root va k ++ (if ok then [0] else [])) s e /\
    0 <= k <= len /\ nonzero (k_mem s) root va k /\
    if ok then k < len /\ readable (k_mem s) root (va + k) = true /\ uread (k_mem s) root (va + k) = 0
    else k = len \/ readable (k_mem s) root (va + k) = false.
Proof.
  induction fuel as [|fuel IH]; intros root va len dst s e l Hwf Hlow Hfu.
  { destruct Hlow as (? & ? & _). pose proof (Z.mod_pos_bound va PGSIZE ltac:(done)). unfold PGSIZE in *. lia. }
  pose proof (Z.mod_pos_bound va PGSIZE ltac:(done)) as Hoff. destruct Hlow as (H0 & Hl0 & Hmax).
  destruct (decide (len = 0)) as [->|Hne].
  { exists false, 0. split; [cbn; by rewrite app_nil_r|]. split; [lia|]. split; [intros i; lia | by left]. }
  rewrite (copyinstr_body _ _ _ _ _ _ _ l) by (try done; unfold low_range; lia).
  destruct (readable (k_mem s) root va) eqn:Hr; cycle 1.
  { exists false, 0. split; [cbn; by rewrite app_nil_r|]. rewrite Z.add_0_r. split; [lia|]. split; [intros i; lia | by right]. }
  cbn zeta. remember (Z.min len (PGSIZE - va mod PGSIZE)) as n eqn:En.
  assert (0 < n <= len /\ va mod PGSIZE + n <= PGSIZE) as [Hn Hoffn] by (unfold PGSIZE in *; lia).
  assert (forall i, 0 <= i < n -> readable (k_mem s) root (va + i) = true) as Hrn.
  { intros i Hi. rewrite (readable_same_page _ _ va); [done|]. unfold PGSIZE in *. zmod. }
  destruct (ustr_spec (k_mem s) root va n) as (b & k & -> & Hk & Hnz & Hb); [lia | done |].
  assert (k <= n) as Hkn by (destruct b; lia).
  assert (nonzero (k_mem s) root va k) as Hnzk by (intros i Hi; split; [apply Hrn; lia | by apply Hnz]).
  destruct b.
  { exists true, k. split; [done|]. split; [lia|]. split; [done|]. split; [lia|]. split; [apply Hrn; lia | apply Hb]. }
  subst k. rewrite app_nil_r. destruct (decide (n = len)) as [->|Hnl].
  { exists false, len. rewrite Z.sub_diag, app_nil_r. split; [destruct fuel; [unfold PGSIZE in *; lia | done]|].
    split; [lia|]. split; [done | by left]. }
  destruct (IH root (va + n) (len - n) (dst ++ ubytes (k_mem s) root va n) s e l) as (ok & k & R & Hk' & Hnz' & Hok);
    [done | unfold low_range; lia | unfold PGSIZE in *; zmod |].
  exists ok, (n + k). rewrite ubytes_app by lia. split; [|split; [lia|split]].
  - rewrite <- !app_assoc in *. etransitivity; [|exact R]. f_equal. unfold PGSIZE in *. lia.
  - intros i Hi. destruct (Z.lt_ge_cases i n); [apply Hnzk; lia|].
    replace (va + i) with (va + n + (i - n)) by lia. apply Hnz'. lia.
  - replace (va + (n + k)) with (va + n + k) by lia. destruct ok; [|destruct Hok; [left; lia | by right]].
    split; [lia | apply Hok].
Qed.

(** ** Properties *)

(** C8: For user addresses below 4 GiB copyout writes the longest prefix of the bytes
    whose pages are mapped, user and writable, to the translated addresses and nowhere
    else, returns true exactly when that is all of them, and keeps page table and free
    list intact. *)
Theorem copyout_correct root va src len s e l :
  user_wf (k_mem s) root l -> low_range va len -> len <= Z.of_nat (length src) ->
  exists ok k m',
    copyout root va src len s e = Ret ok (set_k_mem m' s) e /\
    0 <= k <= len /\ written (k_mem s) root va src k m' /\ user_wf m' root l /\
    (forall fl, kinv (k_mem s) fl l -> kinv m' fl l) /\
    (forall i, 0 <= i < k -> writable (k_mem s) root (va + i) = true) /\
    if ok then k = len else k < len /\ writable (k_mem s) root (va + k) = false.
Proof.
  intros Hwf Hlow Hsrc. pose proof Hlow as (? & ? & ?).
  destruct (copyout_loop_run (Z.to_nat (len / PGSIZE) + 3) root va src len s e l)
    as (ok & k & m' & R & Hk & W & Wf & _ & K & H'); try done; [by apply fuel_enough|].
  by exists ok, k, m'.
Qed.

Lemma leaf_low_bit p f k : is_page p -> 0 <= k < 10 -> (Z.land (leaf p f) (2 ^ k) =? 0) = negb (Z.testbit (Z.lor f 1) k).
Proof.
  intros (_ & ? & ?) Hk. rewrite land_pow2_eq0 by lia. f_equal. unfold leaf. rewrite <- Z.lor_assoc, Z.lor_spec.
  unfold PGSIZE in *. rewrite pa2pte_eq by lia. by rewrite (Z.mul_pow2_bits_low _ 10) by lia.
Qed.

(** A process with one writable page, for the witnesses. *)
Lemma one_page_writable :
  exists s l, user_wf (k_mem s) root0 l /\ kinv (k_mem s) (k_freelist s) l /\ writable (k_mem s) root0 0 = true.
Proof.
  destruct one_page_space as (s & l & _ & _ & Hk & Hwf & _ & _ & (p & Hp & E) & _).
  exists s, l. split; [done|]. split; [done|]. unfold writable, readable. rewrite E.
  pose proof (leaf_low_bit p (uflag PTE_W) 0 Hp ltac:(lia)) as B0. change (2 ^ 0) with PTE_V in B0.
  pose proof (leaf_low_bit p (uflag PTE_W) 4 Hp ltac:(lia)) as B4. change (2 ^ 4) with PTE_U in B4.
  pose proof (leaf_low_bit p (uflag PTE_W) 2 Hp ltac:(lia)) as B2. change (2 ^ 2) with PTE_W in B2.
  rewrite B0, B4, B2. reflexivity.
Qed.

Lemma copyout_correct_witness :
  exists s m', copyout root0 0 [7; 8] 2 s [] = Ret true (set_k_mem m' s) [] /\ written (k_mem s) root0 0 [7; 8] 2 m'.
Proof.
  destruct one_page_writable as (s & l & Hwf & _ & Hw).
  destruct (copyout_correct root0 0 [7; 8] 2 s [] l Hwf) as (ok & k & m' & R & Hk & W & _ & _ & _ & Hok).
  - unfold low_range. lia.
  - simpl. lia.
  - exists s, m'. destruct ok; [subst k; split; [exact R | exact W]|]. exfalso. destruct Hok as [_ Hok].
    rewrite (writable_same_page (k_mem s) root0 0 (0 + k)) in Hok.
    + rewrite Hw in Hok. discriminate Hok.
    + unfold PGSIZE. rewrite !Z.div_small by lia. reflexivity.
Defined.

Lemma written_ubytes m root va src len m' :
  (forall va', pte_val m' root va' = pte_val m root va') -> 0 <= len <= Z.of_nat (length src) ->
  written m root va src len m' -> ubytes m' root va len = take (Z.to_nat len) src.
Proof.
  intros Hval Hlen [Hin _]. apply (nth_ext _ _ 0 0).
  - unfold ubytes. rewrite length_map, length_seq, length_take. lia.
  - unfold ubytes. rewrite length_map, length_seq. intros i Hi.
    rewrite nth_take_lt by done. rewrite nth_indep with (d' := uread m' root (va + Z.of_nat 0)) by (rewrite length_map, length_seq; lia).
    rewrite (map_nth (fun i => uread m' root (va + Z.of_nat i))), seq_nth by lia. unfold uread.
    assert (translate m' root (va + Z.of_nat (0 + i)) = translate m root (va + Z.of_nat i)) as -> by (unfold translate; by rewrite Hval).
    rewrite Hin by lia. by rewrite Nat2Z.id.
Qed.

(** What a successful copyout wrote, copyin reads back from the same user address.
    *)
Theorem copy_roundtrip root va src len s s' e l :
  user_wf (k_mem s) root l -> low_range va len -> len <= Z.of_nat (length src) ->
  copyout root va src len s e = Ret true s' e ->
  copyin root va len s' e = Ret (true, take (Z.to_nat len) src) s' e.
Proof.
  intros Hwf Hlow Hsrc Hrun. pose proof Hlow as (? & ? & ?).
  destruct (copyout_loop_run (Z.to_nat (len / PGSIZE) + 3) root va src len s e l)
    as (ok & k & m' & R & Hk & W & Wf & V & K & Wr & Hok); try done; [by apply fuel_enough|].
  unfold copyout in Hrun. rewrite Hrun in R. injection R as <- ->. subst k.
  destruct (copyin_loop_run (Z.to_nat (len / PGSIZE) + 3) root va len [] (set_k_mem m' s) e l)
    as (ok & k & R & Hk' & Hrd & Hok); try done; [by apply fuel_enough|].
  unfold copyin. rewrite R. cbn [app k_mem set_k_mem] in *. destruct ok.
  - subst k. by rewrite (written_ubytes (k_mem s) root va src len m') by done.
  - exfalso. destruct Hok as [Hlt Hrk]. specialize (Wr k ltac:(lia)). apply writable_readable in Wr.
    unfold readable in *. rewrite V in Hrk. congruence.
Qed.

Lemma copy_roundtrip_witness :
  exists s s', copyout root0 0 [7; 8] 2 s [] = Ret true s' [] /\ copyin root0 0 2 s' [] = Ret (true, [7; 8]) s' [].
Proof.
  destruct one_page_writable as (s & l & Hwf & _ & Hw).
  assert (low_range 0 2) as Hl by (unfold low_range; lia).
  assert (2 <= Z.of_nat (length [7; 8])) as Hs by (simpl; lia).
  destruct (copyout_loop_run 3 root0 0 [7; 8] 2 s [] l Hwf Hl Hs) as (ok & k & m' & R & Hk & _ & _ & _ & _ & _ & Hok).
  { vm_compute. discriminate. }
  destruct ok.
  - exists s, (set_k_mem m' s). split; [exact R|].
    exact (copy_roundtrip root0 0 [7; 8] 2 s (set_k_mem m' s) [] l Hwf Hl Hs R).
  - exfalso. destruct Hok as [_ Hok]. rewrite (writable_same_page (k_mem s) root0 0 (0 + k)) in Hok.
    + rewrite Hw in Hok. discriminate Hok.
    + unfold PGSIZE. rewrite !Z.div_small by lia. reflexivity.
Defined.

(** [copyinstr] returns the user's string with its NUL when one is readable within
    the given length, and otherwise fails after the bytes up to the first unreadable one
    or the limit. *)
Theorem copyinstr_correct root va len s e l :
  user_wf (k_mem s) root l -> low_range va len ->
  exists (ok : bool) k,
    copyinstr root va len s e = Ret (ok, ubytes (k_mem s) root va k ++ (if ok then [0] else [])) s e /\
    0 <= k <= len /\ nonzero (k_mem s) root va k /\
    if ok then k < len /\ readable (k_mem s) root (va + k) = true /\ uread (k_mem s) root (va + k) = 0
    else k = len \/ readable (k_mem s) root (va + k) = false.
Proof.
  intros Hwf Hlow. pose proof Hlow as (? & ? & ?).
  destruct (copyinstr_loop_run (Z.to_nat (len / PGSIZE) + 3) root va len [] s e l) as (ok & k & R & H');
    try done; [by apply fuel_enough|]. by exists ok, k.
Qed.

Lemma copyinstr_correct_witness :
  exists s (ok : bool) k, copyinstr root0 0 128 s [] = Ret (ok, ubytes (k_mem s) root0 0 k ++ (if ok then [0] else [])) s [] /\
    nonzero (k_mem s) root0 0 k.
Proof.
  destruct one_page_writable as (s & l & Hwf & _ & Hw).
  destruct (copyinstr_correct root0 0 128 s [] l Hwf) as (ok & k & R & _ & Hn & _).
  - unfold low_range. lia.
  - exists s, ok, k. auto.
Defined.

(** C38: For a user address above 4 GiB whose low 32 bits are a writable address,
    copyout reports success and writes the bytes to physical memory far beyond the
    user's page. *)
Theorem copyout_high_escapes root va src len s e :
  2 ^ 32 <= va < 2 ^ 63 -> 0 < len < 2 ^ 31 -> len <= Z.of_nat (length src) ->
  let low := va mod 2 ^ 32 in
  writable (k_mem s) root low = true -> is_page (PTE2PA (pte_val (k_mem s) root low)) ->
  copyout root va src len s e =
  Ret true (set_k_mem (store_bytes (k_mem s) (translate (k_mem s) root low + (va - low)) (take (Z.to_nat len) src)) s) e.
Proof.
  intros Hva Hlen Hsrc low Hw (_ & Hp1 & Hp2). assert (VA_MAX = 2 ^ 38) as HVA by reflexivity.
  assert (PG_ROUND_DOWN va = low - low mod PGSIZE) as E0.
  { rewrite pg_round_down_eq by lia. unfold low, PGSIZE. f_equal. symmetry. exact (u32_mod_pow2 va 12 ltac:(lia)). }
  assert (0 <= low < 2 ^ 32) as Hl by (apply Z.mod_pos_bound; lia).
  assert (va - low = va / 2 ^ 32 * 2 ^ 32) as Hq by (unfold low; zmod).
  pose proof (Z.mod_pos_bound low PGSIZE ltac:(done)) as Hoff.
  assert ((low - low mod PGSIZE) / PGSIZE = low / PGSIZE) as Hpg by (unfold PGSIZE in *; zmod).
  unfold copyout. rewrite Nat.add_comm. cbn [Nat.add copyout_loop].
  destruct (Z.ltb_spec 0 len); [|lia]. cbn [negb].
  rewrite E0. destruct (Z.ltb_spec VA_MAX (low - low mod PGSIZE)); [lia|]. kstep walk_false; [lia|].
  rewrite <- (writable_same_page _ _ low _ Hpg) in Hw.
  assert (chunk_len va (low - low mod PGSIZE) len = len) as ->.
  { unfold chunk_len. rewrite (u64_small (va - _)) by (unfold PGSIZE in *; lia).
    assert (u64 (PGSIZE - (va - (low - low mod PGSIZE))) = PGSIZE - (va - (low - low mod PGSIZE)) + 2 ^ 64) as ->.
    { unfold u64. symmetry. apply (Z.mod_unique_pos _ _ (-1)); unfold PGSIZE in *; lia. }
    zcases; unfold PGSIZE in *; lia. }
  rewrite chunk_some by lia. unfold translate. rewrite <- (pte_val_same_page _ _ low _ Hpg) in *.
  unfold writable, readable, pte_val in *. destruct (pte_loc (k_mem s) root (low - low mod PGSIZE)) as [loc|]; [|done].
  rewrite bind_gets. destruct (Z.land (load64 (k_mem s) loc) PTE_V =? 0); [done|].
  destruct (Z.land (load64 (k_mem s) loc) PTE_U =? 0); [done|].
  destruct (Z.land (load64 (k_mem s) loc) PTE_W =? 0); [done|]. cbn [orb].
  rewrite Z.sub_diag. unfold on_mem. rewrite (u64_small (va - _)), u64_small by (unfold PGSIZE in *; lia).
  replace (PTE2PA (load64 (k_mem s) loc) + (va - (low - low mod PGSIZE)))
    with (PTE2PA (load64 (k_mem s) loc) + low mod PGSIZE + (va - low)) by lia.
  destruct (Z.to_nat _); done.
Qed.

Lemma copyout_high_escapes_witness :
  exists s m', copyout root0 (2 ^ 32) [7] 1 s [] = Ret true (set_k_mem m' s) [].
Proof.
  destruct one_page_writable as (s & l & Hwf & _ & Hw).
  eexists s, _. apply (copyout_high_escapes root0 (2 ^ 32) [7] 1 s []).
  - lia.
  - lia.
  - simpl. lia.
  - exact Hw.
  - apply (uw_page _ _ _ Hwf 0); [unfold va_ok; vm_compute; split; [discriminate | reflexivity]|].
    apply readable_valid, writable_readable, Hw.
Defined.

Lemma my_pagetable_run s e i p :
  room 0 (k_hl s) -> me_of s = Some i -> k_procs s !! i = Some p -> my_pagetable s e = Ret (p_pagetable p) s e.
Proof. intros Hr Hi Hp. unfold my_pagetable. kstep (me_run s e 0 i Hr Hi). kstep get_proc_run; done. Qed.

(** either_copyout returns 1 when a copy to user memory succeeds, 0 when it fails,
    and 0 for a copy to kernel memory: never -1. *)
Theorem either_copyout_codes dst src len s e l i p :
  room 0 (k_hl s) -> me_of s = Some i -> k_procs s !! i = Some p ->
  user_wf (k_mem s) (p_pagetable p) l -> low_range dst len -> len < 2 ^ 32 -> len <= Z.of_nat (length src) ->
  (exists m', either_copyout true dst src len s e =
     Ret (if forallb (fun j => writable (k_mem s) (p_pagetable p) (dst + Z.of_nat j)) (seq 0 (Z.to_nat len))
          then 1 else 0) (set_k_mem m' s) e) /\
  either_copyout false dst src len s e =
    Ret 0 (set_k_mem (store_bytes (k_mem s) dst (take (Z.to_nat len) src)) s) e.
Proof.
  intros Hr Hi Hp Hwf Hlow Hlen Hsrc. pose proof Hlow as (? & ? & ?). split.
  - destruct (copyout_loop_run (Z.to_nat (len / PGSIZE) + 3) (p_pagetable p) dst src len s e l)
      as (ok & k & m' & R & Hk & _ & _ & _ & _ & Wr & Hok); try done; [by apply fuel_enough|].
    exists m'. unfold either_copyout. kstep (my_pagetable_run s e i p Hr Hi Hp). unfold copyout. kstep R.
    unfold ret. f_equal. destruct ok.
    + subst k. rewrite (proj2 (forallb_forall _ _)); [done|]. intros j Hj%in_seq. apply Wr. lia.
    + destruct (forallb _ _) eqn:E; [|done]. rewrite forallb_forall in E. destruct Hok as [Hlt Hw].
      specialize (E (Z.to_nat k)). rewrite Z2Nat.id in E by lia. rewrite E in Hw; [done|]. apply in_seq. lia.
  - unfold either_copyout. kstep (curr_proc_run s e 0 Hr). rewrite chunk_some by lia. done.
Qed.

(** Process 0 runs with an empty address space, for the witnesses. *)
Definition user_state : kernel :=
  set_k_hl hl_run (set_k_procs (<[0%nat := set_p_pagetable root0 proc0]> (k_procs kernel0)) three_pages).

Lemma user_state_wf : user_wf (k_mem user_state) root0 [page1; page2; page3].
Proof. apply empty_user_wf; [apply root0_page | apply root0_page | apply root0_zero]. Qed.

Lemma user_state_empty va : writable (k_mem user_state) root0 va = false.
Proof.
  unfold writable, readable. change (k_mem user_state) with (k_mem three_pages).
  by rewrite (empty_pte_val _ _ _ root0_zero).
Qed.

Lemma either_copyout_codes_witness :
  exists m', either_copyout true 4096 [7] 1 user_state [] = Ret 0 (set_k_mem m' user_state) [].
Proof.
  destruct (either_copyout_codes 4096 [7] 1 user_state [] [page1; page2; page3] 0%nat (set_p_pagetable root0 proc0))
    as [[m' H] _].
  - apply hl_run_ready. lia.
  - reflexivity.
  - reflexivity.
  - exact user_state_wf.
  - unfold low_range. lia.
  - lia.
  - simpl. lia.
  - exists m'. rewrite H. change (Z.to_nat 1) with 1%nat. cbn [seq forallb].
    change (p_pagetable (set_p_pagetable root0 proc0)) with root0. rewrite user_state_empty. reflexivity.
Defined.
