(* ===== verification/Pipe.v ===== *)
(** * Pipes ([pipe.cpp])

    A pipe is a 512-byte ring with two 32-bit counters; [pipe_q] is the byte
    queue it stands for.  Readers and writers sleep on the counters' addresses
    with the pipe's lock.  [pipealloc] belongs to the file table. *)

From S2P Require Import Prelude State Ring Riscv Cstring Lock Sched Kalloc Vm Uvm UserCopy.

(** ** The functions *)

Definition get_pipe (pi : Z) : M pipe := l <- gets k_pipes ;; of_option "pipe" (l !! pi).
Definition upd_pipe (pi : Z) (f : pipe -> pipe) : M unit :=
  p <- get_pipe pi ;; modify (fun s => set_k_pipes (<[pi := f p]> (k_pipes s)) s).

(** [vm::kfree(pi)] ends the life of the pipe object. *)
Definition pipeclose (pi : Z) (writable : bool) : M unit :=
  acquire (L_pipe pi) ;;
  (if writable then upd_pipe pi (set_writeopen false) ;; wakeup (CPipeR pi)
   else upd_pipe pi (set_readopen false) ;; wakeup (CPipeW pi)) ;;
  p <- get_pipe pi ;;
  if negb (readopen p) && negb (writeopen p) then
    release (L_pipe pi) ;;
    modify (fun s => set_k_pipes (delete pi (k_pipes s)) s) ;;
    kfree pi
  else release (L_pipe pi).

(** [pi->data[pi->nwrite++ % PIPESIZE] = ch]. *)
Definition pipe_put (ch : Z) (p : pipe) : pipe :=
  set_nwrite (u32 (nwrite p + 1)) (set_pi_data (<[Z.to_nat (nwrite p mod PIPESIZE) := ch]> (pi_data p)) p).

(** [ch = pi->data[pi->nread++ % PIPESIZE]]. *)
Definition pipe_get (p : pipe) : Z * pipe :=
  (nth (Z.to_nat (nread p mod PIPESIZE)) (pi_data p) 0, set_nread (u32 (nread p + 1)) p).

(** The [while] loop of [pipewrite]; [None]: it has returned -1. *)
Fixpoint pipewrite_loop (fuel : nat) (pi : Z) (pr : nat) (addr n i : Z) : M (option Z) :=
  match fuel with
  | O => fun _ _ => NoFuel
  | S f =>
      if negb (i <? n) then ret (Some i)
      else
        p <- get_pipe pi ;;
        stop <- (if negb (readopen p) then ret true else get_killed pr) ;;
        if stop : bool then release (L_pipe pi) ;; ret None
        else
          p <- get_pipe pi ;;
          if nwrite p =? u32 (nread p + PIPESIZE) then
            wakeup (CPipeR pi) ;;
            sleep (CPipeW pi) (L_pipe pi) ;;
            pipewrite_loop f pi pr addr n i
          else
            q <- get_proc pr ;;
            r <- copyin (p_pagetable q) (u64 (addr + i)) 1 ;;
            if negb (fst r) then ret (Some i)
            else
              upd_pipe pi (pipe_put (hd 0 (snd r))) ;;
              pipewrite_loop f pi pr addr n (i + 1)
  end.

(** Each iteration moves a byte, waits, or is the last one. *)
Definition pipewrite (pi addr n : Z) : M Z := fun s e =>
  (pr <- me ;;
   acquire (L_pipe pi) ;;
   r <- pipewrite_loop (S (Z.to_nat n + length e)) pi pr addr n 0 ;;
   match r with
   | None => ret (u32 (-1))
   | Some i => wakeup (CPipeR pi) ;; release (L_pipe pi) ;; ret (u32 i)
   end) s e.

(** The waiting loop of [piperead]; [false]: it has returned -1. *)
Fixpoint piperead_wait (fuel : nat) (pi : Z) (pr : nat) : M bool :=
  match fuel with
  | O => fun _ _ => NoFuel
  | S f =>
      p <- get_pipe pi ;;
      if (nread p =? nwrite p) && writeopen p then
        killed <- get_killed pr ;;
        if killed : bool then release (L_pipe pi) ;; ret false
        else sleep (CPipeR pi) (L_pipe pi) ;; piperead_wait f pi pr
      else ret true
  end.

(** The copying loop, with [left = n - i] iterations to go. *)
Fixpoint piperead_copy (left : nat) (pi : Z) (pr : nat) (addr i : Z) : M Z :=
  match left with
  | O => ret i
  | S left' =>
      p <- get_pipe pi ;;
      if nread p =? nwrite p then ret i
      else
        upd_pipe pi (fun p => snd (pipe_get p)) ;;
        q <- get_proc pr ;;
        ok <- copyout (p_pagetable q) (u64 (addr + i)) [fst (pipe_get p)] 1 ;;
        if negb ok then ret i else piperead_copy left' pi pr addr (i + 1)
  end.

Definition piperead (pi addr n : Z) : M Z := fun s e =>
  (pr <- me ;;
   acquire (L_pipe pi) ;;
   ok <- piperead_wait (S (length e)) pi pr ;;
   if negb ok then ret (u32 (-1))
   else
     i <- piperead_copy (Z.to_nat n) pi pr addr 0 ;;
     wakeup (CPipeW pi) ;;
     release (L_pipe pi) ;;
     ret (u32 i)) s e.

(** ** The queue *)

Definition pipe_q (p : pipe) : list Z := ring PIPESIZE (2 ^ 32) (pi_data p) (nread p) (nwrite p).

Record pipe_ok (p : pipe) : Prop := PipeOk {
  po_data : length (pi_data p) = Z.to_nat PIPESIZE;
  po_r : in32 (nread p);
  po_w : in32 (nwrite p);
  po_len : ring_len (2 ^ 32) (nread p) (nwrite p) <= PIPESIZE
}.

Lemma pipesize_divides : (PIPESIZE | 2 ^ 32).
Proof. by exists (2 ^ 23). Qed.

Lemma length_pipe_q p : Z.of_nat (length (pipe_q p)) = ring_len (2 ^ 32) (nread p) (nwrite p).
Proof.
  unfold pipe_q. rewrite length_ring. pose proof (Z.mod_pos_bound (nwrite p - nread p) (2 ^ 32)).
  unfold ring_len. lia.
Qed.

Lemma pipe_put_ok p ch :
  pipe_ok p -> Z.of_nat (length (pipe_q p)) < PIPESIZE ->
  pipe_ok (pipe_put ch p) /\ pipe_q (pipe_put ch p) = pipe_q p ++ [ch].
Proof.
  intros [Hd Hr Hw Hl] Hlt. rewrite length_pipe_q in Hlt. unfold PIPESIZE in *. split.
  - split; cbn.
    + by rewrite length_insert.
    + done.
    + apply u32_range.
    + unfold u32, PIPESIZE. rewrite (ring_len_push 512) by lia. lia.
  - apply (ring_push 512 (2 ^ 32)); try done; try lia. exact pipesize_divides.
Qed.

Lemma pipe_get_ok p ch q :
  pipe_ok p -> pipe_q p = ch :: q ->
  fst (pipe_get p) = ch /\ pipe_ok (snd (pipe_get p)) /\ pipe_q (snd (pipe_get p)) = q.
Proof.
  intros [Hd Hr Hw Hl] Hq. unfold PIPESIZE in *.
  assert (0 < ring_len (2 ^ 32) (nread p) (nwrite p)) as Hpos.
  { rewrite <- length_pipe_q, Hq. cbn [length]. lia. }
  pose proof (ring_pop 512 (2 ^ 32) ltac:(lia) pipesize_divides ltac:(lia) (pi_data p) _ _ Hpos) as E.
  change (ring 512 (2 ^ 32) (pi_data p) (nread p) (nwrite p)) with (pipe_q p) in E.
  rewrite Hq in E. injection E as E1 E2. split; [done|]. split; [|done]. split; cbn; try done.
  - apply u32_range.
  - unfold u32, PIPESIZE. rewrite (ring_len_pop 512) by lia. lia.
Qed.

Lemma pipe_full p : pipe_ok p ->
  (nwrite p =? u32 (nread p + PIPESIZE)) = bool_decide (Z.of_nat (length (pipe_q p)) = PIPESIZE).
Proof.
  intros [Hd Hr Hw Hl]. rewrite length_pipe_q. unfold PIPESIZE, in32 in *.
  pose proof (ring_full 512 (2 ^ 32) ltac:(lia) ltac:(lia) _ _ Hr Hw Hl) as H. unfold u32.
  case_bool_decide as E; [apply Z.eqb_eq | apply Z.eqb_neq]; tauto.
Qed.

Lemma pipe_empty p : pipe_ok p -> (nread p =? nwrite p) = bool_decide (pipe_q p = []).
Proof.
  intros [Hd Hr Hw Hl]. pose proof (ring_empty 512 (2 ^ 32) ltac:(lia) ltac:(lia) _ _ Hr Hw) as H.
  rewrite <- length_pipe_q in H. case_bool_decide as E; [apply Z.eqb_eq | apply Z.eqb_neq].
  - apply H. by rewrite E.
  - intros Heq. apply E. apply H in Heq. destruct (pipe_q p); [done | cbn in Heq; lia].
Qed.

(** ** Running the loops *)

Lemma get_pipe_run pi p s e : k_pipes s !! pi = Some p -> get_pipe pi s e = Ret p s e.
Proof. intros H. unfold get_pipe. kred. by rewrite H. Qed.

Lemma upd_pipe_run pi f p s e :
  k_pipes s !! pi = Some p -> upd_pipe pi f s e = Ret tt (set_k_pipes (<[pi := f p]> (k_pipes s)) s) e.
Proof. intros H. unfold upd_pipe. kstep get_pipe_run; [done|]. done. Qed.

(** The state of a process inside its pipe's critical section. *)
Record in_pipe (pi : Z) (i : nat) (pr : process) (p : pipe) (h : hartlocks) (s : kernel) : Prop := InPipe {
  ip_hl : k_hl s = acq (L_pipe pi) h;
  ip_room : room 3 h;
  ip_free : free (L_pipe pi) h;
  ip_procs : procs_free None h;
  ip_me : c_proc (cur h) = Some i;
  ip_i : (i < NPROC)%nat;
  ip_pr : k_procs s !! i = Some pr;
  ip_len : length (k_procs s) = NPROC;
  ip_pipe : k_pipes s !! pi = Some p;
  ip_ok : pipe_ok p
}.

Section in_pipe.
Context (pi : Z) (i : nat) (pr : process) (p : pipe) (h : hartlocks) (s : kernel).
Hypothesis H : in_pipe pi i pr p h s.

Lemma ip_room_acq : room 2 (k_hl s).
Proof. destruct H as [-> Hr _ _ _ _ _ _ _ _]. exact (room_acq 3 _ _ Hr). Qed.

Lemma ip_nested : nested (k_hl s).
Proof. destruct H as [-> Hr _ _ _ _ _ _ _ _]. by apply (nested_acq _ _ 3). Qed.

Lemma ip_lock_free j : (j < NPROC)%nat -> free (L_proc j) (k_hl s).
Proof. destruct H as [-> _ _ Hp _ _ _ _ _ _]. intros Hj. apply free_acq_ne; [done|]. by apply Hp. Qed.

Lemma ip_killed e : get_killed i s e = Ret (p_killed pr) s e.
Proof.
  rewrite (get_killed_run i s e pr).
  - by rewrite ip_nested, set_k_hl_id.
  - apply (room_weaken 2); [apply ip_room_acq | lia].
  - apply ip_lock_free, H.
  - apply H.
Qed.

Lemma ip_me_of : me_of s = Some i.
Proof. unfold me_of. destruct H as [-> Hr _ _ Hm _ _ _ _ _]. by rewrite c_proc_acq by apply Hr. Qed.

Lemma ip_wakeup ch e : wakeup ch s e = Ret tt (set_k_procs (wake_procs (Some i) ch (k_procs s)) s) e.
Proof.
  rewrite wakeup_run.
  - by rewrite ip_me_of.
  - apply (room_weaken 2); [apply ip_room_acq | lia].
  - apply ip_nested.
  - intros j Hj _. by apply ip_lock_free.
  - apply H.
Qed.

Lemma ip_release e : release (L_pipe pi) s e = Ret tt (set_k_hl (bal h) s) e.
Proof.
  apply release_acq_run; [apply H | | apply H]. apply (room_weaken 3); [apply H | lia].
Qed.
End in_pipe.

Lemma in_pipe_set pi i pr p p' h s :
  in_pipe pi i pr p h s -> pipe_ok p' -> in_pipe pi i pr p' h (set_k_pipes (<[pi := p']> (k_pipes s)) s).
Proof. intros [] Hp. split; try done. cbn. by rewrite lookup_insert_eq. Qed.

Lemma in_pipe_mem pi i pr p h s m : in_pipe pi i pr p h s -> in_pipe pi i pr p h (set_k_mem m s).
Proof. intros []. by split. Qed.

Lemma set_k_pipes_id pi p s : k_pipes s !! pi = Some p -> set_k_pipes (<[pi := p]> (k_pipes s)) s = s.
Proof. intros H. rewrite insert_id by done. by destruct s. Qed.

(** One byte, when there is room for it. *)
Lemma pipewrite_step fuel pi i pr p h s e addr n k l :
  in_pipe pi i pr p h s -> readopen p = true -> p_killed pr = false ->
  user_wf (k_mem s) (p_pagetable pr) l -> 0 <= addr + k < 2 ^ 32 -> k < n ->
  Z.of_nat (length (pipe_q p)) < PIPESIZE -> readable (k_mem s) (p_pagetable pr) (addr + k) = true ->
  pipewrite_loop (S fuel) pi i addr n k s e =
  pipewrite_loop fuel pi i addr n (k + 1)
    (set_k_pipes (<[pi := pipe_put (uread (k_mem s) (p_pagetable pr) (addr + k)) p]> (k_pipes s)) s) e.
Proof.
  intros Hin Ho Hnk Hwf Ha Hk Hsp Hrd. cbn [pipewrite_loop]. destruct (Z.ltb_spec k n); [|lia]. cbn [negb].
  kstep get_pipe_run; [apply Hin|]. rewrite Ho. cbn [negb].
  kstep (ip_killed pi i pr p h s Hin). rewrite Hnk.
  kstep get_pipe_run; [apply Hin|]. rewrite (pipe_full p) by apply Hin. rewrite bool_decide_false by lia.
  kstep get_proc_run; [apply Hin|]. rewrite u64_small by lia.
  kstep (copyin_run (p_pagetable pr) (addr + k) 1 s e l); [done | unfold low_range; lia | |].
  { intros j Hj. by replace (addr + k + j) with (addr + k) by lia. }
  cbn [fst snd negb]. kstep upd_pipe_run; [apply Hin|].
  by rewrite ubytes_one.
Qed.

(** Room for all the bytes: the loop does not wait. *)
Lemma pipewrite_loop_run fuel : forall pi i pr p h s e addr n k l,
  in_pipe pi i pr p h s -> readopen p = true -> p_killed pr = false ->
  user_wf (k_mem s) (p_pagetable pr) l -> 0 <= addr -> 0 <= k <= n -> addr + n <= 2 ^ 32 ->
  Z.of_nat (length (pipe_q p)) + (n - k) <= PIPESIZE ->
  (forall j, 0 <= j < n -> readable (k_mem s) (p_pagetable pr) (addr + j) = true) ->
  n - k < Z.of_nat fuel ->
  exists p', pipewrite_loop fuel pi i addr n k s e = Ret (Some n) (set_k_pipes (<[pi := p']> (k_pipes s)) s) e /\
    pipe_ok p' /\ pipe_q p' = pipe_q p ++ ubytes (k_mem s) (p_pagetable pr) (addr + k) (n - k).
Proof.
  induction fuel as [|fuel IH]; intros pi i pr p h s e addr n k l Hin Ho Hnk Hwf Ha Hk Hmax Hsp Hrd Hfu; [lia|].
  destruct (decide (k = n)) as [->|Hne].
  { exists p. rewrite (set_k_pipes_id _ _ _ (ip_pipe _ _ _ _ _ _ Hin)). cbn [pipewrite_loop]. rewrite Z.ltb_irrefl.
    split; [done|]. split; [apply Hin|]. by rewrite Z.sub_diag, app_nil_r. }
  rewrite (pipewrite_step fuel pi i pr p h s e addr n k l); try done; try lia; [|apply Hrd; lia].
  set (ch := uread _ _ _). destruct (pipe_put_ok p ch) as [Hok Hq]; [apply Hin | lia |].
  destruct (IH pi i pr (pipe_put ch p) h (set_k_pipes (<[pi := pipe_put ch p]> (k_pipes s)) s) e addr n (k + 1) l)
    as (p' & R & Hok' & Hq'); try done; try lia.
  { by apply (in_pipe_set pi i pr p). }
  { rewrite Hq, length_app. cbn [length]. lia. }
  exists p'. split; [|split; [done|]].
  - rewrite R. cbn [k_pipes set_k_pipes]. by rewrite insert_insert_eq.
  - rewrite Hq', Hq, <- app_assoc. f_equal. replace (n - k) with (1 + (n - (k + 1))) by lia.
    rewrite ubytes_app, ubytes_one by lia. by rewrite Z.add_assoc.
Qed.

(** ** Reading *)

Lemma piperead_step left pi i pr p ch q h s e addr k l :
  in_pipe pi i pr p h s -> pipe_q p = ch :: q ->
  user_wf (k_mem s) (p_pagetable pr) l -> 0 <= addr + k < 2 ^ 32 ->
  writable (k_mem s) (p_pagetable pr) (addr + k) = true ->
  exists m1 p1,
    piperead_copy (S left) pi i addr k s e =
    piperead_copy left pi i addr (k + 1) (set_k_mem m1 (set_k_pipes (<[pi := p1]> (k_pipes s)) s)) e /\
    pipe_ok p1 /\ pipe_q p1 = q /\ written (k_mem s) (p_pagetable pr) (addr + k) (ch :: q) 1 m1 /\
    user_wf m1 (p_pagetable pr) l /\ (forall va, pte_val m1 (p_pagetable pr) va = pte_val (k_mem s) (p_pagetable pr) va).
Proof.
  intros Hin Hq Hwf Ha Hw. destruct (pipe_get_ok p ch q) as (Hch & Hok & Hq'); [apply Hin | done |].
  set (s1 := set_k_pipes (<[pi := snd (pipe_get p)]> (k_pipes s)) s).
  destruct (copyout_run (p_pagetable pr) (addr + k) [ch] 1 s1 e l) as (m1 & R & W & Wf & V);
    [done | unfold low_range; lia | cbn; lia | intros j Hj; by replace (addr + k + j) with (addr + k) by lia |].
  exists m1, (snd (pipe_get p)). split; [|split_and!; try done].
  - cbn [piperead_copy]. kstep get_pipe_run; [apply Hin|]. rewrite (pipe_empty p) by apply Hin.
    rewrite bool_decide_false by (by rewrite Hq). kstep upd_pipe_run; [apply Hin|].
    kstep get_proc_run; [apply Hin|]. rewrite Hch, u64_small by lia. kstep R. done.
  - destruct W as [Wi Wo]. split; [|done]. intros j Hj. rewrite Wi by done. by assert (j = 0) as -> by lia.
Qed.

Lemma piperead_copy_run left : forall pi i pr p h s e addr k l,
  in_pipe pi i pr p h s -> user_wf (k_mem s) (p_pagetable pr) l -> 0 <= addr + k ->
  addr + k + Z.of_nat left <= 2 ^ 32 ->
  (forall j, 0 <= j < Z.of_nat left -> writable (k_mem s) (p_pagetable pr) (addr + k + j) = true) ->
  let c := Z.min (Z.of_nat left) (Z.of_nat (length (pipe_q p))) in
  exists m' p',
    piperead_copy left pi i addr k s e = Ret (k + c) (set_k_mem m' (set_k_pipes (<[pi := p']> (k_pipes s)) s)) e /\
    pipe_ok p' /\ pipe_q p' = drop (Z.to_nat c) (pipe_q p) /\
    written (k_mem s) (p_pagetable pr) (addr + k) (pipe_q p) c m'.
Proof.
  induction left as [|left IH]; intros pi i pr p h s e addr k l Hin Hwf Ha Hmax Hw c.
  { exists (k_mem s), p. rewrite (set_k_pipes_id _ _ _ (ip_pipe _ _ _ _ _ _ Hin)).
    assert (c = 0) as -> by lia. rewrite Z.add_0_r. split; [by destruct s|]. split; [apply Hin|]. split; [done | apply written_nil]. }
  destruct (pipe_q p) as [|ch q] eqn:Hq.
  { exists (k_mem s), p. rewrite (set_k_pipes_id _ _ _ (ip_pipe _ _ _ _ _ _ Hin)).
    assert (c = 0) as -> by (cbn in c; lia). rewrite Z.add_0_r. split; [|split; [apply Hin|]; split; [done | apply written_nil]].
    cbn [piperead_copy]. kstep get_pipe_run; [apply Hin|]. rewrite (pipe_empty p) by apply Hin.
    rewrite bool_decide_true by done. by destruct s. }
  assert (forall j, 0 <= j < Z.of_nat (S left) -> readable (k_mem s) (p_pagetable pr) (addr + k + j) = true) as Hrd.
  { intros j Hj. by apply writable_readable, Hw. }
  destruct (piperead_step left pi i pr p ch q h s e addr k l) as (m1 & p1 & R & Hok & Hq1 & W1 & Wf1 & V1); try done; [lia | |].
  { rewrite <- (Z.add_0_r (addr + k)). apply Hw. lia. }
  destruct (IH pi i pr p1 h (set_k_mem m1 (set_k_pipes (<[pi := p1]> (k_pipes s)) s)) e addr (k + 1) l)
    as (m' & p' & R' & Hok' & Hq' & W'); try done; try lia.
  { apply in_pipe_mem. by apply (in_pipe_set pi i pr p). }
  { intros j Hj. rewrite (writable_val m1 (k_mem s)) by done. replace (addr + (k + 1) + j) with (addr + k + (1 + j)) by lia. apply Hw. lia. }
  cbn [k_mem set_k_mem] in *. rewrite Hq1 in *. set (c' := Z.min (Z.of_nat left) (Z.of_nat (length q))) in *.
  assert (c = 1 + c') as -> by (unfold c, c'; cbn [length]; lia). assert (0 <= c') as Hc' by lia.
  exists m', p'. split; [|split; [done|split]].
  - rewrite R, R'. cbn [k_pipes set_k_pipes set_k_mem]. rewrite insert_insert_eq. f_equal. lia.
  - rewrite Hq'. by replace (Z.to_nat (1 + c')) with (S (Z.to_nat c')) by lia.
  - apply (written_app (k_mem s) (p_pagetable pr) (addr + k) (ch :: q) 1 c' m1 m' l); try done; try lia.
    + intros j Hj. apply Hrd. lia.
    + by replace (addr + k + 1) with (addr + (k + 1)) by lia.
Qed.

(** ** Properties *)

(** What a process that uses a pipe starts from. *)
Record pipe_pre (pi : Z) (i : nat) (pr : process) (p : pipe) (s : kernel) : Prop := PipePre {
  pp_room : room 3 (k_hl s);
  pp_free : free (L_pipe pi) (k_hl s);
  pp_procs : procs_free None (k_hl s);
  pp_me : me_of s = Some i;
  pp_i : (i < NPROC)%nat;
  pp_pr : k_procs s !! i = Some pr;
  pp_len : length (k_procs s) = NPROC;
  pp_pipe : k_pipes s !! pi = Some p;
  pp_ok : pipe_ok p
}.

Lemma enter_pipe pi i pr p s :
  pipe_pre pi i pr p s -> in_pipe pi i pr p (k_hl s) (set_k_hl (acq (L_pipe pi) (k_hl s)) s).
Proof. intros []. by split. Qed.

Lemma acquire_pipe pi i pr p s e :
  pipe_pre pi i pr p s -> acquire (L_pipe pi) s e = Ret tt (set_k_hl (acq (L_pipe pi) (k_hl s)) s) e.
Proof. intros []. apply acquire_run; [|done]. apply (room_weaken 3); [done | lia]. Qed.

Lemma in_pipe_wake pi i pr p h s c ch :
  in_pipe pi i pr p h s -> c = Some i -> in_pipe pi i pr p h (set_k_procs (wake_procs c ch (k_procs s)) s).
Proof.
  intros [] ->. split; try done; cbn.
  - rewrite lookup_wake_procs, ip_pr0. cbn. by rewrite bool_decide_true.
  - by rewrite length_wake_procs.
Qed.

(** The state a transfer leaves: the peers are woken, the lock is released. *)
Definition pipe_done (pi : Z) (i : nat) (ch : chan) (p' : pipe) (m' : memory) (s : kernel) : kernel :=
  set_k_hl (bal (k_hl s))
    (set_k_procs (wake_procs (Some i) ch (k_procs s))
       (set_k_mem m' (set_k_pipes (<[pi := p']> (k_pipes s)) s))).

(** C32: A pipe is a bounded queue: a write that fits, by a process that is not killed,
    from readable user memory, to a pipe with an open read end, appends the user's
    bytes, in order, to the queue the ring buffer represents, and wakes the readers. *)
Theorem pipewrite_fifo pi i pr p s e addr n l :
  pipe_pre pi i pr p s -> readopen p = true -> p_killed pr = false ->
  user_wf (k_mem s) (p_pagetable pr) l -> 0 <= addr -> 0 <= n -> addr + n <= 2 ^ 32 ->
  Z.of_nat (length (pipe_q p)) + n <= PIPESIZE ->
  (forall j, 0 <= j < n -> readable (k_mem s) (p_pagetable pr) (addr + j) = true) ->
  exists p', pipewrite pi addr n s e = Ret n (pipe_done pi i (CPipeR pi) p' (k_mem s) s) e /\
    pipe_ok p' /\ pipe_q p' = pipe_q p ++ ubytes (k_mem s) (p_pagetable pr) addr n.
Proof.
  intros Hpre Ho Hnk Hwf Ha Hn Hmax Hsp Hrd. pose proof (enter_pipe _ _ _ _ _ Hpre) as Hin.
  destruct (pipewrite_loop_run (S (Z.to_nat n + length e)) pi i pr p (k_hl s)
              (set_k_hl (acq (L_pipe pi) (k_hl s)) s) e addr n 0 l) as (p' & R & Hok & Hq); try done; try lia.
  exists p'. rewrite Z.add_0_r, Z.sub_0_r in Hq. split; [|done]. pose proof (length_pipe_q p).
  assert (u32 n = n) as Hu by (apply u32_small; unfold PIPESIZE in *; lia).
  pose proof (in_pipe_set _ _ _ _ p' _ _ Hin Hok) as Hin'.
  unfold pipewrite. kstep (me_run s e 3 i); [apply Hpre | apply Hpre |]. kstep (acquire_pipe pi i pr p s e Hpre).
  kstep R. kstep (ip_wakeup pi i pr p' (k_hl s)); [exact Hin'|].
  kstep (ip_release pi i pr p' (k_hl s)); [by apply in_pipe_wake|]. rewrite Hu. unfold ret, pipe_done. by destruct s.
Qed.

(** C33: A read from a pipe that has data, or whose write end is closed, delivers the
    oldest bytes of the queue to the user's buffer, removes them, and wakes the writers.
    *)
Theorem piperead_fifo pi i pr p s e addr n l :
  pipe_pre pi i pr p s -> pipe_q p <> [] \/ writeopen p = false ->
  user_wf (k_mem s) (p_pagetable pr) l -> 0 <= addr -> 0 <= n -> addr + n <= 2 ^ 32 ->
  (forall j, 0 <= j < n -> writable (k_mem s) (p_pagetable pr) (addr + j) = true) ->
  let c := Z.min n (Z.of_nat (length (pipe_q p))) in
  exists p' m', piperead pi addr n s e = Ret c (pipe_done pi i (CPipeW pi) p' m' s) e /\
    pipe_ok p' /\ pipe_q p' = drop (Z.to_nat c) (pipe_q p) /\
    written (k_mem s) (p_pagetable pr) addr (pipe_q p) c m'.
Proof.
  intros Hpre Hne Hwf Ha Hn Hmax Hw c. pose proof (enter_pipe _ _ _ _ _ Hpre) as Hin.
  destruct (piperead_copy_run (Z.to_nat n) pi i pr p (k_hl s)
              (set_k_hl (acq (L_pipe pi) (k_hl s)) s) e addr 0 l) as (m' & p' & R & Hok & Hq & W); try done; try lia.
  { intros j Hj. rewrite Z.add_0_r. apply Hw. lia. }
  rewrite Z2Nat.id, Z.add_0_r, ?Z.add_0_l in * by lia. fold c in R, Hq, W.
  exists p', m'. split; [|done].
  assert (u32 c = c) as Hu. { apply u32_small. pose proof (length_pipe_q p). pose proof (po_len _ (pp_ok _ _ _ _ _ Hpre)). unfold PIPESIZE in *. lia. }
  pose proof (in_pipe_mem _ _ _ _ _ _ m' (in_pipe_set _ _ _ _ p' _ _ Hin Hok)) as Hin'.
  unfold piperead. kstep (me_run s e 3 i); [apply Hpre | apply Hpre |]. kstep (acquire_pipe pi i pr p s e Hpre).
  eapply eq_trans; [eapply (bind_Ret _ _ _ _ true)|].
  { cbn [piperead_wait]. kstep get_pipe_run; [apply Hin|]. rewrite (pipe_empty p) by apply Hin.
    destruct (bool_decide (pipe_q p = [])) eqn:E; [|done]. apply bool_decide_eq_true in E.
    destruct Hne as [?| ->]; [done|]. done. }
  cbv beta iota. cbn [negb]. kstep R. kstep (ip_wakeup pi i pr p' (k_hl s)); [exact Hin'|].
  kstep (ip_release pi i pr p' (k_hl s)); [by apply in_pipe_wake|]. rewrite Hu. unfold ret, pipe_done. by destruct s.
Qed.

(** A write to a full pipe wakes the readers, then sleeps with the pipe lock free
    and the pipe unchanged. *)
Theorem pipewrite_full_sleeps pi i pr p s addr n :
  pipe_pre pi i pr p s -> readopen p = true -> p_killed pr = false -> noff (cur (k_hl s)) = 0 ->
  Z.of_nat (length (pipe_q p)) = PIPESIZE -> 0 < n ->
  exists s', pipewrite pi addr n s [] = Blocked s' /\ k_pipes s' = k_pipes s /\
    k_procs s' !! i = Some (set_p_status SLEEPING (set_p_chan (CPipeW pi) pr)) /\
    free (L_pipe pi) (k_hl s') /\
    (forall j q, j <> i -> k_procs s !! j = Some q -> p_status q = SLEEPING -> p_chan q = CPipeR pi ->
       k_procs s' !! j = Some (set_p_status RUNNABLE q)).
Proof.
  intros Hpre Ho Hnk H0 Hfull Hn. pose proof (enter_pipe _ _ _ _ _ Hpre) as Hin.
  set (s1 := set_k_hl (acq (L_pipe pi) (k_hl s)) s) in *.
  set (s2 := set_k_procs (wake_procs (Some i) (CPipeR pi) (k_procs s1)) s1).
  assert (in_pipe pi i pr p (k_hl s) s2) as Hin2 by (by apply in_pipe_wake).
  exists (asleep (CPipeW pi) i pr (k_hl s) s2). split; [|split; [done|split; [|split]]].
  - unfold pipewrite. kstep (me_run s [] 3 i); [apply Hpre | apply Hpre |]. kstep (acquire_pipe pi i pr p s [] Hpre).
    fold s1. unfold bind at 1. enough (pipewrite_loop (S (Z.to_nat n + 0)) pi i addr n 0 s1 [] =
      Blocked (asleep (CPipeW pi) i pr (k_hl s) s2)) as E by (cbn [length]; by rewrite E).
    cbn [pipewrite_loop]. destruct (Z.ltb_spec 0 n); [|lia]. cbn [negb].
    kstep get_pipe_run; [apply Hin|]. rewrite Ho. cbn [negb].
    kstep (ip_killed pi i pr p (k_hl s) s1 Hin). rewrite Hnk.
    kstep get_pipe_run; [apply Hin|]. rewrite (pipe_full p) by apply Hin. rewrite bool_decide_true by done.
    kstep (ip_wakeup pi i pr p (k_hl s) s1 Hin). fold s2. unfold bind at 1.
    rewrite (sleep_run (CPipeW pi) (L_pipe pi) s2 [] (k_hl s) i pr); [done | apply Hin2 | done | | apply Hpre | | done | apply Hpre | apply Hin2].
    + apply (room_weaken 3); [apply Hpre | lia].
    + apply Hpre; [apply Hpre | done].
  - unfold asleep, s2, s1. cbn [k_procs set_k_procs set_k_hl]. rewrite list_lookup_insert_eq; [done|]. rewrite length_wake_procs, (pp_len _ _ _ _ _ Hpre). apply Hpre.
  - cbn. apply free_acq_ne; [done|]. apply Hpre.
  - intros j q Hj Hq Hs Hc. unfold asleep, s2, s1. cbn [k_procs set_k_procs set_k_hl].
    rewrite list_lookup_insert_ne by done. rewrite lookup_wake_procs, Hq.
    cbn. rewrite bool_decide_false by congruence. unfold wake. rewrite !bool_decide_true by done. done.
Qed.

(** Process 0 with one writable page and a pipe at address 5, for the witnesses. *)
Definition hl_pipe : hartlocks := set_hl_locks (<[L_pipe 5 := unlocked]> (hl_locks hl_run)) hl_run.
Definition user0 : process := set_p_pagetable root0 proc0.

Definition pipe_state (p : pipe) (s : kernel) : kernel :=
  set_k_hl hl_pipe (set_k_pipes (<[5 := p]> ∅) (set_k_procs (<[0%nat := user0]> (k_procs kernel0)) s)).

Lemma pipe_state_pre p s : pipe_ok p -> pipe_pre 5 0 user0 p (pipe_state p s).
Proof.
  intros Hp. split; [| done | | done | unfold NPROC; lia | done | done | done | done].
  - split; [by eexists|]. cbn. lia.
  - intros i Hi Hc. unfold free. cbn [k_hl pipe_state set_k_hl hl_pipe set_hl_locks hl_locks].
    rewrite lookup_insert_ne by done. by apply hl_run_procs.
Qed.

Definition pipe7 : pipe := Mk_pipe (7 :: zeros 511) 0 1 true true.
Definition pipe_full0 : pipe := Mk_pipe (zeros 512) 0 512 true true.

Lemma pipe7_ok : pipe_ok pipe7 /\ pipe_ok pipe_full0.
Proof. split; (split; [reflexivity | unfold in32; cbn; lia | unfold in32; cbn; lia | vm_compute; discriminate]). Qed.

Lemma pipewrite_fifo_witness :
  exists s l p', user_wf (k_mem s) root0 l /\
    pipewrite 5 0 1 (pipe_state pipe7 s) [] =
      Ret 1 (pipe_done 5 0 (CPipeR 5) p' (k_mem s) (pipe_state pipe7 s)) [] /\
    pipe_q p' = [7] ++ ubytes (k_mem s) root0 0 1.
Proof.
  destruct one_page_writable as (s & l & Hwf & _ & Hw). exists s, l.
  destruct (pipewrite_fifo 5 0 user0 pipe7 (pipe_state pipe7 s) [] 0 1 l) as (p' & R & _ & Hq).
  - apply pipe_state_pre, pipe7_ok.
  - reflexivity.
  - reflexivity.
  - exact Hwf.
  - lia.
  - lia.
  - lia.
  - vm_compute. discriminate.
  - intros j Hj. assert (j = 0) as -> by lia. apply writable_readable. exact Hw.
  - exists p'. auto.
Defined.

Lemma piperead_fifo_witness :
  exists s l p' m', user_wf (k_mem s) root0 l /\
    piperead 5 0 1 (pipe_state pipe7 s) [] =
      Ret 1 (pipe_done 5 0 (CPipeW 5) p' m' (pipe_state pipe7 s)) [] /\
    pipe_q p' = [] /\ written (k_mem s) root0 0 [7] 1 m'.
Proof.
  destruct one_page_writable as (s & l & Hwf & _ & Hw). exists s, l.
  destruct (piperead_fifo 5 0 user0 pipe7 (pipe_state pipe7 s) [] 0 1 l) as (p' & m' & R & _ & Hq & W).
  - apply pipe_state_pre, pipe7_ok.
  - left. vm_compute. discriminate.
  - exact Hwf.
  - lia.
  - lia.
  - lia.
  - intros j Hj. assert (j = 0) as -> by lia. exact Hw.
  - exists p', m'. auto.
Defined.

Lemma pipewrite_full_sleeps_witness :
  exists s', pipewrite 5 0 3 (pipe_state pipe_full0 kernel0) [] = Blocked s' /\
    k_procs s' !! 0%nat = Some (set_p_status SLEEPING (set_p_chan (CPipeW 5) user0)).
Proof.
  destruct (pipewrite_full_sleeps 5 0 user0 pipe_full0 (pipe_state pipe_full0 kernel0) 0 3) as (s' & R & _ & Hp & _).
  - apply pipe_state_pre, pipe7_ok.
  - reflexivity.
  - reflexivity.
  - reflexivity.
  - vm_compute. reflexivity.
  - lia.
  - exists s'. auto.
Defined.
