(* ===== verification/Console.v ===== *)
(** * UART and console ([uart.cpp], [console.cpp])

    Module [Uart]: the transmit ring and the polled output of the driver.
    Module [Console]: line editing in the interrupt handler, and the [read] and
    [write] of the console device.  The abstract line discipline [ld] is a
    committed queue of input and the line being edited. *)

From S2P Require Import Prelude State Ring Riscv Cstring Lock Sched Kalloc Vm Uvm UserCopy.

Module Uart.

(** ** The driver *)

Definition LSR_TX_IDLE : Z := 32.
Definition LSR_RX_READY : Z := 1.

Definition on_uart (f : uartst -> uartst) : M unit := modify (fun s => set_k_uart (f (k_uart s)) s).

(** [read_reg(LSR)]; the device is waited for when it has no further value. *)
Definition read_lsr : M Z := fun s e =>
  match u_lsr (k_uart s) with
  | [] => Blocked s
  | v :: l => Ret v (set_k_uart (set_u_lsr l (k_uart s)) s) e
  end.

(** [write_reg(THR, c)]. *)
Definition write_thr (c : Z) : M unit := on_uart (fun u => set_u_out (u_out u ++ [u8 c]) u).

(** [read_reg(ISR)], the value discarded. *)
Definition read_isr : M unit := on_uart (fun u => set_u_isr (S (u_isr u)) u).

(** The loop of [start]: one iteration per byte of the ring, and the last test. *)
Fixpoint start_loop (fuel : nat) : M unit :=
  match fuel with
  | O => fun _ _ => NoFuel
  | S f =>
      u <- gets k_uart ;;
      if tx_w u =? tx_r u then read_isr
      else
        lsr <- read_lsr ;;
        if Z.land lsr LSR_TX_IDLE =? 0 then ret tt
        else
          u <- gets k_uart ;;
          let c := nth (Z.to_nat (tx_r u mod UART_TX_BUF_SIZE)) (tx_buf u) 0 in
          on_uart (fun u => set_tx_r (u64 (tx_r u + 1)) u) ;;
          wakeup CUartTxR ;;
          write_thr c ;;
          start_loop f
  end.

Definition start : M unit := fun s e =>
  start_loop (S (Z.to_nat (u64 (tx_w (k_uart s) - tx_r (k_uart s))))) s e.

Definition tx_full : M bool :=
  u <- gets k_uart ;; ret (tx_w u =? u64 (tx_r u + UART_TX_BUF_SIZE)).

Definition putc (c : Z) : M unit :=
  acquire L_uart_tx ;;
  while_waiting tx_full (sleep CUartTxR L_uart_tx) ;;
  on_uart (fun u => set_tx_buf (<[Z.to_nat (tx_w u mod UART_TX_BUF_SIZE) := c]> (tx_buf u)) u) ;;
  on_uart (fun u => set_tx_w (u64 (tx_w u + 1)) u) ;;
  start ;;
  release L_uart_tx.

(** [while ((read_reg(LSR) & LSR_TX_IDLE) == 0) {}]. *)
Fixpoint spin_idle (fuel : nat) : M unit :=
  match fuel with
  | O => fun _ _ => NoFuel
  | S f => lsr <- read_lsr ;; if Z.land lsr LSR_TX_IDLE =? 0 then spin_idle f else ret tt
  end.

Definition kputc (c : Z) : M unit :=
  push_off ;;
  (fun s e => spin_idle (S (length (u_lsr (k_uart s)))) s e) ;;
  write_thr c ;;
  pop_off.

Definition getc : M (option Z) :=
  lsr <- read_lsr ;;
  if Z.land lsr LSR_RX_READY =? 0 then ret None
  else
    u <- gets k_uart ;;
    on_uart (fun u => set_u_rx (tl (u_rx u)) u) ;;
    ret (Some (hd 0 (u_rx u))).

(** ** Polled output *)

Definition idle (v : Z) : Prop := Z.land v LSR_TX_IDLE <> 0.

(** The next [n] reads of the line status find the transmitter idle. *)
Definition ready (n : nat) (u : uartst) : Prop := (n <= length (u_lsr u))%nat /\ Forall idle (u_lsr u).

(** The device after the polled output of the bytes [l]. *)
Definition echo (l : list Z) (u : uartst) : uartst :=
  set_u_out (u_out u ++ map u8 l) (set_u_lsr (drop (length l) (u_lsr u)) u).

Lemma ready_echo n l u : ready (n + length l) u -> ready n (echo l u).
Proof. intros [H1 H2]. split; cbn; [rewrite length_drop; lia | by apply Forall_drop]. Qed.

Lemma echo_nil u : echo [] u = u.
Proof. unfold echo. cbn. rewrite app_nil_r. by destruct u. Qed.

Lemma echo_app l1 l2 u : echo l2 (echo l1 u) = echo (l1 ++ l2) u.
Proof.
  unfold echo. cbn. unfold set_u_out, set_u_lsr. cbn. by rewrite drop_drop, length_app, map_app, <- app_assoc, Nat.add_comm.
Qed.

Lemma kputc_run c s e :
  room 1 (k_hl s) -> nested (k_hl s) -> ready 1 (k_uart s) ->
  kputc c s e = Ret tt (set_k_uart (echo [c] (k_uart s)) s) e.
Proof.
  intros Hr Hn [Hl Hi]. destruct (u_lsr (k_uart s)) as [|v l] eqn:E; [cbn in Hl; lia|].
  inversion_clear Hi as [|? ? Hv _]. unfold kputc. kstep push_off_run; [done|].
  eapply eq_trans; [eapply (bind_Ret _ _ _ _ tt)|].
  { cbn [k_uart set_k_hl]. rewrite E. cbn [length spin_idle]. unfold bind at 1, read_lsr. cbn [k_uart set_k_hl]. rewrite E.
    apply Z.eqb_neq in Hv. rewrite Hv. reflexivity. }
  cbv beta. unfold write_thr, on_uart. rewrite bind_modify. rewrite pop_off_run; cbn [k_hl set_k_hl set_k_uart].
  - change (pop (push (k_hl s))) with (bal (k_hl s)). rewrite Hn. unfold echo. cbn. rewrite E. by destruct s.
  - apply (room_push 1 _ Hr).
  - apply intr_get_off.
  - destruct Hr as (? & ? & ?). rewrite cur_push by done. cbn. lia.
Qed.

(** ** The transmit queue *)

Definition tx_q (u : uartst) : list Z := ring UART_TX_BUF_SIZE (2 ^ 64) (tx_buf u) (tx_r u) (tx_w u).

Record tx_ok (u : uartst) : Prop := TxOk {
  to_buf : length (tx_buf u) = Z.to_nat UART_TX_BUF_SIZE;
  to_bytes : Forall in8 (tx_buf u);
  to_r : in64 (tx_r u);
  to_w : in64 (tx_w u);
  to_len : ring_len (2 ^ 64) (tx_r u) (tx_w u) <= UART_TX_BUF_SIZE
}.

(** Everything handed to the driver, sent or still queued. *)
Definition tx_stream (u : uartst) : list Z := u_out u ++ tx_q u.

Lemma txsize_divides : (UART_TX_BUF_SIZE | 2 ^ 64).
Proof. by exists (2 ^ 59). Qed.

Lemma length_tx_q u : Z.of_nat (length (tx_q u)) = ring_len (2 ^ 64) (tx_r u) (tx_w u).
Proof.
  unfold tx_q. rewrite length_ring. pose proof (Z.mod_pos_bound (tx_w u - tx_r u) (2 ^ 64)). unfold ring_len. lia.
Qed.

(** The state with the transmitter's bytes moved and other processes woken. *)
Definition sent (u : uartst) (procs : list process) (s : kernel) : kernel :=
  set_k_procs procs (set_k_uart u s).

Lemma tx_pop u : tx_ok u -> 0 < ring_len (2 ^ 64) (tx_r u) (tx_w u) ->
  let c := nth (Z.to_nat (tx_r u mod UART_TX_BUF_SIZE)) (tx_buf u) 0 in
  in8 c /\ tx_ok (set_tx_r (u64 (tx_r u + 1)) u) /\
  tx_q u = c :: tx_q (set_tx_r (u64 (tx_r u + 1)) u).
Proof.
  intros [Hb Hby Hr Hw Hl] Hpos c. unfold UART_TX_BUF_SIZE in *. split; [|split].
  - rewrite Forall_forall in Hby. apply Hby. unfold c. apply nth_In.
    rewrite Hb. pose proof (Z.mod_pos_bound (tx_r u) 32). lia.
  - split; cbn; try done; [apply u64_range|]. unfold u64, UART_TX_BUF_SIZE. rewrite (ring_len_pop 32) by lia. lia.
  - unfold tx_q. cbn. apply (ring_pop 32 (2 ^ 64) ltac:(lia) txsize_divides ltac:(lia)). done.
Qed.

(** Waking twice on the same channel is waking once. *)
Lemma wake_procs_idem c ch l : wake_procs c ch (wake_procs c ch l) = wake_procs c ch l.
Proof.
  apply list_eq. intros i. rewrite !lookup_wake_procs. destruct (l !! i) as [p|]; [|done]. cbn. f_equal.
  case_bool_decide; [done|]. unfold wake.
  destruct (bool_decide (p_status p = SLEEPING) && bool_decide (p_chan p = ch)) eqn:E; cbn; [done|]. by rewrite E.
Qed.

(** What [wakeup] needs: a spin lock is held, and no process lock. *)
Record can_wake (s : kernel) : Prop := CanWake {
  cw_room : room 1 (k_hl s);
  cw_nested : nested (k_hl s);
  cw_procs : procs_free (me_of s) (k_hl s);
  cw_len : length (k_procs s) = NPROC
}.

Lemma wakeup_can ch s e : can_wake s ->
  wakeup ch s e = Ret tt (set_k_procs (wake_procs (me_of s) ch (k_procs s)) s) e.
Proof. intros []. by apply wakeup_run. Qed.

(** One byte leaves the ring. *)
Lemma start_step f v l s e :
  can_wake s -> tx_ok (k_uart s) -> tx_q (k_uart s) <> [] -> u_lsr (k_uart s) = v :: l ->
  start_loop (S f) s e =
  if Z.land v LSR_TX_IDLE =? 0 then Ret tt (set_k_uart (set_u_lsr l (k_uart s)) s) e
  else
    let u := k_uart s in
    let c := nth (Z.to_nat (tx_r u mod UART_TX_BUF_SIZE)) (tx_buf u) 0 in
    let u1 := set_tx_r (u64 (tx_r u + 1)) (set_u_lsr l u) in
    start_loop f (sent (set_u_out (u_out u ++ [u8 c]) u1) (wake_procs (me_of s) CUartTxR (k_procs s)) s) e.
Proof.
  intros Hc Hok Hq Hl. cbn [start_loop]. rewrite bind_gets.
  assert ((tx_w (k_uart s) =? tx_r (k_uart s)) = false) as ->.
  { apply Z.eqb_neq. intros E. apply Hq. unfold tx_q, ring, ring_len. by rewrite E, Z.sub_diag. }
  assert (read_lsr s e = Ret v (set_k_uart (set_u_lsr l (k_uart s)) s) e) as R by (unfold read_lsr; by rewrite Hl).
  kstep R. destruct (Z.land v LSR_TX_IDLE =? 0); [done|]. rewrite bind_gets. cbn zeta. unfold on_uart. rewrite bind_modify.
  kstep wakeup_can; [destruct Hc; by split|]. unfold write_thr, on_uart. rewrite bind_modify. done.
Qed.

Lemma start_loop_run fuel : forall s e,
  can_wake s -> tx_ok (k_uart s) -> ring_len (2 ^ 64) (tx_r (k_uart s)) (tx_w (k_uart s)) < Z.of_nat fuel ->
  (length (tx_q (k_uart s)) <= length (u_lsr (k_uart s)))%nat ->
  exists u' procs', start_loop fuel s e = Ret tt (sent u' procs' s) e /\ tx_ok u' /\
    tx_stream u' = tx_stream (k_uart s) /\ tx_w u' = tx_w (k_uart s) /\ u_rx u' = u_rx (k_uart s) /\
    (procs' = k_procs s \/ procs' = wake_procs (me_of s) CUartTxR (k_procs s)) /\
    (Forall idle (u_lsr (k_uart s)) -> tx_q u' = []).
Proof.
  induction fuel as [|fuel IH]; intros s e Hc Hok Hfu Hlsr.
  { pose proof (Z.mod_pos_bound (tx_w (k_uart s) - tx_r (k_uart s)) (2 ^ 64)). unfold ring_len in *. lia. }
  rewrite <- length_tx_q in Hfu. destruct (tx_q (k_uart s)) as [|c0 q0] eqn:Hq.
  { exists (set_u_isr (S (u_isr (k_uart s))) (k_uart s)), (k_procs s). split; [|split_and!; try done; [by destruct Hok | by left]].
    cbn [start_loop]. rewrite bind_gets. unfold read_isr, on_uart, modify.
    assert (tx_w (k_uart s) = tx_r (k_uart s)) as ->; [|by rewrite Z.eqb_refl; destruct s].
    pose proof (length_tx_q (k_uart s)) as Hl. rewrite Hq in Hl. destruct Hok.
    symmetry. apply (ring_empty 32 (2 ^ 64)); try done. }
  destruct (u_lsr (k_uart s)) as [|v lsr] eqn:Hl; [cbn in Hlsr; lia|].
  rewrite (start_step fuel v lsr s e) by (try done; by rewrite Hq).
  destruct (Z.land v LSR_TX_IDLE =? 0) eqn:Ev.
  { exists (set_u_lsr lsr (k_uart s)), (k_procs s). split; [by destruct s|].
    split; [by destruct Hok|]. split; [done|]. split; [done|]. split; [done|]. split; [by left|].
    intros Hi. inversion_clear Hi as [|? ? Hv _]. by apply Z.eqb_eq in Ev. }
  cbn zeta. set (u := k_uart s) in *. set (c := nth _ (tx_buf u) 0).
  destruct (tx_pop u Hok) as (Hc8 & Hok1 & Hq1). { rewrite <- length_tx_q, Hq. cbn [length]. lia. }
  fold c in Hc8, Hq1. set (u1 := set_u_out _ _).
  assert (tx_q u1 = tx_q (set_tx_r (u64 (tx_r u + 1)) u)) as Hq1' by done.
  destruct (IH (sent u1 (wake_procs (me_of s) CUartTxR (k_procs s)) s) e)
    as (u' & procs' & R & Hok' & Hst & Hw & Hrx & Hpr & Hid).
  { destruct Hc. split; try done. etransitivity; [apply length_wake_procs | done]. }
  { cbn [k_uart sent set_k_procs set_k_uart]. by destruct Hok1. }
  { cbn [k_uart sent set_k_procs set_k_uart]. rewrite <- length_tx_q, Hq1'. rewrite Hq in Hq1. injection Hq1 as _ <-. cbn [length] in Hfu. lia. }
  { cbn [k_uart sent set_k_procs set_k_uart]. rewrite Hq1'. rewrite Hq in Hq1. injection Hq1 as _ <-. cbn in Hlsr |- *. lia. }
  exists u', procs'. split; [rewrite R; done|]. split; [done|]. split; [|split; [done|split; [done|split]]].
  - rewrite Hst. unfold tx_stream. cbn [k_uart sent set_k_procs set_k_uart]. rewrite Hq1', Hq1.
    cbn. rewrite <- app_assoc. unfold u8. by rewrite Z.mod_small by done.
  - right. destruct Hpr as [-> | ->]; [done|]. cbn. apply wake_procs_idem.
  - intros Hi. apply Hid. cbn. by inversion_clear Hi.
Qed.

(** Characters leave the serial port in the order they were given to putc: sent and
    buffered characters together are the old ones followed by the new one. *)
Theorem putc_order c h s e :
  k_hl s = h -> room 2 h -> free L_uart_tx h -> procs_free (me_of s) h -> length (k_procs s) = NPROC ->
  tx_ok (k_uart s) -> in8 c -> Z.of_nat (length (tx_q (k_uart s))) < UART_TX_BUF_SIZE ->
  (length (tx_q (k_uart s)) < length (u_lsr (k_uart s)))%nat ->
  exists s', putc c s e = Ret tt s' e /\ tx_ok (k_uart s') /\
    tx_stream (k_uart s') = tx_stream (k_uart s) ++ [c] /\
    (Forall idle (u_lsr (k_uart s)) -> u_out (k_uart s') = tx_stream (k_uart s) ++ [c]).
Proof.
  intros Hs Hr Hf Hp Hlen Hok Hc8 Hlt Hlsr. subst h. rewrite length_tx_q in Hlt.
  assert (room 1 (k_hl s)) as Hr1 by (apply (room_weaken 2); [done | lia]).
  set (u := k_uart s) in *.
  set (u1 := set_tx_w (u64 (tx_w u + 1)) (set_tx_buf (<[Z.to_nat (tx_w u mod UART_TX_BUF_SIZE) := c]> (tx_buf u)) u)).
  assert (tx_q u1 = tx_q u ++ [c]) as Hq1.
  { apply (ring_push 32 (2 ^ 64) ltac:(lia) txsize_divides ltac:(lia)); [apply Hok | done]. }
  assert (tx_ok u1) as Hok1.
  { destruct Hok as [A B C D E]. split; cbn.
    - by rewrite length_insert.
    - apply Forall_insert; done.
    - done.
    - apply u64_range.
    - unfold u64, UART_TX_BUF_SIZE in *. rewrite (ring_len_push 32) by lia. lia. }
  set (s1 := set_k_uart u1 (set_k_hl (acq L_uart_tx (k_hl s)) s)).
  destruct (start_loop_run (S (Z.to_nat (u64 (tx_w u1 - tx_r u1)))) s1 e) as (u' & procs' & R & Hok' & Hst & _ & _ & _ & Hid).
  - split; [exact (room_acq 2 _ _ Hr) | by apply (nested_acq _ _ 2) | | done].
    apply procs_free_acq; [done|]. unfold me_of in *. cbn. by rewrite c_proc_acq by apply Hr.
  - exact Hok1.
  - change (k_uart s1) with u1. unfold ring_len, u64. pose proof (Z.mod_pos_bound (tx_w u1 - tx_r u1) (2 ^ 64)). lia.
  - change (k_uart s1) with u1. rewrite Hq1, length_app. cbn [length]. change (u_lsr u1) with (u_lsr u). lia.
  - exists (set_k_hl (bal (k_hl s)) (sent u' procs' s1)). split; [|split; [done|]].
    + unfold putc. kstep acquire_run; [done..|]. unfold while_waiting. cbn [while].
      eapply eq_trans; [eapply (bind_Ret _ _ _ _ tt)|].
      { unfold tx_full. rewrite !bind_assoc, bind_gets, bind_ret.
        assert ((tx_w u =? u64 (tx_r u + UART_TX_BUF_SIZE)) = false) as E; [|cbn [k_uart set_k_hl]; fold u; rewrite E; done].
        apply Z.eqb_neq. intros E. destruct Hok as [_ _ Hrr Hww Hll].
        apply (ring_full 32 (2 ^ 64)) in E; try done. unfold UART_TX_BUF_SIZE in *. lia. }
      cbv beta. unfold on_uart. rewrite !bind_modify.
      change (set_k_uart _ (set_k_uart _ _)) with s1. unfold start.
      eapply eq_trans; [eapply bind_Ret; exact R|]. cbv beta. by apply release_acq_run.
    + cbn [k_uart set_k_hl sent set_k_procs set_k_uart]. split.
      * rewrite Hst. unfold tx_stream. change (k_uart s1) with u1. rewrite Hq1. by rewrite app_assoc.
      * intros Hi. transitivity (tx_stream u'); [unfold tx_stream; by rewrite (Hid Hi), app_nil_r|].
        rewrite Hst. unfold tx_stream. change (k_uart s1) with u1. rewrite Hq1. by rewrite app_assoc.
Qed.

Lemma putc_order_witness :
  let s := set_k_uart (Mk_uartst (zeros 32) 0 0 [32] [] [] 0) (set_k_hl hl_run kernel0) in
  exists s', putc 65 s [] = Ret tt s' [] /\ u_out (k_uart s') = [65].
Proof.
  intros s. destruct (putc_order 65 hl_run s []) as (s' & R & _ & _ & H).
  - reflexivity.
  - apply hl_run_ready. lia.
  - reflexivity.
  - intros i Hi _. by apply hl_run_procs.
  - reflexivity.
  - split; try (vm_compute; reflexivity); try (vm_compute; split; [discriminate | reflexivity]).
    + apply Forall_replicate. unfold in8. lia.
    + vm_compute. discriminate.
  - unfold in8. lia.
  - vm_compute. reflexivity.
  - vm_compute. lia.
  - exists s'. split; [exact R|]. apply H. constructor; [discriminate | constructor].
Defined.

End Uart.

Module Console.
Import Uart.

(** ** The device *)

Definition BACKSPACE : Z := 256.
Definition C (x : Z) : Z := x - 64.       (* x - '@' *)

Definition on_cons (f : console -> console) : M unit := modify (fun s => set_k_cons (f (k_cons s)) s).

Definition putc (c : Z) : M unit :=
  if c =? BACKSPACE then kputc 8 ;; kputc 32 ;; kputc 8 else kputc c.

Definition write (user_src : bool) (src n : Z) : M Z :=
  (fix loop (left : nat) (i : Z) : M Z :=
     match left with
     | O => ret i
     | S left' =>
         r <- either_copyin user_src (u64 (src + i)) 1 ;;
         if negb (fst r =? 1) then ret i
         else Uart.putc (hd 0 (snd r)) ;; loop left' (i + 1)
     end) (Z.to_nat n) 0.

(** The two nested loops of [read]: an iteration waits for input or takes a
    byte.  [None]: it has returned -1; otherwise the final [n]. *)
Fixpoint read_loop (fuel : nat) (user_dst : bool) (dst n target : Z) : M (option Z) :=
  match fuel with
  | O => fun _ _ => NoFuel
  | S f =>
      if negb (0 <? n) then ret (Some n)
      else
        cs <- gets k_cons ;;
        if cn_r cs =? cn_w cs then
          p <- me ;;
          killed <- get_killed p ;;
          if killed : bool then release L_cons ;; ret None
          else sleep CConsR L_cons ;; read_loop f user_dst dst n target
        else
          let c := nth (Z.to_nat (cn_r cs mod INPUT_BUF_SIZE)) (cn_buf cs) 0 in
          on_cons (fun cs => set_cn_r (u32 (cn_r cs + 1)) cs) ;;
          if c =? C 68 then
            when (n <? target) (on_cons (fun cs => set_cn_r (u32 (cn_r cs - 1)) cs)) ;;
            ret (Some n)
          else
            r <- either_copyout user_dst dst [c] 1 ;;
            if r =? -1 then ret (Some n)
            else if c =? 10 then ret (Some (n - 1))
            else read_loop f user_dst (u64 (dst + 1)) (n - 1) target
  end.

Definition read (user_dst : bool) (dst n : Z) : M Z := fun s e =>
  (acquire L_cons ;;
   r <- read_loop (S (Z.to_nat n + length e)) user_dst dst n n ;;
   match r with
   | None => ret (-1)
   | Some n' => release L_cons ;; ret (n - n')
   end) s e.

(** [case C('U')]: at most one iteration per byte being edited. *)
Fixpoint kill_line (fuel : nat) : M unit :=
  match fuel with
  | O => fun _ _ => NoFuel
  | S f =>
      cs <- gets k_cons ;;
      if negb (cn_e cs =? cn_w cs) &&
         negb (nth (Z.to_nat (u32 (cn_e cs - 1) mod INPUT_BUF_SIZE)) (cn_buf cs) 0 =? 10)
      then on_cons (fun cs => set_cn_e (u32 (cn_e cs - 1)) cs) ;; putc BACKSPACE ;; kill_line f
      else ret tt
  end.

(** [cons.buf[cons.e++ % INPUT_BUF_SIZE] = c]. *)
Definition cons_put (c : Z) (cs : console) : console :=
  set_cn_e (u32 (cn_e cs + 1))
    (set_cn_buf (<[Z.to_nat (cn_e cs mod INPUT_BUF_SIZE) := u8 c]> (cn_buf cs)) cs).

Definition intr_char (c : Z) : M unit :=
  cs <- gets k_cons ;;
  if negb (c =? 0) && (u32 (cn_e cs - cn_r cs) <? INPUT_BUF_SIZE) then
    let c := if c =? 13 then 10 else c in
    putc c ;;
    on_cons (cons_put c) ;;
    cs <- gets k_cons ;;
    when ((c =? 10) || (c =? C 68) || (u32 (cn_e cs - cn_r cs) =? INPUT_BUF_SIZE))
      (on_cons (fun cs => set_cn_w (cn_e cs) cs) ;; wakeup CConsR)
  else ret tt.

Definition intr (c : Z) : M unit :=
  acquire L_cons ;;
  (if c =? C 85 then
     fun s e => kill_line (S (Z.to_nat (u32 (cn_e (k_cons s) - cn_w (k_cons s))))) s e
   else if (c =? C 72) || (c =? 127) then
     cs <- gets k_cons ;;
     if cn_e cs =? cn_w cs then ret tt
     else on_cons (fun cs => set_cn_e (u32 (cn_e cs - 1)) cs) ;; putc BACKSPACE
   else intr_char c) ;;
  release L_cons.

(** ** The line discipline *)

(** Input a reader may take, and the line being edited. *)
Record ld := Ld { com : list Z; edit : list Z }.

Definition cr_to_nl (c : Z) : Z := if c =? 13 then 10 else c.

(** Whether the line is handed to the readers with [c]. *)
Definition commits (c : Z) (d : ld) : bool :=
  (c =? 10) || (c =? 4) || (Z.of_nat (length (com d) + length (edit d)) =? 127).

(** The specification of [intr]: the new queues, and the echo. *)
Definition ld_step (c : Z) (d : ld) : ld * list Z :=
  let erase := [8; 32; 8] in
  if c =? 21 then (Ld (com d) [], concat (map (fun _ => erase) (edit d)))
  else if (c =? 8) || (c =? 127) then
    (Ld (com d) (removelast (edit d)), if bool_decide (edit d = []) then [] else erase)
  else if (c =? 0) || negb (Z.of_nat (length (com d) + length (edit d)) <? 128) then (d, [])
  else
    let c := cr_to_nl c in
    (if commits c d then Ld (com d ++ edit d ++ [c]) [] else Ld (com d) (edit d ++ [c]), [c]).

Definition abs (cs : console) : ld :=
  Ld (ring INPUT_BUF_SIZE (2 ^ 32) (cn_buf cs) (cn_r cs) (cn_w cs))
     (ring INPUT_BUF_SIZE (2 ^ 32) (cn_buf cs) (cn_w cs) (cn_e cs)).

Record cons_ok (cs : console) : Prop := ConsOk {
  co_buf : length (cn_buf cs) = Z.to_nat INPUT_BUF_SIZE;
  co_r : in32 (cn_r cs);
  co_w : in32 (cn_w cs);
  co_e : in32 (cn_e cs);
  co_len : (length (com (abs cs)) + length (edit (abs cs)) <= Z.to_nat INPUT_BUF_SIZE)%nat;
  co_edit : Forall (fun c => c <> 10) (edit (abs cs))
}.

(** ** Lemmas on the queues *)

Lemma inputsize_divides : (INPUT_BUF_SIZE | 2 ^ 32).
Proof. by exists (2 ^ 25). Qed.

Lemma abs_lens cs :
  Z.of_nat (length (com (abs cs))) = ring_len (2 ^ 32) (cn_r cs) (cn_w cs) /\
  Z.of_nat (length (edit (abs cs))) = ring_len (2 ^ 32) (cn_w cs) (cn_e cs).
Proof.
  cbn [abs com edit]. rewrite !length_ring. unfold ring_len.
  pose proof (Z.mod_pos_bound (cn_w cs - cn_r cs) (2 ^ 32)). pose proof (Z.mod_pos_bound (cn_e cs - cn_w cs) (2 ^ 32)). lia.
Qed.

Lemma abs_total cs : cons_ok cs ->
  u32 (cn_e cs - cn_r cs) = Z.of_nat (length (com (abs cs)) + length (edit (abs cs))).
Proof.
  intros [_ _ _ _ Hl _]. destruct (abs_lens cs) as [E1 E2]. unfold INPUT_BUF_SIZE in Hl.
  change (u32 (cn_e cs - cn_r cs)) with (ring_len (2 ^ 32) (cn_r cs) (cn_e cs)).
  rewrite (ring_len_add 128 (2 ^ 32) ltac:(lia) ltac:(lia) _ (cn_w cs)) by lia. lia.
Qed.

Lemma edit_empty cs : cons_ok cs -> (cn_e cs =? cn_w cs) = bool_decide (edit (abs cs) = []).
Proof.
  intros [_ _ Hw He _ _]. pose proof (ring_empty 128 (2 ^ 32) ltac:(lia) ltac:(lia) _ _ Hw He) as H.
  destruct (abs_lens cs) as [_ E]. rewrite <- E in H. case_bool_decide as Eb; [apply Z.eqb_eq | apply Z.eqb_neq].
  - symmetry. apply H. by rewrite Eb.
  - intros Heq. apply Eb. symmetry in Heq. apply H in Heq. destruct (edit (abs cs)); [done | cbn in Heq; lia].
Qed.

Lemma app_inj_len {A} (a a' b b' : list A) : length a = length a' -> a ++ b = a' ++ b' -> a = a' /\ b = b'.
Proof. intros H E. by apply app_inj_1. Qed.

Lemma abs_put cs c :
  cons_ok cs -> in8 c -> (length (com (abs cs)) + length (edit (abs cs)) < 128)%nat ->
  abs (cons_put c cs) = Ld (com (abs cs)) (edit (abs cs) ++ [c]).
Proof.
  intros Hok Hc Hlt. destruct (abs_lens cs) as [E1 E2]. destruct Hok as [Hb Hr Hw He Hl _].
  unfold INPUT_BUF_SIZE in *.
  pose proof (ring_len_add 128 (2 ^ 32) ltac:(lia) ltac:(lia) (cn_r cs) (cn_w cs) (cn_e cs) ltac:(lia)) as E3.
  pose proof (ring_push 128 (2 ^ 32) ltac:(lia) inputsize_divides ltac:(lia) (cn_buf cs) (cn_r cs) (cn_e cs) (u8 c) Hb ltac:(lia)) as Hp.
  assert (ring_len (2 ^ 32) (cn_w cs) (u32 (cn_e cs + 1)) = ring_len (2 ^ 32) (cn_w cs) (cn_e cs) + 1) as E4.
  { apply (ring_len_push 128); lia. }
  fold (u32 (cn_e cs + 1)) in Hp.
  rewrite (ring_split 128 (2 ^ 32) ltac:(lia) inputsize_divides ltac:(lia) _ (cn_r cs) (cn_w cs)) in Hp by lia.
  rewrite (ring_split 128 (2 ^ 32) ltac:(lia) inputsize_divides ltac:(lia) _ (cn_r cs) (cn_w cs) (cn_e cs)) in Hp by lia.
  rewrite <- app_assoc in Hp. apply app_inj_len in Hp as [P1 P2]; [|by rewrite !length_ring].
  unfold abs, cons_put, INPUT_BUF_SIZE. cbn [cn_buf cn_r cn_w cn_e set_cn_e set_cn_buf com edit].
  rewrite P1, P2. unfold u8. by rewrite Z.mod_small by done.
Qed.

Lemma cons_put_ok cs c :
  cons_ok cs -> in8 c -> (length (com (abs cs)) + length (edit (abs cs)) < 128)%nat -> c <> 10 ->
  cons_ok (cons_put c cs).
Proof.
  intros Hok Hc Hlt Hn. pose proof (abs_put cs c Hok Hc Hlt) as Ha. destruct Hok as [Hb Hr Hw He Hl Hed].
  split; try done.
  - cbn. by rewrite length_insert.
  - cbn. apply u32_range.
  - rewrite Ha. cbn [com edit]. rewrite length_app. cbn [length]. unfold INPUT_BUF_SIZE in *. lia.
  - rewrite Ha. cbn [edit]. apply Forall_app. by repeat constructor.
Qed.

(** Committing the edited line. *)
Lemma abs_commit cs :
  (length (com (abs cs)) + length (edit (abs cs)) <= 128)%nat ->
  abs (set_cn_w (cn_e cs) cs) = Ld (com (abs cs) ++ edit (abs cs)) [].
Proof.
  intros Hl. destruct (abs_lens cs) as [E1 E2]. unfold abs, INPUT_BUF_SIZE. cbn [cn_buf cn_r cn_w cn_e set_cn_w com edit].
  rewrite (ring_split 128 (2 ^ 32) ltac:(lia) inputsize_divides ltac:(lia) _ (cn_r cs) (cn_w cs) (cn_e cs)) by lia.
  f_equal. unfold ring, ring_len. by rewrite Z.sub_diag.
Qed.

(** Erasing the last byte of the edited line. *)
Lemma abs_erase cs d c :
  cons_ok cs -> edit (abs cs) = d ++ [c] ->
  nth (Z.to_nat (u32 (cn_e cs - 1) mod INPUT_BUF_SIZE)) (cn_buf cs) 0 = c /\
  abs (set_cn_e (u32 (cn_e cs - 1)) cs) = Ld (com (abs cs)) d /\ cons_ok (set_cn_e (u32 (cn_e cs - 1)) cs).
Proof.
  intros Hok Hd. destruct (abs_lens cs) as [E1 E2]. unfold INPUT_BUF_SIZE in *.
  destruct (ring_last 128 (2 ^ 32) ltac:(lia) inputsize_divides ltac:(lia) (cn_buf cs) (cn_w cs) (cn_e cs)) as [E3 E4].
  { rewrite <- E2, Hd, length_app. cbn [length]. lia. }
  change (ring 128 (2 ^ 32) (cn_buf cs) (cn_w cs) (cn_e cs)) with (edit (abs cs)) in E3. rewrite Hd in E3.
  fold (u32 (cn_e cs - 1)) in E3, E4. apply app_inj_2 in E3 as [P1 P2]; [|done]. injection P2 as P2.
  assert (abs (set_cn_e (u32 (cn_e cs - 1)) cs) = Ld (com (abs cs)) d) as Ha.
  { unfold abs, INPUT_BUF_SIZE. cbn [cn_buf cn_r cn_w cn_e set_cn_e com edit]. by rewrite <- P1. }
  split; [done|]. split; [done|]. destruct Hok as [Hb Hr Hw He Hl Hed]. split; try done.
  - cbn. apply u32_range.
  - rewrite Ha. cbn [com edit]. rewrite Hd, length_app in Hl. cbn [length] in Hl. unfold INPUT_BUF_SIZE in *. lia.
  - rewrite Ha. cbn [edit]. rewrite Hd in Hed. by apply Forall_app in Hed as [? _].
Qed.

(** ** Running the handler *)

(** What the handler changes. *)
Definition cset (cs : console) (u : uartst) (s : kernel) : kernel := set_k_cons cs (set_k_uart u s).

Lemma putc_erase_run s e :
  room 1 (k_hl s) -> nested (k_hl s) -> ready 3 (k_uart s) ->
  putc BACKSPACE s e = Ret tt (set_k_uart (echo [8; 32; 8] (k_uart s)) s) e.
Proof.
  intros Hr Hn Hu. unfold putc. cbn [Z.eqb Pos.eqb BACKSPACE].
  kstep kputc_run; [done..| |]. { destruct Hu. split; [lia | done]. }
  kstep kputc_run; [done..| |]. { apply ready_echo. destruct Hu. split; [cbn; lia | done]. }
  rewrite kputc_run; try done.
  - cbn [k_uart set_k_uart]. by rewrite !echo_app.
  - cbn [k_uart set_k_uart]. rewrite echo_app. apply ready_echo. done.
Qed.

Lemma putc_char_run c s e :
  room 1 (k_hl s) -> nested (k_hl s) -> ready 1 (k_uart s) -> in8 c ->
  putc c s e = Ret tt (set_k_uart (echo [c] (k_uart s)) s) e.
Proof.
  intros Hr Hn Hu Hc. unfold putc, BACKSPACE. destruct (Z.eqb_spec c 256); [unfold in8 in Hc; lia|]. by apply kputc_run.
Qed.

Lemma concat_const_comm {A B} (x : list A) (l : list B) :
  x ++ concat (map (fun _ => x) l) = concat (map (fun _ => x) l) ++ x.
Proof. induction l as [|z l IHl]; cbn; [by rewrite app_nil_r|]. by rewrite <- app_assoc, <- IHl. Qed.

Lemma kill_line_run fuel : forall s e,
  room 1 (k_hl s) -> nested (k_hl s) -> cons_ok (k_cons s) ->
  let d := edit (abs (k_cons s)) in
  ready (3 * length d) (k_uart s) -> (length d < fuel)%nat ->
  exists cs', kill_line fuel s e = Ret tt (cset cs' (echo (concat (map (fun _ => [8; 32; 8]) d)) (k_uart s)) s) e /\
    cons_ok cs' /\ abs cs' = Ld (com (abs (k_cons s))) [].
Proof.
  induction fuel as [|fuel IH]; intros s e Hr Hn Hok d Hu Hfu; [lia|].
  pose proof (eq_refl : edit (abs (k_cons s)) = d) as Ed. clearbody d.
  destruct (decide (d = [])) as [E|Hne].
  { exists (k_cons s). rewrite E in *. split; [|split; [done|]].
    - cbn [kill_line]. rewrite bind_gets, edit_empty by done. rewrite bool_decide_true by done.
      cbn [map concat]. rewrite echo_nil. unfold cset. by destruct s.
    - by destruct (abs (k_cons s)); cbn in *; subst. }
  destruct (exists_last Hne) as (d' & c & Hd). rewrite Hd in Ed.
  destruct (abs_erase (k_cons s) d' c Hok Ed) as (Hc & Ha & Hok').
  assert (c <> 10) as Hc10. { pose proof (co_edit _ Hok) as Hed. rewrite Ed in Hed. apply Forall_app in Hed as [_ Hed]. by inversion Hed. }
  assert (length d = S (length d')) as Hlen by (rewrite Hd, length_app; cbn; lia).
  set (s1 := cset (set_cn_e (u32 (cn_e (k_cons s) - 1)) (k_cons s)) (echo [8; 32; 8] (k_uart s)) s).
  destruct (IH s1 e) as (cs' & R & Hok'' & Ha''); try done.
  { cbn [k_cons k_uart s1 cset set_k_cons set_k_uart]. rewrite Ha. apply ready_echo. cbn [length edit].
    destruct Hu as [Hu1 Hu2]. split; [lia | done]. }
  { cbn [k_cons s1 cset set_k_cons]. rewrite Ha. cbn. lia. }
  cbn [k_cons k_uart s1 cset set_k_cons set_k_uart] in R, Ha''. rewrite Ha in R, Ha''. cbn [edit com] in R, Ha''.
  exists cs'. split; [|done]. cbn [kill_line]. rewrite bind_gets, edit_empty by done.
  rewrite bool_decide_false by (rewrite Ed; by destruct d'). rewrite Hc. destruct (Z.eqb_spec c 10); [done|]. cbn [negb andb]. unfold on_cons. rewrite bind_modify.
  kstep putc_erase_run; [done..| |]. { destruct Hu. split; [cbn; lia | done]. }
  etransitivity; [exact R|]. unfold cset. f_equal. unfold s1, cset. cbn.
  rewrite echo_app. rewrite Hd. rewrite map_app, concat_app. cbn.
  change (8 :: 32 :: 8 :: concat (map (fun _ : Z => [8; 32; 8]) d')) with ([8; 32; 8] ++ concat (map (fun _ : Z => [8; 32; 8]) d')).
  rewrite concat_const_comm. done.
Qed.

Lemma cons_put_fields cs c : cons_ok cs ->
  length (cn_buf (cons_put c cs)) = Z.to_nat INPUT_BUF_SIZE /\ in32 (cn_r (cons_put c cs)) /\
  in32 (cn_w (cons_put c cs)) /\ in32 (cn_e (cons_put c cs)).
Proof. intros []. cbn. rewrite length_insert. split_and!; try done. apply u32_range. Qed.

Lemma commit_ok cs c :
  cons_ok cs -> in8 c -> (length (com (abs cs)) + length (edit (abs cs)) < 128)%nat ->
  let cs' := set_cn_w (cn_e (cons_put c cs)) (cons_put c cs) in
  cons_ok cs' /\ abs cs' = Ld (com (abs cs) ++ edit (abs cs) ++ [c]) [].
Proof.
  intros Hok Hc Hlt cs'. pose proof (abs_put cs c Hok Hc Hlt) as Ha.
  destruct (cons_put_fields cs c Hok) as (F1 & F2 & F3 & F4).
  assert (abs cs' = Ld (com (abs cs) ++ edit (abs cs) ++ [c]) []) as Hab.
  { unfold cs'. rewrite abs_commit; rewrite Ha; cbn [com edit]; [done|]. rewrite length_app. cbn [length]. lia. }
  split; [|done]. split; try done.
  - rewrite Hab. cbn [com edit length]. rewrite !length_app. cbn [length]. unfold INPUT_BUF_SIZE. lia.
  - rewrite Hab. constructor.
Qed.

Definition woken (b : bool) (s : kernel) : list process :=
  if b then wake_procs (me_of s) CConsR (k_procs s) else k_procs s.

(** Whether [c] hands a line to the readers. *)
Definition line_done (c : Z) (d : ld) : bool :=
  negb ((c =? 21) || (c =? 8) || (c =? 127)) && negb (c =? 0) &&
  (Z.of_nat (length (com d) + length (edit d)) <? 128) && commits (cr_to_nl c) d.

Lemma intr_char_run c s e :
  can_wake s -> cons_ok (k_cons s) -> in8 c -> ready 1 (k_uart s) -> c <> 21 -> c <> 8 -> c <> 127 ->
  let d := abs (k_cons s) in
  exists cs', intr_char c s e =
      Ret tt (set_k_procs (woken (line_done c d) s) (cset cs' (echo (snd (ld_step c d)) (k_uart s)) s)) e /\
    cons_ok cs' /\ abs cs' = fst (ld_step c d).
Proof.
  intros Hcw Hok Hc Hu H21 H8 H127 d. pose proof (abs_total _ Hok) as Ht. fold d in Ht.
  unfold line_done, ld_step. destruct (Z.eqb_spec c 21); [done|]. destruct (Z.eqb_spec c 8); [done|].
  destruct (Z.eqb_spec c 127); [done|]. cbn [orb negb andb].
  destruct (negb (c =? 0) && (Z.of_nat (length (com d) + length (edit d)) <? 128)) eqn:Eacc; cycle 1.
  { exists (k_cons s). unfold intr_char. rewrite bind_gets, Ht. unfold INPUT_BUF_SIZE. rewrite Eacc.
    assert ((c =? 0) || negb (Z.of_nat (length (com d) + length (edit d)) <? 128) = true) as ->.
    { destruct (c =? 0), (_ <? 128); done. }
    cbn [fst snd]. rewrite echo_nil. split; [|done]. unfold cset. cbn. by destruct s. }
  apply andb_true_iff in Eacc as [E0 E1]. apply negb_true_iff in E0. rewrite E0, E1. cbn [orb negb andb].
  apply Z.ltb_lt in E1. assert (length (com d) + length (edit d) < 128)%nat as Hlt by lia.
  set (c' := cr_to_nl c). assert (in8 c') as Hc' by (unfold c', cr_to_nl, in8 in *; case_match; lia).
  assert (intr_char c s e =
    when (commits c' d) (on_cons (fun cs => set_cn_w (cn_e cs) cs) ;; wakeup CConsR)
      (cset (cons_put c' (k_cons s)) (echo [c'] (k_uart s)) s) e) as R.
  { unfold intr_char. rewrite bind_gets, Ht. change (if c =? 13 then 10 else c) with c'. unfold INPUT_BUF_SIZE. rewrite E0, (proj2 (Z.ltb_lt _ _) E1). cbn [negb andb].
    destruct Hcw. kstep putc_char_run; [done..|]. unfold on_cons at 1. rewrite bind_modify, bind_gets.
    cbn [k_cons set_k_cons set_k_uart]. f_equal. unfold commits. change (C 68) with 4.
    destruct (Z.eqb_spec c' 10) as [|Hn10]; [done|]. cbn [orb]. f_equal.
    rewrite abs_total by (by apply cons_put_ok). rewrite abs_put by done. cbn [com edit]. rewrite length_app. cbn [length]. fold d.
    zcases; try done; lia. }
  rewrite R. destruct (commits c' d) eqn:Ec; cbn [when fst snd woken].
  - eexists. split; [|apply (commit_ok (k_cons s) c'); done]. unfold on_cons. rewrite bind_modify.
    rewrite wakeup_can by (destruct Hcw; by split). done.
  - exists (cons_put c' (k_cons s)). split; [unfold cset; cbn; by destruct s|].
    assert (c' <> 10) by (intros E; unfold commits in Ec; by rewrite E in Ec).
    split; [by apply cons_put_ok | by apply abs_put].
Qed.

(** C34: The console interrupt handler implements a line discipline on two queues:
    editing keys act on the uncommitted line, other characters are echoed and appended,
    a line is committed at newline, ^D or a full buffer, and the readers are woken
    exactly then (with a serial port that is ready to take the echo). *)
Theorem console_intr_refines c s e :
  room 2 (k_hl s) -> free L_cons (k_hl s) -> procs_free (me_of s) (k_hl s) -> length (k_procs s) = NPROC ->
  cons_ok (k_cons s) -> in8 c -> ready 384 (k_uart s) ->
  let d := abs (k_cons s) in
  exists s', intr c s e = Ret tt s' e /\ cons_ok (k_cons s') /\ abs (k_cons s') = fst (ld_step c d) /\
    u_out (k_uart s') = u_out (k_uart s) ++ map u8 (snd (ld_step c d)) /\
    k_procs s' = woken (line_done c d) s /\ k_hl s' = bal (k_hl s).
Proof.
  intros Hr Hf Hp Hlen Hok Hc Hu d. assert (room 1 (k_hl s)) as Hr1 by (apply (room_weaken 2); [done | lia]).
  set (s1 := set_k_hl (acq L_cons (k_hl s)) s).
  assert (can_wake s1) as Hcw.
  { split; [exact (room_acq 2 _ _ Hr) | by apply (nested_acq _ _ 2) | | done].
    apply procs_free_acq; [done|]. unfold me_of in *. cbn. by rewrite c_proc_acq by apply Hr. }
  assert (me_of s1 = me_of s) as Hme by (unfold me_of; cbn; by rewrite c_proc_acq by apply Hr).
  assert (length (edit d) <= 128)%nat as Hed. { pose proof (co_len _ Hok) as H. fold d in H. unfold INPUT_BUF_SIZE in H. lia. }
  enough (exists cs', (if c =? C 85 then
       fun s e => kill_line (S (Z.to_nat (u32 (cn_e (k_cons s) - cn_w (k_cons s))))) s e
     else if (c =? C 72) || (c =? 127) then
       cs <- gets k_cons ;;
       if cn_e cs =? cn_w cs then ret tt
       else on_cons (fun cs => set_cn_e (u32 (cn_e cs - 1)) cs) ;; putc BACKSPACE
     else intr_char c) s1 e =
       Ret tt (set_k_procs (woken (line_done c d) s) (cset cs' (echo (snd (ld_step c d)) (k_uart s)) s1)) e /\
     cons_ok cs' /\ abs cs' = fst (ld_step c d)) as (cs' & R & Hok' & Ha').
  { eexists. split; [unfold intr; kstep acquire_run; [done..|]; fold s1; kstep R; by apply release_acq_run|]. done. }
  change (C 85) with 21. change (C 72) with 8. destruct (Z.eqb_spec c 21) as [->|H21].
  - destruct (kill_line_run (S (Z.to_nat (u32 (cn_e (k_cons s1) - cn_w (k_cons s1))))) s1 e) as (cs' & R & H'); try apply Hcw; try done.
    { destruct Hu. split; [|done]. change (edit (abs (k_cons s1))) with (edit d). cbn [k_uart s1 set_k_hl]. lia. }
    { destruct (abs_lens (k_cons s1)) as [_ E]. unfold ring_len in E. unfold u32. lia. }
    exists cs'. split; [rewrite R; done | exact H'].
  - destruct ((c =? 8) || (c =? 127)) eqn:E8.
    + assert (ld_step c d = (Ld (com d) (removelast (edit d)), if bool_decide (edit d = []) then [] else [8; 32; 8])) as Hst.
      { unfold ld_step. apply Z.eqb_neq in H21. by rewrite H21, E8. }
      assert (line_done c d = false) as ->.
      { unfold line_done. apply orb_true_iff in E8 as [E|E]; rewrite E; by destruct (c =? 21), (c =? 8). }
      rewrite Hst. cbn [fst snd woken]. rewrite bind_gets. rewrite edit_empty by done.
      change (k_cons s1) with (k_cons s). fold d. case_bool_decide as Ee.
      * exists (k_cons s). rewrite echo_nil, Ee. split; [unfold cset; cbn; by destruct s|]. split; [done|].
        fold d. destruct d as [cm ed]; cbn in *; by subst.
      * destruct (exists_last Ee) as (d' & x & Hd). destruct (abs_erase (k_cons s) d' x Hok Hd) as (_ & Ha & Hok').
        eexists. unfold on_cons. rewrite bind_modify.
        rewrite putc_erase_run; [|apply Hcw | apply Hcw |]; cycle 1.
        { destruct Hu. split; [cbn; lia | done]. }
        split; [reflexivity|]. split; [exact Hok'|]. fold d in Hd. rewrite Hd, removelast_last. exact Ha.
    + apply orb_false_iff in E8 as [E8 E127]. apply Z.eqb_neq in E8, E127.
      destruct (intr_char_run c s1 e) as (cs' & R & H'); try done.
      { destruct Hu. split; [cbn; lia | done]. }
      exists cs'. split; [|exact H']. rewrite R. change (k_cons s1) with (k_cons s). fold d. f_equal. f_equal.
      unfold woken. by rewrite Hme.
Qed.

Lemma console_intr_refines_witness :
  let s := set_k_uart (Mk_uartst (zeros 32) 0 0 (replicate 384 32) [] [] 0) (set_k_hl hl_run kernel0) in
  exists s', intr 97 s [] = Ret tt s' [] /\ abs (k_cons s') = Ld [] [97] /\ u_out (k_uart s') = [97].
Proof.
  intros s. destruct (console_intr_refines 97 s []) as (s' & R & _ & Ha & Ho & _).
  - apply hl_run_ready. lia.
  - reflexivity.
  - intros i Hi _. by apply hl_run_procs.
  - reflexivity.
  - split; try (vm_compute; reflexivity); try (vm_compute; split; [discriminate | reflexivity]).
    + vm_compute. lia.
    + vm_compute. constructor.
  - unfold in8. lia.
  - split; [vm_compute; lia|]. apply Forall_replicate. vm_compute. discriminate.
  - exists s'. split; [exact R|]. rewrite Ha, Ho. split; vm_compute; reflexivity.
Defined.

(** ** Reading *)

(** The specification of [read]: the bytes delivered and the input left;
    [None] when the reader has to wait.  [^D] ends the input and is kept for
    the next call unless it comes first. *)
Fixpoint take_line (n : nat) (first : bool) (q : list Z) : option (list Z * list Z) :=
  match n with
  | O => Some ([], q)
  | S n' =>
      match q with
      | [] => None
      | c :: q' =>
          if c =? 4 then Some ([], if first then q' else q)
          else if c =? 10 then Some ([c], q')
          else match take_line n' false q' with
               | Some (l, q'') => Some (c :: l, q'')
               | None => None
               end
      end
  end.

Lemma cons_get cs c q : cons_ok cs -> com (abs cs) = c :: q ->
  let cs' := set_cn_r (u32 (cn_r cs + 1)) cs in
  (cn_r cs =? cn_w cs) = false /\ nth (Z.to_nat (cn_r cs mod INPUT_BUF_SIZE)) (cn_buf cs) 0 = c /\
  cons_ok cs' /\ abs cs' = Ld q (edit (abs cs)).
Proof.
  intros Hok Hq cs'. destruct (abs_lens cs) as [E1 _]. rewrite Hq in E1. cbn [length] in E1.
  pose proof (ring_pop 128 (2 ^ 32) ltac:(lia) inputsize_divides ltac:(lia) (cn_buf cs) (cn_r cs) (cn_w cs) ltac:(lia)) as Hp.
  change (ring 128 (2 ^ 32) (cn_buf cs) (cn_r cs) (cn_w cs)) with (com (abs cs)) in Hp. rewrite Hq in Hp.
  injection Hp as Hc Hq'.
  assert (abs cs' = Ld q (edit (abs cs))) as Ha. { unfold abs, cs', INPUT_BUF_SIZE. cbn. f_equal. symmetry. exact Hq'. }
  split; [|split; [done|split; [|done]]].
  - apply Z.eqb_neq. intros E. unfold ring_len in E1. rewrite E, Z.sub_diag in E1. change (0 mod 2 ^ 32) with 0 in E1. lia.
  - destruct Hok as [Hb Hr Hw He Hl Hed]. split; try done.
    + apply u32_range.
    + rewrite Ha. cbn [com edit]. rewrite Hq in Hl. cbn [length] in Hl. lia.
Qed.

(** Putting [^D] back. *)
Lemma cons_unget cs : cons_ok cs -> set_cn_r (u32 (u32 (cn_r cs + 1) - 1)) (set_cn_r (u32 (cn_r cs + 1)) cs) = cs.
Proof.
  intros [_ Hr _ _ _ _]. rewrite u32_sub_l. replace (cn_r cs + 1 - 1) with (cn_r cs) by lia.
  rewrite u32_small by done. by destruct cs.
Qed.

(** The state of the reader. *)
Record reading (i : nat) (pr : process) (l : list Z) (s : kernel) : Prop := Reading {
  rd_room : room 0 (k_hl s);
  rd_me : me_of s = Some i;
  rd_pr : k_procs s !! i = Some pr;
  rd_wf : user_wf (k_mem s) (p_pagetable pr) l;
  rd_ok : cons_ok (k_cons s)
}.

Lemma read_step_eof f i pr l s e dst n target q :
  reading i pr l s -> com (abs (k_cons s)) = 4 :: q -> 0 < n ->
  read_loop (S f) true dst n target s e =
  Ret (Some n) (if n <? target then s else set_k_cons (set_cn_r (u32 (cn_r (k_cons s) + 1)) (k_cons s)) s) e.
Proof.
  intros Hrd Hq Hn. destruct (cons_get (k_cons s) 4 q (rd_ok _ _ _ _ Hrd) Hq) as (Hne & Hc & _ & _).
  cbn [read_loop]. destruct (Z.ltb_spec 0 n); [|lia]. cbn [negb]. rewrite bind_gets, Hne, Hc. cbn zeta.
  unfold on_cons. rewrite bind_modify. change (4 =? C 68) with true. cbv iota.
  destruct (n <? target); cbn [when]; [|done]. rewrite bind_modify. cbn [k_cons set_k_cons cn_r set_cn_r].
  rewrite cons_unget by apply Hrd. unfold ret. f_equal. by destruct s.
Qed.

Lemma read_step_char f i pr l s e dst n target c q :
  reading i pr l s -> com (abs (k_cons s)) = c :: q -> 0 < n -> c <> 4 -> 0 <= dst < 2 ^ 32 ->
  writable (k_mem s) (p_pagetable pr) dst = true ->
  exists m1,
    let s1 := set_k_mem m1 (set_k_cons (set_cn_r (u32 (cn_r (k_cons s) + 1)) (k_cons s)) s) in
    read_loop (S f) true dst n target s e =
      (if c =? 10 then ret (Some (n - 1)) else read_loop f true (dst + 1) (n - 1) target) s1 e /\
    written (k_mem s) (p_pagetable pr) dst [c] 1 m1 /\ reading i pr l s1 /\ abs (k_cons s1) = Ld q (edit (abs (k_cons s))) /\
    (forall va, pte_val m1 (p_pagetable pr) va = pte_val (k_mem s) (p_pagetable pr) va).
Proof.
  intros Hrd Hq Hn Hc4 Hdst Hw. destruct (cons_get (k_cons s) c q (rd_ok _ _ _ _ Hrd) Hq) as (Hne & Hc & Hok & Ha).
  set (cs1 := set_cn_r (u32 (cn_r (k_cons s) + 1)) (k_cons s)) in *.
  destruct (copyout_run (p_pagetable pr) dst [c] 1 (set_k_cons cs1 s) e l) as (m1 & R & W & Wf & V);
    [apply Hrd | unfold low_range; lia | cbn; lia | intros j Hj; by replace (dst + j) with dst by lia |].
  exists m1. cbn zeta. split; [|split; [done|split; [|done]]].
  - cbn [read_loop]. destruct (Z.ltb_spec 0 n); [|lia]. cbn [negb]. rewrite bind_gets, Hne, Hc. cbn zeta.
    unfold on_cons. rewrite bind_modify. destruct (Z.eqb_spec c (C 68)); [done|].
    eapply eq_trans; [eapply bind_Ret|].
    { unfold either_copyout. kstep (my_pagetable_run (set_k_cons cs1 s) e i pr); [apply Hrd..|]. kstep R. reflexivity. }
    cbv beta iota. cbn [Z.eqb]. rewrite u64_small by lia. destruct (c =? 10); done.
  - destruct Hrd. by split.
Qed.

Lemma read_loop_run fuel : forall i pr l s e dst n target bytes rest,
  reading i pr l s -> take_line (Z.to_nat n) (negb (n <? target)) (com (abs (k_cons s))) = Some (bytes, rest) ->
  0 <= n <= target -> 0 <= dst -> dst + Z.of_nat (length bytes) <= 2 ^ 32 ->
  (forall j, 0 <= j < Z.of_nat (length bytes) -> writable (k_mem s) (p_pagetable pr) (dst + j) = true) ->
  (Z.to_nat n < fuel)%nat ->
  exists m' cs', read_loop fuel true dst n target s e =
      Ret (Some (n - Z.of_nat (length bytes))) (set_k_mem m' (set_k_cons cs' s)) e /\
    cons_ok cs' /\ abs cs' = Ld rest (edit (abs (k_cons s))) /\
    written (k_mem s) (p_pagetable pr) dst bytes (Z.of_nat (length bytes)) m'.
Proof.
  induction fuel as [|fuel IH]; intros i pr l s e dst n target bytes rest Hrd Htl Hn Hd0 Hdst Hw Hfu; [lia|].
  destruct (Z.to_nat n) as [|n'] eqn:En.
  { cbn in Htl. injection Htl as <- <-. assert (n = 0) as -> by lia. exists (k_mem s), (k_cons s).
    split; [cbn; by destruct s|]. split; [apply Hrd|]. split; [reflexivity | apply written_nil]. }
  cbn [take_line] in Htl. destruct (com (abs (k_cons s))) as [|c q] eqn:Hq; [done|].
  destruct (Z.eqb_spec c 4) as [->|Hc4].
  { injection Htl as <- <-. rewrite (read_step_eof _ i pr l s e dst n target q) by (done || lia). cbn [length].
    rewrite Z.sub_0_r. destruct (cons_get (k_cons s) 4 q (rd_ok _ _ _ _ Hrd) Hq) as (_ & _ & Hok' & Ha').
    destruct (n <? target); cbn [negb].
    - exists (k_mem s), (k_cons s). split; [by destruct s|]. split; [apply Hrd|]. rewrite <- Hq.
      split; [reflexivity | apply written_nil].
    - exists (k_mem s), (set_cn_r (u32 (cn_r (k_cons s) + 1)) (k_cons s)). split; [by destruct s|]. split; [exact Hok'|]. split; [exact Ha' | apply written_nil]. }
  assert (exists b l', bytes = b :: l' /\ b = c) as (b & bs & -> & ->).
  { destruct (c =? 10); [injection Htl as <- <-; eauto|].
    destruct (take_line n' false q) as [[l1 q1]|]; [|done]. injection Htl as <- <-. eauto. }
  cbn [length] in *. destruct (read_step_char fuel i pr l s e dst n target c q) as (m1 & R & W & Hrd' & Ha' & V); try done; try lia.
  { rewrite <- (Z.add_0_r dst). apply Hw. lia. }
  cbn zeta in *. rewrite R. set (s1 := set_k_mem m1 _) in *. destruct (Z.eqb_spec c 10) as [E10|Hc10].
  { injection Htl as <- <-. exists m1, (k_cons s1). split; [done|]. split; [apply Hrd'|]. done. }
  destruct (take_line n' false q) as [[l1 q1]|] eqn:El; [|done]. injection Htl as <- <-.
  destruct (IH i pr l s1 e (dst + 1) (n - 1) target l1 q1) as (m' & cs' & R' & Hok'' & Ha'' & W'); try done; try lia.
  { rewrite Ha'. cbn [com]. replace (Z.to_nat (n - 1)) with n' by lia. destruct (Z.ltb_spec (n - 1) target); [done | lia]. }
  { intros j Hj. change (k_mem s1) with m1. rewrite (writable_val m1 (k_mem s)) by done.
    replace (dst + 1 + j) with (dst + (1 + j)) by lia. apply Hw. lia. }
  exists m', cs'. split; [|split; [done|split]].
  - rewrite R'. replace (n - 1 - Z.of_nat (length l1)) with (n - Z.of_nat (S (length l1))) by lia. reflexivity.
  - rewrite Ha''. change (k_cons s1) with (set_cn_r (u32 (cn_r (k_cons s) + 1)) (k_cons s)). done.
  - rewrite Nat2Z.inj_succ, <- Z.add_1_l.
    apply (written_app (k_mem s) (p_pagetable pr) dst (c :: l1) 1 (Z.of_nat (length l1)) m1 m' l); try done; try lia; [apply Hrd | |].
    + intros j Hj. apply writable_readable, Hw. lia.
    + destruct W as [Wi Wo]. split; [|done]. intros j Hj. rewrite Wi by done. by assert (j = 0) as -> by lia.
Qed.

(** console::read hands over the committed input up to a newline, an end-of-file or
    the requested length, and leaves the rest for the next read. *)
Theorem console_read_line i pr l s e dst n bytes rest :
  room 2 (k_hl s) -> free L_cons (k_hl s) -> me_of s = Some i -> k_procs s !! i = Some pr ->
  user_wf (k_mem s) (p_pagetable pr) l -> cons_ok (k_cons s) ->
  take_line (Z.to_nat n) true (com (abs (k_cons s))) = Some (bytes, rest) ->
  0 <= n -> 0 <= dst -> dst + Z.of_nat (length bytes) <= 2 ^ 32 ->
  (forall j, 0 <= j < Z.of_nat (length bytes) -> writable (k_mem s) (p_pagetable pr) (dst + j) = true) ->
  exists s', read true dst n s e = Ret (Z.of_nat (length bytes)) s' e /\
    cons_ok (k_cons s') /\ abs (k_cons s') = Ld rest (edit (abs (k_cons s))) /\
    written (k_mem s) (p_pagetable pr) dst bytes (Z.of_nat (length bytes)) (k_mem s') /\
    k_hl s' = bal (k_hl s).
Proof.
  intros Hr Hf Hme Hpr Hwf Hok Htl Hn Hd Hdst Hw. assert (room 1 (k_hl s)) as Hr1 by (apply (room_weaken 2); [done | lia]).
  set (s1 := set_k_hl (acq L_cons (k_hl s)) s).
  assert (reading i pr l s1) as Hrd.
  { split; try done; [exact (room_weaken 1 0 _ (room_acq 2 _ _ Hr) ltac:(lia))|].
    unfold me_of in *. cbn. by rewrite c_proc_acq by apply Hr. }
  destruct (read_loop_run (S (Z.to_nat n + length e)) i pr l s1 e dst n n bytes rest) as (m' & cs' & R & H'); try done; try lia.
  { by rewrite Z.ltb_irrefl. }
  exists (set_k_hl (bal (k_hl s)) (set_k_mem m' (set_k_cons cs' s1))). split; [|].
  - unfold read. kstep acquire_run; [done..|]. fold s1. kstep R. kstep (release_acq_run L_cons (k_hl s)); [done..|].
    unfold ret. f_equal. lia.
  - split; [apply H'|]. split; [apply H'|]. split; [apply H' | done].
Qed.

Definition cons_hi : console := Mk_console (104 :: 10 :: 120 :: zeros 125) 0 3 3.

Lemma console_read_line_witness :
  exists s s', read true 0 10 (set_k_cons cons_hi (set_k_hl hl_run (set_k_procs (<[0%nat := set_p_pagetable root0 proc0]> (k_procs kernel0)) s))) [] =
    Ret 2 s' [] /\ abs (k_cons s') = Ld [120] [].
Proof.
  destruct one_page_writable as (s & l & Hwf & _ & Hw). exists s.
  destruct (console_read_line 0%nat (set_p_pagetable root0 proc0) l
    (set_k_cons cons_hi (set_k_hl hl_run (set_k_procs (<[0%nat := set_p_pagetable root0 proc0]> (k_procs kernel0)) s)))
    [] 0 10 [104; 10] [120]) as (s' & R & _ & Ha & _).
  - apply hl_run_ready. lia.
  - reflexivity.
  - reflexivity.
  - reflexivity.
  - exact Hwf.
  - split; try (vm_compute; reflexivity); try (vm_compute; split; [discriminate | reflexivity]).
    + vm_compute. lia.
    + vm_compute. constructor.
  - vm_compute. reflexivity.
  - lia.
  - lia.
  - simpl. lia.
  - intros j Hj. cbn [length] in Hj. change (k_mem _) with (k_mem s). change (p_pagetable _) with root0.
    rewrite (writable_same_page (k_mem s) root0 0 (0 + j)); [exact Hw|]. unfold PGSIZE. rewrite !Z.div_small by lia. reflexivity.
  - exists s'. split; [exact R|]. rewrite Ha. vm_compute. reflexivity.
Defined.

(** A write from kernel memory prints nothing: [either_copyin] returns 0 for a kernel source. *)
Theorem console_write_kernel src n s e :
  room 0 (k_hl s) -> write false src n s e = Ret 0 s e.
Proof.
  intros Hr. unfold write. destruct (Z.to_nat n) as [|k]; [done|].
  eapply eq_trans; [eapply bind_Ret|].
  { unfold either_copyin. kstep (curr_proc_run s e 0 Hr). rewrite bind_gets. reflexivity. }
  done.
Qed.

Lemma console_write_kernel_witness : write false 2147483648 5 (set_k_hl hl_run kernel0) [] = Ret 0 (set_k_hl hl_run kernel0) [].
Proof. apply (console_write_kernel 2147483648 5 (set_k_hl hl_run kernel0) []). apply hl_run_ready. lia. Defined.

End Console.

(** ** The UART interrupt *)

Module UartIntr.
Import Uart.

(** Every iteration reads the line status once. *)
Fixpoint intr_loop (fuel : nat) : M unit :=
  match fuel with
  | O => fun _ _ => NoFuel
  | S f =>
      opt_c <- getc ;;
      match opt_c with
      | None => ret tt
      | Some c => Console.intr c ;; intr_loop f
      end
  end.

Definition intr : M unit :=
  (fun s e => intr_loop (S (length (u_lsr (k_uart s)))) s e) ;;
  acquire L_uart_tx ;;
  start ;;
  release L_uart_tx.

End UartIntr.
