(* ===== verification/Text.v ===== *)
(** * Characters and numerals

    Literals as lists of character codes, and the number a text stands for: the
    reference that the printing functions of kernel and C library are compared with. *)

From S2P Require Import Prelude.
From Stdlib Require Ascii String.

(** The characters of a literal. *)
Definition chars (s : string) : list Z := map (fun c => Z.of_N (Ascii.N_of_ascii c)) (String.list_ascii_of_string s).

Definition digit_val (c : Z) : option Z :=
  if (48 <=? c) && (c <=? 57) then Some (c - 48)
  else if (65 <=? c) && (c <=? 70) then Some (c - 55)
  else if (97 <=? c) && (c <=? 102) then Some (c - 87)
  else None.

Fixpoint parse_nat (base acc : Z) (l : list Z) : option Z :=
  match l with
  | [] => Some acc
  | c :: l' => match digit_val c with
               | Some d => if d <? base then parse_nat base (acc * base + d) l' else None
               | None => None
               end
  end.

(** The number a text stands for: a sign and digits. *)
Definition parse_int (base : Z) (l : list Z) : option Z :=
  match l with
  | [] => None
  | c :: l' => if c =? 45 then option_map Z.opp (parse_nat base 0 l') else parse_nat base 0 (c :: l')
  end.

Lemma parse_nat_app base l1 : forall acc l2, parse_nat base acc (l1 ++ l2) = match parse_nat base acc l1 with Some a => parse_nat base a l2 | None => None end.
Proof. induction l1 as [|c l1 IH]; intros acc l2; [done|]. cbn. destruct (digit_val c) as [d|]; [|done]. by destruct (d <? base). Qed.

(** A text of digits without a sign. *)
Lemma parse_int_digits base l x : parse_nat base 0 l = Some x -> l <> [] -> parse_int base l = Some x.
Proof. destruct l as [|c l]; [done|]. intros H _. cbn [parse_int]. destruct (Z.eqb_spec c 45) as [->|]; [done | exact H]. Qed.

Lemma parse_nat_digit base acc c d l : digit_val c = Some d -> d < base -> parse_nat base acc (c :: l) = parse_nat base (acc * base + d) l.
Proof. intros Hc Hd. cbn. rewrite Hc. by rewrite (proj2 (Z.ltb_lt _ _) Hd). Qed.
