(* ===== verification/Fmt.v ===== *)
(** * Formatted output of the kernel ([micro_libcxx/src/fmt.cpp], [micro_libcxx/include/fmt])

    A string is the list of its bytes before the NUL, a null pointer [None].  The
    lock of [pr] is a static object of the header: [L_pr] is the one of the
    translation unit that prints. *)

From S2P Require Import Prelude State Riscv Lock Sched Console Text.

Import Uart (ready, echo, ready_echo, echo_nil, echo_app).

(** ** The functions *)

Definition put_all : list Z -> M unit := fix go l := match l with [] => ret tt | c :: l' => Console.putc c ;; go l' end.

Definition puts (str : option (list Z)) : M unit := match str with Some l => put_all l | None => ret tt end.

(** An argument: an integer of [w] bits, or a string. *)
Inductive farg :=
  | FInt (w : Z) (sgn : bool) (v : Z)
  | FStr (s : option (list Z)).

Definition digit_char (digit : Z) : Z := if digit <? 10 then 48 + digit else 97 + (digit - 10).

(** [while (unsigned_value > 0 && ptr >= buffer)]: [n] bytes are left in front of the
    bytes [acc]. *)
Fixpoint fill (n : nat) (unsigned_value base : Z) (acc : list Z) : list Z :=
  match n with
  | O => acc
  | S n' => if 0 <? unsigned_value then fill n' (unsigned_value / base) base (digit_char (unsigned_value mod base) :: acc) else acc
  end.

(** [-arg] overflows for the least value of a type that is not promoted to [int]. *)
Definition format_arg (size : nat) (arg : farg) (is_hex : bool) : M unit :=
  match arg with
  | FInt w sgn v =>
      if (size <? 2)%nat then ret tt
      else
        let neg := sgn && (v <? 0) in
        if neg && (32 <=? w) && (v =? - 2 ^ (w - 1)) then undef "-arg"
        else
          let unsigned_value := (if neg then - v else v) mod 2 ^ w in
          if unsigned_value =? 0 then puts (Some (chars "0"))
          else
            let room := (size - 1)%nat in
            let acc := fill room unsigned_value (if is_hex then 16 else 10) [] in
            let acc := if neg && (length acc <? room)%nat then 45 :: acc else acc in
            puts (Some acc)
  | FStr s =>
      if (size =? 0)%nat then ret tt
      else match s with None => ret tt | Some l => puts (Some (take (size - 1) l)) end
  end.

(** A placeholder at the start of the format: its length and whether it is [{x}]. *)
Definition placeholder (fmt : list Z) : option (nat * bool) :=
  match fmt with
  | c :: c1 :: t =>
      if c =? 123 then
        if c1 =? 125 then Some (2%nat, false)
        else if (c1 =? 120) && (hd 0 t =? 125) then Some (3%nat, true)
        else None
      else None
  | _ => None
  end.

(** The loop of [print_format] with the argument [first]; [rest] is the call with the
    further arguments.  The result is what [fmt] points to afterwards. *)
Fixpoint format_loop (n : nat) (first : farg) (rest : option (list Z -> M (list Z))) (fmt : list Z) : M (list Z) :=
  match n with
  | O => fun _ _ => NoFuel
  | S n' =>
      match fmt with
      | [] => ret []
      | c :: t =>
          match placeholder fmt with
          | Some (k, is_hex) =>
              format_arg 32 first is_hex ;;
              match rest with
              | Some next => fmt' <- next (drop k fmt) ;; format_loop n' first rest fmt'
              | None => puts (Some (drop k fmt)) ;; ret []
              end
          | None => Console.putc c ;; format_loop n' first rest t
          end
      end
  end.

Fixpoint print_format (first : farg) (next : list farg) {struct next} : list Z -> M (list Z) := fun fmt =>
  format_loop (S (length fmt)) first (match next with [] => None | f :: l => Some (print_format f l) end) fmt.

(** [pr.locked] is always true. *)
Definition print (fmt : list Z) (args : list farg) : M unit :=
  acquire L_pr ;;
  match args with
  | [] => puts (Some fmt)
  | first :: next => print_format first next fmt ;; ret tt
  end ;;
  release L_pr.

Definition panic (str : list Z) (msg : string) : M unit :=
  puts (Some (chars "panic: ")) ;; puts (Some str) ;; puts (Some [10]) ;; State.panic msg.

Inductive log_level := INFO | DEBUG | WARNNING | ERROR.

Definition print_log (level : log_level) (msg : list Z) : M unit :=
  puts (Some (match level with
              | INFO => chars "[INFO]: "
              | DEBUG => chars "[DEBUG]: "
              | WARNNING => chars "[WARNNING]: "
              | ERROR => chars "[ERROR]: "
              end)) ;;
  puts (Some msg).

(** [proc::dump] prints the table entry of a process; [name] ends at its first NUL. *)
Definition c_name (p : process) : list Z :=
  match find_idx (fun c => c =? 0) (p_name p) with Some k => take k (p_name p) | None => p_name p end.

Definition status_text (st : proc_status) : list Z :=
  match st with
  | UNUSED => chars "status: UNUSED"
  | USED => chars "status: USED"
  | SLEEPING => chars "status: SLEEPING"
  | RUNNABLE => chars "status: RUNNABLE"
  | RUNNING => chars "status: RUNNING"
  | ZOMBIE => chars "status: ZOMBIE"
  end.

Definition dump (p : process) : M unit :=
  print (chars "pid: {}, name: {} ") [FInt 32 false (p_pid p); FStr (Some (c_name p))] ;;
  print (status_text (p_status p)) [] ;;
  print [10] [].

(** ** Printing on an idle serial port *)

(** The bytes [l] can be printed from the state. *)
Definition can_print (n : nat) (s : kernel) : Prop := room 1 (k_hl s) /\ nested (k_hl s) /\ ready n (k_uart s).

Definition sent (l : list Z) (s : kernel) : kernel := set_k_uart (echo l (k_uart s)) s.

Lemma sent_app l1 l2 s : sent l2 (sent l1 s) = sent (l1 ++ l2) s.
Proof. unfold sent. cbn. by rewrite echo_app. Qed.

Lemma sent_nil s : sent [] s = s.
Proof. unfold sent. rewrite echo_nil. by destruct s. Qed.

Lemma can_print_sent n l s : can_print (n + length l) s -> can_print n (sent l s).
Proof. intros (? & ? & ?). split; [done|]. split; [done|]. by apply ready_echo. Qed.

Lemma can_print_weaken n k s : can_print n s -> (k <= n)%nat -> can_print k s.
Proof. intros (? & ? & ? & ?) ?. split; [done|]. split; [done|]. split; [lia | done]. Qed.

Lemma put_all_run l : forall s e, can_print (length l) s -> Forall in8 l -> put_all l s e = Ret tt (sent l s) e.
Proof.
  induction l as [|c l IH]; intros s e Hp Hl; cbn [put_all]; [by rewrite sent_nil|]. apply list.Forall_cons in Hl as [Hc Hl].
  pose proof (can_print_weaken _ 1 _ Hp ltac:(cbn; lia)) as (H1 & H2 & H3). eapply eq_trans; [apply (bind_Ret _ _ _ _ tt); by apply Console.putc_char_run|].
  change (set_k_uart (echo [c] (k_uart s)) s) with (sent [c] s). rewrite IH; [by rewrite sent_app | | done]. apply can_print_sent. cbn [length] in *. by rewrite Nat.add_comm.
Qed.

(** *** Arguments *)

Definition radix (is_hex : bool) : Z := if is_hex then 16 else 10.

(** A value of its type, other than the least one. *)
Definition arg_ok (a : farg) : Prop :=
  match a with
  | FInt w sgn v => 0 < w <= 64 /\ if sgn then - 2 ^ (w - 1) < v < 2 ^ (w - 1) else 0 <= v < 2 ^ w
  | FStr (Some l) => Forall in8 l
  | FStr None => True
  end.

(** The text of an argument: a numeral that reads back as the number, without leading
    zeros and with at most 31 characters; the first 31 characters of a string. *)
Definition shows (is_hex : bool) (a : farg) (t : list Z) : Prop :=
  match a with
  | FInt _ _ v => parse_int (radix is_hex) t = Some v /\ (hd 0 t = 48 -> t = [48]) /\ (length t <= 31)%nat
  | FStr (Some l) => t = take 31 l
  | FStr None => t = []
  end.

Lemma digit_char_val d : 0 <= d < 16 -> digit_val (digit_char d) = Some d.
Proof. intros H. unfold digit_char, digit_val. repeat case_match; zcases; f_equal; try lia; rewrite ?andb_true_iff, ?andb_false_iff, ?Z.leb_le, ?Z.leb_gt in *; lia. Qed.

Lemma digit_char_byte d : 0 <= d < 16 -> in8 (digit_char d).
Proof. intros H. unfold digit_char, in8. case_match; lia. Qed.

Section fill.
Context (base : Z) (Hb : 2 <= base <= 16).

Lemma fill_parse n : forall x acc, 0 <= x < base ^ Z.of_nat n -> parse_nat base 0 (fill n x base acc) = parse_nat base x acc.
Proof.
  induction n as [|n IH]; intros x acc Hx; [cbn in *; f_equal; lia|]. cbn [fill]. destruct (Z.ltb_spec 0 x) as [Hp|Hz]; [|f_equal; lia].
  pose proof (Z.mod_pos_bound x base ltac:(lia)). pose proof (Z.div_mod x base ltac:(lia)). rewrite IH.
  - erewrite parse_nat_digit; [|apply digit_char_val; lia | lia]. f_equal. lia.
  - rewrite Nat2Z.inj_succ, Z.pow_succ_r in Hx by lia. split; [apply Z.div_pos; lia | apply Z.div_lt_upper_bound; lia].
Qed.

Lemma fill_in8 n : forall x acc, Forall in8 acc -> Forall in8 (fill n x base acc).
Proof.
  induction n as [|n IH]; intros x acc Ha; [done|]. cbn [fill]. case_match; [|done]. apply IH. constructor; [|done]. apply digit_char_byte.
  pose proof (Z.mod_pos_bound x base ltac:(lia)). lia.
Qed.

Lemma fill_length n : forall x acc k, x < base ^ Z.of_nat k -> (length acc <= length (fill n x base acc) <= length acc + k)%nat.
Proof.
  induction n as [|n IH]; intros x acc k Hx; [cbn; lia|]. cbn [fill]. destruct (Z.ltb_spec 0 x) as [Hp|Hz]; [|lia]. destruct k as [|k]; [cbn in Hx; lia|].
  rewrite Nat2Z.inj_succ, Z.pow_succ_r in Hx by lia. specialize (IH (x / base) (digit_char (x mod base) :: acc) k ltac:(apply Z.div_lt_upper_bound; lia)). cbn [length] in IH. lia.
Qed.

(** No leading zero. *)
Lemma fill_lead n : forall x acc, 0 < x < base ^ Z.of_nat n -> hd 0 (fill n x base acc) <> 48.
Proof.
  induction n as [|n IH]; intros x acc Hx; [cbn in Hx; lia|]. cbn [fill]. rewrite (proj2 (Z.ltb_lt _ _)) by lia.
  pose proof (Z.mod_pos_bound x base ltac:(lia)). pose proof (Z.div_mod x base ltac:(lia)). destruct (decide (x / base = 0)) as [E|E].
  - rewrite E. assert (fill n 0 base (digit_char (x mod base) :: acc) = digit_char (x mod base) :: acc) as -> by (by destruct n). cbn.
    pose proof (digit_char_val (x mod base) ltac:(lia)) as Hv. intros E2. rewrite E2 in Hv. injection Hv. lia.
  - apply IH. rewrite Nat2Z.inj_succ, Z.pow_succ_r in Hx by lia. pose proof (Z.div_pos x base ltac:(lia) ltac:(lia)). split; [lia | apply Z.div_lt_upper_bound; lia].
Qed.
End fill.

Lemma format_arg_run a is_hex : arg_ok a -> exists t, (forall s e, format_arg 32 a is_hex s e = put_all t s e) /\ shows is_hex a t /\ Forall in8 t /\ (length t <= 31)%nat.
Proof.
  destruct a as [w sgn v|[l|]]; cbn [arg_ok shows]; intros Ha; cycle 1.
  - exists (take 31 l). split_and!; [done | done | by apply Forall_take | rewrite length_take; lia].
  - exists []. cbn. split_and!; [done | done | constructor | lia].
  - destruct Ha as [Hw Hv]. set (neg := sgn && (v <? 0)). set (x := (if neg then - v else v) mod 2 ^ w). set (base := if is_hex then 16 else 10).
    assert (x = Z.abs v /\ x < 2 ^ 64 /\ (neg = true -> v < 0) /\ (neg = false -> 0 <= v)) as (Ex & Hx & Hneg & Hpos).
    { assert (2 ^ w = 2 * 2 ^ (w - 1)) as Ew by (rewrite <- Z.pow_succ_r by lia; f_equal; lia). pose proof (Z.pow_le_mono_r 2 w 64 ltac:(lia) ltac:(lia)). unfold x, neg.
      destruct sgn; cbn [andb]; [destruct (Z.ltb_spec v 0)|]; rewrite Z.mod_small by lia; repeat split; (lia || done). }
    assert (neg && (32 <=? w) && (v =? - 2 ^ (w - 1)) = false) as E1.
    { destruct neg eqn:En; [|done]. specialize (Hneg eq_refl). destruct sgn; [|done]. rewrite (proj2 (Z.eqb_neq _ _)) by lia. by rewrite andb_false_r. }
    unfold format_arg. change (32 <? 2)%nat with false. cbv iota. fold neg. rewrite E1. fold x. fold base. cbv zeta. destruct (Z.eqb_spec x 0) as [E0|E0].
    + exists [48]. split_and!; [done | destruct is_hex; cbn; f_equal; lia | done | cbn; lia | repeat constructor; lia | cbn; lia].
    + assert (2 <= base <= 16) as Hb by (unfold base; destruct is_hex; lia).
      assert (2 ^ 64 < base ^ Z.of_nat 20) as Hp20 by (unfold base; destruct is_hex; cbn; lia). assert (base ^ Z.of_nat 20 <= base ^ Z.of_nat 31) as Hp31 by (apply Z.pow_le_mono_r; lia).
      change (32 - 1)%nat with 31%nat. set (acc := fill 31 x base []).
      pose proof (fill_length base Hb 31 x [] 20 ltac:(lia)) as Hl. fold acc in Hl. cbn [length] in Hl. rewrite (proj2 (Nat.ltb_lt (length acc) 31)) by lia. rewrite andb_true_r.
      pose proof (fill_parse base Hb 31 x [] ltac:(lia)) as Hparse. fold acc in Hparse. cbn [parse_nat] in Hparse. pose proof (fill_lead base Hb 31 x [] ltac:(lia)) as Hlead. fold acc in Hlead.
      assert (Forall in8 acc) as Hbytes by (apply fill_in8; [done | constructor]). assert (acc <> []) as Hne by (intros Hn; rewrite Hn in Hparse; cbn in Hparse; injection Hparse; lia).
      exists (if neg then 45 :: acc else acc). split; [done|]. change (radix is_hex) with base. destruct neg.
      * specialize (Hneg eq_refl). split_and!; [cbn [parse_int]; rewrite Z.eqb_refl, Hparse; cbn; f_equal; lia | done | cbn [length]; lia | constructor; [unfold in8; lia | done] | cbn [length]; lia].
      * specialize (Hpos eq_refl). split_and!; [rewrite (parse_int_digits _ _ x) by done; f_equal; lia | done | lia | done | lia].
Qed.

(** *** Formats *)

Definition mark (is_hex : bool) : list Z := if is_hex then [123; 120; 125] else [123; 125].

(** A format: texts, each followed by a placeholder, and the last text. *)
Fixpoint format (segs : list (list Z * bool)) (last : list Z) : list Z :=
  match segs with [] => last | (p, h) :: segs' => p ++ mark h ++ format segs' last end.

(** The output: the placeholders replaced by the texts [ts]. *)
Fixpoint filled (segs : list (list Z * bool)) (ts : list (list Z)) (last : list Z) : list Z :=
  match segs, ts with
  | (p, _) :: segs', t :: ts' => p ++ t ++ filled segs' ts' last
  | _, _ => last
  end.

Definition seg_ok (p : list Z * bool) : Prop := Forall in8 (fst p) /\ 123 ∉ fst p.

Lemma placeholder_mark h fmt : placeholder (mark h ++ fmt) = Some (length (mark h), h).
Proof. by destruct h. Qed.

Lemma drop_mark h fmt : drop (length (mark h)) (mark h ++ fmt) = fmt.
Proof. by destruct h. Qed.

Lemma length_mark h : (2 <= length (mark h))%nat.
Proof. destruct h; cbn; lia. Qed.

(** One character, and a text without an opening brace. *)
Lemma putc_sent {B} c (f : unit -> M B) s e n : can_print (S n) s -> in8 c -> bind (Console.putc c) f s e = f tt (sent [c] s) e.
Proof.
  intros Hs Hc. pose proof (can_print_weaken _ 1 _ Hs ltac:(lia)) as (H1 & H2 & H3). apply (bind_Ret _ _ _ _ tt). by apply Console.putc_char_run.
Qed.

Lemma format_loop_text first rest p : forall n fmt s e, Forall in8 p -> 123 ∉ p -> can_print (length p) s ->
  format_loop (length p + n) first rest (p ++ fmt) s e = format_loop n first rest fmt (sent p s) e.
Proof.
  induction p as [|c p IH]; intros n fmt s e Hp Hn Hs; [by rewrite sent_nil|]. apply list.Forall_cons in Hp as [Hc Hp]. apply not_elem_of_cons in Hn as [Hne Hn]. cbn [length Nat.add format_loop app].
  assert (placeholder (c :: p ++ fmt) = None) as ->.
  { cbn. destruct (p ++ fmt); [done|]. by rewrite (proj2 (Z.eqb_neq _ _)) by done. }
  erewrite putc_sent by done. rewrite IH; [by rewrite sent_app | done | done|]. apply can_print_sent. cbn [length] in *. by rewrite Nat.add_comm.
Qed.

(** The loop at a placeholder, with the text [t] of the argument. *)
Lemma format_loop_mark first rest n h fmt t s e : (forall s e, format_arg 32 first h s e = put_all t s e) -> Forall in8 t -> can_print (length t) s ->
  format_loop (S n) first rest (mark h ++ fmt) s e =
    match rest with Some next => fmt' <- next fmt ;; format_loop n first rest fmt' | None => puts (Some fmt) ;; ret [] end (sent t s) e.
Proof.
  intros Et Ht Hs. cbn [format_loop]. destruct (mark h ++ fmt) as [|c m] eqn:Em; [by destruct h|]. rewrite <- Em, placeholder_mark, drop_mark.
  eapply eq_trans; [apply (bind_Ret _ _ _ _ tt); rewrite Et; by apply put_all_run | done].
Qed.

(** The space that printing may need. *)
Definition budget (fmt : list Z) (args : list farg) : nat := length fmt + 31 * length args.

Lemma print_format_run next : forall first p h segs last s e, arg_ok first -> Forall arg_ok next -> seg_ok (p, h) -> Forall seg_ok segs -> Forall in8 last -> length segs = length next ->
  can_print (budget (format ((p, h) :: segs) last) (first :: next)) s ->
  exists t ts, print_format first next (format ((p, h) :: segs) last) s e = Ret [] (sent (filled ((p, h) :: segs) (t :: ts) last) s) e /\
    shows h first t /\ Forall3 (fun seg a t => shows (snd seg) a t) segs next ts.
Proof.
  induction next as [|a next IH]; intros first p h segs last s e Hf Hn [Hp Hpn] Hsegs Hlast Hlen Hs; destruct (format_arg_run first h Hf) as (t & Et & Ht & Htb & Htl);
    destruct segs as [|[p2 h2] segs]; try done; unfold budget in Hs; cbn [length format fst] in *; rewrite !length_app in Hs; pose proof (length_mark h) as Hm.
  - exists t, []. split; [|split; [done | constructor]]. cbn [print_format filled].
    replace (S (length (p ++ mark h ++ last))) with (length p + S (length (mark h ++ last)))%nat by (rewrite !length_app; lia).
    assert (can_print (length t + length last) (sent p s)) as Hs1 by (apply can_print_sent; eapply can_print_weaken; [exact Hs | lia]).
    rewrite format_loop_text by (done || by eapply can_print_weaken; [exact Hs | lia]). rewrite (format_loop_mark _ _ _ _ _ t) by (done || by eapply can_print_weaken; [exact Hs1 | lia]). cbn [puts].
    eapply eq_trans; [apply (bind_Ret _ _ _ _ tt); apply put_all_run; [apply can_print_sent; by rewrite Nat.add_comm | done]|]. by rewrite !sent_app.
  - apply list.Forall_cons in Hn as [Ha Hn]. apply list.Forall_cons in Hsegs as [Hseg Hsegs]. set (m' := format ((p2, h2) :: segs) last).
    change (p2 ++ mark h2 ++ format segs last) with m' in Hs |- *. assert (can_print (length t + budget m' (a :: next)) (sent p s)) as Hs1.
    { apply can_print_sent. eapply can_print_weaken; [exact Hs|]. unfold budget, m'. cbn [length format]. rewrite !length_app. lia. }
    destruct (IH a p2 h2 segs last (sent t (sent p s)) e Ha Hn Hseg Hsegs Hlast ltac:(lia)) as (t2 & ts & E2 & Ht2 & Hts); [apply can_print_sent; by rewrite Nat.add_comm|]. fold m' in E2.
    exists t, (t2 :: ts). split; [|split; [done | by constructor]]. change (filled ((p, h) :: (p2, h2) :: segs) (t :: t2 :: ts) last) with (p ++ t ++ filled ((p2, h2) :: segs) (t2 :: ts) last).
    cbn [print_format]. replace (S (length (p ++ mark h ++ m'))) with (length p + S (length (mark h ++ m')))%nat by (rewrite !length_app; lia).
    rewrite format_loop_text by (done || by eapply can_print_weaken; [exact Hs | lia]). rewrite (format_loop_mark _ _ _ _ _ t) by (done || by eapply can_print_weaken; [exact Hs1 | lia]).
    eapply eq_trans; [apply (bind_Ret _ _ _ _ []); exact E2|]. cbn [format_loop]. destruct (length (mark h ++ m')) eqn:El; [rewrite length_app in El; lia|]. by rewrite !sent_app.
Qed.

(** Printing with the lock. *)
Lemma print_run segs args last s e :
  length segs = length args -> Forall seg_ok segs -> Forall arg_ok args -> Forall in8 last ->
  room 2 (k_hl s) -> nested (k_hl s) -> Lock.free L_pr (k_hl s) -> ready (budget (format segs last) args) (k_uart s) ->
  exists ts, print (format segs last) args s e = Ret tt (sent (filled segs ts last) s) e /\
    Forall3 (fun seg a t => shows (snd seg) a t) segs args ts.
Proof.
  intros Hlen Hsegs Hargs Hlast Hr Hn Hf Hu. set (s1 := set_k_hl (acq L_pr (k_hl s)) s).
  assert (can_print (budget (format segs last) args) s1) as Hs1 by (split; [exact (room_acq 2 _ _ Hr) | split; [exact (nested_acq _ _ 2 Hr) | done]]).
  assert (forall t, release L_pr (sent t s1) e = Ret tt (sent t s) e) as Hrel.
  { intros t. rewrite (release_acq_run _ (k_hl s)) by (done || by apply (room_weaken 2)). rewrite Hn. unfold sent, s1. by destruct s. }
  unfold print.
  destruct args as [|a args], segs as [|[p h] segs]; try done.
  - exists []. split; [|constructor]. kstep acquire_run; [by apply (room_weaken 2) | done|]. fold s1. cbn [format filled].
    eapply eq_trans; [apply (bind_Ret _ _ _ _ tt); cbn [puts]; apply put_all_run; [eapply can_print_weaken; [exact Hs1 | unfold budget; cbn; lia] | done]|]. apply Hrel.
  - apply list.Forall_cons in Hsegs as [Hseg Hsegs]. apply list.Forall_cons in Hargs as [Ha Hargs].
    destruct (print_format_run args a p h segs last s1 e Ha Hargs Hseg Hsegs Hlast ltac:(by injection Hlen) Hs1) as (t & ts & E & Ht & Hts).
    exists (t :: ts). split; [|by constructor]. kstep acquire_run; [by apply (room_weaken 2) | done|]. fold s1. rewrite bind_assoc.
    eapply eq_trans; [apply (bind_Ret _ _ _ _ []); exact E|]. apply Hrel.
Qed.

(** Texts, decided. *)
Lemma bytes_by_test l : forallb (fun c => (0 <=? c) && (c <? 256)) l = true -> Forall in8 l.
Proof. intros H. rewrite forallb_forall in H. apply Forall_forall. intros c Hc. specialize (H c Hc). rewrite andb_true_iff, Z.leb_le, Z.ltb_lt in H. exact H. Qed.

Lemma seg_by_test p h : forallb (fun c => (0 <=? c) && (c <? 256) && negb (c =? 123)) p = true -> seg_ok (p, h).
Proof.
  intros H. rewrite forallb_forall in H. split; [apply Forall_forall; intros c Hc|intros Hc%list_elem_of_In]; specialize (H _ Hc); rewrite !andb_true_iff, negb_true_iff, Z.leb_le, Z.ltb_lt, Z.eqb_neq in H; cbn in *; unfold in8; lia.
Qed.

Lemma print_text l s e : Forall in8 l -> room 2 (k_hl s) -> nested (k_hl s) -> Lock.free L_pr (k_hl s) ->
  ready (length l) (k_uart s) -> print l [] s e = Ret tt (sent l s) e.
Proof.
  intros Hl Hr Hn Hf Hu. destruct (print_run [] [] l s e) as (ts & E & _); try done; destruct Hu; (split || constructor); try done.
  unfold budget. cbn. lia.
Qed.

(** What [dump] prints of a process: its number, its name and its state. *)
Lemma dump_run p s e : in32 (p_pid p) -> Forall in8 (p_name p) ->
  room 2 (k_hl s) -> nested (k_hl s) -> Lock.free L_pr (k_hl s) -> ready 120 (k_uart s) ->
  exists t, shows false (FInt 32 false (p_pid p)) t /\
    dump p s e = Ret tt (sent (chars "pid: " ++ t ++ chars ", name: " ++ take 31 (c_name p) ++ chars " " ++
                               status_text (p_status p) ++ [10]) s) e.
Proof.
  intros Hpid Hname Hr Hn Hf Hu.
  assert (Hc : Forall in8 (c_name p)) by (unfold c_name; destruct (find_idx _ _); [by apply Forall_take | done]).
  assert (Hst : Forall in8 (status_text (p_status p)) /\ (length (status_text (p_status p)) <= 16)%nat)
    by (destruct (p_status p); (split; [apply bytes_by_test; reflexivity | cbn; lia])).
  destruct (print_run [(chars "pid: ", false); (chars ", name: ", false)] [FInt 32 false (p_pid p); FStr (Some (c_name p))] (chars " ") s e)
    as (ts & E & Hts); try done.
  { repeat (constructor; [apply seg_by_test; reflexivity|]). constructor. }
  { constructor; [cbn; unfold in32 in *; lia | by constructor]. }
  { by apply bytes_by_test. }
  { destruct Hu. split; [cbn; lia | done]. }
  inversion Hts as [|seg1 a1 t1 ? ? ? H1 Hts1]; subst. inversion Hts1 as [|seg2 a2 t2 ? ? ? H2 Hts2]; subst. inversion Hts2; subst.
  cbn [snd] in H1, H2. cbn [shows] in H2. subst t2. exists t1. split; [exact H1|].
  set (l1 := filled _ _ _) in E. assert (Hl1 : (length l1 <= 80)%nat).
  { destruct H1 as (_ & _ & H1). unfold l1. cbn [filled]. rewrite !length_app, length_take.
    change (length (chars "pid: ")) with 5%nat. change (length (chars ", name: ")) with 8%nat. change (length (chars " ")) with 1%nat. lia. }
  assert (Hu1 : ready 40 (k_uart (sent l1 s))) by (apply ready_echo; destruct Hu; split; [lia | done]).
  unfold dump. kstep E. destruct Hst as [Hs8 Hsl].
  kstep print_text; [done | done | done | done | destruct Hu1; split; [lia | done] |].
  eapply eq_trans; [apply print_text|]; try done.
  { by apply bytes_by_test. }
  { apply ready_echo. destruct Hu1. split; [change (length [10]) with 1%nat; lia | done]. }
  rewrite !sent_app. unfold l1. cbn [filled]. by rewrite <- !app_assoc.
Qed.

(** C22: The kernel's print sends the format to the serial port with the placeholders
    replaced by the arguments in order, each number as a numeral in base 10 or 16 that
    reads back as the number, a string cut to 31 characters, and leaves the locks as
    they were, with a serial port that gets ready for every character and for every
    number but the least value of a signed type. *)
Theorem print_shows_arguments segs args last s e :
  length segs = length args -> Forall seg_ok segs -> Forall arg_ok args -> Forall in8 last ->
  room 2 (k_hl s) -> nested (k_hl s) -> Lock.free L_pr (k_hl s) -> ready (budget (format segs last) args) (k_uart s) ->
  exists ts, print (format segs last) args s e = Ret tt (sent (filled segs ts last) s) e /\
    Forall3 (fun seg a t => shows (snd seg) a t) segs args ts.
Proof. apply print_run. Qed.

(** "pid {} at 0x{x}: {}\n" with -7, 48879 and "init". *)
Lemma print_shows_arguments_witness :
  let s := set_k_uart (Mk_uartst (zeros 32) 0 0 (replicate 120 32) [] [] 0) (set_k_hl hl_run kernel0) in
  let segs := [(chars "pid ", false); (chars " at 0x", true); (chars ": ", false)] in
  let args := [FInt 32 true (-7); FInt 64 false 48879; FStr (Some (chars "init"))] in
  exists ts, print (chars "pid {} at 0x{x}: {}" ++ [10]) args s [] = Ret tt (sent (filled segs ts [10]) s) [] /\
    Forall3 (fun seg a t => shows (snd seg) a t) segs args ts.
Proof.
  intros s segs args. apply (print_shows_arguments segs args [10] s []).
  - reflexivity.
  - repeat (constructor; [apply seg_by_test; reflexivity|]). constructor.
  - constructor; [cbn; lia|]. constructor; [cbn; lia|]. constructor; [apply bytes_by_test; reflexivity | constructor].
  - apply bytes_by_test. reflexivity.
  - apply hl_run_ready. lia.
  - reflexivity.
  - reflexivity.
  - split; [cbn; lia | apply Forall_replicate; discriminate].
Defined.
