(* ===== verification/Bio.v ===== *)
(** * The buffer cache ([bio.cpp])

    Thirty buffers on a doubly linked list; [bget] finds or recycles one,
    [brelse] moves it to the front.  The disk driver is used through the
    interface [DiskDriver].  [blist] is the list the links represent, and
    [view] the contents of a block as the kernel sees it through the cache. *)

From S2P Require Import Prelude State Riscv Lock Sched.

(** ** The disk driver

    An abstraction of the driver of [virtio_disk.cpp]: a transfer moves the block
    between the buffer's data and the disk, has completed when [disk_rw] returns,
    and changes nothing else.  The real driver, [Virtio.disk_rw], also changes its
    queue and sleeps until the device's interrupt, while other processes run; that
    it moves the block is [VirtioSpec.disk_rw_transfers].  What is shown over the
    class is about transfers during which no other process touches the cache. *)

Definition disk_eff (i : nat) (b : buf) (write : bool) (s : kernel) : kernel :=
  if write then
    set_k_trace (k_trace s ++ [(b_blockno b, b_data b)])
      (set_k_disk (fun n => if n =? b_blockno b then b_data b else k_disk s n) s)
  else set_k_bufs (<[i := set_b_data (k_disk s (b_blockno b)) b]> (k_bufs s)) s.

Class DiskDriver := {
  disk_rw : nat -> bool -> M unit;
  disk_rw_law i b write s e :
    k_bufs s !! i = Some b -> b_disk b = false -> disk_rw i write s e = Ret tt (disk_eff i b write s) e
}.

(** A device that completes a transfer at once satisfies the interface. *)
#[refine] Instance polled_disk : DiskDriver := {|
  disk_rw i write := l <- gets k_bufs ;; b <- of_option "buf" (l !! i) ;; modify (disk_eff i b write)
|}.
Proof. intros i b write s e H _. rewrite bind_gets, H. reflexivity. Defined.

(** ** The functions *)

Definition get_buf (i : nat) : M buf := l <- gets k_bufs ;; of_option "buf" (l !! i).
Definition upd_buf (i : nat) (f : buf -> buf) : M unit :=
  b <- get_buf i ;; modify (fun s => set_k_bufs (<[i := f b]> (k_bufs s)) s).

(** The index of [bcache.head]. *)
Definition HEAD : nat := NBUF.

(** [b.next = bcache.head.next; b.prev = &bcache.head;
     bcache.head.next->prev = &b; bcache.head.next = &b]. *)
Definition push_front (i : nat) : M unit :=
  h <- get_buf HEAD ;;
  upd_buf i (set_b_next (b_next h)) ;;
  upd_buf i (set_b_prev HEAD) ;;
  h <- get_buf HEAD ;;
  upd_buf (b_next h) (set_b_prev i) ;;
  upd_buf HEAD (set_b_next i).

Definition binit : M unit :=
  upd_buf HEAD (set_b_prev HEAD) ;;
  upd_buf HEAD (set_b_next HEAD) ;;
  for_range 0 NBUF push_front.

(** The [while (rs != &bcache.head)] loops of [bget]; the list has [NBUF] elements. *)
Fixpoint bfind (fuel : nat) (f : buf -> bool) (rs : nat) : M (option nat) :=
  match fuel with
  | O => fun _ _ => NoFuel
  | S fu =>
      if bool_decide (rs = HEAD) then ret None
      else b <- get_buf rs ;; if f b then ret (Some rs) else bfind fu f (b_next b)
  end.

Definition same_block (dev blockno : Z) (b : buf) : bool := (b_dev b =? dev) && (b_blockno b =? blockno).
Definition unused (b : buf) : bool := b_refcnt b =? 0.

Definition recycle (dev blockno : Z) (b : buf) : buf :=
  set_b_refcnt 1 (set_b_valid false (set_b_blockno blockno (set_b_dev dev b))).

Definition bget (dev blockno : Z) : M nat :=
  acquire L_bcache ;;
  h <- get_buf HEAD ;;
  hit <- bfind (S NBUF) (same_block dev blockno) (b_next h) ;;
  match hit with
  | Some rs =>
      upd_buf rs (fun b => set_b_refcnt (u32 (b_refcnt b + 1)) b) ;;
      release L_bcache ;;
      sleep_acquire (buf_sl rs) ;;
      ret rs
  | None =>
      h <- get_buf HEAD ;;
      free <- bfind (S NBUF) unused (b_next h) ;;
      match free with
      | Some rs =>
          upd_buf rs (recycle dev blockno) ;;
          release L_bcache ;;
          sleep_acquire (buf_sl rs) ;;
          ret rs
      | None => panic "no buffers"
      end
  end.

(** [b.next->prev = b.prev; b.prev->next = b.next]. *)
Definition unlink (i : nat) : M unit :=
  b <- get_buf i ;;
  upd_buf (b_next b) (set_b_prev (b_prev b)) ;;
  b <- get_buf i ;;
  upd_buf (b_prev b) (set_b_next (b_next b)).

Definition brelse (i : nat) : M unit :=
  held <- sleep_holding (buf_sl i) ;;
  if negb held then panic "bio::brelse: no lock"
  else
    sleep_release (buf_sl i) ;;
    acquire L_bcache ;;
    upd_buf i (fun b => set_b_refcnt (u32 (b_refcnt b - 1)) b) ;;
    b <- get_buf i ;;
    when (b_refcnt b =? 0) (unlink i ;; push_front i) ;;
    release L_bcache.

Definition bpin (i : nat) : M unit :=
  acquire L_bcache ;;
  upd_buf i (fun b => set_b_refcnt (u32 (b_refcnt b + 1)) b) ;;
  release L_bcache.

Definition bupin (i : nat) : M unit :=
  acquire L_bcache ;;
  upd_buf i (fun b => set_b_refcnt (u32 (b_refcnt b - 1)) b) ;;
  release L_bcache.

Section driver.
Context {DD : DiskDriver}.

Definition bread (dev blockno : Z) : M nat :=
  rs <- bget dev blockno ;;
  b <- get_buf rs ;;
  when (negb (b_valid b)) (disk_rw rs false ;; upd_buf rs (set_b_valid true)) ;;
  ret rs.

Definition bwrite (i : nat) : M unit :=
  held <- sleep_holding (buf_sl i) ;;
  if negb held then panic "bio::bwrite: no lock" else disk_rw i true.
End driver.

(** ** Doubly linked lists *)

Section seg.
Context (nx pv : nat -> nat).

(** The links lead from [a] through [l] to [c], and back. *)
Fixpoint seg (a : nat) (l : list nat) (c : nat) : Prop :=
  match l with
  | [] => nx a = c /\ pv c = a
  | x :: l' => nx a = x /\ pv x = a /\ seg x l' c
  end.
End seg.

Lemma seg_app nx pv a l1 x l2 c : seg nx pv a (l1 ++ x :: l2) c <-> seg nx pv a l1 x /\ seg nx pv x l2 c.
Proof. revert a; induction l1 as [|y l1 IH]; intros a; cbn; [tauto|]. rewrite IH. tauto. Qed.

(** Links that no element of the segment uses may change. *)
Lemma seg_ext nx pv nx' pv' a l c :
  (forall x, x = a \/ x ∈ l -> nx' x = nx x) -> (forall x, x = c \/ x ∈ l -> pv' x = pv x) ->
  seg nx pv a l c -> seg nx' pv' a l c.
Proof.
  revert a; induction l as [|y l IH]; intros a Hn Hp; cbn.
  - intros [? ?]. rewrite Hn, Hp by auto. done.
  - intros (? & ? & ?). rewrite Hn, Hp by set_solver. split; [done|]. split; [done|].
    apply IH; try done; intros x Hx; [apply Hn | apply Hp]; set_solver.
Qed.

Lemma seg_ends nx pv a l c : seg nx pv a l c ->
  (nx a = c /\ l = [] \/ nx a ∈ l) /\ (pv c = a /\ l = [] \/ pv c ∈ l).
Proof.
  revert a; induction l as [|y l IH]; intros a; cbn; [intros [-> ->]; auto|].
  intros (-> & _ & Hs). split; [right; set_solver|]. destruct (IH y Hs) as [_ [[-> ->]|Hp]]; right; set_solver.
Qed.

Definition fupd (f : nat -> nat) (k v : nat) : nat -> nat := fun x => if bool_decide (x = k) then v else f x.

Lemma fupd_eq f k v : fupd f k v k = v.
Proof. unfold fupd. by rewrite bool_decide_true. Qed.

Lemma fupd_ne f k v x : x <> k -> fupd f k v x = f x.
Proof. intros. unfold fupd. by rewrite bool_decide_false. Qed.

(** [i] is unlinked from the segment. *)
Lemma seg_unlink nx pv a l1 i l2 c :
  NoDup (a :: l1 ++ i :: l2) -> c ∉ l1 ++ i :: l2 -> seg nx pv a l1 i -> seg nx pv i l2 c ->
  seg (fupd nx (pv i) (nx i)) (fupd pv (nx i) (pv i)) a (l1 ++ l2) c.
Proof.
  revert a; induction l1 as [|x l1 IH]; intros a Hnd Hc H1 H2.
  - cbn in H1. destruct H1 as [Ha Hpi]. rewrite Hpi. apply list.NoDup_cons in Hnd as [Hai Hnd].
    apply list.NoDup_cons in Hnd as [Hil Hnd]. destruct l2 as [|x l2]; cbn in H2 |- *.
    + destruct H2 as [-> _]. by rewrite !fupd_eq.
    + destruct H2 as (-> & _ & H2). rewrite !fupd_eq. split; [done|]. split; [done|].
      apply list.NoDup_cons in Hnd as [Hx Hnd].
      apply (seg_ext nx pv); [| |done]; intros y Hy; apply fupd_ne; set_solver.
  - cbn in H1. destruct H1 as (Ha & Hx & H1). cbn [app] in Hnd. apply list.NoDup_cons in Hnd as [Han Hnd].
    destruct (seg_ends _ _ _ _ _ H1) as [_ Hp]. destruct (seg_ends _ _ _ _ _ H2) as [Hn _].
    assert (a <> pv i) as Hap.
    { intros E. rewrite <- E in Hp. apply Han. destruct Hp as [[-> _]|Hp]; set_solver. }
    assert (x <> nx i) as Hxn.
    { apply list.NoDup_cons in Hnd as [Hx' _]. intros E. rewrite <- E in Hn.
      destruct Hn as [[<- _]|Hn]; [apply Hc | apply Hx']; set_solver. }
    cbn. rewrite !fupd_ne by done. split; [done|]. split; [done|]. apply IH; try done. set_solver.
Qed.

(** [i] is linked in after [a]. *)
Lemma seg_push nx pv a i l c :
  i <> a -> i ∉ l -> i <> c -> a ∉ l -> NoDup l -> c ∉ l -> seg nx pv a l c ->
  seg (fupd (fupd nx i (nx a)) a i) (fupd (fupd pv i a) (nx a) i) a (i :: l) c.
Proof.
  intros Hia Hil Hic Hal Hnd Hcl Hs. assert (nx a <> i) as Hni.
  { destruct (seg_ends _ _ _ _ _ Hs) as [[[-> _]|Hn] _]; [done|]. by intros E; rewrite E in Hn. }
  cbn. rewrite fupd_eq. split; [done|]. split; [rewrite fupd_ne, fupd_eq by done; done|].
  destruct l as [|x l]; cbn in Hs |- *.
  - destruct Hs as [-> _]. rewrite fupd_ne, !fupd_eq by done. done.
  - destruct Hs as (-> & _ & Hs). rewrite fupd_ne, !fupd_eq by done. split; [done|]. split; [done|].
    apply list.NoDup_cons in Hnd as [Hx Hnd].
    apply (seg_ext nx pv); [| |done]; intros y Hy; rewrite !fupd_ne by set_solver; done.
Qed.

(** ** The list of buffers *)

Definition bnext (bufs : list buf) (i : nat) : nat := default HEAD (b_next <$> bufs !! i).
Definition bprev (bufs : list buf) (i : nat) : nat := default HEAD (b_prev <$> bufs !! i).

(** The buffers in list order, from [bcache.head.next] on. *)
Record blist (bufs : list buf) (ord : list nat) : Prop := BList {
  bl_len : length bufs = S NBUF;
  bl_in i : i ∈ ord <-> (i < NBUF)%nat;
  bl_nodup : NoDup ord;
  bl_seg : seg (bnext bufs) (bprev bufs) HEAD ord HEAD
}.

Lemma get_buf_run i b s e : k_bufs s !! i = Some b -> get_buf i s e = Ret b s e.
Proof. intros H. unfold get_buf. kred. by rewrite H. Qed.

Lemma upd_buf_run i f b s e :
  k_bufs s !! i = Some b -> upd_buf i f s e = Ret tt (set_k_bufs (<[i := f b]> (k_bufs s)) s) e.
Proof. intros H. unfold upd_buf. kstep get_buf_run; [done|]. done. Qed.

Lemma bnext_some bufs i b : bufs !! i = Some b -> bnext bufs i = b_next b /\ bprev bufs i = b_prev b.
Proof. intros H. unfold bnext, bprev. by rewrite H. Qed.

(** Fields other than the links do not matter. *)
Lemma blist_upd bufs ord i b b' :
  blist bufs ord -> bufs !! i = Some b -> b_next b' = b_next b -> b_prev b' = b_prev b -> blist (<[i := b']> bufs) ord.
Proof.
  intros [L I N S] Hi Hn Hp. split; try done; [by rewrite length_insert|].
  assert (forall j, <[i := b']> bufs !! j = (if bool_decide (j = i) then Some b' else bufs !! j)) as E.
  { intros j. case_bool_decide as Ej; [subst; apply list_lookup_insert_eq; by apply lookup_lt_Some in Hi | by apply list_lookup_insert_ne]. }
  apply (seg_ext (bnext bufs) (bprev bufs)); [| |done]; intros j _; unfold bnext, bprev; rewrite E;
    case_bool_decide; subst; rewrite ?Hi; cbn; congruence.
Qed.

Lemma blist_some bufs ord i : blist bufs ord -> (i <= NBUF)%nat -> is_Some (bufs !! i).
Proof. intros [L _ _ _] Hi. apply lookup_lt_is_Some_2. lia. Qed.

(** ** Searching *)

Fixpoint bfirst (f : buf -> bool) (bufs : list buf) (l : list nat) : option nat :=
  match l with
  | [] => None
  | i :: l' => match bufs !! i with
               | Some b => if f b then Some i else bfirst f bufs l'
               | None => None
               end
  end.

Lemma bfirst_Some f bufs l i :
  bfirst f bufs l = Some i -> i ∈ l /\ exists b, bufs !! i = Some b /\ f b = true.
Proof.
  induction l as [|j l IH]; cbn; [done|]. destruct (bufs !! j) as [b|] eqn:E; [|done].
  destruct (f b) eqn:Ef; [intros [= <-]; split; [set_solver | by exists b]|].
  intros [? ?]%IH. split; [set_solver | done].
Qed.

Lemma bfirst_None f bufs l :
  (forall i, i ∈ l -> is_Some (bufs !! i)) ->
  bfirst f bufs l = None <-> forall i b, i ∈ l -> bufs !! i = Some b -> f b = false.
Proof.
  induction l as [|j l IH]; intros Hs; cbn; [set_solver|].
  destruct (Hs j) as [b Hb]; [set_solver|]. rewrite Hb. destruct (f b) eqn:Ef.
  - split; [done|]. intros H. rewrite (H j b) in Ef by set_solver. done.
  - rewrite IH by set_solver. split.
    + intros H i b' [->|Hi]%elem_of_cons Hb'; [congruence | by apply (H i)].
    + intros H i b' Hi. apply H. set_solver.
Qed.

Lemma bfind_run_from f s e a l fuel :
  seg (bnext (k_bufs s)) (bprev (k_bufs s)) a l HEAD -> (forall i, i ∈ l -> is_Some (k_bufs s !! i) /\ i <> HEAD) ->
  (length l < fuel)%nat ->
  bfind fuel f (bnext (k_bufs s) a) s e = Ret (bfirst f (k_bufs s) l) s e.
Proof.
  revert a fuel; induction l as [|i l IH]; intros a fuel Hs Hl Hf; (destruct fuel as [|fuel]; [cbn in Hf; lia|]); cbn in Hs |- *.
  - destruct Hs as [-> _]. by rewrite bool_decide_true.
  - destruct Hs as (-> & _ & Hs). destruct (Hl i) as [[b Hb] Hne]; [set_solver|].
    rewrite bool_decide_false by done. kstep get_buf_run; [done|]. rewrite Hb.
    destruct (f b); [done|]. rewrite <- (IH i fuel Hs); [|set_solver|cbn in Hf; lia].
    unfold bnext. by rewrite Hb.
Qed.

Lemma length_ord bufs ord : blist bufs ord -> length ord = NBUF.
Proof.
  intros [_ I N _]. transitivity (length (seq 0 NBUF)); [|apply length_seq]. apply Permutation_length, NoDup_Permutation; [done | apply NoDup_seq |].
  intros i. rewrite I, elem_of_seq. lia.
Qed.

Lemma bfind_run f s e ord h :
  blist (k_bufs s) ord -> k_bufs s !! HEAD = Some h ->
  bfind (S NBUF) f (b_next h) s e = Ret (bfirst f (k_bufs s) ord) s e.
Proof.
  intros Hb Hh. destruct (bnext_some _ _ _ Hh) as [<- _]. apply bfind_run_from.
  - apply Hb.
  - intros i Hi. apply (bl_in _ _ Hb) in Hi. split; [apply (blist_some _ ord); [done | lia] | unfold HEAD; lia].
  - rewrite (length_ord _ _ Hb). lia.
Qed.

(** ** Moving a buffer to the front *)

Lemma lookup_upd (bufs : list buf) (i : nat) b' (j : nat) : (i < length bufs)%nat ->
  <[i := b']> bufs !! j = if bool_decide (j = i) then Some b' else bufs !! j.
Proof.
  intros Hi. case_bool_decide as Ej; [subst; by apply list_lookup_insert_eq | by apply list_lookup_insert_ne].
Qed.

(** Updating a link of buffer [i] is updating the link function. *)
Lemma upd_next (bufs : list buf) (i : nat) b v : bufs !! i = Some b ->
  (forall x, bnext (<[i := set_b_next v b]> bufs) x = fupd (bnext bufs) i v x) /\
  (forall x, bprev (<[i := set_b_next v b]> bufs) x = bprev bufs x).
Proof.
  intros Hi. pose proof (lookup_lt_Some _ _ _ Hi) as Hl.
  split; intros x; unfold bnext, bprev, fupd; rewrite lookup_upd by done; case_bool_decide; subst; rewrite ?Hi; done.
Qed.

Lemma upd_prev (bufs : list buf) (i : nat) b v : bufs !! i = Some b ->
  (forall x, bprev (<[i := set_b_prev v b]> bufs) x = fupd (bprev bufs) i v x) /\
  (forall x, bnext (<[i := set_b_prev v b]> bufs) x = bnext bufs x).
Proof.
  intros Hi. pose proof (lookup_lt_Some _ _ _ Hi) as Hl.
  split; intros x; unfold bnext, bprev, fupd; rewrite lookup_upd by done; case_bool_decide; subst; rewrite ?Hi; done.
Qed.

(** Two tables that differ in links only. *)
Definition same_data (bufs bufs' : list buf) : Prop :=
  length bufs' = length bufs /\
  forall i b, bufs !! i = Some b -> exists n p, bufs' !! i = Some (set_b_next n (set_b_prev p b)).

Lemma same_data_refl bufs : same_data bufs bufs.
Proof. split; [done|]. intros i b H. exists (b_next b), (b_prev b). rewrite H. by destruct b. Qed.

Lemma same_data_trans b1 b2 b3 : same_data b1 b2 -> same_data b2 b3 -> same_data b1 b3.
Proof.
  intros [L1 H1] [L2 H2]. split; [congruence|]. intros i b Hb.
  destruct (H1 i b Hb) as (n & p & H). destruct (H2 i _ H) as (n' & p' & H'). by exists n', p'.
Qed.

Lemma same_data_upd (bufs : list buf) (i : nat) b b' : bufs !! i = Some b -> (exists n p, b' = set_b_next n (set_b_prev p b)) ->
  same_data bufs (<[i := b']> bufs).
Proof.
  intros Hi (n & p & ->). pose proof (lookup_lt_Some _ _ _ Hi) as Hl. split; [apply length_insert|].
  intros j c Hj. rewrite lookup_upd by done. case_bool_decide; subst.
  - rewrite Hi in Hj. injection Hj as <-. by exists n, p.
  - exists (b_next c), (b_prev c). rewrite Hj. by destruct c.
Qed.

Lemma next_link b v : exists n p, set_b_next v b = set_b_next n (set_b_prev p b).
Proof. exists v, (b_prev b). by destruct b. Qed.

Lemma prev_link b v : exists n p, set_b_prev v b = set_b_next n (set_b_prev p b).
Proof. exists (b_next b), v. by destruct b. Qed.

Lemma seg_bounds bufs ord i : blist bufs ord -> i = HEAD \/ i ∈ ord -> (i <= NBUF)%nat.
Proof. intros Hb [->|Hi]; [done|]. apply (bl_in _ _ Hb) in Hi. lia. Qed.

Lemma seg_neighbours bufs ord o1 i o2 :
  blist bufs ord -> ord = o1 ++ i :: o2 ->
  (bnext bufs i <= NBUF)%nat /\ (bprev bufs i <= NBUF)%nat /\ bnext bufs i <> i /\ bprev bufs i <> i.
Proof.
  intros Hb ->. pose proof (bl_seg _ _ Hb) as Hs. apply seg_app in Hs as [H1 H2].
  pose proof (bl_nodup _ _ Hb) as Hnd. apply list.NoDup_app in Hnd as (_ & Hd & Hnd). apply list.NoDup_cons in Hnd as [Hi2 _].
  assert (i <> HEAD) as Hih. { intros ->. assert (HEAD < NBUF)%nat by (apply (bl_in _ _ Hb); set_solver). unfold HEAD in *. lia. }
  destruct (seg_ends _ _ _ _ _ H2) as [Hn _]. destruct (seg_ends _ _ _ _ _ H1) as [_ Hp].
  split_and!.
  - apply (seg_bounds bufs _ _ Hb). destruct Hn as [[-> _]|Hn]; [by left | set_solver].
  - apply (seg_bounds bufs _ _ Hb). destruct Hp as [[-> _]|Hp]; [by left | set_solver].
  - intros E. rewrite E in Hn. destruct Hn as [[? _]|?]; done.
  - intros E. rewrite E in Hp. destruct Hp as [[-> _]|Hp]; [done|]. apply (Hd i Hp). set_solver.
Qed.

Lemma unlink_run ord o1 i o2 s e :
  blist (k_bufs s) ord -> ord = o1 ++ i :: o2 ->
  exists bufs', unlink i s e = Ret tt (set_k_bufs bufs' s) e /\ same_data (k_bufs s) bufs' /\
    seg (bnext bufs') (bprev bufs') HEAD (o1 ++ o2) HEAD.
Proof.
  intros Hb Ho. destruct (seg_neighbours _ _ _ _ _ Hb Ho) as (Bn & Bp & Nn & Np). subst ord.
  assert (i < NBUF)%nat as Hi by (apply (bl_in _ _ Hb); set_solver).
  destruct (blist_some _ _ i Hb ltac:(lia)) as [b Hbi]. destruct (bnext_some _ _ _ Hbi) as [En Ep].
  destruct (blist_some _ _ (bnext (k_bufs s) i) Hb Bn) as [bn Hbn].
  set (bufs1 := <[bnext (k_bufs s) i := set_b_prev (bprev (k_bufs s) i) bn]> (k_bufs s)).
  assert (is_Some (bufs1 !! bprev (k_bufs s) i)) as [bp Hbp].
  { apply lookup_lt_is_Some_2. unfold bufs1. rewrite length_insert, (bl_len _ _ Hb). lia. }
  exists (<[bprev (k_bufs s) i := set_b_next (bnext (k_bufs s) i) bp]> bufs1). split; [|split].
  - unfold unlink. kstep get_buf_run; [done|]. rewrite <- En, <- Ep. kstep upd_buf_run; [done|]. fold bufs1.
    kstep get_buf_run. { cbn. unfold bufs1. rewrite list_lookup_insert_ne by done. done. }
    rewrite <- En, <- Ep. rewrite (upd_buf_run _ _ bp) by done. done.
  - apply (same_data_trans _ bufs1).
    + apply (same_data_upd _ _ bn); [done | apply prev_link].
    + apply (same_data_upd _ _ bp); [done | apply next_link].
  - destruct (upd_prev _ _ _ (bprev (k_bufs s) i) Hbn) as [P1 P2]. fold bufs1 in P1, P2.
    destruct (upd_next _ _ _ (bnext (k_bufs s) i) Hbp) as [Q1 Q2].
    pose proof (bl_seg _ _ Hb) as Hs. apply seg_app in Hs as [H1 H2].
    assert (HEAD ∉ o1 ++ i :: o2) as Hh. { rewrite (bl_in _ _ Hb). unfold HEAD. lia. }
    pose proof (seg_unlink _ _ HEAD o1 i o2 HEAD ltac:(apply list.NoDup_cons; split; [done | apply Hb]) Hh H1 H2) as Hs.
    revert Hs. apply seg_ext; intros x _.
    + rewrite Q1. unfold fupd. case_bool_decide; [done|]. by rewrite P2.
    + rewrite Q2, P1. done.
Qed.

Lemma push_front_run o i s e :
  length (k_bufs s) = S NBUF -> (forall j, j ∈ o -> (j < NBUF)%nat) -> NoDup o -> (i < NBUF)%nat -> i ∉ o ->
  seg (bnext (k_bufs s)) (bprev (k_bufs s)) HEAD o HEAD ->
  exists bufs', push_front i s e = Ret tt (set_k_bufs bufs' s) e /\ same_data (k_bufs s) bufs' /\
    seg (bnext bufs') (bprev bufs') HEAD (i :: o) HEAD.
Proof.
  intros Hl Ho Hnd Hi Hio Hs. set (B := k_bufs s) in *.
  assert (forall (l : list buf) j, length l = S NBUF -> (j <= NBUF)%nat -> is_Some (l !! j)) as Hsome.
  { intros l j E Hj. apply lookup_lt_is_Some_2. lia. }
  assert (bnext B HEAD <= NBUF)%nat as Hn.
  { destruct (seg_ends _ _ _ _ _ Hs) as [[[-> _]|H] _]; [done|]. apply Ho in H. lia. }
  assert (i <> HEAD) as Hih by (unfold HEAD; lia).
  destruct (Hsome B HEAD Hl ltac:(unfold HEAD; lia)) as [h Hh]. destruct (Hsome B i Hl ltac:(lia)) as [b Hbi].
  destruct (bnext_some _ _ _ Hh) as [En _].
  set (B1 := <[i := set_b_next (bnext B HEAD) b]> B).
  assert (B1 !! i = Some (set_b_next (bnext B HEAD) b)) as H1 by (apply list_lookup_insert_eq; by apply lookup_lt_Some in Hbi).
  set (B2 := <[i := set_b_prev HEAD (set_b_next (bnext B HEAD) b)]> B1).
  assert (length B2 = S NBUF) as L2 by (unfold B2, B1; by rewrite !length_insert).
  destruct (Hsome B2 (bnext B HEAD) L2 Hn) as [c Hc].
  set (B3 := <[bnext B HEAD := set_b_prev i c]> B2).
  destruct (Hsome B3 HEAD ltac:(unfold B3; by rewrite length_insert) ltac:(unfold HEAD; lia)) as [h' Hh'].
  exists (<[HEAD := set_b_next i h']> B3). split; [|split].
  - unfold push_front. kstep get_buf_run; [exact Hh|]. rewrite <- En. kstep upd_buf_run; [exact Hbi|]. fold B1.
    kstep upd_buf_run; [exact H1|]. fold B2. kstep get_buf_run.
    { cbn. unfold B2, B1. rewrite !list_lookup_insert_ne by done. exact Hh. }
    rewrite <- En. kstep upd_buf_run; [exact Hc|]. fold B3. rewrite (upd_buf_run _ _ h') by exact Hh'. done.
  - apply (same_data_trans _ B1); [apply (same_data_upd _ _ b); [done | apply next_link]|].
    apply (same_data_trans _ B2); [eapply same_data_upd; [exact H1 | apply prev_link]|].
    apply (same_data_trans _ B3); [eapply same_data_upd; [exact Hc | apply prev_link]|].
    eapply same_data_upd; [exact Hh' | apply next_link].
  - destruct (upd_next _ _ _ (bnext B HEAD) Hbi) as [P1 P2]. fold B1 in P1, P2.
    destruct (upd_prev _ _ _ HEAD H1) as [Q1 Q2]. fold B2 in Q1, Q2.
    destruct (upd_prev _ _ _ i Hc) as [R1 R2]. fold B3 in R1, R2.
    destruct (upd_next _ _ _ i Hh') as [T1 T2].
    assert (HEAD ∉ o) as Hho by (intros H; apply Ho in H; unfold HEAD in H; lia).
    pose proof (seg_push _ _ HEAD i o HEAD Hih Hio Hih Hho Hnd Hho Hs) as Hp.
    revert Hp. apply seg_ext; intros x _.
    + rewrite T1. unfold fupd at 1 2. case_bool_decide; [done|]. by rewrite R2, Q2, P1.
    + rewrite T2, R1. unfold fupd at 1 2. case_bool_decide; [done|]. rewrite Q1. unfold fupd. case_bool_decide; [done|]. by rewrite P2.
Qed.

Lemma same_data_lookup bufs bufs' i b :
  same_data bufs bufs' -> bufs !! i = Some b -> exists n p, bufs' !! i = Some (set_b_next n (set_b_prev p b)).
Proof. intros [_ H]. apply H. Qed.

(** [brelse] of the last reference: [i] becomes the most recently used buffer. *)
Lemma move_front_run ord o1 i o2 s e :
  blist (k_bufs s) ord -> ord = o1 ++ i :: o2 ->
  exists bufs', (unlink i ;; push_front i) s e = Ret tt (set_k_bufs bufs' s) e /\
    same_data (k_bufs s) bufs' /\ blist bufs' (i :: o1 ++ o2).
Proof.
  intros Hb Ho. destruct (unlink_run ord o1 i o2 s e Hb Ho) as (B1 & R1 & D1 & S1).
  assert (forall j, j ∈ o1 ++ i :: o2 <-> (j < NBUF)%nat) as Hin by (intros j; rewrite <- Ho; apply Hb).
  pose proof (bl_nodup _ _ Hb) as Hnd. rewrite Ho in Hnd. apply list.NoDup_app in Hnd as (N1 & Nd & N2).
  apply list.NoDup_cons in N2 as [Ni N2].
  assert (NoDup (o1 ++ o2)) as Nd12. { apply list.NoDup_app. split; [done|]. split; [|done]. intros x Hx Hx2. apply (Nd x Hx). set_solver. }
  assert (i ∉ o1 ++ o2) as Hi12. { intros [H|H]%elem_of_app; [|done]. apply (Nd i H). set_solver. }
  destruct (push_front_run (o1 ++ o2) i (set_k_bufs B1 s) e) as (B2 & R2 & D2 & S2); try done.
  { cbn. rewrite (proj1 D1). apply Hb. }
  { intros j Hj. apply Hin. set_solver. }
  { apply Hin. set_solver. }
  exists B2. split; [kstep R1; exact R2|]. split; [by apply (same_data_trans _ B1)|]. split.
  - rewrite (proj1 D2). cbn. rewrite (proj1 D1). apply Hb.
  - intros j. rewrite <- Hin. set_solver.
  - apply list.NoDup_cons. done.
  - exact S2.
Qed.

Lemma binit_from_run n : forall k s e,
  length (k_bufs s) = S NBUF -> (k + n = NBUF)%nat ->
  seg (bnext (k_bufs s)) (bprev (k_bufs s)) HEAD (rev (seq 0 k)) HEAD ->
  exists bufs', for_range k n push_front s e = Ret tt (set_k_bufs bufs' s) e /\ same_data (k_bufs s) bufs' /\
    seg (bnext bufs') (bprev bufs') HEAD (rev (seq 0 NBUF)) HEAD.
Proof.
  induction n as [|n IH]; intros k s e Hl Hk Hs; cbn [for_range].
  - exists (k_bufs s). replace k with NBUF in Hs by lia. split; [by destruct s|]. split; [apply same_data_refl | done].
  - destruct (push_front_run (rev (seq 0 k)) k s e) as (B1 & R1 & D1 & S1); try done; try lia.
    + intros j Hj. apply list_elem_of_In, in_rev, in_seq in Hj. lia.
    + apply NoDup_ListNoDup, NoDup_rev, seq_NoDup.
    + intros Hj. apply list_elem_of_In, in_rev, in_seq in Hj. lia.
    + destruct (IH (S k) (set_k_bufs B1 s) e) as (B2 & R2 & D2 & S2); [cbn; by rewrite (proj1 D1) | lia | |].
      { rewrite seq_S, rev_app_distr. exact S1. }
      exists B2. split; [kstep R1; exact R2|]. split; [by apply (same_data_trans _ B1) | done].
Qed.

Lemma binit_run s e : length (k_bufs s) = S NBUF ->
  exists bufs', binit s e = Ret tt (set_k_bufs bufs' s) e /\ same_data (k_bufs s) bufs' /\ blist bufs' (rev (seq 0 NBUF)).
Proof.
  intros Hl. destruct (lookup_lt_is_Some_2 (k_bufs s) HEAD) as [h Hh]; [rewrite Hl; unfold HEAD; lia|].
  set (B1 := <[HEAD := set_b_prev HEAD h]> (k_bufs s)).
  assert (B1 !! HEAD = Some (set_b_prev HEAD h)) as H1 by (apply list_lookup_insert_eq; by apply lookup_lt_Some in Hh).
  set (B2 := <[HEAD := set_b_next HEAD (set_b_prev HEAD h)]> B1).
  assert (B2 !! HEAD = Some (set_b_next HEAD (set_b_prev HEAD h))) as H2 by (apply list_lookup_insert_eq; by apply lookup_lt_Some in H1).
  assert (same_data (k_bufs s) B2) as D2.
  { apply (same_data_trans _ B1); [eapply same_data_upd; [exact Hh | apply prev_link] | eapply same_data_upd; [exact H1 | apply next_link]]. }
  destruct (binit_from_run NBUF 0 (set_k_bufs B2 s) e) as (B & R & D & S).
  { etransitivity; [apply (proj1 D2) | done]. }
  { done. }
  { cbn [seq rev seg]. unfold bnext, bprev. cbn [k_bufs set_k_bufs]. rewrite H2. done. }
  exists B. split; [|split; [by apply (same_data_trans _ B2)|]].
  - unfold binit. kstep upd_buf_run; [done|]. fold B1. kstep upd_buf_run; [exact H1|]. fold B2. exact R.
  - split.
    + rewrite (proj1 D). etransitivity; [apply (proj1 D2) | done].
    + intros i. rewrite list_elem_of_In, <- in_rev, in_seq. lia.
    + apply NoDup_ListNoDup, NoDup_rev, seq_NoDup.
    + exact S.
Qed.

(** ** Locks *)

Lemma alter_insert {A} (f : A -> A) (l : list A) i x : l !! i = Some x -> alter f i l = <[i := f x]> l.
Proof.
  intros H. apply list_eq. intros j. destruct (decide (i = j)) as [<-|Hne].
  - rewrite list_lookup_alter_eq, H. rewrite list_lookup_insert_eq by (by apply lookup_lt_Some in H). done.
  - by rewrite list_lookup_alter_ne, list_lookup_insert_ne.
Qed.

(** A process ready to use the cache: it runs on this hart and no lock is held. *)
Record bio_ready (p : nat) (pr : process) (s : kernel) : Prop := BioReady {
  br_room : room 3 (k_hl s);
  br_nested : nested (k_hl s);
  br_bcache : free L_bcache (k_hl s);
  br_buf i : (i < NBUF)%nat -> free (L_buf i) (k_hl s);
  br_procs : procs_free None (k_hl s);
  br_me : me_of s = Some p;
  br_pr : k_procs s !! p = Some pr;
  br_len : length (k_procs s) = NPROC
}.

(** Processes woken meanwhile do not matter to the one that runs. *)
Definition procs_step (p : nat) (l l' : list process) : Prop := length l' = length l /\ l' !! p = l !! p.

Lemma procs_step_refl p l : procs_step p l l.
Proof. done. Qed.

Lemma procs_step_trans p l1 l2 l3 : procs_step p l1 l2 -> procs_step p l2 l3 -> procs_step p l1 l3.
Proof. intros [] []. split; congruence. Qed.

Lemma procs_step_wake p ch l : procs_step p l (wake_procs (Some p) ch l).
Proof.
  split; [apply length_wake_procs|]. rewrite lookup_wake_procs. destruct (l !! p); cbn; [|done].
  by rewrite bool_decide_true.
Qed.

(** The parts of the state the cache changes. *)
Definition bset (bufs : list buf) (procs : list process) (s : kernel) : kernel :=
  set_k_bufs bufs (set_k_procs procs s).

Lemma bset_id s : bset (k_bufs s) (k_procs s) s = s.
Proof. by destruct s. Qed.

Lemma bio_ready_bset p pr s bufs procs :
  bio_ready p pr s -> procs_step p (k_procs s) procs -> bio_ready p pr (bset bufs procs s).
Proof. intros [] [? ?]. split; try done; cbn; congruence. Qed.

Definition locked_by (pr : process) (b : buf) : Prop := b_lock b = Mk_sleeplock true (p_pid pr).
Definition unlocked_buf (b : buf) : Prop := sl_locked (b_lock b) = false.

Section locks.
Context (p : nat) (pr : process) (s : kernel) (e : list (kernel -> kernel)) (i : nat) (b : buf).
Hypothesis Hr : bio_ready p pr s.
Hypothesis Hi : (i < NBUF)%nat.
Hypothesis Hb : k_bufs s !! i = Some b.

Lemma room1 : room 1 (k_hl s).
Proof. apply (room_weaken 3); [apply Hr | lia]. Qed.

(** Inside the critical section of a spin lock. *)
Lemma acq_facts L bufs procs : not_proc_lock L -> procs_step p (k_procs s) procs ->
  let s1 := set_k_hl (acq L (k_hl s)) (bset bufs procs s) in
  room 1 (k_hl s1) /\ nested (k_hl s1) /\ procs_free (me_of s1) (k_hl s1) /\ me_of s1 = Some p /\
  k_procs s1 !! p = Some pr /\ length (k_procs s1) = NPROC.
Proof.
  intros HL [Pl Pp]. assert (me_of (set_k_hl (acq L (k_hl s)) (bset bufs procs s)) = Some p) as Hm.
  { unfold me_of. cbn. rewrite c_proc_acq by apply Hr. apply (br_me _ _ _ Hr). }
  split_and!; try done.
  - exact (room_weaken 2 1 _ (room_acq 3 _ _ (br_room _ _ _ Hr)) ltac:(lia)).
  - by apply (nested_acq _ _ 3), Hr.
  - apply procs_free_acq; [done|]. intros j Hj _. by apply Hr.
  - cbn. rewrite Pp. apply Hr.
  - cbn. rewrite Pl. apply Hr.
Qed.

Lemma sleep_holding_run : sleep_holding (buf_sl i) s e = Ret (sl_locked (b_lock b) && (sl_pid (b_lock b) =? p_pid pr)) s e.
Proof.
  destruct (acq_facts (L_buf i) (k_bufs s) (k_procs s) ltac:(done) ltac:(done)) as (R1 & _ & _ & M1 & P1 & _).
  rewrite bset_id in *. unfold sleep_holding. cbn [sl_id buf_sl]. kstep acquire_run; [apply room1 | by apply Hr |].
  unfold sl_fields. rewrite bind_assoc, bind_gets. cbn [sl_get buf_sl]. cbn [k_bufs set_k_hl]. rewrite Hb. cbn [fmap option_fmap option_map of_option].
  rewrite bind_ret. kstep (me_run _ e 1 p R1 M1). kstep get_proc_run; [exact P1|].
  kstep (release_acq_run (L_buf i) (k_hl s)); [done | apply room1 | by apply Hr |].
  rewrite (br_nested _ _ _ Hr). unfold ret. f_equal. by destruct s.
Qed.

Lemma sleep_acquire_run : unlocked_buf b ->
  sleep_acquire (buf_sl i) s e =
  Ret tt (set_k_bufs (<[i := set_b_lock (Mk_sleeplock true (p_pid pr)) b]> (k_bufs s)) s) e.
Proof.
  intros Hu. destruct (acq_facts (L_buf i) (k_bufs s) (k_procs s) ltac:(done) ltac:(done)) as (R1 & _ & _ & M1 & P1 & _).
  rewrite bset_id in *. unfold sleep_acquire. cbn [sl_id buf_sl]. kstep acquire_run; [apply room1 | by apply Hr |].
  eapply eq_trans; [eapply (bind_Ret _ _ _ _ tt)|].
  { unfold while_waiting. cbn [while]. unfold sl_fields. rewrite !bind_assoc, bind_gets. cbn [sl_get buf_sl k_bufs set_k_hl].
    rewrite Hb. cbn [fmap option_fmap option_map of_option]. rewrite bind_ret, bind_ret. unfold unlocked_buf in Hu. rewrite Hu. reflexivity. }
  cbv beta. kstep (me_run _ e 1 p R1 M1). kstep get_proc_run; [exact P1|]. rewrite bind_modify.
  rewrite (release_acq_run (L_buf i) (k_hl s)); [|done | apply room1 | by apply Hr].
  rewrite (br_nested _ _ _ Hr). f_equal. cbn. unfold set_k_hl, set_k_bufs. cbn. f_equal. by apply alter_insert.
Qed.

Lemma sleep_release_run :
  sleep_release (buf_sl i) s e =
  Ret tt (bset (<[i := set_b_lock (Mk_sleeplock false 0) b]> (k_bufs s)) (wake_procs (Some p) (CSleepBuf i) (k_procs s)) s) e.
Proof.
  unfold sleep_release. cbn [sl_id buf_sl sl_chan]. kstep acquire_run; [apply room1 | by apply Hr |]. rewrite bind_modify.
  cbn [sl_put buf_sl k_bufs set_k_hl].
  set (B := alter _ _ _). destruct (acq_facts (L_buf i) B (k_procs s) ltac:(done) ltac:(done)) as (R1 & N1 & F1 & M1 & P1 & L1).
  change (set_k_bufs B (set_k_hl (acq (L_buf i) (k_hl s)) s)) with (set_k_hl (acq (L_buf i) (k_hl s)) (bset B (k_procs s) s)).
  kstep wakeup_run; [done..|]. rewrite (release_acq_run (L_buf i) (k_hl s)); [|done | apply room1 | by apply Hr].
  rewrite M1, (br_nested _ _ _ Hr). f_equal. unfold bset, B. cbn. unfold set_k_hl, set_k_bufs, set_k_procs. cbn.
  rewrite (alter_insert _ _ _ b) by done. done.
Qed.
End locks.

(** ** The cache as a map of blocks *)

Section cache.
Context {DD : DiskDriver}.
Context (D : Z) (p : nat) (pr : process).

(** The buffers of device [D], the ones in [held] locked by the process. *)
Record cache (s : kernel) (ord : list nat) (held : gset nat) : Prop := Cache {
  ca_list : blist (k_bufs s) ord;
  ca_uniq i j b c : (i < NBUF)%nat -> (j < NBUF)%nat -> k_bufs s !! i = Some b -> k_bufs s !! j = Some c ->
    b_dev b = D -> b_dev c = D -> b_blockno b = b_blockno c -> i = j;
  ca_lock i b : (i < NBUF)%nat -> k_bufs s !! i = Some b ->
    if bool_decide (i ∈ held) then locked_by pr b /\ 0 < b_refcnt b /\ b_valid b = true /\ b_dev b = D else unlocked_buf b;
  ca_ref i b : (i < NBUF)%nat -> k_bufs s !! i = Some b -> 0 <= b_refcnt b /\ b_disk b = false;
  ca_coh i b : (i < NBUF)%nat -> k_bufs s !! i = Some b -> b_dev b = D -> b_valid b = true -> b_refcnt b = 0 ->
    b_data b = k_disk s (b_blockno b)
}.

(** Contents of block [bn] as the kernel sees it. *)
Definition view (s : kernel) (bn : Z) : list Z :=
  match bfirst (same_block D bn) (k_bufs s) (seq 0 NBUF) with
  | Some i => match k_bufs s !! i with
              | Some b => if b_valid b then b_data b else k_disk s bn
              | None => k_disk s bn
              end
  | None => k_disk s bn
  end.

Lemma same_block_true bn b : same_block D bn b = true <-> b_dev b = D /\ b_blockno b = bn.
Proof. unfold same_block. rewrite andb_true_iff, !Z.eqb_eq. done. Qed.

Lemma bufs_some s ord held i : cache s ord held -> (i < NBUF)%nat -> exists b, k_bufs s !! i = Some b.
Proof. intros Hc Hi. apply (blist_some _ ord); [apply Hc | lia]. Qed.

Lemma cached_some s ord held i b bn :
  cache s ord held -> (i < NBUF)%nat -> k_bufs s !! i = Some b -> b_dev b = D -> b_blockno b = bn ->
  bfirst (same_block D bn) (k_bufs s) (seq 0 NBUF) = Some i.
Proof.
  intros Hc Hi Hb Hd Hn. destruct (bfirst _ _ _) as [j|] eqn:E.
  - apply bfirst_Some in E as [Hj (c & Hcj & [Hd' Hn']%same_block_true)].
    f_equal. apply (ca_uniq _ _ _ Hc j i c b); try done; [|congruence]. apply elem_of_seq in Hj. lia.
  - rewrite bfirst_None in E.
    + exfalso. assert (same_block D bn b = true) as Ht by (by apply same_block_true).
      rewrite (E i b) in Ht; [done | apply elem_of_seq; lia | done].
    + intros j Hj. apply (blist_some _ ord); [apply Hc|]. apply elem_of_seq in Hj. lia.
Qed.

(** What [view] is: the valid copy if there is one, else the disk. *)
Lemma view_cached s ord held i b :
  cache s ord held -> (i < NBUF)%nat -> k_bufs s !! i = Some b -> b_dev b = D -> b_valid b = true ->
  view s (b_blockno b) = b_data b.
Proof.
  intros Hc Hi Hb Hd Hv. unfold view. rewrite (cached_some s ord held i b) by done. by rewrite Hb, Hv.
Qed.

Lemma view_disk s ord held bn :
  cache s ord held ->
  (forall i b, (i < NBUF)%nat -> k_bufs s !! i = Some b -> b_dev b = D -> b_blockno b = bn -> b_valid b = false) ->
  view s bn = k_disk s bn.
Proof.
  intros Hc Hn. unfold view. destruct (bfirst _ _ _) as [j|] eqn:E; [|done].
  apply bfirst_Some in E as [Hj (c & Hcj & [Hd' Hn']%same_block_true)]. rewrite Hcj.
  rewrite (Hn j c); try done. apply elem_of_seq in Hj. lia.
Qed.

(** Buffer [i] holds a valid copy of block [bn]. *)
Definition copy_of (bufs : list buf) (bn : Z) (i : nat) (b : buf) : Prop :=
  (i < NBUF)%nat /\ bufs !! i = Some b /\ b_dev b = D /\ b_blockno b = bn /\ b_valid b = true.

Definition sees (s : kernel) (bn : Z) (v : list Z) : Prop :=
  (exists i b, copy_of (k_bufs s) bn i b /\ b_data b = v) \/
  ((forall i b, ~ copy_of (k_bufs s) bn i b) /\ v = k_disk s bn).

Lemma view_sees s ord held bn : cache s ord held -> sees s bn (view s bn).
Proof.
  intros Hc. destruct (bfirst (same_block D bn) (k_bufs s) (seq 0 NBUF)) as [j|] eqn:E.
  - pose proof E as E'. apply bfirst_Some in E' as [Hj (b & Hb & [Hd Hn]%same_block_true)].
    assert (j < NBUF)%nat as Hj' by (apply elem_of_seq in Hj; lia). destruct (b_valid b) eqn:Hv.
    + left. exists j, b. split; [done|]. symmetry. rewrite <- Hn. by apply (view_cached s ord held j b).
    + right. assert (forall i c, ~ copy_of (k_bufs s) bn i c) as Hall.
      { intros i c (Hi & Hci & Hdc & Hnc & Hvc). assert (i = j) as -> by (by apply (ca_uniq _ _ _ Hc i j c b); try done; congruence). congruence. }
      split; [done|]. unfold view. by rewrite E, Hb, Hv.
  - right. split; [|unfold view; by rewrite E]. intros i c (Hi & Hci & Hdc & Hnc & Hvc).
    by rewrite (cached_some s ord held i c) in E.
Qed.

Lemma sees_view s ord held bn v : cache s ord held -> sees s bn v -> view s bn = v.
Proof.
  intros Hc [(i & b & (Hi & Hb & Hd & Hn & Hv) & <-)|[Hno ->]].
  - rewrite <- Hn. by apply (view_cached s ord held i b).
  - apply (view_disk s ord held); [done|]. intros i b Hi Hb Hd Hn. destruct (b_valid b) eqn:Hv; [|done].
    exfalso. by apply (Hno i b).
Qed.

(** Replacing buffer [i]: the other buffers' copies stay. *)
Lemma copy_of_upd bufs i b b' bn j c :
  bufs !! i = Some b -> j <> i -> copy_of (<[i := b']> bufs) bn j c <-> copy_of bufs bn j c.
Proof. intros Hi Hne. unfold copy_of. by rewrite list_lookup_insert_ne by done. Qed.

Lemma copy_of_at bufs i b b' bn c :
  bufs !! i = Some b -> copy_of (<[i := b']> bufs) bn i c <->
  (i < NBUF)%nat /\ c = b' /\ b_dev b' = D /\ b_blockno b' = bn /\ b_valid b' = true.
Proof.
  intros Hi. unfold copy_of. rewrite list_lookup_insert_eq by (by apply lookup_lt_Some in Hi).
  split; [intros (? & [= ->] & ?); done | intros (? & -> & ?); done].
Qed.

(** [i]'s copy goes from [b] to [b'] without changing what is seen. *)
Lemma sees_upd s ord held i b b' s' bn v :
  cache s ord held -> k_bufs s !! i = Some b -> (i < NBUF)%nat ->
  k_bufs s' = <[i := b']> (k_bufs s) -> k_disk s' bn = k_disk s bn ->
  (copy_of (k_bufs s) bn i b -> b_data b = v ->
     (b_dev b' = D /\ b_blockno b' = bn /\ b_valid b' = true /\ b_data b' = v) \/
     (~ (b_dev b' = D /\ b_blockno b' = bn /\ b_valid b' = true) /\ v = k_disk s bn)) ->
  (~ copy_of (k_bufs s) bn i b -> b_dev b' = D -> b_blockno b' = bn -> b_valid b' = true ->
     b_data b' = k_disk s bn /\ forall j c, j <> i -> ~ copy_of (k_bufs s) bn j c) ->
  sees s bn v -> sees s' bn v.
Proof.
  intros Hc Hb Hi Hbufs Hdisk H1 H2 Hs. unfold sees. rewrite Hbufs, Hdisk.
  destruct Hs as [(j & c & Hcp & Hv)|[Hno ->]].
  - destruct (decide (j = i)) as [->|Hne].
    + assert (c = b) as -> by (destruct Hcp as (_ & Hci & _); congruence).
      destruct (H1 Hcp Hv) as [(Hd & Hn & Hva & Hda)|[Hn ->]].
      * left. exists i, b'. split; [|done]. by apply (copy_of_at _ i b).
      * right. split; [|done]. intros j c. destruct (decide (j = i)) as [->|Hj].
        -- rewrite (copy_of_at _ i b) by done. tauto.
        -- rewrite (copy_of_upd _ i b) by done. intros (Hj' & Hcj & Hdj & Hnj & _).
           destruct Hcp as (_ & _ & Hdb & Hnb & _). apply Hj. apply (ca_uniq _ _ _ Hc j i c b); try done. congruence.
    + left. exists j, c. split; [|done]. by apply (copy_of_upd _ i b).
  - destruct (decide (b_dev b' = D /\ b_blockno b' = bn /\ b_valid b' = true)) as [(Hd & Hn & Hva)|Hn].
    + left. exists i, b'. split; [by apply (copy_of_at _ i b)|]. by apply H2.
    + right. split; [|done]. intros j c. destruct (decide (j = i)) as [->|Hj].
      * rewrite (copy_of_at _ i b) by done. tauto.
      * rewrite (copy_of_upd _ i b) by done. apply Hno.
Qed.
(** The condition on the lock of buffer [i]. *)
Definition lock_ok (held : gset nat) (i : nat) (b : buf) : Prop :=
  if bool_decide (i ∈ held) then locked_by pr b /\ 0 < b_refcnt b /\ b_valid b = true /\ b_dev b = D else unlocked_buf b.

Lemma cache_upd s ord held i b b' s' held' :
  cache s ord held -> k_bufs s !! i = Some b -> (i < NBUF)%nat ->
  k_bufs s' = <[i := b']> (k_bufs s) -> (forall n, k_disk s' n = k_disk s n) ->
  b_next b' = b_next b -> b_prev b' = b_prev b ->
  (forall j, j <> i -> j ∈ held' <-> j ∈ held) -> lock_ok held' i b' ->
  0 <= b_refcnt b' /\ b_disk b' = false ->
  (b_dev b' = D -> forall j c, j <> i -> (j < NBUF)%nat -> k_bufs s !! j = Some c -> b_dev c = D -> b_blockno c <> b_blockno b') ->
  (b_dev b' = D -> b_valid b' = true -> b_refcnt b' = 0 -> b_data b' = k_disk s (b_blockno b')) ->
  cache s' ord held'.
Proof.
  intros Hc Hb Hi Hbufs Hdisk Hn Hp Hheld Hlk Hrf Hun Hco.
  assert (forall j, <[i := b']> (k_bufs s) !! j = if bool_decide (j = i) then Some b' else k_bufs s !! j) as E.
  { intros j. apply lookup_upd. by apply lookup_lt_Some in Hb. }
  split; rewrite ?Hbufs.
  - apply (blist_upd _ _ i b); try done. apply Hc.
  - intros j k c d Hj Hk. rewrite !E. do 2 case_bool_decide; subst; [done | | |].
    + intros [= <-] Hkd Hd1 Hd2 Hbn. exfalso. by apply (Hun Hd1 k d).
    + intros Hjc [= <-] Hd1 Hd2 Hbn. exfalso. by apply (Hun Hd2 j c).
    + by apply Hc.
  - intros j c Hj. rewrite E. case_bool_decide as Ej; [subst; by intros [= <-]|]. intros Hjc.
    pose proof (ca_lock _ _ _ Hc j c Hj Hjc) as Hl. revert Hl. by rewrite (bool_decide_ext _ _ (Hheld j Ej)).
  - intros j c Hj. rewrite E. case_bool_decide; [subst; by intros [= <-]|]. by apply Hc.
  - intros j c Hj. rewrite E, Hdisk. case_bool_decide; [subst; by intros [= <-]|]. by apply Hc.
Qed.

(** ** [bget] *)

(** No buffer but [i] can hold block [bn] once [i] does. *)
Lemma bget_hit s ord held e bn i b :
  bio_ready p pr s -> cache s ord held -> k_bufs s !! i = Some b -> (i < NBUF)%nat ->
  b_dev b = D -> b_blockno b = bn -> i ∉ held -> b_refcnt b + 1 < 2 ^ 32 ->
  bget D bn s e =
  Ret i (set_k_bufs (<[i := set_b_lock (Mk_sleeplock true (p_pid pr)) (set_b_refcnt (b_refcnt b + 1) b)]> (k_bufs s)) s) e.
Proof.
  intros Hr Hc Hb Hi Hd Hn Hh Hrf. destruct (blist_some _ _ HEAD (ca_list _ _ _ Hc) ltac:(unfold HEAD; lia)) as [h Hhd].
  set (b1 := set_b_refcnt (b_refcnt b + 1) b).
  assert (bfirst (same_block D bn) (k_bufs s) ord = Some i) as Hf.
  { destruct (bfirst _ _ ord) as [j|] eqn:E.
    - apply bfirst_Some in E as [Hj (c & Hcj & [Hdc Hnc]%same_block_true)]. f_equal.
      apply (ca_uniq _ _ _ Hc j i c b); try done; [by apply (bl_in _ _ (ca_list _ _ _ Hc)) | congruence].
    - exfalso. rewrite bfirst_None in E by (intros j Hj; apply (blist_some _ ord); [apply Hc | apply (bl_in _ _ (ca_list _ _ _ Hc)) in Hj; lia]).
      assert (same_block D bn b = true) as Ht by (by apply same_block_true).
      rewrite (E i b) in Ht; [done | by apply (bl_in _ _ (ca_list _ _ _ Hc)) | done]. }
  assert (room 1 (k_hl s)) as Hr1 by (apply (room_weaken 3); [apply Hr | lia]).
  unfold bget. kstep acquire_run; [done | apply Hr |]. kstep get_buf_run; [exact Hhd|].
  kstep bfind_run; [apply Hc | exact Hhd |]. cbn [k_bufs set_k_hl]. rewrite Hf. kstep upd_buf_run; [exact Hb|].
  pose proof (ca_ref _ _ _ Hc i b Hi Hb) as [Hr0 _]. rewrite u32_small by lia. fold b1.
  kstep (release_acq_run L_bcache (k_hl s)); [done | done | apply Hr |]. rewrite (br_nested _ _ _ Hr).
  set (s1 := set_k_hl _ _).
  assert (s1 = set_k_bufs (<[i := b1]> (k_bufs s)) s) as E1 by (unfold s1; by destruct s).
  assert (bio_ready p pr s1) as Hr'. { rewrite E1. apply (bio_ready_bset p pr s _ (k_procs s) Hr). done. }
  assert (k_bufs s1 !! i = Some b1) as Hb1. { rewrite E1. cbn. apply list_lookup_insert_eq. by apply lookup_lt_Some in Hb. }
  kstep (sleep_acquire_run p pr s1 e i b1 Hr' Hi Hb1).
  { pose proof (ca_lock _ _ _ Hc i b Hi Hb) as Hl. rewrite bool_decide_false in Hl by done. exact Hl. }
  rewrite E1. unfold ret. cbn. by rewrite list_insert_insert_eq.
Qed.

(** Not cached: the first unused buffer of the list is recycled. *)
Lemma bget_miss s ord held e bn i b :
  bio_ready p pr s -> cache s ord held ->
  bfirst (same_block D bn) (k_bufs s) ord = None -> bfirst unused (k_bufs s) ord = Some i -> k_bufs s !! i = Some b ->
  bget D bn s e =
  Ret i (set_k_bufs (<[i := set_b_lock (Mk_sleeplock true (p_pid pr)) (recycle D bn b)]> (k_bufs s)) s) e.
Proof.
  intros Hr Hc Hf Hu Hb. destruct (blist_some _ _ HEAD (ca_list _ _ _ Hc) ltac:(unfold HEAD; lia)) as [h Hhd].
  pose proof (bfirst_Some _ _ _ _ Hu) as [Hi (b0 & Hb0 & Hu0)]. apply (bl_in _ _ (ca_list _ _ _ Hc)) in Hi.
  assert (b0 = b) as -> by congruence. unfold unused in Hu0. apply Z.eqb_eq in Hu0.
  set (b1 := recycle D bn b). assert (room 1 (k_hl s)) as Hr1 by (apply (room_weaken 3); [apply Hr | lia]).
  unfold bget. kstep acquire_run; [done | apply Hr |]. kstep get_buf_run; [exact Hhd|].
  kstep bfind_run; [apply Hc | exact Hhd |]. cbn [k_bufs set_k_hl]. rewrite Hf. kstep get_buf_run; [exact Hhd|].
  kstep bfind_run; [apply Hc | exact Hhd |]. cbn [k_bufs set_k_hl]. rewrite Hu. kstep upd_buf_run; [exact Hb|]. fold b1.
  kstep (release_acq_run L_bcache (k_hl s)); [done | done | apply Hr |]. rewrite (br_nested _ _ _ Hr).
  set (s1 := set_k_hl _ _).
  assert (s1 = set_k_bufs (<[i := b1]> (k_bufs s)) s) as E1 by (unfold s1; by destruct s).
  assert (bio_ready p pr s1) as Hr'. { rewrite E1. apply (bio_ready_bset p pr s _ (k_procs s) Hr). done. }
  assert (k_bufs s1 !! i = Some b1) as Hb1. { rewrite E1. cbn. apply list_lookup_insert_eq. by apply lookup_lt_Some in Hb. }
  kstep (sleep_acquire_run p pr s1 e i b1 Hr' Hi Hb1).
  { pose proof (ca_lock _ _ _ Hc i b Hi Hb) as Hl. case_bool_decide; [destruct Hl as (_ & ? & _); lia | exact Hl]. }
  rewrite E1. unfold ret. cbn. by rewrite list_insert_insert_eq.
Qed.

Lemma bget_no_buffers s ord held e bn :
  bio_ready p pr s -> cache s ord held ->
  bfirst (same_block D bn) (k_bufs s) ord = None -> bfirst unused (k_bufs s) ord = None ->
  exists s', bget D bn s e = Panic "no buffers" s'.
Proof.
  intros Hr Hc Hf Hu. destruct (blist_some _ _ HEAD (ca_list _ _ _ Hc) ltac:(unfold HEAD; lia)) as [h Hhd].
  assert (room 1 (k_hl s)) as Hr1 by (apply (room_weaken 3); [apply Hr | lia]). eexists.
  unfold bget. kstep acquire_run; [done | apply Hr |]. kstep get_buf_run; [exact Hhd|].
  kstep bfind_run; [apply Hc | exact Hhd |]. cbn [k_bufs set_k_hl]. rewrite Hf. kstep get_buf_run; [exact Hhd|].
  kstep bfind_run; [apply Hc | exact Hhd |]. cbn [k_bufs set_k_hl]. rewrite Hu. reflexivity.
Qed.
(** ** [bread] *)

(** Block [bn] is cached, or some buffer can be recycled. *)
Definition avail (s : kernel) (bn : Z) : Prop :=
  exists i b, (i < NBUF)%nat /\ k_bufs s !! i = Some b /\ (b_dev b = D /\ b_blockno b = bn \/ b_refcnt b = 0).

(** The block is not locked, and its reference count does not overflow. *)
Definition takeable (s : kernel) (held : gset nat) (bn : Z) : Prop :=
  forall i b, (i < NBUF)%nat -> k_bufs s !! i = Some b -> b_dev b = D -> b_blockno b = bn ->
    (i ∉ held) /\ b_refcnt b + 1 < 2 ^ 32.

(** [bget]: buffer [i], previously [b], is now [b1]. *)
Lemma bget_spec s ord held e bn :
  bio_ready p pr s -> cache s ord held -> takeable s held bn -> avail s bn ->
  exists i b b1, bget D bn s e = Ret i (set_k_bufs (<[i := b1]> (k_bufs s)) s) e /\
    (i < NBUF)%nat /\ k_bufs s !! i = Some b /\ (i ∉ held) /\
    b_dev b1 = D /\ b_blockno b1 = bn /\ locked_by pr b1 /\ b_disk b1 = false /\
    b_refcnt b1 = b_refcnt b + 1 /\ b_next b1 = b_next b /\ b_prev b1 = b_prev b /\ 0 <= b_refcnt b /\
    (b_dev b = D /\ b_blockno b = bn /\ b_valid b1 = b_valid b /\ b_data b1 = b_data b \/
     b_refcnt b = 0 /\ b_valid b1 = false /\
     forall j c, (j < NBUF)%nat -> k_bufs s !! j = Some c -> b_dev c = D -> b_blockno c <> bn).
Proof.
  intros Hr Hc Ht Ha. pose proof (ca_list _ _ _ Hc) as Hl.
  assert (forall j, j ∈ ord -> is_Some (k_bufs s !! j)) as Hsome.
  { intros j Hj. apply (blist_some _ ord); [done|]. apply (bl_in _ _ Hl) in Hj. lia. }
  destruct (bfirst (same_block D bn) (k_bufs s) ord) as [i|] eqn:Ef.
  - pose proof Ef as Ef'. apply bfirst_Some in Ef' as [Hi (b & Hb & [Hd Hn]%same_block_true)]. apply (bl_in _ _ Hl) in Hi.
    destruct (Ht i b Hi Hb Hd Hn) as [Hh Hrf]. destruct (ca_ref _ _ _ Hc i b Hi Hb) as [? ?].
    eexists i, b, _. split; [by apply (bget_hit s ord held e bn i b)|]. split_and!; try done. left. done.
  - assert (forall j c, (j < NBUF)%nat -> k_bufs s !! j = Some c -> b_dev c = D -> b_blockno c <> bn) as Hno.
    { intros j c Hj Hcj Hd Hn. rewrite bfirst_None in Ef by done.
      assert (same_block D bn c = true) as E by (by apply same_block_true).
      rewrite (Ef j c) in E; [done | by apply (bl_in _ _ Hl) | done]. }
    destruct (bfirst unused (k_bufs s) ord) as [i|] eqn:Eu; cycle 1.
    { exfalso. rewrite bfirst_None in Eu by done. destruct Ha as (i & b & Hi & Hb & [[Hd Hn]|H0]); [by apply (Hno i b)|].
      specialize (Eu i b). unfold unused in Eu. rewrite H0 in Eu. cbn in Eu. discriminate Eu; [by apply (bl_in _ _ Hl) | done]. }
    pose proof Eu as Eu'. apply bfirst_Some in Eu' as [Hi (b & Hb & H0)]. apply (bl_in _ _ Hl) in Hi.
    unfold unused in H0. apply Z.eqb_eq in H0. destruct (ca_ref _ _ _ Hc i b Hi Hb) as [? ?].
    assert (i ∉ held) as Hh.
    { pose proof (ca_lock _ _ _ Hc i b Hi Hb) as Hlk. case_bool_decide; [|done]. destruct Hlk as (_ & ? & _). lia. }
    eexists i, b, _. split; [by apply (bget_miss s ord held e bn i b)|]. split_and!; try done; [cbn; lia | right; done].
Qed.

Lemma bread_spec s ord held e bn :
  bio_ready p pr s -> cache s ord held -> takeable s held bn -> avail s bn ->
  exists i b b', bread D bn s e = Ret i (set_k_bufs (<[i := b']> (k_bufs s)) s) e /\
    (i < NBUF)%nat /\ k_bufs s !! i = Some b /\ (i ∉ held) /\
    b_blockno b' = bn /\ b_data b' = view s bn /\ b_refcnt b' = b_refcnt b + 1 /\
    (b_refcnt b = 0 -> view s bn = k_disk s bn) /\
    cache (set_k_bufs (<[i := b']> (k_bufs s)) s) ord ({[i]} ∪ held) /\
    (forall n, view (set_k_bufs (<[i := b']> (k_bufs s)) s) n = view s n) /\
    (b_refcnt b <> 0 -> b_dev b = D /\ b_blockno b = bn).
Proof.
  intros Hr Hc Ht Ha.
  destruct (bget_spec s ord held e bn Hr Hc Ht Ha)
    as (i & b & b1 & R & Hi & Hb & Hh & Hd & Hn & Hlk & Hdk & Hrf & Hnx & Hpv & Hr0 & Hcase).
  pose proof (lookup_lt_Some _ _ _ Hb) as Hlt.
  set (b' := if b_valid b1 then b1 else set_b_valid true (set_b_data (k_disk s bn) b1)).
  set (s' := set_k_bufs (<[i := b']> (k_bufs s)) s).
  assert (b_valid b' = true /\ b_dev b' = D /\ b_blockno b' = bn /\ b_refcnt b' = b_refcnt b + 1 /\ locked_by pr b' /\
          b_disk b' = false /\ b_next b' = b_next b /\ b_prev b' = b_prev b) as (Fv & Fd & Fn & Fr & Fl & Fk & Fx & Fp).
  { unfold b'. destruct (b_valid b1) eqn:E; split_and!; done. }
  assert (bread D bn s e = Ret i s' e) as Rr.
  { unfold bread. kstep R. kstep get_buf_run; [by apply list_lookup_insert_eq|].
    unfold s', b'. destruct (b_valid b1) eqn:E; cbn [negb when]; [done|].
    eapply eq_trans; [eapply (bind_Ret _ _ _ _ tt)|].
    { eapply eq_trans; [eapply bind_Ret; apply (disk_rw_law i b1); [by apply list_lookup_insert_eq | done]|].
      cbv beta. rewrite (upd_buf_run i _ (set_b_data (k_disk s bn) b1)); [reflexivity|]. cbn. rewrite Hn.
      apply list_lookup_insert_eq. by rewrite !length_insert. }
    cbv beta. unfold ret. f_equal. cbn. rewrite Hn, !list_insert_insert_eq. by destruct s. }
  assert (cache s' ord ({[i]} ∪ held)) as Hc'.
  { apply (cache_upd s ord held i b b'); try done.
    - intros j Hj. set_solver.
    - unfold lock_ok. rewrite bool_decide_true by set_solver. split_and!; try done. lia.
    - split; [lia | done].
    - intros _ j c Hj Hj' Hcj Hdc. rewrite Fn. destruct Hcase as [(Hdb & Hnb & _)|(_ & _ & Hno)]; [|by apply (Hno j)].
      intros E. apply Hj. apply (ca_uniq _ _ _ Hc j i c b); try done; congruence.
    - intros _ _ H0. lia. }
  assert (forall n, sees s' n (view s n)) as Hsees.
  { intros n. apply (sees_upd s ord held i b b'); try done; [| |by apply (view_sees s ord held)].
    - intros (_ & _ & Hdb & Hnb & Hvb) Hv. destruct Hcase as [(_ & Hnb' & Hv1 & Hda)|(H0 & _ & Hno)].
      + left. assert (b' = b1) as E by (unfold b'; by rewrite Hv1, Hvb). rewrite E. split_and!; try done; congruence.
      + right. split; [|rewrite <- Hv, <- Hnb; by apply (ca_coh _ _ _ Hc i b)].
        intros (_ & E & _). apply (Hno i b Hi Hb Hdb). congruence.
    - intros Hncp _ E _. assert (n = bn) as -> by congruence.
      assert (b_valid b1 = false) as Hv1.
      { destruct Hcase as [(Hdb & Hnb & Hv1 & _)|(_ & Hv1 & _)]; [|done]. rewrite Hv1. destruct (b_valid b) eqn:Ev; [|done].
        exfalso. by apply Hncp. }
      split; [unfold b'; by rewrite Hv1|]. intros j c Hj (Hj' & Hcj & Hdc & Hnc & Hvc).
      destruct Hcase as [(Hdb & Hnb & _)|(_ & _ & Hno)]; [|by apply (Hno j c)].
      apply Hj. apply (ca_uniq _ _ _ Hc j i c b); try done; congruence. }
  exists i, b, b'. split; [done|]. split_and!; try done.
  - rewrite <- (sees_view s' ord ({[i]} ∪ held) bn (view s bn)); [|done | apply Hsees].
    rewrite <- Fn. symmetry. apply (view_cached s' ord ({[i]} ∪ held) i b'); try done. by apply list_lookup_insert_eq.
  - intros H0. destruct (decide (b_dev b = D /\ b_blockno b = bn /\ b_valid b = true)) as [(Hdb & <- & Hvb)|Hncp].
    + rewrite (view_cached s ord held i b) by done. by apply (ca_coh _ _ _ Hc i b).
    + apply (view_disk s ord held); [done|]. intros j c Hj Hcj Hdc Hnc.
      destruct Hcase as [(Hdb & Hnb & _)|(_ & _ & Hno)]; [|exfalso; by apply (Hno j c)].
      assert (j = i) as -> by (apply (ca_uniq _ _ _ Hc j i c b); try done; congruence).
      assert (c = b) as -> by congruence. destruct (b_valid b) eqn:Ev; [|done]. exfalso. by apply Hncp.
  - intros n. apply (sees_view s' ord ({[i]} ∪ held)); [done | apply Hsees].
  - intros Hne. by destruct Hcase as [(Hdb & Hnb & _)|(H0 & _)].
Qed.
(** ** Using a locked buffer *)

Lemma held_facts s ord held i b :
  cache s ord held -> i ∈ held -> (i < NBUF)%nat -> k_bufs s !! i = Some b ->
  locked_by pr b /\ 0 < b_refcnt b /\ b_valid b = true /\ b_dev b = D /\ b_disk b = false.
Proof.
  intros Hc Hh Hi Hb. pose proof (ca_lock _ _ _ Hc i b Hi Hb) as Hl. rewrite bool_decide_true in Hl by done.
  destruct (ca_ref _ _ _ Hc i b Hi Hb). tauto.
Qed.

Lemma holding_held s ord held e i b :
  bio_ready p pr s -> cache s ord held -> i ∈ held -> (i < NBUF)%nat -> k_bufs s !! i = Some b ->
  sleep_holding (buf_sl i) s e = Ret true s e.
Proof.
  intros Hr Hc Hh Hi Hb. destruct (held_facts s ord held i b Hc Hh Hi Hb) as (Hl & _).
  rewrite (sleep_holding_run p pr s e i b) by done. unfold locked_by in Hl. rewrite Hl. cbn. by rewrite Z.eqb_refl.
Qed.

Lemma bwrite_spec s ord held e i b :
  bio_ready p pr s -> cache s ord held -> i ∈ held -> (i < NBUF)%nat -> k_bufs s !! i = Some b ->
  bwrite i s e = Ret tt (disk_eff i b true s) e /\ cache (disk_eff i b true s) ord held /\
  forall n, view (disk_eff i b true s) n = view s n.
Proof.
  intros Hr Hc Hh Hi Hb. destruct (held_facts s ord held i b Hc Hh Hi Hb) as (Hl & Hrf & Hv & Hd & Hk).
  assert (cache (disk_eff i b true s) ord held) as Hc'.
  { destruct Hc as [C1 C2 C3 C4 C5]. split; try done. intros j c Hj Hcj Hdc Hvc H0. cbn. change (k_bufs s !! j = Some c) in Hcj.
    destruct (Z.eqb_spec (b_blockno c) (b_blockno b)) as [E|]; [|by apply (C5 j c)].
    exfalso. assert (j = i) as -> by (by apply (C2 j i c b)). assert (c = b) as -> by congruence. lia. }
  split; [|split; [done|]].
  - unfold bwrite. kstep (holding_held s ord held e i b); [done..|]. cbn [negb]. by apply disk_rw_law.
  - intros n. apply (sees_view _ ord held); [done|].
    destruct (view_sees s ord held n Hc) as [(j & c & Hcp & Hda)|[Hno Hda]].
    + left. by exists j, c.
    + right. split; [done|]. cbn. destruct (Z.eqb_spec n (b_blockno b)) as [->|]; [|done].
      exfalso. by apply (Hno i b).
Qed.

Lemma set_data_spec s ord held e i b v :
  cache s ord held -> i ∈ held -> (i < NBUF)%nat -> k_bufs s !! i = Some b ->
  let s' := set_k_bufs (<[i := set_b_data v b]> (k_bufs s)) s in
  upd_buf i (set_b_data v) s e = Ret tt s' e /\ cache s' ord held /\
  forall n, view s' n = if n =? b_blockno b then v else view s n.
Proof.
  intros Hc Hh Hi Hb s'. destruct (held_facts s ord held i b Hc Hh Hi Hb) as (Hl & Hrf & Hv & Hd & Hk).
  assert (cache s' ord held) as Hc'.
  { apply (cache_upd s ord held i b (set_b_data v b)); try done.
    - unfold lock_ok. by rewrite bool_decide_true.
    - split; [cbn; lia | done].
    - intros _ j c Hj Hj' Hcj Hdc E. apply Hj. by apply (ca_uniq _ _ _ Hc j i c b).
    - cbn. lia. }
  split; [by apply upd_buf_run|]. split; [done|]. intros n.
  destruct (Z.eqb_spec n (b_blockno b)) as [->|Hne].
  - apply (view_cached s' ord held i (set_b_data v b)); try done. apply list_lookup_insert_eq. by apply lookup_lt_Some in Hb.
  - apply (sees_view s' ord held); [done|].
    apply (sees_upd s ord held i b (set_b_data v b)); try done; [|by apply (view_sees s ord held)].
    intros (_ & _ & _ & E & _). done.
Qed.

(** The buffers after [brelse i], up to the links. *)
Definition released (i : nat) (b : buf) (bufs : list buf) : list buf :=
  <[i := set_b_refcnt (b_refcnt b - 1) (set_b_lock (Mk_sleeplock false 0) b)]> bufs.

Lemma same_data_copy bufs bufs' bn i b : same_data bufs bufs' -> copy_of bufs bn i b ->
  exists b', copy_of bufs' bn i b' /\ b_data b' = b_data b.
Proof.
  intros Hs (Hi & Hb & Hd & Hn & Hv). destruct (same_data_lookup _ _ _ _ Hs Hb) as (x & y & Hb').
  eexists. split; [split; [done|]; split; [exact Hb'|]; done | done].
Qed.

Lemma same_data_sym bufs bufs' : same_data bufs bufs' -> same_data bufs' bufs.
Proof.
  intros [L H]. split; [done|]. intros i b' Hb'.
  destruct (lookup_lt_is_Some_2 bufs i) as [b Hb]; [apply lookup_lt_Some in Hb'; lia|].
  destruct (H i b Hb) as (x & y & E). rewrite Hb' in E. injection E as ->. exists (b_next b), (b_prev b).
  rewrite Hb. by destruct b.
Qed.

(** Links do not matter to the cache. *)
Lemma cache_links s ord held bufs' ord' procs :
  cache s ord held -> same_data (k_bufs s) bufs' -> blist bufs' ord' ->
  cache (bset bufs' procs s) ord' held /\ forall n, view (bset bufs' procs s) n = view s n.
Proof.
  intros Hc Hs Hl. pose proof (same_data_sym _ _ Hs) as Hs'.
  assert (cache (bset bufs' procs s) ord' held) as Hc'.
  { destruct Hc as [C1 C2 C3 C4 C5]. split; cbn.
    - done.
    - intros i j b c Hi Hj Hb Hcj Hd1 Hd2 Hn. destruct (same_data_lookup _ _ _ _ Hs' Hb) as (? & ? & Hb').
      destruct (same_data_lookup _ _ _ _ Hs' Hcj) as (? & ? & Hc'). by apply (C2 i j _ _ Hi Hj Hb' Hc').
    - intros i b Hi Hb. destruct (same_data_lookup _ _ _ _ Hs' Hb) as (? & ? & Hb'). by apply (C3 i _ Hi Hb').
    - intros i b Hi Hb. destruct (same_data_lookup _ _ _ _ Hs' Hb) as (? & ? & Hb'). by apply (C4 i _ Hi Hb').
    - intros i b Hi Hb. destruct (same_data_lookup _ _ _ _ Hs' Hb) as (? & ? & Hb'). by apply (C5 i _ Hi Hb'). }
  split; [done|]. intros n. apply (sees_view _ ord' held); [done|].
  destruct (view_sees s ord held n Hc) as [(j & c & Hcp & Hda)|[Hno Hda]].
  - left. destruct (same_data_copy _ bufs' n j c Hs Hcp) as (c' & Hcp' & Hda'). exists j, c'. split; [done | congruence].
  - right. split; [|done]. intros j c Hcp. destruct (same_data_copy _ (k_bufs s) n j c Hs' Hcp) as (c' & Hcp' & _). by apply (Hno j c').
Qed.

Lemma released_cache s ord held i b procs :
  cache s ord held -> i ∈ held -> (i < NBUF)%nat -> k_bufs s !! i = Some b ->
  (b_refcnt b = 1 -> b_data b = k_disk s (b_blockno b)) ->
  let s' := bset (released i b (k_bufs s)) procs s in
  cache s' ord (held ∖ {[i]}) /\ forall n, view s' n = view s n.
Proof.
  intros Hc Hh Hi Hb Hclean s'. destruct (held_facts s ord held i b Hc Hh Hi Hb) as (Hl & Hrf & Hv & Hd & Hk).
  assert (cache s' ord (held ∖ {[i]})) as Hc'.
  { eapply (cache_upd s ord held i b _ s'); [done | done | done | reflexivity | done | done | done | ..].
    - intros j Hj. set_solver.
    - unfold lock_ok. by rewrite bool_decide_false by set_solver.
    - cbn. split; [lia | done].
    - intros _ j c Hj Hj' Hcj Hdc E. apply Hj. by apply (ca_uniq _ _ _ Hc j i c b).
    - cbn. intros _ _ H0. apply Hclean. lia. }
  split; [done|]. intros n. apply (sees_view s' ord (held ∖ {[i]})); [done|].
  eapply (sees_upd s ord held i b _ s'); [done | done | done | reflexivity | done | | | by apply (view_sees s ord held)].
  - intros (_ & _ & Hdb & Hnb & _) E. left. done.
  - intros Hn Hdb Hnb Hvb. exfalso. by apply Hn.
Qed.

(** [brelse]: the reference is dropped, the lock freed, and an unreferenced
    buffer moved to the front of the list. *)
Definition front (i : nat) (b : buf) (ord : list nat) : list nat :=
  if b_refcnt b =? 1 then i :: filter (fun j => j <> i) ord else ord.

Lemma filter_ne_split (i : nat) o1 o2 : NoDup (o1 ++ i :: o2) -> filter (fun j => j <> i) (o1 ++ i :: o2) = o1 ++ o2.
Proof.
  intros (N1 & Nd & [N2 N3]%list.NoDup_cons)%list.NoDup_app. rewrite list.filter_app, filter_cons_False by tauto.
  assert (forall l : list nat, (i ∉ l) -> filter (fun j => j <> i) l = l) as Hid.
  { intros l Hl. induction l as [|x l IH]; [done|]. apply not_elem_of_cons in Hl as [? ?].
    rewrite filter_cons_True by done. f_equal. by apply IH. }
  rewrite !Hid; [done | done |]. intros H. apply (Nd i H). set_solver.
Qed.

Lemma brelse_spec s ord held e i b :
  bio_ready p pr s -> cache s ord held -> i ∈ held -> (i < NBUF)%nat -> k_bufs s !! i = Some b ->
  b_refcnt b < 2 ^ 32 -> (b_refcnt b = 1 -> b_data b = k_disk s (b_blockno b)) ->
  exists bufs' procs, brelse i s e = Ret tt (bset bufs' procs s) e /\ procs_step p (k_procs s) procs /\
    same_data (released i b (k_bufs s)) bufs' /\ cache (bset bufs' procs s) (front i b ord) (held ∖ {[i]}) /\
    forall n, view (bset bufs' procs s) n = view s n.
Proof.
  intros Hr Hc Hh Hi Hb Hmax Hclean. destruct (held_facts s ord held i b Hc Hh Hi Hb) as (Hl & Hrf & Hv & Hd & Hk).
  set (pc := wake_procs (Some p) (CSleepBuf i) (k_procs s)).
  assert (procs_step p (k_procs s) pc) as Hps by apply procs_step_wake.
  destruct (released_cache s ord held i b pc Hc Hh Hi Hb Hclean) as [Hc2 Hv2].
  set (s2 := bset (released i b (k_bufs s)) pc s) in *.
  set (b2 := set_b_refcnt (b_refcnt b - 1) (set_b_lock (Mk_sleeplock false 0) b)).
  assert (k_bufs s2 !! i = Some b2) as Hb2 by (apply list_lookup_insert_eq; by apply lookup_lt_Some in Hb).
  assert (room 1 (k_hl s)) as Hr1 by (apply (room_weaken 3); [apply Hr | lia]).
  assert (exists bufs', when (b_refcnt b2 =? 0) (unlink i ;; push_front i) (set_k_hl (acq L_bcache (k_hl s)) s2) e =
            Ret tt (set_k_hl (acq L_bcache (k_hl s)) (bset bufs' pc s)) e /\
            same_data (released i b (k_bufs s)) bufs' /\ blist bufs' (front i b ord)) as (B & RB & DB & LB).
  { unfold front. cbn [b_refcnt set_b_refcnt b2]. replace (b_refcnt b - 1 =? 0) with (b_refcnt b =? 1) by lia.
    destruct (b_refcnt b =? 1) eqn:E1; cbn [when].
    - assert (i ∈ ord) as Hin by (by apply (bl_in _ _ (ca_list _ _ _ Hc))). apply list_elem_of_split in Hin as (o1 & o2 & Ho).
      destruct (move_front_run ord o1 i o2 (set_k_hl (acq L_bcache (k_hl s)) s2) e) as (B & RB & DB & LB); [apply Hc2 | done |].
      exists B. split; [rewrite RB; by destruct s|]. split; [exact DB|]. rewrite Ho, filter_ne_split; [exact LB|].
      rewrite <- Ho. apply (bl_nodup _ _ (ca_list _ _ _ Hc)).
    - exists (released i b (k_bufs s)). split; [done|]. split; [apply same_data_refl | apply Hc2]. }
  destruct (cache_links s2 ord (held ∖ {[i]}) B (front i b ord) pc Hc2 DB LB) as [Hc3 Hv3].
  exists B, pc. split; [|split; [done | split; [done | split; [exact Hc3 | intros n; rewrite <- Hv2; apply Hv3]]]].
  unfold brelse. kstep (holding_held s ord held e i b); [done..|]. cbn [negb].
  kstep (sleep_release_run p pr s e i b); [done..|]. fold pc. set (s1 := bset _ pc s).
  kstep acquire_run; [done | apply Hr |]. kstep upd_buf_run; [apply list_lookup_insert_eq; by apply lookup_lt_Some in Hb|].
  cbn [b_refcnt set_b_lock]. rewrite u32_small by lia. set (s1' := set_k_bufs _ _).
  assert (s1' = set_k_hl (acq L_bcache (k_hl s)) s2) as ->.
  { unfold s1', s1, s2, released, bset. cbn. by rewrite list_insert_insert_eq. }
  kstep get_buf_run; [exact Hb2|]. kstep RB.
  rewrite (release_acq_run L_bcache (k_hl s)); [|done | done | apply Hr]. rewrite (br_nested _ _ _ Hr). by destruct s.
Qed.

(** ** A process using the cache

    [session s0 held s]: starting from [s0], with no buffer held, the process
    has come to [s] and holds [held].  [u1] and [u2] are two buffers nobody
    referred to at the start, so that two blocks can be read. *)
Definition dset (d : Z -> list Z) (tr : list (Z * list Z)) (bufs : list buf) (procs : list process) (s : kernel) : kernel :=
  set_k_trace tr (set_k_disk d (bset bufs procs s)).

Definition one (b : bool) : Z := if b then 1 else 0.

Record session (s0 : kernel) (held : gset nat) (s : kernel) : Prop := Session {
  se_ready : bio_ready p pr s;
  se_cache : exists ord, cache s ord held;
  se_held i : i ∈ held -> (i < NBUF)%nat;
  se_ref i : (i < NBUF)%nat -> exists b0 b, k_bufs s0 !! i = Some b0 /\ k_bufs s !! i = Some b /\
    b_refcnt b = b_refcnt b0 + one (bool_decide (i ∈ held));
  se_max i b0 : (i < NBUF)%nat -> k_bufs s0 !! i = Some b0 -> b_refcnt b0 < 2 ^ 31;
  se_spare : exists u1 u2 b1 b2, u1 <> u2 /\ (u1 < NBUF)%nat /\ (u2 < NBUF)%nat /\
    k_bufs s0 !! u1 = Some b1 /\ k_bufs s0 !! u2 = Some b2 /\ b_refcnt b1 = 0 /\ b_refcnt b2 = 0;
  se_frame : s = dset (k_disk s) (k_trace s) (k_bufs s) (k_procs s) s0
}.

(** The held buffer [i] is block [bn] with contents [v]; if [c], it may be
    released, [v] being on the disk unless the block is pinned. *)
Definition hb (c : bool) (s : kernel) (i : nat) (bn : Z) (v : list Z) : Prop :=
  exists b, k_bufs s !! i = Some b /\ b_blockno b = bn /\ b_data b = v /\
    (c = true -> b_refcnt b = 1 -> v = k_disk s bn).

Lemma hb_keep c s s' i bn v b' :
  hb c s i bn v -> k_disk s' bn = k_disk s bn ->
  (forall b, k_bufs s !! i = Some b -> b_blockno b' = b_blockno b /\ b_data b' = b_data b /\ b_refcnt b' = b_refcnt b) ->
  k_bufs s' !! i = Some b' -> hb c s' i bn v.
Proof.
  intros (b & Hb & Hn & Hv & Hcl) Hd Hs Hb'. destruct (Hs b Hb) as (E1 & E2 & E3). exists b'.
  rewrite E1, E2, E3, Hd. done.
Qed.

(** A buffer nobody uses is left while at most one is held. *)
Lemma session_avail s0 held s bn : session s0 held s -> (size held <= 1)%nat -> avail s bn.
Proof.
  intros Hs Hsz. destruct (se_spare _ _ _ Hs) as (u1 & u2 & b1 & b2 & Hne & H1 & H2 & Hb1 & Hb2 & R1 & R2).
  assert (exists u b, (u < NBUF)%nat /\ k_bufs s0 !! u = Some b /\ b_refcnt b = 0 /\ (u ∉ held)) as (u & b & Hu & Hb & H0 & Hn).
  { destruct (decide (u1 ∈ held)) as [Hi1|]; [|by exists u1, b1]. destruct (decide (u2 ∈ held)) as [Hi2|]; [|by exists u2, b2].
    exfalso. assert ({[u1; u2]} ⊆ held) as Hsub by set_solver. apply subseteq_size in Hsub.
    rewrite size_union, !size_singleton in Hsub by set_solver. lia. }
  destruct (se_ref _ _ _ Hs u Hu) as (b0 & b' & Hb0 & Hb' & Hr). rewrite bool_decide_false in Hr by done.
  assert (b0 = b) as -> by congruence.
  exists u, b'. split_and!; try done. right. cbn in Hr. lia.
Qed.

Lemma session_takeable s0 held s bn :
  session s0 held s -> (forall i, i ∈ held -> exists c n v, hb c s i n v /\ n <> bn) -> takeable s held bn.
Proof.
  intros Hs Hh i b Hi Hb Hd Hn. split.
  - intros Hin. destruct (Hh i Hin) as (c & n & v & (b' & Hb' & E & _) & Hne). congruence.
  - destruct (se_ref _ _ _ Hs i Hi) as (b0 & b'' & Hb0 & Hb'' & E). pose proof (se_max _ _ _ Hs i b0 Hi Hb0).
    assert (b'' = b) as -> by congruence. unfold one in E. case_bool_decide; lia.
Qed.

Definition keeps (held : gset nat) (s s' : kernel) : Prop :=
  forall j c n v, j ∈ held -> hb c s j n v -> hb c s' j n v.

Lemma keeps_trans held s1 s2 s3 : keeps held s1 s2 -> keeps held s2 s3 -> keeps held s1 s3.
Proof. intros H1 H2 j c n v Hj H. by apply H2, H1. Qed.

Lemma keeps_sub held held' s s' : keeps held s s' -> held' ⊆ held -> keeps held' s s'.
Proof. intros H Hsub j c n v Hj. apply H. set_solver. Qed.

(** A step that replaces buffer [i] keeps the other held ones. *)
Lemma keeps_upd held s s' i b' :
  k_bufs s' = <[i := b']> (k_bufs s) -> (i ∉ held) -> k_disk s' = k_disk s -> keeps held s s'.
Proof.
  intros Hb Hi Hd j c n v Hj (b & Hbj & H). exists b. rewrite Hb, Hd. split; [|done].
  rewrite list_lookup_insert_ne; [done | set_solver].
Qed.

Lemma keeps_same held s s' i b b' bufs' :
  k_bufs s !! i = Some b -> same_data (<[i := b']> (k_bufs s)) bufs' -> k_bufs s' = bufs' -> (i ∉ held) ->
  k_disk s' = k_disk s -> keeps held s s'.
Proof.
  intros Hi Hs Hb Hn Hd j c n v Hj (b1 & Hbj & H).
  destruct (same_data_lookup (<[i := b']> (k_bufs s)) bufs' j b1 Hs) as (x & y & E).
  { rewrite list_lookup_insert_ne; [done | set_solver]. }
  eexists. rewrite Hb, Hd. split; [exact E | exact H].
Qed.

Lemma session_bread s0 held s e bn :
  session s0 held s -> (size held <= 1)%nat -> (forall i, i ∈ held -> exists c n v, hb c s i n v /\ n <> bn) ->
  exists i s', bread D bn s e = Ret i s' e /\ session s0 ({[i]} ∪ held) s' /\ (i ∉ held) /\
    hb true s' i bn (view s bn) /\ keeps held s s' /\
    (forall n, view s' n = view s n) /\ k_disk s' = k_disk s /\ k_trace s' = k_trace s.
Proof.
  intros Hs Hsz Hh. destruct (se_cache _ _ _ Hs) as [ord Hc].
  destruct (bread_spec s ord held e bn (se_ready _ _ _ Hs) Hc) as (i & b & b' & R & Hi & Hb & Hn & Hbn & Hda & Hrf & Hcl & Hc' & Hv & _).
  { by apply (session_takeable s0). }
  { by apply (session_avail s0 held). }
  pose proof (lookup_lt_Some _ _ _ Hb) as Hlt.
  exists i, (set_k_bufs (<[i := b']> (k_bufs s)) s). split; [done|]. split; [|split; [done|]].
  - split.
    + apply (bio_ready_bset p pr s _ (k_procs s)); [apply Hs | done].
    + eexists. exact Hc'.
    + intros j [->%elem_of_singleton|Hj]%elem_of_union; [done|]. by apply Hs.
    + intros j Hj. destruct (se_ref _ _ _ Hs j Hj) as (b0 & bj & H0 & Hbj & E). cbn.
      destruct (decide (j = i)) as [->|Hne].
      * exists b0, b'. rewrite list_lookup_insert_eq by done. split_and!; try done.
        rewrite bool_decide_true by set_solver. rewrite bool_decide_false in E by done. assert (bj = b) as -> by congruence.
        unfold one in *. lia.
      * exists b0, bj. rewrite list_lookup_insert_ne by done. split_and!; try done. rewrite E. f_equal. f_equal.
        apply bool_decide_ext. set_solver.
    + apply Hs.
    + apply Hs.
    + rewrite (se_frame _ _ _ Hs). reflexivity.
  - split; [|split; [by apply (keeps_upd held s _ i b')|done]]. exists b'. split; [by apply list_lookup_insert_eq|].
    split; [done|]. split; [done|]. intros _ H1. apply Hcl. lia.
Qed.

(** [std::memmove] into a held buffer. *)
Lemma session_set s0 held s e i c bn w v :
  session s0 held s -> i ∈ held -> hb c s i bn w ->
  exists s', upd_buf i (set_b_data v) s e = Ret tt s' e /\ session s0 held s' /\ hb false s' i bn v /\
    keeps (held ∖ {[i]}) s s' /\ (forall n, view s' n = if n =? bn then v else view s n) /\
    k_disk s' = k_disk s /\ k_trace s' = k_trace s.
Proof.
  intros Hs Hi (b & Hb & <- & Hw & _). destruct (se_cache _ _ _ Hs) as [ord Hc].
  destruct (set_data_spec s ord held e i b v Hc Hi (se_held _ _ _ Hs i Hi) Hb) as (R & Hc' & Hv).
  pose proof (lookup_lt_Some _ _ _ Hb) as Hlt.
  eexists. split; [exact R|]. split; [|split].
  - split.
    + apply (bio_ready_bset p pr s _ (k_procs s)); [apply Hs | done].
    + eexists. exact Hc'.
    + apply Hs.
    + intros j Hj. destruct (se_ref _ _ _ Hs j Hj) as (b0 & bj & H0 & Hbj & E). cbn.
      destruct (decide (j = i)) as [->|Hne].
      * exists b0. eexists. rewrite list_lookup_insert_eq by done. split_and!; try done. cbn. congruence.
      * exists b0, bj. by rewrite list_lookup_insert_ne by done.
    + apply Hs.
    + apply Hs.
    + rewrite (se_frame _ _ _ Hs). reflexivity.
  - eexists. cbn. rewrite list_lookup_insert_eq by done. done.
  - split; [eapply keeps_upd; [reflexivity | set_solver | done] | done].
Qed.

Lemma session_bwrite s0 held s e i c bn v :
  session s0 held s -> i ∈ held -> hb c s i bn v ->
  exists s', bwrite i s e = Ret tt s' e /\ session s0 held s' /\ hb true s' i bn v /\
    keeps (held ∖ {[i]}) s s' /\ (forall n, view s' n = view s n) /\
    k_disk s' = (fun n => if n =? bn then v else k_disk s n) /\ k_trace s' = k_trace s ++ [(bn, v)].
Proof.
  intros Hs Hi (b & Hb & <- & <- & _). destruct (se_cache _ _ _ Hs) as [ord Hc].
  pose proof (se_held _ _ _ Hs i Hi) as Hlt.
  destruct (bwrite_spec s ord held e i b (se_ready _ _ _ Hs) Hc Hi Hlt Hb) as (R & Hc' & Hv).
  destruct (held_facts s ord held i b Hc Hi Hlt Hb) as (_ & _ & _ & Hdi & _).
  eexists. split; [exact R|]. split; [|split; [|split]].
  - split.
    + destruct (se_ready _ _ _ Hs). split; done.
    + eexists. exact Hc'.
    + apply Hs.
    + apply Hs.
    + apply Hs.
    + apply Hs.
    + rewrite (se_frame _ _ _ Hs). reflexivity.
  - exists b. split_and!; try done. intros _ _. cbn. by rewrite Z.eqb_refl.
  - intros j c' n v [Hj Hne]%elem_of_difference (bj & Hbj & <- & <- & Hcl). exists bj. split_and!; try done.
    intros H1 H2. cbn. destruct (Z.eqb_spec (b_blockno bj) (b_blockno b)) as [E|]; [|by apply Hcl].
    exfalso. apply Hne. apply elem_of_singleton. pose proof (se_held _ _ _ Hs j Hj) as Hjl.
    destruct (held_facts s ord held j bj Hc Hj Hjl Hbj) as (_ & _ & _ & Hdj & _). by apply (ca_uniq _ _ _ Hc j i bj b).
  - done.
Qed.

Lemma session_brelse s0 held s e i bn v :
  session s0 held s -> i ∈ held -> hb true s i bn v ->
  exists s', brelse i s e = Ret tt s' e /\ session s0 (held ∖ {[i]}) s' /\ keeps (held ∖ {[i]}) s s' /\
    (forall n, view s' n = view s n) /\ k_disk s' = k_disk s /\ k_trace s' = k_trace s.
Proof.
  intros Hs Hi (b & Hb & <- & <- & Hcl). destruct (se_cache _ _ _ Hs) as [ord Hc].
  pose proof (se_held _ _ _ Hs i Hi) as Hlt. destruct (se_ref _ _ _ Hs i Hlt) as (b0 & b' & H0 & Hb' & E).
  assert (b' = b) as -> by congruence. rewrite bool_decide_true in E by done. cbn in E.
  pose proof (se_max _ _ _ Hs i b0 Hlt H0) as Hmax.
  destruct (brelse_spec s ord held e i b (se_ready _ _ _ Hs) Hc Hi Hlt Hb) as (B & pc & R & Hps & Hd & Hc' & Hv); [lia | auto |].
  eexists. split; [exact R|]. split; [|split; [|done]].
  - split.
    + apply bio_ready_bset; [apply Hs | done].
    + eexists. exact Hc'.
    + intros j Hj. apply Hs. set_solver.
    + intros j Hj. destruct (se_ref _ _ _ Hs j Hj) as (c0 & bj & Hj0 & Hbj & Ej). exists c0.
      assert (exists bj', released i b (k_bufs s) !! j = Some bj' /\
        b_refcnt bj' = b_refcnt c0 + one (bool_decide (j ∈ held ∖ {[i]}))) as (bj' & Hbj' & Ej').
      { unfold released. destruct (decide (j = i)) as [->|Hne].
        - eexists. rewrite list_lookup_insert_eq by (by apply lookup_lt_Some in Hb). split; [done|].
          rewrite bool_decide_false by set_solver. assert (c0 = b0) as -> by congruence. cbn. lia.
        - exists bj. rewrite list_lookup_insert_ne by done. split; [done|]. rewrite Ej. f_equal. f_equal.
          apply bool_decide_ext. set_solver. }
      destruct (same_data_lookup _ _ _ _ Hd Hbj') as (x & y & Hfin). eexists. split_and!; [done | exact Hfin | exact Ej'].
    + apply Hs.
    + apply Hs.
    + rewrite (se_frame _ _ _ Hs). reflexivity.
  - eapply (keeps_same _ s _ i b _ B); [done | exact Hd | done | set_solver | done].
Qed.

(** ** From the static initialisers to a cache *)

Lemma boot_buf s i b bufs' : k_bufs s = replicate (S NBUF) buf0 -> same_data (k_bufs s) bufs' -> bufs' !! i = Some b ->
  exists n pv, b = set_b_next n (set_b_prev pv buf0).
Proof.
  intros Hs Hd Hb. destruct (same_data_lookup _ _ _ _ (same_data_sym _ _ Hd) Hb) as (x & y & E).
  rewrite Hs in E. apply lookup_replicate in E as [E _]. exists (b_next b), (b_prev b). destruct b. cbn in *. by injection E as -> -> -> -> -> -> _ _ ->.
Qed.

Lemma binit_cache s e : D <> 0 -> k_bufs s = replicate (S NBUF) buf0 ->
  exists bufs', binit s e = Ret tt (set_k_bufs bufs' s) e /\ same_data (k_bufs s) bufs' /\
    cache (set_k_bufs bufs' s) (rev (seq 0 NBUF)) ∅ /\ forall n, view (set_k_bufs bufs' s) n = k_disk s n.
Proof.
  intros HD Hs. destruct (binit_run s e) as (B & R & Hd & Hl); [rewrite Hs; apply length_replicate|].
  assert (cache (set_k_bufs B s) (rev (seq 0 NBUF)) ∅) as Hc.
  { split; [exact Hl | | | |].
    - intros i j b c _ _ Hb _ Hdb. destruct (boot_buf s i b B Hs Hd Hb) as (? & ? & ->). by cbn in Hdb.
    - intros i b _ Hb. rewrite bool_decide_false by set_solver. by destruct (boot_buf s i b B Hs Hd Hb) as (? & ? & ->).
    - intros i b _ Hb. by destruct (boot_buf s i b B Hs Hd Hb) as (? & ? & ->).
    - intros i b _ Hb Hdb. destruct (boot_buf s i b B Hs Hd Hb) as (? & ? & ->). by cbn in Hdb. }
  exists B. split_and!; try done. intros n. apply (view_disk (set_k_bufs B s) (rev (seq 0 NBUF)) ∅ n Hc).
  intros i b _ Hb Hdb. destruct (boot_buf s i b B Hs Hd Hb) as (? & ? & ->). by cbn in Hdb.
Qed.

(** A cache nobody uses, as the process finds it when it starts. *)
Lemma session_start s ord :
  bio_ready p pr s -> cache s ord ∅ ->
  (forall i b, (i < NBUF)%nat -> k_bufs s !! i = Some b -> b_refcnt b < 2 ^ 31) ->
  (exists u1 u2 b1 b2, u1 <> u2 /\ (u1 < NBUF)%nat /\ (u2 < NBUF)%nat /\
    k_bufs s !! u1 = Some b1 /\ k_bufs s !! u2 = Some b2 /\ b_refcnt b1 = 0 /\ b_refcnt b2 = 0) ->
  session s ∅ s.
Proof.
  intros Hr Hc Hm Hu. split; try done; [by exists ord | | by destruct s].
  intros i Hi. destruct (bufs_some s ord ∅ i Hc Hi) as [b Hb]. exists b, b. rewrite bool_decide_false by set_solver.
  split_and!; [done | done | cbn; lia].
Qed.

Lemma session_boot s e : D <> 0 -> k_bufs s = replicate (S NBUF) buf0 -> bio_ready p pr s ->
  exists bufs', binit s e = Ret tt (set_k_bufs bufs' s) e /\ session (set_k_bufs bufs' s) ∅ (set_k_bufs bufs' s) /\
    (forall n, view (set_k_bufs bufs' s) n = k_disk s n) /\
    forall i b, bufs' !! i = Some b -> b_refcnt b = 0 /\ b_dev b = 0.
Proof.
  intros HD Hs Hr. destruct (binit_cache s e HD Hs) as (B & R & Hd & Hc & Hv). exists B. split_and!; try done; cycle 1.
  { intros i b Hb. by destruct (boot_buf s i b B Hs Hd Hb) as (? & ? & ->). }
  assert (forall i, (i < NBUF)%nat -> exists b, B !! i = Some b /\ b_refcnt b = 0) as Hall.
  { intros i Hi. destruct (bufs_some _ _ _ i Hc Hi) as [b Hb]. exists b. split; [done|].
    by destruct (boot_buf s i b B Hs Hd Hb) as (? & ? & ->). }
  apply (session_start _ (rev (seq 0 NBUF))); [|done| |].
  - apply (bio_ready_bset p pr s B (k_procs s)); done.
  - intros i b Hi Hb. destruct (Hall i Hi) as (b' & Hb' & E). cbn in Hb. assert (b' = b) as -> by congruence. lia.
  - destruct (Hall 0%nat ltac:(unfold NBUF; lia)) as (b1 & ? & ?). destruct (Hall 1%nat ltac:(unfold NBUF; lia)) as (b2 & ? & ?).
    exists 0%nat, 1%nat, b1, b2. split_and!; try done; unfold NBUF; lia.
Qed.
End cache.

(** ** Properties *)

(** The kernel with hart 0 running process 0. *)
Definition boot0 : kernel := set_k_hl hl_run kernel0.

Lemma boot0_ready : bio_ready 0 proc0 boot0.
Proof.
  split.
  - apply hl_run_ready. lia.
  - reflexivity.
  - vm_compute. reflexivity.
  - apply (all_free L_buf). vm_compute. reflexivity.
  - apply hl_run_procs.
  - reflexivity.
  - reflexivity.
  - reflexivity.
Qed.

(** [bio::init] links all thirty buffers into one list and leaves them invalid and unreferenced. *)
Theorem binit_one_list (D : Z) s e :
  D <> 0 -> k_bufs s = replicate (S NBUF) buf0 ->
  exists bufs', binit s e = Ret tt (set_k_bufs bufs' s) e /\ blist bufs' (rev (seq 0 NBUF)) /\
    (forall i b, bufs' !! i = Some b -> b_refcnt b = 0 /\ b_valid b = false) /\
    forall n, view D (set_k_bufs bufs' s) n = k_disk s n.
Proof.
  intros HD Hs. destruct (binit_cache D proc0 s e HD Hs) as (B & R & Hd & Hc & Hv). exists B.
  split_and!; [done | apply Hc | | done]. intros i b Hb. by destruct (boot_buf s i b B Hs Hd Hb) as (? & ? & ->).
Qed.

Lemma binit_one_list_witness : exists bufs', binit boot0 [] = Ret tt (set_k_bufs bufs' boot0) [] /\ blist bufs' (rev (seq 0 NBUF)).
Proof. destruct (binit_one_list 1 boot0 []) as (B & H1 & H2 & _); [done | reflexivity | eauto]. Defined.

(** [boot0] after [bio::init]. *)
Lemma boot0_session {DD : DiskDriver} : exists s, binit boot0 [] = Ret tt s [] /\ session 1 0 proc0 s ∅ s /\
  (forall n, view 1 s n = zeros (Z.to_nat BSIZE)) /\ forall i b, k_bufs s !! i = Some b -> b_refcnt b = 0 /\ b_dev b = 0.
Proof.
  destruct (session_boot 1 0 proc0 boot0 []) as (B & H1 & H2 & H3 & H4); [done | reflexivity | exact boot0_ready |].
  eexists. split; [exact H1 | split; [exact H2 | split; [exact H3 | exact H4]]].
Qed.

(** bread returns a locked buffer that holds the requested block's current
    contents, brelse gives it back, the cache still has at most one buffer per block and
    no block's contents changed. *)
Theorem bread_returns_block {DD : DiskDriver} (D : Z) p pr s e bn :
  session D p pr s ∅ s ->
  exists i b s1 s2, bread D bn s e = Ret i s1 e /\ k_bufs s1 !! i = Some b /\
    b_blockno b = bn /\ b_dev b = D /\ b_data b = view D s bn /\ locked_by pr b /\
    brelse i s1 e = Ret tt s2 e /\ session D p pr s ∅ s2 /\
    (forall n, view D s1 n = view D s n /\ view D s2 n = view D s n) /\ k_disk s2 = k_disk s /\ k_trace s2 = k_trace s.
Proof.
  intros Hs. destruct (session_bread D p pr s ∅ s e bn Hs) as (i & s1 & R1 & S1 & Hi & Hb & _ & V1 & D1 & T1); [set_solver..|].
  rewrite union_empty_r_L in S1. destruct (session_brelse D p pr s {[i]} s1 e i bn (view D s bn) S1) as (s2 & R2 & S2 & _ & V2 & D2 & T2); [set_solver | done |].
  destruct Hb as (b & Hb & Hn & Hd & _). destruct (se_cache _ _ _ _ _ _ S1) as [ord Hc].
  destruct (held_facts D pr s1 ord {[i]} i b Hc) as (Hl & _ & _ & Hdv & _); [set_solver | apply (se_held _ _ _ _ _ _ S1); set_solver | done |].
  exists i, b, s1, s2. replace ({[i]} ∖ {[i]}) with (∅ : gset nat) in S2 by set_solver.
  split_and!; try done; try congruence. intros n. by rewrite V2, V1.
Qed.

Lemma bread_returns_block_witness :
  exists s i b s1, session 1 0 proc0 s ∅ s /\ bread (DD := polled_disk) 1 5 s [] = Ret i s1 [] /\ k_bufs s1 !! i = Some b /\ b_blockno b = 5.
Proof.
  destruct (boot0_session (DD := polled_disk)) as (s & _ & Hs & _).
  destruct (bread_returns_block (DD := polled_disk) 1 0 proc0 s [] 5 Hs) as (i & b & s1 & s2 & H1 & H2 & H3 & _). eauto 10.
Defined.

(** C29: A block that is read, overwritten, written with bwrite and released reads back
    as written; the disk has the new contents, one write was made, and no other block
    changed. *)
Theorem block_write_read {DD : DiskDriver} (D : Z) p pr s e bn v :
  session D p pr s ∅ s ->
  exists s' j b, (i <- bread D bn ;; upd_buf i (set_b_data v) ;; bwrite i ;; brelse i ;; bread D bn) s e = Ret j s' e /\
    k_bufs s' !! j = Some b /\ b_blockno b = bn /\ b_data b = v /\
    (forall n, view D s' n = if n =? bn then v else view D s n) /\
    k_disk s' = (fun n => if n =? bn then v else k_disk s n) /\ k_trace s' = k_trace s ++ [(bn, v)].
Proof.
  intros Hs. destruct (session_bread D p pr s ∅ s e bn Hs) as (i & s1 & R1 & S1 & Hi & Hb & _ & V1 & D1 & T1); [set_solver..|].
  destruct (session_set D p pr s _ s1 e i true bn _ v S1 ltac:(set_solver) Hb) as (s2 & R2 & S2 & Hb2 & _ & V2 & D2 & T2).
  destruct (session_bwrite D p pr s _ s2 e i false bn v S2 ltac:(set_solver) Hb2) as (s3 & R3 & S3 & Hb3 & _ & V3 & D3 & T3).
  destruct (session_brelse D p pr s _ s3 e i bn v S3 ltac:(set_solver) Hb3) as (s4 & R4 & S4 & _ & V4 & D4 & T4).
  replace (({[i]} ∪ ∅) ∖ {[i]}) with (∅ : gset nat) in S4 by set_solver.
  destruct (session_bread D p pr s ∅ s4 e bn S4) as (j & s5 & R5 & S5 & _ & (b & Hb5 & Hn5 & Hd5 & _) & _ & V5 & D5 & T5); [set_solver..|].
  exists s5, j, b. split; [kstep R1; kstep R2; kstep R3; kstep R4; exact R5|].
  split_and!; try done; try congruence.
  - rewrite Hd5, V4, V3, V2. by rewrite Z.eqb_refl.
  - intros n. by rewrite V5, V4, V3, V2, V1.
  - by rewrite D5, D4, D3, D2, D1.
Qed.

Lemma block_write_read_witness :
  exists s s' j, session 1 0 proc0 s ∅ s /\
    (i <- bread (DD := polled_disk) 1 5 ;; upd_buf i (set_b_data [1; 2; 3]) ;; bwrite (DD := polled_disk) i ;; brelse i ;; bread (DD := polled_disk) 1 5) s [] = Ret j s' [] /\
    k_disk s' 5 = [1; 2; 3].
Proof.
  destruct (boot0_session (DD := polled_disk)) as (s & _ & Hs & _).
  destruct (block_write_read (DD := polled_disk) 1 0 proc0 s [] 5 [1; 2; 3] Hs) as (s' & j & b & H1 & _ & _ & _ & _ & H2 & _).
  exists s, s', j. split; [exact Hs|]. split; [exact H1|]. by rewrite H2.
Defined.

(** The buffer released last is the first one recycled: a miss that follows the
    release of a block's last reference reuses that block's buffer. *)
Theorem last_released_evicted_first {DD : DiskDriver} (D : Z) p pr s ord held e i b bn :
  bio_ready p pr s -> cache D pr s ord held -> i ∈ held -> (i < NBUF)%nat -> k_bufs s !! i = Some b ->
  b_refcnt b = 1 -> b_data b = k_disk s (b_blockno b) ->
  (forall j c, (j < NBUF)%nat -> k_bufs s !! j = Some c -> b_dev c = D -> b_blockno c <> bn) ->
  exists s1 s2, brelse i s e = Ret tt s1 e /\ bget D bn s1 e = Ret i s2 e.
Proof.
  intros Hr Hc Hh Hi Hb H1 Hcl Hno.
  destruct (brelse_spec D p pr s ord held e i b Hr Hc Hh Hi Hb) as (B & pc & R & Hps & Hd & Hc' & _); [lia | done |].
  unfold front in Hc'. rewrite H1 in Hc'. cbn [Z.eqb Pos.eqb] in Hc'.
  assert (released i b (k_bufs s) !! i = Some (set_b_refcnt (b_refcnt b - 1) (set_b_lock (Mk_sleeplock false 0) b))) as Hi1.
  { apply list_lookup_insert_eq. by apply lookup_lt_Some in Hb. }
  destruct (same_data_lookup _ _ _ _ Hd Hi1) as (x & y & Hi2). eexists _, _. split; [exact R|].
  eapply (bget_miss D p pr (bset B pc s)); [by apply bio_ready_bset | exact Hc' | | | exact Hi2].
  - apply bfirst_None.
    + intros j Hj. apply (blist_some _ _ j (ca_list _ _ _ _ _ Hc')). apply (bl_in _ _ (ca_list _ _ _ _ _ Hc')) in Hj. lia.
    + intros j c Hj Hcj. apply (bl_in _ _ (ca_list _ _ _ _ _ Hc')) in Hj.
      destruct (same_data_lookup _ _ _ _ (same_data_sym _ _ Hd) Hcj) as (x' & y' & E). unfold released in E.
      unfold same_block. apply andb_false_iff. destruct (Z.eqb_spec (b_dev c) D) as [Hdc|]; [|by left]. right.
      apply Z.eqb_neq. destruct (decide (j = i)) as [->|Hne].
      * rewrite list_lookup_insert_eq in E by (by apply lookup_lt_Some in Hb).
        assert (b_dev b = b_dev c /\ b_blockno b = b_blockno c) as [E1 <-] by (by injection E; intros; subst; destruct c).
        apply (Hno i b); congruence.
      * rewrite list_lookup_insert_ne in E by done. exact (Hno j _ Hj E Hdc).
  - cbn [bfirst]. cbn [k_bufs bset set_k_bufs]. rewrite Hi2. unfold unused. cbn [b_refcnt set_b_refcnt set_b_next set_b_prev]. by rewrite H1.
Qed.

Lemma last_released_evicted_first_witness :
  exists i s s1 s2, brelse i s [] = Ret tt s1 [] /\ bget 1 6 s1 [] = Ret i s2 [].
Proof.
  destruct (boot0_session (DD := polled_disk)) as (s & _ & Hs & _ & Hz). destruct (se_cache _ _ _ _ _ _ Hs) as [ord Hc].
  destruct (bread_spec (DD := polled_disk) 1 0 proc0 s ord ∅ [] 5 (se_ready _ _ _ _ _ _ Hs) Hc)
    as (i & b & b' & _ & Hi & Hb & _ & Hn & Hd & Hrf & Hcl & Hc' & _).
  { apply (session_takeable 1 0 proc0 s ∅ s 5 Hs). set_solver. }
  { apply (session_avail 1 0 proc0 s ∅ s 5 Hs). rewrite size_empty. lia. }
  destruct (Hz i b Hb) as [H0 _]. pose proof (lookup_lt_Some _ _ _ Hb) as Hlt. exists i, (set_k_bufs (<[i := b']> (k_bufs s)) s).
  apply (last_released_evicted_first (DD := polled_disk) 1 0 proc0 _ ord ({[i]} ∪ ∅) [] i b' 6).
  - apply (bio_ready_bset 0 proc0 s _ (k_procs s)); [apply Hs | done].
  - exact Hc'.
  - set_solver.
  - done.
  - by apply list_lookup_insert_eq.
  - lia.
  - rewrite Hd, Hn. by apply Hcl.
  - intros j c Hj Hcj. cbn [k_bufs set_k_bufs] in Hcj. destruct (decide (j = i)) as [->|Hne].
    + rewrite list_lookup_insert_eq in Hcj by done. injection Hcj as <-. rewrite Hn. intros _ E. discriminate E.
    + rewrite list_lookup_insert_ne in Hcj by done. destruct (Hz j c Hcj) as [_ ->]. intros E. discriminate E.
Defined.

(** When every buffer is referenced, reading a block that is not cached panics. *)
Theorem no_buffers_panics {DD : DiskDriver} (D : Z) p pr s ord held e bn :
  bio_ready p pr s -> cache D pr s ord held ->
  (forall j c, (j < NBUF)%nat -> k_bufs s !! j = Some c -> 0 < b_refcnt c /\ ~ (b_dev c = D /\ b_blockno c = bn)) ->
  exists s', bread D bn s e = Panic "no buffers" s'.
Proof.
  intros Hr Hc Hall. pose proof (ca_list _ _ _ _ _ Hc) as Hl.
  assert (forall j, j ∈ ord -> is_Some (k_bufs s !! j)) as Hsome.
  { intros j Hj. apply (blist_some _ ord); [done|]. apply (bl_in _ _ Hl) in Hj. lia. }
  destruct (bget_no_buffers D p pr s ord held e bn Hr Hc) as [s' R].
  - apply bfirst_None; [done|]. intros j c Hj Hcj. apply (bl_in _ _ Hl) in Hj. destruct (Hall j c Hj Hcj) as [_ Hn].
    apply not_true_is_false. by rewrite same_block_true.
  - apply bfirst_None; [done|]. intros j c Hj Hcj. apply (bl_in _ _ Hl) in Hj. destruct (Hall j c Hj Hcj) as [H0 _].
    unfold unused. lia.
  - exists s'. unfold bread, bind. by rewrite R.
Qed.

(** Thirty blocks read and never released. *)
Definition all_held : list buf :=
  map (fun i => set_b_refcnt 1 (set_b_dev 1 (set_b_blockno (Z.of_nat i) buf0))) (seq 0 NBUF) ++ [buf0].

Lemma no_buffers_panics_witness : exists s s', bread (DD := polled_disk) 1 40 s [] = Panic "no buffers" s'.
Proof.
  destruct (binit_run (set_k_bufs all_held boot0) []) as (B & _ & Hd & Hl); [reflexivity|]. exists (set_k_bufs B boot0).
  assert (forall j c, (j < NBUF)%nat -> B !! j = Some c -> b_refcnt c = 1 /\ b_blockno c = Z.of_nat j /\ b_lock c = Mk_sleeplock false 0 /\ b_disk c = false /\ b_valid c = false) as Hall.
  { intros j c Hj Hcj. destruct (same_data_lookup _ _ _ _ (same_data_sym _ _ Hd) Hcj) as (x & y & E). cbn [k_bufs set_k_bufs] in E.
    unfold all_held in E. rewrite lookup_app_l, list_lookup_fmap, lookup_seq_lt in E by (rewrite ?length_map, ?length_seq; done).
    cbn [fmap option_fmap option_map] in E. injection E as E1 E2 E3 E4 E5 E6. by rewrite <- E1, <- E2, <- E4, <- E5, <- E6. }
  apply (no_buffers_panics (DD := polled_disk) 1 0 proc0 _ (rev (seq 0 NBUF)) ∅ [] 40).
  - apply (bio_ready_bset 0 proc0 boot0 B (k_procs boot0)); [exact boot0_ready | done].
  - split; [exact Hl | | | |].
    + intros i j b c Hi Hj Hb Hcj _ _ E. destruct (Hall i b Hi Hb) as (_ & E1 & _). destruct (Hall j c Hj Hcj) as (_ & E2 & _). lia.
    + intros i b Hi Hb. rewrite bool_decide_false by set_solver. unfold unlocked_buf. by destruct (Hall i b Hi Hb) as (_ & _ & -> & _).
    + intros i b Hi Hb. destruct (Hall i b Hi Hb) as (-> & _ & _ & -> & _). done.
    + intros i b Hi Hb _ Hv. destruct (Hall i b Hi Hb) as (_ & _ & _ & _ & E). congruence.
  - intros j c Hj Hcj. destruct (Hall j c Hj Hcj) as (-> & -> & _). split; [done|]. unfold NBUF in Hj. lia.
Defined.
