(* ===== verification/Log.v ===== *)
(** * The write-ahead log ([log.cpp])

    File system calls run between [begin_op] and [end_op]; [lwrite] records
    the blocks they change, and the last [end_op] commits: the blocks are
    copied to the log, the header is written, the blocks are installed at
    home, the header is cleared.  [recover] installs a committed log at boot.
    The main theorem is about a crash between any two disk writes. *)

From S2P Require Import Prelude State Riscv Lock Sched Bio.

(** ** The log header in a block *)

(** The [int] at byte [off]. *)
Definition get32 (off : nat) (d : list Z) : Z := s32 (le_val (take 4 (drop off d))).
Definition put32 (off : nat) (v : Z) (d : list Z) : list Z := take off d ++ le_bytes 4 v ++ drop (off + 4) d.

(** [struct logheader]: [n] at 0, [block[i]] at [4 + 4 * i]. *)
Definition block_off (i : nat) : nat := (4 + 4 * i)%nat.

(** ** The functions *)

Definition on_log (f : logst -> logst) : M unit := modify (fun s => set_k_log (f (k_log s)) s).
Definition on_lh (f : logheader -> logheader) : M unit := on_log (fun l => set_lg_lh (f (lg_lh l)) l).

(** [log.lh.block[i]]; the array has [LOGSIZE] elements. *)
Definition lh_get (i : nat) : M Z := l <- gets k_log ;; of_option "log.lh.block" (lh_block (lg_lh l) !! i).
Definition lh_set (i : nat) (v : Z) : M unit :=
  lh_get i ;; on_lh (fun h => set_lh_block (<[i := v]> (lh_block h)) h).

(** [buf->data], an array of [BSIZE] bytes. *)
Definition buf_data (i : nat) : M (list Z) := b <- get_buf i ;; ret (b_data b).
Definition upd_data (i : nat) (f : list Z -> list Z) : M unit := upd_buf i (fun b => set_b_data (f (b_data b)) b).

(** [std::memmove(to->data, from->data, BSIZE)]. *)
Definition copy_data (to from : nat) : M unit := d <- buf_data from ;; upd_data to (fun _ => d).

Section log.
Context {DD : DiskDriver}.

Definition rhead : M unit :=
  l <- gets k_log ;;
  buf <- bread (lg_dev l) (lg_start l) ;;
  d <- buf_data buf ;;
  on_lh (set_lh_n (get32 0 d)) ;;
  for_range 0 (Z.to_nat (get32 0 d)) (fun i => lh_set i (get32 (block_off i) d)) ;;
  brelse buf.

Definition whead : M unit :=
  l <- gets k_log ;;
  buf <- bread (lg_dev l) (lg_start l) ;;
  upd_data buf (put32 0 (lh_n (lg_lh l))) ;;
  for_range 0 (Z.to_nat (lh_n (lg_lh l)))
    (fun i => b <- lh_get i ;; upd_data buf (put32 (block_off i) b)) ;;
  bwrite buf ;;
  brelse buf.

Definition install_one (recovering : bool) (i : nat) : M unit :=
  l <- gets k_log ;;
  lbuf <- bread (lg_dev l) (u32 (lg_start l + Z.of_nat i + 1)) ;;
  b <- lh_get i ;;
  dbuf <- bread (lg_dev l) (u32 b) ;;
  copy_data dbuf lbuf ;;
  bwrite dbuf ;;
  when recovering (bwrite dbuf) ;;
  brelse lbuf ;;
  brelse dbuf.

Definition install_trans (recovering : bool) : M unit :=
  l <- gets k_log ;; for_range 0 (Z.to_nat (lh_n (lg_lh l))) (install_one recovering).

Definition recover : M unit :=
  rhead ;; install_trans true ;; on_lh (set_lh_n 0) ;; whead.

(** [logstart] and [nlog] are the superblock's. *)
Definition init (dev logstart nlog : Z) : M unit :=
  on_log (set_lg_start logstart) ;;
  on_log (set_lg_size nlog) ;;
  on_log (set_lg_dev (u32 dev)) ;;
  recover.

Definition write_one (tail : nat) : M unit :=
  l <- gets k_log ;;
  to <- bread (lg_dev l) (u32 (lg_start l + Z.of_nat tail + 1)) ;;
  b <- lh_get tail ;;
  from <- bread (lg_dev l) (u32 b) ;;
  copy_data to from ;;
  bwrite to ;;
  brelse from ;;
  brelse to.

Definition write_log : M unit :=
  l <- gets k_log ;; for_range 0 (Z.to_nat (lh_n (lg_lh l))) write_one.

Definition commit : M unit :=
  l <- gets k_log ;;
  when (0 <? lh_n (lg_lh l))
    (write_log ;; whead ;; install_trans false ;; on_lh (set_lh_n 0) ;; whead).

(** The reservation test of [begin_op], in unsigned arithmetic. *)
Definition log_full (l : logst) : bool :=
  LOGSIZE <? u32 (lh_n (lg_lh l) + u32 (u32 (lg_outstanding l + 1) * MAXOPBLOCKS)).

Definition begin_op : M unit :=
  acquire L_log ;;
  while_waiting (l <- gets k_log ;; ret (lg_committing l || log_full l)) (sleep CLog L_log) ;;
  on_log (fun l => set_lg_outstanding (u32 (lg_outstanding l + 1)) l) ;;
  release L_log.

Definition end_op : M unit :=
  acquire L_log ;;
  on_log (fun l => set_lg_outstanding (u32 (lg_outstanding l - 1)) l) ;;
  l <- gets k_log ;;
  do_commit <-
    (if lg_committing l then panic "log::end_op: log committing"
     else if lg_outstanding l =? 0 then on_log (set_lg_committing true) ;; ret true
     else wakeup CLog ;; ret false) ;;
  release L_log ;;
  when do_commit
    (commit ;;
     acquire L_log ;;
     on_log (set_lg_committing false) ;;
     wakeup CLog ;;
     release L_log).

(** The absorption loop: the first of the [n] slots that holds [bn], or [n]. *)
Fixpoint absorb (bn : Z) (i n : nat) : M nat :=
  match n with
  | O => ret i
  | S n' => b <- lh_get i ;; if b =? bn then ret i else absorb bn (S i) n'
  end.

Definition lwrite (i : nat) : M unit :=
  acquire L_log ;;
  l <- gets k_log ;;
  if (s32 LOGSIZE <=? lh_n (lg_lh l)) || (s32 (lg_size l) - 1 <=? lh_n (lg_lh l))
  then panic "too big a transaction"
  else if lg_outstanding l <? 1 then panic "log_write outside of trans"
  else
    b <- get_buf i ;;
    k <- absorb (s32 (b_blockno b)) 0 (Z.to_nat (lh_n (lg_lh l))) ;;
    lh_set k (s32 (b_blockno b)) ;;
    when (Z.of_nat k =? lh_n (lg_lh l)) (bpin i ;; on_lh (fun h => set_lh_n (s32 (lh_n h + 1)) h)) ;;
    release L_log.

End log.

(** ** Reading back what was written *)

Lemma length_put32 off v d : (off + 4 <= length d)%nat -> length (put32 off v d) = length d.
Proof. intros H. unfold put32. rewrite !length_app, length_take, length_le_bytes, length_drop. lia. Qed.

Lemma get_put32 off v d : (off + 4 <= length d)%nat -> get32 off (put32 off v d) = s32 v.
Proof.
  intros H. unfold get32, put32. rewrite drop_app_length' by (rewrite length_take; lia).
  rewrite take_app_length' by (by rewrite length_le_bytes). rewrite le_val_bytes. change (256 ^ Z.of_nat 4) with (2 ^ 32).
  unfold s32, u32. by rewrite Z.mod_mod by lia.
Qed.

Lemma get_put32_ne off off' v d : (off' + 4 <= length d)%nat -> (off + 4 <= off' \/ off' + 4 <= off)%nat ->
  get32 off (put32 off' v d) = get32 off d.
Proof.
  intros H Hd. unfold get32, put32. do 2 f_equal. apply list_eq. intros j.
  destruct (decide (j < 4)%nat) as [Hj|]; [|by rewrite !lookup_take_ge by lia].
  rewrite !lookup_take_lt, !lookup_drop by lia. destruct Hd.
  - rewrite lookup_app_l by (rewrite length_take; lia). by rewrite lookup_take_lt by lia.
  - rewrite lookup_app_r by (rewrite length_take; lia). rewrite lookup_app_r by (rewrite length_le_bytes, length_take; lia).
    rewrite lookup_drop, length_le_bytes, length_take. f_equal. lia.
Qed.

(** The header block [whead] writes for [n] blocks [bs], over the old data [d]. *)
Definition enc_blocks (bs : list Z) (d : list Z) : list Z :=
  foldl (fun d '(i, b) => put32 (block_off i) b d) d (zip (seq 0 (length bs)) bs).
Definition enc (bs : list Z) (d : list Z) : list Z := enc_blocks bs (put32 0 (Z.of_nat (length bs)) d).

(** The log a header block describes. *)
Definition dec (d : list Z) : list Z := map (fun i => get32 (block_off i) d) (seq 0 (Z.to_nat (get32 0 d))).

Section header.
Context (d : list Z).
Hypothesis Hd : length d = Z.to_nat BSIZE.

Lemma enc_snoc bs b d0 : enc_blocks (bs ++ [b]) d0 = put32 (block_off (length bs)) b (enc_blocks bs d0).
Proof.
  unfold enc_blocks. rewrite length_app, Nat.add_1_r, seq_S, zip_with_app by (by rewrite length_seq).
  by rewrite foldl_app.
Qed.

Lemma length_enc_blocks bs d0 : length d0 = Z.to_nat BSIZE -> (length bs <= Z.to_nat LOGSIZE)%nat ->
  length (enc_blocks bs d0) = Z.to_nat BSIZE.
Proof.
  intros H0. induction bs as [|b bs IH] using rev_ind; intros Hl; [done|]. rewrite length_app in Hl. cbn in Hl.
  rewrite enc_snoc, length_put32; [apply IH; lia|]. rewrite IH by lia. unfold block_off, BSIZE, LOGSIZE in *. lia.
Qed.

Lemma get_enc_blocks bs d0 off : length d0 = Z.to_nat BSIZE -> (length bs <= Z.to_nat LOGSIZE)%nat ->
  (off + 4 <= 4)%nat \/ (block_off (length bs) <= off)%nat -> get32 off (enc_blocks bs d0) = get32 off d0.
Proof.
  intros H0. induction bs as [|b bs IH] using rev_ind; intros Hl Hoff; [done|]. rewrite length_app in Hl, Hoff. cbn in Hl, Hoff.
  rewrite enc_snoc, get_put32_ne; [apply IH; [lia | unfold block_off in *; lia] | |].
  - rewrite length_enc_blocks by (done || lia). unfold block_off, BSIZE, LOGSIZE in *. lia.
  - unfold block_off in *. lia.
Qed.

Lemma get_enc_block bs d0 i b : length d0 = Z.to_nat BSIZE -> (length bs <= Z.to_nat LOGSIZE)%nat ->
  bs !! i = Some b -> get32 (block_off i) (enc_blocks bs d0) = s32 b.
Proof.
  intros H0. induction bs as [|c bs IH] using rev_ind; intros Hl Hi; [done|]. rewrite length_app in Hl. cbn in Hl.
  assert (block_off (length bs) + 4 <= length (enc_blocks bs d0))%nat as Hroom.
  { rewrite length_enc_blocks by (done || lia). unfold block_off, BSIZE, LOGSIZE in *. lia. }
  rewrite enc_snoc. apply lookup_app_Some in Hi as [Hi|[Hge Hi]].
  - apply lookup_lt_Some in Hi as Hlt. rewrite get_put32_ne; [apply IH; [lia | done] | done |]. unfold block_off. lia.
  - destruct (i - length bs)%nat eqn:E; [|done]. injection Hi as ->. replace i with (length bs) by lia. by rewrite get_put32.
Qed.

Lemma length_enc bs : (length bs <= Z.to_nat LOGSIZE)%nat -> length (enc bs d) = Z.to_nat BSIZE.
Proof. intros. unfold enc. apply length_enc_blocks; [|done]. rewrite length_put32; [done|]. rewrite Hd. unfold BSIZE. lia. Qed.

Lemma get_enc_n bs : (length bs <= Z.to_nat LOGSIZE)%nat -> get32 0 (enc bs d) = Z.of_nat (length bs).
Proof.
  intros Hl. assert (0 + 4 <= length d)%nat by (rewrite Hd; unfold BSIZE; lia). unfold enc.
  rewrite get_enc_blocks; [|by rewrite length_put32 | done | lia]. rewrite get_put32 by done.
  apply s32_small. unfold LOGSIZE in Hl. lia.
Qed.

(** Reading a header back gives the log that was written. *)
Lemma dec_enc bs : (length bs <= Z.to_nat LOGSIZE)%nat -> Forall (fun b => 0 <= b < 2 ^ 31) bs -> dec (enc bs d) = bs.
Proof.
  intros Hl Hb. unfold dec. rewrite get_enc_n, Nat2Z.id by done. apply list_eq. intros i.
  rewrite list_lookup_fmap. destruct (decide (i < length bs)%nat) as [Hi|Hi].
  - rewrite lookup_seq_lt by done. cbn. destruct (lookup_lt_is_Some_2 bs i Hi) as [b Eb]. rewrite Eb. f_equal.
    assert (0 + 4 <= length d)%nat by (rewrite Hd; unfold BSIZE; lia).
    unfold enc. rewrite (get_enc_block bs _ i b); [|by rewrite length_put32 | done | done].
    apply s32_small. exact (Forall_lookup_1 _ _ _ _ Hb Eb).
  - rewrite lookup_seq_ge by lia. by rewrite lookup_ge_None_2 by lia.
Qed.
End header.

(** ** Sequences of block writes *)

Definition upd1 (d : Z -> list Z) (w : Z * list Z) : Z -> list Z := fun n => if n =? w.1 then w.2 else d n.
Definition writes (d : Z -> list Z) (tr : list (Z * list Z)) : Z -> list Z := foldl upd1 d tr.

Lemma writes_app d t1 t2 : writes d (t1 ++ t2) = writes (writes d t1) t2.
Proof. apply foldl_app. Qed.

Lemma writes_ext d1 d2 tr n : (forall m, d1 m = d2 m) -> writes d1 tr n = writes d2 tr n.
Proof.
  revert d1 d2. induction tr as [|w tr IH]; intros d1 d2 H; [apply H|]. cbn. apply IH. intros m. unfold upd1. by rewrite H.
Qed.

(** Writes whose values are a function [f] of the block. *)
Lemma writes_consistent f tr d n : (forall w, w ∈ tr -> w.2 = f w.1) ->
  writes d tr n = if bool_decide (n ∈ tr.*1) then f n else d n.
Proof.
  revert d. induction tr as [|w tr IH]; intros d H; [done|]. cbn. rewrite IH by set_solver. unfold upd1.
  case_bool_decide as E1; [rewrite bool_decide_true by set_solver; done|].
  destruct (Z.eqb_spec n w.1) as [->|Hne]; [rewrite bool_decide_true by set_solver; apply H; set_solver|].
  rewrite bool_decide_false by set_solver. done.
Qed.

Lemma writes_out tr d n : n ∉ tr.*1 -> writes d tr n = d n.
Proof.
  revert d. induction tr as [|w tr IH]; intros d H; [done|]. cbn in *. rewrite IH by set_solver. unfold upd1.
  by rewrite (proj2 (Z.eqb_neq _ _)) by set_solver.
Qed.

(** ** Running the log on the cache *)

Section run.
Context {DD : DiskDriver} (D : Z) (p : nat) (pr : process).

(** From [s] to [s'] the blocks [tr] were written, in this order, both as the
    kernel sees them and on the disk. *)
Definition io (s s' : kernel) (tr : list (Z * list Z)) : Prop :=
  (forall n, view D s' n = writes (view D s) tr n) /\ k_disk s' = writes (k_disk s) tr /\ k_trace s' = k_trace s ++ tr.

Lemma io_nil s s' : (forall n, view D s' n = view D s n) -> k_disk s' = k_disk s -> k_trace s' = k_trace s -> io s s' [].
Proof. intros. split_and!; [done.. | by rewrite app_nil_r]. Qed.

Lemma io_trans s1 s2 s3 t1 t2 : io s1 s2 t1 -> io s2 s3 t2 -> io s1 s3 (t1 ++ t2).
Proof.
  intros (V1 & D1 & T1) (V2 & D2 & T2). split_and!.
  - intros n. rewrite V2, writes_app. by apply writes_ext.
  - by rewrite D2, D1, writes_app.
  - by rewrite T2, T1, app_assoc.
Qed.

Lemma session_log s0 held s : session D p pr s0 held s -> k_log s = k_log s0.
Proof. intros H. by rewrite (se_frame _ _ _ _ _ _ H). Qed.

Lemma session_put_log s0 held s L : session D p pr s0 held s -> session D p pr (set_k_log L s0) held (set_k_log L s).
Proof.
  intros [? [ord Hc] ? ? ? ? Hf]. split; try done.
  - by destruct se_ready.
  - exists ord. by destruct Hc.
  - rewrite Hf. reflexivity.
Qed.

Lemma io_put_log s s' tr L L' : io s s' tr -> io (set_k_log L s) (set_k_log L' s') tr.
Proof. intros H. exact H. Qed.

Lemma hb_data c s i bn v e : hb c s i bn v -> buf_data i s e = Ret v s e.
Proof. intros (b & Hb & _ & Hv & _). unfold buf_data. kstep get_buf_run; [exact Hb|]. unfold ret. by rewrite Hv. Qed.

Lemma session_upd s0 held s e i c bn w f :
  session D p pr s0 held s -> i ∈ held -> hb c s i bn w ->
  exists s', upd_data i f s e = Ret tt s' e /\ session D p pr s0 held s' /\ hb false s' i bn (f w) /\
    keeps (held ∖ {[i]}) s s' /\ (forall n, view D s' n = if n =? bn then f w else view D s n) /\
    k_disk s' = k_disk s /\ k_trace s' = k_trace s.
Proof.
  intros Hs Hi Hb. destruct (session_set D p pr s0 held s e i c bn w (f w) Hs Hi Hb) as (s' & R & H). exists s'. split; [|done].
  rewrite <- R. destruct Hb as (b & Hb & _ & <- & _). unfold upd_data. by rewrite !(upd_buf_run i _ b).
Qed.

(** The writes of a held buffer, seen as one block write. *)
Lemma io_write s s1 s2 bn v :
  (forall n, view D s1 n = if n =? bn then v else view D s n) -> k_disk s1 = k_disk s -> k_trace s1 = k_trace s ->
  (forall n, view D s2 n = view D s1 n) -> k_disk s2 = (fun n => if n =? bn then v else k_disk s1 n) ->
  k_trace s2 = k_trace s1 ++ [(bn, v)] -> io s s2 [(bn, v)].
Proof. intros V1 D1 T1 V2 D2 T2. split_and!; [intros n; by rewrite V2, V1 | by rewrite D2, D1 | by rewrite T2, T1]. Qed.

Lemma io_rewrite s s' bn v : view D s bn = v ->
  (forall n, view D s' n = view D s n) -> k_disk s' = (fun n => if n =? bn then v else k_disk s n) ->
  k_trace s' = k_trace s ++ [(bn, v)] -> io s s' [(bn, v)].
Proof.
  intros Hv V D1 T. split_and!; [|done..]. intros n. rewrite V. cbn. unfold upd1. cbn.
  destruct (Z.eqb_spec n bn) as [->|]; done.
Qed.

Lemma io_quiet s s1 s2 tr : io s s1 tr -> (forall n, view D s2 n = view D s1 n) -> k_disk s2 = k_disk s1 -> k_trace s2 = k_trace s1 ->
  io s s2 tr.
Proof. intros H V D1 T. rewrite <- (app_nil_r tr). eapply io_trans; [exact H | by apply io_nil]. Qed.

Lemma io_after s s1 s2 tr : (forall n, view D s1 n = view D s n) -> k_disk s1 = k_disk s -> k_trace s1 = k_trace s -> io s1 s2 tr ->
  io s s2 tr.
Proof. intros V D1 T H. change tr with ([] ++ tr). eapply io_trans; [by apply io_nil | exact H]. Qed.

(** Two blocks read, the first held when the second is read. *)
Lemma two_reads s0 s e a b : session D p pr s0 ∅ s -> a <> b ->
  exists i j s1 s2, bread D a s e = Ret i s1 e /\ bread D b s1 e = Ret j s2 e /\ i <> j /\
    session D p pr s0 {[i]} s1 /\ session D p pr s0 {[i; j]} s2 /\ hb true s2 i a (view D s a) /\ hb true s2 j b (view D s b) /\
    (forall n, view D s2 n = view D s n) /\ k_disk s2 = k_disk s /\ k_trace s2 = k_trace s.
Proof.
  intros Hs Hne. destruct (session_bread D p pr s0 ∅ s e a Hs) as (i & s1 & R1 & S1 & _ & B1 & _ & V1 & D1 & T1); [set_solver..|].
  rewrite union_empty_r_L in S1.
  destruct (session_bread D p pr s0 {[i]} s1 e b S1) as (j & s2 & R2 & S2 & Hj & B2 & K2 & V2 & D2 & T2).
  { by rewrite size_singleton. }
  { intros k ->%elem_of_singleton. eauto 10. }
  exists i, j, s1, s2. replace ({[i; j]} : gset nat) with ({[j]} ∪ {[i]} : gset nat) by set_solver. rewrite V1 in B2.
  split_and!; try done; try congruence; [set_solver | apply K2; [set_solver | done]].
Qed.

(** Both released. *)
Lemma two_releases s0 s e i j a b v w : session D p pr s0 {[i; j]} s -> i <> j -> hb true s i a v -> hb true s j b w ->
  exists s1 s2, brelse i s e = Ret tt s1 e /\ brelse j s1 e = Ret tt s2 e /\ session D p pr s0 ∅ s2 /\
    (forall n, view D s2 n = view D s n) /\ k_disk s2 = k_disk s /\ k_trace s2 = k_trace s.
Proof.
  intros Hs Hne B1 B2. destruct (session_brelse D p pr s0 _ s e i a v Hs) as (s1 & R1 & S1 & K1 & V1 & D1 & T1); [set_solver | done |].
  destruct (session_brelse D p pr s0 _ s1 e j b w S1) as (s2 & R2 & S2 & _ & V2 & D2 & T2); [set_solver | |].
  { apply K1; [set_solver | done]. }
  exists s1, s2. replace (({[i; j]} ∖ {[i]}) ∖ {[j]}) with (∅ : gset nat) in S2 by set_solver.
  split_and!; try done; congruence.
Qed.

(** One data copy between two held buffers, then the write. *)
Lemma copy_write s0 s e to from a b v w : session D p pr s0 {[to; from]} s -> to <> from ->
  hb true s to a v -> hb true s from b w ->
  exists s1 s2, copy_data to from s e = Ret tt s1 e /\ bwrite to s1 e = Ret tt s2 e /\ session D p pr s0 {[to; from]} s2 /\
    hb true s2 to a w /\ hb true s2 from b w /\ io s s2 [(a, w)].
Proof.
  intros Hs Hne B1 B2.
  destruct (session_upd s0 _ s e to true a v (fun _ => w) Hs ltac:(set_solver) B1) as (s1 & R1 & S1 & H1 & K1 & V1 & D1 & T1).
  destruct (session_bwrite D p pr s0 _ s1 e to false a w S1 ltac:(set_solver) H1) as (s2 & R2 & S2 & H2 & K2 & V2 & D2 & T2).
  exists s1, s2. split; [unfold copy_data; kstep (hb_data true s from b w e B2); exact R1|]. split_and!; try done.
  - apply K2; [set_solver|]. apply K1; [set_solver | done].
  - by apply (io_write s s1 s2).
Qed.

(** ** The log of a state *)

Definition logged (l : logst) : list Z := take (Z.to_nat (lh_n (lg_lh l))) (lh_block (lg_lh l)).

(** The log is well formed: at most [LOGSIZE] blocks, none of them in the log. *)
Record log_wf (l : logst) : Prop := LogWf {
  lw_dev : lg_dev l = D;
  lw_n : 0 <= lh_n (lg_lh l) <= LOGSIZE;
  lw_len : length (lh_block (lg_lh l)) = Z.to_nat LOGSIZE;
  lw_start : 0 <= lg_start l /\ lg_start l + LOGSIZE + 1 < 2 ^ 32;
  lw_blocks : Forall (fun b => 0 <= b < 2 ^ 31 /\ (b < lg_start l \/ lg_start l + LOGSIZE < b)) (logged l)
}.

Definition log_block (l : logst) (i : nat) : Z := lg_start l + 1 + Z.of_nat i.

Lemma log_addr l i : log_wf l -> (i < Z.to_nat LOGSIZE)%nat -> u32 (lg_start l + Z.of_nat i + 1) = log_block l i.
Proof. intros H Hi. pose proof (lw_start l H). unfold log_block. rewrite u32_small; unfold LOGSIZE in *; lia. Qed.

Lemma length_logged l : log_wf l -> length (logged l) = Z.to_nat (lh_n (lg_lh l)).
Proof. intros H. unfold logged. rewrite length_take, (lw_len l H). pose proof (lw_n l H). lia. Qed.

Lemma lh_get_run s e i b : logged (k_log s) !! i = Some b -> lh_get i s e = Ret b s e.
Proof.
  intros H. unfold lh_get. rewrite bind_gets. unfold logged in H. apply lookup_take_Some in H as [H _]. by rewrite H.
Qed.

Lemma logged_facts l i b : log_wf l -> logged l !! i = Some b ->
  (i < Z.to_nat LOGSIZE)%nat /\ u32 b = b /\ b <> log_block l i /\ 0 <= b < 2 ^ 31 /\ (b < lg_start l \/ lg_start l + LOGSIZE < b).
Proof.
  intros H Hi. pose proof (Forall_lookup_1 _ _ _ _ (lw_blocks l H) Hi) as [Hr Ho]. pose proof (lw_n l H).
  apply lookup_lt_Some in Hi. rewrite length_logged in Hi by done. split; [lia|]. rewrite u32_small by lia.
  unfold log_block, LOGSIZE in *. lia.
Qed.

Lemma write_one_run s0 s e i b : session D p pr s0 ∅ s -> log_wf (k_log s) -> logged (k_log s) !! i = Some b ->
  exists s', write_one i s e = Ret tt s' e /\ session D p pr s0 ∅ s' /\ io s s' [(log_block (k_log s) i, view D s b)].
Proof.
  intros Hs Hw Hi. destruct (logged_facts _ _ _ Hw Hi) as (Hil & Hu & Hne & _).
  destruct (two_reads s0 s e (log_block (k_log s) i) b Hs) as (to & from & s1 & s2 & R1 & R2 & Htf & S1 & S2 & B1 & B2 & V2 & D2 & T2); [done|].
  destruct (copy_write s0 s2 e to from _ b _ _ S2 Htf B1 B2) as (s3 & s4 & R3 & R4 & S4 & B1' & B2' & I4).
  destruct (two_releases s0 s4 e from to b (log_block (k_log s) i) (view D s b) (view D s b)) as (s5 & s6 & R5 & R6 & S6 & V6 & D6 & T6).
  { replace ({[from; to]} : gset nat) with ({[to; from]} : gset nat) by set_solver. exact S4. }
  { done. } { exact B2'. } { exact B1'. }
  exists s6. split; [|split; [done|]].
  - unfold write_one. rewrite bind_gets. rewrite (lw_dev _ Hw), log_addr by done. kstep R1.
    kstep (lh_get_run s1 e i b); [by rewrite (session_log _ _ _ S1), <- (session_log _ _ _ Hs)|].
    rewrite Hu. kstep R2. kstep R3. kstep R4. kstep R5. exact R6.
  - apply (io_after s s2); try done. by apply (io_quiet s2 s4).
Qed.

Lemma install_one_run r s0 s e i b : session D p pr s0 ∅ s -> log_wf (k_log s) -> logged (k_log s) !! i = Some b ->
  exists s', install_one r i s e = Ret tt s' e /\ session D p pr s0 ∅ s' /\
    io s s' (replicate (if r then 2 else 1) (b, view D s (log_block (k_log s) i))).
Proof.
  intros Hs Hw Hi. destruct (logged_facts _ _ _ Hw Hi) as (Hil & Hu & Hne & _). set (a := log_block (k_log s) i) in *.
  destruct (two_reads s0 s e a b Hs) as (lb & db & s1 & s2 & R1 & R2 & Htf & S1 & S2 & B1 & B2 & V2 & D2 & T2); [done|].
  replace ({[lb; db]} : gset nat) with ({[db; lb]} : gset nat) in S2 by set_solver.
  destruct (copy_write s0 s2 e db lb _ _ _ _ S2 (not_eq_sym Htf) B2 B1) as (s3 & s4 & R3 & R4 & S4 & B2' & B1' & I4).
  assert (exists s4', when r (bwrite db) s4 e = Ret tt s4' e /\ session D p pr s0 {[db; lb]} s4' /\
            hb true s4' db b (view D s a) /\ hb true s4' lb a (view D s a) /\
            io s2 s4' (replicate (if r then 2 else 1) (b, view D s a))) as (s4' & R4' & S4' & B2'' & B1'' & I4').
  { destruct r; cbn [when]; [|by exists s4].
    destruct (session_bwrite D p pr s0 _ s4 e db true b (view D s a) S4 ltac:(set_solver) B2') as (s4' & R & S' & B' & K' & V' & D' & T').
    exists s4'. split_and!; try done; [apply K'; [set_solver | done]|]. change (replicate 2 (b, view D s a)) with ([(b, view D s a)] ++ [(b, view D s a)]).
    eapply io_trans; [exact I4|]. apply io_rewrite; try done. rewrite (proj1 I4). cbn. unfold upd1. cbn. by rewrite Z.eqb_refl. }
  destruct (two_releases s0 s4' e lb db a b (view D s a) (view D s a)) as (s5 & s6 & R5 & R6 & S6 & V6 & D6 & T6).
  { replace ({[lb; db]} : gset nat) with ({[db; lb]} : gset nat) by set_solver. exact S4'. }
  { done. } { exact B1''. } { exact B2''. }
  exists s6. split; [|split; [done|]].
  - unfold install_one. rewrite bind_gets. rewrite (lw_dev _ Hw), log_addr by done. fold a. kstep R1.
    kstep (lh_get_run s1 e i b); [by rewrite (session_log _ _ _ S1), <- (session_log _ _ _ Hs)|].
    rewrite Hu. kstep R2. kstep R3. kstep R4. kstep R4'. kstep R5. exact R6.
  - apply (io_after s s2); try done. by apply (io_quiet s2 s4').
Qed.

Definition home (l : logst) (i : nat) : Z := nth i (logged l) 0.

(** The writes of [write_log] and [install_trans] for slots [k], [k+1], ... *)
Definition log_writes (l : logst) (V : Z -> list Z) (k n : nat) : list (Z * list Z) :=
  map (fun i => (log_block l i, V (home l i))) (seq k n).
Definition home_writes (r : bool) (l : logst) (V : Z -> list Z) (k n : nat) : list (Z * list Z) :=
  flat_map (fun i => replicate (if r then 2 else 1)%nat (home l i, V (log_block l i))) (seq k n).

Lemma home_lookup l i : log_wf l -> (i < Z.to_nat (lh_n (lg_lh l)))%nat -> logged l !! i = Some (home l i).
Proof.
  intros H Hi. destruct (nth_lookup_or_length (logged l) i 0) as [?|Hl]; [done|]. rewrite length_logged in Hl by done. lia.
Qed.

Lemma home_not_log l i j : log_wf l -> (i < Z.to_nat (lh_n (lg_lh l)))%nat -> (j < Z.to_nat LOGSIZE)%nat -> home l i <> log_block l j.
Proof.
  intros H Hi Hj. destruct (logged_facts l i _ H (home_lookup l i H Hi)) as (_ & _ & _ & _ & Ho). unfold log_block, LOGSIZE in *. lia.
Qed.

Lemma upd1_ne d w n : n <> w.1 -> upd1 d w n = d n.
Proof. intros H. unfold upd1. by rewrite (proj2 (Z.eqb_neq _ _)). Qed.

Lemma write_from_run n : forall k s0 s e, session D p pr s0 ∅ s -> log_wf (k_log s) ->
  (k + n = Z.to_nat (lh_n (lg_lh (k_log s))))%nat ->
  exists s', for_range k n write_one s e = Ret tt s' e /\ session D p pr s0 ∅ s' /\ io s s' (log_writes (k_log s) (view D s) k n).
Proof.
  induction n as [|n IH]; intros k s0 s e Hs Hw Hk; [exists s; split_and!; try done; by apply io_nil|].
  destruct (write_one_run s0 s e k (home (k_log s) k) Hs Hw) as (s1 & R1 & S1 & I1); [apply home_lookup; [done | lia]|].
  assert (k_log s1 = k_log s) as El by (by rewrite (session_log _ _ _ S1), (session_log _ _ _ Hs)).
  destruct (IH (S k) s0 s1 e S1) as (s2 & R2 & S2 & I2); [by rewrite El | rewrite El; lia|]. rewrite El in I2.
  exists s2. split; [cbn [for_range]; kstep R1; exact R2|]. split; [done|].
  unfold log_writes. cbn [seq map]. change (?x :: ?l) with ([x] ++ l). eapply io_trans; [exact I1|].
  replace (map _ _) with (log_writes (k_log s) (view D s1) (S k) n); [done|].
  apply map_ext_in. intros i Hi%in_seq. f_equal. rewrite (proj1 I1). cbn. apply upd1_ne. cbn.
  pose proof (lw_n _ Hw). apply home_not_log; [done | lia | lia].
Qed.

Lemma install_from_run r n : forall k s0 s e, session D p pr s0 ∅ s -> log_wf (k_log s) ->
  (k + n = Z.to_nat (lh_n (lg_lh (k_log s))))%nat ->
  exists s', for_range k n (install_one r) s e = Ret tt s' e /\ session D p pr s0 ∅ s' /\
    io s s' (home_writes r (k_log s) (view D s) k n).
Proof.
  induction n as [|n IH]; intros k s0 s e Hs Hw Hk; [exists s; split_and!; try done; by apply io_nil|].
  destruct (install_one_run r s0 s e k (home (k_log s) k) Hs Hw) as (s1 & R1 & S1 & I1); [apply home_lookup; [done | lia]|].
  assert (k_log s1 = k_log s) as El by (by rewrite (session_log _ _ _ S1), (session_log _ _ _ Hs)).
  destruct (IH (S k) s0 s1 e S1) as (s2 & R2 & S2 & I2); [by rewrite El | rewrite El; lia|]. rewrite El in I2.
  exists s2. split; [cbn [for_range]; kstep R1; exact R2|]. split; [done|].
  unfold home_writes. cbn [seq flat_map]. eapply io_trans; [exact I1|].
  replace (flat_map _ _) with (home_writes r (k_log s) (view D s1) (S k) n); [done|].
  unfold home_writes. rewrite !flat_map_concat_map. f_equal. apply map_ext_in. intros i Hi%in_seq. do 2 f_equal. rewrite (proj1 I1).
  pose proof (lw_n _ Hw). apply writes_out. intros Hin%list_elem_of_fmap. destruct Hin as (w & E & Hw').
  apply elem_of_replicate in Hw' as [-> _]. cbn in E. symmetry in E. revert E. apply home_not_log; [done | lia | lia].
Qed.

(** ** The header *)

Lemma whead_loop_run buf bn bs d0 n : forall k s0 s e, session D p pr s0 {[buf]} s -> logged (k_log s) = bs ->
  (k + n = length bs)%nat -> hb false s buf bn (enc_blocks (take k bs) d0) ->
  exists s', for_range k n (fun i => b <- lh_get i ;; upd_data buf (put32 (block_off i) b)) s e = Ret tt s' e /\
    session D p pr s0 {[buf]} s' /\ hb false s' buf bn (enc_blocks bs d0) /\
    (forall m, m <> bn -> view D s' m = view D s m) /\ k_disk s' = k_disk s /\ k_trace s' = k_trace s.
Proof.
  induction n as [|n IH]; intros k s0 s e Hs Hl Hk Hb.
  - exists s. rewrite take_ge in Hb by lia. done.
  - destruct (lookup_lt_is_Some_2 bs k) as [b Eb]; [lia|].
    destruct (session_upd s0 _ s e buf false bn _ (put32 (block_off k) b) Hs ltac:(set_solver) Hb) as (s1 & R1 & S1 & B1 & _ & V1 & D1 & T1).
    destruct (IH (S k) s0 s1 e S1) as (s2 & R2 & S2 & B2 & V2 & D2 & T2).
    { by rewrite (session_log _ _ _ S1), <- (session_log _ _ _ Hs). }
    { lia. }
    { rewrite (take_S_r _ _ _ Eb), enc_snoc, length_take. replace (k `min` length bs)%nat with k by lia. exact B1. }
    exists s2. split; [cbn [for_range]|split_and!; try done; [|congruence..]].
    + eapply eq_trans; [eapply (bind_Ret _ _ _ _ tt)|exact R2]. kstep (lh_get_run s e k b); [by rewrite Hl|]. exact R1.
    + intros m Hm. rewrite V2, V1 by done. by rewrite (proj2 (Z.eqb_neq _ _)).
Qed.

Lemma whead_run s0 s e : session D p pr s0 ∅ s -> log_wf (k_log s) ->
  let l := k_log s in
  exists s', whead s e = Ret tt s' e /\ session D p pr s0 ∅ s' /\ io s s' [(lg_start l, enc (logged l) (view D s (lg_start l)))].
Proof.
  intros Hs Hw l. set (st := lg_start l). set (bs := logged l).
  assert (Z.to_nat (lh_n (lg_lh l)) = length bs) as Hn by (unfold bs; by rewrite length_logged).
  assert (lh_n (lg_lh l) = Z.of_nat (length bs)) as Hn' by (pose proof (lw_n _ Hw); unfold l in *; lia).
  destruct (session_bread D p pr s0 ∅ s e st Hs) as (i & s1 & R1 & S1 & _ & B1 & _ & V1 & D1 & T1); [set_solver..|].
  rewrite union_empty_r_L in S1.
  destruct (session_upd s0 _ s1 e i true st _ (put32 0 (lh_n (lg_lh l))) S1 ltac:(set_solver) B1) as (s2 & R2 & S2 & B2 & _ & V2 & D2 & T2).
  destruct (whead_loop_run i st bs (put32 0 (lh_n (lg_lh l)) (view D s st)) (length bs) 0 s0 s2 e S2) as (s3 & R3 & S3 & B3 & V3 & D3 & T3).
  { by rewrite (session_log _ _ _ S2), <- (session_log _ _ _ Hs). }
  { done. } { exact B2. }
  destruct (session_bwrite D p pr s0 _ s3 e i false st _ S3 ltac:(set_solver) B3) as (s4 & R4 & S4 & B4 & _ & V4 & D4 & T4).
  destruct (session_brelse D p pr s0 _ s4 e i st _ S4 ltac:(set_solver) B4) as (s5 & R5 & S5 & _ & V5 & D5 & T5).
  replace ({[i]} ∖ {[i]}) with (∅ : gset nat) in S5 by set_solver.
  exists s5. split; [|split; [done|]].
  - unfold whead. rewrite bind_gets, (lw_dev _ Hw). fold l st. kstep R1. kstep R2. rewrite Hn. kstep R3. kstep R4. exact R5.
  - fold st bs. unfold enc. rewrite <- Hn'. apply (io_quiet s s4); [|done..].
    apply (io_write s s3 s4); try done; try congruence. intros m. destruct (Z.eqb_spec m st) as [->|Hm].
    + destruct B3 as (b & Hb & <- & <- & _). destruct (se_cache _ _ _ _ _ _ S3) as [ord Hc].
      destruct (held_facts D pr s3 ord {[i]} i b Hc) as (_ & _ & Hv & Hd & _); [set_solver | apply (se_held _ _ _ _ _ _ S3); set_solver | done |].
      apply (view_cached D pr s3 ord {[i]} i b); try done. apply (se_held _ _ _ _ _ _ S3). set_solver.
    + rewrite V3, V2 by done. by rewrite (proj2 (Z.eqb_neq _ _)) by done.
Qed.

Lemma rhead_loop_run d n : forall k s e, length (lh_block (lg_lh (k_log s))) = Z.to_nat LOGSIZE -> (k + n <= Z.to_nat LOGSIZE)%nat ->
  let l := k_log s in
  let bl := take k (lh_block (lg_lh l)) ++ map (fun i => get32 (block_off i) d) (seq k n) ++ drop (k + n) (lh_block (lg_lh l)) in
  for_range k n (fun i => lh_set i (get32 (block_off i) d)) s e =
  Ret tt (set_k_log (set_lg_lh (set_lh_block bl (lg_lh l)) l) s) e.
Proof.
  induction n as [|n IH]; intros k s e Hl Hk l bl.
  - cbn [for_range]. unfold bl, ret. cbn [seq map app]. rewrite Nat.add_0_r, take_drop. f_equal. destruct s. cbn. unfold l. cbn. by destruct k_log as [? ? ? ? ? []].
  - cbn [for_range]. destruct (lookup_lt_is_Some_2 (lh_block (lg_lh l)) k) as [x Ex]; [unfold l; rewrite Hl; lia|].
    eapply eq_trans; [eapply (bind_Ret _ _ _ _ tt)|].
    { unfold lh_set, lh_get. rewrite bind_assoc, bind_gets. fold l. rewrite Ex. cbn [of_option]. rewrite bind_ret. reflexivity. }
    cbv beta. rewrite IH; [|cbn; by rewrite length_insert | lia]. cbn [k_log set_k_log lg_lh set_lg_lh lh_block set_lh_block]. fold l.
    assert (forall B, B = bl -> Ret tt (set_k_log (set_lg_lh (set_lh_block B (lg_lh l)) l) s) e =
      Ret tt (set_k_log (set_lg_lh (set_lh_block bl (lg_lh l)) l) s) e) as Hbl by (by intros ? ->). apply Hbl. unfold bl.
    rewrite (take_S_r _ _ (get32 (block_off k) d)) by (apply list_lookup_insert_eq; unfold l; rewrite Hl; lia).
    rewrite take_insert_ge, drop_insert_lt by lia. rewrite <- app_assoc. cbn [app seq map]. by replace (S k + n)%nat with (k + S n)%nat by lia.
Qed.

Lemma rhead_run s0 s e : session D p pr s0 ∅ s -> lg_dev (k_log s) = D -> length (lh_block (lg_lh (k_log s))) = Z.to_nat LOGSIZE ->
  let hd := view D s (lg_start (k_log s)) in
  0 <= get32 0 hd <= LOGSIZE ->
  exists s' bl, let L := set_lg_lh (Mk_logheader (get32 0 hd) bl) (k_log s) in
    rhead s e = Ret tt s' e /\ session D p pr (set_k_log L s0) ∅ s' /\ k_log s' = L /\
    length bl = Z.to_nat LOGSIZE /\ logged L = dec hd /\ io s s' [].
Proof.
  intros Hs HD Hl hd Hn. set (n := Z.to_nat (get32 0 hd)). set (st := lg_start (k_log s)) in *.
  destruct (session_bread D p pr s0 ∅ s e st Hs) as (i & s1 & R1 & S1 & _ & B1 & _ & V1 & D1 & T1); [set_solver..|].
  rewrite union_empty_r_L in S1. assert (k_log s1 = k_log s) as El by (by rewrite (session_log _ _ _ S1), (session_log _ _ _ Hs)).
  set (bl := map (fun i => get32 (block_off i) hd) (seq 0 n) ++ drop n (lh_block (lg_lh (k_log s)))).
  set (L := set_lg_lh (Mk_logheader (get32 0 hd) bl) (k_log s)).
  pose proof (session_put_log s0 {[i]} s1 L S1) as S2.
  destruct (session_brelse D p pr (set_k_log L s0) {[i]} (set_k_log L s1) e i st hd S2) as (s3 & R3 & S3 & _ & V3 & D3 & T3); [set_solver | exact B1 |].
  replace ({[i]} ∖ {[i]}) with (∅ : gset nat) in S3 by set_solver.
  exists s3, bl. split_and!; try done.
  - unfold rhead. rewrite bind_gets, HD. fold st. kstep R1. kstep (hb_data true s1 i st hd e B1). unfold on_lh at 1, on_log at 1. rewrite bind_modify.
    kstep (rhead_loop_run hd n 0); [cbn; by rewrite El | unfold n; unfold LOGSIZE in *; lia |]. rewrite <- R3. f_equal.
    cbn. rewrite El. reflexivity.
  - rewrite (session_log _ _ _ S3). done.
  - unfold bl. rewrite length_app, length_map, length_seq, length_drop, Hl. unfold n, LOGSIZE in *. lia.
  - unfold logged, L. cbn. fold n. unfold bl, dec. fold n. apply take_app_length'. by rewrite length_map, length_seq.
  - apply (io_after s (set_k_log L s1)); try done. apply io_nil; done.
Qed.

(** ** [commit] and [recover] *)

Definition count (l : logst) : nat := Z.to_nat (lh_n (lg_lh l)).
Definition cleared (l : logst) : logst := set_lg_lh (set_lh_n 0 (lg_lh l)) l.

(** The installing writes of a committed log. *)
Definition new_writes (l : logst) (V : Z -> list Z) : list (Z * list Z) :=
  map (fun i => (home l i, V (home l i))) (seq 0 (count l)).

(** All the disk writes of a commit, in order. *)
Definition commit_writes (l : logst) (V : Z -> list Z) : list (Z * list Z) :=
  let hd := enc (logged l) (V (lg_start l)) in
  log_writes l V 0 (count l) ++ [(lg_start l, hd)] ++ new_writes l V ++ [(lg_start l, enc [] hd)].

Lemma log_writes_at l V d i : (i < count l)%nat -> writes d (log_writes l V 0 (count l)) (log_block l i) = V (home l i).
Proof.
  intros Hi. unfold log_writes. rewrite (writes_consistent (fun m => V (home l (Z.to_nat (m - lg_start l - 1))))).
  - rewrite bool_decide_true; [unfold log_block; do 2 f_equal; lia|].
    apply list_elem_of_fmap. exists (log_block l i, V (home l i)). split; [done|]. apply list_elem_of_fmap. exists i. split; [done|]. apply elem_of_seq. lia.
  - intros w (j & -> & Hj)%list_elem_of_fmap. cbn. unfold log_block. do 2 f_equal. lia.
Qed.

Lemma log_writes_keys l V k n m : m ∈ (log_writes l V k n).*1 -> exists j, (k <= j < k + n)%nat /\ m = log_block l j.
Proof.
  intros (w & -> & (j & -> & Hj)%list_elem_of_fmap)%list_elem_of_fmap. exists j. split; [|done]. apply elem_of_seq in Hj. lia.
Qed.

Lemma home_writes_false l V W : (forall i, (i < count l)%nat -> V (log_block l i) = W (home l i)) ->
  home_writes false l V 0 (count l) = new_writes l W.
Proof.
  intros H. unfold home_writes, new_writes. rewrite flat_map_concat_map.
  rewrite (map_ext_in _ (fun i => [(home l i, W (home l i))])).
  - induction (seq 0 (count l)) as [|x xs IH]; [done|]. cbn. by rewrite IH.
  - intros i Hi%in_seq. cbn. by rewrite H by lia.
Qed.

Lemma log_wf_start l m : log_wf l -> (m < count l)%nat -> home l m <> lg_start l.
Proof.
  intros H Hm. destruct (logged_facts l m _ H (home_lookup l m H Hm)) as (_ & _ & _ & _ & Ho). pose proof (lw_start l H). unfold LOGSIZE in *. lia.
Qed.

Lemma new_writes_keys l V m : m ∈ (new_writes l V).*1 -> exists j, (j < count l)%nat /\ m = home l j.
Proof.
  intros (w & -> & (j & -> & Hj)%list_elem_of_fmap)%list_elem_of_fmap. exists j. split; [|done]. apply elem_of_seq in Hj. lia.
Qed.

Lemma start_not_logged l V : log_wf l -> lg_start l ∉ (log_writes l V 0 (count l)).*1.
Proof. intros H (j & _ & E)%log_writes_keys. unfold log_block in E. lia. Qed.

Lemma cleared_wf l : log_wf l -> log_wf (cleared l).
Proof. intros []. split; done. Qed.

Lemma commit_run s0 s e : session D p pr s0 ∅ s -> log_wf (k_log s) ->
  let l := k_log s in
  exists s', commit s e = Ret tt s' e /\ io s s' (if 0 <? lh_n (lg_lh l) then commit_writes l (view D s) else []) /\
    session D p pr (if 0 <? lh_n (lg_lh l) then set_k_log (cleared l) s0 else s0) ∅ s'.
Proof.
  intros Hs Hw l. unfold commit. destruct (0 <? lh_n (lg_lh l)) eqn:En; cycle 1.
  { exists s. split_and!; [rewrite bind_gets; fold l; by rewrite En | by apply io_nil | done]. }
  destruct (write_from_run (count l) 0 s0 s e Hs Hw eq_refl) as (s1 & R1 & S1 & I1).
  assert (k_log s1 = l) as E1 by (by rewrite (session_log _ _ _ S1), <- (session_log _ _ _ Hs)).
  destruct (whead_run s0 s1 e S1 ltac:(by rewrite E1)) as (s2 & R2 & S2 & I2).
  assert (k_log s2 = l) as E2 by (by rewrite (session_log _ _ _ S2), <- (session_log _ _ _ Hs)).
  destruct (install_from_run false (count l) 0 s0 s2 e S2 ltac:(by rewrite E2) ltac:(by rewrite E2)) as (s3 & R3 & S3 & I3).
  assert (k_log s3 = l) as E3 by (by rewrite (session_log _ _ _ S3), <- (session_log _ _ _ Hs)).
  pose proof (session_put_log s0 ∅ s3 (cleared l) S3) as S3'.
  destruct (whead_run (set_k_log (cleared l) s0) (set_k_log (cleared l) s3) e S3' ltac:(by apply cleared_wf)) as (s4 & R4 & S4 & I4).
  exists s4. split_and!; [| |done].
  - rewrite bind_gets. fold l. rewrite En. cbn [when]. unfold write_log, install_trans.
    eapply eq_trans; [eapply (bind_Ret _ _ _ _ tt); rewrite bind_gets; exact R1|]. cbv beta. kstep R2.
    eapply eq_trans; [eapply (bind_Ret _ _ _ _ tt); rewrite bind_gets, E2; exact R3|]. cbv beta.
    unfold on_lh, on_log. rewrite bind_modify, E3. exact R4.
  - rewrite E1 in I2. rewrite E2 in I3. cbn [k_log set_k_log cleared lg_start set_lg_lh] in I4. fold l in I1.
    pose proof (proj1 I1) as V1. pose proof (proj1 I2) as V2. pose proof (proj1 I3) as V3. cbn in V2.
    set (st := lg_start l) in *. set (hd := enc (logged l) (view D s st)).
    assert (view D s1 st = view D s st) as Vst by (rewrite V1; apply writes_out, start_not_logged; exact Hw).
    rewrite Vst in I2, V2. fold hd in I2, V2.
    assert (home_writes false l (view D s2) 0 (count l) = new_writes l (view D s)) as EH.
    { apply home_writes_false. intros i Hi. rewrite V2, upd1_ne, V1; [by apply log_writes_at|]. cbn. unfold log_block, st. lia. }
    rewrite EH in I3, V3.
    assert (view D s3 st = hd) as Vst3.
    { rewrite V3, writes_out, V2; [unfold upd1; cbn; by rewrite Z.eqb_refl|]. intros (j & Hj & E)%new_writes_keys. symmetry in E. revert E. by apply log_wf_start. }
    change (view D (set_k_log (cleared l) s3) st) with (view D s3 st) in I4. rewrite Vst3 in I4.
    unfold commit_writes. fold st hd. eapply io_trans; [exact I1|]. eapply io_trans; [exact I2|]. eapply io_trans; [exact I3|]. exact I4.
Qed.

Definition recover_writes (l : logst) (V : Z -> list Z) : list (Z * list Z) :=
  home_writes true l V 0 (count l) ++ [(lg_start l, enc [] (V (lg_start l)))].

Lemma home_writes_keys r l V k n m : m ∈ (home_writes r l V k n).*1 -> exists j, (k <= j < k + n)%nat /\ m = home l j.
Proof.
  intros (w & -> & Hw)%list_elem_of_fmap. unfold home_writes in Hw. apply list_elem_of_In, in_flat_map in Hw as (j & Hj%in_seq & Hin).
  apply list_elem_of_In, elem_of_replicate in Hin as [-> _]. exists j. done.
Qed.

Lemma recover_run s0 s e : session D p pr s0 ∅ s -> lg_dev (k_log s) = D -> length (lh_block (lg_lh (k_log s))) = Z.to_nat LOGSIZE ->
  let hd := view D s (lg_start (k_log s)) in
  let L bl := set_lg_lh (Mk_logheader (get32 0 hd) bl) (k_log s) in
  0 <= get32 0 hd <= LOGSIZE -> (forall bl, length bl = Z.to_nat LOGSIZE -> logged (L bl) = dec hd -> log_wf (L bl)) ->
  exists s' bl, recover s e = Ret tt s' e /\ logged (L bl) = dec hd /\ log_wf (L bl) /\ k_log s' = cleared (L bl) /\
    session D p pr (set_k_log (cleared (L bl)) s0) ∅ s' /\ io s s' (recover_writes (L bl) (view D s)).
Proof.
  intros Hs HD Hlen hd L Hn HL. destruct (rhead_run s0 s e Hs HD Hlen Hn) as (s1 & bl & R1 & S1 & E1 & Hbl & Hlg & I1). fold (L bl) in *.
  pose proof (HL bl Hbl Hlg) as Hw. set (l := L bl) in *.
  change (k_log s1 = l) in E1.
  destruct (install_from_run true (count l) 0 _ s1 e S1 ltac:(by rewrite E1) ltac:(by rewrite E1)) as (s2 & R2 & S2 & I2).
  assert (k_log s2 = l) as E2 by (by rewrite (session_log _ _ _ S2)).
  pose proof (session_put_log _ ∅ s2 (cleared l) S2) as S2'.
  destruct (whead_run _ (set_k_log (cleared l) s2) e S2' ltac:(by apply cleared_wf)) as (s3 & R3 & S3 & I3).
  exists s3, bl. split_and!; try done.
  - unfold recover, install_trans. kstep R1. eapply eq_trans; [eapply (bind_Ret _ _ _ _ tt); rewrite bind_gets, E1; exact R2|]. cbv beta.
    unfold on_lh, on_log. rewrite bind_modify, E2. exact R3.
  - by rewrite (session_log _ _ _ S3).
  - rewrite E1 in I2. cbn [k_log set_k_log cleared lg_start set_lg_lh] in I3. unfold recover_writes.
    assert (forall m, view D s1 m = view D s m) as V1 by (intros m; apply (proj1 I1)).
    assert (home_writes true l (view D s1) 0 (count l) = home_writes true l (view D s) 0 (count l)) as EH.
    { unfold home_writes. rewrite !flat_map_concat_map. f_equal. apply map_ext. intros i. by rewrite V1. }
    rewrite EH in I2. pose proof (proj1 I2) as V2.
    change (view D (set_k_log (cleared l) s2) (lg_start l)) with (view D s2 (lg_start l)) in I3.
    assert (view D s2 (lg_start l) = view D s (lg_start l)) as Vst.
    { rewrite V2, writes_out, V1; [done|]. intros (j & Hj & E)%home_writes_keys. symmetry in E. revert E. apply log_wf_start; [done | lia]. }
    rewrite Vst in I3. change (?a ++ ?b) with ([] ++ a ++ b). eapply io_trans; [exact I1|]. eapply io_trans; [exact I2 | exact I3].
Qed.
End run.

(** ** Crashes *)

(** Block [n] is not in the log. *)
Definition outside (l : logst) (n : Z) : Prop := n < lg_start l \/ lg_start l + LOGSIZE < n.

(** The contents a commit makes durable. *)
Definition committed (l : logst) (V d : Z -> list Z) (n : Z) : list Z := if bool_decide (n ∈ logged l) then V n else d n.

Section crash.
Context (D : Z) (l : logst) (V d0 : Z -> list Z).
Hypothesis Hw : log_wf D l.

Let st := lg_start l.
Let hd := enc (logged l) (V st).
Let tr := commit_writes l V.

Lemma logged_le : (length (logged l) <= Z.to_nat LOGSIZE)%nat.
Proof. rewrite (length_logged D) by done. pose proof (lw_n _ _ Hw). lia. Qed.

Lemma elem_logged n : n ∈ logged l <-> exists j, (j < count l)%nat /\ n = home l j.
Proof.
  split.
  - intros (j & Hj)%list_elem_of_lookup. exists j. pose proof (lookup_lt_Some _ _ _ Hj) as Hlt. rewrite (length_logged D) in Hlt by done.
    split; [done|]. rewrite (home_lookup D) in Hj by done. congruence.
  - intros (j & Hj & ->). eapply list_elem_of_lookup_2. by apply (home_lookup D).
Qed.

Lemma take_keys (k : nat) (w : list (Z * list Z)) n : n ∈ (take k w).*1 -> n ∈ w.*1.
Proof.
  intros (x & -> & (i & Hi & _)%elem_of_take)%list_elem_of_fmap. apply list_elem_of_fmap. exists x.
  split; [done|]. by eapply list_elem_of_lookup_2.
Qed.

Lemma outside_not_log n j : outside l n -> (j < count l)%nat -> n <> log_block l j.
Proof. intros Ho Hj. pose proof (lw_n _ _ Hw). unfold outside, log_block, count, LOGSIZE in *. lia. Qed.

(** The disk when only log blocks have been written, and when the header has
    been written and some blocks installed. *)
Lemma crash_before k : (k <= count l)%nat ->
  let d := writes d0 (take k tr) in d st = d0 st /\ forall n, outside l n -> d n = d0 n.
Proof.
  intros Hk d. assert (d = writes d0 (take k (log_writes l V 0 (count l)))) as ->.
  { unfold d, tr, commit_writes. rewrite take_app_le; [done|]. unfold log_writes. rewrite length_map, length_seq. lia. }
  split; [|intros n Ho]; apply writes_out; intros (j & Hj & E)%take_keys%log_writes_keys.
  - unfold log_block, st in *. lia.
  - revert E. apply outside_not_log; [done | lia].
Qed.

Lemma crash_installing j :
  let d := writes d0 (log_writes l V 0 (count l) ++ [(st, hd)] ++ take j (new_writes l V)) in
  d st = hd /\ (forall i, (i < count l)%nat -> d (log_block l i) = V (home l i)) /\
  (forall n, outside l n -> (n ∉ logged l) -> d n = d0 n) /\ ((count l <= j)%nat -> forall n, n ∈ logged l -> d n = V n).
Proof.
  intros d. pose proof (lw_n _ _ Hw) as Hn. unfold d. rewrite !writes_app. set (d1 := writes d0 _). set (d2 := writes d1 [(st, hd)]).
  assert (forall n, (n ∉ logged l) -> writes d2 (take j (new_writes l V)) n = d2 n) as Hout.
  { intros n Hnl. apply writes_out. intros (i & Hi & E)%take_keys%new_writes_keys. apply Hnl, elem_logged. eauto. }
  split_and!.
  - rewrite Hout; [unfold d2; cbn; unfold upd1; cbn; by rewrite Z.eqb_refl|]. rewrite elem_logged. intros (i & Hi & E).
    symmetry in E. revert E. by apply (log_wf_start D).
  - intros i Hi. rewrite Hout; [unfold d2; cbn; rewrite upd1_ne; [by apply log_writes_at | cbn; unfold log_block, st; lia]|].
    rewrite elem_logged. intros (m & Hm & E). symmetry in E. revert E. apply (home_not_log D); [done.. | unfold count in *; lia].
  - intros n Ho Hnl. rewrite Hout by done. unfold d2. cbn. rewrite upd1_ne by (cbn; unfold outside, st, LOGSIZE in *; lia).
    apply writes_out. intros (i & Hi & E)%log_writes_keys. revert E. apply outside_not_log; [done | lia].
  - intros Hj n Hnl. rewrite take_ge by (unfold new_writes; rewrite length_map, length_seq; lia).
    rewrite (writes_consistent V); [rewrite bool_decide_true; [done|]|].
    + apply elem_logged in Hnl as (i & Hi & ->). apply list_elem_of_fmap. exists (home l i, V (home l i)). split; [done|].
      apply list_elem_of_fmap. exists i. split; [done|]. apply elem_of_seq. lia.
    + by intros w (i & -> & _)%list_elem_of_fmap.
Qed.

(** The state of the disk after any [k] writes of the commit. *)
Lemma crash_after k : (count l < k)%nat ->
  let d := writes d0 (take k tr) in
  (d st = hd /\ (forall i, (i < count l)%nat -> d (log_block l i) = V (home l i)) \/
   d st = enc [] hd /\ forall n, n ∈ logged l -> d n = V n) /\
  (forall n, outside l n -> (n ∉ logged l) -> d n = d0 n).
Proof.
  intros Hk d.
  assert (length (log_writes l V 0 (count l)) = count l) as L1 by (unfold log_writes; by rewrite length_map, length_seq).
  assert (length (new_writes l V) = count l) as L2 by (unfold new_writes; by rewrite length_map, length_seq).
  set (j := (k - count l - 1)%nat).
  assert (take k tr = log_writes l V 0 (count l) ++ [(st, hd)] ++ take j (new_writes l V ++ [(st, enc [] hd)])) as Et.
  { unfold tr, commit_writes. fold st hd. rewrite take_app_ge, L1 by lia. f_equal. replace (k - count l)%nat with (S j) by lia. done. }
  unfold d. rewrite Et. destruct (decide (j <= count l)%nat) as [Hj|Hj].
  - rewrite take_app_le by lia. destruct (crash_installing j) as (H1 & H2 & H3 & _). split; [left; done | done].
  - destruct (crash_installing (count l)) as (H1 & H2 & H3 & H4). specialize (H4 ltac:(lia)). revert H1 H2 H3 H4.
    rewrite take_ge by lia. rewrite (take_ge (_ ++ _)) by (rewrite length_app; cbn; lia). rewrite !app_assoc, (writes_app d0 _ [_]).
    set (d' := writes d0 _). intros H1 H2 H3 H4. cbn. split.
    + right. unfold upd1. cbn. rewrite Z.eqb_refl. split; [done|]. intros n Hnl. rewrite (proj2 (Z.eqb_neq n st)); [by apply H4|].
      apply elem_logged in Hnl as (i & Hi & ->). by apply (log_wf_start D).
    + intros n Ho Hnl. rewrite upd1_ne; [by apply H3 | cbn; unfold outside, st, LOGSIZE in *; lia].
Qed.

(** The contents of the file system if the machine stops after [k] writes. *)
Definition survivor (k : nat) : Z -> list Z := if (k <=? count l)%nat then d0 else committed l V d0.

Lemma dec_0 h : get32 0 h = 0 -> dec h = [].
Proof. intros H. unfold dec. by rewrite H. Qed.

Hypothesis HV : length (V (lg_start l)) = Z.to_nat BSIZE.
Hypothesis Hempty : get32 0 (d0 (lg_start l)) = 0.

(** The header says whether there is something to install; what recovery
    installs, and what it leaves, is the survivor. *)
Lemma recovered k d L : d = writes d0 (take k tr) -> lg_start L = st -> lh_n (lg_lh L) = get32 0 (d st) ->
  logged L = dec (d st) -> 0 <= get32 0 (d st) <= LOGSIZE /\ Forall (fun b => 0 <= b < 2 ^ 31 /\ outside l b) (dec (d st)) /\
  (log_wf D L -> forall n, outside l n -> writes d (recover_writes L d) n = survivor k n).
Proof.
  intros -> Hst Hn Hlog. set (d := writes d0 (take k tr)) in *.
  assert (get32 0 (d st) = 0 -> (forall n, outside l n -> d n = survivor k n) ->
    0 <= get32 0 (d st) <= LOGSIZE /\ Forall (fun b => 0 <= b < 2 ^ 31 /\ outside l b) (dec (d st)) /\
    (log_wf D L -> forall n, outside l n -> writes d (recover_writes L d) n = survivor k n)) as Hnone.
  { intros H0 Hd. rewrite (dec_0 _ H0), H0. split; [done|]. split; [constructor|]. intros _ n Ho. rewrite <- Hd by done.
    unfold recover_writes, home_writes, count. rewrite Hn, H0. cbn. rewrite Hst. apply upd1_ne. cbn. unfold outside, st, LOGSIZE in *. lia. }
  unfold survivor in *. destruct (k <=? count l)%nat eqn:Ek.
  - apply Nat.leb_le in Ek. destruct (crash_before k Ek) as [H1 H2]. apply Hnone; [fold d in H1; rewrite H1; exact Hempty | exact H2].
  - apply Nat.leb_gt in Ek. pose proof logged_le as Hle.
    assert (Forall (fun b => 0 <= b < 2 ^ 31) (logged l)) as Hb by (eapply Forall_impl; [|exact (lw_blocks D l Hw)]; by intros ? [? _]).
    destruct (crash_after k Ek) as [[[H1 H2]|[H1 H2]] H3]; fold d in H1, H2, H3.
    + assert (get32 0 (d st) = Z.of_nat (length (logged l))) as Hg by (rewrite H1; by apply get_enc_n).
      assert (dec (d st) = logged l) as Hdec by (rewrite H1; by apply dec_enc).
      rewrite Hdec, Hg. split; [unfold LOGSIZE in *; lia|]. split; [exact (lw_blocks D l Hw)|]. intros HwL n Ho.
      assert (count L = count l) as Hc by (unfold count; rewrite Hn, Hg, (length_logged D) by done; lia).
      assert (forall i, home L i = home l i) as Hh by (intros i; unfold home; by rewrite Hlog, Hdec).
      assert (forall i, log_block L i = log_block l i) as Hlb by (intros i; unfold log_block; by rewrite Hst).
      unfold recover_writes. rewrite writes_app. cbn. rewrite upd1_ne by (cbn; rewrite Hst; unfold outside, st, LOGSIZE in *; lia).
      rewrite (writes_consistent V).
      * unfold committed. destruct (decide (n ∈ logged l)) as [Hin|Hin].
        -- rewrite !bool_decide_true; [done | done |]. apply elem_logged in Hin as (i & Hi & ->). apply list_elem_of_fmap.
           exists (home L i, d (log_block L i)). split; [by rewrite Hh|]. apply list_elem_of_In, in_flat_map. exists i. split; [apply in_seq; lia | by left].
        -- rewrite !bool_decide_false; [by apply H3 | done |]. intros (i & Hi & E)%home_writes_keys. apply Hin, elem_logged. exists i. rewrite <- Hh. split; [lia | done].
      * intros w Hw'. apply list_elem_of_In, in_flat_map in Hw' as (i & Hi%in_seq & Hin). apply list_elem_of_In, elem_of_replicate in Hin as [-> _].
        cbn. rewrite Hlb, Hh. apply H2. lia.
    + assert (length hd = Z.to_nat BSIZE) as Hhd by (by apply length_enc).
      apply Hnone; [rewrite H1; apply get_enc_n; [done | cbn; lia]|]. intros n Ho. unfold committed.
      case_bool_decide; [by apply H2 | by apply H3].
Qed.
End crash.

(** ** Booting from a disk *)

(** After a restart: the cache is empty, the log's place on the disk [d] is known. *)
Record rebooted `{DD : DiskDriver} (D : Z) (p : nat) (pr : process) (st : Z) (d : Z -> list Z) (s : kernel) : Prop := Rebooted {
  rb_session : session D p pr s ∅ s;
  rb_disk : k_disk s = d;
  rb_view n : view D s n = d n;
  rb_dev : lg_dev (k_log s) = D;
  rb_start : lg_start (k_log s) = st;
  rb_len : length (lh_block (lg_lh (k_log s))) = Z.to_nat LOGSIZE
}.

(** The header on disk [d] is one [whead] can have written. *)
Record disk_log_ok (st : Z) (d : Z -> list Z) : Prop := DiskLogOk {
  dl_start : 0 <= st /\ st + LOGSIZE + 1 < 2 ^ 32;
  dl_n : 0 <= get32 0 (d st) <= LOGSIZE;
  dl_blocks : Forall (fun b => 0 <= b < 2 ^ 31 /\ (b < st \/ st + LOGSIZE < b)) (dec (d st))
}.

(** The log [rhead] reads from a disk. *)
Definition log_on (st D : Z) (d : Z -> list Z) (L : logst) : Prop :=
  lg_start L = st /\ lh_n (lg_lh L) = get32 0 (d st) /\ logged L = dec (d st) /\ log_wf D L.

Lemma recover_rebooted `{DD : DiskDriver} D p pr st d s e : rebooted D p pr st d s -> disk_log_ok st d ->
  exists s' L, recover s e = Ret tt s' e /\ log_on st D d L /\ k_log s' = cleared L /\
    (forall n, view D s' n = writes d (recover_writes L d) n) /\
    k_disk s' = writes d (recover_writes L d) /\ k_trace s' = k_trace s ++ recover_writes L d.
Proof.
  intros [Hs Hd Hv HD Hst Hl] [O1 O2 O3].
  destruct (recover_run D p pr s s e Hs HD Hl) as (s' & bl & R & Hlog & Hw & El & _ & I); rewrite Hst, Hv in *.
  - exact O2.
  - intros bl Hbl Hlog. split; cbn; try done; [by rewrite Hst|]. rewrite Hlog, Hst. exact O3.
  - set (L := set_lg_lh _ _) in *.
    assert (recover_writes L (view D s) = recover_writes L d) as E.
    { unfold recover_writes. rewrite Hv. f_equal. unfold home_writes. rewrite !flat_map_concat_map. f_equal.
      apply map_ext. intros i. by rewrite Hv. }
    destruct I as (I1 & I2 & I3). rewrite E in I1, I2, I3. exists s', L. split_and!; try done; [|by rewrite I2, Hd].
    intros n. rewrite I1. by apply writes_ext.
Qed.

(** ** Properties *)

(** C1: If the machine stops after any number k of the disk writes that commit makes and
    is then booted and recovered, every block outside the log has its contents from
    before the transaction when k is at most the number of logged blocks, and its
    committed contents for all larger k: the transaction is atomic. *)
Theorem commit_crash_safe {DD : DiskDriver} (D : Z) p pr s e :
  let l := k_log s in
  session D p pr s ∅ s -> log_wf D l -> 0 < lh_n (lg_lh l) ->
  length (view D s (lg_start l)) = Z.to_nat BSIZE -> get32 0 (k_disk s (lg_start l)) = 0 ->
  exists s' tr, commit s e = Ret tt s' e /\ k_trace s' = k_trace s ++ tr /\ k_disk s' = writes (k_disk s) tr /\
    forall k p2 pr2 s2 e2, rebooted D p2 pr2 (lg_start l) (writes (k_disk s) (take k tr)) s2 ->
      exists s3, recover s2 e2 = Ret tt s3 e2 /\ lh_n (lg_lh (k_log s3)) = 0 /\
        forall n, outside l n -> view D s3 n = survivor l (view D s) (k_disk s) k n.
Proof.
  intros l Hs Hw Hn HV H0. destruct (commit_run D p pr s s e Hs Hw) as (s' & R & (_ & I2 & I3) & _). fold l in I2, I3.
  rewrite (proj2 (Z.ltb_lt _ _) Hn) in I2, I3. exists s', (commit_writes l (view D s)). split_and!; try done.
  intros k p2 pr2 s2 e2 Hb. set (d := writes _ _) in Hb. pose proof (recovered D l (view D s) (k_disk s) Hw HV H0 k d) as Hrec.
  assert (disk_log_ok (lg_start l) d) as Hok.
  { set (L0 := Mk_logst (lg_start l) 0 0 false 0 (Mk_logheader (get32 0 (d (lg_start l))) (dec (d (lg_start l))))).
    destruct (Hrec L0) as (H1 & H2 & _); try done.
    - unfold logged. cbn. apply take_ge. unfold dec. by rewrite length_map, length_seq.
    - split; [apply Hw | exact H1 | exact H2]. }
  destruct (recover_rebooted D p2 pr2 (lg_start l) d s2 e2 Hb Hok) as (s3 & L & R3 & (L1 & L2 & L3 & L4) & E3 & V3 & _).
  exists s3. split_and!; [done | by rewrite E3 |]. intros n Ho. rewrite V3. by apply Hrec.
Qed.

(** A write sequence only matters through its last write to each block. *)
Lemma writes_same d1 d2 tr n : n ∈ tr.*1 -> writes d1 tr n = writes d2 tr n.
Proof.
  revert d1 d2. induction tr as [|w tr IH]; intros d1 d2 Hn; [by apply not_elem_of_nil in Hn|]. cbn.
  destruct (decide (n ∈ tr.*1)) as [Hin|Hin]; [by apply IH|]. rewrite !writes_out by done. cbn in Hn.
  apply elem_of_cons in Hn as [->|?]; [|done]. unfold upd1. by rewrite Z.eqb_refl.
Qed.

Lemma writes_redo d tr tr' n : (forall m, m ∈ tr'.*1 -> m ∈ tr.*1) -> writes (writes d tr') tr n = writes d tr n.
Proof.
  intros H. destruct (decide (n ∈ tr.*1)) as [Hin|Hin]; [by apply writes_same|]. rewrite !writes_out; [done | done | auto..].
Qed.

(** The kernel booted on disk [d], with the log described by [L]. *)
Lemma reboot_exists `{DD : DiskDriver} L d : lg_dev L = 1 -> length (lh_block (lg_lh L)) = Z.to_nat LOGSIZE ->
  exists s, binit (set_k_disk d (set_k_log L boot0)) [] = Ret tt s [] /\ rebooted 1 0 proc0 (lg_start L) d s /\ k_log s = L.
Proof.
  intros HD Hl. destruct (session_boot 1 0 proc0 (set_k_disk d (set_k_log L boot0)) []) as (B & R & Hs & Hv & _); [done | reflexivity | |].
  { destruct boot0_ready. split; done. }
  eexists. split; [exact R|]. split; [|done]. by split.
Qed.

(** A log of one block, number 50; the log starts at block 2. *)
Definition log50 : logst := Mk_logst 2 31 1 false 1 (Mk_logheader 1 (50 :: zeros 29)).

Lemma log50_wf : log_wf 1 log50.
Proof.
  split; try done. unfold logged. cbn. constructor; [|constructor]. cbn. unfold LOGSIZE. lia.
Qed.

Lemma commit_crash_safe_witness :
  exists s s' tr s2 s3, commit (DD := polled_disk) s [] = Ret tt s' [] /\ k_trace s' = k_trace s ++ tr /\
    rebooted (DD := polled_disk) 1 0 proc0 2 (writes (k_disk s) (take 2 tr)) s2 /\
    recover (DD := polled_disk) s2 [] = Ret tt s3 [] /\ view 1 s3 50 = view 1 s 50.
Proof.
  destruct (reboot_exists (DD := polled_disk) log50 (fun _ => zeros (Z.to_nat BSIZE))) as (s & _ & Hb & El); [reflexivity..|].
  destruct (commit_crash_safe (DD := polled_disk) 1 0 proc0 s []) as (s' & tr & R & T & _ & H).
  - apply Hb.
  - rewrite El. exact log50_wf.
  - by rewrite El.
  - rewrite (rb_view _ _ _ _ _ _ Hb). vm_compute. reflexivity.
  - rewrite (rb_disk _ _ _ _ _ _ Hb). vm_compute. reflexivity.
  - rewrite El in H. destruct (reboot_exists (DD := polled_disk) log50 (writes (k_disk s) (take 2 tr))) as (s2 & _ & Hb2 & _); [reflexivity..|].
    destruct (H 2%nat 0%nat proc0 s2 [] Hb2) as (s3 & R3 & _ & V3). exists s, s', tr, s2, s3. split_and!; try done.
    rewrite V3 by (right; reflexivity). unfold survivor, committed. change (2 <=? count log50)%nat with false. change (logged log50) with [50]. cbv iota beta.
    rewrite bool_decide_true by set_solver. done.
Defined.

(** C2: Recovery may itself be interrupted: if the machine stops after any number of the
    disk writes recover makes, a second boot's recovery gives every block outside the
    log the same contents the uninterrupted recovery gives. *)
Theorem recover_restartable {DD : DiskDriver} (D : Z) p pr st d s e :
  rebooted D p pr st d s -> disk_log_ok st d -> length (d st) = Z.to_nat BSIZE ->
  exists s1 tr, recover s e = Ret tt s1 e /\ k_trace s1 = k_trace s ++ tr /\ k_disk s1 = writes d tr /\
    forall j p2 pr2 s2 e2, rebooted D p2 pr2 st (writes d (take j tr)) s2 ->
      exists s3, recover s2 e2 = Ret tt s3 e2 /\ forall n, n < st \/ st + LOGSIZE < n -> view D s3 n = view D s1 n.
Proof.
  intros Hb Hok Hlen. destruct (recover_rebooted D p pr st d s e Hb Hok) as (s1 & L & R1 & (L1 & L2 & L3 & L4) & _ & V1 & D1 & T1).
  exists s1, (recover_writes L d). split_and!; try done. intros j p2 pr2 s2 e2 Hb2.
  set (hw := home_writes true L d 0 (count L)). set (last := (st, enc [] (d st))). set (d' := writes d (take j (recover_writes L d))) in *.
  assert (recover_writes L d = hw ++ [last]) as Er by (unfold recover_writes, last; by rewrite L1).
  assert (forall m, m ∈ hw.*1 -> m < st \/ st + LOGSIZE < m) as Hkeys.
  { intros m (i & Hi & ->)%home_writes_keys. destruct (logged_facts D L i _ L4 (home_lookup D L i L4 ltac:(unfold count in Hi; lia))) as (_ & _ & _ & _ & Ho).
    by rewrite <- L1. }
  pose proof (dl_start _ _ Hok) as Hst. pose proof (lw_n _ _ L4) as HnL.
  assert (forall n, n < st \/ st + LOGSIZE < n -> upd1 (writes d hw) last n = writes d hw n) as Hlast.
  { intros n Hn. apply upd1_ne. cbn. unfold LOGSIZE in Hn. lia. }
  destruct (decide (j <= length hw)%nat) as [Hj|Hj].
  - (* the header still stands *)
    assert (d' = writes d (take j hw)) as Ed by (unfold d'; by rewrite Er, take_app_le).
    assert (forall n, (st <= n <= st + LOGSIZE) -> d' n = d n) as Hsame.
    { intros n Hn. rewrite Ed. apply writes_out. intros Hin%take_keys. apply Hkeys in Hin. lia. }
    assert (d' st = d st) as Est by (apply Hsame; unfold LOGSIZE; lia).
    destruct (recover_rebooted D p2 pr2 st d' s2 e2 Hb2) as (s3 & L' & R3 & (L1' & L2' & L3' & L4') & _ & V3 & _).
    { destruct Hok. by split; rewrite ?Est. }
    exists s3. split; [done|]. intros n Hn. rewrite V3, V1, Er. unfold recover_writes. rewrite L1', Est. rewrite !writes_app.
    assert (home_writes true L' d' 0 (count L') = hw) as ->.
    { unfold hw, home_writes, count. rewrite L2', L2, Est, !flat_map_concat_map. f_equal. apply map_ext_in. intros i Hi%in_seq. f_equal.
      unfold home, log_block. rewrite L3', L3, L1', L1, Est. f_equal. apply Hsame. rewrite L2 in HnL. unfold LOGSIZE in *. lia. }
    cbn. rewrite Hlast by done. rewrite upd1_ne by (cbn; unfold LOGSIZE in Hn; lia). rewrite Ed. apply writes_redo. intros m. apply take_keys.
  - (* it has been cleared *)
    assert (d' = writes d (recover_writes L d)) as Ed.
    { unfold d'. rewrite take_ge; [done|]. rewrite Er, length_app. cbn. lia. }
    assert (d' st = enc [] (d st)) as Est.
    { rewrite Ed, Er, writes_app. cbn. unfold upd1. cbn. by rewrite Z.eqb_refl. }
    assert (get32 0 (d' st) = 0) as E0 by (rewrite Est, get_enc_n; [done | done | cbn; lia]).
    destruct (recover_rebooted D p2 pr2 st d' s2 e2 Hb2) as (s3 & L' & R3 & (L1' & L2' & L3' & L4') & _ & V3 & _).
    { destruct Hok. split; [done | rewrite E0; done | rewrite dec_0 by done; constructor]. }
    exists s3. split; [done|]. intros n Hn. rewrite V3, V1.
    assert (recover_writes L' d' = [(st, enc [] (d' st))]) as ->.
    { unfold recover_writes, home_writes, count. by rewrite L2', E0, L1'. }
    cbn [writes foldl]. rewrite upd1_ne by (cbn; unfold LOGSIZE in Hn; lia). by rewrite Ed.
Qed.

(** A disk with a committed log of block 50. *)
Definition disk50 : Z -> list Z :=
  fun n => if n =? 2 then enc [50] (zeros (Z.to_nat BSIZE)) else replicate (Z.to_nat BSIZE) n.

Lemma disk50_ok : disk_log_ok 2 disk50.
Proof.
  split; [unfold LOGSIZE; lia | vm_compute; split; discriminate |]. change (disk50 2) with (enc [50] (zeros (Z.to_nat BSIZE))).
  rewrite dec_enc; [constructor; [unfold LOGSIZE; lia | constructor] | reflexivity | cbn; unfold LOGSIZE; lia | constructor; [lia | constructor]].
Qed.

Lemma recover_restartable_witness :
  exists s s1 tr, rebooted (DD := polled_disk) 1 0 proc0 2 disk50 s /\ recover (DD := polled_disk) s [] = Ret tt s1 [] /\ k_trace s1 = k_trace s ++ tr /\
    exists s2, rebooted (DD := polled_disk) 1 0 proc0 2 (writes disk50 (take 1 tr)) s2.
Proof.
  destruct (reboot_exists (DD := polled_disk) log50 disk50) as (s & _ & Hb & _); [reflexivity..|].
  destruct (recover_restartable (DD := polled_disk) 1 0 proc0 2 disk50 s [] Hb disk50_ok) as (s1 & tr & R & T & _).
  { vm_compute. reflexivity. }
  destruct (reboot_exists (DD := polled_disk) log50 (writes disk50 (take 1 tr))) as (s2 & _ & Hb2 & _); [reflexivity..|].
  exists s, s1, tr. eauto.
Defined.

(** What the writes of a commit do to a disk. *)
Lemma commit_effect (D : Z) l V : log_wf D l -> forall d0, let d := writes d0 (commit_writes l V) in
  (forall n, n ∈ logged l -> d n = V n) /\ forall n, outside l n -> (n ∉ logged l) -> d n = d0 n.
Proof.
  intros Hw d0. pose proof (lw_start _ _ Hw) as Hst. cbv zeta. unfold commit_writes. set (hd := enc _ _). rewrite !app_assoc, writes_app, <- !app_assoc. cbn [writes foldl].
  destruct (crash_installing D l V d0 Hw (count l)) as (_ & _ & H3 & H4). specialize (H4 ltac:(lia)).
  rewrite take_ge in H3, H4 by (unfold new_writes; rewrite length_map, length_seq; lia). split.
  - intros n Hin. pose proof (proj1 (elem_logged D l Hw n) Hin) as (j & Hj & ->). rewrite upd1_ne; [by apply H4 | cbn; by apply (log_wf_start D)].
  - intros n Ho Hin. rewrite upd1_ne by (cbn; unfold outside, LOGSIZE in *; lia). by apply H3.
Qed.



(** ** [lwrite] *)

Lemma lh_get_at s e i b : lh_block (lg_lh (k_log s)) !! i = Some b -> lh_get i s e = Ret b s e.
Proof. intros H. unfold lh_get. rewrite bind_gets, H. done. Qed.

(** The absorption loop finds the first slot with the block. *)
Lemma absorb_run bn n : forall k s e, (k + n <= length (lh_block (lg_lh (k_log s))))%nat ->
  exists j, absorb bn k n s e = Ret j s e /\ (k <= j <= k + n)%nat /\
    ((j < k + n)%nat -> lh_block (lg_lh (k_log s)) !! j = Some bn) /\
    forall i, (k <= i < j)%nat -> lh_block (lg_lh (k_log s)) !! i <> Some bn.
Proof.
  induction n as [|n IH]; intros k s e Hk; cbn [absorb].
  - exists k. split; [done|]. split; [lia|]. split; intros; lia.
  - destruct (lookup_lt_is_Some_2 (lh_block (lg_lh (k_log s))) k) as [b Hb]; [lia|].
    destruct (Z.eqb_spec b bn) as [->|Hne].
    + exists k. split; [kstep lh_get_at; [exact Hb|]; by rewrite Z.eqb_refl|]. split; [lia|]. split; [done|]. intros; lia.
    + destruct (IH (S k) s e) as (j & R & Hj & H1 & H2); [lia|]. exists j. split.
      { kstep lh_get_at; [exact Hb|]. by rewrite (proj2 (Z.eqb_neq _ _)). }
      split; [lia|]. split; [intros; apply H1; lia|]. intros i Hi. destruct (decide (i = k)) as [->|]; [congruence|]. apply H2. lia.
Qed.

Lemma absorbed_iff l bn j :
  (j <= count l)%nat -> ((j < count l)%nat -> lh_block (lg_lh l) !! j = Some bn) ->
  (forall i, (i < j)%nat -> lh_block (lg_lh l) !! i <> Some bn) -> (j < count l)%nat <-> bn ∈ logged l.
Proof.
  intros Hj H1 H2. unfold logged, count in *. split.
  - intros Hlt. apply elem_of_take. eauto.
  - intros (i & Hi & Hlt)%elem_of_take. destruct (decide (j < Z.to_nat (lh_n (lg_lh l)))%nat); [done|]. exfalso. apply (H2 i); [lia | done].
Qed.

Lemma bpin_run i b s e : room 1 (k_hl s) -> nested (k_hl s) -> free L_bcache (k_hl s) -> k_bufs s !! i = Some b ->
  0 <= b_refcnt b + 1 < 2 ^ 32 ->
  bpin i s e = Ret tt (set_k_bufs (<[i := set_b_refcnt (b_refcnt b + 1) b]> (k_bufs s)) s) e.
Proof.
  intros Hr Hn Hf Hb Hm. unfold bpin. kstep acquire_run; [done | done |]. kstep upd_buf_run; [exact Hb|].
  rewrite (release_acq_run L_bcache (k_hl s)) by done. rewrite Hn, u32_small by lia. by destruct s.
Qed.

Lemma lh_set_run s e i v x : lh_block (lg_lh (k_log s)) !! i = Some x ->
  lh_set i v s e = Ret tt (set_k_log (set_lg_lh (set_lh_block (<[i := v]> (lh_block (lg_lh (k_log s)))) (lg_lh (k_log s))) (k_log s)) s) e.
Proof. intros H. unfold lh_set. kstep lh_get_at; [exact H|]. reflexivity. Qed.

(** The log with block [bn] recorded. *)
Definition record (bn : Z) (l : logst) : logst :=
  if bool_decide (bn ∈ logged l) then l
  else set_lg_lh (Mk_logheader (lh_n (lg_lh l) + 1) (<[count l := bn]> (lh_block (lg_lh l)))) l.

Lemma logged_record D bn l : log_wf D l -> lh_n (lg_lh l) < LOGSIZE ->
  logged (record bn l) = if bool_decide (bn ∈ logged l) then logged l else logged l ++ [bn].
Proof.
  intros Hw Hn. pose proof (lw_n _ _ Hw). unfold record. case_bool_decide; [done|]. unfold logged at 1. cbn.
  replace (Z.to_nat (lh_n (lg_lh l) + 1)) with (S (count l)) by (unfold count; lia).
  rewrite (take_S_r _ _ bn) by (apply list_lookup_insert_eq; rewrite (lw_len _ _ Hw); unfold count; lia).
  by rewrite take_insert_ge by lia.
Qed.

Lemma record_wf D bn l : log_wf D l -> lh_n (lg_lh l) < LOGSIZE -> 0 <= bn < 2 ^ 31 -> outside l bn -> log_wf D (record bn l).
Proof.
  intros Hw Hn Hb Ho. pose proof (logged_record D bn l Hw Hn) as El. pose proof (lw_n _ _ Hw).
  unfold record in *. case_bool_decide; [done|]. destruct Hw as [? ? ? ? Hf]. split; try done; cbn [lg_lh set_lg_lh lh_n lh_block lg_start].
  - lia.
  - by rewrite length_insert.
  - rewrite El. apply Forall_app. split; [done|]. constructor; [done | constructor].
Qed.

(** The state [lwrite] leaves: the block is recorded, and its buffer pinned if it is new. *)
Definition noted (i : nat) (b : buf) (s : kernel) : kernel :=
  set_k_log (record (b_blockno b) (k_log s))
    (set_k_bufs (if bool_decide (b_blockno b ∈ logged (k_log s)) then k_bufs s else <[i := set_b_refcnt (b_refcnt b + 1) b]> (k_bufs s)) s).

Lemma lwrite_run (D : Z) p pr s e i b :
  let l := k_log s in
  bio_ready p pr s -> free L_log (k_hl s) -> log_wf D l -> k_bufs s !! i = Some b ->
  0 <= b_refcnt b + 1 < 2 ^ 32 -> 0 <= b_blockno b < 2 ^ 31 ->
  lh_n (lg_lh l) < LOGSIZE -> lh_n (lg_lh l) < s32 (lg_size l) - 1 -> 1 <= lg_outstanding l ->
  lwrite i s e = Ret tt (noted i b s) e.
Proof.
  intros l Hr Hf Hw Hb Hm Hbn Hn Hsz Hout. unfold noted. fold l. set (bn := b_blockno b) in *. pose proof (lw_n _ _ Hw) as Hn0.
  assert (room 1 (k_hl s)) as Hr1 by (apply (room_weaken 3); [apply Hr | lia]).
  set (s1 := set_k_hl (acq L_log (k_hl s)) s).
  destruct (absorb_run bn (count l) 0 s1 e) as (j & Ra & Hj & H1 & H2); [change (k_log s1) with l; rewrite (lw_len _ _ Hw); unfold count; lia|].
  pose proof (absorbed_iff l bn j ltac:(lia) H1 ltac:(intros; apply H2; lia)) as Hiff.
  destruct (lookup_lt_is_Some_2 (lh_block (lg_lh l)) j) as [x Hx]; [rewrite (lw_len _ _ Hw); unfold count in Hj; lia|].
  unfold lwrite. kstep acquire_run; [done | done |]. fold s1. rewrite bind_gets. change (k_log s1) with l.
  replace (s32 LOGSIZE) with LOGSIZE by done. rewrite (proj2 (Z.leb_gt LOGSIZE _)) by lia. rewrite (proj2 (Z.leb_gt (s32 (lg_size l) - 1) _)) by lia.
  cbn [orb]. rewrite (proj2 (Z.ltb_ge (lg_outstanding l) 1)) by lia.
  kstep get_buf_run; [exact Hb|]. fold bn. rewrite s32_small by lia. kstep Ra. kstep (lh_set_run s1 e j bn x); [exact Hx|]. change (k_log s1) with l.
  set (s2 := set_k_log _ s1). destruct (decide (bn ∈ logged l)) as [Hin|Hin].
  - assert ((Z.of_nat j =? lh_n (lg_lh l)) = false) as -> by (apply Z.eqb_neq; apply Hiff in Hin; unfold count in Hin; lia).
    cbn [when]. rewrite bind_ret, (release_acq_run L_log (k_hl s)) by done. rewrite (br_nested _ _ _ Hr). f_equal.
    unfold record, s2, s1. rewrite !bool_decide_true by done. rewrite list_insert_id by (apply H1; apply Hiff in Hin; lia).
    destruct s. unfold l. cbn. by destruct k_log as [? ? ? ? ? []].
  - assert (j = count l) as -> by (destruct (decide (j < count l)%nat) as [Hlt|]; [by apply Hiff in Hlt | lia]).
    assert ((Z.of_nat (count l) =? lh_n (lg_lh l)) = true) as -> by (apply Z.eqb_eq; unfold count; lia). cbn [when].
    eapply eq_trans; [eapply (bind_Ret _ _ _ _ tt)|].
    { kstep (bpin_run i b); [exact (room_weaken 2 1 _ (room_acq 3 _ _ (br_room _ _ _ Hr)) ltac:(lia)) | by apply (nested_acq _ _ 3), Hr |
        apply free_acq_ne; [done | apply Hr] | exact Hb | done | reflexivity]. }
    cbv beta. rewrite (release_acq_run L_log (k_hl s)) by done. rewrite (br_nested _ _ _ Hr). f_equal.
    unfold record, s2, s1. rewrite !bool_decide_false by done. cbn. rewrite s32_small by (unfold LOGSIZE in *; lia). by destruct s.
Qed.

(** lwrite records the block in the log once: a block already logged is absorbed, a
    new one is appended and its buffer pinned; the log stays well formed. *)
Theorem lwrite_records (D : Z) p pr s e i b :
  let l := k_log s in
  bio_ready p pr s -> free L_log (k_hl s) -> log_wf D l -> k_bufs s !! i = Some b ->
  0 <= b_refcnt b + 1 < 2 ^ 32 -> 0 <= b_blockno b < 2 ^ 31 -> outside l (b_blockno b) ->
  lh_n (lg_lh l) < LOGSIZE -> lh_n (lg_lh l) < s32 (lg_size l) - 1 -> 1 <= lg_outstanding l ->
  exists s', lwrite i s e = Ret tt s' e /\ log_wf D (k_log s') /\
    logged (k_log s') = (if bool_decide (b_blockno b ∈ logged l) then logged l else logged l ++ [b_blockno b]) /\
    k_bufs s' = (if bool_decide (b_blockno b ∈ logged l) then k_bufs s else <[i := set_b_refcnt (b_refcnt b + 1) b]> (k_bufs s)) /\
    k_hl s' = k_hl s /\ k_disk s' = k_disk s.
Proof.
  intros l Hr Hf Hw Hb Hm Hbn Ho Hn Hsz Hout. exists (noted i b s). split; [by apply (lwrite_run D p pr)|].
  split; [by apply record_wf | split; [by apply (logged_record D) | done]].
Qed.

(** [boot0] in a transaction, its first buffer holding block 60. *)
Definition in_trans : kernel :=
  set_k_bufs (<[0%nat := set_b_refcnt 1 (set_b_blockno 60 buf0)]> (k_bufs boot0)) (set_k_log log50 boot0).

Lemma lwrite_records_witness : exists s', lwrite 0 in_trans [] = Ret tt s' [] /\ logged (k_log s') = [50; 60].
Proof.
  destruct (lwrite_records 1 0 proc0 in_trans [] 0 (set_b_refcnt 1 (set_b_blockno 60 buf0))) as (s' & R & _ & H & _).
  - destruct boot0_ready. split; assumption.
  - vm_compute. reflexivity.
  - exact log50_wf.
  - reflexivity.
  - cbn. lia.
  - cbn. lia.
  - right. reflexivity.
  - reflexivity.
  - reflexivity.
  - cbn. lia.
  - exists s'. split; [exact R|]. rewrite H. reflexivity.
Defined.

(** [lwrite] panics on a full log and outside of a transaction. *)
Theorem lwrite_panics p pr s e i :
  let l := k_log s in
  bio_ready p pr s -> free L_log (k_hl s) ->
  (LOGSIZE <= lh_n (lg_lh l) \/ s32 (lg_size l) - 1 <= lh_n (lg_lh l) ->
     exists s', lwrite i s e = Panic "too big a transaction" s') /\
  (lh_n (lg_lh l) < LOGSIZE -> lh_n (lg_lh l) < s32 (lg_size l) - 1 -> lg_outstanding l < 1 ->
     exists s', lwrite i s e = Panic "log_write outside of trans" s').
Proof.
  intros l Hr Hf. assert (room 1 (k_hl s)) as Hr1 by (apply (room_weaken 3); [apply Hr | lia]).
  assert (forall m s', lwrite i s e = Panic m s' -> exists s', lwrite i s e = Panic m s') as Hex by eauto.
  split; [intros Hbig | intros H1 H2 H3]; eapply Hex; unfold lwrite; (kstep acquire_run; [done | done |]); rewrite bind_gets;
    cbn [k_log set_k_hl]; fold l; replace (s32 LOGSIZE) with LOGSIZE by done.
  - assert ((LOGSIZE <=? lh_n (lg_lh l)) || (s32 (lg_size l) - 1 <=? lh_n (lg_lh l)) = true) as -> by lia. reflexivity.
  - assert ((LOGSIZE <=? lh_n (lg_lh l)) || (s32 (lg_size l) - 1 <=? lh_n (lg_lh l)) = false) as -> by lia.
    rewrite (proj2 (Z.ltb_lt _ _) H3). reflexivity.
Qed.

Lemma lwrite_panics_witness : exists s', lwrite 0 boot0 [] = Panic "too big a transaction" s'.
Proof. apply (lwrite_panics 0 proc0 boot0 [] 0); [exact boot0_ready | reflexivity | right; vm_compute; discriminate]. Defined.

(** A call that is admitted at once. *)
Lemma begin_op_run s e :
  room 1 (k_hl s) -> nested (k_hl s) -> free L_log (k_hl s) -> lg_committing (k_log s) || log_full (k_log s) = false ->
  begin_op s e = Ret tt (set_k_log (set_lg_outstanding (u32 (lg_outstanding (k_log s) + 1)) (k_log s)) s) e.
Proof.
  intros Hr Hn Hf Hc. unfold begin_op. kstep acquire_run; [done | done |].
  eapply eq_trans; [eapply (bind_Ret _ _ _ _ tt)|].
  { unfold while_waiting. cbn [while]. rewrite bind_assoc, bind_gets, bind_ret. cbn [k_log set_k_hl]. rewrite Hc. reflexivity. }
  cbv beta. unfold on_log at 1. rewrite bind_modify. rewrite (release_acq_run L_log (k_hl s)) by done. rewrite Hn. by destruct s.
Qed.

(** C36: begin_op admits a system call exactly when no commit is running and the logged
    blocks plus ten blocks for every call in progress, this one included, fit into the
    log; otherwise it puts the process to sleep on the log with the log lock free. *)
Theorem begin_op_reserves p pr s :
  let l := k_log s in
  bio_ready p pr s -> free L_log (k_hl s) -> noff (cur (k_hl s)) = 0 ->
  0 <= lh_n (lg_lh l) <= LOGSIZE -> 0 <= lg_outstanding l < 2 ^ 24 ->
  let room := negb (lg_committing l) && (lh_n (lg_lh l) + (lg_outstanding l + 1) * MAXOPBLOCKS <=? LOGSIZE) in
  if room then forall e, begin_op s e = Ret tt (set_k_log (set_lg_outstanding (lg_outstanding l + 1) l) s) e
  else exists s', begin_op s [] = Blocked s' /\ free L_log (k_hl s') /\ k_log s' = l /\
    k_procs s' !! p = Some (set_p_status SLEEPING (set_p_chan CLog pr)).
Proof.
  intros l Hr Hf H0 Hn Ho rm. assert (room 1 (k_hl s)) as Hr1 by (apply (room_weaken 3); [apply Hr | lia]).
  assert (lg_committing l || log_full l = negb rm) as Hc.
  { unfold rm, log_full. rewrite negb_andb, negb_involutive. f_equal. rewrite (u32_small (lg_outstanding l + 1)) by lia. unfold MAXOPBLOCKS, LOGSIZE in *.
    rewrite (u32_small ((lg_outstanding l + 1) * 10)) by lia. rewrite u32_small by lia. lia. }
  destruct rm.
  - intros e. rewrite begin_op_run by (done || apply Hr). fold l. by rewrite u32_small by lia.
  - set (s1 := set_k_hl (acq L_log (k_hl s)) s). exists (asleep CLog p pr (k_hl s) s1).
    pose proof (br_pr _ _ _ Hr) as Hp. pose proof (lookup_lt_Some _ _ _ Hp) as Hlt. rewrite (br_len _ _ _ Hr) in Hlt.
    split; [|split; [|split; [done|]]].
    + unfold begin_op. kstep acquire_run; [done | done |]. fold s1. unfold bind at 1.
      enough (while_waiting (l0 <- gets k_log ;; ret (lg_committing l0 || log_full l0)) (sleep CLog L_log) s1 [] =
              Blocked (asleep CLog p pr (k_hl s) s1)) as -> by done.
      unfold while_waiting. cbn [while]. rewrite bind_assoc, bind_gets, bind_ret. change (k_log s1) with l. rewrite Hc. cbn [negb]. unfold bind at 1.
      rewrite (sleep_run CLog L_log s1 [] (k_hl s) p pr); [done | done | done | | done | | done | apply (br_me _ _ _ Hr) | exact Hp].
      * apply (room_weaken 3); [apply Hr | lia].
      * by apply (br_procs _ _ _ Hr).
    + cbn. by apply free_acq_ne.
    + cbn. apply list_lookup_insert_eq. by rewrite (br_len _ _ _ Hr).
Qed.

Lemma begin_op_reserves_witness :
  begin_op boot0 [] = Ret tt (set_k_log (set_lg_outstanding 1 (k_log boot0)) boot0) [] /\
  exists s', begin_op (set_k_log (set_lg_outstanding 3 log50) boot0) [] = Blocked s'.
Proof.
  split.
  - apply (begin_op_reserves 0 proc0 boot0); [exact boot0_ready | vm_compute; reflexivity | reflexivity | cbn; unfold LOGSIZE; lia | cbn; lia].
  - destruct (begin_op_reserves 0 proc0 (set_k_log (set_lg_outstanding 3 log50) boot0)) as (s' & H & _).
    + destruct boot0_ready. split; assumption.
    + vm_compute. reflexivity.
    + reflexivity.
    + cbn. unfold LOGSIZE. lia.
    + cbn. lia.
    + exists s'. exact H.
Defined.

(** ** [end_op] *)

Lemma bio_ready_log p pr s L : bio_ready p pr s -> bio_ready p pr (set_k_log L s).
Proof. intros []. split; assumption. Qed.

Lemma log_wf_flags D l o c : log_wf D l -> log_wf D (set_lg_committing c (set_lg_outstanding o l)).
Proof. intros []. split; assumption. Qed.

(** The last critical section of [end_op]: the flag is cleared and the waiting
    processes are woken. *)
Lemma uncommit_run p pr s e : bio_ready p pr s -> free L_log (k_hl s) ->
  (acquire L_log ;; on_log (set_lg_committing false) ;; wakeup CLog ;; release L_log) s e =
  Ret tt (set_k_procs (wake_procs (Some p) CLog (k_procs s)) (set_k_log (set_lg_committing false (k_log s)) s)) e.
Proof.
  intros Hr Hf. assert (room 1 (k_hl s)) as Hr1 by (apply (room_weaken 3); [apply Hr | lia]).
  kstep acquire_run; [done | done |]. unfold on_log. rewrite bind_modify. cbn [k_log set_k_hl]. set (L := set_lg_committing _ _).
  pose proof (bio_ready_log p pr s L Hr) as HrL.
  destruct (acq_facts p pr (set_k_log L s) 0 HrL ltac:(unfold NBUF; lia) L_log (k_bufs s) (k_procs s)) as (A1 & A2 & A3 & A4 & _ & A6); [by intros ? | done |].
  cbn [k_hl set_k_log] in *. change (bset (k_bufs s) (k_procs s) (set_k_log L s)) with (set_k_log L s) in *.
  change (set_k_log L (set_k_hl (acq L_log (k_hl s)) s)) with (set_k_hl (acq L_log (k_hl s)) (set_k_log L s)).
  kstep wakeup_run; [exact A1 | exact A2 | exact A3 | exact A6 |]. rewrite A4.
  rewrite (release_acq_run L_log (k_hl s)) by done. rewrite (br_nested _ _ _ Hr). by destruct s.
Qed.

(** The last call of a transaction that logged nothing. *)
Lemma end_op_empty {DD : DiskDriver} p pr s e :
  let l := k_log s in
  bio_ready p pr s -> free L_log (k_hl s) -> lh_n (lg_lh l) = 0 -> lg_outstanding l = 1 -> lg_committing l = false ->
  end_op s e = Ret tt (set_k_procs (wake_procs (Some p) CLog (k_procs s)) (set_k_log (set_lg_outstanding 0 l) s)) e.
Proof.
  intros l Hr Hf Hn Ho Hc. assert (room 1 (k_hl s)) as Hr1 by (apply (room_weaken 3); [apply Hr | lia]).
  set (sc := set_k_log (set_lg_committing true (set_lg_outstanding 0 l)) s).
  unfold end_op. kstep acquire_run; [done | done |]. unfold on_log at 1. rewrite bind_modify. rewrite bind_gets. cbn [k_log set_k_hl set_k_log]. fold l.
  cbn [lg_committing lg_outstanding set_lg_outstanding]. rewrite Hc, Ho. change (u32 (1 - 1) =? 0) with true. cbv iota.
  unfold on_log at 1. rewrite bind_assoc, bind_modify, bind_ret. rewrite (bind_Ret _ _ _ _ tt sc e).
  - cbn [when]. rewrite (bind_Ret _ _ _ _ tt sc e); [|unfold commit; rewrite bind_gets; change (lh_n (lg_lh (k_log sc))) with (lh_n (lg_lh l)); by rewrite Hn].
    rewrite (uncommit_run p pr) by (done || by apply bio_ready_log). unfold sc. cbn. unfold set_lg_committing, set_lg_outstanding. cbn. by rewrite Hc.
  - rewrite (release_acq_run L_log (k_hl s)) by done. rewrite (br_nested _ _ _ Hr). f_equal.
Qed.

(** The end_op of the last system call of a transaction commits it: the disk writes
    are exactly the commit's, in order, the log is cleared, the committing flag is
    reset, no process is left asleep on the log and the locks are as before. *)
Theorem end_op_commits {DD : DiskDriver} (D : Z) p pr s e :
  let l := k_log s in
  session D p pr s ∅ s -> free L_log (k_hl s) -> log_wf D l -> 0 < lh_n (lg_lh l) ->
  lg_outstanding l = 1 -> lg_committing l = false ->
  exists s', end_op s e = Ret tt s' e /\ k_log s' = cleared (set_lg_outstanding 0 l) /\
    k_trace s' = k_trace s ++ commit_writes l (view D s) /\ k_disk s' = writes (k_disk s) (commit_writes l (view D s)) /\
    k_procs s' = wake_procs (Some p) CLog (k_procs s') /\ k_hl s' = k_hl s.
Proof.
  intros l Hs Hf Hw Hn Ho Hc. pose proof (se_ready _ _ _ _ _ _ Hs) as Hr.
  assert (room 1 (k_hl s)) as Hr1 by (apply (room_weaken 3); [apply Hr | lia]).
  set (L := set_lg_committing true (set_lg_outstanding 0 l)). set (sc := set_k_log L s).
  assert (log_wf D L) as HwL by (by apply log_wf_flags).
  destruct (commit_run D p pr sc sc e (session_put_log D p pr s ∅ s L Hs) HwL) as (s1 & R1 & (I1 & I2 & I3) & S1).
  change (lh_n (lg_lh (k_log sc))) with (lh_n (lg_lh l)) in *. rewrite (proj2 (Z.ltb_lt _ _) Hn) in *.
  change (k_log sc) with L in *. assert (k_log s1 = cleared L) as E1 by (by rewrite (session_log _ _ _ _ _ _ S1)).
  assert (k_hl s1 = k_hl s) as Eh by (by rewrite (se_frame _ _ _ _ _ _ S1)).
  pose proof (uncommit_run p pr s1 e (se_ready _ _ _ _ _ _ S1) ltac:(by rewrite Eh)) as R2.
  exists (set_k_procs (wake_procs (Some p) CLog (k_procs s1)) (set_k_log (set_lg_committing false (k_log s1)) s1)).
  split; [|split; [|split; [exact I3 | split; [exact I2 | split]]]].
  - unfold end_op. kstep acquire_run; [done | done |]. unfold on_log at 1. rewrite bind_modify. rewrite bind_gets. cbn [k_log set_k_hl set_k_log]. fold l.
    cbn [lg_committing lg_outstanding set_lg_outstanding]. rewrite Hc, Ho. change (u32 (1 - 1) =? 0) with true. cbv iota.
    unfold on_log at 1. rewrite bind_assoc, bind_modify, bind_ret. rewrite (bind_Ret _ _ _ _ tt sc e).
    + cbn [when]. kstep R1. exact R2.
    + rewrite (release_acq_run L_log (k_hl s)) by done. rewrite (br_nested _ _ _ Hr). f_equal.
  - cbn [k_log set_k_procs set_k_log]. rewrite E1. unfold cleared, L, set_lg_committing, set_lg_lh, set_lg_outstanding. cbn. by rewrite Hc.
  - cbn [k_procs set_k_procs]. apply list_eq. intros i. rewrite !lookup_wake_procs. destruct (k_procs s1 !! i) as [q|]; [|done]. cbn. f_equal.
    case_bool_decide; [done|]. unfold wake. destruct (bool_decide (p_status q = SLEEPING) && bool_decide (p_chan q = CLog)) eqn:E; cbn; [done|]. by rewrite E.
  - cbn. exact Eh.
Qed.

Lemma end_op_commits_witness :
  exists s s', end_op (DD := polled_disk) s [] = Ret tt s' [] /\ length (k_trace s') = (length (k_trace s) + 4)%nat.
Proof.
  destruct (reboot_exists (DD := polled_disk) log50 (fun _ => zeros (Z.to_nat BSIZE))) as (s & R & Hb & El); [reflexivity..|].
  destruct (end_op_commits (DD := polled_disk) 1 0 proc0 s []) as (s' & R' & _ & H & _).
  - apply Hb.
  - assert (k_hl s = hl_run) as ->; [|vm_compute; reflexivity].
    destruct (session_boot 1 0 proc0 (set_k_disk (fun _ => zeros (Z.to_nat BSIZE)) (set_k_log log50 boot0)) []) as (B & RB & _);
      [done | reflexivity | destruct boot0_ready; split; assumption |]. rewrite RB in R. injection R as <-. reflexivity.
  - rewrite El. exact log50_wf.
  - by rewrite El.
  - by rewrite El.
  - by rewrite El.
  - exists s, s'. split; [exact R'|]. rewrite H, length_app, El. reflexivity.
Defined.
