(* ===== verification/Fs.v ===== *)
(** * The file system ([fs.cpp])

    Blocks, inodes, directories and path names, on top of the log and the
    block cache.  On-disk structures are read and written at their byte
    offsets in a block; a C string, and a structure on the kernel stack whose
    address is passed on, live in [k_mem] at an address that is an argument.
    Messages of [fmt::print_log] go to the serial port of the state. *)

From S2P Require Import Text Fmt Prelude State Riscv Cstring Lock Sched Kalloc UserCopy Bio Log.

(** ** Layout of the on-disk structures ([kernel/fs]) *)

Definition FSMAGIC : Z := 0x10203040.
Definition IPB : Z := BSIZE / 128.
Definition BPB : Z := BSIZE * 8.
Definition DIRSIZ : Z := 14.
Definition T_DIR : Z := 1.
Definition ROOTDEV : Z := 1.
Definition ROOTINO : Z := 1.

(** [sizeof(struct dinode)] and [sizeof(struct dirent)]. *)
Definition DINODE : nat := 128.
Definition DIRENT : Z := 32.

(** The [n]-byte little-endian field at byte [off] of a block. *)
Definition fld (n off : nat) (d : list Z) : Z := le_val (take n (drop off d)).
Definition put (n off : nat) (v : Z) (d : list Z) : list Z := take off d ++ le_bytes n v ++ drop (off + n) d.
Definition splice (off : nat) (l d : list Z) : list Z := take off d ++ l ++ drop (off + length l) d.

Definition IBLOCK (inum : Z) (sb : superblock) : Z := u32 (inum / IPB + sb_inodestart sb).
Definition BBLOCK (b : Z) (sb : superblock) : Z := u32 (b / BPB + sb_bmapstart sb).

(** Byte offset of entry [inum % IPB] of the block, an array of [struct dinode]. *)
Definition dinode_off (inum : Z) : nat := (DINODE * Z.to_nat (inum mod IPB))%nat.

(** Offsets in [struct dinode]: [type] 0, [major] 2, [minor] 4, [nlink] 6, [size] 8,
    [uid] 12, [gid] 16, [mask_user] 20, [mask_group] 21, [mask_other] 22, [addrs] 24. *)
Definition dinode_type (o : nat) (d : list Z) : Z := s16 (fld 2 o d).
Definition addrs_of (o : nat) (d : list Z) : list Z := map (fun k => fld 4 (o + 24 + 4 * k)%nat d) (seq 0 13).

(** The fields [ilock] copies from the disk to the table, and [iupdate] back. *)
Definition load_dinode (o : nat) (d : list Z) (ip : inode) : inode :=
  {| i_dev := i_dev ip; i_inum := i_inum ip; i_ref := i_ref ip; i_valid := i_valid ip;
     i_type := s16 (fld 2 o d); i_major := s16 (fld 2 (o + 2) d); i_minor := s16 (fld 2 (o + 4) d);
     i_nlink := s16 (fld 2 (o + 6) d); i_size := fld 4 (o + 8) d; i_uid := fld 4 (o + 12) d;
     i_gid := fld 4 (o + 16) d; i_mask_user := fld 1 (o + 20) d; i_mask_group := fld 1 (o + 21) d;
     i_mask_other := fld 1 (o + 22) d; i_addrs := addrs_of o d; i_lock := i_lock ip |}.

Definition put_addrs (o : nat) (l : list Z) (d : list Z) : list Z :=
  foldl (fun d '(k, a) => put 4 (o + 24 + 4 * k)%nat a d) d (zip (seq 0 (length l)) l).

Definition store_dinode (o : nat) (ip : inode) (d : list Z) : list Z :=
  let d := put 2 o (i_type ip) d in
  let d := put 2 (o + 2) (i_major ip) d in
  let d := put 2 (o + 4) (i_minor ip) d in
  let d := put 2 (o + 6) (i_nlink ip) d in
  let d := put 4 (o + 8) (i_size ip) d in
  let d := put 4 (o + 12) (i_uid ip) d in
  let d := put 4 (o + 16) (i_gid ip) d in
  let d := put 1 (o + 20) (i_mask_user ip) d in
  let d := put 1 (o + 21) (i_mask_group ip) d in
  let d := put 1 (o + 22) (i_mask_other ip) d in
  put_addrs o (i_addrs ip) d.

(** Bit [bi] of a bitmap block: [data[bi / 8] & (1 << (bi % 8))]. *)
Definition bit_set (byte bi : Z) : bool := negb (Z.land byte (Z.shiftl 1 (bi mod 8)) =? 0).
Definition byte_at (k : Z) (d : list Z) : Z := nth (Z.to_nat k) d 0.
Definition set_byte (k v : Z) (d : list Z) : list Z := <[Z.to_nat k := v]> d.

(** ** Table accesses *)

Definition get_inode (i : nat) : M inode := l <- gets k_itable ;; of_option "itable" (l !! i).
Definition upd_inode (i : nat) (f : inode -> inode) : M unit :=
  ip <- get_inode i ;; modify (fun s => set_k_itable (<[i := f ip]> (k_itable s)) s).

Definition inode_sl (i : nat) : slref :=
  {| sl_id := L_inode i; sl_chan := CSleepInode i;
     sl_get := fun s => i_lock <$> k_itable s !! i;
     sl_put := fun l s => set_k_itable (alter (set_i_lock l) i (k_itable s)) s |}.

(** [ip->addrs[k]]; the array has [NDIRECT + 1] elements. *)
Definition get_addr (i : nat) (k : Z) : M Z :=
  ip <- get_inode i ;; of_option "ip->addrs" (i_addrs ip !! Z.to_nat k).
Definition set_addr (i : nat) (k a : Z) : M unit :=
  get_addr i k ;; upd_inode i (fun ip => set_i_addrs (<[Z.to_nat k := a]> (i_addrs ip)) ip).

(** The [inum] of [itable], searched as [iget] does: the entry with the inode
    ([inl]), else the first free entry seen, if any. *)
Fixpoint iscan (dev inum : Z) (l : list inode) (k : nat) (node : option nat) : nat + option nat :=
  match l with
  | [] => inr node
  | rs :: l' =>
      if (0 <? i_ref rs) && (i_dev rs =? dev) && (i_inum rs =? inum) then inl k
      else iscan dev inum l' (S k)
             (match node with None => if i_ref rs =? 0 then Some k else None | Some _ => node end)
  end.

Definition fresh_inode (dev inum : Z) (rs : inode) : inode :=
  set_i_valid false (set_i_ref 1 (set_i_inum inum (set_i_dev dev rs))).

Definition iget (dev inum : Z) : M nat :=
  acquire L_itable ;;
  l <- gets k_itable ;;
  match iscan dev inum l 0 None with
  | inl rs => upd_inode rs (fun ip => set_i_ref (i_ref ip + 1) ip) ;; release L_itable ;; ret rs
  | inr None => panic "fs::iget: no inode"
  | inr (Some rs) => upd_inode rs (fresh_inode dev inum) ;; release L_itable ;; ret rs
  end.

Definition idup (i : nat) : M nat :=
  acquire L_itable ;; upd_inode i (fun ip => set_i_ref (i_ref ip + 1) ip) ;; release L_itable ;; ret i.

(** [struct stat] and [stati]. *)
Record stat := Mk_stat {
  st_dev : Z; st_ino : Z; st_type : Z; st_nlink : Z; st_size : Z; st_uid : Z; st_gid : Z
}.

Definition stati (ip : inode) : stat :=
  {| st_dev := i_dev ip; st_ino := i_inum ip; st_type := i_type ip; st_nlink := i_nlink ip;
     st_size := i_size ip; st_uid := i_uid ip; st_gid := i_gid ip |}.

Section fs.
Context {DD : DiskDriver}.

(** ** Blocks *)

Definition sb_of (d : list Z) : superblock :=
  {| sb_magic := fld 4 0 d; sb_size := fld 4 4 d; sb_nblocks := fld 4 8 d; sb_ninodes := fld 4 12 d;
     sb_nlog := fld 4 16 d; sb_logstart := fld 4 20 d; sb_inodestart := fld 4 24 d; sb_bmapstart := fld 4 28 d |}.

Definition read_supblock (dev : Z) : M unit :=
  b <- bread (u32 dev) 1 ;;
  d <- buf_data b ;;
  modify (set_k_sb (sb_of d)) ;;
  brelse b.

Definition init (dev : Z) : M unit :=
  read_supblock dev ;;
  sb <- gets k_sb ;;
  if negb (sb_magic sb =? FSMAGIC) then panic "fs::init: invalid file system"
  else Log.init dev (sb_logstart sb) (sb_nlog sb).

Definition bzero (dev bno : Z) : M unit :=
  bp <- bread dev (u32 bno) ;;
  upd_data bp (fun _ => zeros (Z.to_nat BSIZE)) ;;
  lwrite bp ;;
  brelse bp.

(** The inner loop of [balloc]: the first clear bit from [bi] on, at most [n] bits. *)
Fixpoint bscan (d : list Z) (b size : Z) (bi : Z) (n : nat) : option Z :=
  match n with
  | O => None
  | S n' =>
      if u32 (b + bi) <? size then
        if bit_set (byte_at (bi / 8) d) bi then bscan d b size (bi + 1) n' else Some bi
      else None
  end.

(** The outer loop; [b] goes up by [BPB]. *)
Fixpoint balloc_from (fuel : nat) (dev b : Z) : M Z :=
  match fuel with
  | O => fun _ _ => NoFuel
  | S f =>
      sb <- gets k_sb ;;
      if b <? sb_size sb then
        bp <- bread dev (BBLOCK b sb) ;;
        d <- buf_data bp ;;
        match bscan d b (sb_size sb) 0 (Z.to_nat BPB) with
        | Some bi =>
            upd_data bp (fun d => set_byte (bi / 8) (Z.lor (byte_at (bi / 8) d) (Z.shiftl 1 (bi mod 8))) d) ;;
            lwrite bp ;;
            brelse bp ;;
            bzero dev (u32 (b + bi)) ;;
            ret (u32 (b + bi))
        | None => brelse bp ;; balloc_from f dev (u32 (b + BPB))
        end
      else print_log WARNNING (chars "balloc: out of blocks" ++ [10]) ;; ret 0
  end.

Definition balloc (dev : Z) : M Z := fun s e => balloc_from (S (S (Z.to_nat (sb_size (k_sb s) / BPB)))) dev 0 s e.

(** The bit is tested in byte [bi % 8] and cleared in byte [bi / 8]. *)
Definition bfree (dev b : Z) : M unit :=
  sb <- gets k_sb ;;
  bp <- bread dev (BBLOCK b sb) ;;
  d <- buf_data bp ;;
  let bi := b mod BPB in
  if negb (bit_set (byte_at (bi mod 8) d) bi) then panic "fs::bfree: it's free"
  else
    upd_data bp (fun d => set_byte (bi / 8) (Z.land (byte_at (bi / 8) d) (not32 (Z.shiftl 1 (bi mod 8)))) d) ;;
    lwrite bp ;;
    brelse bp.

(** ** Inodes *)

Fixpoint ialloc_from (n : nat) (dev type inum : Z) : M (option nat) :=
  match n with
  | O => print_log WARNNING (chars "fs::ialloc: no inodes") ;; ret None
  | S n' =>
      sb <- gets k_sb ;;
      bp <- bread dev (IBLOCK inum sb) ;;
      d <- buf_data bp ;;
      if dinode_type (dinode_off inum) d =? 0 then
        upd_data bp (fun d => put 2 (dinode_off inum) type (splice (dinode_off inum) (zeros DINODE) d)) ;;
        lwrite bp ;;
        brelse bp ;;
        ip <- iget dev inum ;;
        ret (Some ip)
      else brelse bp ;; ialloc_from n' dev type (inum + 1)
  end.

Definition ialloc (dev type : Z) : M (option nat) :=
  sb <- gets k_sb ;; ialloc_from (Z.to_nat (sb_ninodes sb - 1)) dev type 1.

Definition iupdate (i : nat) : M unit :=
  ip <- get_inode i ;;
  sb <- gets k_sb ;;
  bp <- bread (i_dev ip) (IBLOCK (i_inum ip) sb) ;;
  ip <- get_inode i ;;
  upd_data bp (store_dinode (dinode_off (i_inum ip)) ip) ;;
  lwrite bp ;;
  brelse bp.

(** A null pointer is [None]. *)
Definition ilock (o : option nat) : M unit :=
  match o with
  | None => panic "fs::ilock"
  | Some i =>
      ip <- get_inode i ;;
      if i_ref ip <? 1 then panic "fs::ilock"
      else
        sleep_acquire (inode_sl i) ;;
        ip <- get_inode i ;;
        when (negb (i_valid ip))
          (sb <- gets k_sb ;;
           bp <- bread (i_dev ip) (IBLOCK (i_inum ip) sb) ;;
           d <- buf_data bp ;;
           upd_inode i (load_dinode (dinode_off (i_inum ip)) d) ;;
           brelse bp ;;
           upd_inode i (set_i_valid true) ;;
           ip <- get_inode i ;;
           when (i_type ip =? 0) (panic "fs::ilock: no type"))
  end.

Definition iunlock (o : option nat) : M unit :=
  match o with
  | None => panic "fs::iunlock"
  | Some i =>
      held <- sleep_holding (inode_sl i) ;;
      ip <- get_inode i ;;
      if negb held || (i_ref ip <? 1) then panic "fs::iunlock" else sleep_release (inode_sl i)
  end.

(** [ip->addrs[NDIRECT]]'s block lists blocks; [itrunc] frees, for each of its first
    [NDIRECT] entries in use, the listing block itself. *)
Definition itrunc (i : nat) : M unit :=
  for_range 0 (Z.to_nat NDIRECT) (fun k =>
    a <- get_addr i (Z.of_nat k) ;;
    when (negb (a =? 0))
      (ip <- get_inode i ;; bfree (i_dev ip) a ;; set_addr i (Z.of_nat k) 0)) ;;
  a <- get_addr i NDIRECT ;;
  when (negb (a =? 0))
    (ip <- get_inode i ;;
     bp <- bread (i_dev ip) a ;;
     for_range 0 (Z.to_nat NDIRECT) (fun j =>
       d <- buf_data bp ;;
       when (negb (fld 4 (4 * j) d =? 0))
         (ip <- get_inode i ;; a <- get_addr i NDIRECT ;; bfree (i_dev ip) a)) ;;
     brelse bp ;;
     ip <- get_inode i ;;
     a <- get_addr i NDIRECT ;;
     bfree (i_dev ip) a ;;
     set_addr i NDIRECT 0) ;;
  upd_inode i (set_i_size 0) ;;
  iupdate i.

Definition iput (i : nat) : M unit :=
  acquire L_itable ;;
  ip <- get_inode i ;;
  when ((i_ref ip =? 1) && i_valid ip && (i_nlink ip =? 0))
    (sleep_acquire (inode_sl i) ;;
     release L_itable ;;
     itrunc i ;;
     upd_inode i (set_i_type 0) ;;
     iupdate i ;;
     upd_inode i (set_i_valid false) ;;
     sleep_release (inode_sl i) ;;
     acquire L_itable) ;;
  upd_inode i (fun ip => set_i_ref (i_ref ip - 1) ip) ;;
  release L_itable.

Definition iunlockput (i : nat) : M unit := iunlock (Some i) ;; iput i.

(** Block [bn] of the file.  The tests are the source's: [addrs] has 13 entries. *)
Definition bmap (i : nat) (bn : Z) : M Z :=
  if bn <? NINDIRECT then
    addr <- get_addr i bn ;;
    if addr =? 0 then
      ip <- get_inode i ;;
      addr <- balloc (i_dev ip) ;;
      if addr =? 0 then ret 0 else set_addr i bn addr ;; ret addr
    else ret addr
  else
    let bn := u32 (bn - NDIRECT) in
    if bn <? NDIRECT then
      addr <- get_addr i NDIRECT ;;
      addr <- (if addr =? 0 then
                 ip <- get_inode i ;;
                 addr <- balloc (i_dev ip) ;;
                 when (negb (addr =? 0)) (set_addr i NDIRECT addr) ;;
                 ret addr
               else ret addr) ;;
      if addr =? 0 then ret 0
      else
        ip <- get_inode i ;;
        bp <- bread (i_dev ip) addr ;;
        d <- buf_data bp ;;
        addr <- (if fld 4 (4 * Z.to_nat bn) d =? 0 then
                   ip <- get_inode i ;;
                   addr <- balloc (i_dev ip) ;;
                   when (negb (addr =? 0)) (upd_data bp (put 4 (4 * Z.to_nat bn) addr) ;; lwrite bp) ;;
                   ret addr
                 else ret (fld 4 (4 * Z.to_nat bn) d)) ;;
        brelse bp ;;
        ret addr
    else panic "fs::bmap: out of range".

(** ** File contents *)

(** The loop of [readi]: [tot] bytes read so far. *)
Fixpoint readi_loop (fuel : nat) (i : nat) (user_dst : bool) (dst offset n tot : Z) : M Z :=
  match fuel with
  | O => fun _ _ => NoFuel
  | S f =>
      if tot <? n then
        addr <- bmap i (offset / BSIZE) ;;
        if addr =? 0 then ret tot
        else
          ip <- get_inode i ;;
          bp <- bread (i_dev ip) addr ;;
          let m := Z.min (u32 (n - tot)) (BSIZE - offset mod BSIZE) in
          d <- buf_data bp ;;
          r <- either_copyout user_dst dst (drop (Z.to_nat (offset mod BSIZE)) d) m ;;
          if r =? -1 then brelse bp ;; ret (u32 (-1))
          else brelse bp ;; readi_loop f i user_dst (u64 (dst + m)) (u32 (offset + m)) n (u32 (tot + m))
      else ret tot
  end.

Definition readi (i : nat) (user_dst : bool) (dst offset n : Z) : M Z :=
  ip <- get_inode i ;;
  if (i_size ip <? offset) || (u32 (offset + n) <? offset) then ret 0
  else
    let n := if i_size ip <? u32 (offset + n) then u32 (i_size ip - offset) else n in
    readi_loop (Z.to_nat (n / BSIZE) + 3) i user_dst dst offset n 0.

(** The loop of [writei]; the result is [tot] and [offset] where it stops. *)
Fixpoint writei_loop (fuel : nat) (i : nat) (user_src : bool) (src offset n tot : Z) : M (Z * Z) :=
  match fuel with
  | O => fun _ _ => NoFuel
  | S f =>
      if tot <? n then
        addr <- bmap i (offset / BSIZE) ;;
        if addr =? 0 then ret (tot, offset)
        else
          ip <- get_inode i ;;
          bp <- bread (i_dev ip) addr ;;
          let m := if u32 (n - tot) <? BSIZE - offset mod BSIZE then u32 (n - tot) else BSIZE - offset mod BSIZE in
          r <- either_copyin user_src src m ;;
          upd_data bp (splice (Z.to_nat (offset mod BSIZE)) (snd r)) ;;
          if fst r =? -1 then brelse bp ;; ret (tot, offset)
          else
            lwrite bp ;;
            brelse bp ;;
            writei_loop f i user_src (u64 (src + m)) (u32 (offset + m)) n (u32 (tot + m))
      else ret (tot, offset)
  end.

Definition writei (i : nat) (user_src : bool) (src offset n : Z) : M Z :=
  ip <- get_inode i ;;
  if (i_size ip <? offset) || (u32 (offset + n) <? offset) then ret (-1)
  else if MAXFILE * BSIZE <? u32 (offset + n) then ret (-1)
  else
    r <- writei_loop (Z.to_nat (n / BSIZE) + 3) i user_src src offset n 0 ;;
    ip <- get_inode i ;;
    when (i_size ip <? snd r) (upd_inode i (set_i_size (snd r))) ;;
    iupdate i ;;
    ret (s32 (fst r)).

(** ** Directories

    [de] is the address of the [struct dirent] on the kernel stack: [inum] at
    0, [uid] at 4, [gid] at 8, the masks at 12, 13, 14, [name] at 15. *)

Definition namecmp (m : memory) (s t : Z) : Z := strncmp m s t DIRSIZ.

Definition de_inum (m : memory) (de : Z) : Z := le_val (load_bytes m de 2).

(** The offset found is what [*poff] receives. *)
Fixpoint dir_lookup_from (fuel : nat) (dp : nat) (name de offset : Z) : M (option (nat * Z)) :=
  match fuel with
  | O => fun _ _ => NoFuel
  | S f =>
      ip <- get_inode dp ;;
      if offset <? i_size ip then
        r <- readi dp false de offset DIRENT ;;
        if negb (r =? DIRENT) then panic "fs::dir_lookup: read error"
        else
          m <- gets k_mem ;;
          if de_inum m de =? 0 then dir_lookup_from f dp name de (u32 (offset + DIRENT))
          else if namecmp m name (de + 15) =? 0 then
            ip <- get_inode dp ;;
            r <- iget (i_dev ip) (de_inum m de) ;;
            ret (Some (r, offset))
          else dir_lookup_from f dp name de (u32 (offset + DIRENT))
      else ret None
  end.

Definition dirents (ip : inode) : nat := S (S (Z.to_nat (i_size ip / DIRENT))).

Definition dir_lookup (dp : nat) (name de : Z) : M (option (nat * Z)) :=
  ip <- get_inode dp ;;
  if negb (i_type ip =? T_DIR) then panic "fs::dir_lookup: it's not a dir"
  else
    on_mem (fun m => fill_bytes m de DIRENT 0) ;;
    dir_lookup_from (dirents ip) dp name de 0.

(** The first free entry of the directory, or its end. *)
Fixpoint dir_slot (fuel : nat) (dp : nat) (de off : Z) : M Z :=
  match fuel with
  | O => fun _ _ => NoFuel
  | S f =>
      ip <- get_inode dp ;;
      if off <? i_size ip then
        r <- readi dp false de off DIRENT ;;
        if negb (r =? DIRENT) then panic "fs::dir_link: read"
        else
          m <- gets k_mem ;;
          if de_inum m de =? 0 then ret off else dir_slot f dp de (u32 (off + DIRENT))
      else ret off
  end.

(** The two overloads of [dir_link] differ in how they fill the entry.  [strncpy] of a
    name without NUL in its first [DIRSIZ] bytes pads far past [de.name]. *)
Definition dir_link_with (dp : nat) (name de : Z) (fill : M (memory -> memory)) : M Z :=
  o <- dir_lookup dp name de ;;
  match o with
  | Some (ip, _) => iput ip ;; ret (-1)
  | None =>
      on_mem (fun m => fill_bytes m de DIRENT 0) ;;
      ip <- get_inode dp ;;
      off <- dir_slot (dirents ip) dp de 0 ;;
      m <- gets k_mem ;;
      if negb (existsb (Z.eqb 0) (load_bytes m name (Z.to_nat DIRSIZ))) then undef "strncpy past de.name"
      else
        on_mem (fun m => strncpy m (de + 15) name DIRSIZ) ;;
        f <- fill ;;
        on_mem f ;;
        r <- writei dp false de off DIRENT ;;
        if negb (r =? DIRENT) then ret (-1) else ret 0
  end.

Definition dir_link (dp : nat) (name de : Z) (other : nat) : M Z :=
  dir_link_with dp name de (ip <- get_inode other ;; ret (fun m =>
    store_bytes (store_bytes (store_bytes m de (le_bytes 2 (i_inum ip))) (de + 4) (le_bytes 4 (i_uid ip) ++ le_bytes 4 (i_gid ip)))
      (de + 12) [u8 (i_mask_user ip); u8 (i_mask_group ip); u8 (i_mask_other ip)])).

Definition dir_link_inum (dp : nat) (name de inum : Z) : M Z :=
  dir_link_with dp name de (ret (fun m => store_bytes m de (le_bytes 2 inum))).

(** ** Path names *)

(** [while ( *path == '/' ) ++path], and [while ( *path != '/' && *path != 0) ++path]. *)
Fixpoint skip_slashes (fuel : nat) (m : memory) (path : Z) : option Z :=
  match fuel with
  | O => None
  | S f => if m path =? 47 then skip_slashes f m (path + 1) else Some path
  end.
Fixpoint skip_name (fuel : nat) (m : memory) (path : Z) : option Z :=
  match fuel with
  | O => None
  | S f => if negb (m path =? 47) && negb (m path =? 0) then skip_name f m (path + 1) else Some path
  end.

(** The next element of the path goes to [name], an array of [DIRSIZ] characters in
    every caller; the result is the rest of the path, 0 being the null pointer, and the
    new memory.  For an element of exactly [DIRSIZ] bytes the NUL is stored one past
    the end of the array. *)
Inductive skipped :=
| Unread                               (* the path is longer than [fuel] *)
| Overrun                              (* name[DIRSIZ] = 0 *)
| Elem (path : Z) (m : memory).

Definition skipelem (fuel : nat) (m : memory) (path name : Z) : skipped :=
  if path =? 0 then Elem 0 m
  else
    match skip_slashes fuel m path with
    | None => Unread
    | Some s =>
        if m s =? 0 then Elem 0 m
        else
          match skip_name fuel m s with
          | None => Unread
          | Some path =>
              let len := path - s in
              if len =? DIRSIZ then Overrun
              else
                let m' := if DIRSIZ <? len then memmove m name s DIRSIZ
                          else store8 (memmove m name s len) (name + len) 0 in
                match skip_slashes fuel m' path with
                | None => Unread
                | Some path => Elem path m'
                end
          end
    end.

(** The loop of [namex]; [fuel] bounds the elements and their lengths. *)
Fixpoint namex_loop (fuel bytes : nat) (ip : nat) (path : Z) (parent : bool) (name de : Z) : M (option nat) :=
  match fuel with
  | O => fun _ _ => NoFuel
  | S f =>
      m <- gets k_mem ;;
      match skipelem bytes m path name with
      | Unread => fun _ _ => NoFuel
      | Overrun => undef "name[DIRSIZ]"
      | Elem path m' =>
          on_mem (fun _ => m') ;;
          if path =? 0 then
            if parent then iput ip ;; ret None else ret (Some ip)
          else
            ilock (Some ip) ;;
            n <- get_inode ip ;;
            if negb (i_type n =? T_DIR) then iunlockput ip ;; ret None
            else if parent && (m' path =? 0) then iunlock (Some ip) ;; ret (Some ip)
            else
              next <- dir_lookup ip name de ;;
              match next with
              | None => iunlockput ip ;; ret None
              | Some (next, _) => iunlockput ip ;; namex_loop f bytes next path parent name de
              end
      end
  end.

Definition namex (fuel : nat) (path : Z) (parent : bool) (name de : Z) : M (option nat) :=
  m <- gets k_mem ;;
  ip <- (if negb (path =? 0) && (m path =? 47) then iget ROOTDEV ROOTINO
         else
           p <- me ;; pr <- get_proc p ;;
           c <- of_option "cwd" (p_cwd pr) ;;
           idup c) ;;
  namex_loop fuel fuel ip path parent name de.

Definition namei (fuel : nat) (path name de : Z) : M (option nat) := namex fuel path false name de.
Definition nameiparent (fuel : nat) (path name de : Z) : M (option nat) := namex fuel path true name de.

End fs.
