(* ===== verification/FsSpec.v ===== *)
(** * Properties of the file system

    The inode table, the on-disk inode, the block map, the bitmap, reading
    files, and path elements. *)

From S2P Require Import Prelude State Riscv Cstring Lock Sched Kalloc UserCopy Bio Log Fs.

(** ** Fields of a block *)

Lemma length_put n off v d : (off + n <= length d)%nat -> length (put n off v d) = length d.
Proof. intros H. unfold put. rewrite !length_app, length_take, length_le_bytes, length_drop. lia. Qed.

Lemma fld_put n off v d : (off + n <= length d)%nat -> fld n off (put n off v d) = v mod 256 ^ Z.of_nat n.
Proof.
  intros H. unfold fld, put. rewrite drop_app_length' by (rewrite length_take; lia).
  rewrite take_app_length' by (by rewrite length_le_bytes). apply le_val_bytes.
Qed.

Lemma fld_put_ne n off k off' v d : (off' + k <= length d)%nat -> (off + n <= off' \/ off' + k <= off)%nat ->
  fld n off (put k off' v d) = fld n off d.
Proof.
  intros H Hd. unfold fld, put. f_equal. apply list_eq. intros j.
  destruct (decide (j < n)%nat) as [Hj|]; [|by rewrite !lookup_take_ge by lia].
  rewrite !lookup_take_lt, !lookup_drop by lia. destruct Hd.
  - rewrite lookup_app_l by (rewrite length_take; lia). by rewrite lookup_take_lt by lia.
  - rewrite lookup_app_r by (rewrite length_take; lia). rewrite lookup_app_r by (rewrite length_le_bytes, length_take; lia).
    rewrite lookup_drop, length_le_bytes, length_take. f_equal. lia.
Qed.

(** ** The on-disk inode *)

Section dinode.
Context (o : nat) (d : list Z).
Hypothesis Ho : (o + DINODE <= length d)%nat.

Lemma put_addrs_snoc l a e : put_addrs o (l ++ [a]) e = put 4 (o + 24 + 4 * length l) a (put_addrs o l e).
Proof. unfold put_addrs. rewrite length_app, Nat.add_1_r, seq_S, zip_with_app by (by rewrite length_seq). by rewrite foldl_app. Qed.

Lemma put_addrs_facts l e : length e = length d -> (length l <= 13)%nat ->
  length (put_addrs o l e) = length d /\
  (forall n off, (off + n <= o + 24)%nat -> fld n off (put_addrs o l e) = fld n off e) /\
  (forall k a, l !! k = Some a -> fld 4 (o + 24 + 4 * k) (put_addrs o l e) = a mod 256 ^ 4).
Proof.
  intros He. induction l as [|a l IH] using rev_ind; intros Hl; [done|]. rewrite length_app in Hl. cbn in Hl.
  destruct IH as (IL & IF & IA); [lia|]. rewrite put_addrs_snoc. unfold DINODE in Ho.
  assert (o + 24 + 4 * length l + 4 <= length (put_addrs o l e))%nat as Hr by lia. split_and!.
  - by rewrite length_put.
  - intros n off Hn. rewrite fld_put_ne by lia. by apply IF.
  - intros k b Hk. apply lookup_app_Some in Hk as [Hk|[Hge Hk]].
    + pose proof (lookup_lt_Some _ _ _ Hk). rewrite fld_put_ne by lia. by apply IA.
    + destruct (k - length l)%nat eqn:E; [|done]. injection Hk as ->. replace k with (length l) by lia. by apply fld_put.
Qed.
Lemma put_addrs_out l e n off : length e = length d -> (length l <= 13)%nat -> (off + n <= o \/ o + DINODE <= off)%nat ->
  fld n off (put_addrs o l e) = fld n off e.
Proof.
  intros He. induction l as [|a l IH] using rev_ind; intros Hl Hoff; [done|]. rewrite length_app in Hl. cbn in Hl.
  rewrite put_addrs_snoc, fld_put_ne; [apply IH; [lia | done] | | unfold DINODE in *; lia].
  destruct (put_addrs_facts l e He) as [-> _]; [lia|]. unfold DINODE in *. lia.
Qed.
End dinode.

Lemma length_splice o l d : (o + length l <= length d)%nat -> length (splice o l d) = length d.
Proof. intros H. unfold splice. rewrite !length_app, length_take, length_drop. lia. Qed.

Lemma nth_splice o l d i : (o + length l <= length d)%nat ->
  nth i (splice o l d) 0 = if decide (o <= i < o + length l)%nat then nth (i - o) l 0 else nth i d 0.
Proof.
  intros H. unfold splice. destruct (decide (i < o)%nat) as [Hi|Hi].
  - rewrite app_nth1 by (rewrite length_take; lia). rewrite decide_False by lia. by rewrite !nth_lookup, lookup_take_lt.
  - rewrite app_nth2 by (rewrite length_take; lia). rewrite length_take, Nat.min_l by lia. case_decide as Hd.
    + by rewrite app_nth1 by lia.
    + rewrite app_nth2 by lia. rewrite !nth_lookup, lookup_drop. do 2 f_equal. lia.
Qed.

Lemma dinode_off_eq i : Z.of_nat (dinode_off i) = 128 * (i mod 8).
Proof. unfold dinode_off, DINODE. change IPB with 8. pose proof (Z.mod_pos_bound i 8 ltac:(lia)). lia. Qed.

Lemma dinode_off_fits i : (dinode_off i + DINODE <= 1024)%nat.
Proof. pose proof (dinode_off_eq i). unfold DINODE. pose proof (Z.mod_pos_bound i 8 ltac:(lia)). lia. Qed.

(** The values the fields of an inode can have in the table. *)
Definition inode_fits (ip : inode) : Prop :=
  Forall (fun v => s16 v = v) [i_type ip; i_major ip; i_minor ip; i_nlink ip] /\
  Forall in32 (i_size ip :: i_uid ip :: i_gid ip :: i_addrs ip) /\
  Forall in8 [i_mask_user ip; i_mask_group ip; i_mask_other ip] /\ length (i_addrs ip) = 13%nat.

Lemma s16_mod v : s16 (v mod 256 ^ 2) = s16 v.
Proof. change (256 ^ 2) with (2 ^ 16). unfold s16, u16. by rewrite Z.mod_mod by lia. Qed.

(** The chain of single-field writes of [iupdate] before the block list. *)
Definition dinode_head (o : nat) (ip : inode) (d : list Z) : list Z :=
  put 1 (o + 22) (i_mask_other ip) (put 1 (o + 21) (i_mask_group ip) (put 1 (o + 20) (i_mask_user ip)
  (put 4 (o + 16) (i_gid ip) (put 4 (o + 12) (i_uid ip) (put 4 (o + 8) (i_size ip)
  (put 2 (o + 6) (i_nlink ip) (put 2 (o + 4) (i_minor ip) (put 2 (o + 2) (i_major ip) (put 2 o (i_type ip) d))))))))).

Lemma store_dinode_eq o ip d : store_dinode o ip d = put_addrs o (i_addrs ip) (dinode_head o ip d).
Proof. reflexivity. Qed.

Lemma length_put_eq n off v d L : length d = L -> (off + n <= L)%nat -> length (put n off v d) = L.
Proof. intros <-. apply length_put. Qed.

Ltac length_puts := repeat (apply length_put_eq; [|lia]); reflexivity.

Lemma length_head o ip d : (o + DINODE <= length d)%nat -> length (dinode_head o ip d) = length d.
Proof. intros H. unfold DINODE in H. unfold dinode_head. length_puts. Qed.

(** Reads a field of a block after writes to the fields around it. *)
Ltac in_block d :=
  match goal with |- (_ <= length ?e)%nat => replace (length e) with (length d) by (symmetry; length_puts); lia end.
Ltac fld_step d := first [rewrite fld_put by in_block d | rewrite fld_put_ne; [|in_block d|lia]].

Lemma head_fields o ip d : (o + DINODE <= length d)%nat ->
  let h := dinode_head o ip d in
  fld 2 o h = i_type ip mod 256 ^ 2 /\ fld 2 (o + 2) h = i_major ip mod 256 ^ 2 /\ fld 2 (o + 4) h = i_minor ip mod 256 ^ 2 /\
  fld 2 (o + 6) h = i_nlink ip mod 256 ^ 2 /\ fld 4 (o + 8) h = i_size ip mod 256 ^ 4 /\ fld 4 (o + 12) h = i_uid ip mod 256 ^ 4 /\
  fld 4 (o + 16) h = i_gid ip mod 256 ^ 4 /\ fld 1 (o + 20) h = i_mask_user ip mod 256 ^ 1 /\
  fld 1 (o + 21) h = i_mask_group ip mod 256 ^ 1 /\ fld 1 (o + 22) h = i_mask_other ip mod 256 ^ 1 /\
  forall n off, (off + n <= o \/ o + 24 <= off)%nat -> fld n off h = fld n off d.
Proof.
  intros H h. unfold DINODE in H. unfold h, dinode_head.
  split_and!; [repeat fld_step d; reflexivity.. | intros n off Hoff; repeat fld_step d; reflexivity].
Qed.

Lemma dinode_store_load o ip jp d :
  (o + DINODE <= length d)%nat -> inode_fits ip ->
  let d' := store_dinode o ip d in
  load_dinode o d' jp =
    set_i_dev (i_dev jp) (set_i_inum (i_inum jp) (set_i_ref (i_ref jp) (set_i_valid (i_valid jp) (set_i_lock (i_lock jp) ip)))) /\
  length d' = length d /\
  forall n off, (off + n <= o \/ o + DINODE <= off)%nat -> fld n off d' = fld n off d.
Proof.
  intros Ho (F16 & F32 & F8 & Fl) d'. unfold d'. rewrite store_dinode_eq.
  pose proof (length_head o ip d Ho) as Hlen. pose proof (head_fields o ip d Ho) as H. cbv zeta in H.
  set (h := dinode_head o ip d) in *. destruct H as (H1 & H2 & H3 & H4 & H5 & H6 & H7 & H8 & H9 & H10 & H11).
  destruct (put_addrs_facts o d Ho (i_addrs ip) h Hlen ltac:(lia)) as (PL & PF & PA).
  pose proof (fun n off => put_addrs_out o d Ho (i_addrs ip) h n off Hlen ltac:(lia)) as PO.
  decompose_Forall_hyps. unfold in32, in8 in *. split; [|split; [done|]].
  - unfold load_dinode. rewrite !PF by lia. rewrite H1, H2, H3, H4, H5, H6, H7, H8, H9, H10, !s16_mod.
    assert (addrs_of o (put_addrs o (i_addrs ip) h) = i_addrs ip) as ->.
    { apply list_eq. intros k. unfold addrs_of. rewrite list_lookup_fmap. destruct (decide (k < 13)%nat) as [Hk|Hk].
      - rewrite lookup_seq_lt by done. destruct (lookup_lt_is_Some_2 (i_addrs ip) k ltac:(lia)) as [a Ha]. rewrite Ha. cbn [fmap option_fmap option_map]. f_equal.
        etransitivity; [exact (PA k a Ha)|]. apply Z.mod_small. change (256 ^ 4) with (2 ^ 32). by eapply (Forall_lookup_1 (fun x => 0 <= x < 2 ^ 32)).
      - rewrite lookup_seq_ge by lia. by rewrite lookup_ge_None_2 by lia. }
    change (256 ^ 4) with (2 ^ 32). change (256 ^ 1) with (2 ^ 8). rewrite !Z.mod_small by lia.
    unfold set_i_dev, set_i_inum, set_i_ref, set_i_valid, set_i_lock. cbn. f_equal; assumption.
  - intros n off Hoff. rewrite PO by done. apply H11. unfold DINODE in *. lia.
Qed.

(** An inode written to its 128 bytes of a block reads back field by field; the
    in-memory fields are not affected and neither is any byte outside the 128. *)
Theorem dinode_roundtrip o ip jp d :
  (o + DINODE <= length d)%nat -> inode_fits ip ->
  let d' := store_dinode o ip d in
  load_dinode o d' jp =
    set_i_dev (i_dev jp) (set_i_inum (i_inum jp) (set_i_ref (i_ref jp) (set_i_valid (i_valid jp) (set_i_lock (i_lock jp) ip)))) /\
  length d' = length d /\
  forall n off, (off + n <= o \/ o + DINODE <= off)%nat -> fld n off d' = fld n off d.
Proof. apply dinode_store_load. Qed.

Lemma dinode_roundtrip_witness :
  let ip := set_i_type 2 (set_i_size 77 (set_i_nlink 1 inode0)) in
  load_dinode 128 (store_dinode 128 ip (zeros 1024)) inode0 = ip.
Proof.
  intros ip. destruct (dinode_roundtrip 128 ip inode0 (zeros 1024)) as [H _].
  - vm_compute. lia.
  - repeat split; repeat constructor; vm_compute; discriminate.
  - exact H.
Defined.

(** ** The inode table *)

Definition is_inode (dev inum : Z) (rs : inode) : bool := (0 <? i_ref rs) && (i_dev rs =? dev) && (i_inum rs =? inum).
Definition free_inode (rs : inode) : bool := i_ref rs =? 0.

Lemma iscan_find dev inum l : forall k node, iscan dev inum l k node =
  match find_from (is_inode dev inum) k l with
  | Some i => inl i
  | None => inr (match node with Some n => Some n | None => find_from free_inode k l end)
  end.
Proof.
  induction l as [|rs l IH]; intros k node; cbn [iscan find_from]; [by destruct node|].
  fold (is_inode dev inum rs). destruct (is_inode dev inum rs); [done|]. rewrite IH.
  destruct (find_from (is_inode dev inum) (S k) l); [done|]. fold (free_inode rs). by destruct node, (free_inode rs).
Qed.

(** One entry per inode in use. *)
Definition itable_ok (l : list inode) : Prop :=
  (forall i rs, l !! i = Some rs -> 0 <= i_ref rs) /\
  forall i j a b, l !! i = Some a -> l !! j = Some b -> 0 < i_ref a -> 0 < i_ref b ->
    i_dev a = i_dev b -> i_inum a = i_inum b -> i = j.

Lemma is_inode_true dev inum rs : is_inode dev inum rs = true <-> 0 < i_ref rs /\ i_dev rs = dev /\ i_inum rs = inum.
Proof. unfold is_inode. rewrite !andb_true_iff, Z.ltb_lt, !Z.eqb_eq. tauto. Qed.

(** Replacing entry [i] by a referenced entry for an inode no other entry has. *)
Lemma itable_ok_insert l i a b : itable_ok l -> l !! i = Some a -> 0 <= i_ref b ->
  (forall j c, j <> i -> l !! j = Some c -> 0 < i_ref c -> ~ (i_dev c = i_dev b /\ i_inum c = i_inum b)) ->
  itable_ok (<[i := b]> l).
Proof.
  intros [Hr Hu] Hi Hb Hn. pose proof (lookup_lt_Some _ _ _ Hi) as Hlt. split.
  - intros j rs. destruct (decide (j = i)) as [->|Hne]; [rewrite list_lookup_insert_eq by done; by intros [= <-]|].
    rewrite list_lookup_insert_ne by done. apply Hr.
  - intros j k x y. destruct (decide (j = i)) as [->|Hj], (decide (k = i)) as [->|Hk];
      rewrite ?list_lookup_insert_eq, ?list_lookup_insert_ne by done.
    + done.
    + intros [= <-] Hy _ Hry E1 E2. exfalso. apply (Hn k y Hk Hy Hry). done.
    + intros Hx [= <-] Hrx _ E1 E2. exfalso. apply (Hn j x Hj Hx Hrx). done.
    + apply Hu.
Qed.

Lemma get_inode_run i ip s e : k_itable s !! i = Some ip -> get_inode i s e = Ret ip s e.
Proof. intros H. unfold get_inode. rewrite bind_gets, H. done. Qed.

Lemma upd_inode_run i f ip s e : k_itable s !! i = Some ip ->
  upd_inode i f s e = Ret tt (set_k_itable (<[i := f ip]> (k_itable s)) s) e.
Proof. intros H. unfold upd_inode. kstep get_inode_run; [exact H|]. reflexivity. Qed.

(** A critical section of [itable.lock] that updates one entry. *)
Lemma itable_section {A} (i : nat) f ip (a : A) s e : room 1 (k_hl s) -> free L_itable (k_hl s) -> k_itable s !! i = Some ip ->
  (upd_inode i f ;; release L_itable ;; ret a) (set_k_hl (acq L_itable (k_hl s)) s) e =
  Ret a (set_k_hl (bal (k_hl s)) (set_k_itable (<[i := f ip]> (k_itable s)) s)) e.
Proof.
  intros Hr Hf Hi. kstep upd_inode_run; [exact Hi|]. kstep (release_acq_run L_itable (k_hl s)); [done | done | done |]. by destruct s.
Qed.

(** The state after [iget] or [idup]: entry [i] of the table replaced. *)
Definition set_entry (i : nat) (ip : inode) (s : kernel) : kernel :=
  set_k_hl (bal (k_hl s)) (set_k_itable (<[i := ip]> (k_itable s)) s).

(** The inode table has at most one entry in use per device and inode number: iget
    shares the entry it finds, or takes the first free one, or panics when there is
    none, and keeps the invariant. *)
Theorem iget_one_entry dev inum s e :
  room 1 (k_hl s) -> free L_itable (k_hl s) -> itable_ok (k_itable s) ->
  match find_idx (is_inode dev inum) (k_itable s) with
  | Some i => exists ip, k_itable s !! i = Some ip /\
      let s' := set_entry i (set_i_ref (i_ref ip + 1) ip) s in iget dev inum s e = Ret i s' e /\ itable_ok (k_itable s')
  | None =>
      match find_idx free_inode (k_itable s) with
      | Some i => exists ip, k_itable s !! i = Some ip /\ i_ref ip = 0 /\
          let s' := set_entry i (fresh_inode dev inum ip) s in iget dev inum s e = Ret i s' e /\ itable_ok (k_itable s')
      | None => exists s', iget dev inum s e = Panic "fs::iget: no inode" s'
      end
  end.
Proof.
  intros Hr Hf Hok. destruct (find_idx (is_inode dev inum) (k_itable s)) as [i|] eqn:Eh.
  - pose proof Eh as Eh'. apply find_idx_Some in Eh' as (ip & Hi & Hin & _). apply is_inode_true in Hin as (Hp & Hd & Hn).
    exists ip. split; [done|]. split.
    + unfold iget. kstep acquire_run; [done | done |]. rewrite bind_gets, iscan_find. cbn [k_itable set_k_hl]. unfold find_idx in Eh. rewrite Eh.
      exact (itable_section i (fun ip => set_i_ref (i_ref ip + 1) ip) ip i s e Hr Hf Hi).
    + apply (itable_ok_insert _ i ip); try done; [cbn; lia|]. intros j c Hj Hcj Hc [E1 E2]. apply Hj. by apply (proj2 Hok j i c ip).
  - assert (forall j c, k_itable s !! j = Some c -> is_inode dev inum c = false) as Hno.
    { intros j c Hj. apply find_idx_None in Eh. exact (Forall_lookup_1 _ _ _ _ Eh Hj). }
    destruct (find_idx free_inode (k_itable s)) as [i|] eqn:Ef.
    + pose proof Ef as Ef'. apply find_idx_Some in Ef' as (ip & Hi & H0%Z.eqb_eq & _). exists ip. split; [done|]. split; [done|]. split.
      * unfold iget. kstep acquire_run; [done | done |]. rewrite bind_gets, iscan_find. cbn [k_itable set_k_hl]. unfold find_idx in *. rewrite Eh, Ef.
        exact (itable_section i (fresh_inode dev inum) ip i s e Hr Hf Hi).
      * apply (itable_ok_insert _ i ip); try done. intros j c _ Hj Hc [E1 E2]. cbn in E1, E2. pose proof (Hno j c Hj) as Hfalse.
        rewrite (proj2 (is_inode_true dev inum c)) in Hfalse by done. done.
    + eexists. unfold iget. kstep acquire_run; [done | done |]. rewrite bind_gets, iscan_find. cbn [k_itable set_k_hl]. unfold find_idx in *. rewrite Eh, Ef. reflexivity.
Qed.

Lemma iget_one_entry_witness : exists s', iget 1 9 boot0 [] = Ret 0%nat s' [] /\ itable_ok (k_itable s').
Proof.
  assert (itable_ok (k_itable boot0)) as Hok.
  { split; intros i ?; [|intros ? ?]; intros [-> _]%lookup_replicate; [done|]. intros _ H. by cbn in H. }
  destruct (iget_one_entry 1 9 boot0 []) as (ip & _ & _ & H1 & H2); [apply hl_run_ready; lia | vm_compute; reflexivity | exact Hok |].
  eexists. split; [exact H1 | exact H2].
Defined.

(** ** The block map *)

(** bmap returns the addresses of the blocks 0 to 12 that are allocated, but
    indexes past the address array for the blocks 13 to 255 and panics for all larger
    ones: the indirect block is never used. *)
Theorem bmap_ranges {DD : DiskDriver} i ip bn s e :
  k_itable s !! i = Some ip -> length (i_addrs ip) = 13%nat -> 0 <= bn < 2 ^ 32 ->
  (bn <= 12 -> forall a, i_addrs ip !! Z.to_nat bn = Some a -> a <> 0 -> bmap i bn s e = Ret a s e) /\
  (13 <= bn < NINDIRECT -> bmap i bn s e = Undef "ip->addrs") /\
  (NINDIRECT <= bn -> bmap i bn s e = Panic "fs::bmap: out of range" s).
Proof.
  intros Hi Hl Hb. unfold bmap, NINDIRECT. split_and!.
  - intros H a Ha Hn. rewrite (proj2 (Z.ltb_lt bn 256)) by lia. unfold get_addr. rewrite bind_assoc. kstep get_inode_run; [exact Hi|].
    rewrite Ha. cbn [of_option]. rewrite bind_ret, (proj2 (Z.eqb_neq _ _) Hn). done.
  - intros H. rewrite (proj2 (Z.ltb_lt bn 256)) by lia. unfold get_addr. rewrite bind_assoc. kstep get_inode_run; [exact Hi|].
    rewrite lookup_ge_None_2 by lia. done.
  - intros H. rewrite (proj2 (Z.ltb_ge bn 256)) by lia. unfold NDIRECT. rewrite u32_small by lia.
    rewrite (proj2 (Z.ltb_ge (bn - 12) 12)) by lia. done.
Qed.

Lemma bmap_ranges_witness :
  let s := set_k_itable [set_i_addrs (7 :: zeros 12) inode0] boot0 in
  bmap (DD := polled_disk) 0 0 s [] = Ret 7 s [] /\ bmap (DD := polled_disk) 0 13 s [] = Undef "ip->addrs" /\
  bmap (DD := polled_disk) 0 256 s [] = Panic "fs::bmap: out of range" s.
Proof.
  intros s. split_and!.
  - apply (bmap_ranges (DD := polled_disk) 0 (set_i_addrs (7 :: zeros 12) inode0) 0 s []); [reflexivity | reflexivity | lia | lia | reflexivity | lia].
  - apply (bmap_ranges (DD := polled_disk) 0 (set_i_addrs (7 :: zeros 12) inode0) 13 s []); [reflexivity | reflexivity | lia | unfold NINDIRECT; lia].
  - apply (bmap_ranges (DD := polled_disk) 0 (set_i_addrs (7 :: zeros 12) inode0) 256 s []); [reflexivity | reflexivity | lia | unfold NINDIRECT; lia].
Defined.

(** The direct case as a step. *)
Lemma bmap_direct {DD : DiskDriver} i ip bn a s e : k_itable s !! i = Some ip -> 0 <= bn < NINDIRECT ->
  i_addrs ip !! Z.to_nat bn = Some a -> a <> 0 -> bmap i bn s e = Ret a s e.
Proof.
  intros Hi Hb Ha Hn. unfold bmap. rewrite (proj2 (Z.ltb_lt bn NINDIRECT)) by lia. unfold get_addr. rewrite bind_assoc.
  kstep get_inode_run; [exact Hi|]. rewrite Ha. cbn [of_option]. rewrite bind_ret, (proj2 (Z.eqb_neq _ _) Hn). done.
Qed.

(** ** Reading a file *)

(** Byte [k] of the file, given the contents [V] of the blocks. *)
Definition file_byte (V : Z -> list Z) (ip : inode) (k : Z) : Z :=
  nth (Z.to_nat (k mod BSIZE)) (V (nth (Z.to_nat (k / BSIZE)) (i_addrs ip) 0)) 0.
Definition file_bytes (V : Z -> list Z) (ip : inode) (off n : Z) : list Z :=
  map (fun j => file_byte V ip (off + Z.of_nat j)) (seq 0 (Z.to_nat n)).

(** The blocks of bytes [off, off + n) are direct and allocated. *)
Definition blocks_ok (V : Z -> list Z) (ip : inode) (off n : Z) : Prop :=
  forall k, off <= k < off + n -> exists a, i_addrs ip !! Z.to_nat (k / BSIZE) = Some a /\ a <> 0 /\
    k / BSIZE < NINDIRECT /\ length (V a) = Z.to_nat BSIZE.

Lemma file_bytes_split V ip off m n : 0 <= m <= n ->
  file_bytes V ip off n = file_bytes V ip off m ++ file_bytes V ip (off + m) (n - m).
Proof.
  intros H. unfold file_bytes. replace (Z.to_nat n) with (Z.to_nat m + Z.to_nat (n - m))%nat by lia.
  rewrite seq_app, map_app. f_equal. rewrite map_seq_shift. apply map_ext. intros j. f_equal. lia.
Qed.

Lemma length_file_bytes V ip off n : length (file_bytes V ip off n) = Z.to_nat n.
Proof. unfold file_bytes. by rewrite length_map, length_seq. Qed.

(** A piece of one block. *)
Lemma file_bytes_block V ip off m a : 0 <= off -> 0 < m <= BSIZE - off mod BSIZE ->
  i_addrs ip !! Z.to_nat (off / BSIZE) = Some a -> length (V a) = Z.to_nat BSIZE ->
  take (Z.to_nat m) (drop (Z.to_nat (off mod BSIZE)) (V a)) = file_bytes V ip off m.
Proof.
  intros Ho Hm Ha Hl. unfold BSIZE in *. pose proof (Z.mod_pos_bound off 1024 ltac:(lia)) as Hb. pose proof (Z.div_mod off 1024 ltac:(lia)) as Hdm.
  apply list_eq. intros j. destruct (decide (j < Z.to_nat m)%nat) as [Hj|Hj].
  - rewrite lookup_take_lt, lookup_drop by done. unfold file_bytes. rewrite list_lookup_fmap, lookup_seq_lt by done. cbn [fmap option_fmap option_map].
    unfold file_byte, BSIZE. rewrite Nat.add_0_l.
    assert ((off + Z.of_nat j) / 1024 = off / 1024) as -> by (symmetry; apply (Z.div_unique _ 1024 _ (off mod 1024 + Z.of_nat j)); lia).
    assert ((off + Z.of_nat j) mod 1024 = off mod 1024 + Z.of_nat j) as -> by (symmetry; apply (Z.mod_unique _ 1024 (off / 1024)); lia).
    rewrite (nth_lookup_Some _ _ 0 a Ha). rewrite Z2Nat.inj_add, Nat2Z.id by lia.
    destruct (lookup_lt_is_Some_2 (V a) (Z.to_nat (off mod 1024) + j)%nat) as [x Hx]; [lia|]. by rewrite (nth_lookup_Some _ _ 0 x Hx).
  - rewrite lookup_take_ge by lia. symmetry. apply lookup_ge_None_2. rewrite length_file_bytes. lia.
Qed.

Lemma store_bytes_app m a l1 l2 x :
  store_bytes (store_bytes m a l1) (a + Z.of_nat (length l1)) l2 x = store_bytes m a (l1 ++ l2) x.
Proof.
  unfold store_bytes. rewrite length_app. destruct (Z.leb_spec (a + Z.of_nat (length l1)) x), (Z.ltb_spec x (a + Z.of_nat (length l1) + Z.of_nat (length l2)));
    destruct (Z.leb_spec a x), (Z.ltb_spec x (a + Z.of_nat (length l1))), (Z.ltb_spec x (a + Z.of_nat (length l1 + length l2))); cbn; try lia; try done.
  - rewrite app_nth2 by lia. f_equal. lia.
  - rewrite app_nth1 by lia. done.
Qed.

Section readi.
Context {DD : DiskDriver} (D : Z) (p : nat) (pr : process).

Lemma session_put_mem s0 held s m : session D p pr s0 held s -> session D p pr (set_k_mem m s0) held (set_k_mem m s).
Proof.
  intros [[] [ord []] ? ? ? ? Hf]. split; try done; [exists ord; by split|]. rewrite Hf. reflexivity.
Qed.

Lemma either_copyout_kernel dst src n s e : room 0 (k_hl s) -> 0 <= n < 2 ^ 32 -> n <= Z.of_nat (length src) ->
  either_copyout false dst src n s e = Ret 0 (set_k_mem (store_bytes (k_mem s) dst (take (Z.to_nat n) src)) s) e.
Proof.
  intros Hr Hn Hl. unfold either_copyout. kstep (curr_proc_run s e 0 Hr). rewrite chunk_some by done. cbn [of_option]. rewrite bind_ret.
  reflexivity.
Qed.

(** What a read leaves: the bytes in memory, nothing else changed. *)
Definition has_read (s0 s s' : kernel) (dst : Z) (l : list Z) : Prop :=
  session D p pr (set_k_mem (k_mem s') s0) ∅ s' /\ (forall x, k_mem s' x = store_bytes (k_mem s) dst l x) /\
  (forall n, view D s' n = view D s n) /\ k_disk s' = k_disk s /\ k_trace s' = k_trace s /\ k_itable s' = k_itable s.

Lemma readi_loop_run i ip fuel : forall s0 s e dst offset n tot,
  session D p pr s0 ∅ s -> k_itable s !! i = Some ip -> i_dev ip = D -> blocks_ok (view D s) ip offset (n - tot) ->
  0 <= tot <= n -> n < 2 ^ 32 -> 0 <= offset -> offset + (n - tot) < 2 ^ 32 -> 0 <= dst -> dst + (n - tot) < 2 ^ 64 ->
  (tot = n /\ (0 < fuel)%nat \/ offset mod BSIZE + (n - tot) <= BSIZE * (Z.of_nat fuel - 1)) ->
  exists s', readi_loop fuel i false dst offset n tot s e = Ret n s' e /\
    has_read s0 s s' dst (file_bytes (view D s) ip offset (n - tot)).
Proof.
  induction fuel as [|fuel IH]; intros s0 s e dst offset n tot Hs Hi Hd Hb Ht Hn Ho Hon Hdst Hdn Hf.
  { exfalso. unfold BSIZE in *. pose proof (Z.mod_pos_bound offset 1024). lia. }
  cbn [readi_loop]. destruct (Z.ltb_spec tot n) as [Hlt|Hge]; cycle 1.
  { assert (tot = n) as -> by lia. exists s. split; [done|]. unfold has_read. rewrite Z.sub_diag. split_and!; try done.
    - replace (set_k_mem (k_mem s) s0) with s0; [done|]. rewrite (se_frame _ _ _ _ _ _ Hs). by destruct s0.
    - intros x. change (file_bytes (view D s) ip offset 0) with (@nil Z). symmetry. apply store_bytes_out. cbn. lia. }
  pose proof (Z.mod_pos_bound offset BSIZE ltac:(unfold BSIZE; lia)) as Hmod.
  destruct (Hb offset ltac:(lia)) as (a & Ha & Hna & Hai & Hal).
  rewrite (u32_small (n - tot)) by lia. remember (Z.min (n - tot) (BSIZE - offset mod BSIZE)) as m eqn:Em.
  assert (0 < m <= n - tot /\ m <= BSIZE - offset mod BSIZE) as [Hm1 Hm2] by lia.
  destruct (session_bread D p pr s0 ∅ s e a Hs) as (bp & s1 & R1 & S1 & _ & B1 & _ & V1 & D1 & T1); [set_solver..|].
  rewrite union_empty_r_L in S1.
  assert (k_itable s1 = k_itable s /\ k_mem s1 = k_mem s) as [Ei Em1].
  { rewrite (se_frame _ _ _ _ _ _ S1), (se_frame _ _ _ _ _ _ Hs). done. }
  assert (room 0 (k_hl s1)) as Hr0 by (apply (room_weaken 3); [apply (se_ready _ _ _ _ _ _ S1) | lia]).
  set (chunk := take (Z.to_nat m) (drop (Z.to_nat (offset mod BSIZE)) (view D s a))).
  assert (chunk = file_bytes (view D s) ip offset m) as Ec by (apply file_bytes_block; (done || lia)).
  set (mem2 := store_bytes (k_mem s) dst chunk).
  pose proof (session_put_mem s0 {[bp]} s1 mem2 S1) as S2.
  destruct (session_brelse D p pr (set_k_mem mem2 s0) {[bp]} (set_k_mem mem2 s1) e bp a (view D s a) S2) as (s3 & R3 & S3 & _ & V3 & D3 & T3);
    [set_solver | exact B1 |]. replace ({[bp]} ∖ {[bp]}) with (∅ : gset nat) in S3 by set_solver.
  assert (k_itable s3 = k_itable s /\ k_mem s3 = mem2) as [Ei3 Em3].
  { rewrite (se_frame _ _ _ _ _ _ S3), (se_frame _ _ _ _ _ _ Hs). done. }
  assert (forall v, view D s3 v = view D s v) as V3' by (intros v; rewrite V3; apply V1).
  destruct (IH (set_k_mem mem2 s0) s3 e (dst + m) (offset + m) n (tot + m) S3) as (s4 & R4 & S4 & M4 & V4 & D4 & T4 & I4);
    [by rewrite Ei3 | done | | lia | done | lia | lia | lia | lia | |].
  { intros k Hk. destruct (Hb k ltac:(lia)) as (a' & ? & ? & ? & ?). exists a'. rewrite V3'. done. }
  { destruct (decide (m = n - tot)) as [E|E]; [left; split; [lia|] | right].
    - destruct fuel; [|lia]. exfalso. unfold BSIZE in *. lia.
    - assert (m = BSIZE - offset mod BSIZE) as Em' by lia.
      assert ((offset + m) mod BSIZE = 0) as -> by (rewrite Em'; unfold BSIZE in *; Z.div_mod_to_equations; lia). lia. }
  exists s4. split.
  - kstep (bmap_direct i ip (offset / BSIZE) a); [done | split; [apply Z.div_pos; unfold BSIZE; lia | done] | done | done |].
    rewrite (proj2 (Z.eqb_neq _ _) Hna). kstep get_inode_run; [exact Hi|]. rewrite Hd. kstep R1. kstep (hb_data true s1 bp a (view D s a) e B1).
    kstep either_copyout_kernel; [done | lia | rewrite length_drop, Hal; unfold BSIZE in *; lia |].
    cbn [Z.eqb]. rewrite Em1. fold chunk mem2. kstep R3. rewrite (u64_small (dst + m)), (u32_small (offset + m)), (u32_small (tot + m)) by lia. exact R4.
  - rewrite (file_bytes_split _ _ _ m (n - tot)) by lia. unfold has_read. split_and!.
    + exact S4.
    + intros x. rewrite M4, Em3, <- store_bytes_app. unfold mem2. rewrite Ec, length_file_bytes.
      replace (dst + Z.of_nat (Z.to_nat m)) with (dst + m) by lia. unfold file_bytes. replace (n - tot - m) with (n - (tot + m)) by lia.
      replace (map (fun j => file_byte (view D s3) ip (offset + m + Z.of_nat j)) (seq 0 (Z.to_nat (n - (tot + m)))))
        with (map (fun j => file_byte (view D s) ip (offset + m + Z.of_nat j)) (seq 0 (Z.to_nat (n - (tot + m))))); [done|].
      apply map_ext. intros j. unfold file_byte. by rewrite V3'.
    + intros v. by rewrite V4, V3'.
    + by rewrite D4, D3, <- D1.
    + by rewrite T4, T3, <- T1.
    + by rewrite I4.
Qed.

Lemma readi_run i ip s0 s e dst offset n :
  session D p pr s0 ∅ s -> k_itable s !! i = Some ip -> i_dev ip = D ->
  0 <= offset <= i_size ip -> i_size ip < 2 ^ 32 -> 0 <= n -> offset + n < 2 ^ 32 -> 0 <= dst -> dst + n < 2 ^ 64 ->
  let c := Z.min n (i_size ip - offset) in
  blocks_ok (view D s) ip offset c ->
  exists s', readi i false dst offset n s e = Ret c s' e /\ has_read s0 s s' dst (file_bytes (view D s) ip offset c).
Proof.
  intros Hs Hi Hd Ho Hsz Hn Hon Hdst Hdn c Hb. unfold readi. rewrite (bind_Ret _ _ _ _ ip s e) by (by apply get_inode_run).
  rewrite (u32_small (offset + n)) by lia. rewrite (proj2 (Z.ltb_ge _ _)), (proj2 (Z.ltb_ge (offset + n) offset)) by lia. cbn [orb].
  assert ((if i_size ip <? offset + n then u32 (i_size ip - offset) else n) = c) as ->.
  { unfold c. destruct (Z.ltb_spec (i_size ip) (offset + n)); [rewrite u32_small by lia|]; lia. }
  assert (0 <= c <= n) as Hc by lia. clearbody c.
  destruct (readi_loop_run i ip (Z.to_nat (c / BSIZE) + 3) s0 s e dst offset c 0) as (s' & R & H); try done; try lia.
  - by rewrite Z.sub_0_r.
  - right. unfold BSIZE. pose proof (Z.mod_pos_bound offset 1024 ltac:(lia)). pose proof (Z.div_mod c 1024 ltac:(lia)).
    pose proof (Z.mod_pos_bound c 1024 ltac:(lia)). pose proof (Z.div_pos c 1024 ltac:(lia) ltac:(lia)). lia.
  - exists s'. rewrite Z.sub_0_r in H. done.
Qed.
End readi.


(** A file of one block, number 40, in entry 0 of the table. *)
Definition file40 : inode := set_i_dev 1 (set_i_ref 1 (set_i_valid true (set_i_size 100 (set_i_type 1 (set_i_addrs (40 :: zeros 12) inode0))))).

Lemma boot_file : exists s, session 1 0 proc0 s ∅ s /\ k_itable s !! 0%nat = Some file40 /\
  (forall n, view 1 s n = replicate (Z.to_nat BSIZE) n) /\ k_hl s = hl_run.
Proof.
  set (s0 := set_k_disk (fun n => replicate (Z.to_nat BSIZE) n) (set_k_itable (<[0%nat := file40]> (k_itable boot0)) boot0)).
  destruct (session_boot 1 0 proc0 s0 []) as (B & _ & Hs & Hv & _); [done | reflexivity | |].
  { destruct boot0_ready. split; assumption. }
  eexists. split; [exact Hs|]. split; [reflexivity|]. split; [exact Hv | reflexivity].
Qed.


(** ** Directories *)

Lemma strncmp_ext m1 m2 n : forall a b, (forall x, m1 x = m2 x) -> strncmp_loop n m1 a b = strncmp_loop n m2 a b.
Proof. induction n as [|n IH]; intros a b H; [done|]. cbn. by rewrite !H, IH. Qed.

Lemma namecmp_ext m1 m2 a b : (forall x, m1 x = m2 x) -> namecmp m1 a b = namecmp m2 a b.
Proof. intros H. unfold namecmp, strncmp. by apply strncmp_ext. Qed.

(** Directory entry [k]: 32 bytes of the file. *)
Definition entry (V : Z -> list Z) (ip : inode) (k : nat) : list Z := file_bytes V ip (DIRENT * Z.of_nat k) DIRENT.

(** The entry [l], read to [de], is in use and has the name at [name]. *)
Definition names (m : memory) (name de : Z) (l : list Z) : bool :=
  let m' := store_bytes m de l in negb (de_inum m' de =? 0) && (namecmp m' name (de + 15) =? 0).

Lemma names_ext m1 m2 name de l : length l = Z.to_nat DIRENT -> (forall x, x < de \/ de + DIRENT <= x -> m1 x = m2 x) ->
  (forall x, store_bytes m1 de l x = store_bytes m2 de l x) /\ names m1 name de l = names m2 name de l.
Proof.
  intros Hl H. assert (forall x, store_bytes m1 de l x = store_bytes m2 de l x) as E.
  { intros x. destruct (decide (de <= x < de + DIRENT)) as [Hx|Hx].
    - rewrite !store_bytes_in by (rewrite Hl; unfold DIRENT in *; lia). done.
    - rewrite !store_bytes_out by (rewrite Hl; unfold DIRENT in *; lia). apply H. lia. }
  split; [done|]. unfold names, de_inum. rewrite (load_bytes_ext _ (store_bytes m2 de l)) by (intros; apply E).
  by rewrite (namecmp_ext _ (store_bytes m2 de l)).
Qed.

Section dir.
Context {DD : DiskDriver} (D : Z) (p : nat) (pr : process) (dp : nat) (ip : inode) (name de : Z) (m0 : memory).
Hypothesis Hdev : i_dev ip = D.
Hypothesis Hde : 0 <= de /\ de + DIRENT < 2 ^ 64.

Lemma dir_lookup_from_run n : forall k fuel s0 s e V,
  session D p pr s0 ∅ s -> k_itable s !! dp = Some ip -> i_size ip = DIRENT * Z.of_nat (k + n) -> i_size ip + DIRENT < 2 ^ 32 ->
  (forall b, view D s b = V b) -> blocks_ok V ip 0 (i_size ip) -> (n < fuel)%nat ->
  (forall x, x < de \/ de + DIRENT <= x -> k_mem s x = m0 x) ->
  exists s', session D p pr (set_k_mem (k_mem s') s0) ∅ s' /\ (forall x, x < de \/ de + DIRENT <= x -> k_mem s' x = m0 x) /\
    (forall b, view D s' b = V b) /\ k_itable s' = k_itable s /\
    dir_lookup_from fuel dp name de (DIRENT * Z.of_nat k) s e =
    match find_from (fun j => names m0 name de (entry V ip j)) k (seq k n) with
    | Some j => (r <- iget D (le_val (take 2 (entry V ip j))) ;; ret (Some (r, DIRENT * Z.of_nat j))) s' e
    | None => Ret None s' e
    end.
Proof.
  induction n as [|n IH]; intros k fuel s0 s e V Hs Hi Hsz Hsz32 HV Hb Hf Hm; (destruct fuel as [|fuel]; [lia|]); cbn [dir_lookup_from].
  { exists s. split_and!; try done.
    - replace (set_k_mem (k_mem s) s0) with s0; [done|]. rewrite (se_frame _ _ _ _ _ _ Hs). by destruct s0.
    - kstep get_inode_run; [exact Hi|]. rewrite Hsz, Nat.add_0_r, Z.ltb_irrefl. done. }
  set (off := DIRENT * Z.of_nat k). assert (off + DIRENT <= i_size ip) as Hoff by (unfold off, DIRENT in *; lia).
  assert (Z.min DIRENT (i_size ip - off) = DIRENT) as Emin by lia.
  destruct (readi_run D p pr dp ip s0 s e de off DIRENT) as (s1 & R1 & S1 & M1 & V1 & D1 & T1 & I1); try done; try (unfold off, DIRENT in *; lia).
  { rewrite Emin. intros x Hx. destruct (Hb x) as (a & ? & ? & ? & ?); [unfold off, DIRENT in *; lia|]. exists a. by rewrite HV. }
  rewrite Emin in R1, M1.
  assert (file_bytes (view D s) ip off DIRENT = entry V ip k) as Ee.
  { unfold entry, off, file_bytes. apply map_ext. intros j. unfold file_byte. by rewrite HV. }
  rewrite Ee in M1. assert (length (entry V ip k) = Z.to_nat DIRENT) as Hel by apply length_file_bytes.
  destruct (names_ext (k_mem s) m0 name de (entry V ip k) Hel Hm) as [Ms Hnames].
  assert (forall x, k_mem s1 x = store_bytes m0 de (entry V ip k) x) as M1' by (intros x; by rewrite M1).
  assert (de_inum (k_mem s1) de = le_val (take 2 (entry V ip k))) as Einum.
  { unfold de_inum. f_equal. rewrite (load_bytes_ext _ (store_bytes m0 de (entry V ip k))) by (intros; apply M1').
    rewrite <- (load_store_bytes m0 de (entry V ip k)) at 2. rewrite Hel. reflexivity. }
  assert (names m0 name de (entry V ip k) = negb (de_inum (k_mem s1) de =? 0) && (namecmp (k_mem s1) name (de + 15) =? 0)) as En.
  { unfold names, de_inum. rewrite (load_bytes_ext _ (k_mem s1)) by (intros; symmetry; apply M1').
    by rewrite (namecmp_ext _ (k_mem s1)) by (intros; symmetry; apply M1'). }
  assert (forall x, x < de \/ de + DIRENT <= x -> k_mem s1 x = m0 x) as M1o.
  { intros x Hx. rewrite M1'. apply store_bytes_out. rewrite Hel. unfold DIRENT in *. lia. }
  assert (forall b, view D s1 b = V b) as HV1 by (intros b; by rewrite V1, HV).
  rewrite <- I1 in Hi.
  assert (forall (T : Type) (f : Z -> M T), (r <- readi dp false de off DIRENT ;; f r) s e = f DIRENT s1 e) as Rr by (intros T f; by apply bind_Ret).
  cbn [seq find_from]. rewrite En.
  assert ((ip0 <- get_inode dp ;; if off <? i_size ip0 then
             r <- readi dp false de off DIRENT ;;
             if negb (r =? DIRENT) then panic "fs::dir_lookup: read error"
             else m <- gets k_mem ;;
               if de_inum m de =? 0 then dir_lookup_from fuel dp name de (u32 (off + DIRENT))
               else if namecmp m name (de + 15) =? 0 then
                 ip1 <- get_inode dp ;; r0 <- iget (i_dev ip1) (de_inum m de) ;; ret (Some (r0, off))
               else dir_lookup_from fuel dp name de (u32 (off + DIRENT))
           else ret None) s e =
          (if negb (de_inum (k_mem s1) de =? 0) && (namecmp (k_mem s1) name (de + 15) =? 0)
           then (r0 <- iget D (de_inum (k_mem s1) de) ;; ret (Some (r0, off)))
           else dir_lookup_from fuel dp name de (u32 (off + DIRENT))) s1 e) as Estep.
  { kstep get_inode_run; [rewrite <- I1; exact Hi|]. rewrite (proj2 (Z.ltb_lt _ _)) by (unfold DIRENT in *; lia). rewrite Rr. change (negb (DIRENT =? DIRENT)) with false.
    cbv iota. rewrite bind_gets. destruct (de_inum (k_mem s1) de =? 0); [done|]. cbn [negb andb]. destruct (namecmp (k_mem s1) name (de + 15) =? 0); [|done].
    kstep get_inode_run; [exact Hi|]. by rewrite Hdev. }
  fold off. rewrite Estep. destruct (negb (de_inum (k_mem s1) de =? 0) && (namecmp (k_mem s1) name (de + 15) =? 0)) eqn:Eb.
  - exists s1. split_and!; try done. by rewrite Einum.
  - destruct (IH (S k) fuel (set_k_mem (k_mem s1) s0) s1 e V S1) as (s2 & S2 & M2 & V2 & I2 & R2); try done; try lia.
    exists s2. split_and!; try done; [by rewrite I2|]. rewrite <- R2. f_equal. unfold off. rewrite u32_small by (unfold off, DIRENT in *; lia). unfold DIRENT. lia.
Qed.
End dir.

(** dir_lookup finds the first entry of the directory with the given name that is
    in use and gets its inode with the entry's offset, or returns nothing when no entry
    has the name. *)
Theorem dir_lookup_first {DD : DiskDriver} (D : Z) p pr dp ip name de s e n :
  session D p pr s ∅ s -> k_itable s !! dp = Some ip -> i_dev ip = D -> i_type ip = T_DIR ->
  i_size ip = DIRENT * Z.of_nat n -> i_size ip + DIRENT < 2 ^ 32 -> 0 <= de /\ de + DIRENT < 2 ^ 64 ->
  blocks_ok (view D s) ip 0 (i_size ip) ->
  exists s', (forall x, x < de \/ de + DIRENT <= x -> k_mem s' x = k_mem s x) /\ k_itable s' = k_itable s /\
    (forall b, view D s' b = view D s b) /\ session D p pr (set_k_mem (k_mem s') s) ∅ s' /\
    dir_lookup dp name de s e =
    match find_idx (fun k => names (k_mem s) name de (entry (view D s) ip k)) (seq 0 n) with
    | Some k => (r <- iget D (le_val (take 2 (entry (view D s) ip k))) ;; ret (Some (r, DIRENT * Z.of_nat k))) s' e
    | None => Ret None s' e
    end.
Proof.
  intros Hs Hi Hd Hty Hsz Hsz32 Hde Hb. set (m1 := fill_bytes (k_mem s) de DIRENT 0).
  destruct (dir_lookup_from_run D p pr dp ip name de (k_mem s) Hd Hde n 0 (dirents ip) (set_k_mem m1 s) (set_k_mem m1 s) e (view D s))
    as (s' & S' & M' & V' & I' & R'); try done.
  - by apply session_put_mem.
  - unfold dirents. rewrite Hsz. replace (DIRENT * Z.of_nat n / DIRENT) with (Z.of_nat n); [lia|].
    rewrite Z.mul_comm, Z.div_mul; [done | unfold DIRENT; lia].
  - intros x Hx. apply fill_bytes_out. lia.
  - exists s'. split_and!; try done. unfold dir_lookup. kstep get_inode_run; [exact Hi|]. rewrite Hty. change (negb (T_DIR =? T_DIR)) with false. cbv iota.
    unfold on_mem. rewrite bind_modify. change (DIRENT * Z.of_nat 0) with 0 in R'. exact R'.
Qed.

(** The file of [file40] taken as a directory of three entries: every byte is
    40, so the first entry has inode number 40 * 257. *)
Lemma dir_lookup_first_witness :
  exists s s', k_itable s' = k_itable s /\ dir_lookup (DD := polled_disk) 0 8192 4096 s [] = Ret None s' [].
Proof.
  set (dir40 := set_i_size 96 file40).
  set (s0 := set_k_disk (fun n => replicate (Z.to_nat BSIZE) n) (set_k_itable (<[0%nat := dir40]> (k_itable boot0)) boot0)).
  destruct (session_boot 1 0 proc0 s0 []) as (B & _ & Hs & Hv & _); [done | reflexivity | |].
  { destruct boot0_ready. split; assumption. }
  set (s := set_k_bufs B s0) in *. exists s.
  destruct (dir_lookup_first (DD := polled_disk) 1 0 proc0 0 dir40 8192 4096 s [] 3 Hs) as (s' & _ & I' & _ & _ & R');
    [reflexivity.. | unfold DIRENT; lia | |].
  - intros k Hk. exists 40. cbn in Hk. replace (k / BSIZE) with 0 by (symmetry; apply Z.div_small; unfold BSIZE; lia).
    rewrite Hv. done.
  - exists s'. split; [exact I'|]. rewrite R'.
    assert (forall k, entry (view 1 s) dir40 k = entry (k_disk s0) dir40 k) as E.
    { intros k. unfold entry, file_bytes. apply map_ext. intros j. unfold file_byte. by rewrite Hv. }
    assert (find_idx (fun k => names (k_mem s) 8192 4096 (entry (view 1 s) dir40 k)) (seq 0 3) = None) as ->; [|reflexivity].
    apply find_idx_None. repeat constructor; rewrite E; vm_compute; reflexivity.
Defined.

(** ** Path elements *)

Lemma skip_slashes_run m n : forall fuel path, (forall j, 0 <= j < Z.of_nat n -> m (path + j) = 47) -> m (path + Z.of_nat n) <> 47 ->
  (n < fuel)%nat -> skip_slashes fuel m path = Some (path + Z.of_nat n).
Proof.
  induction n as [|n IH]; intros fuel path H1 H2 Hf; (destruct fuel as [|fuel]; [lia|]); cbn [skip_slashes].
  - rewrite Z.add_0_r in *. by rewrite (proj2 (Z.eqb_neq _ _) H2).
  - rewrite <- (Z.add_0_r path) at 1. rewrite (H1 0) by lia. cbn. rewrite (IH fuel (path + 1)); [f_equal; lia | | | lia].
    + intros j Hj. replace (path + 1 + j) with (path + (j + 1)) by lia. apply H1. lia.
    + by replace (path + 1 + Z.of_nat n) with (path + Z.of_nat (S n)) by lia.
Qed.

Lemma skip_name_run m n : forall fuel path, (forall j, 0 <= j < Z.of_nat n -> m (path + j) <> 47 /\ m (path + j) <> 0) ->
  m (path + Z.of_nat n) = 47 \/ m (path + Z.of_nat n) = 0 -> (n < fuel)%nat -> skip_name fuel m path = Some (path + Z.of_nat n).
Proof.
  induction n as [|n IH]; intros fuel path H1 H2 Hf; (destruct fuel as [|fuel]; [lia|]); cbn [skip_name].
  - rewrite Z.add_0_r in *. by destruct H2 as [-> | ->].
  - destruct (H1 0 ltac:(lia)) as [Ha Hb]. rewrite Z.add_0_r in Ha, Hb. rewrite (proj2 (Z.eqb_neq _ _) Ha), (proj2 (Z.eqb_neq _ _) Hb). cbn.
    rewrite (IH fuel (path + 1)); [f_equal; lia | | | lia].
    + intros j Hj. replace (path + 1 + j) with (path + (j + 1)) by lia. apply H1. lia.
    + by replace (path + 1 + Z.of_nat n) with (path + Z.of_nat (S n)) by lia.
Qed.

(** At [path] there are [a] slashes, an element of [len] bytes, [b] slashes,
    and then something else. *)
Record elem_at (m : memory) (path a len b : Z) : Prop := ElemAt {
  ea_pos : 0 <= a /\ 0 < len < 2 ^ 32 /\ 0 <= b;
  ea_pre j : 0 <= j < a -> m (path + j) = 47;
  ea_name j : 0 <= j < len -> m (path + a + j) <> 47 /\ m (path + a + j) <> 0;
  ea_post j : 0 <= j < b -> m (path + a + len + j) = 47;
  ea_end : m (path + a + len + b) <> 47 /\ (b = 0 -> m (path + a + len) = 0)
}.

(** The bytes [skipelem] writes for an element of [len] bytes, when it stays in the array. *)
Definition name_span (len : Z) : Z := if DIRSIZ <? len then DIRSIZ else len + 1.

Lemma elem_copied m path a len b name : elem_at m path a len b ->
  let m' := if DIRSIZ <? len then memmove m name (path + a) DIRSIZ else store8 (memmove m name (path + a) len) (name + len) 0 in
  (forall j, 0 <= j < Z.min len DIRSIZ -> m' (name + j) = m (path + a + j)) /\ (len <= DIRSIZ -> m' (name + len) = 0) /\
  (forall x, x < name \/ name + name_span len <= x -> m' x = m x).
Proof.
  intros H m'. pose proof (ea_pos _ _ _ _ _ H) as (_ & Hl & _). unfold m', name_span, DIRSIZ in *. destruct (Z.ltb_spec 14 len).
  - destruct (memmove_io m name (path + a) 14 ltac:(lia)) as [H1 H2]. split_and!; [intros j Hj; apply H1; lia | lia | intros x Hx; apply H2; lia].
  - destruct (memmove_io m name (path + a) len ltac:(lia)) as [H1 H2]. unfold store8. split_and!.
    + intros j Hj. rewrite (proj2 (Z.eqb_neq _ _)) by lia. apply H1. lia.
    + intros _. by rewrite Z.eqb_refl.
    + intros x Hx. rewrite (proj2 (Z.eqb_neq _ _)) by lia. apply H2. lia.
Qed.

(** skipelem skips leading slashes, copies the next path element, cut to 14
    characters and NUL-terminated when shorter, and returns the rest of the path after
    the following slashes, writing nothing but the name; an element of exactly 14
    characters overruns the name. *)
Theorem skipelem_splits m path name a len b fuel :
  path <> 0 -> elem_at m path a len b -> (Z.to_nat (a + len + b) < fuel)%nat ->
  (len <> DIRSIZ -> name + name_span len <= path \/ path + a + len + b < name) ->
  if len =? DIRSIZ then skipelem fuel m path name = Overrun
  else exists m', skipelem fuel m path name = Elem (path + a + len + b) m' /\
    (forall j, 0 <= j < Z.min len DIRSIZ -> m' (name + j) = m (path + a + j)) /\ (len <= DIRSIZ -> m' (name + len) = 0) /\
    (forall x, x < name \/ name + name_span len <= x -> m' x = m x).
Proof.
  intros Hp H Hf Hd. pose proof (elem_copied m path a len b name H) as Hc. cbv zeta in Hc. set (m' := if _ : bool then _ else _) in Hc.
  destruct Hc as (Hc1 & Hc2 & Hout). destruct H as [(P1 & P2 & P3) E1 E2 E3 [E4 E5]].
  unfold skipelem. rewrite (proj2 (Z.eqb_neq _ _) Hp).
  rewrite (skip_slashes_run m (Z.to_nat a)); rewrite ?Z2Nat.id by lia; [|done | |lia].
  2: { destruct (E2 0) as [? _]; [lia|]. by rewrite Z.add_0_r in *. }
  destruct (E2 0) as [Hn1 Hn0]; [lia|]. rewrite Z.add_0_r in Hn1, Hn0. rewrite (proj2 (Z.eqb_neq _ _) Hn0).
  rewrite (skip_name_run m (Z.to_nat len)); rewrite ?Z2Nat.id by lia; [|done | |lia].
  2: { destruct (decide (b = 0)) as [->|]; [right; by apply E5|]. left. specialize (E3 0 ltac:(lia)). by rewrite Z.add_0_r in E3. }
  replace (path + a + len - (path + a)) with len by lia. fold m'. destruct (Z.eqb_spec len DIRSIZ) as [El|El]; [done|]. specialize (Hd El).
  exists m'. split; [|by split_and!].
  rewrite (skip_slashes_run m' (Z.to_nat b)); rewrite ?Z2Nat.id by lia; [done | | | lia].
  - intros j Hj. rewrite Hout by lia. by apply E3.
  - rewrite Hout by lia. done.
Qed.

(** The path ["/abc//d"] at address 1000. *)
Definition path_mem : memory := store_bytes (fun _ => 0) 1000 [47; 97; 98; 99; 47; 47; 100; 0].

Lemma skipelem_splits_witness : exists m', skipelem 10 path_mem 1000 500 = Elem 1006 m' /\ m' 500 = 97 /\ m' 503 = 0.
Proof.
  destruct (skipelem_splits path_mem 1000 500 1 3 2 10) as (m' & H1 & H2 & H3 & _).
  - lia.
  - split.
    + lia.
    + intros j Hj. assert (j = 0) as -> by lia. reflexivity.
    + intros j Hj. assert (j = 0 \/ j = 1 \/ j = 2) as [-> | [-> | ->]] by lia; vm_compute; split; discriminate.
    + intros j Hj. assert (j = 0 \/ j = 1) as [-> | ->] by lia; reflexivity.
    + split; [vm_compute; discriminate | lia].
  - vm_compute. lia.
  - intros _. left. vm_compute. discriminate.
  - exists m'. split; [exact H1|]. split; [apply (H2 0); unfold DIRSIZ; lia | apply H3; unfold DIRSIZ; lia].
Defined.

(** ** The bitmap *)

Lemma bscan_first d b size n : forall bi, 0 <= b -> 0 <= bi -> b + bi + Z.of_nat n < 2 ^ 32 ->
  match bscan d b size bi n with
  | Some r => bi <= r < bi + Z.of_nat n /\ b + r < size /\ bit_set (byte_at (r / 8) d) r = false /\
              forall k, bi <= k < r -> bit_set (byte_at (k / 8) d) k = true
  | None => forall k, bi <= k < bi + Z.of_nat n -> b + k < size -> bit_set (byte_at (k / 8) d) k = true
  end.
Proof.
  induction n as [|n IH]; intros bi Hb Hbi Hn; cbn [bscan]; [intros; lia|]. rewrite u32_small by lia.
  destruct (Z.ltb_spec (b + bi) size) as [Hlt|Hge]; [|intros; lia].
  destruct (bit_set (byte_at (bi / 8) d) bi) eqn:Eb; cycle 1.
  { split_and!; [lia | lia | lia | done | intros; lia]. }
  specialize (IH (bi + 1) ltac:(lia) ltac:(lia) ltac:(lia)). destruct (bscan d b size (bi + 1) n) as [r|].
  - destruct IH as (H1 & H2 & H3 & H4). split_and!; try done; try lia. intros k Hk. destruct (decide (k = bi)) as [->|]; [done|]. apply H4. lia.
  - intros k Hk Hs. destruct (decide (k = bi)) as [->|]; [done|]. apply IH; lia.
Qed.

(** bfree looks at the bit of another byte than the one it clears: a block in use whose bit is in such a byte is reported free. *)
Theorem bfree_wrong_byte {DD : DiskDriver} (D : Z) p pr s e b :
  let d := view D s (BBLOCK b (k_sb s)) in
  let bi := b mod BPB in
  session D p pr s ∅ s ->
  bit_set (byte_at (bi / 8) d) bi = true -> bit_set (byte_at (bi mod 8) d) bi = false ->
  exists s', bfree D b s e = Panic "fs::bfree: it's free" s'.
Proof.
  intros d bi Hs Hset Hclr. destruct (session_bread D p pr s ∅ s e (BBLOCK b (k_sb s)) Hs) as (bp & s1 & R1 & _ & _ & B1 & _); [set_solver..|].
  exists s1. unfold bfree. rewrite bind_gets. kstep R1. kstep (hb_data true s1 bp _ d e B1). fold bi. rewrite Hclr. reflexivity.
Qed.

(** A bitmap whose only set bit is that of block 80, in byte 10. *)
Definition bitmap80 : Z -> list Z := fun _ => <[10%nat := 1]> (zeros (Z.to_nat BSIZE)).

Lemma bfree_wrong_byte_witness : exists s s', bfree (DD := polled_disk) 1 80 s [] = Panic "fs::bfree: it's free" s'.
Proof.
  destruct (session_boot 1 0 proc0 (set_k_disk bitmap80 boot0) []) as (B & _ & Hs & Hv & _); [done | reflexivity | |].
  { destruct boot0_ready. split; assumption. }
  eexists. apply (bfree_wrong_byte (DD := polled_disk) 1 0 proc0 _ [] 80 Hs); rewrite Hv; reflexivity.
Defined.
