(* ===== verification/FsWrite.v ===== *)
(** * Writing to files ([fs.cpp]: [writei], [iupdate])

    Inside a transaction a block is changed in the cache, recorded in the log
    and pinned until the commit.  [writei] does this for the blocks of a file
    and for the block of its inode. *)

From S2P Require Import Prelude State Riscv Cstring Lock Sched Kalloc Vm UserCopy Bio Log Fs FsSpec.

Section transaction.
Context {DD : DiskDriver} (D : Z) (p : nat) (pr : process).

(** A process inside a transaction that can still write [k] blocks: the log and the cache
    have room for them, and the blocks in the log are in the cache. *)
Record trans (k : nat) (s : kernel) : Prop := Trans {
  tr_ready : bio_ready p pr s;
  tr_free : free L_log (k_hl s);
  tr_cache : exists ord, cache D pr s ord ∅;
  tr_wf : log_wf D (k_log s);
  tr_room : lh_n (lg_lh (k_log s)) + Z.of_nat k <= LOGSIZE /\ lh_n (lg_lh (k_log s)) + Z.of_nat k <= s32 (lg_size (k_log s)) - 1;
  tr_out : 1 <= lg_outstanding (k_log s);
  tr_max i b : (i < NBUF)%nat -> k_bufs s !! i = Some b -> b_refcnt b + Z.of_nat k < 2 ^ 31;
  tr_spare : exists us, NoDup us /\ length us = (k + 2)%nat /\
    forall u, u ∈ us -> (u < NBUF)%nat /\ exists b, k_bufs s !! u = Some b /\ b_refcnt b = 0;
  tr_pin bn : bn ∈ logged (k_log s) -> exists i b, (i < NBUF)%nat /\ k_bufs s !! i = Some b /\ b_dev b = D /\ b_blockno b = bn /\ 1 <= b_refcnt b
}.

Lemma trans_session k s : trans k s -> session D p pr s ∅ s.
Proof.
  intros [Hr _ [ord Hc] _ _ _ Hm (us & Hnd & Hl & Hu) _]. apply (session_start D p pr s ord); try done.
  - intros i b Hi Hb. specialize (Hm i b Hi Hb). lia.
  - destruct us as [|u1 [|u2 us]]; [cbn in Hl; lia..|]. destruct (Hu u1) as (L1 & b1 & B1 & R1); [by left|].
    destruct (Hu u2) as (L2 & b2 & B2 & R2); [right; by left|]. exists u1, u2, b1, b2. split_and!; try done.
    intros ->. apply list.NoDup_cons in Hnd as [Hn _]. apply Hn. by left.
Qed.

(** What changes when a block is written: the log, the cache, and processes that wait for the buffer. *)
Definition wset (l : logst) (bufs : list buf) (procs : list process) (s : kernel) : kernel := set_k_log l (bset bufs procs s).

Lemma cache_log s ord held l : cache D pr s ord held -> cache D pr (set_k_log l s) ord held.
Proof. by intros []. Qed.

(** One reference more to a held buffer. *)
Lemma cache_pin s ord i b : cache D pr s ord {[i]} -> (i < NBUF)%nat -> k_bufs s !! i = Some b ->
  let s' := set_k_bufs (<[i := set_b_refcnt (b_refcnt b + 1) b]> (k_bufs s)) s in
  cache D pr s' ord {[i]} /\ forall n, view D s' n = view D s n.
Proof.
  intros Hc Hi Hb s'. destruct (held_facts D pr s ord {[i]} i b Hc ltac:(set_solver) Hi Hb) as (Hl & Hrf & Hv & Hd & Hk).
  assert (cache D pr s' ord {[i]}) as Hc'.
  { apply (cache_upd D pr s ord {[i]} i b (set_b_refcnt (b_refcnt b + 1) b)); try done.
    - unfold lock_ok. rewrite bool_decide_true by set_solver. split_and!; try done. cbn. lia.
    - split; [cbn; lia | done].
    - intros _ j c Hj Hj' Hcj Hdc E. apply Hj. by apply (ca_uniq _ _ _ _ _ Hc j i c b).
    - cbn. lia. }
  split; [done|]. intros n. apply (sees_view D pr s' ord {[i]}); [done|].
  apply (sees_upd D pr s ord {[i]} i b (set_b_refcnt (b_refcnt b + 1) b)); try done; [| |by apply (view_sees D pr s ord {[i]})].
  - intros (_ & _ & E1 & E2 & E3) Hdt. by left.
  - intros Hno E1 E2 E3. destruct Hno. done.
Qed.

Lemma spare_less (us : list nat) i m : NoDup us -> length us = S m -> exists us', NoDup us' /\ length us' = m /\ forall u, u ∈ us' -> u ∈ us /\ u <> i.
Proof.
  intros Hnd Hl. destruct (decide (i ∈ us)) as [Hi|Hi].
  - apply list_elem_of_split in Hi as (l1 & l2 & ->). exists (l1 ++ l2). apply list.NoDup_app in Hnd as (N1 & Dj & N2). apply list.NoDup_cons in N2 as [Hn N2].
    split; [apply list.NoDup_app; split_and!; try done; intros x Hx Hx2; apply (Dj x Hx); by right|].
    split; [rewrite length_app in *; cbn in Hl; lia|]. intros u Hu. split; [set_solver|]. intros ->.
    apply elem_of_app in Hu as [Hu|Hu]; [|done]. apply (Dj i Hu). by left.
  - destruct us as [|u us]; [done|]. exists us. apply list.NoDup_cons in Hnd as [_ Hnd]. split; [done|]. split; [by injection Hl|]. intros x Hx. set_solver.
Qed.

Lemma trans_takes k s a : trans k s -> takeable D s ∅ a /\ avail D s a.
Proof.
  intros H. split.
  - intros i b Hi Hb _ _. pose proof (tr_max _ _ H i b Hi Hb). split; [set_solver | lia].
  - destruct (tr_spare _ _ H) as (us & _ & Hl & Hu). destruct us as [|u us]; [cbn in Hl; lia|]. destruct (Hu u) as (Hlt & b & Hb & H0); [by left|].
    exists u, b. auto.
Qed.

(** The buffers after one block was written: [i] has block [a] and is pinned. *)
Section written.
Context (k : nat) (s : kernel) (a : Z) (i : nat) (b rel : buf) (B : list buf) (pc : list process).
Hypothesis Ht : trans (S k) s.
Hypothesis Hi : (i < NBUF)%nat.
Hypothesis Hb : k_bufs s !! i = Some b.
Hypothesis Hrel : b_dev rel = D /\ b_blockno rel = a /\ 1 <= b_refcnt rel <= b_refcnt b + 1.
Hypothesis Hold : b_refcnt b <> 0 -> b_dev b = D /\ b_blockno b = a.
Hypothesis HB : same_data (<[i := rel]> (k_bufs s)) B.
Hypothesis Ha : 0 <= a < 2 ^ 31.
Hypothesis Ho : outside (k_log s) a.
Hypothesis Hps : procs_step p (k_procs s) pc.
Let s' : kernel := wset (record a (k_log s)) B pc s.
Hypothesis Hc : exists ord, cache D pr s' ord ∅.

Lemma written_lookup j c : (j < NBUF)%nat -> B !! j = Some c ->
  exists c0, (if decide (j = i) then Some rel else k_bufs s !! j) = Some c0 /\ b_dev c = b_dev c0 /\ b_blockno c = b_blockno c0 /\ b_refcnt c = b_refcnt c0.
Proof.
  intros Hj Hcj. destruct (same_data_lookup _ _ _ _ (same_data_sym _ _ HB) Hcj) as (x & y & E). case_decide as Hd.
  - subst j. rewrite list_lookup_insert_eq in E by (by apply lookup_lt_Some in Hb). injection E as E. exists rel. rewrite E. done.
  - rewrite list_lookup_insert_ne in E by done. eexists. split; [exact E | done].
Qed.

Lemma written_other j c : j <> i -> k_bufs s !! j = Some c -> exists c', B !! j = Some c' /\ b_dev c' = b_dev c /\ b_blockno c' = b_blockno c /\ b_refcnt c' = b_refcnt c.
Proof.
  intros Hj Hcj. destruct (same_data_lookup _ _ j c HB) as (x & y & E); [by rewrite list_lookup_insert_ne by done|]. eexists. split; [exact E | done].
Qed.

Lemma written_self : exists c', B !! i = Some c' /\ b_dev c' = D /\ b_blockno c' = a /\ 1 <= b_refcnt c'.
Proof.
  destruct (same_data_lookup _ _ i rel HB) as (x & y & E); [apply list_lookup_insert_eq; by apply lookup_lt_Some in Hb|]. eexists. split; [exact E|]. cbn. destruct Hrel as (? & ? & ?). split_and!; (done || lia).
Qed.

Lemma written_trans : trans k s'.
Proof.
  destruct Ht as [Hr Hf _ Hw [Hr1 Hr2] Hout Hm (us & Hnd & Hl & Hu) Hp].
  assert (lh_n (lg_lh (k_log s)) <= lh_n (lg_lh (record a (k_log s))) <= lh_n (lg_lh (k_log s)) + 1 /\ lg_size (record a (k_log s)) = lg_size (k_log s) /\
    lg_outstanding (record a (k_log s)) = lg_outstanding (k_log s)) as (Hn & Hsz & Hou) by (unfold record; case_bool_decide; cbn; lia).
  split; try done.
  - apply bio_ready_log. by apply bio_ready_bset.
  - apply record_wf; try done. lia.
  - cbn [k_log s' wset set_k_log]. rewrite Hsz. lia.
  - cbn [k_log s' wset set_k_log]. by rewrite Hou.
  - intros j c Hj Hcj. destruct (written_lookup j c Hj Hcj) as (c0 & E & _ & _ & ->). destruct Hrel as (_ & _ & ?). case_decide.
    + injection E as <-. pose proof (Hm i b Hi Hb). lia.
    + pose proof (Hm j c0 Hj E). lia.
  - destruct (spare_less us i (k + 2) Hnd) as (us' & N' & L' & U'); [lia|]. exists us'. split; [done|]. split; [done|]. intros u Hu'. destruct (U' u Hu') as [Hin Hne].
    destruct (Hu u Hin) as (Hlt & c & Hcu & H0). split; [done|]. destruct (written_other u c Hne Hcu) as (c' & E & _ & _ & E0). exists c'. split; [done | lia].
  - intros bn Hbn. cbn [k_log s' wset set_k_log] in Hbn. rewrite (logged_record D) in Hbn by (done || lia).
    assert (bn = a \/ bn ∈ logged (k_log s)) as [->|Hin] by (case_bool_decide; set_solver).
    + destruct written_self as (c' & E & ? & ? & ?). by exists i, c'.
    + destruct (Hp bn Hin) as (j & c & Hj & Hcj & Hd & Hnb & H1). destruct (decide (j = i)) as [->|Hne].
      * assert (c = b) as -> by congruence. destruct Hold as [_ E]; [lia|]. destruct written_self as (c' & E' & ? & ? & ?). exists i, c'. split_and!; (done || congruence).
      * destruct (written_other j c Hne Hcj) as (c' & E & E1 & E2 & E3). exists j, c'. split_and!; (done || congruence || lia).
Qed.
End written.

(** Read, change, log and release one block. *)
Lemma trans_write k s e a f :
  trans (S k) s -> 0 <= a < 2 ^ 31 -> outside (k_log s) a ->
  exists i s1 s2 s3 B pc,
    bread D a s e = Ret i s1 e /\ upd_data i f s1 e = Ret tt s2 e /\ lwrite i s2 e = Ret tt s3 e /\ brelse i s3 e = Ret tt (wset (record a (k_log s)) B pc s) e /\
    s1 = set_k_bufs (k_bufs s1) s /\ trans k (wset (record a (k_log s)) B pc s) /\
    forall n, view D (wset (record a (k_log s)) B pc s) n = if n =? a then f (view D s a) else view D s n.
Proof.
  intros Ht Ha Ho. pose proof Ht as [Hr Hf [ord Hc] Hw [Hr1 Hr2] Hout Hm _ Hp]. destruct (trans_takes _ _ a Ht) as [Htk Hav].
  destruct (bread_spec D p pr s ord ∅ e a Hr Hc Htk Hav) as (i & b & b' & R1 & Hi & Hb & _ & Hn & Hda & Hrf & _ & Hc1 & Hv1 & Hold).
  rewrite union_empty_r_L in Hc1. pose proof (lookup_lt_Some _ _ _ Hb) as Hlt. set (s1 := set_k_bufs (<[i := b']> (k_bufs s)) s) in *.
  assert (k_bufs s1 !! i = Some b') as Hb1 by (by apply list_lookup_insert_eq).
  destruct (held_facts D pr s1 ord {[i]} i b' Hc1 ltac:(set_solver) Hi Hb1) as (_ & _ & _ & Hd1 & _).
  destruct (set_data_spec D pr s1 ord {[i]} e i b' (f (b_data b')) Hc1 ltac:(set_solver) Hi Hb1) as (_ & Hc2 & Hv2).
  set (b2 := set_b_data (f (b_data b')) b') in *. set (s2 := set_k_bufs (<[i := b2]> (k_bufs s1)) s1) in *.
  assert (k_bufs s2 !! i = Some b2) as Hb2 by (apply list_lookup_insert_eq; cbn; by rewrite length_insert).
  pose proof (Hm i b Hi Hb) as Hmb. destruct (ca_ref _ _ _ _ _ Hc i b Hi Hb) as [Hb0 _].
  assert (bio_ready p pr s2) as Hr2' by (by apply (bio_ready_bset p pr s _ (k_procs s))).
  assert (lwrite i s2 e = Ret tt (noted i b2 s2) e) as R3.
  { apply (lwrite_run D p pr); try done; cbn [k_log s2 s1 set_k_bufs]; try lia; cbn; lia. }
  set (b3 := if bool_decide (a ∈ logged (k_log s)) then b2 else set_b_refcnt (b_refcnt b2 + 1) b2).
  assert (noted i b2 s2 = set_k_log (record a (k_log s)) (set_k_bufs (<[i := b3]> (k_bufs s2)) s2)) as E3.
  { unfold noted. change (b_blockno b2) with (b_blockno b'). rewrite Hn. change (k_log s2) with (k_log s). f_equal. f_equal. unfold b3. case_bool_decide; [|done]. by rewrite list_insert_id. }
  assert (cache D pr (set_k_bufs (<[i := b3]> (k_bufs s2)) s2) ord {[i]} /\ forall n, view D (set_k_bufs (<[i := b3]> (k_bufs s2)) s2) n = view D s2 n) as [Hc3 Hv3].
  { unfold b3. case_bool_decide; [|by apply cache_pin]. rewrite list_insert_id by done. by destruct s. }
  assert (2 <= b_refcnt b3 <= b_refcnt b + 2 /\ b_dev b3 = D /\ b_blockno b3 = a) as (Hrf3 & Hd3 & Hn3).
  { unfold b3. case_bool_decide as Hin; cbn; [|split_and!; (done || lia)]. split_and!; try done; [|lia].
    destruct (Hp a Hin) as (j & c & Hj & Hcj & Hdj & Hnj & H1). destruct (decide (j = i)) as [->|Hne]; [assert (c = b) as -> by congruence; lia|].
    exfalso. apply Hne. apply (ca_uniq _ _ _ _ _ Hc1 j i c b'); try done; [cbn; by rewrite list_lookup_insert_ne | congruence]. }
  destruct (brelse_spec D p pr (noted i b2 s2) ord {[i]} e i b3) as (B & pc & R4 & Hps & HB & Hc4 & Hv4); rewrite E3 in *.
  { apply bio_ready_log. by apply (bio_ready_bset p pr s2 _ (k_procs s2)). } { by apply cache_log. } { set_solver. } { done. }
  { cbn. apply list_lookup_insert_eq. by rewrite !length_insert. } { lia. } { lia. }
  replace ({[i]} ∖ {[i]}) with (∅ : gset nat) in Hc4 by set_solver.
  assert (bset B pc (set_k_log (record a (k_log s)) (set_k_bufs (<[i := b3]> (k_bufs s2)) s2)) = wset (record a (k_log s)) B pc s) as E4 by done. rewrite E4 in *.
  exists i, s1, s2, (noted i b2 s2), B, pc. rewrite E3. split_and!; try done.
  - unfold upd_data. by rewrite (upd_buf_run i _ b').
  - apply (written_trans k s a i b (set_b_refcnt (b_refcnt b3 - 1) (set_b_lock (Mk_sleeplock false 0) b3)) B pc); try done.
    + cbn. split_and!; (done || lia).
    + unfold released in HB. cbn in HB. by rewrite !list_insert_insert_eq in HB.
    + by eexists.
  - intros n. rewrite Hv4. change (view D (set_k_log ?l ?t) n) with (view D t n). rewrite Hv3, Hv2, Hn, Hda, Hv1. done.
Qed.
End transaction.

(** ** The bytes of a file *)

(** [V'] is [V] with the bytes [l] of the file [ip] at offset [off]; no other block changed. *)
Record overwritten (V : Z -> list Z) (ip : inode) (off : Z) (l : list Z) (V' : Z -> list Z) : Prop := Overwritten {
  ow_byte j : 0 <= j -> file_byte V' ip j = if (off <=? j) && (j <? off + Z.of_nat (length l)) then nth (Z.to_nat (j - off)) l 0 else file_byte V ip j;
  ow_block b : (forall j, off <= j < off + Z.of_nat (length l) -> nth (Z.to_nat (j / BSIZE)) (i_addrs ip) 0 <> b) -> V' b = V b;
  ow_len b : length (V' b) = length (V b)
}.

(** No block belongs to the file twice. *)
Definition blocks_differ (ip : inode) : Prop :=
  forall q r a, i_addrs ip !! q = Some a -> i_addrs ip !! r = Some a -> a <> 0 -> q = r.

Lemma overwritten_nil V ip off V' : (forall b, V' b = V b) -> overwritten V ip off [] V'.
Proof.
  intros E. split; [|intros b _; by rewrite E | intros b; by rewrite E]. intros j Hj. cbn [length].
  assert ((off <=? j) && (j <? off + Z.of_nat 0) = false) as -> by (destruct (Z.leb_spec off j), (Z.ltb_spec j (off + Z.of_nat 0)); cbn in *; (done || lia)). unfold file_byte. by rewrite E.
Qed.

Lemma overwritten_app V V1 V2 ip off l1 l2 : 0 <= off ->
  overwritten V ip off l1 V1 -> overwritten V1 ip (off + Z.of_nat (length l1)) l2 V2 -> overwritten V ip off (l1 ++ l2) V2.
Proof.
  intros Ho [B1 K1 L1] [B2 K2 L2]. split.
  - intros j Hj. rewrite B2, B1 by done. rewrite length_app. zcases; cbn [andb]; try lia; try done;
      first [by rewrite app_nth1 by lia | rewrite app_nth2 by lia; f_equal; lia].
  - intros b Hb. rewrite length_app in Hb. rewrite K2, K1; [done|..]; intros j Hj; apply Hb; lia.
  - intros b. by rewrite L2.
Qed.

(** A piece of one block. *)
Lemma overwritten_block V V' ip off l a : 0 <= off -> (0 < length l)%nat -> Z.of_nat (length l) <= BSIZE - off mod BSIZE -> blocks_differ ip ->
  i_addrs ip !! Z.to_nat (off / BSIZE) = Some a -> a <> 0 -> length (V a) = Z.to_nat BSIZE ->
  (forall n, V' n = if n =? a then splice (Z.to_nat (off mod BSIZE)) l (V a) else V n) -> overwritten V ip off l V'.
Proof.
  intros Ho Hl0 Hl Hdiff Ha Hna Hlen HV. pose proof (Z.mod_pos_bound off BSIZE ltac:(unfold BSIZE; lia)) as Hmod.
  assert (Z.to_nat (off mod BSIZE) + length l <= length (V a))%nat as Hfit by lia. split.
  - intros j Hj. unfold file_byte. pose proof (Z.mod_pos_bound j BSIZE ltac:(unfold BSIZE; lia)) as Hjm. destruct (decide (j / BSIZE = off / BSIZE)) as [E|E].
    + rewrite E, (nth_lookup_Some _ _ 0 a Ha), HV, Z.eqb_refl, nth_splice by done.
      pose proof (Z.div_mod j BSIZE ltac:(unfold BSIZE; lia)). pose proof (Z.div_mod off BSIZE ltac:(unfold BSIZE; lia)). rewrite E in *.
      case_decide; zcases; cbn [andb]; try lia; try done. f_equal. lia.
    + assert ((off <=? j) && (j <? off + Z.of_nat (length l)) = false) as ->.
      { apply andb_false_iff. destruct (Z.leb_spec off j); [right | by left]. apply Z.ltb_ge. unfold BSIZE in *. zmod. }
      rewrite HV. destruct (Z.eqb_spec (nth (Z.to_nat (j / BSIZE)) (i_addrs ip) 0) a) as [E'|]; [|done]. exfalso. apply E.
      destruct (i_addrs ip !! Z.to_nat (j / BSIZE)) as [x|] eqn:Hx; [|rewrite nth_overflow in E' by (by apply lookup_ge_None); congruence].
      rewrite (nth_lookup_Some _ _ 0 x Hx) in E'. subst x. pose proof (Hdiff _ _ _ Hx Ha Hna). unfold BSIZE in *. zmod.
  - intros b Hb. rewrite HV. destruct (Z.eqb_spec b a) as [->|]; [|done]. exfalso. apply (Hb off); [lia|]. by apply nth_lookup_Some.
  - intros b. rewrite HV. destruct (Z.eqb_spec b a) as [->|]; [|done]. by apply length_splice.
Qed.

(** ** [writei] *)

Section writei.
Context {DD : DiskDriver} (D : Z) (p : nat) (pr : process) (i : nat) (ip : inode).

(** From [s] to [s'] only blocks that are in the log afterwards changed, and only in the cache. *)
Record txn_step (s s' : kernel) : Prop := TxnStep {
  ts_frame : s' = wset (k_log s') (k_bufs s') (k_procs s') s;
  ts_start : lg_start (k_log s') = lg_start (k_log s);
  ts_flags : lg_outstanding (k_log s') = lg_outstanding (k_log s) /\ lg_committing (k_log s') = lg_committing (k_log s);
  ts_mono b : b ∈ logged (k_log s) -> b ∈ logged (k_log s');
  ts_view b : b ∉ logged (k_log s') -> view D s' b = view D s b
}.

Lemma txn_refl s : txn_step s s.
Proof. split; try done. by destruct s. Qed.

Lemma txn_trans s1 s2 s3 : txn_step s1 s2 -> txn_step s2 s3 -> txn_step s1 s3.
Proof.
  intros [F1 S1 [G1 G1'] M1 V1] [F2 S2 [G2 G2'] M2 V2]. split.
  - rewrite F2, F1. done.
  - congruence.
  - split; congruence.
  - auto.
  - intros b Hb. rewrite V2, V1; [done | auto | done].
Qed.

Lemma trans_weaken k k' s : trans D p pr k s -> (k' <= k)%nat -> trans D p pr k' s.
Proof.
  intros [Hr Hf Hc Hw Hroom Hout Hm (us & Hnd & Hl & Hu) Hp] Hk. split; try done; [lia | |].
  - intros j b Hj Hb. specialize (Hm j b Hj Hb). lia.
  - exists (take (k' + 2) us). split; [eapply sublist_NoDup; [exact Hnd | apply sublist_take]|]. split; [rewrite length_take; lia|].
    intros u Hin. apply Hu. apply elem_of_take in Hin as (j & Hj & _). by eapply list_elem_of_lookup_2.
Qed.

(** The blocks of the range can be logged. *)
Definition loggable (l : logst) (off n : Z) : Prop :=
  forall j a, off <= j < off + n -> i_addrs ip !! Z.to_nat (j / BSIZE) = Some a -> 0 <= a < 2 ^ 31 /\ outside l a.

Lemma load_bytes_split m a x y : load_bytes m a (x + y) = load_bytes m a x ++ load_bytes m (a + Z.of_nat x) y.
Proof.
  unfold load_bytes. rewrite seq_app, map_app. f_equal. rewrite map_seq_shift. apply map_ext. intros j. f_equal. lia.
Qed.

Lemma txn_write k s e a f : trans D p pr (S k) s -> 0 <= a < 2 ^ 31 -> outside (k_log s) a ->
  exists b s1 s2 s3 s4, bread D a s e = Ret b s1 e /\ upd_data b f s1 e = Ret tt s2 e /\ lwrite b s2 e = Ret tt s3 e /\ brelse b s3 e = Ret tt s4 e /\
    s1 = set_k_bufs (k_bufs s1) s /\ trans D p pr k s4 /\ txn_step s s4 /\ (a ∈ logged (k_log s4)) /\
    forall n, view D s4 n = if n =? a then f (view D s a) else view D s n.
Proof.
  intros Ht Ha Ho. destruct (trans_write D p pr k s e a f Ht Ha Ho) as (b & s1 & s2 & s3 & B & pc & R1 & R2 & R3 & R4 & F1 & Ht4 & V4).
  exists b, s1, s2, s3, (wset (record a (k_log s)) B pc s).
  assert (logged (record a (k_log s)) = if bool_decide (a ∈ logged (k_log s)) then logged (k_log s) else logged (k_log s) ++ [a]) as El.
  { apply (logged_record D); [apply Ht|]. pose proof (tr_room _ _ _ _ _ Ht). lia. }
  assert (a ∈ logged (record a (k_log s))) as Hin by (rewrite El; case_bool_decide; [done | set_solver]). split_and!; try done. split; try done.
  - cbn. unfold record. by case_bool_decide.
  - cbn. unfold record. by case_bool_decide.
  - intros n Hn. cbn [k_log wset set_k_log]. rewrite El. case_bool_decide; set_solver.
  - intros n Hn. rewrite V4. destruct (Z.eqb_spec n a) as [->|]; [done | done].
Qed.

Lemma writei_loop_run f : forall k s e src off n tot,
  trans D p pr (k + f) s -> k_itable s !! i = Some ip -> i_dev ip = D -> blocks_differ ip -> blocks_ok (view D s) ip off (n - tot) -> loggable (k_log s) off (n - tot) ->
  0 <= tot <= n -> n < 2 ^ 31 -> 0 <= off -> off + (n - tot) < 2 ^ 32 -> 0 <= src -> src + (n - tot) < 2 ^ 64 ->
  (tot = n \/ off mod BSIZE + (n - tot) <= BSIZE * Z.of_nat f) ->
  exists s', writei_loop (S f) i false src off n tot s e = Ret (n, off + (n - tot)) s' e /\ trans D p pr k s' /\ txn_step s s' /\
    overwritten (view D s) ip off (load_bytes (k_mem s) src (Z.to_nat (n - tot))) (view D s') /\
    forall j a, off <= j < off + (n - tot) -> i_addrs ip !! Z.to_nat (j / BSIZE) = Some a -> a ∈ logged (k_log s').
Proof.
  induction f as [|f IH]; intros k s e src off n tot Ht Hi Hd Hdf Hb Hlg Htot Hn Ho Hon Hs Hsn Hf.
  - assert (tot = n) as -> by (pose proof (Z.mod_pos_bound off BSIZE ltac:(unfold BSIZE; lia)); lia). exists s. cbn [writei_loop]. rewrite Z.ltb_irrefl, Z.sub_diag, Z.add_0_r.
    split; [done|]. split; [by apply (trans_weaken (k + 0)); [|lia]|]. split; [apply txn_refl|]. split; [by apply overwritten_nil | lia].
  - remember (S f) as f1 eqn:Ef1. cbn [writei_loop]. destruct (Z.ltb_spec tot n) as [Hlt|Hge]; cycle 1.
    { assert (tot = n) as -> by lia. exists s. rewrite Z.sub_diag, Z.add_0_r. split; [done|]. split; [by apply (trans_weaken (k + f1)); [|lia]|].
      split; [apply txn_refl|]. split; [by apply overwritten_nil | lia]. }
    pose proof (Z.mod_pos_bound off BSIZE ltac:(unfold BSIZE; lia)) as Hmod. destruct (Hb off ltac:(lia)) as (a & Ha & Hna & Hai & Hal).
    destruct (Hlg off a ltac:(lia) Ha) as [Har Hao]. rewrite (u32_small (n - tot)) by lia.
    remember (if n - tot <? BSIZE - off mod BSIZE then n - tot else BSIZE - off mod BSIZE) as m eqn:Em.
    assert (m = Z.min (n - tot) (BSIZE - off mod BSIZE)) as Emin by (subst m; destruct (Z.ltb_spec (n - tot) (BSIZE - off mod BSIZE)); lia). clear Em.
    assert (0 < m <= n - tot /\ m <= BSIZE - off mod BSIZE) as [Hm1 Hm2] by lia.
    set (l := load_bytes (k_mem s) src (Z.to_nat m)). assert (length l = Z.to_nat m) as Hll by apply length_load_bytes.
    destruct (txn_write (k + f) s e a (splice (Z.to_nat (off mod BSIZE)) l)) as (bp & s1 & s2 & s3 & s4 & R1 & R2 & R3 & R4 & F1 & Ht4 & X4 & I4 & V4); [by replace (S (k + f)) with (k + f1)%nat by lia | done | done |].
    assert (k_itable s4 = k_itable s /\ k_mem s4 = k_mem s) as [Ei4 Em4] by (rewrite (ts_frame _ _ X4); done).
    assert (overwritten (view D s) ip off l (view D s4)) as O4 by (apply (overwritten_block _ _ ip off l a); try done; lia).
    destruct (IH k s4 e (src + m) (off + m) n (tot + m) Ht4) as (s' & R' & Ht' & X' & O' & L'); [by rewrite Ei4 | done | done | | | lia | done | lia | lia | lia | lia | |].
    { intros j Hj. destruct (Hb j ltac:(lia)) as (c & ? & ? & ? & ?). exists c. rewrite (ow_len _ _ _ _ _ O4). done. }
    { intros j c Hj Hc. destruct (Hlg j c ltac:(lia) Hc) as [? Hout]. split; [done|]. unfold outside in *. by rewrite (ts_start _ _ X4). }
    { destruct (decide (m = n - tot)) as [E|E]; [left; lia | right]. assert (m = BSIZE - off mod BSIZE) as Em' by lia.
      assert ((off + m) mod BSIZE = 0) as -> by (rewrite Em'; unfold BSIZE in *; Z.div_mod_to_equations; lia). lia. }
    exists s'. split; [|split; [done | split; [by apply (txn_trans _ s4) | split]]].
    + kstep (bmap_direct i ip (off / BSIZE) a); [done | split; [apply Z.div_pos; unfold BSIZE; lia | done] | done | done |].
      rewrite (proj2 (Z.eqb_neq _ _) Hna). kstep get_inode_run; [exact Hi|]. rewrite Hd. kstep R1.
      assert (either_copyin false src m s1 e = Ret (0, l) s1 e) as Rc.
      { unfold either_copyin. kstep (curr_proc_run s1 e 0); [rewrite F1; apply (room_weaken 3); [apply (tr_ready _ _ _ _ _ Ht) | lia]|].
        rewrite bind_gets, u32_small by lia. unfold ret, l. rewrite F1. done. }
      kstep Rc. cbn [fst snd Z.eqb]. kstep R2. kstep R3. kstep R4. rewrite (u64_small (src + m)), (u32_small (off + m)), (u32_small (tot + m)) by lia.
      rewrite R'. do 2 f_equal. lia.
    + replace (Z.to_nat (n - tot)) with (Z.to_nat m + Z.to_nat (n - (tot + m)))%nat by lia. rewrite load_bytes_split. apply (overwritten_app _ (view D s4)); [done | exact O4|].
      fold l. rewrite Hll. replace (Z.of_nat (Z.to_nat m)) with m by lia. by rewrite Em4 in O'.
    + intros j c Hj Hc. destruct (decide (j < off + m)) as [Hjm|Hjm]; [|apply (L' j); [lia | done]].
      apply (ts_mono _ _ X'). assert (j / BSIZE = off / BSIZE) as E by (unfold BSIZE in *; zmod). rewrite E in Hc. assert (c = a) as -> by congruence. done.
Qed.

(** [iupdate] changes the block of the inode only. *)
Lemma iupdate_run k s e jp :
  let ib := IBLOCK (i_inum jp) (k_sb s) in
  trans D p pr (S k) s -> k_itable s !! i = Some jp -> i_dev jp = D -> 0 <= ib < 2 ^ 31 -> outside (k_log s) ib ->
  exists s', iupdate i s e = Ret tt s' e /\ trans D p pr k s' /\ txn_step s s' /\ (ib ∈ logged (k_log s')) /\
    forall n, view D s' n = if n =? ib then store_dinode (dinode_off (i_inum jp)) jp (view D s ib) else view D s n.
Proof.
  intros ib Ht Hi Hd Hr Ho.
  destruct (txn_write k s e ib (store_dinode (dinode_off (i_inum jp)) jp) Ht Hr Ho) as (bp & s1 & s2 & s3 & s4 & R1 & R2 & R3 & R4 & F1 & Ht4 & X4 & I4 & V4).
  exists s4. split; [|done]. unfold iupdate. kstep get_inode_run; [exact Hi|]. rewrite bind_gets. fold ib. rewrite Hd. kstep R1.
  kstep get_inode_run; [rewrite F1; exact Hi|]. kstep R2. kstep R3. exact R4.
Qed.

Lemma trans_itable k s T : trans D p pr k s -> trans D p pr k (set_k_itable T s).
Proof. intros [[] ? [ord []] ? ? ? ? ? ?]. split; try done. by exists ord. Qed.

(** The conditions under which [n] bytes at [off] of the file can be written in the running transaction. *)
Record can_write (s : kernel) (off n : Z) : Prop := CanWrite {
  cw_trans : trans D p pr (Z.to_nat (n / BSIZE) + 3) s;
  cw_inode : k_itable s !! i = Some ip;
  cw_dev : i_dev ip = D;
  cw_fits : inode_fits ip;
  cw_differ : blocks_differ ip;
  cw_range : 0 <= off <= i_size ip /\ 0 <= n /\ off + n <= MAXFILE * BSIZE;
  cw_blocks : blocks_ok (view D s) ip off n;
  cw_log : loggable (k_log s) off n;
  cw_iblock : let ib := IBLOCK (i_inum ip) (k_sb s) in
    0 < ib < 2 ^ 31 /\ outside (k_log s) ib /\ length (view D s ib) = Z.to_nat BSIZE /\ ib ∉ i_addrs ip
}.

(** The inode after the write. *)
Definition extended (off n : Z) : inode := set_i_size (Z.max (i_size ip) (off + n)) ip.

Lemma extended_fits off n : inode_fits ip -> 0 <= off + n < 2 ^ 32 -> inode_fits (extended off n).
Proof. intros (F16 & F32 & F8 & Fl) H. split; [exact F16|]. split; [|by split]. cbn in *. decompose_Forall_hyps. unfold in32 in *. repeat constructor; try done; lia. Qed.

(** The state after a write: the bytes [l] at [off], the inode in memory and on its block. *)
Record has_written (s : kernel) (off : Z) (l : list Z) (s' : kernel) : Prop := HasWritten {
  hw_trans : trans D p pr 0 s';
  hw_frame : s' = set_k_itable (<[i := extended off (Z.of_nat (length l))]> (k_itable s)) (wset (k_log s') (k_bufs s') (k_procs s') s);
  hw_byte j : 0 <= j -> file_byte (view D s') ip j = if (off <=? j) && (j <? off + Z.of_nat (length l)) then nth (Z.to_nat (j - off)) l 0 else file_byte (view D s) ip j;
  hw_len b : length (view D s' b) = length (view D s b);
  hw_flags : lg_outstanding (k_log s') = lg_outstanding (k_log s) /\ lg_committing (k_log s') = lg_committing (k_log s);
  hw_logged b : b ∉ logged (k_log s') -> view D s' b = view D s b;
  hw_recorded b : b = IBLOCK (i_inum ip) (k_sb s) \/ (exists j, off <= j < off + Z.of_nat (length l) /\ i_addrs ip !! Z.to_nat (j / BSIZE) = Some b) -> b ∈ logged (k_log s');
  hw_inode : let ib := IBLOCK (i_inum ip) (k_sb s) in
    view D s' ib = store_dinode (dinode_off (i_inum ip)) (extended off (Z.of_nat (length l))) (view D s ib)
}.

Lemma writei_run s e src off n : can_write s off n -> 0 <= src -> src + n < 2 ^ 64 ->
  exists s', writei i false src off n s e = Ret n s' e /\ has_written s off (load_bytes (k_mem s) src (Z.to_nat n)) s'.
Proof.
  intros [Ht Hi Hd Hfit Hdf (Ho & Hn & Hmax) Hb Hlg (Hib & Hibo & Hibl & Hiba)] Hs Hsn. set (ib := IBLOCK (i_inum ip) (k_sb s)) in *.
  change (MAXFILE * BSIZE) with 274432 in Hmax.
  destruct (writei_loop_run (Z.to_nat (n / BSIZE) + 2) 1 s e src off n 0) as (s1 & R1 & Ht1 & X1 & O1 & L1); rewrite ?Z.sub_0_r in *; try done; try lia.
  { by replace (1 + (Z.to_nat (n / BSIZE) + 2))%nat with (Z.to_nat (n / BSIZE) + 3)%nat by lia. }
  { right. unfold BSIZE. pose proof (Z.mod_pos_bound off 1024 ltac:(lia)). pose proof (Z.div_mod n 1024 ltac:(lia)).
    pose proof (Z.mod_pos_bound n 1024 ltac:(lia)). pose proof (Z.div_pos n 1024 ltac:(lia) ltac:(lia)). lia. }
  set (l := load_bytes (k_mem s) src (Z.to_nat n)) in *. assert (Z.of_nat (length l) = n) as Hl by (unfold l; rewrite length_load_bytes; lia).
  set (jp := extended off n). set (s2 := set_k_itable (<[i := jp]> (k_itable s)) s1).
  assert (k_itable s1 = k_itable s /\ k_sb s1 = k_sb s) as [Ei1 Eb1] by (rewrite (ts_frame _ _ X1); done).
  assert (k_itable s2 !! i = Some jp) as Hi2 by (apply list_lookup_insert_eq; by apply lookup_lt_Some in Hi).
  destruct (iupdate_run 0 s2 e jp) as (s3 & R3 & Ht3 & X3 & I3 & V3); try done; cbn [k_sb s2 set_k_itable i_inum jp extended set_i_size]; rewrite ?Eb1; fold ib.
  { by apply trans_itable. } { lia. } { unfold outside in *. cbn. by rewrite (ts_start _ _ X1). }
  cbn [k_sb s2 set_k_itable i_inum jp extended set_i_size] in V3, I3. rewrite Eb1 in V3, I3. fold ib jp in V3. fold ib in I3.
  change (view D s2) with (view D s1) in V3.
  assert (view D s1 ib = view D s ib) as Vib.
  { apply (ow_block _ _ _ _ _ O1). intros j Hj E. rewrite Hl in Hj. destruct (Hb j Hj) as (a & Ha & _). rewrite (nth_lookup_Some _ _ 0 a Ha) in E.
    subst a. apply Hiba. by eapply list_elem_of_lookup_2. }
  assert (forall j, nth (Z.to_nat (j / BSIZE)) (i_addrs ip) 0 <> ib) as Hnib.
  { intros j E. destruct (i_addrs ip !! Z.to_nat (j / BSIZE)) as [x|] eqn:Hx.
    - rewrite (nth_lookup_Some _ _ 0 x Hx) in E. subst x. apply Hiba. by eapply list_elem_of_lookup_2.
    - rewrite nth_overflow in E by (by apply lookup_ge_None). lia. }
  exists s3. split.
  - unfold writei. kstep get_inode_run; [exact Hi|]. rewrite (u32_small (off + n)) by lia.
    rewrite (proj2 (Z.ltb_ge (i_size ip) off)), (proj2 (Z.ltb_ge (off + n) off)) by lia. cbn [orb].
    rewrite (proj2 (Z.ltb_ge (MAXFILE * BSIZE) (off + n))) by (change (MAXFILE * BSIZE) with 274432; lia).
    replace (Z.to_nat (n / BSIZE) + 3)%nat with (S (Z.to_nat (n / BSIZE) + 2)) by lia. kstep R1. kstep get_inode_run; [rewrite Ei1; exact Hi|]. cbn [fst snd].
    assert (when (i_size ip <? off + n) (upd_inode i (set_i_size (off + n))) s1 e = Ret tt s2 e) as R2.
    { unfold s2, jp, extended. destruct (Z.ltb_spec (i_size ip) (off + n)) as [Hlt|Hge]; cbn [when].
      - rewrite (upd_inode_run i _ ip) by (by rewrite Ei1). by rewrite Ei1, Z.max_r by lia.
      - rewrite Z.max_l by lia. unfold ret. f_equal. rewrite list_insert_id by (rewrite Hi; f_equal; by destruct ip). rewrite <- Ei1. by destruct s1. }
    kstep R2. kstep R3. unfold ret. f_equal. apply s32_small. lia.
  - split.
    + done.
    + rewrite Hl. fold jp. rewrite (ts_frame _ _ X3). unfold s2. rewrite (ts_frame _ _ X1). done.
    + intros j Hj. rewrite <- (ow_byte _ _ _ _ _ O1 j Hj). unfold file_byte. rewrite V3. by rewrite (proj2 (Z.eqb_neq _ _) (Hnib j)).
    + intros b. rewrite V3. destruct (Z.eqb_spec b ib) as [->|]; [|apply (ow_len _ _ _ _ _ O1)]. rewrite Vib.
      destruct (dinode_store_load (dinode_off (i_inum ip)) jp jp (view D s ib)) as (_ & E & _); [rewrite Hibl; exact (dinode_off_fits _) | apply extended_fits; (done || lia) | exact E].
    + destruct (ts_flags _ _ X1), (ts_flags _ _ X3). cbn in *. split; congruence.
    + intros b Hnb. rewrite V3. destruct (Z.eqb_spec b ib) as [->|Hne]; [done|]. apply (ts_view _ _ X1). intros Hb1. apply Hnb. by apply (ts_mono _ _ X3).
    + intros b [->|(j & Hj & Hjb)]; [done|]. apply (ts_mono _ _ X3). apply (L1 j); [lia | done].
    + cbv zeta. rewrite Hl. fold ib jp. by rewrite V3, Z.eqb_refl, Vib.
Qed.
End writei.

(** C27: writei inside a transaction, from kernel memory into blocks the file already
    has among its direct ones, stores the bytes across block boundaries and leaves its
    other bytes alone, sets the size to the end of the write if that is larger, in
    memory and in the inode's block, changes no block that is not in the log and nothing
    on the disk, and readi returns the bytes. *)
Theorem writei_correct {DD : DiskDriver} (D : Z) p pr i ip s e src off n :
  can_write D p pr i ip s off n -> 0 <= src -> src + n < 2 ^ 64 ->
  exists s', writei i false src off n s e = Ret n s' e /\ k_disk s' = k_disk s /\
    has_written D p pr i ip s off (load_bytes (k_mem s) src (Z.to_nat n)) s' /\
    (forall jp, load_dinode (dinode_off (i_inum ip)) (view D s' (IBLOCK (i_inum ip) (k_sb s))) jp =
       set_i_dev (i_dev jp) (set_i_inum (i_inum jp) (set_i_ref (i_ref jp) (set_i_valid (i_valid jp) (set_i_lock (i_lock jp) (extended ip off n)))))) /\
    forall dst, 0 <= dst -> dst + n < 2 ^ 64 ->
      exists s2, readi i false dst off n s' e = Ret n s2 e /\ forall j, 0 <= j < n -> k_mem s2 (dst + j) = k_mem s (src + j).
Proof.
  intros Hcw Hs Hsn. destruct (writei_run D p pr i ip s e src off n Hcw Hs Hsn) as (s' & R & H). exists s'. split; [exact R|].
  destruct Hcw as [_ Hi Hd Hfit _ (Ho & Hn & Hmax) Hb _ (Hib & _ & Hibl & _)]. change (MAXFILE * BSIZE) with 274432 in Hmax.
  set (l := load_bytes (k_mem s) src (Z.to_nat n)) in *. assert (Z.of_nat (length l) = n) as Hl by (unfold l; rewrite length_load_bytes; lia).
  assert (k_disk s' = k_disk s /\ k_itable s' = <[i := extended ip off n]> (k_itable s)) as [Ed Ei] by (rewrite (hw_frame _ _ _ _ _ _ _ _ _ H), Hl; done).
  split; [done|]. split; [done|]. split.
  - intros jp. rewrite (hw_inode _ _ _ _ _ _ _ _ _ H), Hl. apply dinode_store_load; [rewrite Hibl; exact (dinode_off_fits _) | apply extended_fits; (done || lia)].
  - intros dst Hdst Hdn. assert (Z.min n (i_size (extended ip off n) - off) = n) as Emin by (unfold extended; cbn; lia).
    destruct (readi_run D p pr i (extended ip off n) s' s' e dst off n) as (s2 & R2 & H2); try done; try (unfold extended; cbn; lia).
    + apply (trans_session D p pr 0). apply H.
    + rewrite Ei. apply list_lookup_insert_eq. by apply lookup_lt_Some in Hi.
    + unfold extended. cbn. destruct Hfit as (_ & F32 & _). apply Forall_inv in F32. unfold in32 in F32. lia.
    + rewrite Emin. intros k Hk. destruct (Hb k Hk) as (a & ? & ? & ? & ?). exists a. by rewrite (hw_len _ _ _ _ _ _ _ _ _ H).
    + rewrite Emin in R2, H2. exists s2. split; [exact R2|]. intros j Hj. destruct H2 as (_ & M2 & _). rewrite M2, store_bytes_in by (rewrite length_file_bytes; lia).
      replace (dst + j - dst) with j by lia. unfold file_bytes. rewrite (nth_lookup_Some _ _ _ (file_byte (view D s') ip (off + j))).
      2:{ rewrite list_lookup_fmap, lookup_seq_lt by lia. cbn. do 2 f_equal. lia. }
      rewrite (hw_byte _ _ _ _ _ _ _ _ _ H) by lia. rewrite Hl. destruct (Z.leb_spec off (off + j)), (Z.ltb_spec (off + j) (off + n)); try lia. cbn [andb].
      replace (off + j - off) with j by lia. unfold l. rewrite nth_load_bytes by lia. f_equal. lia.
Qed.

(** C26: A write from kernel memory into blocks a file already has among its direct
    ones, followed by the end_op that commits it, is durable: afterwards the bytes
    written are in the file's blocks on the disk, the inode on the disk has the new size
    and is otherwise the one in memory, and the log is empty. *)
Theorem write_durable {DD : DiskDriver} (D : Z) p pr i ip s e src off n :
  can_write D p pr i ip s off n -> 0 <= src -> src + n < 2 ^ 64 -> 0 < n -> lg_outstanding (k_log s) = 1 -> lg_committing (k_log s) = false ->
  exists s', (r <- writei i false src off n ;; end_op ;; ret r) s e = Ret n s' e /\ lh_n (lg_lh (k_log s')) = 0 /\
    (forall j, off <= j < off + n -> file_byte (k_disk s') ip j = k_mem s (src + (j - off))) /\
    (forall jp, load_dinode (dinode_off (i_inum ip)) (k_disk s' (IBLOCK (i_inum ip) (k_sb s))) jp =
       set_i_dev (i_dev jp) (set_i_inum (i_inum jp) (set_i_ref (i_ref jp) (set_i_valid (i_valid jp) (set_i_lock (i_lock jp) (extended ip off n)))))).
Proof.
  intros Hcw Hs Hsn Hn0 Hout Hcm. destruct (writei_run D p pr i ip s e src off n Hcw Hs Hsn) as (s1 & R & H).
  destruct Hcw as [_ Hi Hd Hfit _ (Ho & Hn & Hmax) Hb _ (Hib & _ & Hibl & _)]. change (MAXFILE * BSIZE) with 274432 in Hmax. set (ib := IBLOCK (i_inum ip) (k_sb s)) in *.
  set (l := load_bytes (k_mem s) src (Z.to_nat n)) in *. assert (Z.of_nat (length l) = n) as Hl by (unfold l; rewrite length_load_bytes; lia).
  destruct (hw_flags _ _ _ _ _ _ _ _ _ H) as [Ho1 Hc1]. pose proof (hw_trans _ _ _ _ _ _ _ _ _ H) as Ht1. pose proof (hw_recorded _ _ _ _ _ _ _ _ _ H) as Hin.
  assert (ib ∈ logged (k_log s1)) as Hibin by (apply Hin; by left). pose proof (tr_wf _ _ _ _ _ Ht1) as Hw1.
  destruct (end_op_commits D p pr s1 e) as (s2 & R2 & L2 & _ & D2 & _); [by apply (trans_session D p pr 0) | apply Ht1 | done | | congruence | congruence |].
  { pose proof (length_logged _ _ Hw1) as Hll. destruct (logged (k_log s1)); [by apply elem_of_nil in Hibin | cbn in Hll; lia]. }
  destruct (commit_effect D (k_log s1) (view D s1) Hw1 (k_disk s1)) as [E1 _]. exists s2. split_and!.
  - kstep R. kstep R2. done.
  - by rewrite L2.
  - intros j Hj. destruct (Hb j Hj) as (a & Ha & _). unfold file_byte. rewrite (nth_lookup_Some _ _ 0 a Ha), D2, E1 by (apply Hin; right; exists j; by rewrite Hl).
    pose proof (hw_byte _ _ _ _ _ _ _ _ _ H j ltac:(lia)) as Hbyte. unfold file_byte in Hbyte. rewrite (nth_lookup_Some _ _ 0 a Ha), Hl in Hbyte. rewrite Hbyte.
    destruct (Z.leb_spec off j), (Z.ltb_spec j (off + n)); try lia. cbn [andb]. unfold l. rewrite nth_load_bytes by lia. f_equal. lia.
  - intros jp. rewrite D2, E1 by done. unfold ib. rewrite (hw_inode _ _ _ _ _ _ _ _ _ H), Hl. apply dinode_store_load; [fold ib; rewrite Hibl; exact (dinode_off_fits _) | apply extended_fits; (done || lia)].
Qed.

(** A transaction that has not written yet. *)
Definition log_empty : logst := Mk_logst 2 31 1 false 1 (Mk_logheader 0 (zeros 30)).

(** The file of block 40 in a transaction; its inode is in block 33. *)
Lemma boot_write : exists s, can_write 1 0 proc0 0 file40 s 10 200 /\ lg_outstanding (k_log s) = 1 /\ lg_committing (k_log s) = false.
Proof.
  set (s0 := set_k_disk (fun n => replicate (Z.to_nat BSIZE) n) (set_k_itable (<[0%nat := file40]> (k_itable boot0))
    (set_k_log log_empty (set_k_sb (Mk_superblock 0 1000 0 0 30 2 33 0) boot0)))).
  destruct (session_boot 1 0 proc0 s0 []) as (B & _ & Hs & Hv & Hz); [done | reflexivity | |].
  { destruct boot0_ready. split; assumption. }
  set (s := set_k_bufs B s0) in *. exists s. assert (forall j, (j < NBUF)%nat -> exists b, B !! j = Some b /\ b_refcnt b = 0) as Hall.
  { intros j Hj. destruct (se_ref _ _ _ _ _ _ Hs j Hj) as (b & _ & Hb & _). exists b. split; [exact Hb|]. by apply (Hz j b). }
  split; [|done]. split; try reflexivity.
  - split; try reflexivity.
    + apply Hs.
    + apply Hs.
    + change (k_log s) with log_empty. split; [reflexivity | by vm_compute | reflexivity | by vm_compute | constructor].
    + change (k_log s) with log_empty. by vm_compute.
    + intros j b Hj Hb. destruct (Hz j b Hb) as [-> _]. reflexivity.
    + exists (seq 0 5). split; [apply NoDup_ListNoDup, seq_NoDup|]. split; [reflexivity|]. intros u Hu. apply elem_of_seq in Hu.
      assert (u < NBUF)%nat as Hlt by (unfold NBUF; lia). split; [done|]. by apply Hall.
    + intros bn Hbn. by apply elem_of_nil in Hbn.
  - split_and!; [repeat constructor..|reflexivity]; vm_compute; (done || split; done).
  - intros q r a Hq Hr Ha. assert (forall q, i_addrs file40 !! q = Some a -> q = 0%nat) as Hu.
    { intros [|q'] Hq'; [done|]. exfalso. apply Ha. change (replicate 12 0 !! q' = Some a) in Hq'. by apply lookup_replicate in Hq' as [-> _]. }
    by rewrite (Hu q Hq), (Hu r Hr).
  - by vm_compute.
  - intros k Hk. exists 40. unfold s. rewrite Hv. replace (k / BSIZE) with 0 by (symmetry; apply Z.div_small; unfold BSIZE; lia). done.
  - intros j a Hj Ha. replace (j / BSIZE) with 0 in Ha by (symmetry; apply Z.div_small; unfold BSIZE; lia). injection Ha as <-. split; [lia | right; reflexivity].
  - cbv zeta. change (IBLOCK (i_inum file40) (k_sb s)) with 33. split_and!; [lia | lia | right; reflexivity | unfold s; rewrite Hv; reflexivity |].
    intros Hin. repeat (apply elem_of_cons in Hin as [Hin|Hin]; [discriminate Hin|]). by apply elem_of_nil in Hin.
Qed.

Lemma writei_correct_witness : exists s s' s2, writei (DD := polled_disk) 0 false 4096 10 200 s [] = Ret 200 s' [] /\
  readi (DD := polled_disk) 0 false 8192 10 200 s' [] = Ret 200 s2 [] /\ k_mem s2 8195 = k_mem s 4099.
Proof.
  destruct boot_write as (s & H & _). destruct (writei_correct (DD := polled_disk) 1 0 proc0 0 file40 s [] 4096 10 200 H) as (s' & R & _ & _ & _ & Hr).
  - lia.
  - lia.
  - destruct (Hr 8192) as (s2 & R2 & M); [lia | lia |]. exists s, s', s2. split; [exact R|]. split; [exact R2|]. exact (M 3 ltac:(lia)).
Defined.

Lemma write_durable_witness : exists s s', (r <- writei (DD := polled_disk) 0 false 4096 10 200 ;; end_op (DD := polled_disk) ;; ret r) s [] = Ret 200 s' [] /\
  file_byte (k_disk s') file40 12 = k_mem s 4098.
Proof.
  destruct boot_write as (s & H & Ho & Hc). destruct (write_durable (DD := polled_disk) 1 0 proc0 0 file40 s [] 4096 10 200 H) as (s' & R & _ & Hb & _).
  - lia.
  - lia.
  - lia.
  - exact Ho.
  - exact Hc.
  - exists s, s'. split; [exact R|]. exact (Hb 12 ltac:(lia)).
Defined.
