(* ===== verification/File.v ===== *)
(** * Open files ([file.cpp], [pipe.cpp]'s [pipealloc], the device switch)

    The table of open files: a slot is in use while its reference count is
    positive.  [read], [write], [stat] and [close] dispatch on the slot's type
    to the pipe, device and inode operations. *)

From S2P Require Import Prelude State Riscv Cstring Lock Sched Kalloc UserCopy Pipe Console Bio Log Fs.

Definition get_file (i : nat) : M file := l <- gets k_ftable ;; of_option "ftable" (l !! i).
Definition upd_file (i : nat) (f : file -> file) : M unit :=
  fl <- get_file i ;; modify (fun s => set_k_ftable (<[i := f fl]> (k_ftable s)) s).

(** [major], [minor] and [mkdev] of [file.h]. *)
Definition major (dev : Z) : Z := Z.land (Z.shiftr dev 16) 0xFFFF.
Definition minor (dev : Z) : Z := Z.land dev 0xFFFF.
Definition mkdev (m n : Z) : Z := Z.lor (u32 (Z.shiftl m 16)) n.

(** [devsw[major].read], when the index and the pointer pass the tests. *)
Definition dev_reader (major : Z) : M (option dev_read_fn) :=
  if (major <? 0) || (Z.of_nat NDEV <=? major) then ret None
  else l <- gets k_devsw ;; d <- of_option "devsw" (l !! Z.to_nat major) ;; ret (dv_read d).
Definition dev_writer (major : Z) : M (option dev_write_fn) :=
  if (major <? 0) || (Z.of_nat NDEV <=? major) then ret None
  else l <- gets k_devsw ;; d <- of_option "devsw" (l !! Z.to_nat major) ;; ret (dv_write d).

Definition alloc : M (option nat) :=
  acquire L_ftable ;;
  l <- gets k_ftable ;;
  match find_idx (fun f => f_ref f =? 0) l with
  | Some i => upd_file i (set_f_ref 1) ;; release L_ftable ;; ret (Some i)
  | None => release L_ftable ;; ret None
  end.

Definition dup (f : nat) : M nat :=
  acquire L_ftable ;;
  fl <- get_file f ;;
  if f_ref fl <? 1 then panic "file::dup"
  else upd_file f (fun fl => set_f_ref (f_ref fl + 1) fl) ;; release L_ftable ;; ret f.

(** The bytes of a [struct stat]; [pad] are the four bytes between [nlink] and [size]. *)
Definition stat_bytes (pad : list Z) (st : stat) : list Z :=
  le_bytes 4 (st_dev st) ++ le_bytes 4 (st_ino st) ++ le_bytes 2 (st_type st) ++ le_bytes 2 (st_nlink st) ++
  pad ++ le_bytes 8 (st_size st) ++ le_bytes 4 (st_uid st) ++ le_bytes 4 (st_gid st).

(** The bytes [file::write] hands to one transaction. *)
Definition write_max : Z := (MAXOPBLOCKS - 1 - 1 - 2) / 2 * BSIZE.

Section file.
Context {DD : DiskDriver}.

Definition close (f : nat) : M unit :=
  acquire L_ftable ;;
  fl <- get_file f ;;
  if f_ref fl <? 1 then panic "file::close"
  else
    upd_file f (fun fl => set_f_ref (f_ref fl - 1) fl) ;;
    ff <- get_file f ;;
    if 0 <? f_ref ff then release L_ftable
    else
      upd_file f (set_f_ref 0) ;;
      upd_file f (set_f_type FD_NONE) ;;
      release L_ftable ;;
      match f_type ff with
      | FD_PIPE => pipeclose (f_pipe ff) (f_writable ff)
      | FD_INODE | FD_DEVICE =>
          begin_op ;;
          ip <- of_option "ff.ip" (f_ip ff) ;;
          iput ip ;;
          end_op
      | FD_NONE => ret tt
      end.

Definition fstat (pad : list Z) (f : nat) (addr : Z) : M Z :=
  fl <- get_file f ;;
  match f_type fl with
  | FD_INODE | FD_DEVICE =>
      ilock (f_ip fl) ;;
      i <- of_option "f->ip" (f_ip fl) ;;
      ip <- get_inode i ;;
      iunlock (f_ip fl) ;;
      pt <- my_pagetable ;;
      ok <- copyout pt addr (stat_bytes pad (stati ip)) 32 ;;
      if negb ok then ret (-1) else ret 0
  | _ => ret (-1)
  end.

Definition read (f : nat) (addr n : Z) : M Z :=
  fl <- get_file f ;;
  if negb (f_readable fl) then ret (-1)
  else
    match f_type fl with
    | FD_PIPE => r <- piperead (f_pipe fl) addr n ;; ret (s32 r)
    | FD_DEVICE =>
        d <- dev_reader (f_major fl) ;;
        match d with
        | None => ret (-1)
        | Some console_read => Console.read true addr n
        end
    | FD_INODE =>
        ilock (f_ip fl) ;;
        i <- of_option "f->ip" (f_ip fl) ;;
        fl <- get_file f ;;
        r <- readi i true addr (f_off fl) (u32 n) ;;
        when (0 <? s32 r) (upd_file f (fun fl => set_f_off (u32 (f_off fl + s32 r)) fl)) ;;
        iunlock (f_ip fl) ;;
        ret (s32 r)
    | FD_NONE => panic "file::read"
    end.

(** The loop of [write]: [i] bytes written so far. *)
Fixpoint write_loop (fuel : nat) (f : nat) (addr n i : Z) : M Z :=
  match fuel with
  | O => fun _ _ => NoFuel
  | S fuel' =>
      if i <? n then
        let n1 := if write_max <? n - i then write_max else n - i in
        begin_op ;;
        fl <- get_file f ;;
        ilock (f_ip fl) ;;
        ip <- of_option "f->ip" (f_ip fl) ;;
        fl <- get_file f ;;
        r <- writei ip true (u64 (addr + i)) (f_off fl) n1 ;;
        when (0 <? r) (upd_file f (fun fl => set_f_off (u32 (f_off fl + r)) fl)) ;;
        iunlock (f_ip fl) ;;
        end_op ;;
        if negb (r =? n1) then ret i else write_loop fuel' f addr n (i + r)
      else ret i
  end.

Definition write (f : nat) (addr n : Z) : M Z :=
  fl <- get_file f ;;
  if negb (f_writable fl) then ret (-1)
  else
    match f_type fl with
    | FD_PIPE => r <- pipewrite (f_pipe fl) addr n ;; ret (s32 r)
    | FD_DEVICE =>
        d <- dev_writer (f_major fl) ;;
        match d with
        | None => ret (-1)
        | Some console_write => Console.write true addr n
        end
    | FD_INODE =>
        i <- write_loop (Z.to_nat (n / write_max) + 2) f addr n 0 ;;
        ret (if i =? n then n else -1)
    | FD_NONE => panic "filewrite"
    end.

(** [bad:] in [pipealloc], reached with no pipe object; then the result is -1. *)
Definition pipealloc_bad (f0 f1 : option nat) : M Z :=
  match f0 with Some f => close f | None => ret tt end ;;
  match f1 with Some f => close f | None => ret tt end ;;
  ret (-1).

(** The pipe object is a slot of the file table, an array element smaller than a
    [struct pipe]: writing its fields is undefined behaviour. *)
Definition pipealloc : M (Z * option nat * option nat) :=
  f0 <- alloc ;;
  match f0 with
  | None => r <- pipealloc_bad None None ;; ret (r, None, None)
  | Some _ =>
      f1 <- alloc ;;
      match f1 with
      | None => r <- pipealloc_bad f0 None ;; ret (r, f0, None)
      | Some _ =>
          pi <- alloc ;;
          match pi with
          | None => r <- pipealloc_bad f0 f1 ;; ret (r, f0, f1)
          | Some _ => undef "pipealloc: pipe object outside its slot"
          end
      end
  end.

End file.

(** [console::init] after the UART is set up: the console's entry of the switch. *)
Definition CONSOLE : nat := 1.
Definition set_devsw : M unit :=
  modify (fun s => set_k_devsw (<[CONSOLE := Mk_devsw (Some console_read) (Some console_write)]> (k_devsw s)) s).

(** ** The table *)

Lemma get_file_run i fl s e : k_ftable s !! i = Some fl -> get_file i s e = Ret fl s e.
Proof. intros H. unfold get_file. rewrite bind_gets, H. done. Qed.

Lemma upd_file_run i f fl s e :
  k_ftable s !! i = Some fl -> upd_file i f s e = Ret tt (set_k_ftable (<[i := f fl]> (k_ftable s)) s) e.
Proof. intros H. unfold upd_file. kstep get_file_run; [done|]. done. Qed.

(** The state after a critical section of the table that left slot [i] as [fl]. *)
Definition set_slot (i : nat) (fl : file) (s : kernel) : kernel :=
  set_k_hl (bal (k_hl s)) (set_k_ftable (<[i := fl]> (k_ftable s)) s).

(** The last statements of a critical section: one update and the release. *)
Lemma ftable_section {A} i f fl (r : A) s e :
  room 1 (k_hl s) -> free L_ftable (k_hl s) -> k_ftable s !! i = Some fl ->
  bind (upd_file i f) (fun _ => bind (release L_ftable) (fun _ => ret r)) (set_k_hl (acq L_ftable (k_hl s)) s) e =
  Ret r (set_slot i (f fl) s) e.
Proof.
  intros Hr Hf Hi. kstep upd_file_run; [exact Hi|].
  kstep (release_acq_run L_ftable (k_hl s)); [reflexivity | done | done |]. by destruct s.
Qed.

Definition slot_free (f : file) : bool := f_ref f =? 0.

Lemma alloc_some i fl s e :
  room 1 (k_hl s) -> free L_ftable (k_hl s) -> find_idx slot_free (k_ftable s) = Some i -> k_ftable s !! i = Some fl ->
  alloc s e = Ret (Some i) (set_slot i (set_f_ref 1 fl) s) e.
Proof.
  intros Hr Hf Hi Hfl. unfold alloc. kstep acquire_run; [done | done |]. rewrite bind_gets. cbn [k_ftable set_k_hl].
  change (find_idx (fun f => f_ref f =? 0)) with (find_idx slot_free). rewrite Hi.
  exact (ftable_section i (set_f_ref 1) fl (Some i) s e Hr Hf Hfl).
Qed.

Lemma alloc_none s e :
  room 1 (k_hl s) -> free L_ftable (k_hl s) -> find_idx slot_free (k_ftable s) = None ->
  alloc s e = Ret None (set_k_hl (bal (k_hl s)) s) e.
Proof.
  intros Hr Hf Hn. unfold alloc. kstep acquire_run; [done | done |]. rewrite bind_gets. cbn [k_ftable set_k_hl].
  change (find_idx (fun f => f_ref f =? 0)) with (find_idx slot_free). rewrite Hn.
  kstep (release_acq_run L_ftable (k_hl s)); [reflexivity | done | done |]. by destruct s.
Qed.

Lemma dup_run f fl s e :
  room 1 (k_hl s) -> free L_ftable (k_hl s) -> k_ftable s !! f = Some fl -> 1 <= f_ref fl ->
  dup f s e = Ret f (set_slot f (set_f_ref (f_ref fl + 1) fl) s) e.
Proof.
  intros Hr Hf Hfl H1. unfold dup. kstep acquire_run; [done | done |]. kstep get_file_run; [exact Hfl|].
  rewrite (proj2 (Z.ltb_ge _ _)) by lia. exact (ftable_section f (fun fl => set_f_ref (f_ref fl + 1) fl) fl f s e Hr Hf Hfl).
Qed.

(** A reference dropped while others remain. *)
Lemma close_shared {DD : DiskDriver} f fl s e :
  room 1 (k_hl s) -> free L_ftable (k_hl s) -> k_ftable s !! f = Some fl -> 2 <= f_ref fl ->
  close f s e = Ret tt (set_slot f (set_f_ref (f_ref fl - 1) fl) s) e.
Proof.
  intros Hr Hf Hfl H2. unfold close. kstep acquire_run; [done | done |]. kstep get_file_run; [exact Hfl|].
  rewrite (proj2 (Z.ltb_ge _ _)) by lia. kstep upd_file_run; [exact Hfl|]. kstep get_file_run.
  { cbn. apply list_lookup_insert_eq. by apply lookup_lt_Some in Hfl. }
  cbn [f_ref set_f_ref]. rewrite (proj2 (Z.ltb_lt _ _)) by lia.
  rewrite (release_acq_run L_ftable (k_hl s)); [|reflexivity | done | done]. by destruct s.
Qed.

(** The last reference to a slot that names no object. *)
Lemma close_none {DD : DiskDriver} f fl s e :
  room 1 (k_hl s) -> free L_ftable (k_hl s) -> k_ftable s !! f = Some fl -> f_ref fl = 1 -> f_type fl = FD_NONE ->
  close f s e = Ret tt (set_slot f (set_f_ref 0 fl) s) e.
Proof.
  intros Hr Hf Hfl H1 Ht. assert (f < length (k_ftable s))%nat as Hlt by (by apply lookup_lt_Some in Hfl).
  unfold close. kstep acquire_run; [done | done |]. kstep get_file_run; [exact Hfl|].
  rewrite (proj2 (Z.ltb_ge _ _)) by lia. kstep upd_file_run; [exact Hfl|]. kstep get_file_run.
  { cbn. by apply list_lookup_insert_eq. }
  cbn [f_ref set_f_ref]. rewrite (proj2 (Z.ltb_ge _ _)) by lia.
  kstep upd_file_run; [cbn; by apply list_lookup_insert_eq|]. cbn [k_ftable set_k_ftable set_k_hl].
  kstep upd_file_run; [cbn; apply list_lookup_insert_eq; by rewrite length_insert|].
  kstep (release_acq_run L_ftable (k_hl s)); [reflexivity | done | done |]. cbn [f_type set_f_ref]. rewrite Ht.
  unfold ret, set_slot. cbn. rewrite !list_insert_insert_eq.
  destruct fl; cbn in *; subst. by destruct s.
Qed.

Lemma set_slot_hl i fl s : k_hl (set_slot i fl s) = bal (k_hl s).
Proof. done. Qed.

Lemma set_slot_same i fl fl' s n :
  room n (k_hl s) -> set_slot i fl (set_slot i fl' s) = set_slot i fl s.
Proof. intros [H _]. unfold set_slot. cbn. by rewrite bal_idem, list_insert_insert_eq. Qed.

(** ** Properties *)

Lemma set_f_ref_twice a b fl : set_f_ref a (set_f_ref b fl) = set_f_ref a fl.
Proof. by destruct fl. Qed.

(** References come and go in the critical section; the other slots are not touched. *)
Lemma dups_run k f fl s e :
  room 1 (k_hl s) -> free L_ftable (k_hl s) -> k_ftable s !! f = Some fl -> 1 <= f_ref fl ->
  for_range 0 (S k) (fun _ => dup f ;; ret tt) s e = Ret tt (set_slot f (set_f_ref (f_ref fl + Z.of_nat (S k)) fl) s) e.
Proof.
  generalize 0%nat as i. revert fl s. induction k as [|k IH]; intros fl s i Hr Hf Hfl H1; cbn [for_range];
    rewrite bind_assoc; (kstep dup_run; [done..|]); rewrite bind_ret; [done|].
  specialize (IH (set_f_ref (f_ref fl + 1) fl) (set_slot f (set_f_ref (f_ref fl + 1) fl) s) (S i)).
  cbn [for_range] in IH. rewrite IH.
  - rewrite (set_slot_same _ _ _ _ 1) by done. do 2 f_equal.
    rewrite set_f_ref_twice. f_equal. cbn [f_ref set_f_ref]. lia.
  - by apply room_bal.
  - done.
  - cbn. apply list_lookup_insert_eq. by apply lookup_lt_Some in Hfl.
  - cbn. lia.
Qed.

Lemma closes_run {DD : DiskDriver} k f fl s e :
  room 1 (k_hl s) -> free L_ftable (k_hl s) -> k_ftable s !! f = Some fl -> Z.of_nat (S k) < f_ref fl ->
  for_range 0 (S k) (fun _ => close f) s e = Ret tt (set_slot f (set_f_ref (f_ref fl - Z.of_nat (S k)) fl) s) e.
Proof.
  generalize 0%nat as i. revert fl s. induction k as [|k IH]; intros fl s i Hr Hf Hfl H1; cbn [for_range];
    (eapply eq_trans; [eapply bind_Ret, close_shared; [done | done | exact Hfl | lia] | cbv beta]); [done|].
  specialize (IH (set_f_ref (f_ref fl - 1) fl) (set_slot f (set_f_ref (f_ref fl - 1) fl) s) (S i)).
  cbn [for_range] in IH. rewrite IH.
  - rewrite (set_slot_same _ _ _ _ 1) by done. do 2 f_equal.
    rewrite set_f_ref_twice. f_equal. cbn [f_ref set_f_ref]. lia.
  - by apply room_bal.
  - done.
  - cbn. apply list_lookup_insert_eq. by apply lookup_lt_Some in Hfl.
  - cbn. lia.
Qed.

(** References to a file taken with dup and dropped with close cancel out. *)
Theorem dup_close_balanced {DD : DiskDriver} k f fl s e :
  room 1 (k_hl s) -> free L_ftable (k_hl s) -> k_ftable s !! f = Some fl -> 1 <= f_ref fl ->
  (for_range 0 (S k) (fun _ => dup f ;; ret tt) ;; for_range 0 (S k) (fun _ => close f)) s e =
  Ret tt (set_k_hl (bal (k_hl s)) s) e.
Proof.
  intros Hr Hf Hfl H1. kstep dups_run; [done..|].
  rewrite (closes_run _ _ (set_f_ref (f_ref fl + Z.of_nat (S k)) fl)).
  - rewrite (set_slot_same _ _ _ _ 1) by done. unfold set_slot. cbn [f_ref set_f_ref].
    replace (f_ref fl + Z.of_nat (S k) - Z.of_nat (S k)) with (f_ref fl) by lia.
    replace (set_f_ref (f_ref fl) _) with fl by (by destruct fl). rewrite list_insert_id by done. by destruct s.
  - by apply room_bal.
  - done.
  - cbn. apply list_lookup_insert_eq. by apply lookup_lt_Some in Hfl.
  - cbn. lia.
Qed.

(** Slots not in use name no object. *)
Definition ftable_ok (l : list file) : Prop :=
  Forall (fun f => 0 <= f_ref f /\ (f_ref f = 0 -> f_type f = FD_NONE)) l.

Definition nfree (l : list file) : nat := length (filter (fun f => slot_free f = true) l).

Lemma find_free_split l i : find_idx slot_free l = Some i ->
  exists l1 fl l2, l = l1 ++ fl :: l2 /\ length l1 = i /\ slot_free fl = true.
Proof.
  intros (fl & Hi & Ht & _)%find_idx_Some. exists (take i l), fl, (drop (S i) l).
  split; [by rewrite take_drop_middle|]. split; [|done]. apply length_take_le. apply lookup_lt_Some in Hi. lia.
Qed.

Lemma nfree_app l1 l2 : nfree (l1 ++ l2) = (nfree l1 + nfree l2)%nat.
Proof. unfold nfree. by rewrite list.filter_app, length_app. Qed.

Lemma nfree_cons fl l : nfree (fl :: l) = ((if slot_free fl then 1 else 0) + nfree l)%nat.
Proof. unfold nfree. rewrite list.filter_cons. destruct (slot_free fl) eqn:E; case_decide; done. Qed.

Lemma nfree_none l : find_idx slot_free l = None <-> nfree l = 0%nat.
Proof.
  rewrite find_idx_None. induction l as [|fl l IH]; [done|]. setoid_rewrite Forall_cons_iff. rewrite nfree_cons, IH.
  destruct (slot_free fl); split; [intros []; done | lia | intros []; lia | intros H; split; [done | lia]].
Qed.

(** Taking the first free slot uses up one. *)
Lemma nfree_take l i fl : find_idx slot_free l = Some i -> l !! i = Some fl ->
  nfree l = S (nfree (<[i := set_f_ref 1 fl]> l)).
Proof.
  intros (l1 & fl' & l2 & -> & <- & Ht)%find_free_split Hi. rewrite list_lookup_middle in Hi by done. simplify_eq.
  rewrite insert_app_r_alt, Nat.sub_diag by done. cbn [list_insert insert]. rewrite !nfree_app, !nfree_cons, Ht. cbn. lia.
Qed.

Lemma ftable_ok_free l i fl : ftable_ok l -> find_idx slot_free l = Some i -> l !! i = Some fl ->
  f_ref fl = 0 /\ f_type fl = FD_NONE /\ ftable_ok (<[i := set_f_ref 1 fl]> l).
Proof.
  intros Hok (fl' & Hi & Ht%Z.eqb_eq & _)%find_idx_Some Hfl. rewrite Hfl in Hi. injection Hi as <-. destruct (Forall_lookup_1 _ _ _ _ Hok Hfl) as [_ H0].
  split_and!; [done | by apply H0 |]. apply Forall_insert; [done|]. cbn. lia.
Qed.

(** The state with table [l], outside the critical sections. *)
Definition with_table (l : list file) (s : kernel) : kernel := set_k_hl (bal (k_hl s)) (set_k_ftable l s).

Lemma set_slot_table i fl l s n : room n (k_hl s) -> set_slot i fl (with_table l s) = with_table (<[i := fl]> l) s.
Proof. intros [H _]. unfold set_slot, with_table. cbn. by rewrite bal_idem. Qed.

Lemma with_table_same s : with_table (k_ftable s) s = set_k_hl (bal (k_hl s)) s.
Proof. by destruct s. Qed.

(** Giving back the slot an [alloc] took. *)
Lemma alloc_close {DD : DiskDriver} i fl l s e :
  room 1 (k_hl s) -> free L_ftable (k_hl s) -> l !! i = Some (set_f_ref 1 fl) -> f_ref fl = 0 -> f_type fl = FD_NONE ->
  close i (with_table l s) e = Ret tt (with_table (<[i := fl]> l) s) e.
Proof.
  intros Hr Hf Hi H0 Ht. rewrite (close_none i (set_f_ref 1 fl)); [|by apply room_bal|done..].
  rewrite (set_slot_table _ _ _ _ 1), set_f_ref_twice by done.
  by replace (set_f_ref 0 fl) with fl by (destruct fl; cbn in *; by subst).
Qed.

Lemma alloc_table i fl l s e :
  room 1 (k_hl s) -> free L_ftable (k_hl s) -> find_idx slot_free l = Some i -> l !! i = Some fl ->
  alloc (with_table l s) e = Ret (Some i) (with_table (<[i := set_f_ref 1 fl]> l) s) e.
Proof.
  intros Hr Hf Hi Hfl. rewrite (alloc_some i fl); [|by apply room_bal|done..]. by rewrite (set_slot_table _ _ _ _ 1).
Qed.

Lemma alloc_table_none l s e :
  room 1 (k_hl s) -> free L_ftable (k_hl s) -> find_idx slot_free l = None ->
  alloc (with_table l s) e = Ret None (with_table l s) e.
Proof.
  intros Hr Hf Hn. rewrite alloc_none; [|by apply room_bal|done..]. unfold with_table. cbn. pose proof (proj1 Hr).
  by rewrite bal_idem.
Qed.

(** pipealloc never returns a pipe: with fewer than three free file slots it
    returns -1 and gives back what it took, and with three it builds the pipe object
    over a slot of the file table that is too small for it. *)
Theorem pipealloc_never_succeeds {DD : DiskDriver} s e :
  room 1 (k_hl s) -> free L_ftable (k_hl s) -> ftable_ok (k_ftable s) ->
  if (nfree (k_ftable s) <? 3)%nat then
    exists f0 f1, pipealloc s e = Ret (-1, f0, f1) (set_k_hl (bal (k_hl s)) s) e
  else pipealloc s e = Undef "pipealloc: pipe object outside its slot".
Proof.
  intros Hr Hf Hok. unfold pipealloc. rewrite <- with_table_same. set (l := k_ftable s) in *.
  destruct (find_idx slot_free l) as [i|] eqn:Ei.
  2:{ rewrite (proj1 (nfree_none _) Ei). exists None, None. rewrite (bind_Ret _ _ _ _ _ _ _ (alloc_none s e Hr Hf Ei)).
      by rewrite <- with_table_same. }
  pose proof Ei as (fi & Hi & _)%find_idx_Some. destruct (ftable_ok_free _ _ _ Hok Ei Hi) as (Ri & Ti & Hok1).
  rewrite (nfree_take _ _ _ Ei Hi), (bind_Ret _ _ _ _ _ _ _ (alloc_some i fi s e Hr Hf Ei Hi)).
  change (set_slot i (set_f_ref 1 fi) s) with (with_table (<[i := set_f_ref 1 fi]> l) s). set (l1 := <[i := set_f_ref 1 fi]> l) in *.
  assert (l1 !! i = Some (set_f_ref 1 fi)) as Hi1 by (apply list_lookup_insert_eq; by apply lookup_lt_Some in Hi).
  assert (<[i := fi]> l1 = l) as Hl1 by (unfold l1; rewrite list_insert_insert_eq; by apply list_insert_id).
  destruct (find_idx slot_free l1) as [j|] eqn:Ej.
  2:{ rewrite (proj1 (nfree_none _) Ej), (bind_Ret _ _ _ _ _ _ _ (alloc_table_none l1 s e Hr Hf Ej)). eexists _, _.
      unfold pipealloc_bad. rewrite bind_assoc. kstep (alloc_close i fi l1 s); [done..|]. by rewrite Hl1. }
  pose proof Ej as (fj & Hj & Fj & _)%find_idx_Some. destruct (ftable_ok_free _ _ _ Hok1 Ej Hj) as (Rj & Tj & Hok2).
  rewrite (nfree_take _ _ _ Ej Hj), (bind_Ret _ _ _ _ _ _ _ (alloc_table j fj l1 s e Hr Hf Ej Hj)).
  set (l2 := <[j := set_f_ref 1 fj]> l1) in *.
  assert (i <> j) as Hij by (intros ->; rewrite Hj in Hi1; injection Hi1 as ->; done).
  destruct (find_idx slot_free l2) as [k|] eqn:Ek.
  2:{ rewrite (proj1 (nfree_none _) Ek), (bind_Ret _ _ _ _ _ _ _ (alloc_table_none l2 s e Hr Hf Ek)). eexists _, _.
      unfold pipealloc_bad. rewrite bind_assoc. kstep (alloc_close i fi l2 s); [done|done|by unfold l2; rewrite list_lookup_insert_ne|done..|].
      rewrite bind_assoc. kstep (alloc_close j fj (<[i := fi]> l2) s); [done|done| |done..|].
      - rewrite list_lookup_insert_ne by done. apply list_lookup_insert_eq. by apply lookup_lt_Some in Hj.
      - rewrite bind_ret. unfold ret, l2. do 2 f_equal. rewrite (list_insert_insert_ne _ j i), list_insert_insert_eq by done.
        rewrite (list_insert_id l1 j) by done. by rewrite Hl1. }
  pose proof Ek as (fk & Hk & _)%find_idx_Some.
  by rewrite (nfree_take _ _ _ Ek Hk), (bind_Ret _ _ _ _ _ _ _ (alloc_table k fk l2 s e Hr Hf Ek Hk)).
Qed.

Lemma pipealloc_never_succeeds_witness :
  pipealloc (DD := polled_disk) boot0 [] = Undef "pipealloc: pipe object outside its slot" /\
  exists f0 f1 s', let s := set_k_ftable [file0; file0] boot0 in
    pipealloc (DD := polled_disk) s [] = Ret (-1, f0, f1) s' [] /\ k_ftable s' = k_ftable s.
Proof.
  split.
  - apply (pipealloc_never_succeeds (DD := polled_disk) boot0 []); [apply hl_run_ready; lia | vm_compute; reflexivity |].
    apply Forall_replicate. by split.
  - destruct (pipealloc_never_succeeds (DD := polled_disk) (set_k_ftable [file0; file0] boot0) []) as (f0 & f1 & H).
    + apply hl_run_ready; lia.
    + vm_compute; reflexivity.
    + repeat constructor; done.
    + eexists f0, f1, _. split; [exact H | reflexivity].
Defined.

Lemma dup_close_balanced_witness :
  let s := set_k_ftable [set_f_ref 1 file0] boot0 in
  (for_range 0 3 (fun _ => dup 0 ;; ret tt) ;; for_range 0 3 (fun _ => close (DD := polled_disk) 0)) s [] =
  Ret tt (set_k_hl (bal (k_hl s)) s) [].
Proof.
  intros s. apply (dup_close_balanced (DD := polled_disk) 2 0 (set_f_ref 1 file0) s []);
    [apply hl_run_ready; lia | vm_compute; reflexivity | reflexivity | cbn; lia].
Defined.
