(* ===== verification/Proc.v ===== *)
(** * Processes: creation, exit and wait ([proc.cpp])

    Allocation and release of a process's table entry, trap frame and page
    table, [fork], [exit], [wait], [grow] and the first process.  Scheduling,
    [sleep] and [wakeup] are in [Sched].

    What the linker and the compiler decide (the addresses of code symbols,
    string literals and stack objects, the size of [struct process]) is the
    class [Layout]. *)

From S2P Require Import Prelude State Riscv Cstring Lock Sched Kalloc Vm UserCopy Pipe Console Bio Log Fs File.

Class Layout := {
  sym_end : Z; sym_etext : Z; sym_trampoline : Z; sym_uservec : Z; sym_userret : Z; sym_kernelvec : Z;
  fn_forkret : Z; fn_user_trap : Z;
  sizeof_process : Z;
  str_root : Z; str_dot : Z; str_dotdot : Z;
  stk_path : Z; stk_name : Z; stk_de : Z; stk_elf : Z; stk_ph : Z; stk_pad : list Z
}.

(** Offsets in [struct trapframe]. *)
Definition TF_kernel_satp : Z := 0.
Definition TF_kernel_sp : Z := 8.
Definition TF_kernel_trap : Z := 16.
Definition TF_epc : Z := 24.
Definition TF_kernel_hartid : Z := 32.
Definition TF_sp : Z := 48.
Definition TF_a (k : Z) : Z := 112 + 8 * k.
Definition sizeof_trapframe : nat := 288.

(** [strncpy(dst, src, sizeof(dst))] on an array of [n] characters outside [k_mem]:
    without a NUL in the first [n] bytes of [src] it writes past the array. *)
Definition strncpy_arr (n : nat) (src : list Z) : option (list Z) :=
  match find_idx (fun c => c =? 0) (take n src) with
  | Some k => Some (take k src ++ zeros (n - k))
  | None => None
  end.

Definition set_name (i : nat) (src : list Z) : M unit :=
  l <- of_option "strncpy past p->name" (strncpy_arr 32 src) ;; upd_proc i (set_p_name l).

(** The characters of "initcode", and the program [initcode]. *)
Definition str_initcode : list Z := [105; 110; 105; 116; 99; 111; 100; 101; 0].
Definition initcode : list Z :=
  [0x17; 0x05; 0x00; 0x00; 0x13; 0x05; 0x45; 0x02; 0x97; 0x05; 0x00; 0x00; 0x93; 0x85; 0x85; 0x02;
   0x93; 0x08; 0x60; 0x00; 0x73; 0x00; 0x00; 0x00; 0x93; 0x08; 0x10; 0x00; 0x73; 0x00; 0x00; 0x00;
   0xef; 0xf0; 0x9f; 0xff; 0x2f; 0x62; 0x69; 0x6e; 0x2f; 0x69; 0x6e; 0x69; 0x74; 0x00; 0x00; 0x00;
   0x24; 0x00; 0x00; 0x00; 0x00; 0x00; 0x00; 0x00; 0x00; 0x00; 0x00; 0x00; 0x00; 0x00; 0x00; 0x00].

Definition ROOT_ID : Z := 0.

(** Bound on the length of a path in memory ([MAXPATH] bytes with the NUL) and of
    its elements. *)
Definition MAXPATH : Z := 128.
Definition path_fuel : nat := 130.

(** The channel of a process pointer. *)
Definition proc_chan (o : option nat) : chan := match o with Some i => CProc i | None => CNull end.

Section proc.
Context {DD : DiskDriver} {LY : Layout}.

Definition init : M unit :=
  for_range 0 NPROC (fun i =>
    upd_proc i (set_p_status UNUSED) ;;
    upd_proc i (set_p_kstack (KSTACK (s32 (Z.of_nat i * sizeof_process))))) ;;
  modify (set_k_root (Mk_user ROOT_ID ROOT_ID)).

Definition alloc_pagetable (i : nat) : M Z :=
  uvm <- uvm_create ;;
  if uvm =? 0 then ret 0
  else
    ok <- map_pages uvm TRAMPOLINE sym_trampoline PGSIZE (Z.lor PTE_R PTE_X) ;;
    if negb ok then uvm_free uvm 0 ;; ret 0
    else
      p <- get_proc i ;;
      ok <- map_pages uvm TRAPFRAME (p_trapframe p) PGSIZE (Z.lor PTE_R PTE_W) ;;
      if negb ok then uvm_unmap uvm TRAMPOLINE 1 false ;; uvm_free uvm 0 ;; ret 0
      else ret uvm.

Definition free_pagetable (pagetable sz : Z) : M unit :=
  uvm_unmap pagetable TRAMPOLINE 1 false ;;
  uvm_unmap pagetable TRAPFRAME 1 false ;;
  uvm_free pagetable sz.

(** [proc::free]. *)
Definition free_proc (i : nat) : M unit :=
  p <- get_proc i ;;
  when (negb (p_trapframe p =? 0)) (kfree (p_trapframe p)) ;;
  upd_proc i (set_p_trapframe 0) ;;
  p <- get_proc i ;;
  when (negb (p_pagetable p =? 0)) (free_pagetable (p_pagetable p) (p_sz p)) ;;
  upd_proc i (set_p_pagetable 0) ;;
  upd_proc i (set_p_sz 0) ;;
  upd_proc i (set_p_pid 0) ;;
  upd_proc i (set_p_parent None) ;;
  upd_proc i (fun p => set_p_name (<[0%nat := 0]> (p_name p)) p) ;;
  upd_proc i (set_p_chan CNull) ;;
  upd_proc i (set_p_killed false) ;;
  upd_proc i (set_p_status UNUSED).

(** The body of the loop of [alloc_proc] for an entry that is [UNUSED]. *)
Definition alloc_entry (i : nat) : M (option nat) :=
  pid <- alloc_pid ;;
  upd_proc i (set_p_pid pid) ;;
  upd_proc i (set_p_status USED) ;;
  opt_frame <- kalloc ;;
  match opt_frame with
  | None => free_proc i ;; release (L_proc i) ;; ret None
  | Some fr =>
      upd_proc i (set_p_trapframe fr) ;;
      pt <- alloc_pagetable i ;;
      upd_proc i (set_p_pagetable pt) ;;
      if pt =? 0 then free_proc i ;; release (L_proc i) ;; ret None
      else
        upd_proc i (fun p => set_p_context (Mk_context fn_forkret (u64 (p_kstack p + PGSIZE)) (zeros 12)) p) ;;
        ret (Some i)
  end.

Fixpoint alloc_proc_from (i n : nat) : M (option nat) :=
  match n with
  | O => panic "proc::alloc: no proc"
  | S n' =>
      acquire (L_proc i) ;;
      p <- get_proc i ;;
      if bool_decide (p_status p = UNUSED) then alloc_entry i
      else release (L_proc i) ;; alloc_proc_from (S i) n'
  end.

Definition alloc_proc : M (option nat) := alloc_proc_from 0 NPROC.

Definition user_init : M unit :=
  o <- alloc_proc ;;
  modify (set_k_init_proc o) ;;
  i <- of_option "null process" o ;;
  p <- get_proc i ;;
  uvm_first (p_pagetable p) initcode 64 ;;
  upd_proc i (set_p_sz PGSIZE) ;;
  on_mem (fun m => store64 m (p_trapframe p + TF_epc) 0) ;;
  on_mem (fun m => store64 m (p_trapframe p + TF_sp) PGSIZE) ;;
  upd_proc i (set_p_user true) ;;
  set_name i str_initcode ;;
  cwd <- namei path_fuel str_root stk_name stk_de ;;
  upd_proc i (set_p_cwd cwd) ;;
  upd_proc i (set_p_status RUNNABLE) ;;
  release (L_proc i).

Definition reparent (p : nat) : M unit :=
  for_range 0 NPROC (fun i =>
    cp <- get_proc i ;;
    when (bool_decide (p_parent cp = Some p))
      (ip <- gets k_init_proc ;;
       upd_proc i (set_p_parent ip) ;;
       wakeup (proc_chan ip))).

(** [n] is an [int]. *)
Definition grow (n : Z) : M Z :=
  i <- me ;;
  p <- get_proc i ;;
  if 0 <? n then
    sz <- uvm_alloc (p_pagetable p) (p_sz p) (u64 (p_sz p + n)) PTE_W ;;
    if sz =? 0 then ret (-1) else upd_proc i (set_p_sz sz) ;; ret 0
  else if n <? 0 then
    sz <- uvm_dealloc (p_pagetable p) (p_sz p) (u64 (p_sz p + n)) ;;
    upd_proc i (set_p_sz sz) ;; ret 0
  else upd_proc i (set_p_sz (p_sz p)) ;; ret 0.

(** [np->ofile[k] = file::dup(p->ofile[k])]. *)
Definition fork_file (p np k : nat) : M unit :=
  pr <- get_proc p ;;
  o <- of_option "ofile" (p_ofile pr !! k) ;;
  match o with
  | None => ret tt
  | Some f => g <- dup f ;; upd_proc np (fun q => set_p_ofile (<[k := Some g]> (p_ofile q)) q)
  end.

Definition fork : M Z :=
  o <- alloc_proc ;;
  match o with
  | None => ret (-1)
  | Some np =>
      i <- me ;;
      p <- get_proc i ;;
      q <- get_proc np ;;
      ok <- uvm_copy (p_pagetable p) (p_pagetable q) (p_sz p) ;;
      if negb ok then free_proc np ;; release (L_proc np) ;; ret (-1)
      else
        upd_proc np (set_p_sz (p_sz p)) ;;
        on_mem (fun m => store_bytes m (p_trapframe q) (load_bytes m (p_trapframe p) sizeof_trapframe)) ;;
        on_mem (fun m => store64 m (p_trapframe q + TF_a 0) 0) ;;
        upd_proc np (set_p_user (p_user p)) ;;
        for_range 0 NOFILE (fork_file i np) ;;
        c <- of_option "p->cwd" (p_cwd p) ;;
        c <- idup c ;;
        upd_proc np (set_p_cwd (Some c)) ;;
        set_name np (p_name p) ;;
        q <- get_proc np ;;
        release (L_proc np) ;;
        acquire L_wait ;;
        upd_proc np (set_p_parent (Some i)) ;;
        release L_wait ;;
        acquire (L_proc np) ;;
        upd_proc np (set_p_status RUNNABLE) ;;
        release (L_proc np) ;;
        ret (s32 (p_pid q))
  end.

(** [exit] closes descriptor [fd]. *)
Definition close_fd (p fd : nat) : M unit :=
  pr <- get_proc p ;;
  o <- of_option "ofile" (p_ofile pr !! fd) ;;
  match o with
  | None => ret tt
  | Some f => close f ;; upd_proc p (fun q => set_p_ofile (<[fd := None]> (p_ofile q)) q)
  end.

(** [exit] does not return. *)
Definition exit {A} (status : Z) : M A :=
  p <- me ;;
  ip <- gets k_init_proc ;;
  if bool_decide (ip = Some p) then panic "proc::exit: init exiting"
  else
    for_range 0 NOFILE (close_fd p) ;;
    begin_op ;;
    pr <- get_proc p ;;
    c <- of_option "p->cwd" (p_cwd pr) ;;
    iput c ;;
    end_op ;;
    upd_proc p (set_p_cwd None) ;;
    acquire L_wait ;;
    reparent p ;;
    pr <- get_proc p ;;
    wakeup (proc_chan (p_parent pr)) ;;
    acquire (L_proc p) ;;
    upd_proc p (set_p_xstate status) ;;
    upd_proc p (set_p_status ZOMBIE) ;;
    release L_wait ;;
    sched ;;
    panic "proc::exit: zombie exit".

(** The [for] loop of [wait]: the value [wait] returns ([inl]), or [havekids]. *)
Fixpoint wait_scan (i n : nat) (p : nat) (addr : Z) (havekids : bool) : M (Z + bool) :=
  match n with
  | O => ret (inr havekids)
  | S n' =>
      cp <- get_proc i ;;
      if bool_decide (p_parent cp = Some p) then
        acquire (L_proc i) ;;
        cp <- get_proc i ;;
        if bool_decide (p_status cp = ZOMBIE) then
          pr <- get_proc p ;;
          ok <- (if addr =? 0 then ret true else copyout (p_pagetable pr) addr (le_bytes 4 (p_xstate cp)) 4) ;;
          if negb ok then release (L_proc i) ;; release L_wait ;; ret (inl (-1))
          else
            free_proc i ;;
            release (L_proc i) ;;
            release L_wait ;;
            ret (inl (s32 (p_pid cp)))
        else release (L_proc i) ;; wait_scan (S i) n' p addr true
      else wait_scan (S i) n' p addr havekids
  end.

(** The [while (true)]; every iteration but the last sleeps. *)
Fixpoint wait_loop (fuel : nat) (p : nat) (addr : Z) : M Z :=
  match fuel with
  | O => fun _ _ => NoFuel
  | S f =>
      r <- wait_scan 0 NPROC p addr false ;;
      match r with
      | inl v => ret v
      | inr havekids =>
          stop <- (if negb havekids then ret true else get_killed p) ;;
          if stop : bool then release L_wait ;; ret (-1)
          else sleep (CProc p) L_wait ;; wait_loop f p addr
      end
  end.

Definition wait (addr : Z) : M Z :=
  acquire L_wait ;;
  p <- me ;;
  fun s e => wait_loop (S (length e)) p addr s e.

End proc.
