(* ===== verification/ProcSpec.v ===== *)
(** * Exit, wait and the process tree

    [reparent] hands the children of a process to the first process, the last
    part of [exit] leaves a zombie for the parent to collect, and [wait] finds
    it.  The descriptors [exit] closes are in [ExitSpec.v]. *)

From S2P Require Import Prelude State Riscv Lock Sched Kalloc Bio Log Fs FsSpec File Proc.

(** ** Reparenting *)

Definition child_of (p : nat) (pr : process) : bool := bool_decide (p_parent pr = Some p).

(** A child of [p] gets the parent [ip]. *)
Definition adopt (p : nat) (ip : option nat) (pr : process) : process :=
  if child_of p pr then set_p_parent ip pr else pr.

(** The table after [reparent] from index [i] on. *)
Definition adopted (c : option nat) (p : nat) (ip : option nat) (i : nat) (l : list process) : list process :=
  imap (fun j pr => let pr := if (i <=? j)%nat then adopt p ip pr else pr in
                    if existsb (child_of p) (drop i l) && negb (bool_decide (c = Some j)) then wake (proc_chan ip) pr else pr) l.

Lemma wake_parent ch pr : p_parent (wake ch pr) = p_parent pr.
Proof. unfold wake. by destruct (_ && _). Qed.

Lemma wake_twice ch pr : wake ch (wake ch pr) = wake ch pr.
Proof. unfold wake. destruct (bool_decide (p_status pr = SLEEPING) && bool_decide (p_chan pr = ch)) eqn:E; cbn; [done | by rewrite E]. Qed.

Lemma wake_adopt ch p ip pr : wake ch (adopt p ip pr) = adopt p ip (wake ch pr).
Proof.
  unfold adopt, child_of. rewrite wake_parent. case_bool_decide; [|done]. unfold wake. cbn. by destruct (_ && _).
Qed.

Lemma length_adopted c p ip i l : length (adopted c p ip i l) = length l.
Proof. apply length_imap. Qed.

Lemma lookup_adopted c p ip i l j pr : l !! j = Some pr ->
  adopted c p ip i l !! j =
  Some (let pr := if (i <=? j)%nat then adopt p ip pr else pr in
        if existsb (child_of p) (drop i l) && negb (bool_decide (c = Some j)) then wake (proc_chan ip) pr else pr).
Proof. intros H. unfold adopted. by rewrite list_lookup_imap, H. Qed.

(** One step of the loop: a child is adopted and the new parent woken. *)
Lemma adopted_child c p ip i l pr : l !! i = Some pr -> child_of p pr = true ->
  adopted c p ip (S i) (wake_procs c (proc_chan ip) (<[i := set_p_parent ip pr]> l)) = adopted c p ip i l.
Proof.
  intros Hi Hch. apply list_eq. intros j. destruct (l !! j) as [q|] eqn:Hj.
  2:{ rewrite !lookup_ge_None_2; [done|..]; rewrite length_adopted, ?length_wake_procs, ?length_insert; by apply lookup_ge_None. }
  assert (existsb (child_of p) (drop i l) = true) as He by (rewrite (drop_S l pr i Hi); cbn [existsb]; by rewrite Hch).
  assert (wake_procs c (proc_chan ip) (<[i := set_p_parent ip pr]> l) !! j =
          Some (let q := if decide (j = i) then set_p_parent ip pr else q in if bool_decide (c = Some j) then q else wake (proc_chan ip) q)) as Hw.
  { rewrite lookup_wake_procs. case_decide as Hji; [subst j; rewrite list_lookup_insert_eq by (by apply lookup_lt_Some in Hi) |
      rewrite list_lookup_insert_ne, Hj by done]; done. }
  rewrite (lookup_adopted _ _ _ _ l j q Hj), He, (lookup_adopted _ _ _ _ _ j _ Hw).
  cbv zeta. cbn [andb]. f_equal. set (E := existsb _ _). destruct (decide (j = i)) as [->|Hne].
  - assert (q = pr) as -> by congruence. rewrite (proj2 (Nat.leb_gt (S i) i)), Nat.leb_refl by lia. unfold adopt. rewrite Hch.
    case_bool_decide; cbn; [by rewrite andb_false_r|]. destruct E; cbn; [apply wake_twice | done].
  - assert ((S i <=? j)%nat = (i <=? j)%nat) as -> by (destruct (Nat.leb_spec (S i) j), (Nat.leb_spec i j); lia).
    case_bool_decide; cbn; rewrite ?andb_false_r; [done|]. destruct (i <=? j)%nat, E; cbn; rewrite ?wake_adopt, ?wake_twice; done.
Qed.

Lemma adopted_other c p ip i l pr : l !! i = Some pr -> child_of p pr = false -> adopted c p ip (S i) l = adopted c p ip i l.
Proof.
  intros Hi Hch. unfold adopted. rewrite (drop_S l pr i Hi). cbn [existsb]. rewrite Hch. cbn [orb]. apply imap_ext. intros j q Hj. cbv beta zeta.
  destruct (decide (j = i)) as [->|Hne].
  - assert (q = pr) as -> by congruence. rewrite (proj2 (Nat.leb_gt (S i) i)), Nat.leb_refl by lia. unfold adopt. by rewrite Hch.
  - by replace (S i <=? j)%nat with (i <=? j)%nat by (destruct (Nat.leb_spec (S i) j), (Nat.leb_spec i j); lia).
Qed.

Lemma adopted_end c p ip l : adopted c p ip (length l) l = l.
Proof.
  unfold adopted. rewrite drop_all. cbn [existsb andb]. apply list_eq. intros j. rewrite list_lookup_imap.
  destruct (l !! j) as [q|] eqn:Hj; [|done]. cbn. apply lookup_lt_Some in Hj. by rewrite (proj2 (Nat.leb_gt _ _)).
Qed.

Lemma reparent_from {DD : DiskDriver} p n : forall i s e,
  room 1 (k_hl s) -> nested (k_hl s) -> procs_free (me_of s) (k_hl s) -> (i + n = NPROC)%nat -> length (k_procs s) = NPROC ->
  for_range i n (fun i =>
    cp <- get_proc i ;;
    when (bool_decide (p_parent cp = Some p)) (ip <- gets k_init_proc ;; upd_proc i (set_p_parent ip) ;; wakeup (proc_chan ip))) s e =
  Ret tt (set_k_procs (adopted (me_of s) p (k_init_proc s) i (k_procs s)) s) e.
Proof.
  induction n as [|n IH]; intros i s e Hr Hn Hf Hi Hl; cbn [for_range].
  - replace i with (length (k_procs s)) by lia. rewrite adopted_end, set_k_procs_id. done.
  - destruct (lookup_lt_is_Some_2 (k_procs s) i) as [pr Hp]; [lia|]. rewrite bind_assoc. kstep get_proc_run; [exact Hp|].
    destruct (bool_decide (p_parent pr = Some p)) eqn:Hc; cbn [when].
    + rewrite bind_assoc, bind_gets, bind_assoc. kstep upd_proc_run; [exact Hp|].
      kstep wakeup_run; [done | done | done | by cbn; rewrite length_insert |].
      rewrite IH; [|done | done | done | lia | cbn; by rewrite length_imap, length_insert].
      cbn [k_procs set_k_procs k_init_proc]. change (me_of (set_k_procs _ _)) with (me_of s). rewrite set_k_procs_twice.
      change (me_of (set_k_procs _ _)) with (me_of s). rewrite (adopted_child _ _ _ _ _ pr) by done. done.
    + rewrite bind_ret. rewrite IH by (done || lia). by rewrite (adopted_other _ _ _ _ _ pr).
Qed.

(** ** Exit *)

Lemma sched_blocks s h p :
  k_hl s = acq (L_proc p) h -> room 1 h -> noff (cur h) = 0 -> c_proc (cur h) = Some p -> sched s [] = Blocked s.
Proof. intros Hs Hr H0 Hp. by rewrite (sched_run s [] h p). Qed.

(** The table an exiting process leaves, from the moment it holds [wait_lock]. *)
Definition exit_table (p : nat) (pr : process) (ip : option nat) (status : Z) (l : list process) : list process :=
  <[p := set_p_status ZOMBIE (set_p_xstate status pr)]> (wake_procs (Some p) (proc_chan (p_parent pr)) (adopted (Some p) p ip 0 l)).

(** The last part of [exit]. *)
Lemma exit_tail {DD : DiskDriver} p pr status s :
  bio_ready p pr s -> noff (cur (k_hl s)) = 0 -> free L_wait (k_hl s) -> p_parent pr <> Some p ->
  (acquire L_wait ;; reparent p ;; pr <- get_proc p ;; wakeup (proc_chan (p_parent pr)) ;; acquire (L_proc p) ;;
   upd_proc p (set_p_xstate status) ;; upd_proc p (set_p_status ZOMBIE) ;; release L_wait ;; sched ;; panic (A := Z) "proc::exit: zombie exit") s [] =
  Blocked (set_k_hl (acq (L_proc p) (k_hl s)) (set_k_procs (exit_table p pr (k_init_proc s) status (k_procs s)) s)).
Proof.
  intros Hr H0 Hw Hpp. pose proof (br_room _ _ _ Hr) as Hr3. pose proof (br_pr _ _ _ Hr) as Hp. pose proof (lookup_lt_Some _ _ _ Hp) as Hlt.
  pose proof (br_me _ _ _ Hr) as Hme. pose proof (br_len _ _ _ Hr) as Hlen. rewrite Hlen in Hlt.
  assert (room 1 (k_hl s)) as Hr1 by (apply (room_weaken 3); [done|lia]).
  assert (free (L_proc p) (k_hl s)) as Hfp by (by apply (br_procs _ _ _ Hr)).
  set (hw := acq L_wait (k_hl s)).
  assert (room 2 hw) as Rw by exact (room_acq 3 _ _ Hr3).
  assert (room 1 hw) as Rw1 by (apply (room_weaken 2); [done|lia]).
  assert (nested hw) as Nw by exact (nested_acq _ _ 3 Hr3).
  assert (procs_free (Some p) hw) as Fw by (apply procs_free_acq; [by intros i | intros i Hi _; by apply (br_procs _ _ _ Hr)]).
  assert (forall l, me_of (set_k_procs l (set_k_hl hw s)) = Some p) as Mw by (intros; unfold me_of; cbn [k_hl set_k_procs set_k_hl]; unfold hw; by rewrite c_proc_acq by apply Hr3).
  kstep acquire_run; [done | done |]. fold hw.
  set (l1 := adopted (Some p) p (k_init_proc s) 0 (k_procs s)).
  assert (reparent p (set_k_hl hw s) [] = Ret tt (set_k_procs l1 (set_k_hl hw s)) []) as E1.
  { unfold reparent. rewrite reparent_from; cbn [k_hl set_k_hl k_procs k_init_proc]; [|done|done| |done|done].
    - change (me_of (set_k_hl hw s)) with (me_of (set_k_procs (k_procs s) (set_k_hl hw s))). by rewrite Mw.
    - change (me_of (set_k_hl hw s)) with (me_of (set_k_procs (k_procs s) (set_k_hl hw s))). by rewrite Mw. }
  kstep E1. clear E1.
  assert (l1 !! p = Some pr) as Hp1.
  { unfold l1. rewrite (lookup_adopted _ _ _ _ _ _ pr Hp). cbv zeta. rewrite (bool_decide_true (Some p = Some p)) by done. rewrite andb_false_r.
    unfold adopt, child_of. by rewrite bool_decide_false. }
  assert (length l1 = NPROC) as Hl1 by (unfold l1; by rewrite length_adopted).
  kstep get_proc_run; [exact Hp1|].
  kstep wakeup_run; [done | done | rewrite Mw; exact Fw | exact Hl1 |]. rewrite Mw. cbn [k_procs set_k_procs]. rewrite set_k_procs_twice.
  set (l2 := wake_procs (Some p) (proc_chan (p_parent pr)) l1).
  assert (l2 !! p = Some pr) as Hp2 by (unfold l2; rewrite lookup_wake_procs, Hp1; cbn; by rewrite bool_decide_true).
  kstep acquire_run; [done | by apply free_acq_ne |]. cbn [k_hl set_k_procs set_k_hl].
  kstep upd_proc_run; [exact Hp2|]. kstep upd_proc_run; [cbn; apply list_lookup_insert_eq; by apply lookup_lt_Some in Hp2|].
  kstep release_run; cbn [k_hl set_k_procs set_k_hl].
  - unfold held_by_me, hw, acq; cbn. rewrite lookup_insert_ne by done. by rewrite lookup_insert_eq.
  - apply (room_weaken 1); [exact (room_acq 2 _ _ Rw) | lia].
  - unfold acq at 1. rewrite cur_set_locks, cur_push by apply Rw. cbn. destruct Rw as (_ & ? & _). lia.
  - apply intr_get_off.
  - unfold hw. erewrite rel_acq_acq; [| done | done | exact Hr3]. unfold bind. erewrite (sched_blocks _ (k_hl s) p); [|reflexivity | done | done | exact Hme].
    f_equal. unfold exit_table. fold l1 l2. cbn [k_procs set_k_procs set_k_hl]. rewrite list_insert_insert_eq. by destruct s.
Qed.

(** [bio_ready] looks only at the locks and the process table. *)
Lemma bio_ready_ext p pr pr' s s' : bio_ready p pr s -> k_hl s' = k_hl s -> length (k_procs s') = NPROC -> k_procs s' !! p = Some pr' ->
  bio_ready p pr' s'.
Proof. intros [] Eh El Ep. split; rewrite ?Eh; try assumption. unfold me_of in *. by rewrite Eh. Qed.

Lemma wake_status ch q : p_status (wake ch q) = if bool_decide (p_status q = SLEEPING) && bool_decide (p_chan q = ch) then RUNNABLE else p_status q.
Proof. unfold wake. by destruct (_ && _). Qed.

Lemma wake_chan ch q : p_chan (wake ch q) = p_chan q.
Proof. unfold wake. by destruct (_ && _). Qed.

(** Nothing but [wakeup] on its channel or the end of its sleep matters to a sleeper. *)
Definition asleep_or_woken (ch : chan) (q : process) : Prop := p_chan q = ch /\ (p_status q = SLEEPING \/ p_status q = RUNNABLE).

Lemma asleep_wake ch ch' q : asleep_or_woken ch q -> asleep_or_woken ch (wake ch' q).
Proof. intros [H1 H2]. split; [by rewrite wake_chan|]. rewrite wake_status. repeat case_bool_decide; cbn; auto. Qed.

Lemma asleep_adopt ch p ip q : asleep_or_woken ch q -> asleep_or_woken ch (adopt p ip q).
Proof. intros H. unfold adopt. by destruct (child_of p q). Qed.

Lemma wake_sleeper ch q : asleep_or_woken ch q -> p_status (wake ch q) = RUNNABLE.
Proof. intros [H1 [H2|H2]]; rewrite wake_status, H1, H2; by repeat case_bool_decide. Qed.

(** Another process in the table [exit] leaves. *)
Lemma exit_table_other p pr ip status l i q : i <> p -> l !! i = Some q ->
  exists q', exit_table p pr ip status l !! i = Some q' /\ p_parent q' = (if child_of p q then ip else p_parent q) /\
    (asleep_or_woken (proc_chan (p_parent pr)) q -> p_status q' = RUNNABLE).
Proof.
  intros Hi Hq. unfold exit_table. rewrite list_lookup_insert_ne, lookup_wake_procs, (lookup_adopted _ _ _ _ _ _ q Hq) by done.
  cbv zeta. cbn [Nat.leb fmap option_fmap option_map]. eexists. split; [reflexivity|]. rewrite (bool_decide_false (Some p = Some i)) by congruence. split.
  - rewrite wake_parent. destruct (existsb _ _ && _); rewrite ?wake_parent; unfold adopt; by destruct (child_of p q).
  - intros Ha. apply wake_sleeper. destruct (existsb _ _ && _); [apply asleep_wake|]; by apply asleep_adopt.
Qed.

(** ** Wait *)

(** No child of [p] has exited. *)
Definition no_zombie (p : nat) (l : list process) : Prop :=
  forall i q, l !! i = Some q -> child_of p q = true -> p_status q <> ZOMBIE.

(** A scan that finds no zombie changes nothing and reports whether there are children. *)
Lemma wait_scan_run p addr n : forall i s e kids,
  room 1 (k_hl s) -> nested (k_hl s) -> (forall j, (j < NPROC)%nat -> free (L_proc j) (k_hl s)) ->
  (i + n = NPROC)%nat -> length (k_procs s) = NPROC -> no_zombie p (k_procs s) ->
  wait_scan i n p addr kids s e = Ret (inr (kids || existsb (child_of p) (drop i (k_procs s)))) s e.
Proof.
  induction n as [|n IH]; intros i s e kids Hr Hn Hf Hi Hl Hz; cbn [wait_scan].
  - rewrite drop_ge by lia. cbn [existsb]. by rewrite orb_false_r.
  - destruct (lookup_lt_is_Some_2 (k_procs s) i) as [q Hq]; [lia|]. kstep get_proc_run; [exact Hq|].
    rewrite (drop_S (k_procs s) q i Hq). cbn [existsb]. destruct (child_of p q) eqn:Hch; unfold child_of in Hch; rewrite Hch; cbn [orb].
    + kstep acquire_run; [done | apply Hf; lia |]. kstep get_proc_run; [exact Hq|].
      rewrite bool_decide_false by (apply (Hz i q Hq Hch)).
      kstep (release_acq_run (L_proc i) (k_hl s)); [done | done | apply Hf; lia |].
      rewrite Hn, IH by (try done; lia). rewrite orb_true_r. by destruct s.
    + rewrite IH by (try done; lia). done.
Qed.

(** C35: With no zombie child, wait returns -1 at once when there is no child at all or
    the caller is killed, and otherwise sleeps on the caller's own entry with wait_lock
    free, so that the exit of a child finds it. *)
Theorem wait_for_children p pr addr s :
  bio_ready p pr s -> noff (cur (k_hl s)) = 0 -> free L_wait (k_hl s) -> no_zombie p (k_procs s) ->
  (existsb (child_of p) (k_procs s) = false \/ p_killed pr = true -> wait addr s [] = Ret (-1) s []) /\
  (existsb (child_of p) (k_procs s) = true -> p_killed pr = false ->
   exists s', wait addr s [] = Blocked s' /\ free L_wait (k_hl s') /\ held_by_me (L_proc p) (k_hl s') /\
     k_procs s' = <[p := set_p_status SLEEPING (set_p_chan (CProc p) pr)]> (k_procs s)).
Proof.
  intros Hr H0 Hw Hz. destruct Hr as [Hr Hn _ _ Hpf Hme Hp Hlen]. pose proof (lookup_lt_Some _ _ _ Hp) as Hlt. rewrite Hlen in Hlt.
  assert (room 1 (k_hl s)) as Hr1 by (apply (room_weaken 3); [done|lia]).
  set (h := acq L_wait (k_hl s)). assert (nested h) as Hnh by exact (nested_acq _ _ 3 Hr).
  assert (room 2 h) as Hr2 by exact (room_acq 3 _ _ Hr). assert (room 1 h) as Hrh by (apply (room_weaken 2); [done|lia]).
  assert (forall j, (j < NPROC)%nat -> free (L_proc j) h) as Hfh by (intros j Hj; apply free_acq_ne; [done | by apply Hpf]).
  assert (wait addr s [] = (stop <- (if negb (existsb (child_of p) (k_procs s)) then ret true else get_killed p) ;;
            if stop : bool then release L_wait ;; ret (-1) else sleep (CProc p) L_wait ;; wait_loop 0 p addr) (set_k_hl h s) []) as E.
  { unfold wait. kstep acquire_run; [done | done |]. fold h. kstep (me_run (set_k_hl h s) [] 1 p); [done | |].
    - unfold me_of in *. cbn [k_hl set_k_hl]. unfold h. by rewrite c_proc_acq by apply Hr.
    - cbn [length wait_loop]. kstep wait_scan_run; [done | done | done | done | done | done |]. done. }
  assert ((release L_wait ;; ret (-1)) (set_k_hl h s) [] = Ret (-1) s []) as Erel.
  { kstep (release_acq_run L_wait (k_hl s)); [done | done | done |]. rewrite Hn. by destruct s. }
  assert (get_killed p (set_k_hl h s) [] = Ret (p_killed pr) (set_k_hl h s) []) as Ek.
  { rewrite (get_killed_run p _ _ pr) by (done || by apply Hfh). cbn [k_hl set_k_hl]. by rewrite Hnh. }
  split.
  - intros Hd. rewrite E. destruct (existsb (child_of p) (k_procs s)); cbn [negb]; [|by rewrite bind_ret].
    destruct Hd as [|Hk]; [done|]. kstep Ek. rewrite Hk. exact Erel.
  - intros Hkids Hk. rewrite E, Hkids. cbn [negb]. exists (asleep (CProc p) p pr (k_hl s) (set_k_hl h s)). split.
    + kstep Ek. rewrite Hk. unfold bind. rewrite (sleep_run (CProc p) L_wait _ [] (k_hl s) p pr); try done; [by apply (room_weaken 3); [done|lia] | by apply Hpf].
    + split; [by apply free_acq_ne|]. split; [apply held_acq | done].
Qed.

(** Process 0 with a child that runs, and without children. *)
Lemma wait_for_children_witness : exists s',
  wait 0 (set_k_procs (<[3%nat := set_p_parent (Some 0%nat) proc0]> (k_procs boot0)) boot0) [] = Blocked s' /\
  wait 0 boot0 [] = Ret (-1) boot0 [].
Proof.
  destruct (wait_for_children 0 proc0 0 (set_k_procs (<[3%nat := set_p_parent (Some 0%nat) proc0]> (k_procs boot0)) boot0)) as [_ H].
  - apply (bio_ready_ext 0 proc0 _ boot0); [exact boot0_ready | reflexivity..].
  - reflexivity.
  - vm_compute. reflexivity.
  - intros i q Hq _. cbn [k_procs set_k_procs] in Hq. apply list_lookup_insert_Some in Hq as [(_ & <- & _)|[_ Hq]]; [discriminate|].
    apply lookup_replicate in Hq as [-> _]. discriminate.
  - destruct (wait_for_children 0 proc0 0 boot0) as [H' _].
    + exact boot0_ready.
    + reflexivity.
    + vm_compute. reflexivity.
    + intros i q Hq _. apply lookup_replicate in Hq as [-> _]. discriminate.
    + destruct H as (s' & H & _); [reflexivity | reflexivity |]. exists s'. split; [exact H|]. apply H'. left. reflexivity.
Defined.
