(* ===== verification/Loader.v ===== *)
(** * The program loader ([loader.cpp], [elf.h])

    [exec] builds a new address space from an ELF file, pushes the arguments on
    its stack and then replaces the caller's.  The headers it reads are on the
    kernel stack, at [stk_elf] and [stk_ph]. *)

From S2P Require Import Prelude State Riscv Cstring Lock Sched Kalloc Vm UserCopy Bio Log Fs Proc.

Definition MAXARGV : nat := 32.
Definition USERSTACK : Z := 1.
Definition ELF_MAGIC : Z := 0x464C457F.
Definition ELF_PROG_LOAD : Z := 1.

(** [struct elfhdr] (64 bytes) and [struct proghdr] (56 bytes): the fields [exec] uses. *)
Record elfhdr := Mk_elfhdr { elf_magic : Z; elf_entry : Z; elf_phoff : Z; elf_phnum : Z }.
Record proghdr := Mk_proghdr {
  ph_type : Z; ph_flags : Z; ph_off : Z; ph_vaddr : Z; ph_filesz : Z; ph_memsz : Z
}.
Definition sizeof_elfhdr : Z := 64.
Definition sizeof_proghdr : Z := 56.

Definition load16 (m : memory) (a : Z) : Z := le_val (load_bytes m a 2).
Definition load32 (m : memory) (a : Z) : Z := le_val (load_bytes m a 4).

Definition elf_at (m : memory) (a : Z) : elfhdr :=
  Mk_elfhdr (load32 m a) (load64 m (a + 24)) (load64 m (a + 32)) (load16 m (a + 56)).
Definition ph_at (m : memory) (a : Z) : proghdr :=
  Mk_proghdr (load32 m a) (load32 m (a + 4)) (load64 m (a + 8)) (load64 m (a + 16)) (load64 m (a + 32)) (load64 m (a + 40)).

Definition flags2perm (flags : Z) : Z :=
  let perm := if negb (Z.land flags 1 =? 0) then PTE_X else 0 in
  if negb (Z.land flags 2 =? 0) then Z.lor perm PTE_W else perm.

(** [for (last = s = path; *s; s++) if ( *s == '/' ) last = s + 1]. *)
Fixpoint path_last (fuel : nat) (m : memory) (s last : Z) : option Z :=
  match fuel with
  | O => None
  | S f => if m s =? 0 then Some last else path_last f m (s + 1) (if m s =? 47 then s + 1 else last)
  end.

(** A scan that left the model's bound. *)
Definition of_fuel {A} (o : option A) : M A := match o with Some a => ret a | None => fun _ _ => NoFuel end.

Section loader.
Context {DD : DiskDriver} {LY : Layout}.

Fixpoint loadseg_loop (fuel : nat) (pagetable va : Z) (ip : nat) (offset sz i : Z) : M bool :=
  match fuel with
  | O => fun _ _ => NoFuel
  | S f =>
      if i <? sz then
        pa <- walkaddr pagetable (u64 (va + i)) ;;
        if pa =? 0 then panic "loadseg: address should exist"
        else
          let n := if u32 (sz - i) <? PGSIZE then u32 (sz - i) else PGSIZE in
          r <- readi ip false pa (u32 (offset + i)) n ;;
          if negb (r =? n) then ret false else loadseg_loop f pagetable va ip offset sz (u32 (i + PGSIZE))
      else ret true
  end.

Definition loadseg (pagetable va : Z) (ip : nat) (offset sz : Z) : M bool :=
  loadseg_loop (Z.to_nat (sz / PGSIZE) + 2) pagetable va ip offset sz 0.

Definition fail_work (pagetable : Z) (ip : option nat) (sz : Z) : M unit :=
  when (negb (pagetable =? 0)) (free_pagetable pagetable sz) ;;
  match ip with
  | Some i => iunlockput i ;; end_op
  | None => ret tt
  end.

(** [fail_work(pagetable, ip, sz); return -1], as the end of a phase. *)
Definition exec_fail {A} (pagetable : Z) (ip : option nat) (sz : Z) : M (option A) :=
  fail_work pagetable ip sz ;; ret None.

(** The loop over the program headers, with [n] of them to go: the new size. *)
Fixpoint load_segments (n : nat) (ip : nat) (pagetable off sz : Z) : M (option Z) :=
  match n with
  | O => ret (Some sz)
  | S n' =>
      r <- readi ip false stk_ph (u32 off) sizeof_proghdr ;;
      if negb (r =? sizeof_proghdr) then exec_fail pagetable (Some ip) sz
      else
        m <- gets k_mem ;;
        let ph := ph_at m stk_ph in
        if negb (ph_type ph =? ELF_PROG_LOAD) then load_segments n' ip pagetable (u64 (off + sizeof_proghdr)) sz
        else if ph_memsz ph <? ph_filesz ph then exec_fail pagetable (Some ip) sz
        else if u64 (ph_vaddr ph + ph_memsz ph) <? ph_vaddr ph then exec_fail pagetable (Some ip) sz
        else if negb (ph_vaddr ph mod PGSIZE =? 0) then exec_fail pagetable (Some ip) sz
        else
          sz1 <- uvm_alloc pagetable sz (u64 (ph_vaddr ph + ph_memsz ph)) (flags2perm (ph_flags ph)) ;;
          if sz1 =? 0 then exec_fail pagetable (Some ip) sz
          else
            ok <- loadseg pagetable (ph_vaddr ph) ip (u32 (ph_off ph)) (u32 (ph_filesz ph)) ;;
            if negb ok then exec_fail pagetable (Some ip) sz1
            else load_segments n' ip pagetable (u64 (off + sizeof_proghdr)) sz1
  end.

(** The loop that pushes the argument strings, from [argv[argc]] on: the stack
    pointer and [ustack] so far. *)
Fixpoint push_args (fuel : nat) (pagetable sz stackbase : Z) (argv : list Z) (argc : nat) (sp : Z) (ustack : list Z) :
    M (option (nat * Z * list Z)) :=
  match fuel with
  | O => fun _ _ => NoFuel
  | S f =>
      a <- of_option "argv" (argv !! argc) ;;
      if a =? 0 then ret (Some (argc, sp, ustack))
      else if (MAXARGV <=? argc)%nat then exec_fail pagetable None sz
      else
        m <- gets k_mem ;;
        len <- of_fuel (strlen (Z.to_nat PGSIZE) m a) ;;
        let sp := u64 (sp - (len + 1)) in
        let sp := sp - sp mod 16 in
        if sp <? stackbase then exec_fail pagetable None sz
        else
          ok <- copyout pagetable sp (load_bytes m a (Z.to_nat (len + 1))) (len + 1) ;;
          if negb ok then exec_fail pagetable None sz
          else push_args f pagetable sz stackbase argv (S argc) sp (ustack ++ [sp])
  end.

(** Lines 121 to 174: the file is released, the user stack built and the
    arguments pushed; the new size, stack pointer and [argc]. *)
Definition exec_stack (ip : nat) (pagetable sz : Z) (argv : list Z) : M (option (Z * Z * nat)) :=
  iunlockput ip ;;
  end_op ;;
  let sz := PG_ROUND_UP sz in
  sz1 <- uvm_alloc pagetable sz (u64 (sz + (USERSTACK + 1) * PGSIZE)) PTE_W ;;
  if sz1 =? 0 then exec_fail pagetable None sz
  else
    uvm_clear pagetable (u64 (sz1 - (USERSTACK + 1) * PGSIZE)) ;;
    let stackbase := u64 (sz1 - USERSTACK * PGSIZE) in
    o <- push_args (S (S MAXARGV)) pagetable sz1 stackbase argv 0 sz1 [] ;;
    match o with
    | None => ret None
    | Some (argc, sp, ustack) =>
        let ustack := ustack ++ [0] in
        let sp := u64 (sp - (Z.of_nat argc + 1) * 8) in
        let sp := sp - sp mod 16 in
        if sp <? stackbase then exec_fail pagetable None sz1
        else
          ok <- copyout pagetable sp (concat (map (le_bytes 8) ustack)) ((Z.of_nat argc + 1) * 8) ;;
          if negb ok then exec_fail pagetable None sz1 else ret (Some (sz1, sp, argc))
    end.

(** Lines 179 to 198: the caller gets the new image. *)
Definition exec_commit (path pagetable sz sp oldsz : Z) (argc : nat) : M Z :=
  i <- me ;;
  p <- get_proc i ;;
  on_mem (fun m => store64 m (p_trapframe p + TF_a 1) sp) ;;
  m <- gets k_mem ;;
  last <- of_fuel (path_last path_fuel m path path) ;;
  set_name i (load_bytes m last 32) ;;
  upd_proc i (set_p_pagetable pagetable) ;;
  upd_proc i (set_p_sz sz) ;;
  on_mem (fun m => store64 m (p_trapframe p + TF_epc) (elf_entry (elf_at m stk_elf))) ;;
  on_mem (fun m => store64 m (p_trapframe p + TF_sp) sp) ;;
  free_pagetable (p_pagetable p) oldsz ;;
  ret (Z.of_nat argc).

Definition exec (ip : nat) (path : Z) (argv : list Z) : M Z :=
  on_mem (fun m => fill_bytes (fill_bytes m stk_elf sizeof_elfhdr 0) stk_ph sizeof_proghdr 0) ;;
  i <- me ;;
  begin_op ;;
  r <- readi ip false stk_elf 0 sizeof_elfhdr ;;
  if negb (r =? sizeof_elfhdr) then fail_work 0 (Some ip) 0 ;; ret (-1)
  else
    m <- gets k_mem ;;
    if negb (elf_magic (elf_at m stk_elf) =? ELF_MAGIC) then fail_work 0 (Some ip) 0 ;; ret (-1)
    else
      pagetable <- alloc_pagetable i ;;
      if pagetable =? 0 then fail_work 0 (Some ip) 0 ;; ret (-1)
      else
        m <- gets k_mem ;;
        let elf := elf_at m stk_elf in
        o <- load_segments (Z.to_nat (elf_phnum elf)) ip pagetable (elf_phoff elf) 0 ;;
        match o with
        | None => ret (-1)
        | Some sz =>
            o <- exec_stack ip pagetable sz argv ;;
            match o with
            | None => ret (-1)
            | Some (sz, sp, argc) =>
                p <- get_proc i ;;
                exec_commit path pagetable sz sp (p_sz p) argc
            end
        end.

End loader.
