(* ===== verification/Sysfile.v ===== *)
(** * System calls ([sysfile.cpp], [syscall.cpp])

    A system call takes its arguments from the caller's trap frame and returns
    an [uint64_t] that [syscall] stores in [a0]; [-1] is [err].  The path buffer
    of a call is the array of [MAXPATH] bytes at [stk_path]. *)

From S2P Require Import Text Fmt Prelude State Riscv Cstring Lock Sched Kalloc Vm UserCopy Pipe Console Bio Log Fs File Proc Loader.

Definition err : Z := u64 (-1).

Definition T_FILE : Z := 2.
Definition T_DEVICE : Z := 3.
Definition O_RDONLY : Z := 0.
Definition O_WRONLY : Z := 1.
Definition O_RDWR : Z := 2.
Definition O_CREATE : Z := 0x200.
Definition O_TRUNC : Z := 0x400.

(** [if (x)] on a flag. *)
Definition has (mode flag : Z) : bool := negb (Z.land (u32 mode) flag =? 0).

(** The current process and its entry. *)
Definition my_proc : M process := i <- me ;; get_proc i.

(** ** Arguments *)

(** [addr + sizeof(uint64_t)] is computed modulo [2^64]. *)
Definition fetch_addr (addr : Z) : M (option Z) :=
  p <- my_proc ;;
  if (p_sz p <=? addr) || (p_sz p <? u64 (addr + 8)) then ret None
  else
    r <- copyin (p_pagetable p) addr 8 ;;
    if negb (fst r) then ret None else ret (Some (le_val (snd r))).

(** [cap] is the size of the array at [buf]; a longer string is written past it. *)
Definition fetch_str (addr buf cap len : Z) : M bool :=
  p <- my_proc ;;
  r <- copyinstr (p_pagetable p) addr len ;;
  if cap <? Z.of_nat (length (snd r)) then undef "fetch_str: past the buffer"
  else on_mem (fun m => store_bytes m buf (snd r)) ;; ret (fst r).

(** [p->user]: the global [root], or a null pointer. *)
Definition my_user : M user :=
  p <- my_proc ;;
  if p_user p then gets k_root else undef "p->user".

Definition check_permission (u : user) (ip : inode) (mask : Z) : bool :=
  if i_uid ip =? u_uid u then negb (Z.land (i_mask_user ip) mask =? 0)
  else if i_gid ip =? u_gid u then negb (Z.land (i_mask_group ip) mask =? 0)
  else negb (Z.land (i_mask_other ip) mask =? 0).

Definition check_permission_for_file (i : nat) (mask : Z) : M bool :=
  ip <- get_inode i ;; u <- my_user ;; ret (check_permission u ip mask).

Definition get_argu (index : Z) : M Z :=
  p <- my_proc ;;
  if (0 <=? index) && (index <=? 6) then m <- gets k_mem ;; ret (load64 m (p_trapframe p + TF_a index))
  else panic "syscall::get_argu: get arguments failed".

Definition no_file (o : option nat) : bool := match o with None => true | Some _ => false end.

(** [alloc_fd] and [fd_alloc] have the same body. *)
Definition alloc_fd (f : nat) : M Z :=
  i <- me ;;
  p <- get_proc i ;;
  match find_idx no_file (take NOFILE (p_ofile p)) with
  | Some fd => upd_proc i (fun p => set_p_ofile (<[fd := Some f]> (p_ofile p)) p) ;; ret (Z.of_nat fd)
  | None => ret (-1)
  end.
Definition fd_alloc (f : nat) : M Z := alloc_fd f.

(** The descriptor and its file; [None] is the result -1. *)
Definition get_fd (argu_no : Z) : M (option (nat * nat)) :=
  a <- get_argu argu_no ;;
  let fd := s32 a in
  if (fd <? 0) || (Z.of_nat NOFILE <=? fd) then ret None
  else
    p <- my_proc ;;
    o <- of_option "ofile" (p_ofile p !! Z.to_nat fd) ;;
    match o with
    | None => ret None
    | Some f => ret (Some (Z.to_nat fd, f))
    end.

Definition clear_fd (fd : nat) : M unit :=
  i <- me ;; upd_proc i (fun p => set_p_ofile (<[fd := None]> (p_ofile p)) p).

(** The system calls, the numbers [ulibc/src/include/syscall.h] gives them, and the function
    that serves each. *)
Inductive syscall_name :=
  | Call_fork | Call_exit | Call_wait | Call_pipe | Call_read | Call_kill | Call_exec | Call_fstat
  | Call_chdir | Call_dup | Call_getpid | Call_sbrk | Call_sleep | Call_uptime | Call_open
  | Call_write | Call_mknod | Call_unlink | Call_link | Call_mkdir | Call_close | Call_setuid
  | Call_setgid.

Definition sys_number (c : syscall_name) : Z :=
  match c with
  | Call_fork => 0 | Call_exit => 1 | Call_wait => 2 | Call_pipe => 3 | Call_read => 4
  | Call_kill => 5 | Call_exec => 6 | Call_fstat => 7 | Call_chdir => 8 | Call_dup => 9
  | Call_getpid => 10 | Call_sbrk => 11 | Call_sleep => 12 | Call_uptime => 13 | Call_open => 14
  | Call_write => 15 | Call_mknod => 16 | Call_unlink => 17 | Call_link => 18 | Call_mkdir => 29
  | Call_close => 20 | Call_setuid => 21 | Call_setgid => 22
  end.

Section sys.
Context {DD : DiskDriver} {LY : Layout}.

(** ** Creating files *)

(** [ip->nlink = 0; iupdate(ip); iunlockput(ip); iunlockput(dp); return nullptr]. *)
Definition create_undo (ip dp : nat) : M (option nat) :=
  upd_inode ip (set_i_nlink 0) ;;
  iupdate ip ;;
  iunlockput ip ;;
  iunlockput dp ;;
  ret None.

(** The fields of a new inode. *)
Definition new_inode (u : user) (major minor : Z) (ip : inode) : inode :=
  set_i_mask_other 7 (set_i_mask_group 7 (set_i_mask_user 7 (set_i_gid (u_gid u) (set_i_uid (u_uid u)
    (set_i_nlink 1 (set_i_minor (s16 minor) (set_i_major (s16 major) ip))))))).

(** The entries [.] and [..] of a new directory; [..] also names the directory itself. *)
Definition link_dots (ip : nat) : M bool :=
  n <- get_inode ip ;;
  r <- dir_link_inum ip str_dot stk_de (i_inum n) ;;
  if r <? 0 then ret false
  else
    n <- get_inode ip ;;
    r <- dir_link_inum ip str_dotdot stk_de (i_inum n) ;;
    ret (negb (r <? 0)).

(** Lines 138 to 182: no entry has the name yet. *)
Definition create_new (dp : nat) (type major minor : Z) : M (option nat) :=
  d <- get_inode dp ;;
  o <- ialloc (i_dev d) (s16 type) ;;
  match o with
  | None => iunlockput dp ;; ret None
  | Some ip =>
      ilock (Some ip) ;;
      u <- my_user ;;
      upd_inode ip (new_inode u major minor) ;;
      iupdate ip ;;
      ok <- (if type =? T_DIR then link_dots ip else ret true) ;;
      if negb ok then create_undo ip dp
      else
        r <- dir_link dp stk_name stk_de ip ;;
        if r <? 0 then create_undo ip dp
        else
          when (type =? T_DIR)
            (upd_inode dp (fun d => set_i_nlink (s16 (i_nlink d + 1)) d) ;; iupdate dp) ;;
          iunlockput dp ;;
          ret (Some ip)
  end.

Definition create (path type major minor : Z) : M (option nat) :=
  o <- nameiparent path_fuel path stk_name stk_de ;;
  match o with
  | None => ret None
  | Some dp =>
      ilock (Some dp) ;;
      o <- dir_lookup dp stk_name stk_de ;;
      match o with
      | Some (ip, _) =>
          iunlockput dp ;;
          ilock (Some ip) ;;
          n <- get_inode ip ;;
          if (type =? T_FILE) && ((i_type n =? T_FILE) || (i_type n =? T_DEVICE)) then ret (Some ip)
          else iunlockput ip ;; ret None
      | None => create_new dp type major minor
      end
  end.

(** ** [exec] *)

(** Frees the pages of [argv] up to the first null pointer. *)
Fixpoint fail_work4exec (argv : list Z) : M unit :=
  match argv with
  | [] => ret tt
  | a :: l => if a =? 0 then ret tt else kfree a ;; fail_work4exec l
  end.

(** The [while (true)] of [sys_exec]: [argv], or [None] after an error. *)
Fixpoint fetch_args (fuel : nat) (uargv : Z) (argv : list Z) (i : nat) : M (option (list Z)) :=
  match fuel with
  | O => fun _ _ => NoFuel
  | S f =>
      if (MAXARGV <? i)%nat then fail_work4exec argv ;; ret None
      else
        o <- fetch_addr (u64 (uargv + 8 * Z.of_nat i)) ;;
        match o with
        | None => fail_work4exec argv ;; ret None
        | Some uarg =>
            if negb (i <? MAXARGV)%nat then undef "argv[i]"
            else if uarg =? 0 then ret (Some (<[i := 0]> argv))
            else
              opt <- kalloc ;;
              page <- of_option "optional::value" opt ;;
              let argv := <[i := page]> argv in
              if page =? 0 then fail_work4exec argv ;; ret None
              else
                ok <- fetch_str uarg page PGSIZE PGSIZE ;;
                if negb ok then fail_work4exec argv ;; ret None
                else fetch_args f uargv argv (S i)
        end
  end.

Definition sys_exec : M Z :=
  on_mem (fun m => fill_bytes m stk_path MAXPATH 0) ;;
  uargv <- get_argu 1 ;;
  path_addr <- get_argu 0 ;;
  ok <- fetch_str path_addr stk_path MAXPATH MAXPATH ;;
  if negb ok then ret err
  else
    o <- fetch_args (S (S MAXARGV)) uargv (zeros MAXARGV) 0 ;;
    match o with
    | None => ret err
    | Some argv =>
        ip <- namei path_fuel stk_path stk_name stk_de ;;
        ilock ip ;;
        i <- of_option "ip" ip ;;
        ok <- check_permission_for_file i 1 ;;
        if negb ok then iunlock ip ;; ret err
        else
          rs <- exec i stk_path argv ;;
          when (rs =? -1) (print (chars "sys_exec: exec call failed" ++ [10]) []) ;;
          fail_work4exec argv ;;
          ret (u64 rs)
    end.

(** ** Processes *)

Definition sys_fork : M Z := r <- fork ;; ret (u64 r).

Definition sys_exit : M Z := status <- get_argu 0 ;; exit (s32 status).

Definition sys_wait : M Z := p <- get_argu 0 ;; r <- wait p ;; ret (u64 r).

Definition sys_kill : M Z := pid <- get_argu 0 ;; r <- kill (u32 pid) ;; ret (u64 r).

Definition sys_getpid : M Z := p <- my_proc ;; ret (p_pid p).

Definition sys_sbrk : M Z :=
  n <- get_argu 0 ;;
  p <- my_proc ;;
  r <- grow (s32 n) ;;
  if r <? 0 then ret err else ret (p_sz p).

Definition sys_sleep : M Z := ret 0.
Definition sys_uptime : M Z := ret 0.
Definition sys_unlink : M Z := ret 0.
Definition sys_link : M Z := ret 0.

Definition sys_setuid : M Z :=
  id <- get_argu 0 ;;
  u <- my_user ;;
  acquire L_user ;;
  modify (fun s => set_k_root (set_u_uid (u32 id) (k_root s)) s) ;;
  release L_user ;;
  ret 0.

Definition sys_setgid : M Z :=
  id <- get_argu 0 ;;
  u <- my_user ;;
  acquire L_user ;;
  modify (fun s => set_k_root (set_u_gid (u32 id) (k_root s)) s) ;;
  release L_user ;;
  ret 0.

(** ** Descriptors *)

Definition sys_pipe : M Z :=
  fdarray <- get_argu 0 ;;
  r <- pipealloc ;;
  let '(rc, rf, wf) := r in
  if rc <? 0 then ret err
  else
    rf <- of_option "rf" rf ;;
    wf <- of_option "wf" wf ;;
    fd0 <- alloc_fd rf ;;
    fd1 <- (if fd0 <? 0 then ret (-1) else alloc_fd wf) ;;
    if (fd0 <? 0) || (fd1 <? 0) then
      when (0 <=? fd0) (clear_fd (Z.to_nat fd0)) ;; close rf ;; close wf ;; ret err
    else
      p <- my_proc ;;
      ok0 <- copyout (p_pagetable p) fdarray (le_bytes 4 fd0) 4 ;;
      ok <- (if negb ok0 then ret false else copyout (p_pagetable p) (u64 (fdarray + 4)) (le_bytes 4 fd1) 4) ;;
      if negb ok then
        clear_fd (Z.to_nat fd0) ;; clear_fd (Z.to_nat fd1) ;; close rf ;; close wf ;; ret err
      else ret 0.

Definition sys_read : M Z :=
  addr <- get_argu 1 ;;
  size <- get_argu 2 ;;
  o <- get_fd 0 ;;
  match o with
  | None => ret err
  | Some (_, f) => r <- read f addr (s32 size) ;; ret (u64 r)
  end.

Definition sys_write : M Z :=
  addr <- get_argu 1 ;;
  size <- get_argu 2 ;;
  o <- get_fd 0 ;;
  match o with
  | None => ret err
  | Some (_, f) => r <- write f addr (s32 size) ;; ret (u64 r)
  end.

Definition sys_fstat : M Z :=
  st <- get_argu 1 ;;
  o <- get_fd 0 ;;
  match o with
  | None => ret err
  | Some (_, f) => r <- fstat stk_pad f st ;; ret (u64 r)
  end.

Definition sys_dup : M Z :=
  o <- get_fd 0 ;;
  match o with
  | None => ret err
  | Some (_, f) =>
      fd <- fd_alloc f ;;
      if fd <? 0 then ret err else dup f ;; ret fd
  end.

Definition sys_close : M Z :=
  o <- get_fd 0 ;;
  match o with
  | None => ret err
  | Some (fd, f) => clear_fd fd ;; close f ;; ret 0
  end.

Definition sys_chdir : M Z :=
  begin_op ;;
  addr <- get_argu 0 ;;
  ok <- fetch_str addr stk_path MAXPATH MAXPATH ;;
  if negb ok then end_op ;; ret err
  else
    o <- namei path_fuel stk_path stk_name stk_de ;;
    match o with
    | None => end_op ;; ret err
    | Some ip =>
        ilock (Some ip) ;;
        n <- get_inode ip ;;
        if negb (i_type n =? T_DIR) then iunlockput ip ;; end_op ;; ret err
        else
          iunlock (Some ip) ;;
          i <- me ;;
          p <- get_proc i ;;
          c <- of_option "p->cwd" (p_cwd p) ;;
          iput c ;;
          end_op ;;
          upd_proc i (set_p_cwd (Some ip)) ;;
          ret 0
    end.

(** ** [open] *)

(** The permission bits a mode asks for; other modes are not checked. *)
Definition open_mask (mode : Z) : option Z :=
  if u32 mode =? O_RDONLY then Some 4
  else if (u32 mode =? O_WRONLY) || (u32 mode =? O_TRUNC) then Some 2
  else if u32 mode =? O_RDWR then Some 6
  else None.

Definition open_failed (ip : nat) : M Z := iunlockput ip ;; end_op ;; ret err.

(** The new open file for [ip]. *)
Definition open_file (mode : Z) (ip : nat) (n : inode) (f : file) : file :=
  let f := if i_type n =? T_DEVICE then set_f_major (i_major n) (set_f_type FD_DEVICE f)
           else set_f_off 0 (set_f_type FD_INODE f) in
  set_f_writable (has mode O_WRONLY || has mode O_RDWR)
    (set_f_readable (negb (has mode O_WRONLY)) (set_f_ip (Some ip) f)).

(** Lines 420 to 480, with [ip] locked. *)
Definition open_inode (mode : Z) (ip : nat) : M Z :=
  ok <- (match open_mask mode with Some mask => check_permission_for_file ip mask | None => ret true end) ;;
  if negb ok then open_failed ip
  else
    n <- get_inode ip ;;
    if (i_type n =? T_DEVICE) && ((i_major n <? 0) || (Z.of_nat NDEV <=? i_major n)) then open_failed ip
    else
      o <- alloc ;;
      match o with
      | None => open_failed ip
      | Some f =>
          fd <- alloc_fd f ;;
          if fd =? -1 then close f ;; open_failed ip
          else
            n <- get_inode ip ;;
            upd_file f (open_file mode ip n) ;;
            when (has mode O_TRUNC && (i_type n =? T_FILE)) (itrunc ip) ;;
            iunlock (Some ip) ;;
            end_op ;;
            ret fd
      end.

Definition sys_open : M Z :=
  on_mem (fun m => fill_bytes m stk_path MAXPATH 0) ;;
  mode <- get_argu 1 ;;
  addr <- get_argu 0 ;;
  ok <- fetch_str addr stk_path MAXPATH MAXPATH ;;
  if negb ok then ret err
  else
    begin_op ;;
    if has mode O_CREATE then
      o <- create stk_path T_FILE 0 0 ;;
      match o with
      | None => end_op ;; ret err
      | Some ip => open_inode mode ip
      end
    else
      o <- namei path_fuel stk_path stk_name stk_de ;;
      match o with
      | None => end_op ;; ret err
      | Some ip =>
          ilock (Some ip) ;;
          n <- get_inode ip ;;
          if (i_type n =? T_DIR) && negb (u32 mode =? O_RDONLY) then open_failed ip
          else open_inode mode ip
      end.

(** The length passed to [fetch_str] is [MAXFILE], not [MAXPATH]; the transaction is
    left open on errors. *)
Definition sys_mknod : M Z :=
  begin_op ;;
  major <- get_argu 1 ;;
  minor <- get_argu 2 ;;
  addr <- get_argu 0 ;;
  ok <- fetch_str addr stk_path MAXPATH MAXFILE ;;
  if negb ok then ret err
  else
    o <- create stk_path T_DEVICE major minor ;;
    match o with
    | None => ret err
    | Some ip => iunlockput ip ;; end_op ;; ret 0
    end.

Definition sys_mkdir : M Z :=
  begin_op ;;
  addr <- get_argu 0 ;;
  ok <- fetch_str addr stk_path MAXPATH MAXPATH ;;
  if negb ok then end_op ;; ret err
  else
    o <- create stk_path T_DIR 0 0 ;;
    match o with
    | None => end_op ;; ret err
    | Some ip =>
        u <- my_user ;;
        upd_inode ip (fun n => set_i_mask_other 7 (set_i_mask_group 7 (set_i_mask_user 7 (set_i_gid (u_gid u) (set_i_uid (u_uid u) n))))) ;;
        iunlockput ip ;;
        end_op ;;
        ret 0
    end.

(** ** The dispatcher *)

Definition syscalls : list (M Z) :=
  [sys_fork; sys_exit; sys_wait; sys_pipe; sys_read; sys_kill; sys_exec; sys_fstat; sys_chdir; sys_dup; sys_getpid;
   sys_sbrk; sys_sleep; sys_uptime; sys_open; sys_write; sys_mknod; sys_unlink; sys_link; sys_mkdir; sys_close;
   sys_setuid; sys_setgid].

Definition handler (c : syscall_name) : M Z :=
  match c with
  | Call_fork => sys_fork | Call_exit => sys_exit | Call_wait => sys_wait | Call_pipe => sys_pipe
  | Call_read => sys_read | Call_kill => sys_kill | Call_exec => sys_exec | Call_fstat => sys_fstat
  | Call_chdir => sys_chdir | Call_dup => sys_dup | Call_getpid => sys_getpid
  | Call_sbrk => sys_sbrk | Call_sleep => sys_sleep | Call_uptime => sys_uptime
  | Call_open => sys_open | Call_write => sys_write | Call_mknod => sys_mknod
  | Call_unlink => sys_unlink | Call_link => sys_link | Call_mkdir => sys_mkdir
  | Call_close => sys_close | Call_setuid => sys_setuid | Call_setgid => sys_setgid
  end.

(** [sizeof(syscalls)] is in bytes. *)
Definition syscall : M unit :=
  i <- me ;;
  p <- get_proc i ;;
  m <- gets k_mem ;;
  let num := load64 m (p_trapframe p + TF_a 7) in
  if num <=? Z.of_nat (length syscalls) * 8 then
    f <- of_option "syscalls[num]" (syscalls !! Z.to_nat num) ;;
    r <- f ;;
    on_mem (fun m => store64 m (p_trapframe p + TF_a 0) r)
  else
    print (chars "{} {} {} unknown syscall") [FInt 32 false (p_pid p); FStr (Some (c_name p)); FInt 64 false num].

End sys.
