(* ===== verification/SysSpec.v ===== *)
(** * Properties of the system calls

    Arguments come from the trap frame, descriptors index the caller's table of
    open files, and the dispatcher runs the handler of the call's number. *)

From S2P Require Import Text Fmt Prelude State Riscv Cstring Lock Sched Kalloc Vm UserCopy Pipe Console Bio Log Fs File Proc Loader Sysfile.

(** The caller of a system call. *)
Record sys_caller (p : nat) (pr : process) (s : kernel) : Prop := Caller {
  ca_room : room 1 (k_hl s);
  ca_me : me_of s = Some p;
  ca_pr : k_procs s !! p = Some pr
}.

Section runs.
Context (p : nat) (pr : process) (s : kernel).
Hypothesis Hc : sys_caller p pr s.

Lemma my_proc_run e : my_proc s e = Ret pr s e.
Proof. unfold my_proc. kstep (me_run s e 1 p); [apply Hc | apply Hc |]. apply get_proc_run, Hc. Qed.

Lemma get_argu_run i e : 0 <= i <= 6 -> get_argu i s e = Ret (load64 (k_mem s) (p_trapframe pr + TF_a i)) s e.
Proof. intros Hi. unfold get_argu. kstep my_proc_run. rewrite (proj2 (Z.leb_le 0 i)), (proj2 (Z.leb_le i 6)) by lia. done. Qed.

Lemma get_fd_run i e fd f : 0 <= i <= 6 ->
  s32 (load64 (k_mem s) (p_trapframe pr + TF_a i)) = Z.of_nat fd -> (fd < NOFILE)%nat -> p_ofile pr !! fd = Some (Some f) ->
  get_fd i s e = Ret (Some (fd, f)) s e.
Proof.
  intros Hi Ha Hfd Hf. unfold get_fd. kstep get_argu_run; [done|]. rewrite Ha.
  destruct (Z.ltb_spec (Z.of_nat fd) 0), (Z.leb_spec (Z.of_nat NOFILE) (Z.of_nat fd)); try lia. cbn [orb].
  kstep my_proc_run. by rewrite Nat2Z.id, Hf.
Qed.

(** The state in which descriptor [fd] of the caller is [o]. *)
Definition with_fd (fd : nat) (o : option nat) : kernel :=
  set_k_procs (<[p := set_p_ofile (<[fd := o]> (p_ofile pr)) pr]> (k_procs s)) s.

Lemma alloc_fd_run f e fd : find_idx no_file (take NOFILE (p_ofile pr)) = Some fd ->
  alloc_fd f s e = Ret (Z.of_nat fd) (with_fd fd (Some f)) e.
Proof.
  intros Hfd. unfold alloc_fd. kstep (me_run s e 1 p); [apply Hc | apply Hc |]. kstep get_proc_run; [apply Hc|]. rewrite Hfd.
  kstep upd_proc_run; [apply Hc|]. done.
Qed.

Lemma alloc_fd_full f e : find_idx no_file (take NOFILE (p_ofile pr)) = None -> alloc_fd f s e = Ret (-1) s e.
Proof.
  intros Hfd. unfold alloc_fd. kstep (me_run s e 1 p); [apply Hc | apply Hc |]. kstep get_proc_run; [apply Hc|]. by rewrite Hfd.
Qed.

Lemma clear_fd_run fd e : clear_fd fd s e = Ret tt (with_fd fd None) e.
Proof. unfold clear_fd. kstep (me_run s e 1 p); [apply Hc | apply Hc |]. by rewrite (upd_proc_run _ _ pr) by apply Hc. Qed.
End runs.

(** ** Descriptors *)

(** [dup]: the lowest free descriptor refers to the same file. *)
Lemma sys_dup_run p pr fd new f fl s e :
  sys_caller p pr s -> free L_ftable (k_hl s) -> s32 (load64 (k_mem s) (p_trapframe pr + TF_a 0)) = Z.of_nat fd -> (fd < NOFILE)%nat ->
  p_ofile pr !! fd = Some (Some f) -> k_ftable s !! f = Some fl -> 1 <= f_ref fl ->
  find_idx no_file (take NOFILE (p_ofile pr)) = Some new ->
  sys_dup s e = Ret (Z.of_nat new) (set_slot f (set_f_ref (f_ref fl + 1) fl) (with_fd p pr s new (Some f))) e.
Proof.
  intros Hc Hf Ha Hfd Ho Hfl H1 Hn. unfold sys_dup, fd_alloc. kstep (get_fd_run p pr s Hc); [lia | exact Ha | exact Hfd | exact Ho |].
  kstep (alloc_fd_run p pr s Hc); [exact Hn |]. destruct (Z.ltb_spec (Z.of_nat new) 0); [lia|].
  kstep dup_run; [apply Hc | exact Hf | exact Hfl | lia |]. done.
Qed.

Lemma sys_dup_full p pr fd f s e :
  sys_caller p pr s -> s32 (load64 (k_mem s) (p_trapframe pr + TF_a 0)) = Z.of_nat fd -> (fd < NOFILE)%nat ->
  p_ofile pr !! fd = Some (Some f) -> find_idx no_file (take NOFILE (p_ofile pr)) = None -> sys_dup s e = Ret err s e.
Proof.
  intros Hc Ha Hfd Ho Hn. unfold sys_dup, fd_alloc. kstep (get_fd_run p pr s Hc); [lia | exact Ha | exact Hfd | exact Ho |].
  kstep (alloc_fd_full p pr s Hc); [exact Hn|]. done.
Qed.

Lemma sys_close_shared {DD : DiskDriver} p pr fd f fl s e :
  sys_caller p pr s -> free L_ftable (k_hl s) -> s32 (load64 (k_mem s) (p_trapframe pr + TF_a 0)) = Z.of_nat fd -> (fd < NOFILE)%nat ->
  p_ofile pr !! fd = Some (Some f) -> k_ftable s !! f = Some fl -> 2 <= f_ref fl ->
  sys_close s e = Ret 0 (set_slot f (set_f_ref (f_ref fl - 1) fl) (with_fd p pr s fd None)) e.
Proof.
  intros Hc Hf Ha Hfd Ho Hfl H2. unfold sys_close. kstep (get_fd_run p pr s Hc); [lia | exact Ha | exact Hfd | exact Ho |].
  kstep (clear_fd_run p pr s Hc). kstep close_shared; [apply Hc | exact Hf | exact Hfl | lia |]. done.
Qed.

Lemma s32_nat n : (n < NOFILE)%nat -> s32 (u64 (Z.of_nat n)) = Z.of_nat n.
Proof.
  unfold NOFILE. intros H. assert (u32 (u64 (Z.of_nat n)) = Z.of_nat n) as E by zmod.
  unfold s32. rewrite E. destruct (Z.ltb_spec (Z.of_nat n) (2 ^ 31)); lia.
Qed.

(** C39: dup returns the lowest free descriptor, which then refers to the same file with
    one more reference, or -1 without effect when all are taken; closing the new
    descriptor restores the descriptor table and the file table. *)
Theorem dup_close_descriptors {DD : DiskDriver} p pr fd f fl s e :
  let tf := p_trapframe pr in
  sys_caller p pr s -> free L_ftable (k_hl s) -> s32 (load64 (k_mem s) (tf + TF_a 0)) = Z.of_nat fd -> (fd < NOFILE)%nat ->
  length (p_ofile pr) = NOFILE -> p_ofile pr !! fd = Some (Some f) -> k_ftable s !! f = Some fl -> 1 <= f_ref fl ->
  match find_idx no_file (p_ofile pr) with
  | None => (forall j, (j < NOFILE)%nat -> p_ofile pr !! j <> Some None) /\ sys_dup s e = Ret err s e
  | Some new =>
      p_ofile pr !! new = Some None /\ (forall j, (j < new)%nat -> p_ofile pr !! j <> Some None) /\
      exists s1, sys_dup s e = Ret (Z.of_nat new) s1 e /\
        k_procs s1 = <[p := set_p_ofile (<[new := Some f]> (p_ofile pr)) pr]> (k_procs s) /\
        k_ftable s1 = <[f := set_f_ref (f_ref fl + 1) fl]> (k_ftable s) /\
        (on_mem (fun m => store64 m (tf + TF_a 0) (Z.of_nat new)) ;; sys_close) s1 e =
          Ret 0 (set_k_mem (store64 (k_mem s) (tf + TF_a 0) (Z.of_nat new)) (set_k_hl (bal (k_hl s)) s)) e
  end.
Proof.
  intros tf Hc Hf Ha Hfd Hlen Ho Hfl H1. pose proof (ca_room _ _ _ Hc) as Hr. pose proof (ca_pr _ _ _ Hc) as Hp.
  assert (take NOFILE (p_ofile pr) = p_ofile pr) as Ht by (apply take_ge; lia).
  destruct (find_idx no_file (p_ofile pr)) as [new|] eqn:Hn.
  - pose proof Hn as Hn'. apply find_idx_Some in Hn' as ([g|] & Hnew & Hg & Hlow); [done|].
    assert (new < NOFILE)%nat as Hnl by (apply lookup_lt_Some in Hnew; lia).
    split; [done|]. split; [intros j Hj Hx; by specialize (Hlow j None Hj Hx)|].
    eexists. split; [apply (sys_dup_run p pr fd new f fl); try done; by rewrite Ht|].
    split; [done|]. split; [done|]. unfold on_mem. rewrite bind_modify.
    set (pr1 := set_p_ofile (<[new := Some f]> (p_ofile pr)) pr).
    match goal with |- sys_close ?s2 _ = _ => assert (sys_caller p pr1 s2) as Hc2 end.
    { split; [cbn; by apply room_bal | unfold me_of; cbn; rewrite c_proc_bal by apply Hr; apply Hc |].
      cbn. apply list_lookup_insert_eq. by apply lookup_lt_Some in Hp. }
    rewrite (sys_close_shared p pr1 new f (set_f_ref (f_ref fl + 1) fl)); [|exact Hc2 | cbn; by apply free_bal | | done | | |].
    + unfold set_slot, with_fd. cbn. rewrite !list_insert_insert_eq, bal_idem by apply Hr. f_equal.
      rewrite (list_insert_id (k_procs s)), (list_insert_id (k_ftable s)); [by destruct s | |].
      * rewrite Hfl, set_f_ref_twice. replace (f_ref fl + 1 - 1) with (f_ref fl) by lia. by destruct fl.
      * rewrite Hp. unfold pr1. rewrite (list_insert_id (p_ofile pr)) by done. by destruct pr.
    + cbn [k_mem set_k_mem p_trapframe set_p_ofile pr1]. fold tf. rewrite load64_store64. by apply s32_nat.
    + cbn. apply list_lookup_insert_eq. lia.
    + cbn. apply list_lookup_insert_eq. by apply lookup_lt_Some in Hfl.
    + cbn. lia.
  - split; [|apply (sys_dup_full p pr fd f); try done; by rewrite Ht].
    intros j Hj Hx. apply find_idx_None in Hn. by specialize (Forall_lookup_1 _ _ _ _ Hn Hx).
Qed.

(** Process 0 with the file of slot 3 open as descriptor 0, and [a0 = 0]. *)
Definition opener : process := set_p_ofile (<[0%nat := Some 3%nat]> (p_ofile proc0)) proc0.
Definition opened : kernel :=
  set_k_ftable (<[3%nat := set_f_ref 1 file0]> (k_ftable boot0)) (set_k_procs (<[0%nat := opener]> (k_procs boot0)) boot0).

Lemma opened_caller : sys_caller 0 opener opened.
Proof. split; [apply hl_run_ready; lia | reflexivity | reflexivity]. Qed.

Lemma dup_close_descriptors_witness : exists s1 s2,
  sys_dup opened [] = Ret 1 s1 [] /\
  (on_mem (fun m => store64 m (p_trapframe opener + TF_a 0) 1) ;; sys_close (DD := polled_disk)) s1 [] = Ret 0 s2 [] /\
  k_procs s2 = k_procs opened /\ k_ftable s2 = k_ftable opened.
Proof.
  destruct (dup_close_descriptors (DD := polled_disk) 0 opener 0 3 (set_f_ref 1 file0) opened []) as (_ & _ & s1 & H1 & _ & _ & H2).
  - exact opened_caller.
  - reflexivity.
  - reflexivity.
  - vm_compute. lia.
  - reflexivity.
  - reflexivity.
  - reflexivity.
  - cbn. lia.
  - eexists s1, _. split; [exact H1|]. split; [exact H2 | done].
Defined.

(** ** The dispatcher *)

Section dispatch.
Context {DD : DiskDriver} {LY : Layout}.

Lemma syscall_run p pr (f : M Z) r s e s1 e1 :
  sys_caller p pr s -> 0 <= load64 (k_mem s) (p_trapframe pr + TF_a 7) ->
  syscalls !! Z.to_nat (load64 (k_mem s) (p_trapframe pr + TF_a 7)) = Some f -> f s e = Ret r s1 e1 ->
  syscall s e = Ret tt (set_k_mem (store64 (k_mem s1) (p_trapframe pr + TF_a 0) r) s1) e1.
Proof.
  intros Hc H0 Hf Hrun. unfold syscall. kstep (me_run s e 1 p); [apply Hc | apply Hc |]. kstep get_proc_run; [apply Hc|].
  rewrite bind_gets. cbv zeta. pose proof (lookup_lt_Some _ _ _ Hf) as Hl. change (length syscalls) with 23%nat in *.
  rewrite (proj2 (Z.leb_le _ _)) by lia. rewrite Hf. cbn [of_option]. rewrite bind_ret. kstep Hrun. done.
Qed.
End dispatch.

(** C40: For every system call of the C library but mkdir the dispatcher runs the
    handler of that name at the library's number (fork at 0, exit at 1, up to setgid at
    22) and stores its result in a0, passing on panics and blocking; number 19 runs
    sys_mkdir, but the library's number for mkdir is 29, and for the numbers 23 to 184
    the dispatcher reads past the table, because the bound is the table's size in bytes;
    above that it prints the process number, name and call number with the text unknown
    syscall and changes no register. *)
Theorem syscall_dispatch {DD : DiskDriver} {LY : Layout} p pr s e :
  let num := load64 (k_mem s) (p_trapframe pr + TF_a 7) in
  sys_caller p pr s -> 0 <= num ->
  (forall c, c <> Call_mkdir -> num = sys_number c ->
     syscall s e = (r <- handler c ;; on_mem (fun m => store64 m (p_trapframe pr + TF_a 0) r)) s e) /\
  (num = 19 -> syscall s e = (r <- handler Call_mkdir ;; on_mem (fun m => store64 m (p_trapframe pr + TF_a 0) r)) s e) /\
  (23 <= num <= 184 -> syscall s e = Undef "syscalls[num]") /\ 23 <= sys_number Call_mkdir <= 184 /\
  (184 < num -> syscall s e =
     print (chars "{} {} {} unknown syscall") [FInt 32 false (p_pid pr); FStr (Some (c_name pr)); FInt 64 false num] s e).
Proof.
  intros num Hc H0.
  assert (syscall s e = (if num <=? 184 then f <- of_option "syscalls[num]" (syscalls !! Z.to_nat num) ;; r <- f ;;
            on_mem (fun m => store64 m (p_trapframe pr + TF_a 0) r)
            else print (chars "{} {} {} unknown syscall") [FInt 32 false (p_pid pr); FStr (Some (c_name pr)); FInt 64 false num]) s e) as E.
  { unfold syscall. kstep (me_run s e 1 p); [apply Hc | apply Hc |]. kstep get_proc_run; [apply Hc|]. rewrite bind_gets. reflexivity. }
  rewrite E. clearbody num. split_and!.
  - intros c Hne ->. destruct c; done.
  - by intros ->.
  - intros Hin. rewrite (proj2 (Z.leb_le _ _)) by lia. rewrite lookup_ge_None_2 by (cbn [length syscalls]; lia). reflexivity.
  - done.
  - done.
  - intros Hgt. by rewrite (proj2 (Z.leb_gt _ _)) by lia.
Qed.

(** Addresses of a small image, for the witnesses. *)
Definition layout0 : Layout :=
  {| sym_end := 0x80020000; sym_etext := 0x80010000; sym_trampoline := 0x8000f000; sym_uservec := 0x8000f000; sym_userret := 0x8000f100;
     sym_kernelvec := 0x8000e000; fn_forkret := 0x80001000; fn_user_trap := 0x80002000; sizeof_process := 360; str_root := 0x80011000;
     str_dot := 0x80011008; str_dotdot := 0x80011010; stk_path := 0x80018000; stk_name := 0x80018100; stk_de := 0x80018200;
     stk_elf := 0x80018300; stk_ph := 0x80018400; stk_pad := [0; 0; 0; 0] |}.

(** [getpid] (10), and the numbers just past the table and past its size in bytes. *)
Definition calling (num : Z) : kernel := set_k_mem (store64 (k_mem boot0) (p_trapframe proc0 + TF_a 7) num) boot0.

Lemma syscall_dispatch_witness :
  syscall (DD := polled_disk) (LY := layout0) (calling 10) [] =
    (r <- sys_getpid ;; on_mem (fun m => store64 m (p_trapframe proc0 + TF_a 0) r)) (calling 10) [] /\
  syscall (DD := polled_disk) (LY := layout0) (calling 29) [] = Undef "syscalls[num]" /\
  syscall (DD := polled_disk) (LY := layout0) (calling 185) [] =
    print (chars "{} {} {} unknown syscall") [FInt 32 false 0; FStr (Some []); FInt 64 false 185] (calling 185) [].
Proof.
  assert (forall n, sys_caller 0 proc0 (calling n)) as Hc by (intros n; split; [apply hl_run_ready; lia | reflexivity | reflexivity]).
  assert (forall n, load64 (k_mem (calling n)) (p_trapframe proc0 + TF_a 7) = u64 n) as Hn by (intros n; apply load64_store64).
  destruct (syscall_dispatch (DD := polled_disk) (LY := layout0) 0 proc0 (calling 10) []) as [H1 _];
    [apply Hc | rewrite Hn; vm_compute; discriminate |].
  destruct (syscall_dispatch (DD := polled_disk) (LY := layout0) 0 proc0 (calling 29) []) as (_ & _ & H2 & _);
    [apply Hc | rewrite Hn; vm_compute; discriminate |].
  destruct (syscall_dispatch (DD := polled_disk) (LY := layout0) 0 proc0 (calling 185) []) as (_ & _ & _ & _ & H3);
    [apply Hc | rewrite Hn; vm_compute; discriminate |].
  rewrite Hn in H1, H2, H3. split_and!.
  - exact (H1 Call_getpid ltac:(discriminate) eq_refl).
  - apply H2. vm_compute. split; discriminate.
  - exact (H3 eq_refl).
Defined.
