(* ===== verification/ForkSpec.v ===== *)
(** * Properties of process creation ([proc.cpp]: [alloc_proc], [fork])

    A new process takes the first unused entry of the table, a trap frame and
    an address space of its own; [fork] fills them with copies of the caller's
    memory, registers, open files and working directory. *)

From S2P Require Import Prelude State Riscv Cstring Lock Sched Kalloc Vm Uvm UvmFree UvmCopy Bio Fs FsSpec File Proc Loader Sysfile SysSpec.

(** ** Writing to free pages *)

(** [x] is in no page of [L]. *)
Definition away (L : list Z) (x : Z) : Prop := forall b, b ∈ L -> ~ in_page b x.

Lemma page_away L b x : Forall is_page L -> is_page b -> b ∉ L -> in_page b x -> away L x.
Proof.
  intros HL Hb Hn Hx c Hc Hcx. apply Hn. rewrite Forall_forall in HL.
  by rewrite (page_disjoint b c x Hb (HL c (proj1 (list_elem_of_In _ _) Hc)) Hx Hcx).
Qed.

Lemma away_weaken L L' x : (forall b, b ∈ L' -> b ∈ L) -> away L x -> away L' x.
Proof. intros H Hx b Hb. auto. Qed.

(** An address space is not affected by writes to pages that are free. *)
Section free_writes.
Context (m m' : memory) (root : Z) (L : list Z).
Hypothesis Hwf : user_wf m root L.
Hypothesis HL : Forall is_page L.
Hypothesis Hm' : forall x, away L x -> m' x = m x.

Lemma free_same b x : is_table m root b -> in_page b x -> m' x = m x.
Proof.
  intros (q & Hq & Hb) Hx. destruct (proj1 (uw_pt _ _ _ Hwf) q b Hq Hb) as [Hp Hn]. apply Hm'. by apply (page_away L b).
Qed.

Lemma free_val va : pte_val m' root va = pte_val m root va.
Proof. apply same_val. exact free_same. Qed.

Lemma free_loc va : pte_loc m' root va = pte_loc m root va.
Proof. apply same_loc. exact free_same. Qed.

Lemma free_table b : is_table m' root b <-> is_table m root b.
Proof. split; intros (q & Hq & Hb); exists q; (split; [done|]); [rewrite <- (same_page_at m m' root free_same) | rewrite (same_page_at m m' root free_same)]; done. Qed.

Lemma free_owns b : owns m' root b <-> owns m root b.
Proof.
  unfold owns. rewrite free_table. split; (intros [?|(va & Hva)]; [by left|]; right; exists va); [rewrite !free_val in Hva | rewrite !free_val]; done.
Qed.

Lemma free_wf l' : (forall b, b ∈ l' -> b ∈ L) -> user_wf m' root l'.
Proof.
  intros Hl. apply (user_wf_weaken _ _ L); [done|]. destruct Hwf as [[P1 P2] Pg In]. split.
  - split.
    + intros p a Hp. rewrite (same_page_at m m' root free_same) by done. by apply P1.
    + intros p q a Hp Hq. rewrite !(same_page_at m m' root free_same) by done. by apply P2.
  - intros va Hva. rewrite free_val, free_table. by apply Pg.
  - intros va va' Hva Hva'. rewrite !free_val. by apply In.
Qed.
End free_writes.

(** ** The address space of a new process *)

(** The table [root] made from the free pages [l]: only the trampoline and the trap frame are mapped. *)
Record new_space (m : memory) (root : Z) (l : list Z) (tramp fr : Z) (m' : memory) (l' : list Z) : Prop := NewSpace {
  ns_wf : user_wf m' root l';
  ns_val va : va_ok va -> pte_val m' root va =
    if bool_decide (va / PGSIZE = TRAMPOLINE / PGSIZE) then leaf tramp (Z.lor PTE_R PTE_X)
    else if bool_decide (va / PGSIZE = TRAPFRAME / PGSIZE) then leaf fr (Z.lor PTE_R PTE_W) else 0;
  ns_tab b : is_table m' root b -> b ∈ root :: l;
  ns_free b : b ∈ l' -> b ∈ l;
  ns_frame x : away (root :: l) x -> m' x = m x
}.

Lemma new_space_low m root l tramp fr m' l' va : new_space m root l tramp fr m' l' -> 0 <= va < TRAPFRAME -> ~ valid (pte_val m' root va).
Proof.
  intros H Hva. change TRAPFRAME with 274877898752 in Hva. rewrite (ns_val _ _ _ _ _ _ _ H) by (unfold va_ok; lia).
  change (TRAMPOLINE / PGSIZE) with 67108863. change (TRAPFRAME / PGSIZE) with 67108862. unfold PGSIZE.
  rewrite !bool_decide_false by zmod. by intros [].
Qed.

(** One more page in a space, with three free pages for the tables. *)
Lemma map_page_run root va pa flag s e l :
  room 1 (k_hl s) -> free L_kmem (k_hl s) -> kinv (k_mem s) (k_freelist s) l -> user_wf (k_mem s) root l -> (3 <= length l)%nat ->
  va mod PGSIZE = 0 -> 0 <= va <= VA_MAX -> is_page pa -> pa ∉ l -> ~ is_table (k_mem s) root pa -> 0 <= flag < 1024 ->
  (forall va', va_ok va' -> valid (pte_val (k_mem s) root va') -> PTE2PA (pte_val (k_mem s) root va') <> pa) -> ~ valid (pte_val (k_mem s) root va) ->
  exists h' m' fl' l', map_pages root va pa PGSIZE flag s e = Ret true (vm_upd h' m' fl' s) e /\ hl_done (k_hl s) h' /\ kinv m' fl' l' /\
    pt_step (k_mem s) root l m' l' /\ user_wf m' root l' /\ (length l <= 2 + length l')%nat /\
    forall va', va_ok va' -> pte_val m' root va' = if bool_decide (va' / PGSIZE = va / PGSIZE) then leaf pa flag else pte_val (k_mem s) root va'.
Proof.
  intros Hr Hf Hk Hwf Hlen Hal Hva Hp Hnl Hnt Hfl Hfresh Hinv.
  destruct (map_pages_run_len root va pa PGSIZE flag s e l) as (ok & k & h' & m' & fl' & l' & R & D & K & S & P & M & O & N);
    [done | done | done | apply Hwf | done | done | done | lia | unfold PGSIZE; lia | unfold is_page in Hp; lia | unfold is_page in Hp; lia | lia | |].
  { intros va' Hva'. rewrite (pte_val_same_page _ root va va') by (unfold PGSIZE in *; zmod).
    destruct (decide (Z.land (pte_val (k_mem s) root va) PTE_V = 0)); [done | by destruct Hinv]. }
  change (PGSIZE / PGSIZE) with 1 in *. destruct ok; [subst k | destruct O as [_ ->]; cbn in N; lia].
  exists h', m', fl', l'. split_and!; try done; [| lia |].
  - by apply (user_wf_map (k_mem s) root pa l va flag).
  - intros va' Hva'. rewrite (M va' Hva'). unfold PGSIZE in *. case_bool_decide; zcases; cbn [andb]; try done; try zmod. f_equal. zmod.
Qed.

Section proc_spaces.
Context {LY : Layout}.

Lemma alloc_pagetable_run n q s e root l :
  room 1 (k_hl s) -> free L_kmem (k_hl s) -> kinv (k_mem s) (k_freelist s) (root :: l) -> (5 <= length l)%nat ->
  k_procs s !! n = Some q -> is_page (p_trapframe q) -> is_page sym_trampoline -> p_trapframe q <> sym_trampoline ->
  p_trapframe q ∉ root :: l -> sym_trampoline ∉ root :: l ->
  exists h' m' fl' l', alloc_pagetable n s e = Ret root (vm_upd h' m' fl' s) e /\ hl_done (k_hl s) h' /\ kinv m' fl' l' /\
    new_space (k_mem s) root l sym_trampoline (p_trapframe q) m' l' /\ (length l <= 4 + length l')%nat.
Proof.
  intros Hr Hf Hk Hlen Hq Hfp Htp Hne Hfl Htl. set (fr := p_trapframe q) in *. set (tr := sym_trampoline) in *.
  assert (fr <> root /\ fr ∉ l) as [Hf1 Hf2] by set_solver. assert (tr <> root /\ tr ∉ l) as [Ht1 Ht2] by set_solver.
  destruct (uvm_create_some root l s e Hr Hf Hk) as (m1 & fl1 & R1 & K1 & Hp & Hnl & Hz & F1).
  assert (forall b, is_table m1 root b -> b = root) as Tb by (intros b; by apply empty_tables).
  assert (forall va, pte_val m1 root va = 0) as V1 by (intros va; by apply empty_pte_val).
  assert (0 < root) as Hr0 by apply Hp.
  destruct (map_page_run root TRAMPOLINE tr (Z.lor PTE_R PTE_X) (vm_upd (bal (k_hl s)) m1 fl1 s) e l)
    as (h2 & m2 & fl2 & l2 & R2 & D2 & K2 & S2 & W2 & N2 & V2);
    [by apply room_bal | done | done | by apply empty_user_wf | lia | done | by vm_compute | done | done | by intros ->%Tb | by vm_compute |
     intros va _; cbn [k_mem vm_upd set_k_mem set_k_hl]; rewrite V1; by intros [] | cbn [k_mem vm_upd set_k_mem set_k_hl]; rewrite V1; by intros [] |].
  cbn [k_mem k_hl vm_upd set_k_mem set_k_hl] in D2, S2, V2.
  assert (room 1 h2) as Hr2 by (apply (hl_done_room 1 (bal (k_hl s))); [done | by apply room_bal]).
  destruct (map_page_run root TRAPFRAME fr (Z.lor PTE_R PTE_W) (vm_upd h2 m2 fl2 s) e l2)
    as (h3 & m3 & fl3 & l3 & R3 & D3 & K3 & S3 & W3 & N3 & V3);
    [done | by apply (hl_done_free L_kmem (bal (k_hl s))) | done | done | lia | done | by vm_compute | done | | | by vm_compute | | |].
  { by intros ?%(ps_free _ _ _ _ _ S2). }
  { by intros [->%Tb|]%(ps_new _ _ _ _ _ S2). }
  { cbn [k_mem vm_upd set_k_mem set_k_hl]. intros va Hva Hv E. rewrite V2, V1 in E, Hv by done. case_bool_decide; [|by destruct Hv].
    destruct (leaf_pa tr (Z.lor PTE_R PTE_X) Htp) as [E' _]; [by vm_compute | congruence]. }
  { cbn [k_mem vm_upd set_k_mem set_k_hl]. rewrite V2, V1 by (by vm_compute). rewrite bool_decide_false by done. by intros []. }
  cbn [k_mem k_hl vm_upd set_k_mem set_k_hl] in D3, S3, V3.
  exists h3, m3, fl3, l3. split.
  { unfold alloc_pagetable. kstep R1. rewrite (proj2 (Z.eqb_neq root 0)) by lia. kstep R2. cbn [negb]. kstep get_proc_run; [exact Hq|].
    fold fr. kstep R3. done. }
  split; [apply (hl_done_trans 1 _ h2); [done | | done]; apply (hl_done_trans 1 _ (bal (k_hl s))); [done | by right | done]|].
  split; [done|]. split; [|lia]. split; [done | | | |].
  - intros va Hva. rewrite V3, V2, V1 by done. assert (TRAMPOLINE / PGSIZE <> TRAPFRAME / PGSIZE) by done. repeat case_bool_decide; congruence.
  - intros b [Hb|Hb]%(ps_new _ _ _ _ _ S3); [apply (ps_new _ _ _ _ _ S2) in Hb as [->%Tb|]|apply (ps_free _ _ _ _ _ S2) in Hb]; apply elem_of_cons; auto.
  - intros b Hb%(ps_free _ _ _ _ _ S3). by apply (ps_free _ _ _ _ _ S2).
  - intros x Hx. rewrite (ps_frame _ _ _ _ _ S3), (ps_frame _ _ _ _ _ S2); cbn [k_mem vm_upd set_k_mem set_k_hl]; [apply F1, Hx, elem_of_cons; auto|..].
    + intros b [->%Tb|]; apply Hx, elem_of_cons; auto.
    + intros b [[->%Tb|]%(ps_new _ _ _ _ _ S2)|?%(ps_free _ _ _ _ _ S2)]; apply Hx, elem_of_cons; auto.
Qed.

(** ** A new process *)

Lemma hl_done_nested h h' : nested h -> hl_done h h' -> h' = h.
Proof. intros Hn [-> | ->]; [done | exact Hn]. Qed.

Lemma alloc_pid_run s e : room 1 (k_hl s) -> nested (k_hl s) -> free L_pid (k_hl s) ->
  alloc_pid s e = Ret (k_next_pid s) (set_k_next_pid (u32 (k_next_pid s + 1)) s) e.
Proof.
  intros Hr Hn Hf. unfold alloc_pid. kstep acquire_run; [done | done |]. rewrite bind_gets, bind_modify.
  kstep (release_acq_run L_pid (k_hl s)); [done | done | done |]. rewrite Hn. by destruct s.
Qed.

(** An update of the entry that was updated last. *)
Lemma upd_proc_at i f p l s e : k_procs s = <[i := p]> l -> (i < length l)%nat -> upd_proc i f s e = Ret tt (set_k_procs (<[i := f p]> l) s) e.
Proof. intros Hs Hi. rewrite (upd_proc_run i f p); rewrite Hs; [by rewrite list_insert_insert_eq | by apply list_lookup_insert_eq]. Qed.

(** The entry [alloc_proc] leaves. *)
Definition born (pid fr root : Z) (q : process) : process :=
  set_p_context (Mk_context fn_forkret (u64 (p_kstack q + PGSIZE)) (zeros 12))
    (set_p_pagetable root (set_p_trapframe fr (set_p_status USED (set_p_pid pid q)))).

Lemma alloc_entry_run n q s e fr root l :
  room 1 (k_hl s) -> nested (k_hl s) -> free L_pid (k_hl s) -> free L_kmem (k_hl s) -> k_procs s !! n = Some q ->
  kinv (k_mem s) (k_freelist s) (fr :: root :: l) -> (5 <= length l)%nat -> is_page sym_trampoline -> sym_trampoline ∉ fr :: root :: l ->
  exists m1 m' fl' l',
    alloc_entry n s e = Ret (Some n) (set_k_procs (<[n := born (k_next_pid s) fr root q]> (k_procs s))
      (set_k_next_pid (u32 (k_next_pid s + 1)) (vm_upd (k_hl s) m' fl' s))) e /\
    is_page fr /\ kinv m' fl' l' /\ new_space m1 root l sym_trampoline fr m' l' /\ (length l <= 4 + length l')%nat /\
    forall x, away [fr] x -> m1 x = k_mem s x.
Proof.
  intros Hr Hn Hfp Hfk Hq Hk Hlen Htp Htl. assert (n < length (k_procs s))%nat as Hlt by (by apply lookup_lt_Some in Hq).
  set (s1 := set_k_procs (<[n := set_p_status USED (set_p_pid (k_next_pid s) q)]> (k_procs s)) (set_k_next_pid (u32 (k_next_pid s + 1)) s)).
  destruct (kalloc_some fr (root :: l) s1 e Hr Hfk Hk) as (fl1 & R1 & K1 & Hp & Hnl). set (m1 := memset (k_mem s1) fr 5 PGSIZE) in *.
  change (k_hl s1) with (k_hl s) in R1. rewrite Hn in R1.
  destruct (alloc_pagetable_run n (set_p_trapframe fr (set_p_status USED (set_p_pid (k_next_pid s) q)))
              (set_k_procs (<[n := set_p_trapframe fr (set_p_status USED (set_p_pid (k_next_pid s) q))]> (k_procs s)) (vm_upd (k_hl s) m1 fl1 s1)) e root l)
    as (h2 & m2 & fl2 & l2 & R2 & D2 & K2 & S2 & N2); try done; [cbn; by apply list_lookup_insert_eq | cbn; set_solver | set_solver |].
  rewrite (hl_done_nested (k_hl s) h2) in R2 by done.
  assert (0 < root) as H0. { pose proof (kinv_pages _ _ _ K1) as Hpg. inversion_clear Hpg as [|? ? Hrp _]. apply Hrp. }
  exists m1, m2, fl2, l2. split_and!; try done.
  - unfold alloc_entry. kstep alloc_pid_run; [done | done | done |]. kstep upd_proc_run; [exact Hq|].
    kstep upd_proc_at; [reflexivity | done |]. kstep R1. kstep upd_proc_at; [reflexivity | done |]. kstep R2.
    kstep upd_proc_at; [reflexivity | done |]. rewrite (proj2 (Z.eqb_neq root 0)) by lia.
    kstep upd_proc_at; [reflexivity | done |]. unfold ret. f_equal.
  - intros x Hx. apply memset_page_out, Hx. set_solver.
Qed.

(** The scan stops at the first entry that is unused. *)
Lemma alloc_proc_scan n q k : forall i s e, (i + k = n)%nat -> (n < NPROC)%nat -> room 1 (k_hl s) -> nested (k_hl s) -> procs_free None (k_hl s) ->
  length (k_procs s) = NPROC -> k_procs s !! n = Some q -> p_status q = UNUSED ->
  (forall j r, (i <= j < n)%nat -> k_procs s !! j = Some r -> p_status r <> UNUSED) ->
  alloc_proc_from i (NPROC - i) s e = alloc_entry n (set_k_hl (acq (L_proc n) (k_hl s)) s) e.
Proof.
  induction k as [|k IH]; intros i s e Hi Hn Hr Hb Hf Hl Hq Hu Hlow; (destruct (NPROC - i)%nat as [|c] eqn:Hc; [lia|]); cbn [alloc_proc_from].
  - assert (i = n) as -> by lia. kstep acquire_run; [done | by apply Hf |]. kstep get_proc_run; [exact Hq|]. by rewrite bool_decide_true.
  - destruct (lookup_lt_is_Some_2 (k_procs s) i) as [r Hri]; [lia|]. kstep acquire_run; [done | apply Hf; [lia | done] |]. kstep get_proc_run; [exact Hri|].
    rewrite bool_decide_false by (apply (Hlow i); [lia | done]). kstep (release_acq_run (L_proc i) (k_hl s)); [done | done | apply Hf; [lia | done] |].
    rewrite Hb. replace (set_k_hl (k_hl s) (set_k_hl (acq (L_proc i) (k_hl s)) s)) with s by (by destruct s). replace c with (NPROC - S i)%nat by lia.
    apply IH; try done; try lia. intros j r' Hj. apply Hlow. lia.
Qed.

(** Without one the kernel stops. *)
Lemma alloc_proc_full k : forall i s e, (i + k = NPROC)%nat -> room 1 (k_hl s) -> nested (k_hl s) -> procs_free None (k_hl s) ->
  length (k_procs s) = NPROC -> (forall j r, k_procs s !! j = Some r -> p_status r <> UNUSED) ->
  alloc_proc_from i k s e = Panic "proc::alloc: no proc" s.
Proof.
  induction k as [|k IH]; intros i s e Hi Hr Hb Hf Hl Hlow; cbn [alloc_proc_from]; [done|].
  destruct (lookup_lt_is_Some_2 (k_procs s) i) as [r Hri]; [lia|]. kstep acquire_run; [done | apply Hf; [lia | done] |]. kstep get_proc_run; [exact Hri|].
  rewrite bool_decide_false by (by apply (Hlow i)). kstep (release_acq_run (L_proc i) (k_hl s)); [done | done | apply Hf; [lia | done] |].
  rewrite Hb. replace (set_k_hl (k_hl s) (set_k_hl (acq (L_proc i) (k_hl s)) s)) with s by (by destruct s). apply IH; (done || lia).
Qed.
End proc_spaces.

(** ** What the child shares with the parent *)

(** The table of files after each descriptor of [fs] has been duplicated. *)
Fixpoint dup_all (fs : list (option nat)) (ft : list file) : list file :=
  match fs with
  | [] => ft
  | None :: fs' => dup_all fs' ft
  | Some f :: fs' => dup_all fs' (alter (fun fl => set_f_ref (f_ref fl + 1) fl) f ft)
  end.

Definition refs_to (f : nat) (fs : list (option nat)) : nat := length (filter (fun o => o = Some f) fs).

Lemma lookup_dup_all fs f : forall ft, dup_all fs ft !! f = (fun fl => set_f_ref (f_ref fl + Z.of_nat (refs_to f fs)) fl) <$> ft !! f.
Proof.
  induction fs as [|[g|] fs IH]; intros ft; cbn [dup_all]; rewrite ?IH.
  - destruct (ft !! f) as [[]|]; cbn; [|done]. by rewrite Z.add_0_r.
  - unfold refs_to. destruct (decide (g = f)) as [->|Hne].
    + rewrite filter_cons_True by done. rewrite list_lookup_alter_eq. destruct (ft !! f) as [fl|]; cbn; [|done]. unfold set_f_ref. cbn. do 2 f_equal. lia.
    + rewrite filter_cons_False by congruence. by rewrite list_lookup_alter_ne.
  - unfold refs_to. by rewrite filter_cons_False.
Qed.

Lemma list_alter_insert {A} (f : A -> A) i x (l : list A) : l !! i = Some x -> alter f i l = <[i := f x]> l.
Proof.
  intros H. apply list_eq. intros j. destruct (decide (j = i)) as [->|Hne].
  - rewrite list_lookup_alter_eq, H, list_lookup_insert_eq by (by apply lookup_lt_Some in H). done.
  - by rewrite list_lookup_alter_ne, list_lookup_insert_ne.
Qed.

(** Every open descriptor of [fs] refers to a slot in use. *)
Definition files_ok (fs : list (option nat)) (ft : list file) : Prop :=
  forall f, Some f ∈ fs -> exists fl, ft !! f = Some fl /\ 1 <= f_ref fl.

Lemma fork_files_run p n pr po : forall k i q s e, (i + k = NOFILE)%nat -> room 1 (k_hl s) -> nested (k_hl s) -> free L_ftable (k_hl s) ->
  p <> n -> length po = NOFILE -> k_procs s !! p = Some pr -> p_ofile pr = po -> k_procs s !! n = Some q ->
  p_ofile q = take i po ++ replicate k None -> files_ok (drop i po) (k_ftable s) ->
  for_range i k (fork_file p n) s e =
    Ret tt (set_k_ftable (dup_all (drop i po) (k_ftable s)) (set_k_procs (<[n := set_p_ofile po q]> (k_procs s)) s)) e.
Proof.
  induction k as [|k IH]; intros i q s e Hi Hr Hb Hf Hne Hl Hp Hpo Hq Hqo Hok; cbn [for_range].
  - rewrite drop_ge by lia. cbn [dup_all]. rewrite take_ge, app_nil_r in Hqo by lia. rewrite list_insert_id; [by destruct s|].
    rewrite Hq. f_equal. by destruct q; cbn in *; subst.
  - destruct (lookup_lt_is_Some_2 po i) as [o Ho]; [lia|]. unfold fork_file at 1. rewrite bind_assoc. kstep get_proc_run; [exact Hp|].
    rewrite Hpo, Ho. cbn [of_option]. rewrite (drop_S po o i Ho) in Hok |- *. assert (i < length po)%nat as Hlt by lia.
    assert (take i po ++ replicate (S k) None = take i po ++ [None] ++ replicate k None) as Er by done.
    destruct o as [f|]; cbn [dup_all]; rewrite bind_assoc, bind_ret.
    + destruct (Hok f) as (fl & Hfl & H1); [by left|]. rewrite bind_assoc. kstep dup_run; [done | done | exact Hfl | exact H1 |].
      unfold set_slot. rewrite Hb. kstep upd_proc_run; [exact Hq|].
      rewrite (IH (S i) (set_p_ofile (<[i := Some f]> (p_ofile q)) q)); try done; try lia; cbn.
      * rewrite list_insert_insert_eq, (list_alter_insert _ f fl) by done. by destruct s.
      * by rewrite list_lookup_insert_ne.
      * apply list_lookup_insert_eq. by apply lookup_lt_Some in Hq.
      * rewrite Hqo, Er, (take_S_r po i (Some f)), <- app_assoc by done. rewrite insert_app_r_alt by (rewrite length_take; lia).
        rewrite length_take, Nat.min_l, Nat.sub_diag by lia. done.
      * intros g Hg. destruct (Hok g) as (gl & Hgl & H1g); [by right|]. destruct (decide (g = f)) as [->|Hgf].
        -- eexists. rewrite list_lookup_insert_eq by (by apply lookup_lt_Some in Hfl). split; [done|]. cbn. lia.
        -- exists gl. by rewrite list_lookup_insert_ne.
    + rewrite bind_ret. rewrite (IH (S i) q); try done; try lia.
      * by rewrite Hqo, Er, (take_S_r po i None), <- app_assoc by done.
      * intros g Hg. apply Hok. by right.
Qed.

(** ** The memory of the child *)

(** [m'] has a copy, with the table [root] and the trap frame [fr], of the [sz] bytes of the
    space [ro] and of the trap frame [tf] of [m], made from the free pages [L]. *)
Record forked_space (m : memory) (L : list Z) (ro sz tf tramp root fr : Z) (m' : memory) (l' : list Z) : Prop := ForkedSpace {
  fk_wf : user_wf m' root l';
  fk_new : fr ∈ L /\ root ∈ L /\ fr <> root;
  fk_pages va : 0 <= va < sz ->
    if decide (valid (pte_val m ro va)) then
      exists p, p ∈ L /\ is_page p /\ pte_val m' root va = leaf p (PTE_FLAGS (pte_val m ro va)) /\ same_bytes m m' (PTE2PA (pte_val m ro va)) p
    else ~ valid (pte_val m' root va);
  fk_tramp : pte_val m' root TRAMPOLINE = leaf tramp (Z.lor PTE_R PTE_X);
  fk_trapframe : pte_val m' root TRAPFRAME = leaf fr (Z.lor PTE_R PTE_W);
  fk_regs k : 0 <= k < Z.of_nat sizeof_trapframe -> m' (fr + k) = if (TF_a 0 <=? k) && (k <? TF_a 0 + 8) then 0 else m (tf + k);
  fk_free b : b ∈ l' -> b ∈ L;
  fk_frame x : away L x -> m' x = m x
}.

(** The registers of the child: those of the parent, with 0 in [a0]. *)
Definition child_regs (m : memory) (tf fr : Z) : memory :=
  store64 (store_bytes m fr (load_bytes m tf sizeof_trapframe)) (fr + TF_a 0) 0.

Lemma child_regs_out m tf fr x : ~ in_page fr x -> child_regs m tf fr x = m x.
Proof.
  unfold in_page, PGSIZE, child_regs, store64, TF_a. intros Hx. rewrite !store_bytes_out; [done|..]; rewrite ?length_load_bytes, ?length_le_bytes; unfold sizeof_trapframe; lia.
Qed.

Lemma child_regs_in m tf fr k : 0 <= k < Z.of_nat sizeof_trapframe ->
  child_regs m tf fr (fr + k) = if (TF_a 0 <=? k) && (k <? TF_a 0 + 8) then 0 else m (tf + k).
Proof.
  unfold child_regs, store64. change (TF_a 0) with 112. intros Hk.
  assert (forall x, x < 112 \/ 120 <= x -> x = k -> store_bytes (store_bytes m fr (load_bytes m tf sizeof_trapframe)) (fr + 112) (le_bytes 8 0) (fr + k) = m (tf + k)) as Hout.
  { intros x Hx ->. rewrite store_bytes_out by (rewrite length_le_bytes; lia). rewrite store_bytes_in by (rewrite length_load_bytes; lia).
    replace (fr + k - fr) with k by lia. rewrite nth_load_bytes by lia. f_equal. lia. }
  zcases; cbn [andb]; try (apply (Hout k); lia).
  rewrite store_bytes_in by (rewrite length_le_bytes; lia). apply (nth_repeat 0 8).
Qed.

Section child_memory.
Context (m m1 m2 : memory) (ro sz tf tramp root fr : Z) (l l2 : list Z).
Let L := fr :: root :: l.
Hypothesis Hwf : user_wf m ro L.
Hypothesis HL : Forall is_page L.
Hypothesis Hnd : NoDup L.
Hypothesis Htf : is_page tf.
Hypothesis Htfl : tf ∉ L.
Hypothesis Hsz : 0 <= sz <= TRAPFRAME - PGSIZE.
Hypothesis H1 : forall x, away [fr] x -> m1 x = m x.
Hypothesis H2 : new_space m1 root l tramp fr m2 l2.

Lemma child_frame2 x : away L x -> m2 x = m x.
Proof.
  intros Hx. rewrite (ns_frame _ _ _ _ _ _ _ H2); [apply H1|]; (apply (away_weaken L); [|done]); unfold L; set_solver.
Qed.

Lemma child_free2 b : b ∈ l2 -> b ∈ L.
Proof. intros Hb%(ns_free _ _ _ _ _ _ _ H2). unfold L. set_solver. Qed.

Lemma child_parent2 : user_wf m2 ro l2.
Proof. apply (free_wf m m2 ro L); [done | done | exact child_frame2 | exact child_free2]. Qed.

Lemma child_disjoint b : owns m2 ro b -> ~ is_table m2 root b.
Proof.
  intros Hb Ht%(ns_tab _ _ _ _ _ _ _ H2). apply (free_owns m m2 ro L Hwf HL child_frame2) in Hb.
  destruct (owns_page m ro L Hwf b Hb) as [_ Hn]. apply Hn. unfold L. set_solver.
Qed.

Lemma child_unmapped va : 0 <= va -> va / PGSIZE * PGSIZE < sz -> ~ valid (pte_val m2 root va).
Proof.
  intros H0 Hv. apply (new_space_low _ _ _ _ _ _ _ va H2). change TRAPFRAME with 274877898752 in *. unfold PGSIZE in *. zmod.
Qed.

Context (m3 : memory) (t : Z) (l3 : list Z).
Hypothesis Ht : sz <= t < sz + PGSIZE.
Hypothesis H3 : copied m2 ro root l2 t m3 l3.

Lemma child_step3 : space_step m2 root l2 0 t m3 l3.
Proof. apply H3. Qed.

Lemma child_fr : is_page fr /\ ~ is_table m3 root fr /\ (fr ∉ l3) /\ fr <> root.
Proof.
  pose proof (Forall_inv HL) as Hp. unfold L in Hnd. apply list.NoDup_cons in Hnd as [Hn _]. split; [done|]. split; [|split].
  - intros [Hb%(ns_tab _ _ _ _ _ _ _ H2)|Hb%(ns_free _ _ _ _ _ _ _ H2)]%(sp_tab _ _ _ _ _ _ _ child_step3); set_solver.
  - intros Hb%(sp_free _ _ _ _ _ _ _ child_step3)%(ns_free _ _ _ _ _ _ _ H2). set_solver.
  - set_solver.
Qed.

Lemma child_frame3 x : away L x -> m3 x = m x.
Proof.
  intros Hx. rewrite (sp_frame _ _ _ _ _ _ _ child_step3); [by apply child_frame2|]. intros b Hb. apply Hx. unfold L.
  destruct Hb as [Hb%(ns_tab _ _ _ _ _ _ _ H2)|Hb%(ns_free _ _ _ _ _ _ _ H2)]; set_solver.
Qed.

Lemma child_val4 va : pte_val (child_regs m3 tf fr) root va = pte_val m3 root va.
Proof.
  destruct child_fr as (Hp & Hnt & _). apply (data_write_val m3 _ root fr l3); [apply (sp_wf _ _ _ _ _ _ _ child_step3) | done | done |].
  intros x. apply child_regs_out.
Qed.

Lemma child_memory : forked_space m L ro sz tf tramp root fr (child_regs m3 tf fr) l3.
Proof.
  destruct child_fr as (Hp & Hnt & Hn3 & Hne). destruct H3 as (_ & _ & Hc). set (m4 := child_regs m3 tf fr).
  assert (forall x, away L x -> m4 x = m x) as F4.
  { intros x Hx. unfold m4. rewrite child_regs_out by (apply Hx; unfold L; set_solver). by apply child_frame3. }
  assert (forall va, va_ok va -> ~ (0 <= va < t) -> pte_val m4 root va = pte_val m2 root va) as V4.
  { intros va Hva Hn. unfold m4. rewrite child_val4. by apply (sp_out _ _ _ _ _ _ _ child_step3). }
  assert (TRAPFRAME = 274877898752 /\ TRAMPOLINE = 274877902848) as [E1 E2] by done.
  split; try done.
  - apply (user_wf_data m3 m4 root l3 fr); [apply (sp_wf _ _ _ _ _ _ _ child_step3) | done | done |]. intros x. apply child_regs_out.
  - unfold L. set_solver.
  - intros va Hva. specialize (Hc va ltac:(lia)). rewrite (free_val m m2 ro L Hwf HL child_frame2) in Hc. unfold m4. rewrite child_val4. fold m4.
    case_decide as Hv; [|done]. destruct Hc as (p & Hpl & Hpp & Hval & Hb). apply (ns_free _ _ _ _ _ _ _ H2) in Hpl.
    exists p. split; [unfold L; set_solver|]. split; [done|]. split; [done|]. intros k Hk.
    assert (owns m ro (PTE2PA (pte_val m ro va))) as Ho by (right; exists va; split; [unfold va_ok; lia | done]).
    destruct (owns_page m ro L Hwf _ Ho) as [Hop Hon]. rewrite <- (child_frame2 (PTE2PA (pte_val m ro va) + k)).
    + rewrite <- (Hb k Hk). apply child_regs_out. intros Hin. assert (fr = p) as E by (apply (page_disjoint fr p (p + k)); try done; unfold in_page; lia).
      unfold L in Hnd. apply list.NoDup_cons in Hnd as [Hnf _]. set_solver.
    + apply (page_away L (PTE2PA (pte_val m ro va))); try done. unfold in_page. lia.
  - rewrite V4 by (unfold va_ok, PGSIZE in *; lia). rewrite (ns_val _ _ _ _ _ _ _ H2) by (unfold va_ok; lia). by rewrite bool_decide_true.
  - rewrite V4 by (unfold va_ok, PGSIZE in *; lia). rewrite (ns_val _ _ _ _ _ _ _ H2) by (unfold va_ok; lia). by rewrite bool_decide_false, bool_decide_true.
  - intros k Hk. unfold m4. rewrite child_regs_in by done. destruct (_ && _); [done|]. apply child_frame3.
    apply (page_away L tf); try done. unfold in_page, sizeof_trapframe, PGSIZE in *. lia.
  - intros b Hb%(sp_free _ _ _ _ _ _ _ child_step3). by apply child_free2.
Qed.
End child_memory.

(** ** [fork] *)

(** The caller [p] of [fork], with its working directory [c] and its name [nm]; [L] are the free pages. *)
Record forking {LY : Layout} (p : nat) (pr : process) (c : nat) (ip : inode) (nm L : list Z) (s : kernel) : Prop := Forking {
  fo_room : room 2 (k_hl s);
  fo_nested : nested (k_hl s);
  fo_procs : procs_free None (k_hl s);
  fo_locks K : K ∈ [L_pid; L_kmem; L_ftable; L_itable; L_wait] -> free K (k_hl s);
  fo_len : length (k_procs s) = NPROC;
  fo_me : me_of s = Some p;
  fo_pr : k_procs s !! p = Some pr;
  fo_used : p_status pr <> UNUSED;
  fo_ofile : length (p_ofile pr) = NOFILE;
  fo_files : files_ok (p_ofile pr) (k_ftable s);
  fo_cwd : p_cwd pr = Some c;
  fo_inode : k_itable s !! c = Some ip;
  fo_name : strncpy_arr 32 (p_name pr) = Some nm;
  fo_kinv : kinv (k_mem s) (k_freelist s) L;
  fo_space : user_wf (k_mem s) (p_pagetable pr) L;
  fo_frame : is_page (p_trapframe pr) /\ p_trapframe pr ∉ L;
  fo_tramp : is_page sym_trampoline /\ sym_trampoline ∉ L;
  fo_sz : 0 <= p_sz pr <= TRAPFRAME - PGSIZE;
  fo_tables va : 0 <= va < p_sz pr -> is_Some (pte_loc (k_mem s) (p_pagetable pr) va)
}.

(** The child of [p] made from the new process [x]. *)
Definition inherit (p c : nat) (pr : process) (nm : list Z) (x : process) : process :=
  set_p_status RUNNABLE (set_p_parent (Some p) (set_p_name nm (set_p_cwd (Some c) (set_p_ofile (p_ofile pr) (set_p_user (p_user pr) x))))).

Definition child {LY : Layout} (p c : nat) (pr q : process) (nm : list Z) (pid root fr : Z) : process :=
  inherit p c pr nm (set_p_sz (p_sz pr) (born pid fr root q)).

Lemma idup_run i jp t e : room 1 (k_hl t) -> nested (k_hl t) -> free L_itable (k_hl t) -> k_itable t !! i = Some jp ->
  idup i t e = Ret i (set_k_itable (<[i := set_i_ref (i_ref jp + 1) jp]> (k_itable t)) t) e.
Proof.
  intros Hr Hn Hf Hi. unfold idup. kstep acquire_run; [done | done |].
  rewrite (itable_section i (fun jp => set_i_ref (i_ref jp + 1) jp) jp) by done. rewrite Hn. by destruct t.
Qed.

(** A critical section that updates one entry of the table of processes. *)
Lemma proc_section {A} L i f x P h t (k : M A) e : k_hl t = h -> room 1 h -> nested h -> free L h -> k_procs t = <[i := x]> P -> (i < length P)%nat ->
  (acquire L ;; upd_proc i f ;; release L ;; k) t e = k (set_k_procs (<[i := f x]> P) t) e.
Proof.
  intros Hh Hr Hn Hf HP Hi. kstep acquire_run; [by rewrite Hh | by rewrite Hh |]. kstep upd_proc_at; [exact HP | done |].
  kstep (release_acq_run L h); [by rewrite <- Hh | done | done |]. rewrite Hn, <- Hh. by destruct t.
Qed.

(** The statements of [fork] after the registers are copied; the lock of [n] is held. *)
Lemma fork_tail p n c pr ip nm x P h t e :
  k_hl t = acq (L_proc n) h -> room 2 h -> nested h -> (forall K, K ∈ [L_proc n; L_ftable; L_itable; L_wait] -> free K h) ->
  k_procs t = <[n := x]> P -> (n < length P)%nat -> P !! p = Some pr -> p <> n ->
  length (p_ofile pr) = NOFILE -> p_ofile x = replicate NOFILE None -> files_ok (p_ofile pr) (k_ftable t) ->
  p_cwd pr = Some c -> k_itable t !! c = Some ip -> strncpy_arr 32 (p_name pr) = Some nm ->
  (upd_proc n (set_p_user (p_user pr)) ;; for_range 0 NOFILE (fork_file p n) ;;
   c <- of_option "p->cwd" (p_cwd pr) ;; c <- idup c ;; upd_proc n (set_p_cwd (Some c)) ;; set_name n (p_name pr) ;;
   q <- get_proc n ;; release (L_proc n) ;; acquire L_wait ;; upd_proc n (set_p_parent (Some p)) ;; release L_wait ;;
   acquire (L_proc n) ;; upd_proc n (set_p_status RUNNABLE) ;; release (L_proc n) ;; ret (s32 (p_pid q))) t e =
  Ret (s32 (p_pid x)) (set_k_hl h (set_k_procs (<[n := inherit p c pr nm x]> P)
    (set_k_ftable (dup_all (p_ofile pr) (k_ftable t)) (set_k_itable (<[c := set_i_ref (i_ref ip + 1) ip]> (k_itable t)) t)))) e.
Proof.
  intros Hh Hr2 Hn Hf HP Hnl Hp Hpn Hlen Hxo Hok Hcwd Hin Hnm. set (hp := acq (L_proc n) h) in *.
  assert (room 1 h) as Hr1 by (by apply (room_weaken 2); [|lia]).
  assert (room 1 hp) as Rp by exact (room_acq 2 _ _ Hr2). assert (nested hp) as Np by exact (nested_acq _ _ 2 Hr2).
  assert (forall K, K ∈ [L_ftable; L_itable] -> free K hp) as Fp.
  { intros K HK. apply free_acq_ne; [|apply Hf; set_solver]. intros E. subst K. set_solver. }
  kstep upd_proc_at; [exact HP | done |]. set (x1 := set_p_user (p_user pr) x).
  kstep (fork_files_run p n pr (p_ofile pr) NOFILE 0 x1 (set_k_procs (<[n := x1]> P) t)); [done | by cbn; rewrite Hh | by cbn; rewrite Hh | | done | done | | done | | done | done |].
  { cbn. rewrite Hh. apply Fp. set_solver. }
  { cbn. by rewrite list_lookup_insert_ne. }
  { cbn. by apply list_lookup_insert_eq. }
  rewrite Hcwd. cbn [of_option]. rewrite bind_ret.
  kstep idup_run; [cbn; by rewrite Hh | cbn; by rewrite Hh | cbn; rewrite Hh; apply Fp; set_solver | exact Hin |].
  cbn [drop k_procs set_k_procs k_ftable set_k_ftable k_itable set_k_itable]. rewrite list_insert_insert_eq.
  kstep upd_proc_at; [reflexivity | done |]. unfold set_name. rewrite Hnm. cbn [of_option]. rewrite bind_assoc, bind_ret.
  kstep upd_proc_at; [reflexivity | done |]. kstep get_proc_run; [cbn; by apply list_lookup_insert_eq|].
  kstep (release_acq_run (L_proc n) h); [by cbn; rewrite Hh | done | apply Hf; set_solver |]. rewrite Hn.
  set (x2 := set_p_name nm (set_p_cwd (Some c) (set_p_ofile (p_ofile pr) x1))).
  rewrite (proc_section L_wait n _ x2 P h); [|reflexivity | done | done | apply Hf; set_solver | reflexivity | done].
  rewrite (proc_section (L_proc n) n _ (set_p_parent (Some p) x2) P h); [|reflexivity | done | done | apply Hf; set_solver | reflexivity | done].
  unfold ret. f_equal.
Qed.

Section fork.
Context {LY : Layout} (p : nat) (pr : process) (c : nat) (ip : inode) (nm L : list Z) (s : kernel).
Hypothesis Hfo : forking p pr c ip nm L s.

(** The state [fork] leaves, up to memory. *)
Definition forked (n : nat) (q : process) (m' : memory) (fl' : Z) : kernel :=
  set_k_procs (<[n := q]> (k_procs s)) (set_k_ftable (dup_all (p_ofile pr) (k_ftable s))
    (set_k_itable (<[c := set_i_ref (i_ref ip + 1) ip]> (k_itable s)) (set_k_next_pid (u32 (k_next_pid s + 1)) (set_k_mem m' (set_k_freelist fl' s))))).

Lemma fork_run n q e :
  k_procs s !! n = Some q -> p_status q = UNUSED -> (forall j r, (j < n)%nat -> k_procs s !! j = Some r -> p_status r <> UNUSED) ->
  p_ofile q = replicate NOFILE None -> 3 * p_sz pr + 9 * PGSIZE <= Z.of_nat (length L) * PGSIZE ->
  exists fr root m' fl' l',
    fork s e = Ret (s32 (k_next_pid s)) (forked n (child p c pr q nm (k_next_pid s) root fr) m' fl') e /\ kinv m' fl' l' /\
    forked_space (k_mem s) L (p_pagetable pr) (p_sz pr) (p_trapframe pr) sym_trampoline root fr m' l'.
Proof.
  intros Hq Hu Hlow Hqo HN. destruct Hfo as [Hr2 Hn Hpf Hlk Hlen Hme Hp Hus Hofl Hfs Hcwd Hin Hnm Hk Hwf [Htf Htfl] [Htr Htrl] Hsz Htab].
  assert (n < NPROC)%nat as Hnl by (apply lookup_lt_Some in Hq; lia). assert (p <> n) as Hpn by congruence.
  assert (room 1 (k_hl s)) as Hr1 by (by apply (room_weaken 2); [|lia]).
  set (hp := acq (L_proc n) (k_hl s)). assert (room 1 hp) as Rp by exact (room_acq 2 _ _ Hr2). assert (nested hp) as Np by exact (nested_acq _ _ 2 Hr2).
  assert (forall K, K ∈ [L_pid; L_kmem; L_ftable; L_itable; L_wait] -> free K hp) as Fp.
  { intros K HK. apply free_acq_ne; [|by apply Hlk]. intros E. subst K. set_solver. }
  destruct L as [|fr [|root l]] eqn:EL; [cbn in HN; unfold PGSIZE in HN; lia..|]. cbn [length] in HN.
  pose proof (kinv_pages _ _ _ Hk) as HLp. pose proof (proj2 Hk) as Hnd.
  destruct (alloc_entry_run n q (set_k_hl hp s) e fr root l) as (m1 & m2 & fl2 & l2 & R1 & Hfr & K2 & S2 & N2 & F1); try done.
  { apply Fp. set_solver. } { apply Fp. set_solver. } { unfold PGSIZE in HN. lia. }
  change (k_mem (set_k_hl hp s)) with (k_mem s) in F1. set (s1 := set_k_procs _ _) in R1.
  destruct (uvm_copy_run (p_pagetable pr) root (p_sz pr) s1 e l2) as [(h3 & m3 & fl3 & l3 & t & R3 & D3 & K3 & Ht & C3)|(h3 & m3 & fl3 & a & _ & _ & _ & Hbad)].
  { exact Rp. } { apply Fp. set_solver. } { exact K2. } { eapply child_parent2 with (tf := p_trapframe pr); eassumption. } { apply S2. }
  { eapply child_disjoint with (tf := p_trapframe pr); eassumption. }
  { change TRAPFRAME with 274877898752 in *. unfold PGSIZE in *. lia. }
  { intros va Hva. cbn. rewrite (free_loc (k_mem s) m2 _ (fr :: root :: l)); [by apply Htab | done | done |].
    eapply child_frame2 with (tf := p_trapframe pr); eassumption. }
  { eapply child_unmapped; eassumption. }
  2:{ unfold PGSIZE in *. lia. }
  rewrite (hl_done_nested hp h3) in R3 by done. cbn [k_mem s1 set_k_procs set_k_next_pid vm_upd set_k_hl set_k_mem] in C3.
  assert (forked_space (k_mem s) (fr :: root :: l) (p_pagetable pr) (p_sz pr) (p_trapframe pr) sym_trampoline root fr (child_regs m3 (p_trapframe pr) fr) l3) as Hmem by (eapply child_memory with (tf := p_trapframe pr); eassumption).
  exists fr, root, (child_regs m3 (p_trapframe pr) fr), fl3, l3. split; [|split; [|exact Hmem]].
  - unfold fork, alloc_proc. rewrite <- (Nat.sub_0_r NPROC).
    kstep (eq_trans (alloc_proc_scan n q n 0 s e eq_refl Hnl Hr1 Hn Hpf Hlen Hq Hu ltac:(intros j r Hj; apply Hlow; lia)) R1).
    kstep (me_run s1 e 1 p); [done | change (c_proc (cur hp) = Some p); unfold hp; rewrite c_proc_acq by apply Hr1; exact Hme |].
    assert (k_procs s1 !! p = Some pr) as Hp1 by (cbn; by rewrite list_lookup_insert_ne).
    assert (n < length (k_procs s))%nat as Hnl' by lia.
    kstep get_proc_run; [exact Hp1|]. kstep get_proc_run; [cbn; by apply list_lookup_insert_eq|]. kstep R3. cbn [negb].
    kstep upd_proc_at; [reflexivity | done |]. unfold on_mem at 1 2. rewrite !bind_modify.
    rewrite (fork_tail p n c pr ip nm (set_p_sz (p_sz pr) (born (k_next_pid s) fr root q)) (k_procs s) (k_hl s)); try done.
    intros K HK. destruct (decide (K = L_proc n)) as [->|]; [by apply Hpf | apply Hlk; set_solver].
  - assert (fr ∉ l3) as Hn3 by (eapply child_fr with (tf := p_trapframe pr); eassumption).
    apply (kinv_write_page m3 _ _ _ fr); try done. intros x. apply child_regs_out.
Qed.

(** An entry after [proc::free]. *)
Definition freed (q : process) : process :=
  set_p_status UNUSED (set_p_killed false (set_p_chan CNull (set_p_name (<[0%nat := 0]> (p_name q)) (set_p_parent None
    (set_p_pid 0 (set_p_sz 0 (set_p_pagetable 0 (set_p_trapframe 0 q)))))))).

Lemma free_proc_empty i x P t e : k_procs t = <[i := x]> P -> (i < length P)%nat -> p_trapframe x = 0 -> p_pagetable x = 0 ->
  free_proc i t e = Ret tt (set_k_procs (<[i := freed x]> P) t) e.
Proof.
  intros HP Hi Htf Hpt. assert (k_procs t !! i = Some x) as Hx by (rewrite HP; by apply list_lookup_insert_eq).
  unfold free_proc. kstep get_proc_run; [exact Hx|]. rewrite Htf. cbn [Z.eqb negb when]. rewrite bind_ret.
  kstep upd_proc_at; [exact HP | done |]. kstep get_proc_run; [cbn; by apply list_lookup_insert_eq|].
  change (p_pagetable (set_p_trapframe 0 x)) with (p_pagetable x). rewrite Hpt. cbn [Z.eqb negb when]. rewrite bind_ret.
  do 7 (kstep upd_proc_at; [reflexivity | done |]). etransitivity; [by apply upd_proc_at | f_equal].
Qed.

Lemma fork_no_memory n q e :
  k_procs s !! n = Some q -> p_status q = UNUSED -> (forall j r, (j < n)%nat -> k_procs s !! j = Some r -> p_status r <> UNUSED) ->
  L = [] -> p_trapframe q = 0 -> p_pagetable q = 0 ->
  fork s e = Ret (-1) (set_k_procs (<[n := freed q]> (k_procs s)) (set_k_next_pid (u32 (k_next_pid s + 1)) s)) e.
Proof.
  intros Hq Hu Hlow HL Htf Hpt. pose proof (fo_room _ _ _ _ _ _ _ Hfo) as Hr2. pose proof (fo_nested _ _ _ _ _ _ _ Hfo) as Hn.
  pose proof (fo_locks _ _ _ _ _ _ _ Hfo) as Hlk. pose proof (fo_kinv _ _ _ _ _ _ _ Hfo) as Hk. pose proof (fo_len _ _ _ _ _ _ _ Hfo) as Hlen. rewrite HL in Hk.
  pose proof (fo_procs _ _ _ _ _ _ _ Hfo) as Hpf. assert (n < length (k_procs s))%nat as Hnl by (by apply lookup_lt_Some in Hq). rewrite Hlen in Hnl.
  assert (room 1 (k_hl s)) as Hr1 by (by apply (room_weaken 2); [|lia]). set (hp := acq (L_proc n) (k_hl s)).
  assert (room 1 hp) as Rp by exact (room_acq 2 _ _ Hr2). assert (nested hp) as Np by exact (nested_acq _ _ 2 Hr2).
  set (x := set_p_status USED (set_p_pid (k_next_pid s) q)).
  assert (alloc_entry n (set_k_hl hp s) e = Ret None (set_k_procs (<[n := freed q]> (k_procs s)) (set_k_next_pid (u32 (k_next_pid s + 1)) s)) e) as R.
  { unfold alloc_entry. kstep alloc_pid_run; [done | done | apply free_acq_ne; [done | apply Hlk; set_solver] |]. kstep upd_proc_run; [exact Hq|].
    kstep upd_proc_at; [reflexivity | by cbn; rewrite Hlen |]. kstep kalloc_none; [done | apply free_acq_ne; [done | apply Hlk; set_solver] | exact Hk |].
    kstep (free_proc_empty n x (k_procs s)); [reflexivity | by rewrite Hlen | done | done |].
    kstep (release_acq_run (L_proc n) (k_hl s)); [cbn; by rewrite Np | done | by apply Hpf |]. rewrite Hn. unfold ret. f_equal. }
  unfold fork, alloc_proc. rewrite <- (Nat.sub_0_r NPROC).
  kstep (eq_trans (alloc_proc_scan n q n 0 s e eq_refl Hnl Hr1 Hn Hpf Hlen Hq Hu ltac:(intros j r Hj; apply Hlow; lia)) R). done.
Qed.

Lemma fork_full e : (forall j r, k_procs s !! j = Some r -> p_status r <> UNUSED) -> fork s e = Panic "proc::alloc: no proc" s.
Proof.
  intros H. unfold fork, alloc_proc, bind. rewrite alloc_proc_full; [done | done | | apply Hfo | apply Hfo | apply Hfo | exact H].
  apply (room_weaken 2); [apply Hfo | lia].
Qed.
End fork.

Definition is_unused (q : process) : bool := bool_decide (p_status q = UNUSED).

(** C23: fork gives the first unused table entry to a child with copies of the caller's
    pages below its size, in pages that were free, and of its registers with 0 in a0,
    with the same name, user, open files and working directory, whose reference counts
    grow by one per descriptor, with its trampoline and trap frame mapped, runnable and
    with the caller as parent, and returns its process number; no memory outside the
    pages that were free changes, and no lock is left held; without a free page it
    returns -1 and the entry is unused again; with every entry in use the kernel panics.
    *)
Theorem fork_makes_child {LY : Layout} p pr c ip nm L s e :
  forking p pr c ip nm L s ->
  match find_idx is_unused (k_procs s) with
  | None => fork s e = Panic "proc::alloc: no proc" s
  | Some n => exists q, k_procs s !! n = Some q /\ n <> p /\
      (p_ofile q = replicate NOFILE None -> 3 * p_sz pr + 9 * PGSIZE <= Z.of_nat (length L) * PGSIZE ->
       exists fr root m' fl' l',
         fork s e = Ret (s32 (k_next_pid s)) (forked pr c ip s n (child p c pr q nm (k_next_pid s) root fr) m' fl') e /\
         kinv m' fl' l' /\ user_wf m' (p_pagetable pr) l' /\
         forked_space (k_mem s) L (p_pagetable pr) (p_sz pr) (p_trapframe pr) sym_trampoline root fr m' l' /\
         forall f fl, k_ftable s !! f = Some fl ->
           dup_all (p_ofile pr) (k_ftable s) !! f = Some (set_f_ref (f_ref fl + Z.of_nat (refs_to f (p_ofile pr))) fl)) /\
      (L = [] -> p_trapframe q = 0 -> p_pagetable q = 0 ->
       fork s e = Ret (-1) (set_k_procs (<[n := freed q]> (k_procs s)) (set_k_next_pid (u32 (k_next_pid s + 1)) s)) e)
  end.
Proof.
  intros Hfo. destruct (find_idx is_unused (k_procs s)) as [n|] eqn:Hf.
  - apply find_idx_Some in Hf as (q & Hq & Hu%bool_decide_eq_true & Hlow). exists q. split; [done|].
    assert (forall j r, (j < n)%nat -> k_procs s !! j = Some r -> p_status r <> UNUSED) as Hlow'.
    { intros j r Hj Hr. specialize (Hlow j r Hj Hr). by apply bool_decide_eq_false in Hlow. }
    split; [intros ->; pose proof (fo_pr _ _ _ _ _ _ _ Hfo); pose proof (fo_used _ _ _ _ _ _ _ Hfo); congruence|]. split.
    + intros Hqo HN. destruct (fork_run p pr c ip nm L s Hfo n q e Hq Hu Hlow' Hqo HN) as (fr & root & m' & fl' & l' & R & K & S).
      exists fr, root, m', fl', l'. split_and!; try done.
      * apply (free_wf (k_mem s) m' (p_pagetable pr) L); [apply Hfo | apply (kinv_pages _ _ _ (fo_kinv _ _ _ _ _ _ _ Hfo)) | apply S | apply S].
      * intros f fl Hfl. by rewrite lookup_dup_all, Hfl.
    + by apply (fork_no_memory p pr c ip nm L s Hfo n q e).
  - apply (fork_full p pr c ip nm L s Hfo). intros j r Hr. apply find_idx_None in Hf.
    pose proof (Forall_lookup_1 _ _ _ _ Hf Hr) as Hx. by apply bool_decide_eq_false in Hx.
Qed.

(** ** A process that forks *)

Lemma pages_free L : forall m, Forall is_page L -> NoDup L -> exists m' fl', kinv m' fl' L /\ forall x, away L x -> m' x = m x.
Proof.
  induction L as [|a L IH]; intros m HL Hnd.
  { exists m, 0. split; [|done]. split; [done | constructor]. }
  apply list.Forall_cons_1 in HL as [Ha HL]. apply list.NoDup_cons in Hnd as [Hn Hnd]. destruct (IH m HL Hnd) as (m' & fl' & K & F).
  exists (store64 (memset m' a 1 PGSIZE) a fl'), a. split.
  - apply (kfree_kinv a (set_k_mem m' (set_k_freelist fl' kernel0)) L Ha Hn K). exact (kinv_head_range _ _ _ K).
  - intros x Hx. assert (~ in_page a x) as Hax by (apply Hx; by left). unfold store64. rewrite store_bytes_out.
    + rewrite memset_page_out by done. apply F. apply (away_weaken (a :: L)); [|done]. intros b Hb. by right.
    + rewrite length_le_bytes. unfold in_page, PGSIZE in Hax. lia.
Qed.

(** Sixteen pages from 0x80100000 on are free. *)
Definition some_pages : list Z := map (fun i => 2148532224 + 4096 * Z.of_nat i) (seq 0 16).

Lemma some_pages_ok : Forall is_page some_pages /\ NoDup some_pages.
Proof.
  split.
  - apply Forall_forall. intros a (i & <- & Hi%in_seq)%in_map_iff. unfold is_page, PGSIZE. split; [zmod | lia].
  - apply (bool_decide_unpack _). vm_compute. exact I.
Qed.

Lemma not_some_page a : a < 2148532224 -> a ∉ some_pages.
Proof. intros H Ha%list_elem_of_In. apply in_map_iff in Ha as (i & <- & _). lia. Qed.

(** Process 0 with one page at address 0, a trap frame, descriptor 0 open on slot 3 and a working directory. *)
Definition forker : process :=
  set_p_status RUNNING (set_p_sz 4096 (set_p_pagetable root0 (set_p_trapframe page2 (set_p_cwd (Some 0%nat) opener)))).

Lemma forker_state : exists s L, forking (LY := layout0) 0 forker 0 inode0 (zeros 32) L s /\ (12 <= length L)%nat /\
  k_procs s = <[0%nat := forker]> (k_procs boot0) /\ valid (pte_val (k_mem s) root0 0).
Proof.
  destruct some_pages_ok as [HL Hnd]. destruct (pages_free some_pages (fun _ => 0) HL Hnd) as (m & fl & K & F).
  assert (is_page root0 /\ root0 ∉ some_pages) as [Hr Hrn].
  { split; [unfold is_page, root0, PGSIZE; split; [done | lia] | apply not_some_page; unfold root0; lia]. }
  assert (forall x, in_page root0 x -> m x = 0) as Hz by (intros x Hx; apply F; by apply (page_away some_pages root0)).
  assert (forall a, a = page1 \/ a = page2 \/ a = 0x8000f000 -> is_page a /\ a ∉ some_pages) as Hpg.
  { intros a Ha. split; [unfold is_page, page1, page2, PGSIZE in *; split; [|lia]; destruct Ha as [->|[->| ->]]; done | apply not_some_page; unfold page1, page2 in *; lia]. }
  destruct (map_page_run root0 0 page1 (uflag PTE_W) (vm_upd (k_hl boot0) m fl boot0) [] some_pages)
    as (h & m' & fl' & l' & R & _ & K' & S & W & N & V).
  - apply hl_run_ready. lia.
  - reflexivity.
  - exact K.
  - by apply empty_user_wf.
  - vm_compute. lia.
  - reflexivity.
  - by vm_compute.
  - apply Hpg. auto.
  - apply Hpg. auto.
  - intros Ht. apply (empty_tables m root0) in Ht; [discriminate Ht | exact Hz].
  - by vm_compute.
  - intros va _. cbn [k_mem vm_upd set_k_mem set_k_hl]. rewrite empty_pte_val by done. by intros [].
  - cbn [k_mem vm_upd set_k_mem set_k_hl]. rewrite empty_pte_val by done. by intros [].
  - cbn [k_mem vm_upd set_k_mem set_k_hl] in S, V.
    assert (forall va, 0 <= va < 4096 -> valid (pte_val m' root0 va)) as Hv.
    { intros va Hva. rewrite V by (unfold va_ok; lia). rewrite bool_decide_true by (unfold PGSIZE; zmod). apply leaf_is_valid. }
    assert (forall a, a ∉ some_pages -> a ∉ l') as Hsub by (intros a Ha Hal; by apply Ha, (ps_free _ _ _ _ _ S)).
    exists (set_k_ftable (<[3%nat := set_f_ref 1 file0]> (k_ftable boot0)) (set_k_procs (<[0%nat := forker]> (k_procs boot0)) (vm_upd (k_hl boot0) m' fl' boot0))), l'.
    split; [|split; [change (length some_pages) with 16%nat in N; lia | split; [reflexivity | apply Hv; lia]]].
    split; try reflexivity.
    + apply hl_run_ready. lia.
    + exact hl_run_procs.
    + intros X HX. repeat (apply elem_of_cons in HX as [->|HX]; [reflexivity|]). by apply elem_of_nil in HX.
    + discriminate.
    + intros f Hf. exists (set_f_ref 1 file0). split; [|cbn; lia].
      assert (f = 3)%nat as -> by (repeat (apply elem_of_cons in Hf as [Hf|Hf]; [congruence|]); by apply elem_of_nil in Hf). reflexivity.
    + exact K'.
    + exact W.
    + split; [apply Hpg; auto | apply Hsub, Hpg; auto].
    + split; [apply Hpg; auto | apply Hsub, Hpg; auto].
    + by vm_compute.
    + intros va Hva. apply valid_loc. by apply Hv.
Qed.

(** Entry 1 becomes the child. *)
Lemma fork_makes_child_witness : exists s s' ch, k_procs s !! 0%nat = Some forker /\ valid (pte_val (k_mem s) root0 0) /\
  fork (LY := layout0) s [] = Ret (s32 (k_next_pid s)) s' [] /\ k_procs s' !! 1%nat = Some ch /\
  p_status ch = RUNNABLE /\ p_parent ch = Some 0%nat /\ p_sz ch = 4096 /\ valid (pte_val (k_mem s') (p_pagetable ch) 0).
Proof.
  destruct forker_state as (s & L & Hfo & HL & Hs & Hv). exists s.
  pose proof (fork_makes_child (LY := layout0) 0 forker 0 inode0 (zeros 32) L s [] Hfo) as H.
  assert (find_idx is_unused (k_procs s) = Some 1%nat) as E by (rewrite Hs; vm_compute; reflexivity). rewrite E in H. destruct H as (q & Hq & _ & H & _).
  assert (q = proc0) as -> by (rewrite Hs in Hq; vm_compute in Hq; injection Hq as <-; reflexivity).
  destruct H as (fr & root & m' & fl' & l' & R & _ & _ & S & _).
  - reflexivity.
  - change (p_sz forker) with 4096. unfold PGSIZE. lia.
  - eexists _, _. split; [rewrite Hs; reflexivity|]. split; [exact Hv|]. split; [exact R|].
    split; [cbn [k_procs forked set_k_procs]; rewrite Hs; reflexivity|]. split_and!; try reflexivity.
    change (valid (pte_val m' root 0)).
    pose proof (fk_pages _ _ _ _ _ _ _ _ _ _ S 0) as Hp. change (p_pagetable forker) with root0 in Hp. rewrite decide_True in Hp by exact Hv.
    destruct Hp as (pg & _ & _ & Hval & _); [vm_compute; split; [discriminate | reflexivity]|]. rewrite Hval. apply leaf_is_valid.
Defined.
