(* ===== verification/ExitSpec.v ===== *)
(** * Exit and its descriptors

    [exit] closes every descriptor of the process, gives up the working
    directory and leaves a zombie.  The references it drops are counted: a file
    loses one for each descriptor that names it, and an inode one for each file
    that is closed for good and one for the working directory. *)

From S2P Require Import Prelude State Riscv Lock Sched Kalloc Pipe Console Bio Log Fs FsSpec File Proc ProcSpec ForkSpec.

(** ** Closing one file *)

(** [iput] truncates the inode whose last reference goes when nothing links to it. *)
Definition truncates (ip : inode) : bool := (i_ref ip =? 1) && i_valid ip && (i_nlink ip =? 0).

Definition drop_inode (ip : inode) : inode := set_i_ref (i_ref ip - 1) ip.

Lemma iput_keeps {DD : DiskDriver} c ip s e :
  room 1 (k_hl s) -> nested (k_hl s) -> free L_itable (k_hl s) -> k_itable s !! c = Some ip -> truncates ip = false ->
  iput c s e = Ret tt (set_k_itable (<[c := drop_inode ip]> (k_itable s)) s) e.
Proof.
  intros Hr Hn Hf Hc Ht. unfold iput. kstep acquire_run; [done | done |]. kstep get_inode_run; [exact Hc|].
  fold (truncates ip). rewrite Ht. cbn [when]. rewrite bind_ret. kstep upd_inode_run; [exact Hc|].
  rewrite (release_acq_run L_itable (k_hl s)) by done. rewrite Hn. by destruct s.
Qed.

(** The log admits a call at once, and has nothing to commit if that call is the only one. *)
Record log_idle (l : logst) : Prop := LogIdle {
  li_committing : lg_committing l = false;
  li_room : log_full l = false;
  li_range : 0 <= lg_outstanding l < 2 ^ 32 - 1;
  li_empty : lg_outstanding l = 0 -> lh_n (lg_lh l) = 0
}.

(** A call that is not the last one leaves the log to the others. *)
Lemma end_op_others {DD : DiskDriver} p pr s e :
  let l := k_log s in
  bio_ready p pr s -> free L_log (k_hl s) -> 2 <= lg_outstanding l < 2 ^ 32 -> lg_committing l = false ->
  end_op s e = Ret tt (set_k_procs (wake_procs (Some p) CLog (k_procs s)) (set_k_log (set_lg_outstanding (lg_outstanding l - 1) l) s)) e.
Proof.
  intros l Hr Hf Ho Hc. assert (room 1 (k_hl s)) as Hr1 by (apply (room_weaken 3); [apply Hr | lia]).
  set (sc := set_k_log (set_lg_outstanding (lg_outstanding l - 1) l) s).
  unfold end_op. kstep acquire_run; [done | done |]. unfold on_log at 1. rewrite bind_modify. rewrite bind_gets. cbn [k_log set_k_hl set_k_log]. fold l.
  cbn [lg_committing lg_outstanding set_lg_outstanding]. rewrite Hc. unfold u32. rewrite Z.mod_small by lia. rewrite (proj2 (Z.eqb_neq _ _)) by lia.
  change (set_k_log _ (set_k_hl _ s)) with (set_k_hl (acq L_log (k_hl s)) sc).
  pose proof (bio_ready_log p pr s (set_lg_outstanding (lg_outstanding l - 1) l) Hr) as HrL.
  destruct (acq_facts p pr sc 0 HrL ltac:(unfold NBUF; lia) L_log (k_bufs s) (k_procs s)) as (A1 & A2 & A3 & A4 & _ & A6); [by intros ? | done |].
  change (bset (k_bufs s) (k_procs s) sc) with sc in *. change (k_hl sc) with (k_hl s) in *.
  rewrite bind_assoc. kstep wakeup_run; [exact A1 | exact A2 | exact A3 | exact A6 |]. rewrite A4, bind_ret.
  kstep (release_acq_run L_log (k_hl s)); [done..|]. rewrite (br_nested _ _ _ Hr). by destruct s.
Qed.

(** [wakeup] of the calls that wait for the log is all an operation that logs nothing leaves behind. *)
Definition log_woken (p : nat) (s : kernel) : kernel := set_k_procs (wake_procs (Some p) CLog (k_procs s)) s.

Lemma log_restored n c t s :
  set_k_log (set_lg_outstanding (lg_outstanding (k_log s)) (set_lg_outstanding n (k_log s)))
    (set_k_itable (<[c := t]> (k_itable s)) (set_k_log (set_lg_outstanding n (k_log s)) s)) = set_k_itable (<[c := t]> (k_itable s)) s.
Proof. destruct s as [????? ????? ? l]. by destruct l. Qed.

(** The references the process may give up: its locks are free and the log is idle. *)
Record closing (p : nat) (pr : process) (s : kernel) : Prop := Closing {
  cl_ready : bio_ready p pr s;
  cl_log : free L_log (k_hl s);
  cl_itable : free L_itable (k_hl s);
  cl_ftable : free L_ftable (k_hl s);
  cl_idle : log_idle (k_log s)
}.

(** The kernel with these tables of processes, files and inodes. *)
Definition with_tables (l : list process) (x : list file * list inode) (s : kernel) : kernel :=
  set_k_procs l (set_k_ftable x.1 (set_k_itable x.2 s)).

Lemma with_tables_twice l x l' x' s : with_tables l x (with_tables l' x' s) = with_tables l x s.
Proof. done. Qed.

Lemma with_tables_id s : with_tables (k_procs s) (k_ftable s, k_itable s) s = s.
Proof. by destruct s. Qed.

Lemma with_tables_get l x s : (k_ftable (with_tables l x s), k_itable (with_tables l x s)) = x.
Proof. by destruct x. Qed.

Lemma closing_tables p pr pr' l x s : closing p pr s -> length l = NPROC -> l !! p = Some pr' -> closing p pr' (with_tables l x s).
Proof. intros [] Hl Hp. split; try assumption. by apply (bio_ready_ext p pr _ s). Qed.

(** An operation that does nothing but put an inode, found by [m]. *)
Lemma put_run {DD : DiskDriver} (m : M nat) p pr c ip s e :
  closing p pr s -> k_itable s !! c = Some ip -> truncates ip = false -> (forall L, m (set_k_log L s) e = Ret c (set_k_log L s) e) ->
  (begin_op ;; i <- m ;; iput i ;; end_op) s e = Ret tt (log_woken p (set_k_itable (<[c := drop_inode ip]> (k_itable s)) s)) e.
Proof.
  intros [Hr Hf Hi _ Hl] Hc Ht Hm. assert (room 1 (k_hl s)) as Hr1 by (apply (room_weaken 3); [apply Hr | lia]).
  pose proof (br_nested _ _ _ Hr) as Hn. destruct Hl as [L1 L2 L3 L4].
  kstep begin_op_run; [done | done | done | by rewrite L1, L2 |]. unfold u32. rewrite Z.mod_small by lia. kstep Hm.
  kstep iput_keeps; [done | done | done | exact Hc | done |].
  set (s1 := set_k_itable _ _). change (k_itable (set_k_log _ s)) with (k_itable s) in s1. assert (bio_ready p pr s1) as Hr' by (apply (bio_ready_ext p pr _ s); [done | done | apply Hr | apply Hr]).
  rewrite <- (log_restored (lg_outstanding (k_log s) + 1) c (drop_inode ip) s). fold s1.
  destruct (decide (lg_outstanding (k_log s) = 0)) as [E|E].
  - rewrite (end_op_empty p pr); [by rewrite E | done | done | by apply L4 | cbn; lia | done].
  - rewrite (end_op_others p pr); [| done | done | cbn; lia | done]. unfold s1 at 2. cbn [k_log set_k_itable set_k_log lg_outstanding set_lg_outstanding].
    by replace (lg_outstanding (k_log s) + 1 - 1) with (lg_outstanding (k_log s)) by lia.
Qed.

Definition inode_file (fl : file) : bool := match f_type fl with FD_INODE | FD_DEVICE => true | _ => false end.

(** The tables after one reference to file [f] is closed. *)
Definition close_ref (f : nat) (x : list file * list inode) : list file * list inode :=
  match x.1 !! f with
  | None => x
  | Some fl =>
      if 2 <=? f_ref fl then (<[f := set_f_ref (f_ref fl - 1) fl]> x.1, x.2)
      else (<[f := set_f_type FD_NONE (set_f_ref 0 fl)]> x.1,
            match f_ip fl with Some i => if inode_file fl then alter drop_inode i x.2 else x.2 | None => x.2 end)
  end.

(** A reference that can be closed: it is counted, and if it is the last one the file is
    not a pipe and its inode is not truncated. *)
Definition closable (f : nat) (x : list file * list inode) : Prop :=
  exists fl, x.1 !! f = Some fl /\ 1 <= f_ref fl /\
    (f_ref fl = 1 -> f_type fl <> FD_PIPE /\
       (inode_file fl = true -> exists i ip, f_ip fl = Some i /\ x.2 !! i = Some ip /\ truncates ip = false)).

(** The sleepers on the log woken or not. *)
Definition same_woken (p : nat) (l l' : list process) : Prop := l' = l \/ l' = wake_procs (Some p) CLog l.

Lemma close_ref_run {DD : DiskDriver} p pr f s e :
  closing p pr s -> closable f (k_ftable s, k_itable s) ->
  exists l, close f s e = Ret tt (with_tables l (close_ref f (k_ftable s, k_itable s)) s) e /\ same_woken p (k_procs s) l.
Proof.
  intros Hcl (fl & Hfl & H1 & Hlast). cbn [fst snd] in *. pose proof (cl_ready _ _ _ Hcl) as Hr. pose proof (br_nested _ _ _ Hr) as Hn.
  assert (room 1 (k_hl s)) as Hr1 by (apply (room_weaken 3); [apply Hr | lia]). pose proof (cl_ftable _ _ _ Hcl) as Hf.
  unfold close_ref. cbn [fst snd]. rewrite Hfl. destruct (Z.leb_spec 2 (f_ref fl)) as [H2|H2].
  - exists (k_procs s). split; [|by left]. rewrite (close_shared f fl) by done. unfold set_slot. rewrite Hn. by destruct s.
  - assert (f_ref fl = 1) as E1 by lia. destruct (Hlast E1) as [Hpipe Hin].
    assert (f < length (k_ftable s))%nat as Hlt by (by apply lookup_lt_Some in Hfl).
    set (fl0 := set_f_type FD_NONE (set_f_ref 0 fl)). set (s1 := set_k_ftable (<[f := fl0]> (k_ftable s)) s).
    assert (close f s e = (match f_type fl with
      | FD_PIPE => pipeclose (f_pipe fl) (f_writable fl)
      | FD_INODE | FD_DEVICE => begin_op ;; ip <- of_option "ff.ip" (f_ip fl) ;; iput ip ;; end_op
      | FD_NONE => ret tt end) s1 e) as ->.
    { unfold close. kstep acquire_run; [done | done |]. kstep get_file_run; [exact Hfl|].
      rewrite (proj2 (Z.ltb_ge _ _)) by lia. kstep upd_file_run; [exact Hfl|]. kstep get_file_run; [cbn; by apply list_lookup_insert_eq|].
      cbn [f_ref set_f_ref]. rewrite (proj2 (Z.ltb_ge _ _)) by lia.
      kstep upd_file_run; [cbn; by apply list_lookup_insert_eq|]. cbn [k_ftable set_k_ftable set_k_hl].
      kstep upd_file_run; [cbn; apply list_lookup_insert_eq; by rewrite length_insert|].
      kstep (release_acq_run L_ftable (k_hl s)); [reflexivity | done | done |]. rewrite Hn. cbn [f_type set_f_ref f_ip f_pipe f_writable].
      cbn [k_ftable set_k_ftable set_k_hl]. rewrite !list_insert_insert_eq. destruct fl; by destruct s. }
    destruct (inode_file fl) eqn:Ei.
    + destruct (Hin eq_refl) as (i & ip & Hip & Hi & Ht). rewrite Hip. exists (wake_procs (Some p) CLog (k_procs s)). split; [|by right].
      assert (closing p pr s1) as Hcl1 by (apply (closing_tables p pr pr (k_procs s) (<[f := fl0]> (k_ftable s), k_itable s)) in Hcl; [by destruct s | apply Hr | apply Hr]).
      rewrite (list_alter_insert _ _ ip) by done. unfold inode_file in Ei.
      destruct (f_type fl); try done; rewrite (put_run (of_option "ff.ip" (Some i)) p pr i ip) by done; by destruct s.
    + exists (k_procs s). split; [|by left]. unfold inode_file in Ei. destruct (f_type fl); try done. destruct (f_ip fl); by destruct s.
Qed.

(** ** Closing all of them *)

(** The tables after the references of [fs] are closed, in order. *)
Fixpoint close_all (fs : list (option nat)) (x : list file * list inode) : list file * list inode :=
  match fs with
  | [] => x
  | Some f :: fs => close_all fs (close_ref f x)
  | None :: fs => close_all fs x
  end.

Fixpoint all_closable (fs : list (option nat)) (x : list file * list inode) : Prop :=
  match fs with
  | [] => True
  | Some f :: fs => closable f x /\ all_closable fs (close_ref f x)
  | None :: fs => all_closable fs x
  end.

Lemma wake_procs_insert p ch pr l : wake_procs (Some p) ch (<[p := pr]> l) = <[p := pr]> (wake_procs (Some p) ch l).
Proof.
  apply list_eq. intros i. rewrite lookup_wake_procs. destruct (decide (i = p)) as [->|Hi].
  - rewrite !list_lookup_insert. case_decide; rewrite length_wake_procs; case_decide; try tauto; cbn; [by rewrite bool_decide_true | by rewrite lookup_wake_procs].
  - by rewrite !list_lookup_insert_ne, lookup_wake_procs.
Qed.

Lemma same_woken_eq p l l' : same_woken p l l' -> wake_procs (Some p) CLog l' = wake_procs (Some p) CLog l.
Proof. intros [->| ->]; [done | apply Uart.wake_procs_idem]. Qed.

Lemma same_woken_facts p l l' : same_woken p l l' -> length l' = length l /\ l' !! p = l !! p.
Proof.
  intros [->| ->]; [done|]. rewrite length_wake_procs, lookup_wake_procs. split; [done|]. destruct (l !! p); cbn; [|done]. by rewrite bool_decide_true.
Qed.

(** One descriptor: its reference, if there is one, is closed and the descriptor cleared. *)
Definition close_slot (o : option nat) (x : list file * list inode) : list file * list inode :=
  match o with Some f => close_ref f x | None => x end.

Lemma close_all_cons o fs x : close_all (o :: fs) x = close_all fs (close_slot o x).
Proof. by destruct o. Qed.

Lemma set_p_ofile_id pr : set_p_ofile (p_ofile pr) pr = pr.
Proof. by destruct pr. Qed.

(** The table of [s] with process [p] as [pr] in it, up to sleepers on the log that are woken. *)
Record left_as (p : nat) (pr : process) (s : kernel) (l : list process) : Prop := LeftAs {
  la_len : length l = NPROC;
  la_pr : l !! p = Some pr;
  la_woken : wake_procs (Some p) CLog l = <[p := pr]> (wake_procs (Some p) CLog (k_procs s))
}.

Lemma left_as_same p pr pr' s l : bio_ready p pr s -> same_woken p (k_procs s) l -> left_as p pr' s (<[p := pr']> l).
Proof.
  intros Hr Hw. destruct (same_woken_facts _ _ _ Hw) as [Hl Hp]. rewrite (br_len _ _ _ Hr) in Hl. rewrite (br_pr _ _ _ Hr) in Hp. split.
  - by rewrite length_insert.
  - apply list_lookup_insert_eq. by apply lookup_lt_Some in Hp.
  - by rewrite wake_procs_insert, (same_woken_eq _ _ _ Hw).
Qed.

Lemma left_as_id p pr s : bio_ready p pr s -> left_as p pr s (k_procs s).
Proof. intros Hr. rewrite <- (list_insert_id (k_procs s) p pr) by apply Hr. apply (left_as_same p pr); [done | by left]. Qed.

Lemma left_as_trans p pr1 pr2 s l1 l2 x : left_as p pr1 s l1 -> left_as p pr2 (with_tables l1 x s) l2 -> left_as p pr2 s l2.
Proof. intros [_ _ W1] [L2 P2 W2]. split; [done | done |]. rewrite W2. cbn [k_procs with_tables set_k_procs]. by rewrite W1, list_insert_insert_eq. Qed.

Lemma close_fd_run {DD : DiskDriver} p pr i o s e :
  closing p pr s -> p_ofile pr !! i = Some o -> (forall f, o = Some f -> closable f (k_ftable s, k_itable s)) ->
  exists l, close_fd p i s e = Ret tt (with_tables l (close_slot o (k_ftable s, k_itable s)) s) e /\
    left_as p (set_p_ofile (<[i := None]> (p_ofile pr)) pr) s l.
Proof.
  intros Hcl Ho Hc. pose proof (cl_ready _ _ _ Hcl) as Hr. pose proof (br_pr _ _ _ Hr) as Hp.
  assert (close_fd p i s e = (match o with None => ret tt | Some f => close f ;; upd_proc p (fun q => set_p_ofile (<[i := None]> (p_ofile q)) q) end) s e) as ->.
  { unfold close_fd. kstep get_proc_run; [exact Hp|]. by rewrite Ho. }
  destruct o as [f|]; cbn [close_slot].
  - destruct (close_ref_run p pr f s e Hcl (Hc f eq_refl)) as (l & E & Hw). destruct (same_woken_facts _ _ _ Hw) as [_ Hp']. rewrite Hp in Hp'. eexists. split.
    + kstep E. rewrite (upd_proc_run _ _ pr) by exact Hp'. reflexivity.
    + by apply (left_as_same p pr).
  - exists (k_procs s). rewrite with_tables_id. split; [done|]. rewrite list_insert_id, set_p_ofile_id by done. by apply left_as_id.
Qed.

(** The descriptor loop of [exit] from descriptor [i] on: every reference is closed and every
    descriptor is cleared; other processes are woken at most from their sleep on the log. *)
Lemma close_fds_run {DD : DiskDriver} p n : forall i pr s e,
  closing p pr s -> length (p_ofile pr) = (i + n)%nat -> all_closable (drop i (p_ofile pr)) (k_ftable s, k_itable s) ->
  exists l, for_range i n (close_fd p) s e = Ret tt (with_tables l (close_all (drop i (p_ofile pr)) (k_ftable s, k_itable s)) s) e /\
    left_as p (set_p_ofile (take i (p_ofile pr) ++ replicate n None) pr) s l.
Proof.
  induction n as [|n IH]; intros i pr s e Hcl Hlen Hall; cbn [for_range].
  - exists (k_procs s). rewrite drop_ge, take_ge by lia. cbn [close_all replicate]. rewrite app_nil_r, set_p_ofile_id, with_tables_id.
    split; [done|]. apply left_as_id, Hcl.
  - destruct (lookup_lt_is_Some_2 (p_ofile pr) i) as [o Ho]; [lia|]. rewrite (drop_S _ _ _ Ho) in *. rewrite close_all_cons.
    destruct (close_fd_run p pr i o s e Hcl Ho) as (l & E & Hla); [intros f ->; apply Hall|].
    set (x := close_slot _ _) in *. set (pr' := set_p_ofile _ pr) in *.
    assert (closing p pr' (with_tables l x s)) as Hcl' by (apply (closing_tables p pr); [done | apply Hla..]).
    assert (drop (S i) (p_ofile pr') = drop (S i) (p_ofile pr)) as Ed by (apply drop_insert_lt; lia).
    assert (take (S i) (p_ofile pr') ++ replicate n None = take i (p_ofile pr) ++ replicate (S n) None) as Et.
    { cbn. rewrite (take_S_r _ _ None) by (apply list_lookup_insert_eq; lia). rewrite take_insert_ge by lia. by rewrite <- app_assoc. }
    destruct (IH (S i) pr' (with_tables l x s) e Hcl') as (l' & R & F).
    + cbn. rewrite length_insert. lia.
    + rewrite Ed, with_tables_get. destruct o; cbn [all_closable] in Hall; [apply Hall|exact Hall].
    + exists l'. rewrite Ed, Et, with_tables_get in *. split; [|by apply (left_as_trans p pr' _ s l l' x)].
      rewrite (bind_Ret _ _ _ _ tt _ e E). exact R.
Qed.

(** ** Counting the references *)

(** A file after [n] references to it are closed. *)
Definition released (n : nat) (fl : file) : file :=
  if (n =? 0)%nat then fl
  else if f_ref fl =? Z.of_nat n then set_f_type FD_NONE (set_f_ref 0 fl)
  else set_f_ref (f_ref fl - Z.of_nat n) fl.

(** Closing [fs] closes file [f] for good, and with it a reference to inode [i]. *)
Definition ends_ref (fs : list (option nat)) (t : list file) (i f : nat) : bool :=
  match t !! f with
  | Some fl => (0 <? refs_to f fs)%nat && (f_ref fl =? Z.of_nat (refs_to f fs)) && inode_file fl && bool_decide (f_ip fl = Some i)
  | None => false
  end.

(** The references to inode [i] that closing [fs] gives up. *)
Definition inode_refs (fs : list (option nat)) (t : list file) (i : nat) : nat :=
  length (List.filter (ends_ref fs t i) (seq 0 (length t))).

(** The files a process may close: each holds the process's references, and one that is closed for
    good is no pipe and names an inode of the table if it stands for one. *)
Definition files_held (fs : list (option nat)) (t : list file) (it : list inode) : Prop :=
  forall f, Some f ∈ fs -> exists fl, t !! f = Some fl /\ Z.of_nat (refs_to f fs) <= f_ref fl /\
    (f_ref fl = Z.of_nat (refs_to f fs) -> f_type fl <> FD_PIPE /\ (inode_file fl = true -> exists i ip, f_ip fl = Some i /\ it !! i = Some ip)).

(** The inodes: each holds the [n i] references that go, and one that loses its last is linked to. *)
Definition inodes_held (n : nat -> nat) (it : list inode) : Prop :=
  forall i ip, it !! i = Some ip -> Z.of_nat (n i) <= i_ref ip /\
    ((0 < n i)%nat -> i_ref ip = Z.of_nat (n i) -> i_valid ip = true -> i_nlink ip <> 0).

Lemma count_step `{EqDecision A} (P Q : A -> bool) (x : A) l (b : bool) : NoDup l -> x ∈ l -> P x = b -> Q x = false -> (forall y, y <> x -> P y = Q y) ->
  length (List.filter P l) = ((if b then 1 else 0) + length (List.filter Q l))%nat.
Proof.
  intros Hn Hx HP HQ He. assert (forall l, x ∉ l -> List.filter P l = List.filter Q l) as Hs.
  { clear l Hn Hx. induction l as [|y l IH]; [done|]. intros [Hy Hl]%not_elem_of_cons. cbn. by rewrite (He y), IH. }
  induction l as [|y l IH]; [by apply elem_of_nil in Hx|]. apply list.NoDup_cons in Hn as [Hy Hn]. cbn.
  destruct (decide (y = x)) as [->|Hne]; [rewrite HP, HQ, Hs by done; by destruct b|].
  apply elem_of_cons in Hx as [?|Hx]; [congruence|]. rewrite (He y) by done. specialize (IH Hn Hx). destruct (Q y), b; cbn in *; lia.
Qed.

Lemma refs_to_cons f g fs : refs_to f (Some g :: fs) = ((if decide (g = f) then 1 else 0) + refs_to f fs)%nat.
Proof. unfold refs_to. case_decide; [by rewrite filter_cons_True by congruence | by rewrite filter_cons_False by congruence]. Qed.

Lemma refs_to_none f fs : refs_to f (None :: fs) = refs_to f fs.
Proof. unfold refs_to. by rewrite filter_cons_False. Qed.

Lemma released_step n fl : 2 <= f_ref fl -> released n (set_f_ref (f_ref fl - 1) fl) = released (S n) fl.
Proof.
  intros H. unfold released. cbn [f_ref set_f_ref]. destruct n as [|n]; cbn [Nat.eqb].
  - rewrite (proj2 (Z.eqb_neq _ _)) by lia. by destruct fl.
  - destruct (Z.eqb_spec (f_ref fl - 1) (Z.of_nat (S n))), (Z.eqb_spec (f_ref fl) (Z.of_nat (S (S n)))); try lia; [done|]. rewrite set_f_ref_twice. f_equal. lia.
Qed.

(** One more reference closed: the file that ends with it is counted once. *)
Lemma inode_refs_cons f fs t fl i : t !! f = Some fl -> Z.of_nat (S (refs_to f fs)) <= f_ref fl ->
  let fl' := if 2 <=? f_ref fl then set_f_ref (f_ref fl - 1) fl else set_f_type FD_NONE (set_f_ref 0 fl) in
  inode_refs (Some f :: fs) t i =
  ((if (f_ref fl =? 1)%Z && inode_file fl && bool_decide (f_ip fl = Some i) then 1 else 0) + inode_refs fs (<[f := fl']> t) i)%nat.
Proof.
  intros Hf Hle fl'. unfold inode_refs. rewrite length_insert. pose proof (lookup_lt_Some _ _ _ Hf) as Hlt.
  assert (forall y, y <> f -> ends_ref (Some f :: fs) t i y = ends_ref fs (<[f := fl']> t) i y) as Ho.
  { intros y Hy. unfold ends_ref. rewrite list_lookup_insert_ne, refs_to_cons, decide_False by done. done. }
  unfold fl' in *. destruct (Z.leb_spec 2 (f_ref fl)).
  - rewrite (proj2 (Z.eqb_neq _ _)) by lia. cbn [andb Nat.add]. f_equal. apply List.filter_ext. intros y. destruct (decide (y = f)) as [->|Hy]; [|by apply Ho].
    unfold ends_ref. rewrite Hf, list_lookup_insert_eq, refs_to_cons, decide_True by done. cbn [f_ref set_f_ref Nat.add].
    change (inode_file (set_f_ref _ fl)) with (inode_file fl). change (f_ip (set_f_ref _ fl)) with (f_ip fl).
    destruct (refs_to f fs) as [|n]; cbn [Nat.ltb Nat.leb andb]; [by rewrite (proj2 (Z.eqb_neq _ _)) by lia|].
    by destruct (Z.eqb_spec (f_ref fl - 1) (Z.of_nat (S n))), (Z.eqb_spec (f_ref fl) (Z.of_nat (S (S n)))); try lia.
  - assert (refs_to f fs = 0%nat) as E0 by lia. assert (f_ref fl = 1) as E1 by lia. apply (count_step _ _ f); [apply NoDup_seq | apply elem_of_seq; lia | | | done]; unfold ends_ref.
    + rewrite Hf, refs_to_cons, decide_True, E0, E1 by done. done.
    + by rewrite list_lookup_insert_eq, E0 by done.
Qed.

Lemma inode_refs_none fs t i : inode_refs (None :: fs) t i = inode_refs fs t i.
Proof. unfold inode_refs. by f_equal. Qed.

Lemma truncates_false n ip : Z.of_nat (S n) <= i_ref ip ->
  (i_ref ip = Z.of_nat (S n) -> i_valid ip = true -> i_nlink ip <> 0) -> truncates ip = false.
Proof.
  intros Hle Hl. unfold truncates. destruct (Z.eqb_spec (i_ref ip) 1); [|done]. destruct (i_valid ip) eqn:E; [|done]. cbn.
  apply Z.eqb_neq, Hl; [lia | done].
Qed.

Lemma close_ref_file f t it fl : t !! f = Some fl ->
  (close_ref f (t, it)).1 = <[f := if 2 <=? f_ref fl then set_f_ref (f_ref fl - 1) fl else set_f_type FD_NONE (set_f_ref 0 fl)]> t.
Proof. intros Hf. unfold close_ref. cbn [fst snd]. rewrite Hf. by destruct (_ <=? _). Qed.

Lemma files_held_tail f fs t it fl : files_held (Some f :: fs) t it -> t !! f = Some fl ->
  files_held fs (close_ref f (t, it)).1 (close_ref f (t, it)).2.
Proof.
  intros Hh Hf. destruct (Hh f ltac:(left)) as (fl0 & Hf0 & Hle & Hlast). assert (fl0 = fl) as -> by congruence. rewrite refs_to_cons, decide_True in Hle, Hlast by done. cbn [Nat.add] in Hle, Hlast.
  assert (forall j ip, it !! j = Some ip -> exists ip', (close_ref f (t, it)).2 !! j = Some ip') as Hit.
  { intros j ip Hj. unfold close_ref. cbn [fst snd]. rewrite Hf. destruct (_ <=? _); [by eexists|]. destruct (f_ip fl) as [k|], (inode_file fl); cbn; eauto.
    destruct (decide (k = j)) as [->|]; [rewrite list_lookup_alter_eq, Hj; by eexists | rewrite list_lookup_alter_ne by done; by eexists]. }
  pose proof (close_ref_file f t it fl Hf) as Et.
  intros g Hg. rewrite Et. destruct (decide (g = f)) as [->|Hne].
  - rewrite list_lookup_insert_eq by (by apply lookup_lt_Some in Hf). eexists. split; [reflexivity|].
    assert (1 <= Z.of_nat (refs_to f fs)) as H1.
    { unfold refs_to. assert (Some f ∈ filter (fun o => o = Some f) fs) as Hin by (by apply list_elem_of_filter). destruct (filter _ fs); [by apply elem_of_nil in Hin | cbn; lia]. }
    rewrite (proj2 (Z.leb_le _ _)) by lia. cbn [f_ref set_f_ref]. split; [lia|]. intros E. destruct Hlast as [Hpipe Hin]; [lia|].
    split; [exact Hpipe|]. intros Hi. destruct (Hin Hi) as (k & ip & Hk & Hip). destruct (Hit k ip Hip) as [ip' ?]. eauto.
  - destruct (Hh g ltac:(by right)) as (gl & Hgl & Hgle & Hglast). rewrite refs_to_cons, decide_False in Hgle, Hglast by done. cbn [Nat.add] in Hgle, Hglast.
    rewrite list_lookup_insert_ne by done. exists gl. split_and!; [done | done |]. intros E. destruct (Hglast E) as [Hpipe Hin]. split; [done|].
    intros Hi. destruct (Hin Hi) as (k & ip & Hk & Hip). destruct (Hit k ip Hip) as [ip' ?]. eauto.
Qed.

(** The reference to inode [i] that closing one reference to [fl] gives up. *)
Definition ends_now (fl : file) (i : nat) : bool := (f_ref fl =? 1) && inode_file fl && bool_decide (f_ip fl = Some i).

Lemma close_ref_inode f t it fl i : t !! f = Some fl -> 1 <= f_ref fl ->
  (close_ref f (t, it)).2 !! i = (fun ip => if ends_now fl i then drop_inode ip else ip) <$> it !! i.
Proof.
  intros Hf H1. unfold close_ref, ends_now. cbn [fst snd]. rewrite Hf. destruct (Z.leb_spec 2 (f_ref fl)); cbn [snd].
  - rewrite (proj2 (Z.eqb_neq _ _)) by lia. cbn. by destruct (it !! i).
  - replace (f_ref fl) with 1 by lia. cbn [Z.eqb Pos.eqb andb]. destruct (f_ip fl) as [k|], (inode_file fl); cbn; try by destruct (it !! i).
    destruct (decide (k = i)) as [->|Hne]; [by rewrite list_lookup_alter_eq, bool_decide_true by done|].
    rewrite list_lookup_alter_ne, bool_decide_false by congruence. by destruct (it !! i).
Qed.

Lemma set_i_ref_id ip : set_i_ref (i_ref ip - Z.of_nat 0) ip = ip.
Proof. destruct ip. unfold set_i_ref. cbn. by rewrite Z.sub_0_r. Qed.

(** Closing the references of [fs] one by one is counting them. *)
Lemma close_all_counts fs : forall t it extra,
  files_held fs t it -> inodes_held (fun i => (inode_refs fs t i + extra i)%nat) it ->
  all_closable fs (t, it) /\
  (forall f, (close_all fs (t, it)).1 !! f = released (refs_to f fs) <$> t !! f) /\
  (forall i, (close_all fs (t, it)).2 !! i = (fun ip => set_i_ref (i_ref ip - Z.of_nat (inode_refs fs t i)) ip) <$> it !! i).
Proof.
  induction fs as [|[f|] fs IH]; intros t it extra Hf Hi.
  - cbn. split_and!; [done | intros f; by destruct (t !! f) |]. intros i. assert (inode_refs [] t i = 0%nat) as ->.
    { unfold inode_refs. rewrite (List.filter_ext _ (fun _ => false)); [by induction (seq _ _)|]. intros f. unfold ends_ref. by destruct (t !! f). }
    destruct (it !! i) as [ip|]; [|done]. cbn [fmap option_fmap option_map]. by rewrite set_i_ref_id.
  - destruct (Hf f ltac:(left)) as (fl & Hfl & Hle & Hlast). rewrite refs_to_cons, decide_True in Hle, Hlast by done. cbn [Nat.add] in Hle, Hlast.
    pose proof (files_held_tail f fs t it fl Hf Hfl) as Hf'. pose proof (close_ref_file f t it fl Hfl) as Et. pose proof (fun i => close_ref_inode f t it fl i Hfl ltac:(lia)) as Ei.
    assert (forall i, inode_refs (Some f :: fs) t i = ((if ends_now fl i then 1 else 0) + inode_refs fs (close_ref f (t, it)).1 i)%nat) as Er
      by (intros i; rewrite Et; by apply inode_refs_cons). set (t' := (close_ref f (t, it)).1) in *. set (it' := (close_ref f (t, it)).2) in *.
    assert (close_ref f (t, it) = (t', it')) as E by (by destruct (close_ref f (t, it))).
    destruct (IH t' it' extra Hf') as (I1 & I2 & I3).
    { intros i ip' Hip'. rewrite Ei in Hip'. destruct (it !! i) as [ip|] eqn:Hip; [|done]. cbn in Hip'. injection Hip' as <-.
      specialize (Hi i ip Hip). cbv beta in Hi. rewrite Er in Hi. destruct (ends_now fl i); cbn [i_ref i_valid i_nlink drop_inode set_i_ref]; [|done].
      split; [lia|]. intros ? ? ?. apply Hi; [lia | lia | done]. }
    cbn [all_closable close_all]. rewrite E. split_and!; [|done | |].
    + exists fl. split_and!; [done | lia |]. intros E1. destruct Hlast as [Hpipe Hin]; [lia|]. split; [done|]. intros Hif. destruct (Hin Hif) as (i & ip & Hip & Hit).
      exists i, ip. split_and!; [done | done |]. specialize (Hi i ip Hit). cbv beta in Hi. rewrite Er in Hi. unfold ends_now in Hi. rewrite E1, Hif, bool_decide_true in Hi by done.
      cbn [Z.eqb Pos.eqb andb Nat.add] in Hi. apply (truncates_false (inode_refs fs t' i + extra i)); [apply Hi | apply Hi; lia].
    + intros g. rewrite I2, Et. destruct (decide (g = f)) as [->|Hne].
      * rewrite list_lookup_insert_eq, Hfl, refs_to_cons, decide_True by (done || by apply lookup_lt_Some in Hfl). cbn [fmap option_fmap option_map Nat.add]. f_equal.
        destruct (Z.leb_spec 2 (f_ref fl)); [by apply released_step|]. unfold released. assert (refs_to f fs = 0%nat) as -> by lia. cbn [Nat.eqb].
        by replace (f_ref fl) with 1 by lia.
      * rewrite list_lookup_insert_ne, refs_to_cons, decide_False by done. done.
    + intros i. rewrite I3, Ei, Er. destruct (it !! i) as [ip|]; [|done]. cbn [fmap option_fmap option_map]. f_equal.
      destruct (ends_now fl i); [|done]. unfold drop_inode, set_i_ref. cbn. f_equal. lia.
  - destruct (IH t it extra) as (I1 & I2 & I3); [|done|].
    + intros g Hg. destruct (Hf g ltac:(by right)) as (fl & H). by exists fl.
    + split_and!; [done | intros g; by rewrite refs_to_none | intros i; by rewrite inode_refs_none].
Qed.

(** ** Exit *)

(** The references to inode [i] a process with these descriptors and this working directory holds
    through files no one else has open, and through the directory. *)
Definition exit_refs (fs : list (option nat)) (c : nat) (t : list file) (i : nat) : nat :=
  (inode_refs fs t i + if decide (i = c) then 1 else 0)%nat.

(** A process that may exit. *)
Record leaves (p : nat) (pr : process) (c : nat) (s : kernel) : Prop := Leaves {
  lv_closing : closing p pr s;
  lv_noff : noff (cur (k_hl s)) = 0;
  lv_wait : free L_wait (k_hl s);
  lv_init : k_init_proc s <> Some p;
  lv_parent : p_parent pr <> Some p;
  lv_fds : length (p_ofile pr) = NOFILE;
  lv_cwd : p_cwd pr = Some c;
  lv_files : files_held (p_ofile pr) (k_ftable s) (k_itable s);
  lv_inodes : inodes_held (exit_refs (p_ofile pr) c (k_ftable s)) (k_itable s);
  lv_dir : (c < length (k_itable s))%nat
}.

(** The statements of [exit] around the working directory, regrouped. *)
Lemma put_then {DD : DiskDriver} {A} p (k : M A) s e :
  (begin_op ;; pr <- get_proc p ;; c <- of_option "p->cwd" (p_cwd pr) ;; iput c ;; end_op ;; k) s e =
  ((begin_op ;; i <- (pr <- get_proc p ;; of_option "p->cwd" (p_cwd pr)) ;; iput i ;; end_op) ;; k) s e.
Proof. unfold bind. by repeat case_match; simplify_eq. Qed.

(** C30: exit closes every descriptor of the process and leaves it a zombie with its
    status, with no descriptor and no working directory, holding only its own lock; each
    file loses one reference for every descriptor that named it and its slot is freed
    when none is left, each inode loses one reference for every file so closed for good
    and one for the working directory; every child has the first process as parent; a
    parent asleep in wait is runnable; log, memory and disk are unchanged. It is assumed
    that the reference counts cover these references, that a file closed for good is no
    pipe, that an inode whose last reference goes is still linked or was never read (so
    iput does not truncate it), that the process is not the first one, and that the log
    admits an operation at once and holds no logged block when no other call is in
    progress. *)
Theorem exit_leaves_zombie {DD : DiskDriver} p pr c status s :
  leaves p pr c s ->
  exists s', exit (A := Z) status s [] = Blocked s' /\
    k_procs s' !! p = Some (set_p_status ZOMBIE (set_p_xstate status (set_p_cwd None (set_p_ofile (replicate NOFILE None) pr)))) /\
    (forall i q, i <> p -> k_procs s !! i = Some q -> exists q', k_procs s' !! i = Some q' /\
       p_parent q' = (if child_of p q then k_init_proc s else p_parent q) /\
       (p_status q = SLEEPING -> p_chan q = proc_chan (p_parent pr) -> p_status q' = RUNNABLE)) /\
    (forall f, k_ftable s' !! f = released (refs_to f (p_ofile pr)) <$> k_ftable s !! f) /\
    (forall i, k_itable s' !! i =
       (fun ip => set_i_ref (i_ref ip - Z.of_nat (exit_refs (p_ofile pr) c (k_ftable s) i)) ip) <$> k_itable s !! i) /\
    k_log s' = k_log s /\ k_trace s' = k_trace s /\ k_mem s' = k_mem s /\
    free L_wait (k_hl s') /\ held_by_me (L_proc p) (k_hl s').
Proof.
  intros [Hcl H0 HfW Hinit Hpar Hfds Hcwd Hfiles Hinodes Hc]. pose proof (cl_ready _ _ _ Hcl) as Hr.
  destruct (close_all_counts _ _ _ (fun i => if decide (i = c) then 1%nat else 0%nat) Hfiles Hinodes) as (Hall & Eft & Eit).
  destruct (close_fds_run p NOFILE 0 pr s [] Hcl Hfds Hall) as (l & R & Hla). rewrite drop_0 in *. cbn [take app] in Hla.
  set (x := close_all _ _) in *. set (pr1 := set_p_ofile _ pr) in *. set (s1 := with_tables l x s) in *.
  assert (closing p pr1 s1) as Hcl1 by (apply (closing_tables p pr); [done | apply Hla..]).
  destruct (lookup_lt_is_Some_2 _ _ Hc) as [ip Hip]. pose proof (Eit c) as Ec. rewrite Hip in Ec. cbn [fmap option_fmap option_map] in Ec. set (ip1 := set_i_ref _ ip) in Ec.
  assert (truncates ip1 = false) as Ht.
  { destruct (Hinodes c ip Hip) as [Hle Hl]. unfold exit_refs in Hle, Hl. rewrite decide_True in Hle, Hl by done. apply (truncates_false 0); cbn; [lia|].
    intros E Hv. apply Hl; [lia | lia | done]. }
  assert (forall L, (pr <- get_proc p ;; of_option "p->cwd" (p_cwd pr)) (set_k_log L s1) [] = Ret c (set_k_log L s1) []) as Hm.
  { intros L. kstep get_proc_run; [apply Hla|]. cbn [p_cwd pr1 set_p_ofile]. by rewrite Hcwd. }
  pose proof (put_run _ p pr1 c ip1 s1 [] Hcl1 Ec Ht Hm) as Rp. set (s2 := log_woken p _) in Rp.
  set (l2 := wake_procs (Some p) CLog (k_procs s)). assert (k_procs s2 = <[p := pr1]> l2) as El2 by apply Hla.
  pose proof (br_len _ _ _ Hr) as Hlen. assert (p < NPROC)%nat as Hp by (rewrite <- Hlen; apply (lookup_lt_Some _ _ _ (br_pr _ _ _ Hr))).
  set (pr2 := set_p_cwd None pr1). set (s3 := set_k_procs (<[p := pr2]> l2) s2). assert (length l2 = NPROC) as Hl2 by (unfold l2; by rewrite length_wake_procs).
  assert (bio_ready p pr2 s3) as Hr3.
  { apply (bio_ready_ext p pr1 _ s1); [apply Hcl1 | done | cbn; by rewrite length_insert | cbn; apply list_lookup_insert_eq; lia]. }
  eexists. split.
  - unfold exit. kstep (me_run s [] 3 p); [apply Hr | apply Hr |]. rewrite bind_gets, bool_decide_false by done. kstep R. rewrite put_then. kstep Rp.
    kstep upd_proc_run; [rewrite El2; apply list_lookup_insert_eq; lia|]. rewrite El2, list_insert_insert_eq. fold pr2 s3.
    apply (exit_tail p pr2); done.
  - cbn [k_procs k_itable k_ftable k_log k_trace k_mem k_hl set_k_hl set_k_procs]. change (k_init_proc s3) with (k_init_proc s). split_and!.
    + unfold exit_table. rewrite list_lookup_insert_eq; [done|]. rewrite length_wake_procs, length_adopted. cbn. rewrite length_insert. lia.
    + intros i q Hi Hq. assert (k_procs s3 !! i = Some (wake CLog q)) as Hq3.
      { cbn. rewrite list_lookup_insert_ne by done. unfold l2. rewrite lookup_wake_procs, Hq. cbn. by rewrite bool_decide_false by congruence. }
      destruct (exit_table_other p pr2 (k_init_proc s) status (k_procs s3) i _ Hi Hq3) as (q' & E1 & E2 & E3). exists q'. split; [exact E1|].
      unfold child_of in *. rewrite !wake_parent in E2. split; [exact E2|]. intros Hs Hch. apply E3. apply asleep_wake. split; auto.
    + exact Eft.
    + intros i. cbn. destruct (decide (i = c)) as [->|Hi].
      * rewrite list_lookup_insert_eq, Hip by (by apply lookup_lt_Some in Ec). cbn. unfold exit_refs. rewrite decide_True by done. unfold drop_inode, ip1, set_i_ref. cbn. do 2 f_equal. lia.
      * rewrite list_lookup_insert_ne by done. unfold exit_refs. rewrite decide_False, Nat.add_0_r by done. apply Eit.
    + done.
    + done.
    + done.
    + cbn. by apply free_acq_ne.
    + apply held_acq.
Qed.

(** A process with the console open twice and a file no one else has open, in a directory
    shared with the first process; process 5 is its child and process 2, its parent, waits. *)
Definition leaver : process :=
  set_p_ofile ([Some 0%nat; Some 0%nat; Some 1%nat] ++ replicate 13 None) (set_p_parent (Some 2%nat) (set_p_cwd (Some 0%nat) proc0)).
Definition console_file : file := set_f_ip (Some 0%nat) (set_f_type FD_DEVICE (set_f_ref 3 file0)).
Definition own_file : file := set_f_ip (Some 1%nat) (set_f_type FD_INODE (set_f_ref 1 file0)).
Definition leaving : kernel :=
  set_k_init_proc (Some 1%nat) (set_k_ftable [console_file; own_file]
    (set_k_itable [set_i_ref 2 inode0; set_i_nlink 1 (set_i_valid true (set_i_ref 1 inode0))]
    (set_k_procs (<[5%nat := set_p_parent (Some 0%nat) proc0]> (<[2%nat := set_p_status SLEEPING (set_p_chan (CProc 2) proc0)]>
       (<[0%nat := leaver]> (k_procs boot0)))) boot0))).

Lemma leaving_leaves : leaves 0 leaver 0 leaving.
Proof.
  split; try done; [| | |cbn; lia].
  - split; try done. apply (bio_ready_ext 0 proc0 _ boot0); [exact boot0_ready | reflexivity..].
  - intros f Hf. cbn in Hf. repeat (apply elem_of_cons in Hf as [Hf|Hf]; [simplify_eq|]); [..|by apply elem_of_nil in Hf].
    1-2: exists console_file; split_and!; [done | vm_compute; discriminate | vm_compute; discriminate].
    exists own_file. split_and!; [done | vm_compute; discriminate |]. intros _. split; [done|]. intros _. by exists 1%nat; eexists.
  - intros [|[|]] ip Hip; cbn in Hip; simplify_eq; vm_compute; split; try discriminate.
Qed.

Lemma exit_leaves_zombie_witness : exists s', exit (DD := polled_disk) (A := Z) 7 leaving [] = Blocked s' /\
  k_procs s' !! 0%nat = Some (set_p_status ZOMBIE (set_p_xstate 7 (set_p_cwd None (set_p_ofile (replicate NOFILE None) leaver)))) /\
  (exists q, k_procs s' !! 5%nat = Some q /\ p_parent q = Some 1%nat) /\
  (exists q, k_procs s' !! 2%nat = Some q /\ p_status q = RUNNABLE) /\
  k_ftable s' !! 0%nat = Some (set_f_ref 1 console_file) /\
  k_ftable s' !! 1%nat = Some (set_f_type FD_NONE (set_f_ref 0 own_file)) /\
  i_ref <$> k_itable s' !! 0%nat = Some 1 /\ i_ref <$> k_itable s' !! 1%nat = Some 0.
Proof.
  destruct (exit_leaves_zombie (DD := polled_disk) 0 leaver 0 7 leaving leaving_leaves) as (s' & H1 & H2 & H3 & H4 & H5 & _).
  exists s'. rewrite !H4, !H5. split_and!; [exact H1 | exact H2 | | | reflexivity..].
  - destruct (H3 5%nat (set_p_parent (Some 0%nat) proc0)) as (q & E1 & E2 & _); [discriminate | reflexivity |]. exists q. split; [exact E1|]. exact E2.
  - destruct (H3 2%nat (set_p_status SLEEPING (set_p_chan (CProc 2) proc0))) as (q & E1 & _ & E3); [discriminate | reflexivity |].
    exists q. split; [exact E1|]. apply E3; reflexivity.
Defined.
