(* ===== verification/NameSpec.v ===== *)
(** * Path names ([fs.cpp]: [namex], [namei], [nameiparent])

    What a path name means on the disk, as a function of the contents of the
    blocks: the elements between the slashes are looked up one after the other,
    each in the directory found before.  [namex] computes this function with the
    inode table, the sleep locks of the inodes, the block cache and two buffers
    on the stack; it leaves one new reference, to the inode it returns. *)

From S2P Require Import Prelude State Riscv Cstring Lock Sched Kalloc UserCopy Bio Log Fs FsSpec Proc ProcSpec ForkSpec.

(** ** Texts *)

(** A string in an array: up to its first NUL. *)
Definition upto0 (l : list Z) : list Z := match find_idx (fun c => c =? 0) l with Some k => take k l | None => l end.

Lemma upto0_eq l x : (forall c, c ∈ x -> c <> 0) ->
  upto0 l = x <-> (length x <= length l)%nat /\ (forall j, (j < length x)%nat -> l !! j = x !! j) /\
                  ((length x < length l)%nat -> l !! length x = Some 0).
Proof.
  intros Hx. unfold upto0. destruct (find_idx (fun c => c =? 0) l) as [k|] eqn:E.
  - apply find_idx_Some in E as (c & Hc & H0%Z.eqb_eq & Hmin). subst c. pose proof (lookup_lt_Some _ _ _ Hc) as Hk. split.
    + intros <-. rewrite length_take, Nat.min_l by lia. split_and!; [lia | | done].
      intros j Hj. by rewrite lookup_take_lt.
    + intros (Hle & Hj & Hend). assert (k = length x) as ->.
      { destruct (Nat.lt_trichotomy k (length x)) as [Hlt|[?|Hgt]]; [|done|].
        - rewrite (Hj k Hlt) in Hc. exfalso. apply (Hx 0); [by eapply list_elem_of_lookup_2 | done].
        - specialize (Hmin _ _ Hgt (Hend ltac:(lia))). done. }
      apply list_eq. intros j. destruct (decide (j < length x)%nat).
      * rewrite lookup_take_lt by done. by apply Hj.
      * by rewrite lookup_take_ge, (lookup_ge_None_2 x) by lia.
  - apply find_idx_None in E. split.
    + intros <-. split_and!; [done | done | lia].
    + intros (Hle & Hj & Hend). destruct (decide (length x < length l)%nat) as [Hlt|Hge].
      * specialize (Hend Hlt). pose proof (Forall_lookup_1 _ _ _ _ E Hend). done.
      * apply list_eq. intros j. destruct (decide (j < length x)%nat); [by apply Hj|].
        by rewrite !lookup_ge_None_2 by lia.
Qed.

(** The elements of a path: what is between the slashes. *)
Fixpoint elements_from (cur l : list Z) : list (list Z) :=
  match l with
  | [] => match cur with [] => [] | _ => [cur] end
  | c :: l' =>
      if c =? 47 then match cur with [] => elements_from [] l' | _ => cur :: elements_from [] l' end
      else elements_from (cur ++ [c]) l'
  end.
Definition elements (path : list Z) : list (list Z) := elements_from [] path.

Definition slashes (n : nat) : list Z := replicate n 47.

Lemma length_slashes n : length (slashes n) = n.
Proof. apply length_replicate. Qed.

Lemma elements_slashes n l : elements (slashes n ++ l) = elements l.
Proof. induction n as [|n IH]; [done|]. exact IH. Qed.

Lemma elements_name x l : (47 ∉ x) -> forall cur, elements_from cur (x ++ l) = elements_from (cur ++ x) l.
Proof.
  induction x as [|c x IH]; intros Hx cur; cbn [app elements_from]; [by rewrite app_nil_r|].
  rewrite not_elem_of_cons in Hx. destruct Hx as [Hc Hx]. rewrite (proj2 (Z.eqb_neq c 47)) by congruence.
  rewrite IH by done. by rewrite <- app_assoc.
Qed.

(** Leading slashes, and then nothing or something else. *)
Lemma leading_slashes l : exists n r, l = slashes n ++ r /\ (forall c t, r = c :: t -> c <> 47).
Proof.
  induction l as [|c l (n & r & -> & Hr)]; [by exists 0%nat, []|]. destruct (decide (c = 47)) as [->|Hc].
  - exists (S n), r. done.
  - exists 0%nat, (c :: slashes n ++ r). split; [done|]. by intros ?? [= <- _].
Qed.

(** A name: bytes that are not slashes, up to a slash or the end. *)
Lemma leading_name l : exists x r, l = x ++ r /\ (47 ∉ x) /\ (forall c t, r = c :: t -> c = 47).
Proof.
  induction l as [|c l (x & r & -> & Hx & Hr)]; [exists [], []; set_solver|]. destruct (decide (c = 47)) as [->|Hc].
  - exists [], (47 :: x ++ r). split_and!; [done | set_solver |]. by intros ?? [= <- _].
  - exists (c :: x), r. split_and!; [done | set_solver | done].
Qed.

(** A path is slashes only, or slashes, its first element, slashes and the rest. *)
Lemma elements_split l :
  (exists n, l = slashes n /\ elements l = []) \/
  exists a x b r, l = slashes a ++ x ++ slashes b ++ r /\ x <> [] /\ (47 ∉ x) /\
    (forall c t, r = c :: t -> c <> 47) /\ (b = 0%nat -> r = []) /\ elements l = x :: elements r.
Proof.
  destruct (leading_slashes l) as (a & r1 & -> & H1). rewrite elements_slashes. destruct r1 as [|c r1].
  { left. exists a. by rewrite app_nil_r. }
  right. destruct (leading_name (c :: r1)) as (x & r2 & E & Hx & H2). rewrite E in *.
  assert (x <> []) as Hne by (intros ->; cbn in E; apply (H1 c r1); [by rewrite E | by apply (H2 c r1)]).

  destruct (leading_slashes r2) as (b & r & -> & Hr). exists a, x, b, r. split_and!; try done.
  - intros ->. destruct r as [|d r]; [done|]. exfalso. apply (Hr d r eq_refl), (H2 d r eq_refl).
  - unfold elements at 1. rewrite elements_name by done. cbn [app]. destruct b as [|b].
    + destruct r as [|d r]; [by destruct x|]. exfalso. apply (Hr d r eq_refl), (H2 d r eq_refl).
    + cbn. destruct x; [done|]. f_equal. apply elements_slashes.
Qed.

(** ** The tree on the disk *)

(** Inode [n] as the blocks [V] have it. *)
Definition dnode (V : Z -> list Z) (sb : superblock) (n : Z) : inode :=
  load_dinode (dinode_off n) (V (IBLOCK n sb)) inode0.

(** A directory entry: inode number and name. *)
Definition entry_inum (l : list Z) : Z := le_val (take 2 l).
Definition entry_name (l : list Z) : list Z := upto0 (take (Z.to_nat DIRSIZ) (drop 15 l)).

(** An entry in use with the name [x], of which 14 bytes count. *)
Definition is_entry (x l : list Z) : bool :=
  negb (entry_inum l =? 0) && bool_decide (take (Z.to_nat DIRSIZ) x = entry_name l).

Definition dir_find (V : Z -> list Z) (d : inode) (x : list Z) : option Z :=
  match find_idx (fun k => is_entry x (entry V d k)) (seq 0 (Z.to_nat (i_size d / DIRENT))) with
  | Some k => Some (entry_inum (entry V d k))
  | None => None
  end.

(** The inode a path leads to from inode [n]; for [parent], the directory of its last element. *)
Fixpoint resolve (V : Z -> list Z) (sb : superblock) (parent : bool) (n : Z) (path : list (list Z)) : option Z :=
  match path with
  | [] => if parent then None else Some n
  | x :: r =>
      if i_type (dnode V sb n) =? T_DIR then
        if parent && bool_decide (r = []) then Some n
        else match dir_find V (dnode V sb n) x with Some k => resolve V sb parent k r | None => None end
      else None
  end.

(** An element that fills the array [name] exactly is met on the way: its NUL is stored past the end. *)
Fixpoint overruns (V : Z -> list Z) (sb : superblock) (parent : bool) (n : Z) (path : list (list Z)) : bool :=
  match path with
  | [] => false
  | x :: r =>
      (Z.of_nat (length x) =? DIRSIZ) ||
      (if (i_type (dnode V sb n) =? T_DIR) && negb (parent && bool_decide (r = [])) then
         match dir_find V (dnode V sb n) x with Some k => overruns V sb parent k r | None => false end
       else false)
  end.

(** An inode in use; the blocks of a directory are direct and hold whole entries. *)
Record good_inode (V : Z -> list Z) (d : inode) : Prop := Good {
  go_type : i_type d <> 0;
  go_nlink : i_nlink d <> 0;
  go_size : i_type d = T_DIR -> i_size d mod DIRENT = 0 /\ 0 <= i_size d /\ i_size d + DIRENT < 2 ^ 32;
  go_blocks : i_type d = T_DIR -> blocks_ok V d 0 (i_size d)
}.

(** The inodes met on the way are good. *)
Fixpoint walkable (V : Z -> list Z) (sb : superblock) (parent : bool) (n : Z) (path : list (list Z)) : Prop :=
  match path with
  | [] => parent = true -> good_inode V (dnode V sb n)
  | x :: r =>
      good_inode V (dnode V sb n) /\
      (i_type (dnode V sb n) = T_DIR -> parent && bool_decide (r = []) = false ->
       match dir_find V (dnode V sb n) x with Some k => walkable V sb parent k r | None => True end)
  end.

(** ** Texts in memory *)

Definition text_at (m : memory) (a : Z) (l : list Z) : Prop := forall j c, l !! j = Some c -> m (a + Z.of_nat j) = c.

Lemma text_at_app m a l1 l2 : text_at m a (l1 ++ l2) <-> text_at m a l1 /\ text_at m (a + Z.of_nat (length l1)) l2.
Proof.
  unfold text_at. split.
  - intros H. split; intros j c Hj; [apply H; by apply lookup_app_l_Some|].
    rewrite <- Z.add_assoc, <- Nat2Z.inj_add. apply H. by rewrite lookup_app_r, Nat.add_comm, Nat.add_sub by lia.
  - intros [H1 H2] j c Hj. apply lookup_app_Some in Hj as [Hj|[Hge Hj]]; [by apply H1|].
    specialize (H2 _ _ Hj). rewrite <- H2. f_equal. lia.
Qed.

Lemma text_at_ext m m' a l : text_at m a l -> (forall x, a <= x < a + Z.of_nat (length l) -> m' x = m x) -> text_at m' a l.
Proof. intros H E j c Hj. rewrite E; [by apply H|]. apply lookup_lt_Some in Hj. lia. Qed.

Lemma text_at_slashes m a n j : text_at m a (slashes n) -> 0 <= j < Z.of_nat n -> m (a + j) = 47.
Proof. intros H Hj. rewrite <- (Z2Nat.id j) by lia. apply H. apply lookup_replicate_2. lia. Qed.

(** The buffer [name] holds the element [x], cut to 14 bytes. *)
Definition name_at (m : memory) (name : Z) (x : list Z) : Prop :=
  text_at m name (take (Z.to_nat DIRSIZ) x) /\ ((length x < Z.to_nat DIRSIZ)%nat -> m (name + Z.of_nat (length x)) = 0).

Lemma name_at_ext m m' name x : name_at m name x -> (forall y, name <= y < name + DIRSIZ -> m' y = m y) -> name_at m' name x.
Proof.
  intros [H1 H2] E. split.
  - apply (text_at_ext m); [done|]. intros y Hy. rewrite length_take in Hy. unfold DIRSIZ in *. apply E. lia.
  - intros Hl. unfold DIRSIZ in *. rewrite E by lia. by apply H2.
Qed.

(** The first 14 bytes. *)
Section cut.
Context (x : list Z).
Hypothesis Hx : forall c, c ∈ x -> c <> 0.
Let X := take (Z.to_nat DIRSIZ) x.

Lemma cut_nonzero c : c ∈ X -> c <> 0.
Proof. intros Hc. apply list_elem_of_lookup in Hc as [j Hj]. apply lookup_take_Some in Hj as [Hj _]. apply Hx. by eapply list_elem_of_lookup_2. Qed.

Lemma cut_length : (length X <= 14)%nat /\ ((length X < 14)%nat -> length x = length X).
Proof. unfold X. rewrite length_take. unfold DIRSIZ. lia. Qed.

(** Comparing with the 14 bytes [f] at [a] is comparing texts. *)
Lemma namecmp_text m name a f : length f = 14%nat -> (forall j, (j < 14)%nat -> f !! j = Some (m (a + Z.of_nat j))) ->
  name_at m name x -> namecmp m name a = 0 <-> X = upto0 f.
Proof.
  intros Hl Hf [Ht Hz]. fold X in Ht. destruct cut_length as [HlX Exl].
  assert (Hz' : (length X < 14)%nat -> m (name + Z.of_nat (length X)) = 0).
  { intros H. rewrite <- Exl by done. apply Hz. unfold DIRSIZ. rewrite Exl by done. lia. }
  unfold namecmp. rewrite strncmp_equal by (unfold DIRSIZ; lia). unfold DIRSIZ. split.
  - intros (k & Hk & Hj & Hend). symmetry. apply upto0_eq; [exact cut_nonzero|]. rewrite Hl.
    assert (Z.to_nat k = length X) as Ek.
    { destruct (Nat.lt_trichotomy (Z.to_nat k) (length X)) as [Hlt|[?|Hgt]]; [|done|]; exfalso.
      - destruct (lookup_lt_is_Some_2 X _ Hlt) as [c Hc]. destruct Hend as [H0 _]; [lia|].
        apply (cut_nonzero c); [by eapply list_elem_of_lookup_2|]. rewrite <- (Ht _ _ Hc), <- H0. f_equal. lia.
      - destruct (Hj (Z.of_nat (length X)) ltac:(lia)) as [_ H0]. apply H0, Hz'. lia. }
    split_and!; [lia | |].
    + intros j Hjl. rewrite Hf by lia. destruct (lookup_lt_is_Some_2 X _ Hjl) as [c Hc]. rewrite Hc. f_equal.
      destruct (Hj (Z.of_nat j) ltac:(lia)) as [E _]. rewrite <- E. by apply Ht.
    + intros Hlt. rewrite Hf by lia. f_equal. destruct Hend as [_ H0]; [lia|]. rewrite <- H0. f_equal. lia.
  - intros E. symmetry in E. apply upto0_eq in E as (_ & Hj & Hend); [|exact cut_nonzero]. rewrite Hl in Hend.
    exists (Z.of_nat (length X)). split_and!; [lia | lia | |].
    + intros j Hjr. destruct (lookup_lt_is_Some_2 X (Z.to_nat j)) as [c Hc]; [lia|].
      pose proof (Ht _ _ Hc) as E1. rewrite Z2Nat.id in E1 by lia.
      specialize (Hj (Z.to_nat j) ltac:(lia)). rewrite Hf, Hc in Hj by lia. injection Hj as E2. rewrite Z2Nat.id in E2 by lia.
      rewrite E1, E2. split; [done|]. apply cut_nonzero. by eapply list_elem_of_lookup_2.
    + intros Hlt. specialize (Hend ltac:(lia)). rewrite Hf in Hend by lia. injection Hend as E2. split; [apply Hz'; lia | done].
Qed.

(** Comparing the entry read to [de] with the name. *)
Lemma names_match m name de l : length l = Z.to_nat DIRENT ->
  name_at m name x -> name + DIRSIZ <= de \/ de + DIRENT <= name -> names m name de l = is_entry x l.
Proof.
  intros Hl Hn Hd. unfold names, is_entry. f_equal.
  { unfold de_inum, entry_inum. do 3 f_equal. rewrite <- (load_store_bytes m de l) at 2. rewrite Hl. reflexivity. }
  apply (name_at_ext _ (store_bytes m de l)) in Hn.
  2: { intros y Hy. apply store_bytes_out. rewrite Hl. unfold DIRENT in *. lia. }
  pose proof (namecmp_text (store_bytes m de l) name (de + 15) (take (Z.to_nat DIRSIZ) (drop 15 l))) as Hc.
  fold (entry_name l) in Hc. fold X. apply eq_true_iff_eq. rewrite Z.eqb_eq, bool_decide_eq_true. apply Hc; [| |done].
  - rewrite length_take, length_drop, Hl. unfold DIRSIZ, DIRENT. lia.
  - intros j Hj. rewrite lookup_take_lt, lookup_drop by (unfold DIRSIZ; lia).
    destruct (lookup_lt_is_Some_2 l (15 + j)) as [c E]; [rewrite Hl; unfold DIRENT; lia|]. rewrite E. f_equal.
    rewrite store_bytes_in by (rewrite Hl; unfold DIRENT; lia).
    replace (Z.to_nat (de + 15 + Z.of_nat j - de)) with (15 + j)%nat by lia. symmetry. by apply nth_lookup_Some.
Qed.
End cut.

(** ** The next element *)

Lemma skipelem_end fuel m path name n : 0 < path -> text_at m path (slashes n ++ [0]) -> (n < fuel)%nat ->
  skipelem fuel m path name = Elem 0 m.
Proof.
  intros Hp Ht Hf. apply text_at_app in Ht as [Hs H0]. rewrite length_slashes in H0.
  specialize (H0 0%nat 0 eq_refl). rewrite Z.add_0_r in H0. unfold skipelem. rewrite (proj2 (Z.eqb_neq path 0)) by lia.
  rewrite (skip_slashes_run m n); [|intros j Hj; by apply (text_at_slashes m path n) | by rewrite H0 | done].
  by rewrite H0.
Qed.

Lemma skipelem_next fuel m path name a x b r :
  0 < path -> text_at m path (slashes a ++ x ++ slashes b ++ r ++ [0]) ->
  x <> [] -> (47 ∉ x) -> (forall c, c ∈ x -> c <> 0) -> (forall c t, r = c :: t -> c <> 47) -> (b = 0%nat -> r = []) ->
  (a + length x + b < fuel)%nat -> Z.of_nat (length x) < 2 ^ 32 ->
  name + DIRSIZ <= path \/ path + Z.of_nat (a + length x + b) < name ->
  if Z.of_nat (length x) =? DIRSIZ then skipelem fuel m path name = Overrun
  else exists m', skipelem fuel m path name = Elem (path + Z.of_nat (a + length x + b)) m' /\ name_at m' name x /\
    (forall y, y < name \/ name + DIRSIZ <= y -> m' y = m y).
Proof.
  intros Hp Ht Hne H47 H0 Hr Hb Hf Hlx Hd.
  apply text_at_app in Ht as [Ha Ht]. apply text_at_app in Ht as [Hx Ht]. apply text_at_app in Ht as [Hb' Hr'].
  rewrite !length_slashes in *.
  assert (0 < length x)%nat as Hpos by (destruct x; [done | cbn; lia]).
  assert (m (path + Z.of_nat a + Z.of_nat (length x) + Z.of_nat b) <> 47) as Hend.
  { destruct r as [|c t].
    - specialize (Hr' 0%nat 0 eq_refl). rewrite Z.add_0_r in Hr'. by rewrite Hr'.
    - specialize (Hr' 0%nat c eq_refl). rewrite Z.add_0_r in Hr'. rewrite Hr'. by apply (Hr c t). }
  pose proof (skipelem_splits m path name (Z.of_nat a) (Z.of_nat (length x)) (Z.of_nat b) fuel) as Hsk.
  assert (elem_at m path (Z.of_nat a) (Z.of_nat (length x)) (Z.of_nat b)) as He.
  { split; [lia | intros j Hj; by apply (text_at_slashes m path a) | | intros j Hj; by apply (text_at_slashes m _ b) | split; [done|]].
    + intros j Hj. destruct (lookup_lt_is_Some_2 x (Z.to_nat j)) as [c Hc]; [lia|]. pose proof (Hx _ _ Hc) as E.
      rewrite Z2Nat.id in E by lia. rewrite E. pose proof (list_elem_of_lookup_2 _ _ _ Hc). split; [intros ->; done | by apply H0].
    + intros E0. rewrite (Hb ltac:(lia)) in Hr'. specialize (Hr' 0%nat 0 eq_refl). rewrite E0, !Z.add_0_r in Hr'. exact Hr'. }
  assert (Z.of_nat (length x) <> DIRSIZ -> name_span (Z.of_nat (length x)) <= DIRSIZ) as Hspan.
  { unfold name_span, DIRSIZ. intros Hl. destruct (Z.ltb_spec 14 (Z.of_nat (length x))); lia. }
  specialize (Hsk ltac:(lia) He ltac:(lia) ltac:(intros Hl; specialize (Hspan Hl); lia)).
  destruct (Z.eqb_spec (Z.of_nat (length x)) DIRSIZ) as [El|El]; [exact Hsk|]. destruct Hsk as (m' & R & Hcopy & Hnul & Hout).
  specialize (Hspan El). exists m'. split; [rewrite R; f_equal; lia|]. unfold DIRSIZ in *. split; [split|].
  - intros j c Hj. apply lookup_take_Some in Hj as [Hj Hlt]. pose proof (lookup_lt_Some _ _ _ Hj).
    rewrite Hcopy by (unfold DIRSIZ in *; lia). by apply Hx.
  - intros Hle. apply Hnul. unfold DIRSIZ in *. lia.
  - intros y Hy. apply Hout. lia.
Qed.

(** ** Sums over the inode table *)

Fixpoint sumZ (f : inode -> Z) (T : list inode) : Z := match T with [] => 0 | ip :: T' => f ip + sumZ f T' end.

Lemma sumZ_insert f T i ip jp : T !! i = Some ip -> sumZ f (<[i := jp]> T) = sumZ f T - f ip + f jp.
Proof.
  revert i. induction T as [|x T IH]; intros [|i] H; [done | done | |].
  - injection H as ->. change (<[0%nat := jp]> (ip :: T)) with (jp :: T). cbn [sumZ]. lia.
  - change (<[S i := jp]> (x :: T)) with (x :: <[i := jp]> T). cbn [sumZ]. rewrite (IH i H). lia.
Qed.

(** The references to inode [n] of the disk, and the free entries. *)
Definition refs (D n : Z) (T : list inode) : Z := sumZ (fun ip => if (i_dev ip =? D) && (i_inum ip =? n) then i_ref ip else 0) T.
Definition unused_entries (T : list inode) : Z := sumZ (fun ip => if i_ref ip =? 0 then 1 else 0) T.

Lemma unused_entry T : 0 < unused_entries T -> exists i ip, T !! i = Some ip /\ free_inode ip = true.
Proof.
  unfold unused_entries. induction T as [|x T IH]; cbn [sumZ]; [lia|]. intros H. destruct (Z.eqb_spec (i_ref x) 0) as [E|E].
  - exists 0%nat, x. split; [done|]. by apply Z.eqb_eq.
  - destruct IH as (i & ip & ? & ?); [lia|]. by exists (S i), ip.
Qed.

Lemma find_idx_ext {A} (f g : A -> bool) l : (forall x, f x = g x) -> find_idx f l = find_idx g l.
Proof. intros H. unfold find_idx. generalize 0%nat. induction l as [|x l IH]; intros n; [done|]. cbn. by rewrite H, IH. Qed.

(** ** Sleep locks of inodes *)

Section ilocks.
Context {DD : DiskDriver} (D : Z) (p : nat) (pr : process).

Lemma nbuf_pos : (0 < NBUF)%nat.
Proof. unfold NBUF. lia. Qed.

Lemma set_itable_id s : set_k_itable (k_itable s) s = s.
Proof. by destruct s. Qed.

Lemma session_self s0 s : session D p pr s0 ∅ s -> session D p pr s ∅ s.
Proof.
  intros Hs. assert (Hr : forall i, (i < NBUF)%nat -> exists b0 b, k_bufs s0 !! i = Some b0 /\ k_bufs s !! i = Some b /\ b_refcnt b = b_refcnt b0).
  { intros i Hi. destruct (se_ref _ _ _ _ _ _ Hs i Hi) as (b0 & b & H1 & H2 & E). exists b0, b. split_and!; try done.
    rewrite E, bool_decide_false by set_solver. cbn. lia. }
  split; try apply Hs.
  - intros i Hi. destruct (Hr i Hi) as (b0 & b & _ & H2 & _). exists b, b. split_and!; try done. rewrite bool_decide_false by set_solver. cbn. lia.
  - intros i b' Hi Hb'. destruct (Hr i Hi) as (b0 & b & H1 & H2 & E). pose proof (se_max _ _ _ _ _ _ Hs i b0 Hi H1). congruence.
  - destruct (se_spare _ _ _ _ _ _ Hs) as (u1 & u2 & b1 & b2 & Hne & Hu1 & Hu2 & E1 & E2 & R1 & R2).
    destruct (Hr u1 Hu1) as (x1 & y1 & X1 & Y1 & Z1). destruct (Hr u2 Hu2) as (x2 & y2 & X2 & Y2 & Z2).
    exists u1, u2, y1, y2. split_and!; try done; congruence.
  - by destruct s.
Qed.

Lemma session_put_itable T s0 held s : session D p pr s0 held s -> session D p pr (set_k_itable T s0) held (set_k_itable T s).
Proof. intros [[] [ord []] ? ? ? ? Hf]. split; try done; [exists ord; by split|]. rewrite Hf. reflexivity. Qed.

Lemma session_put_procs P s : procs_step p (k_procs s) P -> session D p pr s ∅ s -> session D p pr (set_k_procs P s) ∅ (set_k_procs P s).
Proof.
  intros Hp Hs. pose proof (bio_ready_bset p pr s (k_bufs s) P (se_ready _ _ _ _ _ _ Hs) Hp) as Hr.
  destruct Hs as [_ [ord []] ? ? ? ? Hf]. split; try done. exists ord. by split.
Qed.

Section one.
Context (s : kernel) (e : list (kernel -> kernel)) (i : nat) (ip : inode).
Hypothesis Hr : bio_ready p pr s.
Hypothesis Hf : free (L_inode i) (k_hl s).
Hypothesis Hi : k_itable s !! i = Some ip.

Lemma inode_holding_run :
  sleep_holding (inode_sl i) s e = Ret (sl_locked (i_lock ip) && (sl_pid (i_lock ip) =? p_pid pr)) s e.
Proof.
  destruct (acq_facts p pr s 0 Hr nbuf_pos (L_inode i) (k_bufs s) (k_procs s) ltac:(done) ltac:(done)) as (R1 & _ & _ & M1 & P1 & _).
  rewrite bset_id in *. unfold sleep_holding. cbn [sl_id inode_sl]. kstep acquire_run; [exact (room1 p pr s 0 Hr nbuf_pos) | done |].
  unfold sl_fields. rewrite bind_assoc, bind_gets. cbn [sl_get inode_sl k_itable set_k_hl]. rewrite Hi. cbn [fmap option_fmap option_map of_option].
  rewrite bind_ret. kstep (me_run _ e 1 p R1 M1). kstep get_proc_run; [exact P1|].
  kstep (release_acq_run (L_inode i) (k_hl s)); [done | exact (room1 p pr s 0 Hr nbuf_pos) | done |].
  rewrite (br_nested _ _ _ Hr). unfold ret. f_equal. by destruct s.
Qed.

Lemma inode_acquire_run : sl_locked (i_lock ip) = false ->
  sleep_acquire (inode_sl i) s e =
  Ret tt (set_k_itable (<[i := set_i_lock (Mk_sleeplock true (p_pid pr)) ip]> (k_itable s)) s) e.
Proof.
  intros Hu. destruct (acq_facts p pr s 0 Hr nbuf_pos (L_inode i) (k_bufs s) (k_procs s) ltac:(done) ltac:(done)) as (R1 & _ & _ & M1 & P1 & _).
  rewrite bset_id in *. unfold sleep_acquire. cbn [sl_id inode_sl]. kstep acquire_run; [exact (room1 p pr s 0 Hr nbuf_pos) | done |].
  eapply eq_trans; [eapply (bind_Ret _ _ _ _ tt)|].
  { unfold while_waiting. cbn [while]. unfold sl_fields. rewrite !bind_assoc, bind_gets. cbn [sl_get inode_sl k_itable set_k_hl].
    rewrite Hi. cbn [fmap option_fmap option_map of_option]. rewrite bind_ret, bind_ret, Hu. reflexivity. }
  cbv beta. kstep (me_run _ e 1 p R1 M1). kstep get_proc_run; [exact P1|]. rewrite bind_modify.
  rewrite (release_acq_run (L_inode i) (k_hl s)); [|done | exact (room1 p pr s 0 Hr nbuf_pos) | done].
  rewrite (br_nested _ _ _ Hr). f_equal. cbn. unfold set_k_hl, set_k_itable. cbn. f_equal. by apply alter_insert.
Qed.

Lemma inode_release_run :
  sleep_release (inode_sl i) s e =
  Ret tt (set_k_procs (wake_procs (Some p) (CSleepInode i) (k_procs s))
           (set_k_itable (<[i := set_i_lock (Mk_sleeplock false 0) ip]> (k_itable s)) s)) e.
Proof.
  unfold sleep_release. cbn [sl_id inode_sl sl_chan]. kstep acquire_run; [exact (room1 p pr s 0 Hr nbuf_pos) | done |]. rewrite bind_modify.
  cbn [sl_put inode_sl k_itable set_k_hl]. set (T := alter _ _ _).
  assert (Hr' : bio_ready p pr (set_k_itable T s)) by (destruct Hr; by split).
  destruct (acq_facts p pr (set_k_itable T s) 0 Hr' nbuf_pos (L_inode i) (k_bufs s) (k_procs s) ltac:(done) ltac:(done)) as (R1 & N1 & F1 & M1 & P1 & L1).
  change (set_k_itable T (set_k_hl (acq (L_inode i) (k_hl s)) s))
    with (set_k_hl (acq (L_inode i) (k_hl (set_k_itable T s))) (bset (k_bufs s) (k_procs s) (set_k_itable T s))).
  kstep wakeup_run; [done..|]. rewrite (release_acq_run (L_inode i) (k_hl s)); [|done | exact (room1 p pr s 0 Hr nbuf_pos) | done].
  rewrite M1, (br_nested _ _ _ Hr). assert (T = <[i := set_i_lock (Mk_sleeplock false 0) ip]> (k_itable s)) as -> by (by apply alter_insert).
  by destruct s.
Qed.
End one.
End ilocks.

(** ** The inode table between the steps of a walk *)

(** Everything but the memory, the inode table, the cache, the disk and the sleeping processes. *)
Definition same_rest (s s' : kernel) : Prop :=
  s' = set_k_mem (k_mem s') (set_k_itable (k_itable s') (dset (k_disk s') (k_trace s') (k_bufs s') (k_procs s') s)).

Lemma same_rest_refl s : same_rest s s.
Proof. by destruct s. Qed.

Lemma same_rest_trans s1 s2 s3 : same_rest s1 s2 -> same_rest s2 s3 -> same_rest s1 s3.
Proof. unfold same_rest. intros H1 H2. rewrite H1 in H2. exact H2. Qed.

Section walk.
Context {DD : DiskDriver} (D : Z) (p : nat) (pr : process) (V : Z -> list Z) (sb : superblock).

(** No lock is held, and the blocks are [V]. *)
Record fs_idle (s : kernel) : Prop := FsIdle {
  fi_session : session D p pr s ∅ s;
  fi_itable : free L_itable (k_hl s);
  fi_inode i : (i < NINODE)%nat -> free (L_inode i) (k_hl s);
  fi_view b : view D s b = V b;
  fi_sb : k_sb s = sb
}.

(** The fields of an entry are those on the disk. *)
Definition loaded (ip : inode) : Prop := load_dinode (dinode_off (i_inum ip)) (V (IBLOCK (i_inum ip) sb)) ip = ip.

Lemma loaded_lock k ip : loaded ip -> loaded (set_i_lock k ip).
Proof. intros H. exact (f_equal (set_i_lock k) H). Qed.

Lemma loaded_ref r ip : loaded ip -> loaded (set_i_ref r ip).
Proof. intros H. exact (f_equal (set_i_ref r) H). Qed.

(** The entry whose lock is [held] is locked by the process, no other is. *)
Definition lock_fits (held : option nat) (i : nat) (ip : inode) : Prop :=
  if bool_decide (held = Some i) then i_lock ip = Mk_sleeplock true (p_pid pr) else sl_locked (i_lock ip) = false.

Record table_ok (held : option nat) (T : list inode) : Prop := TableOk {
  to_len : length T = NINODE;
  to_one : itable_ok T;
  to_lock i ip : T !! i = Some ip -> lock_fits held i ip;
  to_loaded i ip : T !! i = Some ip -> 0 < i_ref ip -> i_dev ip = D -> i_valid ip = true -> loaded ip
}.

Lemma table_ok_insert held held' T i ip jp : table_ok held T -> T !! i = Some ip -> 0 <= i_ref jp ->
  (forall j c, j <> i -> T !! j = Some c -> 0 < i_ref c -> ~ (i_dev c = i_dev jp /\ i_inum c = i_inum jp)) ->
  lock_fits held' i jp -> (forall j, j <> i -> held' = Some j <-> held = Some j) ->
  (0 < i_ref jp -> i_dev jp = D -> i_valid jp = true -> loaded jp) -> table_ok held' (<[i := jp]> T).
Proof.
  intros [Hl Ho Hk Hv] Hi Hr Hu Hlk Hh Hld. pose proof (lookup_lt_Some _ _ _ Hi) as Hlt. split.
  - by rewrite length_insert.
  - by apply (itable_ok_insert T i ip).
  - intros j c Hj. destruct (decide (j = i)) as [->|Hne]; [rewrite list_lookup_insert_eq in Hj by done; by injection Hj as <-|].
    rewrite list_lookup_insert_ne in Hj by done. specialize (Hk j c Hj). unfold lock_fits in *.
    by rewrite (bool_decide_ext (held' = Some j) (held = Some j)) by (by apply Hh).
  - intros j c Hj. destruct (decide (j = i)) as [->|Hne]; [rewrite list_lookup_insert_eq in Hj by done; by injection Hj as <-|].
    rewrite list_lookup_insert_ne in Hj by done. by apply (Hv j).
Qed.

(** The other entries do not hold the inode of an entry in use. *)
Lemma table_ok_unique held T i ip : table_ok held T -> T !! i = Some ip -> 0 < i_ref ip ->
  forall j c, j <> i -> T !! j = Some c -> 0 < i_ref c -> ~ (i_dev c = i_dev ip /\ i_inum c = i_inum ip).
Proof. intros Ht Hi Hr j c Hne Hj Hc [E1 E2]. apply Hne. by apply (proj2 (to_one _ _ Ht) j i c ip). Qed.

(** An update that keeps the identity of the entry. *)
Lemma table_ok_update held held' T i ip jp : table_ok held T -> T !! i = Some ip -> 0 < i_ref ip -> 0 <= i_ref jp ->
  i_dev jp = i_dev ip -> i_inum jp = i_inum ip -> lock_fits held' i jp -> (forall j, j <> i -> held' = Some j <-> held = Some j) ->
  (0 < i_ref jp -> i_dev jp = D -> i_valid jp = true -> loaded jp) -> table_ok held' (<[i := jp]> T).
Proof.
  intros Ht Hi Hr Hj Ed En. apply (table_ok_insert held held' T i ip); try done. rewrite Ed, En. by apply (table_ok_unique held).
Qed.

(** The state of the walk. *)
Record walking (held : option nat) (s : kernel) : Prop := Walking {
  wk_idle : fs_idle s;
  wk_table : table_ok held (k_itable s)
}.

(** Entry [i] is inode [n] of the disk. *)
Definition entry_of (T : list inode) (i : nat) (n : Z) (ip : inode) : Prop :=
  T !! i = Some ip /\ 0 < i_ref ip /\ i_dev ip = D /\ i_inum ip = n.

Lemma fs_idle_frame s s' : fs_idle s -> same_rest s s' -> session D p pr s' ∅ s' -> (forall b, view D s' b = V b) -> fs_idle s'.
Proof. intros [] Hs. assert (k_hl s' = k_hl s /\ k_sb s' = k_sb s) as [Eh Es] by (rewrite Hs; done). split; rewrite ?Eh, ?Es; done. Qed.

Lemma fs_idle_put T P s : fs_idle s -> procs_step p (k_procs s) P -> fs_idle (set_k_procs P (set_k_itable T s)).
Proof.
  intros H HP. apply (fs_idle_frame s); [done | by destruct s | | apply H].
  apply (session_put_procs D p pr P (set_k_itable T s)); [exact HP|]. apply session_put_itable, H.
Qed.

Lemma fs_idle_table T s : fs_idle s -> fs_idle (set_k_itable T s).
Proof. intros H. exact (fs_idle_put T (k_procs s) s H (procs_step_refl p _)). Qed.

Lemma idle_facts s : fs_idle s -> bio_ready p pr s /\ room 1 (k_hl s) /\ nested (k_hl s) /\ free L_itable (k_hl s).
Proof.
  intros H. pose proof (se_ready _ _ _ _ _ _ (fi_session _ H)) as Hr. split; [done|]. split; [|split; [apply Hr | apply H]].
  exact (room1 p pr s 0 Hr nbuf_pos).
Qed.

(** What a step of the walk leaves alone. *)
Definition walked (s s' : kernel) : Prop := same_rest s s' /\ k_mem s' = k_mem s.

(** The fields of entry [i] read from its block. *)
Lemma load_run s e i n ip : fs_idle s -> k_itable s !! i = Some ip -> i_dev ip = D -> i_inum ip = n -> i_type (dnode V sb n) <> 0 ->
  let ip' := set_i_valid true (load_dinode (dinode_off n) (V (IBLOCK n sb)) ip) in
  exists s', (sb <- gets k_sb ;;
      bp <- bread (i_dev ip) (IBLOCK (i_inum ip) sb) ;;
      d <- buf_data bp ;;
      upd_inode i (load_dinode (dinode_off (i_inum ip)) d) ;;
      brelse bp ;;
      upd_inode i (set_i_valid true) ;;
      ip <- get_inode i ;;
      when (i_type ip =? 0) (panic "fs::ilock: no type")) s e = Ret tt s' e /\
    fs_idle s' /\ walked s s' /\ k_itable s' = <[i := ip']> (k_itable s).
Proof.
  intros Hf Hi Hd Hn Hty ip'. pose proof (lookup_lt_Some _ _ _ Hi) as Hlt. set (ip2 := load_dinode (dinode_off n) (V (IBLOCK n sb)) ip).
  destruct (session_bread D p pr s ∅ s e (IBLOCK n sb) (fi_session _ Hf)) as (b & s2 & R2 & S2 & _ & B2 & _ & V2 & _); [set_solver..|].
  rewrite union_empty_r_L in S2. rewrite (fi_view _ Hf) in B2. pose proof (se_frame _ _ _ _ _ _ S2) as F2.
  assert (k_itable s2 = k_itable s) as I2 by (rewrite F2; done).
  destruct (session_brelse D p pr _ {[b]} _ e b (IBLOCK n sb) (V (IBLOCK n sb)) (session_put_itable D p pr (<[i := ip2]> (k_itable s)) _ _ _ S2)) as (s3 & R3 & S3 & _ & V3 & _);
    [set_solver | exact B2 |]. replace ({[b]} ∖ {[b]}) with (∅ : gset nat) in S3 by set_solver. pose proof (se_frame _ _ _ _ _ _ S3) as F3.
  assert (k_itable s3 = <[i := ip2]> (k_itable s)) as I3 by (rewrite F3; done).
  set (s4 := set_k_itable (<[i := ip']> (k_itable s)) s3).
  assert (walked s s4) as [Hsr Hm4] by (unfold walked, same_rest, s4; rewrite F3; split; reflexivity).
  exists s4. split_and!; try done.
  - rewrite bind_gets, (fi_sb _ Hf), Hd, Hn. kstep R2. kstep (hb_data true s2 b _ _ e B2).
    kstep upd_inode_run; [rewrite I2; exact Hi|]. fold ip2. rewrite I2. kstep R3.
    kstep (upd_inode_run i (set_i_valid true) ip2); [rewrite I3; by apply list_lookup_insert_eq|]. rewrite I3, list_insert_insert_eq.
    kstep get_inode_run; [by apply list_lookup_insert_eq|]. change (i_type (set_i_valid true ip2)) with (i_type (dnode V sb n)). by rewrite (proj2 (Z.eqb_neq _ _) Hty).
  - apply (fs_idle_frame s); [done | done | |].
    + apply session_put_itable with (s0 := s3). by apply (session_self D p pr _ s3 S3).
    + intros x. change (view D s4 x) with (view D s3 x). rewrite V3. change (view D s2 x = V x). rewrite V2. apply Hf.
Qed.

Lemma ilock_run s e i n ip : walking None s -> entry_of (k_itable s) i n ip -> i_type (dnode V sb n) <> 0 ->
  exists s' ip', ilock (Some i) s e = Ret tt s' e /\ walking (Some i) s' /\ walked s s' /\
    k_itable s' = <[i := ip']> (k_itable s) /\ entry_of (k_itable s') i n ip' /\ i_ref ip' = i_ref ip /\ i_valid ip' = true.
Proof.
  intros [Hf Ht] (Hi & Hr & Hd & Hn) Hty. destruct (idle_facts s Hf) as (Hb & _). pose proof (lookup_lt_Some _ _ _ Hi) as Hlt.
  assert (i < NINODE)%nat as HiN by (by rewrite <- (to_len _ _ Ht)).
  pose proof (to_lock _ _ Ht i ip Hi) as Hu. unfold lock_fits in Hu. rewrite bool_decide_false in Hu by done.
  set (ip1 := set_i_lock (Mk_sleeplock true (p_pid pr)) ip). set (s1 := set_k_itable (<[i := ip1]> (k_itable s)) s).
  pose proof (inode_acquire_run p pr s e i ip Hb (fi_inode _ Hf i HiN) Hi Hu) as R1. fold ip1 s1 in R1.
  assert (fs_idle s1) as Hf1 by (by apply fs_idle_table). assert (k_itable s1 !! i = Some ip1) as Hi1 by (by apply list_lookup_insert_eq).
  assert (exists s' ip', (when (negb (i_valid ip1)) (sb <- gets k_sb ;; bp <- bread (i_dev ip1) (IBLOCK (i_inum ip1) sb) ;; d <- buf_data bp ;;
        upd_inode i (load_dinode (dinode_off (i_inum ip1)) d) ;; brelse bp ;; upd_inode i (set_i_valid true) ;; ip <- get_inode i ;;
        when (i_type ip =? 0) (panic "fs::ilock: no type"))) s1 e = Ret tt s' e /\ fs_idle s' /\ walked s1 s' /\
      k_itable s' = <[i := ip']> (k_itable s) /\ i_dev ip' = D /\ i_inum ip' = n /\ i_ref ip' = i_ref ip /\
      i_lock ip' = Mk_sleeplock true (p_pid pr) /\ i_valid ip' = true /\ loaded ip') as (s' & ip' & R' & F' & K' & T' & E1 & E2 & E3 & E4 & E5 & E6).
  { destruct (i_valid ip1) eqn:Ev.
    - exists s1, ip1. split_and!; try done. by apply loaded_lock, (to_loaded _ _ Ht i).
    - destruct (load_run s1 e i n ip1 Hf1 Hi1 Hd Hn Hty) as (s' & R' & F' & K' & T'). exists s', (set_i_valid true (load_dinode (dinode_off n) (V (IBLOCK n sb)) ip1)). split_and!; try done.
      + rewrite T'. cbn [s1 k_itable set_k_itable]. by rewrite list_insert_insert_eq.
      + unfold loaded. cbn [set_i_valid i_inum load_dinode ip1 set_i_lock]. by rewrite Hn. }
  exists s', ip'. split_and!; try done.
  - unfold ilock. kstep get_inode_run; [exact Hi|]. rewrite (proj2 (Z.ltb_ge _ _)) by lia. kstep R1. kstep get_inode_run; [exact Hi1|]. exact R'.
  - split; [done|]. rewrite T'. apply (table_ok_update None (Some i) _ i ip); try done; try lia; try congruence.
    + unfold lock_fits. by rewrite bool_decide_true.
    + intros j Hne. split; [by intros [= ->] | done].
  - rewrite T'. unfold entry_of. rewrite list_lookup_insert_eq by done. split_and!; (done || lia).
Qed.

Lemma iunlock_run s e i n ip : walking (Some i) s -> entry_of (k_itable s) i n ip ->
  let ip' := set_i_lock (Mk_sleeplock false 0) ip in
  exists s', iunlock (Some i) s e = Ret tt s' e /\ walking None s' /\ walked s s' /\ k_itable s' = <[i := ip']> (k_itable s).
Proof.
  intros [Hf Ht] (Hi & Hr & Hd & Hn) ip'. destruct (idle_facts s Hf) as (Hb & _). pose proof (lookup_lt_Some _ _ _ Hi) as Hlt.
  assert (i < NINODE)%nat as HiN by (by rewrite <- (to_len _ _ Ht)).
  pose proof (to_lock _ _ Ht i ip Hi) as Hu. unfold lock_fits in Hu. rewrite bool_decide_true in Hu by done.
  eexists. split; [|split; [split|]].
  - unfold iunlock. kstep (inode_holding_run p pr s e i ip Hb (fi_inode _ Hf i HiN) Hi). kstep get_inode_run; [exact Hi|].
    rewrite Hu, (proj2 (Z.ltb_ge _ _)) by lia. cbn [sl_locked sl_pid]. rewrite Z.eqb_refl. cbn [andb negb orb].
    by apply (inode_release_run p pr s e i ip Hb (fi_inode _ Hf i HiN) Hi).
  - apply fs_idle_put; [done | apply procs_step_wake].
  - cbn. apply (table_ok_update (Some i) None _ i ip); try done; try (cbn; lia).
    + intros j Hne. split; [done | by intros [= ->]].
    + intros _ _ Hv. by apply loaded_lock, (to_loaded _ _ Ht i).
  - split; [by destruct s | done].
Qed.

(** A reference is dropped; the inode stays on the disk when it has a link there. *)
Lemma iput_run s e i n ip : walking None s -> entry_of (k_itable s) i n ip -> i_nlink (dnode V sb n) <> 0 ->
  let ip' := set_i_ref (i_ref ip - 1) ip in
  exists s', iput i s e = Ret tt s' e /\ walking None s' /\ walked s s' /\ k_itable s' = <[i := ip']> (k_itable s).
Proof.
  intros [Hf Ht] (Hi & Hr & Hd & Hn) Hnl ip'. destruct (idle_facts s Hf) as (_ & Hr1 & Hns & Hfr).
  exists (set_k_itable (<[i := ip']> (k_itable s)) s). split; [|split; [split|]].
  - unfold iput. kstep acquire_run; [done | done |]. kstep get_inode_run; [exact Hi|].
    assert ((i_ref ip =? 1) && i_valid ip && (i_nlink ip =? 0) = false) as ->.
    { destruct (i_valid ip) eqn:Ev; [|by rewrite andb_false_r]. pose proof (to_loaded _ _ Ht i ip Hi Hr Hd Ev) as Hl.
      unfold loaded in Hl. rewrite <- Hl. rewrite Hn. change (i_nlink (load_dinode _ _ _)) with (i_nlink (dnode V sb n)).
      rewrite (proj2 (Z.eqb_neq _ _) Hnl). by rewrite andb_false_r. }
    cbn [when]. rewrite bind_ret. kstep upd_inode_run; [exact Hi|]. rewrite (release_acq_run L_itable (k_hl s)) by done. rewrite Hns. by destruct s.
  - by apply fs_idle_table.
  - cbn. apply (table_ok_update None None _ i ip); try done; try (cbn; lia).
    + exact (to_lock _ _ Ht i ip Hi).
    + intros _ _ Hv. by apply loaded_ref, (to_loaded _ _ Ht i).
  - split; [by destruct s | done].
Qed.

Lemma idup_entry held s e i n ip : walking held s -> entry_of (k_itable s) i n ip ->
  let ip' := set_i_ref (i_ref ip + 1) ip in
  exists s', idup i s e = Ret i s' e /\ walking held s' /\ walked s s' /\ k_itable s' = <[i := ip']> (k_itable s).
Proof.
  intros [Hf Ht] (Hi & Hr & Hd & Hn) ip'. destruct (idle_facts s Hf) as (_ & Hr1 & Hns & Hfr).
  eexists. split; [by apply (idup_run i ip)|]. split; [split|].
  - by apply fs_idle_table.
  - cbn. apply (table_ok_update held held _ i ip); try done; try (cbn; lia).
    + exact (to_lock _ _ Ht i ip Hi).
    + intros _ _ Hv. by apply loaded_ref, (to_loaded _ _ Ht i).
  - split; [by destruct s | done].
Qed.

(** A reference to inode [n]: one more to the entry that has it, or an entry that was unused. *)
Definition got (n : Z) (ip ip' : inode) : Prop :=
  0 < i_ref ip /\ i_dev ip = D /\ i_inum ip = n /\ ip' = set_i_ref (i_ref ip + 1) ip \/ i_ref ip = 0 /\ ip' = fresh_inode D n ip.

(** The entry of an inode: shared when there is one, the first unused one otherwise. *)
Lemma iget_entry held s e n : walking held s -> 0 < unused_entries (k_itable s) ->
  exists i ip ip' s', iget D n s e = Ret i s' e /\ walking held s' /\ walked s s' /\ k_itable s !! i = Some ip /\
    k_itable s' = <[i := ip']> (k_itable s) /\ got n ip ip'.
Proof.
  intros [Hf Ht] Hun. destruct (idle_facts s Hf) as (_ & Hr1 & Hns & Hfr).
  assert (forall f i ip, k_itable s !! i = Some ip -> iscan D n (k_itable s) 0 None = f ->
    match f with inl j => j = i | inr o => o = Some i end ->
    let ip' := match f with inl _ => set_i_ref (i_ref ip + 1) ip | inr _ => fresh_inode D n ip end in
    iget D n s e = Ret i (set_k_itable (<[i := ip']> (k_itable s)) s) e) as R.
  { intros f i ip Hi Ef Hm ip'. unfold iget. kstep acquire_run; [done | done |]. rewrite bind_gets. cbn [k_itable set_k_hl]. rewrite Ef.
    destruct f as [j|o]; subst; (rewrite (itable_section _ _ ip) by done); rewrite Hns; by destruct s. }
  rewrite iscan_find in R. destruct (find_from (is_inode D n) 0 (k_itable s)) as [i|] eqn:Eh.
  - apply find_idx_Some in Eh as (ip & Hi & Hin & _). apply is_inode_true in Hin as (Hp & Hd & Hn). specialize (R _ i ip Hi eq_refl eq_refl).
    destruct (idup_entry held s e i n ip (Walking _ _ Hf Ht)) as (s' & R' & W' & K' & T'); [done|].
    exists i, ip, (set_i_ref (i_ref ip + 1) ip), (set_k_itable (<[i := set_i_ref (i_ref ip + 1) ip]> (k_itable s)) s). split_and!; try done; [|by left].
    rewrite (idup_run i ip) in R' by done. injection R' as <-. exact W'.
  - destruct (unused_entry _ Hun) as (j & jp & Hj & Hjf). destruct (find_from free_inode 0 (k_itable s)) as [i|] eqn:Ef.
    2: { apply find_from_None in Ef. pose proof (Forall_lookup_1 _ _ _ _ Ef Hj). congruence. }
    apply find_idx_Some in Ef as (ip & Hi & H0%Z.eqb_eq & _). specialize (R _ i ip Hi eq_refl eq_refl).
    exists i, ip, (fresh_inode D n ip), (set_k_itable (<[i := fresh_inode D n ip]> (k_itable s)) s). split_and!; try done; [|by right].
    split; [by apply fs_idle_table|]. cbn. apply (table_ok_insert held held _ i ip); try done.
    + intros k c _ Hk Hc [E1 E2]. apply find_from_None in Eh. pose proof (Forall_lookup_1 _ _ _ _ Eh Hk) as Hx. cbn in Hx.
      rewrite (proj2 (is_inode_true D n c)) in Hx by done. done.
    + exact (to_lock _ _ Ht i ip Hi).
Qed.

Lemma walked_trans s1 s2 s3 : walked s1 s2 -> walked s2 s3 -> walked s1 s3.
Proof. intros [H1 E1] [H2 E2]. split; [by apply (same_rest_trans s1 s2) | congruence]. Qed.

Lemma iunlockput_run s e i n ip : walking (Some i) s -> entry_of (k_itable s) i n ip -> i_nlink (dnode V sb n) <> 0 ->
  let ip' := set_i_ref (i_ref ip - 1) (set_i_lock (Mk_sleeplock false 0) ip) in
  exists s', iunlockput i s e = Ret tt s' e /\ walking None s' /\ walked s s' /\ k_itable s' = <[i := ip']> (k_itable s).
Proof.
  intros Hw He Hnl ip'. destruct (iunlock_run s e i n ip Hw He) as (s1 & R1 & W1 & K1 & T1). destruct He as (Hi & Hr & Hd & Hn).
  destruct (iput_run s1 e i n (set_i_lock (Mk_sleeplock false 0) ip) W1) as (s2 & R2 & W2 & K2 & T2); [|done|].
  { rewrite T1. split_and!; try done. apply list_lookup_insert_eq. by apply lookup_lt_Some in Hi. }
  exists s2. split_and!; [|done | by apply (walked_trans s s1) | by rewrite T2, T1, list_insert_insert_eq].
  unfold iunlockput. kstep R1. exact R2.
Qed.

(** ** Looking a name up *)

Lemma loaded_entry n ip : loaded ip -> i_inum ip = n ->
  i_type ip = i_type (dnode V sb n) /\ i_size ip = i_size (dnode V sb n) /\ i_addrs ip = i_addrs (dnode V sb n) /\ i_nlink ip = i_nlink (dnode V sb n).
Proof. intros H <-. unfold loaded in H. rewrite <- H. done. Qed.

Lemma entry_ext V1 V2 a b k : (forall n, V1 n = V2 n) -> i_addrs a = i_addrs b -> entry V1 a k = entry V2 b k.
Proof. intros HV E. unfold entry, file_bytes. apply map_ext. intros j. unfold file_byte. by rewrite HV, E. Qed.

(** Outside the buffers nothing is written. *)
Definition kept (a n : Z) (m m' : memory) : Prop := forall x, x < a \/ a + n <= x -> m' x = m x.

Lemma dir_lookup_run s e i n ip name de x : walking (Some i) s -> entry_of (k_itable s) i n ip -> i_valid ip = true ->
  good_inode V (dnode V sb n) -> i_type (dnode V sb n) = T_DIR -> 0 < unused_entries (k_itable s) ->
  name_at (k_mem s) name x -> (forall c, c ∈ x -> c <> 0) -> 0 <= de /\ de + DIRENT < 2 ^ 64 -> name + DIRSIZ <= de \/ de + DIRENT <= name ->
  exists s', same_rest s s' /\ walking (Some i) s' /\ kept de DIRENT (k_mem s) (k_mem s') /\
    match dir_find V (dnode V sb n) x with
    | None => dir_lookup i name de s e = Ret None s' e /\ k_itable s' = k_itable s
    | Some k => exists j jp jp' off, dir_lookup i name de s e = Ret (Some (j, off)) s' e /\
        k_itable s !! j = Some jp /\ k_itable s' = <[j := jp']> (k_itable s) /\ got k jp jp'
    end.
Proof.
  intros [Hf Ht] (Hi & Hr & Hd & Hn) Hv Hg Hty Hun Hna Hx Hde Hdis.
  destruct (loaded_entry n ip (to_loaded _ _ Ht i ip Hi Hr Hd Hv) Hn) as (E1 & E2 & E3 & _).
  destruct (go_size _ _ Hg Hty) as (Hmod & Hs0 & Hs32). set (d := dnode V sb n) in *. set (c := Z.to_nat (i_size d / DIRENT)).
  assert (i_size ip = DIRENT * Z.of_nat c) as Hsz.
  { unfold c. rewrite Z2Nat.id by (apply Z.div_pos; unfold DIRENT; lia). rewrite E2. unfold DIRENT in *. pose proof (Z.div_mod (i_size d) 32). lia. }
  destruct (dir_lookup_first D p pr i ip name de s e c (fi_session _ Hf)) as (s1 & M1 & I1 & V1 & S1 & R1); try done; try congruence.
  { rewrite E2. intros y Hy. destruct (go_blocks _ _ Hg Hty y Hy) as (a & Ha & Hrest). exists a. rewrite E3, (fi_view _ Hf). done. }
  assert (same_rest s s1) as K1. { unfold same_rest. rewrite I1. rewrite (se_frame _ _ _ _ _ _ S1) at 1. by destruct s. }
  assert (walking (Some i) s1) as W1.
  { split; [|by rewrite I1]. apply (fs_idle_frame s); [done | done | by apply (session_self D p pr _ s1 S1) |]. intros b. rewrite V1. apply Hf. }
  assert (forall k, names (k_mem s) name de (entry (view D s) ip k) = is_entry x (entry V d k)) as Hnm.
  { intros k. rewrite (entry_ext (view D s) V ip d) by (try done; apply Hf). by apply names_match. }
  rewrite (find_idx_ext _ (fun k => is_entry x (entry V d k))) in R1 by done. fold c in R1.
  unfold dir_find. fold c. destruct (find_idx (fun k => is_entry x (entry V d k)) (seq 0 c)) as [k|]; [|exists s1; split_and!; try done].
  rewrite (entry_ext (view D s) V ip d) in R1 by (try done; apply Hf). fold (entry_inum (entry V d k)) in R1.
  destruct (iget_entry (Some i) s1 e (entry_inum (entry V d k)) W1) as (j & jp & jp' & s2 & R2 & W2 & [K2 M2] & Hj & T2 & Hc); [by rewrite I1|].
  exists s2. split_and!; [by apply (same_rest_trans s s1) | done | by rewrite M2 |].
  exists j, jp, jp', (DIRENT * Z.of_nat k). rewrite <- I1. split_and!; try done. rewrite R1. by kstep R2.
Qed.

(** ** The references the walk holds *)

Lemma refs_insert d m T i ip jp : T !! i = Some ip -> i_dev jp = i_dev ip -> i_inum jp = i_inum ip ->
  refs d m (<[i := jp]> T) = refs d m T + (if (i_dev ip =? d) && (i_inum ip =? m) then i_ref jp - i_ref ip else 0).
Proof. intros Hi Ed En. unfold refs. rewrite (sumZ_insert _ T i ip jp Hi), Ed, En. destruct ((i_dev ip =? d) && (i_inum ip =? m)); lia. Qed.

Lemma unused_insert T i ip jp : T !! i = Some ip ->
  unused_entries (<[i := jp]> T) = unused_entries T - one (i_ref ip =? 0) + one (i_ref jp =? 0).
Proof. intros Hi. unfold unused_entries. rewrite (sumZ_insert _ T i ip jp Hi). by destruct (i_ref ip =? 0), (i_ref jp =? 0). Qed.

(** One reference more, to inode [n] of the disk. *)
Definition one_more (T T' : list inode) (n : Z) : Prop := forall d m, refs d m T' = refs d m T + one ((D =? d) && (n =? m)).

(** The walk is at inode [n], entry [i]; dropping it would leave two entries unused. *)
Record at_inode (T0 T : list inode) (i : nat) (n : Z) (ip : inode) : Prop := AtInode {
  ai_entry : entry_of T i n ip;
  ai_more : one_more T0 T n;
  ai_spare : 2 <= unused_entries T + one (i_ref ip =? 1)
}.

Lemma at_spare T0 T i n ip : at_inode T0 T i n ip -> 0 < unused_entries T.
Proof. intros [_ _ H]. destruct (i_ref ip =? 1); cbn in H; lia. Qed.

(** Reloading or locking the entry. *)
Lemma at_same T0 T i n ip ip' : at_inode T0 T i n ip -> i_ref ip' = i_ref ip -> i_dev ip' = D -> i_inum ip' = n ->
  at_inode T0 (<[i := ip']> T) i n ip'.
Proof.
  intros [(Hi & Hr & Hd & Hn) Hm Hu] Er Ed En. pose proof (lookup_lt_Some _ _ _ Hi) as Hlt. split.
  - unfold entry_of. rewrite list_lookup_insert_eq by done. split_and!; (done || lia).
  - intros d m. rewrite (refs_insert d m T i ip ip'), Hm by (done || congruence). destruct ((i_dev ip =? d) && (i_inum ip =? m)); lia.
  - rewrite (unused_insert T i ip ip') by done. rewrite Er. lia.
Qed.

(** The first inode of a walk. *)
Lemma at_first T j k jp jp' : T !! j = Some jp -> got k jp jp' ->
  entry_of (<[j := jp']> T) j k jp' /\ one_more T (<[j := jp']> T) k /\ unused_entries T <= unused_entries (<[j := jp']> T) + one (i_ref jp' =? 1).
Proof.
  intros Hj Hc. pose proof (lookup_lt_Some _ _ _ Hj) as Hlt. split_and!.
  - unfold entry_of. rewrite list_lookup_insert_eq by done. by destruct Hc as [(? & ? & ? & ->)|[? ->]]; cbn; split_and!; try lia.
  - intros d m. unfold refs. rewrite (sumZ_insert _ T j jp jp' Hj). destruct Hc as [(? & E & E' & ->)|[E ->]]; cbn; rewrite E, ?E'; unfold one.
    + destruct ((D =? d) && (k =? m)); lia.
    + destruct ((i_dev jp =? d) && (i_inum jp =? m)), ((D =? d) && (k =? m)); lia.
  - rewrite (unused_insert T j jp jp') by done. unfold one. destruct Hc as [(? & E & E' & ->)|[E ->]]; cbn; zcases; lia.
Qed.

(** The next inode got, the last one dropped. *)
Lemma at_next T0 T i n ip j k jp jp' : at_inode T0 T i n ip -> T !! j = Some jp -> got k jp jp' ->
  exists ip2, entry_of (<[j := jp']> T) i n ip2 /\
    forall ip3, i_ref ip3 = i_ref ip2 - 1 -> i_dev ip3 = D -> i_inum ip3 = n ->
      exists jp3, at_inode T0 (<[i := ip3]> (<[j := jp']> T)) j k jp3.
Proof.
  intros Ha Hj Hc. pose proof Ha as [(Hi & Hr & Hd & Hn) Hm Hu]. pose proof (lookup_lt_Some _ _ _ Hi) as Hlt. pose proof (lookup_lt_Some _ _ _ Hj) as Hlj.
  destruct (decide (j = i)) as [->|Hne].
  { assert (jp = ip) as -> by congruence. destruct Hc as [(_ & _ & Hk & ->)|[? _]]; [|lia].
    exists (set_i_ref (i_ref ip + 1) ip). split; [unfold entry_of; rewrite list_lookup_insert_eq by done; split_and!; (done || cbn; lia)|].
    intros ip3 E1 E2 E3. exists ip3. rewrite list_insert_insert_eq. cbn in E1. rewrite Hn in Hk. subst k. apply (at_same T0 T i n ip); (done || lia). }
  assert (T !! i = <[j := jp']> T !! i) as Ei by (by rewrite list_lookup_insert_ne). exists ip. split; [unfold entry_of; by rewrite <- Ei|].
  intros ip3 E1 E2 E3. exists jp'. rewrite Ei in Hi. destruct (at_first T j k jp jp' Hj Hc) as ((Hj' & He') & Hm' & Hu'). split.
  - split; [by rewrite list_lookup_insert_ne | done].
  - intros d m. rewrite (refs_insert d m _ i ip ip3) by (done || congruence). rewrite E1, Hd, Hn, Hm', Hm.
    unfold one. destruct ((D =? d) && (n =? m)), ((D =? d) && (k =? m)); lia.
  - rewrite (unused_insert _ i ip ip3) by done. rewrite E1. unfold one in *. destruct (Z.eqb_spec (i_ref ip) 1); zcases; lia.
Qed.

Lemma at_drop T0 T i n ip ip' : at_inode T0 T i n ip -> i_ref ip' = i_ref ip - 1 -> i_dev ip' = D -> i_inum ip' = n ->
  forall d m, refs d m (<[i := ip']> T) = refs d m T0.
Proof.
  intros [(Hi & Hr & Hd & Hn) Hm _] E1 E2 E3 d m. rewrite (refs_insert d m T i ip ip'), Hm, E1, Hd, Hn by (done || congruence).
  unfold one. destruct ((D =? d) && (n =? m)); lia.
Qed.

(** The walk ends without an inode. *)
Lemma leave_run s e i n ip T0 : walking (Some i) s -> at_inode T0 (k_itable s) i n ip -> i_nlink (dnode V sb n) <> 0 ->
  exists s', iunlockput i s e = Ret tt s' e /\ walking None s' /\ walked s s' /\ forall d m, refs d m (k_itable s') = refs d m T0.
Proof.
  intros Hw Ha Hnl. destruct (iunlockput_run s e i n ip Hw (ai_entry _ _ _ _ _ Ha) Hnl) as (s' & R & W & K & T). exists s'. split_and!; try done.
  rewrite T. apply (at_drop T0 _ i n ip); try done; apply (ai_entry _ _ _ _ _ Ha).
Qed.

Lemma walking_mem held m s : walking held s -> walking held (set_k_mem m s).
Proof.
  intros [Hf Ht]. split; [|done]. apply (fs_idle_frame s); [done | by destruct s | | apply Hf]. apply session_put_mem, Hf.
Qed.

(** ** The walk *)

Section loop.
Context (parent : bool) (name de : Z) (T0 : list inode).
Hypothesis Hde : 0 <= de /\ de + DIRENT < 2 ^ 64.
Hypothesis Hname : name + DIRSIZ <= de \/ de + DIRENT <= name.

(** The two buffers are all that is written. *)
Definition kept2 (m m' : memory) : Prop := forall x, x < name \/ name + DIRSIZ <= x -> x < de \/ de + DIRENT <= x -> m' x = m x.

(** What the walk returns: the inode, referenced once more, or nothing; for the
    parent, its name is the last element of the path. *)
Definition found (es : list (list Z)) (k : option Z) (r : option nat) (s' : kernel) : Prop :=
  match k with
  | Some k => exists i ip, r = Some i /\ entry_of (k_itable s') i k ip /\ one_more T0 (k_itable s') k /\
      (parent = true -> exists l x, es = l ++ [x] /\ name_at (k_mem s') name x)
  | None => r = None /\ forall d m, refs d m (k_itable s') = refs d m T0
  end.

(** How the walk from inode [n] along [es] ends: past the end of [name], or with what is found. *)
Definition ends (n : Z) (es : list (list Z)) (s : kernel) (e : environment) (w : outcome (option nat)) : Prop :=
  if overruns V sb parent n es then w = Undef "name[DIRSIZ]"
  else exists r s', w = Ret r s' e /\ walking None s' /\ same_rest s s' /\ kept2 (k_mem s) (k_mem s') /\
         found es (resolve V sb parent n es) r s'.

(** Away from the buffers. *)
Definition apart (path : Z) (l : list Z) : Prop :=
  (name + DIRSIZ <= path \/ path + Z.of_nat (length l) < name) /\ (de + DIRENT <= path \/ path + Z.of_nat (length l) < de).

Lemma namex_loop_end bytes f s e i n ip path c :
  walking None s -> at_inode T0 (k_itable s) i n ip -> (parent = true -> good_inode V (dnode V sb n)) ->
  0 < path -> text_at (k_mem s) path (slashes c ++ [0]) -> (c < bytes)%nat ->
  ends n [] s e (namex_loop (S f) bytes i path parent name de s e).
Proof.
  intros Hw Ha Hg Hp Ht Hb. unfold ends. cbn [overruns]. assert (forall r s', (if parent then iput i ;; ret None else ret (Some i)) s e = Ret r s' e ->
    namex_loop (S f) bytes i path parent name de s e = Ret r s' e) as R.
  { intros r s' <-. cbn [namex_loop]. rewrite bind_gets, (skipelem_end bytes _ path name c) by done. unfold on_mem. rewrite bind_modify.
    cbn [Z.eqb]. by replace (set_k_mem (k_mem s) s) with s by (by destruct s). }
  unfold found. cbn [resolve]. destruct parent.
  - destruct (iput_run s e i n ip Hw (ai_entry _ _ _ _ _ Ha)) as (s' & R' & W & [K M] & T); [by apply Hg|].
    exists None, s'. split; [apply R; by kstep R'|]. split_and!; try done; [by rewrite M|].
    rewrite T. apply (at_drop T0 _ i n ip); try done; apply (ai_entry _ _ _ _ _ Ha).
  - exists (Some i), s. split; [by apply R|]. split_and!; try done; [apply same_rest_refl|]. exists i, ip. destruct Ha as [He Hm _]. by split_and!; try apply He.
Qed.

Lemma elements_nil r : (forall c t, r = c :: t -> c <> 47) -> elements r = [] <-> r = [].
Proof.
  intros Hr. split; [|by intros ->]. destruct r as [|c r]; [done|]. intros E.
  destruct (elements_split (c :: r)) as [(k & El & _)|(a & x & b & r' & _ & _ & _ & _ & _ & E')]; [|congruence].
  destruct k as [|k]; [done|]. injection El as -> _. by destruct (Hr 47 r).
Qed.

Lemma found_cons x es k r s' : (parent = true -> es <> []) -> found es k r s' -> found (x :: es) k r s'.
Proof.
  unfold found. intros Hne H. destruct k as [k|]; [|done]. destruct H as (i & ip & E & He & Hm & Hl). exists i, ip. split; [done|]. split; [done|]. split; [done|].
  intros Hp. destruct (Hl Hp) as (l & y & -> & Hy). by exists (x :: l), y.
Qed.

Lemma kept2_trans m1 m2 m3 : kept2 m1 m2 -> kept2 m2 m3 -> kept2 m1 m3.
Proof. intros H1 H2 x Hn Hd. by rewrite H2, H1. Qed.

(** The next element is in the buffer [name]; what remains of the path is [r], at [path]. *)
Lemma namex_step f bytes s e i n ip x r path :
  (forall s1 i1 n1 ip1, walking None s1 -> at_inode T0 (k_itable s1) i1 n1 ip1 -> walkable V sb parent n1 (elements r) ->
    text_at (k_mem s1) path (r ++ [0]) ->
    ends n1 (elements r) s1 e (namex_loop f bytes i1 path parent name de s1 e)) ->
  walking None s -> at_inode T0 (k_itable s) i n ip -> walkable V sb parent n (x :: elements r) ->
  (forall c t, r = c :: t -> c <> 47) -> text_at (k_mem s) path (r ++ [0]) -> apart path r -> name_at (k_mem s) name x ->
  (forall c, c ∈ x -> c <> 0) -> (forall c, c ∈ r -> c <> 0) -> Z.of_nat (length x) <> DIRSIZ ->
  ends n (x :: elements r) s e ((ilock (Some i) ;; n <- get_inode i ;;
      if negb (i_type n =? T_DIR) then iunlockput i ;; ret None
      else if parent && (k_mem s path =? 0) then iunlock (Some i) ;; ret (Some i)
      else next <- dir_lookup i name de ;;
        match next with
        | None => iunlockput i ;; ret None
        | Some (next, _) => iunlockput i ;; namex_loop f bytes next path parent name de
        end) s e).
Proof.
  intros IH Hw Ha [Hg Hwalk] Hr Ht [Hap1 Hap2] Hna Hx0 Hr0 Hx14.
  destruct (ilock_run s e i n ip Hw (ai_entry _ _ _ _ _ Ha) (go_type _ _ Hg)) as (s1 & ip1 & R1 & W1 & [K1 M1] & T1 & He1 & Er1 & Ev1).
  assert (at_inode T0 (k_itable s1) i n ip1) as A1.
  { rewrite T1. apply (at_same T0 _ i n ip); try done; apply He1. }
  destruct He1 as (Hi1 & Hr1 & Hd1 & Hn1). destruct (loaded_entry n ip1 (to_loaded _ _ (wk_table _ _ W1) i ip1 Hi1 Hr1 Hd1 Ev1) Hn1) as (Ety & _).
  assert (kept2 (k_mem s) (k_mem s)) as Hk by done. unfold ends, found. cbn [resolve overruns]. rewrite <- Ety.
  rewrite (proj2 (Z.eqb_neq _ _) Hx14). cbn [orb].
  assert (forall A (k1 : inode -> M A), (ilock (Some i) ;; n <- get_inode i ;; k1 n) s e = k1 ip1 s1 e) as ->.
  { intros A k1. kstep R1. kstep get_inode_run; [exact Hi1|]. done. }
  destruct (Z.eqb_spec (i_type ip1) T_DIR) as [Edir|Edir]; cbn [negb andb]; cycle 1.
  { destruct (leave_run s1 e i n ip1 T0 W1 A1 (go_nlink _ _ Hg)) as (s2 & R2 & W2 & [K2 M2] & T2). exists None, s2.
    split_and!; try done; [by kstep R2 | by apply (same_rest_trans s s1) | by rewrite M2, M1]. }
  rewrite Ety in Edir. specialize (Hwalk Edir).
  assert ((k_mem s path =? 0) = bool_decide (elements r = [])) as ->.
  { rewrite (bool_decide_ext _ (r = [])) by (by apply elements_nil). destruct r as [|c r].
    - specialize (Ht 0%nat 0 eq_refl). rewrite Z.add_0_r in Ht. by rewrite Ht.
    - specialize (Ht 0%nat c eq_refl). rewrite Z.add_0_r in Ht. rewrite Ht. apply Z.eqb_neq, Hr0. by left. }
  destruct (parent && bool_decide (elements r = [])) eqn:Elast; cbn [negb].
  { apply andb_true_iff in Elast as [Ep Er%bool_decide_eq_true]. destruct (iunlock_run s1 e i n ip1 W1) as (s2 & R2 & W2 & [K2 M2] & T2); [done|].
    exists (Some i), s2. split; [by kstep R2|]. split; [done|]. split; [by apply (same_rest_trans s s1)|]. split; [by rewrite M2, M1|].
    assert (at_inode T0 (k_itable s2) i n (set_i_lock (Mk_sleeplock false 0) ip1)) as [He Hm _] by (rewrite T2; by apply (at_same T0 _ i n ip1)).
    eexists i, _. split; [done|]. split; [exact He|]. split; [done|]. intros _. exists [], x. rewrite Er. split; [done | by rewrite M2, M1]. }
  destruct (dir_lookup_run s1 e i n ip1 name de x W1) as (s2 & K2 & W2 & M2 & H2); try done; [by apply (at_spare T0 _ i n ip1) | by rewrite M1 |].
  assert (kept2 (k_mem s) (k_mem s2)) as Hk2 by (intros y _ Hy; rewrite M2, M1; done).
  destruct (dir_find V (dnode V sb n) x) as [k|].
  - destruct H2 as (j & jp & jp' & off & R2 & Hj & T2 & Hc). destruct (at_next T0 _ i n ip1 j k jp jp' A1 Hj Hc) as (ip2 & He2 & Hnext).
    rewrite <- T2 in He2, Hnext. destruct (iunlockput_run s2 e i n ip2 W2 He2 (go_nlink _ _ Hg)) as (s3 & R3 & W3 & [K3 M3] & T3).
    destruct (Hnext (set_i_ref (i_ref ip2 - 1) (set_i_lock (Mk_sleeplock false 0) ip2))) as (jp3 & A3); [done | apply He2 | apply He2 |]. rewrite <- T3 in A3.
    assert (ends k (elements r) s3 e (namex_loop f bytes j path parent name de s3 e)) as HI; [apply (IH s3 j k jp3 W3 A3); [by apply Hwalk|]|].
    { rewrite M3. apply (text_at_ext (k_mem s)); [done|]. intros y Hy. rewrite length_app in Hy. cbn in Hy. apply Hk2; unfold DIRENT in *; lia. }
    unfold ends in HI. destruct (overruns V sb parent k (elements r)); [kstep R2; kstep R3; exact HI|].
    destruct HI as (o & s' & R' & W' & K' & M' & F').
    exists o, s'. split; [kstep R2; kstep R3; exact R'|]. split; [done|]. split; [by apply (same_rest_trans s s1), (same_rest_trans s1 s2), (same_rest_trans s2 s3)|].
    split; [apply (kept2_trans _ (k_mem s2)); [done | by rewrite <- M3]|]. apply (found_cons x) in F'; [exact F'|].
    intros Hp E0. by rewrite Hp, bool_decide_true in Elast.
  - destruct H2 as [R2 T2]. rewrite <- T2 in A1. destruct (leave_run s2 e i n ip1 T0 W2 A1 (go_nlink _ _ Hg)) as (s3 & R3 & W3 & [K3 M3] & T3).
    exists None, s3. split_and!; try done; [kstep R2; by kstep R3 | by apply (same_rest_trans s s1), (same_rest_trans s1 s2) | by rewrite M3].
Qed.

Lemma namex_loop_run bytes e fuel : forall path l s i n ip,
  walking None s -> at_inode T0 (k_itable s) i n ip -> walkable V sb parent n (elements l) ->
  0 < path -> text_at (k_mem s) path (l ++ [0]) -> (forall c, c ∈ l -> c <> 0) -> apart path l ->
  (length l < fuel)%nat -> (length l < bytes)%nat -> Z.of_nat (length l) < 2 ^ 32 ->
  ends n (elements l) s e (namex_loop fuel bytes i path parent name de s e).
Proof.
  induction fuel as [|f IH]; intros path l s i n ip Hw Ha Hwalk Hp Ht H0 Hap Hf Hb H32; [lia|].
  destruct (elements_split l) as [(c & -> & El)|(a & x & b & r & -> & Hne & H47 & Hr & Hbr & El)]; rewrite El in *.
  { rewrite length_slashes in *. by apply (namex_loop_end bytes f s e i n ip path c). }
  assert (0 < length x)%nat as Hlx by (destruct x; [done | cbn; lia]).
  rewrite !length_app, !length_slashes in *. unfold apart in Hap. rewrite !length_app, !length_slashes in Hap. rewrite <- !app_assoc in Ht.
  pose proof (skipelem_next bytes (k_mem s) path name a x b r Hp Ht Hne H47) as Hsk.
  assert (forall c, c ∈ x -> c <> 0) as Hx0 by (intros c Hc; apply H0; rewrite !elem_of_app; tauto).
  specialize (Hsk Hx0 Hr Hbr ltac:(lia) ltac:(lia) ltac:(lia)).
  destruct (Z.eqb_spec (Z.of_nat (length x)) DIRSIZ) as [El14|El14].
  { unfold ends. cbn [overruns namex_loop]. rewrite (proj2 (Z.eqb_eq _ _) El14). cbn [orb]. by rewrite bind_gets, Hsk. }
  destruct Hsk as (m' & R & Hn & Hout).
  assert (text_at m' (path + Z.of_nat (a + length x + b)) (r ++ [0])) as Htr.
  { apply (text_at_ext (k_mem s)); [|intros y Hy; rewrite length_app in Hy; cbn in Hy; apply Hout; lia].
    apply text_at_app in Ht as [_ Ht]. apply text_at_app in Ht as [_ Ht]. apply text_at_app in Ht as [_ Ht]. rewrite !length_slashes in Ht.
    by replace (path + Z.of_nat (a + length x + b)) with (path + Z.of_nat a + Z.of_nat (length x) + Z.of_nat b) by lia. }
  assert (forall w, ends n (x :: elements r) (set_k_mem m' s) e w -> ends n (x :: elements r) s e w) as Hmem.
  { intros w. unfold ends. destruct (overruns V sb parent n (x :: elements r)); [done|]. intros (o & s' & E' & W' & K' & M' & F').
    exists o, s'. split; [done|]. split; [done|]. split; [apply (same_rest_trans s (set_k_mem m' s)); [by destruct s | done]|].
    split; [|done]. apply (kept2_trans _ m'); [|done]. intros y Hy _. by apply Hout. }
  cbn [namex_loop]. rewrite bind_gets, R. unfold Kalloc.on_mem. rewrite bind_modify, (proj2 (Z.eqb_neq _ 0)) by lia.
  apply Hmem, (namex_step f bytes (set_k_mem m' s) e i n ip x r (path + Z.of_nat (a + length x + b))); try done.
  - intros s1 i1 n1 ip1 W1 A1 Hw1 Ht1. apply (IH _ r s1 i1 n1 ip1); try done; try lia; [|unfold apart; lia].
    intros c Hc. apply H0. rewrite !elem_of_app. tauto.
  - by apply walking_mem.
  - unfold apart. lia.
  - intros c Hc. apply H0. rewrite !elem_of_app. tauto.
Qed.
End loop.
End walk.

(** ** Path names *)

(** A path [l] in memory, and two buffers away from it and from each other. *)
Record path_at (m : memory) (path name de : Z) (l : list Z) : Prop := PathAt {
  pa_text : text_at m path (l ++ [0]);
  pa_bytes c : c ∈ l -> c <> 0;
  pa_addr : 0 < path /\ 0 <= de /\ de + DIRENT < 2 ^ 64 /\ Z.of_nat (length l) < 2 ^ 32;
  pa_apart : apart name de path l;
  pa_bufs : name + DIRSIZ <= de \/ de + DIRENT <= name
}.

(** A path that begins with a slash starts at the root, another one at the working directory. *)
Definition starts_at (pr : process) (T : list inode) (l : list Z) (n : Z) : Prop :=
  if bool_decide (head l = Some 47) then n = ROOTINO
  else exists c ip, p_cwd pr = Some c /\ entry_of ROOTDEV T c n ip.

Lemma namex_run {DD : DiskDriver} p pr V sb path name de l parent n fuel s e :
  walking ROOTDEV p pr V sb None s -> 2 <= unused_entries (k_itable s) ->
  path_at (k_mem s) path name de l -> (length l < fuel)%nat ->
  starts_at pr (k_itable s) l n -> walkable V sb parent n (elements l) ->
  if overruns V sb parent n (elements l) then namex fuel path parent name de s e = Undef "name[DIRSIZ]"
  else exists r s', namex fuel path parent name de s e = Ret r s' e /\
    found ROOTDEV parent name (k_itable s) (elements l) (resolve V sb parent n (elements l)) r s' /\
    walking ROOTDEV p pr V sb None s' /\ same_rest s s' /\ kept2 name de (k_mem s) (k_mem s').
Proof.
  intros Hw Hu [Ht H0 (Hp & Hd0 & Hd1 & H32) Hap Hbuf] Hf Hst Hwalk.
  assert (exists i ip s1, walking ROOTDEV p pr V sb None s1 /\ walked s s1 /\ at_inode ROOTDEV (k_itable s) (k_itable s1) i n ip /\
    (if negb (path =? 0) && (k_mem s path =? 47) then iget ROOTDEV ROOTINO
     else q <- me ;; pr <- get_proc q ;; c <- of_option "cwd" (p_cwd pr) ;; idup c) s e = Ret i s1 e) as (i & ip & s1 & W1 & [K1 M1] & A1 & R1).
  { assert (negb (path =? 0) && (k_mem s path =? 47) = bool_decide (head l = Some 47)) as ->.
    { rewrite (proj2 (Z.eqb_neq path 0)) by lia. cbn [negb andb]. destruct l as [|c l].
      - specialize (Ht 0%nat 0 eq_refl). rewrite Z.add_0_r in Ht. by rewrite Ht.
      - specialize (Ht 0%nat c eq_refl). rewrite Z.add_0_r in Ht. rewrite Ht. cbn [head]. apply eq_true_iff_eq. rewrite Z.eqb_eq, bool_decide_eq_true. split; congruence. }
    unfold starts_at in Hst. destruct (bool_decide (head l = Some 47)).
    - subst n. destruct (iget_entry ROOTDEV p pr V sb None s e ROOTINO Hw) as (j & jp & jp' & s1 & R & W & K & Hj & T & Hc); [lia|].
      destruct (at_first ROOTDEV _ j _ jp jp' Hj Hc) as (H1 & H2 & H3). rewrite <- T in *. exists j, jp', s1. split_and!; try done; try apply K. split; (done || lia).
    - destruct Hst as (c & cp & Hc & He). destruct (idup_entry ROOTDEV p pr V sb None s e c n cp Hw He) as (s1 & R & W & K & T).
      destruct (at_first ROOTDEV _ c n cp (set_i_ref (i_ref cp + 1) cp) (proj1 He)) as (H1 & H2 & H3); [left; by split_and!; try apply He|].
      rewrite <- T in *. eexists c, _, s1. split_and!; try done; try apply K; [split; (done || lia)|].
      destruct (idle_facts _ _ _ _ _ _ (wk_idle _ _ _ _ _ _ _ Hw)) as (Hb & Hr & _).
      kstep (me_run s e 1 p Hr (br_me _ _ _ Hb)). kstep get_proc_run; [apply Hb|]. rewrite Hc. cbn [of_option]. rewrite bind_ret. exact R. }
  assert (ends ROOTDEV p pr V sb parent name de (k_itable s) n (elements l) s1 e (namex_loop fuel fuel i path parent name de s1 e)) as H.
  { apply (namex_loop_run ROOTDEV p pr V sb parent name de (k_itable s) (conj Hd0 Hd1) Hbuf fuel e fuel path l s1 i n ip); try done; by rewrite M1. }
  assert (namex fuel path parent name de s e = namex_loop fuel fuel i path parent name de s1 e) as -> by (unfold namex; rewrite bind_gets; by kstep R1).
  unfold ends in H. destruct (overruns V sb parent n (elements l)); [done|]. destruct H as (o & s' & R' & W' & K' & M' & F').
  exists o, s'. split_and!; try done; [by apply (same_rest_trans s s1) | by rewrite <- M1].
Qed.

(** C25: namex resolves a path as the blocks on the disk define it: from the root or the
    working directory it finds each element in the directory before it, and returns the
    inode the path leads to, or the directory of the last element with that element in
    the name buffer of 14 bytes, or nothing when an element is missing or not in a
    directory; if the walk comes to an element of exactly 14 bytes it stores its NUL in
    name[DIRSIZ], which is undefined behaviour; otherwise the inode returned has exactly
    one reference more, every other inode as many as before, no lock is held, and no
    memory but the two buffers changes. *)
Theorem namex_resolves {DD : DiskDriver} p pr V sb path name de l parent n fuel s e :
  walking ROOTDEV p pr V sb None s -> 2 <= unused_entries (k_itable s) ->
  path_at (k_mem s) path name de l -> (length l < fuel)%nat ->
  starts_at pr (k_itable s) l n -> walkable V sb parent n (elements l) ->
  if overruns V sb parent n (elements l) then namex fuel path parent name de s e = Undef "name[DIRSIZ]"
  else exists r s', namex fuel path parent name de s e = Ret r s' e /\
    found ROOTDEV parent name (k_itable s) (elements l) (resolve V sb parent n (elements l)) r s' /\
    walking ROOTDEV p pr V sb None s' /\ same_rest s s' /\ kept2 name de (k_mem s) (k_mem s').
Proof. apply namex_run. Qed.

(** ** A disk with a tree: the root has the directory "a", which has the file "b" *)

Definition dir_of (a size : Z) : inode := set_i_addrs (a :: zeros 12) (set_i_size size (set_i_nlink 1 (set_i_type T_DIR inode0))).
Definition dent (n c : Z) : list Z := le_bytes 2 n ++ zeros 13 ++ [c] ++ zeros 16.
Definition padded (l : list Z) : list Z := l ++ zeros (Z.to_nat BSIZE - length l).

(** Inodes 1 to 3 are in block 10; the root's block is 20 and begins with an unused entry. *)
Definition tree_blocks (b : Z) : list Z :=
  if b =? 10 then store_dinode 128 (dir_of 20 64) (store_dinode 256 (dir_of 21 32) (store_dinode 384 (set_i_type 2 inode0) (zeros 1024)))
  else if b =? 20 then padded (dent 0 98 ++ dent 2 97) else if b =? 21 then padded (dent 3 98) else zeros 1024.
Definition tree_sb : superblock := Mk_superblock FSMAGIC 100 70 16 0 2 10 12.

(** The path "/a/b" at address 1000. *)
Definition path_ab : list Z := [47; 97; 47; 98].
Definition path_ab_mem : memory := store_bytes (fun _ => 0) 1000 path_ab.

(** The booted kernel with a disk [V]. *)
Lemma boot_walk V sb mem : exists s, walking ROOTDEV 0 proc0 V sb None s /\ k_itable s = replicate NINODE inode0 /\ k_mem s = mem.
Proof.
  set (s := set_k_mem mem (set_k_sb sb (set_k_disk V boot0))).
  destruct (session_boot ROOTDEV 0 proc0 s []) as (B & _ & Hs & Hv & _); [done | reflexivity | destruct boot0_ready; split; assumption |].
  exists (set_k_bufs B s). split; [split|split; [reflexivity | reflexivity]].
  - split; [exact Hs | reflexivity | | exact Hv | reflexivity]. intros i Hi. do 50 (destruct i as [|i]; [reflexivity|]). unfold NINODE in Hi. lia.
  - assert (forall i ip, replicate NINODE inode0 !! i = Some ip -> ip = inode0) as H by (intros i ip [-> _]%lookup_replicate; done).
    split; [reflexivity | split | |].
    + intros i ip ->%H. done.
    + intros i j a b ->%H. intros _ E. by cbn in E.
    + intros i ip ->%H. unfold lock_fits. by rewrite bool_decide_false.
    + intros i ip ->%H E. by cbn in E.
Qed.

Lemma tree_dir n a size : dnode tree_blocks tree_sb n = dir_of a size -> size = 32 \/ size = 64 -> a = 20 \/ a = 21 -> good_inode tree_blocks (dnode tree_blocks tree_sb n).
Proof.
  intros -> Hsz Ha. split; [done | done | |].
  - intros _. cbn. unfold DIRENT. destruct Hsz as [-> | ->]; (split; [done | lia]).
  - intros _ k Hk. exists a. cbn in Hk. replace (k / BSIZE) with 0 by (symmetry; apply Z.div_small; unfold BSIZE; lia).
    destruct Ha as [-> | ->]; (split; [done|]; split; [lia|]; split; [done | vm_compute; reflexivity]).
Qed.

Lemma namex_resolves_witness : exists s s' i ip, k_mem s = path_ab_mem /\
  namex (DD := polled_disk) 5 1000 false 500 4096 s [] = Ret (Some i) s' [] /\
  k_itable s' !! i = Some ip /\ i_inum ip = 3 /\ refs 1 3 (k_itable s') = 1 /\ refs 1 1 (k_itable s') = 0 /\ refs 1 2 (k_itable s') = 0.
Proof.
  destruct (boot_walk tree_blocks tree_sb path_ab_mem) as (s & Hw & HT & Hm). exists s.
  assert (overruns tree_blocks tree_sb false 1 (elements path_ab) = false) as Hov by (vm_compute; reflexivity).
  pose proof (namex_resolves (DD := polled_disk) 0 proc0 tree_blocks tree_sb 1000 500 4096 path_ab false 1 5 s [] Hw) as H.
  rewrite Hov in H. clear Hov. destruct H as (r & s' & R & F & _).
  - rewrite HT. vm_compute. discriminate.
  - rewrite Hm. split.
    + intros j c Hj. do 5 (destruct j as [|j]; [injection Hj as <-; reflexivity|]). done.
    + unfold path_ab. intros c Hc. repeat (apply elem_of_cons in Hc as [->|Hc]; [done|]). by apply elem_of_nil in Hc.
    + cbn. unfold DIRENT. lia.
    + unfold apart, DIRSIZ, DIRENT; cbn; lia.
    + unfold DIRSIZ, DIRENT. lia.
  - cbn. lia.
  - reflexivity.
  - change (elements path_ab) with [[97]; [98]]. cbn [walkable]. split; [apply (tree_dir 1 20 64); [vm_compute; reflexivity | auto..]|]. intros _ _.
    replace (dir_find tree_blocks (dnode tree_blocks tree_sb 1) [97]) with (Some 2) by (vm_compute; reflexivity).
    split; [apply (tree_dir 2 21 32); [vm_compute; reflexivity | auto..]|]. intros _ _.
    replace (dir_find tree_blocks (dnode tree_blocks tree_sb 2) [98]) with (Some 3) by (vm_compute; reflexivity). done.
  - replace (resolve tree_blocks tree_sb false 1 (elements path_ab)) with (Some 3) in F by (vm_compute; reflexivity).
    destruct F as (i & ip & -> & (Hi & _ & _ & Hn) & Hmore & _). exists s', i, ip. split_and!; try done; rewrite Hmore, HT; reflexivity.
Defined.
