(* ===== verification/Virtio.v ===== *)
(** * The disk driver ([virtio_disk.cpp], [virtio_disk.h])

    The driver and the device share a table of descriptors, a ring of requests
    ([avail]) and a ring of completions ([used]); the three arrays are fields of
    [k_vd].  Device registers are read from and written to [k_io]. *)

From S2P Require Import Prelude State Riscv Cstring Lock Sched Kalloc Vm Bio.

(** ** Device registers *)

(** A read of the register at [a]; it waits for the device when that has no further value. *)
Definition io_read (a : Z) : M Z := fun s e =>
  match io_in (k_io s) with
  | [] => Blocked s
  | v :: l => Ret v (set_k_io (set_io_in l (k_io s)) s) e
  end.
Definition io_write (a v : Z) : M unit :=
  modify (fun s => set_k_io (set_io_out (io_out (k_io s) ++ [(a, v)]) (k_io s)) s).

Definition R (r : Z) : Z := VIRTIO0 + r.

Definition MMIO_MAGIC_VALUE : Z := 0x000.
Definition MMIO_VERSION : Z := 0x004.
Definition MMIO_DEVICE_ID : Z := 0x008.
Definition MMIO_VENDOR_ID : Z := 0x00c.
Definition MMIO_DEVICE_FEATURES : Z := 0x010.
Definition MMIO_DRIVER_FEATURES : Z := 0x020.
Definition MMIO_QUEUE_SEL : Z := 0x030.
Definition MMIO_QUEUE_NUM_MAX : Z := 0x034.
Definition MMIO_QUEUE_NUM : Z := 0x038.
Definition MMIO_QUEUE_READY : Z := 0x044.
Definition MMIO_QUEUE_NOTIFY : Z := 0x050.
Definition MMIO_INTERRUPT_STATUS : Z := 0x060.
Definition MMIO_INTERRUPT_ACK : Z := 0x064.
Definition MMIO_STATUS : Z := 0x070.
Definition MMIO_QUEUE_DESC_LOW : Z := 0x080.
Definition MMIO_QUEUE_DESC_HIGH : Z := 0x084.
Definition MMIO_DRIVER_DESC_LOW : Z := 0x090.
Definition MMIO_DRIVER_DESC_HIGH : Z := 0x094.
Definition MMIO_DEVICE_DESC_LOW : Z := 0x0a0.
Definition MMIO_DEVICE_DESC_HIGH : Z := 0x0a4.

Definition S_ACKNOWLEDGE : Z := 1.
Definition S_DRIVER : Z := 2.
Definition S_DRIVER_OK : Z := 4.
Definition S_FEATURES_OK : Z := 8.

(** Feature bits the driver declines: RO, SCSI, CONFIG_WCE, MQ, ANY_LAYOUT, EVENT_IDX, INDIRECT_DESC. *)
Definition declined : list Z := [5; 7; 11; 12; 27; 29; 28].
Definition accept_features (f : Z) : Z := foldl (fun f k => Z.land f (not32 (Z.shiftl 1 k))) f declined.

Definition F_NEXT : Z := 1.
Definition F_WRITE : Z := 2.
Definition T_IN : Z := 0.
Definition T_OUT : Z := 1.

Definition on_vd (f : vdisk -> vdisk) : M unit := modify (fun s => set_k_vd (f (k_vd s)) s).

(** [vm::kalloc().value()]. *)
Definition kalloc_value : M Z := opt <- kalloc ;; of_option "optional::value" opt.

Definition init : M unit :=
  magic <- io_read (R MMIO_MAGIC_VALUE) ;;
  version <- (if negb (magic =? 0x74726976) then ret 0 else io_read (R MMIO_VERSION)) ;;
  device <- (if negb (version =? 2) then ret 0 else io_read (R MMIO_DEVICE_ID)) ;;
  vendor <- (if negb (device =? 2) then ret 0 else io_read (R MMIO_VENDOR_ID)) ;;
  if negb (vendor =? 0x554d4551) then panic "could not find virtio disk"
  else
    io_write (R MMIO_STATUS) 0 ;;
    io_write (R MMIO_STATUS) S_ACKNOWLEDGE ;;
    let status := Z.lor S_ACKNOWLEDGE S_DRIVER in
    io_write (R MMIO_STATUS) status ;;
    features <- io_read (R MMIO_DEVICE_FEATURES) ;;
    io_write (R MMIO_DRIVER_FEATURES) (accept_features features) ;;
    io_write (R MMIO_STATUS) (Z.lor status S_FEATURES_OK) ;;
    status <- io_read (R MMIO_STATUS) ;;
    if Z.land status S_FEATURES_OK =? 0 then panic "virtio disk FEATURES_OK unset"
    else
      io_write (R MMIO_QUEUE_SEL) 0 ;;
      ready <- io_read (R MMIO_QUEUE_READY) ;;
      if negb (ready =? 0) then panic "virtio disk should not be ready"
      else
        max <- io_read (R MMIO_QUEUE_NUM_MAX) ;;
        if max =? 0 then panic "virtio disk has no queue 0"
        else if max <? Z.of_nat NUM then panic "virtio disk max queue too short"
        else
          desc <- kalloc_value ;;
          avail <- kalloc_value ;;
          used <- kalloc_value ;;
          if (desc =? 0) || (avail =? 0) || (used =? 0) then panic "virtio disk vm::alloc"
          else
            on_mem (fun m => memset (memset (memset m desc 0 PGSIZE) avail 0 PGSIZE) used 0 PGSIZE) ;;
            on_vd (fun d => set_us_ring (zeros NUM) (set_us_idx 0 (set_av_ring (zeros NUM) (set_av_idx 0
              (set_vd_desc (replicate NUM (Mk_virtq_desc DMA_null 0 0 0)) (set_vd_pages [desc; avail; used] d)))))) ;;
            io_write (R MMIO_QUEUE_NUM) (Z.of_nat NUM) ;;
            io_write (R MMIO_QUEUE_DESC_LOW) (u32 desc) ;;
            io_write (R MMIO_QUEUE_DESC_HIGH) (u32 (Z.shiftr desc 32)) ;;
            io_write (R MMIO_DRIVER_DESC_LOW) (u32 avail) ;;
            io_write (R MMIO_DRIVER_DESC_HIGH) (u32 (Z.shiftr avail 32)) ;;
            io_write (R MMIO_DEVICE_DESC_LOW) (u32 used) ;;
            io_write (R MMIO_DEVICE_DESC_HIGH) (u32 (Z.shiftr used 32)) ;;
            io_write (R MMIO_QUEUE_READY) 1 ;;
            on_vd (set_vd_free (replicate NUM true)) ;;
            io_write (R MMIO_STATUS) (Z.lor status S_DRIVER_OK).

(** ** Descriptors *)

Definition is_true (b : bool) : bool := b.

(** [None] is the result -1. *)
Definition alloc_desc : M (option nat) :=
  d <- gets k_vd ;;
  match find_idx is_true (vd_free d) with
  | Some i => on_vd (fun d => set_vd_free (<[i := false]> (vd_free d)) d) ;; ret (Some i)
  | None => ret None
  end.

Definition free_desc (i : nat) : M unit :=
  if (NUM <=? i)%nat then panic "free_desc: 1"
  else
    d <- gets k_vd ;;
    fr <- of_option "disk.free" (vd_free d !! i) ;;
    if fr : bool then panic "free_desc: 2"
    else
      on_vd (fun d => set_vd_desc (<[i := Mk_virtq_desc DMA_null 0 0 0]> (vd_desc d)) d) ;;
      on_vd (fun d => set_vd_free (<[i := true]> (vd_free d)) d).

Fixpoint free_all (l : list nat) : M unit :=
  match l with [] => ret tt | i :: l' => free_desc i ;; free_all l' end.

(** [idx] holds the descriptors taken so far; [n] more are needed. *)
Fixpoint alloc_descs (n : nat) (idx : list nat) : M (option (list nat)) :=
  match n with
  | O => ret (Some idx)
  | S n' =>
      o <- alloc_desc ;;
      match o with
      | Some i => alloc_descs n' (idx ++ [i])
      | None => free_all idx ;; ret None
      end
  end.
Definition alloc3_desc : M (option (list nat)) := alloc_descs 3 [].

(** A chain visits no descriptor twice, or [free_desc] panics. *)
Fixpoint free_chain_loop (fuel : nat) (i : nat) : M unit :=
  match fuel with
  | O => fun _ _ => NoFuel
  | S f =>
      d <- gets k_vd ;;
      ds <- of_option "disk.desc" (vd_desc d !! i) ;;
      free_desc i ;;
      if negb (Z.land (d_flags ds) F_NEXT =? 0) then free_chain_loop f (Z.to_nat (d_next ds)) else ret tt
  end.
Definition free_chain (i : nat) : M unit := free_chain_loop (S NUM) i.

(** ** Requests *)

(** [while (true) { if (alloc3_desc(idx) == 0) break; sleep(&disk.free[0], vdisk_lock); }]. *)
Fixpoint wait_descs (fuel : nat) : M (list nat) :=
  match fuel with
  | O => fun _ _ => NoFuel
  | S f =>
      o <- alloc3_desc ;;
      match o with
      | Some idx => ret idx
      | None => sleep CDiskFree L_vdisk ;; wait_descs f
      end
  end.

(** The request for buffer [b] with the descriptors [i0], [i1] and [i2]. *)
Definition request (b : nat) (write : bool) (sector : Z) (i0 i1 i2 : nat) (d : vdisk) : vdisk :=
  let d := set_vd_ops (<[i0 := Mk_blk_req (if write then T_OUT else T_IN) 0 sector]> (vd_ops d)) d in
  let d := set_vd_desc (<[i0 := Mk_virtq_desc (DMA_op i0) 16 F_NEXT (Z.of_nat i1)]> (vd_desc d)) d in
  let d := set_vd_desc (<[i1 := Mk_virtq_desc (DMA_data b) BSIZE (Z.lor (if write then 0 else F_WRITE) F_NEXT) (Z.of_nat i2)]> (vd_desc d)) d in
  let d := set_vd_info_status (<[i0 := 0xff]> (vd_info_status d)) d in
  let d := set_vd_desc (<[i2 := Mk_virtq_desc (DMA_status i0) 1 F_WRITE 0]> (vd_desc d)) d in
  set_vd_info_b (<[i0 := Some b]> (vd_info_b d)) d.

(** [disk.avail->ring[disk.avail->idx % NUM] = i0; disk.avail->idx += 1]. *)
Definition publish (i0 : nat) (d : vdisk) : vdisk :=
  set_av_idx (u16 (av_idx d + 1)) (set_av_ring (<[Z.to_nat (av_idx d mod Z.of_nat NUM) := Z.of_nat i0]> (av_ring d)) d).

Definition disk_rw (b : nat) (write : bool) : M unit :=
  bf <- get_buf b ;;
  let sector := u32 (b_blockno bf * (BSIZE / 512)) in
  acquire L_vdisk ;;
  idx <- (fun s e => wait_descs (S (length e)) s e) ;;
  match idx with
  | [i0; i1; i2] =>
      on_vd (request b write sector i0 i1 i2) ;;
      upd_buf b (set_b_disk true) ;;
      on_vd (publish i0) ;;
      io_write (R MMIO_QUEUE_NOTIFY) 0 ;;
      while_waiting (bf <- get_buf b ;; ret (b_disk bf)) (sleep (CBuf b) L_vdisk) ;;
      on_vd (fun d => set_vd_info_b (<[i0 := None]> (vd_info_b d)) d) ;;
      free_chain i0 ;;
      release L_vdisk
  | _ => undef "idx"
  end.

(** The loop of the interrupt handler, one iteration per completed request. *)
Fixpoint intr_loop (fuel : nat) : M unit :=
  match fuel with
  | O => fun _ _ => NoFuel
  | S f =>
      d <- gets k_vd ;;
      if vd_used_idx d =? us_idx d then ret tt
      else
        id <- of_option "used->ring" (us_ring d !! Z.to_nat (vd_used_idx d mod Z.of_nat NUM)) ;;
        status <- of_option "disk.info" (vd_info_status d !! Z.to_nat id) ;;
        if negb (status =? 0) then panic "virtio_disk_intr status"
        else
          o <- of_option "disk.info" (vd_info_b d !! Z.to_nat id) ;;
          b <- of_option "null buf" o ;;
          upd_buf b (set_b_disk false) ;;
          wakeup (CBuf b) ;;
          on_vd (fun d => set_vd_used_idx (u16 (vd_used_idx d + 1)) d) ;;
          intr_loop f
  end.

Definition virtio_disk_intr : M unit :=
  acquire L_vdisk ;;
  st <- io_read (R MMIO_INTERRUPT_STATUS) ;;
  io_write (R MMIO_INTERRUPT_ACK) (Z.land st 3) ;;
  (fun s e => intr_loop (S (Z.to_nat (u16 (us_idx (k_vd s) - vd_used_idx (k_vd s))))) s e) ;;
  release L_vdisk.
