(* ===== verification/VirtioSpec.v ===== *)
(** * The disk driver implements block transfers

    The disk is not part of the kernel: [BlockDevice] states what the driver relies
    on, the virtio 1.1 protocol (split queues, block device requests) for a request that
    was published and notified, and [virtio] is one such device.
    [machine] is what the hart runs while a process waits in [disk_rw]: the
    scheduler, the device, the interrupt handler and the scheduler again.  With
    these, [disk_rw] has the effect the block cache relies on. *)

From S2P Require Import Prelude State Riscv Lock Sched Bio Virtio.

(** ** The device *)

Definition null_desc : virtq_desc := Mk_virtq_desc DMA_null 0 0 0.

Definition flag (f : Z) (d : virtq_desc) : bool := negb (Z.land (d_flags d) f =? 0).

(** A descriptor of [len] bytes, with or without a successor, that the device reads or writes. *)
Definition desc_is (len : Z) (next write : bool) (d : virtq_desc) : bool :=
  (d_len d =? len) && eqb (flag F_NEXT d) next && eqb (flag F_WRITE d) write.

(** The transfer a descriptor chain asks for: a header of 16 bytes, the data of one block,
    which the device writes when it reads from the disk, and a status byte. *)
Definition chain_of (d : vdisk) (head : nat) : option (blk_req * nat * nat) :=
  d0 ← vd_desc d !! head;
  d1 ← vd_desc d !! Z.to_nat (d_next d0);
  d2 ← vd_desc d !! Z.to_nat (d_next d1);
  match d_addr d0, d_addr d1, d_addr d2 with
  | DMA_op o, DMA_data b, DMA_status i =>
      rq ← vd_ops d !! o;
      if ((rq_type rq =? T_IN) || (rq_type rq =? T_OUT)) && desc_is 16 true false d0 &&
         desc_is BSIZE true (rq_type rq =? T_IN) d1 && desc_is 1 false true d2
      then Some (rq, b, i) else None
  | _, _, _ => None
  end.

(** The last register written is the notification of queue 0. *)
Definition notified (out : list (Z * Z)) : bool :=
  match rev out with (a, v) :: _ => (a =? R MMIO_QUEUE_NOTIFY) && (v =? 0) | [] => false end.

(** The request of the queue: the driver has notified queue 0 and published one request
    more than the device has completed. *)
Definition request_of (s : kernel) : option (nat * (blk_req * nat * nat)) :=
  let d := k_vd s in
  if notified (io_out (k_io s)) && (av_idx d =? u16 (us_idx d + 1)) then
    head ← av_ring d !! Z.to_nat (us_idx d mod Z.of_nat NUM);
    rq ← chain_of d (Z.to_nat head);
    Some (Z.to_nat head, rq)
  else None.

(** The status byte is stored and the head of the chain appended to the used ring. *)
Definition complete (head i : nat) (d : vdisk) : vdisk :=
  set_us_idx (u16 (us_idx d + 1))
    (set_us_ring (<[Z.to_nat (us_idx d mod Z.of_nat NUM) := Z.of_nat head]> (us_ring d))
       (set_vd_info_status (<[i := 0]> (vd_info_status d)) d)).

(** The data moves, as in [disk_eff]; a block is two sectors. *)
Definition moved (b : nat) (write : bool) (n : Z) (bf : buf) (s : kernel) : kernel :=
  if write then
    set_k_trace (k_trace s ++ [(n, b_data bf)]) (set_k_disk (fun x => if x =? n then b_data bf else k_disk s x) s)
  else set_k_bufs (<[b := set_b_data (k_disk s n) bf]> (k_bufs s)) s.

(** What the driver relies on: the device carries out the request of the queue. *)
Class BlockDevice := {
  device : kernel -> kernel;
  device_serves s head rq b i bf : request_of s = Some (head, (rq, b, i)) -> k_bufs s !! b = Some bf ->
    device s = moved b (rq_type rq =? T_OUT) (rq_sector rq / 2) bf (set_k_vd (complete head i (k_vd s)) s)
}.

(** A device that does this, and nothing without a request. *)
Definition virtio (s : kernel) : kernel :=
  match request_of s with
  | Some (head, (rq, b, i)) =>
      match k_bufs s !! b with
      | Some bf => moved b (rq_type rq =? T_OUT) (rq_sector rq / 2) bf (set_k_vd (complete head i (k_vd s)) s)
      | None => s
      end
  | None => s
  end.

Definition virtio_device : BlockDevice.
Proof. refine {| device := virtio |}. intros s head rq b i bf E Hb. unfold virtio. by rewrite E, Hb. Defined.

Section driver.
Context {BD : BlockDevice}.

(** From [swtch] in [sched] back to it: the end of one iteration of [scheduler], the
    device and its interrupt, and the start of the iteration that finds [p] again. *)
Definition machine_code (p : nat) : M unit :=
  c <- curr_cpu ;;
  put_cpu (set_c_proc None c) ;;
  release (L_proc p) ;;
  modify device ;;
  virtio_disk_intr ;;
  acquire (L_proc p) ;;
  pr <- get_proc p ;;
  if bool_decide (p_status pr = RUNNABLE) then
    upd_proc p (set_p_status RUNNING) ;;
    c <- curr_cpu ;;
    put_cpu (set_c_proc (Some p) c)
  else undef "not woken".

Definition machine (p : nat) (s : kernel) : kernel :=
  match machine_code p s [] with Ret _ s' _ => s' | _ => s end.

(** ** Descriptors *)

Lemma alloc_desc_run i s e : find_idx is_true (vd_free (k_vd s)) = Some i ->
  alloc_desc s e = Ret (Some i) (set_k_vd (set_vd_free (<[i := false]> (vd_free (k_vd s))) (k_vd s)) s) e.
Proof. intros H. unfold alloc_desc. rewrite bind_gets, H. done. Qed.

Lemma alloc_desc_none s e : find_idx is_true (vd_free (k_vd s)) = None -> alloc_desc s e = Ret None s e.
Proof. intros H. unfold alloc_desc. by rewrite bind_gets, H. Qed.

Lemma free_desc_run i s e : (i < NUM)%nat -> vd_free (k_vd s) !! i = Some false ->
  free_desc i s e =
  Ret tt (set_k_vd (set_vd_free (<[i := true]> (vd_free (k_vd s))) (set_vd_desc (<[i := null_desc]> (vd_desc (k_vd s))) (k_vd s))) s) e.
Proof.
  intros Hi Hf. unfold free_desc. rewrite (proj2 (Nat.leb_gt _ _)) by done. rewrite bind_gets, Hf. cbn [of_option].
  rewrite bind_ret. done.
Qed.

(** The first three free descriptors. *)
Definition three_free (F : list bool) (i0 i1 i2 : nat) : Prop :=
  find_idx is_true F = Some i0 /\ find_idx is_true (<[i0 := false]> F) = Some i1 /\
  find_idx is_true (<[i1 := false]> (<[i0 := false]> F)) = Some i2.

Definition taken (F : list bool) (i0 i1 i2 : nat) : list bool := <[i2 := false]> (<[i1 := false]> (<[i0 := false]> F)).

Lemma alloc3_run i0 i1 i2 s e : three_free (vd_free (k_vd s)) i0 i1 i2 ->
  alloc3_desc s e = Ret (Some [i0; i1; i2]) (set_k_vd (set_vd_free (taken (vd_free (k_vd s)) i0 i1 i2) (k_vd s)) s) e.
Proof.
  intros (H0 & H1 & H2). unfold alloc3_desc. cbn [alloc_descs].
  kstep alloc_desc_run; [done|]. kstep alloc_desc_run; [done|]. kstep alloc_desc_run; [done|]. done.
Qed.

Lemma find_free_lookup F i : find_idx is_true F = Some i -> F !! i = Some true.
Proof. intros (b & H & Hb & _)%find_idx_Some. unfold is_true in Hb. by subst. Qed.

Lemma three_free_distinct F i0 i1 i2 : three_free F i0 i1 i2 ->
  F !! i0 = Some true /\ F !! i1 = Some true /\ F !! i2 = Some true /\ i0 <> i1 /\ i0 <> i2 /\ i1 <> i2.
Proof.
  intros (H0%find_free_lookup & H1%find_free_lookup & H2%find_free_lookup).
  assert (i0 <> i1) as H01. { intros <-. rewrite list_lookup_insert_eq in H1; [done|]. by apply lookup_lt_Some in H0. }
  rewrite list_lookup_insert_ne in H1 by done.
  assert (i1 <> i2) as H12. { intros <-. rewrite list_lookup_insert_eq in H2; [done|]. rewrite length_insert. by apply lookup_lt_Some in H1. }
  rewrite list_lookup_insert_ne in H2 by done.
  assert (i0 <> i2) as H02. { intros <-. rewrite list_lookup_insert_eq in H2; [done|]. by apply lookup_lt_Some in H0. }
  rewrite list_lookup_insert_ne in H2 by done. done.
Qed.

(** Giving the three back restores the free list. *)
Lemma give_back F i0 i1 i2 : three_free F i0 i1 i2 ->
  <[i2 := true]> (<[i1 := true]> (<[i0 := true]> (taken F i0 i1 i2))) = F.
Proof.
  intros (H0 & H1 & H2 & N01 & N02 & N12)%three_free_distinct. unfold taken. apply list_eq. intros j.
  destruct (decide (j = i2)) as [->|]; [|destruct (decide (j = i1)) as [->|]; [|destruct (decide (j = i0)) as [->|]]];
    rewrite ?list_lookup_insert_ne by done; [..|done]; rewrite list_lookup_insert_eq; try done;
    rewrite ?length_insert; by eapply lookup_lt_Some.
Qed.

(** ** The hart's current process *)

Definition with_proc (o : option nat) (h : hartlocks) : hartlocks :=
  set_hl_cpus (<[hl_tp h := set_c_proc o (cur h)]> (hl_cpus h)) h.

Lemma with_proc_ok o h : is_Some (hl_cpus h !! hl_tp h) -> is_Some (hl_cpus (with_proc o h) !! hl_tp (with_proc o h)).
Proof. intros H. cbn. rewrite list_lookup_insert_eq; [done | by apply lookup_lt_is_Some]. Qed.

Lemma cur_with_proc o h : is_Some (hl_cpus h !! hl_tp h) -> cur (with_proc o h) = set_c_proc o (cur h).
Proof. intros H. unfold cur at 1. cbn. rewrite list_lookup_insert_eq; [done | by apply lookup_lt_is_Some]. Qed.

Lemma room_with_proc n o h : room n h -> room n (with_proc o h).
Proof. intros (H & H0 & Hn). split; [by apply with_proc_ok|]. rewrite cur_with_proc by done. cbn. lia. Qed.

Lemma push_with_proc o h : is_Some (hl_cpus h !! hl_tp h) -> push (with_proc o h) = with_proc o (push h).
Proof.
  intros H. unfold push at 1. rewrite cur_with_proc by done.
  change (with_proc o (push h)) with (set_hl_cpus (<[hl_tp h := set_c_proc o (cur (push h))]> (hl_cpus (push h))) (push h)).
  rewrite cur_push by done. unfold push. cbn. by rewrite !list_insert_insert_eq.
Qed.

Lemma pop_with_proc o h : is_Some (hl_cpus h !! hl_tp h) -> pop (with_proc o h) = with_proc o (pop h).
Proof.
  intros H. unfold pop at 1. rewrite cur_with_proc by done.
  change (with_proc o (pop h)) with (set_hl_cpus (<[hl_tp h := set_c_proc o (cur (pop h))]> (hl_cpus (pop h))) (pop h)).
  rewrite cur_pop by done. unfold pop. cbn. by rewrite !list_insert_insert_eq.
Qed.

Lemma push_ok h : is_Some (hl_cpus h !! hl_tp h) -> is_Some (hl_cpus (push h) !! hl_tp (push h)).
Proof. intros H. unfold push; cbn. rewrite list_lookup_insert_eq; [done | by apply lookup_lt_is_Some]. Qed.

Lemma acq_with_proc o L h : is_Some (hl_cpus h !! hl_tp h) -> acq L (with_proc o h) = with_proc o (acq L h).
Proof. intros H. unfold acq. rewrite push_with_proc by done. done. Qed.

Lemma bal_with_proc o h : is_Some (hl_cpus h !! hl_tp h) -> bal (with_proc o h) = with_proc o (bal h).
Proof. intros H. unfold bal. rewrite push_with_proc, pop_with_proc by (done || by apply push_ok). done. Qed.

Lemma with_proc_twice o o' h : is_Some (hl_cpus h !! hl_tp h) -> with_proc o (with_proc o' h) = with_proc o h.
Proof. intros H. unfold with_proc at 1. rewrite cur_with_proc by done. unfold with_proc. cbn. by rewrite list_insert_insert_eq. Qed.

Lemma with_proc_id o h : is_Some (hl_cpus h !! hl_tp h) -> c_proc (cur h) = o -> with_proc o h = h.
Proof.
  intros H <-. unfold with_proc. replace (set_c_proc _ _) with (cur h) by (by destruct (cur h)).
  rewrite list_insert_id by (by apply cur_lookup). by destruct h.
Qed.

Lemma put_proc_run o s e n : room n (k_hl s) ->
  bind curr_cpu (fun c => put_cpu (set_c_proc o c)) s e = Ret tt (set_k_hl (with_proc o (k_hl s)) s) e.
Proof. intros H. kstep (curr_cpu_run s e n H). done. Qed.

(** ** The interrupt handler *)

(** The used ring holds, from the driver's index [u] on, completions without error of
    requests for the buffers [bl]. *)
Definition served (d : vdisk) (u : Z) (bl : list nat) (bufs : list buf) : Prop :=
  forall k b, bl !! k = Some b -> is_Some (bufs !! b) /\
    exists id, us_ring d !! Z.to_nat ((u + Z.of_nat k) mod Z.of_nat NUM) = Some id /\
      vd_info_status d !! Z.to_nat id = Some 0 /\ vd_info_b d !! Z.to_nat id = Some (Some b).

Definition undisk (l : list buf) (b : nat) : list buf :=
  match l !! b with Some bf => <[b := set_b_disk false bf]> l | None => l end.

(** Every completed buffer is handed back and its waiters are woken. *)
Definition intr_eff (bl : list nat) (s : kernel) : kernel :=
  set_k_vd (set_vd_used_idx (us_idx (k_vd s)) (k_vd s))
    (set_k_procs (foldl (fun l b => wake_procs (me_of s) (CBuf b) l) (k_procs s) bl)
       (set_k_bufs (foldl undisk (k_bufs s) bl) s)).

Lemma u16_succ_ring u k : (u16 (u + 1) + k) mod Z.of_nat NUM = (u + (1 + k)) mod Z.of_nat NUM.
Proof. unfold u16. change (Z.of_nat NUM) with 8. Z.to_euclidean_division_equations. lia. Qed.

Lemma served_next d u b bl bufs bufs' :
  length bufs' = length bufs -> served d u (b :: bl) bufs -> served (set_vd_used_idx (u16 (u + 1)) d) (u16 (u + 1)) bl bufs'.
Proof.
  intros Hl H k b' Hk. destruct (H (S k) b' Hk) as (Hb & id & H1 & H2 & H3). split.
  - apply lookup_lt_is_Some. rewrite Hl. by apply lookup_lt_is_Some.
  - exists id. split; [|done]. rewrite u16_succ_ring. by replace (1 + Z.of_nat k) with (Z.of_nat (S k)) by lia.
Qed.

Lemma length_undisk l b : length (undisk l b) = length l.
Proof. unfold undisk. destruct (l !! b); [apply length_insert | done]. Qed.

Lemma intr_loop_run bl fuel s e :
  (length bl < fuel)%nat -> room 1 (k_hl s) -> nested (k_hl s) -> procs_free (me_of s) (k_hl s) -> length (k_procs s) = NPROC ->
  0 <= vd_used_idx (k_vd s) < 2 ^ 16 -> Z.of_nat (length bl) < 2 ^ 16 ->
  us_idx (k_vd s) = u16 (vd_used_idx (k_vd s) + Z.of_nat (length bl)) ->
  served (k_vd s) (vd_used_idx (k_vd s)) bl (k_bufs s) ->
  intr_loop fuel s e = Ret tt (intr_eff bl s) e.
Proof.
  revert fuel s; induction bl as [|b bl IH]; intros [|fuel] s Hfu Hr Hn Hf Hl Hu Hlen Hi Hs; [cbn in Hfu; lia | | cbn in Hfu; lia |];
    cbn [intr_loop]; rewrite bind_gets.
  - rewrite Hi. cbn [length]. replace (vd_used_idx (k_vd s) + Z.of_nat 0) with (vd_used_idx (k_vd s)) by lia.
    unfold u16. rewrite Z.mod_small by lia. rewrite Z.eqb_refl. unfold ret, intr_eff. cbn.
    rewrite Hi. cbn [length]. replace (u16 _) with (vd_used_idx (k_vd s)) by (unfold u16; rewrite Z.mod_small; lia).
    destruct s as []; cbn. by destruct k_vd.
  - destruct (Hs 0%nat b eq_refl) as ([bf Hb] & id & H1 & H2 & H3). rewrite Z.add_0_r in H1.
    assert (vd_used_idx (k_vd s) <> us_idx (k_vd s)) as Hne.
    { rewrite Hi. unfold u16. cbn [length] in *. intros E. Z.to_euclidean_division_equations. lia. }
    rewrite (proj2 (Z.eqb_neq _ _) Hne), H1. cbn [of_option]. rewrite bind_ret, H2. cbn [of_option]. rewrite bind_ret. cbn [Z.eqb negb].
    rewrite H3. cbn [of_option]. rewrite bind_ret. cbn [of_option]. rewrite bind_ret.
    kstep upd_buf_run; [exact Hb|]. kstep wakeup_run; [done..|]. unfold on_vd. rewrite bind_modify.
    rewrite IH; cbn; try done.
    + unfold intr_eff. cbn. unfold undisk at 3. rewrite Hb. by destruct s, k_vd.
    + cbn in Hfu. lia.
    + by rewrite length_imap.
    + unfold u16. Z.to_euclidean_division_equations. lia.
    + cbn [length] in Hlen. lia.
    + rewrite Hi. cbn [length]. unfold u16. rewrite Zplus_mod_idemp_l. f_equal. lia.
    + apply (served_next _ _ b bl (k_bufs s)); [by rewrite length_insert | done].
Qed.

(** The acknowledgement of the interrupt. *)
Definition acked (s : kernel) : kernel :=
  set_k_io (Mk_mmio (tail (io_in (k_io s))) (io_out (k_io s) ++ [(R MMIO_INTERRUPT_ACK, Z.land (hd 0 (io_in (k_io s))) 3)])) s.

Definition intr_ready (s : kernel) : Prop :=
  room 2 (k_hl s) /\ free L_vdisk (k_hl s) /\ procs_free (me_of s) (k_hl s) /\ length (k_procs s) = NPROC /\
  io_in (k_io s) <> [] /\ 0 <= vd_used_idx (k_vd s) < 2 ^ 16.

Lemma me_of_acq L s : is_Some (hl_cpus (k_hl s) !! hl_tp (k_hl s)) -> me_of (set_k_hl (acq L (k_hl s)) s) = me_of s.
Proof. intros H. unfold me_of. cbn [k_hl set_k_hl]. by rewrite c_proc_acq. Qed.

Lemma intr_run bl s e :
  intr_ready s -> Z.of_nat (length bl) < 2 ^ 16 ->
  us_idx (k_vd s) = u16 (vd_used_idx (k_vd s) + Z.of_nat (length bl)) ->
  served (k_vd s) (vd_used_idx (k_vd s)) bl (k_bufs s) ->
  virtio_disk_intr s e = Ret tt (set_k_hl (bal (k_hl s)) (intr_eff bl (acked s))) e.
Proof.
  intros (Hr & HL & Hf & Hp & Hio & Hu) Hlen Hi Hs. assert (room 1 (k_hl s)) as Hr1 by (apply (room_weaken 2); [done|lia]).
  assert (is_Some (hl_cpus (k_hl s) !! hl_tp (k_hl s))) as Hok by apply Hr.
  unfold virtio_disk_intr. kstep acquire_run; [done..|]. destruct (io_in (k_io s)) as [|v l] eqn:Eio; [done|].
  unfold bind at 1, io_read. cbn [k_io set_k_hl]. rewrite Eio. unfold io_write. rewrite bind_modify.
  kstep (intr_loop_run bl); cbn [k_vd k_hl k_procs k_bufs set_k_hl set_k_io]; try done.
  - rewrite Hi. unfold u16 at 1. replace ((u16 _ - _) mod _) with (Z.of_nat (length bl)); [lia|].
    unfold u16. rewrite Zminus_mod_idemp_l. rewrite Z.mod_small; lia.
  - exact (room_acq 2 _ _ Hr).
  - exact (nested_acq _ _ 2 Hr).
  - change (procs_free (me_of (set_k_hl (acq L_vdisk (k_hl s)) s)) (acq L_vdisk (k_hl s))). rewrite me_of_acq by done.
    apply procs_free_acq; [by intros i|done].
  - rewrite (release_acq_run L_vdisk (k_hl s)); [|done..]. unfold intr_eff, acked. cbn. rewrite Eio.
    change (me_of (set_k_io ?a (set_k_io ?b ?c))) with (me_of c). rewrite me_of_acq by done. by destruct s.
Qed.

(** The process waits for one of the buffers [bl]. *)
Definition waits (bl : list nat) (pr : process) : bool :=
  bool_decide (p_status pr = SLEEPING) && match p_chan pr with CBuf b => bool_decide (b ∈ bl) | _ => false end.

Lemma lookup_undisks bl l b bf : l !! b = Some bf ->
  foldl undisk l bl !! b = Some (if bool_decide (b ∈ bl) then set_b_disk false bf else bf).
Proof.
  revert l bf; induction bl as [|c bl IH]; intros l bf Hb; cbn [foldl]; [done|]. destruct (decide (c = b)) as [->|Hne].
  - rewrite (IH _ (set_b_disk false bf)).
    + rewrite (bool_decide_true (b ∈ b :: bl)) by (apply elem_of_cons; by left). by case_bool_decide.
    + unfold undisk. rewrite Hb. apply list_lookup_insert_eq. by apply lookup_lt_Some in Hb.
  - rewrite (IH _ bf).
    + f_equal. apply (f_equal (fun b : bool => if b then _ else _)). apply bool_decide_ext. rewrite elem_of_cons. intuition congruence.
    + unfold undisk. destruct (l !! c); [by rewrite list_lookup_insert_ne | done].
Qed.

Lemma lookup_wakes c bl l i pr : l !! i = Some pr ->
  foldl (fun l b => wake_procs c (CBuf b) l) l bl !! i =
  Some (if negb (bool_decide (c = Some i)) && waits bl pr then set_p_status RUNNABLE pr else pr).
Proof.
  revert l pr; induction bl as [|b bl IH]; intros l pr Hi; cbn [foldl].
  - rewrite Hi. f_equal. unfold waits. destruct (p_chan pr); by rewrite ?andb_false_r.
  - erewrite IH by (rewrite lookup_wake_procs, Hi; reflexivity). f_equal. case_bool_decide; [done|]. cbn [negb andb].
    unfold waits, wake. destruct (p_chan pr) as [| | | | | | | | |j| |] eqn:Ec; try (by rewrite ?andb_false_r, Ec, ?andb_false_r);
      rewrite ?andb_false_r, ?Ec, ?andb_false_r; try done.
    destruct (bool_decide (p_status pr = SLEEPING)) eqn:Es; cbn [andb]; [|by rewrite Es].
    destruct (decide (j = b)) as [->|Hne].
    + rewrite (bool_decide_true (CBuf b = CBuf b)), (bool_decide_true (b ∈ b :: bl)) by (done || (apply elem_of_cons; by left)). cbn. done.
    + rewrite (bool_decide_false (CBuf j = CBuf b)) by congruence. rewrite Es, Ec. cbn [andb].
      erewrite (bool_decide_ext (j ∈ bl) (j ∈ b :: bl)); [done|]. rewrite elem_of_cons. intuition congruence.
Qed.

(** The interrupt handler consumes every completion the device has published, also
    across the wrap of the 16-bit index: exactly the buffers of those requests are
    marked done and exactly the processes waiting for them are woken. *)
Theorem virtio_intr_completes bl s e :
  intr_ready s -> Z.of_nat (length bl) < 2 ^ 16 ->
  us_idx (k_vd s) = u16 (vd_used_idx (k_vd s) + Z.of_nat (length bl)) ->
  served (k_vd s) (vd_used_idx (k_vd s)) bl (k_bufs s) ->
  exists s', virtio_disk_intr s e = Ret tt s' e /\
    vd_used_idx (k_vd s') = us_idx (k_vd s') /\
    (forall b bf, k_bufs s !! b = Some bf ->
       k_bufs s' !! b = Some (if bool_decide (b ∈ bl) then set_b_disk false bf else bf)) /\
    (forall i pr, k_procs s !! i = Some pr ->
       k_procs s' !! i = Some (if negb (bool_decide (me_of s = Some i)) && waits bl pr then set_p_status RUNNABLE pr else pr)).
Proof.
  intros Hrdy Hlen Hi Hs. eexists. split; [by apply (intr_run bl)|]. split; [done|]. split.
  - intros b bf Hb. exact (lookup_undisks bl (k_bufs s) b bf Hb).
  - intros i pr Hp. exact (lookup_wakes (me_of s) bl (k_procs s) i pr Hp).
Qed.

(** ** The wait *)

(** The device turns [s] into [t], and does so whatever the harts and the processes do. *)
Definition serves_to (s t : kernel) : Prop :=
  k_hl t = k_hl s /\ k_procs t = k_procs s /\ k_io t = k_io s /\
  forall h l, device (set_k_hl h (set_k_procs l s)) = set_k_hl h (set_k_procs l t).

Lemma serves_hl s t h h' : serves_to s t -> device (set_k_hl h (set_k_hl h' s)) = set_k_hl h (set_k_hl h' t).
Proof.
  intros (_ & Hp & _ & H). specialize (H h (k_procs s)). rewrite <- Hp in H at 2. rewrite !set_k_procs_id in H. exact H.
Qed.

Lemma serves_asleep s t h l : serves_to s t -> serves_to (set_k_hl h (set_k_procs l s)) (set_k_hl h (set_k_procs l t)).
Proof. intros (_ & _ & Hio & H). by split_and!. Qed.

Lemma intr_get_bal h : is_Some (hl_cpus h !! hl_tp h) -> noff (cur h) = 0 -> intr_get (hl_sstatus (bal h)) = intr_get (hl_sstatus h).
Proof.
  intros H H0. rewrite bal_sstatus, H0 by done. cbn [Z.eqb andb].
  destruct (Z.eqb_spec (intr_get (hl_sstatus h)) 0) as [E|E]; cbn [negb]; [rewrite E; apply intr_get_off|].
  destruct (intr_get_01 (hl_sstatus h)) as [?| ->]; [done|]. apply intr_get_on.
Qed.

(** Process [p] sleeps on [b] and hart [h] is in the scheduler, in [swtch]. *)
Record parked (p b : nat) (pr : process) (h : hartlocks) (s : kernel) : Prop := Parked {
  pk_hl : k_hl s = acq (L_proc p) h;
  pk_room : room 2 h;
  pk_off : noff (cur h) = 0;
  pk_cur : c_proc (cur h) = Some p;
  pk_vdisk : free L_vdisk h;
  pk_procs : procs_free None h;
  pk_lt : (p < NPROC)%nat;
  pk_len : length (k_procs s) = NPROC;
  pk_pr : k_procs s !! p = Some pr;
  pk_asleep : p_status pr = SLEEPING;
  pk_chan : p_chan pr = CBuf b;
  pk_io : io_in (k_io s) <> []
}.

Definition resumed (p b : nat) (pr : process) (h : hartlocks) (s : kernel) : kernel :=
  set_k_hl (acq (L_proc p) (bal h))
    (set_k_vd (set_vd_used_idx (us_idx (k_vd s)) (k_vd s))
      (set_k_procs (<[p := set_p_status RUNNING pr]> (wake_procs None (CBuf b) (k_procs s)))
        (set_k_bufs (undisk (k_bufs s) b) (acked s)))).

Lemma machine_run p b pr h s t :
  parked p b pr h s -> serves_to s t ->
  0 <= vd_used_idx (k_vd t) < 2 ^ 16 -> us_idx (k_vd t) = u16 (vd_used_idx (k_vd t) + 1) ->
  served (k_vd t) (vd_used_idx (k_vd t)) [b] (k_bufs t) ->
  machine p s = resumed p b pr h t.
Proof.
  intros [Hh Hr H0 Hc HL Hf Hlt Hlen Hp Hst Hch Hio] Hsv Hu Hi Hs. pose proof Hsv as (_ & Dp & Dio & _).
  assert (is_Some (hl_cpus h !! hl_tp h)) as Hok by apply Hr.
  assert (room 1 h) as Hr1 by (apply (room_weaken 2); [done|lia]).
  assert (free (L_proc p) h) as Hfp by (by apply Hf).
  set (h1 := with_proc None (bal h)).
  assert (is_Some (hl_cpus (bal h) !! hl_tp (bal h))) as Hokb by apply (room_bal 2 h Hr).
  assert (room 2 h1) as Hr2 by (apply room_with_proc, room_bal; done).
  assert (bal h1 = h1) as Hb1. { unfold h1. rewrite bal_with_proc by done. by rewrite bal_idem. }
  assert (c_proc (cur h1) = None) as Hc1. { unfold h1. by rewrite cur_with_proc. }
  unfold machine. enough (machine_code p s [] = Ret tt (resumed p b pr h t) []) as -> by done.
  unfold machine_code. rewrite <- (bind_assoc curr_cpu). kstep (put_proc_run None s [] 1).
  { rewrite Hh. exact (room_acq 2 _ _ Hr). }
  rewrite Hh, <- acq_with_proc by done.
  kstep (release_acq_run (L_proc p) (with_proc None h)); [done | by apply room_with_proc | done |].
  rewrite bal_with_proc by done. fold h1. rewrite bind_modify, (serves_hl s t) by done.
  kstep (intr_run [b]); cbn [k_vd set_k_hl k_bufs length Z.of_nat Pos.of_succ_nat]; try done.
  { split_and!; cbn [k_hl k_procs k_io k_vd set_k_hl]; try done.
    - unfold me_of. cbn [k_hl set_k_hl]. by rewrite Hc1.
    - by rewrite Dp.
    - by rewrite Dio.
    - lia.
    - lia. }
  kstep acquire_run; cbn [k_hl set_k_hl]; [rewrite Hb1; apply (room_weaken 2); [done|lia] | done |].
  assert (wake (CBuf b) pr = set_p_status RUNNABLE pr) as Hw by (unfold wake; by rewrite Hst, Hch, !bool_decide_true).
  assert (forall h' x, k_procs (set_k_hl h' (set_k_hl x (intr_eff [b] (acked (set_k_hl h1 (set_k_hl (acq (L_proc p) (with_proc None h)) t)))))) =
                       wake_procs None (CBuf b) (k_procs t)) as Hps.
  { intros. unfold intr_eff. cbn [k_procs set_k_hl set_k_vd set_k_procs foldl]. change (me_of _) with (c_proc (cur h1)). by rewrite Hc1. }
  assert (wake_procs None (CBuf b) (k_procs t) !! p = Some (set_p_status RUNNABLE pr)) as Hpp.
  { rewrite lookup_wake_procs, Dp, Hp. cbn. by rewrite Hw. }
  kstep (get_proc_run p (set_p_status RUNNABLE pr)); [by rewrite Hps|]. cbn [p_status set_p_status]. rewrite bool_decide_true by done.
  kstep upd_proc_run; [rewrite Hps; exact Hpp|].
  rewrite (put_proc_run (Some p) _ [] 1); [|rewrite Hb1; exact (room_acq 2 _ _ Hr2)].
  rewrite Hps. unfold resumed. cbn [k_hl set_k_hl set_k_procs]. rewrite Hb1, <- acq_with_proc by apply Hr2.
  unfold h1. rewrite with_proc_twice, with_proc_id; [done | done | by rewrite c_proc_bal | done].
Qed.

Lemma put_cpu_id s e : is_Some (hl_cpus (k_hl s) !! hl_tp (k_hl s)) -> put_cpu (cur (k_hl s)) s e = Ret tt s e.
Proof.
  intros H. unfold put_cpu, on_hl, modify. rewrite list_insert_id by (by apply cur_lookup). by destruct s as [[]].
Qed.

(** After the wait, with the lock of the driver held again. *)
Definition waited (p b : nat) (pr : process) (h : hartlocks) (s : kernel) : kernel :=
  set_k_hl (acq L_vdisk (bal h))
    (set_k_vd (set_vd_used_idx (us_idx (k_vd s)) (k_vd s))
      (set_k_procs (<[p := set_p_status RUNNING (set_p_chan CNull pr)]> (wake_procs (Some p) (CBuf b) (k_procs s)))
        (set_k_bufs (undisk (k_bufs s) b) (acked s)))).

Lemma wake_insert p b x y l : <[p := y]> (wake_procs None (CBuf b) (<[p := x]> l)) = <[p := y]> (wake_procs (Some p) (CBuf b) l).
Proof.
  apply list_eq. intros i. destruct (decide (i = p)) as [->|Hne].
  - destruct (decide (p < length l)%nat) as [Hlt|Hge].
    + rewrite !list_lookup_insert_eq; [done | by rewrite length_wake_procs | by rewrite length_wake_procs, length_insert].
    + rewrite !lookup_ge_None_2; [done | rewrite length_insert, length_wake_procs; lia | rewrite length_insert, length_wake_procs, length_insert; lia].
  - rewrite !list_lookup_insert_ne, !lookup_wake_procs, list_lookup_insert_ne by done.
    rewrite (bool_decide_false (Some p = Some i)) by congruence. by destruct (l !! i).
Qed.

(** A caller of [disk_rw]: process [p] on a hart that holds no spin lock. *)
Record caller (p : nat) (pr : process) (h : hartlocks) (s : kernel) : Prop := Caller {
  ca_room : room 2 h;
  ca_off : noff (cur h) = 0;
  ca_cur : c_proc (cur h) = Some p;
  ca_vdisk : free L_vdisk h;
  ca_procs : procs_free None h;
  ca_lt : (p < NPROC)%nat;
  ca_len : length (k_procs s) = NPROC;
  ca_pr : k_procs s !! p = Some pr;
  ca_io : io_in (k_io s) <> []
}.

Lemma resumed_waited p b pr h h1 s :
  let s1 := resumed p b (set_p_status SLEEPING (set_p_chan (CBuf b) pr)) h
              (set_k_hl h1 (set_k_procs (<[p := set_p_status SLEEPING (set_p_chan (CBuf b) pr)]> (k_procs s)) s)) in
  set_k_hl (acq L_vdisk (bal h))
    (set_k_procs (<[p := set_p_chan CNull (set_p_status RUNNING (set_p_status SLEEPING (set_p_chan (CBuf b) pr)))]> (k_procs s1)) s1) =
  waited p b pr h s.
Proof.
  intros s1. unfold s1, resumed, waited. cbn [k_procs set_k_hl set_k_procs set_k_vd]. rewrite list_insert_insert_eq, wake_insert.
  destruct s, pr. reflexivity.
Qed.

(** The rest of [sleep] once the process runs again. *)
Lemma resume_tail p h s1 pr1 e :
  room 2 h -> noff (cur h) = 0 -> free L_vdisk h -> free (L_proc p) h ->
  k_hl s1 = acq (L_proc p) (bal h) -> k_procs s1 !! p = Some pr1 ->
  (c' <- curr_cpu ;; put_cpu (set_intena (intena (cur (acq (L_proc p) h))) c') ;;
   upd_proc p (set_p_chan CNull) ;; release (L_proc p) ;; acquire L_vdisk) s1 e =
  Ret tt (set_k_hl (acq L_vdisk (bal h)) (set_k_procs (<[p := set_p_chan CNull pr1]> (k_procs s1)) s1)) e.
Proof.
  intros Hr H0 HL Hf Hs1 Hp. assert (is_Some (hl_cpus h !! hl_tp h)) as Hok by apply Hr.
  assert (is_Some (hl_cpus (bal h) !! hl_tp (bal h))) as Hokb by apply (room_bal 2 h Hr).
  assert (room 1 (bal h)) as Hr1 by (apply room_bal, (room_weaken 2); [done|lia]).
  kstep (curr_cpu_run s1 e 0); [rewrite Hs1; exact (room_acq 1 _ _ Hr1)|].
  assert (set_intena (intena (cur (acq (L_proc p) h))) (cur (k_hl s1)) = cur (k_hl s1)) as ->.
  { rewrite Hs1. unfold acq. rewrite !cur_set_locks, !cur_push by done. rewrite cur_bal, H0 by done.
    unfold set_intena. cbn [c_proc noff intena Z.eqb]. by rewrite intr_get_bal. }
  kstep put_cpu_id; [rewrite Hs1; by apply (room_acq 1)|].
  kstep upd_proc_run; [exact Hp|]. kstep (release_acq_run (L_proc p) (bal h)); [exact Hs1 | exact Hr1 | exact Hf |].
  rewrite bal_idem by done. by rewrite acquire_run.
Qed.

Lemma sleep_machine p b pr h s t :
  k_hl s = acq L_vdisk h -> caller p pr h s -> serves_to s t ->
  0 <= vd_used_idx (k_vd t) < 2 ^ 16 -> us_idx (k_vd t) = u16 (vd_used_idx (k_vd t) + 1) ->
  served (k_vd t) (vd_used_idx (k_vd t)) [b] (k_bufs t) ->
  sleep (CBuf b) L_vdisk s [machine p] = Ret tt (waited p b pr h t) [].
Proof.
  intros Hh [Hr H0 Hc HL Hf Hlt Hlen Hp Hio] Hsv Hu Hi Hs. pose proof Hsv as (_ & Dp & Dio & _).
  assert (is_Some (hl_cpus h !! hl_tp h)) as Hok by apply Hr.
  assert (is_Some (hl_cpus (bal h) !! hl_tp (bal h))) as Hokb by apply (room_bal 2 h Hr).
  assert (room 1 (bal h)) as Hr1 by (apply room_bal, (room_weaken 2); [done|lia]).
  rewrite (sleep_run _ _ _ _ h p pr); [|done|by intros i|done|done|by apply Hf|done|done|done].
  unfold swtch, await. unfold bind at 1.
  erewrite (machine_run p b (set_p_status SLEEPING (set_p_chan (CBuf b) pr)) h); [| |by apply serves_asleep|done..].
  2:{ split; cbn; try done; [by rewrite length_insert|]. apply list_lookup_insert_eq. by apply lookup_lt_Some in Hp. }
  rewrite (resume_tail p h _ (set_p_status RUNNING (set_p_status SLEEPING (set_p_chan (CBuf b) pr))));
    [by rewrite <- Dp, resumed_waited | done | done | done | by apply Hf | reflexivity |].
  apply list_lookup_insert_eq. rewrite length_wake_procs. cbn [k_procs set_k_procs set_k_hl]. rewrite length_insert. lia.
Qed.

(** ** A request *)

Record vd_ok (d : vdisk) : Prop := VdOk {
  ok_desc : length (vd_desc d) = NUM;
  ok_free : length (vd_free d) = NUM;
  ok_av : length (av_ring d) = NUM;
  ok_us : length (us_ring d) = NUM;
  ok_ib : length (vd_info_b d) = NUM;
  ok_is : length (vd_info_status d) = NUM;
  ok_ops : length (vd_ops d) = NUM;
  ok_av_idx : av_idx d = us_idx d;
  ok_idle : vd_used_idx d = us_idx d;
  ok_used : 0 <= us_idx d < 2 ^ 16;
  ok_null : forall i, vd_free d !! i = Some true -> vd_desc d !! i = Some null_desc
}.

(** The queue with the request published. *)
Definition posted (b : nat) (write : bool) (sector : Z) (i0 i1 i2 : nat) (d : vdisk) : vdisk :=
  publish i0 (request b write sector i0 i1 i2 (set_vd_free (taken (vd_free d) i0 i1 i2) d)).

Lemma ring_slot u : 0 <= u -> (Z.to_nat (u mod Z.of_nat NUM) < NUM)%nat.
Proof. intros H. pose proof (Z.mod_pos_bound u (Z.of_nat NUM)). unfold NUM in *. lia. Qed.

Lemma posted_chain b write sector i0 i1 i2 d : vd_ok d -> three_free (vd_free d) i0 i1 i2 ->
  chain_of (posted b write sector i0 i1 i2 d) i0 = Some (Mk_blk_req (if write then T_OUT else T_IN) 0 sector, b, i0).
Proof.
  intros Hd (F0 & F1 & F2 & N01 & N02 & N12)%three_free_distinct.
  assert (forall i, vd_free d !! i = Some true -> (i < NUM)%nat) as Hlt.
  { intros i Hi. apply lookup_lt_Some in Hi. by rewrite (ok_free d Hd) in Hi. }
  pose proof (Hlt _ F0). pose proof (Hlt _ F1). pose proof (Hlt _ F2).
  unfold chain_of. cbn [posted publish request vd_desc set_vd_desc set_av_idx set_av_ring set_vd_info_b set_vd_info_status set_vd_ops set_vd_free vd_ops].
  rewrite (list_lookup_insert_ne _ i2 i0), (list_lookup_insert_ne _ i1 i0), (list_lookup_insert_eq (vd_desc d) i0) by (rewrite ?(ok_desc d Hd); lia).
  cbn [mbind option_bind d_next d_addr]. rewrite Nat2Z.id.
  rewrite (list_lookup_insert_ne _ i2 i1), (list_lookup_insert_eq _ i1) by (rewrite ?length_insert, ?(ok_desc d Hd); lia).
  cbn [mbind option_bind d_next d_addr d_flags]. rewrite Nat2Z.id, (list_lookup_insert_eq _ i2) by (rewrite ?length_insert, ?(ok_desc d Hd); lia).
  cbn [mbind option_bind d_next d_addr d_flags]. rewrite list_lookup_insert_eq by (rewrite (ok_ops d Hd); done). by destruct write.
Qed.

Lemma posted_ring b write sector i0 i1 i2 d : vd_ok d ->
  av_idx (posted b write sector i0 i1 i2 d) = u16 (us_idx (posted b write sector i0 i1 i2 d) + 1) /\
  av_ring (posted b write sector i0 i1 i2 d) !! Z.to_nat (us_idx (posted b write sector i0 i1 i2 d) mod Z.of_nat NUM) = Some (Z.of_nat i0).
Proof.
  intros Hd. unfold posted, publish, request. cbn [av_idx us_idx av_ring set_av_idx set_av_ring set_vd_info_b set_vd_info_status set_vd_desc set_vd_ops set_vd_free].
  rewrite (ok_av_idx d Hd). split; [done|]. apply list_lookup_insert_eq. rewrite (ok_av d Hd). apply (ring_slot (us_idx d)), Hd.
Qed.

Lemma notified_snoc out : notified (out ++ [(R MMIO_QUEUE_NOTIFY, 0)]) = true.
Proof. unfold notified. by rewrite rev_unit, Z.eqb_refl. Qed.

Lemma posted_request b write sector i0 i1 i2 d s out :
  vd_ok d -> three_free (vd_free d) i0 i1 i2 -> k_vd s = posted b write sector i0 i1 i2 d ->
  io_out (k_io s) = out ++ [(R MMIO_QUEUE_NOTIFY, 0)] ->
  request_of s = Some (i0, (Mk_blk_req (if write then T_OUT else T_IN) 0 sector, b, i0)).
Proof.
  intros Hd H3 Hs Hio. destruct (posted_ring b write sector i0 i1 i2 d Hd) as [E1 E2].
  pose proof (posted_chain b write sector i0 i1 i2 d Hd H3) as E3. rewrite <- Hs in E1, E2, E3. clear Hs.
  unfold request_of. rewrite Hio, notified_snoc, E1, Z.eqb_refl. cbn [andb].
  rewrite E2. cbn [mbind option_bind]. rewrite Nat2Z.id, E3. done.
Qed.

Lemma device_posted b write sector i0 i1 i2 d bf s out :
  vd_ok d -> three_free (vd_free d) i0 i1 i2 -> k_vd s = posted b write sector i0 i1 i2 d -> k_bufs s !! b = Some bf ->
  io_out (k_io s) = out ++ [(R MMIO_QUEUE_NOTIFY, 0)] ->
  serves_to s (moved b write (sector / 2) bf (set_k_vd (complete i0 i0 (k_vd s)) s)).
Proof.
  intros Hd H3 Hs Hb Hio. split_and!; try (by destruct write). intros h l.
  set (s1 := set_k_hl h (set_k_procs l s)).
  rewrite (device_serves s1 _ _ _ _ bf (posted_request b write sector i0 i1 i2 d s1 out Hd H3 Hs Hio) Hb). by destruct write.
Qed.

Lemma free_chain_run (d : vdisk) i0 i1 i2 a0 a1 a2 l0 l1 l2 f0 f1 f2 n2 s e :
  k_vd s = d -> (i0 < NUM)%nat -> (i1 < NUM)%nat -> (i2 < NUM)%nat -> i0 <> i1 -> i0 <> i2 -> i1 <> i2 ->
  vd_free d !! i0 = Some false -> vd_free d !! i1 = Some false -> vd_free d !! i2 = Some false ->
  vd_desc d !! i0 = Some (Mk_virtq_desc a0 l0 f0 (Z.of_nat i1)) -> Z.land f0 F_NEXT <> 0 ->
  vd_desc d !! i1 = Some (Mk_virtq_desc a1 l1 f1 (Z.of_nat i2)) -> Z.land f1 F_NEXT <> 0 ->
  vd_desc d !! i2 = Some (Mk_virtq_desc a2 l2 f2 n2) -> Z.land f2 F_NEXT = 0 ->
  free_chain i0 s e =
  Ret tt (set_k_vd (set_vd_free (<[i2 := true]> (<[i1 := true]> (<[i0 := true]> (vd_free d))))
                     (set_vd_desc (<[i2 := null_desc]> (<[i1 := null_desc]> (<[i0 := null_desc]> (vd_desc d)))) d)) s) e.
Proof.
  intros Hs L0 L1 L2 N01 N02 N12 F0 F1 F2 D0 X0 D1 X1 D2 X2. unfold free_chain, NUM.
  cbn [free_chain_loop]. rewrite bind_gets, Hs, D0. cbn [of_option]. rewrite bind_ret.
  kstep free_desc_run; [done | by rewrite Hs |]. cbn [d_flags d_next]. rewrite (proj2 (Z.eqb_neq _ _) X0), Nat2Z.id. cbn [negb].
  rewrite bind_gets. cbn [k_vd set_k_vd vd_desc set_vd_desc set_vd_free]. rewrite Hs, list_lookup_insert_ne, D1 by done. cbn [of_option]. rewrite bind_ret.
  kstep free_desc_run; [done | cbn; by rewrite list_lookup_insert_ne |]. cbn [d_flags d_next]. rewrite (proj2 (Z.eqb_neq _ _) X1), Nat2Z.id. cbn [negb].
  rewrite bind_gets. cbn [k_vd set_k_vd vd_desc set_vd_desc set_vd_free vd_free].
  rewrite !list_lookup_insert_ne, D2 by done. cbn [of_option]. rewrite bind_ret.
  kstep free_desc_run; [done | cbn; by rewrite !list_lookup_insert_ne |]. cbn [d_flags d_next]. rewrite X2. cbn [Z.eqb negb].
  done.
Qed.

Lemma wait_descs_run f i0 i1 i2 s e : three_free (vd_free (k_vd s)) i0 i1 i2 ->
  wait_descs (S f) s e = Ret [i0; i1; i2] (set_k_vd (set_vd_free (taken (vd_free (k_vd s)) i0 i1 i2) (k_vd s)) s) e.
Proof. intros H. cbn [wait_descs]. kstep alloc3_run; [exact H|]. done. Qed.

(** The state in which [disk_rw] starts to wait. *)
Definition submitted (b : nat) (write : bool) (bf : buf) (i0 i1 i2 : nat) (s : kernel) : kernel :=
  set_k_io (set_io_out (io_out (k_io s) ++ [(R MMIO_QUEUE_NOTIFY, 0)]) (k_io s))
    (set_k_vd (posted b write (u32 (b_blockno bf * (BSIZE / 512))) i0 i1 i2 (k_vd s))
      (set_k_bufs (<[b := set_b_disk true bf]> (k_bufs s)) (set_k_hl (acq L_vdisk (k_hl s)) s))).

(** [disk_rw] up to the wait. *)
Lemma disk_rw_submit b write bf i0 i1 i2 s e :
  room 1 (k_hl s) -> free L_vdisk (k_hl s) -> three_free (vd_free (k_vd s)) i0 i1 i2 -> k_bufs s !! b = Some bf ->
  Virtio.disk_rw b write s e =
  (while_waiting (bf <- get_buf b ;; ret (b_disk bf)) (sleep (CBuf b) L_vdisk) ;;
   on_vd (fun d => set_vd_info_b (<[i0 := None]> (vd_info_b d)) d) ;; free_chain i0 ;; release L_vdisk)
  (submitted b write bf i0 i1 i2 s) e.
Proof.
  intros Hr HL H3 Hb. unfold Virtio.disk_rw. kstep get_buf_run; [exact Hb|]. kstep acquire_run; [done..|].
  eapply eq_trans; [eapply bind_Ret, wait_descs_run; exact H3|]. cbv beta iota. unfold on_vd, io_write. rewrite bind_modify.
  kstep upd_buf_run; [exact Hb|]. rewrite !bind_modify. unfold bind.
  match goal with |- match while_waiting _ _ ?s1 _ with _ => _ end = _ => replace s1 with (submitted b write bf i0 i1 i2 s) by (by destruct s) end.
  done.
Qed.

(** The wait itself: one round of sleep. *)
Lemma wait_once b bf bf' s1 s2 f :
  k_bufs s1 !! b = Some bf -> b_disk bf = true -> sleep (CBuf b) L_vdisk s1 [f] = Ret tt s2 [] ->
  k_bufs s2 !! b = Some bf' -> b_disk bf' = false ->
  while_waiting (bf <- get_buf b ;; ret (b_disk bf)) (sleep (CBuf b) L_vdisk) s1 [f] = Ret tt s2 [].
Proof.
  intros H1 D1 Hs H2 D2. unfold while_waiting. cbn [length while]. rewrite bind_assoc. kstep get_buf_run; [exact H1|].
  rewrite D1, bind_ret. kstep Hs. rewrite bind_assoc. kstep get_buf_run; [exact H2|]. rewrite D2, bind_ret. done.
Qed.

(** The queue once the request is done and its descriptors are free again. *)
Definition finished (b : nat) (write : bool) (sector : Z) (i0 i1 i2 : nat) (d : vdisk) : vdisk :=
  let d1 := complete i0 i0 (posted b write sector i0 i1 i2 d) in
  let d2 := set_vd_info_b (<[i0 := None]> (vd_info_b d1)) (set_vd_used_idx (us_idx d1) d1) in
  set_vd_free (<[i2 := true]> (<[i1 := true]> (<[i0 := true]> (vd_free d2))))
    (set_vd_desc (<[i2 := null_desc]> (<[i1 := null_desc]> (<[i0 := null_desc]> (vd_desc d2)))) d2).

Lemma finished_ok b write sector i0 i1 i2 d : vd_ok d -> three_free (vd_free d) i0 i1 i2 ->
  vd_ok (finished b write sector i0 i1 i2 d) /\ vd_free (finished b write sector i0 i1 i2 d) = vd_free d.
Proof.
  intros Hd H3. pose proof (give_back _ _ _ _ H3) as Hg. destruct Hd. split.
  - split; cbn; rewrite ?length_insert; try done.
    + unfold taken. by rewrite !length_insert.
    + by rewrite ok_av_idx0.
    + unfold u16. apply Z.mod_pos_bound. lia.
    + rewrite Hg. intros i Hi. pose proof (ok_null0 i Hi) as Hn. pose proof (lookup_lt_Some _ _ _ Hn).
      destruct (decide (i = i2)) as [->|]; [apply list_lookup_insert_eq; by rewrite !length_insert|].
      rewrite list_lookup_insert_ne by done.
      destruct (decide (i = i1)) as [->|]; [apply list_lookup_insert_eq; by rewrite !length_insert|].
      rewrite list_lookup_insert_ne by done.
      destruct (decide (i = i0)) as [->|]; [apply list_lookup_insert_eq; by rewrite !length_insert|].
      by rewrite !list_lookup_insert_ne.
  - exact Hg.
Qed.

Lemma free_finished b write sector i0 i1 i2 d s e : vd_ok d -> three_free (vd_free d) i0 i1 i2 ->
  (let d1 := complete i0 i0 (posted b write sector i0 i1 i2 d) in
   k_vd s = set_vd_info_b (<[i0 := None]> (vd_info_b d1)) (set_vd_used_idx (us_idx d1) d1)) ->
  free_chain i0 s e = Ret tt (set_k_vd (finished b write sector i0 i1 i2 d) s) e.
Proof.
  intros Hd H3 Hs. destruct (three_free_distinct _ _ _ _ H3) as (F0 & F1 & F2 & N01 & N02 & N12).
  assert (forall i, vd_free d !! i = Some true -> (i < NUM)%nat) as Hlt.
  { intros i Hi. apply lookup_lt_Some in Hi. by rewrite (ok_free d Hd) in Hi. }
  pose proof (Hlt _ F0). pose proof (Hlt _ F1). pose proof (Hlt _ F2). pose proof (ok_free d Hd). pose proof (ok_desc d Hd).
  eapply free_chain_run; [exact Hs | done.. | | | | | | | | |]; cbn [vd_free vd_desc set_vd_info_b set_vd_used_idx complete posted publish request set_us_idx set_us_ring
    set_vd_info_status set_av_idx set_av_ring set_vd_desc set_vd_ops set_vd_free]; unfold taken.
  - rewrite !list_lookup_insert_ne by lia. rewrite list_lookup_insert_eq by lia. done.
  - rewrite list_lookup_insert_ne by lia. rewrite list_lookup_insert_eq by (rewrite length_insert; lia). done.
  - rewrite list_lookup_insert_eq by (rewrite !length_insert; lia). done.
  - rewrite !list_lookup_insert_ne by lia. rewrite list_lookup_insert_eq by lia. done.
  - done.
  - rewrite list_lookup_insert_ne by lia. rewrite list_lookup_insert_eq by (rewrite length_insert; lia). done.
  - by destruct write.
  - rewrite list_lookup_insert_eq by (rewrite !length_insert; lia). done.
  - done.
Qed.

Lemma served_posted b write sector i0 i1 i2 d bufs : vd_ok d -> three_free (vd_free d) i0 i1 i2 -> is_Some (bufs !! b) ->
  let d1 := complete i0 i0 (posted b write sector i0 i1 i2 d) in
  0 <= vd_used_idx d1 < 2 ^ 16 /\ us_idx d1 = u16 (vd_used_idx d1 + 1) /\ served d1 (vd_used_idx d1) [b] bufs.
Proof.
  intros Hd H3 Hb d1. destruct (three_free_distinct _ _ _ _ H3) as (F0 & _). destruct Hd.
  assert (i0 < NUM)%nat as Hi0 by (apply lookup_lt_Some in F0; by rewrite ok_free0 in F0).
  split_and!; cbn; try lia; try congruence. intros [|k] c [= <-]. split; [done|]. exists (Z.of_nat i0). rewrite Z.add_0_r, Nat2Z.id. cbn. split_and!.
  - rewrite ok_idle0. apply list_lookup_insert_eq. rewrite ok_us0. apply ring_slot; lia.
  - apply list_lookup_insert_eq. rewrite length_insert. by rewrite ok_is0.
  - apply list_lookup_insert_eq. by rewrite ok_ib0.
Qed.

Definition rw_final (p b : nat) (pr : process) (write : bool) (bf : buf) (i0 i1 i2 : nat) (s : kernel) : kernel :=
  let n := b_blockno bf in
  let s1 := submitted b write bf i0 i1 i2 s in
  set_k_hl (bal (k_hl s))
    (set_k_vd (finished b write (u32 (n * (BSIZE / 512))) i0 i1 i2 (k_vd s))
      (set_k_procs (<[p := set_p_status RUNNING (set_p_chan CNull pr)]> (wake_procs (Some p) (CBuf b) (k_procs s)))
        (set_k_io (k_io (acked s1))
          (disk_eff b bf write s)))).

Lemma sector_block n : 0 <= n < 2 ^ 31 -> u32 (n * (BSIZE / 512)) / 2 = n.
Proof. intros H. change (BSIZE / 512) with 2. rewrite u32_small by lia. apply Z.div_mul. lia. Qed.

(** Equality of two states built with the setters from a state in constructor form. *)
Ltac state_eq :=
  lazy beta iota zeta delta
    [set_k_hl set_k_vd set_k_procs set_k_bufs set_k_io set_k_trace set_k_disk k_hl k_mem k_freelist k_kpt k_procs k_init_proc k_next_pid
     k_pipes k_cons k_uart k_bufs k_log k_sb k_itable k_ftable k_devsw k_root k_ticks k_first k_csr k_io k_vd k_disk k_trace acked];
  reflexivity.

(** The final state, from the state after the wait. *)
Lemma rw_final_eq p b pr write bf i0 i1 i2 s :
  let s1 := submitted b write bf i0 i1 i2 s in
  let s2 := moved b write (b_blockno bf) (set_b_disk true bf) (set_k_vd (complete i0 i0 (k_vd s1)) s1) in
  k_bufs s !! b = Some bf -> b_disk bf = false ->
  set_k_hl (bal (k_hl s)) (set_k_vd (finished b write (u32 (b_blockno bf * (BSIZE / 512))) i0 i1 i2 (k_vd s)) (waited p b pr (k_hl s) s2)) =
  rw_final p b pr write bf i0 i1 i2 s.
Proof.
  intros s1 s2 Hb Hd. pose proof (lookup_lt_Some _ _ _ Hb) as Hlt. unfold s2, s1, rw_final, waited, disk_eff, moved, undisk, submitted. destruct write.
  - cbn [k_bufs set_k_trace set_k_disk set_k_vd set_k_io set_k_bufs set_k_hl]. rewrite list_lookup_insert_eq by done.
    cbn [k_bufs set_k_trace set_k_disk set_k_vd set_k_io set_k_bufs set_k_hl]. rewrite list_insert_insert_eq, (list_insert_id _ _ (set_b_disk false (set_b_disk true bf))).
    + destruct s. state_eq.
    + rewrite Hb. f_equal. destruct bf; cbn in *. by subst.
  - cbn [k_bufs set_k_trace set_k_disk set_k_vd set_k_io set_k_bufs set_k_hl]. rewrite list_lookup_insert_eq by (by rewrite length_insert).
    rewrite !list_insert_insert_eq.
    replace (set_b_disk false (set_b_data _ (set_b_disk true bf))) with (set_b_data (k_disk s (b_blockno bf)) bf) by (destruct bf; cbn in *; by subst).
    destruct s. state_eq.
Qed.

Lemma disk_rw_run p pr b bf write i0 i1 i2 s :
  caller p pr (k_hl s) s -> vd_ok (k_vd s) -> three_free (vd_free (k_vd s)) i0 i1 i2 ->
  k_bufs s !! b = Some bf -> b_disk bf = false -> 0 <= b_blockno bf < 2 ^ 31 ->
  Virtio.disk_rw b write s [machine p] = Ret tt (rw_final p b pr write bf i0 i1 i2 s) [].
Proof.
  intros Hc Hd H3 Hb Hnd Hn. pose proof Hc as [Hr H0 Hcur HL Hf Hlt Hlen Hp Hio].
  assert (room 1 (k_hl s)) as Hr1 by (apply (room_weaken 2); [done|lia]).
  assert (is_Some (hl_cpus (k_hl s) !! hl_tp (k_hl s))) as Hok by apply Hr.
  rewrite (disk_rw_submit b write bf i0 i1 i2), <- rw_final_eq by done. remember (submitted b write bf i0 i1 i2 s) as s1 eqn:E1.
  set (sec := u32 (b_blockno bf * (BSIZE / 512))).
  assert (k_vd s1 = posted b write sec i0 i1 i2 (k_vd s)) as Hvd1 by (by rewrite E1).
  assert (k_bufs s1 !! b = Some (set_b_disk true bf)) as Hb1 by (rewrite E1; cbn; apply list_lookup_insert_eq; by apply lookup_lt_Some in Hb).
  assert (k_hl s1 = acq L_vdisk (k_hl s)) as Hhl1 by (by rewrite E1).
  assert (caller p pr (k_hl s) s1) as Hc1 by (rewrite E1; by split).
  assert (io_out (k_io s1) = io_out (k_io s) ++ [(R MMIO_QUEUE_NOTIFY, 0)]) as Hio1 by (by rewrite E1).
  pose proof (device_posted b write sec i0 i1 i2 (k_vd s) (set_b_disk true bf) s1 _ Hd H3 Hvd1 Hb1 Hio1) as Hdev.
  unfold sec in Hdev. rewrite (sector_block (b_blockno bf) Hn) in Hdev. fold sec in Hdev.
  set (s2 := moved b write (b_blockno bf) (set_b_disk true bf) (set_k_vd (complete i0 i0 (k_vd s1)) s1)) in *.
  assert (exists bf2, k_bufs s2 !! b = Some bf2) as [bf2 Hb2].
  { unfold s2, moved. destruct write; cbn; [by eexists|]. rewrite list_lookup_insert_eq; [by eexists|]. by apply lookup_lt_Some in Hb1. }
  destruct (served_posted b write sec i0 i1 i2 (k_vd s) (k_bufs s2) Hd H3 (mk_is_Some _ _ Hb2)) as (S1 & S2 & S3).
  assert (k_vd s2 = complete i0 i0 (posted b write sec i0 i1 i2 (k_vd s))) as Hvd2 by (unfold s2; rewrite Hvd1; by destruct write).
  clearbody s2. rewrite <- Hvd2 in S1, S2, S3.
  kstep (wait_once b (set_b_disk true bf) (set_b_disk false bf2) s1 (waited p b pr (k_hl s) s2) (machine p)).
  - exact Hb1.
  - done.
  - exact (sleep_machine p b pr (k_hl s) s1 s2 Hhl1 Hc1 Hdev S1 S2 S3).
  - cbn. unfold undisk. rewrite Hb2. apply list_lookup_insert_eq. by apply lookup_lt_Some in Hb2.
  - done.
  - remember (waited p b pr (k_hl s) s2) as s3 eqn:E3.
    assert (k_hl s3 = acq L_vdisk (bal (k_hl s))) as Hhl3 by (by rewrite E3).
    assert (k_vd s3 = set_vd_used_idx (us_idx (k_vd s2)) (k_vd s2)) as Hvd3 by (by rewrite E3).
    unfold on_vd. rewrite bind_modify. kstep (free_finished b write sec i0 i1 i2 (k_vd s)); [done | done | |].
    { cbn [k_vd set_k_vd]. by rewrite Hvd3, Hvd2. }
    rewrite (release_acq_run L_vdisk (bal (k_hl s))); [| exact Hhl3 | by apply room_bal | done]. rewrite bal_idem by done. by destruct s3.
Qed.

End driver.

(** ** Properties *)

Lemma disk_eff_frame b bf write s :
  k_hl (disk_eff b bf write s) = k_hl s /\ k_mem (disk_eff b bf write s) = k_mem s /\ k_procs (disk_eff b bf write s) = k_procs s.
Proof. by destruct write. Qed.


(** A process that waits for free descriptors is never woken: after another request
    has completed and all its descriptors are free again, the waiter is still asleep,
    because free_desc does not wake the channel alloc3_desc's callers sleep on. *)
Theorem descriptor_waiter_starves {BD : BlockDevice} p pr b bf write i0 i1 i2 q pq s :
  caller p pr (k_hl s) s -> vd_ok (k_vd s) -> three_free (vd_free (k_vd s)) i0 i1 i2 ->
  k_bufs s !! b = Some bf -> b_disk bf = false -> 0 <= b_blockno bf < 2 ^ 31 ->
  k_procs s !! q = Some pq -> q <> p -> p_status pq = SLEEPING -> p_chan pq = CDiskFree ->
  exists s', Virtio.disk_rw b write s [machine p] = Ret tt s' [] /\
    k_procs s' !! q = Some pq /\ three_free (vd_free (k_vd s')) i0 i1 i2.
Proof.
  intros Hc Hd H3 Hb Hnd Hn Hq Hqp Hs Hch. eexists. split; [by apply (disk_rw_run p pr b bf write i0 i1 i2)|]. split.
  - change (k_procs _) with (<[p := set_p_status RUNNING (set_p_chan CNull pr)]> (wake_procs (Some p) (CBuf b) (k_procs s))).
    rewrite list_lookup_insert_ne, lookup_wake_procs, Hq by done. cbn. f_equal. unfold wake. rewrite Hch.
    rewrite (bool_decide_false (CDiskFree = CBuf b)) by done. rewrite andb_false_r. by case_bool_decide.
  - change (vd_free (k_vd (rw_final p b pr write bf i0 i1 i2 s))) with (vd_free (finished b write (u32 (b_blockno bf * (BSIZE / 512))) i0 i1 i2 (k_vd s))).
    by rewrite (proj2 (finished_ok _ _ _ _ _ _ _ Hd H3)).
Qed.

(** A machine with an idle queue, running process 0. *)
Definition disk_ready : kernel :=
  set_k_io (Mk_mmio [1] []) (set_k_vd (set_vd_free (replicate NUM true) vdisk0) (set_k_hl hl_run kernel0)).

Lemma disk_ready_caller s : k_hl s = hl_run -> length (k_procs s) = NPROC -> k_procs s !! 0%nat = Some proc0 -> io_in (k_io s) <> [] ->
  caller 0 proc0 (k_hl s) s.
Proof.
  intros Hh Hl Hp Hio. rewrite Hh.
  split; [apply hl_run_ready; lia | reflexivity | reflexivity | vm_compute; reflexivity | apply hl_run_procs | unfold NPROC; lia | done..].
Qed.

Lemma disk_ready_ok : vd_ok (set_vd_free (replicate NUM true) vdisk0).
Proof.
  split; try reflexivity; try (cbn; lia). cbn [vd_free vd_desc set_vd_free vdisk0]. intros i [_ Hi]%lookup_replicate. apply lookup_replicate. done.
Qed.


Lemma descriptor_waiter_starves_witness :
  let pq := set_p_chan CDiskFree (set_p_status SLEEPING proc0) in
  let s := set_k_procs (<[5%nat := pq]> (k_procs kernel0)) disk_ready in
  exists s', Virtio.disk_rw 3 false s [machine (BD := virtio_device) 0] = Ret tt s' [] /\ k_procs s' !! 5%nat = Some pq.
Proof.
  intros pq s. destruct (descriptor_waiter_starves (BD := virtio_device) 0 proc0 3 buf0 false 0 1 2 5 pq s) as (s' & H1 & H2 & _).
  - by apply disk_ready_caller.
  - apply disk_ready_ok.
  - split_and!; vm_compute; reflexivity.
  - reflexivity.
  - reflexivity.
  - cbn; lia.
  - reflexivity.
  - lia.
  - reflexivity.
  - reflexivity.
  - exists s'. split; [exact H1 | exact H2].
Defined.

Lemma virtio_intr_completes_witness :
  let d := set_us_idx 1 (set_us_ring (<[0%nat := 2]> (zeros NUM)) (set_vd_info_b (<[2%nat := Some 7%nat]> (replicate NUM None)) vdisk0)) in
  let s := set_k_bufs (<[7%nat := set_b_disk true buf0]> (replicate 31 buf0)) (set_k_vd d disk_ready) in
  exists s', virtio_disk_intr s [] = Ret tt s' [] /\ k_bufs s' !! 7%nat = Some (set_b_disk false (set_b_disk true buf0)).
Proof.
  intros d s. destruct (virtio_intr_completes [7%nat] s []) as (s' & H1 & _ & H2 & _).
  - split; [apply hl_run_ready; lia|]. split; [vm_compute; reflexivity|]. split; [intros i Hi _; by apply hl_run_procs|].
    split; [reflexivity|]. split; [done|]. cbn; lia.
  - cbn; lia.
  - reflexivity.
  - intros [|k] b [= <-]. split; [by eexists|]. exists 2. split_and!; reflexivity.
  - exists s'. split; [exact H1|]. rewrite (H2 7%nat (set_b_disk true buf0)) by reflexivity. by rewrite bool_decide_true by (apply elem_of_cons; by left).
Defined.
