(* ===== verification/Trap.v ===== *)
(** * Traps and interrupts ([trap.cpp], [plic.cpp]) and the set-up of the devices

    The handlers run between the assembly in trampoline.S and kernelvec.S and
    the rest of the kernel: they decide whether a trap is a system call, a
    device interrupt or an error, and restore the state to return with.  The
    control registers are [k_csr] and [hl_sstatus]. *)

From S2P Require Import Text Fmt Prelude State Riscv Lock Sched Kalloc Vm Console Bio Log Fs File Proc Sysfile Virtio.

(** ** Control registers *)

Definition on_csr (f : csr -> csr) : M unit := modify (fun s => set_k_csr (f (k_csr s)) s).
Definition r_sepc : M Z := gets (fun s => cs_sepc (k_csr s)).
Definition r_scause : M Z := gets (fun s => cs_scause (k_csr s)).
Definition r_stval : M Z := gets (fun s => cs_stval (k_csr s)).
Definition r_satp : M Z := gets (fun s => cs_satp (k_csr s)).
Definition r_time : M Z := gets (fun s => cs_time (k_csr s)).
Definition w_stvec (v : Z) : M unit := on_csr (set_cs_stvec v).
Definition w_sepc (v : Z) : M unit := on_csr (set_cs_sepc v).
Definition w_satp (v : Z) : M unit := on_csr (set_cs_satp v).
Definition w_stimecmp (v : Z) : M unit := on_csr (set_cs_stimecmp v).
Definition r_sstatus : M Z := gets (fun s => hl_sstatus (k_hl s)).
Definition w_sstatus (v : Z) : M unit := on_hl (set_hl_sstatus v).

Definition SCAUSE_ECALL : Z := 8.
Definition SCAUSE_EXTERNAL : Z := 0x8000000000000009.
Definition SCAUSE_TIMER : Z := 0x8000000000000005.

Definition UART_IRQ : Z := 10.
Definition VIRTIO_IRQ : Z := 1.

(** ** The interrupt controller *)

Definition set_plic_senable (hart value : Z) : M unit := io_write (u32 (hart * 0x100) + PLIC + 0x2080) value.
Definition set_plic_spriority (hart value : Z) : M unit := io_write (u32 (hart * 0x2000) + PLIC + 0x201000) value.
Definition plic_sclaim (hart : Z) : Z := u32 (hart * 0x2000) + PLIC + 0x201004.
Definition get_plic_sclaim (id : Z) : M Z := io_read (plic_sclaim id).
(** The source writes an [uint64_t] here. *)
Definition set_plic_sclaim (hart value : Z) : M unit := io_write (plic_sclaim hart) value.

Definition plic_init : M unit :=
  io_write (PLIC + UART_IRQ * 4) 1 ;; io_write (PLIC + VIRTIO_IRQ * 4) 1.

Definition plic_inithart : M unit :=
  id <- cpuid ;;
  set_plic_senable (Z.of_nat id) (Z.lor (Z.shiftl 1 UART_IRQ) (Z.shiftl 1 VIRTIO_IRQ)) ;;
  set_plic_spriority (Z.of_nat id) 0.

Definition plic_claim : M Z := id <- cpuid ;; r <- get_plic_sclaim (Z.of_nat id) ;; ret (s32 r).
Definition plic_complete (irq : Z) : M unit := id <- cpuid ;; set_plic_sclaim (Z.of_nat id) (u32 irq).

(** ** Interrupts *)

Definition clockintr : M unit :=
  id <- cpuid ;;
  when (id =? 0)%nat
    (acquire L_ticks ;;
     modify (fun s => set_k_ticks (u32 (k_ticks s + 1)) s) ;;
     wakeup CTicks ;;
     release L_ticks) ;;
  t <- r_time ;;
  w_stimecmp (u64 (t + 1000000)).

(** 2: timer, 1: external, 0: neither. *)
Definition devintr : M Z :=
  scause <- r_scause ;;
  if scause =? SCAUSE_EXTERNAL then
    irq <- plic_claim ;;
    (if irq =? UART_IRQ then UartIntr.intr
     else if irq =? VIRTIO_IRQ then virtio_disk_intr
     else when (negb (irq =? 0)) (print (chars "unexpected interrupt irq={}" ++ [10]) [FInt 32 true irq])) ;;
    when (negb (irq =? 0)) (plic_complete irq) ;;
    ret 1
  else if scause =? SCAUSE_TIMER then clockintr ;; ret 2
  else ret 0.

Definition kerneltrap : M unit :=
  i <- hart_intr_get ;;
  if negb (i =? 0) then panic "kerneltrap: interrupts enabled"
  else
    sepc <- r_sepc ;;
    sstatus <- r_sstatus ;;
    scause <- r_scause ;;
    if Z.land sstatus SSTATUS_SPP =? 0 then panic "kerneltrap: not from supervisor mode"
    else
      dev <- devintr ;;
      if dev =? 0 then
        sepc' <- r_sepc ;;
        stval <- r_stval ;;
        print (chars "scause={} sepc=0x{x} stval=0x{x}" ++ [10]) [FInt 64 false scause; FInt 64 false sepc'; FInt 64 false stval] ;;
        panic "trap::kerneltrap"
      else
        c <- curr_proc ;;
        when ((dev =? 2) && bool_decide (c <> None)) yield ;;
        w_sepc sepc ;;
        w_sstatus sstatus.

Definition trap_inithart {LY : Layout} : M unit := w_stvec sym_kernelvec.

Section trap.
Context {DD : DiskDriver} {LY : Layout}.

(** The end of [user_ret] jumps to the trampoline: the result is the address and
    the argument, the user page table's [satp]. *)
Definition user_ret : M (Z * Z) :=
  i <- me ;;
  hart_intr_off ;;
  w_stvec (u64 (TRAMPOLINE + (sym_uservec - sym_trampoline))) ;;
  p <- get_proc i ;;
  let tf := p_trapframe p in
  satp <- r_satp ;;
  on_mem (fun m => store64 m (tf + TF_kernel_satp) satp) ;;
  on_mem (fun m => store64 m (tf + TF_kernel_sp) (u64 (p_kstack p + PGSIZE))) ;;
  on_mem (fun m => store64 m (tf + TF_kernel_trap) fn_user_trap) ;;
  tp <- cpuid ;;
  on_mem (fun m => store64 m (tf + TF_kernel_hartid) (Z.of_nat tp)) ;;
  x <- r_sstatus ;;
  w_sstatus (Z.lor (Z.land x (not32 SSTATUS_SPP)) SSTATUS_SPIE) ;;
  m <- gets k_mem ;;
  w_sepc (load64 m (tf + TF_epc)) ;;
  ret (u64 (TRAMPOLINE + (sym_userret - sym_trampoline)), MAKE_SATP (p_pagetable p)).

(** Lines 42 to 56: the cause of the trap is dealt with; the value of [which_dev]. *)
Definition user_cause (i : nat) : M Z :=
  scause <- r_scause ;;
  if scause =? SCAUSE_ECALL then
    killed <- get_killed i ;;
    (if killed : bool then exit (-1) else ret tt) ;;
    p <- get_proc i ;;
    on_mem (fun m => store64 m (p_trapframe p + TF_epc) (u64 (load64 m (p_trapframe p + TF_epc) + 4))) ;;
    hart_intr_on ;;
    syscall ;;
    ret 0
  else
    which_dev <- devintr ;;
    if negb (which_dev =? 0) then ret which_dev
    else
      scause <- r_scause ;;
      sepc <- r_sepc ;;
      stval <- r_stval ;;
      print (chars "usertrap(): unexpected scause 0x{x}, sepc=0x{x}, stval=0x{x}" ++ [10])
        [FInt 64 false scause; FInt 64 false sepc; FInt 64 false stval] ;;
      p <- get_proc i ;;
      print (chars "            pid: {}, name: {}" ++ [10]) [FInt 32 false (p_pid p); FStr (Some (c_name p))] ;;
      set_killed i ;;
      ret 0.

Definition user_trap : M (Z * Z) :=
  sstatus <- r_sstatus ;;
  if negb (Z.land sstatus SSTATUS_SPP =? 0) then panic "user_trap: not from user mode"
  else
    w_stvec sym_kernelvec ;;
    i <- me ;;
    p <- get_proc i ;;
    epc <- r_sepc ;;
    on_mem (fun m => store64 m (p_trapframe p + TF_epc) epc) ;;
    which_dev <- user_cause i ;;
    killed <- get_killed i ;;
    (if killed : bool then exit (-1) else ret tt) ;;
    when (which_dev =? 2) yield ;;
    user_ret.

(** [proc::forkret], where a new process starts. *)
Definition forkret : M (Z * Z) :=
  i <- me ;;
  release (L_proc i) ;;
  first <- gets k_first ;;
  when first
    (Fs.init 1 ;;
     print_log INFO (chars "the root file system init successful" ++ [10]) ;;
     modify (set_k_first false)) ;;
  user_ret.

(** ** Start-up *)

Definition uart_init : M unit :=
  io_write (UART0 + 1) 0 ;; io_write (UART0 + 3) 128 ;; io_write (UART0 + 0) 3 ;; io_write (UART0 + 1) 0 ;;
  io_write (UART0 + 3) 3 ;; io_write (UART0 + 2) 7 ;; io_write (UART0 + 1) 3.

Definition console_init : M unit := uart_init ;; set_devsw.

(** [sfence.vma] orders translations and has no effect on this state. *)
Definition vm_inithart : M unit := kpt <- gets k_kpt ;; w_satp (MAKE_SATP kpt).

End trap.
