(* ===== verification/TrapSpec.v ===== *)
(** * Properties of traps

    A system call enters through [user_trap] and leaves through [user_ret]: the
    saved program counter is advanced past the [ecall], the handler runs with
    interrupts on, and its result is in [a0] when user code resumes.  A timer
    interrupt in the kernel advances the clock and leaves the interrupted code's
    registers as they were. *)

From S2P Require Import Text Fmt Prelude State Riscv Cstring Lock Sched Kalloc Vm UserCopy Bio Log Fs File Proc Loader Sysfile SysSpec Virtio Trap.

(** ** System calls *)

Section ecall.
Context {DD : DiskDriver} {LY : Layout}.

(** The state in which the handler of a system call starts. *)
Definition ecall_entry (tf : Z) (s : kernel) : kernel :=
  let h := bal (k_hl s) in
  let m := store64 (k_mem s) (tf + TF_epc) (cs_sepc (k_csr s)) in
  set_k_hl (set_hl_sstatus (intr_on (hl_sstatus h)) h)
    (set_k_mem (store64 m (tf + TF_epc) (u64 (load64 m (tf + TF_epc) + 4))) (set_k_csr (set_cs_stvec sym_kernelvec (k_csr s)) s)).

(** The trap frame [user_ret] leaves. *)
Definition ret_frame (tf satp ksp tp : Z) (m : memory) : memory :=
  store64 (store64 (store64 (store64 m (tf + TF_kernel_satp) satp) (tf + TF_kernel_sp) ksp) (tf + TF_kernel_trap) fn_user_trap)
    (tf + TF_kernel_hartid) tp.

Lemma user_ret_run p pr s e :
  sys_caller p pr s ->
  let tf := p_trapframe pr in
  let m := ret_frame tf (cs_satp (k_csr s)) (u64 (p_kstack pr + PGSIZE)) (Z.of_nat (hl_tp (k_hl s))) (k_mem s) in
  user_ret s e =
  Ret (u64 (TRAMPOLINE + (sym_userret - sym_trampoline)), MAKE_SATP (p_pagetable pr))
    (set_k_hl (set_hl_sstatus (Z.lor (Z.land (intr_off (hl_sstatus (k_hl s))) (not32 SSTATUS_SPP)) SSTATUS_SPIE) (k_hl s))
      (set_k_mem m (set_k_csr (set_cs_sepc (load64 m (tf + TF_epc)) (set_cs_stvec (u64 (TRAMPOLINE + (sym_uservec - sym_trampoline))) (k_csr s))) s))) e.
Proof.
  intros Hc tf m. unfold user_ret. kstep (me_run s e 1 p); [apply Hc | apply Hc |].
  unfold hart_intr_off, w_stvec, w_sepc, w_sstatus, on_csr, on_hl, on_mem, r_satp, r_sstatus. rewrite !bind_modify.
  kstep (get_proc_run p pr); [apply Hc|]. rewrite !bind_gets, !bind_modify. unfold cpuid. rewrite !bind_gets, !bind_modify, !bind_gets, !bind_modify, !bind_gets, !bind_modify.
  reflexivity.
Qed.

Lemma ecall_entry_caller p pr tf s : sys_caller p pr s -> sys_caller p pr (ecall_entry tf s).
Proof.
  intros [Hr Hm Hp]. destruct (room_bal _ _ Hr) as [H1 H2]. split; [split; [exact H1 | exact H2] | | exact Hp].
  unfold me_of in *. change (cur (k_hl (ecall_entry tf s))) with (cur (bal (k_hl s))). rewrite c_proc_bal; [done | apply Hr].
Qed.

(** The other words of the trap frame are the user's. *)
Lemma ecall_entry_frame tf s k : k <> TF_epc -> k mod 8 = 0 -> load64 (k_mem (ecall_entry tf s)) (tf + k) = load64 (k_mem s) (tf + k).
Proof. intros Hk H8. cbn [k_mem ecall_entry set_k_hl set_k_mem]. unfold TF_epc in *. rewrite !load64_store64_ne by zmod. done. Qed.

Lemma ecall_entry_epc tf s : load64 (k_mem (ecall_entry tf s)) (tf + TF_epc) = u64 (cs_sepc (k_csr s) + 4).
Proof. cbn [k_mem ecall_entry set_k_hl set_k_mem]. rewrite !load64_store64. zmod. Qed.

(** [user_trap] on a system call whose handler returns. *)
Lemma user_trap_ecall p pr (f : M Z) r s e s2 e2 pr2 :
  let tf := p_trapframe pr in
  sys_caller p pr s -> Z.land (hl_sstatus (k_hl s)) SSTATUS_SPP = 0 -> cs_scause (k_csr s) = SCAUSE_ECALL ->
  p_killed pr = false -> free (L_proc p) (k_hl s) ->
  0 <= load64 (k_mem s) (tf + TF_a 7) -> syscalls !! Z.to_nat (load64 (k_mem s) (tf + TF_a 7)) = Some f ->
  f (ecall_entry tf s) e = Ret r s2 e2 ->
  sys_caller p pr2 s2 -> p_trapframe pr2 = tf -> p_killed pr2 = false -> free (L_proc p) (k_hl s2) ->
  user_trap s e = user_ret (set_k_hl (bal (k_hl s2)) (set_k_mem (store64 (k_mem s2) (tf + TF_a 0) r) s2)) e2.
Proof.
  intros tf Hc Hspp Hcause Hk Hf H7 Hnum Hrun Hc2 Htf2 Hk2 Hf2. pose proof (ca_pr _ _ _ Hc) as Hp. pose proof (ca_room _ _ _ Hc) as Hr.
  set (s1 := ecall_entry tf s). set (s3 := set_k_mem (store64 (k_mem s2) (tf + TF_a 0) r) s2).
  assert (syscall s1 e = Ret tt s3 e2) as Hsys.
  { apply (syscall_run p pr f r s1 e s2 e2); [by apply ecall_entry_caller | | | exact Hrun];
      unfold s1; rewrite ecall_entry_frame by done; [exact H7 | exact Hnum]. }
  assert (user_cause p (set_k_mem (store64 (k_mem s) (tf + TF_epc) (cs_sepc (k_csr s)))
            (set_k_csr (set_cs_stvec sym_kernelvec (k_csr s)) s)) e = Ret 0 s3 e2) as Hcs.
  { unfold user_cause, r_scause. rewrite bind_gets. cbn [k_csr set_k_mem set_k_csr cs_scause set_cs_stvec]. rewrite Hcause. cbn [Z.eqb SCAUSE_ECALL Pos.eqb].
    kstep (get_killed_run p); [done | done | exact Hp |]. rewrite Hk, bind_ret. kstep (get_proc_run p pr); [exact Hp|].
    unfold on_mem, hart_intr_on, on_hl. rewrite !bind_modify. kstep Hsys. done. }
  unfold user_trap, r_sstatus. rewrite bind_gets, Hspp. cbn [Z.eqb negb]. unfold w_stvec, on_csr. rewrite bind_modify.
  kstep (me_run (set_k_csr (set_cs_stvec sym_kernelvec (k_csr s)) s) e 1 p); [done | apply Hc |]. kstep (get_proc_run p pr); [exact Hp|].
  unfold r_sepc. rewrite bind_gets. unfold on_mem. rewrite bind_modify. fold tf. kstep Hcs.
  kstep (get_killed_run p s3 e2 pr2); [apply Hc2 | exact Hf2 | apply Hc2 |]. rewrite Hk2, bind_ret. cbn [Z.eqb when]. rewrite bind_ret. done.
Qed.
End ecall.

Lemma ret_frame_keep {LY : Layout} tf satp ksp tp m k : 40 <= k \/ k = TF_epc -> k mod 8 = 0 ->
  load64 (ret_frame tf satp ksp tp m) (tf + k) = load64 m (tf + k).
Proof.
  intros Hk H8. unfold ret_frame, TF_kernel_satp, TF_kernel_sp, TF_kernel_trap, TF_kernel_hartid, TF_epc in *.
  rewrite !load64_store64_ne by zmod. done.
Qed.

(** C10: A system call from user mode runs its handler with interrupts on, kernelvec
    installed and the saved pc advanced by 4; when the handler returns, user_trap
    resumes user code with the handler's result in a0, the other saved registers as the
    handler left them, sepc from the trap frame, the trap vector on the trampoline, the
    frame's four kernel fields set for the next trap (kernel satp, kernel stack, address
    of user_trap, hart id), interrupts off and the previous mode user. *)
Theorem ecall_returns {DD : DiskDriver} {LY : Layout} p pr (f : M Z) r s e s2 e2 pr2 :
  let tf := p_trapframe pr in
  let s1 := ecall_entry tf s in
  sys_caller p pr s -> Z.land (hl_sstatus (k_hl s)) SSTATUS_SPP = 0 -> cs_scause (k_csr s) = SCAUSE_ECALL ->
  p_killed pr = false -> free (L_proc p) (k_hl s) ->
  0 <= load64 (k_mem s) (tf + TF_a 7) -> syscalls !! Z.to_nat (load64 (k_mem s) (tf + TF_a 7)) = Some f ->
  f s1 e = Ret r s2 e2 ->
  sys_caller p pr2 s2 -> p_trapframe pr2 = tf -> p_killed pr2 = false -> free (L_proc p) (k_hl s2) ->
  (load64 (k_mem s1) (tf + TF_epc) = u64 (cs_sepc (k_csr s) + 4) /\ intr_get (hl_sstatus (k_hl s1)) = 1 /\
   cs_stvec (k_csr s1) = sym_kernelvec) /\
  exists s3, user_trap s e = Ret (u64 (TRAMPOLINE + (sym_userret - sym_trampoline)), MAKE_SATP (p_pagetable pr2)) s3 e2 /\
    load64 (k_mem s3) (tf + TF_a 0) = u64 r /\
    (forall k, 40 <= k -> k <> TF_a 0 -> k mod 8 = 0 -> load64 (k_mem s3) (tf + k) = load64 (k_mem s2) (tf + k)) /\
    cs_sepc (k_csr s3) = load64 (k_mem s2) (tf + TF_epc) /\
    cs_stvec (k_csr s3) = u64 (TRAMPOLINE + (sym_uservec - sym_trampoline)) /\
    load64 (k_mem s3) (tf + TF_kernel_satp) = u64 (cs_satp (k_csr s2)) /\
    load64 (k_mem s3) (tf + TF_kernel_sp) = u64 (p_kstack pr2 + PGSIZE) /\
    load64 (k_mem s3) (tf + TF_kernel_trap) = u64 fn_user_trap /\
    load64 (k_mem s3) (tf + TF_kernel_hartid) = u64 (Z.of_nat (hl_tp (k_hl s2))) /\
    intr_get (hl_sstatus (k_hl s3)) = 0 /\ Z.land (hl_sstatus (k_hl s3)) SSTATUS_SPP = 0 /\
    k_procs s3 = k_procs s2.
Proof.
  intros tf s1 Hc Hspp Hcause Hk Hf H7 Hnum Hrun Hc2 Htf2 Hk2 Hf2. split.
  { split; [apply ecall_entry_epc|]. split; [apply intr_get_on | done]. }
  rewrite (user_trap_ecall p pr f r s e s2 e2 pr2) by done. fold tf. set (s2' := set_k_hl _ _).
  assert (sys_caller p pr2 s2') as Hc3.
  { destruct Hc2 as [Hr2 Hm2 Hp2]. split; [by apply room_bal | | exact Hp2]. unfold me_of in *. cbn [k_hl s2' set_k_hl].
    rewrite c_proc_bal; [done | apply Hr2]. }
  eexists. split; [apply (user_ret_run p pr2 s2' e2 Hc3)|]. rewrite Htf2. unfold s2'. cbn [k_mem k_csr k_hl k_procs set_k_hl set_k_mem set_k_csr].
  cbn [hl_sstatus set_hl_sstatus]. set (x := hl_sstatus (bal _)). set (m := ret_frame _ _ _ _ _).
  split_and!.
  - unfold m. rewrite ret_frame_keep by (unfold TF_a; (left; lia) || done). apply load64_store64.
  - intros k H40 Hka H8. unfold m. rewrite ret_frame_keep by auto. apply load64_store64_ne. unfold TF_a in *. zmod.
  - cbn [cs_sepc set_cs_sepc]. unfold m. rewrite ret_frame_keep by (auto || done). apply load64_store64_ne. unfold TF_a, TF_epc. lia.
  - done.
  - unfold m, ret_frame. unfold TF_kernel_satp, TF_kernel_sp, TF_kernel_trap, TF_kernel_hartid. rewrite !load64_store64_ne by lia. apply load64_store64.
  - unfold m, ret_frame. unfold TF_kernel_satp, TF_kernel_sp, TF_kernel_trap, TF_kernel_hartid. rewrite !load64_store64_ne by lia.
    rewrite load64_store64. zmod.
  - unfold m, ret_frame. unfold TF_kernel_trap, TF_kernel_hartid. rewrite load64_store64_ne by lia. apply load64_store64.
  - unfold m, ret_frame. apply load64_store64.
  - unfold intr_get, intr_off. rewrite Z.land_lor_distr_l. change (Z.land SSTATUS_SPIE SSTATUS_SIE) with 0.
    rewrite Z.lor_0_r, (Z.land_comm (Z.land x _)), <- !Z.land_assoc. change (Z.land (not32 SSTATUS_SIE) SSTATUS_SIE) with 0. by rewrite !Z.land_0_r.
  - rewrite Z.land_lor_distr_l. change (Z.land SSTATUS_SPIE SSTATUS_SPP) with 0.
    rewrite Z.lor_0_r, <- Z.land_assoc. change (Z.land (not32 SSTATUS_SPP) SSTATUS_SPP) with 0. apply Z.land_0_r.
  - done.
Qed.

(** Process 0, whose identifier is 7, calls [getpid] at address 0x1000. *)
Definition asker : process := set_p_pid 7 proc0.
Definition asking : kernel :=
  set_k_csr (Mk_csr 0 0x1000 SCAUSE_ECALL 0 0 0 0) (set_k_procs (<[0%nat := asker]> (k_procs boot0)) (calling 10)).

Lemma ecall_returns_witness : exists pc s3,
  user_trap (DD := polled_disk) (LY := layout0) asking [] = Ret pc s3 [] /\
  load64 (k_mem s3) (p_trapframe asker + TF_a 0) = 7 /\ cs_sepc (k_csr s3) = 0x1004.
Proof.
  assert (sys_caller 0 asker asking) as Hc by (split; [apply hl_run_ready; lia | reflexivity | reflexivity]).
  assert (load64 (k_mem asking) (p_trapframe asker + TF_a 7) = 10) as H7 by exact (load64_store64 _ _ 10).
  pose proof (ecall_entry_caller (LY := layout0) 0 asker (p_trapframe asker) asking Hc) as Hc1.
  destruct (ecall_returns (DD := polled_disk) (LY := layout0) 0 asker sys_getpid 7 asking []
              (ecall_entry (LY := layout0) (p_trapframe asker) asking) [] asker) as [(H1 & _) (s3 & H2 & H3 & _ & H4 & _)].
  - exact Hc.
  - vm_compute. reflexivity.
  - reflexivity.
  - reflexivity.
  - vm_compute. reflexivity.
  - rewrite H7. discriminate.
  - rewrite H7. reflexivity.
  - unfold sys_getpid. kstep (my_proc_run 0 asker _ Hc1). reflexivity.
  - exact Hc1.
  - reflexivity.
  - reflexivity.
  - vm_compute. reflexivity.
  - eexists _, s3. split; [exact H2|]. split; [rewrite H3; reflexivity|]. rewrite H4, H1. reflexivity.
Defined.

(** ** Timer interrupts *)

(** The clock after a tick on the executing hart. *)
Definition ticked (s : kernel) : kernel :=
  if (hl_tp (k_hl s) =? 0)%nat
  then set_k_hl (bal (k_hl s)) (set_k_procs (wake_procs (me_of s) CTicks (k_procs s)) (set_k_ticks (u32 (k_ticks s + 1)) s))
  else s.

Lemma clockintr_run s e :
  room 2 (k_hl s) -> free L_ticks (k_hl s) -> procs_free (me_of s) (k_hl s) -> length (k_procs s) = NPROC ->
  clockintr s e = Ret tt (set_k_csr (set_cs_stimecmp (u64 (cs_time (k_csr s) + 1000000)) (k_csr s)) (ticked s)) e.
Proof.
  intros Hr Hf Hpf Hlen. assert (room 1 (k_hl s)) as Hr1 by (apply (room_weaken 2); [done|lia]).
  unfold clockintr, cpuid, ticked. rewrite bind_gets. destruct (hl_tp (k_hl s) =? 0)%nat eqn:E; cbn [when].
  - rewrite !bind_assoc. kstep acquire_run; [done | done |]. rewrite bind_assoc, bind_modify, bind_assoc.
    set (s1 := set_k_ticks _ _).
    assert (me_of s1 = me_of s) as Hme by (unfold me_of, s1; cbn [k_hl set_k_ticks set_k_hl]; by rewrite c_proc_acq by apply Hr).
    kstep wakeup_run.
    + exact (room_acq 2 _ _ Hr).
    + exact (nested_acq _ _ 2 Hr).
    + rewrite Hme. by apply procs_free_acq.
    + exact Hlen.
    + rewrite Hme. kstep (release_acq_run L_ticks (k_hl s)); [done | done | done |]. done.
  - rewrite bind_ret. done.
Qed.

(** A timer interrupt in the kernel with no current process advances the tick count
    on hart 0 modulo 2^32 and wakes exactly the processes asleep on it, sets the next
    timer, and leaves sepc, sstatus, the locks and the nesting count as they were. *)
Theorem timer_tick s e :
  room 2 (k_hl s) -> free L_ticks (k_hl s) -> procs_free None (k_hl s) -> length (k_procs s) = NPROC ->
  me_of s = None -> intr_get (hl_sstatus (k_hl s)) = 0 -> Z.land (hl_sstatus (k_hl s)) SSTATUS_SPP <> 0 ->
  cs_scause (k_csr s) = SCAUSE_TIMER ->
  exists s', kerneltrap s e = Ret tt s' e /\
    k_ticks s' = (if (hl_tp (k_hl s) =? 0)%nat then u32 (k_ticks s + 1) else k_ticks s) /\
    (forall i pr, k_procs s !! i = Some pr ->
       k_procs s' !! i = Some (if (hl_tp (k_hl s) =? 0)%nat then wake CTicks pr else pr)) /\
    cs_stimecmp (k_csr s') = u64 (cs_time (k_csr s) + 1000000) /\
    cs_sepc (k_csr s') = cs_sepc (k_csr s) /\ hl_sstatus (k_hl s') = hl_sstatus (k_hl s) /\
    hl_locks (k_hl s') = hl_locks (k_hl s) /\ noff (cur (k_hl s')) = noff (cur (k_hl s)) /\
    k_mem s' = k_mem s /\ k_disk s' = k_disk s.
Proof.
  intros Hr Hf Hpf Hlen Hme Hi Hspp Hcause. unfold kerneltrap, hart_intr_get, r_sepc, r_sstatus, r_scause. rewrite bind_gets, Hi. cbn [Z.eqb negb].
  rewrite !bind_gets, (proj2 (Z.eqb_neq _ _) Hspp).
  set (s1 := set_k_csr (set_cs_stimecmp (u64 (cs_time (k_csr s) + 1000000)) (k_csr s)) (ticked s)).
  assert (devintr s e = Ret 2 s1 e) as Hd.
  { unfold devintr, r_scause. rewrite bind_gets, Hcause. cbn [Z.eqb SCAUSE_TIMER SCAUSE_EXTERNAL Pos.eqb].
    kstep clockintr_run; [done | done | by rewrite Hme | done |]. done. }
  assert (room 2 (k_hl s1) /\ c_proc (cur (k_hl s1)) = None /\ hl_locks (k_hl s1) = hl_locks (k_hl s) /\ noff (cur (k_hl s1)) = noff (cur (k_hl s)))
    as (Hr1 & Hm1 & Hl1 & Hn1).
  { unfold me_of in Hme. unfold s1, ticked. destruct (hl_tp (k_hl s) =? 0)%nat; cbn [k_hl set_k_csr set_k_hl]; [|done].
    split; [by apply room_bal|]. rewrite cur_bal by apply Hr. done. }
  eexists. split.
  { kstep Hd. cbn [Z.eqb Pos.eqb]. kstep (curr_proc_run s1 e 2 Hr1). unfold me_of. rewrite Hm1, bool_decide_false by (by intros []).
    cbn [andb when]. rewrite bind_ret. unfold w_sepc, w_sstatus, on_csr, on_hl. rewrite bind_modify. reflexivity. }
  unfold modify. cbn [k_ticks k_procs k_csr k_hl k_mem k_disk set_k_hl set_k_csr cs_stimecmp cs_sepc set_cs_sepc hl_sstatus hl_locks set_hl_sstatus].
  unfold s1, ticked in *. rewrite Hme in *. destruct (hl_tp (k_hl s) =? 0)%nat; cbn in Hl1, Hn1 |- *; split_and!; try done.
  intros i pr Hp. rewrite lookup_wake_procs, Hp. done.
Qed.

(** A tick while the hart is idle. *)
Definition idle_trap : kernel :=
  set_k_csr (Mk_csr 0 0x80000100 SCAUSE_TIMER 0 0 0 500) (set_k_hl (set_hl_sstatus SSTATUS_SPP (k_hl kernel0)) kernel0).

Lemma timer_tick_witness : exists s', kerneltrap idle_trap [] = Ret tt s' [] /\ k_ticks s' = 1 /\ cs_stimecmp (k_csr s') = 1000500.
Proof.
  destruct (timer_tick idle_trap []) as (s' & H1 & H2 & _ & H3 & _).
  - split; [by eexists | vm_compute; split; [discriminate | reflexivity]].
  - vm_compute. reflexivity.
  - intros i Hi _. revert i Hi. apply (all_free L_proc). vm_compute. reflexivity.
  - reflexivity.
  - reflexivity.
  - reflexivity.
  - discriminate.
  - reflexivity.
  - exists s'. split; [exact H1|]. rewrite H2, H3. split; reflexivity.
Defined.
