(* ===== verification/Mkfs.v ===== *)
(** * The image builder ([mkfs/mkfs.cpp])

    A host program that writes the initial file system.  Its state is the image,
    an array of sectors, and three global variables; a failed [assert] or I/O
    operation ends the program ([None]).  The structures it writes are those of
    [kernel/fs], so the specifications read the image with the kernel's own
    readers ([load_dinode], [sb_of], [bit_set], [file_bytes]). *)

From S2P Require Import Prelude State Riscv Cstring Lock Sched Kalloc UserCopy Bio Log Fs FsSpec.

Definition NINODES : Z := 200.
Definition FSSIZE : Z := 2000.
Definition nbitmap : Z := FSSIZE / BPB + 1.
Definition ninodeblocks : Z := NINODES / IPB + 1.
Definition nlog : Z := LOGSIZE.

(** [im_img n] is sector [n] of the [im_nsec] written so far. *)
Record image := Mk_image {
  im_img : Z -> list Z;
  im_nsec : Z;
  im_sb : superblock;
  im_freeinode : Z;
  im_freeblock : Z
}.

Definition set_img (f : Z -> list Z) (n : Z) (m : image) : image := Mk_image f n (im_sb m) (im_freeinode m) (im_freeblock m).
Definition set_freeinode (n : Z) (m : image) : image := Mk_image (im_img m) (im_nsec m) (im_sb m) n (im_freeblock m).
Definition set_freeblock (n : Z) (m : image) : image := Mk_image (im_img m) (im_nsec m) (im_sb m) (im_freeinode m) n.

(** Runs of the program: state passing; [None] is [exit(-1)] or a failed [assert]. *)
Definition MK (A : Type) : Type := image -> option (A * image).
Definition mret {A} (a : A) : MK A := fun m => Some (a, m).
Definition mbnd {A B} (x : MK A) (f : A -> MK B) : MK B := fun m => match x m with Some (a, m') => f a m' | None => None end.
Definition mget {A} (f : image -> A) : MK A := fun m => Some (f m, m).
Definition mmod (f : image -> image) : MK unit := fun m => Some (tt, f m).
Definition massert (b : bool) : MK unit := fun m => if b then Some (tt, m) else None.

Declare Scope mk_scope.
Delimit Scope mk_scope with mk.
Notation "x <~ a ;; b" := (mbnd a (fun x => b)) (at level 100, a at next level, b at level 200, right associativity) : mk_scope.
Notation "a ;~ b" := (mbnd a (fun _ => b)) (at level 100, b at level 200, right associativity) : mk_scope.
#[local] Open Scope mk_scope.

(** The bytes of [x], read back by the little-endian host. *)
Definition xshort (x : Z) : Z := le_val [u8 x; u8 (Z.shiftr x 8)].
Definition xint (x : Z) : Z := le_val [u8 x; u8 (Z.shiftr x 8); u8 (Z.shiftr x 16); u8 (Z.shiftr x 24)].

(** ** Sectors *)

(** The sector at offset [static_cast<int>(sec * BSIZE)]; a negative offset is an error of [seekp]. *)
Definition sect (sec : Z) : Z := s32 (u32 (sec * BSIZE)) / BSIZE.

Definition wsect (sec : Z) (buf : list Z) : MK unit :=
  massert (0 <=? sect sec) ;~
  mmod (fun m => set_img (fun n => if n =? sect sec then buf else im_img m n) (Z.max (im_nsec m) (sect sec + 1)) m).

(** Reading past the end of the image fails. *)
Definition rsect (sec : Z) : MK (list Z) :=
  massert (0 <=? sect sec) ;~
  n <~ mget im_nsec ;;
  massert (sect sec <? n) ;~
  mget (fun m => im_img m (sect sec)).

(** ** Inodes *)

(** [din{}]; the fields of [struct dinode] are those of [inode]. *)
Definition din0 : inode := inode0.

Definition inode_block (inum : Z) (sb : superblock) : Z := u32 (inum / IPB + sb_inodestart sb).

Definition winode (inum : Z) (din : inode) : MK unit :=
  sb <~ mget im_sb ;;
  buf <~ rsect (inode_block inum sb) ;;
  wsect (inode_block inum sb) (splice (dinode_off inum) (store_dinode 0 din (zeros DINODE)) buf).

Definition rinode (inum : Z) : MK inode :=
  sb <~ mget im_sb ;;
  buf <~ rsect (inode_block inum sb) ;;
  mret (load_dinode (dinode_off inum) buf din0).

(** [mask] is an [std::array] of three bytes. *)
Definition ialloc (root : bool) (type : Z) (mask : Z * Z * Z) : MK Z :=
  inum <~ mget im_freeinode ;;
  mmod (set_freeinode (u32 (inum + 1))) ;~
  let id := if root then xint 0 else xint 1000 in
  let '(mu, mg, mo) := mask in
  winode inum
    (set_i_mask_other mo (set_i_mask_group mg (set_i_mask_user mu (set_i_gid id (set_i_uid id
      (set_i_size (xint 0) (set_i_nlink (s16 (xshort 1)) (set_i_type (s16 (xshort type)) din0)))))))) ;~
  mret inum.

(** The bitmap of the first [used] blocks. *)
Fixpoint bitmap (i : nat) (buf : list Z) : list Z :=
  match i with
  | O => buf
  | S i' => let buf := bitmap i' buf in
      set_byte (Z.of_nat i' / 8) (Z.lor (byte_at (Z.of_nat i' / 8) buf) (Z.shiftl 1 (Z.of_nat i' mod 8))) buf
  end.

Definition balloc (used : Z) : MK unit :=
  massert (used <? BPB) ;~
  sb <~ mget im_sb ;;
  wsect (sb_bmapstart sb) (bitmap (Z.to_nat used) (zeros (Z.to_nat BSIZE))).

(** ** Appending to a file *)

(** [xint(freeblock++)]. *)
Definition next_block : MK Z :=
  b <~ mget im_freeblock ;; mmod (set_freeblock (u32 (b + 1))) ;~ mret (xint b).

(** The sector of block [fbn] of the file, allocated when there is none yet, and the inode. *)
Definition block_of (fbn : Z) (din : inode) : MK (Z * inode) :=
  if fbn <? NDIRECT then
    let a := nth (Z.to_nat fbn) (i_addrs din) 0 in
    if xint a =? 0 then
      b <~ next_block ;; mret (xint b, set_i_addrs (<[Z.to_nat fbn := b]> (i_addrs din)) din)
    else mret (xint a, din)
  else
    let a := nth (Z.to_nat NDIRECT) (i_addrs din) 0 in
    din <~ (if xint a =? 0 then b <~ next_block ;; mret (set_i_addrs (<[Z.to_nat NDIRECT := b]> (i_addrs din)) din) else mret din) ;;
    let a := xint (nth (Z.to_nat NDIRECT) (i_addrs din) 0) in
    indirect <~ rsect a ;;
    let k := (4 * Z.to_nat (fbn - NDIRECT))%nat in
    indirect <~ (if fld 4 k indirect =? 0 then
                   b <~ next_block ;; let indirect := put 4 k b indirect in wsect a indirect ;~ mret indirect
                 else mret indirect) ;;
    mret (xint (fld 4 k indirect), din).

(** The loop of [iappend]: the bytes left to write, the offset and the inode. *)
Fixpoint iappend_loop (fuel : nat) (p : list Z) (off : Z) (din : inode) : MK (Z * inode) :=
  match fuel with
  | O => fun _ => None
  | S f =>
      if (0 <? Z.of_nat (length p)) then
        let fbn := off / BSIZE in
        massert (fbn <? MAXFILE) ;~
        r <~ block_of fbn din ;;
        let n1 := Z.min (u32 (Z.of_nat (length p))) (u32 ((fbn + 1) * BSIZE - off)) in
        buf <~ rsect (fst r) ;;
        wsect (fst r) (splice (Z.to_nat (off - fbn * BSIZE)) (take (Z.to_nat n1) p) buf) ;~
        iappend_loop f (drop (Z.to_nat n1) p) (u32 (off + n1)) (snd r)
      else mret (off, din)
  end.

Definition iappend (inum : Z) (xp : list Z) : MK unit :=
  din <~ rinode inum ;;
  r <~ iappend_loop (S (length xp)) xp (xint (i_size din)) din ;;
  winode inum (set_i_size (xint (fst r)) (snd r)).

(** ** The image *)

(** [struct dirent] with its padding; [strncpy] pads the name with NULs. *)
Definition dirent_bytes (inum id mu mg mo : Z) (name : list Z) : list Z :=
  le_bytes 2 (xshort inum) ++ [0; 0] ++ le_bytes 4 (xint id) ++ le_bytes 4 (xint id) ++ [mu; mg; mo] ++
  take 14 (name ++ zeros 14) ++ [0; 0; 0].

(** "init", and "bin", "home" and "tmp". *)
Definition name_init : list Z := [105; 110; 105; 116].
Definition root_dir_name : list (list Z) := [[98; 105; 110]; [104; 111; 109; 101]; [116; 109; 112]].

Section build.
(** The contents of the host's files. *)
Context (host : list Z -> list Z).

(** Appends the file in pieces of [BSIZE] bytes. *)
Fixpoint append_pieces (fuel : nat) (inum : Z) (c : list Z) : MK unit :=
  match fuel with
  | O => fun _ => None
  | S f =>
      if (length c =? 0)%nat then mret tt
      else iappend inum (take (Z.to_nat BSIZE) c) ;~ append_pieces f inum (drop (Z.to_nat BSIZE) c)
  end.

(** "build/utils/" has 12 characters. *)
Definition file_apped (bin_name : list Z) (ino : Z) : MK unit :=
  massert ((ino =? 1) || (12 <=? Z.of_nat (length bin_name))) ;~
  let shortname := if negb (ino =? 1) then drop 12 bin_name else bin_name in
  massert (forallb (fun c => negb (c =? 47)) shortname) ;~
  massert (Z.of_nat (length shortname) <=? DIRSIZ) ;~
  inum <~ ialloc (bool_decide (shortname = name_init)) 2 (7, 5, 0) ;;
  iappend ino (dirent_bytes inum 1000 7 5 0 shortname) ;~
  append_pieces (S (length (host bin_name))) inum (host bin_name).

Fixpoint for_each {A} (f : A -> MK unit) (l : list A) : MK unit :=
  match l with [] => mret tt | x :: l' => f x ;~ for_each f l' end.

Fixpoint map_each {A B} (f : A -> MK B) (l : list A) : MK (list B) :=
  match l with [] => mret [] | x :: l' => y <~ f x ;; r <~ map_each f l' ;; mret (y :: r) end.

(** A directory of the root; its number. *)
Definition add_dir (rootino : Z) (name : list Z) : MK Z :=
  id <~ ialloc true T_DIR (7, 7, 7) ;;
  iappend rootino (dirent_bytes id 0 7 7 5 name) ;~
  mret id.

(** The sizes of the parts of the image. *)
Definition nmeta : Z := 2 + nlog + ninodeblocks + nbitmap.

Definition mkfs_sb : superblock :=
  {| sb_magic := FSMAGIC; sb_size := xint FSSIZE; sb_nblocks := xint (FSSIZE - nmeta); sb_ninodes := xint NINODES; sb_nlog := xint nlog;
     sb_logstart := xint 2; sb_inodestart := xint (2 + nlog); sb_bmapstart := xint (2 + nlog + ninodeblocks) |}.

Definition sb_bytes (sb : superblock) : list Z :=
  concat (map (le_bytes 4) [sb_magic sb; sb_size sb; sb_nblocks sb; sb_ninodes sb; sb_nlog sb; sb_logstart sb; sb_inodestart sb; sb_bmapstart sb]).

Definition image0 : image := Mk_image (fun _ => []) 0 mkfs_sb 1 nmeta.

(** Lines 111 to 203, with the file names of the command line. *)
Definition build (txt_vec bin_vec : list (list Z)) : MK unit :=
  massert (negb (length bin_vec =? 0)%nat) ;~
  for_each (fun i => wsect (Z.of_nat i) (zeros (Z.to_nat BSIZE))) (seq 0 (Z.to_nat FSSIZE)) ;~
  wsect 1 (splice 0 (sb_bytes mkfs_sb) (zeros (Z.to_nat BSIZE))) ;~
  rootino <~ ialloc true T_DIR (7, 7, 7) ;;
  massert (rootino =? 1) ;~
  iappend rootino (dirent_bytes rootino 0 7 7 5 [46]) ;~
  iappend rootino (dirent_bytes rootino 0 7 7 5 [46; 46]) ;~
  root_dir_id <~ map_each (add_dir rootino) root_dir_name ;;
  let bin_id := nth 0 root_dir_id 0 in
  for_each (fun str => file_apped str 1) txt_vec ;~
  for_each (fun str => file_apped str bin_id) bin_vec ;~
  din <~ rinode rootino ;;
  let off := xint (i_size din) in
  let off := u32 ((off / BSIZE + 1) * BSIZE) in
  winode rootino (set_i_size (xint off) din) ;~
  used <~ mget im_freeblock ;;
  balloc (s32 used).

(** "--txt" and "--bin" select the list the following names go to. *)
Definition opt_txt : list Z := [45; 45; 116; 120; 116].
Definition opt_bin : list Z := [45; 45; 98; 105; 110].

Fixpoint parse_args (l : list (list Z)) (fetch_txt fetch_bin : bool) (txt_vec bin_vec : list (list Z)) : list (list Z) * list (list Z) :=
  match l with
  | [] => (txt_vec, bin_vec)
  | a :: l' =>
      if bool_decide (a = opt_txt) then parse_args l' true false txt_vec bin_vec
      else if bool_decide (a = opt_bin) then parse_args l' false true txt_vec bin_vec
      else if fetch_txt then parse_args l' fetch_txt fetch_bin (txt_vec ++ [a]) bin_vec
      else if fetch_bin then parse_args l' fetch_txt fetch_bin txt_vec (bin_vec ++ [a])
      else parse_args l' fetch_txt fetch_bin txt_vec bin_vec
  end.

(** [argv] with the program's name; the result of [main] and the image. *)
Definition main (argv : list (list Z)) : option (Z * image) :=
  if (length argv <? 3)%nat then Some (-1, image0)
  else
    let '(txt_vec, bin_vec) := parse_args (tail argv) false false [] [] in
    match build txt_vec bin_vec image0 with Some (_, m) => Some (0, m) | None => None end.
End build.
