(* ===== verification/MkfsSpec.v ===== *)
(** * Properties of the image builder

    A file [iappend] has written, up to its twelve direct blocks, is the file the
    kernel reads: [file_bytes] on the sectors of the image.  The bitmap marks
    exactly the blocks in use. *)

From S2P Require Import Prelude State Riscv Cstring Lock Sched Kalloc UserCopy Bio Log Fs FsSpec Mkfs.

#[local] Open Scope mk_scope.

(** ** Numbers *)

Lemma xint_small x : 0 <= x < 2 ^ 32 -> xint x = x.
Proof. intros H. unfold xint, u8. rewrite !Z.shiftr_div_pow2 by lia. cbn [le_val]. zmod. Qed.

Lemma xint_range x : 0 <= xint x < 2 ^ 32.
Proof. unfold xint, u8. rewrite !Z.shiftr_div_pow2 by lia. cbn [le_val]. zmod. Qed.

Lemma sect_small n : 0 <= n < 2 ^ 21 -> sect n = n.
Proof.
  intros H. unfold sect, s32, BSIZE. assert (u32 (u32 (n * 1024)) = n * 1024) as -> by zmod.
  destruct (Z.ltb_spec (n * 1024) (2 ^ 31)); zmod.
Qed.

Lemma nth_zeros i n : nth i (zeros n) 0 = 0.
Proof. unfold zeros. revert i. induction n as [|n IH]; intros [|i]; cbn; done || apply IH. Qed.

(** ** The bitmap *)

Lemma bit_set_testbit b i : 0 <= i -> bit_set b i = Z.testbit b (i mod 8).
Proof.
  intros Hi. unfold bit_set. rewrite Z.shiftl_1_l. assert (0 <= i mod 8) as H by (apply Z.mod_pos_bound; lia). set (k := i mod 8) in *.
  destruct (Z.testbit b k) eqn:E.
  - destruct (Z.eqb_spec (Z.land b (2 ^ k)) 0) as [H0|]; [|done]. apply (f_equal (fun z => Z.testbit z k)) in H0.
    by rewrite Z.land_spec, E, Z.pow2_bits_true, Z.bits_0 in H0.
  - assert (Z.land b (2 ^ k) = 0) as ->; [|done]. apply Z.bits_inj'. intros j Hj. rewrite Z.land_spec, Z.bits_0.
    destruct (decide (j = k)) as [->|]; [by rewrite E|]. rewrite Z.pow2_bits_false by lia. apply andb_false_r.
Qed.

Lemma length_bitmap n buf : length (bitmap n buf) = length buf.
Proof. induction n as [|n IH]; cbn [bitmap]; [done|]. unfold set_byte. by rewrite length_insert. Qed.

Lemma bitmap_bits n : Z.of_nat n <= 8192 -> forall i, 0 <= i < 8192 ->
  bit_set (byte_at (i / 8) (bitmap n (zeros 1024))) i = (i <? Z.of_nat n).
Proof.
  induction n as [|n IH]; intros Hn i Hi.
  - cbn [bitmap]. rewrite bit_set_testbit by lia. unfold byte_at. rewrite nth_zeros, Z.bits_0. destruct (Z.ltb_spec i (Z.of_nat 0)); lia || done.
  - cbn [bitmap]. set (B := bitmap n (zeros 1024)) in *. assert (length B = 1024%nat) as HB by (unfold B; by rewrite length_bitmap).
    assert (0 <= Z.of_nat n / 8 < 1024) as Hlt by zmod.
    rewrite bit_set_testbit by lia. specialize (IH ltac:(lia) i Hi). rewrite bit_set_testbit in IH by lia. unfold byte_at, set_byte in *.
    destruct (decide (i / 8 = Z.of_nat n / 8)) as [E|E].
    + rewrite E in *. rewrite (nth_lookup (<[_:=_]> B)), list_lookup_insert_eq by lia. cbn [from_option id]. unfold id. rewrite Z.lor_spec, IH, Z.shiftl_1_l.
      rewrite Z.pow2_bits_eqb by zmod. destruct (Z.ltb_spec i (Z.of_nat n)), (Z.ltb_spec i (Z.of_nat (S n))), (Z.eqb_spec (Z.of_nat n mod 8) (i mod 8)); cbn; try done; zmod.
    + rewrite !nth_lookup, list_lookup_insert_ne, <- !nth_lookup by zmod. rewrite IH.
      destruct (Z.ltb_spec i (Z.of_nat n)), (Z.ltb_spec i (Z.of_nat (S n))); try done; zmod.
Qed.

(** ** Pieces of a block *)

Lemma fld_splice_in n k o l d : (o + length l <= length d)%nat -> (k + n <= length l)%nat -> fld n (o + k) (splice o l d) = fld n k l.
Proof.
  intros H Hk. unfold fld, splice. rewrite <- drop_drop, drop_app_length' by (rewrite length_take; lia).
  rewrite drop_app_le by lia. rewrite take_app_le by (rewrite length_drop; lia). done.
Qed.

Lemma fld_splice_out n k o l d : (o + length l <= length d)%nat -> (k + n <= o \/ o + length l <= k)%nat -> fld n k (splice o l d) = fld n k d.
Proof.
  intros H Hk. unfold fld. f_equal. apply list_eq. intros j. destruct (decide (j < n)%nat) as [Hj|]; [|by rewrite !lookup_take_ge by lia].
  rewrite !lookup_take_lt, !lookup_drop by lia. unfold splice. destruct Hk.
  - rewrite lookup_app_l by (rewrite length_take; lia). by rewrite lookup_take_lt by lia.
  - rewrite lookup_app_r by (rewrite length_take; lia). rewrite lookup_app_r by (rewrite length_take; lia).
    rewrite lookup_drop, length_take. f_equal. lia.
Qed.

(** An inode is a function of the fields at its place. *)
Lemma load_dinode_ext o o' d d' jp : (forall n k, (k + n <= DINODE)%nat -> fld n (o + k) d = fld n (o' + k) d') ->
  load_dinode o d jp = load_dinode o' d' jp.
Proof.
  intros H. unfold DINODE in H. assert (forall n, (n <= 128)%nat -> fld n o d = fld n o' d') as H0.
  { intros n Hn. rewrite <- (Nat.add_0_r o), <- (Nat.add_0_r o'). apply H. lia. }
  unfold load_dinode. rewrite !H by lia. rewrite H0 by lia. f_equal. unfold addrs_of. apply map_ext_in. intros k Hk%in_seq.
  rewrite <- !Nat.add_assoc. apply H. lia.
Qed.

(** ** Sectors *)

(** The geometry of the image is that of its superblock, and the blocks in use are
    those below [im_freeblock]. *)
Record img_ok (m : image) : Prop := {
  io_sb : im_sb m = mkfs_sb;
  io_nsec : im_nsec m = FSSIZE;
  io_len : forall n, 0 <= n < FSSIZE -> length (im_img m n) = Z.to_nat BSIZE;
  io_free : nmeta <= im_freeblock m <= FSSIZE;
  io_zero : forall n, im_freeblock m <= n < FSSIZE -> im_img m n = zeros 1024
}.

Definition upd_sect (n : Z) (buf : list Z) (m : image) : image := set_img (fun k => if k =? n then buf else im_img m k) FSSIZE m.

Lemma rsect_run n m : img_ok m -> 0 <= n < FSSIZE -> rsect n m = Some (im_img m n, m).
Proof.
  intros H Hn. unfold FSSIZE in Hn. unfold rsect, mbnd, massert, mget. rewrite sect_small by lia. rewrite (proj2 (Z.leb_le 0 n)) by lia.
  rewrite (io_nsec _ H). by rewrite (proj2 (Z.ltb_lt n FSSIZE)) by (unfold FSSIZE; lia).
Qed.

Lemma wsect_run n buf m : img_ok m -> 0 <= n < FSSIZE -> wsect n buf m = Some (tt, upd_sect n buf m).
Proof.
  intros H Hn. unfold FSSIZE in Hn. unfold wsect, mbnd, massert, mmod. rewrite sect_small by lia. rewrite (proj2 (Z.leb_le 0 n)) by lia.
  rewrite (io_nsec _ H). rewrite Z.max_l by (unfold FSSIZE; lia). done.
Qed.

Lemma upd_sect_ok n buf m : img_ok m -> n < im_freeblock m -> length buf = Z.to_nat BSIZE -> img_ok (upd_sect n buf m).
Proof.
  intros [H1 H2 H3 H4 H5] Hn Hb. split; [done | done | | done |].
  - intros k Hk. cbn. destruct (Z.eqb_spec k n); [done | by apply H3].
  - intros k Hk. cbn in *. destruct (Z.eqb_spec k n); [lia | by apply H5].
Qed.

Lemma set_freeblock_ok fb m : img_ok m -> im_freeblock m <= fb <= FSSIZE -> img_ok (set_freeblock fb m).
Proof. intros [H1 H2 H3 H4 H5] Hb. split; try done; cbn; [lia|]. intros n Hn. apply H5. lia. Qed.

(** Runs a step of the program whose result is known. *)
Lemma mbnd_run {A B} (x : MK A) (f : A -> MK B) a m m' : x m = Some (a, m') -> mbnd x f m = f a m'.
Proof. intros H. unfold mbnd. by rewrite H. Qed.

(** ** The blocks of a file *)

Definition addr (din : inode) (k : Z) : Z := nth (Z.to_nat k) (i_addrs din) 0.

(** The blocks a file of [n] bytes has. *)
Definition nblk (n : Z) : Z := (n + 1023) / 1024.

(** The file has the direct blocks its [off] bytes need, all different and in use. *)
Record din_ok (fb : Z) (din : inode) (off : Z) : Prop := {
  do_len : length (i_addrs din) = 13%nat;
  do_off : 0 <= off <= 12 * 1024;
  do_used : forall k, 0 <= k < 12 -> k * 1024 < off -> nmeta <= addr din k < fb;
  do_rest : forall k, 0 <= k < 12 -> off <= k * 1024 -> addr din k = 0;
  do_inj : forall j k, 0 <= j < 12 -> 0 <= k < 12 -> addr din j = addr din k -> addr din j <> 0 -> j = k
}.

(** The last block of the file is zero after its [off] bytes. *)
Definition tail_zero (V : Z -> list Z) (din : inode) (off : Z) : Prop := forall k, off <= k < nblk off * 1024 -> file_byte V din k = 0.

Definition owns (din : inode) (n : Z) : Prop := exists k, 0 <= k < 12 /\ addr din k = n /\ n <> 0.

Lemma nmeta_pos : nmeta = 59.
Proof. reflexivity. Qed.

Lemma addr_insert din k b j : length (i_addrs din) = 13%nat -> 0 <= k < 12 -> 0 <= j ->
  addr (set_i_addrs (<[Z.to_nat k := b]> (i_addrs din)) din) j = if decide (j = k) then b else addr din j.
Proof.
  intros Hl Hk Hj. unfold addr. cbn [i_addrs set_i_addrs]. rewrite !nth_lookup. case_decide as E.
  - subst. by rewrite list_lookup_insert_eq by lia.
  - by rewrite list_lookup_insert_ne by lia.
Qed.

Lemma owns_range fb din off n : din_ok fb din off -> owns din n -> nmeta <= n < fb.
Proof.
  intros H (k & Hk & <- & Hn). destruct (Z.le_gt_cases off (k * 1024)); [by rewrite (do_rest _ _ _ H k) in Hn|].
  apply (do_used _ _ _ H); lia.
Qed.

(** The block of offset [off], allocated when [off] is the end of the last one. *)
Lemma block_of_run m din off : img_ok m -> din_ok (im_freeblock m) din off -> off < 12 * 1024 ->
  im_freeblock m + (nblk (off + 1) - nblk off) <= FSSIZE ->
  exists a l m1, block_of (off / 1024) din m = Some ((a, set_i_addrs l din), m1) /\
    m1 = set_freeblock (im_freeblock m + (nblk (off + 1) - nblk off)) m /\ length l = 13%nat /\ (Forall in32 (i_addrs din) -> Forall in32 l) /\
    (forall j, 0 <= j < 12 -> addr (set_i_addrs l din) j = if decide (j = off / 1024) then a else addr din j) /\
    nmeta <= a < im_freeblock m1 /\ (forall j, 0 <= j < 12 -> addr din j = a -> j = off / 1024) /\
    (off mod 1024 <> 0 -> addr din (off / 1024) = a) /\ (owns din a \/ im_freeblock m <= a).
Proof.
  intros Hm Hd Ho Hf. set (k := off / 1024). pose proof (do_off _ _ _ Hd) as Hr. assert (0 <= k < 12) as Hk by (unfold k; zmod).
  pose proof (io_free _ Hm) as Hfb. unfold FSSIZE in *. rewrite nmeta_pos in *.
  unfold block_of. rewrite (proj2 (Z.ltb_lt k NDIRECT)) by (unfold NDIRECT; lia). fold (addr din k).
  destruct (Z.eq_dec (off mod 1024) 0) as [E|E].
  - assert (nblk (off + 1) - nblk off = 1) as Hn by (unfold nblk; zmod). rewrite Hn in *.
    rewrite (do_rest _ _ _ Hd k Hk) by (unfold k; zmod). cbn [xint Z.eqb]. rewrite xint_small by lia. cbn [Z.eqb].
    unfold next_block, mbnd, mget, mmod, mret. set (b := im_freeblock m) in *. rewrite !(xint_small b) by lia. rewrite u32_small by lia.
    exists b, (<[Z.to_nat k := b]> (i_addrs din)), (set_freeblock (b + 1) m). split_and!; try done.
    + by rewrite length_insert, (do_len _ _ _ Hd).
    + intros Hf32. apply Forall_insert; [done|]. unfold in32. lia.
    + intros j Hj. apply addr_insert; [apply (do_len _ _ _ Hd) | done | lia].
    + cbn. lia.
    + cbn. lia.
    + intros j Hj Ej. destruct (Z.le_gt_cases off (j * 1024)) as [Hle|Hlt].
      * rewrite (do_rest _ _ _ Hd j Hj Hle) in Ej. lia.
      * pose proof (do_used _ _ _ Hd j Hj ltac:(lia)). lia.
    + right. unfold b. lia.
  - assert (nblk (off + 1) - nblk off = 0) as Hn by (unfold nblk; zmod). rewrite Hn, Z.add_0_r in *.
    pose proof (do_used _ _ _ Hd k Hk ltac:(unfold k; zmod)) as Ha. rewrite nmeta_pos in Ha. rewrite xint_small by lia.
    rewrite (proj2 (Z.eqb_neq (addr din k) 0)) by lia. exists (addr din k), (i_addrs din), m. split_and!; try done.
    + unfold mret. by destruct din.
    + by destruct m.
    + apply (do_len _ _ _ Hd).
    + intros j Hj. case_decide; subst; unfold addr; done.
    + lia.
    + lia.
    + intros j Hj Ej. apply (do_inj _ _ _ Hd); try done. lia.
    + left. exists k. split; [done|]. split; [done | lia].
Qed.

(** ** Appending *)

(** What [iappend] does to the image and the inode, [p] appended at [off]. *)
Record appended (m : image) (din : inode) (off : Z) (p : list Z) (m' : image) (din' : inode) : Prop := {
  ap_img : img_ok m';
  ap_din : din_ok (im_freeblock m') din' (off + Z.of_nat (length p));
  ap_same : din' = set_i_addrs (i_addrs din') din;
  ap_in32 : Forall in32 (i_addrs din) -> Forall in32 (i_addrs din');
  ap_inodes : im_freeinode m' = im_freeinode m;
  ap_free : im_freeblock m' = im_freeblock m + (nblk (off + Z.of_nat (length p)) - nblk off);
  ap_frame : forall n, n < im_freeblock m -> ~ owns din n -> im_img m' n = im_img m n;
  ap_owns : forall n, owns din' n -> owns din n \/ im_freeblock m <= n;
  ap_tail : tail_zero (im_img m) din off -> tail_zero (im_img m') din' (off + Z.of_nat (length p));
  ap_bytes : file_bytes (im_img m') din' 0 (off + Z.of_nat (length p)) = file_bytes (im_img m) din 0 off ++ p
}.

Lemma appended_nil m din off : img_ok m -> din_ok (im_freeblock m) din off -> appended m din off [] m din.
Proof.
  intros Hm Hd. split; cbn [length]; rewrite ?Z.add_0_r; try done.
  - by destruct din.
  - lia.
  - by left.
  - by rewrite app_nil_r.
Qed.

Lemma appended_app m din off p m1 din1 q m2 din2 :
  appended m din off p m1 din1 -> appended m1 din1 (off + Z.of_nat (length p)) q m2 din2 -> appended m din off (p ++ q) m2 din2.
Proof.
  intros A B. assert (off + Z.of_nat (length (p ++ q)) = off + Z.of_nat (length p) + Z.of_nat (length q)) as E by (rewrite length_app; lia).
  assert (im_freeblock m <= im_freeblock m1) as Hle.
  { rewrite (ap_free _ _ _ _ _ _ A). unfold nblk. zmod. }
  split; rewrite ?E.
  - apply (ap_img _ _ _ _ _ _ B).
  - apply (ap_din _ _ _ _ _ _ B).
  - rewrite (ap_same _ _ _ _ _ _ B) at 1. rewrite (ap_same _ _ _ _ _ _ A) at 1. by destruct din.
  - intros F. by apply (ap_in32 _ _ _ _ _ _ B), (ap_in32 _ _ _ _ _ _ A).
  - by rewrite (ap_inodes _ _ _ _ _ _ B), (ap_inodes _ _ _ _ _ _ A).
  - rewrite (ap_free _ _ _ _ _ _ B), (ap_free _ _ _ _ _ _ A). lia.
  - intros n Hn Ho. rewrite (ap_frame _ _ _ _ _ _ B), (ap_frame _ _ _ _ _ _ A); [done | done | done | lia |].
    intros [?|?]%(ap_owns _ _ _ _ _ _ A); [done | lia].
  - intros n [Ho|Ho]%(ap_owns _ _ _ _ _ _ B); [by apply (ap_owns _ _ _ _ _ _ A) | right; lia].
  - intros T. by apply (ap_tail _ _ _ _ _ _ B), (ap_tail _ _ _ _ _ _ A).
  - by rewrite (ap_bytes _ _ _ _ _ _ B), (ap_bytes _ _ _ _ _ _ A), <- app_assoc.
Qed.

Lemma file_bytes_snoc V V' d d' off (c : list Z) : 0 <= off ->
  (forall k, 0 <= k < off -> file_byte V' d' k = file_byte V d k) ->
  (forall j, (j < length c)%nat -> file_byte V' d' (off + Z.of_nat j) = nth j c 0) ->
  file_bytes V' d' 0 (off + Z.of_nat (length c)) = file_bytes V d 0 off ++ c.
Proof.
  intros Ho H1 H2. rewrite (file_bytes_split _ _ _ off) by lia. f_equal.
  - unfold file_bytes. apply map_ext_in. intros j Hj%in_seq. apply H1. lia.
  - unfold file_bytes. apply list_eq. intros j. rewrite list_lookup_fmap. destruct (decide (j < length c)%nat) as [Hj|Hj].
    + rewrite lookup_seq_lt by lia. cbn [fmap option_fmap option_map Nat.add]. rewrite Z.add_0_l, H2 by done.
      destruct (lookup_lt_is_Some_2 c j Hj) as [x Hx]. by rewrite Hx, (nth_lookup_Some _ _ 0 x Hx).
    + rewrite lookup_seq_ge by lia. cbn. symmetry. apply lookup_ge_None_2. lia.
Qed.

(** One piece of the file, within one block. *)
Lemma append_piece m din off c a l m1 : let k := off / 1024 in
  img_ok m -> din_ok (im_freeblock m) din off -> (0 < length c)%nat -> Z.of_nat (length c) <= 1024 - off mod 1024 -> off < 12 * 1024 ->
  im_freeblock m + (nblk (off + 1) - nblk off) <= FSSIZE ->
  m1 = set_freeblock (im_freeblock m + (nblk (off + 1) - nblk off)) m -> length l = 13%nat -> (Forall in32 (i_addrs din) -> Forall in32 l) ->
  (forall j, 0 <= j < 12 -> addr (set_i_addrs l din) j = if decide (j = k) then a else addr din j) ->
  nmeta <= a < im_freeblock m1 -> (forall j, 0 <= j < 12 -> addr din j = a -> j = k) ->
  (off mod 1024 <> 0 -> addr din k = a) -> (owns din a \/ im_freeblock m <= a) ->
  appended m din off c (upd_sect a (splice (Z.to_nat (off mod 1024)) c (im_img m a)) m1) (set_i_addrs l din).
Proof.
  intros k Hm Hd Hc0 Hc Ho Hf Em1 Hl Hl32 Ha Hr Hother Hsame Howns.
  pose proof (do_off _ _ _ Hd) as Hoff. assert (0 <= k < 12) as Hk by (unfold k; zmod). pose proof (io_free _ Hm) as Hfree.
  assert (0 <= off mod 1024 < 1024) as Hmod by (apply Z.mod_pos_bound; lia).
  assert (length (im_img m a) = 1024%nat) as Hla.
  { rewrite (io_len _ Hm); [reflexivity|]. rewrite Em1, nmeta_pos in Hr. cbn in Hr. lia. }
  assert (nblk (off + Z.of_nat (length c)) = nblk (off + 1)) as Hn by (unfold nblk; zmod).
  assert (Z.to_nat (off mod 1024) + length c <= length (im_img m a))%nat as Hfit by lia.
  assert (im_freeblock m <= im_freeblock m1) as Hle by (rewrite Em1; cbn; unfold nblk; zmod).
  split.
  - apply upd_sect_ok; [|lia | by rewrite length_splice]. rewrite Em1 in *. apply set_freeblock_ok; [done|]. cbn in Hle. lia.
  - cbn [im_freeblock upd_sect set_img]. split.
    + done.
    + unfold k in Hk. zmod.
    + intros j Hj Hlt. rewrite Ha by done. case_decide as E; [done|]. pose proof (do_used _ _ _ Hd j Hj ltac:(unfold k in E; zmod)). lia.
    + intros j Hj Hge. rewrite Ha by done. case_decide as E; [exfalso; subst j; unfold k in Hge; zmod|]. apply (do_rest _ _ _ Hd); lia.
    + intros i j Hi Hj. rewrite !Ha by done. case_decide as E1; case_decide as E2; subst; try done.
      * intros E _. symmetry. by apply Hother.
      * intros E _. by apply Hother.
      * apply (do_inj _ _ _ Hd); done.
  - by destruct din.
  - done.
  - by rewrite Em1.
  - rewrite Em1. cbn. by rewrite Hn.
  - intros n Hn' Hno. cbn [im_img upd_sect set_img]. destruct (Z.eqb_spec n a) as [->|]; [|by rewrite Em1]. destruct Howns; [done | lia].
  - intros n (j & Hj & E & Hn0). rewrite Ha in E by done. case_decide; [subst; done|]. left. by exists j.
  - intros T i Hi. rewrite Hn in Hi. assert (i / 1024 = k) as E1 by (unfold k, nblk in *; zmod). unfold file_byte, BSIZE. rewrite E1.
    fold (addr (set_i_addrs l din) k). rewrite Ha, decide_True by done. cbn [im_img upd_sect set_img]. rewrite Z.eqb_refl.
    rewrite nth_splice by done. rewrite decide_False by (unfold k in *; zmod). destruct (Z.eq_dec (off mod 1024) 0) as [E0|E0].
    + rewrite (io_zero _ Hm); [apply nth_zeros|]. destruct Howns as [(j & Hj & Ej & Hj0)|Hge].
      * pose proof (Hother j Hj Ej) as ->. rewrite (do_rest _ _ _ Hd k Hk) in Ej by (unfold k; zmod). lia.
      * rewrite Em1 in Hr. cbn in Hr. lia.
    + specialize (T i ltac:(unfold k, nblk in *; zmod)). unfold file_byte, BSIZE in T. rewrite E1 in T. fold (addr din k) in T. by rewrite Hsame in T.
  - apply file_bytes_snoc; [lia | |].
    + intros i Hi. unfold file_byte, BSIZE. fold (addr din (i / 1024)). fold (addr (set_i_addrs l din) (i / 1024)).
      cbn [im_img upd_sect set_img]. rewrite Ha by (unfold k in *; zmod). case_decide as E.
      * rewrite Z.eqb_refl. rewrite nth_splice by done. rewrite decide_False by (unfold k in *; zmod).
        rewrite <- E in Hsame. rewrite Hsame; [done | unfold k in *; zmod].
      * rewrite (proj2 (Z.eqb_neq _ _)); [by rewrite Em1|]. intros E'. apply E. apply Hother; [unfold k in *; zmod | done].
    + intros j Hj. unfold file_byte, BSIZE. assert ((off + Z.of_nat j) / 1024 = k) as E1 by (unfold k; zmod).
      assert ((off + Z.of_nat j) mod 1024 = off mod 1024 + Z.of_nat j) as E2 by zmod. rewrite E1, E2.
      fold (addr (set_i_addrs l din) k). rewrite Ha, decide_True by done. cbn [im_img upd_sect set_img]. rewrite Z.eqb_refl.
      rewrite nth_splice by done. rewrite decide_True by lia. f_equal. lia.
Qed.

Lemma iappend_loop_run : forall fuel p off din m, (length p < fuel)%nat -> img_ok m -> din_ok (im_freeblock m) din off ->
  off + Z.of_nat (length p) <= 12 * 1024 -> im_freeblock m + (nblk (off + Z.of_nat (length p)) - nblk off) <= FSSIZE ->
  exists m' din', iappend_loop fuel p off din m = Some ((off + Z.of_nat (length p), din'), m') /\ appended m din off p m' din'.
Proof.
  induction fuel as [|f IH]; intros p off din m Hfu Hm Hd Ho Hf; [lia|]. cbn [iappend_loop].
  destruct (Z.ltb_spec 0 (Z.of_nat (length p))) as [Hp|Hp].
  2:{ destruct p; [|cbn in Hp; lia]. exists m, din. split; [cbn [length]; by rewrite Z.add_0_r | by apply appended_nil]. }
  pose proof (do_off _ _ _ Hd) as Hoff. set (c := take (Z.to_nat (Z.min (Z.of_nat (length p)) (1024 - off mod 1024))) p).
  pose proof (Z.mod_pos_bound off 1024 ltac:(lia)) as Hmod.
  assert (Z.of_nat (length c) = Z.min (Z.of_nat (length p)) (1024 - off mod 1024)) as Hlc by (unfold c; rewrite length_take; lia).
  assert (nblk off <= nblk (off + 1) <= nblk (off + Z.of_nat (length p))) as Hnb by (unfold nblk; zmod).
  assert (off / BSIZE < MAXFILE) as Hmax by (unfold BSIZE, MAXFILE, NDIRECT, NINDIRECT; zmod).
  rewrite (mbnd_run _ _ tt m m) by (unfold massert; by rewrite (proj2 (Z.ltb_lt _ _) Hmax)).
  destruct (block_of_run m din off Hm Hd) as (a & l & m1 & Eb & Em1 & Hl & Hl32 & Ha & Hr & Hoth & Hsame & Hown); [lia.. |].
  rewrite (mbnd_run _ _ _ _ _ Eb). cbn [fst snd].
  assert (appended m din off c (upd_sect a (splice (Z.to_nat (off mod 1024)) c (im_img m a)) m1) (set_i_addrs l din)) as HA
    by (apply append_piece; (done || lia)).
  assert (0 <= a < FSSIZE) as Har. { pose proof (io_free _ Hm). rewrite Em1, nmeta_pos in Hr. cbn in Hr. lia. }
  assert (img_ok m1) as Hm1.
  { rewrite Em1. apply set_freeblock_ok; [done | lia]. }
  rewrite (mbnd_run _ _ _ _ _ (rsect_run a m1 Hm1 Har)). rewrite (mbnd_run _ _ _ _ _ (wsect_run a _ m1 Hm1 Har)).
  assert (u32 (Z.of_nat (length p)) = Z.of_nat (length p)) as -> by (apply u32_small; lia).
  assert (u32 ((off / BSIZE + 1) * BSIZE - off) = 1024 - off mod 1024) as -> by (unfold BSIZE; zmod).
  assert (off - off / BSIZE * BSIZE = off mod 1024) as -> by (unfold BSIZE; zmod).
  rewrite <- Hlc, Nat2Z.id, u32_small by lia. assert (take (length c) p = c) as Etc by (unfold c at 2; f_equal; lia).
  assert (im_img m1 a = im_img m a) as -> by (by rewrite Em1).
  assert (c ++ drop (length c) p = p) as Ep.
  { rewrite <- Etc at 1. apply take_drop. }
  rewrite Etc. set (m2 := upd_sect a _ m1) in *.
  destruct (IH (drop (length c) p) (off + Z.of_nat (length c)) (set_i_addrs l din) m2) as (m' & din' & E & HB).
  - rewrite length_drop. lia.
  - exact (ap_img _ _ _ _ _ _ HA).
  - exact (ap_din _ _ _ _ _ _ HA).
  - rewrite length_drop. lia.
  - rewrite (ap_free _ _ _ _ _ _ HA), length_drop. replace (off + Z.of_nat (length c) + Z.of_nat (length p - length c)) with (off + Z.of_nat (length p)) by lia. lia.
  - exists m', din'. rewrite E. split; [|rewrite <- Ep; by eapply appended_app].
    do 3 f_equal. rewrite length_drop. lia.
Qed.

(** ** The inodes of the image *)

Definition iblock (i : Z) : Z := i / 8 + 32.
Definition inode_at (m : image) (i : Z) : inode := load_dinode (dinode_off i) (im_img m (iblock i)) din0.

(** [winode] of [inum]: the inode's 128 bytes of its sector. *)
Definition put_inode (i : Z) (din : inode) (m : image) : image :=
  upd_sect (iblock i) (splice (dinode_off i) (store_dinode 0 din (zeros DINODE)) (im_img m (iblock i))) m.

Lemma inode_block_eq i : 0 <= i < NINODES -> inode_block i mkfs_sb = iblock i.
Proof. intros H. unfold NINODES in H. unfold inode_block, iblock. change IPB with 8. change (sb_inodestart mkfs_sb) with 32. apply u32_small. zmod. Qed.

Lemma iblock_range i : 0 <= i < NINODES -> 32 <= iblock i < 58.
Proof. unfold iblock, NINODES. intros H. zmod. Qed.

Lemma rinode_run i m : img_ok m -> 0 <= i < NINODES -> rinode i m = Some (inode_at m i, m).
Proof.
  intros Hm Hi. unfold rinode. rewrite (mbnd_run _ _ (im_sb m) m m) by done. rewrite (io_sb _ Hm), inode_block_eq by done.
  assert (0 <= iblock i < FSSIZE) as Hb by (pose proof (iblock_range i Hi); unfold FSSIZE; lia).
  rewrite (mbnd_run _ _ _ _ _ (rsect_run _ m Hm Hb)). done.
Qed.

Lemma winode_run i din m : img_ok m -> 0 <= i < NINODES -> winode i din m = Some (tt, put_inode i din m).
Proof.
  intros Hm Hi. unfold winode. rewrite (mbnd_run _ _ (im_sb m) m m) by done. rewrite (io_sb _ Hm), inode_block_eq by done.
  assert (0 <= iblock i < FSSIZE) as Hb by (pose proof (iblock_range i Hi); unfold FSSIZE; lia).
  rewrite (mbnd_run _ _ _ _ _ (rsect_run _ m Hm Hb)). by apply wsect_run.
Qed.

(** The fields of a [struct dinode], the others as in [din{}]. *)
Definition on_disk (din : inode) : Prop :=
  inode_fits din /\ set_i_dev (i_dev din0) (set_i_inum (i_inum din0) (set_i_ref (i_ref din0) (set_i_valid (i_valid din0) (set_i_lock (i_lock din0) din)))) = din.

Section put.
Context (m : image) (i : Z) (din : inode).
Hypothesis Hm : img_ok m.
Hypothesis Hi : 0 <= i < NINODES.
Hypothesis Hd : on_disk din.

Lemma put_store_facts : let d := store_dinode 0 din (zeros DINODE) in length d = DINODE /\ load_dinode 0 d din0 = din.
Proof.
  destruct Hd as [F E]. destruct (dinode_store_load 0 din din0 (zeros DINODE)) as (H1 & H2 & _); [apply Nat.le_refl | done |].
  intros d. split; [exact H2 | unfold d; rewrite H1; exact E].
Qed.

Lemma put_sector_length : length (im_img m (iblock i)) = 1024%nat.
Proof. apply (io_len _ Hm). pose proof (iblock_range i Hi). unfold FSSIZE. lia. Qed.

Lemma put_inode_ok : img_ok (put_inode i din m).
Proof.
  apply upd_sect_ok; [done | pose proof (iblock_range i Hi); pose proof (io_free _ Hm); rewrite nmeta_pos in *; lia|]. destruct put_store_facts as [Hl _]. pose proof (dinode_off_fits i). pose proof put_sector_length as Hs.
  rewrite length_splice by lia. exact Hs.
Qed.

Lemma put_inode_same : inode_at (put_inode i din m) i = din.
Proof.
  destruct put_store_facts as [Hl E]. pose proof (dinode_off_fits i). pose proof put_sector_length. etransitivity; [|exact E]. unfold inode_at. cbn [im_img put_inode upd_sect set_img].
  rewrite Z.eqb_refl. apply load_dinode_ext. intros n k Hk. apply fld_splice_in; lia.
Qed.

Lemma put_inode_other j : 0 <= j -> j <> i -> inode_at (put_inode i din m) j = inode_at m j.
Proof.
  intros Hj Hne. destruct put_store_facts as [Hl E]. pose proof (dinode_off_fits i). pose proof put_sector_length. unfold inode_at. cbn [im_img put_inode upd_sect set_img].
  destruct (Z.eqb_spec (iblock j) (iblock i)) as [Eb|]; [|done]. rewrite Eb. apply load_dinode_ext. intros n k Hk. apply fld_splice_out; [lia|].
  pose proof (dinode_off_eq i). pose proof (dinode_off_eq j). unfold DINODE, iblock in *. assert (j mod 8 <> i mod 8) by zmod. lia.
Qed.

Lemma put_inode_img n : nmeta <= n -> im_img (put_inode i din m) n = im_img m n.
Proof. intros Hn. rewrite nmeta_pos in Hn. pose proof (iblock_range i Hi). cbn [im_img put_inode upd_sect set_img]. by rewrite (proj2 (Z.eqb_neq _ _)) by lia. Qed.
End put.

(** ** The files of the image *)

(** The bytes the kernel reads from inode [i]. *)
Definition contents (m : image) (i : Z) : list Z := file_bytes (im_img m) (inode_at m i) 0 (i_size (inode_at m i)).

Record fs_ok (m : image) : Prop := {
  fo_img : img_ok m;
  fo_next : 1 <= im_freeinode m <= NINODES;
  fo_disk : forall i, 0 <= i < NINODES -> on_disk (inode_at m i);
  fo_din : forall i, 0 <= i < NINODES -> din_ok (im_freeblock m) (inode_at m i) (i_size (inode_at m i));
  fo_tail : forall i, 0 <= i < NINODES -> tail_zero (im_img m) (inode_at m i) (i_size (inode_at m i));
  fo_new : forall i, im_freeinode m <= i < NINODES -> i_size (inode_at m i) = 0;
  fo_disj : forall i j n, 0 <= i < NINODES -> 0 <= j < NINODES -> owns (inode_at m i) n -> owns (inode_at m j) n -> i = j
}.

Lemma file_byte_ext V V' din off fb k : din_ok fb din off -> (forall n, owns din n -> V' n = V n) -> 0 <= k < nblk off * 1024 ->
  file_byte V' din k = file_byte V din k.
Proof.
  intros Hd H Hk. unfold file_byte, BSIZE. fold (addr din (k / 1024)). f_equal. apply H. exists (k / 1024). pose proof (do_off _ _ _ Hd).
  unfold nblk in Hk. assert (0 <= k / 1024 < 12) as Hb by zmod.
  pose proof (do_used _ _ _ Hd (k / 1024) Hb ltac:(zmod)) as Hu. rewrite nmeta_pos in Hu. split_and!; [lia | lia | done | lia].
Qed.

Lemma file_bytes_ext V V' din off fb : din_ok fb din off -> (forall n, owns din n -> V' n = V n) ->
  file_bytes V' din 0 off = file_bytes V din 0 off.
Proof.
  intros Hd H. unfold file_bytes. apply map_ext_in. intros j Hj%in_seq. apply (file_byte_ext _ _ _ _ _ _ Hd H). pose proof (do_off _ _ _ Hd). unfold nblk. zmod.
Qed.

Lemma tail_zero_ext V V' din off fb : din_ok fb din off -> (forall n, owns din n -> V' n = V n) -> tail_zero V din off -> tail_zero V' din off.
Proof. intros Hd H T k Hk. pose proof (do_off _ _ _ Hd). rewrite (file_byte_ext V) with (off := off) (fb := fb) by (done || lia). by apply T. Qed.

(** A change of the image that leaves the sectors of inode [i] and of its file alone. *)
Lemma inode_at_frame m m' i : (forall n, 32 <= n < 58 -> im_img m' n = im_img m n) -> 0 <= i < NINODES -> inode_at m' i = inode_at m i.
Proof. intros H Hi. unfold inode_at. rewrite H; [done | by apply iblock_range]. Qed.

(** An inode of the image replaced: [i_size] and [i_addrs] as the file needs them. *)
Section replace.
Context (m m1 : image) (i : Z) (din : inode).
Hypothesis Hok : fs_ok m.
Hypothesis Hi : 0 <= i < NINODES.
Hypothesis Hm1 : img_ok m1.
Hypothesis Hlow : forall n, n < nmeta -> im_img m1 n = im_img m n.
Hypothesis Hnext : im_freeinode m <= im_freeinode m1 <= NINODES.
Hypothesis Hfree : im_freeblock m <= im_freeblock m1.
Hypothesis Hframe : forall n, n < im_freeblock m -> ~ owns (inode_at m i) n -> im_img m1 n = im_img m n.
Hypothesis Hdisk : on_disk din.
Hypothesis Hdin : din_ok (im_freeblock m1) din (i_size din).
Hypothesis Howns : forall n, owns din n -> owns (inode_at m i) n \/ im_freeblock m <= n.
Hypothesis Htail : tail_zero (im_img m1) din (i_size din).
Hypothesis Hold : i < im_freeinode m1 \/ i_size din = 0.

Let m2 := put_inode i din m1.

Lemma replace_at j : 0 <= j < NINODES -> inode_at m2 j = if decide (j = i) then din else inode_at m j.
Proof using Hi Hm1 Hdisk Hlow.
  intros Hj. case_decide as E; [subst; by apply put_inode_same|]. unfold m2. rewrite put_inode_other by (done || lia).
  apply inode_at_frame; [|done]. intros n Hn. apply Hlow. rewrite nmeta_pos. lia.
Qed.

Lemma replace_own n : owns din n -> im_img m2 n = im_img m1 n.
Proof using Hi Hdin. intros Hn. pose proof (owns_range _ _ _ _ Hdin Hn). apply put_inode_img; [done | lia]. Qed.

Lemma replace_other j n : 0 <= j < NINODES -> j <> i -> owns (inode_at m j) n -> im_img m2 n = im_img m n.
Proof using Hok Hi Hframe.
  intros Hj E Hn. pose proof (owns_range _ _ _ _ (fo_din _ Hok j Hj) Hn). unfold m2. rewrite put_inode_img by (done || lia).
  apply Hframe; [lia|]. intros Hi'. apply E. by apply (fo_disj _ Hok j i n).
Qed.

Lemma replace_ok : fs_ok m2.
Proof.
  assert (forall j n, 0 <= j < NINODES -> owns (inode_at m2 j) n -> (j = i /\ im_freeblock m <= n) \/ owns (inode_at m j) n) as Ho.
  { intros j n Hj. rewrite replace_at by done. case_decide; [subst; intros [?|?]%Howns; [by right | by left]|]. by right. }
  split.
  - by apply put_inode_ok.
  - pose proof (fo_next _ Hok). cbn. lia.
  - intros j Hj. rewrite replace_at by done. case_decide; [done | by apply (fo_disk _ Hok)].
  - intros j Hj. rewrite replace_at by done. change (im_freeblock m2) with (im_freeblock m1). case_decide; [by subst|].
    destruct (fo_din _ Hok j Hj) as [D1 D2 D3 D4 D5]. split; try done. intros k Hk Hlt. specialize (D3 k Hk Hlt). lia.
  - intros j Hj. rewrite replace_at by done. case_decide.
    + eapply tail_zero_ext; [exact Hdin | exact replace_own | exact Htail].
    + eapply tail_zero_ext; [exact (fo_din _ Hok j Hj) | intros n; by apply replace_other | by apply (fo_tail _ Hok)].
  - intros j Hj. change (im_freeinode m2) with (im_freeinode m1) in Hj. pose proof (fo_next _ Hok). rewrite replace_at by lia. case_decide; [subst; lia | apply (fo_new _ Hok); lia].
  - intros j k n Hj Hk [[-> H1]|H1]%Ho [[-> H2]|H2]%Ho; try done.
    + pose proof (owns_range _ _ _ _ (fo_din _ Hok k Hk) H2). lia.
    + pose proof (owns_range _ _ _ _ (fo_din _ Hok j Hj) H1). lia.
    + by apply (fo_disj _ Hok j k n).
Qed.

Lemma replace_contents j : 0 <= j < NINODES ->
  contents m2 j = if decide (j = i) then file_bytes (im_img m1) din 0 (i_size din) else contents m j.
Proof.
  intros Hj. unfold contents. rewrite replace_at by done. case_decide as E.
  - eapply file_bytes_ext; [exact Hdin | exact replace_own].
  - eapply file_bytes_ext; [exact (fo_din _ Hok j Hj) | intros n; by apply replace_other].
Qed.

Lemma replace_meta n : n < 32 -> im_img m2 n = im_img m n.
Proof using Hi Hlow.
  intros Hn. pose proof (iblock_range i Hi). unfold m2. cbn [im_img put_inode upd_sect set_img]. rewrite (proj2 (Z.eqb_neq _ _)) by lia. apply Hlow. rewrite nmeta_pos. lia.
Qed.
End replace.

(** The size and the blocks of the inode [iappend] writes back. *)
Lemma appended_on_disk m din off p m' din' : on_disk din -> appended m din off p m' din' ->
  on_disk (set_i_size (off + Z.of_nat (length p)) din').
Proof.
  intros [(F16 & F32 & F8 & Fl) E] A. pose proof (do_off _ _ _ (ap_din _ _ _ _ _ _ A)) as Ho. pose proof (do_len _ _ _ (ap_din _ _ _ _ _ _ A)) as Hl.
  assert (Forall in32 (i_addrs din')) as HF by (apply (ap_in32 _ _ _ _ _ _ A); by inversion_clear F32 as [|? ? _ F]; inversion_clear F as [|? ? _ F']; inversion_clear F').
  pose proof (ap_same _ _ _ _ _ _ A) as Es. clear A. rewrite Es. destruct din'. cbn in *. split; [split_and!|].
  - done.
  - decompose_Forall_hyps. constructor; [unfold in32; lia|]. do 2 (constructor; [done|]). done.
  - done.
  - done.
  - destruct din. cbn in *. unfold set_i_dev, set_i_inum, set_i_ref, set_i_valid, set_i_lock in *. cbn in *. by injection E as <- <- <- <- <-.
Qed.

Lemma iappend_run i xp m : let sz := i_size (inode_at m i) in let n := sz + Z.of_nat (length xp) in
  fs_ok m -> 0 <= i < im_freeinode m -> n <= 12 * 1024 -> im_freeblock m + (nblk n - nblk sz) <= FSSIZE ->
  exists m', iappend i xp m = Some (tt, m') /\ fs_ok m' /\ (forall k, k < 32 -> im_img m' k = im_img m k) /\
    im_freeinode m' = im_freeinode m /\ im_freeblock m' = im_freeblock m + (nblk n - nblk sz) /\
    (forall j, 0 <= j < NINODES -> j <> i -> inode_at m' j = inode_at m j) /\
    inode_at m' i = set_i_size n (set_i_addrs (i_addrs (inode_at m' i)) (inode_at m i)) /\
    forall j, 0 <= j < NINODES -> contents m' j = if decide (j = i) then contents m i ++ xp else contents m j.
Proof.
  intros sz n Hok Hi Hn Hf. pose proof (fo_next _ Hok) as Hnx. assert (0 <= i < NINODES) as Hi' by lia.
  pose proof (fo_img _ Hok) as Hm. pose proof (fo_din _ Hok i Hi') as Hd. pose proof (do_off _ _ _ Hd) as Hsz. fold sz in Hd, Hsz.
  unfold iappend. rewrite (mbnd_run _ _ _ _ _ (rinode_run i m Hm Hi')). fold sz. rewrite xint_small by lia.
  destruct (iappend_loop_run (S (length xp)) xp sz (inode_at m i) m) as (m1 & din & E & A); [lia | done | done | done | done |].
  rewrite (mbnd_run _ _ _ _ _ E). cbn [fst snd]. fold n. rewrite xint_small by lia. pose proof (ap_img _ _ _ _ _ _ A) as Hm1.
  pose proof (ap_free _ _ _ _ _ _ A) as Efb. fold n in Efb. assert (nblk sz <= nblk n) by (unfold nblk, n; zmod).
  pose proof (appended_on_disk _ _ _ _ _ _ (fo_disk _ Hok i Hi') A) as Hdisk. fold n in Hdisk.
  assert (forall k, k < nmeta -> im_img m1 k = im_img m k) as Hlow.
  { intros k Hk. pose proof (io_free _ Hm). apply (ap_frame _ _ _ _ _ _ A); [lia|]. intros Ho. pose proof (owns_range _ _ _ _ Hd Ho). lia. }
  assert (din_ok (im_freeblock m1) (set_i_size n din) (i_size (set_i_size n din))) as Hd1.
  { pose proof (ap_din _ _ _ _ _ _ A) as [D1 D2 D3 D4 D5]. by split. }
  assert (forall k, owns (set_i_size n din) k -> owns (inode_at m i) k \/ im_freeblock m <= k) as Ho1 by apply (ap_owns _ _ _ _ _ _ A).
  exists (put_inode i (set_i_size n din) m1). pose proof (ap_inodes _ _ _ _ _ _ A) as Efi. split_and!.
  - by apply winode_run.
  - apply (replace_ok m); try done; [lia | lia | exact (ap_frame _ _ _ _ _ _ A) | | left; lia]. by apply (ap_tail _ _ _ _ _ _ A), (fo_tail _ Hok).
  - intros k Hk. by apply (replace_meta m).
  - done.
  - done.
  - intros j Hj Hne. rewrite (replace_at m) by done. by rewrite decide_False.
  - rewrite (replace_at m) by done. rewrite decide_True by done. rewrite (ap_same _ _ _ _ _ _ A). cbn. by destruct (inode_at m i).
  - intros j Hj. rewrite (replace_contents m) by (done || lia || apply (ap_frame _ _ _ _ _ _ A)). case_decide as Ej; [|done]. cbn [i_size set_i_size].
    exact (ap_bytes _ _ _ _ _ _ A).
Qed.

(** ** The abstract file system: one entry per inode, in the order of their numbers *)

Record afile := Mk_afile { a_root : bool; a_type : Z; a_mask : Z * Z * Z; a_data : list Z }.

Definition a_id (f : afile) : Z := if a_root f then 0 else 1000.
Definition with_data (d : list Z) (f : afile) : afile := Mk_afile (a_root f) (a_type f) (a_mask f) d.
Definition aappend (k : nat) (xp : list Z) (A : list afile) : list afile := alter (fun f => with_data (a_data f ++ xp) f) k A.

Definition size_of (f : afile) : Z := Z.of_nat (length (a_data f)).
Definition blocks_of (A : list afile) : Z := foldr (fun f n => nblk (size_of f) + n) 0 A.

(** The image has inodes, direct blocks and free blocks for the files.  mkfs accepts files of
    up to MAXFILE blocks; those beyond the twelve direct ones (12 KiB) go through an indirect
    block, which is not covered here. *)
Definition fits (A : list afile) : Prop :=
  Z.of_nat (length A) < NINODES /\ Forall (fun f => size_of f <= 12 * 1024) A /\ nmeta + blocks_of A <= FSSIZE.

(** The inode of a file, but for its block list. *)
Definition inode_of (f : afile) (din : inode) : Prop :=
  i_type din = a_type f /\ i_nlink din = 1 /\ i_uid din = a_id f /\ i_gid din = a_id f /\
  (i_mask_user din, i_mask_group din, i_mask_other din) = a_mask f /\ i_size din = size_of f.

Record represents (m : image) (A : list afile) : Prop := {
  re_ok : fs_ok m;
  re_sb : sb_of (im_img m 1) = mkfs_sb;
  re_next : im_freeinode m = 1 + Z.of_nat (length A);
  re_free : im_freeblock m = nmeta + blocks_of A;
  re_file : forall k f, A !! k = Some f -> inode_of f (inode_at m (1 + Z.of_nat k)) /\ contents m (1 + Z.of_nat k) = a_data f
}.

(** The inode [ialloc] writes. *)
Definition fresh_din (f : afile) : inode :=
  let '(mu, mg, mo) := a_mask f in
  set_i_mask_other mo (set_i_mask_group mg (set_i_mask_user mu (set_i_gid (a_id f) (set_i_uid (a_id f)
    (set_i_nlink 1 (set_i_type (a_type f) din0)))))).

Definition afile_ok (f : afile) : Prop :=
  0 <= a_type f < 2 ^ 15 /\ a_data f = [] /\ let '(mu, mg, mo) := a_mask f in in8 mu /\ in8 mg /\ in8 mo.

Lemma xshort_small x : 0 <= x < 2 ^ 15 -> s16 (xshort x) = x.
Proof.
  intros H. assert (xshort x = x) as -> by (unfold xshort, u8; rewrite !Z.shiftr_div_pow2 by lia; cbn [le_val]; zmod).
  unfold s16. assert (u16 x = x) as -> by zmod. by rewrite (proj2 (Z.ltb_lt x (2 ^ 15))) by lia.
Qed.

Lemma fresh_on_disk f : afile_ok f -> on_disk (fresh_din f).
Proof.
  intros (Ht & _ & Hm). unfold fresh_din. destruct (a_mask f) as [[mu mg] mo]. destruct Hm as (H1 & H2 & H3). split; [|done]. split_and!.
  - assert (s16 (a_type f) = a_type f) by (unfold s16; assert (u16 (a_type f) = a_type f) as -> by zmod; by rewrite (proj2 (Z.ltb_lt _ (2 ^ 15))) by lia).
    cbn. by repeat constructor.
  - cbn. constructor; [done|]. do 2 (constructor; [unfold in32, a_id; destruct (a_root f); lia|]). by apply (Forall_replicate in32 13 0).
  - cbn. by repeat (constructor; [done|]).
  - done.
Qed.

Lemma no_blocks_ok fb din : i_addrs din = zeros 13 -> din_ok fb din 0.
Proof. intros E. split; unfold addr; rewrite ?E; try done; try lia; intros; rewrite nth_zeros in *; done. Qed.

Lemma fresh_din_ok fb f : din_ok fb (fresh_din f) 0.
Proof. apply no_blocks_ok. unfold fresh_din. by destruct (a_mask f) as [[??] ?]. Qed.

Lemma ialloc_run f m A : represents m A -> afile_ok f -> fits (A ++ [f]) ->
  exists m', ialloc (a_root f) (a_type f) (a_mask f) m = Some (1 + Z.of_nat (length A), m') /\ represents m' (A ++ [f]).
Proof.
  intros [Hok Hsb Hnext Hfree Hfile] Hf (Hn & _ & _). rewrite length_app in Hn. cbn in Hn. set (i := 1 + Z.of_nat (length A)) in *.
  pose proof (fresh_on_disk f Hf) as Hdisk. pose proof (fresh_din_ok (im_freeblock m) f) as Hdin. pose proof (fo_next _ Hok) as Hnx.
  set (m1 := set_freeinode (i + 1) m). assert (img_ok m1) as Hm1 by (destruct (fo_img _ Hok); by split).
  assert (i_size (fresh_din f) = 0) as Hs0 by (unfold fresh_din; by destruct (a_mask f) as [[??] ?]).
  assert (din_ok (im_freeblock m1) (fresh_din f) (i_size (fresh_din f))) as Hd1 by (rewrite Hs0; exact Hdin).
  assert (forall n, ~ owns (fresh_din f) n) as Hno.
  { intros n (k & Hk & E & H0). by rewrite (do_rest _ _ _ Hdin k Hk) in E by lia. }
  exists (put_inode i (fresh_din f) m1). split.
  - unfold ialloc. rewrite (mbnd_run _ _ i m m) by (unfold mget; by rewrite Hnext). rewrite (mbnd_run _ _ tt m m1).
    2:{ unfold mmod, m1. rewrite u32_small; [done | unfold NINODES in *; lia]. }
    destruct Hf as (Ht & _ & _). rewrite (xshort_small (a_type f)) by done. assert ((if a_root f then xint 0 else xint 1000) = a_id f) as -> by (unfold a_id; by destruct (a_root f)).
    unfold fresh_din. destruct (a_mask f) as [[mu mg] mo]. rewrite (mbnd_run _ _ _ _ _ (winode_run i _ m1 Hm1 ltac:(unfold i; lia))). done.
  - assert (0 <= i < NINODES) as Hi by (unfold i; lia).
    assert (forall j, 0 <= j < NINODES -> contents (put_inode i (fresh_din f) m1) j = if decide (j = i) then [] else contents m j) as Hc.
    { intros j Hj. rewrite (replace_contents m) by done. by rewrite Hs0. }
    split.
    + apply (replace_ok m); try done; [cbn; lia | by intros n ?%Hno | | right; done]. rewrite Hs0. intros k Hk. change (nblk 0) with 0 in Hk. lia.
    + rewrite (replace_meta m); [done | done | done | lia].
    + cbn. rewrite length_app. cbn. lia.
    + cbn. rewrite Hfree. f_equal. unfold blocks_of. rewrite foldr_app. cbn. destruct Hf as (_ & E & _). unfold size_of. by rewrite E.
    + intros k g [Hk|[Hk Hg]]%lookup_app_Some.
      * pose proof (lookup_lt_Some _ _ _ Hk). rewrite (replace_at m), Hc by (done || lia). rewrite !decide_False by lia. by apply Hfile.
      * destruct (k - length A)%nat eqn:E; [|done]. injection Hg as <-. replace (1 + Z.of_nat k) with i by lia. rewrite (replace_at m), Hc, !decide_True by done.
        destruct Hf as (_ & E' & _). split; [|done]. unfold inode_of, size_of. rewrite E', Hs0. unfold fresh_din. by destruct (a_mask f) as [[??] ?].
Qed.
