(* ===== verification/MkfsImage.v ===== *)
(** * The image [main] writes

    The whole of [mkfs]: the files of the command line, the directories and the
    bitmap, as an abstract file system that the image represents. *)

From S2P Require Import Prelude State Riscv Cstring Lock Sched Kalloc UserCopy Bio Log Fs FsSpec Mkfs MkfsSpec.

#[local] Open Scope mk_scope.

(** ** Abstract file systems that grow *)

(** [B] has the files of [A], each with the bytes it had and possibly more. *)
Definition grows (A B : list afile) : Prop :=
  forall k f, A !! k = Some f -> exists g, B !! k = Some g /\ size_of f <= size_of g.

Lemma grows_refl A : grows A A.
Proof. intros k f H. exists f. done. Qed.

Lemma grows_trans A B C : grows A B -> grows B C -> grows A C.
Proof. intros H1 H2 k f Hk. destruct (H1 k f Hk) as (g & Hg & ?). destruct (H2 k g Hg) as (h & Hh & ?). exists h. split; [done | lia]. Qed.

#[local] Instance grows_preorder : PreOrder grows.
Proof. split; [exact grows_refl | exact grows_trans]. Qed.

Lemma nblk_mono a b : a <= b -> nblk a <= nblk b.
Proof. intros H. unfold nblk. apply Z.div_le_mono; lia. Qed.

Lemma nblk_pos a : 0 <= a -> 0 <= nblk a.
Proof. intros H. unfold nblk. apply Z.div_pos; lia. Qed.

Lemma grows_tail f A g B : grows (f :: A) (g :: B) -> size_of f <= size_of g /\ grows A B.
Proof.
  intros H. split; [destruct (H 0%nat f eq_refl) as (? & [= <-] & ?); done|]. intros k h Hk. exact (H (S k) h Hk).
Qed.

Lemma grows_length A B : grows A B -> (length A <= length B)%nat.
Proof.
  intros H. destruct (decide (length A = 0)%nat) as [->|Hn]; [lia|].
  destruct (lookup_lt_is_Some_2 A (length A - 1)) as [f Hf]; [lia|]. destruct (H _ _ Hf) as (g & Hg & _). pose proof (lookup_lt_Some _ _ _ Hg). lia.
Qed.

Lemma blocks_of_pos A : 0 <= blocks_of A.
Proof. induction A as [|f A IH]; [done|]. change (blocks_of (f :: A)) with (nblk (size_of f) + blocks_of A). pose proof (nblk_pos (size_of f)). unfold size_of in *. lia. Qed.

Lemma grows_blocks A : forall B, grows A B -> blocks_of A <= blocks_of B.
Proof.
  induction A as [|f A IH]; intros B H; [apply blocks_of_pos|]. destruct B as [|g B]; [by destruct (H 0%nat f eq_refl) as (? & [=] & _)|].
  apply grows_tail in H as [Hs H]. change (nblk (size_of f) + blocks_of A <= nblk (size_of g) + blocks_of B). pose proof (nblk_mono _ _ Hs). specialize (IH B H). lia.
Qed.

Lemma fits_grows A B : grows A B -> fits B -> fits A.
Proof.
  intros H (F1 & F2 & F3). pose proof (grows_length _ _ H). pose proof (grows_blocks _ _ H). split_and!; [lia | | lia].
  apply Forall_lookup. intros k f Hk. destruct (H k f Hk) as (g & Hg & Hs). pose proof (Forall_lookup_1 _ _ _ _ F2 Hg) as Hg2. cbn in Hg2. lia.
Qed.

Lemma grows_app A B : grows A (A ++ B).
Proof. intros k f H. exists f. split; [by apply lookup_app_l_Some | lia]. Qed.

Lemma grows_aappend k xp A : grows A (aappend k xp A).
Proof.
  intros j f H. unfold aappend. destruct (decide (j = k)) as [->|Hne].
  - exists (with_data (a_data f ++ xp) f). rewrite list_lookup_alter_eq, H. split; [done|]. unfold size_of. cbn. rewrite length_app. lia.
  - exists f. rewrite list_lookup_alter_ne by done. done.
Qed.

Lemma aappend_app k x y A : aappend k y (aappend k x A) = aappend k (x ++ y) A.
Proof.
  revert k. induction A as [|f A IH]; intros [|k]; try done; cbn.
  - unfold with_data. cbn. by rewrite app_assoc.
  - f_equal. apply IH.
Qed.

Lemma aappend_nil k A : aappend k [] A = A.
Proof.
  revert k. induction A as [|[a b c d] A IH]; intros [|k]; try done; cbn.
  - unfold with_data. cbn. by rewrite app_nil_r.
  - f_equal. apply IH.
Qed.

Lemma length_aappend k xp A : length (aappend k xp A) = length A.
Proof. unfold aappend. apply length_alter. Qed.

Lemma blocks_of_aappend xp : forall A k f, A !! k = Some f ->
  blocks_of (aappend k xp A) = blocks_of A + (nblk (size_of f + Z.of_nat (length xp)) - nblk (size_of f)).
Proof.
  induction A as [|g A IH]; intros [|k] f H; try done.
  - injection H as ->. change (nblk (size_of (with_data (a_data f ++ xp) f)) + blocks_of A = nblk (size_of f) + blocks_of A + (nblk (size_of f + Z.of_nat (length xp)) - nblk (size_of f))).
    unfold size_of. cbn [a_data with_data]. rewrite length_app, Nat2Z.inj_add. lia.
  - change (nblk (size_of g) + blocks_of (aappend k xp A) = nblk (size_of g) + blocks_of A + (nblk (size_of f + Z.of_nat (length xp)) - nblk (size_of f))).
    rewrite (IH k f H). lia.
Qed.

(** ** The operations on the abstract file system *)

Lemma iappend_represents m A k f xp : represents m A -> A !! k = Some f -> fits (aappend k xp A) ->
  exists m', iappend (1 + Z.of_nat k) xp m = Some (tt, m') /\ represents m' (aappend k xp A).
Proof.
  intros R Hk (F1 & F2 & F3). pose proof R as [Hok Hsb Hnext Hfree Hfile]. destruct (Hfile k f Hk) as [Hin Hcon].
  assert (i_size (inode_at m (1 + Z.of_nat k)) = size_of f) as Hsz by apply Hin. pose proof (lookup_lt_Some _ _ _ Hk) as Hlt.
  rewrite length_aappend in F1. rewrite (blocks_of_aappend _ _ _ _ Hk) in F3.
  assert (size_of f + Z.of_nat (length xp) <= 12 * 1024) as Hs.
  { eapply Forall_lookup_1 in F2; [|unfold aappend; rewrite list_lookup_alter_eq, Hk; reflexivity]. unfold size_of in *. cbn in F2. rewrite length_app in F2. lia. }
  destruct (iappend_run (1 + Z.of_nat k) xp m) as (m' & E & Hok' & Hmeta & Efi & Efb & Hoth & Hat & Hc); rewrite ?Hsz; [done | lia | lia | lia |].
  rewrite Hsz in *. exists m'. split; [done|]. split.
  - done.
  - by rewrite Hmeta by lia.
  - by rewrite Efi, length_aappend.
  - rewrite Efb, Hfree, (blocks_of_aappend _ _ _ _ Hk). lia.
  - intros j g. unfold aappend. destruct (decide (j = k)) as [->|Hne].
    + rewrite list_lookup_alter_eq, Hk. intros [= <-]. rewrite Hc, decide_True by (done || lia). split; [|cbn; by rewrite Hcon].
      destruct Hin as (I1 & I2 & I3 & I4 & I5 & I6). rewrite Hat. unfold inode_of, size_of. cbn. rewrite length_app, Nat2Z.inj_add. by split_and!.
    + rewrite list_lookup_alter_ne by done. intros Hj. pose proof (lookup_lt_Some _ _ _ Hj). rewrite Hc, decide_False by lia.
      rewrite Hoth by lia. by apply Hfile.
Qed.

Lemma grows_aappend_l k xp A f : grows A (aappend k xp A ++ [f]).
Proof. etransitivity; [apply grows_aappend | apply grows_app]. Qed.

Section files.
Context (host : list Z -> list Z).

Lemma append_pieces_represents : forall fuel c m A k f, (length c < fuel)%nat -> represents m A -> A !! k = Some f -> fits (aappend k c A) ->
  exists m', append_pieces fuel (1 + Z.of_nat k) c m = Some (tt, m') /\ represents m' (aappend k c A).
Proof.
  induction fuel as [|n IH]; intros c m A k f Hl R Hk F; [lia|]. cbn [append_pieces]. destruct (Nat.eqb_spec (length c) 0) as [E|E].
  { destruct c; [|done]. exists m. by rewrite aappend_nil. }
  rewrite <- (take_drop (Z.to_nat BSIZE) c), <- aappend_app in F |- *. change (Z.to_nat BSIZE) with 1024%nat in *.
  set (c1 := take 1024 c) in *. set (c2 := drop 1024 c) in *.
  destruct (iappend_represents m A k f c1 R Hk) as (m1 & E1 & R1); [by eapply fits_grows; [apply grows_aappend|]|].
  assert (length c = length c1 + length c2)%nat as Hc by (unfold c1, c2; rewrite length_take, length_drop; lia).
  assert (0 < length c1)%nat as Hc1 by (unfold c1; rewrite length_take; lia).
  destruct (IH c2 m1 (aappend k c1 A) k (with_data (a_data f ++ c1) f)) as (m2 & E2 & R2); [lia | done | | done |].
  { unfold aappend. by rewrite list_lookup_alter_eq, Hk. }
  exists m2. split; [|done]. assert (c1 ++ c2 = c) as -> by apply take_drop. fold c1 c2. by rewrite (mbnd_run _ _ _ _ _ E1).
Qed.

(** The name of a file in its directory, whose inode number is [ino]. *)
Definition short (ino : Z) (name : list Z) : list Z := if ino =? 1 then name else drop 12 name.

Definition name_ok (ino : Z) (name : list Z) : Prop :=
  (ino = 1 \/ 12 <= Z.of_nat (length name)) /\ Forall (fun c => c <> 47) (short ino name) /\ Z.of_nat (length (short ino name)) <= DIRSIZ.

Definition file_of (ino : Z) (name : list Z) : afile := Mk_afile (bool_decide (short ino name = name_init)) 2 (7, 5, 0) (host name).

(** A file added to the directory [ino]. *)
Definition add_file (ino : Z) (A : list afile) (name : list Z) : list afile :=
  aappend (Z.to_nat (ino - 1)) (dirent_bytes (1 + Z.of_nat (length A)) 1000 7 5 0 (short ino name)) A ++ [file_of ino name].

Lemma aappend_last A f c : aappend (length A) c (A ++ [f]) = A ++ [with_data (a_data f ++ c) f].
Proof. unfold aappend. by rewrite alter_app_r_alt, Nat.sub_diag by lia. Qed.

Lemma aappend_l k A B c : (k < length A)%nat -> aappend k c (A ++ B) = aappend k c A ++ B.
Proof. intros H. unfold aappend. by rewrite alter_app_l. Qed.

Lemma file_apped_represents m A ino name : represents m A -> 1 <= ino <= Z.of_nat (length A) -> name_ok ino name -> fits (add_file ino A name) ->
  exists m', file_apped host name ino m = Some (tt, m') /\ represents m' (add_file ino A name).
Proof.
  intros R Hino (Hn1 & Hn2 & Hn3) F. set (k := Z.to_nat (ino - 1)). assert (1 + Z.of_nat k = ino) as Ek by lia. assert (k < length A)%nat as Hk by lia.
  destruct (lookup_lt_is_Some_2 A k Hk) as [d Hd]. unfold file_apped.
  rewrite (mbnd_run _ _ tt m m). 2:{ unfold massert. rewrite (proj2 (orb_true_iff _ _)); [done|]. rewrite Z.eqb_eq, Z.leb_le. done. }
  assert ((if negb (ino =? 1) then drop 12 name else name) = short ino name) as -> by (unfold short; by destruct (ino =? 1)). set (nm := short ino name) in *.
  rewrite (mbnd_run _ _ tt m m). 2:{ unfold massert. rewrite (proj2 (forallb_forall _ _)); [done|]. intros c Hc. rewrite Forall_forall in Hn2. by rewrite (proj2 (Z.eqb_neq c 47) (Hn2 c Hc)). }
  rewrite (mbnd_run _ _ tt m m). 2:{ unfold massert. by rewrite (proj2 (Z.leb_le _ _) Hn3). }
  set (f0 := with_data [] (file_of ino name)). set (e := dirent_bytes (1 + Z.of_nat (length A)) 1000 7 5 0 nm).
  assert (add_file ino A name = aappend (length A) (host name) (aappend k e (A ++ [f0]))) as EB.
  { rewrite aappend_l by done. rewrite <- (length_aappend k e A) at 1. by rewrite aappend_last. }
  rewrite EB in F. destruct (ialloc_run f0 m A R) as (m1 & E1 & R1).
  { unfold afile_ok, f0, in8. cbn. split_and!; (done || lia). }
  { do 2 (eapply fits_grows; [apply grows_aappend|]). exact F. }
  destruct (iappend_represents m1 (A ++ [f0]) k d e R1) as (m2 & E2 & R2); [by apply lookup_app_l_Some | by eapply fits_grows; [apply grows_aappend|]|].
  destruct (append_pieces_represents (S (length (host name))) (host name) m2 (aappend k e (A ++ [f0])) (length A) f0) as (m3 & E3 & R3); [lia | done | | done |].
  { rewrite aappend_l by done. rewrite <- (length_aappend k e A). by rewrite list_lookup_middle. }
  exists m3. rewrite EB. split; [|done]. change (bool_decide (nm = name_init)) with (a_root f0). change 2 with (a_type f0) at 1. change (7, 5, 0) with (a_mask f0).
  rewrite (mbnd_run _ _ _ _ _ E1). fold e. rewrite <- Ek. by rewrite (mbnd_run _ _ _ _ _ E2).
Qed.

Lemma add_file_grows ino A name : grows A (add_file ino A name).
Proof. apply grows_aappend_l. Qed.

Lemma foldl_grows ino l : forall A, grows A (foldl (add_file ino) A l).
Proof. induction l as [|n l IH]; intros A; cbn; [done|]. etransitivity; [apply add_file_grows | apply IH]. Qed.

Lemma files_represent ino l : forall m A, represents m A -> 1 <= ino <= Z.of_nat (length A) -> Forall (name_ok ino) l -> fits (foldl (add_file ino) A l) ->
  exists m', for_each (fun str => file_apped host str ino) l m = Some (tt, m') /\ represents m' (foldl (add_file ino) A l).
Proof.
  induction l as [|n l IH]; intros m A R Hi Hl F; cbn [for_each foldl] in *; [by exists m|]. inversion_clear Hl as [|? ? Hn Hl'].
  destruct (file_apped_represents m A ino n R Hi Hn) as (m1 & E1 & R1); [by eapply fits_grows; [apply foldl_grows|]|].
  rewrite (mbnd_run _ _ _ _ _ E1). apply IH; try done. pose proof (grows_length _ _ (add_file_grows ino A n)). lia.
Qed.

(** ** The files of the image *)

(** The entries of the files of [l] in the directory [ino]; their inodes start at [i]. *)
Fixpoint entries (ino i : Z) (l : list (list Z)) : list Z :=
  match l with [] => [] | n :: l' => dirent_bytes i 1000 7 5 0 (short ino n) ++ entries ino (i + 1) l' end.

Lemma foldl_add_file ino l : forall A, (Z.to_nat (ino - 1) < length A)%nat ->
  foldl (add_file ino) A l = aappend (Z.to_nat (ino - 1)) (entries ino (1 + Z.of_nat (length A)) l) A ++ map (file_of ino) l.
Proof.
  induction l as [|n l IH]; intros A H; cbn [foldl entries map]; [by rewrite aappend_nil, app_nil_r|].
  assert (length (add_file ino A n) = S (length A)) as Hl by (unfold add_file; rewrite length_app, length_aappend; cbn; lia).
  rewrite IH, Hl by lia. unfold add_file. rewrite aappend_l by (by rewrite length_aappend). rewrite aappend_app, <- app_assoc. cbn [app].
  do 4 f_equal. lia.
Qed.

Definition dir (data : list Z) : afile := Mk_afile true T_DIR (7, 7, 7) data.

(** The root directory: ".", "..", "bin", "home", "tmp" and the text files. *)
Definition root_data (txt : list (list Z)) : list Z :=
  dirent_bytes 1 0 7 7 5 [46] ++ dirent_bytes 1 0 7 7 5 [46; 46] ++
  dirent_bytes 2 0 7 7 5 [98; 105; 110] ++ dirent_bytes 3 0 7 7 5 [104; 111; 109; 101] ++ dirent_bytes 4 0 7 7 5 [116; 109; 112] ++ entries 1 5 txt.

(** Inodes 1 to 4 are the directories; the programs are in "bin", inode 2. *)
Definition image_files (txt bin : list (list Z)) : list afile :=
  [dir (root_data txt); dir (entries 2 (5 + Z.of_nat (length txt)) bin); dir []; dir []] ++ map (file_of 1) txt ++ map (file_of 2) bin.

Definition base_files : list afile := [dir (root_data []); dir []; dir []; dir []].

Lemma image_files_fold txt bin : foldl (add_file 2) (foldl (add_file 1) base_files txt) bin = image_files txt bin.
Proof.
  rewrite foldl_add_file by (rewrite foldl_add_file by (cbn; lia); rewrite length_app, length_aappend; cbn; lia).
  rewrite foldl_add_file by (cbn; lia). rewrite length_app, length_aappend, length_map. unfold image_files, base_files.
  change (Z.to_nat (1 - 1)) with 0%nat. change (Z.to_nat (2 - 1)) with 1%nat. unfold aappend.
  rewrite alter_app_l by (rewrite length_alter; cbn; lia). rewrite <- app_assoc. cbn [length Z.of_nat]. f_equal.
  change (1 + Z.of_nat 4) with 5. unfold dir, with_data, root_data. cbn [entries alter list_alter a_data a_root a_type a_mask app]. rewrite <- !app_assoc. cbn [app].
  by replace (1 + Z.of_nat (4 + length txt)) with (5 + Z.of_nat (length txt)) by lia.
Qed.

(** ** The first steps: an empty image and the directories *)

Lemma format_run n m : (n <= 2000)%nat -> im_nsec m = 0 ->
  exists m', for_each (fun i => wsect (Z.of_nat i) (zeros (Z.to_nat BSIZE))) (seq 0 n) m = Some (tt, m') /\
    m' = set_img (im_img m') (Z.of_nat n) m /\ forall k, 0 <= k < Z.of_nat n -> im_img m' k = zeros 1024.
Proof.
  intros Hn H0. assert (forall j a m, (a + j <= 2000)%nat -> im_nsec m = Z.of_nat a -> (forall k, 0 <= k < Z.of_nat a -> im_img m k = zeros 1024) ->
    exists m', for_each (fun i => wsect (Z.of_nat i) (zeros (Z.to_nat BSIZE))) (seq a j) m = Some (tt, m') /\
      m' = set_img (im_img m') (Z.of_nat (a + j)) m /\ forall k, 0 <= k < Z.of_nat (a + j) -> im_img m' k = zeros 1024) as H.
  { clear. induction j as [|j IH]; intros a m Ha Hs Hz; cbn [seq for_each].
    - exists m. rewrite Nat.add_0_r. split; [done|]. split; [|done]. rewrite <- Hs. by destruct m.
    - set (m1 := set_img (fun k => if k =? Z.of_nat a then zeros 1024 else im_img m k) (Z.of_nat (S a)) m).
      rewrite (mbnd_run _ _ tt m m1).
      2:{ unfold wsect, mbnd, massert, mmod. rewrite sect_small by lia. rewrite (proj2 (Z.leb_le 0 (Z.of_nat a))) by lia. rewrite Hs, Z.max_r by lia.
          unfold m1. by replace (Z.of_nat (S a)) with (Z.of_nat a + 1) by lia. }
      destruct (IH (S a) m1) as (m' & E & Em & Hz'); [lia | done | |].
      { intros k Hk. cbn. destruct (Z.eqb_spec k (Z.of_nat a)); [done|]. apply Hz. lia. }
      replace (a + S j)%nat with (S a + j)%nat by lia. exists m'. split; [done|]. split; [rewrite Em at 1; done | done]. }
  apply (H n 0%nat m); [lia | done | intros k Hk; lia].
Qed.

(** The image of [main] before the root directory. *)
Lemma empty_represents m : im_sb m = mkfs_sb -> im_nsec m = FSSIZE -> im_freeinode m = 1 -> im_freeblock m = nmeta ->
  (forall k, 0 <= k < FSSIZE -> k <> 1 -> im_img m k = zeros 1024) -> im_img m 1 = splice 0 (sb_bytes mkfs_sb) (zeros (Z.to_nat BSIZE)) -> represents m [].
Proof.
  intros Hs Hn Hi Hb Hz H1. assert (forall i, 0 <= i < NINODES -> inode_at m i = din0) as Hin.
  { intros i H. unfold inode_at. pose proof (iblock_range i H). rewrite Hz by (unfold FSSIZE; lia).
    assert (forall n o, (n <= 4)%nat -> fld n o (zeros 1024) = 0) as Hf.
    { intros n o Hno. unfold fld, zeros. rewrite drop_replicate, take_replicate. set (j := (n `min` (1024 - o))%nat). assert (j <= 4)%nat as Hj by lia.
      clearbody j. do 5 (destruct j as [|j]; [done|]). lia. }
    unfold load_dinode, addrs_of. rewrite !Hf by lia. change din0 with inode0. rewrite (map_ext _ (fun _ => 0)) by (intros; apply Hf; lia). done. }
  split.
  - split.
    + split; [done | done | | unfold FSSIZE in *; rewrite nmeta_pos in *; lia |].
      * intros k Hk. destruct (decide (k = 1)) as [->|]; [rewrite H1; reflexivity | by rewrite Hz].
      * intros k Hk. rewrite Hb, nmeta_pos in Hk. apply Hz; lia.
    + unfold NINODES. lia.
    + intros i H. rewrite Hin by done. split; [|done]. split_and!; repeat constructor; (done || unfold in32, in8; cbn; lia).
    + intros i H. rewrite Hin by done. by apply no_blocks_ok.
    + intros i H. rewrite Hin by done. intros k Hk. change (nblk (i_size din0)) with 0 in Hk. change (i_size din0) with 0 in Hk. lia.
    + intros i H. by rewrite Hin by lia.
    + intros i j n H _ (k & Hk & E & H0). rewrite Hin in E by done. unfold addr in E. change (i_addrs din0) with (zeros 13) in E. rewrite nth_zeros in E. done.
  - rewrite H1. reflexivity.
  - done.
  - done.
  - intros k f [=].
Qed.

Lemma dir_ok : afile_ok (dir []).
Proof. unfold afile_ok, in8. cbn. split_and!; (done || lia). Qed.

(** Adding a directory to the root. *)
Lemma add_dir_represents m A f name : represents m A -> A !! 0%nat = Some f ->
  let A' := aappend 0 (dirent_bytes (1 + Z.of_nat (length A)) 0 7 7 5 name) A ++ [dir []] in fits A' ->
  exists m', add_dir 1 name m = Some (1 + Z.of_nat (length A), m') /\ represents m' A'.
Proof.
  intros R H0 A' F. set (e := dirent_bytes (1 + Z.of_nat (length A)) 0 7 7 5 name) in *. pose proof (lookup_lt_Some _ _ _ H0) as Hl.
  assert (aappend 0 e (A ++ [dir []]) = A') as EA by (by rewrite aappend_l). rewrite <- EA in F |- *.
  destruct (ialloc_run (dir []) m A R dir_ok) as (m1 & E1 & R1); [by eapply fits_grows; [apply grows_aappend|]|].
  destruct (iappend_represents m1 (A ++ [dir []]) 0 f e R1) as (m2 & E2 & R2); [by apply lookup_app_l_Some | done |].
  exists m2. split; [|done]. unfold add_dir. cbn [a_root a_type a_mask dir] in E1. rewrite (mbnd_run _ _ _ _ _ E1). fold e.
  change 1 with (1 + Z.of_nat 0) at 1. by rewrite (mbnd_run _ _ _ _ _ E2).
Qed.

(** ** The last steps: the size of the root directory and the bitmap *)

Lemma set_size_on_disk n din : on_disk din -> in32 n -> on_disk (set_i_size n din).
Proof.
  intros [(F1 & F2 & F3 & F4) E] Hn. split; [|by destruct din; unfold set_i_dev, set_i_inum, set_i_ref, set_i_valid, set_i_lock in *; cbn in *; injection E as <- <- <- <- <-].
  split_and!; try done. inversion_clear F2. by constructor.
Qed.

(** The inode and the bytes of a file that are not affected by the last steps. *)
Lemma unchanged m m' i : fs_ok m -> 0 <= i < NINODES -> inode_at m' i = inode_at m i -> (forall n, nmeta <= n -> im_img m' n = im_img m n) ->
  contents m' i = contents m i.
Proof.
  intros Hok Hi E H. pose proof (fo_din _ Hok i Hi) as Hd. unfold contents. rewrite E. eapply file_bytes_ext; [exact Hd|].
  intros n Hn. apply H. apply (owns_range _ _ _ _ Hd Hn).
Qed.

Definition finish (rootino : Z) : MK unit :=
  din <~ rinode rootino ;;
  let off := xint (i_size din) in
  let off := u32 ((off / BSIZE + 1) * BSIZE) in
  winode rootino (set_i_size (xint off) din) ;~
  used <~ mget im_freeblock ;;
  balloc (s32 used).

(** The image after the last steps. *)
Record final (m : image) (A : list afile) (root : afile) : Prop := {
  fi_sb : sb_of (im_img m 1) = mkfs_sb;
  fi_file : forall k f, A !! k = Some f -> k <> 0%nat -> inode_of f (inode_at m (1 + Z.of_nat k)) /\ contents m (1 + Z.of_nat k) = a_data f;
  fi_root : let din := inode_at m 1 in
    inode_of root (set_i_size (size_of root) din) /\ i_size din = (size_of root / 1024 + 1) * 1024 /\
    file_bytes (im_img m) din 0 (nblk (size_of root) * 1024) =
      a_data root ++ zeros (Z.to_nat (nblk (size_of root) * 1024 - size_of root));
  fi_blocks : forall k f, A !! k = Some f -> blocks_ok (im_img m) (inode_at m (1 + Z.of_nat k)) 0 (nblk (size_of f) * 1024);
  fi_bitmap : forall b, 0 <= b < BPB -> bit_set (byte_at (b / 8) (im_img m (sb_bmapstart mkfs_sb))) b = (b <? nmeta + blocks_of A)
}.

Lemma file_bytes_tail V din off fb : din_ok fb din off -> tail_zero V din off ->
  file_bytes V din 0 (nblk off * 1024) = file_bytes V din 0 off ++ zeros (Z.to_nat (nblk off * 1024 - off)).
Proof.
  intros Hd T. pose proof (do_off _ _ _ Hd). assert (off <= nblk off * 1024) by (unfold nblk; zmod).
  set (z := zeros _). assert (nblk off * 1024 = off + Z.of_nat (length z)) as -> by (unfold z, zeros; rewrite length_replicate; lia).
  apply file_bytes_snoc; [lia | done |]. intros j Hj. unfold z, zeros in Hj. rewrite length_replicate in Hj. unfold z. rewrite nth_zeros. apply T. lia.
Qed.

(** The blocks of a file are there. *)
Lemma din_blocks V din off fb : din_ok fb din off -> fb <= FSSIZE -> (forall a, nmeta <= a < FSSIZE -> length (V a) = 1024%nat) ->
  blocks_ok V din 0 (nblk off * 1024).
Proof.
  intros Hd Hfb HV k Hk. pose proof (do_off _ _ _ Hd) as Ho. unfold nblk in Hk. unfold BSIZE, NINDIRECT in *.
  assert (0 <= k / 1024 < 12 /\ k / 1024 * 1024 < off) as [Hb Hu] by zmod. pose proof (do_used _ _ _ Hd (k / 1024) Hb Hu) as Ha. rewrite nmeta_pos in Ha.
  exists (addr din (k / 1024)). split_and!; [|lia | lia | apply HV; rewrite nmeta_pos; lia].
  destruct (lookup_lt_is_Some_2 (i_addrs din) (Z.to_nat (k / 1024))) as [a E]; [rewrite (do_len _ _ _ Hd); lia|].
  rewrite E. f_equal. unfold addr. symmetry. by apply nth_lookup_Some.
Qed.

Lemma finish_final m A root : represents m A -> A !! 0%nat = Some root -> fits A -> exists m', finish 1 m = Some (tt, m') /\ final m' A root.
Proof.
  intros [Hok Hsb Hnext Hfree Hfile] H0 (F1 & F2 & F3). pose proof (fo_img _ Hok) as Hm. destruct (Hfile 0%nat root H0) as [Hin Hcon].
  change (1 + Z.of_nat 0) with 1 in *. assert (0 <= 1 < NINODES) as Hi by (unfold NINODES; lia).
  pose proof (fo_din _ Hok 1 Hi) as Hd. pose proof (do_off _ _ _ Hd) as Hoff. set (din := inode_at m 1) in *.
  assert (i_size din = size_of root) as Hsz by apply Hin. rewrite Hsz in *. set (off := size_of root) in *. set (n := (off / 1024 + 1) * 1024).
  assert (0 <= n <= 13 * 1024) as Hn by (unfold n; zmod). set (din1 := set_i_size n din).
  assert (on_disk din1) as Hdisk by (apply set_size_on_disk; [by apply (fo_disk _ Hok) | unfold in32; lia]).
  set (m1 := put_inode 1 din1 m). assert (img_ok m1) as Hm1 by (by apply put_inode_ok).
  pose proof (blocks_of_pos A) as Hbp. set (used := nmeta + blocks_of A) in *.
  assert (59 <= used <= 2000) as Hu by (unfold used, FSSIZE in *; rewrite nmeta_pos in *; lia).
  set (bm := bitmap (Z.to_nat used) (zeros (Z.to_nat BSIZE))). exists (upd_sect 58 bm m1).
  assert (forall i, 0 <= i < NINODES -> inode_at (upd_sect 58 bm m1) i = inode_at m1 i) as Hat.
  { intros i Hi'. apply inode_at_frame; [|done]. intros k Hk. cbn [im_img upd_sect set_img]. by rewrite (proj2 (Z.eqb_neq k 58)) by lia. }
  assert (forall k, nmeta <= k -> im_img (upd_sect 58 bm m1) k = im_img m k) as Hdata.
  { intros k Hk. rewrite <- (put_inode_img m 1 din1 Hi k Hk). rewrite nmeta_pos in Hk. cbn [im_img upd_sect set_img]. by rewrite (proj2 (Z.eqb_neq k 58)) by lia. }
  split.
  - unfold finish. rewrite (mbnd_run _ _ _ _ _ (rinode_run 1 m Hm Hi)). fold din. rewrite Hsz. cbv zeta. rewrite (xint_small off) by lia. unfold BSIZE at 1 2. fold n.
    rewrite u32_small by lia. rewrite xint_small by lia. fold din1. rewrite (mbnd_run _ _ _ _ _ (winode_run 1 din1 m Hm Hi)). fold m1.
    rewrite (mbnd_run _ _ used m1 m1) by (unfold mget; cbn; by rewrite Hfree). unfold balloc, s32. rewrite u32_small by lia. rewrite (proj2 (Z.ltb_lt used (2 ^ 31))) by lia.
    rewrite (mbnd_run _ _ tt m1 m1) by (unfold massert; by rewrite (proj2 (Z.ltb_lt used BPB)) by (unfold BPB, BSIZE; lia)).
    rewrite (mbnd_run _ _ mkfs_sb m1 m1) by (unfold mget; by rewrite (io_sb _ Hm1)). by apply wsect_run.
  - split.
    + exact Hsb.
    + intros k f Hk Hne. pose proof (lookup_lt_Some _ _ _ Hk). destruct (Hfile k f Hk) as [I1 I2].
      assert (inode_at (upd_sect 58 bm m1) (1 + Z.of_nat k) = inode_at m (1 + Z.of_nat k)) as E.
      { rewrite Hat by lia. apply put_inode_other; (done || lia). }
      rewrite (unchanged m) by (done || lia). by rewrite E.
    + intros din'. assert (din' = din1) as -> by (unfold din'; rewrite Hat by done; by apply put_inode_same). split_and!.
      * destruct Hin as (I1 & I2 & I3 & I4 & I5 & I6). by split_and!.
      * done.
      * change (file_bytes ?V din1) with (file_bytes V din). rewrite (file_bytes_tail _ din off (im_freeblock m) Hd).
        -- f_equal. rewrite <- Hcon. unfold contents. fold din. rewrite Hsz. eapply file_bytes_ext; [exact Hd|]. intros k Hk. apply Hdata. apply (owns_range _ _ _ _ Hd Hk).
        -- eapply tail_zero_ext; [exact Hd | intros k Hk; apply Hdata, (owns_range _ _ _ _ Hd Hk) |]. pose proof (fo_tail _ Hok 1 Hi) as T. fold din in T. by rewrite Hsz in T.
    + intros k f Hk. pose proof (lookup_lt_Some _ _ _ Hk). assert (0 <= 1 + Z.of_nat k < NINODES) as Hi' by lia. rewrite Hat by done.
      assert (i_addrs (inode_at m1 (1 + Z.of_nat k)) = i_addrs (inode_at m (1 + Z.of_nat k))) as E.
      { destruct (decide (k = 0%nat)) as [->|]; [unfold m1; by rewrite put_inode_same | unfold m1; by rewrite put_inode_other by (done || lia)]. }
      destruct (Hfile k f Hk) as [Hin' _]. pose proof (fo_din _ Hok _ Hi') as Hd'. replace (i_size _) with (size_of f) in Hd' by (symmetry; apply Hin').
      intros y Hy. destruct (din_blocks (im_img (upd_sect 58 bm m1)) _ _ _ Hd' (proj2 (io_free _ Hm))) with (k := y) as (a & ? & ?); [|done|].
      { intros a Ha. rewrite Hdata by lia. apply (io_len _ Hm). rewrite nmeta_pos in Ha. lia. }
      exists a. by rewrite E.
    + intros b Hb. change (sb_bmapstart mkfs_sb) with 58. cbn [im_img upd_sect set_img]. rewrite Z.eqb_refl. unfold bm. rewrite bitmap_bits.
      * fold used. by rewrite Z2Nat.id by lia.
      * lia.
      * exact Hb.
Qed.

(** ** The whole program *)

Lemma map_each_cons {A B} (f : A -> MK B) x l : map_each f (x :: l) = (y <~ f x ;; r <~ map_each f l ;; mret (y :: r)).
Proof. reflexivity. Qed.

(** The root with its first two entries, and the three directories. *)
Lemma base_represents m : represents m [] -> fits base_files ->
  exists m1 m2 m3 m4, ialloc true T_DIR (7, 7, 7) m = Some (1, m1) /\ iappend 1 (dirent_bytes 1 0 7 7 5 [46]) m1 = Some (tt, m2) /\
    iappend 1 (dirent_bytes 1 0 7 7 5 [46; 46]) m2 = Some (tt, m3) /\ map_each (add_dir 1) root_dir_name m3 = Some ([2; 3; 4], m4) /\
    represents m4 base_files.
Proof.
  intros R F. set (d1 := dirent_bytes 1 0 7 7 5 [46]). set (d2 := dirent_bytes 1 0 7 7 5 [46; 46]).
  set (A1 := [dir (d1 ++ d2)]). set (A2 := aappend 0 (dirent_bytes 2 0 7 7 5 [98; 105; 110]) A1 ++ [dir []]).
  set (A3 := aappend 0 (dirent_bytes 3 0 7 7 5 [104; 111; 109; 101]) A2 ++ [dir []]).
  assert (aappend 0 (dirent_bytes 4 0 7 7 5 [116; 109; 112]) A3 ++ [dir []] = base_files) as EB.
  { unfold base_files, root_data, A3, A2, A1, aappend, dir, with_data. cbn [entries alter list_alter a_data a_root a_type a_mask app]. by rewrite <- !app_assoc. }
  rewrite <- EB in F |- *. assert (fits A3) as F3 by (eapply fits_grows; [apply grows_aappend_l | exact F]).
  assert (fits A2) as F2 by (eapply fits_grows; [apply grows_aappend_l | exact F3]). assert (fits A1) as F1 by (eapply fits_grows; [apply grows_aappend_l | exact F2]).
  change A1 with (aappend 0 d2 (aappend 0 d1 [dir []])) in F1. pose proof (fits_grows _ _ (grows_aappend _ _ _) F1) as F0.
  destruct (ialloc_run (dir []) m [] R dir_ok) as (m1 & E1 & R1); [by eapply fits_grows; [apply grows_aappend|]|].
  destruct (iappend_represents m1 [dir []] 0 (dir []) d1 R1 eq_refl F0) as (m2 & E2 & R2).
  destruct (iappend_represents m2 _ 0 (dir d1) d2 R2 eq_refl F1) as (m3 & E3 & R3).
  destruct (add_dir_represents m3 A1 (dir (d1 ++ d2)) [98; 105; 110] R3 eq_refl F2) as (m4 & E4 & R4).
  destruct (add_dir_represents m4 A2 _ [104; 111; 109; 101] R4 eq_refl F3) as (m5 & E5 & R5).
  destruct (add_dir_represents m5 A3 _ [116; 109; 112] R5 eq_refl F) as (m6 & E6 & R6).
  exists m1, m2, m3, m6. split; [exact E1|]. split; [exact E2|]. split; [exact E3|]. split; [|exact R6].
  unfold root_dir_name. rewrite !map_each_cons, (mbnd_run _ _ _ _ _ E4). erewrite mbnd_run; [reflexivity|].
  rewrite (mbnd_run _ _ _ _ _ E5). erewrite mbnd_run; [reflexivity|]. rewrite (mbnd_run _ _ _ _ _ E6). reflexivity.
Qed.

Lemma build_finish txt bin m0 : bin <> [] -> im_nsec m0 = 0 -> im_sb m0 = mkfs_sb -> im_freeinode m0 = 1 -> im_freeblock m0 = nmeta ->
  Forall (name_ok 1) txt -> Forall (name_ok 2) bin -> fits (image_files txt bin) ->
  exists m, build host txt bin m0 = Some (tt, m) /\ final m (image_files txt bin) (dir (root_data txt)).
Proof.
  intros Hb Hn0 Hs0 Hi0 Hf0 Ht Hbin F. rewrite <- image_files_fold in F. unfold build.
  rewrite (mbnd_run _ _ tt m0 m0) by (by destruct bin). change (Z.to_nat FSSIZE) with (Z.to_nat 2000).
  destruct (format_run (Z.to_nat 2000) m0) as (m1 & E1 & Em1 & Hz); [lia | done |]. rewrite (mbnd_run _ _ _ _ _ E1). clear E1. rewrite Z2Nat.id in Em1, Hz by lia.
  set (m2 := upd_sect 1 (splice 0 (sb_bytes mkfs_sb) (zeros (Z.to_nat BSIZE))) m1). rewrite (mbnd_run _ _ tt m1 m2).
  2:{ unfold wsect, mbnd, massert, mmod. change (sect 1) with 1. cbn [Z.leb Z.compare]. assert (im_nsec m1 = 2000) as -> by (by rewrite Em1). done. }
  assert (represents m2 []) as R2.
  { apply empty_represents; [change (im_sb m1 = mkfs_sb); rewrite Em1; exact Hs0 | done | change (im_freeinode m1 = 1); rewrite Em1; exact Hi0 |
      change (im_freeblock m1 = nmeta); rewrite Em1; exact Hf0 | | done].
    intros k Hk Hne. unfold m2. cbn [im_img upd_sect set_img]. rewrite (proj2 (Z.eqb_neq k 1) Hne). by apply Hz. }
  set (Ab := foldl (add_file 1) base_files txt) in *. assert (fits Ab) as Fb by (eapply fits_grows; [apply foldl_grows | exact F]).
  destruct (base_represents m2 R2) as (m3 & m4 & m5 & m6 & E3 & E4 & E5 & E6 & R6); [eapply fits_grows; [apply foldl_grows | exact Fb]|].
  rewrite (mbnd_run _ _ _ _ _ E3), (mbnd_run _ _ tt m3 m3) by done. rewrite (mbnd_run _ _ _ _ _ E4), (mbnd_run _ _ _ _ _ E5), (mbnd_run _ _ _ _ _ E6).
  cbn [nth]. destruct (files_represent 1 txt m6 base_files R6) as (m7 & E7 & R7); [cbn; lia | done | done |]. rewrite (mbnd_run _ _ _ _ _ E7).
  destruct (files_represent 2 bin m7 Ab R7) as (m8 & E8 & R8); [|done | done |].
  { pose proof (grows_length _ _ (foldl_grows 1 txt base_files)) as Hl. fold Ab in Hl. cbn [length base_files] in Hl. lia. }
  rewrite (mbnd_run _ _ _ _ _ E8). unfold Ab in R8, F. rewrite image_files_fold in R8, F.
  exact (finish_final m8 (image_files txt bin) _ R8 eq_refl F).
Qed.

Definition not_option (a : list Z) : Prop := a <> opt_txt /\ a <> opt_bin.

Lemma parse_args_txt l r t b : Forall not_option l -> parse_args (l ++ r) true false t b = parse_args r true false (t ++ l) b.
Proof.
  revert t. induction l as [|a l IH]; intros t H; cbn [app parse_args]; [by rewrite app_nil_r|]. inversion_clear H as [|? ? [H1 H2] H'].
  rewrite !bool_decide_eq_false_2 by done. rewrite IH by done. by rewrite <- app_assoc.
Qed.

Lemma parse_args_bin l t b : Forall not_option l -> parse_args l false true t b = (t, b ++ l).
Proof.
  revert b. induction l as [|a l IH]; intros b H; cbn [parse_args]; [by rewrite app_nil_r|]. inversion_clear H as [|? ? [H1 H2] H'].
  rewrite !bool_decide_eq_false_2 by done. rewrite IH by done. by rewrite <- app_assoc.
Qed.

(** The command line [prog --txt ... --bin ...]. *)
Definition command (prog : list Z) (txt bin : list (list Z)) : list (list Z) := prog :: opt_txt :: txt ++ opt_bin :: bin.

(** The whole program. *)
Lemma main_final prog txt bin :
  bin <> [] -> Forall not_option txt -> Forall not_option bin -> Forall (name_ok 1) txt -> Forall (name_ok 2) bin -> fits (image_files txt bin) ->
  exists m, main host (command prog txt bin) = Some (0, m) /\ final m (image_files txt bin) (dir (root_data txt)).
Proof.
  intros Hb O1 O2 N1 N2 F. destruct (build_finish txt bin image0 Hb eq_refl eq_refl eq_refl eq_refl N1 N2 F) as (m & E & Hf).
  exists m. split; [|exact Hf]. unfold main, command. cbn [tail]. rewrite (proj2 (Nat.ltb_ge _ _)).
  - cbn [parse_args]. rewrite bool_decide_eq_true_2 by done. rewrite parse_args_txt by done. cbn [parse_args].
    rewrite (bool_decide_eq_false_2 (opt_bin = opt_txt)) by done. rewrite (bool_decide_eq_true_2 (opt_bin = opt_bin)) by done.
    rewrite parse_args_bin by done. cbn [app]. by rewrite E.
  - cbn [length]. rewrite length_app. cbn [length]. lia.
Qed.
(** C14: mkfs --txt ... --bin ... writes the image of an abstract file system: the super
    block, the inode, the allocated blocks and the bytes of every text and binary file,
    of the directory entries that lead to them, the root directory padded to whole
    blocks, and a bitmap with exactly the used blocks set, for every list of files that
    fits on the disk with each file at most 12 KiB (its direct blocks). *)
Theorem mkfs_image prog txt bin :
  bin <> [] -> Forall not_option txt -> Forall not_option bin -> Forall (name_ok 1) txt -> Forall (name_ok 2) bin -> fits (image_files txt bin) ->
  exists m, main host (command prog txt bin) = Some (0, m) /\ final m (image_files txt bin) (dir (root_data txt)).
Proof. apply main_final. Qed.
End files.

(** ** A concrete image *)

(** "build/utils/sh". *)
Definition path_sh : list Z := [98; 117; 105; 108; 100; 47; 117; 116; 105; 108; 115; 47; 115; 104].

Lemma mkfs_image_witness :
  exists m, main (fun n => n ++ [10]) (command [109] [name_init] [path_sh]) = Some (0, m) /\
    contents m 2 = dirent_bytes 6 1000 7 5 0 [115; 104] /\ contents m 6 = path_sh ++ [10] /\ i_uid (inode_at m 5) = 0.
Proof.
  destruct (mkfs_image (fun n => n ++ [10]) [109] [name_init] [path_sh]) as (m & E & Hf).
  - discriminate.
  - repeat constructor; discriminate.
  - repeat constructor; discriminate.
  - constructor; [|constructor]. split; [left; reflexivity|]. split; [repeat constructor; discriminate | vm_compute; discriminate].
  - constructor; [|constructor]. split; [right; vm_compute; discriminate|]. split; [repeat constructor; discriminate | vm_compute; discriminate].
  - split; [vm_compute; reflexivity|]. split; [|vm_compute; discriminate]. repeat constructor; vm_compute; discriminate.
  - exists m. split; [exact E|]. split; [|split].
    + exact (proj2 (fi_file _ _ _ Hf 1%nat _ eq_refl ltac:(discriminate))).
    + exact (proj2 (fi_file _ _ _ Hf 5%nat _ eq_refl ltac:(discriminate))).
    + exact (proj1 (proj2 (proj2 (proj1 (fi_file _ _ _ Hf 4%nat _ eq_refl ltac:(discriminate)))))).
Defined.
