(* ===== verification/Rootfs.v ===== *)
(** * The kernel on the image of mkfs ([mkfs.cpp] and [fs.cpp] together)

    What [mkfs] writes, the kernel finds: the path of a file of the command line
    leads to an inode whose contents are the bytes the host's file has. *)

From S2P Require Import Prelude State Riscv Cstring Lock Sched Kalloc UserCopy Bio Log Fs FsSpec Proc ProcSpec ForkSpec NameSpec Mkfs MkfsSpec MkfsImage.

(** ** Directory entries *)

(** The entry [l] has the inode number and the name of [d]. *)
Definition entry_is (l : list Z) (d : Z * list Z) : Prop := length l = 32%nat /\ entry_inum l = d.1 /\ entry_name l = d.2.

Lemma len_zeros n : length (zeros n) = n.
Proof. apply length_replicate. Qed.

Lemma upto0_padded nm : Forall (fun c => c <> 0) nm -> (length nm <= 14)%nat -> upto0 (take 14 (nm ++ zeros 14)) = nm.
Proof.
  intros H0 Hl. rewrite Forall_forall in H0. apply upto0_eq; [intros c Hc; apply H0; by apply list_elem_of_In|].
  rewrite length_take, length_app, len_zeros. split_and!; [lia | |].
  - intros j Hj. by rewrite lookup_take_lt, lookup_app_l by lia.
  - intros Hlt. rewrite lookup_take_lt, lookup_app_r, Nat.sub_diag by lia. reflexivity.
Qed.

Lemma dirent_is i id mu mg mo nm : 0 <= i < 2 ^ 15 -> Forall (fun c => c <> 0) nm -> (length nm <= 14)%nat ->
  entry_is (dirent_bytes i id mu mg mo nm) (i, nm).
Proof.
  intros Hi H0 Hl. assert (length (take 14 (nm ++ zeros 14)) = 14%nat) as Ht by (rewrite length_take, length_app, len_zeros; lia).
  unfold entry_is. split_and!.
  - unfold dirent_bytes. rewrite !length_app, !length_le_bytes, Ht. reflexivity.
  - unfold entry_inum, dirent_bytes. rewrite take_app_length' by (by rewrite length_le_bytes). rewrite le_val_bytes.
    assert (xshort i = i) as -> by (unfold xshort, u8; rewrite !Z.shiftr_div_pow2 by lia; cbn [le_val]; zmod). apply Z.mod_small. cbn. lia.
  - unfold entry_name. rewrite <- (upto0_padded nm) at 2 by done. unfold DIRSIZ.
    assert (dirent_bytes i id mu mg mo nm =
      (le_bytes 2 (xshort i) ++ [0; 0] ++ le_bytes 4 (xint id) ++ le_bytes 4 (xint id) ++ [mu; mg; mo]) ++ take 14 (nm ++ zeros 14) ++ [0; 0; 0]) as ->
      by (unfold dirent_bytes; by rewrite <- !app_assoc).
    rewrite drop_app_length' by (by rewrite !length_app, !length_le_bytes). by rewrite take_app_length' by (by rewrite Ht).
Qed.

(** The contents of a directory with the entries [L]. *)
Definition lists (data : list Z) (L : list (Z * list Z)) : Prop := exists es, data = concat es /\ Forall2 entry_is es L.

Lemma lists_nil : lists [] [].
Proof. exists []. split; [done | constructor]. Qed.

Lemma lists_app d1 d2 L1 L2 : lists d1 L1 -> lists d2 L2 -> lists (d1 ++ d2) (L1 ++ L2).
Proof. intros (e1 & -> & H1) (e2 & -> & H2). exists (e1 ++ e2). split; [by rewrite concat_app | by apply Forall2_app]. Qed.

Lemma lists_cons l d data L : entry_is l d -> lists data L -> lists (l ++ data) (d :: L).
Proof. intros H (es & -> & Hes). exists (l :: es). split; [done | by constructor]. Qed.

Lemma lists_zeros n : lists (zeros (32 * n)) (replicate n (0, [])).
Proof.
  induction n as [|n IH]; [exact lists_nil|]. replace (32 * S n)%nat with (32 + 32 * n)%nat by lia.
  unfold zeros in *. rewrite replicate_add. apply (lists_cons _ (0, [])); [|exact IH]. by split.
Qed.

Lemma lists_length data L : lists data L -> length data = (32 * length L)%nat.
Proof.
  intros (es & -> & H). induction H as [|l d es L (Hl & _) _ IH]; [done|]. change (length (l ++ concat es) = (32 * S (length L))%nat).
  rewrite length_app, Hl, IH. lia.
Qed.

Lemma lists_entry data L k d : lists data L -> L !! k = Some d -> entry_is (take 32 (drop (32 * k) data)) d.
Proof.
  intros (es & -> & H). revert k. induction H as [|l d' es L He _ IH]; intros k Hk; [done|]. change (concat (l :: es)) with (l ++ concat es).
  destruct k as [|k].
  - injection Hk as ->. rewrite Nat.mul_0_r, drop_0, take_app_length' by (by destruct He). exact He.
  - replace (32 * S k)%nat with (32 + 32 * k)%nat by lia. rewrite <- drop_drop, drop_app_length' by (by destruct He). by apply IH.
Qed.

(** ** Looking up *)

Definition named (x : list Z) (d : Z * list Z) : bool := negb (d.1 =? 0) && bool_decide (take 14 x = d.2).

(** The inode of the first entry in use with the name. *)
Fixpoint find_name (x : list Z) (L : list (Z * list Z)) : option Z :=
  match L with [] => None | d :: L' => if named x d then Some d.1 else find_name x L' end.

Lemma is_entry_is x l d : entry_is l d -> is_entry x l = named x d.
Proof. intros (_ & E1 & E2). unfold is_entry, named. by rewrite <- E1, <- E2. Qed.

Lemma find_name_idx x L : find_name x L = match find_idx (named x) L with Some k => fst <$> L !! k | None => None end.
Proof.
  unfold find_idx. assert (forall k, find_name x L = match find_from (named x) k L with Some j => fst <$> L !! (j - k)%nat | None => None end) as H.
  { induction L as [|d L IH]; intros k; [done|]. cbn [find_name find_from]. destruct (named x d); [by rewrite Nat.sub_diag|].
    rewrite (IH (S k)). destruct (find_from (named x) (S k) L) as [j|] eqn:E; [|done]. apply find_from_Some in E as (? & Hj & _).
    by replace (j - k)%nat with (S (j - S k)) by lia. }
  rewrite (H 0%nat). destruct (find_from (named x) 0 L) as [j|]; [by rewrite Nat.sub_0_r | done].
Qed.

Lemma find_name_skip x pre L : Forall (fun d => take 14 x <> d.2) pre -> find_name x (pre ++ L) = find_name x L.
Proof.
  intros H. induction H as [|d pre Hd _ IH]; [done|]. cbn. unfold named at 1. by rewrite (bool_decide_eq_false_2 _ Hd), andb_false_r.
Qed.

Lemma entry_of_file V d N k : 32 * (Z.of_nat k + 1) <= N -> entry V d k = take 32 (drop (32 * k) (file_bytes V d 0 N)).
Proof.
  intros H. unfold entry, DIRENT. rewrite (file_bytes_split V d 0 (32 * Z.of_nat k) N) by lia.
  rewrite drop_app_length' by (rewrite length_file_bytes; lia). rewrite Z.add_0_l.
  rewrite (file_bytes_split V d (32 * Z.of_nat k) 32 (N - 32 * Z.of_nat k)) by lia. by rewrite take_app_length' by (by rewrite length_file_bytes).
Qed.

Lemma dir_find_lists V d L x : lists (file_bytes V d 0 (i_size d)) L -> i_size d = 32 * Z.of_nat (length L) -> dir_find V d x = find_name x L.
Proof.
  intros H Hsz.
  assert (forall k e, L !! k = Some e -> entry_is (entry V d k) e) as He.
  { intros k e Hk. pose proof (lookup_lt_Some _ _ _ Hk). rewrite (entry_of_file V d (i_size d)) by lia. by apply (lists_entry _ L). }
  rewrite find_name_idx. unfold dir_find, DIRENT. rewrite Hsz, Z.mul_comm, Z.div_mul, Nat2Z.id by lia.
  assert (find_idx (fun k => is_entry x (entry V d k)) (seq 0 (length L)) = find_idx (named x) L) as ->.
  { unfold find_idx. assert (forall L' k, (forall j e, L' !! j = Some e -> L !! (k + j)%nat = Some e) ->
      find_from (fun k => is_entry x (entry V d k)) k (seq k (length L')) = find_from (named x) k L') as HL.
    { induction L' as [|e L' IH]; intros k Hk; [done|]. cbn [length seq find_from].
      rewrite (is_entry_is x _ e) by (apply He; rewrite <- (Nat.add_0_r k); by apply Hk). destruct (named x e); [done|]. apply IH.
      intros j e' Hj. replace (S k + j)%nat with (k + S j)%nat by lia. by apply Hk. }
    apply HL. done. }
  destruct (find_idx (named x) L) as [k|] eqn:E; [|done]. apply find_idx_Some in E as (e & Hk & _). rewrite Hk. cbn. f_equal. by destruct (He k e Hk) as (_ & -> & _).
Qed.

(** ** The directories of the image *)

(** The entries of the files [l], whose inodes start at [i]. *)
Fixpoint numbered (ino i : Z) (l : list (list Z)) : list (Z * list Z) :=
  match l with [] => [] | n :: l' => (i, short ino n) :: numbered ino (i + 1) l' end.

(** A name the kernel can find. *)
Definition clean (ino : Z) (nm : list Z) : Prop := name_ok ino nm /\ short ino nm <> [] /\ Forall (fun c => c <> 0) (short ino nm).

Lemma clean_length ino nm : clean ino nm -> (length (short ino nm) <= 14)%nat.
Proof. intros ((_ & _ & H) & _). unfold DIRSIZ in H. lia. Qed.

Lemma length_numbered ino l : forall i, length (numbered ino i l) = length l.
Proof. induction l as [|n l IH]; intros i; [done|]. cbn. by rewrite IH. Qed.

Lemma entries_lists ino l : forall i, 0 <= i -> i + Z.of_nat (length l) <= 2 ^ 15 -> Forall (clean ino) l -> lists (entries ino i l) (numbered ino i l).
Proof.
  induction l as [|n l IH]; intros i Hi Hl Hc; [exact lists_nil|]. apply list.Forall_cons_1 in Hc as [Hn Hc]. cbn [entries numbered length] in *. apply lists_cons.
  - apply dirent_is; [lia | apply Hn | by apply clean_length].
  - apply IH; (done || lia).
Qed.

Lemma find_numbered ino l j nm post : forall i, 0 < i -> l !! j = Some nm -> clean ino nm ->
  (forall k n, (k < j)%nat -> l !! k = Some n -> short ino n <> short ino nm) ->
  find_name (short ino nm) (numbered ino i l ++ post) = Some (i + Z.of_nat j).
Proof.
  revert j. induction l as [|n l IH]; intros j i Hi Hj Hc Hlow; [done|]. cbn [numbered app find_name]. unfold named.
  assert (take 14 (short ino nm) = short ino nm) as E by (apply take_ge; by apply clean_length). cbn [fst snd]. rewrite E, (proj2 (Z.eqb_neq i 0)) by lia. cbn [negb andb].
  destruct j as [|j].
  - injection Hj as ->. rewrite bool_decide_eq_true_2 by done. f_equal. lia.
  - rewrite bool_decide_eq_false_2 by (apply not_eq_sym, (Hlow 0%nat); [lia | done]). rewrite (IH j (i + 1)); [f_equal; lia | lia | done | done |].
    intros k n' Hk Hk'. apply (Hlow (S k)); [lia | done].
Qed.

(** The entries of the root. *)
Definition root_list (txt : list (list Z)) : list (Z * list Z) :=
  [(1, [46]); (1, [46; 46]); (2, [98; 105; 110]); (3, [104; 111; 109; 101]); (4, [116; 109; 112])] ++ numbered 1 5 txt.

Lemma root_lists txt : 5 + Z.of_nat (length txt) <= 2 ^ 15 -> Forall (clean 1) txt -> lists (root_data txt) (root_list txt).
Proof.
  intros Hl Hc. unfold root_data, root_list. cbn [app].
  do 5 (apply lists_cons; [apply dirent_is; [lia | repeat constructor; discriminate | cbn; lia]|]). by apply entries_lists.
Qed.

Section image.
Context (host : list Z -> list Z) (txt bin : list (list Z)) (m : image).
Hypothesis Hfin : final m (image_files host txt bin) (dir (root_data txt)).
Hypothesis Hfit : fits (image_files host txt bin).
Hypothesis Htxt : Forall (clean 1) txt.
Hypothesis Hbin : Forall (clean 2) bin.

#[local] Notation V := (im_img m).

Lemma image_count : 4 + Z.of_nat (length txt) + Z.of_nat (length bin) < 200.
Proof using Hfit.
  destruct Hfit as (H & _ & _). unfold image_files, NINODES in H. rewrite !length_app, !length_map in H. cbn [length] in H. lia.
Qed.

Lemma dnode_at n : 0 <= n < 200 -> dnode V mkfs_sb n = inode_at m n.
Proof.
  intros H. unfold dnode, inode_at, iblock. replace (IBLOCK n mkfs_sb) with (n / 8 + 32); [done|].
  unfold IBLOCK. change IPB with 8. change (sb_inodestart mkfs_sb) with 32. symmetry. apply u32_small. zmod.
Qed.

Lemma data_size k f : image_files host txt bin !! k = Some f -> 0 <= size_of f <= 12 * 1024.
Proof using Hfit. intros H. destruct Hfit as (_ & F & _). pose proof (Forall_lookup_1 _ _ _ _ F H) as Hs. cbn in Hs. unfold size_of in *. lia. Qed.

Lemma blocks_weaken (W : Z -> list Z) d n n' : n <= n' -> blocks_ok W d 0 n' -> blocks_ok W d 0 n.
Proof. intros H Hb k Hk. apply Hb. lia. Qed.

(** The root does not fill its last block: its size is rounded up past it otherwise. *)
Hypothesis Hroot : ((5 + length txt) mod 32 <> 0)%nat.

Lemma root_dir : good_inode V (dnode V mkfs_sb 1) /\ i_type (dnode V mkfs_sb 1) = T_DIR /\
  exists c, forall x, dir_find V (dnode V mkfs_sb 1) x = find_name x (root_list txt ++ replicate c (0, [])).
Proof.
  pose proof image_count as Hc. rewrite dnode_at by lia. pose proof (fi_root _ _ _ Hfin) as H. cbv zeta in H. set (d := inode_at m 1) in *.
  destruct H as ((Hty & Hnl & _) & Hsz & Hby). change (i_type d = T_DIR) in Hty. change (i_nlink d = 1) in Hnl.
  pose proof (root_lists txt ltac:(lia) Htxt) as HL. pose proof (lists_length _ _ HL) as Hlen.
  assert (length (root_list txt) = 5 + length txt)%nat as HlL by (unfold root_list; by rewrite length_app, length_numbered).
  assert (size_of (dir (root_data txt)) = 32 * (5 + Z.of_nat (length txt))) as Hs by (unfold size_of; cbn [a_data dir]; lia).
  pose proof (data_size 0 _ eq_refl) as Hs12. pose proof (fi_blocks _ _ _ Hfin 0%nat _ eq_refl) as Hb. change (1 + Z.of_nat 0) with 1 in Hb. fold d in Hb.
  set (a := size_of (dir (root_data txt))) in *.
  assert (a mod 1024 <> 0) as Hmod.
  { intros E. apply Hroot. apply Nat2Z.inj. rewrite Nat2Z.inj_mod. zmod. }
  assert (i_size d = nblk a * 1024 /\ a < i_size d <= 12 * 1024 + 1024) as [Esz Hsz'] by (rewrite Hsz; unfold nblk; zmod).
  split_and!; [split | done |].
  - by rewrite Hty.
  - by rewrite Hnl.
  - intros _. rewrite Esz. unfold DIRENT. zmod.
  - intros _. by rewrite Esz.
  - set (c := Z.to_nat ((nblk a * 1024 - a) / 32)). assert (Z.to_nat (nblk a * 1024 - a) = 32 * c)%nat as Ec.
    { apply Nat2Z.inj. rewrite Nat2Z.inj_mul. unfold c. rewrite Hs in *. rewrite Esz in *. zmod. }
    exists c. intros x. rewrite Ec in Hby. apply dir_find_lists.
    + rewrite Esz. rewrite Hby. apply lists_app; [exact HL | apply lists_zeros].
    + rewrite length_app, HlL, length_replicate. rewrite Esz in *. lia.
Qed.

Lemma bin_dir : good_inode V (dnode V mkfs_sb 2) /\ i_type (dnode V mkfs_sb 2) = T_DIR /\
  forall x, dir_find V (dnode V mkfs_sb 2) x = find_name x (numbered 2 (5 + Z.of_nat (length txt)) bin).
Proof.
  pose proof image_count as Hc. rewrite dnode_at by lia. set (f := dir (entries 2 (5 + Z.of_nat (length txt)) bin)).
  destruct (fi_file _ _ _ Hfin 1%nat f eq_refl ltac:(done)) as [(Hty & Hnl & _ & _ & _ & Hsz) Hcon]. change (1 + Z.of_nat 1) with 2 in *.
  pose proof (fi_blocks _ _ _ Hfin 1%nat f eq_refl) as Hb. change (1 + Z.of_nat 1) with 2 in Hb. set (d := inode_at m 2) in *.
  pose proof (entries_lists 2 bin (5 + Z.of_nat (length txt)) ltac:(lia) ltac:(lia) Hbin) as HL. pose proof (lists_length _ _ HL) as Hlen. rewrite length_numbered in Hlen.
  assert (size_of f = 32 * Z.of_nat (length bin)) as Hs by (unfold size_of; cbn [a_data dir f]; lia). pose proof (data_size 1 f eq_refl) as Hs12.
  split_and!; [split | done |].
  - by rewrite Hty.
  - by rewrite Hnl.
  - intros _. rewrite Hsz, Hs. unfold DIRENT. zmod.
  - intros _. apply (blocks_weaken _ _ _ (nblk (size_of f) * 1024)); [rewrite Hsz; unfold nblk; zmod | done].
  - intros x. apply dir_find_lists; [|rewrite Hsz, length_numbered; lia]. fold (contents m 2) in Hcon. unfold contents in Hcon. fold d in Hcon. by rewrite Hcon.
Qed.

(** The first file of [l] with its name in the directory [ino]. *)
Definition first_named (ino : Z) (l : list (list Z)) (j : nat) (nm : list Z) : Prop :=
  l !! j = Some nm /\ forall k n, (k < j)%nat -> l !! k = Some n -> short ino n <> short ino nm.

(** A program is at [/bin/x], a text file at [/x]; its inode is [n]. *)
Definition placed (path nm : list Z) (n : Z) : Prop :=
  (exists j, first_named 2 bin j nm /\ path = [47; 98; 105; 110; 47] ++ short 2 nm /\ n = 5 + Z.of_nat (length txt) + Z.of_nat j) \/
  (exists j, first_named 1 txt j nm /\ Forall (fun d => nm <> d.2) (root_list []) /\ path = 47 :: nm /\ n = 5 + Z.of_nat j).

Lemma elements_last x : x <> [] -> (47 ∉ x) -> elements (47 :: x) = [x].
Proof.
  intros Hne H47. change (47 :: x) with (slashes 1 ++ x). rewrite elements_slashes. unfold elements. rewrite <- (app_nil_r x) at 1.
  rewrite elements_name by done. by destruct x.
Qed.

Lemma clean_slash ino nm : clean ino nm -> 47 ∉ short ino nm.
Proof. intros ((_ & H & _) & _) Hin. rewrite Forall_forall in H. by apply (H 47); [apply list_elem_of_In|]. Qed.

(** An element of the path fills the kernel's array [name]. *)
Definition fills (path : list Z) : bool := existsb (fun x => Z.of_nat (length x) =? DIRSIZ) (elements path).

Lemma placed_resolves path nm n : placed path nm n ->
  head path = Some 47 /\ walkable V mkfs_sb false 1 (elements path) /\ resolve V mkfs_sb false 1 (elements path) = Some n /\
  overruns V mkfs_sb false 1 (elements path) = fills path.
Proof.
  destruct root_dir as (Hg & Hty & c & Hfind). destruct bin_dir as (Hg2 & Hty2 & Hfind2). pose proof image_count as Hct.
  intros [(j & (Hj & Hlow) & -> & ->)|(j & (Hj & Hlow) & Hbase & -> & ->)]; (split; [done|]).
  - pose proof (Forall_lookup_1 _ _ _ _ Hbin Hj) as Hc. pose proof Hc as (_ & Hne & _).
    unfold fills. assert (elements ([47; 98; 105; 110; 47] ++ short 2 nm) = [[98; 105; 110]; short 2 nm]) as ->.
    { change ([47; 98; 105; 110; 47] ++ short 2 nm) with (slashes 1 ++ [98; 105; 110] ++ (47 :: short 2 nm)). rewrite elements_slashes.
      unfold elements. rewrite elements_name by (rewrite !elem_of_cons, elem_of_nil; lia). cbn [app elements_from Z.eqb Pos.eqb]. f_equal.
      change (elements_from [] (short 2 nm)) with (elements (slashes 1 ++ short 2 nm)). apply (elements_last _ Hne). by apply clean_slash. }
    assert (dir_find V (dnode V mkfs_sb 1) [98; 105; 110] = Some 2) as E1 by (rewrite Hfind; reflexivity).
    assert (dir_find V (dnode V mkfs_sb 2) (short 2 nm) = Some (5 + Z.of_nat (length txt) + Z.of_nat j)) as E2.
    { rewrite Hfind2, <- (app_nil_r (numbered _ _ _)). apply find_numbered; (done || lia). }
    cbn [walkable resolve overruns existsb]. rewrite Hty, E1. cbv beta iota. rewrite Hty2, E2. by split_and!.
  - pose proof (Forall_lookup_1 _ _ _ _ Htxt Hj) as Hc. pose proof Hc as (_ & Hne & _). unfold fills. rewrite elements_last by (done || exact (clean_slash 1 nm Hc)).
    assert (dir_find V (dnode V mkfs_sb 1) nm = Some (5 + Z.of_nat j)) as E1.
    { rewrite Hfind. unfold root_list. rewrite <- app_assoc, find_name_skip; [apply (find_numbered 1); (done || lia)|].
      rewrite take_ge by exact (clean_length 1 nm Hc). exact Hbase. }
    cbn [walkable resolve overruns existsb]. rewrite Hty, E1. by split_and!.
Qed.

Lemma placed_file path nm n : placed path nm n -> exists f, image_files host txt bin !! Z.to_nat (n - 1) = Some f /\ 5 <= n < 200 /\ a_type f = 2 /\ a_data f = host nm.
Proof using Hfit.
  clear Hroot. pose proof image_count as Hc. unfold image_files. intros [(j & (Hj & _) & _ & ->)|(j & (Hj & _) & _ & _ & ->)]; pose proof (lookup_lt_Some _ _ _ Hj).
  - exists (file_of host 2 nm). split_and!; try done; try lia.
    rewrite lookup_app_r by (cbn; lia). rewrite lookup_app_r by (rewrite length_map; cbn; lia). rewrite list_lookup_fmap, length_map. cbn [length].
    replace (Z.to_nat (5 + Z.of_nat (length txt) + Z.of_nat j - 1) - 4 - length txt)%nat with j by lia. by rewrite Hj.
  - exists (file_of host 1 nm). split_and!; try done; try lia.
    rewrite lookup_app_r by (cbn; lia). rewrite lookup_app_l by (rewrite length_map; cbn; lia). rewrite list_lookup_fmap. cbn [length].
    replace (Z.to_nat (5 + Z.of_nat j - 1) - 4)%nat with j by lia. by rewrite Hj.
Qed.
End image.

(** ** Reading a file of the image *)

(** Finding a file and reading its first [n] bytes to [dst], as the loader does. *)
Definition read_named {DD : DiskDriver} (fuel : nat) (path name de dst n : Z) : M Z :=
  o <- namei fuel path name de ;;
  ilock o ;;
  match o with Some i => readi i false dst 0 n | None => ret 0 end.

(** C15: What mkfs writes, the kernel reads: on a disk with the image of mkfs, namei of
    /bin/x for a program and of /x for a text file of the command line leads to an inode
    from which readi, after ilock, delivers the bytes of the host's file, for every list
    of files of at most 12 KiB each that fits on the disk and whose root directory does
    not fill its last block; a name of exactly 14 characters instead makes namei overrun
    its name buffer. *)
Theorem image_readable {DD : DiskDriver} host prog txt bin :
  bin <> [] -> Forall not_option txt -> Forall not_option bin -> Forall (clean 1) txt -> Forall (clean 2) bin ->
  fits (image_files host txt bin) -> ((5 + length txt) mod 32 <> 0)%nat ->
  exists m, main host (command prog txt bin) = Some (0, m) /\
    forall p pr s e file nm ino path name de fuel dst n,
      walking ROOTDEV p pr (im_img m) mkfs_sb None s -> 2 <= unused_entries (k_itable s) ->
      placed txt bin file nm ino -> path_at (k_mem s) path name de file -> (length file < fuel)%nat ->
      0 <= n < 2 ^ 32 -> 0 <= dst -> dst + n < 2 ^ 64 ->
      let c := Z.min n (Z.of_nat (length (host nm))) in
      if fills file then read_named fuel path name de dst n s e = Undef "name[DIRSIZ]"
      else exists s', read_named fuel path name de dst n s e = Ret c s' e /\
        forall j, 0 <= j < c -> k_mem s' (dst + j) = nth (Z.to_nat j) (host nm) 0.
Proof.
  intros Hb O1 O2 C1 C2 Hfit Hroot. assert (forall ino l, Forall (clean ino) l -> Forall (name_ok ino) l) as Hnm by (intros ino l H; revert H; apply List.Forall_impl; by intros x []).
  destruct (main_final host prog txt bin) as (m & E & Hfin); try done; try (by apply Hnm). exists m. split; [done|].
  intros p pr s e file nm ino path name de fuel dst n Hw Hu Hpl Hpa Hf Hn Hd0 Hd c.
  destruct (placed_resolves host txt bin m Hfin Hfit C1 C2 Hroot file nm ino Hpl) as (Hh & Hwalk & Hres & Hov).
  destruct (placed_file host txt bin Hfit file nm ino Hpl) as (f & Hk & Hino & Hty & Hdata).
  destruct (fi_file _ _ _ Hfin _ f Hk ltac:(lia)) as [(Hty' & _ & _ & _ & _ & Hsz) Hcon]. pose proof (fi_blocks _ _ _ Hfin _ f Hk) as Hblk.
  replace (1 + Z.of_nat (Z.to_nat (ino - 1))) with ino in * by lia.
  pose proof (data_size host txt bin Hfit _ f Hk) as Hs12. assert (size_of f = Z.of_nat (length (host nm))) as Hlen by (unfold size_of; by rewrite Hdata).
  assert (starts_at pr (k_itable s) file 1) as Hst by (unfold starts_at; by rewrite bool_decide_true).
  pose proof (namex_run p pr (im_img m) mkfs_sb path name de file false 1 fuel s e Hw Hu Hpa Hf Hst Hwalk) as Hnx.
  rewrite Hov in Hnx. destruct (fills file); [unfold read_named, namei, bind; by rewrite Hnx|].
  destruct Hnx as (r & s1 & R1 & F1 & W1 & _).
  rewrite Hres in F1. destruct F1 as (i & ip & -> & He & _).
  assert (dnode (im_img m) mkfs_sb ino = inode_at m ino) as Hdn by (apply dnode_at; lia).
  destruct (ilock_run ROOTDEV p pr (im_img m) mkfs_sb s1 e i ino ip W1 He) as (s2 & ip2 & R2 & W2 & [_ M2] & T2 & He2 & _ & Ev2); [by rewrite Hdn, Hty', Hty|].
  destruct He2 as (Hi2 & Hr2 & Hd2 & Hn2).
  destruct (loaded_entry (im_img m) mkfs_sb ino ip2 (to_loaded _ _ _ _ _ _ (wk_table _ _ _ _ _ _ _ W2) i ip2 Hi2 Hr2 Hd2 Ev2) Hn2) as (_ & Esz & Ead & _).
  rewrite Hdn in Esz, Ead. rewrite Hsz in Esz.
  pose proof (wk_idle _ _ _ _ _ _ _ W2) as Hidle.
  destruct (readi_run ROOTDEV p pr i ip2 s2 s2 e dst 0 n) as (s3 & R3 & _ & M3 & _); try done; try lia.
  { apply (fi_session _ _ _ _ _ _ Hidle). }
  { intros k Hk'. destruct (Hblk k) as (a & H1 & H2 & H3 & H4); [unfold nblk; zmod|]. exists a. rewrite Ead, (fi_view _ _ _ _ _ _ Hidle). done. }
  rewrite Esz, Z.sub_0_r, Hlen in R3, M3. fold c in R3, M3. exists s3. split.
  - unfold read_named. kstep R1. kstep R2. exact R3.
  - intros j Hj. rewrite M3, store_bytes_in by (rewrite length_file_bytes; lia). replace (dst + j - dst) with j by lia.
    assert (file_bytes (im_img m) (inode_at m ino) 0 (size_of f) = host nm) as <- by (rewrite <- Hdata, <- Hcon; unfold contents; by rewrite Hsz).
    rewrite (file_bytes_split _ (inode_at m ino) 0 c (size_of f)) by lia. rewrite app_nth1 by (rewrite length_file_bytes; lia). f_equal.
    unfold file_bytes. apply map_ext. intros k. unfold file_byte. by rewrite Ead, (fi_view _ _ _ _ _ _ Hidle).
Qed.

(** "/bin/sh" at address 1000. *)
Definition bin_sh : list Z := [47; 98; 105; 110; 47; 115; 104].

Lemma bin_sh_at : path_at (store_bytes (fun _ => 0) 1000 bin_sh) 1000 500 4096 bin_sh.
Proof.
  split.
  - intros j c Hj. do 8 (destruct j as [|j]; [injection Hj as <-; reflexivity|]). done.
  - unfold bin_sh. intros c Hc. repeat (apply elem_of_cons in Hc as [->|Hc]; [done|]). by apply elem_of_nil in Hc.
  - unfold bin_sh, DIRENT; cbn; lia.
  - unfold apart, DIRSIZ, DIRENT; cbn; lia.
  - unfold DIRSIZ, DIRENT. lia.
Qed.

(** The program of an image with two files, each with its path and a newline as contents. *)
Lemma image_readable_witness : exists m s s',
  main (fun n => n ++ [10]) (command [109] [name_init] [path_sh]) = Some (0, m) /\
  k_mem s = store_bytes (fun _ => 0) 1000 bin_sh /\
  read_named (DD := polled_disk) 8 1000 500 4096 8192 200 s [] = Ret 15 s' [] /\ k_mem s' (8192 + 14) = 10.
Proof.
  assert (Forall (clean 1) [name_init] /\ Forall (clean 2) [path_sh]) as [C1 C2].
  { split; apply Forall_singleton; (split; [split; [|split]|split; [done|]]).
    - by left.
    - repeat (apply list.Forall_cons; split; [done|]). constructor.
    - by vm_compute.
    - repeat (apply list.Forall_cons; split; [done|]). constructor.
    - right. cbn. lia.
    - repeat (apply list.Forall_cons; split; [done|]). constructor.
    - by vm_compute.
    - repeat (apply list.Forall_cons; split; [done|]). constructor. }
  destruct (image_readable (DD := polled_disk) (fun n => n ++ [10]) [109] [name_init] [path_sh]) as (m & E & H).
  - discriminate.
  - repeat constructor; discriminate.
  - repeat constructor; discriminate.
  - exact C1.
  - exact C2.
  - split; [vm_compute; reflexivity|]. split; [|vm_compute; discriminate]. repeat constructor; vm_compute; discriminate.
  - discriminate.
  - destruct (boot_walk (im_img m) mkfs_sb (store_bytes (fun _ => 0) 1000 bin_sh)) as (s & Hw & HT & Hm).
    assert (fills bin_sh = false) as Hfl by reflexivity.
    pose proof (H 0%nat proc0 s [] bin_sh path_sh 6 1000 500 4096 8%nat 8192 200) as H'. rewrite Hfl in H'. destruct H' as (s' & R & Hb);
      [exact Hw | | | | | lia | lia | lia |].
    + rewrite HT. vm_compute. discriminate.
    + left. exists 0%nat. split; [split; [reflexivity | intros k x Hk; lia] | split; reflexivity].
    + rewrite Hm. exact bin_sh_at.
    + cbn. lia.
    + exists m, s, s'. split_and!; [exact E | exact Hm | exact R | apply (Hb 14); vm_compute; split; (reflexivity || discriminate)].
Defined.
