(* ===== verification/Boot.v ===== *)
(** * Start-up ([main.cpp], the machine-mode registers of [arch/riscv.h])

    [start] runs in machine mode on every hart: it prepares the registers and
    enters [main] in supervisor mode with [mret].  [main] sets up the kernel on hart
    0 and waits for that on the others.  [main] is modelled up to the call of
    [scheduler]. *)

From S2P Require Import Prelude State Riscv Lock Sched Kalloc Vm Console Bio Log Fs File Proc Sysfile Virtio Trap SysSpec Text Fmt.

Import Uart (ready).

(** ** Machine mode *)

(** The registers [start] uses, the privilege mode and the program counter. *)
Record mregs := Mk_mregs {
  m_mode : Z;
  m_pc : Z;
  m_mhartid : Z;
  m_mstatus : Z;
  m_mepc : Z;
  m_mie : Z;
  m_menvcfg : Z;
  m_mcounteren : Z;
  m_medeleg : Z;
  m_mideleg : Z;
  m_pmpaddr0 : Z;
  m_pmpcfg0 : Z;
  m_time : Z;
  m_stimecmp : Z;
  m_satp : Z;
  m_sie : Z;
  m_tp : Z
}.

Definition MSTATUS_MPP_MASK : Z := Z.shiftl 3 11.
Definition MSTATUS_MPP_S : Z := Z.shiftl 1 11.
Definition MIE_STIE : Z := Z.shiftl 1 5.
Definition SIE_SEIE : Z := Z.shiftl 1 9.
Definition SIE_STIE : Z := Z.shiftl 1 5.
Definition SIE_SSIE : Z := Z.shiftl 1 1.

Definition r_mhartid (m : mregs) : Z := m_mhartid m.
Definition r_mie (m : mregs) : Z := m_mie m.
Definition r_menvcfg (m : mregs) : Z := m_menvcfg m.
Definition r_mcounteren (m : mregs) : Z := m_mcounteren m.
Definition r_mstatus (m : mregs) : Z := m_mstatus m.
Definition m_r_time (m : mregs) : Z := m_time m.
Definition r_sie (m : mregs) : Z := m_sie m.
Definition w_mstatus (v : Z) (m : mregs) : mregs :=
  Mk_mregs (m_mode m) (m_pc m) (m_mhartid m) v (m_mepc m) (m_mie m) (m_menvcfg m) (m_mcounteren m) (m_medeleg m) (m_mideleg m) (m_pmpaddr0 m) (m_pmpcfg0 m) (m_time m) (m_stimecmp m) (m_satp m) (m_sie m) (m_tp m).
Definition w_mepc (v : Z) (m : mregs) : mregs :=
  Mk_mregs (m_mode m) (m_pc m) (m_mhartid m) (m_mstatus m) v (m_mie m) (m_menvcfg m) (m_mcounteren m) (m_medeleg m) (m_mideleg m) (m_pmpaddr0 m) (m_pmpcfg0 m) (m_time m) (m_stimecmp m) (m_satp m) (m_sie m) (m_tp m).
Definition w_mie (v : Z) (m : mregs) : mregs :=
  Mk_mregs (m_mode m) (m_pc m) (m_mhartid m) (m_mstatus m) (m_mepc m) v (m_menvcfg m) (m_mcounteren m) (m_medeleg m) (m_mideleg m) (m_pmpaddr0 m) (m_pmpcfg0 m) (m_time m) (m_stimecmp m) (m_satp m) (m_sie m) (m_tp m).
Definition w_menvcfg (v : Z) (m : mregs) : mregs :=
  Mk_mregs (m_mode m) (m_pc m) (m_mhartid m) (m_mstatus m) (m_mepc m) (m_mie m) v (m_mcounteren m) (m_medeleg m) (m_mideleg m) (m_pmpaddr0 m) (m_pmpcfg0 m) (m_time m) (m_stimecmp m) (m_satp m) (m_sie m) (m_tp m).
Definition w_mcounteren (v : Z) (m : mregs) : mregs :=
  Mk_mregs (m_mode m) (m_pc m) (m_mhartid m) (m_mstatus m) (m_mepc m) (m_mie m) (m_menvcfg m) v (m_medeleg m) (m_mideleg m) (m_pmpaddr0 m) (m_pmpcfg0 m) (m_time m) (m_stimecmp m) (m_satp m) (m_sie m) (m_tp m).
Definition w_medeleg (v : Z) (m : mregs) : mregs :=
  Mk_mregs (m_mode m) (m_pc m) (m_mhartid m) (m_mstatus m) (m_mepc m) (m_mie m) (m_menvcfg m) (m_mcounteren m) v (m_mideleg m) (m_pmpaddr0 m) (m_pmpcfg0 m) (m_time m) (m_stimecmp m) (m_satp m) (m_sie m) (m_tp m).
Definition w_mideleg (v : Z) (m : mregs) : mregs :=
  Mk_mregs (m_mode m) (m_pc m) (m_mhartid m) (m_mstatus m) (m_mepc m) (m_mie m) (m_menvcfg m) (m_mcounteren m) (m_medeleg m) v (m_pmpaddr0 m) (m_pmpcfg0 m) (m_time m) (m_stimecmp m) (m_satp m) (m_sie m) (m_tp m).
Definition w_pmpaddr0 (v : Z) (m : mregs) : mregs :=
  Mk_mregs (m_mode m) (m_pc m) (m_mhartid m) (m_mstatus m) (m_mepc m) (m_mie m) (m_menvcfg m) (m_mcounteren m) (m_medeleg m) (m_mideleg m) v (m_pmpcfg0 m) (m_time m) (m_stimecmp m) (m_satp m) (m_sie m) (m_tp m).
Definition w_pmpcfg0 (v : Z) (m : mregs) : mregs :=
  Mk_mregs (m_mode m) (m_pc m) (m_mhartid m) (m_mstatus m) (m_mepc m) (m_mie m) (m_menvcfg m) (m_mcounteren m) (m_medeleg m) (m_mideleg m) (m_pmpaddr0 m) v (m_time m) (m_stimecmp m) (m_satp m) (m_sie m) (m_tp m).
Definition m_w_stimecmp (v : Z) (m : mregs) : mregs :=
  Mk_mregs (m_mode m) (m_pc m) (m_mhartid m) (m_mstatus m) (m_mepc m) (m_mie m) (m_menvcfg m) (m_mcounteren m) (m_medeleg m) (m_mideleg m) (m_pmpaddr0 m) (m_pmpcfg0 m) (m_time m) v (m_satp m) (m_sie m) (m_tp m).
Definition m_w_satp (v : Z) (m : mregs) : mregs :=
  Mk_mregs (m_mode m) (m_pc m) (m_mhartid m) (m_mstatus m) (m_mepc m) (m_mie m) (m_menvcfg m) (m_mcounteren m) (m_medeleg m) (m_mideleg m) (m_pmpaddr0 m) (m_pmpcfg0 m) (m_time m) (m_stimecmp m) v (m_sie m) (m_tp m).
Definition w_sie (v : Z) (m : mregs) : mregs :=
  Mk_mregs (m_mode m) (m_pc m) (m_mhartid m) (m_mstatus m) (m_mepc m) (m_mie m) (m_menvcfg m) (m_mcounteren m) (m_medeleg m) (m_mideleg m) (m_pmpaddr0 m) (m_pmpcfg0 m) (m_time m) (m_stimecmp m) (m_satp m) v (m_tp m).
Definition w_tp (v : Z) (m : mregs) : mregs :=
  Mk_mregs (m_mode m) (m_pc m) (m_mhartid m) (m_mstatus m) (m_mepc m) (m_mie m) (m_menvcfg m) (m_mcounteren m) (m_medeleg m) (m_mideleg m) (m_pmpaddr0 m) (m_pmpcfg0 m) (m_time m) (m_stimecmp m) (m_satp m) (m_sie m) v.

Definition timerinit (m : mregs) : mregs :=
  let m := w_mie (Z.lor (r_mie m) MIE_STIE) m in
  let m := w_menvcfg (Z.lor (r_menvcfg m) (Z.shiftl 1 63)) m in
  let m := w_mcounteren (Z.lor (r_mcounteren m) 2) m in
  m_w_stimecmp (u64 (m_r_time m + 1000000)) m.

(** The instruction: the mode of the field MPP (bits 11 and 12), MIE (bit 3) from MPIE
    (bit 7), which is set, and MPP cleared. *)
Definition mret (m : mregs) : mregs :=
  let st := m_mstatus m in
  let cleared := Z.land st (not64 (Z.lor MSTATUS_MPP_MASK 8)) in
  let st' := Z.lor (Z.lor cleared (Z.shiftl (Z.land (Z.shiftr st 7) 1) 3)) (Z.shiftl 1 7) in
  Mk_mregs (Z.land (Z.shiftr st 11) 3) (m_mepc m) (m_mhartid m) st' (m_mepc m) (m_mie m) (m_menvcfg m) (m_mcounteren m) (m_medeleg m) (m_mideleg m) (m_pmpaddr0 m) (m_pmpcfg0 m) (m_time m) (m_stimecmp m) (m_satp m) (m_sie m) (m_tp m).

(** [main] is the address of the function. *)
Definition start (main : Z) (m : mregs) : mregs :=
  let mstatus := r_mstatus m in
  let mstatus := Z.land mstatus (not64 MSTATUS_MPP_MASK) in
  let mstatus := Z.lor mstatus MSTATUS_MPP_S in
  let m := w_mstatus mstatus m in
  let m := w_mepc main m in
  let m := m_w_satp 0 m in
  let m := w_medeleg 0xffff m in
  let m := w_mideleg 0xffff m in
  let m := w_sie (Z.lor (Z.lor (Z.lor (r_sie m) SIE_SEIE) SIE_STIE) SIE_SSIE) m in
  let m := w_pmpaddr0 0x3fffffffffffff m in
  let m := w_pmpcfg0 0xf m in
  let m := timerinit m in
  let id := r_mhartid m in
  let m := w_tp id m in
  mret m.

(** Bits of the words that are written. *)
Lemma testbit_not64 x i : 0 <= i < 64 -> Z.testbit (not64 x) i = negb (Z.testbit x i).
Proof. intros H. unfold not64, u64. rewrite Z.mod_pow2_bits_low by lia. apply Z.lnot_spec. lia. Qed.

Lemma testbit_bit n i : 0 <= n -> Z.testbit (Z.shiftl 1 n) i = (i =? n).
Proof. intros H. rewrite Z.shiftl_1_l, Z.pow2_bits_eqb by done. apply Z.eqb_sym. Qed.

Lemma testbit_small x n i : 0 <= x < 2 ^ n -> 0 <= n <= i -> Z.testbit x i = false.
Proof. intros Hx Hi. rewrite <- (Z.mod_small x (2 ^ n)) by lia. apply Z.mod_pow2_bits_high. lia. Qed.

Lemma testbit_low_bit x i : 0 <= i -> Z.testbit (Z.land x 1) i = Z.testbit x 0 && (i =? 0).
Proof. intros Hi. rewrite Z.land_spec. change 1 with (Z.shiftl 1 0). rewrite testbit_bit by lia. destruct (Z.eqb_spec i 0) as [->|]; [done | by rewrite !andb_false_r]. Qed.

Lemma testbit_mpp_mask i : Z.testbit MSTATUS_MPP_MASK i = (i =? 11) || (i =? 12).
Proof. change MSTATUS_MPP_MASK with (Z.lor (Z.shiftl 1 11) (Z.shiftl 1 12)). by rewrite Z.lor_spec, !testbit_bit. Qed.

(** The previous mode that [start] stores is supervisor. *)
Lemma start_mpp st : Z.land (Z.shiftr (Z.lor (Z.land st (not64 MSTATUS_MPP_MASK)) MSTATUS_MPP_S) 11) 3 = 1.
Proof.
  apply Z.bits_inj'. intros k Hk. rewrite Z.land_spec, Z.shiftr_spec, Z.lor_spec, Z.land_spec by done. unfold MSTATUS_MPP_S. rewrite testbit_bit by lia.
  destruct (decide (k = 0)) as [->|H0]; [by rewrite orb_true_r|]. change 1 with (Z.shiftl 1 0). rewrite testbit_bit by lia. rewrite (proj2 (Z.eqb_neq k 0)) by done.
  rewrite (proj2 (Z.eqb_neq (k + 11) 11)) by lia. rewrite orb_false_r. destruct (decide (k = 1)) as [->|H1].
  - rewrite testbit_not64, testbit_mpp_mask by lia. by rewrite !andb_false_r.
  - rewrite (testbit_small 3 2) by lia. apply andb_false_r.
Qed.

(** Bits that neither [start] nor [mret] changes. *)
Lemma start_mstatus st i : in64 st -> i <> 3 -> i <> 7 -> i <> 11 -> i <> 12 ->
  let st1 := Z.lor (Z.land st (not64 MSTATUS_MPP_MASK)) MSTATUS_MPP_S in
  Z.testbit (Z.lor (Z.lor (Z.land st1 (not64 (Z.lor MSTATUS_MPP_MASK 8))) (Z.shiftl (Z.land (Z.shiftr st1 7) 1) 3)) (Z.shiftl 1 7)) i = Z.testbit st i.
Proof.
  intros Hst H3 H7 H11 H12 st1. destruct (decide (i < 0)) as [Hneg|Hpos]; [by rewrite !Z.testbit_neg_r|].
  rewrite !Z.lor_spec, Z.land_spec, Z.shiftl_spec, !testbit_bit by lia. rewrite (proj2 (Z.eqb_neq i 7)) by done. rewrite orb_false_r.
  assert (Z.testbit (Z.land (Z.shiftr st1 7) 1) (i - 3) = false) as ->.
  { destruct (decide (i < 3)) as [Hl|Hl]; [by rewrite Z.testbit_neg_r by lia|]. rewrite testbit_low_bit by lia. rewrite (proj2 (Z.eqb_neq (i - 3) 0)) by lia. apply andb_false_r. }
  rewrite orb_false_r. assert (Z.testbit st1 i = Z.testbit st i && Z.testbit (not64 MSTATUS_MPP_MASK) i) as ->.
  { unfold st1, MSTATUS_MPP_S. rewrite Z.lor_spec, Z.land_spec, testbit_bit by lia. rewrite (proj2 (Z.eqb_neq i 11)) by done. apply orb_false_r. }
  destruct (decide (i < 64)) as [Hl|Hl].
  - rewrite !testbit_not64, Z.lor_spec, !testbit_mpp_mask by lia. change 8 with (Z.shiftl 1 3). rewrite testbit_bit by lia.
    rewrite !(proj2 (Z.eqb_neq i _)) by done. by rewrite !andb_true_r.
  - rewrite (testbit_small st 64) by (done || lia). done.
Qed.

(** start enters main in supervisor mode with paging off, all traps delegated, the
    supervisor and timer interrupt enables set and no other, the next timer one million
    ticks ahead and the hart number in tp, and changes no bit of mstatus but MPP, MIE
    and MPIE. *)
Theorem start_enters_main main m : in64 (m_mstatus m) ->
  let m' := start main m in
  m_mode m' = 1 /\ m_pc m' = main /\ m_satp m' = 0 /\ m_tp m' = m_mhartid m /\ m_medeleg m' = 0xffff /\ m_mideleg m' = 0xffff /\
  (forall i, Z.testbit (m_sie m') i = Z.testbit (m_sie m) i || (i =? 9) || (i =? 5) || (i =? 1)) /\
  (forall i, Z.testbit (m_mie m') i = Z.testbit (m_mie m) i || (i =? 5)) /\
  m_stimecmp m' = u64 (m_time m + 1000000) /\
  (forall i, i <> 3 -> i <> 7 -> i <> 11 -> i <> 12 -> Z.testbit (m_mstatus m') i = Z.testbit (m_mstatus m) i).
Proof.
  intros Hm m'. split_and!; try done.
  - exact (start_mpp (m_mstatus m)).
  - intros i. cbn. unfold SIE_SEIE, SIE_STIE, SIE_SSIE. by rewrite !Z.lor_spec, !testbit_bit by lia.
  - intros i. cbn. unfold MIE_STIE. by rewrite Z.lor_spec, testbit_bit by lia.
  - intros i H3 H7 H11 H12. exact (start_mstatus (m_mstatus m) i Hm H3 H7 H11 H12).
Qed.

Lemma start_enters_main_witness : let m := Mk_mregs 3 0 2 (2 ^ 63 + 0x1888) 0 0 0 0 0 0 0 0 5 0 7 0 0 in
  m_mode (start 0x80001000 m) = 1 /\ m_pc (start 0x80001000 m) = 0x80001000 /\ m_tp (start 0x80001000 m) = 2.
Proof. intros m. destruct (start_enters_main 0x80001000 m) as (H1 & H2 & _ & H3 & _); [cbn; unfold in64; lia|]. by split; [|split]. Defined.

(** ** [main] *)

Section boot.
Context {LY : Layout}.

Definition main_hart0 : M unit :=
  console_init ;;
  print [10] [] ;;
  print_log INFO (chars "console init successful" ++ [10]) ;;
  kinit sym_end ;;
  Vm.init sizeof_process sym_etext sym_trampoline ;;
  vm_inithart ;;
  print_log INFO (chars "vm init successful" ++ [10]) ;;
  Proc.init ;;
  print_log INFO (chars "proc init successful" ++ [10]) ;;
  trap_inithart ;;
  plic_init ;;
  plic_inithart ;;
  binit ;;
  print_log INFO (chars "file system init successful" ++ [10]) ;;
  Virtio.init ;;
  print_log INFO (chars "disk init successful" ++ [10]) ;;
  user_init.

(** [while (started == false)]: the hart waits as long as [started] is not set. *)
Definition await_started (started : bool) : M unit := if started then ret tt else fun s _ => Blocked s.

Definition main_hart (started : bool) : M unit :=
  await_started started ;;
  id <- cpuid ;;
  print (chars "hart {} starting" ++ [10]) [FInt 32 false (Z.of_nat id)] ;;
  vm_inithart ;;
  trap_inithart ;;
  plic_inithart.

Definition main (started : bool) : M unit :=
  id <- cpuid ;;
  if (id =? 0)%nat then main_hart0 else main_hart started.

(** A further hart waits until hart 0 has set [started]; then it announces its number
    and installs the page table, the trap vector and its interrupt controller lines. *)
Theorem hart_joins s e : hl_tp (k_hl s) <> 0%nat -> Z.of_nat (hl_tp (k_hl s)) < 2 ^ 32 ->
  room 2 (k_hl s) -> nested (k_hl s) -> Lock.free L_pr (k_hl s) -> ready 60 (k_uart s) ->
  let id := Z.of_nat (hl_tp (k_hl s)) in
  main false s e = Blocked s /\
  exists t, main true s e =
      Ret tt (set_k_io (set_io_out ((io_out (k_io s) ++ [(u32 (id * 0x100) + PLIC + 0x2080, 0x402)]) ++ [(u32 (id * 0x2000) + PLIC + 0x201000, 0)]) (k_io s))
        (set_k_csr (set_cs_stvec sym_kernelvec (set_cs_satp (MAKE_SATP (k_kpt s)) (k_csr s))) (sent (chars "hart " ++ t ++ chars " starting" ++ [10]) s))) e /\
    parse_int 10 t = Some id.
Proof.
  intros H0 Hid Hr Hn Hf Hu id. pose proof (proj2 (Nat.eqb_neq _ _) H0) as E0. split; [unfold main, cpuid; rewrite bind_gets, E0; done|].
  destruct (print_run [(chars "hart ", false)] [FInt 32 false id] (chars " starting" ++ [10]) s e) as (ts & E & Ht); try done.
  - constructor; [apply seg_by_test; reflexivity | constructor].
  - constructor; [cbn; lia | constructor].
  - apply bytes_by_test. reflexivity.
  - destruct Hu. split; [cbn; lia | done].
  - inversion Ht as [|? ? t ? ? ? Hp Hnil]; subst. inversion Hnil; subst. exists t. split; [|exact (proj1 Hp)].
    unfold main, cpuid. rewrite bind_gets, E0. unfold main_hart, await_started. rewrite bind_ret. unfold cpuid. rewrite bind_gets. fold id.
    eapply eq_trans; [apply (bind_Ret _ _ _ _ tt); exact E|]. reflexivity.
Qed.
End boot.

(** Hart 1. *)
Lemma hart_joins_witness : let s := set_k_uart (Mk_uartst (zeros 32) 0 0 (replicate 60 32) [] [] 0) (set_k_hl (set_hl_tp 1 hl_run) kernel0) in
  main (LY := layout0) false s [] = Blocked s /\ exists t s', main (LY := layout0) true s [] = Ret tt s' [] /\ parse_int 10 t = Some 1.
Proof.
  intros s. destruct (hart_joins (LY := layout0) s []) as (H1 & t & H2 & H3).
  - discriminate.
  - reflexivity.
  - split; [by eexists|]. vm_compute. split; [discriminate | reflexivity].
  - reflexivity.
  - reflexivity.
  - split; [cbn; lia | apply Forall_replicate; discriminate].
  - split; [exact H1|]. exists t. eexists. split; [exact H2 | exact H3].
Defined.
