(* ===== verification/Typed.v ===== *)
(** * Well-typed kernels: the data invariant and its program logic

    The C++ types of the kernel's data as a predicate [typed] on the state:
    every fixed-size array has its declared length, and every pointer into a
    static table points into that table ([proc_list], [cpu_list],
    [bcache.buf], [itable], [ftable], the descriptors of a process and of the
    disk queue).  [safe m Q] says that the kernel function [m], started on a
    typed kernel, leaves it typed however it ends, returns a value that
    satisfies [Q], and that the only undefined behaviours it can meet are
    those of the list [unchecked].  The rules of the logic and the functions
    below the file system are in this file; [TypedSys] has the rest. *)

From S2P Require Import Text Fmt Prelude State Riscv Cstring Lock Sched Kalloc Vm UserCopy Pipe Console Bio.

(** ** Types of the data *)

(** A pointer into a table of [n] elements, or a null pointer. *)
Definition ptr (n : nat) (o : option nat) : Prop :=
  match o with Some i => (i < n)%nat | None => True end.

(** An array of [n] elements. *)
Definition array {A} (n : nat) (P : A -> Prop) (l : list A) : Prop := length l = n /\ Forall P l.

Definition bytes_of (n : Z) (l : list Z) : Prop := length l = Z.to_nat n.

Record typed_proc (p : process) : Prop := {
  tp_name : bytes_of 32 (p_name p);
  tp_ofile : array NOFILE (ptr NFILE) (p_ofile p);
  tp_parent : ptr NPROC (p_parent p);
  tp_cwd : ptr NINODE (p_cwd p)
}.

(** The links of a buffer may point to the list head, element [NBUF]. *)
Record typed_buf (b : buf) : Prop := {
  tb_data : bytes_of BSIZE (b_data b);
  tb_prev : (b_prev b < S NBUF)%nat;
  tb_next : (b_next b < S NBUF)%nat
}.

Definition typed_pipe (p : pipe) : Prop := bytes_of PIPESIZE (pi_data p).

Definition typed_inode (ip : inode) : Prop := length (i_addrs ip) = 13%nat.

(** A file that is an inode or a device has its inode. *)
Definition typed_file (f : file) : Prop :=
  ptr NINODE (f_ip f) /\
  match f_type f with FD_INODE | FD_DEVICE => is_Some (f_ip f) | _ => True end.

(** A hart in a system call runs a process. *)
Record typed_hart (h : hartlocks) : Prop := {
  th_cpus : array NCPU (fun c => ptr NPROC (c_proc c)) (hl_cpus h);
  th_tp : (hl_tp h < NCPU)%nat;
  th_cur : is_Some (c_proc (cur h))
}.

Record typed_vdisk (d : vdisk) : Prop := {
  tv_desc : array NUM (fun ds => 0 <= d_next ds < Z.of_nat NUM) (vd_desc d);
  tv_free : length (vd_free d) = NUM;
  tv_used : array NUM (fun id => 0 <= id < Z.of_nat NUM) (us_ring d);
  tv_info : array NUM (ptr NBUF) (vd_info_b d);
  tv_status : length (vd_info_status d) = NUM
}.

Record typed (s : kernel) : Prop := {
  ty_hart : typed_hart (k_hl s);
  ty_procs : array NPROC typed_proc (k_procs s);
  ty_init : ptr NPROC (k_init_proc s);
  ty_pipes : map_Forall (fun _ => typed_pipe) (k_pipes s);
  ty_cons : bytes_of INPUT_BUF_SIZE (cn_buf (k_cons s));
  ty_uart : bytes_of UART_TX_BUF_SIZE (tx_buf (k_uart s));
  ty_bufs : array (S NBUF) typed_buf (k_bufs s);
  ty_disk : forall n, bytes_of BSIZE (k_disk s n);
  ty_log : bytes_of LOGSIZE (lh_block (lg_lh (k_log s)));
  ty_itable : array NINODE typed_inode (k_itable s);
  ty_ftable : array NFILE typed_file (k_ftable s);
  ty_devsw : length (k_devsw s) = NDEV;
  ty_vd : typed_vdisk (k_vd s)
}.

(** ** The logic *)

(** The undefined behaviours the types do not exclude: dangling or null
    pointers ([pipe], the current directory, [p->user], an empty optional, the
    buffer of a completed request), indices that come from the caller, a file or the disk, and the pipe object
    that [pipealloc] puts in a slot of the file table, the two arrays of a directory
    entry's name that are too short for a name of 14 characters, and the negation of the
    least integer in the printing of a number. *)
Definition unchecked : list string :=
  ["pipe"; "ip->addrs"; "log.lh.block"; "optional::value"; "argv[i]"; "cwd"; "p->cwd"; "p->user";
   "strncpy past p->name"; "fetch_str: past the buffer"; "pipealloc: pipe object outside its slot";
   "syscalls[num]"; "null buf"; "name[DIRSIZ]"; "strncpy past de.name"; "-arg"].

(** What the rest of the machine does keeps the kernel typed. *)
Definition tame (f : kernel -> kernel) : Prop := forall s, typed s -> typed (f s).

(** [NoFuel] is a loop that runs past the bound of the model: over a list that other
    code can make cyclic, over an unterminated string or path, over a device that
    never answers.  Such a run is not followed to its end: what is shown holds of every
    run that ends within the bounds. *)
Definition fine {A} (Q : A -> Prop) (o : outcome A) : Prop :=
  match o with
  | Ret a s e => typed s /\ Forall tame e /\ Q a
  | Panic _ s | Blocked s => typed s
  | Undef w => w ∈ unchecked
  | NoFuel => True
  end.

Definition safe {A} (m : M A) (Q : A -> Prop) : Prop :=
  forall s e, typed s -> Forall tame e -> fine Q (m s e).

(** No information about the result. *)
Definition any {A} : A -> Prop := fun _ => True.
#[export] Hint Extern 0 (any _) => exact I : core.

Section rules.
Context {A B : Type}.

Lemma safe_weaken (m : M A) (R Q : A -> Prop) : safe m R -> (forall a, R a -> Q a) -> safe m Q.
Proof.
  intros Hm Hi s e Hs He. specialize (Hm s e Hs He). destruct (m s e); simpl in *; intuition.
Qed.

Lemma safe_bind (m : M A) (f : A -> M B) (R : A -> Prop) (Q : B -> Prop) :
  safe m R -> (forall a, R a -> safe (f a) Q) -> safe (bind m f) Q.
Proof.
  intros Hm Hf s e Hs He. unfold bind. specialize (Hm s e Hs He).
  destruct (m s e) as [a s' e' | | | |]; simpl in *; try done.
  destruct Hm as (? & ? & ?). by apply Hf.
Qed.

Lemma safe_ret (a : A) (Q : A -> Prop) : Q a -> safe (ret a) Q.
Proof. by intros ? s e. Qed.

Lemma safe_gets (f : kernel -> A) : safe (gets f) (fun a => exists s, typed s /\ a = f s).
Proof. intros s e ??. simpl. eauto. Qed.

Lemma safe_panic msg (Q : A -> Prop) : safe (panic msg) Q.
Proof. by intros s e. Qed.

Lemma safe_undef w (Q : A -> Prop) : w ∈ unchecked -> safe (undef w) Q.
Proof. by intros ? s e. Qed.

Lemma safe_nofuel (Q : A -> Prop) : safe (fun _ _ => NoFuel) Q.
Proof. by intros s e. Qed.

(** An element of a table: in range, or among the unchecked accesses. *)
Lemma safe_of_option w (o : option A) :
  (o = None -> w ∈ unchecked) -> safe (of_option w o) (fun a => o = Some a).
Proof. intros H. destruct o; [by apply safe_ret | apply safe_undef; auto]. Qed.

(** Fuel computed from the state. *)
Lemma safe_fuel (m : kernel -> environment -> M A) (Q : A -> Prop) :
  (forall s e, safe (m s e) Q) -> safe (fun s e => m s e s e) Q.
Proof. intros H s e. apply H. Qed.
End rules.

(** A pointer: not null, or a null pointer is among the unchecked accesses. *)
Lemma safe_some w n o : ptr n o -> is_Some o -> safe (of_option w o) (fun i => i < n)%nat.
Proof. intros Ho [i ->]. by apply safe_ret. Qed.

Lemma safe_ptr w n o : ptr n o -> w ∈ unchecked -> safe (of_option w o) (fun i => i < n)%nat.
Proof. intros Ho Hw. destruct o; [by apply safe_ret | by apply safe_undef]. Qed.

Lemma safe_modify f : tame f -> safe (modify f) any.
Proof. intros H s e ??. simpl. by auto. Qed.

Lemma safe_await : safe await any.
Proof. intros s [|f e] Hs He; [done|]. inversion He; subst. simpl. auto. Qed.

Lemma safe_when b m : (b = true -> safe m any) -> safe (when b m) any.
Proof. intros H. destruct b; [auto | by apply safe_ret]. Qed.

Lemma safe_while n c body : safe c any -> safe body any -> safe (while n c body) any.
Proof.
  intros Hc Hb. induction n as [|n IH]; [apply safe_nofuel|]. cbn [while].
  eapply safe_bind; [done|]. intros [] _; [|by apply safe_ret].
  eapply safe_bind; eauto.
Qed.

Lemma safe_while_waiting c body : safe c any -> safe body any -> safe (while_waiting c body) any.
Proof. intros Hc Hb. apply (safe_fuel (fun _ e => while (S (length e)) c body)). intros _ e. by apply safe_while. Qed.

Lemma safe_for_range start n body :
  (forall i, (start <= i < start + n)%nat -> safe (body i) any) -> safe (for_range start n body) any.
Proof.
  revert start. induction n as [|n IH]; intros start H; [by apply safe_ret|]. cbn [for_range].
  eapply safe_bind; [apply H; lia|]. intros _ _. apply IH. intros i Hi. apply H. lia.
Qed.

(** ** Automation

    [safe_db] has one lemma per kernel function.  [safe_go] walks through a
    function body: it runs the first statement with its lemma, splits on tests
    and leaves what it cannot prove. *)

Create HintDb safe_db discriminated.
#[export] Hint Constants Opaque : safe_db.
#[export] Hint Variables Opaque : safe_db.
#[export] Hint Resolve safe_panic safe_nofuel safe_await safe_some safe_ptr : safe_db.
#[export] Hint Extern 1 (is_Some _) => assumption : safe_db.

(** Facts about indices and pointers. *)
Ltac bounds :=
  solve [ assumption | reflexivity | exact I | simpl in *; lia | eauto 3 | simpl in *; intuition (eauto; lia) ].

#[export] Hint Extern 1 (_ < _)%nat => bounds : safe_db.
#[export] Hint Extern 1 (_ <= _)%nat => bounds : safe_db.
#[export] Hint Extern 1 (ptr _ _) => bounds : safe_db.
#[export] Hint Extern 1 (_ ∈ unchecked) => (apply (bool_decide_unpack _); vm_compute; exact I) : safe_db.

(** One statement: a read, a table access, a test in front, or a call. *)
Ltac safe_head :=
  lazymatch goal with
  | |- safe (gets _) _ => apply safe_gets
  | |- safe (ret ?a) _ => apply (safe_ret a (fun x => x = a)); reflexivity
  | |- safe (of_option _ _) _ => first [ solve [eauto 5 with safe_db] | apply safe_of_option; intros ? ]
  | |- safe (when _ _) _ => apply safe_when; intros ?
  | |- safe (modify _) _ => apply safe_modify
  | |- safe (while_waiting _ _) _ => apply safe_while_waiting
  | |- safe (for_range _ _ _) _ => apply safe_for_range; intros ??
  | |- safe (match _ with _ => _ end) ?Q => let A := type of Q in lazymatch A with ?T -> _ => unify Q (@any T) end
  | |- safe (bind _ _) ?Q => let A := type of Q in lazymatch A with ?T -> _ => unify Q (@any T) end
  | |- safe _ _ => solve [eauto 4 with safe_db]
  end.

(** What the first statement returned. *)
Ltac safe_intro :=
  let a := fresh "a" in let H := fresh "H" in
  intros a H; cbv beta in H;
  lazymatch type of H with
  | exists s, typed s /\ a = _ =>
      let s := fresh "s" in let Ht := fresh "Ht" in destruct H as (s & Ht & ->)
  | any _ => clear H
  | _ => idtac
  end.

Ltac safe_step :=
  lazymatch goal with
  | |- safe (bind _ _) _ => eapply safe_bind; [ safe_head | safe_intro; cbv beta ]
  | |- safe (let x := ?v in @?b x) ?Q => change (safe (b v) Q); cbv beta
  | |- safe (ret _) _ => apply safe_ret
  | |- safe (undef _) _ => apply safe_undef
  | |- safe (if ?b then _ else _) _ => destruct b eqn:?
  | |- safe (match ?o with _ => _ end) _ => destruct o eqn:?
  | |- safe (gets _) _ => eapply safe_weaken; [apply safe_gets | safe_intro]
  | |- safe (of_option _ _) _ => eapply safe_weaken; [apply safe_of_option; intros ? | safe_intro]
  | |- safe _ any => first [ safe_head | solve [eapply safe_weaken; [eauto 4 with safe_db | done]] ]
  | |- safe _ _ => first [ solve [eauto 4 with safe_db] | eapply safe_weaken; [solve [eauto 4 with safe_db] | safe_intro] ]
  end.

Ltac safe_go := repeat safe_step; try solve [bounds | eauto 4 with safe_db].

(** A function whose fuel is computed from the state it starts on. *)
Ltac fuelled := apply safe_fuel with (m := fun _ _ => _); intros ? ?.

(** A change of one component of the state: the other components are as before. *)
Ltac retype := let s := fresh "s" in let H := fresh "H" in intros s H; destruct H; constructor; simpl; try assumption.

(** ** Tables *)

Lemma array_lookup {A} n (P : A -> Prop) l i a : array n P l -> l !! i = Some a -> P a.
Proof. intros [_ H]. by apply (proj1 (Forall_lookup P l) H). Qed.

Lemma array_some {A} n (P : A -> Prop) l i : array n P l -> (i < n)%nat -> exists a, l !! i = Some a /\ P a.
Proof.
  intros Ha Hi. destruct (lookup_lt_is_Some_2 l i) as [a E]; [by rewrite (proj1 Ha)|].
  exists a. split; [done|]. by eapply array_lookup.
Qed.

Lemma array_insert {A} n (P : A -> Prop) l i a : array n P l -> P a -> array n P (<[i := a]> l).
Proof. intros [Hl Hf] Ha. split; [by rewrite length_insert | by apply Forall_insert]. Qed.

Lemma array_alter {A} n (P : A -> Prop) f l i :
  array n P l -> (forall a, P a -> P (f a)) -> array n P (alter f i l).
Proof.
  intros [Hl Hf] H. split; [by rewrite length_alter|].
  apply Forall_alter; [done|]. auto.
Qed.

Lemma safe_index {A} w n (P : A -> Prop) l i :
  array n P l -> (i < n)%nat -> safe (of_option w (l !! i)) P.
Proof. intros Ha Hi. destruct (array_some n P l i Ha Hi) as (a & -> & H). by apply safe_ret. Qed.

(** ** Locks ([lock.cpp]) *)

Definition running (c : cpu) : Prop := exists p, c_proc c = Some p /\ (p < NPROC)%nat.

Lemma safe_on_hl f : (forall h, typed_hart h -> typed_hart (f h)) -> safe (on_hl f) any.
Proof. intros H. apply safe_modify. retype. auto. Qed.

Lemma safe_curr_cpu : safe curr_cpu running.
Proof.
  unfold curr_cpu. eapply safe_bind; [apply safe_gets|]. safe_intro.
  destruct (ty_hart _ Ht) as [Hc Htp [p Hp]].
  destruct (array_some _ _ _ _ Hc Htp) as (c & E & Hb). rewrite E. apply safe_ret.
  unfold cur in Hp. rewrite E in Hp. simpl in Hp. exists p. split; [done|]. by rewrite Hp in Hb.
Qed.

Lemma safe_put_cpu c : running c -> safe (put_cpu c) any.
Proof.
  intros (p & Hp & Hlt). apply safe_on_hl. intros h [Hc Htp Hcur].
  constructor; simpl; [apply array_insert; [done | by rewrite Hp] | done |].
  unfold cur. simpl. rewrite list_lookup_insert_eq by (by rewrite (proj1 Hc)). simpl. by rewrite Hp.
Qed.

Lemma safe_put_lock L l : safe (put_lock L l) any.
Proof. apply safe_on_hl. by intros h []. Qed.

Lemma safe_sstatus f : safe (on_hl (fun h => set_hl_sstatus (f h) h)) any.
Proof. apply safe_on_hl. by intros h []. Qed.

#[export] Hint Resolve safe_curr_cpu safe_put_lock safe_put_cpu : safe_db.
#[export] Hint Extern 1 (safe hart_intr_off _) => apply safe_sstatus : safe_db.
#[export] Hint Extern 1 (safe hart_intr_on _) => apply safe_sstatus : safe_db.
#[export] Hint Extern 1 (safe hart_intr_get _) => apply safe_gets : safe_db.
#[export] Hint Extern 1 (safe cpuid _) => apply safe_gets : safe_db.
#[export] Hint Extern 1 (running _) => assumption : safe_db.
#[export] Hint Extern 2 (running _) =>
  match goal with H : running ?c |- _ => exact H end : safe_db.

Lemma safe_push_off : safe push_off any.
Proof. unfold push_off. safe_go. Qed.

Lemma safe_pop_off : safe pop_off any.
Proof. unfold pop_off. safe_go. Qed.

Lemma safe_holding L : safe (holding L) any.
Proof. unfold holding. safe_go. Qed.

Lemma safe_test_and_set L : safe (test_and_set L) any.
Proof. unfold test_and_set. safe_go. Qed.
#[export] Hint Resolve safe_push_off safe_pop_off safe_holding safe_test_and_set : safe_db.

Lemma safe_acquire L : safe (acquire L) any.
Proof. unfold acquire. safe_go. Qed.

Lemma safe_release L : safe (release L) any.
Proof. unfold release. safe_go. Qed.
#[export] Hint Resolve safe_acquire safe_release : safe_db.

(** ** Processes ([proc.cpp]) *)

Lemma safe_curr_proc : safe curr_proc (fun o => ptr NPROC o /\ is_Some o).
Proof. unfold curr_proc. safe_go. destruct H as (p & -> & Hp). split; [done | by exists p]. Qed.

Lemma safe_me : safe me (fun p => p < NPROC)%nat.
Proof.
  unfold me. eapply safe_bind; [apply safe_curr_proc|]. intros o [Hp [p ->]]. by apply safe_ret.
Qed.

Lemma safe_get_proc i : (i < NPROC)%nat -> safe (get_proc i) typed_proc.
Proof.
  intros Hi. unfold get_proc. eapply safe_bind; [apply safe_gets|]. safe_intro.
  eapply safe_index; [apply ty_procs; eauto | done].
Qed.

Lemma safe_upd_proc i f :
  (i < NPROC)%nat -> (forall p, typed_proc p -> typed_proc (f p)) -> safe (upd_proc i f) any.
Proof.
  intros Hi Hf. unfold upd_proc. eapply safe_bind; [by apply safe_get_proc|]. intros p Hp.
  apply safe_modify. retype. apply array_insert; auto.
Qed.

(** Setting a field of a record that the type does not speak of, or to a value of its type. *)
Ltac retyped := let a := fresh in intros a []; constructor; simpl; try assumption; try bounds.
#[export] Hint Extern 1 (forall p, typed_proc p -> typed_proc _) => retyped : safe_db.
#[export] Hint Resolve tp_parent tp_cwd safe_curr_proc safe_me safe_get_proc safe_upd_proc : safe_db.

Lemma safe_sched : safe sched any.
Proof. unfold sched, swtch. safe_go. Qed.
#[export] Hint Resolve safe_sched : safe_db.

Lemma safe_yield : safe yield any.
Proof. unfold yield. safe_go. Qed.

Lemma safe_sleep ch L : safe (sleep ch L) any.
Proof. unfold sleep. safe_go. Qed.

Lemma safe_wakeup_one ch i : (i < NPROC)%nat -> safe (wakeup_one ch i) any.
Proof. intros Hi. unfold wakeup_one. safe_go. Qed.
#[export] Hint Resolve safe_yield safe_sleep safe_wakeup_one : safe_db.

Lemma safe_wakeup ch : safe (wakeup ch) any.
Proof. unfold wakeup. safe_go. Qed.

Lemma safe_kill_from pid n : forall i, (i + n <= NPROC)%nat -> safe (kill_from pid i n) any.
Proof. induction n as [|n IH]; intros i Hi; cbn [kill_from]; safe_go. Qed.

Lemma safe_kill pid : safe (kill pid) any.
Proof. by apply safe_kill_from. Qed.

Lemma safe_get_killed i : (i < NPROC)%nat -> safe (get_killed i) any.
Proof. intros Hi. unfold get_killed. safe_go. Qed.

Lemma safe_alloc_pid : safe alloc_pid any.
Proof. unfold alloc_pid. safe_go. retype. Qed.
#[export] Hint Resolve safe_wakeup safe_kill safe_get_killed safe_alloc_pid : safe_db.

(** ** Sleep locks *)

(** The lock's object exists, and its fields are not a table's. *)
Definition typed_sl (r : slref) : Prop :=
  (forall s, typed s -> is_Some (sl_get r s)) /\ (forall l, tame (sl_put r l)).

Lemma typed_buf_sl i : (i < S NBUF)%nat -> typed_sl (buf_sl i).
Proof.
  intros Hi. split.
  - intros s Hs. destruct (array_some _ _ _ i (ty_bufs _ Hs) Hi) as (b & E & _). simpl. rewrite E. by eexists.
  - intros l. retype. apply array_alter; [done|]. by intros b [].
Qed.

Lemma safe_sl_fields r : typed_sl r -> safe (sl_fields r) any.
Proof.
  intros [Hg _]. unfold sl_fields. eapply safe_bind; [apply safe_gets|]. intros o (s & Hs & ->).
  destruct (Hg s Hs) as [l ->]. by apply safe_ret.
Qed.

Lemma safe_sl_put r l : typed_sl r -> safe (modify (sl_put r l)) any.
Proof. intros [_ Hp]. apply safe_modify, Hp. Qed.
#[export] Hint Resolve typed_buf_sl safe_sl_fields safe_sl_put : safe_db.
#[export] Hint Extern 1 (tame (sl_put _ _)) => (match goal with H : typed_sl _ |- _ => apply H end) : safe_db.

Lemma safe_sleep_acquire r : typed_sl r -> safe (sleep_acquire r) any.
Proof. intros Hr. unfold sleep_acquire. safe_go. Qed.

Lemma safe_sleep_release r : typed_sl r -> safe (sleep_release r) any.
Proof. intros Hr. unfold sleep_release. safe_go. Qed.

Lemma safe_sleep_holding r : typed_sl r -> safe (sleep_holding r) any.
Proof. intros Hr. unfold sleep_holding. safe_go. Qed.
#[export] Hint Resolve safe_sleep_acquire safe_sleep_release safe_sleep_holding : safe_db.

(** ** Memory and page tables ([kalloc], [vm.cpp]) *)

Lemma safe_on_mem f : safe (on_mem f) any.
Proof. apply safe_modify. retype. Qed.

Lemma tame_freelist v : tame (set_k_freelist v).
Proof. retype. Qed.
#[export] Hint Resolve safe_on_mem tame_freelist : safe_db.

Lemma safe_kfree a : safe (kfree a) any.
Proof. unfold kfree. safe_go. Qed.

Lemma safe_kalloc : safe kalloc any.
Proof. unfold kalloc. safe_go. Qed.
#[export] Hint Resolve safe_kfree safe_kalloc : safe_db.

Lemma safe_walk_level alloc l va pt : safe (walk_level alloc l va pt) any.
Proof. unfold walk_level. safe_go. Qed.
#[export] Hint Resolve safe_walk_level : safe_db.

Lemma safe_walk pt va alloc : safe (walk pt va alloc) any.
Proof. unfold walk. safe_go. Qed.
#[export] Hint Resolve safe_walk : safe_db.

Lemma safe_walkaddr pt va : safe (walkaddr pt va) any.
Proof. unfold walkaddr. safe_go. Qed.

Lemma safe_map_pages pt va pa size flag : safe (map_pages pt va pa size flag) any.
Proof.
  assert (Hl : forall f pt a last pa flag, safe (map_pages_loop f pt a last pa flag) any).
  { induction f as [|f IH]; intros; cbn [map_pages_loop]; safe_go. }
  unfold map_pages. safe_go.
Qed.

Lemma safe_uvm_create : safe uvm_create any.
Proof. unfold uvm_create. safe_go. Qed.

Lemma safe_uvm_unmap pt va n df : safe (uvm_unmap pt va n df) any.
Proof.
  assert (Hl : forall f pt a last df, safe (uvm_unmap_loop f pt a last df) any).
  { induction f as [|f IH]; intros; cbn [uvm_unmap_loop]; safe_go. }
  unfold uvm_unmap. safe_go.
Qed.
#[export] Hint Resolve safe_walkaddr safe_map_pages safe_uvm_create safe_uvm_unmap : safe_db.

Lemma safe_free_walk_entries rec pt n :
  (forall a, safe (rec a) any) -> forall i, safe (free_walk_entries rec pt i n) any.
Proof. intros Hr. induction n as [|n IH]; intros i; cbn [free_walk_entries]; safe_go. Qed.
#[export] Hint Resolve safe_free_walk_entries : safe_db.

Lemma safe_free_walk f : forall pt, safe (free_walk f pt) any.
Proof. induction f as [|f IH]; intros pt; cbn [free_walk]; safe_go. Qed.
#[export] Hint Resolve safe_free_walk : safe_db.

Lemma safe_uvm_free pt sz : safe (uvm_free pt sz) any.
Proof. unfold uvm_free. safe_go. Qed.

Lemma safe_uvm_dealloc pt o n : safe (uvm_dealloc pt o n) any.
Proof. unfold uvm_dealloc. safe_go. Qed.
#[export] Hint Resolve safe_uvm_free safe_uvm_dealloc : safe_db.

Lemma safe_uvm_alloc pt o n x : safe (uvm_alloc pt o n x) any.
Proof.
  assert (Hl : forall f pt a o n x, safe (uvm_alloc_loop f pt a o n x) any).
  { induction f as [|f IH]; intros; cbn [uvm_alloc_loop]; safe_go. }
  unfold uvm_alloc. safe_go.
Qed.

Lemma safe_uvm_copy o n sz : safe (uvm_copy o n sz) any.
Proof.
  assert (Hl : forall f o n i sz, safe (uvm_copy_loop f o n i sz) any).
  { induction f as [|f IH]; intros; cbn [uvm_copy_loop]; safe_go. }
  unfold uvm_copy. safe_go.
Qed.

Lemma safe_uvm_clear pt va : safe (uvm_clear pt va) any.
Proof. unfold uvm_clear. safe_go. Qed.
#[export] Hint Resolve safe_uvm_alloc safe_uvm_copy safe_uvm_clear : safe_db.

(** ** Copying between kernel and user ([vm.cpp]) *)

Lemma chunk_len_range va va0 len : 0 <= len -> 0 <= chunk_len va va0 len <= len.
Proof.
  intros H. unfold chunk_len. pose proof (Z.mod_pos_bound (PGSIZE - u64 (va - va0)) (2 ^ 64) ltac:(lia)).
  fold (u64 (PGSIZE - u64 (va - va0))) in *. destruct (len <? u64 (PGSIZE - u64 (va - va0))) eqn:E; lia.
Qed.

Lemma u32_le_self x : 0 <= x -> u32 x <= x.
Proof. intros H. apply Z.mod_le; lia. Qed.

Lemma chunk_in_range src n : (Z.to_nat n <= length src)%nat -> 0 <= n -> is_Some (chunk src n).
Proof.
  intros H Hn. unfold chunk. pose proof (u32_le_self n Hn). pose proof (u32_range n).
  rewrite bool_decide_eq_true_2 by lia. by eexists.
Qed.

(** The source buffer is as long as the count says. *)
Lemma safe_copyout_loop f : forall pt dst src len,
  (Z.to_nat len <= length src)%nat -> safe (copyout_loop f pt dst src len) any.
Proof.
  induction f as [|f IH]; intros pt dst src len Hl; cbn [copyout_loop]; safe_go.
  - exfalso. pose proof (chunk_len_range dst (PG_ROUND_DOWN dst) len ltac:(lia)).
    destruct (chunk_in_range src (chunk_len dst (PG_ROUND_DOWN dst) len)) as [? ?]; [lia..|congruence].
  - pose proof (chunk_len_range dst (PG_ROUND_DOWN dst) len ltac:(lia)).
    apply IH. rewrite length_drop. lia.
Qed.

Lemma safe_copyout pt dst src len : (Z.to_nat len <= length src)%nat -> safe (copyout pt dst src len) any.
Proof. apply safe_copyout_loop. Qed.

(** At most as many bytes as asked for arrive. *)
Lemma safe_copyin_loop f : forall pt src len dst,
  safe (copyin_loop f pt src len dst) (fun r => length (snd r) <= length dst + Z.to_nat len)%nat.
Proof.
  induction f as [|f IH]; intros pt src len dst; cbn [copyin_loop]; safe_go.
  rewrite length_app, length_load_bytes in H.
  pose proof (chunk_len_range src (PG_ROUND_DOWN src) len ltac:(lia)) as Hc.
  pose proof (u32_le_self _ (proj1 Hc)). pose proof (u32_range (chunk_len src (PG_ROUND_DOWN src) len)). lia.
Qed.

Lemma safe_copyin pt src len : safe (copyin pt src len) (fun r => length (snd r) <= Z.to_nat len)%nat.
Proof. apply safe_copyin_loop. Qed.

Lemma safe_copyinstr pt src len : safe (copyinstr pt src len) any.
Proof.
  assert (Hl : forall f pt src len dst, safe (copyinstr_loop f pt src len dst) any).
  { induction f as [|f IH]; intros; cbn [copyinstr_loop]; safe_go. }
  apply Hl.
Qed.

Lemma safe_my_pagetable : safe my_pagetable any.
Proof. unfold my_pagetable. safe_go. Qed.
#[export] Hint Resolve safe_copyout safe_copyin safe_copyinstr safe_my_pagetable : safe_db.

Lemma safe_either_copyout ud dst src len :
  0 <= len -> (Z.to_nat len <= length src)%nat -> safe (either_copyout ud dst src len) any.
Proof.
  intros H0 Hl. unfold either_copyout. safe_go.
  exfalso. destruct (chunk_in_range src len Hl H0) as [? ?]. congruence.
Qed.

Lemma safe_either_copyin us src len :
  0 <= len -> safe (either_copyin us src len) (fun r => length (snd r) <= Z.to_nat len)%nat.
Proof.
  intros H0. unfold either_copyin. safe_go.
  simpl. rewrite length_load_bytes. pose proof (u32_le_self _ H0). pose proof (u32_range len). lia.
Qed.
#[export] Hint Resolve safe_either_copyout safe_either_copyin : safe_db.
#[export] Hint Extern 1 (0 <= _) => lia : safe_db.

(** ** Pipes ([pipe.cpp]) *)

Lemma safe_get_pipe pi : safe (get_pipe pi) typed_pipe.
Proof. unfold get_pipe. safe_go. exact (ty_pipes _ Ht pi _ H). Qed.

Lemma safe_upd_pipe pi f :
  (forall p, typed_pipe p -> typed_pipe (f p)) -> safe (upd_pipe pi f) any.
Proof.
  intros Hf. unfold upd_pipe. eapply safe_bind; [apply safe_get_pipe|]. intros p Hp.
  apply safe_modify. retype. apply map_Forall_insert_2; auto.
Qed.

Lemma typed_pipe_put ch p : typed_pipe p -> typed_pipe (pipe_put ch p).
Proof. unfold typed_pipe, bytes_of. simpl. by rewrite length_insert. Qed.
#[export] Hint Resolve safe_get_pipe safe_upd_pipe typed_pipe_put : safe_db.
#[export] Hint Extern 1 (typed_pipe _) => (unfold typed_pipe in *; assumption) : safe_db.

Lemma safe_pipeclose pi w : safe (pipeclose pi w) any.
Proof. unfold pipeclose. safe_go. retype. by apply map_Forall_delete. Qed.

Lemma safe_pipewrite_loop f : forall pi pr addr n i,
  (pr < NPROC)%nat -> safe (pipewrite_loop f pi pr addr n i) any.
Proof. induction f as [|f IH]; intros pi pr addr n i Hp; cbn [pipewrite_loop]; safe_go. Qed.

Lemma safe_piperead_wait f : forall pi pr, (pr < NPROC)%nat -> safe (piperead_wait f pi pr) any.
Proof. induction f as [|f IH]; intros pi pr Hp; cbn [piperead_wait]; safe_go. Qed.

Lemma safe_piperead_copy n : forall pi pr addr i, (pr < NPROC)%nat -> safe (piperead_copy n pi pr addr i) any.
Proof. induction n as [|n IH]; intros pi pr addr i Hp; cbn [piperead_copy]; safe_go. Qed.
#[export] Hint Resolve safe_pipeclose safe_pipewrite_loop safe_piperead_wait safe_piperead_copy : safe_db.

Lemma safe_pipewrite pi addr n : safe (pipewrite pi addr n) any.
Proof. unfold pipewrite. fuelled. safe_go. Qed.

Lemma safe_piperead pi addr n : safe (piperead pi addr n) any.
Proof. unfold piperead. fuelled. safe_go. Qed.
#[export] Hint Resolve safe_pipewrite safe_piperead : safe_db.

(** ** Serial port and console ([uart.cpp], [console.cpp]) *)

Lemma safe_on_uart f :
  (forall u, bytes_of UART_TX_BUF_SIZE (tx_buf u) -> bytes_of UART_TX_BUF_SIZE (tx_buf (f u))) ->
  safe (Uart.on_uart f) any.
Proof. intros Hf. apply safe_modify. retype. auto. Qed.

Lemma safe_on_cons f :
  (forall c, bytes_of INPUT_BUF_SIZE (cn_buf c) -> bytes_of INPUT_BUF_SIZE (cn_buf (f c))) ->
  safe (Console.on_cons f) any.
Proof. intros Hf. apply safe_modify. retype. auto. Qed.

Lemma safe_read_lsr : safe Uart.read_lsr any.
Proof.
  intros s e Hs He. unfold Uart.read_lsr. destruct (u_lsr (k_uart s)) as [|v l]; [done|].
  simpl. split; [|done]. by destruct Hs; constructor.
Qed.

#[export] Hint Extern 1 (bytes_of _ _) => (unfold bytes_of in *; simpl; rewrite ?length_insert; assumption) : safe_db.
#[export] Hint Resolve safe_on_uart safe_on_cons safe_read_lsr : safe_db.
#[export] Hint Extern 1 (safe (Uart.write_thr _) _) => apply safe_on_uart : safe_db.
#[export] Hint Extern 1 (safe Uart.read_isr _) => apply safe_on_uart : safe_db.

Lemma safe_start : safe Uart.start any.
Proof.
  assert (Hl : forall f, safe (Uart.start_loop f) any).
  { induction f as [|f IH]; cbn [Uart.start_loop]; safe_go. }
  unfold Uart.start. fuelled. safe_go.
Qed.

Lemma safe_tx_full : safe Uart.tx_full any.
Proof. unfold Uart.tx_full. safe_go. Qed.
#[export] Hint Resolve safe_start safe_tx_full : safe_db.

Lemma safe_uart_putc c : safe (Uart.putc c) any.
Proof. unfold Uart.putc. safe_go. Qed.
#[export] Hint Resolve safe_uart_putc : safe_db.

Lemma safe_console_write us src n : safe (Console.write us src n) any.
Proof. unfold Console.write. generalize 0 at 2. induction (Z.to_nat n) as [|k IH]; intros i; safe_go. Qed.

Lemma safe_read_loop f : forall ud dst n target, safe (Console.read_loop f ud dst n target) any.
Proof. induction f as [|f IH]; intros ud dst n target; cbn [Console.read_loop]; safe_go. Qed.
#[export] Hint Resolve safe_read_loop : safe_db.

Lemma safe_console_read ud dst n : safe (Console.read ud dst n) any.
Proof. unfold Console.read. fuelled. safe_go. Qed.
#[export] Hint Resolve safe_console_write safe_console_read : safe_db.

Lemma safe_kputc c : safe (Uart.kputc c) any.
Proof.
  assert (Hl : forall f, safe (Uart.spin_idle f) any).
  { induction f as [|f IH]; cbn [Uart.spin_idle]; safe_go. }
  unfold Uart.kputc. safe_step. eapply safe_bind with (R := any); [fuelled; apply Hl|]. intros _ _. safe_go.
Qed.
#[export] Hint Resolve safe_kputc : safe_db.

Lemma safe_console_putc c : safe (Console.putc c) any.
Proof. unfold Console.putc. safe_go. Qed.
#[export] Hint Resolve safe_console_putc : safe_db.

(** *** Formatted output ([fmt]) *)

Lemma safe_put_all l : safe (put_all l) any.
Proof. induction l as [|c l IH]; cbn [put_all]; safe_go. Qed.
#[export] Hint Resolve safe_put_all : safe_db.

Lemma safe_puts o : safe (puts o) any.
Proof. unfold puts. safe_go. Qed.
#[export] Hint Resolve safe_puts : safe_db.

Lemma safe_format_arg n a h : safe (format_arg n a h) any.
Proof. unfold format_arg. safe_go. Qed.
#[export] Hint Resolve safe_format_arg : safe_db.

Lemma safe_format_loop n first rest : (forall next, rest = Some next -> forall fmt, safe (next fmt) any) ->
  forall fmt, safe (format_loop n first rest fmt) any.
Proof.
  intros Hr. induction n as [|n IH]; intros fmt; cbn [format_loop]; [apply safe_nofuel|]. destruct fmt as [|c t]; [by apply safe_ret|].
  destruct (placeholder (c :: t)) as [[k h]|]; [|safe_go]. eapply safe_bind; [apply safe_format_arg|]. intros _ _.
  destruct rest as [next|]; [|safe_go]. eapply safe_bind; [by apply Hr|]. intros; apply IH.
Qed.

Lemma safe_print_format next : forall first fmt, safe (print_format first next fmt) any.
Proof.
  induction next as [|f next IH]; intros first fmt; cbn [print_format]; apply safe_format_loop; intros g E; [done|].
  injection E as <-. apply IH.
Qed.
#[export] Hint Resolve safe_print_format : safe_db.

Lemma safe_print fmt args : safe (print fmt args) any.
Proof. unfold print. safe_go. Qed.

Lemma safe_print_log lv msg : safe (print_log lv msg) any.
Proof. unfold print_log. safe_go. Qed.
#[export] Hint Resolve safe_print safe_print_log : safe_db.

(** ** The buffer cache ([bio.cpp]) *)

Lemma safe_get_buf i : (i < S NBUF)%nat -> safe (get_buf i) typed_buf.
Proof.
  intros Hi. unfold get_buf. eapply safe_bind; [apply safe_gets|]. safe_intro.
  eapply safe_index; [apply ty_bufs; eauto | done].
Qed.

Lemma safe_upd_buf i f :
  (i < S NBUF)%nat -> (forall b, typed_buf b -> typed_buf (f b)) -> safe (upd_buf i f) any.
Proof.
  intros Hi Hf. unfold upd_buf. eapply safe_bind; [by apply safe_get_buf|]. intros b Hb.
  apply safe_modify. retype. apply array_insert; auto.
Qed.
#[export] Hint Resolve safe_get_buf safe_upd_buf tb_prev tb_next : safe_db.
#[export] Hint Extern 2 (typed_buf _) => (repeat match goal with H : typed_buf _ |- _ => destruct H end;
   constructor; simpl; first [assumption | unfold HEAD; lia | bounds]) : safe_db.
#[export] Hint Extern 1 (_ < _)%nat => (unfold HEAD in *; lia) : safe_db.
#[export] Hint Extern 1 (_ < _)%nat => (match goal with H : typed_buf _ |- _ => apply H end) : safe_db.

Lemma safe_push_front i : (i < S NBUF)%nat -> safe (push_front i) any.
Proof. intros Hi. unfold push_front. safe_go. Qed.

Lemma safe_bfind f g : forall rs, (rs < S NBUF)%nat -> safe (bfind f g rs) (ptr NBUF).
Proof.
  induction f as [|f IH]; intros rs Hr; cbn [bfind]; safe_go.
  apply bool_decide_eq_false in Heqb. unfold HEAD in *. simpl. lia.
Qed.
#[export] Hint Resolve safe_push_front safe_bfind : safe_db.

Lemma safe_bget dev bn : safe (bget dev bn) (fun i => i < NBUF)%nat.
Proof. unfold bget. safe_go. Qed.

Lemma safe_unlink i : (i < S NBUF)%nat -> safe (unlink i) any.
Proof. intros Hi. unfold unlink. safe_go. Qed.
#[export] Hint Resolve safe_bget safe_unlink : safe_db.

Lemma safe_brelse i : (i < NBUF)%nat -> safe (brelse i) any.
Proof. intros Hi. unfold brelse. safe_go. Qed.

Lemma safe_bpin i : (i < NBUF)%nat -> safe (bpin i) any.
Proof. intros Hi. unfold bpin. safe_go. Qed.
#[export] Hint Resolve safe_brelse safe_bpin : safe_db.

(** What the cache asks of the disk driver. *)
Class SafeDriver (DD : DiskDriver) : Prop :=
  safe_disk_rw b w : (b < NBUF)%nat -> safe (disk_rw b w) any.

#[export] Instance safe_polled_disk : SafeDriver polled_disk.
Proof.
  intros b w Hb. simpl. eapply safe_bind; [apply safe_gets|]. intros l (s & Hs & ->).
  eapply safe_bind; [eapply safe_index; [by apply ty_bufs | lia]|]. intros bf Hbf.
  apply safe_modify. unfold disk_eff. destruct w; retype; destruct Hbf.
  - intros n. by destruct (n =? b_blockno bf).
  - apply array_insert; [done|]. constructor; simpl; auto.
Qed.

Section driver.
Context {DD : DiskDriver} {SD : SafeDriver DD}.
#[local] Hint Resolve safe_disk_rw : safe_db.

Lemma safe_bread dev bn : safe (bread dev bn) (fun i => i < NBUF)%nat.
Proof. unfold bread. safe_go. Qed.

Lemma safe_bwrite i : (i < NBUF)%nat -> safe (bwrite i) any.
Proof. intros Hi. unfold bwrite. safe_go. Qed.
End driver.
#[export] Hint Resolve safe_bread safe_bwrite : safe_db.
