(* ===== verification/TypedSys.v ===== *)
(** * Well-typed kernels: the file system, processes and system calls

    The functions above the buffer cache keep the data invariant of [Typed]:
    the log, the file system, open files, processes, the loader, the system
    calls and the trap handlers, for every disk driver that keeps it; the
    virtio driver does. *)

From S2P Require Import Text Fmt Prelude State Riscv Cstring Lock Sched Kalloc Vm UserCopy Pipe Console Bio Log Fs FsSpec File.
From S2P Require Import Proc Loader Sysfile SysSpec Virtio Trap Typed.

(** ** The log ([log.cpp]) *)

Lemma safe_on_log f :
  (forall l, bytes_of LOGSIZE (lh_block (lg_lh l)) -> bytes_of LOGSIZE (lh_block (lg_lh (f l)))) ->
  safe (on_log f) any.
Proof. intros Hf. apply safe_modify. retype. auto. Qed.

Lemma safe_on_lh f :
  (forall h, bytes_of LOGSIZE (lh_block h) -> bytes_of LOGSIZE (lh_block (f h))) -> safe (on_lh f) any.
Proof. intros Hf. apply safe_on_log. simpl. auto. Qed.

Lemma safe_lh_get i : safe (lh_get i) (fun _ => i < Z.to_nat LOGSIZE)%nat.
Proof. unfold lh_get. safe_go. apply lookup_lt_Some in H. by rewrite (ty_log _ Ht) in H. Qed.
#[export] Hint Resolve safe_on_log safe_on_lh safe_lh_get : safe_db.

Lemma safe_lh_set i v : safe (lh_set i v) any.
Proof. unfold lh_set. safe_go. Qed.

Lemma safe_buf_data i : (i < NBUF)%nat -> safe (buf_data i) (bytes_of BSIZE).
Proof. intros Hi. unfold buf_data. safe_go. apply H. Qed.

Lemma safe_upd_data i f :
  (i < NBUF)%nat -> (forall d, bytes_of BSIZE d -> bytes_of BSIZE (f d)) -> safe (upd_data i f) any.
Proof. intros Hi Hf. unfold upd_data. safe_go. Qed.
#[export] Hint Resolve safe_lh_set safe_buf_data safe_upd_data : safe_db.
#[export] Hint Extern 1 (bytes_of _ _) => assumption : safe_db.

Lemma safe_copy_data i j : (i < NBUF)%nat -> (j < NBUF)%nat -> safe (copy_data i j) any.
Proof. intros Hi Hj. unfold copy_data. safe_go. Qed.

Lemma typed_put32 off v d : (off + 4 <= 1024)%nat -> bytes_of BSIZE d -> bytes_of BSIZE (put32 off v d).
Proof. unfold bytes_of, BSIZE. intros Ho Hd. rewrite length_put32; lia. Qed.
#[export] Hint Resolve safe_copy_data typed_put32 : safe_db.
#[export] Hint Extern 1 (_ <= _)%nat => (unfold block_off, LOGSIZE, NDIRECT in *; lia) : safe_db.

Section log.
Context {DD : DiskDriver} {SD : SafeDriver DD}.

Lemma safe_whead : safe whead any.
Proof. unfold whead. safe_go. Qed.

Lemma safe_install_one r i : safe (install_one r i) any.
Proof. unfold install_one. safe_go. Qed.

Lemma safe_write_one i : safe (write_one i) any.
Proof. unfold write_one. safe_go. Qed.
#[local] Hint Resolve safe_whead safe_install_one safe_write_one : safe_db.

Lemma safe_install_trans r : safe (install_trans r) any.
Proof. unfold install_trans. safe_go. Qed.

Lemma safe_write_log : safe write_log any.
Proof. unfold write_log. safe_go. Qed.
#[local] Hint Resolve safe_install_trans safe_write_log : safe_db.

Lemma safe_commit : safe commit any.
Proof. unfold commit. safe_go. Qed.
#[local] Hint Resolve safe_commit : safe_db.

Lemma safe_begin_op : safe begin_op any.
Proof. unfold begin_op. safe_go. Qed.

Lemma safe_end_op : safe end_op any.
Proof. unfold end_op. safe_go. Qed.

Lemma safe_absorb bn n : forall i, safe (absorb bn i n) any.
Proof. induction n as [|n IH]; intros i; cbn [absorb]; safe_go. Qed.
#[local] Hint Resolve safe_absorb : safe_db.

Lemma safe_lwrite i : (i < NBUF)%nat -> safe (lwrite i) any.
Proof. intros Hi. unfold lwrite. safe_go. Qed.
End log.
#[export] Hint Resolve safe_begin_op safe_end_op safe_lwrite : safe_db.

(** ** The file system ([fs.cpp]) *)

Lemma safe_get_inode i : (i < NINODE)%nat -> safe (get_inode i) typed_inode.
Proof.
  intros Hi. unfold get_inode. eapply safe_bind; [apply safe_gets|]. safe_intro.
  eapply safe_index; [apply ty_itable; eauto | done].
Qed.

Lemma safe_upd_inode i f :
  (i < NINODE)%nat -> (forall ip, typed_inode ip -> typed_inode (f ip)) -> safe (upd_inode i f) any.
Proof.
  intros Hi Hf. unfold upd_inode. eapply safe_bind; [by apply safe_get_inode|]. intros ip Hip.
  apply safe_modify. retype. apply array_insert; auto.
Qed.

Lemma typed_inode_sl i : (i < NINODE)%nat -> typed_sl (inode_sl i).
Proof.
  intros Hi. split.
  - intros s Hs. destruct (array_some _ _ _ i (ty_itable _ Hs) Hi) as (b & E & _). simpl. rewrite E. by eexists.
  - intros l. retype. apply array_alter; done.
Qed.
#[export] Hint Resolve safe_get_inode safe_upd_inode typed_inode_sl : safe_db.
#[export] Hint Extern 2 (typed_inode _) => (unfold typed_inode in *; simpl; rewrite ?length_insert; first [assumption | reflexivity]) : safe_db.

Lemma safe_get_addr i k : (i < NINODE)%nat -> safe (get_addr i k) any.
Proof. intros Hi. unfold get_addr. safe_go. Qed.
#[export] Hint Resolve safe_get_addr : safe_db.

Lemma safe_set_addr i k a : (i < NINODE)%nat -> safe (set_addr i k a) any.
Proof. intros Hi. unfold set_addr. safe_go. Qed.
#[export] Hint Resolve safe_set_addr : safe_db.

(** The entry [iget] finds is one of the table. *)
Lemma iscan_range dev inum l : forall k node n, (k + length l = n)%nat -> ptr n node ->
  match iscan dev inum l k node with inl i => (i < n)%nat | inr o => ptr n o end.
Proof.
  induction l as [|ip l IH]; intros k node n Hn Hnode; cbn [iscan length] in *; [done|].
  destruct (_ && _ && _); [lia|]. apply IH; [lia|]. destruct node; [done|]. destruct (i_ref ip =? 0); simpl; [lia | done].
Qed.

Lemma safe_iget dev inum : safe (iget dev inum) (fun i => i < NINODE)%nat.
Proof.
  unfold iget. eapply safe_bind; [apply safe_acquire|]. intros _ _.
  eapply safe_bind; [apply safe_gets|]. intros l (s & Hs & ->).
  pose proof (iscan_range dev inum (k_itable s) 0 None NINODE (proj1 (ty_itable _ Hs)) I) as Hr.
  destruct (iscan _ _ _ _ _) as [i|[i|]]; simpl in Hr; safe_go.
Qed.

Lemma safe_idup i : (i < NINODE)%nat -> safe (idup i) (fun j => j < NINODE)%nat.
Proof. intros Hi. unfold idup. safe_go. Qed.
#[export] Hint Resolve safe_iget safe_idup : safe_db.

(** Writes to a block keep its length. *)
Lemma typed_put n off v d : (off + n <= 1024)%nat -> bytes_of BSIZE d -> bytes_of BSIZE (put n off v d).
Proof. unfold bytes_of, BSIZE. intros Ho Hd. rewrite length_put; lia. Qed.

Lemma typed_splice o l d : (o + length l <= 1024)%nat -> bytes_of BSIZE d -> bytes_of BSIZE (splice o l d).
Proof. unfold bytes_of, BSIZE. intros Ho Hd. rewrite length_splice; lia. Qed.

Lemma typed_store_dinode inum ip d :
  typed_inode ip -> bytes_of BSIZE d -> bytes_of BSIZE (store_dinode (dinode_off inum) ip d).
Proof.
  intros Hip Hd. pose proof (dinode_off_fits inum) as Ho. unfold bytes_of, BSIZE in *. unfold store_dinode.
  assert (Hl : forall e, length e = length d -> length (put_addrs (dinode_off inum) (i_addrs ip) e) = length d).
  { intros e He. apply (put_addrs_facts (dinode_off inum) d); [lia | done | rewrite Hip; lia]. }
  unfold DINODE in Ho. rewrite Hl; [done|]. repeat (apply length_put_eq; [|lia]). reflexivity.
Qed.

Lemma typed_free_slot inum v d : bytes_of BSIZE d ->
  bytes_of BSIZE (put 2 (dinode_off inum) v (splice (dinode_off inum) (zeros DINODE) d)).
Proof.
  intros Hd. pose proof (dinode_off_fits inum). unfold DINODE in *.
  apply typed_put; [lia|]. apply typed_splice; [unfold zeros; rewrite length_replicate; lia | done].
Qed.
#[export] Hint Resolve typed_put typed_splice typed_store_dinode typed_free_slot : safe_db.
#[export] Hint Extern 1 (bytes_of _ (set_byte _ _ _)) => (unfold bytes_of, set_byte in *; rewrite length_insert; assumption) : safe_db.
#[export] Hint Extern 1 (bytes_of _ (zeros _)) => reflexivity : safe_db.

Section fs.
Context {DD : DiskDriver} {SD : SafeDriver DD}.

Lemma safe_bzero dev bno : safe (bzero dev bno) any.
Proof. unfold bzero. safe_go. Qed.
#[local] Hint Resolve safe_bzero : safe_db.

Lemma safe_balloc dev : safe (balloc dev) any.
Proof.
  assert (Hl : forall f dev b, safe (balloc_from f dev b) any).
  { induction f as [|f IH]; intros; cbn [balloc_from]; safe_go. }
  unfold balloc. fuelled. apply Hl.
Qed.

Lemma safe_bfree dev b : safe (bfree dev b) any.
Proof. unfold bfree. safe_go. Qed.

Lemma safe_ialloc dev type : safe (ialloc dev type) (ptr NINODE).
Proof.
  assert (Hl : forall n dev type inum, safe (ialloc_from n dev type inum) (ptr NINODE)).
  { induction n as [|n IH]; intros; cbn [ialloc_from]; safe_go. }
  unfold ialloc. safe_go.
Qed.

Lemma safe_iupdate i : (i < NINODE)%nat -> safe (iupdate i) any.
Proof. intros Hi. unfold iupdate. safe_go. Qed.
#[local] Hint Resolve safe_balloc safe_bfree safe_ialloc safe_iupdate : safe_db.

(** A null inode pointer does not get past [ilock]. *)
Lemma safe_ilock o : ptr NINODE o -> safe (ilock o) (fun _ => is_Some o).
Proof.
  intros Ho. destruct o as [i|]; cbn [ilock]; [|safe_go]. simpl in Ho.
  eapply safe_weaken with (R := any); [|intros _ _; by eexists]. safe_go.
Qed.

Lemma safe_iunlock o : ptr NINODE o -> safe (iunlock o) any.
Proof. intros Ho. unfold iunlock. destruct o as [i|]; simpl in Ho; safe_go. Qed.

Lemma safe_itrunc i : (i < NINODE)%nat -> safe (itrunc i) any.
Proof. intros Hi. unfold itrunc. safe_go. Qed.
#[local] Hint Resolve safe_ilock safe_iunlock safe_itrunc : safe_db.

Lemma safe_iput i : (i < NINODE)%nat -> safe (iput i) any.
Proof. intros Hi. unfold iput. safe_go. Qed.
#[local] Hint Resolve safe_iput : safe_db.

Lemma safe_iunlockput i : (i < NINODE)%nat -> safe (iunlockput i) any.
Proof. intros Hi. unfold iunlockput. safe_go. Qed.

Lemma safe_bmap i bn : (i < NINODE)%nat -> safe (bmap i bn) any.
Proof. intros Hi. unfold bmap. safe_go. Qed.
#[local] Hint Resolve safe_iunlockput safe_bmap : safe_db.

(** ** File contents and directories *)

(** The part of a block from [off] on, at most [k] bytes, is inside the block. *)
Lemma block_part off k d : 0 <= k -> bytes_of BSIZE d ->
  0 <= Z.min k (BSIZE - off mod BSIZE) /\
  (Z.to_nat (Z.min k (BSIZE - off mod BSIZE)) <= length (drop (Z.to_nat (off mod BSIZE)) d))%nat.
Proof.
  intros Hk Hd. rewrite length_drop, Hd. pose proof (Z.mod_pos_bound off BSIZE ltac:(done)).
  unfold BSIZE in *. lia.
Qed.

Lemma safe_readi_loop f : forall i ud dst off n tot,
  (i < NINODE)%nat -> safe (readi_loop f i ud dst off n tot) any.
Proof.
  induction f as [|f IH]; intros i ud dst off n tot Hi; cbn [readi_loop]; safe_go.
  pose proof (block_part off (u32 (n - tot)) a2 ltac:(apply u32_range) H1) as [Hm Hd]. safe_go.
Qed.

Lemma safe_writei_loop f : forall i us src off n tot,
  (i < NINODE)%nat -> safe (writei_loop f i us src off n tot) any.
Proof.
  induction f as [|f IH]; intros i us src off n tot Hi; cbn [writei_loop]; safe_go.
  set (m := if u32 (n - tot) <? _ then _ else _).
  pose proof (Z.mod_pos_bound off BSIZE ltac:(done)) as Ho. pose proof (u32_range (n - tot)).
  assert (Hm : 0 <= m <= BSIZE - off mod BSIZE) by (unfold m; case_match; lia).
  clearbody m. eapply safe_bind; [apply safe_either_copyin; lia|]. intros r Hr. cbv beta in Hr.
  assert ((Z.to_nat (off mod BSIZE) + length (snd r) <= 1024)%nat) by (unfold BSIZE in *; lia). safe_go.
Qed.
#[local] Hint Resolve safe_readi_loop safe_writei_loop : safe_db.

Lemma safe_readi i ud dst off n : (i < NINODE)%nat -> safe (readi i ud dst off n) any.
Proof. intros Hi. unfold readi. safe_go. Qed.

Lemma safe_writei i us src off n : (i < NINODE)%nat -> safe (writei i us src off n) any.
Proof. intros Hi. unfold writei. safe_go. Qed.
#[local] Hint Resolve safe_readi safe_writei : safe_db.

(** The entry found and its offset. *)
Definition found (o : option (nat * Z)) : Prop := match o with Some (i, _) => (i < NINODE)%nat | None => True end.

Lemma safe_dir_lookup dp name de : (dp < NINODE)%nat -> safe (dir_lookup dp name de) found.
Proof.
  assert (Hl : forall f dp name de off, (dp < NINODE)%nat -> safe (dir_lookup_from f dp name de off) found).
  { induction f as [|f IH]; intros; cbn [dir_lookup_from]; safe_go. }
  intros Hi. unfold dir_lookup. safe_go.
Qed.

Lemma safe_dir_slot f : forall dp de off, (dp < NINODE)%nat -> safe (dir_slot f dp de off) any.
Proof. induction f as [|f IH]; intros dp de off Hi; cbn [dir_slot]; safe_go. Qed.
#[local] Hint Resolve safe_dir_lookup safe_dir_slot : safe_db.

Lemma safe_dir_link_with dp name de fill :
  (dp < NINODE)%nat -> safe fill any -> safe (dir_link_with dp name de fill) any.
Proof. intros Hi Hf. unfold dir_link_with. safe_go. Qed.
#[local] Hint Resolve safe_dir_link_with : safe_db.

Lemma safe_dir_link dp name de i : (dp < NINODE)%nat -> (i < NINODE)%nat -> safe (dir_link dp name de i) any.
Proof. intros Hd Hi. unfold dir_link. apply safe_dir_link_with; [done|]. safe_go. Qed.

Lemma safe_dir_link_inum dp name de inum : (dp < NINODE)%nat -> safe (dir_link_inum dp name de inum) any.
Proof. intros Hd. apply safe_dir_link_with; [done|]. by apply safe_ret. Qed.

(** ** Path names *)

Lemma safe_namex_loop f : forall bytes ip path parent name de,
  (ip < NINODE)%nat -> safe (namex_loop f bytes ip path parent name de) (ptr NINODE).
Proof. induction f as [|f IH]; intros bytes ip path parent name de Hi; cbn [namex_loop]; safe_go. Qed.
#[local] Hint Resolve safe_namex_loop : safe_db.

Lemma safe_namex f path parent name de : safe (namex f path parent name de) (ptr NINODE).
Proof.
  unfold namex. safe_step. eapply safe_bind with (R := fun ip => (ip < NINODE)%nat); [|safe_go].
  safe_go.
Qed.
End fs.
#[export] Hint Resolve safe_ialloc safe_iupdate safe_ilock safe_iunlock safe_itrunc safe_iput safe_iunlockput
  safe_readi safe_writei safe_dir_lookup safe_dir_link safe_dir_link_inum safe_namex : safe_db.
#[export] Hint Extern 1 (safe (namei _ _ _ _) _) => apply safe_namex : safe_db.
#[export] Hint Extern 1 (safe (nameiparent _ _ _ _) _) => apply safe_namex : safe_db.

(** ** Open files ([file.cpp]) *)

Lemma safe_get_file i : (i < NFILE)%nat -> safe (get_file i) typed_file.
Proof.
  intros Hi. unfold get_file. eapply safe_bind; [apply safe_gets|]. safe_intro.
  eapply safe_index; [apply ty_ftable; eauto | done].
Qed.

Lemma safe_upd_file i f :
  (i < NFILE)%nat -> (forall fl, typed_file fl -> typed_file (f fl)) -> safe (upd_file i f) any.
Proof.
  intros Hi Hf. unfold upd_file. eapply safe_bind; [by apply safe_get_file|]. intros fl Hfl.
  apply safe_modify. retype. apply array_insert; auto.
Qed.

Lemma typed_file_ip fl : typed_file fl -> ptr NINODE (f_ip fl).
Proof. by intros []. Qed.
#[export] Hint Resolve safe_get_file safe_upd_file typed_file_ip : safe_db.
#[export] Hint Extern 2 (typed_file _) => (unfold typed_file in *; simpl; intuition done) : safe_db.

Lemma safe_dev_reader m : safe (dev_reader m) any.
Proof. unfold dev_reader. safe_go. exfalso. apply lookup_ge_None in H. rewrite (ty_devsw _ Ht) in H. lia. Qed.

Lemma safe_dev_writer m : safe (dev_writer m) any.
Proof. unfold dev_writer. safe_go. exfalso. apply lookup_ge_None in H. rewrite (ty_devsw _ Ht) in H. lia. Qed.

Lemma safe_file_alloc : safe alloc (ptr NFILE).
Proof.
  unfold alloc. safe_go.
  - assert (Hn : (n < NFILE)%nat).
    { apply find_idx_Some in Heqo as (x & Hx & _). apply lookup_lt_Some in Hx. by rewrite (proj1 (ty_ftable _ Ht)) in Hx. }
    safe_go.
Qed.

Lemma safe_dup f : (f < NFILE)%nat -> safe (dup f) (fun g => g < NFILE)%nat.
Proof. intros Hf. unfold dup. safe_go. Qed.
#[export] Hint Resolve safe_dev_reader safe_dev_writer safe_file_alloc safe_dup : safe_db.

Lemma file_has_inode fl : typed_file fl -> f_type fl = FD_INODE \/ f_type fl = FD_DEVICE -> is_Some (f_ip fl).
Proof. intros [_ Ht] [H|H]; by rewrite H in Ht. Qed.
#[export] Hint Resolve file_has_inode : safe_db.
#[export] Hint Extern 1 (f_type _ = _ \/ f_type _ = _) => (left; assumption) || (right; assumption) : safe_db.

Lemma length_stat_bytes pad st : length pad = 4%nat -> length (stat_bytes pad st) = 32%nat.
Proof. intros H. unfold stat_bytes. by rewrite !length_app, !length_le_bytes, H. Qed.

Section file.
Context {DD : DiskDriver} {SD : SafeDriver DD}.

Lemma safe_close f : (f < NFILE)%nat -> safe (close f) any.
Proof. intros Hf. unfold close. safe_go. Qed.

Lemma safe_fstat pad f addr : length pad = 4%nat -> (f < NFILE)%nat -> safe (fstat pad f addr) any.
Proof.
  intros Hpad Hf. assert (Hl : forall st, (Z.to_nat 32 <= length (stat_bytes pad st))%nat) by (intros st; by rewrite length_stat_bytes).
  unfold fstat. safe_go.
Qed.

Lemma safe_read f addr n : (f < NFILE)%nat -> safe (read f addr n) any.
Proof. intros Hf. unfold read. safe_go. Qed.

Lemma safe_write_loop fuel : forall f addr n i, (f < NFILE)%nat -> safe (write_loop fuel f addr n i) any.
Proof. induction fuel as [|fuel IH]; intros f addr n i Hf; cbn [write_loop]; safe_go. Qed.
#[local] Hint Resolve safe_close safe_write_loop : safe_db.

Lemma safe_write f addr n : (f < NFILE)%nat -> safe (write f addr n) any.
Proof. intros Hf. unfold write. safe_go. Qed.

Lemma safe_pipealloc_bad f0 f1 : ptr NFILE f0 -> ptr NFILE f1 -> safe (pipealloc_bad f0 f1) (fun r => r = -1).
Proof. intros H0 H1. unfold pipealloc_bad. destruct f0, f1; simpl in *; safe_go. Qed.
#[local] Hint Resolve safe_pipealloc_bad : safe_db.

(** [pipealloc] never returns a pipe. *)
Lemma safe_pipealloc : safe pipealloc (fun r => fst (fst r) = -1).
Proof. unfold pipealloc. safe_go. Qed.
End file.
#[export] Hint Resolve safe_close safe_fstat safe_read safe_write safe_pipealloc : safe_db.

(** ** Processes ([proc.cpp]) *)

Lemma strncpy_arr_length n src l : strncpy_arr n src = Some l -> length l = n.
Proof.
  unfold strncpy_arr. destruct (find_idx _ _) as [k|] eqn:E; [|done]. intros [= <-].
  apply find_idx_Some in E as (x & Hx & _). apply lookup_lt_Some in Hx. rewrite length_take in Hx.
  unfold zeros. rewrite length_app, length_take, length_replicate. lia.
Qed.

Lemma safe_set_name i src : (i < NPROC)%nat -> safe (set_name i src) any.
Proof.
  intros Hi. unfold set_name. safe_step; [by eauto with safe_db|]. apply safe_upd_proc; [done|]. retyped. by eapply strncpy_arr_length.
Qed.
#[export] Hint Resolve safe_set_name : safe_db.

(** Descriptors. *)
Lemma typed_set_fd fd o p : ptr NFILE o -> typed_proc p -> typed_proc (set_p_ofile (<[fd := o]> (p_ofile p)) p).
Proof. intros Ho []. constructor; simpl; try done. by apply array_insert. Qed.

Lemma safe_get_fd_entry w p k : typed_proc p -> (k < NOFILE)%nat -> safe (of_option w (p_ofile p !! k)) (ptr NFILE).
Proof. intros Hp Hk. eapply safe_index; [apply Hp | done]. Qed.
#[export] Hint Resolve typed_set_fd safe_get_fd_entry ty_init : safe_db.

Section proc.
Context {DD : DiskDriver} {SD : SafeDriver DD} {LY : Layout}.

Lemma safe_alloc_pagetable i : (i < NPROC)%nat -> safe (alloc_pagetable i) any.
Proof. intros Hi. unfold alloc_pagetable. safe_go. Qed.

Lemma safe_free_pagetable pt sz : safe (free_pagetable pt sz) any.
Proof. unfold free_pagetable. safe_go. Qed.
#[local] Hint Resolve safe_alloc_pagetable safe_free_pagetable : safe_db.

Lemma safe_free_proc i : (i < NPROC)%nat -> safe (free_proc i) any.
Proof. intros Hi. unfold free_proc. safe_go. Qed.
#[local] Hint Resolve safe_free_proc : safe_db.

Lemma safe_alloc_entry i : (i < NPROC)%nat -> safe (alloc_entry i) (ptr NPROC).
Proof. intros Hi. unfold alloc_entry. safe_go. Qed.
#[local] Hint Resolve safe_alloc_entry : safe_db.

Lemma safe_alloc_proc : safe alloc_proc (ptr NPROC).
Proof.
  assert (Hl : forall n i, (i + n <= NPROC)%nat -> safe (alloc_proc_from i n) (ptr NPROC)).
  { induction n as [|n IH]; intros i Hi; cbn [alloc_proc_from]; safe_go. }
  apply Hl. done.
Qed.

Lemma safe_reparent p : safe (reparent p) any.
Proof. unfold reparent. safe_go. Qed.

Lemma safe_grow n : safe (grow n) any.
Proof. unfold grow. safe_go. Qed.

Lemma safe_fork_file p np k :
  (p < NPROC)%nat -> (np < NPROC)%nat -> (k < NOFILE)%nat -> safe (fork_file p np k) any.
Proof. intros Hp Hn Hk. unfold fork_file. safe_go. Qed.
#[local] Hint Resolve safe_alloc_proc safe_reparent safe_fork_file : safe_db.

Lemma safe_fork : safe fork any.
Proof. unfold fork. safe_go. Qed.

Lemma safe_close_fd p fd : (p < NPROC)%nat -> (fd < NOFILE)%nat -> safe (close_fd p fd) any.
Proof. intros Hp Hf. unfold close_fd. safe_go. Qed.
#[local] Hint Resolve safe_close_fd : safe_db.

Lemma safe_exit {A} status (Q : A -> Prop) : safe (exit status) Q.
Proof. unfold exit. safe_go. Qed.

Lemma safe_wait_scan n : forall i p addr k,
  (i + n <= NPROC)%nat -> (p < NPROC)%nat -> safe (wait_scan i n p addr k) any.
Proof. induction n as [|n IH]; intros i p addr k Hi Hp; cbn [wait_scan]; safe_go. Qed.
#[local] Hint Resolve safe_wait_scan : safe_db.

Lemma safe_wait_loop f : forall p addr, (p < NPROC)%nat -> safe (wait_loop f p addr) any.
Proof. induction f as [|f IH]; intros p addr Hp; cbn [wait_loop]; safe_go. Qed.
#[local] Hint Resolve safe_wait_loop : safe_db.

Lemma safe_wait addr : safe (wait addr) any.
Proof. unfold wait. do 2 safe_step. fuelled. safe_go. Qed.
End proc.
#[export] Hint Resolve safe_alloc_pagetable safe_free_pagetable safe_grow safe_fork safe_exit safe_wait : safe_db.

(** ** The loader ([loader.cpp]) *)

Lemma safe_of_fuel {A} (o : option A) : safe (of_fuel o) (fun a => o = Some a).
Proof. destruct o; [by apply safe_ret | apply safe_nofuel]. Qed.
#[export] Hint Resolve safe_of_fuel : safe_db.

(** The argument vector ends with a null pointer, at or after [argc]. *)
Definition terminated (argv : list Z) (argc : nat) : Prop := exists k, (argc <= k)%nat /\ argv !! k = Some 0.

Lemma terminated_next argv argc a :
  terminated argv argc -> argv !! argc = Some a -> a <> 0 -> terminated argv (S argc).
Proof. intros (k & Hk & E) Ea Ha. exists k. split; [|done]. destruct (decide (k = argc)); [congruence | lia]. Qed.

Lemma terminated_some argv argc : terminated argv argc -> is_Some (argv !! argc).
Proof. intros (k & Hk & E). apply lookup_lt_is_Some. apply lookup_lt_Some in E. lia. Qed.

(** What [push_args] returns: one stack slot per argument. *)
Definition pushed (o : option (nat * Z * list Z)) : Prop :=
  match o with Some (argc, _, ustack) => length ustack = argc | None => True end.
#[export] Hint Extern 1 (pushed None) => exact I : safe_db.
#[export] Hint Extern 2 (_ <= length (load_bytes _ _ _))%nat => (rewrite length_load_bytes; lia) : safe_db.

Section loader.
Context {DD : DiskDriver} {SD : SafeDriver DD} {LY : Layout}.

Lemma safe_loadseg pt va ip off sz : (ip < NINODE)%nat -> safe (loadseg pt va ip off sz) any.
Proof.
  assert (Hl : forall f pt va ip off sz i, (ip < NINODE)%nat -> safe (loadseg_loop f pt va ip off sz i) any).
  { induction f as [|f IH]; intros; cbn [loadseg_loop]; safe_go. }
  intros Hi. unfold loadseg. safe_go.
Qed.

Lemma safe_fail_work pt ip sz : ptr NINODE ip -> safe (fail_work pt ip sz) any.
Proof. intros Hi. unfold fail_work. destruct ip; simpl in Hi; safe_go. Qed.
#[local] Hint Resolve safe_loadseg safe_fail_work : safe_db.

Lemma safe_exec_fail {A} pt ip sz (Q : option A -> Prop) : Q None -> ptr NINODE ip -> safe (exec_fail pt ip sz) Q.
Proof. intros HQ Hi. unfold exec_fail. safe_go. Qed.
#[local] Hint Resolve safe_exec_fail : safe_db.

Lemma safe_load_segments n : forall ip pt off sz, (ip < NINODE)%nat -> safe (load_segments n ip pt off sz) any.
Proof. induction n as [|n IH]; intros ip pt off sz Hi; cbn [load_segments]; safe_go. Qed.

Lemma safe_push_args f : forall pt sz base argv argc sp ustack,
  terminated argv argc -> length ustack = argc -> safe (push_args f pt sz base argv argc sp ustack) pushed.
Proof.
  induction f as [|f IH]; intros pt sz base argv argc sp ustack Ht Hu; cbn [push_args]; [apply safe_nofuel|].
  destruct (terminated_some _ _ Ht) as [a Ea]. rewrite Ea. cbn [of_option].
  eapply safe_bind; [apply (safe_ret a (fun x => x = a)); reflexivity|]. intros ? ->.
  pose proof (terminated_next argv argc a Ht Ea) as Hn. safe_go.
  apply IH; [apply Hn; lia | rewrite length_app; simpl; lia].
Qed.
#[local] Hint Resolve safe_load_segments safe_push_args : safe_db.

Lemma length_pushed l : length (concat (map (le_bytes 8) l)) = (8 * length l)%nat.
Proof. induction l as [|x l IH]; [done|]. cbn [map concat]. rewrite length_app, length_le_bytes, IH. simpl. lia. Qed.

Lemma safe_exec_stack ip pt sz argv :
  (ip < NINODE)%nat -> terminated argv 0 -> safe (exec_stack ip pt sz argv) any.
Proof.
  intros Hi Ht. unfold exec_stack. safe_go. simpl in H.
  assert (Hl : (Z.to_nat ((Z.of_nat n + 1) * 8) <= length (concat (map (le_bytes 8) (l ++ [0%Z]))))%nat)
    by (rewrite length_pushed, length_app; simpl; lia). safe_go.
Qed.

Lemma safe_exec_commit path pt sz sp old argc : safe (exec_commit path pt sz sp old argc) any.
Proof. unfold exec_commit. safe_go. Qed.
#[local] Hint Resolve safe_exec_stack safe_exec_commit : safe_db.

Lemma safe_exec ip path argv : (ip < NINODE)%nat -> terminated argv 0 -> safe (exec ip path argv) any.
Proof. intros Hi Ht. unfold exec. safe_go. Qed.
End loader.
#[export] Hint Resolve safe_exec : safe_db.

(** ** System calls ([sysfile.cpp], [syscall.cpp]) *)

Lemma safe_my_proc : safe my_proc typed_proc.
Proof. unfold my_proc. safe_go. Qed.
#[export] Hint Resolve safe_my_proc : safe_db.

Lemma safe_fetch_addr addr : safe (fetch_addr addr) any.
Proof. unfold fetch_addr. safe_go. Qed.

Lemma safe_fetch_str addr b cap len : safe (fetch_str addr b cap len) any.
Proof. unfold fetch_str. safe_go. Qed.

Lemma safe_my_user : safe my_user any.
Proof. unfold my_user. safe_go. Qed.
#[export] Hint Resolve safe_fetch_addr safe_fetch_str safe_my_user : safe_db.

Lemma safe_check_permission i mask : (i < NINODE)%nat -> safe (check_permission_for_file i mask) any.
Proof. intros Hi. unfold check_permission_for_file. safe_go. Qed.

Lemma safe_get_argu k : safe (get_argu k) any.
Proof. unfold get_argu. safe_go. Qed.

Lemma safe_alloc_fd f : (f < NFILE)%nat -> safe (alloc_fd f) any.
Proof. intros Hf. unfold alloc_fd. safe_go. Qed.
#[export] Hint Resolve safe_check_permission safe_get_argu safe_alloc_fd : safe_db.

(** The descriptor of an open file and the file. *)
Definition open_fd (o : option (nat * nat)) : Prop :=
  match o with Some (fd, f) => (fd < NOFILE)%nat /\ (f < NFILE)%nat | None => True end.

Lemma safe_get_fd k : safe (get_fd k) open_fd.
Proof. unfold get_fd. safe_go. Qed.

Lemma safe_clear_fd fd : safe (clear_fd fd) any.
Proof. unfold clear_fd. safe_go. Qed.
#[export] Hint Resolve safe_get_fd safe_clear_fd : safe_db.

(** The vector [sys_exec] builds. *)
Definition vector (o : option (list Z)) : Prop := match o with Some argv => terminated argv 0 | None => True end.

Lemma terminated_insert argv i : length argv = MAXARGV -> (i < MAXARGV)%nat -> terminated (<[i := 0]> argv) 0.
Proof. intros Hl Hi. exists i. split; [lia|]. apply list_lookup_insert_eq. by rewrite Hl. Qed.

Lemma safe_fail_work4exec argv : safe (fail_work4exec argv) any.
Proof. induction argv as [|a argv IH]; cbn [fail_work4exec]; safe_go. Qed.
#[export] Hint Resolve safe_fail_work4exec : safe_db.

Lemma safe_fetch_args f : forall uargv argv i,
  length argv = MAXARGV -> safe (fetch_args f uargv argv i) vector.
Proof.
  induction f as [|f IH]; intros uargv argv i Hl; cbn [fetch_args]; safe_go.
  - apply terminated_insert; [done|]. apply negb_false_iff, Nat.ltb_lt in Heqb0. done.
  - apply IH. by rewrite length_insert.
Qed.
#[export] Hint Resolve safe_fetch_args : safe_db.

Section sys.
Context {DD : DiskDriver} {SD : SafeDriver DD} {LY : Layout}.
Hypothesis Hpad : length stk_pad = 4%nat.

Lemma safe_create_undo ip dp : (ip < NINODE)%nat -> (dp < NINODE)%nat -> safe (create_undo ip dp) (ptr NINODE).
Proof. intros Hi Hd. unfold create_undo. safe_go. Qed.

Lemma safe_link_dots ip : (ip < NINODE)%nat -> safe (link_dots ip) any.
Proof. intros Hi. unfold link_dots. safe_go. Qed.
#[local] Hint Resolve safe_create_undo safe_link_dots : safe_db.

Lemma safe_create_new dp type major minor : (dp < NINODE)%nat -> safe (create_new dp type major minor) (ptr NINODE).
Proof. intros Hd. unfold create_new. safe_go. Qed.
#[local] Hint Resolve safe_create_new : safe_db.

Lemma safe_create path type major minor : safe (create path type major minor) (ptr NINODE).
Proof. unfold create. safe_go. Qed.
#[local] Hint Resolve safe_create : safe_db.

Lemma safe_sys_exec : safe sys_exec any.
Proof. unfold sys_exec. safe_go. Qed.

Lemma safe_sys_fork : safe sys_fork any.
Proof. unfold sys_fork. safe_go. Qed.

Lemma safe_sys_exit : safe sys_exit any.
Proof. unfold sys_exit. safe_go. Qed.

Lemma safe_sys_wait : safe sys_wait any.
Proof. unfold sys_wait. safe_go. Qed.

Lemma safe_sys_kill : safe sys_kill any.
Proof. unfold sys_kill. safe_go. Qed.

Lemma safe_sys_getpid : safe sys_getpid any.
Proof. unfold sys_getpid. safe_go. Qed.

Lemma safe_sys_sbrk : safe sys_sbrk any.
Proof. unfold sys_sbrk. safe_go. Qed.

Lemma safe_sys_setuid : safe sys_setuid any.
Proof. unfold sys_setuid. safe_go. retype. Qed.

Lemma safe_sys_setgid : safe sys_setgid any.
Proof. unfold sys_setgid. safe_go. retype. Qed.

Lemma safe_sys_pipe : safe sys_pipe any.
Proof. unfold sys_pipe. safe_go. Qed.

Lemma safe_sys_read : safe sys_read any.
Proof. unfold sys_read. safe_go. Qed.

Lemma safe_sys_write : safe sys_write any.
Proof. unfold sys_write. safe_go. Qed.

Lemma safe_sys_fstat : safe sys_fstat any.
Proof. unfold sys_fstat. safe_go. Qed.

Lemma safe_sys_dup : safe sys_dup any.
Proof. unfold sys_dup, fd_alloc. safe_go. Qed.

Lemma safe_sys_close : safe sys_close any.
Proof. unfold sys_close. safe_go. Qed.

Lemma safe_sys_chdir : safe sys_chdir any.
Proof. unfold sys_chdir. safe_go. Qed.

Lemma safe_open_failed ip : (ip < NINODE)%nat -> safe (open_failed ip) any.
Proof. intros Hi. unfold open_failed. safe_go. Qed.

Lemma typed_open_file mode ip n f : (ip < NINODE)%nat -> typed_file f -> typed_file (open_file mode ip n f).
Proof. intros Hi [Hp Ht]. unfold open_file. destruct (i_type n =? T_DEVICE); split; simpl; try done; by eexists. Qed.
#[local] Hint Resolve safe_open_failed typed_open_file : safe_db.

Lemma safe_open_inode mode ip : (ip < NINODE)%nat -> safe (open_inode mode ip) any.
Proof. intros Hi. unfold open_inode. safe_go. Qed.
#[local] Hint Resolve safe_open_inode : safe_db.

Lemma safe_sys_open : safe sys_open any.
Proof. unfold sys_open. safe_go. Qed.

Lemma safe_sys_mknod : safe sys_mknod any.
Proof. unfold sys_mknod. safe_go. Qed.

Lemma safe_sys_mkdir : safe sys_mkdir any.
Proof. unfold sys_mkdir. safe_go. Qed.
#[local] Hint Resolve safe_sys_exec safe_sys_fork safe_sys_exit safe_sys_wait safe_sys_kill safe_sys_getpid safe_sys_sbrk
  safe_sys_setuid safe_sys_setgid safe_sys_pipe safe_sys_read safe_sys_write safe_sys_fstat safe_sys_dup
  safe_sys_close safe_sys_chdir safe_sys_open safe_sys_mknod safe_sys_mkdir : safe_db.

(** Every entry of the table of system calls. *)
Lemma safe_syscalls : Forall (fun f => safe f any) syscalls.
Proof. unfold syscalls. repeat (apply List.Forall_cons; [first [by apply safe_ret | solve [eauto 2 with safe_db]]|]). apply List.Forall_nil. Qed.

Lemma safe_syscall : safe syscall any.
Proof.
  unfold syscall. safe_go.
  assert (Hf : safe a1 any) by (exact (proj1 (Forall_lookup _ _) safe_syscalls _ _ H1)). safe_go.
Qed.
End sys.

(** ** The virtio driver ([virtio_disk.cpp]) *)

Lemma safe_on_vd f : (forall d, typed_vdisk d -> typed_vdisk (f d)) -> safe (on_vd f) any.
Proof. intros Hf. apply safe_modify. retype. auto. Qed.

Lemma safe_io_write a v : safe (io_write a v) any.
Proof. apply safe_modify. retype. Qed.
#[export] Hint Resolve safe_on_vd safe_io_write : safe_db.
#[export] Hint Extern 2 (typed_vdisk _) => (match goal with H : typed_vdisk _ |- _ => destruct H end;
   constructor; simpl; first [assumption | by rewrite length_insert | apply array_insert; [assumption | unfold NUM; bounds]]) : safe_db.

Lemma safe_alloc_desc : safe alloc_desc (ptr NUM).
Proof.
  unfold alloc_desc. safe_go. simpl. apply find_idx_Some in Heqo as (x & Hx & _).
  apply lookup_lt_Some in Hx. by rewrite (tv_free _ (ty_vd _ Ht)) in Hx.
Qed.

Lemma safe_free_desc i : safe (free_desc i) any.
Proof.
  unfold free_desc. safe_go. exfalso. apply lookup_ge_None in H. rewrite (tv_free _ (ty_vd _ Ht)) in H.
  apply Nat.leb_gt in Heqb. lia.
Qed.
#[export] Hint Resolve safe_alloc_desc safe_free_desc : safe_db.

Lemma safe_free_all l : safe (free_all l) any.
Proof. induction l as [|i l IH]; cbn [free_all]; safe_go. Qed.
#[export] Hint Resolve safe_free_all : safe_db.

Definition descs (n : nat) (o : option (list nat)) : Prop :=
  match o with Some l => length l = n /\ Forall (fun i => i < NUM)%nat l | None => True end.

Lemma safe_alloc_descs n : forall idx k, Forall (fun i => i < NUM)%nat idx -> (length idx + n = k)%nat ->
  safe (alloc_descs n idx) (descs k).
Proof.
  induction n as [|n IH]; intros idx k Hf Hk; cbn [alloc_descs]; safe_go.
  apply IH; [by apply Forall_app_2; [|constructor] | rewrite length_app; simpl; lia].
Qed.

Lemma safe_wait_descs f : safe (wait_descs f) (fun l => descs 3 (Some l)).
Proof.
  induction f as [|f IH]; cbn [wait_descs]; [apply safe_nofuel|].
  eapply safe_bind; [by apply (safe_alloc_descs 3 [] 3)|]. intros [l|] Hl; safe_go.
Qed.

Lemma safe_free_chain_loop f : forall i, (i < NUM)%nat -> safe (free_chain_loop f i) any.
Proof.
  induction f as [|f IH]; intros i Hi; cbn [free_chain_loop]; [apply safe_nofuel|].
  eapply safe_bind; [apply safe_gets|]. intros d (s & Hs & ->).
  eapply safe_bind; [eapply safe_index; [apply (tv_desc _ (ty_vd _ Hs)) | done]|]. intros ds Hd.
  safe_go.
Qed.
#[export] Hint Resolve safe_wait_descs safe_free_chain_loop : safe_db.

Lemma typed_request b w sector i0 i1 i2 d : (b < NBUF)%nat -> (i1 < NUM)%nat -> (i2 < NUM)%nat ->
  typed_vdisk d -> typed_vdisk (request b w sector i0 i1 i2 d).
Proof.
  intros Hb H1 H2 [Hd Hf Hu Hi Hst]. constructor; simpl; [|done|done|by apply array_insert|by rewrite length_insert].
  repeat (apply array_insert; [|simpl; unfold NUM in *; lia]). done.
Qed.
#[export] Hint Resolve typed_request : safe_db.

(** The driver keeps the kernel typed, so the file system above it does. *)
Lemma safe_virtio b w : (b < NBUF)%nat -> safe (Virtio.disk_rw b w) any.
Proof.
  intros Hb. unfold Virtio.disk_rw. do 2 safe_step.
  eapply safe_bind with (R := fun l => descs 3 (Some l)); [fuelled; apply safe_wait_descs|]. intros l [Hl Hf].
  destruct l as [|i0 [|i1 [|i2 [|]]]]; try done.
  inversion Hf as [|?? H0 Hf1]; subst. inversion Hf1 as [|?? H1 Hf2]; subst. inversion Hf2 as [|?? H2 _]; subst.
  unfold free_chain. safe_go.
Qed.

(** ** Traps and interrupts ([trap.cpp], [plic.cpp]) *)

Lemma safe_on_csr f : safe (on_csr f) any.
Proof. apply safe_modify. retype. Qed.

Lemma safe_io_read a : safe (io_read a) any.
Proof.
  intros s e Hs He. unfold io_read. destruct (io_in (k_io s)) as [|v l]; [done|].
  simpl. split; [|done]. by destruct Hs; constructor.
Qed.
#[export] Hint Resolve safe_io_read : safe_db.
#[export] Hint Extern 1 (safe (w_stvec _) _) => apply safe_on_csr : safe_db.
#[export] Hint Extern 1 (safe (w_sepc _) _) => apply safe_on_csr : safe_db.
#[export] Hint Extern 1 (safe (w_stimecmp _) _) => apply safe_on_csr : safe_db.
#[export] Hint Extern 1 (safe (w_sstatus _) _) => apply (safe_sstatus (fun _ => _)) : safe_db.
#[export] Hint Extern 1 (safe r_sepc _) => apply safe_gets : safe_db.
#[export] Hint Extern 1 (safe r_scause _) => apply safe_gets : safe_db.
#[export] Hint Extern 1 (safe r_satp _) => apply safe_gets : safe_db.
#[export] Hint Extern 1 (safe r_stval _) => apply safe_gets : safe_db.
#[export] Hint Extern 1 (safe r_time _) => apply safe_gets : safe_db.
#[export] Hint Extern 1 (safe r_sstatus _) => apply safe_gets : safe_db.

Lemma safe_intr_char c : safe (Console.intr_char c) any.
Proof. unfold Console.intr_char, Console.cons_put. safe_go. Qed.

Lemma safe_kill_line f : safe (Console.kill_line f) any.
Proof. induction f as [|f IH]; cbn [Console.kill_line]; safe_go. Qed.
#[export] Hint Resolve safe_intr_char safe_kill_line : safe_db.

Lemma safe_console_intr c : safe (Console.intr c) any.
Proof.
  unfold Console.intr. safe_step. eapply safe_bind with (R := any); [|safe_go].
  safe_step; [fuelled; apply safe_kill_line | safe_go].
Qed.

Lemma safe_getc : safe Uart.getc any.
Proof. unfold Uart.getc. safe_go. Qed.
#[export] Hint Resolve safe_console_intr safe_getc : safe_db.

Lemma safe_uart_intr : safe UartIntr.intr any.
Proof.
  assert (Hl : forall f, safe (UartIntr.intr_loop f) any).
  { induction f as [|f IH]; cbn [UartIntr.intr_loop]; safe_go. }
  unfold UartIntr.intr. eapply safe_bind with (R := any); [fuelled; apply Hl|]. intros _ _. safe_go.
Qed.

(** The interrupt handler of the disk: the device's ring names descriptors of the queue. *)
Lemma safe_virtio_intr_loop f : safe (Virtio.intr_loop f) any.
Proof.
  induction f as [|f IH]; cbn [Virtio.intr_loop]; [apply safe_nofuel|].
  eapply safe_bind; [apply safe_gets|]. intros d (s & Hs & ->). pose proof (ty_vd _ Hs) as Hv.
  safe_step; [by apply safe_ret|].
  pose proof (Z.mod_pos_bound (vd_used_idx (k_vd s)) (Z.of_nat NUM) ltac:(done)).
  eapply safe_bind; [eapply safe_index; [apply (tv_used _ Hv) | lia]|]. intros id Hid. cbv beta in Hid.
  destruct (lookup_lt_is_Some_2 (vd_info_status (k_vd s)) (Z.to_nat id)) as [st E]; [rewrite (tv_status _ Hv); lia|].
  rewrite E. cbn [of_option]. eapply safe_bind; [by apply (safe_ret st any)|]. intros ? _. safe_step; [apply safe_panic|].
  eapply safe_bind; [eapply safe_index; [apply (tv_info _ Hv) | lia]|]. intros o Ho. safe_go.
Qed.

Lemma safe_virtio_disk_intr : safe virtio_disk_intr any.
Proof.
  unfold virtio_disk_intr. do 3 safe_step. eapply safe_bind with (R := any); [fuelled; apply safe_virtio_intr_loop|].
  intros _ _. safe_go.
Qed.
#[export] Hint Resolve safe_uart_intr safe_virtio_disk_intr : safe_db.

Lemma safe_clockintr : safe clockintr any.
Proof. unfold clockintr. safe_go. retype. Qed.

Lemma safe_plic_claim : safe plic_claim any.
Proof. unfold plic_claim, get_plic_sclaim. safe_go. Qed.

Lemma safe_plic_complete irq : safe (plic_complete irq) any.
Proof. unfold plic_complete, set_plic_sclaim. safe_go. Qed.
#[export] Hint Resolve safe_clockintr safe_plic_claim safe_plic_complete : safe_db.

Lemma safe_devintr : safe devintr any.
Proof. unfold devintr. safe_go. Qed.

Lemma safe_set_killed i : (i < NPROC)%nat -> safe (set_killed i) any.
Proof. intros Hi. unfold set_killed. safe_go. Qed.
#[export] Hint Resolve safe_devintr safe_set_killed : safe_db.

Lemma safe_kerneltrap : safe kerneltrap any.
Proof. unfold kerneltrap. safe_go. Qed.

Section trap.
Context {DD : DiskDriver} {SD : SafeDriver DD} {LY : Layout}.
Hypothesis Hpad : length stk_pad = 4%nat.
#[local] Hint Resolve safe_syscall : safe_db.
#[local] Hint Extern 1 (length stk_pad = _) => exact Hpad : safe_db.

Lemma safe_user_ret : safe user_ret any.
Proof. unfold user_ret. safe_go. Qed.

Lemma safe_user_cause i : (i < NPROC)%nat -> safe (user_cause i) any.
Proof. intros Hi. unfold user_cause. safe_go. Qed.
#[local] Hint Resolve safe_user_ret safe_user_cause : safe_db.

Lemma safe_user_trap : safe user_trap any.
Proof. unfold user_trap. safe_go. Qed.

(** A new process starts in [forkret]; the first one reads the superblock and recovers
    the log, whose header comes from the disk. *)
Lemma safe_rhead : safe rhead any.
Proof. unfold rhead. safe_go. Qed.
#[local] Hint Resolve safe_rhead safe_install_trans safe_whead : safe_db.

Lemma safe_fs_init dev : safe (Fs.init dev) any.
Proof. unfold Fs.init, read_supblock, Log.init, recover. safe_go. retype. Qed.
#[local] Hint Resolve safe_fs_init : safe_db.

Lemma safe_forkret : safe forkret any.
Proof. unfold forkret. safe_go. retype. Qed.
End trap.

(** ** Properties *)

(** The environment of a typed kernel stays typed: an interrupt handler on another hart is tame. *)
Lemma tame_run {A} (m : M A) : safe m any ->
  tame (fun s => match m s [] with Ret _ s' _ | Panic _ s' | Blocked s' => s' | _ => s end).
Proof. intros Hm s Hs. specialize (Hm s [] Hs (List.Forall_nil _)). destruct (m s []); simpl in Hm; intuition. Qed.

(** The ways a process enters the kernel: a trap from user mode, the system call in it, an
    interrupt while it runs in the kernel, and its first activation. *)
Definition entry_points {DD : DiskDriver} {LY : Layout} : list (M unit) :=
  [user_trap ;; ret tt; syscall; kerneltrap; forkret ;; ret tt].

(** C5: The C++ types of the kernel's data are kept: started on a kernel whose
    fixed-size arrays have their lengths and whose pointers into the process, cpu,
    buffer, inode, file, descriptor and disk queue tables point into them, a trap from
    user mode, every system call, a trap from the kernel and the start of a new process
    leave it so, whether they return, panic or block, while the rest of the machine does
    the same. Of the undefined behaviours the model distinguishes they can meet only
    those of the list unchecked, none of which is an access to one of these tables; a
    name of exactly 14 characters that overruns name[DIRSIZ] in skipelem or de.name in
    dir_link, and the negation of the least integer in print, are on the list. Writes
    through raw addresses of the byte memory are not classified, and a run that exceeds
    the loop bounds of the model (NoFuel) is not followed: the statement is about the
    runs that end within them. *)
Theorem traps_keep_types {DD : DiskDriver} {SD : SafeDriver DD} {LY : Layout} (s : kernel) (e : environment) :
  length stk_pad = 4%nat -> typed s -> Forall tame e -> Forall (fun m => fine any (m s e)) entry_points.
Proof.
  intros Hpad Hs He.
  assert (Forall (fun m => safe m any) entry_points) as H.
  { unfold entry_points. repeat (apply List.Forall_cons || apply List.Forall_nil).
    - eapply safe_bind; [by apply safe_user_trap|]. intros. by apply safe_ret.
    - by apply safe_syscall.
    - apply safe_kerneltrap.
    - eapply safe_bind; [by apply safe_forkret|]. intros. by apply safe_ret. }
  revert H. apply Forall_impl. intros m Hm. by apply Hm.
Qed.

Lemma array_replicate {A} n (P : A -> Prop) a : P a -> array n P (replicate n a).
Proof. intros H. split; [apply length_replicate | by apply Forall_replicate]. Qed.

(** The static data, with a process on hart 0, is typed. *)
Lemma typed_proc0 : typed_proc proc0.
Proof. constructor; [reflexivity | by apply array_replicate | exact I | exact I]. Qed.

Lemma typed_buf0 : typed_buf buf0.
Proof. constructor; [reflexivity | apply le_n | apply le_n]. Qed.

Lemma typed_vdisk0 : typed_vdisk vdisk0.
Proof.
  constructor; [apply array_replicate; simpl; unfold NUM; lia | reflexivity | apply array_replicate; unfold NUM; lia | | reflexivity].
  by apply array_replicate.
Qed.

Lemma typed_run0 : typed_hart hl_run.
Proof.
  constructor; [apply array_insert; [by apply array_replicate | simpl; unfold NPROC; lia] | simpl; unfold NCPU; lia | by eexists].
Qed.

Lemma typed_calling n : typed (calling n).
Proof.
  constructor; [apply typed_run0 | apply array_replicate, typed_proc0 | exact I | by intros ?? | reflexivity | reflexivity | | | | | | | ].
  - apply array_replicate, typed_buf0.
  - reflexivity.
  - reflexivity.
  - by apply (array_replicate NINODE typed_inode inode0).
  - by apply (array_replicate NFILE typed_file file0).
  - reflexivity.
  - apply typed_vdisk0.
Qed.

(** A [getpid], with an interrupt on the hart the process next runs on. *)
Lemma traps_keep_types_witness :
  let tick := fun s => match kerneltrap s [] with Ret _ s' _ | Panic _ s' | Blocked s' => s' | _ => s end in
  typed (calling 10) /\ tame tick /\
  Forall (fun m => fine any (m (calling 10) [tick])) (entry_points (DD := polled_disk) (LY := layout0)).
Proof.
  intros tick. assert (tame tick) as Ht by apply tame_run, safe_kerneltrap.
  split; [apply typed_calling|]. split; [exact Ht|].
  refine (traps_keep_types (LY := layout0) (calling 10) [tick] eq_refl (typed_calling 10) _).
  constructor; [exact Ht | constructor].
Defined.
