(* ===== verification/User.v ===== *)
(** * User programs: system calls and strings ([ulibc])

    A user program runs in a monad of its own: the memory of the process, the
    static variables of the C library, and the state of the system outside the
    process, which answers system calls.  A pointer argument of a system call is
    represented by the bytes it points to, as the kernel copies them
    ([UserCopy]).  A call that does not return (exit, a successful exec) ends
    the run.  Loops over strings take fuel from the class [Fuel]. *)

From S2P Require Import Prelude.

(** ** System calls ([src/include/syscall.h]) *)

Inductive sysreq :=
  | SYS_fork
  | SYS_exit (code : Z)
  | SYS_wait (status : bool)
  | SYS_read (fd count : Z)
  | SYS_exec (path : list Z) (argv : list (list Z))
  | SYS_fstat (fd : Z)
  | SYS_dup (fd : Z)
  | SYS_sbrk (len : Z)
  | SYS_open (path : list Z) (flags : Z)
  | SYS_write (fd : Z) (data : list Z)
  | SYS_mknod (path : list Z) (mode dev : Z)
  | SYS_close (fd : Z)
  | SYS_setuid (uid : Z)
  | SYS_setgid (gid : Z).

(** The system: [serve] gives the value of [a0], the bytes written to the buffer of
    the call, and the new state; [None] when the call does not return. *)
Class Kernel := {
  world : Type;
  serve : sysreq -> world -> option (Z * list Z * world)
}.

Class Fuel := fuel : nat.

(** Addresses of the static objects. *)
Class Ulayout := {
  at_base : Z;
  at_stdin_buf : Z;
  at_stdout_buf : Z
}.

(** ** State and runs *)

(** [struct _IO_FILE]: the fields the library uses.  [f_read] and [f_write] say that
    the function pointers are set. *)
Record FILE := Mk_FILE {
  f_flags : Z;
  f_rpos : Z;
  f_rend : Z;
  f_wend : Z;
  f_wpos : Z;
  f_wbase : Z;
  f_read : bool;
  f_write : bool;
  f_buf : Z;
  f_buf_size : Z;
  f_fd : Z;
  f_mode : Z;
  f_lbf : Z
}.

Inductive stream := stdin | stdout.

#[global] Instance stream_eq_dec : EqDecision stream.
Proof. solve_decision. Defined.

Section user.
Context {K : Kernel}.

Record ustate := Mk_ustate {
  u_mem : memory;
  u_world : world;
  u_freep : Z;
  u_stdin : FILE;
  u_stdout : FILE
}.

(** A run: a result, the end of the process in a system call, undefined behaviour,
    or exhausted fuel. *)
Inductive ures (A : Type) :=
  | URet (a : A) (s : ustate)
  | UGone (r : sysreq) (s : ustate)
  | UUndef (why : string)
  | UFuel.

Definition U (A : Type) : Type := ustate -> ures A.
End user.

Arguments URet {K A} _ _.
Arguments UGone {K A} _ _.
Arguments UUndef {K A} _.
Arguments UFuel {K A}.

Declare Scope user_scope.
Delimit Scope user_scope with user.

Section monad.
Context {K : Kernel}.

Definition uret {A} (a : A) : U A := fun s => URet a s.
Definition ubind {A B} (x : U A) (f : A -> U B) : U B :=
  fun s => match x s with
           | URet a s' => f a s'
           | UGone r s' => UGone r s'
           | UUndef w => UUndef w
           | UFuel => UFuel
           end.
Definition uget {A} (f : ustate -> A) : U A := fun s => URet (f s) s.
Definition umod (f : ustate -> ustate) : U unit := fun s => URet tt (f s).
Definition uundef {A} (w : string) : U A := fun _ => UUndef w.
Definition ustuck {A} : U A := fun _ => UFuel.
End monad.

Notation "x <- c1 ;; c2" := (ubind c1 (fun x => c2)) (at level 100, c1 at next level, right associativity) : user_scope.
Notation "c1 ;; c2" := (ubind c1 (fun _ => c2)) (at level 100, right associativity) : user_scope.
#[local] Open Scope user_scope.

Section lib.
Context {K : Kernel} {F : Fuel}.

Definition set_mem (m : memory) (s : ustate) : ustate := Mk_ustate m (u_world s) (u_freep s) (u_stdin s) (u_stdout s).
Definition set_world (w : world) (s : ustate) : ustate := Mk_ustate (u_mem s) w (u_freep s) (u_stdin s) (u_stdout s).
Definition set_freep (p : Z) (s : ustate) : ustate := Mk_ustate (u_mem s) (u_world s) p (u_stdin s) (u_stdout s).
Definition file_of (f : stream) (s : ustate) : FILE := match f with stdin => u_stdin s | stdout => u_stdout s end.
Definition set_file (f : stream) (x : FILE) (s : ustate) : ustate :=
  match f with
  | stdin => Mk_ustate (u_mem s) (u_world s) (u_freep s) x (u_stdout s)
  | stdout => Mk_ustate (u_mem s) (u_world s) (u_freep s) (u_stdin s) x
  end.

Definition load8 (a : Z) : U Z := uget (fun s => u_mem s a).
Definition put8 (a v : Z) : U unit := umod (fun s => set_mem (store8 (u_mem s) a v) s).

(** ** Entering the kernel *)

(** A [long] from its 64 bits. *)
Definition s64 (x : Z) : Z := if u64 x <? 2 ^ 63 then u64 x else u64 x - 2 ^ 64.

Definition __syscall_ret (r : Z) : Z := if 2 ^ 64 - 4096 <? r then -1 else s64 r.

(** [ecall]; the value of [a0] and the bytes copied out. *)
Definition ecall (r : sysreq) : U (Z * list Z) :=
  fun s => match serve r (u_world s) with
           | Some (a0, out, w) => URet (a0, out) (set_world w s)
           | None => UGone r s
           end.

Definition syscall (r : sysreq) : U (Z * list Z) := x <- ecall r ;; uret (__syscall_ret (u64 (fst x)), snd x).

(** The bytes of a string argument, up to the NUL. *)
Fixpoint cstr (fuel : nat) (m : memory) (p : Z) : option (list Z) :=
  match fuel with
  | O => None
  | S f => if m p =? 0 then Some [] else match cstr f m (p + 1) with Some l => Some (m p :: l) | None => None end
  end.

Definition ustr (p : Z) : U (list Z) :=
  m <- uget u_mem ;; match cstr fuel m p with Some l => uret l | None => ustuck end.

(** ** [src/unistd], [src/fnctl], [src/process], [src/stat], [src/stdlib] *)

Definition close (fd : Z) : U Z := r <- syscall (SYS_close fd) ;; uret (s32 (fst r)).
Definition dup (fd : Z) : U Z := r <- syscall (SYS_dup fd) ;; uret (s32 (fst r)).
Definition fork : U Z := r <- syscall SYS_fork ;; uret (s32 (fst r)).
Definition setgid (gid : Z) : U Z := r <- syscall (SYS_setgid gid) ;; uret (s32 (fst r)).
Definition setuid (uid : Z) : U Z := r <- syscall (SYS_setuid uid) ;; uret (s32 (fst r)).
(** The result is a pointer. *)
Definition sbrk (len : Z) : U Z := r <- syscall (SYS_sbrk len) ;; uret (u64 (fst r)).

Definition write_lit (fd : Z) (data : list Z) : U Z := r <- syscall (SYS_write fd data) ;; uret (fst r).
Definition write (fd buf count : Z) : U Z := m <- uget u_mem ;; write_lit fd (load_bytes m buf (Z.to_nat count)).

Definition read (fd buf count : Z) : U Z :=
  r <- syscall (SYS_read fd count) ;; umod (fun s => set_mem (store_bytes (u_mem s) buf (snd r)) s) ;; uret (fst r).

(** The functions with a path or a buffer that is a literal, and with one in memory. *)
Definition open_lit (filename : list Z) (flags : Z) : U Z := r <- syscall (SYS_open filename flags) ;; uret (s32 (fst r)).
Definition open (filename flags : Z) : U Z := p <- ustr filename ;; open_lit p flags.

(** [argv] is an array of pointers that ends with a null pointer. *)
Fixpoint argv_strs (n : nat) (argv : Z) : U (list (list Z)) :=
  match n with
  | O => ustuck
  | S n' =>
      m <- uget u_mem ;;
      if load64 m argv =? 0 then uret []
      else p <- ustr (load64 m argv) ;; l <- argv_strs n' (argv + 8) ;; uret (p :: l)
  end.

Definition execve_lit (path : list Z) (argv : list (list Z)) : U Z := r <- syscall (SYS_exec path argv) ;; uret (s32 (fst r)).
Definition execve (path argv envp : Z) : U Z :=
  p <- ustr path ;; a <- argv_strs fuel argv ;; execve_lit p a.

Definition wait (status : Z) : U Z :=
  r <- syscall (SYS_wait (negb (status =? 0))) ;;
  (if status =? 0 then uret tt else umod (fun s => set_mem (store_bytes (u_mem s) status (snd r)) s)) ;;
  uret (s32 (fst r)).

Definition mknod (path : list Z) (mode dev : Z) : U Z := r <- syscall (SYS_mknod path mode dev) ;; uret (s32 (fst r)).

Definition fstat (fd stat : Z) : U Z :=
  r <- syscall (SYS_fstat fd) ;; umod (fun s => set_mem (store_bytes (u_mem s) stat (snd r)) s) ;; uret (s32 (fst r)).

Definition O_RDONLY : Z := 0.
Definition O_RDWR : Z := 2.

Definition stat (path buf : Z) : U Z :=
  fd <- open path O_RDONLY ;;
  if fd <? 0 then uret (-1)
  else rs <- fstat fd buf ;; close fd ;; uret rs.

(** [for (;;) __syscall(SYS_exit, ec)]: the call does not return, or again and again. *)
Fixpoint exit_loop {A} (n : nat) (ec : Z) : U A :=
  match n with O => ustuck | S n' => ecall (SYS_exit ec) ;; exit_loop n' ec end.

Definition _Exit {A} (ec : Z) : U A := exit_loop fuel ec.
Definition exit {A} (code : Z) : U A := _Exit code.

(** ** [src/string] *)

Fixpoint memchr_loop (n : nat) (m : memory) (p ch : Z) : Z :=
  match n with O => 0 | S n' => if m p =? ch then p else memchr_loop n' m (p + 1) ch end.

(** The address found, or the null pointer. *)
Definition memchr (m : memory) (s c n : Z) : Z := memchr_loop (Z.to_nat n) m s (u8 c).

Fixpoint copy_fwd (n : nat) (m : memory) (d s : Z) : memory :=
  match n with O => m | S n' => copy_fwd n' (store8 m d (m s)) (d + 1) (s + 1) end.

(** [*--d = *--s], from the ends [d] and [s]. *)
Fixpoint copy_bwd (n : nat) (m : memory) (d s : Z) : memory :=
  match n with O => m | S n' => copy_bwd n' (store8 m (d - 1) (m (s - 1))) (d - 1) (s - 1) end.

(** The memory and the result. *)
Definition memcpy (m : memory) (dest src n : Z) : memory * Z :=
  if (dest =? 0) || (src =? 0) then (m, 0) else (copy_fwd (Z.to_nat n) m dest src, dest).

Definition memmove (m : memory) (dest src n : Z) : memory * Z :=
  if (dest =? 0) || (src =? 0) then (m, 0)
  else if (dest <? src) || (src + n <=? dest) then (copy_fwd (Z.to_nat n) m dest src, dest)
  else if src <? dest then (copy_bwd (Z.to_nat n) m (dest + n) (src + n), dest)
  else (m, dest).

Fixpoint memset_loop (n : nat) (m : memory) (p value : Z) : memory :=
  match n with O => m | S n' => memset_loop n' (store8 m p value) (p + 1) value end.

Definition memset (m : memory) (s c n : Z) : memory := memset_loop (Z.to_nat n) m s (u8 c).

(** [while ( *s ) ...] of [strchr]: where the loop stops, and whether at [c]. *)
Fixpoint strchr (fuel : nat) (m : memory) (s c : Z) : option Z :=
  match fuel with
  | O => None
  | S f =>
      if m s =? 0 then Some (if c =? 0 then s else 0)
      else if m s =? u8 c then Some s
      else strchr f m (s + 1) c
  end.

Fixpoint strcpy_loop (fuel : nat) (m : memory) (dest src : Z) : option memory :=
  match fuel with
  | O => None
  | S f =>
      let m' := store8 m dest (m src) in
      if m src =? 0 then Some m' else strcpy_loop f m' (dest + 1) (src + 1)
  end.

Definition strcpy (fuel : nat) (m : memory) (dest src : Z) : option (memory * Z) :=
  if (dest =? 0) || (src =? 0) then Some (m, 0)
  else match strcpy_loop fuel m dest src with Some m' => Some (m', dest) | None => None end.

Fixpoint strlen_scan (fuel : nat) (m : memory) (s : Z) : option Z :=
  match fuel with O => None | S f => if m s =? 0 then Some s else strlen_scan f m (s + 1) end.

Definition strlen (fuel : nat) (m : memory) (str : Z) : option Z :=
  match strlen_scan fuel m str with Some s => Some (s - str) | None => None end.

Definition strnlen (m : memory) (s n : Z) : Z := let p := memchr m s 0 n in if p =? 0 then n else p - s.

(** ** The functions on memory as operations of the process *)

Definition on_mem (f : memory -> memory) : U unit := umod (fun s => set_mem (f (u_mem s)) s).
Definition of_mem {A} (f : memory -> option A) : U A :=
  m <- uget u_mem ;; match f m with Some a => uret a | None => ustuck end.

(** ** Steps of a run *)

Lemma ubind_run {A B} (x : U A) (f : A -> U B) a s s' : x s = URet a s' -> ubind x f s = f a s'.
Proof. intros H. unfold ubind. by rewrite H. Qed.

Lemma ubind_uget {A B} (g : ustate -> A) (f : A -> U B) s : ubind (uget g) f s = f (g s) s.
Proof. reflexivity. Qed.

Lemma ubind_uret {A B} (a : A) (f : A -> U B) s : ubind (uret a) f s = f a s.
Proof. reflexivity. Qed.

Lemma ubind_umod {B} (g : ustate -> ustate) (f : unit -> U B) s : ubind (umod g) f s = f tt (g s).
Proof. reflexivity. Qed.

Lemma ubind_on_mem {B} (g : memory -> memory) (f : unit -> U B) s : ubind (on_mem g) f s = f tt (set_mem (g (u_mem s)) s).
Proof. reflexivity. Qed.

Lemma ubind_assoc {A B C} (x : U A) (f : A -> U B) (g : B -> U C) s : ubind (ubind x f) g s = ubind x (fun a => ubind (f a) g) s.
Proof. unfold ubind. by destruct (x s). Qed.
End lib.

Create Rewrite HintDb ustep.
#[export] Hint Rewrite @ubind_uget @ubind_uret @ubind_umod @ubind_on_mem @ubind_assoc : ustep.
