(* ===== verification/Stdio.v ===== *)
(** * The standard streams and formatted output ([ulibc/src/stdio])

    [stdin] and [stdout] are the two streams the library defines.  A format string
    is a function from an index to a character, so that a literal and a string in
    memory are alike; the arguments of a variadic call are the list of the values
    [va_arg] takes: 64 bits, or a pointer to a literal. *)

From S2P Require Import Prelude Text User.
From Stdlib Require Ascii String.

#[local] Open Scope user_scope.
#[local] Open Scope Z_scope.

Definition F_PERM : Z := 1.
Definition F_NORD : Z := 4.
Definition F_NOWR : Z := 8.
Definition F_EOF : Z := 16.
Definition F_ERR : Z := 32.
Definition UNGET : Z := 8.
Definition BUFSIZ : Z := 1024.
Definition EOF : Z := 0.

Definition set_f_flags (v : Z) (f : FILE) : FILE :=
  Mk_FILE v (f_rpos f) (f_rend f) (f_wend f) (f_wpos f) (f_wbase f) (f_read f) (f_write f) (f_buf f) (f_buf_size f) (f_fd f) (f_mode f) (f_lbf f).
Definition set_f_mode (v : Z) (f : FILE) : FILE :=
  Mk_FILE (f_flags f) (f_rpos f) (f_rend f) (f_wend f) (f_wpos f) (f_wbase f) (f_read f) (f_write f) (f_buf f) (f_buf_size f) (f_fd f) v (f_lbf f).
(** The pair of read pointers, and the three write pointers. *)
Definition set_f_r (rpos rend : Z) (f : FILE) : FILE :=
  Mk_FILE (f_flags f) rpos rend (f_wend f) (f_wpos f) (f_wbase f) (f_read f) (f_write f) (f_buf f) (f_buf_size f) (f_fd f) (f_mode f) (f_lbf f).
Definition set_f_w (wend wpos wbase : Z) (f : FILE) : FILE :=
  Mk_FILE (f_flags f) (f_rpos f) (f_rend f) wend wpos wbase (f_read f) (f_write f) (f_buf f) (f_buf_size f) (f_fd f) (f_mode f) (f_lbf f).
Definition set_f_wpos (v : Z) (f : FILE) : FILE := set_f_w (f_wend f) v (f_wbase f) f.

(** The initial values: [stdin.c] and [stdout.c]. *)
Definition __stdin_FILE {L : Ulayout} : FILE :=
  Mk_FILE (Z.lor F_PERM F_NOWR) 0 0 0 0 0 true false (at_stdin_buf + UNGET) BUFSIZ 0 0 0.
Definition __stdout_FILE {L : Ulayout} : FILE :=
  Mk_FILE (Z.lor F_PERM F_NORD) 0 0 0 0 0 false true (at_stdout_buf + UNGET) BUFSIZ 1 0 10.

Inductive varg := Vint (v : Z) | Vstr (s : list Z).

Section stdio.
Context {K : Kernel} {F : Fuel}.

Definition getf {A} (f : stream) (g : FILE -> A) : U A := uget (fun s => g (file_of f s)).
Definition modf (f : stream) (g : FILE -> FILE) : U unit := umod (fun s => set_file f (g (file_of f s)) s).

Definition feof (f : stream) : U bool := fl <- getf f f_flags ;; uret (negb (Z.land fl F_EOF =? 0)).

(** ** Reading and writing through a stream *)

(** The buffer of the caller is passed and returned by value: its [len] bytes. *)
Definition __stdio_read (f : stream) (buf : list Z) : U (Z * list Z) :=
  let len := Z.of_nat (length buf) in
  fd <- getf f f_fd ;;
  r <- syscall (SYS_read fd len) ;;
  let cnt := fst r in
  let buf := take (length buf) (snd r ++ drop (length (snd r)) buf) in
  if cnt <=? 0 then
    modf f (fun x => set_f_flags (Z.lor (f_flags x) (if cnt =? 0 then F_EOF else F_ERR)) x) ;;
    uret (0, buf)
  else
    modf f (fun x => set_f_r (f_buf x) (f_buf x + cnt) x) ;;
    size <- getf f f_buf_size ;;
    if negb (size =? 0) then
      rpos <- getf f f_rpos ;;
      c <- load8 rpos ;;
      modf f (fun x => set_f_r (rpos + 1) (f_rend x) x) ;;
      uret (len, <[(length buf - 1)%nat := c]> buf)
    else uret (len, buf).

(** [cnt] is a [size_t]: the test [cnt < 0] never holds. *)
Definition __stdio_write (f : stream) (buf : list Z) : U Z :=
  let len := Z.of_nat (length buf) in
  fd <- getf f f_fd ;;
  r <- syscall (SYS_write fd buf) ;;
  let cnt := u64 (fst r) in
  if cnt =? len then
    modf f (fun x => set_f_w (f_buf x + f_buf_size x) (f_buf x) (f_buf x) x) ;; uret len
  else uret len.

(** The calls through [f->read] and [f->write]. *)
Definition read_ptr (f : stream) (buf : list Z) : U (Z * list Z) :=
  b <- getf f f_read ;; if b then __stdio_read f buf else uundef "null function pointer".
Definition write_ptr (f : stream) (buf : list Z) : U Z :=
  b <- getf f f_write ;; if b then __stdio_write f buf else uundef "null function pointer".

Definition __toread (f : stream) : U Z :=
  modf f (fun x => set_f_mode (Z.lor (f_mode x) (s32 (f_mode x - 1))) x) ;;
  x <- getf f (fun x => x) ;;
  (if negb (f_wpos x =? f_wbase x) then write_ptr f [] ;; uret tt else uret tt) ;;
  modf f (set_f_w 0 0 0) ;;
  fl <- getf f f_flags ;;
  if negb (Z.land fl F_NORD =? 0) then modf f (fun x => set_f_flags (Z.lor (f_flags x) F_ERR) x) ;; uret EOF
  else
    modf f (fun x => set_f_r (f_buf x + f_buf_size x) (f_buf x + f_buf_size x) x) ;;
    fl <- getf f f_flags ;;
    uret (if negb (Z.land fl F_EOF =? 0) then EOF else 0).

Definition __towrite (f : stream) : U Z :=
  modf f (fun x => set_f_mode (Z.lor (f_mode x) (s32 (f_mode x - 1))) x) ;;
  fl <- getf f f_flags ;;
  if negb (Z.land fl F_NOWR =? 0) then modf f (fun x => set_f_flags (Z.lor (f_flags x) F_ERR) x) ;; uret EOF
  else
    modf f (set_f_r 0 0) ;;
    modf f (fun x => set_f_w (f_buf x + f_buf_size x) (f_buf x) (f_buf x) x) ;;
    uret 0.

Definition __uflow (f : stream) : U Z :=
  r <- __toread f ;;
  if r =? 0 then
    x <- read_ptr f [0] ;;
    if fst x =? 1 then uret (nth 0 (snd x) 0) else uret EOF
  else uret EOF.

(** [if (!f->wend && __towrite(f))]. *)
Definition need_towrite (f : stream) : U bool :=
  wend <- getf f f_wend ;;
  if wend =? 0 then r <- __towrite f ;; uret (negb (r =? 0)) else uret false.

Definition __overflow (f : stream) (_c : Z) : U Z :=
  let c := u8 _c in
  t <- need_towrite f ;;
  if t then uret EOF
  else
    x <- getf f (fun x => x) ;;
    if negb (f_wpos x =? f_wend x) && negb (c =? f_lbf x) then
      put8 (f_wpos x) c ;; modf f (fun y => set_f_wpos (f_wpos y + 1) y) ;; uret c
    else
      n <- write_ptr f [c] ;;
      if negb (n =? 1) then uret EOF else uret c.

Definition putc_unlocked (c : Z) (f : stream) : U Z :=
  x <- getf f (fun x => x) ;;
  if negb (u8 c =? f_lbf x) && negb (f_wpos x =? f_wend x) then
    put8 (f_wpos x) (u8 c) ;; modf f (fun y => set_f_wpos (f_wpos y + 1) y) ;; uret (u8 c)
  else __overflow f (u8 c).

(** ** [fwrite.c], [fputs.c], [puts.c] *)

Definition __fwritex (s : list Z) (f : stream) : U Z :=
  t <- need_towrite f ;;
  if t then uret 0 else write_ptr f s.

(** [src] by value; a [size] of zero divides by zero unless all is written. *)
Definition fwrite (src : list Z) (size nmemb : Z) (f : stream) : U Z :=
  let l := u64 (size * nmemb) in
  let nmemb := if size =? 0 then 0 else nmemb in
  k <- __fwritex (take (Z.to_nat l) src) f ;;
  if k =? l then uret nmemb
  else if size =? 0 then uundef "division by zero" else uret (k / size).

Definition fputs (s : Z) (f : stream) : U Z :=
  p <- ustr s ;;
  let l := Z.of_nat (length p) in
  n <- fwrite p 1 l f ;;
  uret ((if n =? l then 1 else 0) - 1).

Definition puts (s : Z) : U Z :=
  r <- fputs s stdout ;;
  if r <? 0 then uret (-1)
  else c <- putc_unlocked 10 stdout ;; uret (- (if c <? 0 then 1 else 0)).

(** ** [gets.c], [gets_s.c], [fgets.c] *)

Fixpoint gets_loop (n : nat) (s i : Z) : U (Z * Z) :=
  match n with
  | O => ustuck
  | S n' =>
      c <- __uflow stdin ;;
      if (c =? EOF) || (c =? 10) || (c =? 13) then uret (i, c)
      else put8 (s + i) (u8 c) ;; gets_loop n' s (i + 1)
  end.

Definition gets (s : Z) : U Z :=
  r <- gets_loop fuel s 0 ;;
  let '(i, c) := r in
  put8 (s + i) 0 ;;
  e <- feof stdin ;;
  uret (if negb (c =? 10) && (negb e || (i =? 0)) then 0 else s).

(** The loop of [gets_s] and [fgets]: one byte per system call; [c] is a local
    variable.  [i + 1 < n] holds before each call. *)
Fixpoint gets_s_loop (n : nat) (fd buf i c : Z) : U Z :=
  match n with
  | O => uret i
  | S n' =>
      r <- syscall (SYS_read fd 1) ;;
      let cc := s32 (fst r) in
      let c := nth 0 (snd r) c in
      if cc <? 1 then uret i
      else
        put8 (buf + i) c ;;
        if (c =? 10) || (c =? 13) then uret (i + 1) else gets_s_loop n' fd buf (i + 1) c
  end.

(** [i + 1 < n] with [uint32_t] operands: at most [n - 1] iterations. *)
Definition gets_s (buf n : Z) : U Z :=
  i <- gets_s_loop (Z.to_nat (n - 1)) 0 buf 0 0 ;; put8 (buf + i) 0 ;; uret buf.

Definition fgets (s n : Z) (f : stream) : U Z :=
  fd <- getf f f_fd ;;
  i <- gets_s_loop (Z.to_nat (n - 1)) fd s 0 0 ;; put8 (s + i) 0 ;; uret s.

(** ** [vfprintf.c] *)

Definition xdigits : list Z := [48; 49; 50; 51; 52; 53; 54; 55; 56; 57; 65; 66; 67; 68; 69; 70].

(** Bytes to [stdout]; the result of the call is not looked at. *)
Definition out (f : stream) (s : list Z) : U unit :=
  match f with stdout => syscall (SYS_write 1 s) ;; uret tt | stdin => uret tt end.

(** [do { buf[i++] = xdigits[x % base]; } while ((x /= base) != 0)]: the digits, least
    significant first.  [buf] has 16 bytes. *)
Fixpoint digits (n : nat) (x base : Z) : list Z :=
  match n with
  | O => []
  | S n' => let d := nth (Z.to_nat (x mod base)) xdigits 0 in
      if x / base =? 0 then [d] else d :: digits n' (x / base) base
  end.

Fixpoint out_each (f : stream) (l : list Z) : U unit :=
  match l with [] => uret tt | c :: l' => out f [c] ;; out_each f l' end.

(** [while (--i >= 0) out(f, &buf[i], 1)] prints the buffer backwards. *)
Definition printint (f : stream) (xx base : Z) (sgn : bool) : U unit :=
  let neg := sgn && (xx <? 0) in
  if neg && (xx =? - 2 ^ 31) then uundef "-xx"
  else
    let x := u32 (if neg then - xx else xx) in
    let buf := digits 32 x base ++ (if neg then [45] else []) in
    if (16 <? length buf)%nat then uundef "buf" else out_each f (rev buf).

Fixpoint printptr_loop (f : stream) (n : nat) (x : Z) : U unit :=
  match n with
  | O => uret tt
  | S n' => out f [nth (Z.to_nat (Z.shiftr x 60)) xdigits 0] ;; printptr_loop f n' (u64 (Z.shiftl x 4))
  end.

Definition printptr (f : stream) (x : Z) : U unit := out f [48] ;; out f [120] ;; printptr_loop f 16 x.

(** [va_arg]. *)
Definition va_arg (ap : list varg) : U (varg * list varg) :=
  match ap with v :: ap' => uret (v, ap') | [] => uundef "va_arg" end.

Definition va_int (ap : list varg) : U (Z * list varg) :=
  v <- va_arg ap ;; match fst v with Vint x => uret (x, snd v) | Vstr _ => uundef "va_arg" end.

(** A character constant. *)
Definition ch (s : string) : Z := match s with String c _ => Z.of_N (Ascii.N_of_ascii c) | EmptyString => 0 end.

(** One conversion: the characters [c], [c1] and [c2] after the [%]; the number of
    further characters used and the arguments left. *)
Definition conversion (f : stream) (c c1 c2 : Z) (ap : list varg) : U (Z * list varg) :=
  let int_conv (k base : Z) (sgn : bool) :=
    v <- va_int ap ;; printint f (s32 (fst v)) base sgn ;; uret (k, snd v) in
  if c =? ch "d" then int_conv 0 10 true
  else if (c =? ch "l") && (c1 =? ch "d") then int_conv 1 10 true
  else if (c =? ch "l") && (c1 =? ch "l") && (c2 =? ch "d") then int_conv 2 10 true
  else if c =? ch "u" then int_conv 0 10 false
  else if (c =? ch "l") && (c1 =? ch "u") then int_conv 1 10 false
  else if (c =? ch "l") && (c1 =? ch "l") && (c2 =? ch "u") then int_conv 2 10 false
  else if c =? ch "x" then int_conv 0 16 false
  else if (c =? ch "l") && (c1 =? ch "x") then int_conv 1 16 false
  else if (c =? ch "l") && (c1 =? ch "l") && (c2 =? ch "x") then int_conv 2 16 false
  else if c =? ch "p" then v <- va_int ap ;; printptr f (u64 (fst v)) ;; uret (0, snd v)
  else if c =? ch "s" then
    v <- va_arg ap ;;
    s <- match fst v with
         | Vint p => if p =? 0 then uret [40; 110; 117; 108; 108; 41] else ustr p
         | Vstr l => uret l
         end ;;
    out_each f s ;; uret (0, snd v)
  else if c =? ch "%" then out f [ch "%"] ;; uret (0, ap)
  else out f [ch "%"] ;; out f [c] ;; uret (0, ap).

(** [state] is 0 or '%'; the index is an [uint32_t]. *)
Fixpoint vfprintf_loop (n : nat) (f : stream) (fmt : Z -> Z) (i : Z) (pct : bool) (ap : list varg) : U Z :=
  match n with
  | O => ustuck
  | S n' =>
      let c := fmt i in
      if c =? 0 then uret 0
      else if negb pct then
        if c =? ch "%" then vfprintf_loop n' f fmt (u32 (i + 1)) true ap
        else out f [c] ;; vfprintf_loop n' f fmt (u32 (i + 1)) false ap
      else
        let c1 := fmt (u32 (i + 1)) in
        let c2 := if c1 =? 0 then 0 else fmt (u32 (i + 2)) in
        r <- conversion f c c1 c2 ap ;;
        vfprintf_loop n' f fmt (u32 (i + fst r + 1)) false (snd r)
  end.

Definition vfprintf (f : stream) (fmt : Z -> Z) (ap : list varg) : U Z := vfprintf_loop fuel f fmt 0 false ap.

Definition printf (fmt : Z -> Z) (ap : list varg) : U Z := vfprintf stdout fmt ap.
End stdio.

Definition lit (l : list Z) : Z -> Z := fun i => nth (Z.to_nat i) l 0.
