(* ===== verification/Malloc.v ===== *)
(** * The allocator of the C library ([ulibc/src/stdlib/malloc_free.c])

    A circular list of free blocks in the order of their addresses, starting at the
    static header [base]; each block begins with a header of 16 bytes that holds the
    next pointer and the size in units of a header. *)

From S2P Require Import Prelude User.

#[local] Open Scope user_scope.

(** ** Headers *)

(** [sizeof(Header)]. *)
Definition HDR : Z := 16.

Definition ptr_of (m : memory) (p : Z) : Z := load64 m p.
Definition size_of (m : memory) (p : Z) : Z := le_val (load_bytes m (p + 8) 4).
Definition set_ptr (p v : Z) (m : memory) : memory := store64 m p v.
Definition set_size (p v : Z) (m : memory) : memory := store_bytes m (p + 8) (le_bytes 4 v).

Section malloc.
Context {K : Kernel} {F : Fuel} {L : Ulayout}.

Definition s_ptr (p : Z) : U Z := uget (fun s => ptr_of (u_mem s) p).
Definition s_size (p : Z) : U Z := uget (fun s => size_of (u_mem s) p).

(** ** [free] *)

(** [for (p = freep; !(bp > p && bp < p->s.ptr); p = p->s.ptr)
      if (p >= p->s.ptr && (bp > p || bp < p->s.ptr)) break;] *)
Fixpoint free_find (n : nat) (bp p : Z) : U Z :=
  match n with
  | O => ustuck
  | S n' =>
      q <- s_ptr p ;;
      if (p <? bp) && (bp <? q) then uret p
      else if (q <=? p) && ((p <? bp) || (bp <? q)) then uret p
      else free_find n' bp q
  end.

Definition free (ap : Z) : U unit :=
  let bp := ap - HDR in
  p <- uget u_freep ;;
  p <- free_find fuel bp p ;;
  n <- s_size bp ;;
  q <- s_ptr p ;;
  (if bp + HDR * n =? q then
     k <- s_size q ;;
     on_mem (set_size bp (u32 (n + k))) ;;
     q2 <- s_ptr q ;;
     on_mem (set_ptr bp q2)
   else on_mem (set_ptr bp q)) ;;
  k <- s_size p ;;
  (if p + HDR * k =? bp then
     n <- s_size bp ;;
     on_mem (set_size p (u32 (k + n))) ;;
     q <- s_ptr bp ;;
     on_mem (set_ptr p q)
   else on_mem (set_ptr p bp)) ;;
  umod (set_freep p).

(** ** [malloc] *)

(** The null pointer when the kernel has no memory. *)
Definition morecore (nu : Z) : U Z :=
  let nu := if nu <? 4096 then 4096 else nu in
  p <- sbrk (s32 (nu * HDR)) ;;
  if p =? 2 ^ 64 - 1 then uret 0
  else
    on_mem (set_size p nu) ;;
    free (p + HDR) ;;
    uget u_freep.

Fixpoint malloc_loop (n : nat) (nunits prevp p : Z) : U Z :=
  match n with
  | O => ustuck
  | S n' =>
      k <- s_size p ;;
      if nunits <=? k then
        r <- (if k =? nunits then q <- s_ptr p ;; on_mem (set_ptr prevp q) ;; uret p
              else
                on_mem (set_size p (k - nunits)) ;;
                let p := p + HDR * (k - nunits) in
                on_mem (set_size p nunits) ;;
                uret p) ;;
        umod (set_freep prevp) ;;
        uret (r + HDR)
      else
        freep <- uget u_freep ;;
        if p =? freep then
          p <- morecore nunits ;;
          if p =? 0 then uret 0 else q <- s_ptr p ;; malloc_loop n' nunits p q
        else q <- s_ptr p ;; malloc_loop n' nunits p q
  end.

(** [base.s.ptr = freep = prevp = &base; base.s.size = 0] on the first call. *)
Definition malloc_init : U Z :=
  freep <- uget u_freep ;;
  if freep =? 0 then
    on_mem (set_ptr at_base at_base) ;;
    umod (set_freep at_base) ;;
    on_mem (set_size at_base 0) ;;
    uret at_base
  else uret freep.

Definition malloc (nbytes : Z) : U Z :=
  let nunits := u32 ((nbytes + HDR - 1) / HDR + 1) in
  prevp <- malloc_init ;;
  p <- s_ptr prevp ;;
  malloc_loop fuel nunits prevp p.
End malloc.

(** ** Headers and their frames *)

Lemma size_set_size m p v : size_of (set_size p v m) p = v mod 2 ^ 32.
Proof. unfold size_of, set_size. change 4%nat with (length (le_bytes 4 v)) at 2. by rewrite load_store_bytes, le_val_bytes. Qed.

Lemma ptr_set_ptr m p v : ptr_of (set_ptr p v m) p = u64 v.
Proof. apply load64_store64. Qed.

Lemma set_size_out m p v x : x < p + 8 \/ p + 12 <= x -> set_size p v m x = m x.
Proof. intros H. unfold set_size. apply store_bytes_out. rewrite length_le_bytes. lia. Qed.

Lemma set_ptr_out m p v x : x < p \/ p + 8 <= x -> set_ptr p v m x = m x.
Proof. intros H. unfold set_ptr, store64. apply store_bytes_out. rewrite length_le_bytes. lia. Qed.

Lemma size_of_ext m m' p : (forall x, p + 8 <= x < p + 12 -> m' x = m x) -> size_of m' p = size_of m p.
Proof. intros H. unfold size_of. f_equal. apply load_bytes_ext. intros x Hx. apply H. lia. Qed.

Lemma ptr_of_ext m m' p : (forall x, p <= x < p + 8 -> m' x = m x) -> ptr_of m' p = ptr_of m p.
Proof. intros H. apply load64_ext. intros x Hx. apply H. lia. Qed.

(** A header is a function of its 16 bytes. *)
Definition hdr (m : memory) (p : Z) : Z * Z := (ptr_of m p, size_of m p).

Lemma hdr_ext m m' p : (forall x, p <= x < p + 16 -> m' x = m x) -> hdr m' p = hdr m p.
Proof. intros H. unfold hdr. f_equal; [apply ptr_of_ext | apply size_of_ext]; intros x Hx; apply H; lia. Qed.

Lemma hdr_set_ptr m p v : 0 <= v < 2 ^ 64 -> hdr (set_ptr p v m) p = (v, size_of m p).
Proof.
  intros H. unfold hdr. rewrite ptr_set_ptr, u64_small by done. f_equal. apply size_of_ext. intros x Hx. apply set_ptr_out. lia.
Qed.

Lemma hdr_set_size m p v : 0 <= v < 2 ^ 32 -> hdr (set_size p v m) p = (ptr_of m p, v).
Proof.
  intros H. unfold hdr. rewrite size_set_size, Z.mod_small by done. f_equal. apply ptr_of_ext. intros x Hx. apply set_size_out. lia.
Qed.

Lemma hdr_set_ptr_ne m p q v : q + 16 <= p \/ p + 16 <= q -> hdr (set_ptr p v m) q = hdr m q.
Proof. intros H. apply hdr_ext. intros x Hx. apply set_ptr_out. lia. Qed.

Lemma hdr_set_size_ne m p q v : q + 16 <= p \/ p + 16 <= q -> hdr (set_size p v m) q = hdr m q.
Proof. intros H. apply hdr_ext. intros x Hx. apply set_size_out. lia. Qed.
