(* ===== verification/MallocSpec.v ===== *)
(** * Properties of the allocator

    The heap is a list of free blocks, in the order of their addresses, and a list of
    allocated blocks; no two overlap, and no two free blocks are adjacent.  [malloc]
    moves a block from the first list to the second, [free] moves it back. *)

From S2P Require Import Prelude User Malloc.

#[local] Open Scope user_scope.

(** ** Free lists in memory *)

(** A block: its address and its size in units of 16 bytes. *)
Abbreviation block := (Z * Z)%type (only parsing).

Definition hd_addr (l : list (Z * Z)) (e : Z) : Z := match l with [] => e | b :: _ => fst b end.

(** The headers of [l], linked, the last one to [e]. *)
Fixpoint chain (m : memory) (l : list (Z * Z)) (e : Z) : Prop :=
  match l with [] => True | b :: l' => hdr m (fst b) = (hd_addr l' e, snd b) /\ chain m l' e end.

(** In the order of the addresses, with a gap before each block. *)
Fixpoint ordered (lo : Z) (l : list (Z * Z)) : Prop :=
  match l with [] => True | b :: l' => lo < fst b /\ 0 < snd b /\ ordered (fst b + 16 * snd b) l' end.

Lemma hd_addr_app l1 l2 e : hd_addr (l1 ++ l2) e = hd_addr l1 (hd_addr l2 e).
Proof. by destruct l1. Qed.

Lemma chain_app m l1 l2 e : chain m (l1 ++ l2) e <-> chain m l1 (hd_addr l2 e) /\ chain m l2 e.
Proof. induction l1 as [|b l1 IH]; cbn; [tauto|]. rewrite IH, hd_addr_app. tauto. Qed.

Lemma links_ext m m' l e : (forall b, b ∈ l -> hdr m' (fst b) = hdr m (fst b)) -> chain m l e -> chain m' l e.
Proof.
  induction l as [|b l IH]; intros H; cbn; [done|]. intros [H1 H2]. split; [rewrite H; [done | by left]|]. apply IH; [|done]. intros c Hc. apply H. by right.
Qed.

(** The link of the block at index [i]. *)
Lemma chain_lookup m l e i a n : chain m l e -> l !! i = Some (a, n) ->
  hdr m a = (match l !! S i with Some b => fst b | None => e end, n).
Proof.
  revert i. induction l as [|b l IH]; intros [|i] H Hi; try done; destruct H as [H1 H2].
  - injection Hi as ->. cbn in *. rewrite H1. by destruct l.
  - exact (IH i H2 Hi).
Qed.

Lemma ordered_lo lo lo' l : lo' <= lo -> ordered lo l -> ordered lo' l.
Proof. destruct l as [|b l]; intros H; cbn; [done|]. intros (? & ? & ?). split_and!; (done || lia). Qed.

Lemma ordered_in lo l b : ordered lo l -> b ∈ l -> lo < fst b /\ 0 < snd b.
Proof.
  revert lo. induction l as [|c l IH]; intros lo H Hb; [by apply elem_of_nil in Hb|]. destruct H as (H1 & H2 & H3).
  apply elem_of_cons in Hb as [->|Hb]; [done|]. destruct (IH _ H3 Hb). split; lia.
Qed.

(** The end of the last block of [l], or [lo]. *)
Fixpoint end_from (lo : Z) (l : list (Z * Z)) : Z := match l with [] => lo | b :: l' => end_from (fst b + 16 * snd b) l' end.

Lemma end_from_snoc lo l b : end_from lo (l ++ [b]) = fst b + 16 * snd b.
Proof. revert lo. induction l as [|c l IH]; intros lo; cbn; [done | apply IH]. Qed.

Lemma ordered_app lo l1 l2 : ordered lo (l1 ++ l2) <-> ordered lo l1 /\ ordered (end_from lo l1) l2.
Proof. revert lo. induction l1 as [|b l1 IH]; intros lo; cbn; [tauto|]. rewrite IH. tauto. Qed.

Lemma ordered_lt lo l i j b c : ordered lo l -> l !! i = Some b -> l !! j = Some c -> (i < j)%nat -> fst b + 16 * snd b < fst c.
Proof.
  revert lo i j. induction l as [|d l IH]; intros lo i j H Hi Hj Hlt; [done|]. destruct H as (H1 & H2 & H3). destruct i as [|i], j as [|j]; try lia.
  - injection Hi as ->. change (l !! j = Some c) in Hj. apply list_elem_of_lookup_2 in Hj. exact (proj1 (ordered_in _ _ _ H3 Hj)).
  - apply (IH _ i j H3 Hi Hj). lia.
Qed.

(** Two blocks that do not overlap. *)
Definition disj (b c : Z * Z) : Prop := fst b + 16 * snd b <= fst c \/ fst c + 16 * snd c <= fst b.

Lemma disj_sym b c : disj b c -> disj c b.
Proof. unfold disj. lia. Qed.

(** Two headers that do not overlap. *)
Definition apart (p q : Z) : Prop := p + 16 <= q \/ q + 16 <= p.

Section heap.
Context {K : Kernel} {F : Fuel} {Lay : Ulayout}.

(** ** The search of [free] *)

Section find.
Context (l : list (Z * Z)) (bp : Z) (s : ustate).
Let base := at_base.
Let G := (base, 0) :: l.
Hypothesis Hc : chain (u_mem s) G base.
Hypothesis Ho : ordered (base + 15) l.
Hypothesis Hbp : base < bp.
Hypothesis Hnot : forall b, b ∈ l -> fst b <> bp.

Lemma G_lt i j b c : G !! i = Some b -> G !! j = Some c -> (i < j)%nat -> fst b + 16 <= fst c.
Proof.
  intros Hi Hj Hlt. destruct j as [|j]; [lia|]. destruct i as [|i].
  - injection Hi as <-. cbn in *. apply list_elem_of_lookup_2 in Hj. pose proof (ordered_in _ _ _ Ho Hj). cbn. lia.
  - cbn in Hi, Hj. pose proof (ordered_lt _ _ _ _ _ _ Ho Hi Hj ltac:(lia)). apply list_elem_of_lookup_2 in Hi. pose proof (ordered_in _ _ _ Ho Hi). lia.
Qed.

Lemma G_apart pre b post d : G = pre ++ b :: post -> d ∈ pre ++ post -> apart (fst d) (fst b).
Proof.
  intros E Hd. assert (G !! length pre = Some b) as Hj by (rewrite E; by apply list_lookup_middle).
  apply elem_of_app in Hd as [Hd|Hd]; apply list_elem_of_lookup in Hd as [i Hi].
  - left. pose proof (lookup_lt_Some _ _ _ Hi). apply (G_lt i (length pre)); [rewrite E; by apply lookup_app_l_Some | done | lia].
  - right. apply (G_lt (length pre) (length pre + S i)); [done | | lia]. rewrite E, lookup_app_r by lia. by replace (length pre + S i - length pre)%nat with (S i) by lia.
Qed.

(** The last block below [bp]. *)
Lemma pred_exists : exists pre b post, G = pre ++ b :: post /\ fst b < bp /\ (forall c, c ∈ post -> bp < fst c).
Proof.
  unfold G. assert (forall b0 l0, fst b0 < bp -> ordered (fst b0) l0 -> (forall b, b ∈ l0 -> fst b <> bp) ->
    exists pre b post, b0 :: l0 = pre ++ b :: post /\ fst b < bp /\ (forall c, c ∈ post -> bp < fst c)) as H.
  { intros b0 l0. revert b0. induction l0 as [|c l0 IH]; intros b0 Hb Hord Hn.
    - exists [], b0, []. split_and!; try done. intros c Hc'. by apply elem_of_nil in Hc'.
    - destruct Hord as (H1 & H2 & H3). destruct (decide (fst c < bp)) as [Hlt|Hge].
      + destruct (IH c Hlt) as (pre & b & post & E & Hb' & Hp); [eapply ordered_lo; [|exact H3]; lia | intros d Hd; apply Hn; by right |].
        exists (b0 :: pre), b, post. rewrite E. done.
      + exists [], b0, (c :: l0). split_and!; try done. assert (bp < fst c) as Hgt by (specialize (Hn c ltac:(by left)); lia).
        intros d [->|Hd]%elem_of_cons; [done|]. pose proof (ordered_in _ _ _ H3 Hd). lia. }
  apply H; [exact Hbp | eapply ordered_lo; [|exact Ho]; cbn; lia | exact Hnot].
Qed.

Lemma free_find_run pre b post : G = pre ++ b :: post -> fst b < bp -> (forall c, c ∈ post -> bp < fst c) ->
  forall n i c, G !! i = Some c -> ((if decide (i <= length pre)%nat then length pre - i else length G - i + length pre) < n)%nat ->
  free_find n bp (fst c) s = URet (fst b) s.
Proof.
  intros EG Hb Hpost. assert (G !! length pre = Some b) as Hj by (rewrite EG; by apply list_lookup_middle).
  induction n as [|n IH]; intros i c Hi Hd; [lia|]. cbn [free_find]. unfold ubind, s_ptr, uget.
  pose proof (chain_lookup _ _ _ i (fst c) (snd c) Hc ltac:(rewrite Hi; by destruct c)) as Hh. apply (f_equal fst) in Hh. cbn [hdr fst] in Hh. rewrite Hh.
  pose proof (lookup_lt_Some _ _ _ Hi) as Hlt. destruct (decide (i = length pre)) as [->|Hne].
  - assert (c = b) as -> by congruence. assert (G !! S (length pre) = post !! 0%nat) as ->.
    { rewrite EG, lookup_app_r by lia. by replace (S (length pre) - length pre)%nat with 1%nat by lia. }
    rewrite (proj2 (Z.ltb_lt (fst b) bp) Hb). destruct post as [|d post]; cbn [lookup list_lookup].
    + rewrite (proj2 (Z.ltb_ge bp base)) by lia. cbn [andb orb]. rewrite (proj2 (Z.leb_le base (fst b))); [done|].
      destruct (length pre) as [|k] eqn:E; [injection Hj as <-; done|]. pose proof (G_lt 0 (S k) (base, 0) b eq_refl Hj ltac:(lia)). cbn in *. lia.
    + by rewrite (proj2 (Z.ltb_lt bp (fst d))) by (apply Hpost; by left).
  - destruct (G !! S i) as [d|] eqn:Ed.
    + pose proof (G_lt i (S i) c d Hi Ed ltac:(lia)) as Hcd. rewrite (proj2 (Z.leb_gt (fst d) (fst c))) by lia. cbn [andb].
      assert ((fst c <? bp) && (bp <? fst d) = false) as ->.
      { destruct (Nat.lt_ge_cases i (length pre)) as [Hlt'|Hge].
        - assert (fst d <= fst b) as Hle.
          { destruct (decide (S i = length pre)) as [E|E]; [rewrite E in Ed; assert (d = b) as -> by congruence; lia|]. pose proof (G_lt (S i) (length pre) d b Ed Hj ltac:(lia)). lia. }
          rewrite (proj2 (Z.ltb_ge bp (fst d))) by lia. apply andb_false_r.
        - rewrite (proj2 (Z.ltb_ge (fst c) bp)); [done|]. assert (c ∈ post) as Hin; [|specialize (Hpost c Hin); lia].
          rewrite EG, lookup_app_r in Hi by lia. destruct (i - length pre)%nat as [|k] eqn:E; [lia|]. change (post !! k = Some c) in Hi. by apply list_elem_of_lookup_2 in Hi. }
      apply (IH (S i) d Ed). pose proof (lookup_lt_Some _ _ _ Ed). do 2 case_decide; lia.
    + assert (S i = length G) as Hlast by (apply lookup_ge_None_1 in Ed; lia).
      assert (c ∈ post) as Hin.
      { rewrite EG, lookup_app_r in Hi by (rewrite EG, length_app in Hlast; cbn in Hlast; lia).
        destruct (i - length pre)%nat as [|k] eqn:E; [rewrite EG, length_app in Hlast; cbn in Hlast; lia|]. change (post !! k = Some c) in Hi. by apply list_elem_of_lookup_2 in Hi. }
      pose proof (Hpost c Hin) as Hgt. rewrite (proj2 (Z.ltb_ge (fst c) bp)) by lia. rewrite (proj2 (Z.ltb_ge bp base)) by lia. cbn [andb orb]. rewrite andb_false_r.
      apply (IH 0%nat (base, 0) eq_refl). assert (length G = length pre + S (length post))%nat by (by rewrite EG, length_app). do 2 case_decide; lia.
Qed.
End find.

(** ** The writes of [free] *)

(** A block joined with the one that follows it, when they are adjacent: [bp] with its
    successor, and the block before [bp] with [bp]. *)
Definition join (b : Z * Z) (post : list (Z * Z)) : list (Z * Z) :=
  match post with
  | c :: post' => if fst b + 16 * snd b =? fst c then (fst b, snd b + snd c) :: post' else b :: post
  | [] => [b]
  end.

Lemma chain_write m m' l e p : (forall x, x < p \/ p + 16 <= x -> m' x = m x) -> (forall b, b ∈ l -> apart (fst b) p) -> chain m l e -> chain m' l e.
Proof.
  intros H Hl. apply links_ext. intros b Hb. apply hdr_ext. intros x Hx. apply H. specialize (Hl b Hb). unfold apart in Hl. lia.
Qed.

(** The two conditionals. *)
Lemma join_run s b post e (f : unit -> U unit) : let bp := fst b in let n := snd b in let q := hd_addr post e in
  size_of (u_mem s) bp = n -> chain (u_mem s) post e -> (forall c, c ∈ post -> apart (fst c) bp /\ 0 <= n + snd c < 2 ^ 32) ->
  (post = [] -> bp + 16 * n <> e) -> 0 <= e < 2 ^ 64 -> (forall c, c ∈ post -> 0 <= fst c < 2 ^ 64) ->
  exists m1, ubind (if bp + HDR * n =? q then
     k <- s_size q ;; on_mem (set_size bp (u32 (n + k))) ;; q2 <- s_ptr q ;; on_mem (set_ptr bp q2)
   else on_mem (set_ptr bp q)) f s = f tt (set_mem m1 s) /\
   chain m1 (join b post) e /\ (forall x, x < bp \/ bp + 16 <= x -> m1 x = u_mem s x).
Proof.
  intros bp n q Hsz Hc Hap He Her Hr. unfold HDR. destruct post as [|c post].
  - unfold q. cbn [hd_addr]. rewrite (proj2 (Z.eqb_neq _ _) (He eq_refl)). exists (set_ptr bp e (u_mem s)). split_and!.
    + reflexivity.
    + cbn. split; [|done]. rewrite hdr_set_ptr by done. f_equal. exact Hsz.
    + intros x Hx. apply set_ptr_out. lia.
  - destruct Hc as [Hh Hc]. destruct (Hap c ltac:(by left)) as [Hac Hn]. unfold q. cbn [hd_addr join]. fold bp n. destruct (Z.eqb_spec (bp + 16 * n) (fst c)) as [E|E].
    + assert (size_of (u_mem s) (fst c) = snd c) as Hs2 by (apply (f_equal snd) in Hh; exact Hh).
      autorewrite with ustep. unfold s_size. autorewrite with ustep. rewrite Hs2, u32_small by done. unfold s_ptr. autorewrite with ustep. cbn [u_mem set_mem].
      set (ma := set_size bp (n + snd c) (u_mem s)).
      assert (hdr ma (fst c) = hdr (u_mem s) (fst c)) as Ea by (apply hdr_set_size_ne; unfold apart in Hac; lia).
      assert (ptr_of ma (fst c) = hd_addr post e) as -> by (apply (f_equal fst) in Ea; cbn in Ea; rewrite Ea; apply (f_equal fst) in Hh; exact Hh).
      assert (0 <= hd_addr post e < 2 ^ 64) as Hhr by (destruct post as [|d post]; [done | apply Hr; right; by left]).
      exists (set_ptr bp (hd_addr post e) ma). assert (forall x, x < bp \/ bp + 16 <= x -> set_ptr bp (hd_addr post e) ma x = u_mem s x) as Hout.
      { intros x Hx. rewrite set_ptr_out by lia. apply set_size_out. lia. }
      split_and!; [done | | done]. cbn [chain fst snd]. split.
      * rewrite hdr_set_ptr by done. unfold ma. rewrite size_set_size, Z.mod_small by done. done.
      * apply (chain_write (u_mem s) _ post e bp); [done | | done]. intros d Hd. apply Hap. by right.
    + exists (set_ptr bp (fst c) (u_mem s)). assert (forall x, x < bp \/ bp + 16 <= x -> set_ptr bp (fst c) (u_mem s) x = u_mem s x) as Hout.
      { intros x Hx. apply set_ptr_out. lia. }
      split_and!; [done | | done]. cbn [chain hd_addr fst]. split; [rewrite hdr_set_ptr by (apply Hr; by left); f_equal; exact Hsz|].
      apply (chain_write (u_mem s) _ (c :: post) e bp); [done | intros d Hd; by apply Hap | done].
Qed.

(** ** The heap *)

Fixpoint units (l : list (Z * Z)) : Z := match l with [] => 0 | b :: l' => snd b + units l' end.

(** The free blocks [l] and the allocated blocks [A], all below [brk]. *)
Record heap (l A : list (Z * Z)) (brk : Z) (s : ustate) : Prop := {
  hp_base : 0 < at_base;
  hp_chain : chain (u_mem s) ((at_base, 0) :: l) at_base;
  hp_ord : ordered (at_base + 15) l;
  hp_top : forall b, b ∈ l ++ A -> fst b + 16 * snd b <= brk;
  hp_brk : at_base + 16 <= brk <= 2 ^ 34;
  hp_alloc : forall b, b ∈ A -> at_base + 16 <= fst b /\ 0 < snd b /\ size_of (u_mem s) (fst b) = snd b;
  hp_free_alloc : forall b c, b ∈ l -> c ∈ A -> disj b c;
  hp_disj : ForallOrdPairs disj A;
  hp_freep : u_freep s ∈ at_base :: map fst l
}.

(** [x] is in a free block or in the header [base]. *)
Definition in_free (l : list (Z * Z)) (x : Z) : Prop := at_base <= x < at_base + 16 \/ exists b, b ∈ l /\ fst b <= x < fst b + 16 * snd b.

Lemma join_hd b post : exists c l, join b post = c :: l /\ fst c = fst b /\ (c = b \/ exists d, d ∈ post /\ snd c = snd b + snd d).
Proof.
  destruct post as [|d post]; cbn; [by exists b, []; split_and!; [| |left]|]. case_match.
  - exists (fst b, snd b + snd d), post. split_and!; try done. right. exists d. split; [by left | done].
  - exists b, (d :: post). split_and!; [done | done | by left].
Qed.

Lemma join_ordered lo b post : lo < fst b -> 0 < snd b -> ordered (fst b + 16 * snd b - 1) post -> (forall c, c ∈ post -> 0 < snd c) -> ordered lo (join b post).
Proof.
  intros H1 H2 H3 Hpos. destruct post as [|c post]; cbn in *; [done|]. destruct H3 as (H4 & H5 & H6). destruct (Z.eqb_spec (fst b + 16 * snd b) (fst c)) as [E|E]; cbn.
  - split_and!; [done | lia |]. replace (fst b + 16 * (snd b + snd c)) with (fst c + 16 * snd c) by lia. done.
  - split_and!; (done || lia).
Qed.

Lemma units_join b post : units (join b post) = snd b + units post.
Proof. destruct post as [|c post]; cbn; [done|]. case_match; cbn; lia. Qed.

Lemma units_app l1 l2 : units (l1 ++ l2) = units l1 + units l2.
Proof. induction l1 as [|b l1 IH]; cbn; [done|]. rewrite IH. lia. Qed.

(** A property of blocks that holds of two adjacent ones joined holds of a joined list. *)
Lemma join_all (Q : Z * Z -> Prop) b post : (forall b d, Q b -> Q d -> fst b + 16 * snd b = fst d -> Q (fst b, snd b + snd d)) ->
  Q b -> (forall c, c ∈ post -> Q c) -> forall c, c ∈ join b post -> Q c.
Proof.
  intros HQ Hb Hp c. destruct post as [|d post]; cbn; [by intros ->%list_elem_of_singleton|].
  destruct (Z.eqb_spec (fst b + 16 * snd b) (fst d)) as [E|E]; intros [->|H]%elem_of_cons; try done.
  - apply HQ; [done | apply Hp; by left | done].
  - apply Hp. by right.
  - by apply Hp.
Qed.

Lemma ordered_raise lo lo' l : ordered lo l -> (forall c, c ∈ l -> lo' < fst c) -> ordered lo' l.
Proof. destruct l as [|c l]; intros H H'; cbn in *; [done|]. destruct H as (? & ? & ?). split_and!; try done. apply H'. by left. Qed.

(** The free list after [bp] has been put between [b] and [post]. *)
Lemma insert_ordered lo pre b c post : ordered lo (pre ++ b :: post) -> fst b + 16 * snd b <= fst c -> 0 < snd c ->
  (forall d, d ∈ post -> fst c + 16 * snd c <= fst d) -> ordered lo (pre ++ join b (join c post)).
Proof.
  intros [H1 (H2 & H3 & H4)]%ordered_app Hbc Hc Hp. apply ordered_app. split; [done|].
  assert (ordered (fst b + 16 * snd b - 1) (join c post)) as Hj.
  { apply join_ordered; [lia | done | | intros d Hd; apply (ordered_in _ _ _ H4 Hd)]. eapply ordered_raise; [exact H4|]. intros d Hd. specialize (Hp d Hd). lia. }
  apply join_ordered; try done. intros d Hd. apply (ordered_in _ _ _ Hj Hd).
Qed.

(** Blocks of the heap fit their types. *)
Lemma heap_small l A brk s b : heap l A brk s -> b ∈ l ++ A -> at_base + 16 <= fst b /\ 0 < snd b /\ fst b + 16 * snd b <= 2 ^ 34.
Proof.
  intros H Hb. pose proof (hp_top _ _ _ _ H b Hb). pose proof (hp_brk _ _ _ _ H). apply elem_of_app in Hb as [Hb|Hb].
  - pose proof (ordered_in _ _ _ (hp_ord _ _ _ _ H) Hb). lia.
  - pose proof (hp_alloc _ _ _ _ H b Hb). lia.
Qed.

(** The writes of [free], once [free_find] has found [b]. *)
Lemma free_writes pre b c post s : let bp := fst c in let e := at_base in
  chain (u_mem s) (pre ++ b :: post) e -> size_of (u_mem s) bp = snd c -> 0 < at_base < 2 ^ 36 ->
  (forall d, d ∈ pre ++ b :: post -> apart (fst d) bp /\ 0 < fst d < 2 ^ 36 /\ 0 <= snd d < 2 ^ 30) -> 0 < snd c < 2 ^ 30 -> 0 < bp < 2 ^ 36 -> at_base < bp ->
  (forall d, d ∈ pre ++ post -> apart (fst d) (fst b)) -> free_find fuel bp (u_freep s) s = URet (fst b) s ->
  exists m', free (bp + 16) s = URet tt (set_freep (fst b) (set_mem m' s)) /\ chain m' (pre ++ join b (join c post)) e /\
    (forall x, x < bp \/ bp + 16 <= x -> x < fst b \/ fst b + 16 <= x -> m' x = u_mem s x).
Proof.
  intros bp e [Hpre [Hb Hpost]]%chain_app Hsz Hbase Hall Hc Hbp Hlt Hap Hfind. cbn [hd_addr] in Hpre.
  assert (forall d, d ∈ post -> d ∈ pre ++ b :: post) as Hin1 by (intros d Hd; apply elem_of_app; right; by right).
  assert (b ∈ pre ++ b :: post) as Hinb by (apply elem_of_app; right; by left).
  unfold free. replace (bp + 16 - HDR) with bp by (unfold HDR; lia). autorewrite with ustep. rewrite (ubind_run _ _ _ _ _ Hfind). unfold s_size, s_ptr. autorewrite with ustep.
  rewrite Hsz. assert (ptr_of (u_mem s) (fst b) = hd_addr post e) as -> by (apply (f_equal fst) in Hb; exact Hb).
  destruct (join_run s c post e (fun _ => k <- s_size (fst b) ;; (if fst b + HDR * k =? bp then
     n <- s_size bp ;; on_mem (set_size (fst b) (u32 (k + n))) ;; q <- s_ptr bp ;; on_mem (set_ptr (fst b) q)
   else on_mem (set_ptr (fst b) bp)) ;; umod (set_freep (fst b)))) as (m1 & E1 & C1 & F1); try done; try lia.
  { intros d Hd. destruct (Hall d (Hin1 d Hd)) as (? & ? & ?). split; [done | lia]. }
  { intros d Hd. destruct (Hall d (Hin1 d Hd)) as (? & ? & ?). lia. }
    destruct (join_hd c post) as (c1 & l1 & Ej & Ec & Hc1).
  assert (fst b < bp \/ bp < fst b) as Hne by (destruct (Hall b Hinb) as ([?|?] & _); lia).
  assert (hdr m1 (fst b) = hdr (u_mem s) (fst b)) as Hhb by (apply hdr_ext; intros x Hx; apply F1; destruct (Hall b Hinb) as ([?|?] & _); lia).
  assert (size_of m1 (fst b) = snd b) as Hsb by (change (snd (hdr m1 (fst b)) = snd b); by rewrite Hhb, Hb).
  assert (forall d, d ∈ join c post -> apart (fst d) (fst b) /\ 0 <= snd b + snd d < 2 ^ 32 /\ 0 <= fst d < 2 ^ 64) as Hj.
  { destruct (Hall b Hinb) as (Hb1 & Hb2 & Hb3). assert (forall d, d ∈ post -> apart (fst d) (fst b) /\ 0 <= snd d < 2 ^ 30 /\ 0 <= fst d < 2 ^ 36) as Hd'.
    { intros d Hd. destruct (Hall d (Hin1 d Hd)) as (? & ? & ?). split_and!; try lia. apply Hap. apply elem_of_app. by right. }
    intros d Hd. rewrite Ej in Hd. apply elem_of_cons in Hd as [->|Hd].
    - rewrite Ec. split; [by unfold apart in *; lia|]. destruct Hc1 as [->|(g & Hg & Eg)]; [lia|]. rewrite Eg. destruct (Hd' g Hg) as (? & ? & ?). lia.
    - assert (d ∈ post) as Hdp. { destruct post as [|g post]; cbn in Ej; [injection Ej as <- <-; by apply elem_of_nil in Hd|]. case_match; injection Ej as <- <-; [by right | done]. }
      destruct (Hd' d Hdp) as (? & ? & ?). split_and!; (done || lia). }
  destruct (join_run (set_mem m1 s) b (join c post) e (fun _ => umod (set_freep (fst b)))) as (m2 & E2 & C2 & F2); try done; try lia.
  { intros d Hd. split; apply Hj in Hd; tauto. }
  { rewrite Ej. done. }
  { intros d Hd. apply Hj in Hd. tauto. }
  rewrite Ej in E2. cbn [hd_addr] in E2. rewrite Ec, <- Hsb in E2.
  exists m2. split; [etransitivity; [exact E1 | exact E2]|]. split.
  - apply chain_app. split; [|done]. assert (hd_addr (join b (join c post)) e = fst b) as ->.
    { destruct (join_hd b (join c post)) as (? & ? & -> & ? & _). done. }
    apply (chain_write m1 _ pre _ (fst b)); [exact F2 | intros d Hd; apply Hap, elem_of_app; by left |].
    apply (chain_write (u_mem s) _ pre _ bp); [exact F1 | | done]. intros d Hd. apply Hall, elem_of_app. by left.
  - intros x H1 H2. rewrite F2 by done. by apply F1.
Qed.

Lemma FOP_middle {T} (R : T -> T -> Prop) l1 x l2 : ForallOrdPairs R (l1 ++ x :: l2) ->
  ForallOrdPairs R (l1 ++ l2) /\ (forall y, y ∈ l1 -> R y x) /\ (forall y, y ∈ l2 -> R x y).
Proof.
  induction l1 as [|z l1 IH]; cbn; intros H; inversion H as [|? ? H1 H2]; subst.
  - split_and!; [done | intros y Hy; by apply elem_of_nil in Hy |].
    intros y Hy. rewrite list.Forall_forall in H1. by apply H1.
  - destruct (IH H2) as (I1 & I2 & I3). rewrite Forall_app, list.Forall_cons in H1. destruct H1 as (F1 & F2 & F3). split_and!.
    + constructor; [by apply Forall_app | done].
    + intros y [->|Hy]%elem_of_cons; [done | by apply I2].
    + done.
Qed.

(** The blocks of the heap around the block that is freed. *)
Lemma free_apart l A1 A2 c brk s d : heap l (A1 ++ c :: A2) brk s -> d ∈ l -> disj d c.
Proof. intros H Hd. apply (hp_free_alloc _ _ _ _ H d c Hd). apply elem_of_app. right. by left. Qed.

Lemma apart_sep b c : disj b c -> 0 < snd b -> 0 < snd c -> apart (fst b) (fst c).
Proof. unfold disj, apart. lia. Qed.

(** A block of each size is left. *)
Lemma join_big b post : (forall c, c ∈ post -> 0 < snd c) -> exists c, c ∈ join b post /\ snd b <= snd c.
Proof.
  intros H. destruct post as [|d post]; cbn; [exists b; split; [by left | lia]|]. case_match; [|exists b; split; [by left | lia]].
  eexists. split; [by left|]. specialize (H d ltac:(by left)). cbn. lia.
Qed.

Lemma join_keeps b post c : c ∈ post -> 0 <= snd b -> exists d, d ∈ join b post /\ snd c <= snd d.
Proof.
  intros Hc Hb. destruct post as [|d post]; [by apply elem_of_nil in Hc|]. cbn. case_match; [|exists c; split; [by right | lia]].
  apply elem_of_cons in Hc as [->|Hc]; [eexists; split; [by left|]; cbn; lia | exists c; split; [by right | lia]].
Qed.

Lemma length_join b post : (length (join b post) <= S (length post))%nat.
Proof. destruct post as [|d post]; cbn; [done|]. case_match; cbn; lia. Qed.

(** The free list after a block has been put between [b] and [post]. *)
Lemma insert_free l bp n pre b post : (at_base, 0) :: l = pre ++ b :: post -> ordered (at_base + 15) l -> at_base + 16 <= bp -> 0 < n ->
  fst b + 16 * snd b <= bp -> (forall d, d ∈ post -> bp + 16 * n <= fst d) ->
  exists l', pre ++ join b (join (bp, n) post) = (at_base, 0) :: l' /\ ordered (at_base + 15) l' /\ units l' = units l + n /\
    fst b ∈ at_base :: map fst l' /\ (length l' <= S (length l))%nat /\
    (forall Q : Z * Z -> Prop, (forall b d, Q b -> Q d -> fst b + 16 * snd b = fst d -> Q (fst b, snd b + snd d)) -> Q (bp, n) -> (forall d, d ∈ l -> Q d) -> forall d, d ∈ l' -> Q d) /\
    exists d, d ∈ l' /\ n <= snd d.
Proof.
  intros EG Ho Hbp Hn Hb Hp. destruct pre as [|p0 pre].
  - injection EG as <- <-. exists (join (bp, n) l). assert (forall c, c ∈ l -> 0 < snd c) as Hpos by (intros c Hc; apply (ordered_in _ _ _ Ho Hc)). split_and!.
    + destruct (join_hd (bp, n) l) as (c & r & E & Ec & _). cbn [app]. rewrite E. cbn [join fst snd]. rewrite Ec. cbn [fst]. by rewrite (proj2 (Z.eqb_neq _ _)) by lia.
    + apply join_ordered; cbn; [lia | done | | done]. eapply ordered_raise; [exact Ho|]. intros c Hc. specialize (Hp c Hc). lia.
    + rewrite units_join. cbn. lia.
    + by left.
    + apply length_join.
    + intros Q HQ Hc Hl. by apply join_all.
    + destruct (join_big (bp, n) l Hpos) as (c & Hc & Hs). by exists c.
  - injection EG as <- ->. exists (pre ++ join b (join (bp, n) post)).
    pose proof (insert_ordered _ _ _ (bp, n) _ Ho Hb Hn Hp) as Ho'. pose proof Ho as [_ (_ & Hb2 & Hpo)]%ordered_app.
    assert (forall c, c ∈ post -> 0 < snd c) as Hpos by (intros c Hc; apply (ordered_in _ _ _ Hpo Hc)). split_and!.
    + done.
    + done.
    + rewrite !units_app, units_join, units_join. cbn [units snd]. lia.
    + right. rewrite map_app. apply elem_of_app. right. destruct (join_hd b (join (bp, n) post)) as (c & r & E & Ec & _). rewrite E. cbn. rewrite Ec. by left.
    + rewrite !length_app. cbn [length]. pose proof (length_join b (join (bp, n) post)). pose proof (length_join (bp, n) post). lia.
    + intros Q HQ Hc Hl d [Hd|Hd]%elem_of_app; [apply Hl, elem_of_app; by left|]. revert d Hd. apply join_all; [done | apply Hl, elem_of_app; right; by left |].
      apply join_all; [done | done |]. intros d Hd. apply Hl, elem_of_app. right. by right.
    + destruct (join_big (bp, n) post Hpos) as (c & Hc & Hs). destruct (join_keeps b _ c Hc ltac:(lia)) as (d & Hd & Hs'). cbn in Hs.
      exists d. split; [apply elem_of_app; by right | lia].
Qed.

Lemma free_run l A1 A2 bp n brk s : heap l (A1 ++ (bp, n) :: A2) brk s -> (S (length l) <= fuel)%nat ->
  exists l' m' p, free (bp + 16) s = URet tt (set_freep p (set_mem m' s)) /\ heap l' (A1 ++ A2) brk (set_freep p (set_mem m' s)) /\
    units l' = units l + n /\ (length l' <= S (length l))%nat /\
    (forall x, ~ in_free l x -> x < bp \/ bp + 16 <= x -> m' x = u_mem s x) /\ (exists b, b ∈ l' /\ n <= snd b) /\
    (forall x, in_free l' x -> in_free l x \/ bp <= x < bp + 16 * n).
Proof.
  intros H Hfuel. assert ((bp, n) ∈ l ++ A1 ++ (bp, n) :: A2) as Hcin by (rewrite !elem_of_app; right; right; by left).
  destruct (heap_small _ _ _ _ (bp, n) H Hcin) as (Hc1 & Hc2 & Hc3). cbn [fst snd] in Hc1, Hc2, Hc3.
  assert (forall d, d ∈ l -> disj d (bp, n)) as Hdl by (intros d Hd; by apply (free_apart _ _ _ _ _ _ _ H)).
  assert (forall d, d ∈ l -> fst d <> bp) as Hnot.
  { intros d Hd E. specialize (Hdl d Hd). pose proof (ordered_in _ _ _ (hp_ord _ _ _ _ H) Hd). unfold disj in Hdl. cbn in *. lia. }
  destruct (pred_exists l bp (hp_ord _ _ _ _ H) ltac:(lia) Hnot) as (pre & b & post & EG & Hb & Hpost).
  assert (exists i f, ((at_base, 0) :: l) !! i = Some f /\ fst f = u_freep s) as (i & f & Hi & Hf).
  { pose proof (hp_freep _ _ _ _ H) as Hin. change (at_base :: map fst l) with (map fst ((at_base, 0) :: l)) in Hin.
    apply list_elem_of_fmap in Hin as (f & E & Hin). apply list_elem_of_lookup in Hin as [i Hi]. by exists i, f. }
  assert (free_find fuel bp (u_freep s) s = URet (fst b) s) as Hfind.
  { rewrite <- Hf. apply (free_find_run l bp s (hp_chain _ _ _ _ H) (hp_ord _ _ _ _ H) ltac:(lia) pre b post EG Hb Hpost _ i f Hi).
    pose proof (lookup_lt_Some _ _ _ Hi) as Hlt. assert (S (length l) = length pre + S (length post))%nat as El by (change (S (length l)) with (length ((at_base, 0%Z) :: l)); rewrite EG; apply length_app).
    cbn in Hlt. case_decide; cbn; lia. }
  assert (forall d, d ∈ (at_base, 0) :: l -> d = (at_base, 0) \/ d ∈ l) as HG by (intros d Hd; by apply elem_of_cons in Hd).
  pose proof (hp_brk _ _ _ _ H) as Hbrk. pose proof (hp_base _ _ _ _ H) as Hbase.
  assert (forall d, d ∈ l -> at_base + 16 <= fst d /\ 0 < snd d /\ fst d + 16 * snd d <= 2 ^ 34) as Hsm by (intros d Hd; apply (heap_small _ _ _ _ _ H), elem_of_app; by left).
  destruct (free_writes pre b (bp, n) post s) as (m' & E & C & Fr); try done; cbn [fst snd]; try lia.
  { rewrite <- EG. apply (hp_chain _ _ _ _ H). }
  { apply (hp_alloc _ _ _ _ H (bp, n)), elem_of_app. right. by left. }
  { rewrite <- EG. intros d [->|Hd]%HG; cbn [fst snd]; [unfold apart; lia|]. destruct (Hsm d Hd) as (? & ? & ?). split; [by apply (apart_sep d (bp, n)), Hc2; [apply Hdl|] | lia]. }
  { intros d Hd. by apply (G_apart l (hp_ord _ _ _ _ H) pre b post). }
  assert (fst b + 16 * snd b <= bp /\ forall d, d ∈ post -> bp + 16 * n <= fst d) as [Hbe Hpe].
  { split.
    - assert (b = (at_base, 0) \/ b ∈ l) as [->|Hbl] by (apply HG; rewrite EG; apply elem_of_app; right; by left); [cbn; lia|]. specialize (Hdl b Hbl). unfold disj in Hdl. cbn in Hdl. lia.
    - intros d Hd. assert (d ∈ l) as Hdl'.
      { assert (d ∈ (at_base, 0) :: l) as [->|?]%HG by (rewrite EG; apply elem_of_app; right; by right); [|done]. specialize (Hpost _ Hd). cbn in Hpost. lia. }
      pose proof (Hpost d Hd). destruct (Hsm d Hdl') as (? & ? & ?). specialize (Hdl d Hdl'). unfold disj in Hdl. cbn in Hdl. lia. }
  destruct (insert_free l bp n pre b post EG (hp_ord _ _ _ _ H) Hc1 Hc2 Hbe Hpe) as (l' & El' & Ho' & Hu & Hfp & Hlen & HQ & Hbig).
  exists l', m', (fst b). split; [done|]. rewrite El' in C. split; [|split_and!; [done | done | | done |]].
  - pose proof (FOP_middle _ _ _ _ (hp_disj _ _ _ _ H)) as (D1 & D2 & D3). assert (forall d, d ∈ A1 ++ A2 -> d ∈ A1 ++ (bp, n) :: A2 /\ disj d (bp, n)) as HA.
    { intros d [Hd|Hd]%elem_of_app; (split; [apply elem_of_app; ((by left) || (right; by right))|]); [by apply D2 | by apply disj_sym, D3]. }
    split; try done.
    + intros d [Hd|Hd]%elem_of_app; [|apply (hp_top _ _ _ _ H), elem_of_app; right; by apply HA].
      revert d Hd. apply HQ.
      * intros x y. cbn. lia.
      * by apply (hp_top _ _ _ _ H).
      * intros d Hd. apply (hp_top _ _ _ _ H), elem_of_app. by left.
    + intros d Hd. destruct (HA d Hd) as [Hd1 Hd2]. destruct (hp_alloc _ _ _ _ H d Hd1) as (I1 & I2 & I3). split_and!; try done. cbn [u_mem set_freep set_mem].
      rewrite (size_of_ext (u_mem s)); [done|]. intros x Hx. assert (disj b d \/ b = (at_base, 0)) as Hbd.
      { assert (b = (at_base, 0) \/ b ∈ l) as [->|Hbl] by (apply HG; rewrite EG; apply elem_of_app; right; by left); [by right|]. left. by apply (hp_free_alloc _ _ _ _ H). }
      apply Fr; unfold disj in *; cbn in *; [lia|]. destruct Hbd as [Hbd| ->]; [|cbn; lia].
      assert (b = (at_base, 0) \/ b ∈ l) as [->|Hbl] by (apply HG; rewrite EG; apply elem_of_app; right; by left); [cbn; lia|]. destruct (Hsm b Hbl) as (? & ? & ?). lia.
    + intros d e Hd He. destruct (HA e He) as [He1 He2]. destruct (hp_alloc _ _ _ _ H e He1) as (I1 & I2 & I3). revert d Hd. apply HQ.
      * intros x y. unfold disj. cbn. lia.
      * by apply disj_sym.
      * intros d Hd. by apply (hp_free_alloc _ _ _ _ H).
  - intros x Hx Hx2. apply Fr; [done|]. assert (b = (at_base, 0) \/ b ∈ l) as [->|Hbl] by (apply HG; rewrite EG; apply elem_of_app; right; by left).
    + cbn. destruct (Z.lt_ge_cases x at_base), (Z.le_gt_cases (at_base + 16) x); try lia. exfalso. apply Hx. left. lia.
    + destruct (Hsm b Hbl) as (? & ? & ?). destruct (Z.lt_ge_cases x (fst b)), (Z.le_gt_cases (fst b + 16) x); try lia. exfalso. apply Hx. right. exists b. split; [done | lia].
  - intros x [Hx|(d & Hd & Hx)]; [left; by left|]. revert x Hx. apply (HQ (fun d => forall x, fst d <= x < fst d + 16 * snd d -> in_free l x \/ bp <= x < bp + 16 * n)); [| | |done].
    + intros x y Hx Hy E' z. cbn. intros Hz. destruct (Z.lt_ge_cases z (fst y)); [apply Hx; lia | apply Hy; lia].
    + intros x Hx. by right.
    + intros c Hc x Hx. left. right. by exists c.
Qed.

(** ** The search of [malloc] *)

Section scan.
Context (l A : list (Z * Z)) (brk : Z) (s : ustate) (i0 : nat) (nunits : Z).
Let G := (at_base, 0) :: l.
Hypothesis H : heap l A brk s.
Hypothesis Hi0 : exists f, G !! i0 = Some f /\ fst f = u_freep s.

Definition gaddr (i : nat) : Z := match G !! i with Some b => fst b | None => 0 end.
Definition gsize (i : nat) : Z := match G !! i with Some b => snd b | None => 0 end.

(** The block [t] links after [freep]. *)
Definition idx (t : nat) : nat := ((i0 + t) mod length G)%nat.

Lemma idx_lt t : (idx t < length G)%nat.
Proof. apply Nat.mod_upper_bound. done. Qed.

Lemma i0_lt : (i0 < length G)%nat.
Proof. destruct Hi0 as (f & Hf & _). by eapply lookup_lt_Some. Qed.

Lemma idx_S t : idx (S t) = if decide (S (idx t) = length G) then 0%nat else S (idx t).
Proof.
  pose proof (idx_lt t) as Hlt. unfold idx in *. set (g := length G) in *. assert (g <> 0)%nat by (unfold g; done).
  replace (i0 + S t)%nat with (i0 + t + 1)%nat by lia. rewrite <- Nat.Div0.add_mod_idemp_l. set (r := ((i0 + t) mod g)%nat) in *. case_decide as E.
  - replace (r + 1)%nat with g by lia. apply Nat.Div0.mod_same.
  - rewrite Nat.mod_small by lia. lia.
Qed.

Lemma gaddr_link t : hdr (u_mem s) (gaddr (idx t)) = (gaddr (idx (S t)), gsize (idx t)).
Proof.
  pose proof (idx_lt t) as Hlt. destruct (lookup_lt_is_Some_2 G (idx t) Hlt) as [b Hb]. rewrite idx_S. unfold gaddr at 1, gsize. rewrite Hb.
  rewrite (chain_lookup _ _ _ (idx t) (fst b) (snd b) (hp_chain _ _ _ _ H)) by (fold G; rewrite Hb; by destruct b). f_equal. fold G. case_decide as E.
  - rewrite lookup_ge_None_2 by lia. done.
  - unfold gaddr. destruct (lookup_lt_is_Some_2 G (S (idx t)) ltac:(lia)) as [c Hc]. by rewrite Hc.
Qed.

Lemma gaddr_inj i j : (i < length G)%nat -> (j < length G)%nat -> gaddr i = gaddr j -> i = j.
Proof.
  intros Hi Hj E. destruct (lookup_lt_is_Some_2 G i Hi) as [b Hb], (lookup_lt_is_Some_2 G j Hj) as [c Hc]. unfold gaddr in E. rewrite Hb, Hc in E.
  destruct (Nat.lt_trichotomy i j) as [Hlt|[->|Hlt]]; [|done|].
  - pose proof (G_lt l (hp_ord _ _ _ _ H) i j b c Hb Hc Hlt). lia.
  - pose proof (G_lt l (hp_ord _ _ _ _ H) j i c b Hc Hb Hlt). lia.
Qed.

Lemma freep_gaddr : u_freep s = gaddr i0.
Proof. destruct Hi0 as (f & Hf & E). unfold gaddr. by rewrite Hf. Qed.

Lemma idx_0 : idx 0 = i0.
Proof. unfold idx. rewrite Nat.add_0_r. apply Nat.mod_small, i0_lt. Qed.

Lemma idx_i0 t : (0 < t < length G)%nat -> idx t <> i0.
Proof.
  intros Ht E. pose proof i0_lt. unfold idx in E. destruct (Nat.lt_ge_cases (i0 + t) (length G)) as [Hlt|Hge].
  - rewrite Nat.mod_small in E by lia. lia.
  - replace (i0 + t)%nat with (i0 + t - length G + 1 * length G)%nat in E by lia. rewrite Nat.Div0.mod_add, Nat.mod_small in E by lia. lia.
Qed.

(** Blocks that are too small are passed over. *)
Lemma scan_run n t : (S t <= length G)%nat -> (forall u, (1 <= u <= t)%nat -> gsize (idx u) < nunits) ->
  malloc_loop (t + n) nunits (gaddr i0) (gaddr (idx 1)) s = malloc_loop n nunits (gaddr (idx t)) (gaddr (idx (S t))) s.
Proof.
  revert n. induction t as [|t IH]; intros n Ht Hsm; [by rewrite idx_0|]. replace (S t + n)%nat with (t + S n)%nat by lia. rewrite IH by (lia || (intros u Hu; apply Hsm; lia)).
  cbn [malloc_loop]. unfold s_size, s_ptr. autorewrite with ustep. pose proof (gaddr_link (S t)) as Hh.
  assert (size_of (u_mem s) (gaddr (idx (S t))) = gsize (idx (S t))) as -> by (apply (f_equal snd) in Hh; exact Hh).
  rewrite (proj2 (Z.leb_gt _ _)) by (apply Hsm; lia). autorewrite with ustep. rewrite freep_gaddr, (proj2 (Z.eqb_neq _ _)).
  - autorewrite with ustep. assert (ptr_of (u_mem s) (gaddr (idx (S t))) = gaddr (idx (S (S t)))) as -> by (apply (f_equal fst) in Hh; exact Hh). done.
  - intros E. apply gaddr_inj in E; [|apply idx_lt | apply i0_lt]. revert E. apply idx_i0. lia.
Qed.

(** The first block that is large enough, or none. *)
Lemma first_fit : (exists t, (1 <= t <= length G)%nat /\ nunits <= gsize (idx t) /\ forall u, (1 <= u < t)%nat -> gsize (idx u) < nunits) \/
  (forall u, (1 <= u <= length G)%nat -> gsize (idx u) < nunits).
Proof.
  assert (forall k, (exists t, (1 <= t <= k)%nat /\ nunits <= gsize (idx t) /\ forall u, (1 <= u < t)%nat -> gsize (idx u) < nunits) \/
    (forall u, (1 <= u <= k)%nat -> gsize (idx u) < nunits)) as Hk; [|apply Hk].
  induction k as [|k [(t & Ht & Hf & Hm)|IH]]; [right; intros u Hu; lia | left; exists t; split_and!; (done || lia) |].
  destruct (Z.le_gt_cases nunits (gsize (idx (S k)))) as [Hle|Hgt].
  - left. exists (S k). split_and!; try lia. intros u Hu. apply IH. lia.
  - right. intros u Hu. destruct (decide (u = S k)) as [->|]; [done | apply IH; lia].
Qed.

(** Every block is met. *)
Lemma idx_onto j : (j < length G)%nat -> exists t, (1 <= t <= length G)%nat /\ idx t = j.
Proof.
  intros Hj. pose proof i0_lt as Hi. destruct (Nat.lt_ge_cases i0 j) as [Hlt|Hge].
  - exists (j - i0)%nat. split; [lia|]. unfold idx. replace (i0 + (j - i0))%nat with j by lia. by apply Nat.mod_small.
  - exists (length G - i0 + j)%nat. split; [lia|]. unfold idx. replace (i0 + (length G - i0 + j))%nat with (j + 1 * length G)%nat by lia.
    rewrite Nat.Div0.mod_add. by apply Nat.mod_small.
Qed.

(** The list around the block that is taken: it is not [base]. *)
Lemma fit_split t : (1 <= t)%nat -> 0 < nunits <= gsize (idx t) -> exists l1 k post pre b0,
  l = l1 ++ (gaddr (idx t), k) :: post /\ nunits <= k /\ (at_base, 0) :: l1 = pre ++ [b0] /\ fst b0 = gaddr (idx (t - 1)).
Proof.
  intros Ht Hn. pose proof (idx_lt t) as Hlt. destruct (lookup_lt_is_Some_2 G (idx t) Hlt) as [b Hb]. unfold gsize in Hn. rewrite Hb in Hn.
  destruct (idx t) as [|j] eqn:Ej; [injection Hb as <-; cbn in Hn; lia|]. change (l !! j = Some b) in Hb.
  assert (idx (t - 1) = j) as Ep.
  { pose proof (idx_S (t - 1)) as E. replace (S (t - 1)) with t in E by lia. rewrite Ej in E. case_decide; lia. }
  apply list_elem_of_split_length in Hb as (l1 & post & El & Hlen).
  assert (exists pre b0, (at_base, 0) :: l1 = pre ++ [b0]) as (pre & b0 & Epre) by (destruct (exists_last (l := (at_base, 0) :: l1)) as (pre & b0 & E); [done | by exists pre, b0]).
  exists l1, (snd b), post, pre, b0. split_and!; [|lia | done |].
  - unfold gaddr. change (G !! S j) with (l !! j). rewrite El, list_lookup_middle by done. by destruct b.
  - rewrite Ep. unfold gaddr, G. rewrite El. change ((at_base, 0) :: l1 ++ b :: post) with (((at_base, 0) :: l1) ++ b :: post). rewrite Epre.
    assert (length pre = j) as <-. { apply (f_equal length) in Epre. rewrite length_app in Epre. cbn in Epre. lia. }
    rewrite <- app_assoc. change ([b0] ++ b :: post) with (b0 :: b :: post). by rewrite list_lookup_middle.
Qed.
End scan.

(** ** Taking a block *)

(** Writes to free memory leave the allocated blocks alone. *)
Lemma alloc_not_free l A brk s b x : heap l A brk s -> b ∈ A -> fst b <= x < fst b + 16 * snd b -> ~ in_free l x.
Proof.
  intros H Hb Hx Hf. destruct (hp_alloc _ _ _ _ H b Hb) as (H1 & H2 & _). destruct Hf as [Hf|(c & Hc & Hf)]; [lia|].
  pose proof (hp_free_alloc _ _ _ _ H c b Hc Hb) as Hd. unfold disj in Hd. lia.
Qed.

Lemma alloc_frame l A brk s m' b : heap l A brk s -> (forall x, ~ in_free l x -> m' x = u_mem s x) -> b ∈ A -> size_of m' (fst b) = snd b.
Proof.
  intros H Hm Hb. destruct (hp_alloc _ _ _ _ H b Hb) as (H1 & H2 & <-). apply size_of_ext. intros x Hx. apply Hm. eapply alloc_not_free; [exact H | exact Hb | lia].
Qed.

(** The heap after part of the free block [c] has become the block [r]. *)
Lemma heap_take l l1 a k post c A brk s r nunits m' p : heap l A brk s -> l = l1 ++ (a, k) :: post -> 0 < nunits ->
  (c = [] \/ c = [(a, k - nunits)] /\ nunits < k) -> nunits <= k -> r = a + 16 * (k - nunits) -> size_of m' r = nunits ->
  (c = [] -> k = nunits) -> chain m' ((at_base, 0) :: l1 ++ c ++ post) at_base -> (forall x, ~ in_free l x -> m' x = u_mem s x) ->
  p ∈ at_base :: map fst l1 -> heap (l1 ++ c ++ post) ((r, nunits) :: A) brk (set_freep p (set_mem m' s)).
Proof.
  intros H El Hn Hc Hk Er Hsz Hck Hch Hm Hp. pose proof (hp_ord _ _ _ _ H) as Ho. pose proof Ho as Ho'. rewrite El in Ho'. apply ordered_app in Ho' as (O1 & O2 & O3 & O4).
  cbn [fst snd] in *. assert ((a, k) ∈ l) as Hin by (rewrite El; apply elem_of_app; right; by left).
  assert (forall d, d ∈ l1 ++ c ++ post -> (d ∈ l /\ disj d (a, k)) \/ d = (a, k - nunits)) as Hsub.
  { intros d Hd. rewrite !elem_of_app in Hd. destruct Hd as [Hd|[Hd|Hd]].
    - left. split; [rewrite El; apply elem_of_app; by left|]. left. apply list_elem_of_lookup in Hd as [i Hi]. pose proof (lookup_lt_Some _ _ _ Hi).
      pose proof (ordered_lt _ _ i (length l1) d (a, k) Ho) as Hlt. rewrite El in Hlt. specialize (Hlt ltac:(by apply lookup_app_l_Some) ltac:(by apply list_lookup_middle) ltac:(lia)). cbn in *. lia.
    - right. destruct Hc as [->|[-> _]]; [by apply elem_of_nil in Hd | by apply list_elem_of_singleton in Hd].
    - left. split; [rewrite El; apply elem_of_app; right; by right|]. right. pose proof (ordered_in _ _ _ O4 Hd). cbn. lia. }
  pose proof (hp_top _ _ _ _ H (a, k) ltac:(apply elem_of_app; by left)) as Htop. cbn in Htop.
  pose proof (ordered_in _ _ _ Ho Hin) as [Hlo _]. cbn in Hlo. split.
  - apply (hp_base _ _ _ _ H).
  - done.
  - apply ordered_app. split; [done|]. destruct Hc as [->|[-> Hlt]]; cbn; [eapply ordered_lo; [|exact O4]; lia|]. split_and!; [done | lia |]. eapply ordered_lo; [|exact O4]. lia.
  - intros d Hd. rewrite elem_of_app, elem_of_cons in Hd. destruct Hd as [Hd|[->|Hd]]; cbn.
    + apply Hsub in Hd as [[Hd _]| ->]; [apply (hp_top _ _ _ _ H), elem_of_app; by left | cbn; lia].
    + lia.
    + apply (hp_top _ _ _ _ H), elem_of_app. by right.
  - apply (hp_brk _ _ _ _ H).
  - intros d [->|Hd]%elem_of_cons; cbn; [split_and!; (done || lia)|]. pose proof (hp_alloc _ _ _ _ H d Hd) as (H1 & H2 & H3). split_and!; try done.
    eapply alloc_frame; [exact H | exact Hm | exact Hd].
  - intros b d Hb [->|Hd]%elem_of_cons.
    + apply Hsub in Hb as [[Hb Hdj]| ->]; unfold disj in *; cbn in *; lia.
    + apply Hsub in Hb as [[Hb Hdj]| ->]; [by apply (hp_free_alloc _ _ _ _ H)|]. pose proof (hp_free_alloc _ _ _ _ H _ d Hin Hd) as Hdj. unfold disj in *. cbn in *. lia.
  - constructor; [|apply (hp_disj _ _ _ _ H)]. apply list.Forall_forall. intros d Hd. pose proof (hp_free_alloc _ _ _ _ H _ d Hin Hd) as Hdj. unfold disj in *. cbn in *. lia.
  - cbn. rewrite map_app. apply elem_of_cons in Hp as [->|Hp]; [by left|]. right. apply elem_of_app. by left.
Qed.

(** The headers before and after a free block. *)
Lemma free_sep l1 a k post : ordered (at_base + 15) (l1 ++ (a, k) :: post) ->
  (forall d, d ∈ (at_base, 0) :: l1 -> fst d + 16 <= a) /\ (forall d, d ∈ post -> a + 16 * k < fst d).
Proof.
  intros Ho. split.
  - intros d Hd. apply list_elem_of_lookup in Hd as [i Hi]. pose proof (lookup_lt_Some _ _ _ Hi) as Hlt.
    apply (G_lt _ Ho i (S (length l1)) d (a, k)); [|by apply list_lookup_middle | cbn in Hlt; lia].
    change ((at_base, 0) :: l1 ++ (a, k) :: post) with (((at_base, 0) :: l1) ++ (a, k) :: post). by apply lookup_app_l_Some.
  - intros d Hd. apply ordered_app in Ho as (_ & _ & _ & O4). apply (ordered_in _ _ _ O4 Hd).
Qed.

(** A free block in its list. *)
Lemma block_facts l A brk s l1 a k post : heap l A brk s -> l = l1 ++ (a, k) :: post ->
  size_of (u_mem s) a = k /\ ptr_of (u_mem s) a = hd_addr post at_base /\ chain (u_mem s) ((at_base, 0) :: l1) a /\ chain (u_mem s) post at_base /\
  at_base + 16 <= a /\ a + 16 * k <= 2 ^ 34 /\ (a, k) ∈ l.
Proof.
  intros H El. pose proof (hp_chain _ _ _ _ H) as Hch. assert ((a, k) ∈ l) as Hin by (rewrite El; apply elem_of_app; right; by left).
  destruct (heap_small _ _ _ _ (a, k) H ltac:(apply elem_of_app; by left)) as (Ha & Hk & Htop). rewrite El in Hch.
  change ((at_base, 0) :: l1 ++ (a, k) :: post) with (((at_base, 0) :: l1) ++ (a, k) :: post) in Hch. apply chain_app in Hch as [C1 [Ca C2]].
  split_and!; try done; [by apply (f_equal snd) in Ca | by apply (f_equal fst) in Ca].
Qed.

(** The whole block is taken: it is unlinked. *)
Lemma take_exact l A brk s l1 a nunits post pre b0 : heap l A brk s -> l = l1 ++ (a, nunits) :: post -> (at_base, 0) :: l1 = pre ++ [b0] -> 0 < nunits ->
  fst b0 ∈ at_base :: map fst l1 -> let m' := set_ptr (fst b0) (hd_addr post at_base) (u_mem s) in
  heap (l1 ++ [] ++ post) ((a, nunits) :: A) brk (set_freep (fst b0) (set_mem m' s)) /\ (forall x, ~ in_free l x -> m' x = u_mem s x).
Proof.
  intros H El Epre Hn Hb0 m'. destruct (block_facts _ _ _ _ _ _ _ _ H El) as (Hsa & Hpa & C1 & C2 & Ha & Htop & Hin). pose proof (hp_base _ _ _ _ H) as Hbase.
  set (e := hd_addr post at_base) in *. assert (0 <= e < 2 ^ 64) as He.
  { unfold e. destruct post as [|d post]; cbn; [pose proof (hp_brk _ _ _ _ H); lia|]. destruct (heap_small _ _ _ _ d H) as (? & ? & ?); [rewrite El; apply elem_of_app; left; apply elem_of_app; right; right; by left | lia]. }
  assert ((at_base, 0) :: l = pre ++ b0 :: (a, nunits) :: post) as EG.
  { rewrite El. change ((at_base, 0) :: l1 ++ (a, nunits) :: post) with (((at_base, 0) :: l1) ++ (a, nunits) :: post). rewrite Epre. by rewrite <- app_assoc. }
  assert (forall d, d ∈ pre ++ (a, nunits) :: post -> apart (fst d) (fst b0)) as Hap by (intros d Hd; by apply (G_apart l (hp_ord _ _ _ _ H) pre b0 ((a, nunits) :: post))).
  assert (forall x, x < fst b0 \/ fst b0 + 16 <= x -> m' x = u_mem s x) as Hout by (intros x Hx; apply set_ptr_out; lia).
  assert (forall x, ~ in_free l x -> m' x = u_mem s x) as Hm.
  { intros x Hx. apply Hout. assert (b0 ∈ (at_base, 0) :: l) as [->|Hbl]%elem_of_cons by (rewrite EG; apply elem_of_app; right; by left).
    - cbn. destruct (Z.lt_ge_cases x at_base), (Z.le_gt_cases (at_base + 16) x); try lia. exfalso. apply Hx. left. lia.
    - destruct (heap_small _ _ _ _ b0 H ltac:(apply elem_of_app; by left)) as (? & ? & ?). destruct (Z.lt_ge_cases x (fst b0)), (Z.le_gt_cases (fst b0 + 16) x); try lia.
      exfalso. apply Hx. right. exists b0. split; [done | lia]. }
  split; [|done]. apply (heap_take l l1 a nunits post [] A brk s a nunits m' (fst b0)); try done; [by left | lia | |].
  - etransitivity; [|exact Hsa]. apply size_of_ext. intros x Hx. apply Hout. specialize (Hap (a, nunits) ltac:(apply elem_of_app; right; by left)). unfold apart in Hap. cbn in Hap. lia.
  - cbn [app]. change ((at_base, 0) :: l1 ++ post) with (((at_base, 0) :: l1) ++ post). rewrite Epre in C1 |- *. rewrite <- app_assoc. cbn [app].
    apply chain_app in C1 as [C1 [Cb _]]. cbn [hd_addr fst] in C1, Cb. apply chain_app. split; [|cbn [chain]; split].
    + apply (chain_write (u_mem s) _ pre _ (fst b0)); [done | intros d Hd; apply Hap, elem_of_app; by left | done].
    + unfold m'. rewrite hdr_set_ptr by done. apply (f_equal snd) in Cb. change (size_of (u_mem s) (fst b0) = snd b0) in Cb. by rewrite Cb.
    + apply (chain_write (u_mem s) _ post _ (fst b0)); [done | intros d Hd; apply Hap, elem_of_app; right; by right | done].
Qed.

(** The end of the block is taken. *)
Lemma take_end l A brk s l1 a k post p nunits : heap l A brk s -> l = l1 ++ (a, k) :: post -> p ∈ at_base :: map fst l1 -> 0 < nunits < k ->
  let r := a + 16 * (k - nunits) in let m' := set_size r nunits (set_size a (k - nunits) (u_mem s)) in
  heap (l1 ++ [(a, k - nunits)] ++ post) ((r, nunits) :: A) brk (set_freep p (set_mem m' s)) /\ (forall x, ~ in_free l x -> m' x = u_mem s x).
Proof.
  intros H El Hp Hn r m'. destruct (block_facts _ _ _ _ _ _ _ _ H El) as (Hsa & Hpa & C1 & C2 & Ha & Htop & Hin). pose proof (hp_base _ _ _ _ H) as Hbase.
  assert (forall x, x < a \/ a + 16 * k <= x -> m' x = u_mem s x) as Hout.
  { intros x Hx. unfold m'. rewrite !set_size_out; [done | lia | unfold r; lia]. }
  assert (forall x, ~ in_free l x -> m' x = u_mem s x) as Hm.
  { intros x Hx. apply Hout. destruct (Z.lt_ge_cases x a), (Z.le_gt_cases (a + 16 * k) x); try lia. exfalso. apply Hx. right. exists (a, k). split; [done | cbn; lia]. }
  split; [|done]. apply (heap_take l l1 a k post [(a, k - nunits)] A brk s r nunits m' p); try done; [lia | right; split; [done | lia] | lia | |].
  - unfold m'. rewrite size_set_size. apply Z.mod_small. lia.
  - change ((at_base, 0) :: l1 ++ [(a, k - nunits)] ++ post) with (((at_base, 0) :: l1) ++ (a, k - nunits) :: post).
    destruct (free_sep l1 a k post) as [S1 S2]; [rewrite <- El; apply (hp_ord _ _ _ _ H)|].
    assert (forall d, d ∈ ((at_base, 0) :: l1) ++ post -> hdr m' (fst d) = hdr (u_mem s) (fst d)) as Hh.
    { intros d [Hd|Hd]%elem_of_app; apply hdr_ext; intros x Hx; apply Hout; [specialize (S1 d Hd) | specialize (S2 d Hd)]; lia. }
    apply chain_app. split; [|cbn [chain fst snd]; split].
    + eapply links_ext; [|exact C1]. intros d Hd. apply Hh, elem_of_app. by left.
    + unfold m'. rewrite hdr_set_size_ne by (unfold r; lia). rewrite hdr_set_size by lia. by rewrite Hpa.
    + eapply links_ext; [|exact C2]. intros d Hd. apply Hh, elem_of_app. by right.
Qed.

Lemma take_run l A brk s l1 a k post pre b0 nunits n : heap l A brk s -> l = l1 ++ (a, k) :: post -> (at_base, 0) :: l1 = pre ++ [b0] -> 0 < nunits <= k ->
  exists r l' m', malloc_loop (S n) nunits (fst b0) a s = URet (r + 16) (set_freep (fst b0) (set_mem m' s)) /\
    heap l' ((r, nunits) :: A) brk (set_freep (fst b0) (set_mem m' s)) /\ units l' = units l - nunits /\ (forall x, ~ in_free l x -> m' x = u_mem s x) /\
    (forall x, r <= x < r + 16 * nunits -> in_free l x).
Proof.
  intros H El Epre Hn. destruct (block_facts _ _ _ _ _ _ _ _ H El) as (Hsa & Hpa & _ & _ & _ & _ & Hin).
  assert (fst b0 ∈ at_base :: map fst l1) as Hb0.
  { change (at_base :: map fst l1) with (map fst ((at_base, 0) :: l1)). rewrite Epre. apply list_elem_of_fmap. exists b0. split; [done|]. apply elem_of_app. right. by left. }
  cbn [malloc_loop]. unfold s_size, s_ptr. autorewrite with ustep. rewrite Hsa, (proj2 (Z.leb_le _ _) (proj2 Hn)). destruct (Z.eqb_spec k nunits) as [->|E].
  - autorewrite with ustep. rewrite Hpa. destruct (take_exact l A brk s l1 a nunits post pre b0 H El Epre ltac:(lia) Hb0) as [Hh Hm].
    eexists _, _, _. split; [reflexivity|]. split; [exact Hh|]. split; [rewrite El, !units_app; cbn; lia|]. split; [exact Hm|].
    intros x Hx. right. by exists (a, nunits).
  - autorewrite with ustep. cbn [u_mem set_mem]. unfold HDR. destruct (take_end l A brk s l1 a k post (fst b0) nunits H El Hb0 ltac:(lia)) as [Hh Hm].
    eexists _, _, _. split; [reflexivity|]. split; [exact Hh|]. split; [rewrite El, !units_app; cbn; lia|]. split; [exact Hm|].
    intros x Hx. right. exists (a, k). split; [done | cbn; lia].
Qed.

(** ** [malloc] *)

Lemma freep_index l A brk s : heap l A brk s -> exists i, exists f, ((at_base, 0) :: l) !! i = Some f /\ fst f = u_freep s.
Proof.
  intros H. pose proof (hp_freep _ _ _ _ H) as Hin. change (at_base :: map fst l) with (map fst ((at_base, 0) :: l)) in Hin.
  apply list_elem_of_fmap in Hin as (f & E & Hin). apply list_elem_of_lookup in Hin as [i Hi]. by exists i, f.
Qed.

(** What a step of [malloc] may change: the free memory. *)
Definition taken (l A : list (Z * Z)) (brk nunits : Z) (s s' : ustate) (r : Z) (l' : list (Z * Z)) : Prop :=
  heap l' ((r, nunits) :: A) brk s' /\ units l' = units l - nunits /\ u_world s' = u_world s /\ (forall x, ~ in_free l x -> u_mem s' x = u_mem s x) /\
  (forall x, r <= x < r + 16 * nunits -> in_free l x).

Lemma malloc_fit l A brk s nunits n : heap l A brk s -> (exists b, b ∈ l /\ nunits <= snd b) -> 0 < nunits -> (length l < n)%nat ->
  exists r l' s', malloc_loop n nunits (u_freep s) (ptr_of (u_mem s) (u_freep s)) s = URet (r + 16) s' /\ taken l A brk nunits s s' r l'.
Proof.
  intros H (b & Hb & Hbn) Hn Hfuel. destruct (freep_index _ _ _ _ H) as (i0 & Hi0). set (g := (length l + 1)%nat).
  assert (length ((at_base, 0%Z) :: l) = g) as Eg by (unfold g; cbn; lia).
  destruct (first_fit l i0 nunits) as [(t & Ht & Hf & Hm)|Hno].
  - pose proof (gaddr_link l A brk s i0 H 0) as Hh. rewrite (idx_0 l s i0 Hi0) in Hh. rewrite (freep_gaddr l s i0 Hi0). apply (f_equal fst) in Hh. change (ptr_of (u_mem s) (gaddr l i0) = gaddr l (idx l i0 1)) in Hh. rewrite Hh.
    rewrite Eg in Ht. replace n with ((t - 1) + S (n - t))%nat by lia. rewrite (scan_run l A brk s i0 nunits H Hi0) by (rewrite ?Eg; lia || (intros u Hu; apply Hm; lia)).
    replace (S (t - 1)) with t by lia. destruct (fit_split l i0 nunits t ltac:(lia) ltac:(lia)) as (l1 & k & post & pre & b0 & El & Hk & Epre & E0). rewrite <- E0.
    destruct (take_run l A brk s l1 _ k post pre b0 nunits (n - t) H El Epre ltac:(lia)) as (r & l' & m' & E & Hh' & Hu & Hfr & Hblk).
    exists r, l', (set_freep (fst b0) (set_mem m' s)). by split_and!.
  - exfalso. apply list_elem_of_lookup in Hb as [j Hj]. pose proof (lookup_lt_Some _ _ _ Hj). destruct (idx_onto l s i0 Hi0 (S j)) as (t & Ht & Et); [cbn; lia|].
    specialize (Hno t Ht). rewrite Et in Hno. unfold gsize in Hno. change (((at_base, 0) :: l) !! S j) with (l !! j) in Hno. rewrite Hj in Hno. lia.
Qed.

Lemma malloc_nofit l A brk s nunits n : heap l A brk s -> (forall b, b ∈ l -> snd b < nunits) -> 0 < nunits ->
  malloc_loop (length l + S n) nunits (u_freep s) (ptr_of (u_mem s) (u_freep s)) s =
  ubind (morecore nunits) (fun p => if p =? 0 then uret 0 else q <- s_ptr p ;; malloc_loop n nunits p q) s.
Proof.
  intros H Hno Hn. destruct (freep_index _ _ _ _ H) as (i0 & Hi0). assert (forall j, gsize l j < nunits) as Hg.
  { intros [|j]; unfold gsize; [cbn; lia|]. change (((at_base, 0) :: l) !! S j) with (l !! j). destruct (l !! j) as [b|] eqn:E; [|lia]. apply Hno. by eapply list_elem_of_lookup_2. }
  pose proof (gaddr_link l A brk s i0 H 0) as Hh. rewrite (idx_0 l s i0 Hi0) in Hh. rewrite (freep_gaddr l s i0 Hi0). apply (f_equal fst) in Hh. change (ptr_of (u_mem s) (gaddr l i0) = gaddr l (idx l i0 1)) in Hh. rewrite Hh.
  rewrite (scan_run l A brk s i0 nunits H Hi0) by (cbn; lia || (intros u Hu; apply Hg)). assert (idx l i0 (S (length l)) = i0) as Ei.
  { unfold idx. change (length ((at_base, 0%Z) :: l)) with (S (length l)). pose proof (i0_lt l s i0 Hi0) as Hlt. cbn in Hlt.
    replace (i0 + S (length l))%nat with (i0 + 1 * S (length l))%nat by lia. rewrite Nat.Div0.mod_add. apply Nat.mod_small. lia. }
  rewrite Ei. cbn [malloc_loop]. unfold s_size. autorewrite with ustep. pose proof (gaddr_link l A brk s i0 H 0) as Hh'. rewrite (idx_0 l s i0 Hi0) in Hh'.
  apply (f_equal snd) in Hh'. change (size_of (u_mem s) (gaddr l i0) = gsize l i0) in Hh'. rewrite Hh', (proj2 (Z.leb_gt _ _)) by apply Hg. autorewrite with ustep.
  rewrite (freep_gaddr l s i0 Hi0), Z.eqb_refl. done.
Qed.
End heap.

(** ** More memory from the kernel *)

(** [sbrk] returns the old end of the process and moves it, or fails. *)
Class Brk (K : Kernel) := {
  wbrk : world -> Z;
  serve_sbrk : forall n w, 0 < n -> exists a0 out w', serve (SYS_sbrk n) w = Some (a0, out, w') /\
    ((a0 = 2 ^ 64 - 1 /\ wbrk w' = wbrk w) \/ (a0 = wbrk w /\ wbrk w' = wbrk w + n /\ wbrk w + n <= 2 ^ 34))
}.

Section malloc.
Context {K : Kernel} {F : Fuel} {Lay : Ulayout} {B : Brk K}.

Lemma sbrk_run n s : 0 < n -> 0 <= wbrk (u_world s) <= 2 ^ 34 ->
  exists w', (sbrk n s = URet (2 ^ 64 - 1) (set_world w' s) /\ wbrk w' = wbrk (u_world s)) \/
    (sbrk n s = URet (wbrk (u_world s)) (set_world w' s) /\ wbrk w' = wbrk (u_world s) + n /\ wbrk w' <= 2 ^ 34).
Proof.
  intros Hn Hb. destruct (serve_sbrk n (u_world s) Hn) as (a0 & out & w' & E & Hc). exists w'. unfold sbrk, syscall, ecall. unfold ubind. rewrite E. cbn [fst snd uret].
  destruct Hc as [[-> Hw]|(-> & Hw & Hle)]; [left | right].
  - split; [|done]. reflexivity.
  - split; [|lia]. f_equal. rewrite (u64_small (wbrk _)) by lia. unfold __syscall_ret, s64. rewrite (u64_small (wbrk _)) by lia.
    rewrite (proj2 (Z.ltb_ge _ _)) by lia. rewrite (proj2 (Z.ltb_lt _ _)) by lia. apply u64_small. lia.
Qed.

(** The memory the kernel has added, as an allocated block. *)
Lemma heap_grow l A s w' nu : heap l A (wbrk (u_world s)) s -> 0 < nu -> wbrk w' = wbrk (u_world s) + 16 * nu -> wbrk w' <= 2 ^ 34 ->
  let p := wbrk (u_world s) in heap l ((p, nu) :: A) (wbrk w') (set_mem (set_size p nu (u_mem s)) (set_world w' s)).
Proof.
  intros H Hn Hw Hle p. pose proof (hp_brk _ _ _ _ H) as Hb. pose proof (hp_base _ _ _ _ H) as Hbase.
  assert (forall b, b ∈ l ++ A -> fst b + 16 <= p) as Hbelow by (intros b Hb'; pose proof (hp_top _ _ _ _ H b Hb'); destruct (heap_small _ _ _ _ b H Hb') as (? & ? & ?); unfold p; lia).
  assert (forall x, x < p -> set_size p nu (u_mem s) x = u_mem s x) as Hout by (intros x Hx; apply set_size_out; lia). split; try done.
  - eapply links_ext; [|apply (hp_chain _ _ _ _ H)]. intros b [->|Hb']%elem_of_cons; apply hdr_ext; intros x Hx; apply Hout.
    + cbn in Hx. unfold p. lia.
    + specialize (Hbelow b ltac:(apply elem_of_app; by left)). lia.
  - apply (hp_ord _ _ _ _ H).
  - intros b [Hb'|[->|Hb']%elem_of_cons]%elem_of_app; [pose proof (hp_top _ _ _ _ H b ltac:(apply elem_of_app; by left)); lia | cbn; unfold p; lia | pose proof (hp_top _ _ _ _ H b ltac:(apply elem_of_app; by right)); lia].
  - lia.
  - intros b [->|Hb']%elem_of_cons; cbn [fst snd u_mem set_mem].
    + split_and!; [unfold p; lia | done | rewrite size_set_size; apply Z.mod_small; lia].
    + destruct (hp_alloc _ _ _ _ H b Hb') as (H1 & H2 & H3). split_and!; try done. etransitivity; [|exact H3]. apply size_of_ext. intros x Hx. apply Hout. specialize (Hbelow b ltac:(apply elem_of_app; by right)). lia.
  - intros b c Hb' [->|Hc]%elem_of_cons; [left; apply (hp_top _ _ _ _ H), elem_of_app; by left | by apply (hp_free_alloc _ _ _ _ H)].
  - constructor; [|apply (hp_disj _ _ _ _ H)]. apply list.Forall_forall. intros b Hb'. right. apply (hp_top _ _ _ _ H), elem_of_app. by right.
  - apply (hp_freep _ _ _ _ H).
Qed.

Lemma morecore_run l A s nu : heap l A (wbrk (u_world s)) s -> 0 < nu < 2 ^ 27 -> (S (length l) <= fuel)%nat ->
  (exists w', morecore nu s = URet 0 (set_world w' s) /\ wbrk w' = wbrk (u_world s)) \/
  (exists l' s', morecore nu s = URet (u_freep s') s' /\ u_freep s' <> 0 /\ heap l' A (wbrk (u_world s')) s' /\
    16 * (units l' - units l) = wbrk (u_world s') - wbrk (u_world s) /\ wbrk (u_world s) <= wbrk (u_world s') /\ (length l' <= S (length l))%nat /\
    (forall x, ~ in_free l x -> x < wbrk (u_world s) -> u_mem s' x = u_mem s x) /\ (exists b, b ∈ l' /\ nu <= snd b) /\
    (forall x, in_free l' x -> in_free l x \/ wbrk (u_world s) <= x)).
Proof.
  intros H Hnu Hfuel. pose proof (hp_brk _ _ _ _ H) as Hb. pose proof (hp_base _ _ _ _ H) as Hbase. unfold morecore. set (nu' := if nu <? 4096 then 4096 else nu).
  assert (nu <= nu' < 2 ^ 27) as Hnu' by (unfold nu'; destruct (Z.ltb_spec nu 4096); lia). unfold HDR. rewrite s32_small by lia.
  destruct (sbrk_run (nu' * 16) s) as (w' & [[E Hw]|(E & Hw & Hle)]); [lia | lia | |]; rewrite (ubind_run _ _ _ _ _ E).
  - left. exists w'. rewrite Z.eqb_refl. done.
  - right. set (p := wbrk (u_world s)) in *. rewrite (proj2 (Z.eqb_neq _ _)) by lia. autorewrite with ustep.
    set (s1 := set_mem (set_size p nu' (u_mem s)) (set_world w' s)). change (set_mem (set_size p nu' (u_mem (set_world w' s))) (set_world w' s)) with s1.
    pose proof (heap_grow l A s w' nu' H ltac:(lia) ltac:(lia) Hle) as Hg. fold p s1 in Hg.
    destruct (free_run l [] A p nu' (wbrk w') s1 Hg Hfuel) as (l' & m' & q & Ef & Hh & Hu & Hlen & Hfr & (b & Hb1 & Hb2) & Hcov). rewrite (ubind_run _ _ _ _ _ Ef).
    exists l', (set_freep q (set_mem m' s1)). split; [done|]. split_and!; try done; cbn [u_world set_freep set_mem s1 set_world].
    + pose proof (hp_freep _ _ _ _ Hh) as Hin. cbn [u_freep set_freep] in Hin |- *. apply elem_of_cons in Hin as [->|Hin]; [lia|].
      apply list_elem_of_fmap in Hin as (c & -> & Hc). pose proof (ordered_in _ _ _ (hp_ord _ _ _ _ Hh) Hc). lia.
    + unfold p in *. lia.
    + lia.
    + intros x Hx Hxp. cbn [u_mem set_freep set_mem]. rewrite Hfr by (done || lia). cbn. apply set_size_out. lia.
    + exists b. split; [done | lia].
    + intros x [Hx|Hx]%Hcov; [by left | right; lia].
Qed.

(** The state between two calls: a heap, or no call yet. *)
Definition heap_state (l A : list (Z * Z)) (s : ustate) : Prop :=
  heap l A (wbrk (u_world s)) s \/
  (u_freep s = 0 /\ l = [] /\ A = [] /\ 0 < at_base /\ at_base + 16 <= wbrk (u_world s) <= 2 ^ 34).

Lemma malloc_init_run l A s : heap_state l A s -> exists s0, malloc_init s = URet (u_freep s0) s0 /\ heap l A (wbrk (u_world s)) s0 /\
  u_world s0 = u_world s /\ (forall x, ~ in_free l x -> u_mem s0 x = u_mem s x).
Proof.
  intros [H|(Hp & -> & -> & Hb & Hw)]; unfold malloc_init; autorewrite with ustep.
  - rewrite (proj2 (Z.eqb_neq (u_freep s) 0)); [by exists s|]. pose proof (hp_base _ _ _ _ H). pose proof (hp_freep _ _ _ _ H) as Hin.
    apply elem_of_cons in Hin as [->|Hin]; [lia|]. apply list_elem_of_fmap in Hin as (c & -> & Hc). pose proof (ordered_in _ _ _ (hp_ord _ _ _ _ H) Hc). lia.
  - rewrite Hp. autorewrite with ustep. cbn [Z.eqb]. autorewrite with ustep. match goal with |- exists s0, uret _ ?x = _ /\ _ => exists x end. split; [done|]. split_and!; try done.
    + split; try done; cbn [u_mem set_mem set_freep app map].
      * cbn [chain fst snd hd_addr]. split; [|done]. rewrite hdr_set_size by lia. change (ptr_of ?m ?q) with (fst (hdr m q)). by rewrite hdr_set_ptr by lia.
      * intros b Hin. by apply elem_of_nil in Hin.
      * intros b Hin. by apply elem_of_nil in Hin.
      * intros b c Hin. by apply elem_of_nil in Hin.
      * constructor.
      * by left.
    + intros x Hx. cbn. assert (x < at_base \/ at_base + 16 <= x) by (destruct (Z.lt_ge_cases x at_base), (Z.le_gt_cases (at_base + 16) x); try lia; exfalso; apply Hx; left; lia).
      rewrite set_size_out by lia. apply set_ptr_out. lia.
Qed.

Lemma fits_or_not (l : list (Z * Z)) n : (exists b, b ∈ l /\ n <= snd b) \/ (forall b, b ∈ l -> snd b < n).
Proof.
  induction l as [|c l [(b & Hb & Hn)|IH]]; [right; intros b Hb; by apply elem_of_nil in Hb | left; exists b; split; [by right | done] |].
  destruct (Z.le_gt_cases n (snd c)); [left; exists c; split; [by left | done]|]. right. intros b [->|Hb]%elem_of_cons; [done | by apply IH].
Qed.

Lemma malloc_run nbytes l A s : let nunits := (nbytes + 15) / 16 + 1 in
  heap_state l A s -> 0 <= nbytes < 2 ^ 30 -> (2 * length l + 4 <= fuel)%nat ->
  (exists s', malloc nbytes s = URet 0 s' /\ heap_state l A s' /\ (forall b, b ∈ l -> snd b < nunits) /\
    (forall x, ~ in_free l x -> u_mem s' x = u_mem s x)) \/
  (exists p l' s', malloc nbytes s = URet p s' /\ heap_state l' ((p - 16, nunits) :: A) s' /\ nbytes <= 16 * nunits - 16 /\
    16 * (units l' + nunits - units l) = wbrk (u_world s') - wbrk (u_world s) /\ wbrk (u_world s) <= wbrk (u_world s') /\
    (forall x, ~ in_free l x -> x < wbrk (u_world s) -> u_mem s' x = u_mem s x) /\
    (forall x, p - 16 <= x < p - 16 + 16 * nunits -> in_free l x \/ wbrk (u_world s) <= x)).
Proof.
  intros nunits Hs Hn Hfuel. destruct (malloc_init_run l A s Hs) as (s0 & E0 & H & Ew & Hm0). rewrite <- Ew in H. assert (0 < nunits < 2 ^ 27) as Hnu by (unfold nunits; zmod).
  assert (malloc nbytes s = malloc_loop fuel nunits (u_freep s0) (ptr_of (u_mem s0) (u_freep s0)) s0) as ->.
  { unfold malloc. replace (nbytes + HDR - 1) with (nbytes + 15) by (unfold HDR; lia). change HDR with 16. rewrite u32_small by zmod. by rewrite (ubind_run _ _ _ _ _ E0). }
  destruct (fits_or_not l nunits) as [Hfit|Hno].
  - right. destruct (malloc_fit l A _ s0 nunits fuel H Hfit ltac:(lia) ltac:(lia)) as (r & l' & s' & E & Hh & Hu & Hw & Hfr & Hblk).
    exists (r + 16), l', s'. rewrite E, Hw, Ew. replace (r + 16 - 16) with r by lia. split_and!; [done | left; by rewrite Hw | unfold nunits; zmod | lia | lia | |].
    + intros x Hx _. by rewrite Hfr, Hm0.
    + intros x Hx. left. by apply Hblk.
  - replace fuel with (length l + S (fuel - length l - 1))%nat by lia. rewrite (malloc_nofit l A _ s0 nunits _ H Hno) by lia.
    destruct (morecore_run l A s0 nunits H Hnu ltac:(lia)) as [(w' & E & Hw)|(l1 & s1 & E & Hp & H1 & Hu & Hle & Hlen & Hfr & Hfit & Hcov)]; rewrite (ubind_run _ _ _ _ _ E).
    + left. exists (set_world w' s0). split_and!; [done | | done | done]. left. cbn [u_world set_world]. rewrite Hw. destruct H. by split.
    + right. rewrite (proj2 (Z.eqb_neq _ _) Hp). unfold s_ptr. autorewrite with ustep.
      destruct (malloc_fit l1 A _ s1 nunits (fuel - length l - 1) H1 Hfit ltac:(lia) ltac:(lia)) as (r & l' & s' & E' & Hh & Hu' & Hw' & Hfr' & Hblk).
      exists (r + 16), l', s'. rewrite E', Hw'. replace (r + 16 - 16) with r by lia. rewrite Ew in *. split_and!; [done | left; by rewrite Hw' | unfold nunits; zmod | lia | lia | |].
      * intros x Hx Hxb. rewrite Hfr', Hfr by (done || intros [?|?]%Hcov; (done || lia)). by apply Hm0.
      * intros x Hx. by apply Hcov, Hblk.
Qed.

(** C16: malloc returns a block of at least the requested size that overlaps no other
    allocated block, taken from the free blocks or from memory sbrk added, keeps the
    circular free list well formed and writes nothing outside free memory; it returns
    null only when no free block is large enough (why more memory could not be had is
    not stated), and then the heap is as before. *)
Theorem malloc_correct nbytes l A s : let nunits := (nbytes + 15) / 16 + 1 in
  heap_state l A s -> 0 <= nbytes < 2 ^ 30 -> (2 * length l + 4 <= fuel)%nat ->
  (exists s', malloc nbytes s = URet 0 s' /\ heap_state l A s' /\ (forall b, b ∈ l -> snd b < nunits) /\
    (forall x, ~ in_free l x -> u_mem s' x = u_mem s x)) \/
  (exists p l' s', malloc nbytes s = URet p s' /\ heap_state l' ((p - 16, nunits) :: A) s' /\ nbytes <= 16 * nunits - 16 /\
    16 * (units l' + nunits - units l) = wbrk (u_world s') - wbrk (u_world s) /\ wbrk (u_world s) <= wbrk (u_world s') /\
    (forall x, ~ in_free l x -> x < wbrk (u_world s) -> u_mem s' x = u_mem s x) /\
    (forall x, p - 16 <= x < p - 16 + 16 * nunits -> in_free l x \/ wbrk (u_world s) <= x)).
Proof. apply malloc_run. Qed.

(** C17: free of an allocated block gives its units back to the free list, joined with
    its neighbours so that no two free blocks are adjacent, keeps the heap well formed,
    and writes nothing outside the block's header and the blocks that were free. *)
Theorem free_correct p n l A1 A2 s : heap_state l (A1 ++ (p - 16, n) :: A2) s -> (length l < fuel)%nat ->
  exists l' s', free p s = URet tt s' /\ heap_state l' (A1 ++ A2) s' /\ units l' = units l + n /\ u_world s' = u_world s /\
    (forall x, ~ in_free l x -> x < p - 16 \/ p <= x -> u_mem s' x = u_mem s x).
Proof.
  intros [H|(_ & _ & E & _)] Hfuel; [|by destruct A1]. destruct (free_run l A1 A2 (p - 16) n _ s H ltac:(lia)) as (l' & m' & q & E & Hh & Hu & _ & Hfr & _).
  replace (p - 16 + 16) with p in * by lia. exists l', (set_freep q (set_mem m' s)).
  split; [exact E|]. split; [by left|]. split; [exact Hu|]. split; [reflexivity|]. intros x Hx Hp. apply Hfr; [exact Hx | lia].
Qed.
End malloc.

(** ** A kernel with nothing but [sbrk] *)

#[local] Instance brk_kernel : Kernel := {
  world := Z;
  serve r w := match r with
               | SYS_sbrk n => if w + n <=? 2 ^ 34 then Some (w, [], w + n) else Some (2 ^ 64 - 1, [], w)
               | _ => Some (2 ^ 64 - 1, [], w)
               end
}.

#[local] Instance brk_kernel_brk : Brk brk_kernel.
Proof.
  refine {| wbrk := fun w : @world brk_kernel => w |}. intros n w Hn. cbn. destruct (Z.leb_spec (w + n) (2 ^ 34)); do 3 eexists; (split; [reflexivity|]); [by right | by left].
Defined.

#[local] Instance layout4096 : Ulayout := {| at_base := 4096; at_stdin_buf := 5000; at_stdout_buf := 7000 |}.
#[local] Instance fuel20 : Fuel := 20%nat.

Definition file0 : FILE := Mk_FILE 0 0 0 0 0 0 false false 0 0 0 0 0.
Definition start : ustate := Mk_ustate (K := brk_kernel) (fun _ => 0) 16384 0 file0 file0.

Lemma start_ready : heap_state [] [] start.
Proof. right. vm_compute. repeat split; discriminate. Qed.

(** The result of a run and the end of the process. *)
Definition outcome (r : ures (K := brk_kernel) Z) : option (Z * Z) := match r with URet a s => Some (a, u_world s) | _ => None end.

Lemma malloc_correct_witness : exists l s', malloc 100 start = URet 81808 s' /\ heap_state l [(81792, 8)] s' /\ units l = 4088.
Proof.
  assert (outcome (malloc 100 start) = Some (81808, 81920)) as Ho by (vm_compute; reflexivity).
  destruct (malloc_correct 100 [] [] start start_ready) as [(s' & E & _)|(p & l' & s' & E & Hh & _ & Hu & _)].
  - lia.
  - apply Nat.leb_le. reflexivity.
  - rewrite E in Ho. discriminate Ho.
  - rewrite E in Ho. injection Ho as -> Hw. exists l', s'. split; [exact E|]. split; [exact Hh|].
    change (wbrk (u_world s')) with (u_world s') in Hu. rewrite Hw in Hu.
    change ((100 + 15) / 16 + 1) with 8 in Hu. change (wbrk (u_world start)) with 16384 in Hu. change (units []) with 0 in Hu. lia.
Defined.

(** One block allocated, nothing free. *)
Definition one_block : ustate :=
  Mk_ustate (K := brk_kernel) (set_size 8192 8 (set_size 4096 0 (set_ptr 4096 4096 (fun _ => 0)))) 16384 4096 file0 file0.

Lemma free_correct_witness : exists l s', free 8208 one_block = URet tt s' /\ heap_state l [] s' /\ units l = 8.
Proof.
  destruct (free_correct 8208 8 [] [] [] one_block) as (l' & s' & E & Hh & Hu & _).
  - left. split; [reflexivity | vm_compute; repeat split | done | | | | | repeat constructor | by left].
    + intros b ->%list_elem_of_singleton. vm_compute. discriminate.
    + vm_compute. split; discriminate.
    + intros b ->%list_elem_of_singleton. vm_compute. split; [discriminate | split; reflexivity].
    + intros b c Hb. by apply elem_of_nil in Hb.
  - apply Nat.ltb_lt. reflexivity.
  - exists l', s'. split; [exact E|]. split; [exact Hh | exact Hu].
Defined.
