(* ===== verification/Shell.v ===== *)
(** * The shell ([utils/sh.c])

    A command line is read into a static buffer and split in place: [argv] and
    [eargv] of the command point into the buffer, and [nulterminate] ends each word
    with a NUL.  The command is allocated with [malloc]. *)

From S2P Require Import Prelude Text User Stdio Malloc.

#[local] Open Scope user_scope.

Definition MAXARGS : Z := 10.

(** [struct execcmd]: [type] at 0, [argv] at 8, [eargv] at 88. *)
Definition EXECCMD : Z := 168.
Definition argv_at (cmd i : Z) : Z := cmd + 8 + 8 * i.
Definition eargv_at (cmd i : Z) : Z := cmd + 88 + 8 * i.

(** [" \t\r\n\v"] and ["<|>&;()"]. *)
Definition whitespace : list Z := [32; 9; 13; 10; 11].
Definition symbols : list Z := [60; 124; 62; 38; 59; 40; 41].

(** [strchr] on a literal, as a condition: the literal is at address 1 of a memory of
    its own.  The NUL that ends it counts. *)
Definition strchr_lit (l : list Z) (c : Z) : bool :=
  match strchr (S (length l)) (fun x => lit l (x - 1)) 1 c with Some p => negb (p =? 0) | None => false end.

Section sh.
Context {K : Kernel} {F : Fuel} {L : Ulayout}.

(** The static buffer of [main]. *)
Context (at_buf : Z).

Definition newline : list Z := [10].

Definition panic {A} (s : list Z) : U A := printf (lit (chars "%s" ++ newline)) [Vstr s] ;; exit 1.

Definition getcmd (buf nbuf : Z) : U Z :=
  write_lit 2 (chars "$ ") ;;
  on_mem (fun m => memset m buf 0 nbuf) ;;
  gets_s buf nbuf ;;
  c <- load8 buf ;;
  uret (if c =? 0 then -1 else 0).

(** ** Tokens *)

(** [while (s < es && strchr(whitespace, *s)) s++]. *)
Fixpoint skip_white (n : nat) (m : memory) (s es : Z) : Z :=
  match n with
  | O => s
  | S n' => if (s <? es) && strchr_lit whitespace (m s) then skip_white n' m (s + 1) es else s
  end.

(** At most [es - s] steps. *)
Definition skip (m : memory) (s es : Z) : Z := skip_white (Z.to_nat (es - s)) m s es.

(** [while (s < es && !strchr(whitespace, *s) && !strchr(symbols, *s)) s++]. *)
Fixpoint skip_word (n : nat) (m : memory) (s es : Z) : Z :=
  match n with
  | O => s
  | S n' => if (s <? es) && negb (strchr_lit whitespace (m s)) && negb (strchr_lit symbols (m s)) then skip_word n' m (s + 1) es else s
  end.

(** The result and the new value of [*ps]. *)
Definition peek (m : memory) (s es : Z) (toks : list Z) : bool * Z :=
  let s := skip m s es in (negb (m s =? 0) && strchr_lit toks (m s), s).

(** The token, [*q], [*eq] and the new value of [*ps]. *)
Definition gettoken (m : memory) (s es : Z) : Z * Z * Z * Z :=
  let s := skip m s es in
  let q := s in
  let c := m s in
  let '(ret, s) :=
    if c =? 0 then (c, s)
    else if (c =? ch "|") || (c =? ch "(") || (c =? ch ")") || (c =? ch ";") || (c =? ch "&") || (c =? ch "<") then (c, s + 1)
    else if c =? ch ">" then if m (s + 1) =? ch ">" then (ch "+", s + 2) else (c, s + 1)
    else (ch "a", skip_word (Z.to_nat (es - s)) m s es) in
  (ret, q, s, skip m s es).

(** ** Commands *)

Definition execcmd : U Z :=
  cmd <- malloc EXECCMD ;;
  if cmd =? 0 then uundef "null pointer"
  else on_mem (fun m => memset m cmd 0 EXECCMD) ;; uret cmd.

Definition put64 (a v : Z) : U unit := on_mem (fun m => store64 m a v).

(** The loop of [parseexec]: [argc] and [*ps]; it ends after [MAXARGS] words at the latest. *)
Fixpoint parse_words (n : nat) (cmd s es argc : Z) : U (Z * Z) :=
  match n with
  | O => ustuck
  | S n' =>
      m <- uget u_mem ;;
      let '(p, s) := peek m s es (chars "|)&;") in
      if p then uret (argc, s)
      else
        let '(tok, q, eq, s) := gettoken m s es in
        if tok =? 0 then uret (argc, s)
        else if negb (tok =? ch "a") then panic (chars "syntax")
        else
          put64 (argv_at cmd argc) q ;;
          put64 (eargv_at cmd argc) eq ;;
          if MAXARGS <=? argc + 1 then panic (chars "too many args")
          else parse_words n' cmd s es (argc + 1)
  end.

Definition parseexec (s es : Z) : U (Z * Z) :=
  cmd <- execcmd ;;
  r <- parse_words (Z.to_nat MAXARGS + 1) cmd s es 0 ;;
  put64 (argv_at cmd (fst r)) 0 ;;
  put64 (eargv_at cmd (fst r)) 0 ;;
  uret (cmd, snd r).

(** [for (int i = 0; ecmd->argv[i]; ++i) *ecmd->eargv[i] = 0]. *)
Fixpoint nul_loop (n : nat) (cmd i : Z) : U unit :=
  match n with
  | O => ustuck
  | S n' =>
      m <- uget u_mem ;;
      if load64 m (argv_at cmd i) =? 0 then uret tt
      else put8 (load64 m (eargv_at cmd i)) 0 ;; nul_loop n' cmd (i + 1)
  end.

Definition nulterminate (cmd : Z) : U Z := nul_loop (Z.to_nat MAXARGS + 1) cmd 0 ;; uret cmd.

Definition parsecmd (s : Z) : U Z :=
  n <- of_mem (fun m => strlen fuel m s) ;;
  let es := s + n in
  r <- parseexec s es ;;
  let '(cmd, s) := r in
  m <- uget u_mem ;;
  let '(_, s) := peek m s es [] in
  (if negb (s =? es) then printf (lit (chars "leftovers: %s" ++ newline)) [Vint s] ;; uret tt else uret tt) ;;
  nulterminate cmd.

Definition runcmd {A} (cmd : Z) : U A :=
  if cmd =? 0 then exit 1
  else
    m <- uget u_mem ;;
    let a0 := load64 m (argv_at cmd 0) in
    if a0 =? 0 then exit 1
    else
      execve a0 (argv_at cmd 0) 0 ;;
      printf (lit (chars "exec %s failed" ++ newline)) [Vint a0] ;;
      exit 0.

(** ** [main] *)

Fixpoint open_loop (n : nat) : U unit :=
  match n with
  | O => ustuck
  | S n' =>
      fd <- open_lit (chars "console") O_RDWR ;;
      if 0 <=? fd then if 3 <=? fd then close fd ;; uret tt else open_loop n' else uret tt
  end.

Fixpoint cmd_loop (n : nat) : U unit :=
  match n with
  | O => ustuck
  | S n' =>
      r <- getcmd at_buf 100 ;;
      if 0 <=? r then
        pid <- fork ;;
        (if pid =? 0 then cmd <- parsecmd at_buf ;; runcmd cmd else uret tt) ;;
        wait 0 ;;
        cmd_loop n'
      else uret tt
  end.

Definition main : U unit := open_loop fuel ;; cmd_loop fuel.
End sh.
