(* ===== verification/ShellSpec.v ===== *)
(** * Properties of the shell

    A line of words separated by white space makes the child process execute the
    first word with all of them as arguments. *)

From S2P Require Import Prelude Text User Stdio Malloc MallocSpec Shell.

#[local] Open Scope user_scope.

(** ** Text in memory *)

(** The bytes at [s] are [l]. *)
Definition text (m : memory) (s : Z) (l : list Z) : Prop := forall i c, l !! i = Some c -> m (s + Z.of_nat i) = c.

Lemma text_cons m s c l : text m s (c :: l) <-> m s = c /\ text m (s + 1) l.
Proof.
  split.
  - intros H. split; [by rewrite <- (H 0%nat c eq_refl), Z.add_0_r|]. intros i d Hi. rewrite <- (H (S i) d Hi). f_equal. lia.
  - intros [H1 H2] [|i] d Hi; [injection Hi as <-; by rewrite Z.add_0_r|]. rewrite <- (H2 i d Hi). f_equal. lia.
Qed.

Lemma text_app m s l1 l2 : text m s (l1 ++ l2) <-> text m s l1 /\ text m (s + Z.of_nat (length l1)) l2.
Proof.
  revert s. induction l1 as [|c l1 IH]; intros s; cbn [app length].
  - rewrite Z.add_0_r. split; [intros H; split; [intros i d Hi; done | done] | by intros [_ H]].
  - rewrite !text_cons, IH. replace (s + 1 + Z.of_nat (length l1)) with (s + Z.of_nat (S (length l1))) by lia. tauto.
Qed.

Lemma text_ext m m' s l : (forall x, s <= x < s + Z.of_nat (length l) -> m' x = m x) -> text m s l -> text m' s l.
Proof. intros H T i c Hi. pose proof (lookup_lt_Some _ _ _ Hi). rewrite H by lia. by apply T. Qed.

(** ** Characters *)

Lemma strchr_S f m s c : strchr (S f) m s c = if m s =? 0 then Some (if c =? 0 then s else 0) else if m s =? u8 c then Some s else strchr f m (s + 1) c.
Proof. reflexivity. Qed.

Lemma strchr_lit_gen l : forall pre c, 0 ∉ l -> in8 c ->
  match strchr (S (length l)) (fun x => lit (pre ++ l) (x - 1)) (1 + Z.of_nat (length pre)) c with Some p => negb (p =? 0) | None => false end
  = (c =? 0) || existsb (Z.eqb c) l.
Proof.
  induction l as [|x l IH]; intros pre c H0 Hc; rewrite strchr_S; cbn [length existsb].
  - unfold lit at 1. rewrite nth_overflow by (rewrite app_nil_r; lia). cbn [Z.eqb]. rewrite orb_false_r. destruct (Z.eqb_spec c 0); [|done].
    by rewrite (proj2 (Z.eqb_neq (1 + Z.of_nat (length pre)) 0)) by lia.
  - assert (lit (pre ++ x :: l) (1 + Z.of_nat (length pre) - 1) = x) as E.
    { unfold lit. replace (Z.to_nat (1 + Z.of_nat (length pre) - 1)) with (length pre) by lia. by rewrite nth_middle. }
    rewrite E. rewrite (proj2 (Z.eqb_neq x 0)) by (intros ->; apply H0; by left). unfold u8. rewrite (Z.mod_small c) by done. rewrite (Z.eqb_sym c x). destruct (Z.eqb_spec x c) as [->|Hne].
    + rewrite (proj2 (Z.eqb_neq (1 + Z.of_nat (length pre)) 0)) by lia. by rewrite orb_true_r.
    + cbn [orb]. rewrite <- (IH (pre ++ [x]) c) by (done || (intros Hin; apply H0; by right)). rewrite length_app, <- app_assoc. cbn [app length].
      by replace (1 + Z.of_nat (length pre + 1)) with (1 + Z.of_nat (length pre) + 1) by lia.
Qed.

Lemma strchr_lit_spec l c : 0 ∉ l -> in8 c -> strchr_lit l c = (c =? 0) || existsb (Z.eqb c) l.
Proof. intros H Hc. exact (strchr_lit_gen l [] c H Hc). Qed.

Definition white (c : Z) : Prop := c ∈ whitespace.
Definition wordc (c : Z) : Prop := 0 < c < 256 /\ (c ∉ whitespace) /\ (c ∉ symbols).

Lemma existsb_in l c : existsb (Z.eqb c) l = bool_decide (c ∈ l).
Proof.
  induction l as [|x l IH]; [done|]. cbn. rewrite IH. destruct (Z.eqb_spec c x) as [->|Hne]; cbn.
  - symmetry. apply bool_decide_eq_true_2. by left.
  - apply bool_decide_ext. split; [by right|]. intros [?|?]%elem_of_cons; done.
Qed.

Lemma white_chr c : white c -> strchr_lit whitespace c = true /\ c <> 0.
Proof.
  intros H. assert (in8 c /\ c <> 0) as [Hc H0]. { revert c H. apply (proj1 (list.Forall_forall (fun c => in8 c /\ c <> 0) whitespace)). unfold whitespace, in8. repeat constructor; lia. }
  split; [|done]. rewrite strchr_lit_spec, existsb_in, (bool_decide_eq_true_2 _ H); [apply orb_true_r | | done].
  unfold whitespace. rewrite !not_elem_of_cons. split_and!; try done. apply not_elem_of_nil.
Qed.

Lemma word_chr c : wordc c -> strchr_lit whitespace c = false /\ strchr_lit symbols c = false.
Proof.
  intros (H & Hw & Hs). assert (in8 c) as Hc by (unfold in8; lia).
  rewrite !strchr_lit_spec, !existsb_in, !bool_decide_eq_false_2, (proj2 (Z.eqb_neq c 0)) by (done || lia || (unfold whitespace, symbols; rewrite !not_elem_of_cons; split_and!; (done || apply not_elem_of_nil))). done.
Qed.

(** ** Skipping *)

(** A character at which the text after a blank or a word goes on: [stop] says that the loop stops there. *)
Lemma skip_white_run m g : forall n s es, Forall white g -> text m s g -> (length g <= n)%nat -> s + Z.of_nat (length g) <= es ->
  (s + Z.of_nat (length g) = es \/ strchr_lit whitespace (m (s + Z.of_nat (length g))) = false) ->
  skip_white n m s es = s + Z.of_nat (length g).
Proof.
  induction g as [|c g IH]; intros n s es Hg Ht Hn He Hstop.
  - cbn in *. rewrite Z.add_0_r in *. destruct n; [done|]. cbn. destruct Hstop as [->|Hs]; [by rewrite Z.ltb_irrefl|]. rewrite Hs. by rewrite andb_false_r.
  - inversion_clear Hg as [|? ? Hc Hg']. apply text_cons in Ht as [E Ht]. destruct n as [|n]; [cbn in Hn; lia|]. cbn [length] in *. cbn [skip_white].
    rewrite (proj2 (Z.ltb_lt s es)) by lia. rewrite E, (proj1 (white_chr c Hc)). cbn [andb].
    replace (s + Z.of_nat (S (length g))) with (s + 1 + Z.of_nat (length g)) in * by lia. apply IH; (done || lia).
Qed.

Lemma skip_run m g s es : Forall white g -> text m s g -> s + Z.of_nat (length g) <= es ->
  (s + Z.of_nat (length g) = es \/ strchr_lit whitespace (m (s + Z.of_nat (length g))) = false) -> skip m s es = s + Z.of_nat (length g).
Proof. intros Hg Ht He Hs. apply skip_white_run; (done || lia). Qed.

Lemma skip_word_run m w : forall n s es, Forall wordc w -> text m s w -> (length w <= n)%nat -> s + Z.of_nat (length w) <= es ->
  (s + Z.of_nat (length w) = es \/ strchr_lit whitespace (m (s + Z.of_nat (length w))) = true) ->
  skip_word n m s es = s + Z.of_nat (length w).
Proof.
  induction w as [|c w IH]; intros n s es Hw Ht Hn He Hstop.
  - cbn in *. rewrite Z.add_0_r in *. destruct n; [done|]. cbn. destruct Hstop as [->|Hs]; [by rewrite Z.ltb_irrefl|]. rewrite Hs. cbn. by rewrite andb_false_r.
  - inversion_clear Hw as [|? ? Hc Hw']. apply text_cons in Ht as [E Ht]. destruct n as [|n]; [cbn in Hn; lia|]. cbn [length] in *. cbn [skip_word].
    destruct (word_chr c Hc) as [W1 W2]. rewrite (proj2 (Z.ltb_lt s es)) by lia. rewrite E, W1, W2. cbn [andb negb].
    replace (s + Z.of_nat (S (length w))) with (s + 1 + Z.of_nat (length w)) in * by lia. apply IH; (done || lia).
Qed.

(** ** Lines *)

(** Words, each with the blanks before it, and the blanks at the end. *)
Fixpoint render (items : list (list Z * list Z)) (trail : list Z) : list Z :=
  match items with [] => trail | (g, w) :: r => g ++ w ++ render r trail end.

Definition item_ok (i : list Z * list Z) : Prop := Forall white (fst i) /\ Forall wordc (snd i) /\ snd i <> [].

Definition line_ok (items : list (list Z * list Z)) (trail : list Z) : Prop :=
  Forall item_ok items /\ Forall (fun i => fst i <> []) (tail items) /\ Forall white trail.

(** What follows a word: the end of the line or a blank. *)
Lemma after_word items trail c l : Forall item_ok items -> Forall (fun i => fst i <> []) items -> Forall white trail -> render items trail = c :: l -> white c.
Proof.
  intros Hi Hg Ht E. destruct items as [|[g w] r]; cbn in E; [subst; by inversion Ht|]. inversion_clear Hi as [|? ? (H1 & _) _]. inversion_clear Hg as [|? ? H2 _].
  destruct g as [|d g]; [done|]. injection E as <- _. by inversion H1.
Qed.

Lemma text_head m s l es : text m s l -> es = s + Z.of_nat (length l) -> l = [] /\ s = es \/ exists c l', l = c :: l' /\ m s = c.
Proof. destruct l as [|c l]; intros H E; [left; cbn in E; split; [done | lia]|]. right. exists c, l. apply text_cons in H as [H _]. done. Qed.

Section parse.
Context (m : memory) (s es : Z) (g w : list Z) (r : list (list Z * list Z)) (trail : list Z).
Hypothesis Hg : Forall white g.
Hypothesis Hw : Forall wordc w.
Hypothesis Hw0 : w <> [].
Hypothesis Hr : Forall item_ok r.
Hypothesis Hrg : Forall (fun i => fst i <> []) r.
Hypothesis Htr : Forall white trail.
Hypothesis Ht : text m s (g ++ w ++ render r trail).
Hypothesis He : es = s + Z.of_nat (length (g ++ w ++ render r trail)).

Let q := s + Z.of_nat (length g).
Let eq := q + Z.of_nat (length w).

Lemma word_text : text m s g /\ text m q w /\ text m eq (render r trail) /\ es = eq + Z.of_nat (length (render r trail)).
Proof. apply text_app in Ht as [T1 T2]. apply text_app in T2 as [T2 T3]. split_and!; try done. rewrite He, !length_app. unfold eq, q. lia. Qed.

Lemma word_head : exists c, wordc c /\ m q = c.
Proof. destruct word_text as (_ & T & _). destruct w as [|c w']; [done|]. inversion_clear Hw. apply text_cons in T as [T _]. by exists c. Qed.

Lemma skip_gap : skip m s es = q.
Proof.
  destruct word_text as (T & _ & _ & E), word_head as (c & Hc & Ec). unfold q in *. apply skip_run; [done | done | unfold eq, q in E; lia |]. right. rewrite Ec. apply (word_chr c Hc).
Qed.

Lemma word_not_symbol c : wordc c -> (c =? 0) = false /\ (c =? ch ">") = false /\
  ((c =? ch "|") || (c =? ch "(") || (c =? ch ")") || (c =? ch ";") || (c =? ch "&") || (c =? ch "<")) = false.
Proof.
  intros (H & _ & Hs). unfold symbols in Hs. rewrite !not_elem_of_cons in Hs. destruct Hs as (? & ? & ? & ? & ? & ? & ? & _).
  change (ch "|") with 124. change (ch "(") with 40. change (ch ")") with 41. change (ch ";") with 59. change (ch "&") with 38. change (ch "<") with 60. change (ch ">") with 62.
  rewrite !(proj2 (Z.eqb_neq _ _)) by (done || lia). done.
Qed.

Lemma peek_word : peek m s es (chars "|)&;") = (false, q).
Proof.
  unfold peek. rewrite skip_gap. destruct word_head as (c & Hc & ->). f_equal. apply andb_false_intro2. destruct Hc as (H & _ & Hs).
  change (chars "|)&;") with [124; 41; 38; 59]. rewrite strchr_lit_spec, (proj2 (Z.eqb_neq c 0)); [|lia | | unfold in8; lia].
  - unfold symbols in Hs. rewrite !not_elem_of_cons in Hs. destruct Hs as (? & ? & ? & ? & ? & ? & ? & _). cbn [existsb orb]. by rewrite !(proj2 (Z.eqb_neq c _)) by done.
  - rewrite !not_elem_of_cons. split_and!; try done. apply not_elem_of_nil.
Qed.

Lemma gettoken_word : gettoken m s es = (ch "a", q, eq, skip m eq es).
Proof.
  unfold gettoken. rewrite skip_gap. destruct word_head as (c & Hc & Ec). rewrite Ec. destruct (word_not_symbol c Hc) as (H1 & H2 & H3). rewrite H1, H3, H2.
  destruct word_text as (_ & T2 & T3 & E). rewrite (skip_word_run m w (Z.to_nat (es - q)) q es Hw T2); [done | unfold eq in E; lia | fold eq; lia |]. fold eq.
  destruct (text_head _ _ _ _ T3 E) as [[_ ->]|(d & l' & Er & Ed)]; [by left|]. right. rewrite Ed. apply white_chr. by apply (after_word r trail d l').
Qed.

(** The blanks after the word are skipped too. *)
Lemma skip_after : skip m eq es = match r with [] => es | (g', _) :: _ => eq + Z.of_nat (length g') end.
Proof.
  destruct word_text as (_ & _ & T3 & E). destruct r as [|[g' w'] r'].
  - cbn in *. rewrite E. apply skip_run; [done | done | lia | by left].
  - inversion_clear Hr as [|? ? (H1 & H2 & H3) _]. cbn [fst snd render] in *. apply text_app in T3 as [T3 T4]. apply skip_run; [done | done | rewrite length_app in E; lia |].
    right. destruct w' as [|c w']; [done|]. inversion_clear H2. apply text_app in T4 as [T4 _]. apply text_cons in T4 as [-> _]. by apply word_chr.
Qed.
End parse.

(** The start and the end of each word. *)
Fixpoint positions (s : Z) (items : list (list Z * list Z)) : list (Z * Z) :=
  match items with
  | [] => []
  | (g, w) :: r => let q := s + Z.of_nat (length g) in (q, q + Z.of_nat (length w)) :: positions (q + Z.of_nat (length w)) r
  end.

(** The entries of [argv] and [eargv] from [k] on. *)
Definition stored (m : memory) (cmd k : Z) (ps : list (Z * Z)) : Prop :=
  forall i q e, ps !! i = Some (q, e) -> load64 m (argv_at cmd (k + Z.of_nat i)) = q /\ load64 m (eargv_at cmd (k + Z.of_nat i)) = e.

(** [x] is not in the entries from [k] on. *)
Definition outside (cmd k x : Z) : Prop := x < argv_at cmd k \/ cmd + 88 <= x < eargv_at cmd k \/ cmd + 168 <= x.

Section words.
Context {K : Kernel} {F : Fuel}.
Context (cmd es : Z) (trail : list Z).
Hypothesis Htr : Forall white trail.
Hypothesis Hes : 0 <= es < 2 ^ 64.

Lemma store_entry m argc q e : 0 <= argc < 10 -> 0 <= q < 2 ^ 64 -> 0 <= e < 2 ^ 64 ->
  let m' := store64 (store64 m (argv_at cmd argc) q) (eargv_at cmd argc) e in
  load64 m' (argv_at cmd argc) = q /\ load64 m' (eargv_at cmd argc) = e /\ (forall x, outside cmd argc x -> m' x = m x).
Proof.
  intros Ha Hq He m'. unfold m', argv_at, eargv_at in *. split_and!.
  - rewrite load64_store64_ne by lia. rewrite load64_store64. by apply u64_small.
  - rewrite load64_store64. by apply u64_small.
  - intros x Hx. unfold outside, argv_at, eargv_at in Hx. unfold store64. rewrite !store_bytes_out by (rewrite length_le_bytes; lia). done.
Qed.

(** The blanks before a word are skipped by [peek] first. *)
Lemma skip_stop m : forall n s, es - s <= Z.of_nat n -> es <= skip_white n m s es \/ strchr_lit whitespace (m (skip_white n m s es)) = false.
Proof.
  induction n as [|n IH]; intros s Hn; cbn [skip_white]; [left; lia|]. destruct (Z.ltb_spec s es) as [Hlt|Hge]; cbn [andb]; [|by left].
  destruct (strchr_lit whitespace (m s)) eqn:E; [|by right]. apply IH. lia.
Qed.

Lemma skip_idem m s : skip m (skip m s es) es = skip m s es.
Proof.
  pose proof (skip_stop m (Z.to_nat (es - s)) s ltac:(lia)) as H. fold (skip m s es) in H. set (t := skip m s es) in *. unfold skip.
  destruct (Z.to_nat (es - t)) as [|n] eqn:E; [done|]. cbn [skip_white]. destruct H as [H|H]; [by rewrite (proj2 (Z.ltb_ge t es)) by lia|]. rewrite H. by rewrite andb_false_r.
Qed.

Lemma parse_words_skip n st s argc : parse_words n cmd (skip (u_mem st) s es) es argc st = parse_words n cmd s es argc st.
Proof.
  destruct n as [|n]; [done|]. cbn [parse_words]. autorewrite with ustep. unfold peek. rewrite skip_idem. done.
Qed.

Lemma parse_words_run : forall items n st s argc, Forall item_ok items -> Forall (fun i => fst i <> []) (tail items) ->
  text (u_mem st) s (render items trail) -> es = s + Z.of_nat (length (render items trail)) -> u_mem st es = 0 -> 0 <= s -> 0 <= argc ->
  es < cmd \/ cmd + 168 <= s -> argc + Z.of_nat (length items) <= 9 -> (length items < n)%nat ->
  exists m', parse_words n cmd s es argc st = URet (argc + Z.of_nat (length items), es) (set_mem m' st) /\
    stored m' cmd argc (positions s items) /\ (forall x, outside cmd argc x -> m' x = u_mem st x).
Proof.
  induction items as [|[g w] r IH]; intros n st s argc Hi Hg Ht He Hn0 Hs Ha Hd Hc Hn; (destruct n as [|n]; [cbn in Hn; lia|]); cbn [parse_words]; autorewrite with ustep.
  - cbn [render] in *. assert (skip (u_mem st) s es = es) as E1 by (rewrite He; apply skip_run; [done | done | lia | by left]).
    assert (skip (u_mem st) es es = es) as E2 by (unfold skip; by rewrite Z.sub_diag).
    unfold peek. rewrite E1, Hn0. cbn [Z.eqb negb andb]. unfold gettoken. rewrite E2, Hn0. cbn [Z.eqb]. rewrite E2. exists (u_mem st). split_and!.
    + cbn [length Z.of_nat]. rewrite Z.add_0_r. unfold uret. by destruct st.
    + intros i q e Hi'. done.
    + done.
  - inversion_clear Hi as [|? ? (H1 & H2 & H3) H4]. cbn [fst snd tail render length] in *.
    rewrite (peek_word _ s es g w r trail) by done. cbv beta iota zeta.
    set (q := s + Z.of_nat (length g)). set (e := q + Z.of_nat (length w)).
    assert (text (u_mem st) q ([] ++ w ++ render r trail)) as Ht' by (apply text_app in Ht as [_ Ht]; exact Ht).
    assert (es = q + Z.of_nat (length ([] ++ w ++ render r trail))) as He' by (rewrite He, length_app; unfold q; cbn [app]; lia).
    rewrite (gettoken_word _ q es [] w r trail) by (done || constructor). cbn [length Z.of_nat]. rewrite Z.add_0_r. fold e. cbv beta iota zeta.
    change (ch "a" =? 0) with false. change (negb (ch "a" =? ch "a")) with false. unfold put64. autorewrite with ustep. cbn [u_mem set_mem].
    assert (e <= es) as Hee by (rewrite He', !length_app; unfold e; cbn [app length]; lia). unfold MAXARGS. rewrite (proj2 (Z.leb_gt 10 (argc + 1))) by lia.
    destruct (store_entry (u_mem st) argc q e) as (L1 & L2 & L3); [lia | unfold q; lia | unfold e, q in *; lia |]. set (m1 := store64 (store64 _ _ _) _ _) in *.
    set (st1 := set_mem m1 (set_mem (store64 (u_mem st) (argv_at cmd argc) q) st)).
    assert (forall z, s <= z <= es -> m1 z = u_mem st z) as Hkeep by (intros z Hz; apply L3; unfold outside, argv_at, eargv_at; lia).
    assert (text m1 q ([] ++ w ++ render r trail)) as Ht1.
    { eapply text_ext; [|exact Ht']. intros z Hz. apply Hkeep. unfold q in *. lia. }
    assert (skip (u_mem st) e es = skip m1 e es) as ->.
    { pose proof (skip_after (u_mem st) q es [] w r trail) as A. pose proof (skip_after m1 q es [] w r trail) as B. cbn [length Z.of_nat] in A, B. rewrite Z.add_0_r in A, B. fold e in A, B.
      rewrite A, B by done. done. }
    change m1 with (u_mem st1) at 1. rewrite parse_words_skip.
    destruct (IH n st1 e (argc + 1)) as (m' & E & S' & F'); cbn [u_mem st1 set_mem]; try done; try lia.
    { by destruct Hg as [|? ? _ Hg]. }
    { apply text_app in Ht1 as [_ Ht1]. apply text_app in Ht1 as [_ Ht1]. cbn [length Z.of_nat] in Ht1. by rewrite Z.add_0_r in Ht1. }
    { rewrite He'. cbn [app]. rewrite length_app. unfold e. lia. }
    { rewrite Hkeep by lia. done. }
    exists m'. rewrite E. split_and!.
    + f_equal. f_equal. lia.
    + intros [|i] q' e' Hi'; cbn [positions] in Hi'.
      * injection Hi' as <- <-. rewrite Z.add_0_r. fold q e. split; [rewrite <- L1 | rewrite <- L2]; apply load64_ext; intros z Hz; apply F'; unfold outside, argv_at, eargv_at in *; lia.
      * change (positions e r !! i = Some (q', e')) in Hi'. replace (argc + Z.of_nat (S i)) with (argc + 1 + Z.of_nat i) by lia. by apply S'.
    + intros z Hz. rewrite F' by (unfold outside, argv_at, eargv_at in *; lia). by apply L3.
Qed.
End words.

(** ** Ending the words *)

Lemma positions_range items : forall s q e, Forall item_ok items -> (q, e) ∈ positions s items -> s <= q /\ q < e <= s + Z.of_nat (length (render items [])).
Proof.
  induction items as [|[g w] r IH]; intros s q e Hi H; cbn [positions] in H; [by apply elem_of_nil in H|]. inversion_clear Hi as [|? ? (_ & _ & Hw) Hr]. cbn [render snd] in *. rewrite !length_app.
  apply elem_of_cons in H as [[= -> ->]|H]; [destruct w; [done|]; cbn; lia|]. pose proof (IH _ _ _ Hr H). lia.
Qed.

Lemma length_render items trail : length (render items trail) = (length (render items []) + length trail)%nat.
Proof. induction items as [|[g w] r IH]; cbn; [done|]. rewrite !length_app, IH. lia. Qed.

Lemma length_positions s items : length (positions s items) = length items.
Proof. revert s. induction items as [|[g w] r IH]; intros s; cbn; [done | by rewrite IH]. Qed.

(** With a NUL at the end of each word the words are C strings. *)
Lemma words_ended m m' trail : forall items s lo, Forall item_ok items -> Forall (fun i => fst i <> []) (tail items) -> text m s (render items trail) ->
  (forall x, x ∈ map snd (positions s items) -> m' x = 0) -> (forall x, lo <= x -> x ∉ map snd (positions s items) -> m' x = m x) ->
  match items with (g, _) :: _ => lo <= s + Z.of_nat (length g) | [] => True end ->
  forall i q e g w, positions s items !! i = Some (q, e) -> items !! i = Some (g, w) -> text m' q w /\ m' (q + Z.of_nat (length w)) = 0.
Proof.
  induction items as [|[g0 w0] r IH]; intros s lo Hi Hg Ht Hz Hk Hlo i q e g w Hp Hit; [done|]. inversion_clear Hi as [|? ? H1 Hr]. cbn [positions map snd render tail] in *.
  set (q0 := s + Z.of_nat (length g0)) in *. set (e0 := q0 + Z.of_nat (length w0)) in *. apply text_app in Ht as [_ Ht]. fold q0 in Ht. apply text_app in Ht as [Hw Ht]. fold e0 in Ht.
  assert (forall x, x ∈ map snd (positions e0 r) -> e0 <= x) as Hge.
  { intros x Hx. apply list_elem_of_fmap in Hx as ([a b] & -> & Hx). pose proof (positions_range _ _ _ _ Hr Hx). cbn. lia. }
  destruct i as [|i].
  - injection Hp as <- <-. injection Hit as <- <-. fold e0. split; [|apply Hz; by left]. eapply text_ext; [|exact Hw]. intros x Hx. fold e0 in Hx. apply Hk; [lia|].
    rewrite elem_of_cons. intros [->|Hin]; [lia|]. specialize (Hge x Hin). lia.
  - apply (IH e0 (e0 + 1)) with (i := i) (e := e) (g := g); try done.
    + by destruct Hg as [|? ? _ Hg].
    + intros x Hx. apply Hz. by right.
    + intros x Hx Hn. apply Hk; [unfold e0 in *; lia|]. rewrite elem_of_cons. intros [->|Hin]; [lia | done].
    + destruct r as [|[g' w'] r']; [done|]. inversion_clear Hg as [|? ? Hg' _]. cbn in Hg'. destruct g'; [done|]. cbn. lia.
Qed.

Lemma cstr_text fuel m p w : text m p w -> m (p + Z.of_nat (length w)) = 0 -> Forall (fun c => c <> 0) w -> (length w < fuel)%nat -> cstr fuel m p = Some w.
Proof.
  revert p fuel. induction w as [|c w IH]; intros p fuel Ht H0 Hn Hf; (destruct fuel as [|f]; [cbn in Hf; lia|]); cbn [cstr].
  - cbn in H0. rewrite Z.add_0_r in H0. by rewrite H0.
  - apply text_cons in Ht as [-> Ht]. inversion_clear Hn as [|? ? Hc Hn']. rewrite (proj2 (Z.eqb_neq c 0) Hc). cbn [length] in *.
    rewrite IH; [done | done | rewrite <- H0; f_equal; lia | done | lia].
Qed.

Section run.
Context {K : Kernel} {F : Fuel}.

Lemma nul_loop_run cmd : forall ps n k st, stored (u_mem st) cmd k ps -> load64 (u_mem st) (argv_at cmd (k + Z.of_nat (length ps))) = 0 ->
  (forall q e, (q, e) ∈ ps -> q <> 0 /\ (e < cmd \/ cmd + 168 <= e)) -> 0 <= k -> k + Z.of_nat (length ps) <= 9 -> (length ps < n)%nat ->
  exists m', nul_loop n cmd k st = URet tt (set_mem m' st) /\ (forall x, x ∈ map snd ps -> m' x = 0) /\ (forall x, x ∉ map snd ps -> m' x = u_mem st x).
Proof.
  induction ps as [|[q e] ps IH]; intros n k st Hs H0 Hps Hk Hl Hn; (destruct n as [|n]; [cbn in Hn; lia|]); cbn [nul_loop]; autorewrite with ustep.
  - cbn in H0. rewrite Z.add_0_r in H0. rewrite H0. exists (u_mem st). split_and!; [by destruct st | intros x Hx; by apply elem_of_nil in Hx | done].
  - destruct (Hs 0%nat q e eq_refl) as [E1 E2]. rewrite Z.add_0_r in E1, E2. destruct (Hps q e ltac:(by left)) as [Hq He]. rewrite E1, E2, (proj2 (Z.eqb_neq q 0) Hq).
    unfold put8. autorewrite with ustep. set (st1 := set_mem (store8 (u_mem st) e 0) st). cbn [length] in *.
    assert (forall x, cmd <= x < cmd + 168 -> u_mem st1 x = u_mem st x) as Hkeep.
    { intros x Hx. cbn. unfold store8. by rewrite (proj2 (Z.eqb_neq x e)) by lia. }
    destruct (IH n (k + 1) st1) as (m' & E & Hz & Hk'); try lia.
    { intros i q' e' Hi. destruct (Hs (S i) q' e' Hi) as [A1 A2]. replace (k + 1 + Z.of_nat i) with (k + Z.of_nat (S i)) by lia. pose proof (lookup_lt_Some _ _ _ Hi).
      rewrite <- A1, <- A2. split; apply load64_ext; intros x Hx; apply Hkeep; unfold argv_at, eargv_at in Hx; lia. }
    { rewrite <- H0. replace (k + 1 + Z.of_nat (length ps)) with (k + Z.of_nat (S (length ps))) by lia. apply load64_ext. intros x Hx. apply Hkeep. unfold argv_at in Hx. lia. }
    { intros q' e' Hin. apply Hps. by right. }
    exists m'. split; [exact E|]. split; intros x Hx; cbn [map snd] in Hx.
    + destruct (decide (x ∈ map snd ps)) as [Hin|Hnin]; [by apply Hz|]. apply elem_of_cons in Hx as [->|Hx]; [|done]. rewrite Hk' by done. cbn. unfold store8. by rewrite Z.eqb_refl.
    + apply not_elem_of_cons in Hx as [Hx Hnin]. rewrite Hk' by done. cbn. unfold store8. by rewrite (proj2 (Z.eqb_neq x e) Hx).
Qed.
End run.

Lemma memset_loop_out n : forall m p v x, x < p \/ p + Z.of_nat n <= x -> memset_loop n m p v x = m x.
Proof.
  induction n as [|n IH]; intros m p v x Hx; cbn [memset_loop]; [done|]. rewrite IH by lia. unfold store8. by rewrite (proj2 (Z.eqb_neq x p)) by lia.
Qed.

Lemma umemset_out m p v n x : 0 <= n -> x < p \/ p + n <= x -> memset m p v n x = m x.
Proof. intros Hn Hx. unfold memset. apply memset_loop_out. lia. Qed.

Lemma strlen_text fuel m p w : text m p w -> m (p + Z.of_nat (length w)) = 0 -> Forall (fun c => c <> 0) w -> (length w < fuel)%nat -> strlen fuel m p = Some (Z.of_nat (length w)).
Proof.
  intros Ht H0 Hn Hf. unfold strlen. assert (strlen_scan fuel m p = Some (p + Z.of_nat (length w))) as ->; [|f_equal; lia].
  revert p fuel Ht H0 Hf. induction Hn as [|c w Hc Hn IH]; intros p fuel Ht H0 Hf; (destruct fuel as [|f]; [cbn in Hf; lia|]); cbn [strlen_scan].
  - cbn in *. rewrite Z.add_0_r in *. by rewrite H0.
  - apply text_cons in Ht as [-> Ht]. rewrite (proj2 (Z.eqb_neq c 0) Hc). cbn [length] in *. rewrite IH; [f_equal; lia | done | rewrite <- H0; f_equal; lia | lia].
Qed.

Lemma line_nonzero items trail : Forall item_ok items -> Forall white trail -> Forall (fun c => c <> 0) (render items trail).
Proof.
  intros Hi Ht. assert (forall c, white c -> c <> 0) as Hw by (intros c Hc; by apply white_chr).
  induction Hi as [|[g w] r (H1 & H2 & _) _ IH]; cbn [render fst snd] in *; [by eapply Forall_impl|]. rewrite !Forall_app. split_and!; [by eapply Forall_impl | | done].
  eapply Forall_impl; [|exact H2]. intros c (Hc & _). lia.
Qed.

Section exec.
Context {K : Kernel} {F : Fuel} {Lay : Ulayout} {B : Brk K}.

(** The strings of [argv]. *)
Lemma argv_strs_run cmd : forall ps ws n k st, stored (u_mem st) cmd k ps -> load64 (u_mem st) (argv_at cmd (k + Z.of_nat (length ps))) = 0 ->
  Forall2 (fun p w => fst p <> 0 /\ cstr fuel (u_mem st) (fst p) = Some w) ps ws -> (length ps < n)%nat ->
  argv_strs n (argv_at cmd k) st = URet ws st.
Proof.
  induction ps as [|[q e] ps IH]; intros ws n k st Hs H0 Hw Hn; (destruct n as [|n]; [cbn in Hn; lia|]); cbn [argv_strs]; autorewrite with ustep; inversion_clear Hw as [|? w ? ws' [Hq Hc] Hw'].
  - cbn in H0. rewrite Z.add_0_r in H0. by rewrite H0.
  - destruct (Hs 0%nat q e eq_refl) as [E1 _]. rewrite Z.add_0_r in E1. rewrite E1. cbn [fst] in *. rewrite (proj2 (Z.eqb_neq q 0) Hq). cbn [length] in *.
    rewrite (ubind_run _ _ w st st) by (unfold ustr; autorewrite with ustep; by rewrite Hc).
    replace (argv_at cmd k + 8) with (argv_at cmd (k + 1)) by (unfold argv_at; lia).
    rewrite (ubind_run _ _ ws' st st); [done|]. apply IH; [|replace (k + 1 + Z.of_nat (length ps)) with (k + Z.of_nat (S (length ps))) by lia; done | done | lia].
    intros i q' e' Hi. destruct (Hs (S i) q' e' Hi). by replace (k + 1 + Z.of_nat i) with (k + Z.of_nat (S i)) by lia.
Qed.

Lemma runcmd_run {A} cmd ps ws st w0 : cmd <> 0 -> stored (u_mem st) cmd 0 ps -> load64 (u_mem st) (argv_at cmd (Z.of_nat (length ps))) = 0 ->
  Forall2 (fun p w => fst p <> 0 /\ cstr fuel (u_mem st) (fst p) = Some w) ps ws -> (length ps < fuel)%nat -> head ws = Some w0 ->
  serve (SYS_exec w0 ws) (u_world st) = None -> @runcmd K F A cmd st = UGone (SYS_exec w0 ws) st.
Proof.
  intros Hc Hs H0 Hw Hn Hh He. unfold runcmd. rewrite (proj2 (Z.eqb_neq cmd 0) Hc). autorewrite with ustep. destruct Hw as [|[q e] w ps ws' [Hq Hcs] Hw']; [done|]. injection Hh as ->.
  destruct (Hs 0%nat q e eq_refl) as [E1 _]. change (0 + Z.of_nat 0) with 0 in E1. rewrite E1. cbn [fst] in *. rewrite (proj2 (Z.eqb_neq q 0) Hq). unfold execve. autorewrite with ustep.
  rewrite (ubind_run _ _ w0 st st) by (unfold ustr; autorewrite with ustep; by rewrite Hcs).
  rewrite ubind_assoc, (ubind_run _ _ (w0 :: ws') st st); [|apply (argv_strs_run cmd ((q, e) :: ps)); [done | done | by constructor | done]].
  unfold execve_lit, syscall, ecall, ubind. by rewrite He.
Qed.

Section command.
Context (items : list (list Z * list Z)) (trail : list Z) (s : Z).
Let line := render items trail.
Let es := s + Z.of_nat (length line).
Hypothesis Hline : line_ok items trail.
Hypothesis Hlen : (length items <= 9)%nat.
Hypothesis Hs : 0 < s.
Hypothesis Hes : es < 2 ^ 34.
Hypothesis Hfuel : (length line + 2 <= fuel)%nat.

(** [parseexec] on a command [cmd] outside the line. *)
Lemma parse_run cmd st : text (u_mem st) s line -> u_mem st es = 0 -> es < cmd \/ cmd + 168 <= s ->
  exists m', (r <- parse_words (Z.to_nat MAXARGS + 1) cmd s es 0 ;; put64 (argv_at cmd (fst r)) 0 ;; put64 (eargv_at cmd (fst r)) 0 ;; uret (cmd, snd r)) st
    = URet (cmd, es) (set_mem m' st) /\ stored m' cmd 0 (positions s items) /\ load64 m' (argv_at cmd (Z.of_nat (length items))) = 0 /\
    (forall x, x < cmd \/ cmd + 168 <= x -> m' x = u_mem st x).
Proof.
  intros Ht H0 Hd. destruct Hline as (H1 & H2 & H3).
  destruct (parse_words_run cmd es trail H3 ltac:(lia) items (Z.to_nat MAXARGS + 1) st s 0) as (m1 & E & S1 & F1); try done; try lia; [change (Z.to_nat MAXARGS + 1)%nat with 11%nat; lia|].
  rewrite (ubind_run _ _ _ _ _ E). cbn [fst snd]. unfold put64. autorewrite with ustep. cbn [u_mem set_mem]. rewrite Z.add_0_l. set (n := Z.of_nat (length items)) in *.
  set (m2 := store64 (store64 m1 (argv_at cmd n) 0) (eargv_at cmd n) 0). exists m2.
  destruct (store_entry cmd m1 n 0 0 ltac:(lia) ltac:(lia) ltac:(lia)) as (L1 & L2 & L3). fold m2 in L1, L2, L3. split_and!.
  - reflexivity.
  - intros i q e Hi. destruct (S1 i q e Hi) as [A1 A2]. pose proof (lookup_lt_Some _ _ _ Hi) as Hlt. rewrite length_positions in Hlt.
    rewrite <- A1, <- A2. split; apply load64_ext; intros x Hx; apply L3; unfold outside, argv_at, eargv_at in *; lia.
  - done.
  - intros x Hx. rewrite L3 by (unfold outside, argv_at, eargv_at; lia). apply F1. unfold outside, argv_at, eargv_at. lia.
Qed.

(** [nulterminate]: the words are the strings of [argv]. *)
Lemma nulterminate_run cmd st : text (u_mem st) s line -> es < cmd \/ cmd + 168 <= s -> stored (u_mem st) cmd 0 (positions s items) ->
  load64 (u_mem st) (argv_at cmd (Z.of_nat (length items))) = 0 ->
  exists m', nulterminate cmd st = URet cmd (set_mem m' st) /\ stored m' cmd 0 (positions s items) /\ load64 m' (argv_at cmd (Z.of_nat (length items))) = 0 /\
    Forall2 (fun p w => fst p <> 0 /\ cstr fuel m' (fst p) = Some w) (positions s items) (map snd items).
Proof.
  intros Ht Hd Hst H0. pose proof Hline as (H1 & H2 & H3).
  assert (forall q e, (q, e) ∈ positions s items -> s <= q /\ q < e <= es) as Hpos.
  { intros q e Hin. pose proof (positions_range _ _ _ _ H1 Hin). unfold es, line. rewrite length_render. lia. }
  destruct (nul_loop_run cmd (positions s items) (Z.to_nat MAXARGS + 1) 0 st) as (m' & E & Hz & Hk); try done; try (rewrite length_positions; change (Z.to_nat MAXARGS + 1)%nat with 11%nat; done || lia).
  { intros q e Hin. specialize (Hpos q e Hin). lia. }
  assert (forall x, cmd <= x < cmd + 168 -> m' x = u_mem st x) as Hkeep.
  { intros x Hx. apply Hk. intros Hin. apply list_elem_of_fmap in Hin as ([q e] & -> & Hin). specialize (Hpos q e Hin). cbn in Hx. lia. }
  exists m'. split_and!.
  - unfold nulterminate. by rewrite (ubind_run _ _ _ _ _ E).
  - intros i q e Hi. destruct (Hst i q e Hi) as [A1 A2]. pose proof (lookup_lt_Some _ _ _ Hi) as Hlt. rewrite length_positions in Hlt.
    rewrite <- A1, <- A2. split; apply load64_ext; intros x Hx; apply Hkeep; unfold argv_at, eargv_at in Hx; lia.
  - rewrite <- H0. apply load64_ext. intros x Hx. apply Hkeep. unfold argv_at in Hx. lia.
  - apply Forall2_same_length_lookup_2; [by rewrite length_map, length_positions|]. intros i [q e] w Hp Hw. rewrite list_lookup_fmap in Hw.
    destruct (items !! i) as [[g w']|] eqn:Eit; [|done]. injection Hw as ->. cbn [fst].
    destruct (words_ended (u_mem st) m' trail items s s H1 H2 Ht Hz ltac:(intros x _ Hx; by apply Hk) ltac:(destruct items as [|[? ?] ?]; [done | lia]) i q e g w Hp Eit) as [T Z0].
    specialize (Hpos q e ltac:(by eapply list_elem_of_lookup_2)). split; [lia|]. assert (item_ok (g, w)) as (_ & Hw & _) by (eapply (Forall_lookup_1 item_ok); [exact H1 | exact Eit]).
    assert (e = q + Z.of_nat (length w)) as Ee. { clear -Hp Eit. revert s i Hp Eit. induction items as [|[g0 w0] r IH]; intros s [|i] Hp Eit; cbn in *; try done; [by simplify_eq | by eapply IH]. }
    apply cstr_text; [done | done | eapply Forall_impl; [|exact Hw]; intros c (? & _); lia |]. unfold es in Hpos. lia.
Qed.
End command.

(** C18: The shell's child splits a line of one to nine words separated by white space,
    with memory from malloc for the command, terminates the words in place and enters
    exec with the first word as path and exactly the words as arguments. *)
Theorem shell_runs_command items trail s l A st w0 : let line := render items trail in let es := s + Z.of_nat (length line) in
  line_ok items trail -> (length items <= 9)%nat -> head (map snd items) = Some w0 ->
  text (u_mem st) s line -> u_mem st es = 0 -> 0 < s ->
  heap_state l A st -> (forall x, s <= x <= es -> ~ in_free l x /\ x < wbrk (u_world st)) -> (forall st', malloc EXECCMD st <> URet 0 st') ->
  (length line + 2 <= fuel)%nat -> (2 * length l + 4 <= fuel)%nat -> (9 < fuel)%nat ->
  (forall w, serve (SYS_exec w0 (map snd items)) w = None) ->
  exists st', (cmd <- parsecmd s ;; @runcmd K F unit cmd) st = UGone (SYS_exec w0 (map snd items)) st'.
Proof.
  intros line es Hline Hn Hh Ht H0 Hs Hheap Hout Hmal Hf1 Hf2 Hf3 Hex. pose proof Hline as (L1 & L2 & L3).
  assert (wbrk (u_world st) <= 2 ^ 34) as Hbrk by (destruct Hheap as [Hh'|(_ & _ & _ & _ & Hb)]; [apply (hp_brk _ _ _ _ Hh') | lia]).
  assert (es < 2 ^ 34) as Hes by (destruct (Hout es ltac:(unfold es; lia)); lia).
  destruct (malloc_run EXECCMD l A st Hheap ltac:(unfold EXECCMD; lia) Hf2) as [(st' & E & _)|(p & l' & st1 & E & Hheap1 & Hsz & _ & _ & Hfr & Hblk)]; [by destruct (Hmal st')|].
  assert (p <> 0) as Hp by (intros ->; by apply (Hmal st1)). change ((EXECCMD + 15) / 16 + 1) with 12 in *. unfold EXECCMD in Hsz.
  assert (es < p \/ p + 168 <= s) as Hd.
  { destruct (Z.lt_ge_cases es p), (Z.le_gt_cases (p + 168) s); try lia. exfalso. destruct (Hout (Z.max s p) ltac:(unfold es in *; lia)) as [N1 N2]. destruct (Hblk (Z.max s p) ltac:(unfold es in *; lia)); [done | lia]. }
  set (st2 := set_mem (memset (u_mem st1) p 0 EXECCMD) st1).
  assert (forall x, s <= x <= es -> u_mem st2 x = u_mem st x) as Hkeep.
  { intros x Hx. cbn. rewrite umemset_out by (unfold EXECCMD; lia). destruct (Hout x Hx). by apply Hfr. }
  assert (text (u_mem st2) s line) as Ht2 by (eapply text_ext; [|exact Ht]; intros x Hx; apply Hkeep; unfold es; lia).
  destruct (parse_run items trail s Hline Hn Hs Hes Hf1 p st2 Ht2 ltac:(fold line es; rewrite Hkeep by (unfold es; lia); done) Hd) as (m3 & E3 & S3 & Z3 & F3). fold line es in E3.
  set (st3 := set_mem m3 st2). assert (text (u_mem st3) s line) as Ht3 by (eapply text_ext; [|exact Ht2]; intros x Hx; apply F3; unfold es in *; lia).
  destruct (nulterminate_run items trail s Hline Hn Hs Hes Hf1 p st3 Ht3 Hd S3 Z3) as (m4 & E4 & S4 & Z4 & W4). set (st4 := set_mem m4 st3).
  assert (parseexec s es st = URet (p, es) st3) as Epe.
  { unfold parseexec. rewrite (ubind_run _ _ p st st2); [exact E3|]. unfold execcmd. rewrite (ubind_run _ _ _ _ _ E). by rewrite (proj2 (Z.eqb_neq p 0) Hp). }
  exists st4. rewrite (ubind_run _ _ p st st4).
  - apply (runcmd_run p (positions s items)); try done; rewrite ?length_positions; (done || lia).
  - unfold parsecmd, of_mem. autorewrite with ustep. rewrite (strlen_text fuel (u_mem st) s line) by (done || lia || by apply line_nonzero). autorewrite with ustep. fold es.
    rewrite (ubind_run _ _ _ _ _ Epe). autorewrite with ustep. assert (peek (u_mem st3) es es [] = (false, es)) as ->.
    { assert (u_mem st3 es = 0) as E0 by (etransitivity; [apply F3; lia|]; rewrite Hkeep by (unfold es; lia); done).
      assert (skip (u_mem st3) es es = es) as Esk by (unfold skip; by rewrite Z.sub_diag). unfold peek. by rewrite Esk, E0. }
    rewrite Z.eqb_refl. cbn [negb]. autorewrite with ustep. exact E4.
Qed.
End exec.

(** ** A kernel that gives memory and executes every program *)

#[local] Instance exec_kernel : Kernel := {
  world := Z;
  serve r w := match r with
               | SYS_sbrk n => if w + n <=? 2 ^ 34 then Some (w, [], w + n) else Some (2 ^ 64 - 1, [], w)
               | SYS_exec _ _ => None
               | _ => Some (2 ^ 64 - 1, [], w)
               end
}.

#[local] Instance exec_kernel_brk : Brk exec_kernel.
Proof.
  refine {| wbrk := fun w : @world exec_kernel => w |}. intros n w Hn. cbn. destruct (Z.leb_spec (w + n) (2 ^ 34)); do 3 eexists; (split; [reflexivity|]); [by right | by left].
Defined.

#[local] Instance sh_layout : Ulayout := {| at_base := 4096; at_stdin_buf := 5000; at_stdout_buf := 7000 |}.
#[local] Instance fuel30 : Fuel := 30%nat.

(** The classes of characters, decided. *)
Definition word_b (c : Z) : bool := (0 <? c) && (c <? 256) && negb (existsb (Z.eqb c) whitespace) && negb (existsb (Z.eqb c) symbols).

Lemma words_by_test w : forallb word_b w = true -> Forall wordc w.
Proof.
  intros H. rewrite forallb_forall in H. apply Forall_forall. intros c Hc. specialize (H c Hc). unfold word_b in H. rewrite !existsb_in, !andb_true_iff, !negb_true_iff, !bool_decide_eq_false in H.
  destruct H as [[[H1%Z.ltb_lt H2%Z.ltb_lt] H3] H4]. done.
Qed.

Lemma whites_by_test g : forallb (fun c => existsb (Z.eqb c) whitespace) g = true -> Forall white g.
Proof. intros H. rewrite forallb_forall in H. apply Forall_forall. intros c Hc. specialize (H c Hc). cbn beta in H. rewrite existsb_in in H. by apply bool_decide_eq_true in H. Qed.

(** "cat  x\n". *)
Definition cat_x : list (list Z * list Z) := [([], [99; 97; 116]); ([32; 32], [120])].
Definition sh_start : ustate :=
  Mk_ustate (K := exec_kernel) (store_bytes (fun _ => 0) 1000 (render cat_x [10])) 16384 0 file0 file0.
Definition returned (r : ures (K := exec_kernel) Z) : option Z := match r with URet a _ => Some a | _ => None end.

Lemma shell_runs_command_witness :
  exists st', (cmd <- parsecmd 1000 ;; @runcmd exec_kernel _ unit cmd) sh_start = UGone (SYS_exec [99; 97; 116] [[99; 97; 116]; [120]]) st'.
Proof.
  assert (returned (malloc EXECCMD sh_start) = Some 81744) as Hm by (vm_compute; reflexivity).
  apply (shell_runs_command cat_x [10] 1000 [] [] sh_start [99; 97; 116]).
  - split_and!.
    + constructor; [|constructor; [|constructor]]; (split; [apply whites_by_test; reflexivity|]); (split; [apply words_by_test; reflexivity | discriminate]).
    + constructor; [discriminate | constructor].
    + apply whites_by_test. reflexivity.
  - apply Nat.leb_le. reflexivity.
  - reflexivity.
  - intros i c Hi. do 7 (destruct i as [|i]; [injection Hi as <-; reflexivity|]). discriminate Hi.
  - reflexivity.
  - lia.
  - right. vm_compute. repeat split; discriminate.
  - intros x Hx. change (1000 + Z.of_nat (length (render cat_x [10]))) with 1007 in Hx. split; [|change (wbrk (u_world sh_start)) with 16384; lia].
    intros [Hf|(b & Hb & _)]; [change at_base with 4096 in Hf; lia | by apply elem_of_nil in Hb].
  - intros st' E. rewrite E in Hm. discriminate Hm.
  - apply Nat.leb_le. reflexivity.
  - apply Nat.leb_le. reflexivity.
  - apply Nat.ltb_lt. reflexivity.
  - reflexivity.
Defined.
