(* ===== verification/Utils.v ===== *)
(** * User programs ([utils/cat.c], [utils/ls.c], [utils/init.c], [ulibc/crt/crt1.c])

    Arrays on the stack, static arrays and literals whose address is passed on are at
    addresses that are arguments. *)

From S2P Require Import Prelude Text User Stdio.

#[local] Open Scope user_scope.

Section utils.
Context {K : Kernel} {F : Fuel}.

Definition newl : list Z := [10].
Definition print (s : list Z) : U unit := printf (lit s) [] ;; uret tt.

(** [main(); syscall(SYS_exit, 0)]. *)
Definition _start {A} (main : U A) : U unit := main ;; syscall (SYS_exit 0) ;; uret tt.

(** ** cat *)

(** [while ((sz = read(fd, buf, sizeof(buf))) > 0)]: the last [sz]. *)
Fixpoint cat_loop (n : nat) (at_buf fd : Z) : U Z :=
  match n with
  | O => ustuck
  | S n' =>
      sz <- read fd at_buf 512 ;;
      if 0 <? sz then
        k <- write 1 at_buf sz ;;
        if negb (k =? sz) then print (chars "cat: write error" ++ newl) ;; exit 1 else cat_loop n' at_buf fd
      else uret sz
  end.

Definition cat (at_buf fd : Z) : U unit :=
  sz <- cat_loop fuel at_buf fd ;;
  if sz <? 0 then print (chars "cat: read error" ++ newl) ;; exit 1 else uret tt.

(** [argv[i]] for [i] from [i] to [argc - 1]. *)
Fixpoint cat_args (n : nat) (at_buf argv i : Z) : U unit :=
  match n with
  | O => uret tt
  | S n' =>
      m <- uget u_mem ;;
      fd <- open (load64 m (argv + 8 * i)) O_RDONLY ;;
      (if fd <? 0 then print (chars "cat: open file error" ++ newl) else uret tt) ;;
      cat at_buf fd ;;
      close fd ;;
      cat_args n' at_buf argv (i + 1)
  end.

Definition cat_main (at_buf argc argv : Z) : U Z :=
  if argc <? 2 then cat at_buf 0 ;; uret 0
  else cat_args (Z.to_nat (argc - 1)) at_buf argv 1 ;; uret 0.

(** ** init *)

(** [while (1)]. *)
Definition forever {A} : U A := ustuck.

Definition init_main : U Z :=
  fd <- open_lit (chars "console") O_RDWR ;;
  (if fd <? 0 then mknod (chars "console") 1 0 ;; open_lit (chars "console") O_RDWR ;; uret tt else uret tt) ;;
  dup 0 ;;
  dup 0 ;;
  print (newl ++ chars "init process start" ++ newl ++ newl) ;;
  setuid 1000 ;;
  setgid 1000 ;;
  pid <- fork ;;
  (if pid =? 0 then execve_lit (chars "/bin/sh") [chars "sh"] ;; uret tt else uret tt) ;;
  forever.

(** ** ls *)

Definition DIRSIZ : Z := 14.
Definition T_DIR : Z := 1.
Definition T_FILE : Z := 2.
Definition T_DEVICE : Z := 3.

(** Fields of [struct stat] (32 bytes) and [struct dirent] (32 bytes) in memory. *)
Definition field (n : nat) (a : Z) (m : memory) : Z := le_val (load_bytes m a n).
Definition st_ino (m : memory) (st : Z) : Z := field 4 (st + 4) m.
Definition st_type (m : memory) (st : Z) : Z := s16 (field 2 (st + 8) m).
Definition st_size (m : memory) (st : Z) : Z := field 8 (st + 16) m.
Definition st_uid (m : memory) (st : Z) : Z := field 4 (st + 24) m.
Definition st_gid (m : memory) (st : Z) : Z := field 4 (st + 28) m.
Definition de_inum (m : memory) (de : Z) : Z := field 2 de m.
Definition de_mask (k : Z) (m : memory) (de : Z) : Z := m (de + 12 + k).
Definition de_name (de : Z) : Z := de + 15.

(** [for (p = path + strlen(path); p >= path && *p != '/'; p--)]. *)
Fixpoint rfind_slash (n : nat) (m : memory) (path p : Z) : Z :=
  match n with
  | O => p
  | S n' => if (path <=? p) && negb (m p =? ch "/") then rfind_slash n' m path (p - 1) else p
  end.

Section ls.
(** The static buffer of [fmtname]; [buf], [st] and [de] of [ls]; the literal ".". *)
Context (at_name at_buf at_st at_de at_dot : Z).

Definition fmtname (path : Z) : U Z :=
  n <- of_mem (fun m => strlen fuel m path) ;;
  m <- uget u_mem ;;
  let p := rfind_slash (Z.to_nat n + 1) m path (path + n) + 1 in
  k <- of_mem (fun m => strlen fuel m p) ;;
  if DIRSIZ <=? k then uret p
  else
    on_mem (fun m => fst (memmove m at_name p k)) ;;
    on_mem (fun m => memset m (at_name + k) (ch " ") (DIRSIZ - k)) ;;
    uret at_name.

Definition print_bit (mask k : Z) (c : string) : U unit := print (if Z.testbit mask k then chars c else chars " ").

(** The three bits of one class. *)
Definition print_class (mask : Z) : U unit := print_bit mask 2 "r" ;; print_bit mask 1 "w" ;; print_bit mask 0 "x".

Definition print_permissions (de : Z) : U unit :=
  m <- uget u_mem ;;
  print_class (de_mask 0 m de) ;; print (chars " ") ;;
  print_class (de_mask 1 m de) ;; print (chars " ") ;;
  print_class (de_mask 2 m de).

Definition print_id (id : Z) : U unit :=
  printf (lit (chars (if id <? 10 then "   %d" else if id <? 100 then "  %d" else if id <? 1000 then " %d" else "%d"))) [Vint id] ;; uret tt.

(** The end of a line: the owner, and " %d %d %d %s\n". *)
Definition print_stat (name : Z) : U unit :=
  m <- uget u_mem ;;
  printf (lit (chars " %d %d %d %s" ++ newl)) [Vint (st_type m at_st); Vint (st_ino m at_st); Vint (s32 (st_size m at_st)); Vint name] ;; uret tt.

Definition print_owner : U unit :=
  print (chars " ") ;;
  m <- uget u_mem ;; print_id (st_uid m at_st) ;;
  print (chars " ") ;;
  m <- uget u_mem ;; print_id (st_gid m at_st).

(** [while (read(fd, &de, sizeof(de)) == sizeof(de))]; [p] is the end of the path in [buf]. *)
Fixpoint ls_entries (n : nat) (fd p : Z) : U unit :=
  match n with
  | O => ustuck
  | S n' =>
      k <- read fd at_de 32 ;;
      if k =? 32 then
        m <- uget u_mem ;;
        (if de_inum m at_de =? 0 then uret tt
         else
           on_mem (fun m => fst (memmove m p (de_name at_de) DIRSIZ)) ;;
           put8 (p + DIRSIZ) 0 ;;
           r <- stat at_buf at_st ;;
           if r <? 0 then printf (lit (chars "ls: cannot stat %s" ++ newl)) [Vint at_buf] ;; uret tt
           else
             name <- fmtname at_buf ;;
             print_permissions at_de ;;
             print_owner ;;
             print_stat name) ;;
        ls_entries n' fd p
      else uret tt
  end.

Definition ls (path : Z) : U unit :=
  fd <- open path O_RDONLY ;;
  if fd <? 0 then printf (lit (chars "ls: cannot open %s" ++ newl)) [Vint path] ;; exit 1
  else
    r <- fstat fd at_st ;;
    if r <? 0 then printf (lit (chars "ls: cannot stat %s" ++ newl)) [Vint path] ;; close fd ;; exit 1
    else
      m <- uget u_mem ;;
      let t := st_type m at_st in
      (if (t =? T_DEVICE) || (t =? T_FILE) then
         print_owner ;; name <- fmtname path ;; print_stat name
       else if t =? T_DIR then
         n <- of_mem (fun m => strlen fuel m path) ;;
         if 512 <? n + 1 + DIRSIZ + 1 then print (chars "ls: path too long" ++ newl)
         else
           m' <- of_mem (fun m => strcpy fuel m at_buf path) ;;
           on_mem (fun _ => fst m') ;;
           n <- of_mem (fun m => strlen fuel m at_buf) ;;
           put8 (at_buf + n) (ch "/") ;;
           ls_entries fuel fd (at_buf + n + 1)
       else uret tt) ;;
      close fd ;; uret tt.

Fixpoint ls_args (n : nat) (argv i : Z) : U unit :=
  match n with
  | O => uret tt
  | S n' => m <- uget u_mem ;; ls (load64 m (argv + 8 * i)) ;; ls_args n' argv (i + 1)
  end.

Definition ls_main (argc argv : Z) : U Z :=
  if argc <? 2 then ls at_dot ;; uret 0 else ls_args (Z.to_nat (argc - 1)) argv 1 ;; uret 0.
End ls.
End utils.
