(* ===== verification/UtilsSpec.v ===== *)
(** * Properties of the C library's input and output and of cat

    Against an interface of the kernel: [read] takes bytes from an input, [write]
    appends bytes to an output. *)

From S2P Require Import Prelude Text User Stdio Utils.

#[local] Open Scope user_scope.

(** ** Streams of bytes *)

(** What the programs rely on.  [input] is what is left to read from a descriptor,
    [output] what has been written to it, [files] the contents of the files by path;
    [readable] and [writable] tell what an open descriptor may be used for, and
    [can_open] that a descriptor and an open file are left.  [read] on a readable
    descriptor returns some bytes as long as there are any, [write] on a writable one
    writes all bytes, [open] for reading gives a new descriptor at the start of the
    file.  Nothing is said of a call on a descriptor that is not open for it, which
    the kernel answers with -1. *)
Class Streams (K : Kernel) := {
  input : world -> Z -> list Z;
  output : world -> Z -> list Z;
  files : world -> list Z -> option (list Z);
  readable : world -> Z -> bool;
  writable : world -> Z -> bool;
  can_open : world -> bool;
  serve_read : forall fd n w, 0 < n -> readable w fd = true ->
    exists k w', serve (SYS_read fd n) w = Some (Z.of_nat k, take k (input w fd), w') /\
    (k <= length (input w fd))%nat /\ Z.of_nat k <= n /\ (input w fd <> [] -> (0 < k)%nat) /\
    input w' fd = drop k (input w fd) /\ (forall d, output w' d = output w d) /\ (forall p, files w' p = files w p) /\
    (forall d, readable w' d = readable w d) /\ (forall d, writable w' d = writable w d) /\ can_open w' = can_open w;
  serve_write : forall fd l w, writable w fd = true ->
    exists w', serve (SYS_write fd l) w = Some (Z.of_nat (length l), [], w') /\
    (forall d, input w' d = input w d) /\ (forall p, files w' p = files w p) /\
    (forall d, output w' d = if d =? fd then output w d ++ l else output w d) /\
    (forall d, readable w' d = readable w d) /\ (forall d, writable w' d = writable w d) /\ can_open w' = can_open w;
  serve_open : forall p l w, files w p = Some l -> can_open w = true ->
    exists fd w', serve (SYS_open p O_RDONLY) w = Some (fd, [], w') /\ 0 <= fd < 2 ^ 31 /\
    input w' fd = l /\ readable w' fd = true /\ readable w fd = false /\ writable w fd = false /\
    (forall d, output w' d = output w d) /\ (forall p, files w' p = files w p) /\
    (forall d, d <> fd -> writable w' d = writable w d);
  serve_close : forall fd w, readable w fd = true ->
    exists r w', serve (SYS_close fd) w = Some (r, [], w') /\ can_open w' = true /\
    (forall d, output w' d = output w d) /\ (forall p, files w' p = files w p) /\
    (forall d, d <> fd -> writable w' d = writable w d)
}.

(** ** Numerals *)

Lemma digit_val_xdigits d : 0 <= d < 16 -> digit_val (nth (Z.to_nat d) xdigits 0) = Some d.
Proof.
  intros H. assert (forallb (fun k => bool_decide (digit_val (nth k xdigits 0) = Some (Z.of_nat k))) (seq 0 16) = true) as E by reflexivity.
  rewrite forallb_forall in E. specialize (E (Z.to_nat d)). rewrite bool_decide_eq_true, Z2Nat.id in E by lia. apply E, in_seq. lia.
Qed.

Section numerals.
Context (base : Z) (Hb : 2 <= base <= 16).

Lemma div_pow x n : 0 <= x < 2 ^ Z.of_nat (S n) -> 0 <= x / base < 2 ^ Z.of_nat n.
Proof. intros H. split; [apply Z.div_pos; lia|]. apply Z.div_lt_upper_bound; [lia|]. rewrite Nat2Z.inj_succ, Z.pow_succ_r in H by lia. nia. Qed.

Lemma parse_digits n : forall x, 0 <= x < 2 ^ Z.of_nat n -> (0 < n)%nat -> parse_nat base 0 (rev (digits n x base)) = Some x.
Proof.
  induction n as [|n IH]; intros x Hx Hn; [lia|]. cbn [digits]. pose proof (Z.mod_pos_bound x base ltac:(lia)) as Hm. pose proof (Z.div_mod x base ltac:(lia)) as Hd.
  assert (parse_nat base (x / base) [nth (Z.to_nat (x mod base)) xdigits 0] = Some x) as Elast.
  { cbn [parse_nat]. rewrite digit_val_xdigits by lia. rewrite (proj2 (Z.ltb_lt _ _)) by lia. f_equal. lia. }
  destruct (Z.eqb_spec (x / base) 0) as [E0|E0]; [by rewrite E0 in Elast|]. cbn [rev]. rewrite parse_nat_app.
  destruct n as [|n]; [pose proof (div_pow x 0 Hx); cbn in *; lia|]. by rewrite IH by (apply div_pow || lia; done).
Qed.

Lemma digits_nonempty n x : (0 < n)%nat -> digits n x base <> [].
Proof. destruct n; [lia|]. intros _. cbn. by destruct (x / base =? 0). Qed.

Lemma xdigits_zero d : 0 <= d < 16 -> nth (Z.to_nat d) xdigits 0 = 48 -> d = 0.
Proof. intros H E. pose proof (digit_val_xdigits d H) as E2. rewrite E in E2. by injection E2. Qed.

(** No leading zero. *)
Lemma digits_lead n : forall x, 0 < x < 2 ^ Z.of_nat n -> hd 0 (rev (digits n x base)) <> 48.
Proof.
  induction n as [|n IH]; intros x Hx; [cbn in Hx; lia|]. cbn [digits]. pose proof (Z.mod_pos_bound x base ltac:(lia)) as Hm. pose proof (Z.div_mod x base ltac:(lia)) as Hd.
  destruct (Z.eqb_spec (x / base) 0) as [E0|E0]; cbn [rev].
  - cbn. intros E. apply xdigits_zero in E; lia.
  - pose proof (div_pow x n ltac:(lia)) as Hq. specialize (IH (x / base) ltac:(lia)). assert (0 < n)%nat by (destruct n; cbn in Hq; lia).
    destruct (rev (digits n (x / base) base)) eqn:Er; [|done]. apply (f_equal (@rev Z)) in Er. rewrite rev_involutive in Er. by apply digits_nonempty in Er.
Qed.

Lemma digits_length n : forall x k, 0 <= x < base ^ Z.of_nat k -> (0 < k)%nat -> (length (digits n x base) <= k)%nat.
Proof.
  induction n as [|n IH]; intros x k Hx Hk; [cbn; lia|]. cbn [digits]. destruct (Z.eqb_spec (x / base) 0) as [E0|E0]; [cbn; lia|].
  destruct k as [|k]; [lia|]. rewrite Nat2Z.inj_succ, Z.pow_succ_r in Hx by lia. assert (0 <= x / base < base ^ Z.of_nat k) as Hq by (split; [apply Z.div_pos; lia | apply Z.div_lt_upper_bound; lia]).
  destruct k as [|k]; [cbn in Hq; lia|]. cbn [length]. specialize (IH _ (S k) Hq ltac:(lia)). lia.
Qed.
End numerals.

Section spec.
Context {K : Kernel} {F : Fuel} {St : Streams K}.

Lemma syscall_ret_small n : 0 <= n < 2 ^ 31 -> __syscall_ret (u64 n) = n.
Proof.
  intros H. rewrite u64_small by lia. unfold __syscall_ret, s64. rewrite u64_small by lia. rewrite (proj2 (Z.ltb_ge _ _)) by lia. by rewrite (proj2 (Z.ltb_lt _ _)) by lia.
Qed.

(** The rights of the open descriptors are kept. *)
Definition same_modes (w w' : world) : Prop :=
  (forall d, readable w' d = readable w d) /\ (forall d, writable w' d = writable w d) /\ can_open w' = can_open w.

Lemma syscall_write_run fd l s : writable (u_world s) fd = true -> Z.of_nat (length l) < 2 ^ 31 ->
  exists w', syscall (SYS_write fd l) s = URet (Z.of_nat (length l), []) (set_world w' s) /\
  (forall d, input w' d = input (u_world s) d) /\ (forall p, files w' p = files (u_world s) p) /\
  (forall d, output w' d = if d =? fd then output (u_world s) d ++ l else output (u_world s) d) /\ same_modes (u_world s) w'.
Proof.
  intros Hw Hl. destruct (serve_write fd l (u_world s) Hw) as (w' & E & H). exists w'. split; [|done]. unfold syscall, ecall, ubind. rewrite E. cbn [fst snd uret]. by rewrite syscall_ret_small by lia.
Qed.

Lemma syscall_read_run fd n s : 0 < n < 2 ^ 31 -> readable (u_world s) fd = true ->
  exists k w', syscall (SYS_read fd n) s = URet (Z.of_nat k, take k (input (u_world s) fd)) (set_world w' s) /\
  (k <= length (input (u_world s) fd))%nat /\ Z.of_nat k <= n /\ (input (u_world s) fd <> [] -> (0 < k)%nat) /\
  input w' fd = drop k (input (u_world s) fd) /\ (forall d, output w' d = output (u_world s) d) /\ (forall p, files w' p = files (u_world s) p) /\ same_modes (u_world s) w'.
Proof.
  intros Hn Hf. destruct (serve_read fd n (u_world s) ltac:(lia) Hf) as (k & w' & E & H1 & H2 & Hw). exists k, w'. split; [|done]. unfold syscall, ecall, ubind. rewrite E. cbn [fst snd uret]. by rewrite syscall_ret_small by lia.
Qed.

Lemma open_run path l p s : cstr fuel (u_mem s) path = Some p -> files (u_world s) p = Some l -> can_open (u_world s) = true ->
  exists fd w', open path O_RDONLY s = URet fd (set_world w' s) /\ 0 <= fd /\ input w' fd = l /\
    readable w' fd = true /\ readable (u_world s) fd = false /\ writable (u_world s) fd = false /\ (forall d, output w' d = output (u_world s) d) /\
    (forall p, files w' p = files (u_world s) p) /\ (forall d, d <> fd -> writable w' d = writable (u_world s) d).
Proof.
  intros Hp Hl Hc. destruct (serve_open p l (u_world s) Hl Hc) as (fd & w' & E & Hfd & Hw). exists fd, w'. split; [|split; [lia | done]]. unfold open, ustr. autorewrite with ustep. rewrite Hp. autorewrite with ustep.
  unfold open_lit, syscall, ecall, ubind. rewrite E. cbn [fst snd uret]. rewrite syscall_ret_small by lia. unfold uret. by rewrite s32_small by lia.
Qed.

Lemma close_run fd s : readable (u_world s) fd = true ->
  exists r w', close fd s = URet r (set_world w' s) /\ can_open w' = true /\ (forall d, output w' d = output (u_world s) d) /\
    (forall p, files w' p = files (u_world s) p) /\ (forall d, d <> fd -> writable w' d = writable (u_world s) d).
Proof.
  intros Hr. destruct (serve_close fd (u_world s) Hr) as (r & w' & E & Hw). eexists _, w'. split; [|done]. unfold close, syscall, ecall, ubind. rewrite E. reflexivity.
Qed.

(** ** cat *)

Section cat.
Context (at_buf : Z).

(** The output of descriptor 1 is extended by [t], the files are kept, and the memory
    outside the buffer; descriptor 1 can be written as before. *)
Definition copied (t : list Z) (s s' : ustate) : Prop :=
  (forall d, output (u_world s') d = output (u_world s) d ++ (if d =? 1 then t else [])) /\ (forall p, files (u_world s') p = files (u_world s) p) /\
  (forall x, x < at_buf \/ at_buf + 512 <= x -> u_mem s' x = u_mem s x) /\ writable (u_world s') 1 = writable (u_world s) 1.

Lemma nothing_copied s w : (forall d, output w d = output (u_world s) d) -> (forall p, files w p = files (u_world s) p) ->
  writable w 1 = writable (u_world s) 1 -> copied [] s (set_world w s).
Proof. intros Ho Hf Hw. split; [|done]. intros d. cbn. rewrite Ho. destruct (d =? 1); by rewrite app_nil_r. Qed.

Lemma copied_more t1 t2 s s1 s2 : copied t1 s s1 -> copied t2 s1 s2 -> copied (t1 ++ t2) s s2.
Proof.
  intros (H1 & H2 & H3 & H4) (G1 & G2 & G3 & G4). split_and!.
  - intros d. rewrite G1, H1. destruct (d =? 1); by rewrite ?app_nil_r, ?app_assoc.
  - intros p. by rewrite G2.
  - intros x Hx. by rewrite G3, H3.
  - congruence.
Qed.

Lemma cat_loop_run fd n : forall s, readable (u_world s) fd = true -> writable (u_world s) 1 = true -> (length (input (u_world s) fd) < n)%nat ->
  exists s', cat_loop n at_buf fd s = URet 0 s' /\ input (u_world s') fd = [] /\ readable (u_world s') fd = true /\ copied (input (u_world s) fd) s s'.
Proof.
  induction n as [|n IH]; intros s Hrd Hwr Hn; [lia|]. cbn [cat_loop]. unfold read. autorewrite with ustep.
  destruct (syscall_read_run fd 512 s ltac:(lia) Hrd) as (k & w1 & E & Hk1 & Hk2 & Hk3 & Hi & Ho & Hfl & Mr & Mw & _). rewrite (ubind_run _ _ _ _ _ E). cbn [fst snd]. autorewrite with ustep.
  set (data := take k (input (u_world s) fd)) in *. assert (length data = k) as Hld by (unfold data; rewrite length_take; lia).
  set (s1 := set_mem _ (set_world w1 s)). assert (copied [] s s1) as Hc1.
  { split; [|split; [done|split; [|apply Mw]]]; [intros d; cbn; rewrite Ho; destruct (d =? 1); by rewrite app_nil_r|]. intros x Hx. cbn. by rewrite store_bytes_out by lia. }
  destruct (Z.ltb_spec 0 (Z.of_nat k)) as [Hpos|Hzero].
  - unfold write. autorewrite with ustep. assert (load_bytes (u_mem s1) at_buf (Z.to_nat (Z.of_nat k)) = data) as ->.
    { rewrite Nat2Z.id. cbn. rewrite <- Hld. apply load_store_bytes. }
    unfold write_lit. autorewrite with ustep. destruct (syscall_write_run 1 data s1 ltac:(cbn; by rewrite Mw) ltac:(lia)) as (w2 & E2 & Hi2 & Hf2 & Ho2 & Mr2 & Mw2 & _). rewrite (ubind_run _ _ _ _ _ E2). autorewrite with ustep.
    cbn [fst]. rewrite Hld, Z.eqb_refl. cbn [negb]. cbn [u_world s1 set_mem set_world] in Hi2.
    destruct (IH (set_world w2 s1)) as (s' & E3 & Hi3 & Hr3 & Hc3).
    { cbn [u_world set_world]. by rewrite Mr2, <- Hrd, <- Mr. }
    { cbn [u_world set_world]. by rewrite Mw2, <- Hwr, <- Mw. }
    { cbn [u_world set_world]. rewrite Hi2, Hi, length_drop. lia. }
    exists s'. split; [done|]. split; [done|]. split; [done|]. cbn [u_world set_world] in Hc3. rewrite Hi2, Hi in Hc3. rewrite <- (take_drop k (input _ fd)). fold data. apply (copied_more [] _ _ s1); [done|].
    eapply copied_more; [|exact Hc3]. split; [|split; [done | split; [done | apply Mw2]]]. intros d. cbn. rewrite Ho2. destruct (d =? 1); by rewrite ?app_nil_r.
  - destruct (input (u_world s) fd) as [|c l] eqn:Ei; [|specialize (Hk3 ltac:(done)); lia]. exists s1. assert (k = 0)%nat as -> by (cbn in Hk1; lia). split; [done|]. split; [done|]. split; [cbn; by rewrite Mr | done].
Qed.

Lemma cat_run fd s : readable (u_world s) fd = true -> writable (u_world s) 1 = true -> (length (input (u_world s) fd) < fuel)%nat ->
  exists s', cat at_buf fd s = URet tt s' /\ input (u_world s') fd = [] /\ readable (u_world s') fd = true /\ copied (input (u_world s) fd) s s'.
Proof. intros Hr Hw Hn. destruct (cat_loop_run fd fuel s Hr Hw Hn) as (s' & E & Hc). exists s'. split; [|done]. unfold cat. by rewrite (ubind_run _ _ _ _ _ E). Qed.

(** [argv[i]], ... point to the paths [ps], whose files have the contents [ls]; the
    pointers and the paths are not in the buffer. *)
Inductive arguments (argv : Z) (m : memory) (fs : list Z -> option (list Z)) : Z -> list (list Z) -> Prop :=
  | args_nil i : arguments argv m fs i []
  | args_cons i a p l ls : load64 m (argv + 8 * i) = a -> cstr fuel m a = Some p -> fs p = Some l -> (length l < fuel)%nat ->
      argv + 8 * i + 8 <= at_buf \/ at_buf + 512 <= argv + 8 * i -> a + Z.of_nat (length p) < at_buf \/ at_buf + 512 <= a ->
      arguments argv m fs (i + 1) ls -> arguments argv m fs i (l :: ls).

Lemma cstr_ext m m' n : forall a p, cstr n m a = Some p -> (forall x, a <= x <= a + Z.of_nat (length p) -> m' x = m x) -> cstr n m' a = Some p.
Proof.
  induction n as [|n IH]; intros a p H Hx; [done|]. cbn [cstr] in *. rewrite Hx by lia. destruct (m a =? 0); [done|]. destruct (cstr n m (a + 1)) as [q|] eqn:E; [|done]. injection H as <-.
  cbn [length] in Hx. by rewrite (IH _ _ E) by (intros x Hq; apply Hx; lia).
Qed.

Lemma arguments_ext argv m m' fs fs' i ls : arguments argv m fs i ls -> (forall x, x < at_buf \/ at_buf + 512 <= x -> m' x = m x) -> (forall p, fs' p = fs p) -> arguments argv m' fs' i ls.
Proof.
  intros H Hm Hf. induction H as [i|i a p l ls Ha Hp Hl Hn Hd1 Hd2 _ IH]; [constructor|]. apply (args_cons _ _ _ _ a p); try done.
  - rewrite <- Ha. apply load64_ext. intros x Hx. apply Hm. lia.
  - apply (cstr_ext m); [done|]. intros x Hx. apply Hm. lia.
  - by rewrite Hf.
Qed.

Lemma cat_args_run argv ls : forall i s, arguments argv (u_mem s) (files (u_world s)) i ls ->
  can_open (u_world s) = true -> writable (u_world s) 1 = true ->
  exists s', cat_args (length ls) at_buf argv i s = URet tt s' /\ copied (concat ls) s s'.
Proof.
  induction ls as [|l ls IH]; intros i s H Hco Hwr; [exists s; split; [done|]; destruct s; by apply nothing_copied|].
  inversion H as [|? a p ? ? Ha Hp Hl Hn _ _ Hrest]; subst. cbn [length cat_args concat]. autorewrite with ustep.
  destruct (open_run _ l p s Hp Hl Hco) as (fd & w1 & E1 & Hfd & Hi1 & Hr1 & _ & Hw0 & Ho1 & Hf1 & Mw1).
  assert (1 <> fd) as Hne by congruence. rewrite (ubind_run _ _ _ _ _ E1). rewrite (proj2 (Z.ltb_ge _ _) Hfd). autorewrite with ustep.
  destruct (cat_run fd (set_world w1 s) Hr1 ltac:(cbn; by rewrite Mw1) ltac:(cbn; by rewrite Hi1)) as (s2 & E2 & _ & Hr2 & Hc2). cbn [u_world set_world] in Hc2. rewrite Hi1 in Hc2. rewrite (ubind_run _ _ _ _ _ E2).
  destruct (close_run fd s2 Hr2) as (r & w3 & E3 & Hco3 & Ho3 & Hf3 & Mw3). rewrite (ubind_run _ _ _ _ _ E3).
  assert (copied l s (set_world w3 s2)) as Hc.
  { rewrite <- (app_nil_r l). eapply copied_more; [|apply nothing_copied; [done | done | by apply Mw3]]. apply (copied_more [] l s (set_world w1 s)); [apply nothing_copied; [done | done | by apply Mw1] | done]. }
  destruct (IH (i + 1) (set_world w3 s2)) as (s' & E4 & Hc4); [apply (arguments_ext _ _ _ _ _ _ _ Hrest); apply Hc | exact Hco3 | rewrite <- Hwr; apply Hc |].
  exists s'. split; [done|]. by eapply copied_more.
Qed.

(** C19: cat with the names of existing files, on a system where read and write succeed
    on descriptors open for them and a file can be opened, terminates with result 0
    after writing the contents of the files, in the order of the arguments, to
    descriptor 1, and nothing else anywhere, however the kernel splits the reads.
    Descriptor 1 is open for writing at the start. *)
Theorem cat_copies argv ls s : arguments argv (u_mem s) (files (u_world s)) 1 ls -> ls <> [] ->
  can_open (u_world s) = true -> writable (u_world s) 1 = true ->
  exists s', cat_main at_buf (1 + Z.of_nat (length ls)) argv s = URet 0 s' /\
    forall d, output (u_world s') d = output (u_world s) d ++ (if d =? 1 then concat ls else []).
Proof.
  intros Ha Hne Hco Hwr. destruct (cat_args_run argv ls 1 s Ha Hco Hwr) as (s' & E & Ho & _). exists s'. split; [|done]. unfold cat_main. destruct ls as [|l ls]; [done|].
  rewrite (proj2 (Z.ltb_ge _ _)) by (cbn [length]; lia). replace (Z.to_nat _) with (length (l :: ls)) by (cbn [length]; lia). by rewrite (ubind_run _ _ _ _ _ E).
Qed.
End cat.

(** ** Reading a line *)

(** The bytes [gets_s] stores: up to [n], up to the first end of line, if there is one. *)
Fixpoint line_of (n : nat) (l : list Z) : list Z :=
  match n, l with
  | S n', c :: l' => if (c =? 10) || (c =? 13) then [c] else c :: line_of n' l'
  | _, _ => []
  end.

Lemma store_bytes_cons m a b l x : store_bytes (store8 m a b) (a + 1) l x = store_bytes m a (b :: l) x.
Proof.
  destruct (decide (a <= x < a + Z.of_nat (length (b :: l)))) as [Hx|Hx]; cbn [length] in Hx.
  - rewrite (store_bytes_in _ _ (b :: l)) by (cbn [length]; lia). destruct (decide (x = a)) as [->|Hne].
    + rewrite store_bytes_out by lia. rewrite Z.sub_diag. unfold store8. by rewrite Z.eqb_refl.
    + rewrite store_bytes_in by lia. replace (Z.to_nat (x - a)) with (S (Z.to_nat (x - (a + 1)))) by lia. done.
  - rewrite (store_bytes_out _ _ (b :: l)) by (cbn [length]; lia). rewrite store_bytes_out by lia. unfold store8. by rewrite (proj2 (Z.eqb_neq _ _)) by lia.
Qed.

Lemma line_of_length n : forall l, (length (line_of n l) <= n)%nat.
Proof. induction n as [|n IH]; intros [|c l]; cbn; try lia. destruct ((c =? 10) || (c =? 13)); cbn; [lia|]. specialize (IH l). lia. Qed.

Lemma gets_s_loop_run fd buf n : forall s i c, readable (u_world s) fd = true -> let l := line_of n (input (u_world s) fd) in
  exists s', gets_s_loop n fd buf i c s = URet (i + Z.of_nat (length l)) s' /\ input (u_world s') fd = drop (length l) (input (u_world s) fd) /\
    (forall x, u_mem s' x = store_bytes (u_mem s) (buf + i) l x) /\ (forall d, output (u_world s') d = output (u_world s) d).
Proof.
  induction n as [|n IH]; intros s i c Hfd; cbn [gets_s_loop].
  - exists s. cbn. rewrite Z.add_0_r. split_and!; [done | done | | done]. intros x. by rewrite store_bytes_out by (cbn; lia).
  - destruct (syscall_read_run fd 1 s ltac:(lia) Hfd) as (k & w1 & E & Hk1 & Hk2 & Hk3 & Hi & Ho & _ & Mr & _). rewrite (ubind_run _ _ _ _ _ E). cbn [fst snd].
    destruct (input (u_world s) fd) as [|b l] eqn:Ei; cbn [line_of].
    + assert (k = 0)%nat as -> by (cbn in Hk1; lia). cbn. exists (set_world w1 s). rewrite Z.add_0_r. split_and!; [done | done | | done]. intros x. by rewrite store_bytes_out by (cbn; lia).
    + assert (k = 1)%nat as -> by (specialize (Hk3 ltac:(done)); lia). cbn [take drop nth length] in *. change (s32 (Z.of_nat 1) <? 1) with false. cbv iota. unfold put8. autorewrite with ustep.
      set (s1 := set_mem _ (set_world w1 s)). destruct ((b =? 10) || (b =? 13)) eqn:Eb.
      * exists s1. cbn [length]. split_and!; try done. intros x. cbn. unfold store8. destruct (Z.eqb_spec x (buf + i)) as [->|Hne].
        -- rewrite store_bytes_in by (cbn; lia). by rewrite Z.sub_diag.
        -- rewrite store_bytes_out by (cbn; lia). done.
      * destruct (IH s1 (i + 1) b ltac:(cbn; by rewrite Mr)) as (s' & E' & Hi' & Hm' & Ho'). cbn [u_world s1 set_mem set_world] in Hi', Ho', Hm', E'. rewrite Hi in *. exists s'. cbn [length]. split_and!.
        -- rewrite E'. f_equal. change (drop 0 l) with l. lia.
        -- done.
        -- intros x. rewrite Hm'. by rewrite <- store_bytes_cons, Z.add_assoc.
        -- intros d. by rewrite Ho', Ho.
Qed.

(** [gets_s] stores one line of at most [n - 1] bytes and a NUL, changes no other byte,
    and takes the line and nothing more from the input. *)
Lemma gets_s_run buf n s : readable (u_world s) 0 = true -> let l := line_of (Z.to_nat (n - 1)) (input (u_world s) 0) in
  exists s', gets_s buf n s = URet buf s' /\ input (u_world s') 0 = drop (length l) (input (u_world s) 0) /\
    (forall d, output (u_world s') d = output (u_world s) d) /\ forall x, u_mem s' x = store_bytes (u_mem s) buf (l ++ [0]) x.
Proof.
  intros Hr l. destruct (gets_s_loop_run 0 buf (Z.to_nat (n - 1)) s 0 0 Hr) as (s1 & E & Hi & Hm & Ho). fold l in E, Hi, Hm. unfold gets_s.
  rewrite Z.add_0_l in E. rewrite (ubind_run _ _ _ _ _ E). eexists. split; [reflexivity|]. split; [done|]. split; [done|]. intros x. cbn. rewrite Z.add_0_r in Hm. unfold store8.
  destruct (Z.eqb_spec x (buf + Z.of_nat (length l))) as [->|Hne].
  - rewrite store_bytes_in by (rewrite length_app; cbn; lia). rewrite Z.add_simpl_l, Nat2Z.id, app_nth2 by lia. rewrite Nat.sub_diag. done.
  - rewrite Hm. destruct (decide (buf <= x < buf + Z.of_nat (length l))) as [Hx|Hx].
    + rewrite !store_bytes_in by (rewrite ?length_app; cbn; lia). by rewrite app_nth1 by lia.
    + by rewrite !store_bytes_out by (rewrite ?length_app; cbn; lia).
Qed.

(** ** Formatted output *)

(** A state with the output of descriptor 1 extended by [t]. *)
Definition printed (t : list Z) (s s' : ustate) : Prop :=
  u_mem s' = u_mem s /\ (forall d, input (u_world s') d = input (u_world s) d) /\ same_modes (u_world s) (u_world s') /\
  forall d, output (u_world s') d = output (u_world s) d ++ (if d =? 1 then t else []).

Lemma printed_nil s : printed [] s s.
Proof. split; [done|]. split; [done|]. split; [done|]. intros d. destruct (d =? 1); by rewrite app_nil_r. Qed.

Lemma printed_app t1 t2 s s1 s2 : printed t1 s s1 -> printed t2 s1 s2 -> printed (t1 ++ t2) s s2.
Proof.
  intros (H1 & H2 & (H4 & H5 & H6) & H3) (G1 & G2 & (G4 & G5 & G6) & G3). split; [congruence|]. split; [intros d; by rewrite G2|].
  split; [split_and!; [intros d; by rewrite G4 | intros d; by rewrite G5 | congruence]|]. intros d. rewrite G3, H3. destruct (d =? 1); by rewrite ?app_nil_r, ?app_assoc.
Qed.

Lemma printed_writable t s s' : printed t s s' -> writable (u_world s) 1 = true -> writable (u_world s') 1 = true.
Proof. intros (_ & _ & (_ & H & _) & _) Hw. by rewrite H. Qed.

Lemma out_run t s : writable (u_world s) 1 = true -> Z.of_nat (length t) < 2 ^ 31 -> exists s', out stdout t s = URet tt s' /\ printed t s s'.
Proof.
  intros Hw Hl. destruct (syscall_write_run 1 t s Hw Hl) as (w' & E & Hi & _ & Ho & Hmo). eexists. cbn [out]. rewrite (ubind_run _ _ _ _ _ E). split; [reflexivity|].
  split; [done|]. split; [done|]. split; [done|]. intros d. cbn. rewrite Ho. destruct (d =? 1); by rewrite ?app_nil_r.
Qed.

Lemma out_each_run t : forall s, writable (u_world s) 1 = true -> exists s', out_each stdout t s = URet tt s' /\ printed t s s'.
Proof.
  induction t as [|c t IH]; intros s Hw; cbn [out_each]; [eexists; split; [reflexivity | apply printed_nil]|].
  destruct (out_run [c] s Hw ltac:(cbn; lia)) as (s1 & E1 & H1). destruct (IH s1 (printed_writable _ _ _ H1 Hw)) as (s2 & E2 & H2). exists s2. rewrite (ubind_run _ _ _ _ _ E1). split; [done|]. by apply (printed_app [c] t s s1).
Qed.

(** The text [printint] prints for [v]. *)
Definition numeral (base v : Z) (t : list Z) : Prop :=
  parse_int base t = Some v /\ (length t <= 11)%nat /\ (hd 0 t = 48 -> t = [48]).

Lemma printint_run xx base sgn s : writable (u_world s) 1 = true -> base = 10 \/ base = 16 -> - 2 ^ 31 < xx < 2 ^ 31 ->
  exists t s', printint stdout xx base sgn s = URet tt s' /\ printed t s s' /\ numeral base (if sgn then xx else u32 xx) t.
Proof.
  intros Hw Hb Hx. unfold printint. set (neg := sgn && (xx <? 0)). set (x := u32 (if neg then - xx else xx)).
  assert (neg && (xx =? - 2 ^ 31) = false) as -> by (rewrite (proj2 (Z.eqb_neq _ _)) by lia; apply andb_false_r).
  assert (0 <= x < 2 ^ 32) as Hx32 by apply u32_range.
  assert (2 <= base <= 16) as Hb16 by lia. assert (length (digits 32 x base) <= 10)%nat as Hlen.
  { apply digits_length; [lia | | lia]. destruct Hb as [-> | ->]; cbn; lia. }
  pose proof (parse_digits base Hb16 32 x Hx32 ltac:(lia)) as Hparse. pose proof (digits_nonempty base 32 x ltac:(lia)) as Hne.
  rewrite (proj2 (Nat.ltb_ge _ _)) by (rewrite length_app; destruct neg; cbn [length]; lia).
  destruct (out_each_run (rev (digits 32 x base ++ (if neg then [45] else []))) s Hw) as (s' & E & Hp). eexists _, s'. split; [exact E|]. split; [exact Hp|].
  assert (length (rev (digits 32 x base)) <= 10)%nat as Hlr by by rewrite length_rev. destruct neg eqn:Eneg; rewrite rev_app_distr; cbn [rev app].
  - unfold neg in Eneg. apply andb_true_iff in Eneg as [-> Eneg]. apply Z.ltb_lt in Eneg. unfold x in Hparse. rewrite u32_small in Hparse by lia.
    split; [|split; [cbn [length]; lia | done]]. cbn [parse_int]. rewrite Z.eqb_refl. unfold x. rewrite u32_small by lia. rewrite Hparse. cbn. f_equal. lia.
  - assert (x = if sgn then xx else u32 xx) as Exx.
    { unfold x. destruct sgn; [|done]. unfold neg in Eneg. cbn in Eneg. apply Z.ltb_ge in Eneg. apply u32_small. lia. }
    rewrite <- Exx. split; [|split; [lia|]].
    + destruct (rev (digits 32 x base)) as [|c l] eqn:Er; [apply (f_equal (@rev Z)) in Er; by rewrite rev_involutive in Er|]. cbn [parse_int].
      destruct (Z.eqb_spec c 45) as [->|]; [done|done].
    + intros Hh. destruct (decide (x = 0)) as [->|Hnz]; [destruct Hb as [-> | ->]; done|]. exfalso. revert Hh. apply digits_lead; [done | lia].
Qed.

(** Text without conversions. *)
Definition plain (t : list Z) : Prop := Forall (fun c => c <> 0 /\ c <> ch "%") t.

(** [fmt] has the text [t] at index [i]. *)
Definition has_text (fmt : Z -> Z) (i : Z) (t : list Z) : Prop := forall k c, t !! k = Some c -> fmt (i + Z.of_nat k) = c.

Lemma has_text_cons fmt i c t : has_text fmt i (c :: t) -> fmt i = c /\ has_text fmt (i + 1) t.
Proof. intros H. split; [rewrite <- (Z.add_0_r i); by apply (H 0%nat)|]. intros k d Hk. replace (i + 1 + Z.of_nat k) with (i + Z.of_nat (S k)) by lia. by apply H. Qed.

Lemma has_text_app fmt t1 : forall i t2, has_text fmt i (t1 ++ t2) -> has_text fmt i t1 /\ has_text fmt (i + Z.of_nat (length t1)) t2.
Proof.
  intros i t2 H. split; intros k c Hk; [by apply H, lookup_app_l_Some|]. rewrite <- Z.add_assoc, <- Nat2Z.inj_add. apply H. rewrite lookup_app_r by lia. by replace (length t1 + k - length t1)%nat with k by lia.
Qed.

Lemma has_text_lit t : has_text (lit (t ++ [0])) 0 (t ++ [0]).
Proof. intros k c Hk. unfold lit. rewrite Z.add_0_l, Nat2Z.id. by apply nth_lookup_Some. Qed.

Lemma vfprintf_plain fmt ap t : forall n i s, writable (u_world s) 1 = true -> plain t -> has_text fmt i t -> 0 <= i -> i + Z.of_nat (length t) < 2 ^ 32 ->
  exists s', vfprintf_loop (length t + n) stdout fmt i false ap s = vfprintf_loop n stdout fmt (i + Z.of_nat (length t)) false ap s' /\ printed t s s'.
Proof.
  induction t as [|c t IH]; intros n i s Hw Hp Ht Hi Hl; cbn [length] in *; [exists s; rewrite Z.add_0_r; split; [done | apply printed_nil]|].
  apply list.Forall_cons in Hp as [[H0 Hc] Hp]. apply has_text_cons in Ht as [Ec Ht]. cbn [Nat.add vfprintf_loop]. rewrite Ec. rewrite (proj2 (Z.eqb_neq _ _) H0), (proj2 (Z.eqb_neq _ _) Hc). cbn [negb].
  destruct (out_run [c] s Hw ltac:(cbn; lia)) as (s1 & E1 & H1). rewrite (ubind_run _ _ _ _ _ E1), u32_small by lia.
  destruct (IH n (i + 1) s1 (printed_writable _ _ _ H1 Hw) Hp Ht ltac:(lia) ltac:(lia)) as (s2 & E2 & H2). exists s2. rewrite E2. split; [f_equal; lia | by apply (printed_app [c] t s s1)].
Qed.

(** The conversions of an [int]. *)
Inductive int_conversion : Z -> Z -> bool -> Prop :=
  | conv_d : int_conversion (ch "d") 10 true
  | conv_u : int_conversion (ch "u") 10 false
  | conv_x : int_conversion (ch "x") 16 false.

Lemma conversion_run c base sgn c1 c2 v ap s : writable (u_world s) 1 = true -> int_conversion c base sgn -> - 2 ^ 31 < v < 2 ^ 31 ->
  exists t s', conversion stdout c c1 c2 (Vint v :: ap) s = URet (0, ap) s' /\ printed t s s' /\ numeral base (if sgn then v else u32 v) t.
Proof.
  intros Hw Hc Hv. assert (s32 v = v) as Es by (unfold s32, u32; destruct (Z.ltb_spec (v mod 2 ^ 32) (2 ^ 31)); Z.to_euclidean_division_equations; lia).
  destruct (printint_run v base sgn s Hw ltac:(destruct Hc; lia) Hv) as (t & s' & E & Hp & Hn). exists t, s'. split; [|done].
  etransitivity; [|rewrite <- Es in E; exact (ubind_run _ (fun _ => uret (0, ap)) _ _ _ E)]. by destruct Hc.
Qed.

Lemma printf_int_run pre post c base sgn v s : writable (u_world s) 1 = true -> plain pre -> plain post -> int_conversion c base sgn -> - 2 ^ 31 < v < 2 ^ 31 ->
  Z.of_nat (length pre + length post) + 3 < 2 ^ 32 -> (length pre + length post + 2 < fuel)%nat ->
  exists t s', printf (lit (pre ++ ch "%" :: c :: post ++ [0])) [Vint v] s = URet 0 s' /\ printed (pre ++ t ++ post) s s' /\ numeral base (if sgn then v else u32 v) t.
Proof.
  intros Hw Hpre Hpost Hc Hv Hl Hf. unfold printf, vfprintf. set (fmt := lit _).
  assert (has_text fmt 0 (pre ++ ch "%" :: c :: post ++ [0])) as Ht.
  { pose proof (has_text_lit (pre ++ ch "%" :: c :: post)) as H. by rewrite <- app_assoc in H. }
  apply has_text_app in Ht as [Ht1 Ht]. rewrite Z.add_0_l in Ht. apply has_text_cons in Ht as [E1 Ht]. apply has_text_cons in Ht as [E2 Ht]. apply has_text_app in Ht as [Ht2 Ht3]. apply has_text_cons in Ht3 as [E3 _].
  set (i := Z.of_nat (length pre)) in *. destruct (vfprintf_plain fmt [Vint v] pre (fuel - length pre) 0 s Hw Hpre Ht1 ltac:(lia) ltac:(lia)) as (s1 & Er1 & Hp1). rewrite Z.add_0_l in Er1. fold i in Er1.
  replace (length pre + (fuel - length pre))%nat with fuel in Er1 by lia. rewrite Er1. replace (fuel - length pre)%nat with (S (S (length post + S (fuel - length pre - length post - 3)))) by lia.
  cbn [vfprintf_loop]. rewrite E1. change (ch "%" =? 0) with false. rewrite Z.eqb_refl. cbn [negb]. cbv iota.
  rewrite !u32_small by lia. rewrite E2. assert ((c =? 0) = false) as -> by (destruct Hc; reflexivity).
  match goal with |- context [conversion _ _ ?a ?b] => destruct (conversion_run c base sgn a b v [] s1 (printed_writable _ _ _ Hp1 Hw) Hc Hv) as (t & s2 & Ec & Hp2 & Hn) end. rewrite (ubind_run _ _ _ _ _ Ec). cbn [fst snd].
  rewrite Z.add_0_r, u32_small by lia. destruct (vfprintf_plain fmt [] post (S (fuel - length pre - length post - 3)) (i + 1 + 1) s2 (printed_writable _ _ _ Hp2 (printed_writable _ _ _ Hp1 Hw)) Hpost Ht2 ltac:(lia) ltac:(lia)) as (s3 & Er3 & Hp3). rewrite Er3. cbn [vfprintf_loop]. rewrite E3.
  exists t, s3. split; [done|]. split; [|done]. eapply printed_app; [exact Hp1|]. by eapply printed_app.
Qed.

(** C21: gets_s stores the input up to and including the first line end, but at most n -
    1 bytes, and a NUL, within n bytes of the buffer; no other byte changes and what
    follows the line stays in the input. Descriptor 0 is open for reading. *)
Theorem gets_s_line buf n s : readable (u_world s) 0 = true -> let l := line_of (Z.to_nat (n - 1)) (input (u_world s) 0) in
  exists s', gets_s buf n s = URet buf s' /\ input (u_world s') 0 = drop (length l) (input (u_world s) 0) /\
    (forall d, output (u_world s') d = output (u_world s) d) /\ (forall x, u_mem s' x = store_bytes (u_mem s) buf (l ++ [0]) x) /\
    (0 < n -> Z.of_nat (length (l ++ [0])) <= n).
Proof.
  intros Hr l. destruct (gets_s_run buf n s Hr) as (s' & E & Hi & Ho & Hm). exists s'. split_and!; try done. intros Hn. rewrite length_app. cbn. pose proof (line_of_length (Z.to_nat (n - 1)) (input (u_world s) 0)). fold l in H. lia.
Qed.

(** C20: printf of a text with one conversion %d, %u or %x prints the text with a
    numeral in its place that reads back as the number, has no leading zero and at most
    11 characters, and touches neither memory nor input, for every int but the least,
    with descriptor 1 open for writing. *)
Theorem printf_int pre post c base sgn v s : writable (u_world s) 1 = true -> plain pre -> plain post -> int_conversion c base sgn -> - 2 ^ 31 < v < 2 ^ 31 ->
  Z.of_nat (length pre + length post) + 3 < 2 ^ 32 -> (length pre + length post + 2 < fuel)%nat ->
  exists t s', printf (lit (pre ++ ch "%" :: c :: post ++ [0])) [Vint v] s = URet 0 s' /\ printed (pre ++ t ++ post) s s' /\ numeral base (if sgn then v else u32 v) t.
Proof. apply printf_int_run. Qed.
End spec.

(** ** A system with two files *)

Definition two_files (p : list Z) : option (list Z) := if bool_decide (p = [97]) then Some [104; 105] else if bool_decide (p = [98]) then Some [33] else None.

(** The inputs, the outputs and the descriptors open for reading, which can be 0 and 3;
    1 and 2 can be written.  A file opened for reading gets the first of 0 and 3 that is
    free. *)
Definition reads_from (used : Z -> bool) (d : Z) : bool := ((d =? 0) || (d =? 3)) && used d.

#[local] Instance two_files_kernel : Kernel := {
  world := (Z -> list Z) * (Z -> list Z) * (Z -> bool);
  serve r w := let '(ins, outs, used) := w in
    match r with
    | SYS_read fd n =>
        if reads_from used fd then
          let k := Nat.min (Z.to_nat n) (length (ins fd)) in
          Some (Z.of_nat k, take k (ins fd), ((fun d => if d =? fd then drop k (ins d) else ins d), outs, used))
        else Some (2 ^ 64 - 1, [], w)
    | SYS_write fd l =>
        if (fd =? 1) || (fd =? 2) then Some (Z.of_nat (length l), [], (ins, (fun d => if d =? fd then outs d ++ l else outs d), used))
        else Some (2 ^ 64 - 1, [], w)
    | SYS_open p _ =>
        match two_files p with
        | Some l =>
            if used 0 && used 3 then Some (2 ^ 64 - 1, [], w)
            else let fd := if used 0 then 3 else 0 in
                 Some (fd, [], ((fun d => if d =? fd then l else ins d), outs, fun d => (d =? fd) || used d))
        | None => Some (2 ^ 64 - 1, [], w)
        end
    | SYS_close fd =>
        if reads_from used fd then Some (0, [], (ins, outs, fun d => negb (d =? fd) && used d)) else Some (2 ^ 64 - 1, [], w)
    | SYS_exit _ => None
    | _ => Some (0, [], w)
    end
}.

#[local] Instance two_files_streams : Streams two_files_kernel.
Proof.
  refine {| input w := fst (fst w); output w := snd (fst w); files _ := two_files; readable w := reads_from (snd w);
            writable _ d := (d =? 1) || (d =? 2); can_open w := negb (snd w 0 && snd w 3) |}.
  - intros fd n [[ins outs] used] Hn Hfd. cbn [fst snd serve two_files_kernel] in *. rewrite Hfd. eexists _, _. split; [reflexivity|]. cbn [fst snd]. rewrite Z.eqb_refl. split_and!; try done; try lia.
    intros Hne. destruct (ins fd); [done|]. cbn [length]. lia.
  - intros fd l [[ins outs] used] Hfd. cbn [fst snd serve two_files_kernel] in *. rewrite Hfd. eexists. split; [reflexivity|]. done.
  - intros p l [[ins outs] used] Hp Hc. cbn [fst snd serve two_files_kernel] in *. rewrite Hp. apply negb_true_iff in Hc. rewrite Hc. eexists _, _. split; [reflexivity|]. cbn [fst snd]. rewrite Z.eqb_refl.
    unfold reads_from. cbn [orb]. destruct (used 0) eqn:E0; cbn in Hc; cbn; rewrite ?E0, ?Hc; split_and!; try done; lia.
  - intros fd [[ins outs] used] Hr. cbn [fst snd serve two_files_kernel] in *. rewrite Hr. eexists _, _. split; [reflexivity|]. cbn [fst snd]. split; [|done].
    unfold reads_from in Hr. apply andb_true_iff in Hr as [[->%Z.eqb_eq | ->%Z.eqb_eq]%orb_true_iff _]; cbn; [done | by rewrite andb_false_r].
Defined.

#[local] Instance utils_layout : Ulayout := {| at_base := 4096; at_stdin_buf := 5000; at_stdout_buf := 7000 |}.
#[local] Instance fuel20 : Fuel := 20%nat.

(** The paths "a" and "b" and the argument vector; "hello\n" and a further "x" on the
    standard input. *)
Definition ustart : ustate :=
  Mk_ustate (K := two_files_kernel) (store64 (store64 (store_bytes (store_bytes (fun _ => 0) 1000 [97; 0]) 1010 [98; 0]) 1108 1000) 1116 1010)
    ((fun d => if d =? 0 then [104; 101; 108; 108; 111; 10; 120] else []), (fun _ => []), (fun d => d =? 0)) 0 __stdin_FILE __stdout_FILE.

Lemma cat_copies_witness : exists s', cat_main (K := two_files_kernel) 2000 3 1100 ustart = URet 0 s' /\
  forall d, output (u_world s') d = output (u_world ustart) d ++ (if d =? 1 then [104; 105; 33] else []).
Proof.
  apply (cat_copies 2000 1100 [[104; 105]; [33]] ustart); [|discriminate | reflexivity | reflexivity].
  apply (args_cons _ _ _ _ _ 1000 [97]); try reflexivity; [cbv; lia | lia | cbn; lia |].
  apply (args_cons _ _ _ _ _ 1010 [98]); try reflexivity; [cbv; lia | lia | cbn; lia |]. constructor.
Defined.

(** "n = %d.\n" with -2147483647. *)
Lemma printf_int_witness : exists t s', printf (K := two_files_kernel) (lit ([110; 61] ++ ch "%" :: ch "d" :: [46; 10] ++ [0])) [Vint (-2147483647)] ustart = URet 0 s' /\
  printed ([110; 61] ++ t ++ [46; 10]) ustart s' /\ numeral 10 (-2147483647) t.
Proof.
  apply (printf_int [110; 61] [46; 10] (ch "d") 10 true (-2147483647) ustart).
  - reflexivity.
  - repeat constructor; discriminate.
  - repeat constructor; discriminate.
  - constructor.
  - lia.
  - cbn. lia.
  - apply Nat.ltb_lt. reflexivity.
Defined.

(** The whole line and its NUL fit in 7 bytes; the rest stays in the input. *)
Lemma gets_s_line_witness : exists s', gets_s (K := two_files_kernel) 3000 7 ustart = URet 3000 s' /\ input (u_world s') 0 = [120] /\
  (forall x, u_mem s' x = store_bytes (u_mem ustart) 3000 [104; 101; 108; 108; 111; 10; 0] x).
Proof. destruct (gets_s_line 3000 7 ustart) as (s' & E & Hi & _ & Hm & _); [reflexivity|]. exists s'. by split; [|split]. Defined.
