(* ===== verification/Ucxx.v ===== *)
(** * The user-space C++ library ([ulibc++])

    The byte-string functions have the text of the kernel's ([Cstring]).  An output
    stream keeps a [streambuf]; a null buffer is [None]. *)

From S2P Require Import Prelude Cstring User.

#[local] Open Scope user_scope.

(** ** [src/cstring.cpp] *)

Module Str.
Definition memset := Cstring.memset.
Definition memmove := Cstring.memmove.
Definition memcpy := Cstring.memcpy.
Definition strncpy := Cstring.strncpy.
Definition strncmp := Cstring.strncmp.
Definition strlen := Cstring.strlen.
End Str.

(** ** [include/__ios_base.h] *)

Definition goodbit : Z := 0.
Definition badbit : Z := 1.
Definition eofbit : Z := 2.
Definition failbit : Z := 4.
Definition good (state : Z) : bool := state =? goodbit.
Definition fail (state : Z) : bool := negb (Z.land state failbit =? 0).
Definition eof (state : Z) : bool := negb (Z.land state eofbit =? 0).
Definition bad (state : Z) : bool := negb (Z.land state badbit =? 0).

(** ** [include/streambuf] *)

Record streambuf := Mk_streambuf {
  sb_buffer : option Z;
  sb_size : Z;
  sb_pos : Z
}.

Definition set_sb_pos (v : Z) (b : streambuf) : streambuf := Mk_streambuf (sb_buffer b) (sb_size b) v.

(** [Traits::eof()] is [static_cast<char>(-1)]; a char is unsigned here. *)
Definition traits_eof : Z := 255.

Definition set_buffer (buf size : Z) (b : streambuf) : streambuf := Mk_streambuf (Some buf) size 0.

Definition pbump (n : Z) (b : streambuf) : streambuf :=
  if (n <? 0) && (sb_pos b <? - n) then set_sb_pos 0 b
  else if n <? 0 then set_sb_pos (sb_pos b - - n) b
  else set_sb_pos (Z.min (sb_pos b + n) (sb_size b)) b.

Section ostream.
Context {K : Kernel} {F : Fuel}.

Definition sputc (c : Z) (b : streambuf) : U (Z * streambuf) :=
  match sb_buffer b with
  | None => uret (traits_eof, b)
  | Some a =>
      if sb_size b <=? sb_pos b then uret (traits_eof, b)
      else put8 (a + sb_pos b) c ;; uret (c, set_sb_pos (sb_pos b + 1) b)
  end.

(** ** [src/ostream.cpp], [include/ostream] *)

(** [write] of [kernel/scall]: descriptor, address, length. *)
Context (write : Z -> Z -> Z -> U Z).

(** The result of [write] is stored in a [size_t], which is never negative. *)
Definition overflow (c : Z) (b : streambuf) : U (Z * streambuf) :=
  b <- (if negb (c =? traits_eof) then r <- sputc (u8 c) b ;; uret (snd r) else uret b) ;;
  match sb_buffer b with
  | Some a => if 0 <? sb_pos b then write 1 a (sb_pos b) ;; uret (c, pbump (- sb_pos b) b) else uret (c, b)
  | None => uret (c, b)
  end.

(** [put], [write] and [operator<<] of a stream; [None] is a stream without a buffer object. *)
Definition put (c : Z) (b : option streambuf) : U (option streambuf) :=
  match b with Some b => r <- sputc c b ;; uret (Some (snd r)) | None => uret None end.

Fixpoint write_all (n : nat) (s : Z) (b : option streambuf) : U (option streambuf) :=
  match n with
  | O => uret b
  | S n' => c <- load8 s ;; b <- put c b ;; write_all n' (s + 1) b
  end.

Definition insert_str (value : Z) (b : option streambuf) : U (option streambuf) :=
  n <- of_mem (fun m => User.strlen fuel m value) ;; write_all (Z.to_nat n) value b.

(** [stdoutbuf<char> _stdout_buf{}] and [cout]: no buffer is ever set. *)
Definition _stdout_buf : streambuf := Mk_streambuf None 0 0.
Definition cout : option streambuf := Some _stdout_buf.

(** What is inserted into [cout] is dropped: no call is made and no memory changes. *)
Lemma cout_drops value n s : User.strlen fuel (u_mem s) value = Some n -> insert_str value cout s = URet cout s.
Proof.
  intros E. unfold insert_str, of_mem. autorewrite with ustep. rewrite E. autorewrite with ustep.
  generalize (Z.to_nat n). intros k. revert value E. clear. intros value _. revert value. induction k as [|k IH]; intros value; [done|]. cbn [write_all]. unfold load8. autorewrite with ustep. apply IH.
Qed.

(** Flushing writes the buffered characters and the new one, and empties the buffer. *)
Lemma overflow_flushes c a size pos s r s' : 0 <= pos < size -> 0 <= c < 255 ->
  write 1 a (pos + 1) (set_mem (store8 (u_mem s) (a + pos) c) s) = URet r s' ->
  overflow c (Mk_streambuf (Some a) size pos) s = URet (c, Mk_streambuf (Some a) size 0) s'.
Proof.
  intros Hp Hc Ew. unfold overflow, traits_eof. rewrite (proj2 (Z.eqb_neq _ _)) by lia. cbn [negb]. autorewrite with ustep. unfold sputc. cbn [sb_buffer sb_size sb_pos].
  rewrite (proj2 (Z.leb_gt _ _)) by lia. unfold put8. autorewrite with ustep. cbn [fst snd sb_buffer sb_pos set_sb_pos sb_size].
  rewrite (proj2 (Z.ltb_lt _ _)) by lia. assert (u8 c = c) as -> by (unfold u8; apply Z.mod_small; lia). rewrite (ubind_run _ _ _ _ _ Ew). unfold pbump. cbn [sb_pos].
  rewrite (proj2 (Z.ltb_lt (- (pos + 1)) 0)) by lia. rewrite (proj2 (Z.ltb_ge (pos + 1) _)) by lia. cbn [andb]. unfold set_sb_pos. cbn [sb_buffer sb_size sb_pos].
  by replace (pos + 1 - - - (pos + 1)) with 0 by lia.
Qed.
End ostream.
